(* ===== verification/_CoqProject ===== *)
-Q . S2P
Prelude.v
GoStd.v
Json.v
GoLib.v
Model.v
Backend.v
Proto.v
Errors.v
Metadata.v
UserJson.v
Discovery.v
DbConn.v
Gorm.v
Database.v
GormFacts.v
Report.v
Config.v
Store.v
IdBase.v
IdTenant.v
IdGroup.v
IdUser.v
IdSession.v
IdConfig.v
IdHandler.v
IdFacts.v
ErrorFacts.v
ConfigFacts.v
TransactionFacts.v
RefBackend.v
SessionProps.v
LoginProps.v
UserProps.v
UserUpdateProps.v
TransactionProps.v
GroupProps.v
TenantProps.v
AuthProps.v
ServiceProps.v
ConfigProps.v
ErrorProps.v
ListProps.v
NtProto.v
NtConfig.v
NtNotifier.v
NtEvent.v
NtHandler.v
NtJsonFacts.v
NtFacts.v
NtConfigProps.v
NtCleanProps.v
NtDateProps.v
NtRecordProps.v
NtEventsProps.v
NtReceiveProps.v
GwWrapper.v
GwFacts.v
GwProps.v
DbConnProps.v
Broker.v
BkProps.v
BkMachine.v
BkInv.v
BkLive.v
BkSim.v
NtMail.v
NtMailProps.v
LogFiles.v
LogFileProps.v
EtcdClient.v
Sync.v
Watcher.v
WatcherProps.v
EtcdProps.v
Command.v
CommandProps.v
Services.v
ServicesProps.v
TestMode.v
Registerd.v
