(* ===== verification/Prelude.v ===== *)
(** * CDM-Cloud: a verification library

    CDM-Cloud is the account, notification and gateway backend of a cloud
    management product: three go-micro services over CockroachDB, etcd and
    RabbitMQ, with the packages they share.  This library models its Go code
    under src/common and src/services and proves what makes it correct.

    ** The program and how its parts interact

    A client speaks HTTP to the API gateway (services/api-gateway).  Its wrappers
    ask the identity service whether the session of a request is valid and the
    user may call the endpoint, put user, tenant and session into headers, pass the
    request to an RPC handler, and turn errors into answers.  The identity service
    (services/identity) keeps tenants, groups, roles, users, sessions and account
    settings.  Every request runs in one database transaction, answers an error
    with a status, and publishes the outcome as an event.  The notification
    service (services/notification) takes the published events off a queue,
    records and announces them, queues a mail for every user who receives them,
    sends the mails, answers queries and deletes expired events.  Below them are
    the shared packages (common/): the transaction around crdb's retry loop, the
    connection that is kept up, the key-value store over etcd with its leader
    election and locks, the broker with its reconnecting goroutines, error values
    that cross processes as JSON, settings, the logging level that follows them,
    and the command that starts and stops all of it for each main function.

    ** The files

    Shared ground.  [Prelude] (this file): the state and error monad [M], its
    loops, inversion lemmas, the class [Preserves] of operations that keep an
    order on states, and the tactics [keep] and [go].  [GoStd]: machine integers,
    strconv, utf8, strings, base64.  [GoLib]: the calendar of package time,
    float64, and package regexp on the patterns that are used.  [Json]:
    encoding/json.  [Discovery]: net addresses, the service registry and the
    rotation through its nodes.

    The outside.  [Backend]: CockroachDB ([Database]), etcd ([KeyValue]) and the
    platform ([Platform]: clock, random numbers, cryptography, casbin,
    validators) as classes of operations, and what is documented of them as
    classes of laws.  [RefBackend]: an in-memory backend that meets the laws, so
    that they are consistent and the examples of the library run.  A later part of
    the outside has its class in the file that first needs it: [EtcdClient.Etcd],
    [Broker.Amqp], [DbConn.Dialer], [Watcher.Levels], [NtMail] (the mail server),
    [GwWrapper.Upstream] (router, registry, RPC transport), [Sync.Concurrency],
    [Services.Micro], [Services.KeyFiles], [Services.Casbin] and
    [TestMode.Savepoints].

    common/.  [Model]: database/model, every table as a record.  [Gorm]: the ORM
    over the database, with the type [Act] of the operations of the services and
    their [World].  [Database]: Transaction, Execute, GormTransaction of
    database/connection.go with the loop of crdb.ExecuteInTx.  [TestMode]: Test
    and nestedTransaction of the same file.  [DbConn]: options, data sources,
    connect, Close, and the goroutines that keep the connection.  [Errors],
    [Report]: errors/, event/, the status table.  [Metadata]: metadata/.
    [Config]: config/config.go, value.go.  [Store]: store/, the operations.
    [EtcdClient]: the clients of the store, and how endpoints follow the registry.
    [Sync]: sync/.  [Broker]: broker/, call by call.  [BkMachine]: the goroutines
    of one broker connection as a step relation.  [LogFiles]: the writer of log
    lines (logger/) and config/util.go.
    [Watcher]: logger/watcher/.  [Command]: command.go and common.go.
    [Registerd]: cmd/registerd/.

    services/identity.  [Proto]: the messages of identity.proto and their JSON;
    [IdBase]: common.go, errors.go, util.go and boundaries; [IdTenant], [IdGroup],
    [IdUser], [IdSession], [IdConfig]: the files of these names with their filters;
    [IdHandler]: handler.go.  services/notification.  [NtProto]: the messages;
    [NtConfig]: config/; [NtNotifier], [NtMail]: notifier/ with notifier/email/;
    [NtEvent]: event/; [NtHandler]: handler/.  services/api-gateway.
    [GwWrapper]: net/http as far as it is used, handler/ and handler/wrapper/.
    [Services]: the main functions of the three services, and the start and end of
    the identity handler.

    A definition has the name of its Go function where two packages do not clash.
    Files whose name ends in Facts or Inv hold lemmas that several theorems share,
    those in Props, [BkLive] and [BkSim] the theorems, next to the examples they
    are applied in; [UserJson] shows that the user of a request is read back.

    ** How Go is modelled

    A function that may fail is a computation [M W E A]: it yields an error or a
    value, and the state it reached either way, since an error in Go undoes
    nothing.  A nil pointer is the error [EPanic]; [deref] reads a pointer.
    Integers of a width are [Z] with the wrap-around written out ([Int]).  A nil
    error is the absence of an [err]; a nullable column, a wrapper message and a
    pointer are options.  Strings are sequences of bytes.  Maps whose order the
    code does not see are finite maps.  A query takes its rows in the order the
    database chose, unless it is ordered; identifiers, clock readings and random
    numbers come from the platform, one reading per use.

    Requests are steps: [ServiceProps.step] is a request to the identity service,
    with any argument, caller and answer.  A transaction serialises the requests
    it holds, so that a sequence of steps is what any interleaving of committed
    requests amounts to; Login and CheckAuthorization use several transactions
    and are one step each.  A body that is run again by the retry loop repeats
    what it published and mailed: the theorems on [subscribeEvent] and on mails
    say so.  The goroutines of the broker are interleaved: a region under one lock
    is a step, an access without a lock is a step of its own; the invariants are
    those of one Connect (a second Connect leaves a second loop behind), and a
    connection half open counts as gone.  The two goroutines of subscribeEvent run
    in either order.  Of the connection to the database the health check and the
    watcher are a step relation.  The variable a closure of the watcher captures is
    part of its state ([w_log]), so that what an earlier run found is kept as in the
    code.  While a service runs ([Services.service_run]), what its handlers and
    goroutines do is an arbitrary effect on the world; [administrator_for_life]
    takes it to be requests, and puts the start, the requests and the stop
    together.  An exit of the process skips the deferred calls, a panic does not.

    ** Fuel

    [Database.execute_loop] is the retry loop, [retry_fuel] its bound: the theorems
    hold for every bound, a run out of it answers [ERetrying], which no code
    answers, and [execute_loop_terminates] says that there is a sufficient bound
    exactly when the database does not demand retries for ever.
    [Broker.declare_until] is the endless loop that declares the persistent
    queues, [queue_fuel] its bound, again any: [BkProps.still_declaring] says what
    holds when it is reached, and what the endless loop costs is in
    [BkLive.reconnect_recovers] without a bound.  The JSON parser, the printers of
    numbers and the searches of regular expressions are bounded by the length of
    their text, and their round trips show that it is enough.

    ** What is shown

    Sessions and login: a verified session is one that was issued, is not revoked
    or expired and belongs to its caller; a login takes the password; failed logins
    restrict; a session just issued is verified; logout ends it and no other
    ([SessionProps], [LoginProps]).  Authority: the administrator stays over every sequence of
    requests and the life of the process ([ServiceProps], [ServicesProps]), who may
    call an endpoint ([AuthProps]), what the gateway lets through ([GwProps]).
    Data: transactions are all or nothing, a refused request changes nothing,
    updates do what they say ([TransactionProps], [ServiceProps], [UserProps],
    [UserUpdateProps], [GroupProps], [TenantProps], [ListProps], [TestMode]).
    Settings are read back as they were written and stay well typed under every
    sequence of requests ([ConfigProps], [NtConfigProps]).  Events: from report to
    record, announcement, stream, query, mail and deletion ([NtRecordProps],
    [NtEventsProps], [NtReceiveProps], [NtMailProps], [NtCleanProps],
    [NtDateProps]).  Errors: their statuses and texts on the way to the client
    ([ErrorProps], [GwProps]).  Connections: the database, the broker and etcd are
    found, kept, and found again; a subscriber that fails waits longer each time,
    and its failures are counted along the run ([DbConnProps], [BkProps], [BkInv],
    [BkLive], [BkSim], [EtcdProps]).  Start and stop: [CommandProps], [ServicesProps],
    [WatcherProps], [LogFileProps], [Registerd].

    ** Not modelled

    The generated protocol code (the .pb.go and .pb.micro.go files): marshalling
    and client stubs without logic of the program; the messages are modelled from
    the .proto files.  Test helpers.  The rotation of
    log files; and the calls of the logger are left out of the other definitions,
    where they have no effect on the state ([logger.Fatalf], a panic, is in
    [Services]).  Vendored code is a
    parameter, apart from crdb's retry loop and the parts of gorm the results
    depend on.  Tables of time zones, of regular expressions beyond the used
    patterns, letters beyond ASCII in the methods of HTTP and in the conversions
    of case, and the text of times in a zone are parameters or left out.  Of the
    broker: that Disconnect waits for running handlers, and the queue of replies
    nobody reads.  The per-request timeouts of the store only make a request fail
    and are part of the failures of the client.  Weak memory: data races are
    recorded as findings, not given a semantics. *)

From stdpp Require Import base tactics list strings gmap relations.
From Stdlib Require Import ZArith Lia.

Declare Scope go_scope.
Delimit Scope go_scope with go.

(** ** The state and error monad every Go function with an [error] result
    is translated into.  A run yields the error or the value, and always the
    state reached: as in Go, an error does not undo the effects made so
    far. *)
Definition M (W E A : Type) : Type := W -> (E + A) * W.

Definition ret {W E A} (a : A) : M W E A := fun w => (inr a, w).

Definition throw {W E A} (e : E) : M W E A := fun w => (inl e, w).

Definition bind {W E A B} (c : M W E A) (k : A -> M W E B) : M W E B :=
  fun w => match c w with
           | (inr a, w') => k a w'
           | (inl e, w') => (inl e, w')
           end.

(** [attempt c] is Go's [v, err := c]: the error becomes a value. *)
Definition attempt {W E A} (c : M W E A) : M W E (E + A) :=
  fun w => let '(r, w') := c w in (inr r, w').

Definition get {W E} : M W E W := fun w => (inr w, w).

Definition modify {W E} (f : W -> W) : M W E unit := fun w => (inr tt, f w).

Notation "x <- c ;; k" := (bind c (fun x => k))
  (at level 100, c at next level, right associativity) : go_scope.
Notation "'do*' p <- c ;; k" := (bind c (fun x => match x with p => k end))
  (at level 100, p pattern, c at next level, right associativity) : go_scope.
Notation "c ;; k" := (bind c (fun _ => k))
  (at level 100, right associativity) : go_scope.

#[local] Open Scope go_scope.

(** [for _, x := range xs { f(x) }] where the body may return an error. *)
Fixpoint for_each {W E A} (f : A -> M W E unit) (xs : list A) : M W E unit :=
  match xs with
  | [] => ret tt
  | x :: xs => f x ;; for_each f xs
  end.

(** The same loop with its index, from [i]. *)
Fixpoint for_idx {W E A} (f : nat -> A -> M W E unit) (i : nat) (xs : list A)
    : M W E unit :=
  match xs with
  | [] => ret tt
  | x :: xs => f i x ;; for_idx f (S i) xs
  end.

(** The loop that appends one result per element to a fresh slice. *)
Fixpoint map_each {W E A B} (f : A -> M W E B) (xs : list A) : M W E (list B) :=
  match xs with
  | [] => ret []
  | x :: xs => y <- f x ;; ys <- map_each f xs ;; ret (y :: ys)
  end.

(** The loop that threads a local variable. *)
Fixpoint fold_each {W E A B} (f : B -> A -> M W E B) (b : B) (xs : list A)
    : M W E B :=
  match xs with
  | [] => ret b
  | x :: xs => b' <- f b x ;; fold_each f b' xs
  end.

(** [if cond { return err }]. *)
Definition guard_err {W E} (b : bool) (e : E) : M W E unit :=
  if b then throw e else ret tt.

(** ** Inversion of successful and failing runs *)
Section monad_lemmas.
Context {W E : Type}.

Lemma ret_inv {A} (a : A) r (w w' : W) :
  @ret W E A a w = (r, w') -> r = inr a /\ w' = w.
Proof. unfold ret. by intros [= <- <-]. Qed.

Lemma throw_inv {A} (e : E) r (w w' : W) :
  @throw W E A e w = (r, w') -> r = inl e /\ w' = w.
Proof. unfold throw. by intros [= <- <-]. Qed.

Lemma bind_inr {A B} (c : M W E A) (k : A -> M W E B) w b w'' :
  bind c k w = (inr b, w'') <->
  exists a w', c w = (inr a, w') /\ k a w' = (inr b, w'').
Proof.
  unfold bind. split.
  - destruct (c w) as [[e|a] w'] eqn:Hc; [done|]. eauto.
  - intros (a & w' & -> & ?). done.
Qed.

Lemma bind_inl {A B} (c : M W E A) (k : A -> M W E B) w e w'' :
  bind c k w = (inl e, w'') <->
  c w = (inl e, w'') \/
  exists a w', c w = (inr a, w') /\ k a w' = (inl e, w'').
Proof.
  unfold bind. split.
  - destruct (c w) as [[e'|a] w'] eqn:Hc; [|by eauto].
    intros [= -> ->]. by left.
  - intros [->|(a & w' & -> & ?)]; done.
Qed.

Lemma bind_inv {A B} (c : M W E A) (k : A -> M W E B) w r w'' :
  bind c k w = (r, w'') <->
  (exists e, c w = (inl e, w'') /\ r = inl e) \/
  exists a w', c w = (inr a, w') /\ k a w' = (r, w'').
Proof.
  unfold bind. split.
  - destruct (c w) as [[e'|a] w'] eqn:Hc; [|by eauto].
    intros [= <- ->]. left. eauto.
  - intros [(e & -> & ->)|(a & w' & -> & ?)]; done.
Qed.

Lemma bind_run {A B} (c : M W E A) (k : A -> M W E B) w a w' :
  c w = (inr a, w') -> bind c k w = k a w'.
Proof. unfold bind. by intros ->. Qed.

Lemma bind_run_err {A B} (c : M W E A) (k : A -> M W E B) w e w' :
  c w = (inl e, w') -> bind c k w = (inl e, w').
Proof. unfold bind. by intros ->. Qed.

Lemma bind_assoc {A B C} (c : M W E A) (k : A -> M W E B)
    (h : B -> M W E C) w :
  bind (bind c k) h w = bind c (fun a => bind (k a) h) w.
Proof. unfold bind. destruct (c w) as [[e|a] w']; done. Qed.

Lemma attempt_inv {A} (c : M W E A) r (w w' : W) :
  attempt c w = (r, w') <-> exists x, r = inr x /\ c w = (x, w').
Proof.
  unfold attempt. destruct (c w) as [x w1]. split.
  - intros [= <- <-]. eauto.
  - by intros (y & -> & [= -> ->]).
Qed.

Lemma guard_err_inr b (e : E) (w w' : W) u :
  guard_err b e w = (inr u, w') <-> b = false /\ w' = w.
Proof.
  unfold guard_err, throw, ret. destruct b, u; intuition congruence.
Qed.

Lemma guard_err_inl b (e e' : E) (w w' : W) :
  guard_err b e w = (inl e', w') <-> b = true /\ e' = e /\ w' = w.
Proof. unfold guard_err, throw, ret. destruct b; intuition congruence. Qed.

Lemma for_each_app {A} (f : A -> M W E unit) xs ys w :
  for_each f (xs ++ ys) w = (for_each f xs ;; for_each f ys) w.
Proof.
  revert w. induction xs as [|x xs IH]; intros w; [done|].
  cbn. rewrite bind_assoc. unfold bind at 1 2.
  destruct (f x w) as [[e|u] w']; [done|]. apply IH.
Qed.
End monad_lemmas.

(** ** Relations a computation keeps between its first and last state.
    [Preserves R c] is proved once per operation and composed by [keep]. *)
Class Preserves {W E A} (R : relation W) (c : M W E A) : Prop :=
  preserves : forall w r w', c w = (r, w') -> R w w'.

Section preserves.
Context {W E : Type} (R : relation W) `{!PreOrder R}.

#[global] Instance preserves_ret {A} (a : A) :
  Preserves (E:=E) R (ret a).
Proof. intros w r w' [_ ->]%ret_inv. reflexivity. Qed.

#[global] Instance preserves_throw {A} (e : E) :
  Preserves (A:=A) R (throw e).
Proof. intros w r w' [_ ->]%throw_inv. reflexivity. Qed.

#[global] Instance preserves_get : Preserves (E:=E) R get.
Proof. intros w r w' [= _ <-]. reflexivity. Qed.

#[global] Instance preserves_guard b (e : E) : Preserves R (guard_err b e).
Proof. unfold guard_err. destruct b; apply _. Qed.

#[global] Instance preserves_bind {A B} (c : M W E A) (k : A -> M W E B) :
  Preserves R c -> (forall a, Preserves R (k a)) -> Preserves R (bind c k).
Proof.
  intros Hc Hk w r w'' [(e & H & _)|(a & w' & H1 & H2)]%bind_inv.
  - by eapply Hc.
  - etrans; [by eapply Hc|by eapply Hk].
Qed.

#[global] Instance preserves_attempt {A} (c : M W E A) :
  Preserves R c -> Preserves R (attempt c).
Proof. intros Hc w r w' (x & _ & H)%attempt_inv. by eapply Hc. Qed.

#[global] Instance preserves_for_each {A} (f : A -> M W E unit) xs :
  (forall a, Preserves R (f a)) -> Preserves R (for_each f xs).
Proof. intros Hf. induction xs; cbn; apply _. Qed.

#[global] Instance preserves_for_idx {A} (f : nat -> A -> M W E unit) i xs :
  (forall i a, Preserves R (f i a)) -> Preserves R (for_idx f i xs).
Proof. intros Hf. revert i. induction xs; intros i; cbn; apply _. Qed.

#[global] Instance preserves_map_each {A B} (f : A -> M W E B) xs :
  (forall a, Preserves R (f a)) -> Preserves R (map_each f xs).
Proof. intros Hf. induction xs; cbn; apply _. Qed.

#[global] Instance preserves_fold_each {A B} (f : B -> A -> M W E B) b xs :
  (forall b a, Preserves R (f b a)) -> Preserves R (fold_each f b xs).
Proof. intros Hf. revert b. induction xs; intros b; cbn; apply _. Qed.
End preserves.

Lemma preserves_mono {W E A} (R R' : relation W) (c : M W E A) :
  (forall w w', R w w' -> R' w w') -> Preserves R c -> Preserves R' c.
Proof. intros HR Hc w r w' H. by eapply HR, Hc. Qed.

(** [keep] proves a [Preserves] goal by following the program. *)
Ltac keep_step :=
  match goal with
  | |- Preserves _ (bind _ _) => apply preserves_bind; [apply _| |]
  | |- Preserves _ (match ?x with _ => _ end) => destruct x
  | |- forall _, _ => intros ?
  | |- Preserves _ _ => apply _
  end.
Ltac keep := repeat (keep_step; cbn beta iota).

(** [go H] unfolds a run that returned a value: every bind becomes the run of
    its parts, every guard the condition that let it pass. *)
Ltac go_step H :=
  lazymatch type of H with
  | bind _ _ _ = (inr _, _) =>
      let x := fresh "x" in let w := fresh "w" in let H1 := fresh "Hr" in
      apply bind_inr in H; destruct H as (x & w & H1 & H); go_step H1
  | ret _ _ = (_, _) =>
      apply ret_inv in H;
      let H1 := fresh "Hv" in let H2 := fresh "Hw" in destruct H as [H1 H2];
      first [injection H1 as ?H1 | idtac]; try subst
  | throw _ _ = (inr _, _) =>
      apply throw_inv in H; destruct H as [H _]; discriminate H
  | guard_err _ _ _ = (inr _, _) =>
      apply guard_err_inr in H;
      let H2 := fresh "Hw" in destruct H as [H H2]; try subst
  | attempt _ _ = (_, _) =>
      apply attempt_inv in H;
      let y := fresh "y" in let H1 := fresh "Hy" in
      destruct H as (y & H1 & H); injection H1 as ?H1; try subst
  | _ => idtac
  end.
Ltac go H := repeat (progress (go_step H; cbn beta iota in * |-)).

(** Induction on a list three elements at a time. *)
Lemma list_ind3 {A} (P : list A -> Prop) :
  P [] -> (forall a, P [a]) -> (forall a b, P [a; b]) ->
  (forall a b c l, P l -> P (a :: b :: c :: l)) -> forall l, P l.
Proof.
  intros H0 H1 H2 H3.
  fix IH 1. intros [|a [|b [|c l]]]; [done|done|done|].
  apply H3, IH.
Qed.

(** What every step of a machine keeps holds in each state it reaches. *)
Lemma rtc_invariant {A} (P : A -> Prop) (step : relation A) x y :
  P x -> (forall s s', P s -> step s s' -> P s') -> rtc step x y -> P y.
Proof. intros Hx Hstep Hr. revert Hx. induction Hr; eauto. Qed.
