(* ===== verification/GoStd.v ===== *)
(** * The parts of Go's language and standard library the services use

    Machine integers are [Z] with the wrap-around written out; Go strings and
    byte slices are Rocq [string]s (sequences of bytes).  The file covers the
    [strconv] parsers and printers, [utf8.RuneCountInString], the [strings]
    functions and [base64.URLEncoding]. *)

From stdpp Require Import base tactics list strings.
From Stdlib Require Import ZArith Lia Ascii String.
From S2P Require Import Prelude.
#[local] Open Scope Z_scope.

(** ** Integers *)
Module Int.
Definition two64 : Z := 18446744073709551616.
Definition two63 : Z := 9223372036854775808.
Definition two32 : Z := 4294967296.

(** Conversion of a mathematical integer to [uint64], [int64], [uint32]. *)
Definition u64 (z : Z) : Z := z mod two64.
Definition i64 (z : Z) : Z := (z + two63) mod two64 - two63.
Definition u32 (z : Z) : Z := z mod two32.

Definition is_u64 (z : Z) : bool := (0 <=? z) && (z <? two64).
Definition is_i64 (z : Z) : bool := (- two63 <=? z) && (z <? two63).

Lemma is_u64_spec z : is_u64 z = true <-> 0 <= z < two64.
Proof. unfold is_u64. rewrite andb_true_iff, Z.leb_le, Z.ltb_lt. lia. Qed.

Lemma is_i64_spec z : is_i64 z = true <-> - two63 <= z < two63.
Proof. unfold is_i64. rewrite andb_true_iff, Z.leb_le, Z.ltb_lt. lia. Qed.

(** [time.Duration(n) * unit] in nanoseconds. *)
Definition duration (n unit : Z) : Z := i64 (i64 n * unit).
Definition Second : Z := 1000000000.
Definition Minute : Z := 60000000000.
Definition Hour : Z := 3600000000000.

Lemma u64_id z : 0 <= z < two64 -> u64 z = z.
Proof. intros. unfold u64. by apply Z.mod_small. Qed.

Lemma i64_id z : - two63 <= z < two63 -> i64 z = z.
Proof.
  intros. unfold i64. rewrite Z.mod_small; [lia|]. unfold two63, two64 in *. lia.
Qed.

Lemma u64_range z : 0 <= u64 z < two64.
Proof. apply Z.mod_pos_bound. done. Qed.

Lemma i64_range z : - two63 <= i64 z < two63.
Proof.
  unfold i64. pose proof (Z.mod_pos_bound (z + two63) two64) as H.
  unfold two63, two64 in *. lia.
Qed.
End Int.

(** ** Bytes of a string *)
Module Bytes.
Definition byte_of (a : ascii) : Z := Z.of_N (N_of_ascii a).
Definition of_byte (z : Z) : ascii := ascii_of_N (Z.to_N z).

Fixpoint to_bytes (s : string) : list Z :=
  match s with
  | EmptyString => []
  | String a s => byte_of a :: to_bytes s
  end.

Fixpoint of_bytes (l : list Z) : string :=
  match l with
  | [] => EmptyString
  | b :: l => String (of_byte b) (of_bytes l)
  end.

Definition is_byte (z : Z) : Prop := 0 <= z < 256.

Lemma byte_of_range a : is_byte (byte_of a).
Proof.
  unfold is_byte, byte_of. pose proof (N_ascii_bounded a). lia.
Qed.

Lemma of_byte_of a : of_byte (byte_of a) = a.
Proof. unfold of_byte, byte_of. rewrite N2Z.id. apply ascii_N_embedding. Qed.

Lemma byte_of_of b : is_byte b -> byte_of (of_byte b) = b.
Proof.
  unfold is_byte, byte_of, of_byte. intros H.
  rewrite N_ascii_embedding; lia.
Qed.

Lemma of_to_bytes s : of_bytes (to_bytes s) = s.
Proof. induction s; cbn; [done|]. by rewrite of_byte_of, IHs. Qed.

Lemma to_of_bytes l : Forall is_byte l -> to_bytes (of_bytes l) = l.
Proof. induction 1; cbn; [done|]. by rewrite byte_of_of, IHForall. Qed.

Lemma to_bytes_range s : Forall is_byte (to_bytes s).
Proof. induction s; cbn; constructor; auto using byte_of_range. Qed.

Lemma to_bytes_app s t : to_bytes (String.append s t) = to_bytes s ++ to_bytes t.
Proof. induction s as [|a s IH]; [done|]. 
  change (byte_of a :: to_bytes (String.append s t)
          = byte_of a :: to_bytes s ++ to_bytes t).
  by rewrite IH.
Qed.

Lemma length_to_bytes s : List.length (to_bytes s) = String.length s.
Proof. induction s; cbn; auto. Qed.

Lemma to_bytes_inj s t : to_bytes s = to_bytes t -> s = t.
Proof. intros H. by rewrite <- (of_to_bytes s), H, of_to_bytes. Qed.
End Bytes.
Import Bytes.

(** [len(s)] *)
Definition len (s : string) : Z := Z.of_nat (String.length s).

(** [s == ""] *)
Definition is_empty (s : string) : bool :=
  match s with EmptyString => true | _ => false end.

Lemma is_empty_true s : is_empty s = true <-> s = EmptyString.
Proof. destruct s; cbn; split; done. Qed.

Lemma is_empty_len s : is_empty s = (len s =? 0).
Proof. by destruct s. Qed.

(** ** strconv *)
Module Strconv.
Inductive num_error := ErrSyntax | ErrRange.

Definition digit_of (b : Z) : option Z :=
  if (48 <=? b) && (b <=? 57) then Some (b - 48) else None.

(** The digit loop of [ParseUint]: the first bad character is a syntax
    error, the first overflow a range error. *)
Fixpoint parse_digits (l : list Z) (acc : Z) : num_error + Z :=
  match l with
  | [] => inr acc
  | b :: l =>
      match digit_of b with
      | None => inl ErrSyntax
      | Some d =>
          if acc * 10 + d <? Int.two64 then parse_digits l (acc * 10 + d)
          else inl ErrRange
      end
  end.

(** [strconv.ParseUint(s, 10, 64)] *)
Definition ParseUint (s : string) : num_error + Z :=
  match to_bytes s with
  | [] => inl ErrSyntax
  | l => parse_digits l 0
  end.

(** [strconv.ParseInt(s, 10, 64)] and, on a 64-bit platform,
    [strconv.Atoi]. *)
Definition ParseInt (s : string) : num_error + Z :=
  match to_bytes s with
  | [] => inl ErrSyntax
  | b :: l =>
      let neg := (b =? 45)%Z in
      let rest := if neg || (b =? 43)%Z then l else b :: l in
      match rest with
      | [] => inl ErrSyntax
      | _ =>
          match parse_digits rest 0 with
          | inl e => inl e
          | inr u =>
              if neg then if u <=? Int.two63 then inr (- u) else inl ErrRange
              else if u <? Int.two63 then inr u else inl ErrRange
          end
      end
  end.

(** [strconv.ParseBool] *)
Definition ParseBool (s : string) : num_error + bool :=
  if bool_decide (s ∈ ["1"; "t"; "T"; "true"; "TRUE"; "True"]%string)
  then inr true
  else if bool_decide (s ∈ ["0"; "f"; "F"; "false"; "FALSE"; "False"]%string)
  then inr false
  else inl ErrSyntax.

(** [strconv.FormatBool] *)
Definition FormatBool (b : bool) : string :=
  if b then "true" else "false".

(** Decimal digits of a non-negative number, least significant consumed
    first; [fuel] bounds their number. *)
Fixpoint format_digits (fuel : nat) (n : Z) (acc : list Z) : list Z :=
  match fuel with
  | O => acc
  | S fuel =>
      let acc := (48 + n mod 10) :: acc in
      if n <? 10 then acc else format_digits fuel (n / 10) acc
  end.

(** [strconv.FormatUint(n, 10)]: 20 digits are enough for [uint64]. *)
Definition FormatUint (n : Z) : string := of_bytes (format_digits 20 n []).

(** [strconv.FormatInt(n, 10)], [strconv.Itoa(n)] *)
Definition FormatInt (n : Z) : string :=
  if n <? 0 then String (of_byte 45) (FormatUint (- n)) else FormatUint n.

Lemma FormatBool_ParseBool b : ParseBool (FormatBool b) = inr b.
Proof. by destruct b. Qed.

Lemma format_digits_acc fuel n acc :
  format_digits fuel n acc = format_digits fuel n [] ++ acc.
Proof.
  revert n acc. induction fuel as [|fuel IH]; intros n acc; cbn; [done|].
  destruct (n <? 10); [done|].
  rewrite IH, (IH _ [_]). by rewrite <- app_assoc.
Qed.

Lemma parse_digits_app l m acc :
  parse_digits (l ++ m) acc =
  match parse_digits l acc with inl e => inl e | inr a => parse_digits m a end.
Proof.
  revert acc. induction l as [|b l IH]; intros acc; cbn; [done|].
  destruct (digit_of b); [|done]. by destruct (_ <? _).
Qed.

Lemma digit_of_digit d : 0 <= d < 10 -> digit_of (48 + d) = Some d.
Proof.
  intros H. unfold digit_of.
  rewrite (proj2 (Z.leb_le _ _)), (proj2 (Z.leb_le _ _)) by lia. cbn.
  f_equal. lia.
Qed.

Lemma parse_format_digits fuel n :
  0 <= n < Int.two64 -> n < 10 ^ Z.of_nat fuel -> (0 < fuel)%nat ->
  parse_digits (format_digits fuel n []) 0 = inr n.
Proof.
  revert n. induction fuel as [|fuel IH]; intros n Hn Hf Hpos; [lia|].
  cbn [format_digits]. pose proof (Z.mod_pos_bound n 10) as Hm.
  destruct (Z.ltb_spec n 10) as [Hs|Hs].
  - cbn. rewrite digit_of_digit, Z.mod_small by lia.
    rewrite (proj2 (Z.ltb_lt _ _)) by (unfold Int.two64; lia). by f_equal.
  - rewrite format_digits_acc, parse_digits_app.
    assert (0 <= n / 10 < Int.two64) as Hd.
    { split; [apply Z.div_pos; lia|]. apply Z.div_lt_upper_bound; lia. }
    destruct fuel as [|fuel]; [cbn in Hf; lia|].
    rewrite IH; [|done| |lia].
    + cbn. rewrite digit_of_digit by lia.
      replace (n / 10 * 10 + n mod 10) with n
        by (rewrite Z.mul_comm; apply Z.div_mod; lia).
      by rewrite (proj2 (Z.ltb_lt _ _)) by lia.
    + apply Z.div_lt_upper_bound; [lia|].
      rewrite Nat2Z.inj_succ, Z.pow_succ_r in Hf by lia. lia.
Qed.

Lemma format_digits_bytes fuel n :
  0 <= n -> Forall is_byte (format_digits fuel n []).
Proof.
  revert n. induction fuel as [|fuel IH]; intros n Hn; cbn; [constructor|].
  pose proof (Z.mod_pos_bound n 10).
  destruct (_ <? _); [repeat constructor; unfold is_byte; lia|].
  rewrite format_digits_acc. apply Forall_app. split.
  - apply IH. apply Z.div_pos; lia.
  - repeat constructor; unfold is_byte; lia.
Qed.

Lemma format_digits_nonnil fuel n : format_digits (S fuel) n [] <> [].
Proof.
  cbn. destruct (_ <? _); [done|]. rewrite format_digits_acc.
  intros [_ ?]%app_eq_nil. done.
Qed.

Lemma FormatUint_bytes n :
  0 <= n -> to_bytes (FormatUint n) = format_digits 20 n [].
Proof. intros. apply to_of_bytes. by apply format_digits_bytes. Qed.

(** Every [uint64] is printed so that it parses back. *)
Lemma ParseUint_FormatUint n :
  0 <= n < Int.two64 -> ParseUint (FormatUint n) = inr n.
Proof.
  intros H. unfold ParseUint. rewrite FormatUint_bytes by lia.
  destruct (format_digits 20 n []) eqn:E.
  { by destruct (format_digits_nonnil 19 n). }
  rewrite <- E. apply parse_format_digits; [done| |lia].
  change (10 ^ Z.of_nat 20) with 100000000000000000000.
  unfold Int.two64 in H. lia.
Qed.

Lemma FormatUint_inj n m :
  0 <= n < Int.two64 -> 0 <= m < Int.two64 ->
  FormatUint n = FormatUint m -> n = m.
Proof.
  intros Hn Hm H. apply (f_equal ParseUint) in H.
  rewrite !ParseUint_FormatUint in H by done. congruence.
Qed.

Lemma parse_digits_range l acc n :
  0 <= acc < Int.two64 -> parse_digits l acc = inr n -> 0 <= n < Int.two64.
Proof.
  revert acc. induction l as [|b l IH]; intros acc Ha; cbn.
  - by intros [= <-].
  - unfold digit_of. destruct (_ && _) eqn:Hd; [|done].
    apply andb_true_iff in Hd as [?%Z.leb_le ?%Z.leb_le].
    destruct (Z.ltb_spec (acc * 10 + (b - 48)) Int.two64); [|done].
    apply IH. lia.
Qed.

Lemma ParseUint_range s n : ParseUint s = inr n -> 0 <= n < Int.two64.
Proof.
  unfold ParseUint. destruct (to_bytes s); [done|].
  apply parse_digits_range. done.
Qed.

Lemma ParseInt_range s n :
  ParseInt s = inr n -> - Int.two63 <= n < Int.two63.
Proof.
  unfold ParseInt. destruct (to_bytes s) as [|b l]; [done|].
  destruct (if _ || _ then _ else _) as [|b' l']; [done|].
  destruct (parse_digits _ _) as [|u] eqn:E; [done|].
  apply parse_digits_range in E; [|done].
  destruct (b =? 45).
  - destruct (Z.leb_spec u Int.two63); [|done]. intros [= <-].
    unfold Int.two63 in *. lia.
  - destruct (Z.ltb_spec u Int.two63); [|done]. intros [= <-].
    unfold Int.two63 in *. lia.
Qed.

Lemma format_digits_head fuel n b l :
  0 <= n -> format_digits fuel n [] = b :: l -> 48 <= b <= 57.
Proof.
  revert n b l. induction fuel as [|fuel IH]; intros n b l Hn; cbn; [done|].
  pose proof (Z.mod_pos_bound n 10).
  destruct (_ <? _); [intros [= <- <-]; lia|].
  rewrite format_digits_acc.
  destruct (format_digits fuel (n / 10) []) as [|b' l'] eqn:E; cbn.
  - intros [= <- <-]. lia.
  - intros [= <- _]. eapply IH; [|done]. apply Z.div_pos; lia.
Qed.

(** The digits of a small non-negative number also parse as an [int64]. *)
Lemma ParseInt_FormatUint n :
  0 <= n < Int.two63 -> ParseInt (FormatUint n) = inr n.
Proof.
  intros H. unfold ParseInt. rewrite FormatUint_bytes by lia.
  destruct (format_digits 20 n []) as [|b l] eqn:E.
  { by destruct (format_digits_nonnil 19 n). }
  pose proof (format_digits_head 20 n b l ltac:(lia) E) as Hb.
  destruct (Z.eqb_spec b 45); [lia|]. destruct (Z.eqb_spec b 43); [lia|].
  cbn [orb]. rewrite <- E, parse_format_digits.
  - by rewrite (proj2 (Z.ltb_lt _ _)) by lia.
  - unfold Int.two63, Int.two64 in *. lia.
  - change (10 ^ Z.of_nat 20) with 100000000000000000000.
    unfold Int.two63 in H. lia.
  - lia.
Qed.

Lemma ParseInt_FormatNeg n :
  - Int.two63 <= n < 0 -> ParseInt (FormatInt n) = inr n.
Proof.
  intros H. unfold FormatInt. rewrite (proj2 (Z.ltb_lt n 0)) by lia.
  unfold ParseInt.
  change (to_bytes (String (of_byte 45) (FormatUint (- n))))
    with (45 :: to_bytes (FormatUint (- n))).
  rewrite FormatUint_bytes by lia.
  change (45 =? 45) with true. cbn [orb].
  destruct (format_digits 20 (- n) []) as [|b l] eqn:E.
  { by destruct (format_digits_nonnil 19 (- n)). }
  rewrite <- E, parse_format_digits.
  - rewrite (proj2 (Z.leb_le _ _)) by lia. f_equal. lia.
  - unfold Int.two63, Int.two64 in *. lia.
  - change (10 ^ Z.of_nat 20) with 100000000000000000000.
    unfold Int.two63 in H. lia.
  - lia.
Qed.
End Strconv.

(** ** unicode/utf8 *)
Module Utf8.
(** The size of the encoding that starts with a byte, and the range its
    second byte must be in ([first] and [acceptRanges] of the package);
    [None] for a byte that starts no encoding. *)
Definition first_byte (c : Z) : option (nat * Z * Z) :=
  if c <? 0xC2 then None
  else if c <=? 0xDF then Some (2%nat, 0x80, 0xBF)
  else if c =? 0xE0 then Some (3%nat, 0xA0, 0xBF)
  else if c =? 0xED then Some (3%nat, 0x80, 0x9F)
  else if c <=? 0xEF then Some (3%nat, 0x80, 0xBF)
  else if c =? 0xF0 then Some (4%nat, 0x90, 0xBF)
  else if c <=? 0xF3 then Some (4%nat, 0x80, 0xBF)
  else if c =? 0xF4 then Some (4%nat, 0x80, 0x8F)
  else None.

Definition in_range (lo hi c : Z) : bool := (lo <=? c) && (c <=? hi).
Definition cont (c : Z) : bool := in_range 0x80 0xBF c.

(** Bytes the rune at the head takes; an invalid byte is a rune of width
    one. *)
Definition rune_size (l : list Z) : nat :=
  match l with
  | [] => 0
  | c :: l =>
      if c <? 0x80 then 1
      else match first_byte c with
           | None => 1
           | Some (n, lo, hi) =>
               match n, l with
               | 2%nat, c1 :: _ => if in_range lo hi c1 then 2 else 1
               | 3%nat, c1 :: c2 :: _ =>
                   if in_range lo hi c1 && cont c2 then 3 else 1
               | 4%nat, c1 :: c2 :: c3 :: _ =>
                   if in_range lo hi c1 && cont c2 && cont c3 then 4 else 1
               | _, _ => 1
               end
           end
  end.

(** [skip] bytes still belong to the rune already counted. *)
Fixpoint count_runes (skip : nat) (l : list Z) : Z :=
  match l with
  | [] => 0
  | c :: l' =>
      match skip with
      | S k => count_runes k l'
      | O => 1 + count_runes (rune_size l - 1) l'
      end
  end.

(** [utf8.RuneCountInString(s)] *)
Definition RuneCountInString (s : string) : Z := count_runes 0 (to_bytes s).

Lemma count_runes_bounds k l :
  0 <= count_runes k l <= Z.of_nat (List.length l).
Proof.
  revert k. induction l as [|c l IH]; intros k; [cbn; lia|].
  cbn [count_runes List.length]. destruct k as [|k].
  - specialize (IH (rune_size (c :: l) - 1)%nat). lia.
  - specialize (IH k). lia.
Qed.

Lemma RuneCount_bounds s : 0 <= RuneCountInString s <= len s.
Proof.
  unfold RuneCountInString, len. rewrite <- length_to_bytes.
  apply count_runes_bounds.
Qed.

(** On ASCII the number of runes is the number of bytes. *)
Lemma RuneCount_ascii s :
  Forall (fun c => c < 0x80) (to_bytes s) -> RuneCountInString s = len s.
Proof.
  unfold RuneCountInString, len. rewrite <- length_to_bytes.
  induction 1 as [|c l Hc _ IH]; [done|].
  cbn [count_runes]. assert (rune_size (c :: l) = 1%nat) as ->.
  { cbn. by rewrite (proj2 (Z.ltb_lt _ _)). }
  cbn [Nat.sub List.length]. rewrite IH. lia.
Qed.
End Utf8.

(** ** strings *)
Module Strings.
(** [strings.HasPrefix(s, p)] on bytes. *)
Fixpoint HasPrefix (s p : string) : bool :=
  match p, s with
  | EmptyString, _ => true
  | String b p, String a s => Ascii.eqb a b && HasPrefix s p
  | String _ _, EmptyString => false
  end.

Fixpoint drop (n : nat) (s : string) : string :=
  match n, s with
  | S n, String _ s => drop n s
  | _, _ => s
  end.

(** [strings.TrimPrefix(s, p)] *)
Definition TrimPrefix (s p : string) : string :=
  if HasPrefix s p then drop (String.length p) s else s.

(** [strings.Split(s, sep)] for a one-byte separator: always at least one
    field. *)
Fixpoint Split (s : string) (sep : ascii) : list string :=
  match s with
  | EmptyString => [EmptyString]
  | String a s =>
      if Ascii.eqb a sep then EmptyString :: Split s sep
      else match Split s sep with
           | [] => [String a EmptyString]
           | f :: fs => String a f :: fs
           end
  end.

Definition upper (a : ascii) : ascii :=
  let n := N_of_ascii a in
  if ((97 <=? n) && (n <=? 122))%N then ascii_of_N (n - 32) else a.

(** [strings.ToUpper] of an ASCII text; the texts it is used on are ASCII. *)
Fixpoint ToUpper (s : string) : string :=
  match s with
  | EmptyString => EmptyString
  | String a s => String (upper a) (ToUpper s)
  end.

Fixpoint contains (sep : ascii) (s : string) : bool :=
  match s with
  | EmptyString => false
  | String a s => Ascii.eqb a sep || contains sep s
  end.

(** [strings.ReplaceAll(s, old, new)] for a non-empty [old]; [skip] bytes
    of the last match are still to be passed over. *)
Fixpoint replace_from (skip : nat) (s old new : string) : string :=
  match s with
  | EmptyString => EmptyString
  | String a s' =>
      match skip with
      | S k => replace_from k s' old new
      | O =>
          if HasPrefix s old
          then String.append new (replace_from (String.length old - 1) s' old new)
          else String a (replace_from 0 s' old new)
      end
  end.
Definition ReplaceAll (s old new : string) : string := replace_from 0 s old new.

Example ReplaceAll_ex : ReplaceAll "a--b-c--" "--" "+" = "a+b-c+"%string.
Proof. done. Qed.

Lemma HasPrefix_append p s : HasPrefix (String.append p s) p = true.
Proof.
  induction p as [|a p IH]; [by destruct s|].
  change (Ascii.eqb a a && HasPrefix (String.append p s) p = true).
  by rewrite Ascii.eqb_refl, IH.
Qed.

Lemma drop_append p s : drop (String.length p) (String.append p s) = s.
Proof. induction p as [|a p IH]; [by destruct s|]. apply IH. Qed.

Lemma TrimPrefix_append p s : TrimPrefix (String.append p s) p = s.
Proof. unfold TrimPrefix. by rewrite HasPrefix_append, drop_append. Qed.

Lemma Split_none sep s : contains sep s = false -> Split s sep = [s].
Proof.
  induction s as [|a s IH]; cbn; [done|].
  intros [-> H]%orb_false_iff. by rewrite IH.
Qed.

Lemma append_String a s t :
  String.append (String a s) t = String a (String.append s t).
Proof. done. Qed.

Lemma contains_append sep s t :
  contains sep (String.append s t) = contains sep s || contains sep t.
Proof.
  induction s as [|a s IH]; [done|]. rewrite append_String. cbn. by rewrite IH, orb_assoc.
Qed.

Lemma Split_append sep s t :
  contains sep s = false ->
  Split (String.append s (String sep t)) sep = s :: Split t sep.
Proof.
  intros Hs. induction s as [|a s IH].
  - change (String.append EmptyString (String sep t)) with (String sep t).
    cbn. by rewrite Ascii.eqb_refl.
  - cbn in Hs. apply orb_false_iff in Hs as [Ha Hs].
    rewrite append_String. cbn. by rewrite Ha, IH.
Qed.

Lemma Split_two sep s t :
  contains sep s = false -> contains sep t = false ->
  Split (String.append s (String sep t)) sep = [s; t].
Proof. intros Hs Ht. by rewrite Split_append, Split_none. Qed.

(** Splitting undoes joining. *)
Lemma Split_concat sep l :
  l <> [] -> Forall (fun s => contains sep s = false) l ->
  Split (String.concat (String sep EmptyString) l) sep = l.
Proof.
  intros Hl Hs. induction Hs as [|s l Hs Hrest IH]; [done|].
  destruct l as [|s' l]; [by apply Split_none|].
  change (Split (String.append s (String sep (String.concat (String sep EmptyString) (s' :: l))))
    sep = s :: s' :: l).
  by rewrite Split_append, IH.
Qed.
End Strings.

(** ** encoding/base64, [base64.URLEncoding] *)
Module Base64.
Definition alphabet : string :=
  "ABCDEFGHIJKLMNOPQRSTUVWXYZabcdefghijklmnopqrstuvwxyz0123456789-_".

Definition char64 (x : Z) : ascii :=
  match String.get (Z.to_nat x) alphabet with
  | Some a => a
  | None => zero
  end.

Fixpoint index_of (a : ascii) (s : string) : option Z :=
  match s with
  | EmptyString => None
  | String b s =>
      if Ascii.eqb a b then Some 0
      else match index_of a s with Some n => Some (n + 1) | None => None end
  end.

Definition val64 (a : ascii) : option Z := index_of a alphabet.

Definition pad : ascii := "="%char.

Fixpoint encode (l : list Z) : string :=
  match l with
  | [] => EmptyString
  | [a] =>
      String (char64 (a / 4))
        (String (char64 ((a mod 4) * 16)) (String pad (String pad "")))
  | [a; b] =>
      String (char64 (a / 4))
        (String (char64 ((a mod 4) * 16 + b / 16))
           (String (char64 ((b mod 16) * 4)) (String pad "")))
  | a :: b :: c :: l =>
      String (char64 (a / 4))
        (String (char64 ((a mod 4) * 16 + b / 16))
           (String (char64 ((b mod 16) * 4 + c / 64))
              (String (char64 (c mod 64)) (encode l))))
  end.

Definition EncodeToString (s : string) : string := encode (to_bytes s).

(** The decoder skips line breaks wherever they are. *)
Definition is_newline (a : ascii) : bool :=
  Ascii.eqb a "010"%char || Ascii.eqb a "013"%char.

Fixpoint strip (s : string) : string :=
  match s with
  | EmptyString => EmptyString
  | String a s => if is_newline a then strip s else String a (strip s)
  end.

Fixpoint decode (s : string) : option (list Z) :=
  match s with
  | EmptyString => Some []
  | String a (String b (String c (String d s))) =>
      match val64 a, val64 b with
      | Some x, Some y =>
          if Ascii.eqb c pad then
            if Ascii.eqb d pad && is_empty s
            then Some [x * 4 + y / 16] else None
          else match val64 c with
               | None => None
               | Some z =>
                   if Ascii.eqb d pad then
                     if is_empty s
                     then Some [x * 4 + y / 16; (y mod 16) * 16 + z / 4]
                     else None
                   else match val64 d, decode s with
                        | Some u, Some l =>
                            Some (x * 4 + y / 16 :: (y mod 16) * 16 + z / 4
                                    :: (z mod 4) * 64 + u :: l)
                        | _, _ => None
                        end
               end
      | _, _ => None
      end
  | _ => None
  end.

(** [base64.URLEncoding.DecodeString(s)]; [None] is its error. *)
Definition DecodeString (s : string) : option string :=
  match decode (strip s) with
  | Some l => Some (of_bytes l)
  | None => None
  end.

Definition char_ok (a : ascii) : bool :=
  negb (Ascii.eqb a pad) && negb (is_newline a) && negb (Ascii.eqb a ".").

Lemma char64_table :
  forallb (fun x =>
    bool_decide (val64 (char64 (Z.of_nat x)) = Some (Z.of_nat x))
    && char_ok (char64 (Z.of_nat x))) (seq 0 64) = true.
Proof. by vm_compute. Qed.

Lemma char64_spec x :
  0 <= x < 64 -> val64 (char64 x) = Some x /\ char_ok (char64 x) = true.
Proof.
  intros H. pose proof char64_table as T.
  rewrite forallb_forall in T.
  specialize (T (Z.to_nat x)). rewrite Z2Nat.id in T by lia.
  rewrite List.in_seq in T.
  apply andb_true_iff in T as [T1%bool_decide_eq_true T2]; [done|lia].
Qed.

Lemma char64_val x : 0 <= x < 64 -> val64 (char64 x) = Some x.
Proof. intros. by apply char64_spec. Qed.

Lemma char64_pad x : 0 <= x < 64 -> Ascii.eqb (char64 x) pad = false.
Proof.
  intros [_ H]%char64_spec. unfold char_ok in H.
  by destruct (Ascii.eqb (char64 x) pad).
Qed.

Lemma char64_newline x : 0 <= x < 64 -> is_newline (char64 x) = false.
Proof.
  intros [_ H]%char64_spec. unfold char_ok in H.
  destruct (is_newline (char64 x)); [|done].
  by rewrite andb_false_r in H.
Qed.

Lemma char64_dot x : 0 <= x < 64 -> Ascii.eqb (char64 x) "." = false.
Proof.
  intros [_ H]%char64_spec. unfold char_ok in H.
  destruct (Ascii.eqb (char64 x) "."); [|done].
  by rewrite andb_false_r in H.
Qed.

#[local] Ltac sextets :=
  repeat match goal with
  | H : is_byte _ |- _ => unfold is_byte in H
  | H : Forall is_byte (_ :: _) |- _ => apply Forall_cons in H as [? H]
  end;
  try (Z.to_euclidean_division_equations; lia).

Lemma strip_encode l : Forall is_byte l -> strip (encode l) = encode l.
Proof.
  induction l as [|a|a b|a b c l IH] using list_ind3; intros H; [done|..];
    cbn [encode strip]; rewrite !char64_newline by sextets; cbn; try done.
  rewrite IH; [done|]. sextets. done.
Qed.

Lemma encode_no_dot l :
  Forall is_byte l -> Strings.contains "." (encode l) = false.
Proof.
  induction l as [|a|a b|a b c l IH] using list_ind3; intros H; [done|..];
    cbn [encode Strings.contains]; rewrite !char64_dot by sextets;
    cbn; try done.
  apply IH. sextets. done.
Qed.

Lemma decode_encode l : Forall is_byte l -> decode (encode l) = Some l.
Proof.
  induction l as [|a|a b|a b c l IH] using list_ind3; intros H; [done|..];
    cbn [encode decode]; rewrite !char64_val by sextets;
    rewrite ?char64_pad by sextets; cbn.
  - do 2 f_equal. sextets.
  - do 2 f_equal; [sextets|]. f_equal. sextets.
  - rewrite IH by (sextets; done).
    do 2 f_equal; [sextets|]. f_equal; [sextets|]. f_equal. sextets.
Qed.

(** Every byte string decodes to itself after encoding. *)
Lemma DecodeString_EncodeToString s :
  DecodeString (EncodeToString s) = Some s.
Proof.
  unfold DecodeString, EncodeToString.
  rewrite strip_encode, decode_encode by apply to_bytes_range.
  by rewrite of_to_bytes.
Qed.

Lemma EncodeToString_no_dot s :
  Strings.contains "." (EncodeToString s) = false.
Proof. apply encode_no_dot, to_bytes_range. Qed.
End Base64.
