(* ===== verification/Json.v ===== *)
(** * encoding/json

    JSON values, the encoder of [json.Marshal] (HTML-safe escaping, invalid
    UTF-8 replaced) and the decoder of [json.Unmarshal] down to JSON values,
    with the theorem that decoding inverts encoding.  Struct fields are read
    from a decoded object by the accessors of the second part. *)

From stdpp Require Import base tactics list strings.
From Stdlib Require Import ZArith Lia Ascii String.
From S2P Require Import Prelude GoStd.
#[local] Open Scope Z_scope.

Import Bytes.
#[local] Open Scope Z_scope.

(** A number keeps its literal, as the decoder of the package does. *)
#[local] Set Warnings "-register-all".
Inductive json :=
| JNull
| JBool (b : bool)
| JNum (lit : string)
| JStr (s : string)
| JArr (l : list json)
| JObj (l : list (string * json)).

(** [strconv.FormatInt] is how the encoder prints the integer kinds. *)
Definition jint (z : Z) : json := JNum (Strconv.FormatInt z).

Module Json.
Definition hex (d : Z) : Z := if d <? 10 then 48 + d else 87 + d.

(** Escape of one ASCII byte ([encodeState.string], [escapeHTML] set). *)
Definition esc_ascii (c : Z) : list Z :=
  if (c =? 34) || (c =? 92) then [92; c]
  else if c =? 10 then [92; 110]
  else if c =? 13 then [92; 114]
  else if c =? 9 then [92; 116]
  else if (c <? 32) || (c =? 60) || (c =? 62) || (c =? 38)
  then [92; 117; 48; 48; hex (c / 16); hex (c mod 16)]
  else [c].

(** U+2028 and U+2029 are escaped, an invalid byte becomes [\ufffd]. *)
Fixpoint esc (skip : nat) (l : list Z) : list Z :=
  match l with
  | [] => []
  | c :: l' =>
      match skip with
      | S k => c :: esc k l'
      | O =>
          if c <? 0x80 then esc_ascii c ++ esc 0 l'
          else match Utf8.rune_size l with
               | 1%nat => [92; 117; 102; 102; 102; 100] ++ esc 0 l'
               | n =>
                   match l' with
                   | c1 :: c2 :: l3 =>
                       if (c =? 0xE2) && (c1 =? 0x80)
                          && ((c2 =? 0xA8) || (c2 =? 0xA9))
                       then [92; 117; 50; 48; 50; hex (c2 mod 16)] ++ esc 0 l3
                       else c :: esc (n - 1) l'
                   | _ => c :: esc (n - 1) l'
                   end
               end
      end
  end.

Definition quote (s : string) : list Z := 34 :: esc 0 (to_bytes s) ++ [34].

Fixpoint sep_concat (ls : list (list Z)) : list Z :=
  match ls with
  | [] => []
  | [l] => l
  | l :: ls => l ++ 44 :: sep_concat ls
  end.

Definition lit_null : list Z := [110; 117; 108; 108].
Definition lit_true : list Z := [116; 114; 117; 101].
Definition lit_false : list Z := [102; 97; 108; 115; 101].

Fixpoint encode (j : json) : list Z :=
  match j with
  | JNull => lit_null
  | JBool b => if b then lit_true else lit_false
  | JNum n => to_bytes n
  | JStr s => quote s
  | JArr l => 91 :: sep_concat (map encode l) ++ [93]
  | JObj l =>
      123 :: sep_concat (map (fun '(k, v) => quote k ++ 58 :: encode v) l)
        ++ [125]
  end.

(** [json.Marshal] *)
Definition Marshal (j : json) : string := of_bytes (encode j).

(** ** The decoder *)
Definition is_ws (c : Z) : bool :=
  (c =? 32) || (c =? 9) || (c =? 10) || (c =? 13).

Fixpoint skip_ws (l : list Z) : list Z :=
  match l with
  | c :: l' => if is_ws c then skip_ws l' else l
  | [] => []
  end.

Definition unhex (c : Z) : option Z :=
  if (48 <=? c) && (c <=? 57) then Some (c - 48)
  else if (97 <=? c) && (c <=? 102) then Some (c - 87)
  else if (65 <=? c) && (c <=? 70) then Some (c - 55)
  else None.

Definition unhex4 (a b c d : Z) : option Z :=
  match unhex a, unhex b, unhex c, unhex d with
  | Some a, Some b, Some c, Some d =>
      Some (((a * 16 + b) * 16 + c) * 16 + d)
  | _, _, _, _ => None
  end.

Definition surrogate (r : Z) : bool := (0xD800 <=? r) && (r <? 0xE000).

(** UTF-8 of a rune; a lone surrogate is replaced. *)
Definition encode_rune (r : Z) : list Z :=
  if r <? 0x80 then [r]
  else if r <? 0x800 then [0xC0 + r / 64; 0x80 + r mod 64]
  else if surrogate r then [0xEF; 0xBF; 0xBD]
  else if r <? 0x10000
  then [0xE0 + r / 4096; 0x80 + (r / 64) mod 64; 0x80 + r mod 64]
  else [0xF0 + r / 262144; 0x80 + (r / 4096) mod 64;
        0x80 + (r / 64) mod 64; 0x80 + r mod 64].

(** The rune of a surrogate pair. *)
Definition pair_rune (r1 r2 : Z) : option Z :=
  if (0xD800 <=? r1) && (r1 <? 0xDC00) && (0xDC00 <=? r2) && (r2 <? 0xE000)
  then Some ((r1 - 0xD800) * 1024 + (r2 - 0xDC00) + 0x10000)
  else None.

Definition simple_escape (e : Z) : option Z :=
  if (e =? 34) || (e =? 92) || (e =? 47) then Some e
  else if e =? 98 then Some 8
  else if e =? 102 then Some 12
  else if e =? 110 then Some 10
  else if e =? 114 then Some 13
  else if e =? 116 then Some 9
  else None.

Definition prepend (r : list Z) (x : option (list Z * list Z))
    : option (list Z * list Z) :=
  match x with Some (s, rest) => Some (r ++ s, rest) | None => None end.

(** The contents of a string literal after its opening quote, and what
    follows its closing one. *)
Fixpoint parse_str (skip : nat) (l : list Z) : option (list Z * list Z) :=
  match l with
  | [] => None
  | c :: l' =>
      match skip with
      | S k => prepend [c] (parse_str k l')
      | O =>
          if c =? 34 then Some ([], l')
          else if c =? 92 then
            match l' with
            | [] => None
            | e :: l2 =>
                if e =? 117 then
                  match l2 with
                  | h1 :: h2 :: h3 :: h4 :: l3 =>
                      match unhex4 h1 h2 h3 h4 with
                      | None => None
                      | Some r =>
                          match l3 with
                          | b :: u :: g1 :: g2 :: g3 :: g4 :: l4 =>
                              if (b =? 92) && (u =? 117) then
                                match unhex4 g1 g2 g3 g4 with
                                | None => None
                                | Some r2 =>
                                    match pair_rune r r2 with
                                    | Some rr =>
                                        prepend (encode_rune rr) (parse_str 0 l4)
                                    | None =>
                                        prepend (encode_rune r) (parse_str 0 l3)
                                    end
                                end
                              else prepend (encode_rune r) (parse_str 0 l3)
                          | _ => prepend (encode_rune r) (parse_str 0 l3)
                          end
                      end
                  | _ => None
                  end
                else match simple_escape e with
                     | Some b => prepend [b] (parse_str 0 l2)
                     | None => None
                     end
            end
          else if c <? 32 then None
          else if c <? 0x80 then prepend [c] (parse_str 0 l')
          else match Utf8.rune_size l with
               | 1%nat => prepend [0xEF; 0xBF; 0xBD] (parse_str 0 l')
               | n => prepend [c] (parse_str (n - 1) l')
               end
      end
  end.

(** The longest prefix of digits and the rest. *)
Fixpoint digits (l : list Z) : list Z * list Z :=
  match l with
  | c :: l' =>
      if (48 <=? c) && (c <=? 57)
      then let '(d, r) := digits l' in (c :: d, r) else ([], l)
  | [] => ([], [])
  end.

(** A number literal: sign, integer part without leading zeros, fraction,
    exponent. *)
Definition parse_sign (l : list Z) : list Z * list Z :=
  match l with
  | c :: l' => if c =? 45 then ([c], l') else ([], l)
  | [] => ([], [])
  end.

(** Digits after a marker byte, at least one. *)
Definition parse_frac (l : list Z) : option (list Z * list Z) :=
  match l with
  | c :: l' =>
      if c =? 46 then
        let '(fs, r) := digits l' in
        if bool_decide (fs = []) then None else Some (c :: fs, r)
      else Some ([], l)
  | [] => Some ([], [])
  end.

Definition parse_exp (l : list Z) : option (list Z * list Z) :=
  match l with
  | e :: l' =>
      if (e =? 101) || (e =? 69) then
        let '(sg, l2) :=
          match l' with
          | s :: l2 => if (s =? 43) || (s =? 45) then ([s], l2) else ([], l')
          | [] => ([], l')
          end in
        let '(xs, r) := digits l2 in
        if bool_decide (xs = []) then None else Some (e :: sg ++ xs, r)
      else Some ([], l)
  | [] => Some ([], [])
  end.

Definition int_part_ok (ds : list Z) : bool :=
  match ds with
  | [] => false
  | [_] => true
  | d :: _ => negb (d =? 48)
  end.

Definition parse_num (l : list Z) : option (list Z * list Z) :=
  let '(sign, l1) := parse_sign l in
  let '(ds, l2) := digits l1 in
  if int_part_ok ds then
    match parse_frac l2 with
    | None => None
    | Some (frac, l3) =>
        match parse_exp l3 with
        | None => None
        | Some (ex, l4) => Some (sign ++ ds ++ frac ++ ex, l4)
        end
    end
  else None.

Fixpoint eat (p l : list Z) : option (list Z) :=
  match p, l with
  | [], _ => Some l
  | a :: p, b :: l => if a =? b then eat p l else None
  | _, _ => None
  end.

(** The rest after one expected byte. *)
Definition next (c : Z) (l : list Z) : option (list Z) :=
  match skip_ws l with
  | d :: r => if d =? c then Some r else None
  | [] => None
  end.

Definition literal (p l : list Z) (j : json) : option (json * list Z) :=
  match eat p l with Some r => Some (j, r) | None => None end.

(** [fuel] bounds the number of values and members; the length of the text
    is enough. *)
Fixpoint parse_value (fuel : nat) (l : list Z) : option (json * list Z) :=
  match fuel with
  | O => None
  | S fuel =>
      match skip_ws l with
      | [] => None
      | c :: l' =>
          if c =? 34 then
            match parse_str 0 l' with
            | Some (s, r) => Some (JStr (of_bytes s), r)
            | None => None
            end
          else if c =? 91 then
            match next 93 l' with
            | Some r => Some (JArr [], r)
            | None =>
                match parse_elems fuel l' with
                | Some (js, r) => Some (JArr js, r)
                | None => None
                end
            end
          else if c =? 123 then
            match next 125 l' with
            | Some r => Some (JObj [], r)
            | None =>
                match parse_members fuel l' with
                | Some (ms, r) => Some (JObj ms, r)
                | None => None
                end
            end
          else if c =? 110 then literal lit_null (c :: l') JNull
          else if c =? 116 then literal lit_true (c :: l') (JBool true)
          else if c =? 102 then literal lit_false (c :: l') (JBool false)
          else match parse_num (c :: l') with
               | Some (n, r) => Some (JNum (of_bytes n), r)
               | None => None
               end
      end
  end
with parse_elems (fuel : nat) (l : list Z) : option (list json * list Z) :=
  match fuel with
  | O => None
  | S fuel =>
      match parse_value fuel l with
      | None => None
      | Some (j, r) =>
          match next 44 r with
          | Some r' =>
              match parse_elems fuel r' with
              | Some (js, r2) => Some (j :: js, r2)
              | None => None
              end
          | None =>
              match next 93 r with
              | Some r' => Some ([j], r')
              | None => None
              end
          end
      end
  end
with parse_members (fuel : nat) (l : list Z)
    : option (list (string * json) * list Z) :=
  match fuel with
  | O => None
  | S fuel =>
      match next 34 l with
      | None => None
      | Some l1 =>
          match parse_str 0 l1 with
          | None => None
          | Some (k, r) =>
              match next 58 r with
              | None => None
              | Some r1 =>
                  match parse_value fuel r1 with
                  | None => None
                  | Some (j, r2) =>
                      match next 44 r2 with
                      | Some r' =>
                          match parse_members fuel r' with
                          | Some (ms, r3) => Some ((of_bytes k, j) :: ms, r3)
                          | None => None
                          end
                      | None =>
                          match next 125 r2 with
                          | Some r' => Some ([(of_bytes k, j)], r')
                          | None => None
                          end
                      end
                  end
              end
          end
      end
  end.

(** The document of a text: one value, then nothing but spaces. *)
Definition Parse (s : string) : option json :=
  let l := to_bytes s in
  match parse_value (S (List.length l)) l with
  | Some (j, r) => match skip_ws r with [] => Some j | _ => None end
  | None => None
  end.
End Json.

(** ** Decoding inverts encoding *)
Section roundtrip.
Import Json.

(** Valid UTF-8 ([utf8.ValidString]), [skip] bytes into a rune. *)
Fixpoint valid_utf8 (skip : nat) (l : list Z) : bool :=
  match l with
  | [] => Nat.eqb skip 0
  | c :: l' =>
      match skip with
      | S k => valid_utf8 k l'
      | O =>
          if c <? 0x80 then valid_utf8 0 l'
          else match Utf8.rune_size l with
               | 1%nat => false
               | n => valid_utf8 (n - 1) l'
               end
      end
  end.

Definition ValidString (s : string) : bool := valid_utf8 0 (to_bytes s).

(** What a multi-byte rune looks like: its size depends on its own bytes. *)
Lemma rune_size_cases c l :
  0x80 <= c ->
  Utf8.rune_size (c :: l) = 1%nat \/
  (exists c1 l1, l = c1 :: l1 /\
     forall x, Utf8.rune_size (c :: c1 :: x) = 2%nat) \/
  (exists c1 c2 l2, l = c1 :: c2 :: l2 /\
     forall x, Utf8.rune_size (c :: c1 :: c2 :: x) = 3%nat) \/
  (exists c1 c2 c3 l3, l = c1 :: c2 :: c3 :: l3 /\
     forall x, Utf8.rune_size (c :: c1 :: c2 :: c3 :: x) = 4%nat).
Proof.
  intros Hc. unfold Utf8.rune_size.
  rewrite (proj2 (Z.ltb_ge _ _)) by lia.
  destruct (Utf8.first_byte c) as [[[n lo] hi]|]; [|by left].
  destruct n as [|[|[|[|[|n]]]]]; try (by left).
  - destruct l as [|c1 l]; [by left|].
    destruct (Utf8.in_range lo hi c1) eqn:E; [|by left].
    right. left. eexists _, _. split; [done|]. intros _. by rewrite E.
  - destruct l as [|c1 [|c2 l]]; try (by left).
    destruct (_ && _) eqn:E; [|by left].
    right. right. left. eexists _, _, _. split; [done|]. intros _. by rewrite E.
  - destruct l as [|c1 [|c2 [|c3 l]]]; try (by left).
    destruct (_ && _) eqn:E; [|by left].
    right. right. right. eexists _, _, _, _. split; [done|]. intros _. by rewrite E.
Qed.

Lemma parse_str_u h1 h2 h3 h4 r x z :
  unhex4 h1 h2 h3 h4 = Some r -> (forall r2, pair_rune r r2 = None) ->
  parse_str 0 x = Some z ->
  parse_str 0 (92 :: 117 :: h1 :: h2 :: h3 :: h4 :: x)
  = prepend (encode_rune r) (Some z).
Proof.
  intros Hu Hp Hx. cbn [parse_str].
  change (92 =? 34) with false. change (92 =? 92) with true.
  change (117 =? 117) with true. cbn beta iota. rewrite Hu, Hx.
  destruct x as [|b [|u [|g1 [|g2 [|g3 [|g4 x]]]]]]; try done.
  destruct ((b =? 92) && (u =? 117)) eqn:E; [|done].
  apply andb_true_iff in E as [->%Z.eqb_eq ->%Z.eqb_eq].
  destruct (unhex4 g1 g2 g3 g4) eqn:E; [by rewrite Hp|].
  cbn [parse_str] in Hx.
  change (92 =? 34) with false in Hx. change (92 =? 92) with true in Hx.
  change (117 =? 117) with true in Hx. cbn beta iota in Hx.
  by rewrite E in Hx.
Qed.

(** The six-byte escapes of the ASCII range, by evaluation. *)
Lemma hex_escape_table :
  forallb (fun n => let c := Z.of_nat n in
    bool_decide (unhex4 48 48 (hex (c / 16)) (hex (c mod 16)) = Some c)
    && bool_decide (encode_rune c = [c])) (seq 0 128) = true.
Proof. by vm_compute. Qed.

Lemma hex_escape c :
  0 <= c < 128 ->
  unhex4 48 48 (hex (c / 16)) (hex (c mod 16)) = Some c /\
  encode_rune c = [c].
Proof.
  intros H. pose proof hex_escape_table as T.
  rewrite forallb_forall in T. specialize (T (Z.to_nat c)).
  rewrite List.in_seq, Z2Nat.id in T by lia.
  apply andb_true_iff in T as [?%bool_decide_eq_true ?%bool_decide_eq_true];
    [done|lia].
Qed.

Lemma pair_rune_low r r2 : r < 0xD800 -> pair_rune r r2 = None.
Proof. intros. unfold pair_rune. by rewrite (proj2 (Z.leb_gt _ _)). Qed.

Lemma parse_str_simple e b x z :
  e <> 117 -> simple_escape e = Some b -> parse_str 0 x = Some z ->
  parse_str 0 (92 :: e :: x) = prepend [b] (Some z).
Proof.
  intros He Hs Hx. cbn [parse_str].
  change (92 =? 34) with false. change (92 =? 92) with true. cbn iota.
  rewrite (proj2 (Z.eqb_neq _ _)) by done. by rewrite Hs, Hx.
Qed.

Lemma parse_str_plain c x z :
  c <> 34 -> c <> 92 -> 32 <= c < 128 -> parse_str 0 x = Some z ->
  parse_str 0 (c :: x) = prepend [c] (Some z).
Proof.
  intros H1 H2 H3 Hx. cbn [parse_str].
  rewrite (proj2 (Z.eqb_neq c 34)), (proj2 (Z.eqb_neq c 92)),
    (proj2 (Z.ltb_ge c 32)), (proj2 (Z.ltb_lt c 128)) by lia.
  by rewrite Hx.
Qed.

Lemma parse_str_esc_ascii c x z :
  0 <= c < 128 -> parse_str 0 x = Some z ->
  parse_str 0 (esc_ascii c ++ x) = prepend [c] (Some z).
Proof.
  intros Hc Hx. unfold esc_ascii.
  destruct ((c =? 34) || (c =? 92)) eqn:E1.
  { apply orb_true_iff in E1 as [->%Z.eqb_eq| ->%Z.eqb_eq];
      by apply parse_str_simple. }
  apply orb_false_iff in E1 as [?%Z.eqb_neq ?%Z.eqb_neq].
  destruct (Z.eqb_spec c 10) as [->|]; [by apply parse_str_simple|].
  destruct (Z.eqb_spec c 13) as [->|]; [by apply parse_str_simple|].
  destruct (Z.eqb_spec c 9) as [->|]; [by apply parse_str_simple|].
  destruct ((c <? 32) || _ || _ || _) eqn:E2.
  - destruct (hex_escape c Hc) as [Hu Hr]. cbn [app].
    rewrite (parse_str_u _ _ _ _ c) with (z := z); [by rewrite Hr|done| |done].
    intros. apply pair_rune_low. lia.
  - apply orb_false_iff in E2 as [[[E2 _]%orb_false_iff _]%orb_false_iff _].
    apply Z.ltb_ge in E2. apply parse_str_plain; done || lia.
Qed.

Lemma parse_str_skip k c x :
  parse_str (S k) (c :: x) = prepend [c] (parse_str k x).
Proof. done. Qed.

Lemma parse_str_rune c x n :
  0x80 <= c -> Utf8.rune_size (c :: x) = S (S n) ->
  parse_str 0 (c :: x) = prepend [c] (parse_str (S n) x).
Proof.
  intros Hc Hn. cbn [parse_str].
  rewrite (proj2 (Z.eqb_neq c 34)), (proj2 (Z.eqb_neq c 92)),
    (proj2 (Z.ltb_ge c 32)), (proj2 (Z.ltb_ge c 128)) by lia.
  by rewrite Hn.
Qed.

Lemma prepend_prepend a b x : prepend a (prepend b x) = prepend (a ++ b) x.
Proof. destruct x as [[]|]; cbn; [|done]. by rewrite app_assoc. Qed.

(** Line and paragraph separators. *)
Lemma parse_str_2028 c2 x z :
  c2 = 0xA8 \/ c2 = 0xA9 -> parse_str 0 x = Some z ->
  parse_str 0 ([92; 117; 50; 48; 50; hex (c2 mod 16)] ++ x)
  = prepend [0xE2; 0x80; c2] (Some z).
Proof.
  intros [-> | ->] Hx; cbn [app].
  - rewrite (parse_str_u _ _ _ _ 0x2028) with (z := z); done.
  - rewrite (parse_str_u _ _ _ _ 0x2029) with (z := z); done.
Qed.

Lemma esc_rune2 c c1 l : c :: esc 1 (c1 :: l) = [c; c1] ++ esc 0 l.
Proof. done. Qed.

Lemma parse_str_esc l rest :
  Forall is_byte l -> valid_utf8 0 l = true ->
  parse_str 0 (esc 0 l ++ 34 :: rest) = Some (l, rest).
Proof.
  remember (List.length l) as n eqn:Hn. revert l Hn.
  induction (lt_wf n) as [n _ IH]. intros l -> Hb Hv.
  destruct l as [|c l]; [done|].
  apply Forall_cons in Hb as [Hc Hb]. unfold is_byte in Hc.
  assert (forall l', (List.length l' <= List.length l)%nat ->
            Forall is_byte l' -> valid_utf8 0 l' = true ->
            parse_str 0 (esc 0 l' ++ 34 :: rest) = Some (l', rest)) as IH'.
  { intros l' Hl. apply (IH (List.length l')); [cbn; lia|done]. }
  clear IH. cbn [esc valid_utf8] in Hv |- *.
  destruct (Z.ltb_spec c 128) as [Hlt|Hge].
  { rewrite <- app_assoc, (parse_str_esc_ascii _ _ (l, rest)); [done|lia|].
    by apply IH'. }
  destruct (rune_size_cases c l) as
    [H1|[(c1 & l1 & -> & H1)|[(c1 & c2 & l1 & -> & H1)
    |(c1 & c2 & c3 & l1 & -> & H1)]]]; [done|..];
    rewrite H1 in Hv |- *; try done; cbn [Nat.sub valid_utf8] in Hv.
  - apply Forall_cons in Hb as [_ Hb].
    assert ((c =? 0xE2) && (c1 =? 0x80) = false) as E.
    { apply not_true_iff_false.
      intros [->%Z.eqb_eq ->%Z.eqb_eq]%andb_true_iff. by specialize (H1 []). }
    destruct l1 as [|c2 l1]; [|rewrite E]; cbn [andb Nat.sub];
      rewrite esc_rune2; cbn [app]; rewrite (parse_str_rune _ _ 0) by auto;
      rewrite parse_str_skip, IH'; cbn; done || lia.
  - do 2 (apply Forall_cons in Hb as [_ Hb]).
    destruct (_ && _) eqn:E.
    + apply andb_true_iff in E as [[->%Z.eqb_eq ->%Z.eqb_eq]%andb_true_iff E].
      rewrite <- app_assoc, (parse_str_2028 _ _ (l1, rest)); [done| |].
      * apply orb_true_iff in E as [->%Z.eqb_eq| ->%Z.eqb_eq]; auto.
      * apply IH'; [cbn; lia|done|done].
    + cbn [Nat.sub esc app]. rewrite (parse_str_rune _ _ 1) by auto.
      rewrite !parse_str_skip, IH'; [done|cbn; lia|done|done].
  - do 3 (apply Forall_cons in Hb as [_ Hb]).
    assert ((c =? 0xE2) = false) as ->.
    { apply Z.eqb_neq. intros ->. specialize (H1 []). cbn in H1.
      by destruct (_ && _). }
    cbn [andb Nat.sub esc app]. rewrite (parse_str_rune _ _ 2) by auto.
    rewrite !parse_str_skip, IH'; [done|cbn; lia|done|done].
Qed.

(** ** Values *)
Lemma json_nested_ind (P : json -> Prop) :
  P JNull -> (forall b, P (JBool b)) -> (forall n, P (JNum n)) ->
  (forall s, P (JStr s)) -> (forall l, Forall P l -> P (JArr l)) ->
  (forall l, Forall (fun kv => P kv.2) l -> P (JObj l)) ->
  forall j, P j.
Proof.
  intros H1 H2 H3 H4 H5 H6. fix IH 1.
  intros [|b|n|s|l|l]; [exact H1|apply H2|apply H3|apply H4|apply H5|apply H6].
  - induction l; constructor; [apply IH|assumption].
  - induction l as [|[k v] l]; constructor; [apply IH|assumption].
Qed.

(** What may follow a value. *)
Definition stops (rest : list Z) : Prop :=
  match rest with
  | [] => True
  | c :: _ => c = 44 \/ c = 93 \/ c = 125
  end.

Definition value_start (c : Z) : bool :=
  negb (is_ws c) && negb (c =? 34) && negb (c =? 91) && negb (c =? 123)
  && negb (c =? 110) && negb (c =? 116) && negb (c =? 102)
  && negb (c =? 93).

(** A literal the encoder prints is read back whatever follows it. *)
Definition wf_num (n : string) : Prop :=
  match to_bytes n with
  | [] => False
  | c :: l =>
      value_start c = true /\
      forall rest, stops rest ->
        parse_num (c :: l ++ rest) = Some (c :: l, rest)
  end.

Fixpoint wf (j : json) : Prop :=
  match j with
  | JNull | JBool _ => True
  | JNum n => wf_num n
  | JStr s => ValidString s = true
  | JArr l => (fix all l := match l with [] => True | j :: l => wf j /\ all l end) l
  | JObj l =>
      (fix all l := match l with
                    | [] => True
                    | (k, j) :: l => ValidString k = true /\ wf j /\ all l
                    end) l
  end.

Lemma wf_arr l : wf (JArr l) <-> Forall wf l.
Proof.
  induction l as [|j l IH]; [split; constructor|].
  rewrite Forall_cons, <- IH. done.
Qed.

Lemma wf_obj l :
  wf (JObj l) <-> Forall (fun kv => ValidString kv.1 = true /\ wf kv.2) l.
Proof.
  induction l as [|[k j] l IH]; [split; constructor|].
  rewrite Forall_cons, <- IH. cbn. tauto.
Qed.

Lemma parse_quoted s rest :
  ValidString s = true ->
  parse_str 0 (esc 0 (to_bytes s) ++ 34 :: rest) = Some (to_bytes s, rest).
Proof. intros. apply parse_str_esc; [apply to_bytes_range|done]. Qed.

(** The first byte of an encoding: never a space or a closing bracket. *)
Lemma encode_start j :
  wf j -> exists c l, encode j = c :: l /\ is_ws c = false /\ (c =? 93) = false.
Proof.
  destruct j as [|[]|n|s|l|l]; cbn; eauto 6.
  unfold wf_num. destruct (to_bytes n) as [|c l]; [done|].
  intros [H _]. exists c, l. unfold value_start in H.
  destruct (is_ws c), (c =? 93); try done; by rewrite andb_false_r in H.
Qed.

Lemma sep_concat_cons x y ls :
  sep_concat (x :: y :: ls) = x ++ 44 :: sep_concat (y :: ls).
Proof. done. Qed.

Definition reads (j : json) : Prop :=
  forall fuel rest, (List.length (encode j) < fuel)%nat -> stops rest ->
    parse_value fuel (encode j ++ rest) = Some (j, rest).

Lemma parse_elems_encode l :
  l <> [] -> Forall reads l ->
  forall fuel rest,
    (S (List.length (sep_concat (map encode l))) < fuel)%nat ->
    parse_elems fuel (sep_concat (map encode l) ++ 93 :: rest)
    = Some (l, rest).
Proof.
  induction l as [|j l IH]; [done|]. intros _ [Hj Hl]%Forall_cons fuel rest Hf.
  destruct fuel as [|fuel]; [lia|]. cbn [parse_elems].
  destruct l as [|j2 l].
  - cbn [map sep_concat] in *. rewrite Hj by (cbn; tauto || lia). done.
  - cbn [map] in *. rewrite sep_concat_cons in *.
    rewrite length_app in Hf. cbn [List.length] in Hf.
    rewrite <- app_assoc. cbn [app].
    rewrite Hj by (cbn; tauto || lia). cbn [next skip_ws is_ws].
    change (next 44 (44 :: ?x)) with (Some x). cbn.
    rewrite IH; [done..|lia].
Qed.

Definition encode_member (kv : string * json) : list Z :=
  quote kv.1 ++ 58 :: encode kv.2.

Lemma parse_members_encode l :
  l <> [] -> Forall (fun kv => ValidString kv.1 = true /\ reads kv.2) l ->
  forall fuel rest,
    (S (List.length (sep_concat (map encode_member l))) < fuel)%nat ->
    parse_members fuel (sep_concat (map encode_member l) ++ 125 :: rest)
    = Some (l, rest).
Proof.
  induction l as [|[k j] l IH]; [done|].
  intros _ [[Hk Hj] Hl]%Forall_cons fuel rest Hf.
  destruct fuel as [|fuel]; [lia|].
  assert (forall r, parse_members (S fuel) (encode_member (k, j) ++ r) =
    match parse_value fuel (encode j ++ r) with
    | None => None
    | Some (j, r2) =>
        match next 44 r2 with
        | Some r' =>
            match parse_members fuel r' with
            | Some (ms, r3) => Some ((k, j) :: ms, r3)
            | None => None
            end
        | None =>
            match next 125 r2 with
            | Some r' => Some ([(k, j)], r')
            | None => None
            end
        end
    end) as Hstep.
  { intros r. unfold encode_member, quote. cbn [fst snd].
    rewrite <- app_assoc. cbn [app]. rewrite <- app_assoc. cbn [app].
    cbn [parse_members]. change (next 34 (34 :: ?x)) with (Some x). cbn iota.
    rewrite parse_quoted by done. change (next 58 (58 :: ?x)) with (Some x).
    cbn iota. by rewrite of_to_bytes. }
  destruct l as [|[k2 j2] l].
  - cbn [map sep_concat] in *. rewrite Hstep.
    unfold encode_member, quote in Hf. cbn in Hf.
    rewrite !length_app in Hf. cbn in Hf.
    rewrite Hj by (cbn; tauto || lia). done.
  - cbn [map] in *. rewrite sep_concat_cons in *.
    rewrite <- app_assoc. cbn [app]. rewrite Hstep.
    rewrite length_app in Hf. cbn [List.length] in Hf.
    assert (List.length (encode j) < fuel)%nat as Hlt.
    { unfold encode_member, quote in Hf. cbn in Hf.
      rewrite !length_app in Hf. cbn in Hf. lia. }
    rewrite Hj by (cbn; tauto || lia).
    change (next 44 (44 :: ?x)) with (Some x). cbn iota.
    rewrite IH; [done..|lia].
Qed.

Lemma parse_value_start c l fuel :
  value_start c = true ->
  parse_value (S fuel) (c :: l) =
  match parse_num (c :: l) with
  | Some (n, r) => Some (JNum (of_bytes n), r)
  | None => None
  end.
Proof.
  unfold value_start. rewrite !andb_true_iff, !negb_true_iff.
  intros [[[[[[[H1 H2] H3] H4] H5] H6] H7] _].
  cbn [parse_value skip_ws]. by rewrite H1, H2, H3, H4, H5, H6, H7.
Qed.

Lemma next_other c d l : is_ws d = false -> (d =? c) = false ->
  next c (d :: l) = None.
Proof. intros H1 H2. unfold next. cbn. by rewrite H1, H2. Qed.

Lemma encode_member_map l :
  map (fun '(k, v) => quote k ++ (58 :: encode v)) l
  = map encode_member l.
Proof. apply map_ext. by intros [k v]. Qed.

Lemma sep_concat_start (f : json -> list Z) j l :
  sep_concat (f j :: map f l) =
  f j ++ match l with [] => [] | _ => 44 :: sep_concat (map f l) end.
Proof. destruct l; cbn [map]; [by rewrite app_nil_r|done]. Qed.

Theorem reads_encode j : wf j -> reads j.
Proof.
  induction j as [|b|n|s|l IH|l IH] using json_nested_ind;
    intros Hwf [|fuel] rest Hf Hs; try (cbn in Hf; lia).
  - done.
  - by destruct b.
  - cbn in Hwf. unfold wf_num in Hwf. cbn [encode].
    destruct (to_bytes n) as [|c l] eqn:E; [done|]. destruct Hwf as [Hc Hr].
    cbn [app]. rewrite parse_value_start by done. rewrite Hr by done.
    by rewrite <- E, of_to_bytes.
  - cbn [encode]. unfold quote. cbn [app]. rewrite <- app_assoc. cbn [app].
    cbn [parse_value skip_ws]. change (is_ws 34) with false.
    change (34 =? 34) with true. cbn iota.
    rewrite parse_quoted by done. by rewrite of_to_bytes.
  - apply wf_arr in Hwf. cbn [encode] in *. cbn [app List.length] in *.
    rewrite length_app in Hf. cbn in Hf.
    rewrite <- app_assoc. cbn [app parse_value skip_ws].
    change (is_ws 91) with false. change (91 =? 34) with false.
    change (91 =? 91) with true. cbn iota.
    destruct l as [|j l]; [done|].
    assert (next 93 (sep_concat (map encode (j :: l)) ++ 93 :: rest) = None)
      as ->.
    { cbn [map]. rewrite sep_concat_start.
      apply Forall_cons in Hwf as [Hj _].
      destruct (encode_start j Hj) as (c & l' & -> & H1 & H2).
      by apply next_other. }
    rewrite parse_elems_encode; [done|done| |lia].
    apply Forall_forall. intros x Hx. rewrite Forall_forall in IH, Hwf. auto.
  - apply wf_obj in Hwf. cbn [encode] in *. cbn [app List.length] in *.
    rewrite length_app in Hf. cbn in Hf.
    rewrite encode_member_map in Hf |- *.
    rewrite <- app_assoc. cbn [app parse_value skip_ws].
    change (is_ws 123) with false. change (123 =? 34) with false.
    change (123 =? 91) with false. change (123 =? 123) with true. cbn iota.
    destruct l as [|[k j] l]; [done|].
    assert (next 125 (sep_concat (map encode_member ((k, j) :: l)) ++ 125 :: rest)
            = None) as ->.
    { cbn [map]. by destruct l. }
    rewrite parse_members_encode; [done|done| |lia].
    rewrite Forall_forall in IH, Hwf |- *. intros x Hx. split.
    + by apply Hwf.
    + apply IH; [done|]. by apply Hwf.
Qed.

#[local] Ltac bytes :=
  repeat first [apply Forall_nil_2 | apply Forall_cons_2];
  try done; try (unfold is_byte in *; lia).

Lemma hex_byte d : 0 <= d < 16 -> is_byte (hex d).
Proof. intros. unfold hex, is_byte. destruct (_ <? _); lia. Qed.

Lemma esc_ascii_bytes c : 0 <= c < 128 -> Forall is_byte (esc_ascii c).
Proof.
  intros Hc. unfold esc_ascii.
  pose proof (hex_byte (c / 16) ltac:(Z.to_euclidean_division_equations; lia)).
  pose proof (hex_byte (c mod 16) ltac:(Z.to_euclidean_division_equations; lia)).
  repeat case_match; bytes.
Qed.

Lemma esc_bytes k l : Forall is_byte l -> Forall is_byte (esc k l).
Proof.
  remember (List.length l) as n eqn:Hn. revert k l Hn.
  induction (lt_wf n) as [n _ IH]. intros k l -> Hb.
  destruct l as [|c l]; [done|]. apply Forall_cons in Hb as [Hc Hb].
  assert (forall k l', (List.length l' <= List.length l)%nat ->
            Forall is_byte l' -> Forall is_byte (esc k l')) as IH'.
  { intros k' l' Hl. apply (IH (List.length l')); [cbn; lia|done]. }
  clear IH. destruct k as [|k]; cbn [esc]; [|constructor; auto].
  destruct (Z.ltb_spec c 128).
  { apply Forall_app. split; [|auto]. apply esc_ascii_bytes.
    unfold is_byte in Hc. lia. }
  destruct (Utf8.rune_size _) as [|[|n]]; [|apply Forall_app; split; [|auto]|].
  2:{ bytes. }
  all: destruct l as [|c1 [|c2 l3]]; try (constructor; auto; fail).
  all: destruct (_ && _) eqn:E; [|constructor; auto].
  all: apply Forall_app; split; [|apply IH'; [cbn; lia|]].
  all: repeat (apply Forall_cons in Hb as [? Hb]); try done.
  all: bytes.
  all: apply hex_byte; Z.to_euclidean_division_equations; lia.
Qed.

Lemma quote_bytes s : Forall is_byte (quote s).
Proof.
  unfold quote. constructor; [unfold is_byte; lia|]. apply Forall_app. split.
  - apply esc_bytes, to_bytes_range.
  - bytes.
Qed.

Lemma sep_concat_bytes ls :
  Forall (Forall is_byte) ls -> Forall is_byte (sep_concat ls).
Proof.
  induction 1 as [|x [|y ls] Hx _ IH]; [constructor|done|].
  rewrite sep_concat_cons. apply Forall_app. split; [done|].
  constructor; [unfold is_byte; lia|done].
Qed.

Lemma encode_bytes j : Forall is_byte (encode j).
Proof.
  induction j as [|b|n|s|l IH|l IH] using json_nested_ind; cbn [encode].
  - bytes.
  - destruct b; bytes.
  - apply to_bytes_range.
  - apply quote_bytes.
  - constructor; [unfold is_byte; lia|]. apply Forall_app. split.
    + by apply sep_concat_bytes, Forall_map.
    + bytes.
  - constructor; [unfold is_byte; lia|]. apply Forall_app. split.
    + apply sep_concat_bytes, Forall_map.
      eapply Forall_impl; [exact IH|]. intros [k v] Hv.
      apply Forall_app. split; [apply quote_bytes|].
      constructor; [unfold is_byte; lia|done].
    + bytes.
Qed.

(** [json.Unmarshal] of what [json.Marshal] printed. *)
Lemma Parse_Marshal j : wf j -> Parse (Marshal j) = Some j.
Proof.
  intros Hwf. unfold Parse, Marshal. rewrite to_of_bytes by apply encode_bytes.
  pose proof (reads_encode j Hwf (S (List.length (encode j))) []
                ltac:(lia) I) as H.
  rewrite app_nil_r in H. by rewrite H.
Qed.

(** Integers are well-formed numbers. *)
Lemma digits_app ds r :
  Forall (fun c => 48 <= c <= 57) ds -> stops r ->
  digits (ds ++ r) = (ds, r).
Proof.
  intros Hd Hs. induction Hd as [|c ds Hc _ IH]; cbn [app].
  - destruct r as [|c r]; [done|]. cbn. cbn in Hs.
    destruct (Z.leb_spec 48 c); [|done].
    destruct (Z.leb_spec c 57); [|done]. lia.
  - cbn. by rewrite (proj2 (Z.leb_le 48 c)), (proj2 (Z.leb_le c 57)), IH by lia.
Qed.

Lemma format_digits_digits fuel n :
  0 <= n ->
  Forall (fun c => 48 <= c <= 57) (Strconv.format_digits fuel n []).
Proof.
  revert n. induction fuel as [|fuel IH]; intros n Hn; cbn; [constructor|].
  pose proof (Z.mod_pos_bound n 10).
  destruct (_ <? _); [repeat constructor; lia|].
  rewrite Strconv.format_digits_acc. apply Forall_app. split.
  - apply IH. apply Z.div_pos; lia.
  - repeat constructor; lia.
Qed.

Lemma format_digits_no_zero fuel n d l :
  0 < n -> n < 10 ^ Z.of_nat fuel ->
  Strconv.format_digits fuel n [] = d :: l -> d <> 48.
Proof.
  revert n d l. induction fuel as [|fuel IH]; intros n d l Hn Hf; cbn; [done|].
  destruct (Z.ltb_spec n 10).
  - intros [= <- <-]. rewrite Z.mod_small by lia. lia.
  - rewrite Strconv.format_digits_acc.
    assert (n / 10 < 10 ^ Z.of_nat fuel) as Hlt.
    { apply Z.div_lt_upper_bound; [lia|].
      rewrite Nat2Z.inj_succ, Z.pow_succ_r in Hf by lia. lia. }
    assert (0 < n / 10) by (apply Z.div_str_pos; lia).
    destruct (Strconv.format_digits fuel (n / 10) []) as [|d' l'] eqn:E; cbn.
    + intros [= <- _]. destruct fuel; [cbn in Hlt; lia|].
      by destruct (Strconv.format_digits_nonnil fuel (n / 10)).
    + intros [= <- _]. eapply IH; [| |exact E]; lia.
Qed.

Lemma int_part_ok_format n :
  0 <= n < Int.two64 -> int_part_ok (Strconv.format_digits 20 n []) = true.
Proof.
  intros Hn. destruct (Strconv.format_digits 20 n []) as [|d [|d2 l]] eqn:E.
  - by destruct (Strconv.format_digits_nonnil 19 n).
  - done.
  - cbn. apply negb_true_iff, Z.eqb_neq.
    destruct (Z.eq_dec n 0) as [->|]; [by vm_compute in E|].
    eapply format_digits_no_zero; [| |exact E]; [lia|].
    change (10 ^ Z.of_nat 20) with 100000000000000000000.
    unfold Int.two64 in Hn. lia.
Qed.

Lemma parse_tail rest :
  stops rest -> parse_frac rest = Some ([], rest) /\
                parse_exp rest = Some ([], rest).
Proof.
  destruct rest as [|c r]; [done|]. cbn. intros [->|[->| ->]]; done.
Qed.

Lemma parse_num_digits ds rest :
  Forall (fun c => 48 <= c <= 57) ds -> int_part_ok ds = true ->
  stops rest ->
  parse_num (ds ++ rest) = Some (ds, rest) /\
  parse_num (45 :: ds ++ rest) = Some (45 :: ds, rest).
Proof.
  intros Hd Hok Hs. destruct (parse_tail rest Hs) as [Hf He].
  assert (parse_sign (ds ++ rest) = ([], ds ++ rest)) as Hsign.
  { destruct Hd as [|c ds Hc]; [done|]. cbn.
    by rewrite (proj2 (Z.eqb_neq c 45)) by lia. }
  split; unfold parse_num; [rewrite Hsign|cbn [parse_sign Z.eqb Pos.eqb]];
    rewrite digits_app, Hok, Hf, He by done; cbn; by rewrite !app_nil_r.
Qed.

Lemma wf_jint z : - Int.two63 <= z < Int.two64 -> wf (jint z).
Proof.
  intros Hz. cbn. unfold wf_num, Strconv.FormatInt.
  destruct (Z.ltb_spec z 0).
  - change (to_bytes (String (of_byte 45) (Strconv.FormatUint (- z))))
      with (45 :: to_bytes (Strconv.FormatUint (- z))).
    rewrite Strconv.FormatUint_bytes by lia. split; [done|].
    intros rest Hs. apply parse_num_digits; [|apply int_part_ok_format|done].
    + apply format_digits_digits. lia.
    + unfold Int.two63, Int.two64 in *. lia.
  - rewrite Strconv.FormatUint_bytes by lia.
    pose proof (format_digits_digits 20 z ltac:(lia)) as Hd.
    pose proof (int_part_ok_format z ltac:(lia)) as Hok.
    destruct (Strconv.format_digits 20 z []) as [|c l] eqn:E; [done|].
    split.
    + apply Forall_cons in Hd as [Hc _]. unfold value_start, is_ws.
      repeat match goal with |- context [c =? ?k] =>
        rewrite (proj2 (Z.eqb_neq c k)) by lia end. done.
    + intros rest Hs.
      by apply (parse_num_digits (c :: l) rest).
Qed.
End roundtrip.

(** ** Struct fields

    A decoder takes the present value of a Go variable and a JSON value, and
    returns the new value and whether there was no type error; as in the
    package, a type error leaves the variable as it was and decoding goes
    on. *)
Module Dec.
Definition t (A : Type) : Type := A -> json -> A * bool.

Definition string_ : t string := fun a j =>
  match j with JStr s => (s, true) | JNull => (a, true) | _ => (a, false) end.

Definition bool_ : t bool := fun a j =>
  match j with JBool b => (b, true) | JNull => (a, true) | _ => (a, false) end.

Definition number (parse : string -> Strconv.num_error + Z) : t Z := fun a j =>
  match j with
  | JNum n => match parse n with inr z => (z, true) | inl _ => (a, false) end
  | JNull => (a, true)
  | _ => (a, false)
  end.

Definition uint64 : t Z := number Strconv.ParseUint.
Definition int64 : t Z := number Strconv.ParseInt.

Definition parse_int32 (n : string) : Strconv.num_error + Z :=
  match Strconv.ParseInt n with
  | inr z => if (-2147483648 <=? z) && (z <? 2147483648) then inr z
             else inl Strconv.ErrRange
  | inl e => inl e
  end.
Definition int32 : t Z := number parse_int32.

(** A pointer is allocated, [zero], when it is nil. *)
Definition ptr {A} (zero : A) (d : t A) : t (option A) := fun a j =>
  match j with
  | JNull => (None, true)
  | _ => let '(x, ok) := d (default zero a) j in (Some x, ok)
  end.

(** The elements of an array; an element the slice already has is decoded
    into. *)
Fixpoint elems {A} (zero : A) (d : t A) (old : list A) (js : list json)
    : list A * bool :=
  match js with
  | [] => ([], true)
  | j :: js =>
      let '(x, ok1) := d (default zero (head old)) j in
      let '(xs, ok2) := elems zero d (tail old) js in
      (x :: xs, ok1 && ok2)
  end.

Definition slice {A} (zero : A) (d : t A) : t (list A) := fun a j =>
  match j with
  | JArr js => elems zero d a js
  | JNull => ([], true)
  | _ => (a, false)
  end.

(** Field names match exactly or, failing that, ignoring ASCII case. *)
Definition lower (a : ascii) : ascii :=
  let c := byte_of a in if (65 <=? c) && (c <=? 90) then of_byte (c + 32) else a.

Fixpoint fold_case (s : string) : string :=
  match s with
  | EmptyString => EmptyString
  | String a s => String (lower a) (fold_case s)
  end.

(** All members of the object with the field's name, in order. *)
Fixpoint field {A} (name : string) (d : t A) (a : A)
    (ms : list (string * json)) : A * bool :=
  match ms with
  | [] => (a, true)
  | (k, j) :: ms =>
      if (fold_case k =? fold_case name)%string then
        let '(a, ok1) := d a j in
        let '(a, ok2) := field name d a ms in (a, ok1 && ok2)
      else field name d a ms
  end.

Lemma field_app {A} name (d : t A) a xs ys :
  field name d a (xs ++ ys) =
  let '(a1, k1) := field name d a xs in
  let '(a2, k2) := field name d a1 ys in (a2, k1 && k2).
Proof.
  revert a. induction xs as [|[k j] xs IH]; intros a; cbn.
  - by destruct (field name d a ys).
  - destruct (_ =? _)%string.
    + destruct (d a j) as [a1 k1]. rewrite IH.
      destruct (field name d a1 xs) as [a2 k2].
      destruct (field name d a2 ys) as [a3 k3]. by rewrite andb_assoc.
    + apply IH.
Qed.

Lemma field_skip {A} name (d : t A) a k j ms :
  (fold_case k =? fold_case name)%string = false ->
  field name d a ((k, j) :: ms) = field name d a ms.
Proof. intros H. cbn. by rewrite H. Qed.
End Dec.

(** [omitempty] members of an encoded struct. *)
Module Enc.
Definition str (k s : string) : list (string * json) :=
  if is_empty s then [] else [(k, JStr s)].
Definition int (k : string) (z : Z) : list (string * json) :=
  if z =? 0 then [] else [(k, jint z)].
Definition bool_ (k : string) (b : bool) : list (string * json) :=
  if b then [(k, JBool true)] else [].
Definition opt {A} (f : A -> json) (k : string) (o : option A)
    : list (string * json) :=
  match o with None => [] | Some a => [(k, f a)] end.
Definition list {A} (f : A -> json) (k : string) (l : list A)
    : list (string * json) :=
  match l with [] => [] | _ => [(k, JArr (map f l))] end.

(** A member is read by its own field and by no other. *)
Section reading.
Context {A : Type} (name k : string) (d : Dec.t A) (a : A)
  (ms : Datatypes.list (string * json)).

Definition other : Prop :=
  (Dec.fold_case k =? Dec.fold_case name)%string = false.

Lemma str_other s :
  other -> Dec.field name d a (str k s ++ ms) = Dec.field name d a ms.
Proof. intros Ho. unfold str. destruct (is_empty s); [done|]. by apply Dec.field_skip. Qed.
Lemma int_other z :
  other -> Dec.field name d a (int k z ++ ms) = Dec.field name d a ms.
Proof. intros Ho. unfold int. destruct (z =? 0); [done|]. by apply Dec.field_skip. Qed.
Lemma bool_other b :
  other -> Dec.field name d a (bool_ k b ++ ms) = Dec.field name d a ms.
Proof. intros Ho. unfold bool_. destruct b; [|done]. by apply Dec.field_skip. Qed.
Lemma opt_other {B} (f : B -> json) o :
  other -> Dec.field name d a (opt f k o ++ ms) = Dec.field name d a ms.
Proof. intros Ho. unfold opt. destruct o; [|done]. by apply Dec.field_skip. Qed.
Lemma list_other {B} (f : B -> json) l :
  other -> Dec.field name d a (list f k l ++ ms) = Dec.field name d a ms.
Proof. intros Ho. unfold list. destruct l; [done|]. by apply Dec.field_skip. Qed.
End reading.

Lemma str_same k s ms :
  Dec.field k Dec.string_ EmptyString (str k s ++ ms)
  = Dec.field k Dec.string_ s ms.
Proof.
  unfold str. destruct s; cbn [is_empty app]; [done|]. cbn [Dec.field].
  rewrite String.eqb_refl. cbn. by destruct (Dec.field _ _ _ ms).
Qed.

Lemma optstr_same k o ms :
  Dec.field k Dec.string_ EmptyString (opt JStr k o ++ ms)
  = Dec.field k Dec.string_ (default EmptyString o) ms.
Proof.
  destruct o; [|done]. cbn [opt app Dec.field]. rewrite String.eqb_refl.
  cbn. by destruct (Dec.field _ _ _ ms).
Qed.

Lemma strptr_same k s ms :
  Dec.field k (Dec.ptr EmptyString Dec.string_) None (str k s ++ ms)
  = Dec.field k (Dec.ptr EmptyString Dec.string_)
      (if is_empty s then None else Some s) ms.
Proof.
  unfold str. destruct s; cbn [is_empty app]; [done|]. cbn [Dec.field].
  rewrite String.eqb_refl. cbn. by destruct (Dec.field _ _ _ ms).
Qed.

Lemma uint_num n :
  0 <= n < Int.two64 -> Strconv.ParseUint (Strconv.FormatInt n) = inr n.
Proof.
  intros Hn. unfold Strconv.FormatInt. rewrite (proj2 (Z.ltb_ge n 0)) by lia.
  by apply Strconv.ParseUint_FormatUint.
Qed.

Lemma uint_same k n ms :
  0 <= n < Int.two64 ->
  Dec.field k Dec.uint64 0 (int k n ++ ms) = Dec.field k Dec.uint64 n ms.
Proof.
  intros Hn. unfold int. destruct (Z.eqb_spec n 0) as [->|]; [done|].
  cbn [app Dec.field]. rewrite String.eqb_refl.
  unfold Dec.uint64 at 1, Dec.number, jint. rewrite uint_num by done.
  by destruct (Dec.field _ _ _ ms).
Qed.

Lemma int_num n :
  - Int.two63 <= n < Int.two63 -> Strconv.ParseInt (Strconv.FormatInt n) = inr n.
Proof.
  intros Hn. destruct (Z.ltb_spec n 0).
  - apply Strconv.ParseInt_FormatNeg. lia.
  - unfold Strconv.FormatInt. rewrite (proj2 (Z.ltb_ge n 0)) by lia.
    apply Strconv.ParseInt_FormatUint. lia.
Qed.

Lemma int64_same k n ms :
  - Int.two63 <= n < Int.two63 ->
  Dec.field k Dec.int64 0 (int k n ++ ms) = Dec.field k Dec.int64 n ms.
Proof.
  intros Hn. unfold int. destruct (Z.eqb_spec n 0) as [->|]; [done|].
  cbn [app Dec.field]. rewrite String.eqb_refl.
  unfold Dec.int64 at 1, Dec.number, jint. rewrite int_num by done.
  by destruct (Dec.field _ _ _ ms).
Qed.

Lemma optint64_same k o ms :
  (forall n, o = Some n -> - Int.two63 <= n < Int.two63) ->
  Dec.field k Dec.int64 0 (opt jint k o ++ ms)
  = Dec.field k Dec.int64 (default 0 o) ms.
Proof.
  intros Hn. destruct o as [n|]; [|done].
  cbn [opt app Dec.field]. rewrite String.eqb_refl.
  unfold Dec.int64 at 1, Dec.number, jint. rewrite int_num by auto.
  by destruct (Dec.field _ _ _ ms).
Qed.

Lemma int64ptr_same k n ms :
  - Int.two63 <= n < Int.two63 ->
  Dec.field k (Dec.ptr 0 Dec.int64) None (int k n ++ ms)
  = Dec.field k (Dec.ptr 0 Dec.int64) (if n =? 0 then None else Some n) ms.
Proof.
  intros Hn. unfold int. destruct (Z.eqb_spec n 0) as [->|]; [done|].
  cbn [app Dec.field]. rewrite String.eqb_refl.
  assert (Dec.ptr 0 Dec.int64 None (jint n) = (Some n, true)) as ->.
  { cbn -[Strconv.ParseInt Strconv.FormatInt].
    unfold Dec.int64, Dec.number. by rewrite int_num. }
  by destruct (Dec.field _ _ _ ms).
Qed.

Lemma optbool_same k o ms :
  Dec.field k Dec.bool_ false (opt JBool k o ++ ms)
  = Dec.field k Dec.bool_ (default false o) ms.
Proof.
  destruct o; [|done]. cbn [opt app Dec.field]. rewrite String.eqb_refl.
  cbn. by destruct (Dec.field _ _ _ ms).
Qed.

Lemma boolptr_same k b ms :
  Dec.field k (Dec.ptr false Dec.bool_) None (bool_ k b ++ ms)
  = Dec.field k (Dec.ptr false Dec.bool_) (if b then Some true else None) ms.
Proof.
  destruct b; [|done]. cbn [bool_ app Dec.field]. rewrite String.eqb_refl.
  cbn. by destruct (Dec.field _ _ _ ms).
Qed.
End Enc.

(** [fields] reads a struct back from its encoding, field by field. *)
Ltac fields :=
  repeat first
    [ rewrite Enc.str_other by (vm_compute; reflexivity)
    | rewrite Enc.int_other by (vm_compute; reflexivity)
    | rewrite Enc.bool_other by (vm_compute; reflexivity)
    | rewrite Enc.opt_other by (vm_compute; reflexivity)
    | rewrite Enc.list_other by (vm_compute; reflexivity)
    | rewrite Enc.str_same | rewrite Enc.optstr_same | rewrite Enc.strptr_same
    | rewrite Enc.optbool_same | rewrite Enc.boolptr_same
    | rewrite Enc.uint_same by eauto
    | rewrite Enc.int64_same by eauto
    | rewrite Enc.optint64_same by eauto
    | rewrite Enc.int64ptr_same by eauto ].

(** ** Encoded structs: they are well-formed documents, and each of their
    members is read back *)
(** ** Well-formed members *)
Abbreviation members_wf :=
  (Forall (fun kv : string * json =>
     Json.ValidString kv.1 = true /\ Json.wf kv.2)).

Lemma wf_members (ms : list (string * json)) :
  members_wf ms -> Json.wf (JObj ms).
Proof. by rewrite Json.wf_obj. Qed.

Lemma wf_member k j :
  Json.ValidString k = true -> Json.wf j -> members_wf [(k, j)].
Proof. by repeat constructor. Qed.

Lemma wf_str k s :
  Json.ValidString k = true -> Json.ValidString s = true ->
  members_wf (Enc.str k s).
Proof.
  intros Hk Hs. unfold Enc.str. destruct (is_empty s); [by constructor|].
  by apply wf_member.
Qed.

Lemma wf_int k z :
  Json.ValidString k = true -> - Int.two63 <= z < Int.two64 ->
  members_wf (Enc.int k z).
Proof.
  intros Hk Hs. unfold Enc.int. destruct (z =? 0); [by constructor|].
  by apply wf_member; [|apply Json.wf_jint].
Qed.

Lemma wf_bool k b : Json.ValidString k = true -> members_wf (Enc.bool_ k b).
Proof. intros Hk. destruct b; [by apply wf_member|by constructor]. Qed.

Lemma wf_opt {A} (f : A -> json) k o :
  Json.ValidString k = true -> (forall a, o = Some a -> Json.wf (f a)) ->
  members_wf (Enc.opt f k o).
Proof. intros Hk Ho. destruct o; [apply wf_member; auto|by constructor]. Qed.

(** ** Members that are read back *)
Lemma uint_small n b :
  0 <= n < b -> b <= Int.two64 ->
  Strconv.ParseUint (Strconv.FormatInt n) = inr n.
Proof. intros Hn Hb. apply Enc.uint_num. lia. Qed.

Lemma number_same k n ms parse :
  parse (Strconv.FormatInt n) = inr n ->
  Dec.field k (Dec.number parse) 0 (Enc.int k n ++ ms)
  = Dec.field k (Dec.number parse) n ms.
Proof.
  intros Hn. unfold Enc.int. destruct (Z.eqb_spec n 0) as [->|]; [done|].
  cbn [app Dec.field]. rewrite String.eqb_refl.
  unfold Dec.number at 1, jint. rewrite Hn. by destruct (Dec.field _ _ _ ms).
Qed.

(** A pointer that is nil only when the member is missing. *)
Lemma ptr_same {A} (zero : A) (d : Dec.t A) (f : A -> json) k o ms :
  (forall a, o = Some a -> d zero (f a) = (a, true) /\ f a <> JNull) ->
  Dec.field k (Dec.ptr zero d) None (Enc.opt f k o ++ ms)
  = Dec.field k (Dec.ptr zero d) o ms.
Proof.
  intros Ho. destruct o as [a|]; [|done]. destruct (Ho a eq_refl) as [Hd Hf].
  cbn [Enc.opt app Dec.field]. rewrite String.eqb_refl.
  assert (Dec.ptr zero d None (f a) = (Some a, true)) as ->.
  { unfold Dec.ptr. cbn [default]. unfold id. rewrite Hd. by destruct (f a). }
  by destruct (Dec.field _ _ _ ms).
Qed.

Lemma text_ptr_same k o ms :
  Dec.field k (Dec.ptr EmptyString Dec.string_) None (Enc.opt JStr k o ++ ms)
  = Dec.field k (Dec.ptr EmptyString Dec.string_) o ms.
Proof. by apply ptr_same. Qed.

Lemma bool_same k b ms :
  Dec.field k Dec.bool_ false (Enc.bool_ k b ++ ms) = Dec.field k Dec.bool_ b ms.
Proof.
  destruct b; [|done]. cbn [Enc.bool_ app Dec.field]. rewrite String.eqb_refl.
  cbn. by destruct (Dec.field _ _ _ ms).
Qed.

(** One member that is no encoded field but written out. *)
Lemma member_same {A} name (d : Dec.t A) a j x ms :
  d a j = (x, true) ->
  Dec.field name d a ((name, j) :: ms) = Dec.field name d x ms.
Proof.
  intros Hd. cbn [Dec.field]. rewrite String.eqb_refl, Hd.
  by destruct (Dec.field name d x ms).
Qed.

(** ** Texts that are stored or sent are UTF-8 *)
Definition utf8 (s : string) : Prop := Json.ValidString s = true.
Definition opt_utf8 (o : option string) : Prop := forall s, o = Some s -> utf8 s.

(** Splits a [Forall] over an explicit list. *)
Ltac all_texts :=
  repeat match goal with
  | H : Forall _ (_ :: _) |- _ => apply Forall_cons in H as [? H]
  end.

(** Members are well-formed, one group after the other. *)
Ltac wf_all :=
  repeat apply Forall_app_2;
  repeat first
    [ apply wf_str; [reflexivity|eassumption]
    | apply wf_bool; reflexivity
    | apply wf_int; [reflexivity|unfold Int.two63, Int.two64 in *; lia]
    | apply wf_opt; [reflexivity|]
    | apply List.Forall_nil ].
