(* ===== verification/GoLib.v ===== *)
(** * Parts of the standard library of Go: the calendar of package time, float64
    arithmetic, and package regexp on sequences of characters and runs *)

From stdpp Require Import base tactics list strings.
From Stdlib Require Import ZArith Lia Ascii.
From S2P Require Import Prelude.
#[local] Open Scope Z_scope.

(** ** The Gregorian calendar of package time *)
Definition leap (y : Z) : bool :=
  (y mod 4 =? 0) && (negb (y mod 100 =? 0) || (y mod 400 =? 0)).

Definition days_in (m y : Z) : Z :=
  if m =? 2 then if leap y then 29 else 28
  else if (m =? 4) || (m =? 6) || (m =? 9) || (m =? 11) then 30 else 31.

(** Days from 1970-01-01. *)
Fixpoint days_before_month (m : nat) (y : Z) : Z :=
  match m with
  | O => 0
  | S m => days_before_month m y + days_in (Z.of_nat (S m)) y
  end.
Definition days_before_year (y : Z) : Z :=
  365 * (y - 1) + (y - 1) / 4 - (y - 1) / 100 + (y - 1) / 400 - 719162.
Definition days (y m d : Z) : Z :=
  days_before_year y + days_before_month (Z.to_nat (m - 1)) y + (d - 1).

Lemma days_in_range m y : 28 <= days_in m y <= 31.
Proof.
  unfold days_in. destruct (m =? 2); [destruct (leap y); lia|].
  destruct (_ || _); lia.
Qed.

Definition next_day (y m d : Z) : Z * Z * Z :=
  if d <? days_in m y then (y, m, d + 1)
  else if m <? 12 then (y, m + 1, 1) else (y + 1, 1, 1).

Lemma days_epoch : days 1970 1 1 = 0.
Proof. reflexivity. Qed.

Lemma year_length y :
  days_before_year (y + 1) = days_before_year y + 365 + (if leap y then 1 else 0).
Proof.
  unfold days_before_year, leap. replace (y + 1 - 1) with y by lia.
  destruct (Z.eqb_spec (y mod 4) 0), (Z.eqb_spec (y mod 100) 0),
    (Z.eqb_spec (y mod 400) 0); cbn [andb orb negb];
    Z.to_euclidean_division_equations; lia.
Qed.

Lemma months_length y :
  days_before_month 11 y + days_in 12 y = 365 + (if leap y then 1 else 0).
Proof. unfold days_in. cbn. unfold days_in. cbn. destruct (leap y); reflexivity. Qed.

(** The days of the calendar are numbered one after the other. *)
Lemma days_next y m d :
  1 <= m <= 12 -> 1 <= d <= days_in m y ->
  let '(y', m', d') := next_day y m d in days y' m' d' = days y m d + 1.
Proof.
  intros Hm Hd. unfold next_day. destruct (Z.ltb_spec d (days_in m y)).
  - unfold days. lia.
  - assert (d = days_in m y) as -> by lia. destruct (Z.ltb_spec m 12).
    + unfold days. replace (Z.to_nat (m + 1 - 1)) with (S (Z.to_nat (m - 1))) by lia.
      cbn [days_before_month]. rewrite Nat2Z.inj_succ, Z2Nat.id by lia.
      replace (Z.succ (m - 1)) with m by lia. lia.
    + assert (m = 12) as -> by lia. unfold days. rewrite year_length.
      change (Z.to_nat (12 - 1)) with 11%nat. change (Z.to_nat (1 - 1)) with O.
      change (days_before_month 0 (y + 1)) with 0. pose proof (months_length y). lia.
Qed.

(** ** float64 arithmetic on the numbers package time computes with

    A value is a fraction [n / d] of a non-negative number below 2^53; every
    operation rounds the exact result to 53 bits, half to even. *)
Module Float.
Definition half_even (n d : Z) : Z :=
  let q := n / d in let r := n mod d in
  if 2 * r <? d then q
  else if d <? 2 * r then q + 1
  else q + q mod 2.

(** The exponent that leaves 53 bits before the point. *)
Definition scale (n d : Z) : Z :=
  let k := 52 - (Z.log2 n - Z.log2 d) in
  if n * 2 ^ k <? 2 ^ 52 * d then k + 1 else k.

(** The float nearest to [n / d], again as a fraction. *)
Definition round (n d : Z) : Z * Z :=
  if n =? 0 then (0, 1)
  else let k := scale n d in (half_even (n * 2 ^ k) d, 2 ^ k).

Definition of_int (n : Z) : Z * Z := (n, 1).
Definition add (x y : Z * Z) : Z * Z :=
  round (x.1 * y.2 + y.1 * x.2) (x.2 * y.2).
Definition div (x y : Z * Z) : Z * Z := round (x.1 * y.2) (x.2 * y.1).
(** [int(x)] *)
Definition trunc (x : Z * Z) : Z := x.1 / x.2.

(** A fraction of that range. *)
Definition fits (n d : Z) : Prop := 0 < d /\ 0 <= n < 2 ^ 53 * d.

Lemma half_even_bounds n d :
  0 < d -> 0 <= n ->
  n / d <= half_even n d /\ 2 * half_even n d * d <= 2 * n + d.
Proof.
  intros Hd Hn. unfold half_even.
  pose proof (Z.div_mod n d ltac:(lia)) as E.
  pose proof (Z.mod_pos_bound n d Hd) as Hr.
  pose proof (Z.mod_pos_bound (n / d) 2 ltac:(lia)) as H2.
  revert E Hr H2. generalize (n / d) as q, (n mod d) as r. intros q r E Hr H2.
  destruct (Z.ltb_spec (2 * r) d); [nia|].
  destruct (Z.ltb_spec d (2 * r)); nia.
Qed.

Lemma scale_spec n d :
  fits n d -> n <> 0 ->
  0 <= scale n d /\ 2 ^ 52 * d <= n * 2 ^ scale n d.
Proof.
  intros [Hd Hn] Hne. unfold scale.
  pose proof (Z.log2_spec n ltac:(lia)) as [Hn1 Hn2].
  pose proof (Z.log2_spec d Hd) as [Hd1 Hd2].
  pose proof (Z.log2_nonneg n) as Hln. pose proof (Z.log2_nonneg d) as Hld.
  assert (Z.log2 n - Z.log2 d <= 53) as Hl.
  { assert (Z.log2 n <= Z.log2 (2 ^ 53 * d)) as Hm by (apply Z.log2_le_mono; lia).
    rewrite Z.mul_comm, Z.log2_mul_pow2 in Hm by lia. lia. }
  set (k := 52 - (Z.log2 n - Z.log2 d)) in *.
  assert (2 ^ 52 * d < n * 2 ^ (k + 1)) as Hup.
  { apply Z.lt_le_trans with (2 ^ 52 * 2 ^ Z.succ (Z.log2 d)); [lia|].
    rewrite <- Z.pow_add_r by lia.
    apply Z.le_trans with (2 ^ Z.log2 n * 2 ^ (k + 1)); [|apply Z.mul_le_mono_nonneg_r; lia].
    rewrite <- Z.pow_add_r by lia. apply Z.pow_le_mono_r; lia. }
  destruct (Z.ltb_spec (n * 2 ^ k) (2 ^ 52 * d)) as [Hlt|Hge]; [split; lia|].
  split; [|done]. destruct (Z.eq_dec k (-1)) as [Hk|]; [|lia].
  rewrite Hk in Hge. change (2 ^ (-1)) with 0 in Hge. lia.
Qed.

(** What rounding keeps: the integers below, and the value up to one part in
    2^53. *)
Lemma round_spec n d :
  fits n d ->
  0 < (round n d).2 /\ 0 <= (round n d).1 /\
  (forall m, m * d <= n -> m * (round n d).2 <= (round n d).1) /\
  (round n d).1 * d * 2 ^ 53 <= n * (round n d).2 * (2 ^ 53 + 1).
Proof.
  intros Hf. unfold round. destruct (Z.eqb_spec n 0) as [->|Hne].
  - cbn [fst snd]. destruct Hf. by split_and!; try lia.
  - cbn [fst snd]. destruct (scale_spec n d Hf Hne) as [Hk Hs].
    destruct Hf as [Hd Hn]. set (k := scale n d) in *.
    pose proof (Z.pow_pos_nonneg 2 k ltac:(lia) Hk) as Hp.
    set (p := 2 ^ k) in *. clearbody p.
    destruct (half_even_bounds (n * p) d Hd ltac:(nia)) as [H1 H2].
    split_and!.
    + done.
    + apply Z.le_trans with (n * p / d); [|done]. apply Z.div_pos; nia.
    + intros m Hm. apply Z.le_trans with (n * p / d); [|done].
      apply Z.div_le_lower_bound; [done|]. nia.
    + revert H2. generalize (half_even (n * p) d). intros h H2. lia.
Qed.
End Float.

(** ** Package regexp on sequences of characters and runs

    The expressions of the program that name no alternatives: each item is one
    character of a class, or a run [+] of them, taken as long as possible. *)
Module Regexp.
Inductive item := One (p : ascii -> bool) | Many (p : ascii -> bool).

Definition char (c : ascii) : ascii -> bool := Ascii.eqb c.
Definition between (lo hi c : ascii) : bool :=
  (N_of_ascii lo <=? N_of_ascii c)%N && (N_of_ascii c <=? N_of_ascii hi)%N.

(** The match that starts here, the first in the order of preference. *)
Fixpoint at_start (l : list item) : string -> option string :=
  match l with
  | [] => fun _ => Some EmptyString
  | One p :: l => fun s =>
      match s with
      | String a s => if p a then String a <$> at_start l s else None
      | EmptyString => None
      end
  | Many p :: l =>
      fix many (s : string) :=
        match s with
        | String a s =>
            if p a then
              match many s with
              | Some m => Some (String a m)
              | None => String a <$> at_start l s
              end
            else None
        | EmptyString => None
        end
  end.

(** [FindAllString(s, 1)]: the leftmost match, or none. *)
Fixpoint FindString (l : list item) (s : string) : option string :=
  match at_start l s with
  | Some m => Some m
  | None => match s with EmptyString => None | String _ s => FindString l s end
  end.

(** The texts an expression denotes. *)
Inductive run (p : ascii -> bool) : string -> Prop :=
| Run_one a : p a = true -> run p (String a EmptyString)
| Run_more a s : p a = true -> run p s -> run p (String a s).

Fixpoint denotes (l : list item) (m : string) : Prop :=
  match l with
  | [] => m = EmptyString
  | One p :: l => exists a m', m = String a m' /\ p a = true /\ denotes l m'
  | Many p :: l => exists r m', m = String.append r m' /\ run p r /\ denotes l m'
  end.

Lemma append_cons a s t :
  String.append (String a s) t = String a (String.append s t).
Proof. reflexivity. Qed.

Lemma at_start_sound l s m :
  at_start l s = Some m -> denotes l m /\ exists r, s = String.append m r.
Proof.
  revert s m. induction l as [|[p|p] l IH]; intros s m.
  - intros [= <-]. split; [done|]. by exists s.
  - destruct s as [|a s]; [done|]. cbn. destruct (p a) eqn:Hp; [|done].
    intros (m' & E & ->)%fmap_Some. apply IH in E as [Hd [r ->]].
    split; [by exists a, m'|]. by exists r.
  - revert m. induction s as [|a s IHs]; intros m; [done|]. cbn [at_start].
    destruct (p a) eqn:Hp; [|done].
    change ((fix many (s : string) := _) s) with (at_start (Many p :: l) s).
    destruct (at_start (Many p :: l) s) as [m'|] eqn:E.
    + intros [= <-]. destruct (IHs m' eq_refl) as [(x & y & -> & Hx & Hy) [r ->]].
      split; [|by exists r]. exists (String a x), y. split; [done|]. split; [|done].
      by constructor.
    + intros (m' & E' & ->)%fmap_Some. apply IH in E' as [Hd [r ->]].
      split; [|by exists r]. exists (String a EmptyString), m'.
      split; [done|]. split; [by constructor|done].
Qed.

Lemma at_start_complete l m r :
  denotes l m -> is_Some (at_start l (String.append m r)).
Proof.
  revert m r. induction l as [|[p|p] l IH]; intros m r Hd; [by eexists|..].
  - destruct Hd as (a & m' & -> & Hp & Hd). rewrite append_cons. cbn [at_start]. rewrite Hp.
    apply fmap_is_Some. by apply IH.
  - destruct Hd as (x & m' & -> & Hx & Hd). induction Hx as [a Hp|a x Hp Hx IHx].
    + rewrite !append_cons. cbn [at_start]. rewrite Hp.
      destruct ((fix many (s : string) := _) _); [by eexists|].
      apply fmap_is_Some. by apply IH.
    + rewrite !append_cons. cbn [at_start]. rewrite Hp.
      change ((fix many (s : string) := _) ?t) with (at_start (Many p :: l) t).
      destruct IHx as [y ->]. by eexists.
Qed.

Lemma FindString_sound l s m :
  FindString l s = Some m ->
  denotes l m /\ exists x r, s = String.append x (String.append m r).
Proof.
  revert m. induction s as [|a s IH]; intros m; cbn [FindString].
  - destruct (at_start l EmptyString) eqn:E; [|done]. intros [= <-].
    apply at_start_sound in E as [Hd [r Hr]]. split; [done|]. exists EmptyString, r. done.
  - destruct (at_start l (String a s)) eqn:E.
    + intros [= <-]. apply at_start_sound in E as [Hd [r Hr]]. split; [done|].
      exists EmptyString, r. done.
    + intros [Hd (x & r & ->)]%IH. split; [done|]. by exists (String a x), r.
Qed.

(** Nothing is found exactly when no part of the text is denoted. *)
Lemma FindString_none l s :
  FindString l s = None <->
  forall x m r, s = String.append x (String.append m r) -> ~ denotes l m.
Proof.
  split.
  - intros Hn x m r -> Hd. induction x as [|a x IH].
    + destruct (at_start_complete l m r Hd) as [y E].
      change (String.append "" (String.append m r)) with (String.append m r) in Hn.
      destruct (String.append m r); cbn [FindString] in Hn; by rewrite E in Hn.
    + rewrite append_cons in Hn. cbn [FindString] in Hn.
      destruct (at_start l _); [done|]. by apply IH.
  - destruct (FindString l s) as [m|] eqn:E; [|done].
    apply FindString_sound in E as [Hd (x & r & Hs)]. intros H.
    by destruct (H x m r Hs).
Qed.

(** A prefix at no position of which a match starts is passed over. *)
Lemma FindString_skip l x s :
  (forall y a z, x = String.append y (String a z) ->
     at_start l (String a (String.append z s)) = None) ->
  FindString l (String.append x s) = FindString l s.
Proof.
  induction x as [|a x IH]; intros H; [done|].
  rewrite append_cons. cbn [FindString]. rewrite (H EmptyString a x eq_refl).
  apply IH. intros y b z ->. by apply (H (String a y) b z).
Qed.
End Regexp.
