(* ===== verification/Model.v ===== *)
(** * The database model (common/database/model/model.go)

    One module per table with its row as a record (nullable columns are
    options), the ORM facts about each table the code relies on (main primary
    key, primary key, unique columns, hooks), and the enumeration of the
    tables. *)

From stdpp Require Import base tactics list strings.
From Stdlib Require Import ZArith Lia.
From S2P Require Import Prelude GoStd.
#[local] Open Scope Z_scope.

Module Tenant.
(** A tenant; [Remarks] is nullable. *)
Record t := mk {
  ID : Z;
  Name : string;
  Remarks : option string;
  UseFlag : bool;
  CreatedAt : Z;
  UpdatedAt : Z
}.
#[global] Instance eq_dec : EqDecision t.
Proof. solve_decision. Defined.
Definition set_ID (v : Z) (r : t) : t :=
  mk v (Name r) (Remarks r) (UseFlag r) (CreatedAt r) (UpdatedAt r).
Definition set_Name (v : string) (r : t) : t :=
  mk (ID r) v (Remarks r) (UseFlag r) (CreatedAt r) (UpdatedAt r).
Definition set_Remarks (v : option string) (r : t) : t :=
  mk (ID r) (Name r) v (UseFlag r) (CreatedAt r) (UpdatedAt r).
Definition set_UseFlag (v : bool) (r : t) : t :=
  mk (ID r) (Name r) (Remarks r) v (CreatedAt r) (UpdatedAt r).
Definition set_CreatedAt (v : Z) (r : t) : t :=
  mk (ID r) (Name r) (Remarks r) (UseFlag r) v (UpdatedAt r).
Definition set_UpdatedAt (v : Z) (r : t) : t :=
  mk (ID r) (Name r) (Remarks r) (UseFlag r) (CreatedAt r) v.
End Tenant.

Module TenantSolution.
(** A solution a tenant may use. *)
Record t := mk {
  TenantID : Z;
  Solution : string
}.
#[global] Instance eq_dec : EqDecision t.
Proof. solve_decision. Defined.
End TenantSolution.

Module TenantReceiveEvent.
(** Whether a tenant is notified of an event. *)
Record t := mk {
  Code : string;
  TenantID : Z;
  ReceiveFlag : bool
}.
#[global] Instance eq_dec : EqDecision t.
Proof. solve_decision. Defined.
End TenantReceiveEvent.

Module Role.
(** A role of a solution. *)
Record t := mk {
  ID : Z;
  Solution : string;
  Role : string
}.
#[global] Instance eq_dec : EqDecision t.
Proof. solve_decision. Defined.
Definition set_ID (v : Z) (r : t) : t :=
  mk v (Solution r) (Role r).
End Role.

Module Group.
(** A group of users; deleted groups keep their row with [DeletedFlag]. *)
Record t := mk {
  ID : Z;
  TenantID : Z;
  Name : string;
  Remarks : option string;
  CreatedAt : Z;
  UpdatedAt : Z;
  DeletedFlag : bool
}.
#[global] Instance eq_dec : EqDecision t.
Proof. solve_decision. Defined.
Definition set_ID (v : Z) (r : t) : t :=
  mk v (TenantID r) (Name r) (Remarks r) (CreatedAt r) (UpdatedAt r)
    (DeletedFlag r).
Definition set_TenantID (v : Z) (r : t) : t :=
  mk (ID r) v (Name r) (Remarks r) (CreatedAt r) (UpdatedAt r)
    (DeletedFlag r).
Definition set_CreatedAt (v : Z) (r : t) : t :=
  mk (ID r) (TenantID r) (Name r) (Remarks r) v (UpdatedAt r)
    (DeletedFlag r).
Definition set_UpdatedAt (v : Z) (r : t) : t :=
  mk (ID r) (TenantID r) (Name r) (Remarks r) (CreatedAt r) v
    (DeletedFlag r).
Definition set_DeletedFlag (v : bool) (r : t) : t :=
  mk (ID r) (TenantID r) (Name r) (Remarks r) (CreatedAt r)
    (UpdatedAt r) v.
End Group.

Module User.
(** A user; passwords are stored as hex SHA-256 digests. *)
Record t := mk {
  ID : Z;
  TenantID : Z;
  Account : string;
  Name : string;
  Department : option string;
  Position : option string;
  Email : option string;
  Contact : option string;
  LanguageSet : option string;
  Timezone : option string;
  Password : string;
  OldPassword : option string;
  PasswordUpdatedAt : option Z;
  PasswordUpdateFlag : option bool;
  LastLoggedInAt : option Z;
  LastLoggedInIP : option string;
  LastLoginFailedCount : option Z;
  LastLoginFailedAt : option Z;
  CreatedAt : Z;
  UpdatedAt : Z
}.
#[global] Instance eq_dec : EqDecision t.
Proof. solve_decision. Defined.
Definition set_ID (v : Z) (r : t) : t :=
  mk v (TenantID r) (Account r) (Name r) (Department r) (Position r)
    (Email r) (Contact r) (LanguageSet r) (Timezone r) (Password r)
    (OldPassword r) (PasswordUpdatedAt r) (PasswordUpdateFlag r)
    (LastLoggedInAt r) (LastLoggedInIP r) (LastLoginFailedCount r)
    (LastLoginFailedAt r) (CreatedAt r) (UpdatedAt r).
Definition set_TenantID (v : Z) (r : t) : t :=
  mk (ID r) v (Account r) (Name r) (Department r) (Position r)
    (Email r) (Contact r) (LanguageSet r) (Timezone r) (Password r)
    (OldPassword r) (PasswordUpdatedAt r) (PasswordUpdateFlag r)
    (LastLoggedInAt r) (LastLoggedInIP r) (LastLoginFailedCount r)
    (LastLoginFailedAt r) (CreatedAt r) (UpdatedAt r).
Definition set_Password (v : string) (r : t) : t :=
  mk (ID r) (TenantID r) (Account r) (Name r) (Department r)
    (Position r) (Email r) (Contact r) (LanguageSet r) (Timezone r) v
    (OldPassword r) (PasswordUpdatedAt r) (PasswordUpdateFlag r)
    (LastLoggedInAt r) (LastLoggedInIP r) (LastLoginFailedCount r)
    (LastLoginFailedAt r) (CreatedAt r) (UpdatedAt r).
Definition set_OldPassword (v : option string) (r : t) : t :=
  mk (ID r) (TenantID r) (Account r) (Name r) (Department r)
    (Position r) (Email r) (Contact r) (LanguageSet r) (Timezone r)
    (Password r) v (PasswordUpdatedAt r) (PasswordUpdateFlag r)
    (LastLoggedInAt r) (LastLoggedInIP r) (LastLoginFailedCount r)
    (LastLoginFailedAt r) (CreatedAt r) (UpdatedAt r).
Definition set_PasswordUpdatedAt (v : option Z) (r : t) : t :=
  mk (ID r) (TenantID r) (Account r) (Name r) (Department r)
    (Position r) (Email r) (Contact r) (LanguageSet r) (Timezone r)
    (Password r) (OldPassword r) v (PasswordUpdateFlag r)
    (LastLoggedInAt r) (LastLoggedInIP r) (LastLoginFailedCount r)
    (LastLoginFailedAt r) (CreatedAt r) (UpdatedAt r).
Definition set_PasswordUpdateFlag (v : option bool) (r : t) : t :=
  mk (ID r) (TenantID r) (Account r) (Name r) (Department r)
    (Position r) (Email r) (Contact r) (LanguageSet r) (Timezone r)
    (Password r) (OldPassword r) (PasswordUpdatedAt r) v
    (LastLoggedInAt r) (LastLoggedInIP r) (LastLoginFailedCount r)
    (LastLoginFailedAt r) (CreatedAt r) (UpdatedAt r).
Definition set_LastLoggedInAt (v : option Z) (r : t) : t :=
  mk (ID r) (TenantID r) (Account r) (Name r) (Department r)
    (Position r) (Email r) (Contact r) (LanguageSet r) (Timezone r)
    (Password r) (OldPassword r) (PasswordUpdatedAt r)
    (PasswordUpdateFlag r) v (LastLoggedInIP r)
    (LastLoginFailedCount r) (LastLoginFailedAt r) (CreatedAt r)
    (UpdatedAt r).
Definition set_LastLoggedInIP (v : option string) (r : t) : t :=
  mk (ID r) (TenantID r) (Account r) (Name r) (Department r)
    (Position r) (Email r) (Contact r) (LanguageSet r) (Timezone r)
    (Password r) (OldPassword r) (PasswordUpdatedAt r)
    (PasswordUpdateFlag r) (LastLoggedInAt r) v
    (LastLoginFailedCount r) (LastLoginFailedAt r) (CreatedAt r)
    (UpdatedAt r).
Definition set_LastLoginFailedCount (v : option Z) (r : t) : t :=
  mk (ID r) (TenantID r) (Account r) (Name r) (Department r)
    (Position r) (Email r) (Contact r) (LanguageSet r) (Timezone r)
    (Password r) (OldPassword r) (PasswordUpdatedAt r)
    (PasswordUpdateFlag r) (LastLoggedInAt r) (LastLoggedInIP r) v
    (LastLoginFailedAt r) (CreatedAt r) (UpdatedAt r).
Definition set_LastLoginFailedAt (v : option Z) (r : t) : t :=
  mk (ID r) (TenantID r) (Account r) (Name r) (Department r)
    (Position r) (Email r) (Contact r) (LanguageSet r) (Timezone r)
    (Password r) (OldPassword r) (PasswordUpdatedAt r)
    (PasswordUpdateFlag r) (LastLoggedInAt r) (LastLoggedInIP r)
    (LastLoginFailedCount r) v (CreatedAt r) (UpdatedAt r).
Definition set_CreatedAt (v : Z) (r : t) : t :=
  mk (ID r) (TenantID r) (Account r) (Name r) (Department r)
    (Position r) (Email r) (Contact r) (LanguageSet r) (Timezone r)
    (Password r) (OldPassword r) (PasswordUpdatedAt r)
    (PasswordUpdateFlag r) (LastLoggedInAt r) (LastLoggedInIP r)
    (LastLoginFailedCount r) (LastLoginFailedAt r) v (UpdatedAt r).
Definition set_UpdatedAt (v : Z) (r : t) : t :=
  mk (ID r) (TenantID r) (Account r) (Name r) (Department r)
    (Position r) (Email r) (Contact r) (LanguageSet r) (Timezone r)
    (Password r) (OldPassword r) (PasswordUpdatedAt r)
    (PasswordUpdateFlag r) (LastLoggedInAt r) (LastLoggedInIP r)
    (LastLoginFailedCount r) (LastLoginFailedAt r) (CreatedAt r) v.
End User.

Module UserRole.
(** A role of a user. *)
Record t := mk {
  UserID : Z;
  RoleID : Z
}.
#[global] Instance eq_dec : EqDecision t.
Proof. solve_decision. Defined.
End UserRole.

Module UserGroup.
(** A user's membership of a group. *)
Record t := mk {
  UserID : Z;
  GroupID : Z
}.
#[global] Instance eq_dec : EqDecision t.
Proof. solve_decision. Defined.
End UserGroup.

Module UserReceiveEvent.
(** Whether a user is notified of an event ([sql.NullBool]). *)
Record t := mk {
  Code : string;
  UserID : Z;
  ReceiveFlag : option bool
}.
#[global] Instance eq_dec : EqDecision t.
Proof. solve_decision. Defined.
End UserReceiveEvent.

Module Event.
(** An event of the history. *)
Record t := mk {
  ID : Z;
  TenantID : Z;
  Code : string;
  ErrorCode : option string;
  Contents : string;
  CreatedAt : Z
}.
#[global] Instance eq_dec : EqDecision t.
Proof. solve_decision. Defined.
Definition set_ID (v : Z) (r : t) : t :=
  mk v (TenantID r) (Code r) (ErrorCode r) (Contents r) (CreatedAt r).
Definition set_CreatedAt (v : Z) (r : t) : t :=
  mk (ID r) (TenantID r) (Code r) (ErrorCode r) (Contents r) v.
End Event.

Module EventCode.
(** The classification of an event code. *)
Record t := mk {
  Code : string;
  Solution : string;
  Level : string;
  Class1 : string;
  Class2 : string;
  Class3 : string
}.
#[global] Instance eq_dec : EqDecision t.
Proof. solve_decision. Defined.
End EventCode.

Module EventError.
(** The description of an error code. *)
Record t := mk {
  Code : string;
  Solution : string;
  Service : string;
  Contents : string
}.
#[global] Instance eq_dec : EqDecision t.
Proof. solve_decision. Defined.
End EventError.

Module GlobalConfig.
(** A global setting. *)
Record t := mk {
  Key : string;
  Value : string
}.
#[global] Instance eq_dec : EqDecision t.
Proof. solve_decision. Defined.
End GlobalConfig.

Module TenantConfig.
(** A setting of a tenant. *)
Record t := mk {
  TenantID : Z;
  Key : string;
  Value : string
}.
#[global] Instance eq_dec : EqDecision t.
Proof. solve_decision. Defined.
End TenantConfig.

Module ServiceConfig.
(** A setting of a service. *)
Record t := mk {
  Name : string;
  Key : string;
  Value : string
}.
#[global] Instance eq_dec : EqDecision t.
Proof. solve_decision. Defined.
End ServiceConfig.

(** ** Hooks called by the ORM; each [time.Now().Unix()] is an argument *)
Definition Tenant_BeforeCreate (now1 now2 : Z) (t : Tenant.t) : Tenant.t :=
  Tenant.set_UpdatedAt now2 (Tenant.set_CreatedAt now1 t).
Definition Tenant_BeforeUpdate (now : Z) (t : Tenant.t) : Tenant.t :=
  Tenant.set_UpdatedAt now t.
Definition Group_BeforeCreate (now1 now2 : Z) (g : Group.t) : Group.t :=
  Group.set_UpdatedAt now2 (Group.set_CreatedAt now1 g).
Definition Group_BeforeUpdate (now : Z) (g : Group.t) : Group.t :=
  Group.set_UpdatedAt now g.
Definition User_BeforeCreate (now1 now2 : Z) (u : User.t) : User.t :=
  User.set_UpdatedAt now2 (User.set_CreatedAt now1 u).
Definition User_BeforeUpdate (now : Z) (u : User.t) : User.t :=
  User.set_UpdatedAt now u.
Definition Event_BeforeCreate (now : Z) (e : Event.t) : Event.t :=
  if Event.CreatedAt e =? 0 then Event.set_CreatedAt now e else e.

(** ** Tables *)
Inductive table :=
| TTenant | TTenantSolution | TTenantReceiveEvent | TRole | TGroup | TUser
| TUserRole | TUserGroup | TUserReceiveEvent | TEvent | TEventCode
| TEventError | TGlobalConfig | TTenantConfig | TServiceConfig.

#[export] Instance table_eq_dec : EqDecision table.
Proof. solve_decision. Defined.

Definition row (t : table) : Type :=
  match t with
  | TTenant => Tenant.t
  | TTenantSolution => TenantSolution.t
  | TTenantReceiveEvent => TenantReceiveEvent.t
  | TRole => Role.t
  | TGroup => Group.t
  | TUser => User.t
  | TUserRole => UserRole.t
  | TUserGroup => UserGroup.t
  | TUserReceiveEvent => UserReceiveEvent.t
  | TEvent => Event.t
  | TEventCode => EventCode.t
  | TEventError => EventError.t
  | TGlobalConfig => GlobalConfig.t
  | TTenantConfig => TenantConfig.t
  | TServiceConfig => ServiceConfig.t
  end.

#[export] Instance row_eq_dec t : EqDecision (row t).
Proof. destruct t; apply _. Defined.

(** The name [TableName()] gives each table. *)
Definition TableName (t : table) : string :=
  match t with
  | TTenant => "cdm_tenant"
  | TTenantSolution => "cdm_tenant_solution"
  | TTenantReceiveEvent => "cdm_tenant_receive_event"
  | TRole => "cdm_role"
  | TGroup => "cdm_group"
  | TUser => "cdm_user"
  | TUserRole => "cdm_user_role"
  | TUserGroup => "cdm_user_group"
  | TUserReceiveEvent => "cdm_user_receive_event"
  | TEvent => "cdm_event"
  | TEventCode => "cdm_event_code"
  | TEventError => "cdm_event_error"
  | TGlobalConfig => "cdm_global_config"
  | TTenantConfig => "cdm_tenant_config"
  | TServiceConfig => "cdm_service_config"
  end.

(** The ORM takes the first primary-key field (or the one named [id]) as the
    main one, and treats a record whose main field is the zero value as not
    yet stored ([PrimaryKeyZero]). *)
Definition main_key_blank (t : table) : row t -> bool :=
  match t with
  | TTenant => fun r => Tenant.ID r =? 0
  | TTenantSolution => fun r => TenantSolution.TenantID r =? 0
  | TTenantReceiveEvent => fun r => is_empty (TenantReceiveEvent.Code r)
  | TRole => fun r => Role.ID r =? 0
  | TGroup => fun r => Group.ID r =? 0
  | TUser => fun r => User.ID r =? 0
  | TUserRole => fun r => UserRole.UserID r =? 0
  | TUserGroup => fun r => UserGroup.UserID r =? 0
  | TUserReceiveEvent => fun r => is_empty (UserReceiveEvent.Code r)
  | TEvent => fun r => Event.ID r =? 0
  | TEventCode => fun r => is_empty (EventCode.Code r)
  | TEventError => fun r => is_empty (EventError.Code r)
  | TGlobalConfig => fun r => is_empty (GlobalConfig.Key r)
  | TTenantConfig => fun r => TenantConfig.TenantID r =? 0
  | TServiceConfig => fun r => is_empty (ServiceConfig.Name r)
  end.

(** Equality of the whole primary key. *)
Definition same_key (t : table) : row t -> row t -> bool :=
  match t with
  | TTenant => fun a b => Tenant.ID a =? Tenant.ID b
  | TTenantSolution => fun a b =>
      (TenantSolution.TenantID a =? TenantSolution.TenantID b)
      && (TenantSolution.Solution a =? TenantSolution.Solution b)%string
  | TTenantReceiveEvent => fun a b =>
      (TenantReceiveEvent.Code a =? TenantReceiveEvent.Code b)%string
      && (TenantReceiveEvent.TenantID a =? TenantReceiveEvent.TenantID b)
  | TRole => fun a b => Role.ID a =? Role.ID b
  | TGroup => fun a b => Group.ID a =? Group.ID b
  | TUser => fun a b => User.ID a =? User.ID b
  | TUserRole => fun a b =>
      (UserRole.UserID a =? UserRole.UserID b)
      && (UserRole.RoleID a =? UserRole.RoleID b)
  | TUserGroup => fun a b =>
      (UserGroup.UserID a =? UserGroup.UserID b)
      && (UserGroup.GroupID a =? UserGroup.GroupID b)
  | TUserReceiveEvent => fun a b =>
      (UserReceiveEvent.Code a =? UserReceiveEvent.Code b)%string
      && (UserReceiveEvent.UserID a =? UserReceiveEvent.UserID b)
  | TEvent => fun a b => Event.ID a =? Event.ID b
  | TEventCode => fun a b => (EventCode.Code a =? EventCode.Code b)%string
  | TEventError => fun a b => (EventError.Code a =? EventError.Code b)%string
  | TGlobalConfig => fun a b =>
      (GlobalConfig.Key a =? GlobalConfig.Key b)%string
  | TTenantConfig => fun a b =>
      (TenantConfig.TenantID a =? TenantConfig.TenantID b)
      && (TenantConfig.Key a =? TenantConfig.Key b)%string
  | TServiceConfig => fun a b =>
      (ServiceConfig.Name a =? ServiceConfig.Name b)%string
      && (ServiceConfig.Key a =? ServiceConfig.Key b)%string
  end.

(** Unique columns beside the primary key (NULL is equal to nothing). *)
Definition same_unique (t : table) : row t -> row t -> bool :=
  match t with
  | TUser => fun a b =>
      (User.Account a =? User.Account b)%string
      || match User.Email a, User.Email b with
         | Some x, Some y => (x =? y)%string
         | _, _ => false
         end
  | TRole => fun a b =>
      (Role.Solution a =? Role.Solution b)%string
      && (Role.Role a =? Role.Role b)%string
  | _ => fun _ _ => false
  end.

(** Two rows the table cannot hold together. *)
Definition conflict (t : table) (a b : row t) : bool :=
  same_key t a b || same_unique t a b.

(** The identifier of a table with an auto-incremented key. *)
Definition set_auto (t : table) (id : Z) : row t -> row t :=
  match t with
  | TTenant => Tenant.set_ID id
  | TRole => Role.set_ID id
  | TGroup => Group.set_ID id
  | TUser => User.set_ID id
  | TEvent => Event.set_ID id
  | _ => fun r => r
  end.

(** The value of the main key where it is numeric, for [ORDER BY]. *)
Definition main_key (t : table) : row t -> Z :=
  match t with
  | TTenant => Tenant.ID
  | TTenantSolution => TenantSolution.TenantID
  | TRole => Role.ID
  | TGroup => Group.ID
  | TUser => User.ID
  | TUserRole => UserRole.UserID
  | TUserGroup => UserGroup.UserID
  | TEvent => Event.ID
  | TTenantConfig => TenantConfig.TenantID
  | _ => fun _ => 0
  end.

(** The columns an UPDATE statement of the ORM writes over a stored row: all
    but the primary key, and [CreatedAt] only when it is not the zero value.*)
Definition update_row (t : table) : row t -> row t -> row t :=
  match t with
  | TTenant => fun r old =>
      if Tenant.CreatedAt r =? 0
      then Tenant.set_CreatedAt (Tenant.CreatedAt old) r else r
  | TGroup => fun r old =>
      if Group.CreatedAt r =? 0
      then Group.set_CreatedAt (Group.CreatedAt old) r else r
  | TUser => fun r old =>
      if User.CreatedAt r =? 0
      then User.set_CreatedAt (User.CreatedAt old) r else r
  | TEvent => fun r old =>
      if Event.CreatedAt r =? 0
      then Event.set_CreatedAt (Event.CreatedAt old) r else r
  | _ => fun r _ => r
  end.

Lemma same_key_refl t r : same_key t r r = true.
Proof.
  destruct t; cbn; rewrite ?Z.eqb_refl, ?String.eqb_refl; done.
Qed.

Lemma same_key_sym t a b : same_key t a b = same_key t b a.
Proof.
  apply eq_true_iff_eq.
  destruct t; cbn; rewrite ?andb_true_iff, ?Z.eqb_eq, ?String.eqb_eq;
    intuition congruence.
Qed.

Lemma update_row_key t r old r' :
  same_key t (update_row t r old) r' = same_key t r r'.
Proof. destruct t; cbn; try done; by destruct (_ =? 0). Qed.

Lemma update_row_unique t r old r' :
  same_unique t (update_row t r old) r' = same_unique t r r'.
Proof. destruct t; cbn; try done; by destruct (_ =? 0). Qed.

(** The values a Go variable of the field's type can hold. *)
Definition opt_i64 (o : option Z) : bool :=
  match o with Some z => Int.is_i64 z | None => true end.
Definition opt_u64 (o : option Z) : bool :=
  match o with Some z => Int.is_u64 z | None => true end.

Definition typed (t : table) : row t -> bool :=
  match t with
  | TTenant => fun r =>
      Int.is_u64 (Tenant.ID r) && Int.is_i64 (Tenant.CreatedAt r)
      && Int.is_i64 (Tenant.UpdatedAt r)
  | TTenantSolution => fun r => Int.is_u64 (TenantSolution.TenantID r)
  | TTenantReceiveEvent => fun r => Int.is_u64 (TenantReceiveEvent.TenantID r)
  | TRole => fun r => Int.is_u64 (Role.ID r)
  | TGroup => fun r =>
      Int.is_u64 (Group.ID r) && Int.is_u64 (Group.TenantID r)
      && Int.is_i64 (Group.CreatedAt r) && Int.is_i64 (Group.UpdatedAt r)
  | TUser => fun r =>
      Int.is_u64 (User.ID r) && Int.is_u64 (User.TenantID r)
      && opt_i64 (User.PasswordUpdatedAt r) && opt_i64 (User.LastLoggedInAt r)
      && opt_u64 (User.LastLoginFailedCount r)
      && opt_i64 (User.LastLoginFailedAt r)
      && Int.is_i64 (User.CreatedAt r) && Int.is_i64 (User.UpdatedAt r)
  | TUserRole => fun r => Int.is_u64 (UserRole.UserID r) && Int.is_u64 (UserRole.RoleID r)
  | TUserGroup => fun r =>
      Int.is_u64 (UserGroup.UserID r) && Int.is_u64 (UserGroup.GroupID r)
  | TUserReceiveEvent => fun r => Int.is_u64 (UserReceiveEvent.UserID r)
  | TEvent => fun r =>
      Int.is_u64 (Event.ID r) && Int.is_u64 (Event.TenantID r)
      && Int.is_i64 (Event.CreatedAt r)
  | TTenantConfig => fun r => Int.is_u64 (TenantConfig.TenantID r)
  | _ => fun _ => true
  end.
