(* ===== verification/Backend.v ===== *)
(** * The services the program runs on

    CockroachDB, etcd, RabbitMQ, the clock, the random sources, the
    cryptographic primitives, casbin and the validators are not part of the
    program.  Each is a class of operations with the documented behaviour the
    program relies on as a class of laws; every definition of the development
    takes the operations as an argument, every theorem the laws it needs. *)

From stdpp Require Import base tactics list strings sorting.
From Stdlib Require Import ZArith Lia List.
From S2P Require Import Prelude GoStd Json Model.
#[local] Open Scope Z_scope.

(** An error of the SQL driver: its text and whether its SQLSTATE is one of
    the retryable ones (40001, CR000). *)
Record sqlerr := SqlErr { sql_retryable : bool; sql_msg : string }.

(** ** The mail server: the calls of [net/smtp] *)

(** How a client proves who it is. *)
Inductive smtp_auth :=
| PLAIN (username password host : string)
| CRAMMD5 (username password : string)
| LOGIN (username password : string).

Inductive smtp_call :=
| TlsDial (address serverName : string)
| NewClient (host : string)
| SmtpDial (address : string)
| StartTLS (serverName : string)
| ClientAuth (a : smtp_auth)
| ClientMail (from : string)
| ClientRcpt (to : string)
| ClientData
| WriteData (text : string)
| CloseData
| ClientQuit.

(** ** The database: one connection's view *)
Class Database := {
  DB : Type;
  (** The rows the connection sees. *)
  rows : forall t, DB -> list (row t);
  (** The rows a rollback goes back to. *)
  base : forall t, DB -> list (row t);
  (** [SELECT ... WHERE p [OFFSET o LIMIT l]] *)
  sql_select : forall t, (row t -> bool) -> option (Z * Z) -> DB ->
               (sqlerr + list (row t)) * DB;
  (** [SELECT ... WHERE p ORDER BY <main key> LIMIT 1] *)
  sql_first : forall t, (row t -> bool) -> DB ->
              (sqlerr + option (row t)) * DB;
  sql_count : forall t, (row t -> bool) -> DB -> (sqlerr + Z) * DB;
  (** [INSERT]: a blank auto-incremented key is left out of the statement
      and returned. *)
  sql_insert : forall t, row t -> DB -> (sqlerr + row t) * DB;
  sql_update : forall t, (row t -> bool) -> (row t -> row t) -> DB ->
               (sqlerr + Z) * DB;
  sql_delete : forall t, (row t -> bool) -> DB -> (sqlerr + Z) * DB;
  (** A SELECT over several tables: the rows the joins and conditions give,
      [ORDER BY] a comparison, [OFFSET], [LIMIT]; and [SELECT count( * )]. *)
  sql_join : forall A : Type, ((forall t, list (row t)) -> list A) ->
             (A -> A -> bool) -> option Z -> option Z -> DB ->
             (sqlerr + list A) * DB;
  sql_join_count : forall A : Type, ((forall t, list (row t)) -> list A) ->
                   DB -> (sqlerr + Z) * DB;
  tx_begin : DB -> (sqlerr + unit) * DB;
  (** [SAVEPOINT cockroach_restart], [RELEASE SAVEPOINT cockroach_restart],
      [ROLLBACK TO SAVEPOINT cockroach_restart] *)
  tx_savepoint : DB -> (sqlerr + unit) * DB;
  tx_release : DB -> (sqlerr + unit) * DB;
  tx_rollback_to : DB -> (sqlerr + unit) * DB;
  tx_commit : DB -> (sqlerr + unit) * DB;
  tx_rollback : DB -> (sqlerr + unit) * DB;
  (** [LIKE]: pattern, then subject. *)
  sql_like : string -> string -> bool;
  (** The JSON of a driver error. *)
  sqlerr_json : sqlerr -> json;
  (** Rounds of the transaction retry loop the model follows. *)
  retry_fuel : nat
}.

Section database_laws.
Context `{Database}.

(** No table's rows change but (for [but]) one table's. *)
Definition same_rows (db db' : DB) : Prop := forall t, rows t db' = rows t db.
Definition same_base (db db' : DB) : Prop := forall t, base t db' = base t db.
Definition same_rows_but (t0 : table) (db db' : DB) : Prop :=
  forall t, t <> t0 -> rows t db' = rows t db.

(** A page of the selected rows, in the order the database chose. *)
Definition page_of {A} (page : option (Z * Z)) (l0 : list A) : list A :=
  match page with
  | None => l0
  | Some (offset, limit) =>
      take (Z.to_nat limit) (drop (Z.to_nat offset) l0)
  end.

(** The same where offset and limit are given apart. *)
Definition limited {A} (offset limit : option Z) (l0 : list A) : list A :=
  let l := drop (Z.to_nat (default 0 offset)) l0 in
  match limit with None => l | Some n => take (Z.to_nat n) l end.
End database_laws.

Class DatabaseLaws `{Database} : Prop := {
  (** Primary keys and unique columns. *)
  rows_unique : forall t db r1 r2,
    r1 ∈ rows t db -> r2 ∈ rows t db -> conflict t r1 r2 = true -> r1 = r2;
  rows_nodup : forall t db, NoDup (rows t db);
  (** Every column fits the Go type of its field. *)
  rows_typed : forall t db r, r ∈ rows t db -> typed t r = true;
  select_rows : forall t p page db r db',
    sql_select t p page db = (r, db') -> same_rows db db' /\ same_base db db';
  select_ok : forall t p page db l db',
    sql_select t p page db = (inr l, db') ->
    exists l0, l0 ≡ₚ List.filter p (rows t db) /\ l = page_of page l0;
  first_rows : forall t p db r db',
    sql_first t p db = (r, db') -> same_rows db db' /\ same_base db db';
  first_none : forall t p db db',
    sql_first t p db = (inr None, db') -> List.filter p (rows t db) = [];
  first_some : forall t p db x db',
    sql_first t p db = (inr (Some x), db') ->
    x ∈ rows t db /\ p x = true /\
    forall y, y ∈ rows t db -> p y = true -> main_key t x <= main_key t y;
  count_rows : forall t p db r db',
    sql_count t p db = (r, db') -> same_rows db db' /\ same_base db db';
  count_ok : forall t p db n db',
    sql_count t p db = (inr n, db') ->
    n = Z.of_nat (List.length (List.filter p (rows t db)));
  (** A failed statement changes nothing. *)
  insert_err : forall t r db e db',
    sql_insert t r db = (inl e, db') -> same_rows db db';
  insert_base : forall t r db x db',
    sql_insert t r db = (x, db') -> same_base db db';
  insert_ok : forall t r db r' db',
    sql_insert t r db = (inr r', db') ->
    (exists id, 0 < id < Int.two63 /\
       r' = if main_key_blank t r then set_auto t id r else r) /\
    rows t db' ≡ₚ r' :: rows t db /\ same_rows_but t db db';
  update_err : forall t p f db e db',
    sql_update t p f db = (inl e, db') -> same_rows db db';
  update_base : forall t p f db x db',
    sql_update t p f db = (x, db') -> same_base db db';
  update_ok : forall t p f db n db',
    sql_update t p f db = (inr n, db') ->
    rows t db' ≡ₚ map (fun r => if p r then f r else r) (rows t db) /\
    n = Z.of_nat (List.length (List.filter p (rows t db))) /\
    same_rows_but t db db';
  delete_err : forall t p db e db',
    sql_delete t p db = (inl e, db') -> same_rows db db';
  delete_base : forall t p db x db',
    sql_delete t p db = (x, db') -> same_base db db';
  delete_ok : forall t p db n db',
    sql_delete t p db = (inr n, db') ->
    rows t db' ≡ₚ List.filter (fun r => negb (p r)) (rows t db) /\
    same_rows_but t db db';
  join_rows : forall A (q : (forall t, list (row t)) -> list A) le o n db r db',
    sql_join A q le o n db = (r, db') -> same_rows db db' /\ same_base db db';
  join_ok : forall A (q : (forall t, list (row t)) -> list A) le o n db l db',
    (forall a b, le a b = true \/ le b a = true) ->
    sql_join A q le o n db = (inr l, db') ->
    exists l0, l0 ≡ₚ q (fun t => rows t db) /\
      Sorted (fun a b => le a b = true) l0 /\ l = limited o n l0;
  join_count_rows : forall A (q : (forall t, list (row t)) -> list A) db r db',
    sql_join_count A q db = (r, db') -> same_rows db db' /\ same_base db db';
  join_count_ok : forall A (q : (forall t, list (row t)) -> list A) db n db',
    sql_join_count A q db = (inr n, db') ->
    n = Z.of_nat (List.length (q (fun t => rows t db)));
  begin_rows : forall db r db', tx_begin db = (r, db') -> same_rows db db';
  begin_ok : forall db db',
    tx_begin db = (inr tt, db') -> forall t, base t db' = rows t db;
  savepoint_rows : forall db r db',
    tx_savepoint db = (r, db') -> same_rows db db' /\ same_base db db';
  release_rows : forall db r db', tx_release db = (r, db') -> same_rows db db';
  (** A retryable error means the transaction was not committed; after any
      other error it may or may not have been. *)
  release_retry : forall db e db',
    tx_release db = (inl e, db') -> sql_retryable e = true -> same_base db db';
  release_err : forall db e db',
    tx_release db = (inl e, db') ->
    same_base db db' \/ forall t, base t db' = rows t db;
  rollback_to_ok : forall db db',
    tx_rollback_to db = (inr tt, db') ->
    same_base db db' /\ forall t, rows t db' = base t db;
  rollback_to_err : forall db e db',
    tx_rollback_to db = (inl e, db') -> same_base db db';
  commit_rows : forall db r db', tx_commit db = (r, db') -> same_rows db db';
  rollback_rows : forall db r db',
    tx_rollback db = (r, db') -> forall t, rows t db' = base t db
}.

(** ** The key-value store *)
Class KeyValue := {
  KV : Type;
  (** What the store holds under a key. *)
  kv_lookup : string -> KV -> option string;
  kv_get : string -> KV -> (string + option string) * KV;
  (** The keys with a prefix in ascending order, and with their values. *)
  kv_list : string -> KV -> (string + list string) * KV;
  kv_get_prefix : string -> KV -> (string + list (string * string)) * KV;
  (** [Lease.Grant] of a number of seconds. *)
  kv_grant : Z -> KV -> (string + Z) * KV;
  kv_put : string -> string -> option Z -> KV -> (string + unit) * KV;
  (** Delete a key, or (flag) every key it is a prefix of. *)
  kv_delete : string -> bool -> KV -> (string + unit) * KV;
  (** A transaction of puts and deletes. *)
  kv_txn : list (string * (bool * option string)) -> KV -> (string + unit) * KV
}.

(** Leased keys may expire at any time: between two operations a key keeps
    its value or disappears. *)
Definition kv_expires `{KeyValue} (kv kv' : KV) : Prop :=
  forall k, kv_lookup k kv' = kv_lookup k kv \/ kv_lookup k kv' = None.

(** The same for all keys but those [p] holds of. *)
Definition kv_expires_but `{KeyValue} (p : string -> Prop) (kv kv' : KV) : Prop :=
  forall k, p k \/ kv_lookup k kv' = kv_lookup k kv \/ kv_lookup k kv' = None.

Class KeyValueLaws `{KeyValue} : Prop := {
  get_expires : forall k kv r kv', kv_get k kv = (r, kv') -> kv_expires kv kv';
  get_ok : forall k kv v kv', kv_get k kv = (inr v, kv') -> kv_lookup k kv' = v;
  list_expires : forall k kv r kv', kv_list k kv = (r, kv') -> kv_expires kv kv';
  list_ok : forall p kv l kv',
    kv_list p kv = (inr l, kv') ->
    forall k, k ∈ l <-> Strings.HasPrefix k p = true /\ is_Some (kv_lookup k kv');
  grant_expires : forall n kv r kv', kv_grant n kv = (r, kv') -> kv_expires kv kv';
  put_expires : forall k v l kv r kv',
    kv_put k v l kv = (r, kv') -> kv_expires_but (eq k) kv kv';
  put_ok : forall k v l kv kv',
    kv_put k v l kv = (inr tt, kv') -> kv_lookup k kv' = Some v;
  delete_expires : forall k kv r kv',
    kv_delete k false kv = (r, kv') -> kv_expires kv kv';
  kv_delete_ok : forall k kv kv',
    kv_delete k false kv = (inr tt, kv') -> kv_lookup k kv' = None
}.

(** ** The rest of the platform *)
Class Platform := {
  (** Reading number [n] of the clock, in nanoseconds since the epoch. *)
  clock : nat -> Z;
  (** [math/rand] after [Seed]: [Uint64()] and [Intn(n)]. *)
  rand_uint64 : Z -> Z;
  rand_intn : Z -> Z -> Z;
  (** [password.Generate(length, digits, symbols, false, false)], call
      number [n]. *)
  password_generate : nat -> Z -> Z -> Z -> string + string;
  (** [sha256.Sum256] as 32 bytes. *)
  sha256 : string -> string;
  PrivateKey : Type;
  (** [rsa.SignPSS] of a digest, call number [n], and [rsa.VerifyPSS]. *)
  SignPSS : nat -> PrivateKey -> string -> string + string;
  VerifyPSS : PrivateKey -> string -> string -> bool;
  (** Whether publication number [n] is accepted by the broker. *)
  broker_accepts : nat -> bool;
  (** [enforcer.Enforce(sub, obj, act)]: its two results. *)
  Enforce : string -> string -> string -> bool * option string;
  (** [govalidator.IsExistingEmail], [time.LoadLocation] succeeds. *)
  IsExistingEmail : string -> bool;
  (** The Unix time of a wall clock in Asia/Seoul, given as the seconds that
      clock would have in UTC (the time zone database). *)
  seoul_unix : Z -> Z;
  LoadLocation : string -> bool;
  (** [fmt.Sprintf] with the verb [%+v] of an error with its stack. *)
  stack_text : option string -> string;
  (** [strconv.Quote] *)
  Quote : string -> string
}.

Class PlatformLaws `{Platform} : Prop := {
  (** [UnixNano] until the year 2262. *)
  clock_range : forall n, 0 <= clock n < Int.two63;
  rand_uint64_range : forall seed, 0 <= rand_uint64 seed < Int.two64;
  rand_intn_range : forall seed n, 0 < n -> 0 <= rand_intn seed n < n;
  VerifyPSS_SignPSS : forall n key digest sig,
    SignPSS n key digest = inr sig -> VerifyPSS key digest sig = true
}.

(** ** All of them *)
Class Backend := {
  backend_db :: Database;
  backend_kv :: KeyValue;
  backend_platform :: Platform
}.

Class BackendLaws `{Backend} : Prop := {
  backend_db_laws :: DatabaseLaws;
  backend_kv_laws :: KeyValueLaws;
  backend_platform_laws :: PlatformLaws
}.
