(* ===== verification/Proto.v ===== *)
(** * The messages of the identity service (services/identity/proto)

    The records the generated code declares, with the JSON their tags give
    ([omitempty] everywhere; wrapper messages are structs with a [value]
    member).  A pointer to a message or wrapper is an option, a repeated
    message a list.  Text fields hold valid UTF-8, as protobuf requires. *)

From stdpp Require Import base tactics list strings.
From Stdlib Require Import ZArith Lia.
From S2P Require Import Prelude GoStd Json Model.
#[local] Open Scope Z_scope.

Module ISolution.
(** A solution of a tenant. *)
Record t := mk {
  Solution : string
}.
#[global] Instance eq_dec : EqDecision t.
Proof. solve_decision. Defined.
End ISolution.

Module ITenant.
(** A tenant; [UseFlag] is a wrapper pointer. *)
Record t := mk {
  Id : Z;
  Name : string;
  UseFlag : option bool;
  Solutions : list ISolution.t;
  Remarks : string;
  CreatedAt : Z;
  UpdatedAt : Z
}.
#[global] Instance eq_dec : EqDecision t.
Proof. solve_decision. Defined.
Definition set_UseFlag (v : option bool) (r : t) : t :=
  mk (Id r) (Name r) v (Solutions r) (Remarks r) (CreatedAt r)
    (UpdatedAt r).
Definition set_Solutions (v : list ISolution.t) (r : t) : t :=
  mk (Id r) (Name r) (UseFlag r) v (Remarks r) (CreatedAt r)
    (UpdatedAt r).
End ITenant.

Module IRole.
(** A role. *)
Record t := mk {
  Id : Z;
  Solution : string;
  Role : string
}.
#[global] Instance eq_dec : EqDecision t.
Proof. solve_decision. Defined.
End IRole.

Module IGroup.
(** A group; its times are unsigned. *)
Record t := mk {
  Id : Z;
  Tenant : option ITenant.t;
  Name : string;
  Remarks : string;
  CreatedAt : Z;
  UpdatedAt : Z
}.
#[global] Instance eq_dec : EqDecision t.
Proof. solve_decision. Defined.
Definition set_Tenant (v : option ITenant.t) (r : t) : t :=
  mk (Id r) v (Name r) (Remarks r) (CreatedAt r) (UpdatedAt r).
End IGroup.

Module ISession.
(** A session key. *)
Record t := mk {
  Key : string
}.
#[global] Instance eq_dec : EqDecision t.
Proof. solve_decision. Defined.
End ISession.

Module IUser.
(** A user as requests and responses carry it: it has no password. *)
Record t := mk {
  Id : Z;
  Tenant : option ITenant.t;
  Account : string;
  Roles : list IRole.t;
  Groups : list IGroup.t;
  Name : string;
  Department : string;
  Position : string;
  Email : string;
  Contact : string;
  LanguageSet : string;
  Timezone : string;
  CreatedAt : Z;
  LastLoggedInAt : Z;
  UpdatedAt : Z;
  PasswordUpdatedAt : Z;
  PasswordUpdateFlag : bool;
  Session : option ISession.t
}.
#[global] Instance eq_dec : EqDecision t.
Proof. solve_decision. Defined.
Definition set_Tenant (v : option ITenant.t) (r : t) : t :=
  mk (Id r) v (Account r) (Roles r) (Groups r) (Name r) (Department r)
    (Position r) (Email r) (Contact r) (LanguageSet r) (Timezone r)
    (CreatedAt r) (LastLoggedInAt r) (UpdatedAt r)
    (PasswordUpdatedAt r) (PasswordUpdateFlag r) (Session r).
Definition set_Roles (v : list IRole.t) (r : t) : t :=
  mk (Id r) (Tenant r) (Account r) v (Groups r) (Name r)
    (Department r) (Position r) (Email r) (Contact r) (LanguageSet r)
    (Timezone r) (CreatedAt r) (LastLoggedInAt r) (UpdatedAt r)
    (PasswordUpdatedAt r) (PasswordUpdateFlag r) (Session r).
Definition set_Groups (v : list IGroup.t) (r : t) : t :=
  mk (Id r) (Tenant r) (Account r) (Roles r) v (Name r) (Department r)
    (Position r) (Email r) (Contact r) (LanguageSet r) (Timezone r)
    (CreatedAt r) (LastLoggedInAt r) (UpdatedAt r)
    (PasswordUpdatedAt r) (PasswordUpdateFlag r) (Session r).
Definition set_Session (v : option ISession.t) (r : t) : t :=
  mk (Id r) (Tenant r) (Account r) (Roles r) (Groups r) (Name r)
    (Department r) (Position r) (Email r) (Contact r) (LanguageSet r)
    (Timezone r) (CreatedAt r) (LastLoggedInAt r) (UpdatedAt r)
    (PasswordUpdatedAt r) (PasswordUpdateFlag r) v.
End IUser.

Module ISimpleUser.
(** The short form of a user. *)
Record t := mk {
  Id : Z;
  Tenant : option ITenant.t;
  Account : string;
  Roles : list IRole.t;
  Groups : list IGroup.t;
  Name : string;
  Department : string;
  Position : string;
  Email : string;
  Contact : string
}.
#[global] Instance eq_dec : EqDecision t.
Proof. solve_decision. Defined.
Definition set_Tenant (v : option ITenant.t) (r : t) : t :=
  mk (Id r) v (Account r) (Roles r) (Groups r) (Name r) (Department r)
    (Position r) (Email r) (Contact r).
Definition set_Roles (v : list IRole.t) (r : t) : t :=
  mk (Id r) (Tenant r) (Account r) v (Groups r) (Name r)
    (Department r) (Position r) (Email r) (Contact r).
Definition set_Groups (v : list IGroup.t) (r : t) : t :=
  mk (Id r) (Tenant r) (Account r) (Roles r) v (Name r) (Department r)
    (Position r) (Email r) (Contact r).
End ISimpleUser.

Module LoginRequest.
(** A login; [Password] is the digest the client computed. *)
Record t := mk {
  Account : string;
  Password : string;
  Force : bool
}.
End LoginRequest.

Module GetUsersRequest.
(** The filters of a user list. *)
Record t := mk {
  Limit : option Z;
  Offset : option Z;
  Solution : string;
  Role : string;
  GroupId : Z;
  Name : string;
  Department : string;
  Position : string;
  LoginOnly : bool;
  ExcludeGroupId : Z
}.
End GetUsersRequest.

Module Pagination.
(** The page of a user list. *)
Record t := mk {
  Page : option Z;
  TotalPage : option Z;
  TotalItems : option Z
}.
#[global] Instance eq_dec : EqDecision t.
Proof. solve_decision. Defined.
End Pagination.

Module UpdateUserRequest.
(** An update of a user. *)
Record t := mk {
  UserId : Z;
  User : option IUser.t
}.
End UpdateUserRequest.

Module UpdateUserPasswordRequest.
(** A change of password. *)
Record t := mk {
  UserId : Z;
  CurrentPassword : string;
  NewPassword : string
}.
End UpdateUserPasswordRequest.

Module UpdateGroupRequest.
(** An update of a group. *)
Record t := mk {
  GroupId : Z;
  Group : option IGroup.t
}.
End UpdateGroupRequest.

Module SetGroupUsersRequest.
(** The users a group shall have. *)
Record t := mk {
  GroupId : Z;
  Users : list IUser.t
}.
End SetGroupUsersRequest.

Module UpdateTenantRequest.
(** An update of a tenant. *)
Record t := mk {
  TenantId : Z;
  Tenant : option ITenant.t
}.
End UpdateTenantRequest.

Module IConfig.
(** The account settings of a tenant, all optional. *)
Record t := mk {
  GlobalTimezone : option string;
  GlobalLanguageSet : option string;
  UserLoginRestrictionEnable : option bool;
  UserLoginRestrictionTryCount : option Z;
  UserLoginRestrictionTime : option Z;
  UserReuseOldPassword : option bool;
  UserPasswordChangeCycle : option Z;
  UserSessionTimeout : option Z
}.
#[global] Instance eq_dec : EqDecision t.
Proof. solve_decision. Defined.
End IConfig.

(** ** JSON *)
Definition BoolValue_enc (b : bool) : json := JObj (Enc.bool_ "value" b).
Definition BoolValue_dec : Dec.t bool := fun b j =>
  match j with
  | JObj ms => Dec.field "value" Dec.bool_ b ms
  | JNull => (b, true)
  | _ => (b, false)
  end.

Definition ISolution_enc (r : ISolution.t) : json :=
  JObj (
    Enc.str "solution" (ISolution.Solution r) ++ []).

Definition ISolution_zero : ISolution.t :=
  ISolution.mk "".
Definition ISolution_dec : Dec.t ISolution.t := fun r j =>
  match j with
  | JObj ms =>
      let '(v0, k0) := Dec.field "solution" Dec.string_ (ISolution.Solution r) ms in
      (ISolution.mk v0, k0)
  | JNull => (r, true)
  | _ => (r, false)
  end.

Definition ITenant_enc (r : ITenant.t) : json :=
  JObj (
    Enc.int "id" (ITenant.Id r)
    ++ Enc.str "name" (ITenant.Name r)
    ++ Enc.opt BoolValue_enc "use_flag" (ITenant.UseFlag r)
    ++ Enc.list ISolution_enc "solutions" (ITenant.Solutions r)
    ++ Enc.str "remarks" (ITenant.Remarks r)
    ++ Enc.int "created_at" (ITenant.CreatedAt r)
    ++ Enc.int "updated_at" (ITenant.UpdatedAt r) ++ []).

Definition ITenant_zero : ITenant.t :=
  ITenant.mk 0 "" None [] "" 0 0.
Definition ITenant_dec : Dec.t ITenant.t := fun r j =>
  match j with
  | JObj ms =>
      let '(v0, k0) := Dec.field "id" Dec.uint64 (ITenant.Id r) ms in
      let '(v1, k1) := Dec.field "name" Dec.string_ (ITenant.Name r) ms in
      let '(v2, k2) := Dec.field "use_flag" (Dec.ptr false BoolValue_dec) (ITenant.UseFlag r) ms in
      let '(v3, k3) := Dec.field "solutions" (Dec.slice ISolution_zero ISolution_dec) (ITenant.Solutions r) ms in
      let '(v4, k4) := Dec.field "remarks" Dec.string_ (ITenant.Remarks r) ms in
      let '(v5, k5) := Dec.field "created_at" Dec.int64 (ITenant.CreatedAt r) ms in
      let '(v6, k6) := Dec.field "updated_at" Dec.int64 (ITenant.UpdatedAt r) ms in
      (ITenant.mk v0 v1 v2 v3 v4 v5 v6, k0 && k1 && k2 && k3 && k4 &&
        k5 && k6)
  | JNull => (r, true)
  | _ => (r, false)
  end.

Definition IRole_enc (r : IRole.t) : json :=
  JObj (
    Enc.int "id" (IRole.Id r)
    ++ Enc.str "solution" (IRole.Solution r)
    ++ Enc.str "role" (IRole.Role r) ++ []).

Definition IRole_zero : IRole.t :=
  IRole.mk 0 "" "".
Definition IRole_dec : Dec.t IRole.t := fun r j =>
  match j with
  | JObj ms =>
      let '(v0, k0) := Dec.field "id" Dec.uint64 (IRole.Id r) ms in
      let '(v1, k1) := Dec.field "solution" Dec.string_ (IRole.Solution r) ms in
      let '(v2, k2) := Dec.field "role" Dec.string_ (IRole.Role r) ms in
      (IRole.mk v0 v1 v2, k0 && k1 && k2)
  | JNull => (r, true)
  | _ => (r, false)
  end.

Definition IGroup_enc (r : IGroup.t) : json :=
  JObj (
    Enc.int "id" (IGroup.Id r)
    ++ Enc.opt ITenant_enc "tenant" (IGroup.Tenant r)
    ++ Enc.str "name" (IGroup.Name r)
    ++ Enc.str "remarks" (IGroup.Remarks r)
    ++ Enc.int "created_at" (IGroup.CreatedAt r)
    ++ Enc.int "updated_at" (IGroup.UpdatedAt r) ++ []).

Definition IGroup_zero : IGroup.t :=
  IGroup.mk 0 None "" "" 0 0.
Definition IGroup_dec : Dec.t IGroup.t := fun r j =>
  match j with
  | JObj ms =>
      let '(v0, k0) := Dec.field "id" Dec.uint64 (IGroup.Id r) ms in
      let '(v1, k1) := Dec.field "tenant" (Dec.ptr ITenant_zero ITenant_dec) (IGroup.Tenant r) ms in
      let '(v2, k2) := Dec.field "name" Dec.string_ (IGroup.Name r) ms in
      let '(v3, k3) := Dec.field "remarks" Dec.string_ (IGroup.Remarks r) ms in
      let '(v4, k4) := Dec.field "created_at" Dec.uint64 (IGroup.CreatedAt r) ms in
      let '(v5, k5) := Dec.field "updated_at" Dec.uint64 (IGroup.UpdatedAt r) ms in
      (IGroup.mk v0 v1 v2 v3 v4 v5, k0 && k1 && k2 && k3 && k4 && k5)
  | JNull => (r, true)
  | _ => (r, false)
  end.

Definition ISession_enc (r : ISession.t) : json :=
  JObj (
    Enc.str "key" (ISession.Key r) ++ []).

Definition ISession_zero : ISession.t :=
  ISession.mk "".
Definition ISession_dec : Dec.t ISession.t := fun r j =>
  match j with
  | JObj ms =>
      let '(v0, k0) := Dec.field "key" Dec.string_ (ISession.Key r) ms in
      (ISession.mk v0, k0)
  | JNull => (r, true)
  | _ => (r, false)
  end.

Definition IUser_enc (r : IUser.t) : json :=
  JObj (
    Enc.int "id" (IUser.Id r)
    ++ Enc.opt ITenant_enc "tenant" (IUser.Tenant r)
    ++ Enc.str "account" (IUser.Account r)
    ++ Enc.list IRole_enc "roles" (IUser.Roles r)
    ++ Enc.list IGroup_enc "groups" (IUser.Groups r)
    ++ Enc.str "name" (IUser.Name r)
    ++ Enc.str "department" (IUser.Department r)
    ++ Enc.str "position" (IUser.Position r)
    ++ Enc.str "email" (IUser.Email r)
    ++ Enc.str "contact" (IUser.Contact r)
    ++ Enc.str "language_set" (IUser.LanguageSet r)
    ++ Enc.str "timezone" (IUser.Timezone r)
    ++ Enc.int "created_at" (IUser.CreatedAt r)
    ++ Enc.int "last_logged_in_at" (IUser.LastLoggedInAt r)
    ++ Enc.int "updated_at" (IUser.UpdatedAt r)
    ++ Enc.int "password_updated_at" (IUser.PasswordUpdatedAt r)
    ++ Enc.bool_ "password_update_flag" (IUser.PasswordUpdateFlag r)
    ++ Enc.opt ISession_enc "session" (IUser.Session r) ++ []).

Definition IUser_zero : IUser.t :=
  IUser.mk 0 None "" [] [] "" "" "" "" "" "" "" 0 0 0 0 false None.
Definition IUser_dec : Dec.t IUser.t := fun r j =>
  match j with
  | JObj ms =>
      let '(v0, k0) := Dec.field "id" Dec.uint64 (IUser.Id r) ms in
      let '(v1, k1) := Dec.field "tenant" (Dec.ptr ITenant_zero ITenant_dec) (IUser.Tenant r) ms in
      let '(v2, k2) := Dec.field "account" Dec.string_ (IUser.Account r) ms in
      let '(v3, k3) := Dec.field "roles" (Dec.slice IRole_zero IRole_dec) (IUser.Roles r) ms in
      let '(v4, k4) := Dec.field "groups" (Dec.slice IGroup_zero IGroup_dec) (IUser.Groups r) ms in
      let '(v5, k5) := Dec.field "name" Dec.string_ (IUser.Name r) ms in
      let '(v6, k6) := Dec.field "department" Dec.string_ (IUser.Department r) ms in
      let '(v7, k7) := Dec.field "position" Dec.string_ (IUser.Position r) ms in
      let '(v8, k8) := Dec.field "email" Dec.string_ (IUser.Email r) ms in
      let '(v9, k9) := Dec.field "contact" Dec.string_ (IUser.Contact r) ms in
      let '(v10, k10) := Dec.field "language_set" Dec.string_ (IUser.LanguageSet r) ms in
      let '(v11, k11) := Dec.field "timezone" Dec.string_ (IUser.Timezone r) ms in
      let '(v12, k12) := Dec.field "created_at" Dec.int64 (IUser.CreatedAt r) ms in
      let '(v13, k13) := Dec.field "last_logged_in_at" Dec.int64 (IUser.LastLoggedInAt r) ms in
      let '(v14, k14) := Dec.field "updated_at" Dec.int64 (IUser.UpdatedAt r) ms in
      let '(v15, k15) := Dec.field "password_updated_at" Dec.int64 (IUser.PasswordUpdatedAt r) ms in
      let '(v16, k16) := Dec.field "password_update_flag" Dec.bool_ (IUser.PasswordUpdateFlag r) ms in
      let '(v17, k17) := Dec.field "session" (Dec.ptr ISession_zero ISession_dec) (IUser.Session r) ms in
      (IUser.mk v0 v1 v2 v3 v4 v5 v6 v7 v8 v9 v10 v11 v12 v13 v14 v15
        v16 v17, k0 && k1 && k2 && k3 && k4 && k5 && k6 && k7 && k8 &&
        k9 && k10 && k11 && k12 && k13 && k14 && k15 && k16 && k17)
  | JNull => (r, true)
  | _ => (r, false)
  end.

Definition ISimpleUser_zero : ISimpleUser.t :=
  ISimpleUser.mk 0 None "" [] [] "" "" "" "" "".
Definition ISimpleUser_dec : Dec.t ISimpleUser.t := fun r j =>
  match j with
  | JObj ms =>
      let '(v0, k0) := Dec.field "id" Dec.uint64 (ISimpleUser.Id r) ms in
      let '(v1, k1) := Dec.field "tenant" (Dec.ptr ITenant_zero ITenant_dec) (ISimpleUser.Tenant r) ms in
      let '(v2, k2) := Dec.field "account" Dec.string_ (ISimpleUser.Account r) ms in
      let '(v3, k3) := Dec.field "roles" (Dec.slice IRole_zero IRole_dec) (ISimpleUser.Roles r) ms in
      let '(v4, k4) := Dec.field "groups" (Dec.slice IGroup_zero IGroup_dec) (ISimpleUser.Groups r) ms in
      let '(v5, k5) := Dec.field "name" Dec.string_ (ISimpleUser.Name r) ms in
      let '(v6, k6) := Dec.field "department" Dec.string_ (ISimpleUser.Department r) ms in
      let '(v7, k7) := Dec.field "position" Dec.string_ (ISimpleUser.Position r) ms in
      let '(v8, k8) := Dec.field "email" Dec.string_ (ISimpleUser.Email r) ms in
      let '(v9, k9) := Dec.field "contact" Dec.string_ (ISimpleUser.Contact r) ms in
      (ISimpleUser.mk v0 v1 v2 v3 v4 v5 v6 v7 v8 v9, k0 && k1 && k2 &&
        k3 && k4 && k5 && k6 && k7 && k8 && k9)
  | JNull => (r, true)
  | _ => (r, false)
  end.

