(* ===== verification/Errors.v ===== *)
(** * common/errors: error values (error.go, options.go, param.go, system.go,
    ipc.go)

    An [err] is any error value the services handle; a nil error is the
    absence of one.  [error_string] is the method [Error()], on which
    [Equal] compares. *)

From stdpp Require Import base tactics list strings.
From Stdlib Require Import ZArith Lia.
From S2P Require Import Prelude GoStd Json Backend.
#[local] Open Scope Z_scope.

(** The values of a context map.  [VInt32] is kept apart because
    [GetIPCStatusCode] asserts that type; [VCause] is a cause formatted with
    its stack, [VErr] the cause itself, [VJson] any other value by its JSON. *)
Inductive evalue (E : Type) :=
| VStr (s : string)
| VInt (z : Z)
| VInt32 (z : Z)
| VStrs (l : list string)
| VCause (cause : option E)
| VErr (cause : option E)
| VMsg (code contents : string)
| VJson (j : json).
Arguments VStr {E}. Arguments VInt {E}. Arguments VInt32 {E}.
Arguments VStrs {E}. Arguments VCause {E}. Arguments VErr {E}.
Arguments VMsg {E}. Arguments VJson {E}.

#[local] Set Warnings "-register-all".
Inductive err :=
(** [errors.New] of this package: a sentinel *)
| ENew (msg : string)
(** [Wrap(base, WithValue(value))]; no value is the empty map *)
| EWrap (base : err) (value : list (string * evalue err))
(** [errors.New] of the standard library *)
| EPlain (msg : string)
(** [gorm.ErrRecordNotFound] and driver errors *)
| ERecordNotFound
| EDriver (e : sqlerr)
(** an error of another client library (etcd, RabbitMQ, casbin, crypto) *)
| ERemote (msg : string)
(** [*strconv.NumError] *)
| ENum (func num : string) (e : Strconv.num_error)
(** go-micro's [errors.New(id, detail, code)] *)
| EMicro (id detail : string) (code : Z)
(** A nil pointer was dereferenced: the run panics. *)
| EPanic
(** Of the model only: the transaction loop was still retrying when the rounds
    it follows ran out. *)
| ERetrying.

(** ** http.StatusText, for the codes in use *)
Definition StatusText (code : Z) : string :=
  if code =? 200 then "OK"
  else if code =? 204 then "No Content"
  else if code =? 400 then "Bad Request"
  else if code =? 401 then "Unauthorized"
  else if code =? 403 then "Forbidden"
  else if code =? 404 then "Not Found"
  else if code =? 408 then "Request Timeout"
  else if code =? 409 then "Conflict"
  else if code =? 412 then "Precondition Failed"
  else if code =? 500 then "Internal Server Error"
  else if code =? 501 then "Not Implemented"
  else if code =? 502 then "Bad Gateway"
  else if code =? 503 then "Service Unavailable"
  else "".

Definition micro_json (id detail : string) (code : Z) (status : string) : json :=
  JObj (Enc.str "id" id ++ Enc.int "code" code ++ Enc.str "detail" detail
        ++ Enc.str "status" status).

Section error_text.
Context `{Platform}.

Definition num_error_text (e : Strconv.num_error) : string :=
  match e with
  | Strconv.ErrSyntax => "invalid syntax"
  | Strconv.ErrRange => "value out of range"
  end.

(** [err.Error()] *)
Fixpoint error_string (e : err) : string :=
  match e with
  | ENew m => m
  | EWrap b _ => error_string b
  | EPlain m | ERemote m => m
  | ERecordNotFound => "record not found"
  | EDriver e => sql_msg e
  | ENum f n e =>
      String.append "strconv." (String.append f (String.append ": parsing "
        (String.append (Quote n) (String.append ": " (num_error_text e)))))
  | EMicro id detail code =>
      Json.Marshal (micro_json id detail code (StatusText code))
  | EPanic => "runtime error: invalid memory address or nil pointer dereference"
  | ERetrying => "retrying"
  end.

(** [Equal(a, b)]: [a] is nil or the texts differ. *)
Definition Equal (a : option err) (b : err) : bool :=
  match a with
  | None => false
  | Some a => (error_string a =? error_string b)%string
  end.
End error_text.

(** [Wrap(err, CallerSkipCount(1), WithValue(v))] *)
Definition Wrap (base : err) (v : list (string * evalue err)) : err :=
  EWrap base v.

(** ** Parameter errors (param.go) *)
Definition ErrRequiredParameter := ENew "required parameter".
Definition ErrUnchangeableParameter := ENew "unchangeable parameter".
Definition ErrConflictParameterValue := ENew "conflict parameter value".
Definition ErrInvalidParameterValue := ENew "invalid parameter value".
Definition ErrLengthOverflowParameterValue :=
  ENew "length overflow parameter value".
Definition ErrOutOfRangeParameterValue := ENew "out of range parameter value".
Definition ErrUnavailableParameterValue := ENew "unavailable parameter value".
Definition ErrPatternMismatchParameterValue :=
  ENew "pattern mismatch parameter value".
Definition ErrFormatMismatchParameterValue :=
  ENew "format mismatch parameter value".

Definition RequiredParameter (param : string) : err :=
  Wrap ErrRequiredParameter [("param", VStr param)].
Definition UnchangeableParameter (param : string) : err :=
  Wrap ErrUnchangeableParameter [("param", VStr param)].
Definition ConflictParameterValue (param : string) (value : evalue err) : err :=
  Wrap ErrConflictParameterValue [("param", VStr param); ("value", value)].
Definition InvalidParameterValue (param : string) (value : evalue err)
    (cause : string) : err :=
  Wrap ErrInvalidParameterValue
    [("param", VStr param); ("value", value); ("cause", VStr cause)].
Definition LengthOverflowParameterValue (param value : string) (maxLength : Z)
    : err :=
  Wrap ErrLengthOverflowParameterValue
    [("param", VStr param); ("value", VStr value);
     ("max_length", VInt maxLength)].
Definition OutOfRangeParameterValue (param : string)
    (value min max : evalue err) : err :=
  Wrap ErrOutOfRangeParameterValue
    [("param", VStr param); ("value", value); ("min", min); ("max", max)].
Definition UnavailableParameterValue (param : string) (value : evalue err)
    (availableValues : list string) : err :=
  Wrap ErrUnavailableParameterValue
    [("param", VStr param); ("value", value);
     ("available_values", VStrs availableValues)].
Definition FormatMismatchParameterValue (param : string) (value : evalue err)
    (format : string) : err :=
  Wrap ErrFormatMismatchParameterValue
    [("param", VStr param); ("value", value); ("format", VStr format)].

(** ** System errors (system.go) *)
Definition ErrUnusableDatabase := ENew "unusable database".
Definition ErrUnusableStore := ENew "unusable key-value store".
Definition ErrUnusableBroker := ENew "unusable broker".
Definition ErrUnknown := ENew "unknown error".

Definition UnusableDatabase (cause : option err) : err :=
  Wrap ErrUnusableDatabase [("cause", VCause cause); ("db_error", VErr cause)].
Definition UnusableStore (cause : option err) : err :=
  Wrap ErrUnusableStore [("cause", VCause cause)].
Definition UnusableBroker (cause : option err) : err :=
  Wrap ErrUnusableBroker [("cause", VCause cause)].
Definition Unknown (cause : option err) : err :=
  Wrap ErrUnknown [("cause", VCause cause)].

(** [e.value[key]]: the keys of a map literal are distinct. *)
Fixpoint value_at (key : string) (v : list (string * evalue err))
    : option (evalue err) :=
  match v with
  | [] => None
  | (k, x) :: v => if (k =? key)%string then Some x else value_at key v
  end.

Definition value_of (e : err) : list (string * evalue err) :=
  match e with EWrap _ v => v | _ => [] end.

Definition UnwrapUnusableDatabase `{Platform} (e : err) : err :=
  if negb (Equal (Some e) ErrUnusableDatabase) then e
  else match value_at "db_error" (value_of e) with
       | Some (VErr (Some dbError)) => dbError
       | _ => e
       end.

(** ** Request errors (request.go) *)
Definition ErrInvalidRequest := ENew "invalid request".
Definition ErrUnauthenticatedRequest := ENew "unauthenticated request".
Definition ErrUnauthorizedRequest := ENew "unauthorized request".
Definition ErrNoContent := ENew "no content".

(** ** Errors as JSON ([MarshalJSON] and the map of values) *)
Section error_json.
Context `{Platform} `{Database}.

(** Maps are printed with their keys in order. *)
Fixpoint insert_key (k : string) (j : json) (ms : list (string * json))
    : list (string * json) :=
  match ms with
  | [] => [(k, j)]
  | (k', j') :: ms =>
      match String.compare k k' with
      | Gt => (k', j') :: insert_key k j ms
      | _ => (k, j) :: (k', j') :: ms
      end
  end.

Definition sort_keys (ms : list (string * json)) : list (string * json) :=
  fold_right (fun kv acc => insert_key kv.1 kv.2 acc) [] ms.

Fixpoint error_json (e : err) : json :=
  match e with
  | ENew _ => JNull
  | EWrap _ [] => JNull
  | EWrap _ v =>
      JObj (sort_keys (map (fun '(k, x) =>
        (k, match x with
            | VStr s => JStr s
            | VInt z | VInt32 z => jint z
            | VStrs l => JArr (map JStr l)
            | VCause None => JStr (stack_text None)
            | VCause (Some c) => JStr (stack_text (Some (error_string c)))
            | VErr None => JNull
            | VErr (Some c) => error_json c
            | VMsg code contents =>
                JObj (Enc.str "code" code ++ Enc.str "contents" contents)
            | VJson j => j
            end)) v))
  | EPlain _ | ERemote _ | ERecordNotFound | EPanic | ERetrying =>
      JObj []
  | EDriver e => sqlerr_json e
  | ENum f n _ =>
      JObj [("Func", JStr f); ("Num", JStr n); ("Err", JObj [])]
  | EMicro id detail code => micro_json id detail code (StatusText code)
  end.
End error_json.

(** ** Errors between processes (ipc.go) *)
Definition ErrIPCFailed := ENew "inter process communication failed".
Definition ErrIPCSuccess := ENew "inter process communication success".

Definition IPCStatusUnknown : Z := 0.

Record MicroError := mkMicroError {
  me_id : string; me_code : Z; me_detail : string; me_status : string }.

(** go-micro's [errors.Parse] *)
Definition micro_parse (s : string) : MicroError :=
  match Json.Parse s with
  | None => mkMicroError "" 0 s ""
  | Some (JObj ms) =>
      let '(id, k1) := Dec.field "id" Dec.string_ EmptyString ms in
      let '(code, k2) := Dec.field "code" Dec.int32 0 ms in
      let '(detail, k3) := Dec.field "detail" Dec.string_ EmptyString ms in
      let '(status, k4) := Dec.field "status" Dec.string_ EmptyString ms in
      mkMicroError id code
        (if k1 && k2 && k3 && k4 then detail else s) status
  | Some JNull => mkMicroError "" 0 "" ""
  | Some _ => mkMicroError "" 0 s ""
  end.

(** [json.Unmarshal] into a [Message]; [None] is its error. *)
Definition message_parse (s : string) : option (string * string) :=
  match Json.Parse s with
  | Some (JObj ms) =>
      let '(code, k1) := Dec.field "code" Dec.string_ EmptyString ms in
      let '(contents, k2) := Dec.field "contents" Dec.string_ EmptyString ms in
      if k1 && k2 then Some (code, contents) else None
  | Some JNull => Some (EmptyString, EmptyString)
  | _ => None
  end.

(** The fields a failed decoding still sets. *)
Definition message_partial (s : string) : string :=
  match Json.Parse s with
  | Some (JObj ms) =>
      (Dec.field "contents" Dec.string_ EmptyString ms).1
  | _ => EmptyString
  end.

Section ipc.
Context `{Platform}.

Definition IsIPCFailed (cause : option err) : bool :=
  match cause with
  | None => false
  | Some c => 400 <=? me_code (micro_parse (error_string c))
  end.

Definition IsIPCSuccess (cause : option err) : bool :=
  match cause with
  | None => false
  | Some c =>
      (200 <=? me_code (micro_parse (error_string c)))
      && (me_code (micro_parse (error_string c)) <? 300)
  end.

(** The message of a detail: one that is not a message with a code is the
    code itself. *)
Definition ipc_message (detail : string) : string * string :=
  match message_parse detail with
  | Some (code, contents) =>
      (if is_empty code then detail else code, contents)
  | None => (detail, message_partial detail)
  end.

Definition ipc_wrap (sentinel cause : err) : err :=
  let e := micro_parse (error_string cause) in
  let '(code, contents) := ipc_message (me_detail e) in
  Wrap sentinel
    [("code", VInt32 (me_code e)); ("message", VMsg code contents)].

Definition IPCFailed (cause : err) : err := ipc_wrap ErrIPCFailed cause.
Definition IPCSuccess (cause : err) : err := ipc_wrap ErrIPCSuccess cause.

(** The error whose values are read; [None] is a type assertion that
    panics: the text is the sentinel's but the error is another package's. *)
Definition as_Error (e : err) : option err :=
  match e with ENew _ | EWrap _ _ => Some e | _ => None end.

Definition GetIPCMessage (e : option err) : option (option (string * string)) :=
  match e with
  | None => Some None
  | Some c =>
      let read x :=
        match value_at "message" (value_of x) with
        | Some (VMsg code contents) => Some (code, contents)
        | _ => None
        end in
      if Equal e ErrIPCFailed then
        match as_Error c with Some x => Some (read x) | None => None end
      else if IsIPCFailed e then Some (read (IPCFailed c))
      else Some None
  end.

Definition GetIPCStatusCode (e : option err) : option Z :=
  match e with
  | None => Some IPCStatusUnknown
  | Some c =>
      let read x :=
        match value_at "code" (value_of x) with
        | Some (VInt32 z) => z
        | _ => IPCStatusUnknown
        end in
      if Equal e ErrIPCFailed || Equal e ErrIPCSuccess then
        match as_Error c with Some x => Some (read x) | None => None end
      else if IsIPCFailed e then Some (read (IPCFailed c))
      else if IsIPCSuccess e then Some (read (IPCSuccess c))
      else Some IPCStatusUnknown
  end.

Definition in_status_range (lo hi : Z) (e : option err) : option bool :=
  match GetIPCStatusCode e with
  | Some code => Some ((lo <=? code) && (code <? hi))
  | None => None
  end.

Definition IsIPCStatusSuccess : option err -> option bool :=
  in_status_range 200 300.
Definition IsIPCStatusClientErrors : option err -> option bool :=
  in_status_range 400 500.
Definition IsIPCStatusServerErrors : option err -> option bool :=
  in_status_range 500 600.
End ipc.
