(* ===== verification/Metadata.v ===== *)
(** * common/metadata: the headers of a request, and the errors made of them
    (errors/request.go) *)

From stdpp Require Import base tactics list strings gmap.
From Stdlib Require Import ZArith Lia.
From S2P Require Import Prelude GoStd Json Backend Errors Model Proto.
#[local] Open Scope Z_scope.

(** The go-micro metadata of a context; a context without metadata has no
    header. *)
Abbreviation Ctx := (gmap string string).

Definition ErrNotFound : err := EPlain "not found metadata".

Definition HeaderAuthenticatedSession : string := "X-Authenticated-Session".
Definition HeaderAuthenticatedUser : string := "X-Authenticated-User".
Definition HeaderClientIP : string := "X-Client-Ip".
Definition HeaderTenantID : string := "X-Tenant-Id".
Definition HeaderRequestID : string := "X-Request-Id".

Definition meta_get (ctx : Ctx) (key : string) : err + string :=
  match ctx !! key with Some v => inr v | None => inl ErrNotFound end.

Definition GetAuthenticatedSession (ctx : Ctx) : err + string :=
  meta_get ctx HeaderAuthenticatedSession.

(** The header holds the user's JSON; what [json.Unmarshal] reports is an
    error of its own package. *)
Definition GetAuthenticatedUser (ctx : Ctx) : err + IUser.t :=
  match meta_get ctx HeaderAuthenticatedUser with
  | inl e => inl e
  | inr v =>
      match Json.Parse v with
      | None => inl (EPlain "invalid JSON text")
      | Some j =>
          let '(u, ok) := IUser_dec IUser_zero j in
          if ok then inr u else inl (EPlain "JSON type mismatch")
      end
  end.

Definition GetClientIP (ctx : Ctx) : err + string :=
  meta_get ctx HeaderClientIP.

Definition GetTenantID (ctx : Ctx) : err + Z :=
  match meta_get ctx HeaderTenantID with
  | inl e => inl e
  | inr v =>
      match Strconv.ParseUint v with
      | inl e => inl (ENum "ParseUint" v e)
      | inr id => inr id
      end
  end.

Definition GetRequestID (ctx : Ctx) : err + string :=
  meta_get ctx HeaderRequestID.

Definition or_unknown (x : err + string) : string :=
  match x with inr s => s | inl _ => "unknown" end.

Definition InvalidRequest (ctx : Ctx) : err :=
  Wrap ErrInvalidRequest [("client_ip", VStr (or_unknown (GetClientIP ctx)))].

Definition UnauthenticatedRequest (ctx : Ctx) : err :=
  Wrap ErrUnauthenticatedRequest
    [("client_ip", VStr (or_unknown (GetClientIP ctx)));
     ("session_key", VStr (or_unknown (GetAuthenticatedSession ctx)))].

Definition UnauthorizedRequest (ctx : Ctx) : err :=
  let '(name, account) :=
    match GetAuthenticatedUser ctx with
    | inr u => (IUser.Name u, IUser.Account u)
    | inl _ => ("unknown"%string, "unknown"%string)
    end in
  Wrap ErrUnauthorizedRequest
    [("client_ip", VStr (or_unknown (GetClientIP ctx)));
     ("user_name", VStr name); ("user_account", VStr account)].

(** The tenant header printed by the gateway is read back. *)
Lemma GetTenantID_FormatUint (ctx : Ctx) id :
  0 <= id < Int.two64 ->
  GetTenantID (<[HeaderTenantID := Strconv.FormatUint id]> ctx) = inr id.
Proof.
  intros H. unfold GetTenantID, meta_get. rewrite lookup_insert_eq.
  by rewrite Strconv.ParseUint_FormatUint.
Qed.
