(* ===== verification/UserJson.v ===== *)
(** * The user of a request: its JSON is read back *)

From stdpp Require Import base tactics list strings gmap.
From Stdlib Require Import ZArith Lia.
From S2P Require Import Prelude GoStd Json Model Backend Errors Proto Metadata.
#[local] Open Scope Z_scope.

(** ** Lists of messages *)
Section lists.
Context {A : Type} (zero : A) (d : Dec.t A) (f : A -> json).

Lemma elems_map l :
  Forall (fun a => d zero (f a) = (a, true)) l ->
  Dec.elems zero d [] (map f l) = (l, true).
Proof.
  induction 1 as [|a l Ha _ IH]; [done|]. cbn. rewrite Ha, IH. done.
Qed.

Lemma list_same k l ms :
  Forall (fun a => d zero (f a) = (a, true)) l ->
  Dec.field k (Dec.slice zero d) [] (Enc.list f k l ++ ms)
  = Dec.field k (Dec.slice zero d) l ms.
Proof.
  intros Hl. destruct l as [|a l]; [done|]. cbn [Enc.list app].
  apply member_same. cbn [Dec.slice]. by apply elems_map.
Qed.

Lemma wf_list k l :
  Json.ValidString k = true -> Forall (fun a => Json.wf (f a)) l ->
  members_wf (Enc.list f k l).
Proof.
  intros Hk Hl. destruct l as [|a l]; [by constructor|].
  apply wf_member; [done|]. by rewrite Json.wf_arr, Forall_map.
Qed.
End lists.

(** ** What a message that arrived holds: texts are UTF-8 and numbers fit *)
Definition is_u64 (z : Z) : Prop := 0 <= z < Int.two64.
Definition is_i64 (z : Z) : Prop := - Int.two63 <= z < Int.two63.

Record tenant_msg (t : ITenant.t) : Prop := {
  tm_id : is_u64 (ITenant.Id t);
  tm_times : Forall is_i64 [ITenant.CreatedAt t; ITenant.UpdatedAt t];
  tm_texts : Forall utf8 [ITenant.Name t; ITenant.Remarks t];
  tm_solutions : Forall (fun s => utf8 (ISolution.Solution s)) (ITenant.Solutions t)
}.

Record role_msg (r : IRole.t) : Prop := {
  rm_id : is_u64 (IRole.Id r);
  rm_texts : Forall utf8 [IRole.Solution r; IRole.Role r]
}.

Record group_msg (g : IGroup.t) : Prop := {
  gm_numbers : Forall is_u64 [IGroup.Id g; IGroup.CreatedAt g; IGroup.UpdatedAt g];
  gm_tenant : forall t, IGroup.Tenant g = Some t -> tenant_msg t;
  gm_texts : Forall utf8 [IGroup.Name g; IGroup.Remarks g]
}.

Record user_msg (u : IUser.t) : Prop := {
  um_id : is_u64 (IUser.Id u);
  um_times : Forall is_i64 [IUser.CreatedAt u; IUser.LastLoggedInAt u;
    IUser.UpdatedAt u; IUser.PasswordUpdatedAt u];
  um_texts : Forall utf8 [IUser.Account u; IUser.Name u; IUser.Department u;
    IUser.Position u; IUser.Email u; IUser.Contact u; IUser.LanguageSet u;
    IUser.Timezone u];
  um_tenant : forall t, IUser.Tenant u = Some t -> tenant_msg t;
  um_roles : Forall role_msg (IUser.Roles u);
  um_groups : Forall group_msg (IUser.Groups u);
  um_session : forall s, IUser.Session u = Some s -> utf8 (ISession.Key s)
}.

(** ** Documents *)
Lemma solution_wf s : utf8 (ISolution.Solution s) -> Json.wf (ISolution_enc s).
Proof. intros Hs. apply wf_members. wf_all. Qed.

Ltac numbers := unfold is_u64, is_i64, Int.two63, Int.two64 in *; lia.

Ltac wf_msg :=
  repeat apply Forall_app_2;
  repeat first
    [ apply wf_str; [reflexivity|eassumption]
    | apply wf_bool; reflexivity
    | apply wf_int; [reflexivity|numbers]
    | apply wf_opt; [reflexivity|]
    | apply wf_list; [reflexivity|]
    | apply List.Forall_nil ].

Lemma tenant_msg_wf t : tenant_msg t -> Json.wf (ITenant_enc t).
Proof.
  intros [Hi Ht Hs Hl]. all_texts. apply wf_members. wf_msg.
  - intros b _. apply wf_members, wf_bool. done.
  - eapply Forall_impl; [exact Hl|]. apply solution_wf.
Qed.

Lemma role_wf r : role_msg r -> Json.wf (IRole_enc r).
Proof. intros [Hi Ht]. all_texts. apply wf_members. wf_msg. Qed.

Lemma group_wf g : group_msg g -> Json.wf (IGroup_enc g).
Proof.
  intros [Hn Ht Hs]. all_texts. apply wf_members. wf_msg.
  intros t E. by apply tenant_msg_wf, Ht.
Qed.

Lemma user_wf u : user_msg u -> Json.wf (IUser_enc u).
Proof.
  intros [Hi Hn Ht Htn Hr Hg Hs]. all_texts. apply wf_members. wf_msg.
  - intros t E. by apply tenant_msg_wf, Htn.
  - eapply Forall_impl; [exact Hr|]. apply role_wf.
  - eapply Forall_impl; [exact Hg|]. apply group_wf.
  - intros s E. apply wf_members. pose proof (Hs s E) as Hk. wf_all.
Qed.

(** ** Reading *)
Lemma flag_dec b : BoolValue_dec false (BoolValue_enc b) = (b, true).
Proof. by destruct b. Qed.

Lemma solution_dec s : ISolution_dec ISolution_zero (ISolution_enc s) = (s, true).
Proof.
  unfold ISolution_dec, ISolution_enc. cbn [ISolution.Solution ISolution_zero].
  fields. by destruct s.
Qed.

Lemma session_dec s : ISession_dec ISession_zero (ISession_enc s) = (s, true).
Proof.
  unfold ISession_dec, ISession_enc. cbn [ISession.Key ISession_zero].
  fields. by destruct s.
Qed.

Lemma tenant_msg_dec t :
  tenant_msg t -> ITenant_dec ITenant_zero (ITenant_enc t) = (t, true).
Proof.
  intros [Hi Ht _ _]. all_texts. unfold ITenant_dec, ITenant_enc.
  cbn [ITenant.Id ITenant.Name ITenant.UseFlag ITenant.Solutions ITenant.Remarks
    ITenant.CreatedAt ITenant.UpdatedAt ITenant_zero].
  fields. rewrite ptr_same by (intros b _; split; [apply flag_dec|done]).
  fields. rewrite list_same by (by apply Forall_true, solution_dec).
  fields. by destruct t.
Qed.

Lemma role_dec r : role_msg r -> IRole_dec IRole_zero (IRole_enc r) = (r, true).
Proof.
  intros [Hi _]. unfold IRole_dec, IRole_enc.
  cbn [IRole.Id IRole.Solution IRole.Role IRole_zero]. fields. by destruct r.
Qed.

Lemma group_dec g :
  group_msg g -> IGroup_dec IGroup_zero (IGroup_enc g) = (g, true).
Proof.
  intros [Hn Ht _]. all_texts. unfold IGroup_dec, IGroup_enc.
  cbn [IGroup.Id IGroup.Tenant IGroup.Name IGroup.Remarks IGroup.CreatedAt
    IGroup.UpdatedAt IGroup_zero].
  fields. rewrite ptr_same by (intros t E; split; [by apply tenant_msg_dec, Ht|done]).
  fields. by destruct g.
Qed.

Lemma user_dec u : user_msg u -> IUser_dec IUser_zero (IUser_enc u) = (u, true).
Proof.
  intros [Hi Hn _ Ht Hr Hg _]. all_texts. unfold IUser_dec, IUser_enc.
  cbn [IUser.Id IUser.Tenant IUser.Account IUser.Roles IUser.Groups IUser.Name
    IUser.Department IUser.Position IUser.Email IUser.Contact IUser.LanguageSet
    IUser.Timezone IUser.CreatedAt IUser.LastLoggedInAt IUser.UpdatedAt
    IUser.PasswordUpdatedAt IUser.PasswordUpdateFlag IUser.Session IUser_zero].
  fields. rewrite ptr_same by (intros t E; split; [by apply tenant_msg_dec, Ht|done]).
  fields. rewrite list_same by (eapply Forall_impl; [exact Hr|apply role_dec]).
  fields. rewrite list_same by (eapply Forall_impl; [exact Hg|apply group_dec]).
  fields. rewrite bool_same.
  fields. rewrite ptr_same by (intros s _; split; [apply session_dec|done]).
  by destruct u.
Qed.

(** The header that holds a user gives the user back. *)
Lemma GetAuthenticatedUser_Marshal (ctx : Ctx) u :
  user_msg u ->
  ctx !! HeaderAuthenticatedUser = Some (Json.Marshal (IUser_enc u)) ->
  GetAuthenticatedUser ctx = inr u.
Proof.
  intros Hu Hc. unfold GetAuthenticatedUser, meta_get. rewrite Hc.
  by rewrite Json.Parse_Marshal, user_dec by auto using user_wf.
Qed.

(** ** A decision of [user_msg] *)
Definition u64b (z : Z) : bool := (0 <=? z) && (z <? Int.two64).
Definition i64b (z : Z) : bool := (- Int.two63 <=? z) && (z <? Int.two63).
Definition someb {A} (p : A -> bool) (o : option A) : bool :=
  match o with Some a => p a | None => true end.

Definition tenant_msgb (t : ITenant.t) : bool :=
  u64b (ITenant.Id t) && forallb i64b [ITenant.CreatedAt t; ITenant.UpdatedAt t]
  && forallb Json.ValidString [ITenant.Name t; ITenant.Remarks t]
  && forallb (fun s => Json.ValidString (ISolution.Solution s)) (ITenant.Solutions t).
Definition role_msgb (r : IRole.t) : bool :=
  u64b (IRole.Id r) && forallb Json.ValidString [IRole.Solution r; IRole.Role r].
Definition group_msgb (g : IGroup.t) : bool :=
  forallb u64b [IGroup.Id g; IGroup.CreatedAt g; IGroup.UpdatedAt g]
  && someb tenant_msgb (IGroup.Tenant g)
  && forallb Json.ValidString [IGroup.Name g; IGroup.Remarks g].
Definition user_msgb (u : IUser.t) : bool :=
  u64b (IUser.Id u)
  && forallb i64b [IUser.CreatedAt u; IUser.LastLoggedInAt u; IUser.UpdatedAt u;
       IUser.PasswordUpdatedAt u]
  && forallb Json.ValidString [IUser.Account u; IUser.Name u; IUser.Department u;
       IUser.Position u; IUser.Email u; IUser.Contact u; IUser.LanguageSet u;
       IUser.Timezone u]
  && someb tenant_msgb (IUser.Tenant u) && forallb role_msgb (IUser.Roles u)
  && forallb group_msgb (IUser.Groups u)
  && someb (fun s => Json.ValidString (ISession.Key s)) (IUser.Session u).

Lemma forallb_Forall {A} (p : A -> bool) (P : A -> Prop) l :
  (forall a, p a = true -> P a) -> forallb p l = true -> Forall P l.
Proof.
  intros Hp. induction l as [|a l IH]; [by constructor|].
  cbn. intros [Ha Hl]%andb_true_iff. constructor; auto.
Qed.

Lemma u64b_sound z : u64b z = true -> is_u64 z.
Proof. unfold u64b, is_u64. lia. Qed.
Lemma i64b_sound z : i64b z = true -> is_i64 z.
Proof. unfold i64b, is_i64. lia. Qed.

Lemma texts_sound l : forallb Json.ValidString l = true -> Forall utf8 l.
Proof. by apply forallb_Forall. Qed.

Ltac split_bools H :=
  repeat match type of H with
  | _ && _ = true => let H2 := fresh "Hb" in apply andb_true_iff in H as [H H2]
  end.

Lemma tenant_msgb_sound t : tenant_msgb t = true -> tenant_msg t.
Proof.
  unfold tenant_msgb. intros H. split_bools H.
  constructor; [by apply u64b_sound|eapply forallb_Forall; [apply i64b_sound|exact Hb1]
    |by apply texts_sound|by eapply forallb_Forall, Hb].
Qed.

Lemma role_msgb_sound r : role_msgb r = true -> role_msg r.
Proof.
  unfold role_msgb. intros H. split_bools H.
  constructor; [by apply u64b_sound|by apply texts_sound].
Qed.

Lemma group_msgb_sound g : group_msgb g = true -> group_msg g.
Proof.
  unfold group_msgb. intros H. split_bools H. constructor.
  - eapply forallb_Forall; [apply u64b_sound|exact H].
  - intros t E. rewrite E in Hb0. by apply tenant_msgb_sound.
  - by apply texts_sound.
Qed.

Lemma user_msgb_sound u : user_msgb u = true -> user_msg u.
Proof.
  unfold user_msgb. intros H. split_bools H. constructor.
  - by apply u64b_sound.
  - eapply forallb_Forall; [apply i64b_sound|exact Hb4].
  - by apply texts_sound.
  - intros t E. rewrite E in Hb2. by apply tenant_msgb_sound.
  - eapply forallb_Forall; [apply role_msgb_sound|exact Hb1].
  - eapply forallb_Forall; [apply group_msgb_sound|exact Hb0].
  - intros s E. by rewrite E in Hb.
Qed.
