(* ===== verification/Discovery.v ===== *)
(** * Finding a server: the service registry, the rotation through its nodes
    (go-micro), and addresses (net)

    The database, the broker and the store are all looked up in the registry
    before they are dialled. *)

From stdpp Require Import base tactics list strings gmap.
From Stdlib Require Import ZArith Lia Ascii.
From S2P Require Import Prelude GoStd Json Backend Errors.
#[local] Open Scope Z_scope.

(** A node of a service. *)
Record Node := mkNode { Address : string; Metadata : gmap string string }.

(** A service as registered under one version: its nodes. *)
Abbreviation Service := (list Node).

(** [GetService]: the registry knows no such service, or fails. *)
Inductive registry_error := NotRegistered | RegistryFailed (text : string).

(** The registry, and the random start of a rotation, by the number of the
    call. *)
Class Registry := {
  GetService : nat -> string -> registry_error + list Service;
  rand_start : nat -> nat
}.

(** The switch over the answer of the registry, with the two texts of the
    caller's errors. *)
Definition discovered (failed missing : err)
    (answer : registry_error + list Service) : err + list Service :=
  match answer with
  | inl (RegistryFailed _) => inl failed
  | inl NotRegistered | inr [] => inl missing
  | inr services => inr services
  end.

(** [selector.RoundRobin]: the nodes of all versions in rotation, from a
    random one; the node of the [i]-th call. *)
Definition RoundRobin (services : list Service) (start : nat) (i : nat)
    : option Node :=
  let nodes := concat services in
  nodes !! ((start + i) mod List.length nodes)%nat.

(** [len(s[0].Nodes)], the number of tries. *)
Definition tries (services : list Service) : nat :=
  List.length (default [] (head services)).

(** ** net.SplitHostPort *)
Module Net.
(** Where the last [c] is. *)
Fixpoint last_index (c : ascii) (s : string) : option nat :=
  match s with
  | EmptyString => None
  | String a s =>
      match last_index c s with
      | Some i => Some (S i)
      | None => if (a =? c)%char then Some 0%nat else None
      end
  end.

(** Where the first [c] is. *)
Fixpoint first_index (c : ascii) (s : string) : option nat :=
  match s with
  | EmptyString => None
  | String a s => if (a =? c)%char then Some 0%nat else S <$> first_index c s
  end.

Definition without (c : ascii) (s : string) : bool :=
  match first_index c s with None => true | Some _ => false end.

(** Host and port; [None] is its error. *)
Definition SplitHostPort (hostport : string) : option (string * string) :=
  i ← last_index ":" hostport;
  let port := Strings.drop (S i) hostport in
  if Strings.HasPrefix hostport "[" then
    e ← first_index "]" hostport;
    if (S e =? i)%nat && without "[" (Strings.drop 1 hostport)
       && without "]" (Strings.drop (S e) hostport)
    then Some (String.substring 1 (e - 1) hostport, port)
    else None
  else
    let host := String.substring 0 i hostport in
    if without ":" host && without "[" hostport && without "]" hostport
    then Some (host, port) else None.
End Net.

(** ** Rotation *)
Lemma omap_fmap {A B C} (f : B -> option C) (g : A -> B) (l : list A) :
  omap f (g <$> l) = omap (fun x => f (g x)) l.
Proof. induction l as [|x l IH]; [done|]. cbn. by rewrite <- IH. Qed.

Lemma omap_lookup_seq {A} (l : list A) :
  omap (fun i => l !! i) (seq 0 (List.length l)) = l.
Proof.
  induction l as [|a l IH]; [done|]. cbn [List.length seq omap list_omap].
  change ((a :: l) !! 0%nat) with (Some a). f_equal.
  rewrite <- fmap_S_seq, omap_fmap. exact IH.
Qed.

Lemma omap_ext_in {A B} (f g : A -> option B) (l : list A) :
  (forall x, x ∈ l -> f x = g x) -> omap f l = omap g l.
Proof.
  intros H. induction l as [|x l IH]; [done|]. cbn.
  rewrite (H x) by (by left). rewrite IH by (intros y Hy; apply H; by right). done.
Qed.

(** The rotation of a list that starts at [k]. *)
Lemma rotated {A} (l : list A) (start j : nat) :
  (j < List.length l)%nat ->
  l !! ((start + j) mod List.length l)%nat
  = (drop (start mod List.length l) l ++ take (start mod List.length l) l) !! j.
Proof.
  intros Hj. set (n := List.length l). set (k := (start mod n)%nat).
  assert (n <> 0)%nat as Hn by (unfold n; lia).
  assert (k < n)%nat as Hk by (by apply Nat.mod_upper_bound).
  assert (((start + j) mod n = (k + j) mod n)%nat) as ->
    by (unfold k; by rewrite Nat.Div0.add_mod_idemp_l).
  destruct (decide (j < n - k)%nat) as [Hlt|Hge].
  - rewrite Nat.mod_small by lia. rewrite lookup_app_l, lookup_drop
      by (rewrite length_drop; unfold n in *; lia). done.
  - rewrite lookup_app_r by (rewrite length_drop; unfold n in *; lia).
    rewrite length_drop. fold n.
    replace ((k + j) mod n)%nat with (j - (n - k))%nat.
    + rewrite lookup_take_lt by lia. done.
    + symmetry. replace (k + j)%nat with (j - (n - k) + 1 * n)%nat by lia.
      rewrite Nat.Div0.mod_add. apply Nat.mod_small. unfold n in *. lia.
Qed.

(** With one version of the service, the tries are each of its nodes once. *)
Lemma RoundRobin_perm nodes start :
  omap (RoundRobin [nodes] start) (seq 0 (tries [nodes])) ≡ₚ nodes.
Proof.
  unfold tries. cbn [head default]. unfold id.
  set (l := drop (start mod List.length nodes) nodes
            ++ take (start mod List.length nodes) nodes).
  assert (List.length l = List.length nodes) as Hl.
  { unfold l. rewrite length_app, length_drop, length_take. lia. }
  rewrite (omap_ext_in _ (fun i => l !! i)).
  - rewrite <- Hl, omap_lookup_seq. unfold l.
    rewrite (Permutation_app_comm (drop _ _)). by rewrite take_drop.
  - intros i Hi%elem_of_seq. unfold RoundRobin. cbn [concat].
    rewrite app_nil_r. apply rotated. lia.
Qed.
