(* ===== verification/DbConn.v ===== *)
(** * common/database: the connection that is kept up (connection.go,
    database.go, options.go) *)

From stdpp Require Import base tactics list strings gmap.
From Stdlib Require Import ZArith Lia Ascii.
From S2P Require Import Prelude GoStd Json Backend Errors Discovery.
#[local] Open Scope Z_scope.
#[local] Open Scope go_scope.

(** ** options.go *)
Module DbOptions.
Record t := mk {
  ServiceName : string;
  DBName : string;
  Username : string;
  Password : string;
  SSLEnable : bool;
  SSLCACert : string;
  HeartbeatInterval : Z;
  ReconnectInterval : Z;
  TestMode : bool
}.
Definition set_SSLEnable (b : bool) (o : t) : t :=
  mk (ServiceName o) (DBName o) (Username o) (Password o) b (SSLCACert o)
    (HeartbeatInterval o) (ReconnectInterval o) (TestMode o).
Definition set_SSLCACert (ca : string) (o : t) : t :=
  mk (ServiceName o) (DBName o) (Username o) (Password o) (SSLEnable o) ca
    (HeartbeatInterval o) (ReconnectInterval o) (TestMode o).
Definition set_HeartbeatInterval (i : Z) (o : t) : t :=
  mk (ServiceName o) (DBName o) (Username o) (Password o) (SSLEnable o)
    (SSLCACert o) i (ReconnectInterval o) (TestMode o).
Definition set_ReconnectInterval (i : Z) (o : t) : t :=
  mk (ServiceName o) (DBName o) (Username o) (Password o) (SSLEnable o)
    (SSLCACert o) (HeartbeatInterval o) i (TestMode o).
Definition set_TestMode (o : t) : t :=
  mk (ServiceName o) (DBName o) (Username o) (Password o) (SSLEnable o)
    (SSLCACert o) (HeartbeatInterval o) (ReconnectInterval o) true.
End DbOptions.

(** The options [Init] and [Open] start from, with those given applied in
    order. *)
Definition options_of (serviceName dbName username password : string)
    (opts : list (DbOptions.t -> DbOptions.t)) : DbOptions.t :=
  fold_left (fun o f => f o) opts
    (DbOptions.mk serviceName dbName username password false EmptyString
       (10 * Int.Second) (10 * Int.Second) false).

(** ** dataSource *)
Definition texts (l : list string) : string := String.concat EmptyString l.

Definition dataSource (opts : DbOptions.t) (n : Node) : err + (string * string) :=
  let '(h, p) := default (EmptyString, EmptyString)
    (Net.SplitHostPort (Address n)) in
  match Metadata n !! "dialect"%string with
  | None => inl (ENew "not found 'dialect' in database service node")
  | Some d =>
      let postgres := (d =? "postgres")%string in
      let ssl :=
        if postgres
        then if DbOptions.SSLEnable opts then ["sslmode=verify-ca"%string]
             else ["sslmode=disable"%string]
        else [] in
      let cert :=
        if DbOptions.SSLEnable opts && negb (is_empty (DbOptions.SSLCACert opts))
           && postgres
        then [texts ["sslrootcert="; DbOptions.SSLCACert opts]%string] else [] in
      let params := ssl ++ cert in
      if (d =? "mysql")%string then
        inr (d, texts [DbOptions.Username opts; ":"; DbOptions.Password opts; "@tcp(";
                       h; ":"; p; ")/"; DbOptions.DBName opts; "?";
                       String.concat "&" params]%string)
      else if postgres then
        inr (d, texts ["host="; h; " port="; p; " user="; DbOptions.Username opts;
                       " dbname="; DbOptions.DBName opts; " password=";
                       DbOptions.Password opts; " "; String.concat " " params]%string)
      else inl (ENew "unsupported database dialect")
  end.

(** ** Whether a connection is made, by the number of the call *)
Class Dialer := { gorm_open : nat -> string -> string -> bool }.

(** The wrapper: its connection, whether it was closed, the connections that
    are open, and the number of calls so far.  A connection is the number of
    the call that opened it. *)
Record Wrapper := mkWrapper {
  c_DB : option nat;
  c_closed : bool;
  c_live : list nat;
  c_tick : nat
}.

Abbreviation DbAct := (M Wrapper err).

Section connect.
Context `{Registry} `{Dialer} (opts : DbOptions.t).

Definition tick : DbAct nat := fun c =>
  (inr (c_tick c), mkWrapper (c_DB c) (c_closed c) (c_live c) (S (c_tick c))).

(** [db.Close()] of one connection. *)
Definition without_conn (db : nat) (live : list nat) : list nat :=
  List.filter (fun x => negb (x =? db)%nat) live.

(** The connection takes the place of the old one, which is closed. *)
Definition take_over (db : nat) : DbAct unit := modify (fun c =>
  mkWrapper (Some db) (c_closed c)
    (match c_DB c with
     | Some old => without_conn old (db :: c_live c)
     | None => db :: c_live c
     end) (c_tick c)).

(** The loop over the nodes: [n] tries are left. *)
Fixpoint try_nodes (next : nat -> option Node) (n i : nat) : DbAct bool :=
  match n with
  | O => ret false
  | S n =>
      match next i with
      | None => throw EPanic
      | Some node =>
          match dataSource opts node with
          | inl _ => try_nodes next n (S i)
          | inr (d, s) =>
              k <- tick ;;
              if gorm_open k d s then take_over k ;; ret true
              else try_nodes next n (S i)
          end
      end
  end.

Definition connect : DbAct unit :=
  k <- tick ;;
  match discovered (ENew "could not discover database service")
          (ENew "not found database service")
          (GetService k (DbOptions.ServiceName opts)) with
  | inl e => throw e
  | inr services =>
      k <- tick ;;
      connected <- try_nodes (RoundRobin services (rand_start k)) (tries services) 0 ;;
      if (connected : bool) then ret tt
      else throw (ENew "could not connect to database")
  end.

(** [Close] *)
Definition Close : DbAct unit := fun c =>
  if c_closed c then (inr tt, c)
  else match c_DB c with
       | None => (inl EPanic, mkWrapper None true (c_live c) (c_tick c))
       | Some db =>
           (inr tt, mkWrapper (Some db) true (without_conn db (c_live c)) (c_tick c))
       end.

(** ** The goroutine that keeps the connection up, and its health checks *)

(** Where [reconnect] stands: before a try to connect, or waiting for the
    health check with this number, or returned. *)
Inductive watcher := Trying | Waiting (check : nat) | Stopped.

(** The health checks that were started: whether they still run; one that
    ended has closed its channel. *)
Record Kept := mkKept {
  k_wrapper : Wrapper;
  k_watcher : watcher;
  k_checks : list bool
}.

Definition start_check (w : Wrapper) (checks : list bool) : Kept :=
  mkKept w (Waiting (List.length checks)) (checks ++ [true]).

(** [Open]: connected, then the goroutine is started. *)
Definition opened (c : Wrapper) : Kept := start_check c [].

Inductive kept_step : Kept -> Kept -> Prop :=
(** [connect] fails: the goroutine sleeps and goes on. *)
| connect_fails c c' e checks :
    connect c = (inl e, c') -> e <> EPanic ->
    kept_step (mkKept c Trying checks) (mkKept c' Trying checks)
| connect_works c c' checks :
    connect c = (inr tt, c') ->
    kept_step (mkKept c Trying checks) (start_check c' checks)
(** A health check fails: it closes its channel and ends. *)
| check_fails c w checks i :
    checks !! i = Some true ->
    kept_step (mkKept c w checks) (mkKept c w (<[i := false]> checks))
(** The select: the channel of the health check or the one of [Close]. *)
| health_lost c checks i :
    checks !! i = Some false ->
    kept_step (mkKept c (Waiting i) checks) (mkKept c Trying checks)
| closed_by_caller c checks i :
    c_closed c = true ->
    kept_step (mkKept c (Waiting i) checks) (mkKept c Stopped checks)
(** Somebody calls [Close]. *)
| close_called c c' w checks :
    Close c = (inr tt, c') -> kept_step (mkKept c w checks) (mkKept c' w checks).
End connect.
