(* ===== verification/Gorm.v ===== *)
(** * The ORM over the database (vendored jinzhu/gorm) and the transaction of
    common/database/connection.go

    [Act] is the type of every operation of the services: it runs in a
    [World] and returns a value or an error. *)

From stdpp Require Import base tactics list strings.
From Stdlib Require Import ZArith Lia.
From S2P Require Import Prelude GoStd Json Model Backend Errors.
#[local] Open Scope Z_scope.
#[local] Open Scope go_scope.

(** The state of a run: the services' states, what was published so far
    (latest last), how many clock readings and other numbered calls were
    made, and the error variable a handler shares with its deferred function
    ([None] is nil; the model of [Login] writes it and reads it), the calls made
    on mail servers, and the logging level with the variable the watcher's
    closure writes. *)
Record Logging := mkLogging { lg_level : Z; lg_found : option Z }.

Record World `{Backend} := mkWorld {
  w_db : DB;
  w_kv : KV;
  w_out : list (string * string);
  w_tick : nat;
  w_err : option err;
  w_mail : list smtp_call;
  w_log : Logging
}.

Abbreviation Act := (M World err).

Section orm.
Context `{Backend}.

Definition set_db (db : DB) (w : World) : World :=
  mkWorld _ db (w_kv w) (w_out w) (w_tick w) (w_err w) (w_mail w) (w_log w).
Definition set_kv (kv : KV) (w : World) : World :=
  mkWorld _ (w_db w) kv (w_out w) (w_tick w) (w_err w) (w_mail w) (w_log w).

(** One statement. *)
Definition on_db {A} (f : DB -> (sqlerr + A) * DB) : Act A := fun w =>
  match f (w_db w) with
  | (inl e, db) => (inl (EDriver e), set_db db w)
  | (inr a, db) => (inr a, set_db db w)
  end.

(** A numbered reading of a platform source. *)
Definition on_tick {A} (f : nat -> A) : Act A := fun w =>
  (inr (f (w_tick w)),
   mkWorld _ (w_db w) (w_kv w) (w_out w) (S (w_tick w)) (w_err w) (w_mail w) (w_log w)).

(** [time.Now().UnixNano()], [time.Now().Unix()] *)
Definition now_nano : Act Z := on_tick clock.
Definition now_unix : Act Z := on_tick (fun n => clock n / 1000000000).

(** The hooks of a table around creation and update. *)
Definition before_create (t : table) : row t -> Act (row t) :=
  match t with
  | TTenant => fun r =>
      a <- now_unix ;; b <- now_unix ;; ret (Tenant_BeforeCreate a b r)
  | TGroup => fun r =>
      a <- now_unix ;; b <- now_unix ;; ret (Group_BeforeCreate a b r)
  | TUser => fun r =>
      a <- now_unix ;; b <- now_unix ;; ret (User_BeforeCreate a b r)
  | TEvent => fun r =>
      if Event.CreatedAt r =? 0
      then a <- now_unix ;; ret (Event_BeforeCreate a r)
      else ret r
  | _ => fun r => ret r
  end.

Definition before_update (t : table) : row t -> Act (row t) :=
  match t with
  | TTenant => fun r => a <- now_unix ;; ret (Tenant_BeforeUpdate a r)
  | TGroup => fun r => a <- now_unix ;; ret (Group_BeforeUpdate a r)
  | TUser => fun r => a <- now_unix ;; ret (User_BeforeUpdate a r)
  | _ => fun r => ret r
  end.

(** [db.Where(p).Find(&rs)] *)
Definition Find (t : table) (p : row t -> bool) : Act (list (row t)) :=
  on_db (sql_select t p None).

(** [Find] into a struct: the last row, or the error of [First]. *)
Definition Find_one (t : table) (p : row t -> bool) : Act (row t) :=
  rs <- Find t p ;;
  match last rs with Some r => ret r | None => throw ERecordNotFound end.

(** [db.Where(p).First(&r)] *)
Definition First (t : table) (p : row t -> bool) : Act (row t) :=
  r <- on_db (sql_first t p) ;;
  match r with Some r => ret r | None => throw ERecordNotFound end.

(** [Offset(o).Limit(l)]: the numbers must parse as [int64]. *)
Definition page_ok (page : option (Z * Z)) : bool :=
  match page with
  | None => true
  | Some (o, l) => (o <? Int.two63) && (l <? Int.two63)
  end.

Definition page_error (page : option (Z * Z)) : err :=
  match page with
  | Some (o, l) =>
      ENum "ParseInt"
        (Strconv.FormatUint (if l <? Int.two63 then o else l))
        Strconv.ErrRange
  | None => ERecordNotFound
  end.

Definition Find_page (t : table) (p : row t -> bool)
    (page : option (Z * Z)) : Act (list (row t)) :=
  if page_ok page then on_db (sql_select t p page)
  else throw (page_error page).

(** A query over joined tables: the limit is parsed before the offset. *)
Definition paged (n : option Z) : bool :=
  match n with None => true | Some n => n <? Int.two63 end.

Definition Join {A} (q : (forall t, list (row t)) -> list A)
    (le : A -> A -> bool) (offset limit : option Z) : Act (list A) :=
  if paged limit && paged offset then on_db (sql_join A q le offset limit)
  else
    throw (ENum "ParseInt"
      (Strconv.FormatUint (default 0 (if paged limit then offset else limit)))
      Strconv.ErrRange).

(** [Scan] of a query without order and page, and its [Count]. *)
Definition Scan {A} (q : (forall t, list (row t)) -> list A) : Act (list A) :=
  Join q (fun _ _ => true) None None.

Definition JoinCount {A} (q : (forall t, list (row t)) -> list A) : Act Z :=
  on_db (sql_join_count A q).

Definition Count (t : table) (p : row t -> bool) : Act Z :=
  on_db (sql_count t p).

Definition Create (t : table) (r : row t) : Act (row t) :=
  r <- before_create t r ;; on_db (sql_insert t r).

(** A table all of whose columns are its primary key has nothing to
    update. *)
Definition all_key (t : table) : bool :=
  match t with TTenantSolution | TUserRole | TUserGroup => true | _ => false end.

(** [db.Save(&r)]: a record with a blank main key is created; another is
    updated, and created if no row has its key. *)
Definition Save (t : table) (r : row t) : Act (row t) :=
  if main_key_blank t r then Create t r
  else
    r <- before_update t r ;;
    n <- (if all_key t then ret 0
          else on_db (sql_update t (same_key t r) (update_row t r))) ;;
    if n =? 0 then
      x <- attempt (First t (same_key t r)) ;;
      match x with
      | inr r' => ret r'
      | inl ERecordNotFound => Create t r
      | inl e => throw e
      end
    else ret r.

(** [db.Where(p).Delete(&Model{})] *)
Definition Delete (t : table) (p : row t -> bool) : Act Z :=
  on_db (sql_delete t p).

(** [db.Delete(&r)]: the row with the primary key of [r]; if the main key of
    [r] is blank there is no condition at all. *)
Definition Delete_row (t : table) (r : row t) : Act Z :=
  Delete t (if main_key_blank t r then fun _ => true else same_key t r).
End orm.
