(* ===== verification/Database.v ===== *)
(** * common/database: transactions (connection.go, database.go) around the
    retry loop of the vendored cockroach-go/crdb *)

From stdpp Require Import base tactics list strings sets.
From Stdlib Require Import ZArith Lia.
From S2P Require Import Prelude GoStd Json Model Backend Errors Gorm.
#[local] Open Scope Z_scope.
#[local] Open Scope go_scope.

Section transaction.
Context `{Backend}.

(** [crdb.errIsRetryable]: only a driver error carries an SQLSTATE; the
    wrappers of common/errors have no [Cause] or [Unwrap] method. *)
Definition errIsRetryable (e : err) : bool :=
  match e with EDriver e => sql_retryable e | _ => false end.

(** [crdb.newTxnRestartError], [crdb.newAmbiguousCommitError] *)
Definition TxnRestartError (e retry : err) : err :=
  EPlain (String.append
    "restarting txn failed. ROLLBACK TO SAVEPOINT encountered error: "
    (String.append (error_string e) (String.append ". Original error: "
      (String.append (error_string retry) ".")))).
Definition AmbiguousCommitError (e : err) : err := EPlain (error_string e).

(** Give up: the deferred [Rollback], whose error is ignored. *)
Definition abandon {A} (e : err) : Act A :=
  attempt (on_db tx_rollback) ;; throw e.

(** The loop of [crdb.ExecuteInTx] around the closure [Transaction] gives
    it, with the error [Transaction] then returns. *)
Fixpoint execute_loop {A} (fuel : nat) (fc : Act A) : Act A :=
  match fuel with
  | O => throw ERetrying
  | S fuel =>
      r <- attempt fc ;;
      match r with
      | inr a =>
          rel <- attempt (on_db tx_release) ;;
          match rel with
          | inr _ => attempt (on_db tx_commit) ;; ret a
          | inl e =>
              if errIsRetryable e then
                rb <- attempt (on_db tx_rollback_to) ;;
                match rb with
                | inr _ => execute_loop fuel fc
                | inl e2 =>
                    abandon (UnusableDatabase (Some (TxnRestartError e2 e)))
                end
              else abandon (UnusableDatabase (Some (AmbiguousCommitError e)))
          end
      | inl e =>
          if errIsRetryable (UnwrapUnusableDatabase e) then
            rb <- attempt (on_db tx_rollback_to) ;;
            match rb with
            | inr _ => execute_loop fuel fc
            | inl _ => abandon e
            end
          else abandon e
      end
  end.

(** [ConnectionWrapper.Transaction], not in test mode. *)
Definition Transaction {A} (fc : Act A) : Act A :=
  b <- attempt (on_db tx_begin) ;;
  match b with
  | inl e => throw (UnusableDatabase (Some e))
  | inr _ =>
      s <- attempt (on_db tx_savepoint) ;;
      match s with
      | inl e => abandon (UnusableDatabase (Some e))
      | inr _ => execute_loop retry_fuel fc
      end
  end.

(** [ConnectionWrapper.Execute] *)
Definition Execute {A} (fc : Act A) : Act A :=
  r <- attempt fc ;;
  match r with
  | inr a => ret a
  | inl e => throw (UnwrapUnusableDatabase e)
  end.

(** [ConnectionWrapper.GormTransaction]: the error of [fc] is overwritten
    by that of the opening of the transaction before the deferred function
    looks at it. *)
Definition GormTransaction (fc : Act unit) : Act unit :=
  b <- attempt (on_db tx_begin) ;;
  r <- attempt fc ;;
  match b with
  | inl e => abandon (UnusableDatabase (Some e))
  | inr _ => attempt (on_db tx_commit) ;; ret tt
  end.
End transaction.

(** ** Frames *)
Section frames.
Context `{Backend}.

(** The rows of table [t] a world shows. *)
Definition R (t : table) (w : World) : list (row t) := rows t (w_db w).

(** Only the tables of [ts] may change, within the same transaction. *)
Definition db_frame (ts : list table) (w w' : World) : Prop :=
  (forall t, t ∉ ts -> R t w' = R t w) /\ same_base (w_db w) (w_db w').

(** The key-value store does not change. *)
Definition kv_frame (w w' : World) : Prop := w_kv w' = w_kv w.

(** Nothing is published. *)
Definition out_frame (w w' : World) : Prop := w_out w' = w_out w.

#[global] Instance db_frame_preorder ts : PreOrder (db_frame ts).
Proof.
  split; [by split|]. intros w1 w2 w3 [H1 B1] [H2 B2]. split.
  - intros t Ht. by rewrite H2, H1.
  - intros t. by rewrite B2, B1.
Qed.
#[global] Instance kv_frame_preorder : PreOrder kv_frame.
Proof. split; [done|]. unfold kv_frame. intros ???; congruence. Qed.
#[global] Instance out_frame_preorder : PreOrder out_frame.
Proof. split; [done|]. unfold out_frame. intros ???; congruence. Qed.

Lemma db_frame_mono ts ts' w w' :
  ts ⊆ ts' -> db_frame ts w w' -> db_frame ts' w w'.
Proof. intros Hs [H1 H2]. split; [|done]. intros t Ht. apply H1. set_solver. Qed.

Lemma db_frame_rows w w' t : db_frame [] w w' -> R t w' = R t w.
Proof. intros [H1 _]. apply H1. set_solver. Qed.

Lemma on_db_inv {A} (f : DB -> (sqlerr + A) * DB) r w w' :
  on_db f w = (r, w') ->
  exists x db, f (w_db w) = (x, db) /\ w' = set_db db w /\
    r = match x with inl e => inl (EDriver e) | inr a => inr a end.
Proof.
  unfold on_db. destruct (f (w_db w)) as [[e|a] db] eqn:E; intros [= <- <-]; eauto 6.
Qed.

#[global] Instance preserves_on_db_kv {A} (f : DB -> (sqlerr + A) * DB) :
  Preserves kv_frame (on_db f).
Proof. intros w r w' (x & db & _ & -> & _)%on_db_inv. done. Qed.
#[global] Instance preserves_on_db_out {A} (f : DB -> (sqlerr + A) * DB) :
  Preserves out_frame (on_db f).
Proof. intros w r w' (x & db & _ & -> & _)%on_db_inv. done. Qed.
#[global] Instance preserves_on_tick_kv {A} (f : nat -> A) :
  Preserves kv_frame (on_tick f).
Proof. by intros w r w' [= _ <-]. Qed.
#[global] Instance preserves_on_tick_out {A} (f : nat -> A) :
  Preserves out_frame (on_tick f).
Proof. by intros w r w' [= _ <-]. Qed.
#[global] Instance preserves_on_tick_db {A} (f : nat -> A) ts :
  Preserves (db_frame ts) (on_tick f).
Proof. by intros w r w' [= _ <-]. Qed.

#[global] Instance preserves_before_create_kv t r :
  Preserves kv_frame (before_create t r).
Proof. destruct t; cbn; unfold now_unix; keep. Qed.
#[global] Instance preserves_before_create_out t r :
  Preserves out_frame (before_create t r).
Proof. destruct t; cbn; unfold now_unix; keep. Qed.
#[global] Instance preserves_before_create_db t r ts :
  Preserves (db_frame ts) (before_create t r).
Proof. destruct t; cbn; unfold now_unix; keep. Qed.
#[global] Instance preserves_before_update_kv t r :
  Preserves kv_frame (before_update t r).
Proof. destruct t; cbn; unfold now_unix; keep. Qed.
#[global] Instance preserves_before_update_out t r :
  Preserves out_frame (before_update t r).
Proof. destruct t; cbn; unfold now_unix; keep. Qed.
#[global] Instance preserves_before_update_db t r ts :
  Preserves (db_frame ts) (before_update t r).
Proof. destruct t; cbn; unfold now_unix; keep. Qed.
End frames.
