(* ===== verification/GormFacts.v ===== *)
(** * What the ORM operations and the transaction do, from the laws of the
    database *)

From stdpp Require Import base tactics list strings sets sorting.
From Stdlib Require Import ZArith Lia.
From S2P Require Import Prelude GoStd Json Model Backend Errors Gorm Database.
#[local] Open Scope Z_scope.
#[local] Open Scope go_scope.

Lemma In_filter {A} (p : A -> bool) l x :
  x ∈ List.filter p l <-> x ∈ l /\ p x = true.
Proof. rewrite !list_elem_of_In. apply List.filter_In. Qed.

Lemma filter_nil_inv {A} (p : A -> bool) l x :
  List.filter p l = [] -> x ∈ l -> p x = false.
Proof.
  intros Hf Hx. destruct (p x) eqn:E; [|done].
  assert (x ∈ List.filter p l) as Hi by by apply In_filter.
  rewrite Hf in Hi. set_solver.
Qed.

Section facts.
Context `{BackendLaws}.
Implicit Types w : World.

(** ** Frames of the operations *)
Lemma on_db_frame {A} (f : DB -> (sqlerr + A) * DB) ts :
  (forall db r db', f db = (r, db') ->
     (forall t, t ∉ ts -> rows t db' = rows t db) /\ same_base db db') ->
  Preserves (db_frame ts) (on_db f).
Proof. intros Hf w r w' (x & db & E & -> & _)%on_db_inv. by eapply Hf. Qed.

#[global] Instance preserves_Find t p ts : Preserves (db_frame ts) (Find t p).
Proof. apply on_db_frame. intros db r db' [H1 H2]%select_rows. auto. Qed.
#[global] Instance preserves_Find_one t p ts :
  Preserves (db_frame ts) (Find_one t p).
Proof. unfold Find_one. keep. Qed.
#[global] Instance preserves_Find_page t p page ts :
  Preserves (db_frame ts) (Find_page t p page).
Proof.
  unfold Find_page. destruct (page_ok page); [|apply _].
  apply on_db_frame. intros db r db' [H1 H2]%select_rows. auto.
Qed.
#[global] Instance preserves_First t p ts : Preserves (db_frame ts) (First t p).
Proof.
  unfold First. apply preserves_bind; [apply _| |intros []; apply _].
  apply on_db_frame. intros db r db' [H1 H2]%first_rows. auto.
Qed.
#[global] Instance preserves_Count t p ts : Preserves (db_frame ts) (Count t p).
Proof. apply on_db_frame. intros db r db' [H1 H2]%count_rows. auto. Qed.
#[global] Instance preserves_Join {A} (q : (forall t, list (row t)) -> list A)
    le o n ts : Preserves (db_frame ts) (Join q le o n).
Proof.
  unfold Join. destruct (_ && _); [|apply _].
  apply on_db_frame. intros db r db' [H1 H2]%join_rows. auto.
Qed.
#[global] Instance preserves_JoinCount {A}
    (q : (forall t, list (row t)) -> list A) ts :
  Preserves (db_frame ts) (JoinCount q).
Proof. apply on_db_frame. intros db r db' [H1 H2]%join_count_rows. auto. Qed.

Lemma preserves_insert t r ts :
  t ∈ ts -> Preserves (db_frame ts) (on_db (sql_insert t r)).
Proof.
  intros Ht. apply on_db_frame. intros db [e|x] db' E.
  - split; [|by eapply insert_base]. intros t' _. by eapply insert_err in E.
  - split; [|by eapply insert_base]. intros t' Ht'.
    apply insert_ok in E as (_ & _ & Hb). apply Hb. set_solver.
Qed.
Lemma preserves_update t p f ts :
  t ∈ ts -> Preserves (db_frame ts) (on_db (sql_update t p f)).
Proof.
  intros Ht. apply on_db_frame. intros db [e|x] db' E.
  - split; [|by eapply update_base]. intros t' _. by eapply update_err in E.
  - split; [|by eapply update_base]. intros t' Ht'.
    apply update_ok in E as (_ & _ & Hb). apply Hb. set_solver.
Qed.
Lemma preserves_Delete t p ts :
  t ∈ ts -> Preserves (db_frame ts) (Delete t p).
Proof.
  intros Ht. apply on_db_frame. intros db [e|x] db' E.
  - split; [|by eapply delete_base]. intros t' _. by eapply delete_err in E.
  - split; [|by eapply delete_base]. intros t' Ht'.
    apply delete_ok in E as [_ Hb]. apply Hb. set_solver.
Qed.
Lemma preserves_Create t r ts :
  t ∈ ts -> Preserves (db_frame ts) (Create t r).
Proof.
  intros Ht. unfold Create. apply preserves_bind; [apply _..|].
  intros a. by apply preserves_insert.
Qed.
Lemma preserves_Save t r ts : t ∈ ts -> Preserves (db_frame ts) (Save t r).
Proof.
  intros Ht. unfold Save. destruct (main_key_blank t r).
  { by apply preserves_Create. }
  apply preserves_bind; [apply _..|]. intros r1.
  apply preserves_bind; [apply _| |].
  { destruct (all_key t); [apply _|by apply preserves_update]. }
  intros n. destruct (n =? 0); [|apply _].
  apply preserves_bind; [apply _..|]. intros [e|x]; [|apply _].
  destruct e; try apply _. by apply preserves_Create.
Qed.

(** The key-value store and the published messages, in one go. *)
#[global] Instance preserves_First_kv t p : Preserves kv_frame (First t p).
Proof. unfold First. keep. Qed.
#[global] Instance preserves_Find_kv t p : Preserves kv_frame (Find t p).
Proof. unfold Find. apply _. Qed.
#[global] Instance preserves_Find_one_kv t p : Preserves kv_frame (Find_one t p).
Proof. unfold Find_one. keep. Qed.
#[global] Instance preserves_Find_page_kv t p g :
  Preserves kv_frame (Find_page t p g).
Proof. unfold Find_page. keep. Qed.
#[global] Instance preserves_Count_kv t p : Preserves kv_frame (Count t p).
Proof. unfold Count. apply _. Qed.
#[global] Instance preserves_Join_kv {A} (q : (forall t, list (row t)) -> list A)
    le o n : Preserves kv_frame (Join q le o n).
Proof. unfold Join. keep. Qed.
#[global] Instance preserves_JoinCount_kv {A}
    (q : (forall t, list (row t)) -> list A) : Preserves kv_frame (JoinCount q).
Proof. unfold JoinCount. apply _. Qed.
#[global] Instance preserves_Join_out {A} (q : (forall t, list (row t)) -> list A)
    le o n : Preserves out_frame (Join q le o n).
Proof. unfold Join. keep. Qed.
#[global] Instance preserves_JoinCount_out {A}
    (q : (forall t, list (row t)) -> list A) : Preserves out_frame (JoinCount q).
Proof. unfold JoinCount. apply _. Qed.
#[global] Instance preserves_Delete_kv t p : Preserves kv_frame (Delete t p).
Proof. unfold Delete. apply _. Qed.
#[global] Instance preserves_Create_kv t r : Preserves kv_frame (Create t r).
Proof. unfold Create. keep. Qed.
#[global] Instance preserves_Save_kv t r : Preserves kv_frame (Save t r).
Proof. unfold Save. keep. Qed.
#[global] Instance preserves_First_out t p : Preserves out_frame (First t p).
Proof. unfold First. keep. Qed.
#[global] Instance preserves_Find_out t p : Preserves out_frame (Find t p).
Proof. unfold Find. apply _. Qed.
#[global] Instance preserves_Find_one_out t p : Preserves out_frame (Find_one t p).
Proof. unfold Find_one. keep. Qed.
#[global] Instance preserves_Find_page_out t p g :
  Preserves out_frame (Find_page t p g).
Proof. unfold Find_page. keep. Qed.
#[global] Instance preserves_Count_out t p : Preserves out_frame (Count t p).
Proof. unfold Count. apply _. Qed.
#[global] Instance preserves_Delete_out t p : Preserves out_frame (Delete t p).
Proof. unfold Delete. apply _. Qed.
#[global] Instance preserves_Create_out t r : Preserves out_frame (Create t r).
Proof. unfold Create. keep. Qed.
#[global] Instance preserves_Save_out t r : Preserves out_frame (Save t r).
Proof. unfold Save. keep. Qed.

(** ** Results *)
Lemma Find_ok t p w l w' :
  Find t p w = (inr l, w') -> l ≡ₚ List.filter p (R t w).
Proof.
  intros (x & db & E & -> & Hr)%on_db_inv. destruct x; [done|].
  injection Hr as ->. apply select_ok in E as (l1 & Hp & ->). done.
Qed.

Lemma Find_In t p w l w' x :
  Find t p w = (inr l, w') -> x ∈ l <-> x ∈ R t w /\ p x = true.
Proof. intros Hf. rewrite (Find_ok _ _ _ _ _ Hf). apply In_filter. Qed.

Lemma First_ok t p w x w' :
  First t p w = (inr x, w') ->
  x ∈ R t w /\ p x = true /\
  forall y, y ∈ R t w -> p y = true -> main_key t x <= main_key t y.
Proof.
  unfold First. intros (r & w1 & (y & db & E & -> & Hr)%on_db_inv & Hx)%bind_inr.
  destruct y as [|[y|]]; [done| |].
  - injection Hr as ->. apply ret_inv in Hx as [[= ->] ->].
    by apply first_some in E.
  - injection Hr as ->. by apply throw_inv in Hx as [? _].
Qed.

Lemma First_err t p w e w' :
  First t p w = (inl e, w') ->
  (e = ERecordNotFound /\ forall x, x ∈ R t w -> p x = false) \/
  exists d, e = EDriver d.
Proof.
  unfold First. intros [Hf|(r & w1 & Hf & Hx)]%bind_inl;
    apply on_db_inv in Hf as (y & db & E & -> & Hr).
  - destruct y; [|done]. injection Hr as ->. eauto.
  - destruct y as [|[y|]]; [done|..]; injection Hr as ->;
      apply throw_inv in Hx || apply ret_inv in Hx; destruct Hx as [Hx _];
      [done|]. injection Hx as ->. left. split; [done|].
    apply first_none in E. intros x Hx. by eapply filter_nil_inv.
Qed.

Lemma First_not_found t p w w' :
  First t p w = (inl ERecordNotFound, w') -> forall x, x ∈ R t w -> p x = false.
Proof. intros [[_ ?]|[d ?]]%First_err; [done|discriminate]. Qed.

(** [First] on a condition one row at most meets. *)
Lemma First_unique t p w x y w' :
  First t p w = (inr x, w') -> y ∈ R t w -> p y = true ->
  (forall z, z ∈ R t w -> p z = true -> conflict t z y = true) -> x = y.
Proof.
  intros (Hx & Hp & _)%First_ok Hy _ Hc.
  eapply (rows_unique t (w_db w)); [exact Hx|exact Hy|]. by apply Hc.
Qed.

Lemma Delete_ok t p w n w' :
  Delete t p w = (inr n, w') ->
  R t w' ≡ₚ List.filter (fun r => negb (p r)) (R t w).
Proof.
  intros (x & db & E & -> & Hr)%on_db_inv. destruct x; [done|].
  by apply delete_ok in E as [? _].
Qed.

Lemma Delete_In t p w n w' x :
  Delete t p w = (inr n, w') -> x ∈ R t w' <-> x ∈ R t w /\ p x = false.
Proof.
  intros Hd%Delete_ok. by rewrite Hd, In_filter, negb_true_iff.
Qed.

Lemma Delete_err t p w e w' :
  Delete t p w = (inl e, w') ->
  (forall t, R t w' = R t w) /\ exists d, e = EDriver d.
Proof.
  intros (x & db & E & -> & Hr)%on_db_inv. destruct x; [|done].
  injection Hr as ->. split; [|eauto]. intros t'. by eapply delete_err in E.
Qed.

Lemma Count_ok t p w n w' :
  Count t p w = (inr n, w') ->
  n = Z.of_nat (List.length (List.filter p (R t w))).
Proof.
  intros (x & db & E & -> & Hr)%on_db_inv. destruct x; [done|].
  injection Hr as ->. by apply count_ok in E.
Qed.

Lemma Find_one_ok t p w x w' :
  Find_one t p w = (inr x, w') -> x ∈ R t w /\ p x = true.
Proof.
  unfold Find_one. intros (rs & w1 & Hf & Hl)%bind_inr.
  destruct (last rs) as [y|] eqn:E; [|by apply throw_inv in Hl as [? _]].
  apply ret_inv in Hl as [[= ->] _]. apply last_Some_elem_of in E.
  by apply (Find_In _ _ _ _ _ y Hf) in E.
Qed.

Lemma Find_one_err t p w e w' :
  Find_one t p w = (inl e, w') ->
  (e = ERecordNotFound /\ forall x, x ∈ R t w -> p x = false) \/
  exists d, e = EDriver d.
Proof.
  unfold Find_one. intros [Hf|(rs & w1 & Hf & Hl)]%bind_inl.
  - right. unfold Find in Hf. apply on_db_inv in Hf as (x & db & _ & _ & Hr).
    destruct x; [|done]. injection Hr as ->. eauto.
  - left. destruct (last rs) eqn:E; [by apply ret_inv in Hl as [? _]|].
    apply throw_inv in Hl as [[= ->] _]. split; [done|]. intros x Hx.
    apply last_None in E as ->. destruct (p x) eqn:Hp; [|done].
    assert (x ∈ @nil (row t)) as Hn by by apply (Find_In _ _ _ _ _ x Hf).
    by apply not_elem_of_nil in Hn.
Qed.

Lemma Join_ok {A} (q : (forall t, list (row t)) -> list A) le o n w l w' :
  (forall a b, le a b = true \/ le b a = true) ->
  Join q le o n w = (inr l, w') ->
  exists l0, l0 ≡ₚ q (fun t => R t w) /\
    Sorted (fun a b => le a b = true) l0 /\ l = limited o n l0.
Proof.
  unfold Join. intros Hle Hj. destruct (_ && _); [|done].
  apply on_db_inv in Hj as (x & db & E & -> & Hr). destruct x; [done|].
  injection Hr as ->. by apply join_ok in E.
Qed.

Lemma Scan_ok {A} (q : (forall t, list (row t)) -> list A) w l w' :
  Scan q w = (inr l, w') -> l ≡ₚ q (fun t => R t w).
Proof.
  intros (l0 & Hp & _ & ->)%Join_ok; [by rewrite <- Hp|by left].
Qed.

Lemma JoinCount_ok {A} (q : (forall t, list (row t)) -> list A) w n w' :
  JoinCount q w = (inr n, w') -> n = Z.of_nat (List.length (q (fun t => R t w))).
Proof.
  intros (x & db & E & -> & Hr)%on_db_inv. destruct x; [done|].
  injection Hr as ->. by apply join_count_ok in E.
Qed.

Lemma frame_nil_R t w w' (c : Act unit) :
  db_frame [] w w' -> R t w' = R t w.
Proof. apply db_frame_rows. Qed.

(** The hooks keep the key and the unique columns. *)
Lemma before_update_ok t r w x w' :
  before_update t r w = (x, w') ->
  exists r1, x = inr r1 /\ forall y, same_key t r1 y = same_key t r y.
Proof.
  destruct t; cbn; intros Hb;
    try (apply ret_inv in Hb as [-> ->]; eauto);
    apply bind_inv in Hb as [(e & Hn & _)|(a & w1 & _ & [-> _]%ret_inv)];
    try discriminate; eexists; split; try done.
Qed.

Lemma count_pos {A} (p : A -> bool) l x :
  x ∈ l -> p x = true -> Z.of_nat (List.length (List.filter p l)) <> 0.
Proof.
  intros Hx Hp. assert (x ∈ List.filter p l) as Hi by by apply In_filter.
  destruct (List.filter p l); [set_solver|cbn; lia].
Qed.

(** [Save] of a record whose row exists. *)
Lemma Save_existing t r w x r' w' :
  all_key t = false -> main_key_blank t r = false ->
  x ∈ R t w -> same_key t r x = true -> Save t r w = (inr r', w') ->
  (exists w1, before_update t r w = (inr r', w1)) /\
  R t w' ≡ₚ map (fun y => if same_key t r y then update_row t r' y else y)
               (R t w).
Proof.
  intros Ha Hb Hx Hk Hs. unfold Save in Hs. rewrite Hb, Ha in Hs.
  apply bind_inr in Hs as (r1 & w1 & Hu & Hs).
  destruct (before_update_ok _ _ _ _ _ Hu) as (? & [= <-] & Hkey).
  pose proof (preserves_before_update_db t r [] _ _ _ Hu) as Hfr.
  apply bind_inr in Hs as (n & w2 & (y & db & E & -> & Hn)%on_db_inv & Hs).
  destruct y; [done|]. injection Hn as ->.
  apply update_ok in E as (Hrows & -> & _). fold (R t w1) in Hrows, Hs.
  rewrite (db_frame_rows _ _ t Hfr) in Hrows, Hs.
  rewrite (proj2 (Z.eqb_neq _ _)) in Hs.
  2:{ eapply count_pos; [exact Hx|]. by rewrite Hkey. }
  apply ret_inv in Hs as [[= ->] ->]. split; [by eexists|].
  change (R t (set_db db w1)) with (rows t db). rewrite Hrows.
  erewrite List.map_ext; [reflexivity|]. intros z. by rewrite Hkey.
Qed.

Lemma Create_ok t r w r' w' :
  Create t r w = (inr r', w') ->
  exists r1 w1, before_create t r w = (inr r1, w1) /\
    (exists id, 0 < id < Int.two63 /\
       r' = if main_key_blank t r1 then set_auto t id r1 else r1) /\
    R t w' ≡ₚ r' :: R t w.
Proof.
  intros (r1 & w1 & Hb & (y & db & E & -> & Hn)%on_db_inv)%bind_inr.
  destruct y; [done|]. injection Hn as ->.
  apply insert_ok in E as (Hid & Hrows & _). exists r1, w1.
  split; [done|]. split; [done|].
  change (R t (set_db db w1)) with (rows t db). rewrite Hrows.
  pose proof (preserves_before_create_db t r [] _ _ _ Hb) as Hfr.
  by rewrite <- (db_frame_rows _ _ t Hfr).
Qed.

(** [Save] of a record with a blank main key. *)
Lemma Save_new t r w r' w' :
  main_key_blank t r = true -> Save t r w = (inr r', w') ->
  exists r1 w1, before_create t r w = (inr r1, w1) /\
    (exists id, 0 < id < Int.two63 /\
       r' = if main_key_blank t r1 then set_auto t id r1 else r1) /\
    R t w' ≡ₚ r' :: R t w.
Proof. intros Hb. unfold Save. rewrite Hb. apply Create_ok. Qed.

(** A relation table: after [Save] the pair is there, and nothing else
    changed. *)
Lemma Save_relation t r w r' w' :
  all_key t = true -> Save t r w = (inr r', w') ->
  (forall x, same_key t r x = true -> x = r) ->
  (forall x, before_create t x = ret x) -> (forall x, before_update t x = ret x) ->
  (forall id x, set_auto t id x = x) ->
  r' = r /\ forall x, x ∈ R t w' <-> x = r \/ x ∈ R t w.
Proof.
  intros Ha Hs Hkey Hc Hu Hauto.
  assert (forall w r' w', Create t r w = (inr r', w') ->
            r' = r /\ R t w' ≡ₚ r :: R t w) as Hcr.
  { intros ??? (r1 & w1 & Hb & (id & _ & ->) & Hr)%Create_ok.
    rewrite Hc in Hb. apply ret_inv in Hb as [[= ->] ->].
    rewrite Hauto in *. destruct (main_key_blank t r); done. }
  unfold Save in Hs. destruct (main_key_blank t r) eqn:Hb.
  { apply Hcr in Hs as [-> Hr]. split; [done|]. intros x.
    by rewrite Hr, elem_of_cons. }
  rewrite Hu, Ha in Hs. go Hs.
  cbn in Hs. apply bind_inr in Hs as (y & w2 & (z & [= ->] & Hf)%attempt_inv & Hs).
  pose proof (preserves_First t (same_key t r) [] _ _ _ Hf) as Hfr.
  pose proof (db_frame_rows _ _ t Hfr) as Hrr.
  destruct z as [e|z].
  - destruct e; try (by apply throw_inv in Hs as [? _]).
    apply Hcr in Hs as [-> Hr]. split; [done|]. intros x.
    by rewrite Hr, elem_of_cons, Hrr.
  - apply ret_inv in Hs as [[= ->] ->]. apply First_ok in Hf as (Hz & Hk & _).
    apply Hkey in Hk as ->. split; [done|]. intros x. rewrite Hrr. split; [auto|].
    by intros [-> |].
Qed.

(** A row just inserted is in conflict with none of the others. *)
Lemma inserted_fresh t w w' r x :
  R t w' ≡ₚ r :: R t w -> x ∈ R t w -> conflict t x r = false.
Proof.
  intros Hr Hx. destruct (conflict t x r) eqn:E; [|done]. exfalso.
  assert (x = r) as ->.
  { apply (rows_unique t (w_db w')); [| |done];
      change (rows t (w_db w')) with (R t w'); rewrite Hr; [by right|by left]. }
  assert (NoDup (r :: R t w)) as Hn.
  { rewrite <- Hr. apply NoDup_ListNoDup, rows_nodup. }
  by apply NoDup_cons in Hn as [? _].
Qed.

(** A table whose hooks and keys are the row's own. *)
Record plain_table (t : table) : Prop := {
  plain_not_key : all_key t = false;
  plain_create : forall r, before_create t r = ret r;
  plain_update : forall r, before_update t r = ret r;
  plain_auto : forall id r, set_auto t id r = r;
  plain_update_row : forall r old, update_row t r old = r
}.

(** After [Save] into such a table the row is the only one with its key, and
    the others are as before. *)
Lemma Save_plain t r w r' w' x :
  plain_table t -> Save t r w = (inr r', w') ->
  x ∈ R t w' <-> x = r \/ (x ∈ R t w /\ same_key t r x = false).
Proof.
  intros [Ha Hc Hu Hauto Hup] Hs.
  assert (forall w1, Create t r w1 = (inr r', w') -> R t w1 ≡ₚ R t w ->
    x ∈ R t w' <-> x = r \/ (x ∈ R t w /\ same_key t r x = false)) as Hcreate.
  { intros w1 (r1 & w2 & Hb & (id & _ & ->) & Hr)%Create_ok Hw1.
    rewrite Hc in Hb. apply ret_inv in Hb as [[= ->] _].
    assert (R t w' ≡ₚ r :: R t w1) as Hr2.
    { rewrite Hr. by destruct (main_key_blank t r); rewrite ?Hauto. }
    rewrite Hr2, elem_of_cons, Hw1. split; intros [->|Hx]; auto.
    - right. split; [done|]. rewrite <- Hw1 in Hx.
      pose proof (inserted_fresh _ _ _ _ _ Hr2 Hx) as Hn.
      apply orb_false_iff in Hn as [Hn _]. by rewrite same_key_sym.
    - right. apply Hx. }
  unfold Save in Hs. destruct (main_key_blank t r); [by apply (Hcreate w)|].
  rewrite Hu, Ha in Hs. apply bind_inr in Hs as (r1 & w1 & [[= ->] ->]%ret_inv & Hs).
  apply bind_inr in Hs as (n & w2 & (y & db & E & -> & Hn)%on_db_inv & Hs).
  destruct y; [done|]. injection Hn as ->.
  apply update_ok in E as (Hrows & -> & _). fold (R t w) in Hrows, Hs.
  destruct (Z.eqb_spec (Z.of_nat (List.length (List.filter (same_key t r) (R t w)))) 0)
    as [Hz|Hz].
  - assert (forall y, y ∈ R t w -> same_key t r y = false) as Hno.
    { intros y Hy. destruct (same_key t r y) eqn:E; [|done].
      by destruct (count_pos _ _ _ Hy E). }
    assert (R t (set_db db w) ≡ₚ R t w) as Hsame.
    { change (R t (set_db db w)) with (rows t db). rewrite Hrows.
      erewrite List.map_ext_in; [by rewrite List.map_id|]. intros y Hy.
      apply list_elem_of_In in Hy. by rewrite (Hno y Hy). }
    apply bind_inr in Hs as (y & w3 & (z & [= ->] & Hf)%attempt_inv & Hs).
    pose proof (preserves_First t (same_key t r) [] _ _ _ Hf) as Hfr.
    destruct z as [e|z].
    + destruct e; try (by apply throw_inv in Hs as [? _]).
      apply (Hcreate w3); [done|]. by rewrite (db_frame_rows _ _ t Hfr).
    + apply First_ok in Hf as (Hz2 & Hk & _). rewrite Hsame in Hz2.
      by rewrite (Hno z Hz2) in Hk.
  - apply ret_inv in Hs as [[= ->] ->].
    change (R t (set_db db w)) with (rows t db). rewrite Hrows.
    rewrite list_elem_of_In, List.in_map_iff. split.
    + intros (y & <- & Hy). apply list_elem_of_In in Hy.
      destruct (same_key t r y) eqn:E; [left; by rewrite Hup|by right].
    + intros [->|[Hx Hk]].
      * destruct (List.filter (same_key t r) (R t w)) as [|y l] eqn:E; [done|].
        assert (y ∈ List.filter (same_key t r) (R t w)) as Hy
          by (rewrite E; by left).
        apply In_filter in Hy as [Hy Hk]. exists y. rewrite Hk, Hup.
        split; [done|]. by apply list_elem_of_In.
      * exists x. rewrite Hk. split; [done|]. by apply list_elem_of_In.
Qed.

(** ** Transactions *)
Definition rows_eq (w w' : World) : Prop := forall t, R t w' = R t w.

#[global] Instance rows_eq_preorder : PreOrder rows_eq.
Proof. split; [done|]. intros w1 w2 w3 H1 H2 t. by rewrite H2, H1. Qed.

Lemma attempt_on_db_inv {A} (f : DB -> (sqlerr + A) * DB) r w w' :
  attempt (on_db f) w = (r, w') ->
  exists x db, f (w_db w) = (x, db) /\ w' = set_db db w /\
    r = inr match x with inl e => inl (EDriver e) | inr a => inr a end.
Proof.
  intros (y & -> & (x & db & E & -> & ->)%on_db_inv)%attempt_inv. eauto 6.
Qed.

Lemma set_db_set_db db db' w : set_db db (set_db db' w) = set_db db w.
Proof. reflexivity. Qed.

Lemma abandon_inv {A} e w (r : err + A) w' :
  abandon e w = (r, w') ->
  r = inl e /\ (forall t, R t w' = base t (w_db w)) /\
  exists db, w' = set_db db w.
Proof.
  unfold abandon. intros [(e' & Ha & _)|(a & w1 & Ha & Ht)]%bind_inv;
    apply attempt_on_db_inv in Ha as (x & db & E & -> & Hr); [done|].
  apply throw_inv in Ht as [-> ->]. split; [done|]. split; [|eauto].
  intros t. by apply (rollback_rows _ _ _ E).
Qed.

(** A transaction's result comes from a run of its body on the rows the
    transaction began with, whose rows are kept; its error from a run of
    its body whose rows are undone, unless the database refused to begin or
    to commit. *)
Definition outcome {A} (fc : Act A) (w : World) (r : err + A) (w' : World)
    : Prop :=
  match r with
  | inr a =>
      exists w0 w1 db, rows_eq w w0 /\ fc w0 = (inr a, w1) /\ rows_eq w1 w' /\
        w' = set_db db w1
  | inl e =>
      e = ERetrying \/ (exists c, e = UnusableDatabase (Some c)) \/
      (rows_eq w w' /\ exists w0 w1 db, rows_eq w w0 /\ fc w0 = (inl e, w1) /\
        w' = set_db db w1)
  end.

Lemma outcome_from {A} (fc : Act A) w1 w r w' :
  rows_eq w w1 -> outcome fc w1 r w' -> outcome fc w r w'.
Proof.
  intros Hw. destruct r as [e|a]; cbn.
  - intros [?|[?|[Hr (w0 & w2 & db & H0' & Hf & ->)]]]; [auto|auto|].
    right. right. split; [by etrans|]. exists w0, w2, db.
    split; [by etrans|done].
  - intros (w0 & w2 & db & H0' & Hf & Hr & ->). exists w0, w2, db.
    split; [by etrans|done].
Qed.

Lemma gave_up {A} (fc : Act A) e w w0 w1 r w' :
  rows_eq w w0 -> (forall t, base t (w_db w1) = R t w) ->
  fc w0 = (inl e, w1) -> abandon e w1 = (r, w') -> outcome fc w r w'.
Proof.
  intros Hw Hb Hf (-> & Hr & db & ->)%abandon_inv. right. right.
  split; [intros t; by rewrite Hr, Hb|]. exists w0, w1, db. done.
Qed.

Lemma execute_loop_inv {A} fuel (fc : Act A) w r w' :
  Preserves (fun w w' => same_base (w_db w) (w_db w')) fc ->
  (forall t, R t w = base t (w_db w)) ->
  execute_loop fuel fc w = (r, w') -> outcome fc w r w'.
Proof.
  intros Hfc. revert w. induction fuel as [|fuel IH]; intros w Hb Hl.
  { apply throw_inv in Hl as [-> _]. by left. }
  assert (forall w1, (forall t, base t (w_db w1) = base t (w_db w)) ->
    forall w2, attempt (on_db tx_rollback_to) w1 = (inr (inr tt), w2) ->
    execute_loop fuel fc w2 = (r, w') -> outcome fc w r w') as Hagain.
  { intros w1 Hb1 w2 (x & db & E & -> & Hx)%attempt_on_db_inv Hl2.
    destruct x as [|[]]; [done|]. apply rollback_to_ok in E as [E1 E2].
    apply IH in Hl2.
    - eapply outcome_from; [|exact Hl2]. intros t.
      rewrite Hb, <- Hb1. apply E2.
    - intros t. etrans; [apply E2|]. symmetry. apply E1. }
  cbn [execute_loop] in Hl.
  apply bind_inv in Hl as [(e & (x & ? & _)%attempt_inv & _)|(y & w1 & Ha & Hl)];
    [done|].
  apply attempt_inv in Ha as (x & [= ->] & Hf).
  assert (forall t, base t (w_db w1) = base t (w_db w)) as Hb1.
  { intros t. by apply (Hfc _ _ _ Hf). }
  assert (forall t, base t (w_db w1) = R t w) as Hb2.
  { intros t. by rewrite Hb1, Hb. }
  destruct x as [e|a].
  - destruct (errIsRetryable _); [|by eapply gave_up].
    apply bind_inv in Hl as [(e' & (x & ? & _)%attempt_inv & _)|(y & w2 & Ha & Hl)];
      [done|].
    destruct y as [e'|[]]; [|by eapply Hagain].
    apply attempt_on_db_inv in Ha as (x & db & E & -> & Hx).
    destruct x; [|done]. apply rollback_to_err in E.
    apply abandon_inv in Hl as (-> & Hr & db' & ->). right. right. split.
    + intros t. rewrite Hr, <- Hb2. apply E.
    + exists w, w1, db'. done.
  - apply bind_inv in Hl as [(e' & (x & ? & _)%attempt_inv & _)|(y & w2 & Ha & Hl)];
      [done|].
    pose proof Ha as Ha2.
    apply attempt_on_db_inv in Ha as (x & db & E & -> & [= ->]).
    destruct x as [e|u].
    + destruct (errIsRetryable _) eqn:Hre.
      * apply bind_inv in Hl as
          [(e' & (x & ? & _)%attempt_inv & _)|(y & w2 & Ha & Hl)]; [done|].
        destruct y as [e'|[]].
        -- apply abandon_inv in Hl as [-> _]. right. left. eauto.
        -- eapply Hagain; [|exact Ha|exact Hl]. intros t. rewrite <- Hb1.
           by apply (release_retry _ _ _ E).
      * apply abandon_inv in Hl as [-> _]. right. left. eauto.
    + apply bind_inv in Hl as
        [(e' & (x & ? & _)%attempt_inv & _)|(y & w2 & Ha & Hl)]; [done|].
      apply ret_inv in Hl as [-> ->].
      apply attempt_on_db_inv in Ha as (x & db2 & E2 & -> & _).
      exists w, w1, db2. split; [done|]. split; [done|]. split; [|done].
      intros t. etrans; [by apply (commit_rows _ _ _ E2)|].
      by apply (release_rows _ _ _ E).
Qed.

(** [Transaction], commit and rollback. *)
Lemma Transaction_inv {A} (fc : Act A) w r w' :
  Preserves (fun w w' => same_base (w_db w) (w_db w')) fc ->
  Transaction fc w = (r, w') -> outcome fc w r w'.
Proof.
  intros Hfc Ht. unfold Transaction in Ht.
  apply bind_inv in Ht as [(e & (x & ? & _)%attempt_inv & _)|(y & w1 & Ha & Ht)];
    [done|].
  apply attempt_on_db_inv in Ha as (x & db & E & -> & [= ->]).
  destruct x as [e|[]].
  { apply throw_inv in Ht as [-> ->]. right. left. eauto. }
  assert (forall t, rows t db = R t w) as HR by apply (begin_rows _ _ _ E).
  pose proof (begin_ok _ _ E) as HB.
  apply bind_inv in Ht as [(e & (x & ? & _)%attempt_inv & _)|(y & w1 & Ha & Ht)];
    [done|].
  apply attempt_on_db_inv in Ha as (x & db2 & E2 & -> & [= ->]).
  apply savepoint_rows in E2 as [E2 E2b].
  destruct x as [e|u].
  { apply abandon_inv in Ht as [-> _]. right. left. eauto. }
  assert (forall t, rows t db2 = R t w) as HR2.
  { intros t. by rewrite E2, <- HR. }
  apply execute_loop_inv in Ht; [|done|].
  - eapply outcome_from; [|exact Ht]. exact HR2.
  - intros t. etrans; [apply HR2|]. symmetry. etrans; [apply E2b|]. apply HB.
Qed.
End facts.
