(* ===== verification/Report.v ===== *)
(** * Events and status errors (common/event, common/errors/status.go,
    common/util/util.go)

    A request handler reports every outcome as an event on a queue and turns
    an error into a go-micro error with an HTTP-like status code. *)

From stdpp Require Import base tactics list strings gmap.
From Stdlib Require Import ZArith Lia.
From S2P Require Import Prelude GoStd Json Model Backend Errors Proto Metadata.
From S2P Require Import Gorm.
#[local] Open Scope Z_scope.
#[local] Open Scope go_scope.

(** [constant.QueueReportEvent] *)
Definition QueueReportEvent : string := "cdm.cloud.report.event".

Definition Event_json (e : Event.t) : json :=
  JObj (Enc.int "id" (Event.ID e) ++ Enc.int "tenant_id" (Event.TenantID e)
        ++ Enc.str "code" (Event.Code e)
        ++ Enc.opt JStr "error_code" (Event.ErrorCode e)
        ++ Enc.str "contents" (Event.Contents e)
        ++ Enc.int "created_at" (Event.CreatedAt e)).

Section report.
Context `{Backend}.

(** [broker.Publish(topic, &Message{Body: body})] *)
Definition Publish (topic body : string) : Act unit := fun w =>
  if broker_accepts (w_tick w)
  then (inr tt, mkWorld _ (w_db w) (w_kv w) (w_out w ++ [(topic, body)])
                  (S (w_tick w)) (w_err w) (w_mail w) (w_log w))
  else (inl (ERemote "publish failed"),
        mkWorld _ (w_db w) (w_kv w) (w_out w) (S (w_tick w)) (w_err w) (w_mail w) (w_log w)).

(** [event.ReportEvent(tenantID, eventCode, errorCode, opts...)]: contents
    that are nil are left out. *)
Definition ReportEvent (tenantID : Z) (eventCode errorCode : string)
    (time : Z) (contents : option err) : Act unit :=
  Publish QueueReportEvent
    (Json.Marshal (Event_json (Event.mk 0 tenantID eventCode (Some errorCode)
       (match contents with
        | Some c => Json.Marshal (error_json c)
        | None => EmptyString
        end) time))).

(** [reportEvent]: without a tenant in the context nothing is reported, and
    a failure to report is only logged. *)
Definition reportEvent (ctx : Ctx) (eventCode errorCode : string)
    (eventContents : option err) : Act unit :=
  match GetTenantID ctx with
  | inl _ => ret tt
  | inr id =>
      attempt (ReportEvent id eventCode errorCode 0 eventContents) ;; ret tt
  end.

Definition createEventMessage (eventCode errorCode : string)
    (contents : option err) : string :=
  let code :=
    if is_empty errorCode then eventCode
    else String.append eventCode (String.append ":" errorCode) in
  let text :=
    match contents with
    | Some c => Json.Marshal (error_json c)
    | None => EmptyString
    end in
  Json.Marshal (JObj (Enc.str "code" code ++ Enc.str "contents" text)).

Definition StatusOK (ctx : Ctx) (eventCode : string)
    (eventContents : option err) : Act unit :=
  reportEvent ctx eventCode "" eventContents.

(** The body the other status functions share. *)
Definition status (code : Z) (ctx : Ctx) (eventCode errorCode : string)
    (eventContents : option err) : Act err :=
  reportEvent ctx eventCode errorCode eventContents ;;
  ret (EMicro "cdm" (createEventMessage eventCode errorCode eventContents) code).

Definition StatusNoContent := status 204.
Definition StatusBadRequest := status 400.
Definition StatusUnauthenticated := status 401.
Definition StatusUnauthorized := status 403.
Definition StatusNotFound := status 404.
Definition StatusConflict := status 409.
Definition StatusPreconditionFailed := status 412.
Definition StatusInternalServerError := status 500.
Definition StatusNotImplemented := status 501.
Definition StatusBadGateway := status 502.
Definition StatusServiceUnavailable := status 503.

(** [store.ErrNotFoundKey] *)
Definition ErrNotFoundKey : err := EPlain "not found key".

(** [util.CreateError] of a non-nil error. *)
Definition CreateError_of (ctx : Ctx) (eventCode : string) (e : err)
    : Act err :=
  let same s := Equal (Some e) s in
  let bad c := StatusBadRequest ctx eventCode c (Some e) in
  let ise c := StatusInternalServerError ctx eventCode c (Some e) in
  if same ErrRequiredParameter then bad "required_parameter"
  else if same ErrUnchangeableParameter then bad "unchangeable_parameter"
  else if same ErrConflictParameterValue then
    StatusConflict ctx eventCode "conflict_parameter" (Some e)
  else if same ErrInvalidParameterValue then bad "invalid_parameter"
  else if same ErrLengthOverflowParameterValue then
    bad "length_overflow_parameter"
  else if same ErrOutOfRangeParameterValue then bad "out_of_range_parameter"
  else if same ErrUnavailableParameterValue then bad "unavailable_parameter"
  else if same ErrPatternMismatchParameterValue then
    bad "pattern_mismatch_parameter_value"
  else if same ErrFormatMismatchParameterValue then
    bad "format_mismatch_parameter"
  else if same ErrInvalidRequest then ise "invalid_request"
  else if same ErrUnauthenticatedRequest then
    StatusUnauthenticated ctx eventCode "unauthenticated_request" (Some e)
  else if same ErrUnauthorizedRequest then
    StatusUnauthorized ctx eventCode "unauthorized_request" (Some e)
  else if same ErrNoContent then
    StatusNoContent ctx eventCode "no_content" None
  else if same ErrUnusableDatabase then ise "unusable_database"
  else if same ErrUnusableStore then ise "unusable_store"
  else if same ErrUnusableBroker then ise "unusable_broker"
  else if same ErrUnknown then ise "unknown"
  else if same ErrIPCFailed then
    if bool_decide (GetIPCStatusCode (Some e) = Some 412)
    then StatusPreconditionFailed ctx eventCode "ipc_failed" (Some e)
    else ise "ipc_failed"
  else if same ErrNotFound then
    StatusUnauthorized ctx eventCode "not_found_tenant" (Some e)
  else if same ErrNotFoundKey then
    StatusNotFound ctx eventCode "not_found_key" (Some e)
  else
    StatusInternalServerError ctx eventCode "unknown" (Some (Unknown (Some e))).

Definition CreateError (ctx : Ctx) (eventCode : string) (e : option err)
    : Act (option err) :=
  match e with
  | None => ret None
  | Some e => r <- CreateError_of ctx eventCode e ;; ret (Some r)
  end.

(** Reporting neither fails nor touches the database or the store. *)
Lemma Publish_inv topic body w r w' :
  Publish topic body w = (r, w') ->
  w_db w' = w_db w /\ w_kv w' = w_kv w /\
  w_out w' = w_out w ++ match r with inr _ => [(topic, body)] | inl _ => [] end.
Proof.
  unfold Publish. destruct (broker_accepts _); intros [= <- <-]; cbn;
    by rewrite ?app_nil_r.
Qed.

Lemma reportEvent_inv ctx ev ec c w r w' :
  reportEvent ctx ev ec c w = (r, w') ->
  r = inr tt /\ w_db w' = w_db w /\ w_kv w' = w_kv w.
Proof.
  unfold reportEvent. destruct (GetTenantID ctx) as [e|id].
  - by intros [-> ->]%ret_inv.
  - intros [(e & (x & ? & _)%attempt_inv & _)|(a & w1 & Ha & [-> ->]%ret_inv)]
      %bind_inv; [done|].
    apply attempt_inv in Ha as (x & _ & Hp).
    apply Publish_inv in Hp as (? & ? & _). done.
Qed.

Lemma status_inv code ctx ev ec c w r w' :
  status code ctx ev ec c w = (r, w') ->
  r = inr (EMicro "cdm" (createEventMessage ev ec c) code) /\
  w_db w' = w_db w /\ w_kv w' = w_kv w.
Proof.
  intros [(e & [? _]%reportEvent_inv & _)|(a & w1 & Hr & [-> ->]%ret_inv)]
    %bind_inv; [done|].
  apply reportEvent_inv in Hr as (_ & ? & ?). done.
Qed.

(** A non-nil error always becomes a go-micro error of this service. *)
Definition is_status (e : err) : Prop :=
  exists detail code, e = EMicro "cdm" detail code /\
    code ∈ [204; 400; 401; 403; 404; 409; 412; 500].

Definition reports (c : Act err) : Prop :=
  forall w r w', c w = (r, w') ->
  exists e, r = inr e /\ is_status e /\ w_db w' = w_db w /\ w_kv w' = w_kv w.

Lemma reports_status code ctx ev ec c :
  code ∈ [204; 400; 401; 403; 404; 409; 412; 500] ->
  reports (status code ctx ev ec c).
Proof.
  intros Hc w r w' (-> & ? & ?)%status_inv. eexists. split; [done|].
  split; [|done]. eexists _, _. done.
Qed.

Lemma reports_if (b : bool) c1 c2 :
  reports c1 -> reports c2 -> reports (if b then c1 else c2).
Proof. by destruct b. Qed.

Lemma reports_CreateError_of ctx ev e : reports (CreateError_of ctx ev e).
Proof.
  unfold CreateError_of.
  repeat apply reports_if; apply reports_status;
    apply (bool_decide_unpack _); by vm_compute.
Qed.
End report.

(** Reporting is about the queue only. *)
#[export] Hint Resolve reports_status reports_if reports_CreateError_of : reports.
