(* ===== verification/Config.v ===== *)
(** * common/config: settings read from the database (config.go, value.go) *)

From stdpp Require Import base tactics list strings.
From Stdlib Require Import ZArith Lia.
From S2P Require Import Prelude GoStd Model Backend Errors Gorm Database.
From S2P Require Import GormFacts.
#[local] Open Scope Z_scope.
#[local] Open Scope go_scope.

(** ** Keys *)
Definition GlobalTimeZone : string := "global_timezone".
Definition GlobalLanguageSet : string := "global_language_set".
Definition UserLoginRestrictionEnable : string := "user_login_restriction_enable".
Definition UserLoginRestrictionTryCount : string :=
  "user_login_restriction_try_count".
Definition UserLoginRestrictionTime : string := "user_login_restriction_time".
Definition UserReuseOldPassword : string := "user_reuse_old_password".
Definition UserPasswordChangeCycle : string := "user_password_change_cycle".
Definition UserSessionTimeout : string := "user_session_timeout".
Definition EventNotificationEnable : string := "event_notification_enable".
Definition EventEmailNotificationEnable : string :=
  "event_email_notification_enable".
Definition EventDesktopNotificationEnable : string :=
  "event_desktop_notification_enable".
Definition EventPopupNotificationEnable : string :=
  "event_popup_notification_enable".
Definition EventSmsNotificationEnable : string := "event_sms_notification_enable".
Definition EventCustomNotificationEnable : string :=
  "event_custom_notification_enable".
Definition EventStorePeriod : string := "event_store_period".
Definition EventEmailNotifier : string := "event_smtp_notifier".
Definition EventSMSNotifier : string := "event_sms_notifier".

(** ** Values *)
Definition Value := string.
Module Value.
Definition wrap {A} (fn : string) (v : Value)
    (r : Strconv.num_error + A) : err + A :=
  match r with inl e => inl (ENum fn v e) | inr a => inr a end.
Definition Bool (v : Value) : err + bool :=
  wrap "ParseBool" v (Strconv.ParseBool v).
Definition Int64 (v : Value) : err + Z :=
  wrap "ParseInt" v (Strconv.ParseInt v).
Definition Uint64 (v : Value) : err + Z :=
  wrap "ParseUint" v (Strconv.ParseUint v).
End Value.

Section config.
Context `{Backend}.

Record Config := mkConfig { cfg_Key : string; cfg_Value : Value }.

(** A setting that cannot be read is the same as one that is not there. *)
Definition lookup (t : table) (p : row t -> bool) (value : row t -> Value)
    (key : string) : Act (option Config) :=
  r <- attempt (First t p) ;;
  ret (match r with
       | inr cfg => Some (mkConfig key (value cfg))
       | inl _ => None
       end).

Definition GlobalConfig (key : string) : Act (option Config) :=
  lookup TGlobalConfig (fun r => (GlobalConfig.Key r =? key)%string)
    GlobalConfig.Value key.

Definition tenant_key (tenantID : Z) (key : string) (r : TenantConfig.t)
    : bool :=
  (TenantConfig.TenantID r =? tenantID) && (TenantConfig.Key r =? key)%string.

Definition TenantConfig (tenantID : Z) (key : string) : Act (option Config) :=
  lookup TTenantConfig (tenant_key tenantID key) TenantConfig.Value key.

Definition ServiceConfig (serviceName key : string) : Act (option Config) :=
  lookup TServiceConfig
    (fun r => (ServiceConfig.Name r =? serviceName)%string
              && (ServiceConfig.Key r =? key)%string)
    ServiceConfig.Value key.
End config.

(** ** Facts *)
Section config_facts.
Context `{BackendLaws}.

#[global] Instance preserves_lookup t p v k ts :
  Preserves (db_frame ts) (lookup t p v k).
Proof. unfold lookup. keep. Qed.
#[global] Instance preserves_lookup_kv t p v k : Preserves kv_frame (lookup t p v k).
Proof. unfold lookup. keep. Qed.
#[global] Instance preserves_TenantConfig tid k ts :
  Preserves (db_frame ts) (TenantConfig tid k).
Proof. unfold TenantConfig. apply _. Qed.
#[global] Instance preserves_TenantConfig_kv tid k :
  Preserves kv_frame (TenantConfig tid k).
Proof. unfold TenantConfig. apply _. Qed.

(** The value of a tenant's setting in the table. *)
Definition setting (w : World) (tid : Z) (key v : string) : Prop :=
  TenantConfig.mk tid key v ∈ R TTenantConfig w.

Lemma setting_unique w tid key v v' :
  setting w tid key v -> setting w tid key v' -> v = v'.
Proof.
  intros H1 H2. pose proof (rows_unique TTenantConfig _ _ _ H1 H2) as Hu.
  unfold conflict, same_key in Hu. cbn in Hu.
  rewrite Z.eqb_refl, String.eqb_refl in Hu. specialize (Hu eq_refl).
  congruence.
Qed.

Lemma TenantConfig_run tid key w r w' :
  TenantConfig tid key w = (r, w') ->
  exists o, r = inr o /\
    match o with
    | Some c => cfg_Key c = key /\ setting w tid key (cfg_Value c)
    | None => (forall v, ~ setting w tid key v) \/
              exists d, (First TTenantConfig (tenant_key tid key) w).1
                        = inl (EDriver d)
    end.
Proof.
  unfold TenantConfig, lookup.
  intros [(e & (x & ? & _)%attempt_inv & _)|(x & w1 & Ha & [-> ->]%ret_inv)]
    %bind_inv; [done|].
  eexists. split; [done|]. apply attempt_inv in Ha as (y & [= ->] & Hf).
  destruct y as [e|c].
  - pose proof Hf as Hf2. apply First_err in Hf as [[-> Hf]|[d ->]].
    + left. intros v Hv. apply Hf in Hv. unfold tenant_key in Hv. cbn in Hv.
      by rewrite Z.eqb_refl, String.eqb_refl in Hv.
    + right. exists d. by rewrite Hf2.
  - cbn. apply First_ok in Hf as (Hin & Hk & _). split; [done|].
    unfold tenant_key in Hk.
    apply andb_true_iff in Hk as [Hk1%Z.eqb_eq Hk2%String.eqb_eq].
    destruct c as [t k v]. cbn in *. by subst.
Qed.
End config_facts.
