(* ===== verification/Store.v ===== *)
(** * common/store: the key-value store over etcd (store.go, etcd_store.go,
    etcd_txn.go, options.go)

    Timeouts bound the waiting time of a request; a request that times out is
    one that fails. *)

From stdpp Require Import base tactics list strings.
From Stdlib Require Import ZArith Lia.
From S2P Require Import Prelude GoStd Json Model Backend Errors Gorm Database.
From S2P Require Import Report.
#[local] Open Scope Z_scope.
#[local] Open Scope go_scope.

Section store.
Context `{Backend}.

(** One request. *)
Definition on_kv {A} (f : KV -> (string + A) * KV) : Act A := fun w =>
  match f (w_kv w) with
  | (inl e, kv) => (inl (ERemote e), set_kv kv w)
  | (inr a, kv) => (inr a, set_kv kv w)
  end.

(** [err == store.ErrNotFoundKey]: no request error is an [EPlain]. *)
Definition is_not_found_key (e : err) : bool :=
  match e with EPlain m => (m =? "not found key")%string | _ => false end.

(** [store.Get(key)] *)
Definition Get (key : string) : Act string :=
  resp <- on_kv (kv_get key) ;;
  match resp with
  | None => throw ErrNotFoundKey
  | Some v => ret v
  end.

(** The clean-up [GetAll] does to a value. *)
Definition clean_value (v : string) : string :=
  let v := Strings.ReplaceAll v (Bytes.of_bytes [92]) EmptyString in
  let v := Strings.ReplaceAll v (Bytes.of_bytes [34; 123]) "{" in
  Strings.ReplaceAll v (Bytes.of_bytes [125; 34]) "}".

(** [store.GetAll(key)]: a JSON object of the values under a prefix. *)
Definition GetAll (key : string) : Act string :=
  resp <- on_kv (kv_get_prefix key) ;;
  match resp with
  | [] => throw ErrNotFoundKey
  | kvs =>
      ret (Json.Marshal (JObj (sort_keys
        (map (fun '(k, v) => (k, JStr (clean_value v))) kvs))))
  end.

(** [int64(options.TTL.Seconds())] *)
Definition ttl_seconds (ttl : Z) : Z := Z.quot ttl Int.Second.

(** [store.Put(key, value, PutTTL(ttl))]; without the option [ttl] is 0. *)
Definition Put (key value : string) (ttl : Z) : Act unit :=
  lease <- (if ttl =? 0 then ret None
            else l <- on_kv (kv_grant (ttl_seconds ttl)) ;; ret (Some l)) ;;
  on_kv (kv_put key value lease).

(** [store.Delete(key)], with [DeletePrefix()] if [prefix]. *)
Definition StoreDelete (key : string) (prefix : bool) : Act unit :=
  on_kv (kv_delete key prefix).

(** [store.List(key)] *)
Definition List (key : string) : Act (list string) :=
  resp <- on_kv (kv_list key) ;;
  match resp with
  | [] => throw ErrNotFoundKey
  | keys => ret keys
  end.

(** The operations a store transaction collects. *)
Definition Op : Type := string * (bool * option string).
Definition TxnPut (ops : list Op) (key value : string) : list Op :=
  ops ++ [(key, (false, Some value))].
Definition TxnDelete (ops : list Op) (key : string) (prefix : bool) : list Op :=
  ops ++ [(key, (prefix, None))].

(** [store.Transaction(fc)]: [fc] only collects operations. *)
Definition StoreTransaction (fc : list Op -> err + list Op) : Act unit :=
  match fc [] with
  | inl e => throw e
  | inr ops => on_kv (kv_txn ops)
  end.
End store.

Section store_facts.
Context `{BackendLaws}.

(** The value stored under a key. *)
Definition stored (w : World) (k : string) : option string :=
  kv_lookup k (w_kv w).

(** Nothing but expiry happened to the store. *)
Definition kv_expired (w w' : World) : Prop := kv_expires (w_kv w) (w_kv w').

#[global] Instance kv_expired_preorder : PreOrder kv_expired.
Proof.
  split; [by intros w k; left|]. intros w1 w2 w3 H1 H2 k.
  destruct (H2 k) as [-> | ->]; [apply H1|by right].
Qed.

(** The same for the keys other than [k]. *)
Definition kv_expired_but (k : string) (w w' : World) : Prop :=
  kv_expires_but (eq k) (w_kv w) (w_kv w').

#[global] Instance kv_expired_but_preorder k : PreOrder (kv_expired_but k).
Proof.
  split; [by intros w k'; right; left|]. intros w1 w2 w3 H1 H2 k'.
  destruct (H1 k') as [|H1']; [by left|].
  destruct (H2 k') as [|[-> | ->]]; [by left|by right|by right; right].
Qed.

Lemma kv_expired_weaken k w w' : kv_expired w w' -> kv_expired_but k w w'.
Proof. intros He k'. right. apply He. Qed.

Lemma kv_frame_expired w w' : kv_frame w w' -> kv_expired w w'.
Proof. intros Hk k. left. by rewrite Hk. Qed.

Lemma on_kv_inv {A} (f : KV -> (string + A) * KV) r w w' :
  on_kv f w = (r, w') ->
  exists x kv, f (w_kv w) = (x, kv) /\ w' = set_kv kv w /\
    r = match x with inl e => inl (ERemote e) | inr a => inr a end.
Proof.
  unfold on_kv. destruct (f (w_kv w)) as [[e|a] kv] eqn:E;
    intros [= <- <-]; eauto 6.
Qed.

#[global] Instance preserves_on_kv_db {A} (f : KV -> (string + A) * KV) ts :
  Preserves (db_frame ts) (on_kv f).
Proof. by intros w r w' (x & kv & _ & -> & _)%on_kv_inv. Qed.
#[global] Instance preserves_on_kv_out {A} (f : KV -> (string + A) * KV) :
  Preserves out_frame (on_kv f).
Proof. by intros w r w' (x & kv & _ & -> & _)%on_kv_inv. Qed.

#[global] Instance preserves_Get_db k ts : Preserves (db_frame ts) (Get k).
Proof. unfold Get. keep. Qed.
#[global] Instance preserves_Put_db k v l ts : Preserves (db_frame ts) (Put k v l).
Proof. unfold Put. keep. Qed.
#[global] Instance preserves_StoreDelete_db k p ts :
  Preserves (db_frame ts) (StoreDelete k p).
Proof. unfold StoreDelete. apply _. Qed.
#[global] Instance preserves_List_db k ts : Preserves (db_frame ts) (List k).
Proof. unfold List. keep. Qed.

#[global] Instance preserves_Get k : Preserves kv_expired (Get k).
Proof.
  unfold Get. apply preserves_bind; [apply _| |intros []; apply _].
  intros w r w' (x & kv & E & -> & _)%on_kv_inv. by eapply get_expires.
Qed.
#[global] Instance preserves_List k : Preserves kv_expired (List k).
Proof.
  unfold List. apply preserves_bind; [apply _| |intros []; apply _].
  intros w r w' (x & kv & E & -> & _)%on_kv_inv. by eapply list_expires.
Qed.

Lemma Get_ok k w v w' :
  Get k w = (inr v, w') -> stored w' k = Some v /\ stored w k = Some v.
Proof.
  intros Hg. pose proof (preserves_Get k _ _ _ Hg k) as Hx.
  unfold Get in Hg. apply bind_inr in Hg as (o & w1 & Hr & Hg).
  apply on_kv_inv in Hr as (x & kv & E & -> & Hr).
  destruct x as [|x]; [done|]. injection Hr as ->. apply get_ok in E.
  destruct x; [|by apply throw_inv in Hg as [? _]].
  apply ret_inv in Hg as [[= ->] ->].
  split; [done|]. unfold stored. cbn in *. destruct Hx; congruence.
Qed.

Lemma Get_missing k w w' :
  Get k w = (inl ErrNotFoundKey, w') -> stored w' k = None.
Proof.
  unfold Get. intros [Hr|(o & w1 & Hr & Hg)]%bind_inl;
    apply on_kv_inv in Hr as (x & kv & E & -> & Hr); [by destruct x|].
  destruct x as [|x]; [done|]. injection Hr as ->. apply get_ok in E.
  destruct x; [by apply ret_inv in Hg as [? _]|].
  by apply throw_inv in Hg as [_ ->].
Qed.

(** What [Get] answers: the value, [ErrNotFoundKey] when there is none, or
    a client error. *)
Lemma Get_inv k w r w' :
  Get k w = (r, w') ->
  match r with
  | inr v => stored w' k = Some v /\ stored w k = Some v
  | inl e => (e = ErrNotFoundKey /\ stored w' k = None) \/
             exists m, e = ERemote m
  end.
Proof.
  intros Hg. destruct r as [e|v]; [|by apply Get_ok]. pose proof Hg as Hg2.
  unfold Get in Hg. apply bind_inl in Hg as [Hr|(o & w1 & Hr & Hg)];
    apply on_kv_inv in Hr as (x & kv & E & -> & Hr).
  - destruct x; [|done]. injection Hr as ->. eauto.
  - destruct o; [by apply ret_inv in Hg as [? _]|].
    apply throw_inv in Hg as [[= ->] _]. left. split; [done|].
    by eapply Get_missing.
Qed.

Lemma StoreDelete_ok k w w' :
  StoreDelete k false w = (inr tt, w') ->
  stored w' k = None /\ kv_expired w w'.
Proof.
  intros (x & kv & E & -> & Hr)%on_kv_inv. destruct x as [|[]]; [done|].
  split; [by eapply kv_delete_ok|by eapply delete_expires].
Qed.

Lemma StoreDelete_expired k : Preserves kv_expired (StoreDelete k false).
Proof. intros w r w' (x & kv & E & -> & _)%on_kv_inv. by eapply delete_expires. Qed.

Lemma Put_expired k v l : Preserves (kv_expired_but k) (Put k v l).
Proof.
  unfold Put. apply preserves_bind; [apply _| |].
  - destruct (l =? 0); [apply _|]. apply preserves_bind; [apply _| |intros; apply _].
    intros w r w' (x & kv & E & -> & _)%on_kv_inv.
    apply kv_expired_weaken. by eapply grant_expires.
  - intros o w r w' (x & kv & E & -> & _)%on_kv_inv. by eapply put_expires.
Qed.

Lemma Put_ok k v l w w' : Put k v l w = (inr tt, w') -> stored w' k = Some v.
Proof.
  unfold Put. intros (o & w1 & _ & Hp)%bind_inr.
  apply on_kv_inv in Hp as (x & kv & E & -> & Hr).
  destruct x as [|[]]; [done|]. by eapply put_ok.
Qed.
End store_facts.
