(* ===== verification/IdBase.v ===== *)
(** * services/identity/handler: what the handlers share

    Length limits (common.go), boundaries (end of config.go), the error values
    (errors.go), the status of every error ([createError]), the conversions
    between database rows and messages, password generation, role tests
    (util.go), and the wrappers around database calls. *)

From stdpp Require Import base tactics list strings gmap.
From Stdlib Require Import ZArith Lia.
From S2P Require Import Prelude GoStd Json Model Backend Errors Proto Metadata.
From S2P Require Import Gorm Database GormFacts Report.
#[local] Open Scope Z_scope.
#[local] Open Scope go_scope.

(** ** common.go *)
Definition nameLength : Z := 255.
Definition solutionLength : Z := 30.
Definition remarksLength : Z := 300.
Definition departmentLength : Z := 255.
Definition positionLength : Z := 255.
Definition contactLength : Z := 20.
Definition timezoneLength : Z := 35.
Definition accountLength : Z := 30.
Definition emailLength : Z := 320.
Definition passwordLength : Z := 64.

(** ** Boundaries *)
Definition enum (b : list string) (s : string) : bool :=
  existsb (fun v => (v =? s)%string) b.

Record numericBoundary := mkBoundary { nb_min : Z; nb_max : Z }.
Definition minMax (b : numericBoundary) (i : Z) : bool :=
  negb ((i <? nb_min b) || (nb_max b <? i)).

Definition languageBoundary : list string := ["eng"; "kor"].
Definition roleBoundary : list string := ["manager"; "operator"; "viewer"].
Definition userPasswordChangeCycleBoundary := mkBoundary 0 180.
Definition userSessionTimeoutBoundary := mkBoundary 1 1440.
Definition userLoginRestrictionTryCountBoundary := mkBoundary 5 30.
Definition userLoginRestrictionTimeBoundary := mkBoundary 10 7200.

Lemma minMax_spec b i : minMax b i = true <-> nb_min b <= i <= nb_max b.
Proof.
  unfold minMax. rewrite negb_true_iff, orb_false_iff, !Z.ltb_ge. lia.
Qed.

Lemma enum_spec b s : enum b s = true <-> s ∈ b.
Proof.
  unfold enum. rewrite existsb_exists. setoid_rewrite String.eqb_eq.
  rewrite list_elem_of_In. split; [by intros (x & ? & ->)|eauto].
Qed.

(** ** errors.go *)
Definition errNotFoundUser := ENew "not found user".
Definition errNotFoundTenant := ENew "not found tenant".
Definition errNotFoundGroup := ENew "not found group".
Definition errNotReusableOldPassword := ENew "not reusable old password".
Definition errCurrentPasswordMismatch := ENew "current password mismatch".
Definition errUndeletableUser := ENew "undeletable user".
Definition errAlreadyDeletedGroup := ENew "already deleted group".
Definition errUndeletableGroup := ENew "undeletable group".
Definition errAlreadyLogin := ENew "already login account".
Definition errLoginRestricted := ENew "account restrict".
Definition errIncorrectPassword := ENew "password mismatch".
Definition errUnknownSession := ENew "not found session".
Definition errExpiredSession := ENew "expired session".
Definition errUnverifiedSession := ENew "unverified session".
Definition errInvalidSession := ENew "invalid session".
Definition errNotfoundTenantConfig := ENew "not found tenant config".
Definition errInvalidTenantConfig := ENew "invalid tenant config".
Definition errUnassignableRole := ENew "unassignable role".

Definition notFoundUser (value : evalue err) : err :=
  Wrap errNotFoundUser [("id", value)].
Definition notFoundTenant (id : Z) : err :=
  Wrap errNotFoundTenant [("id", VInt id)].
Definition notFoundGroup (id : Z) : err :=
  Wrap errNotFoundGroup [("id", VInt id)].
Definition currentPasswordMismatch : err := Wrap errCurrentPasswordMismatch [].
Definition notReusableOldPassword : err := Wrap errNotReusableOldPassword [].
Definition alreadyDeletedGroup (groupID : Z) : err :=
  Wrap errAlreadyDeletedGroup [("group_id", VInt groupID)].
Definition incorrectPassword : err := Wrap errIncorrectPassword [].
Definition alreadyLogin (userID : Z) : err :=
  Wrap errAlreadyLogin [("user_id", VInt userID)].
Definition unknownSession (id : Z) : err :=
  Wrap errUnknownSession [("id", VInt id)].
Definition invalidSession (session : string) : err :=
  Wrap errInvalidSession [("session", VStr session)].
Definition expiredSession (session : string) : err :=
  Wrap errExpiredSession [("session", VStr session)].
Definition unverifiedSession (session : string) (cause : err) : err :=
  Wrap errUnverifiedSession
    [("session", VStr session); ("cause", VCause (Some cause))].
Definition loginRestricted (account : string)
    (failedCount lastFailedAt until : Z) : err :=
  Wrap errLoginRestricted
    [("account", VStr account); ("failed_count", VInt failedCount);
     ("last_failed_at", VInt lastFailedAt); ("until", VInt until)].
Definition notfoundTenantConfig (key : string) : err :=
  Wrap errNotfoundTenantConfig [("key", VStr key)].
Definition invalidTenantConfig (key value : string) : err :=
  Wrap errInvalidTenantConfig [("key", VStr key); ("value", VStr value)].
Definition unassignableRole (role : string) : err :=
  Wrap errUnassignableRole [("role", VStr role)].
Definition undeletableUser (userID : Z) : err :=
  Wrap errUndeletableUser [("user_id", VInt userID)].
Definition undeletableGroup (groupID : Z) : err :=
  Wrap errUndeletableGroup [("group_id", VInt groupID)].

(** ** The global variables [Role] and [adminUser] of handler.go *)
Class Globals := {
  admin_role : Role.t;
  manager_role : Role.t;
  adminUser : User.t
}.

Definition isAdmin `{Globals} (userRoles : list IRole.t) : bool :=
  existsb (fun r => IRole.Id r =? Role.ID admin_role) userRoles.
Definition isManager `{Globals} (userRoles : list IRole.t) : bool :=
  existsb (fun r => IRole.Id r =? Role.ID manager_role) userRoles.

Section util.
Context `{Backend}.

(** [createError] of a non-nil error. *)
Definition createError_of (ctx : Ctx) (eventCode : string) (e : err)
    : Act err :=
  let same s := Equal (Some e) s in
  let missing c := StatusNotFound ctx eventCode c (Some e) in
  let bad c := StatusBadRequest ctx eventCode c (Some e) in
  let unauthenticated c := StatusUnauthenticated ctx eventCode c (Some e) in
  if same errNotFoundUser then missing "not_found_user"
  else if same errNotFoundTenant then missing "not_found_tenant"
  else if same errNotFoundGroup then missing "not_found_group"
  else if same errNotReusableOldPassword then bad "not_reusable_old_password"
  else if same errCurrentPasswordMismatch then bad "mismatch_password"
  else if same errUndeletableUser then bad "undeletable_user"
  else if same errAlreadyDeletedGroup then
    StatusPreconditionFailed ctx eventCode "already_deleted" (Some e)
  else if same errUndeletableGroup then bad "undeletable_group"
  else if same errAlreadyLogin then
    StatusConflict ctx eventCode "already_login" (Some e)
  else if same errLoginRestricted then unauthenticated "login_restricted"
  else if same errIncorrectPassword then unauthenticated "incorrect_password"
  else if same errUnknownSession then missing "unknown_session"
  else if same errExpiredSession then unauthenticated "expired_session"
  else if same errUnverifiedSession then unauthenticated "unverified_session"
  else if same errInvalidSession then bad "invalid_session"
  else if same errNotfoundTenantConfig then missing "not_found_tenant_config"
  else if same errInvalidTenantConfig then
    StatusInternalServerError ctx eventCode "invalid_tenant_config" (Some e)
  else if same errUnassignableRole then bad "unassignable_role"
  else CreateError_of ctx eventCode e.

Definition createError (ctx : Ctx) (eventCode : string) (e : option err)
    : Act (option err) :=
  match e with
  | None => ret None
  | Some e => r <- createError_of ctx eventCode e ;; ret (Some r)
  end.

(** [return createError(ctx, eventCode, err)] where [err] is not nil. *)
Definition fail_with {A} (ctx : Ctx) (eventCode : string) (e : err) : Act A :=
  r <- createError_of ctx eventCode e ;; throw r.

(** [x, err = c; if err != nil { return createError(ctx, eventCode, err) }];
    a panic is not an error value and unwinds through it. *)
Definition check {A} (ctx : Ctx) (eventCode : string) (c : Act A) : Act A :=
  r <- attempt c ;;
  match r with
  | inr a => ret a
  | inl EPanic => throw EPanic
  | inl e => fail_with ctx eventCode e
  end.

(** ** Database calls with their errors wrapped *)
(** [if err := c; err != nil { return errors.UnusableDatabase(err) }] *)
Definition or_db {A} (c : Act A) : Act A :=
  r <- attempt c ;;
  match r with
  | inr a => ret a
  | inl e => throw (UnusableDatabase (Some e))
  end.

(** [First], with the error for a missing record. *)
Definition first_or (t : table) (p : row t -> bool) (missing : err)
    : Act (row t) :=
  r <- attempt (First t p) ;;
  match r with
  | inr x => ret x
  | inl ERecordNotFound => throw missing
  | inl e => throw (UnusableDatabase (Some e))
  end.

(** [First] for a record that must not be there. *)
Definition first_absent (t : table) (p : row t -> bool) (found : err)
    : Act unit :=
  r <- attempt (First t p) ;;
  match r with
  | inr _ => throw found
  | inl ERecordNotFound => ret tt
  | inl e => throw (UnusableDatabase (Some e))
  end.

(** A pure result; [errors.Unknown(err)] for its error. *)
Definition or_unknown_err {A} (r : err + A) : Act A :=
  match r with
  | inr a => ret a
  | inl e => throw (Unknown (Some e))
  end.

Definition lift {A} (r : err + A) : Act A :=
  match r with inr a => ret a | inl e => throw e end.

(** A pointer that is dereferenced. *)
Definition deref {A} (o : option A) : Act A :=
  match o with Some a => ret a | None => throw EPanic end.

(** ** Relations of a user (common/database/model/model_relations.go) *)
Definition zin (ids : list Z) (id : Z) : bool := existsb (Z.eqb id) ids.

(** [User.Groups(db)] *)
Definition User_Groups (userID : Z) : Act (list Group.t) :=
  relations <- Find TUserGroup (fun r => UserGroup.UserID r =? userID) ;;
  let arr := map UserGroup.GroupID relations in
  Find TGroup (fun g => zin arr (Group.ID g)).

(** [User.Roles(db)] *)
Definition User_Roles (userID : Z) : Act (list Role.t) :=
  relations <- Find TUserRole (fun r => UserRole.UserID r =? userID) ;;
  let arr := map UserRole.RoleID relations in
  Find TRole (fun r => zin arr (Role.ID r)).

(** ** Passwords *)
Definition hex_string (s : string) : string :=
  Bytes.of_bytes (concat (map (fun b => [Json.hex (b / 16); Json.hex (b mod 16)])
                            (Bytes.to_bytes s))).

Definition encodePassword (password : string) : string :=
  hex_string (sha256 password).

Fixpoint generate_loop (n : nat) (passwdLength per : Z) (last : option err)
    : Act string :=
  match n with
  | O => throw (Unknown last)
  | S n =>
      r <- on_tick (fun k => password_generate k passwdLength per per) ;;
      match r with
      | inr passwd => ret passwd
      | inl e => generate_loop n passwdLength per (Some (ERemote e))
      end
  end.

Definition generatePassword : Act string :=
  seed <- now_nano ;;
  let passwdLength := rand_intn seed 10 + 6 in
  let per := passwdLength / 6 in
  generate_loop 10 passwdLength per None.
End util.

(** ** Conversions: every message is the JSON of a row read back, and the
    other way round *)
Definition convert {A} (zero : A) (d : Dec.t A) (ms : list (string * json))
    : err + A :=
  let '(a, ok) := d zero (JObj ms) in
  if ok then inr a else inl (EPlain "JSON type mismatch").

Definition User_members (u : User.t) : list (string * json) :=
  Enc.int "id" (User.ID u)
  ++ Enc.int "tenant_id" (User.TenantID u)
  ++ Enc.str "account" (User.Account u)
  ++ Enc.str "name" (User.Name u)
  ++ Enc.opt JStr "department" (User.Department u)
  ++ Enc.opt JStr "position" (User.Position u)
  ++ Enc.opt JStr "email" (User.Email u)
  ++ Enc.opt JStr "contact" (User.Contact u)
  ++ Enc.opt JStr "language_set" (User.LanguageSet u)
  ++ Enc.opt JStr "timezone" (User.Timezone u)
  ++ Enc.str "password" (User.Password u)
  ++ Enc.opt JStr "old_password" (User.OldPassword u)
  ++ Enc.opt jint "password_updated_at" (User.PasswordUpdatedAt u)
  ++ Enc.opt JBool "password_update_flag" (User.PasswordUpdateFlag u)
  ++ Enc.opt jint "last_logged_in_at" (User.LastLoggedInAt u)
  ++ Enc.opt JStr "last_logged_in_ip" (User.LastLoggedInIP u)
  ++ Enc.opt jint "last_login_failed_count" (User.LastLoginFailedCount u)
  ++ Enc.opt jint "last_login_failed_at" (User.LastLoginFailedAt u)
  ++ Enc.int "created_at" (User.CreatedAt u)
  ++ Enc.int "updated_at" (User.UpdatedAt u) ++ [].

Definition userModelToRsp (u : User.t) : err + IUser.t :=
  convert IUser_zero IUser_dec (User_members u).

Definition simpleUserModelToRsp (u : User.t) : err + ISimpleUser.t :=
  convert ISimpleUser_zero ISimpleUser_dec (User_members u).

(** [json.Unmarshal] into a [model.User]. *)
Definition User_dec : Dec.t User.t := fun u j =>
  match j with
  | JObj ms =>
      let str n a := Dec.field n Dec.string_ a ms in
      let ostr n a := Dec.field n (Dec.ptr EmptyString Dec.string_) a ms in
      let oint n a := Dec.field n (Dec.ptr 0 Dec.int64) a ms in
      let '(id, k1) := Dec.field "id" Dec.uint64 (User.ID u) ms in
      let '(tid, k2) := Dec.field "tenant_id" Dec.uint64 (User.TenantID u) ms in
      let '(acc, k3) := str "account" (User.Account u) in
      let '(name, k4) := str "name" (User.Name u) in
      let '(dep, k5) := ostr "department" (User.Department u) in
      let '(pos, k6) := ostr "position" (User.Position u) in
      let '(email, k7) := ostr "email" (User.Email u) in
      let '(contact, k8) := ostr "contact" (User.Contact u) in
      let '(lang, k9) := ostr "language_set" (User.LanguageSet u) in
      let '(tz, k10) := ostr "timezone" (User.Timezone u) in
      let '(pw, k11) := str "password" (User.Password u) in
      let '(opw, k12) := ostr "old_password" (User.OldPassword u) in
      let '(pua, k13) := oint "password_updated_at" (User.PasswordUpdatedAt u) in
      let '(puf, k14) := Dec.field "password_update_flag"
        (Dec.ptr false Dec.bool_) (User.PasswordUpdateFlag u) ms in
      let '(lla, k15) := oint "last_logged_in_at" (User.LastLoggedInAt u) in
      let '(lli, k16) := ostr "last_logged_in_ip" (User.LastLoggedInIP u) in
      let '(lfc, k17) := Dec.field "last_login_failed_count"
        (Dec.ptr 0 Dec.uint64) (User.LastLoginFailedCount u) ms in
      let '(lfa, k18) := oint "last_login_failed_at" (User.LastLoginFailedAt u) in
      let '(ca, k19) := Dec.field "created_at" Dec.int64 (User.CreatedAt u) ms in
      let '(ua, k20) := Dec.field "updated_at" Dec.int64 (User.UpdatedAt u) ms in
      (User.mk id tid acc name dep pos email contact lang tz pw opw pua puf
         lla lli lfc lfa ca ua,
       k1 && k2 && k3 && k4 && k5 && k6 && k7 && k8 && k9 && k10 && k11 && k12
       && k13 && k14 && k15 && k16 && k17 && k18 && k19 && k20)
  | JNull => (u, true)
  | _ => (u, false)
  end.

Definition User_zero : User.t :=
  User.mk 0 0 EmptyString EmptyString None None None None None None EmptyString
    None None None None None None None 0 0.

Definition json_members (j : json) : list (string * json) :=
  match j with JObj ms => ms | _ => [] end.

Definition userRspToModel `{Backend} (u : IUser.t) : Act User.t :=
  t <- deref (IUser.Tenant u) ;;
  lift (convert (User.set_TenantID (ITenant.Id t) User_zero) User_dec
          (json_members (IUser_enc u))).

Definition Role_members (r : Role.t) : list (string * json) :=
  Enc.int "id" (Role.ID r) ++ Enc.str "solution" (Role.Solution r)
  ++ Enc.str "role" (Role.Role r) ++ [].
Definition roleModelToRsp (r : Role.t) : err + IRole.t :=
  convert IRole_zero IRole_dec (Role_members r).

Definition Group_members (g : Group.t) : list (string * json) :=
  Enc.int "id" (Group.ID g) ++ Enc.int "tenant_id" (Group.TenantID g)
  ++ Enc.str "name" (Group.Name g) ++ Enc.opt JStr "remarks" (Group.Remarks g)
  ++ Enc.int "created_at" (Group.CreatedAt g)
  ++ Enc.int "updated_at" (Group.UpdatedAt g)
  ++ Enc.bool_ "deleted_flag" (Group.DeletedFlag g) ++ [].
Definition groupModelToRsp (g : Group.t) : err + IGroup.t :=
  convert IGroup_zero IGroup_dec (Group_members g).

Definition Group_zero : Group.t :=
  Group.mk 0 0 EmptyString None 0 0 false.
Definition Group_dec : Dec.t Group.t := fun g j =>
  match j with
  | JObj ms =>
      let '(id, k1) := Dec.field "id" Dec.uint64 (Group.ID g) ms in
      let '(tid, k2) := Dec.field "tenant_id" Dec.uint64 (Group.TenantID g) ms in
      let '(name, k3) := Dec.field "name" Dec.string_ (Group.Name g) ms in
      let '(rem, k4) := Dec.field "remarks" (Dec.ptr EmptyString Dec.string_)
        (Group.Remarks g) ms in
      let '(ca, k5) := Dec.field "created_at" Dec.int64 (Group.CreatedAt g) ms in
      let '(ua, k6) := Dec.field "updated_at" Dec.int64 (Group.UpdatedAt g) ms in
      let '(del, k7) := Dec.field "deleted_flag" Dec.bool_ (Group.DeletedFlag g) ms in
      (Group.mk id tid name rem ca ua del, k1 && k2 && k3 && k4 && k5 && k6 && k7)
  | JNull => (g, true)
  | _ => (g, false)
  end.
Definition groupRspToModel `{Backend} (g : IGroup.t) : Act Group.t :=
  t <- deref (IGroup.Tenant g) ;;
  lift (convert (Group.set_TenantID (ITenant.Id t) Group_zero) Group_dec
          (json_members (IGroup_enc g))).

Definition solutionModelToRsp (s : TenantSolution.t) : err + ISolution.t :=
  convert ISolution_zero ISolution_dec
    (Enc.int "tenant_id" (TenantSolution.TenantID s)
     ++ Enc.str "solution" (TenantSolution.Solution s) ++ []).

Definition Tenant_members (t : Tenant.t) : list (string * json) :=
  Enc.int "id" (Tenant.ID t) ++ Enc.str "name" (Tenant.Name t)
  ++ Enc.opt JStr "remarks" (Tenant.Remarks t)
  ++ Enc.bool_ "use_flag" (Tenant.UseFlag t)
  ++ Enc.int "created_at" (Tenant.CreatedAt t)
  ++ Enc.int "updated_at" (Tenant.UpdatedAt t) ++ [].

(** The decoding error, of [use_flag], is ignored and the field set by
    hand. *)
Definition tenantModelToRsp (t : Tenant.t) : ITenant.t :=
  ITenant.set_UseFlag (Some (Tenant.UseFlag t))
    (ITenant_dec ITenant_zero (JObj (Tenant_members t))).1.

Definition Tenant_zero : Tenant.t := Tenant.mk 0 EmptyString None false 0 0.
Definition Tenant_dec : Dec.t Tenant.t := fun t j =>
  match j with
  | JObj ms =>
      let '(id, k1) := Dec.field "id" Dec.uint64 (Tenant.ID t) ms in
      let '(name, k2) := Dec.field "name" Dec.string_ (Tenant.Name t) ms in
      let '(rem, k3) := Dec.field "remarks" (Dec.ptr EmptyString Dec.string_)
        (Tenant.Remarks t) ms in
      let '(use, k4) := Dec.field "use_flag" Dec.bool_ (Tenant.UseFlag t) ms in
      let '(ca, k5) := Dec.field "created_at" Dec.int64 (Tenant.CreatedAt t) ms in
      let '(ua, k6) := Dec.field "updated_at" Dec.int64 (Tenant.UpdatedAt t) ms in
      (Tenant.mk id name rem use ca ua, k1 && k2 && k3 && k4 && k5 && k6)
  | JNull => (t, true)
  | _ => (t, false)
  end.
Definition tenantRspToModel (t : ITenant.t) : Tenant.t :=
  Tenant.set_UseFlag (default false (ITenant.UseFlag t))
    (Tenant_dec Tenant_zero (ITenant_enc t)).1.

(** ** Closed forms of the conversions *)
Lemma opt_i64_range o : opt_i64 o = true ->
  forall n, o = Some n -> - Int.two63 <= n < Int.two63.
Proof. intros Ho n ->. by apply Int.is_i64_spec. Qed.

Ltac typed_hyps :=
  repeat match goal with
  | H : _ && _ = true |- _ => apply andb_true_iff in H as [? H]
  | H : Int.is_u64 _ = true |- _ => apply Int.is_u64_spec in H
  | H : Int.is_i64 _ = true |- _ => apply Int.is_i64_spec in H
  end.

#[local] Hint Resolve opt_i64_range : core.

Definition user_rsp (u : User.t) : IUser.t :=
  let s := default EmptyString in
  IUser.mk (User.ID u) None (User.Account u) [] [] (User.Name u)
    (s (User.Department u)) (s (User.Position u)) (s (User.Email u))
    (s (User.Contact u)) (s (User.LanguageSet u)) (s (User.Timezone u))
    (User.CreatedAt u) (default 0 (User.LastLoggedInAt u)) (User.UpdatedAt u)
    (default 0 (User.PasswordUpdatedAt u))
    (default false (User.PasswordUpdateFlag u)) None.

Lemma userModelToRsp_ok u :
  typed TUser u = true -> userModelToRsp u = inr (user_rsp u).
Proof.
  intros Ht. cbn in Ht. typed_hyps.
  unfold userModelToRsp, convert, IUser_dec, User_members.
  cbn [IUser.Id IUser.Tenant IUser.Account IUser.Roles IUser.Groups IUser.Name
    IUser.Department IUser.Position IUser.Email IUser.Contact IUser.LanguageSet
    IUser.Timezone IUser.CreatedAt IUser.LastLoggedInAt IUser.UpdatedAt
    IUser.PasswordUpdatedAt IUser.PasswordUpdateFlag IUser.Session IUser_zero].
  fields. done.
Qed.

Definition simple_user_rsp (u : User.t) : ISimpleUser.t :=
  let s := default EmptyString in
  ISimpleUser.mk (User.ID u) None (User.Account u) [] [] (User.Name u)
    (s (User.Department u)) (s (User.Position u)) (s (User.Email u))
    (s (User.Contact u)).

Lemma simpleUserModelToRsp_ok u :
  typed TUser u = true -> simpleUserModelToRsp u = inr (simple_user_rsp u).
Proof.
  intros Ht. cbn in Ht. typed_hyps.
  unfold simpleUserModelToRsp, convert, ISimpleUser_dec, User_members.
  cbn [ISimpleUser.Id ISimpleUser.Tenant ISimpleUser.Account ISimpleUser.Roles
    ISimpleUser.Groups ISimpleUser.Name ISimpleUser.Department
    ISimpleUser.Position ISimpleUser.Email ISimpleUser.Contact
    ISimpleUser_zero].
  fields. done.
Qed.

Definition role_rsp (r : Role.t) : IRole.t :=
  IRole.mk (Role.ID r) (Role.Solution r) (Role.Role r).

Lemma roleModelToRsp_ok r :
  typed TRole r = true -> roleModelToRsp r = inr (role_rsp r).
Proof.
  intros Ht. cbn in Ht. typed_hyps.
  unfold roleModelToRsp, convert, IRole_dec, Role_members.
  cbn [IRole.Id IRole.Solution IRole.Role IRole_zero]. fields. done.
Qed.

Definition group_rsp (g : Group.t) : IGroup.t :=
  IGroup.mk (Group.ID g) None (Group.Name g)
    (default EmptyString (Group.Remarks g)) (Group.CreatedAt g)
    (Group.UpdatedAt g).

(** The times of a group are read as unsigned: one before the epoch is a type
    error. *)
Lemma groupModelToRsp_ok g :
  typed TGroup g = true -> 0 <= Group.CreatedAt g -> 0 <= Group.UpdatedAt g ->
  groupModelToRsp g = inr (group_rsp g).
Proof.
  intros Ht H1 H2. cbn in Ht. typed_hyps.
  assert (0 <= Group.CreatedAt g < Int.two64)
    by (unfold Int.two63, Int.two64 in *; lia).
  assert (0 <= Group.UpdatedAt g < Int.two64)
    by (unfold Int.two63, Int.two64 in *; lia).
  unfold groupModelToRsp, convert, IGroup_dec, Group_members.
  cbn [IGroup.Id IGroup.Tenant IGroup.Name IGroup.Remarks IGroup.CreatedAt
    IGroup.UpdatedAt IGroup_zero].
  fields. done.
Qed.

Definition tenant_rsp (t : Tenant.t) : ITenant.t :=
  ITenant.mk (Tenant.ID t) (Tenant.Name t) (Some (Tenant.UseFlag t)) []
    (default EmptyString (Tenant.Remarks t)) (Tenant.CreatedAt t)
    (Tenant.UpdatedAt t).

Lemma tenantModelToRsp_ok t :
  typed TTenant t = true -> tenantModelToRsp t = tenant_rsp t.
Proof.
  intros Ht. cbn in Ht. typed_hyps.
  unfold tenantModelToRsp, ITenant_dec, Tenant_members, tenant_rsp.
  cbn [ITenant.Id ITenant.Name ITenant.UseFlag ITenant.Solutions
    ITenant.Remarks ITenant.CreatedAt ITenant.UpdatedAt ITenant_zero].
  fields. match goal with |- context [Dec.field "use_flag" ?d ?a ?ms] =>
    destruct (Dec.field "use_flag" d a ms) end. by fields.
Qed.

Lemma solutionModelToRsp_ok s :
  solutionModelToRsp s = inr (ISolution.mk (TenantSolution.Solution s)).
Proof.
  unfold solutionModelToRsp, convert, ISolution_dec.
  cbn [ISolution.Solution ISolution_zero]. fields. done.
Qed.

(** A message becomes the row of the same tenant with empty texts as NULL. *)
Definition opt_of (s : string) : option string :=
  if is_empty s then None else Some s.
Definition opt_int (z : Z) : option Z := if z =? 0 then None else Some z.

Definition user_row (tid : Z) (u : IUser.t) : User.t :=
  User.mk (IUser.Id u) tid (IUser.Account u) (IUser.Name u)
    (opt_of (IUser.Department u)) (opt_of (IUser.Position u))
    (opt_of (IUser.Email u)) (opt_of (IUser.Contact u))
    (opt_of (IUser.LanguageSet u)) (opt_of (IUser.Timezone u)) EmptyString None
    (opt_int (IUser.PasswordUpdatedAt u))
    (if IUser.PasswordUpdateFlag u then Some true else None)
    (opt_int (IUser.LastLoggedInAt u)) None None None (IUser.CreatedAt u)
    (IUser.UpdatedAt u).

(** The integers of a message fit their types, as protobuf ensures. *)
Definition user_msg_typed (u : IUser.t) : bool :=
  Int.is_u64 (IUser.Id u) && Int.is_i64 (IUser.CreatedAt u)
  && Int.is_i64 (IUser.LastLoggedInAt u) && Int.is_i64 (IUser.UpdatedAt u)
  && Int.is_i64 (IUser.PasswordUpdatedAt u).

Lemma userRspToModel_ok `{Backend} u t w :
  user_msg_typed u = true -> IUser.Tenant u = Some t ->
  userRspToModel u w = (inr (user_row (ITenant.Id t) u), w).
Proof.
  intros Ht Hten. unfold user_msg_typed in Ht. typed_hyps.
  unfold userRspToModel. rewrite Hten. unfold bind. cbn [deref ret].
  unfold convert, User_dec, IUser_enc. cbn [json_members].
  unfold User.set_TenantID.
  cbn [User.ID User.TenantID User.Account User.Name User.Department
    User.Position User.Email User.Contact User.LanguageSet User.Timezone
    User.Password User.OldPassword User.PasswordUpdatedAt
    User.PasswordUpdateFlag User.LastLoggedInAt User.LastLoggedInIP
    User.LastLoginFailedCount User.LastLoginFailedAt User.CreatedAt
    User.UpdatedAt User_zero].
  fields. done.
Qed.

Definition group_row (tid : Z) (g : IGroup.t) : Group.t :=
  Group.mk (IGroup.Id g) tid (IGroup.Name g) (opt_of (IGroup.Remarks g))
    (IGroup.CreatedAt g) (IGroup.UpdatedAt g) false.

Lemma groupRspToModel_ok `{Backend} g t w :
  0 <= IGroup.Id g < Int.two64 -> 0 <= IGroup.CreatedAt g < Int.two63 ->
  0 <= IGroup.UpdatedAt g < Int.two63 -> IGroup.Tenant g = Some t ->
  groupRspToModel g w = (inr (group_row (ITenant.Id t) g), w).
Proof.
  intros H1 H2 H3 Hten.
  assert (- Int.two63 <= IGroup.CreatedAt g < Int.two63) by lia.
  assert (- Int.two63 <= IGroup.UpdatedAt g < Int.two63) by lia.
  unfold groupRspToModel. rewrite Hten. unfold bind. cbn [deref ret].
  unfold convert, Group_dec, IGroup_enc. cbn [json_members].
  unfold Group.set_TenantID.
  cbn [Group.ID Group.TenantID Group.Name Group.Remarks Group.CreatedAt
    Group.UpdatedAt Group.DeletedFlag Group_zero].
  fields. done.
Qed.

Lemma tenantRspToModel_ok t :
  0 <= ITenant.Id t < Int.two64 ->
  - Int.two63 <= ITenant.CreatedAt t < Int.two63 ->
  - Int.two63 <= ITenant.UpdatedAt t < Int.two63 ->
  tenantRspToModel t =
  Tenant.mk (ITenant.Id t) (ITenant.Name t) (opt_of (ITenant.Remarks t))
    (default false (ITenant.UseFlag t)) (ITenant.CreatedAt t)
    (ITenant.UpdatedAt t).
Proof.
  intros H1 H2 H3. unfold tenantRspToModel, Tenant_dec, ITenant_enc.
  cbn [Tenant.ID Tenant.Name Tenant.Remarks Tenant.UseFlag Tenant.CreatedAt
    Tenant.UpdatedAt Tenant_zero].
  fields. match goal with |- context [Dec.field "use_flag" ?d ?a ?ms] =>
    destruct (Dec.field "use_flag" d a ms) end. by fields.
Qed.
