(* ===== verification/IdTenant.v ===== *)
(** * services/identity/handler: tenants (tenant.go, tenant_filter.go) and the
    queries filters build *)

From stdpp Require Import base tactics list strings sets.
From Stdlib Require Import ZArith Lia.
From S2P Require Import Prelude GoStd Json Model Backend Errors Proto Metadata.
From S2P Require Import Gorm Database GormFacts IdBase.
#[local] Open Scope Z_scope.
#[local] Open Scope go_scope.

(** ** Queries: the conditions gathered so far *)
Record Query (t : table) := mkQuery {
  q_where : row t -> bool;
  q_page : option (Z * Z)
}.
Arguments mkQuery {t}. Arguments q_where {t}. Arguments q_page {t}.

(** [db.Where(p)] *)
Definition Where {t} (p : row t -> bool) (q : Query t) : Query t :=
  mkQuery (fun r => q_where q r && p r) (q_page q).
(** [db.Offset(o).Limit(l)] *)
Definition Paginate {t} (o l : Z) (q : Query t) : Query t :=
  mkQuery (q_where q) (Some (o, l)).
Definition Everything {t} : Query t := mkQuery (fun _ => true) None.

Definition contains_pattern (s : string) : string :=
  String.append "%" (String.append s "%").

Definition like_opt `{Backend} (pattern : string) (o : option string) : bool :=
  match o with Some s => sql_like pattern s | None => false end.

(** [fmt.Sprintf] of a parameter name with an index. *)
Definition indexed (pre : string) (i : nat) (post : string) : string :=
  String.append pre (String.append "["
    (String.append (Strconv.FormatUint (Z.of_nat i)) (String.append "]" post))).

Definition rune_overflow (s : string) (n : Z) : bool :=
  n <? Utf8.RuneCountInString s.

Section tenant.
Context `{Backend}.

Definition validateTenantListGet (name : string) : Act unit :=
  guard_err (rune_overflow name nameLength)
    (LengthOverflowParameterValue "name" name nameLength).

(** [tenantNameFilter], the only implementation of [tenantFilter] *)
Inductive tenantFilter := tenantNameFilter (Name : string).

Definition tenant_Apply (f : tenantFilter) (q : Query TTenant)
    : Act (Query TTenant) :=
  match f with
  | tenantNameFilter name =>
      ret (@Where TTenant
        (fun t => sql_like (contains_pattern name) (Tenant.Name t)) q)
  end.

Definition getTenants (filters : list tenantFilter) : Act (list ITenant.t) :=
  conditions <- fold_each (fun q f => or_db (tenant_Apply f q))
                  Everything filters ;;
  tenants <- or_db (Find_page TTenant (q_where conditions) (q_page conditions)) ;;
  ret (map tenantModelToRsp tenants).

Definition tenant_solutions (id : Z) : Act (list ISolution.t) :=
  solutions <- or_db (Find TTenantSolution
                 (fun s => TenantSolution.TenantID s =? id)) ;;
  map_each (fun s => or_unknown_err (solutionModelToRsp s)) solutions.

Definition getTenant (id : Z) : Act ITenant.t :=
  tenant <- first_or TTenant (fun t => Tenant.ID t =? id) (notFoundTenant id) ;;
  let rspTenant := tenantModelToRsp tenant in
  solutions <- tenant_solutions (Tenant.ID tenant) ;;
  ret (ITenant.set_Solutions solutions rspTenant).

(** The loop over [t.Tenant.Solutions] of both validations. *)
Definition validate_solutions (solutions : list ISolution.t) : Act unit :=
  for_idx (fun idx s =>
    guard_err (is_empty (ISolution.Solution s))
      (RequiredParameter (indexed "tenant.solutions" idx ".solution")) ;;
    guard_err (rune_overflow (ISolution.Solution s) solutionLength)
      (LengthOverflowParameterValue
         (indexed "tenant.solutions" idx ".solution")
         (ISolution.Solution s) solutionLength)) 0 solutions.

Definition validateTenantAdd (tenant : option ITenant.t) : Act unit :=
  match tenant with
  | None => throw (RequiredParameter "tenant")
  | Some t =>
      guard_err (negb (ITenant.Id t =? 0))
        (InvalidParameterValue "tenant.id" (VInt (ITenant.Id t))
           "unusable parameter") ;;
      guard_err (is_empty (ITenant.Name t)) (RequiredParameter "tenant.name") ;;
      guard_err (rune_overflow (ITenant.Name t) nameLength)
        (LengthOverflowParameterValue "tenant.name" (ITenant.Name t)
           nameLength) ;;
      guard_err (bool_decide (ITenant.UseFlag t = None))
        (RequiredParameter "tenant.use_flag") ;;
      guard_err (bool_decide (ITenant.Solutions t = []))
        (RequiredParameter "tenant.solutions") ;;
      validate_solutions (ITenant.Solutions t) ;;
      guard_err (rune_overflow (ITenant.Remarks t) remarksLength)
        (LengthOverflowParameterValue "tenant.remarks" (ITenant.Remarks t)
           remarksLength)
  end.

(** [db.Save(&model.TenantSolution{...})] for every solution. *)
Definition save_solutions (id : Z) (solutions : list ISolution.t) : Act unit :=
  for_each (fun s =>
    or_db (Save TTenantSolution
      (TenantSolution.mk id (ISolution.Solution s))) ;; ret tt) solutions.

Definition addTenant (req : option ITenant.t) : Act ITenant.t :=
  validateTenantAdd req ;;
  t <- deref req ;;
  tenant <- or_db (Save TTenant (tenantRspToModel t)) ;;
  save_solutions (Tenant.ID tenant) (ITenant.Solutions t) ;;
  let rspTenant := tenantModelToRsp tenant in
  solutions <- tenant_solutions (Tenant.ID tenant) ;;
  ret (ITenant.set_Solutions solutions rspTenant).

Definition validateTenantUpdate (req : UpdateTenantRequest.t) : Act unit :=
  match UpdateTenantRequest.Tenant req with
  | None => throw (RequiredParameter "tenant")
  | Some t =>
      guard_err (negb (UpdateTenantRequest.TenantId req =? ITenant.Id t))
        (UnchangeableParameter "tenant.id") ;;
      guard_err (is_empty (ITenant.Name t)) (RequiredParameter "tenant.name") ;;
      guard_err (rune_overflow (ITenant.Name t) nameLength)
        (LengthOverflowParameterValue "tenant.name" (ITenant.Name t)
           nameLength) ;;
      guard_err (bool_decide (ITenant.Solutions t = []))
        (RequiredParameter "tenant.solutions") ;;
      validate_solutions (ITenant.Solutions t) ;;
      guard_err (rune_overflow (ITenant.Remarks t) remarksLength)
        (LengthOverflowParameterValue "tenant.remarks" (ITenant.Remarks t)
           remarksLength)
  end.

Definition updateTenant (id : Z) (req : UpdateTenantRequest.t)
    : Act ITenant.t :=
  validateTenantUpdate req ;;
  tenant <- first_or TTenant (fun t => Tenant.ID t =? id) (notFoundTenant id) ;;
  t <- deref (UpdateTenantRequest.Tenant req) ;;
  let tenant :=
    Tenant.set_Remarks (Some (ITenant.Remarks t))
      (Tenant.set_Name (ITenant.Name t) tenant) in
  tenant <- or_db (Save TTenant tenant) ;;
  or_db (Delete TTenantSolution
    (fun s => TenantSolution.TenantID s =? Tenant.ID tenant)) ;;
  save_solutions (Tenant.ID tenant) (ITenant.Solutions t) ;;
  let rspTenant := tenantModelToRsp tenant in
  solutions <- tenant_solutions (Tenant.ID tenant) ;;
  ret (ITenant.set_Solutions solutions rspTenant).

(** The body [activateTenant] and [deactivateTenant] share. *)
Definition set_use_flag (flag : bool) (id : Z) : Act ITenant.t :=
  tenant <- first_or TTenant (fun t => Tenant.ID t =? id) (notFoundTenant id) ;;
  tenant <- or_db (Save TTenant (Tenant.set_UseFlag flag tenant)) ;;
  ret (tenantModelToRsp tenant).

Definition activateTenant (id : Z) : Act ITenant.t := set_use_flag true id.
Definition deactivateTenant (id : Z) : Act ITenant.t := set_use_flag false id.
End tenant.
