(* ===== verification/IdGroup.v ===== *)
(** * services/identity/handler: groups and roles (group.go, group_filter.go,
    role.go, role_filter.go) *)

From stdpp Require Import base tactics list strings sets.
From Stdlib Require Import ZArith Lia.
From S2P Require Import Prelude GoStd Json Model Backend Errors Proto Metadata.
From S2P Require Import Gorm Database GormFacts IdBase IdTenant.
#[local] Open Scope Z_scope.
#[local] Open Scope go_scope.

Section group.
Context `{Backend}.

Definition validateGroupListGet (name : string) : Act unit :=
  guard_err (rune_overflow name nameLength)
    (LengthOverflowParameterValue "group.name" name nameLength).

Inductive groupFilter := groupNameFilter (Name : string).

Definition group_Apply (f : groupFilter) (q : Query TGroup)
    : Act (Query TGroup) :=
  match f with
  | groupNameFilter name =>
      ret (@Where TGroup
        (fun g => sql_like (contains_pattern name) (Group.Name g)) q)
  end.

(** [tenant_id = ? AND deleted_flag = false] *)
Definition live_in (tenantID : Z) (g : Group.t) : bool :=
  (Group.TenantID g =? tenantID) && negb (Group.DeletedFlag g).

Definition getGroups (tenantID : Z) (filters : list groupFilter)
    : Act (list IGroup.t) :=
  tenant <- getTenant tenantID ;;
  conditions <- fold_each (fun q f => or_db (group_Apply f q))
                  (@Where TGroup (live_in tenantID) Everything) filters ;;
  groups <- or_db (Find_page TGroup (q_where conditions) (q_page conditions)) ;;
  map_each (fun g =>
    rspGroup <- or_unknown_err (groupModelToRsp g) ;;
    ret (IGroup.set_Tenant (Some tenant) rspGroup)) groups.

Definition getGroup (tenantID groupID : Z) : Act IGroup.t :=
  guard_err (groupID =? 0) (RequiredParameter "group_id") ;;
  group <- first_or TGroup
             (fun g => (Group.ID g =? groupID) && live_in tenantID g)
             (notFoundGroup groupID) ;;
  tenant <- getTenant tenantID ;;
  rspGroup <- or_unknown_err (groupModelToRsp group) ;;
  ret (IGroup.set_Tenant (Some tenant) rspGroup).

(** [g.Tenant == nil || g.Tenant.Id == 0] *)
Definition no_tenant (t : option ITenant.t) : bool :=
  match t with None => true | Some t => ITenant.Id t =? 0 end.

Definition validateGroupAdd (ctx : Ctx) (tenantID : Z) (g : option IGroup.t)
    : Act ITenant.t :=
  match g with
  | None => throw (RequiredParameter "group")
  | Some g =>
      guard_err (negb (IGroup.Id g =? 0))
        (InvalidParameterValue "group.id" (VInt (IGroup.Id g))
           "unusable parameter") ;;
      guard_err (no_tenant (IGroup.Tenant g))
        (RequiredParameter "group.tenant.id") ;;
      t <- deref (IGroup.Tenant g) ;;
      guard_err (negb (tenantID =? ITenant.Id t)) (UnauthorizedRequest ctx) ;;
      guard_err (is_empty (IGroup.Name g)) (RequiredParameter "group.name") ;;
      guard_err (rune_overflow (IGroup.Name g) nameLength)
        (LengthOverflowParameterValue "group.name" (IGroup.Name g) nameLength) ;;
      first_absent TGroup
        (fun x => (Group.Name x =? IGroup.Name g)%string
                  && live_in (ITenant.Id t) x)
        (ConflictParameterValue "group.name" (VStr (IGroup.Name g))) ;;
      guard_err (rune_overflow (IGroup.Remarks g) remarksLength)
        (LengthOverflowParameterValue "group.remarks" (IGroup.Remarks g)
           remarksLength) ;;
      getTenant tenantID
  end.

Definition addGroup (ctx : Ctx) (tenantID : Z) (g : option IGroup.t)
    : Act IGroup.t :=
  tenant <- validateGroupAdd ctx tenantID g ;;
  g <- deref g ;;
  r <- attempt (groupRspToModel g) ;;
  group <- or_unknown_err r ;;
  group <- or_db (Save TGroup group) ;;
  rspGroup <- or_unknown_err (groupModelToRsp group) ;;
  ret (IGroup.set_Tenant (Some tenant) rspGroup).

Definition validateUpdateGroup (tenantID : Z) (req : UpdateGroupRequest.t)
    : Act unit :=
  match UpdateGroupRequest.Group req with
  | None => throw (RequiredParameter "group")
  | Some g =>
      guard_err (no_tenant (IGroup.Tenant g))
        (RequiredParameter "group.tenant.id") ;;
      t <- deref (IGroup.Tenant g) ;;
      guard_err (negb (UpdateGroupRequest.GroupId req =? IGroup.Id g))
        (UnchangeableParameter "group.id") ;;
      old <- first_or TGroup
               (fun x => (Group.ID x =? IGroup.Id g) && live_in tenantID x)
               (notFoundGroup (IGroup.Id g)) ;;
      guard_err (negb (ITenant.Id t =? Group.TenantID old))
        (UnchangeableParameter "group.tenant.id") ;;
      guard_err (is_empty (IGroup.Name g)) (RequiredParameter "group.name") ;;
      guard_err (rune_overflow (IGroup.Name g) nameLength)
        (LengthOverflowParameterValue "group.name" (IGroup.Name g) nameLength) ;;
      first_absent TGroup
        (fun x => negb (Group.ID x =? IGroup.Id g)
                  && (Group.Name x =? IGroup.Name g)%string
                  && live_in (ITenant.Id t) x)
        (ConflictParameterValue "group.name" (VStr (IGroup.Name g))) ;;
      guard_err (rune_overflow (IGroup.Remarks g) remarksLength)
        (LengthOverflowParameterValue "group.remarks" (IGroup.Remarks g)
           remarksLength)
  end.

Definition updateGroup (tenantID : Z) (g : option IGroup.t) : Act IGroup.t :=
  tenant <- getTenant tenantID ;;
  g <- deref g ;;
  r <- attempt (groupRspToModel g) ;;
  group <- or_unknown_err r ;;
  group <- or_db (Save TGroup group) ;;
  rspGroup <- or_unknown_err (groupModelToRsp group) ;;
  ret (IGroup.set_Tenant (Some tenant) rspGroup).

Definition validDeleteGroup (ctx : Ctx) (tid gid : Z) : Act Group.t :=
  guard_err (gid =? 0) (RequiredParameter "group_id") ;;
  group <- first_or TGroup (fun g => Group.ID g =? gid) (notFoundGroup gid) ;;
  guard_err (Group.Name group =? "default")%string (undeletableGroup gid) ;;
  guard_err (Group.DeletedFlag group) (alreadyDeletedGroup gid) ;;
  guard_err (negb (tid =? Group.TenantID group)) (UnauthorizedRequest ctx) ;;
  ret group.

Definition deleteGroup (ctx : Ctx) (tenantID groupID : Z) : Act unit :=
  group <- validDeleteGroup ctx tenantID groupID ;;
  or_db (Delete TUserGroup (fun r => UserGroup.GroupID r =? groupID)) ;;
  or_db (Save TGroup (Group.set_DeletedFlag true group)) ;;
  ret tt.

Definition validateGroupUserSet (ctx : Ctx) (tenantID : Z)
    (req : SetGroupUsersRequest.t) : Act ITenant.t :=
  let gid := SetGroupUsersRequest.GroupId req in
  guard_err (gid =? 0) (RequiredParameter "group_id") ;;
  group <- first_or TGroup
             (fun g => (Group.ID g =? gid) && negb (Group.DeletedFlag g))
             (notFoundGroup gid) ;;
  guard_err (negb (tenantID =? Group.TenantID group))
    (UnauthorizedRequest ctx) ;;
  for_idx (fun idx user =>
    guard_err (IUser.Id user =? 0)
      (RequiredParameter (indexed "user" idx ".id")) ;;
    first_or TUser
      (fun u => (User.ID u =? IUser.Id user)
                && (User.TenantID u =? Group.TenantID group))
      (InvalidParameterValue (indexed "users" idx ".id")
         (VInt (IUser.Id user)) "user not found") ;;
    ret tt) 0 (SetGroupUsersRequest.Users req) ;;
  getTenant tenantID.

Definition setGroupUsers (ctx : Ctx) (tenantID : Z)
    (req : SetGroupUsersRequest.t) : Act (list IUser.t) :=
  tenant <- validateGroupUserSet ctx tenantID req ;;
  let gid := SetGroupUsersRequest.GroupId req in
  or_db (Delete TUserGroup (fun r => UserGroup.GroupID r =? gid)) ;;
  map_each (fun u =>
    or_db (Save TUserGroup (UserGroup.mk (IUser.Id u) gid)) ;;
    user <- or_db (First TUser (fun x => User.ID x =? IUser.Id u)) ;;
    resUser <- or_unknown_err (userModelToRsp user) ;;
    ret (IUser.set_Tenant (Some tenant) resUser))
    (SetGroupUsersRequest.Users req).

(** ** Roles *)
Definition validateRoleList (solution role : string) : Act unit :=
  guard_err (rune_overflow solution solutionLength)
    (LengthOverflowParameterValue "solution" solution solutionLength) ;;
  guard_err (negb (is_empty role) && negb (enum roleBoundary role))
    (UnavailableParameterValue "role" (VStr role)
       ["manager"; "operator"; "viewer"]).

Inductive roleFilter :=
| tenantSolutionFilter (TenantID : Z)
| roleNameFilter (Role : string)
| solutionNameFilter (Solution : string).

Definition sin (l : list string) (s : string) : bool :=
  existsb (fun x => (x =? s)%string) l.

Definition role_Apply (f : roleFilter) (q : Query TRole)
    : Act (Query TRole) :=
  match f with
  | tenantSolutionFilter tid =>
      tenantSolution <- Find TTenantSolution
                          (fun s => TenantSolution.TenantID s =? tid) ;;
      let solutions := map TenantSolution.Solution tenantSolution in
      ret (@Where TRole (fun r => sin solutions (Role.Solution r)) q)
  | roleNameFilter role =>
      ret (@Where TRole
        (fun r => sql_like (contains_pattern role) (Role.Role r)) q)
  | solutionNameFilter solution =>
      ret (@Where TRole
        (fun r => sql_like (contains_pattern solution) (Role.Solution r)) q)
  end.

Definition getRoles (filters : list roleFilter) : Act (list IRole.t) :=
  conditions <- fold_each (fun q f => or_db (role_Apply f q))
                  Everything filters ;;
  roles <- or_db (Find_page TRole (q_where conditions) (q_page conditions)) ;;
  map_each (fun r => or_unknown_err (roleModelToRsp r)) roles.
End group.
