(* ===== verification/IdUser.v ===== *)
(** * services/identity/handler: users (user.go, user_filter.go) and the
    sessions the user list shows ([getSession] of session.go) *)

From stdpp Require Import base tactics list strings sets.
From Stdlib Require Import ZArith Lia.
From S2P Require Import Prelude GoStd Json Model Backend Errors Proto Metadata.
From S2P Require Import Gorm Database GormFacts Report Config Store IdBase.
From S2P Require Import IdTenant IdGroup.
#[local] Open Scope Z_scope.
#[local] Open Scope go_scope.

Definition storeKeyPrefix : string := "cdm.cloud.user.sessions".

(** [storeKeyPrefix + "." + strconv.FormatUint(userID, 10)] *)
Definition session_key (userID : Z) : string :=
  String.append storeKeyPrefix (String.append "." (Strconv.FormatUint userID)).

Section user.
Context `{Backend} `{Globals}.

Definition getSession (userID : Z) : Act (option ISession.t) :=
  r <- attempt (Get (session_key userID)) ;;
  match r with
  | inl e =>
      if is_not_found_key e then ret None
      else throw (UnusableStore (Some e))
  | inr sessionKey => ret (Some (ISession.mk sessionKey))
  end.

Definition validateUserGet (ctx : Ctx) (reqUser : IUser.t) (userID : Z)
    : Act unit :=
  guard_err (negb (isAdmin (IUser.Roles reqUser))
             && negb (isManager (IUser.Roles reqUser))
             && negb (IUser.Id reqUser =? userID))
    (UnauthorizedRequest ctx).

(** The roles of a user, as messages. *)
Definition user_roles (userID : Z) : Act (list IRole.t) :=
  roles <- or_db (User_Roles userID) ;;
  map_each (fun r => or_unknown_err (roleModelToRsp r)) roles.

(** The groups of a user, as messages: an administrator is given all groups
    of tenant [tid]. *)
Definition user_groups (roles : list IRole.t) (tid userID : Z)
    : Act (list IGroup.t) :=
  if isAdmin roles then getGroups tid []
  else
    groups <- or_db (User_Groups userID) ;;
    map_each (fun g => or_unknown_err (groupModelToRsp g)) groups.

(** A struct condition [&model.User{ID: id, TenantID: tid}]: fields with the
    zero value are left out. *)
Definition user_struct (id tid : Z) (u : User.t) : bool :=
  ((id =? 0) || (User.ID u =? id)) && ((tid =? 0) || (User.TenantID u =? tid)).

Definition by_id (id : Z) (u : User.t) : bool := User.ID u =? id.

Definition getUser (tid userID : Z) : Act IUser.t :=
  user <- first_or TUser (by_id userID) (notFoundUser (VInt userID)) ;;
  rspUser <- or_unknown_err (userModelToRsp user) ;;
  tenant <- getTenant (User.TenantID user) ;;
  roles <- user_roles (User.ID user) ;;
  groups <- user_groups roles tid (User.ID user) ;;
  ret (IUser.set_Groups groups (IUser.set_Roles roles
         (IUser.set_Tenant (Some tenant) rspUser))).

Definition getSimpleUser (tid userID : Z) : Act ISimpleUser.t :=
  user <- first_or TUser (user_struct userID tid)
            (notFoundUser (VInt userID)) ;;
  rspUser <- or_unknown_err (simpleUserModelToRsp user) ;;
  tenant <- getTenant (User.TenantID user) ;;
  roles <- user_roles (User.ID user) ;;
  groups <- user_groups roles tid (User.ID user) ;;
  ret (ISimpleUser.set_Groups groups (ISimpleUser.set_Roles roles
         (ISimpleUser.set_Tenant (Some tenant) rspUser))).

(** [err == errNotFoundTenant] becomes an unknown error. *)
Definition tenant_or_unknown (c : Act ITenant.t) : Act ITenant.t :=
  r <- attempt c ;;
  match r with
  | inr t => ret t
  | inl e =>
      if Equal (Some e) errNotFoundTenant then throw (Unknown (Some e))
      else throw e
  end.

(** The checks of the optional text fields both validations end with; the
    update names the wrong field in the error about the language. *)
Definition validate_texts (language_param : string) (languages : list string)
    (u : IUser.t) : Act unit :=
  guard_err (rune_overflow (IUser.Department u) departmentLength)
    (LengthOverflowParameterValue "user.department" (IUser.Department u)
       departmentLength) ;;
  guard_err (rune_overflow (IUser.Position u) positionLength)
    (LengthOverflowParameterValue "user.position" (IUser.Position u)
       positionLength) ;;
  guard_err (rune_overflow (IUser.Contact u) contactLength)
    (LengthOverflowParameterValue "user.contact" (IUser.Contact u)
       contactLength) ;;
  guard_err (negb (is_empty (IUser.LanguageSet u))
             && negb (enum languageBoundary (IUser.LanguageSet u)))
    (UnavailableParameterValue language_param (VStr (IUser.LanguageSet u))
       languages) ;;
  guard_err (rune_overflow (IUser.Timezone u) timezoneLength)
    (LengthOverflowParameterValue "user.timezone" (IUser.Timezone u)
       timezoneLength).

(** Name and e-mail; [taken] tells which rows make the e-mail a
    conflict. *)
Definition validate_name_email (u : IUser.t) (taken : User.t -> bool)
    : Act unit :=
  guard_err (is_empty (IUser.Name u)) (RequiredParameter "user.name") ;;
  guard_err (rune_overflow (IUser.Name u) nameLength)
    (LengthOverflowParameterValue "user.name" (IUser.Name u) nameLength) ;;
  guard_err (negb (is_empty (IUser.Email u))
             && rune_overflow (IUser.Email u) emailLength)
    (LengthOverflowParameterValue "user.email" (IUser.Email u) emailLength) ;;
  guard_err (negb (is_empty (IUser.Email u))
             && negb (IsExistingEmail (IUser.Email u)))
    (FormatMismatchParameterValue "user.email" (VStr (IUser.Email u)) "email") ;;
  first_absent TUser taken
    (ConflictParameterValue "user.email" (VStr (IUser.Email u))).

Definition has_email (email : string) (u : User.t) : bool :=
  match User.Email u with Some e => (e =? email)%string | None => false end.

(** The loops over the requested groups and roles; [group_value] is the
    value the error about a foreign group names. *)
Definition validate_groups (tid : Z) (group_value : IGroup.t -> Z)
    (groups : list IGroup.t) : Act unit :=
  for_idx (fun idx g =>
    modelGroup <- first_or TGroup (fun x => Group.ID x =? IGroup.Id g)
      (InvalidParameterValue (indexed "user.group" idx ".id")
         (VInt (IGroup.Id g)) "not found group") ;;
    guard_err (negb (tid =? Group.TenantID modelGroup))
      (InvalidParameterValue (indexed "user.group" idx ".id")
         (VInt (group_value g)) "unusable group")) 0 groups.

Definition validate_roles (roles : list IRole.t) : Act unit :=
  for_idx (fun idx r =>
    first_or TRole (fun x => Role.ID x =? IRole.Id r)
      (InvalidParameterValue (indexed "user.role" idx ".id")
         (VInt (IRole.Id r)) "not found role") ;;
    ret tt) 0 roles.

Definition validateUserAdd (ctx : Ctx) (tenantID : Z) (req : option IUser.t)
    : Act ITenant.t :=
  u <- deref req ;;
  guard_err (negb (IUser.Id u =? 0))
    (InvalidParameterValue "user.id" (VInt (IUser.Id u)) "unusable parameter") ;;
  guard_err (no_tenant (IUser.Tenant u)) (RequiredParameter "user.tenant.id") ;;
  t <- deref (IUser.Tenant u) ;;
  guard_err (negb (tenantID =? ITenant.Id t)) (UnauthorizedRequest ctx) ;;
  guard_err (isAdmin (IUser.Roles u)) (unassignableRole "admin") ;;
  tenant <- tenant_or_unknown (getTenant tenantID) ;;
  guard_err (is_empty (IUser.Account u)) (RequiredParameter "user.account") ;;
  guard_err (rune_overflow (IUser.Account u) accountLength)
    (LengthOverflowParameterValue "user.account" (IUser.Account u)
       accountLength) ;;
  first_absent TUser (fun x => (User.Account x =? IUser.Account u)%string)
    (ConflictParameterValue "user.account" (VStr (IUser.Account u))) ;;
  validate_name_email u (has_email (IUser.Email u)) ;;
  validate_groups (ITenant.Id t) IGroup.Id (IUser.Groups u) ;;
  validate_roles (IUser.Roles u) ;;
  validate_texts "user.language_set" ["eng"; "kor"] u ;;
  ret tenant.

Definition validateUserUpdate (ctx : Ctx) (tenantID : Z) (reqUser : IUser.t)
    (req : UpdateUserRequest.t) : Act unit :=
  match UpdateUserRequest.User req with
  | None => throw (RequiredParameter "user")
  | Some u =>
      guard_err (no_tenant (IUser.Tenant u))
        (RequiredParameter "user.tenant.id") ;;
      tenant <- deref (IUser.Tenant u) ;;
      guard_err (negb (UpdateUserRequest.UserId req =? IUser.Id u))
        (UnchangeableParameter "user.id") ;;
      guard_err (negb (isAdmin (IUser.Roles reqUser))
                 && (IUser.Id u =? User.ID adminUser))
        (UnauthorizedRequest ctx) ;;
      guard_err (negb (IUser.Id u =? User.ID adminUser)
                 && isAdmin (IUser.Roles u))
        (unassignableRole "admin") ;;
      guard_err (negb (isAdmin (IUser.Roles reqUser))
                 && negb (isManager (IUser.Roles reqUser))
                 && negb (IUser.Id reqUser =? IUser.Id u))
        (UnauthorizedRequest ctx) ;;
      t <- first_or TUser (user_struct (IUser.Id u) tenantID)
             (notFoundUser (VInt (IUser.Id u))) ;;
      guard_err (negb (ITenant.Id tenant =? User.TenantID t))
        (UnchangeableParameter "user.tenant.id") ;;
      guard_err (negb (IUser.Account u =? User.Account t)%string)
        (UnchangeableParameter "user.account") ;;
      validate_name_email u
        (fun x => negb (User.ID x =? IUser.Id u)
                  && has_email (IUser.Email u) x) ;;
      (if (isAdmin (IUser.Roles reqUser) || isManager (IUser.Roles reqUser))
          && negb (IUser.Id u =? User.ID adminUser)
       then
         validate_groups (ITenant.Id tenant) (fun _ => ITenant.Id tenant)
           (IUser.Groups u) ;;
         validate_roles (IUser.Roles u)
       else ret tt) ;;
      validate_texts "user.department" ["kor"; "eng"] u
  end.

Definition updateUserGroupRelations (userID : Z) (groups : list IGroup.t)
    : Act unit :=
  Delete TUserGroup (fun r => UserGroup.UserID r =? userID) ;;
  for_each (fun g =>
    Save TUserGroup (UserGroup.mk userID (IGroup.Id g)) ;; ret tt) groups.

Definition updateUserRoleRelations (userID : Z) (roles : list IRole.t)
    : Act unit :=
  Delete TUserRole (fun r => UserRole.UserID r =? userID) ;;
  for_each (fun r =>
    Save TUserRole (UserRole.mk userID (IRole.Id r)) ;; ret tt) roles.

Definition addUser (u : IUser.t) (password : string) : Act IUser.t :=
  r <- attempt (userRspToModel u) ;;
  user <- or_unknown_err r ;;
  let user := User.set_PasswordUpdateFlag (Some true)
                (User.set_Password (encodePassword password) user) in
  user <- or_db (Save TUser user) ;;
  or_db (updateUserRoleRelations (User.ID user) (IUser.Roles u)) ;;
  or_db (updateUserGroupRelations (User.ID user) (IUser.Groups u)) ;;
  roles <- or_db (User_Roles (User.ID user)) ;;
  groups <- or_db (User_Groups (User.ID user)) ;;
  rspUser <- or_unknown_err (userModelToRsp user) ;;
  rspRoles <- map_each (fun v => or_unknown_err (roleModelToRsp v)) roles ;;
  rspGroups <- map_each (fun v => or_unknown_err (groupModelToRsp v)) groups ;;
  ret (IUser.set_Groups rspGroups (IUser.set_Roles rspRoles rspUser)).

(** The fields of the stored user an update carries over. *)
Definition keep_stored (t user : User.t) : User.t :=
  User.set_OldPassword (User.OldPassword t)
    (User.set_PasswordUpdateFlag (User.PasswordUpdateFlag t)
      (User.set_PasswordUpdatedAt (User.PasswordUpdatedAt t)
        (User.set_LastLoggedInAt (User.LastLoggedInAt t)
          (User.set_Password (User.Password t) user)))).

Definition updateUser (tid : Z) (reqUser u : IUser.t) : Act IUser.t :=
  r <- attempt (userRspToModel u) ;;
  user <- or_unknown_err r ;;
  t <- or_db (First TUser (by_id (IUser.Id u))) ;;
  user <- or_db (Save TUser (keep_stored t user)) ;;
  (if (isAdmin (IUser.Roles reqUser) || isManager (IUser.Roles reqUser))
      && negb (IUser.Id u =? User.ID adminUser)
   then
     or_db (updateUserRoleRelations (User.ID user) (IUser.Roles u)) ;;
     or_db (updateUserGroupRelations (User.ID user) (IUser.Groups u))
   else ret tt) ;;
  rspUser <- or_unknown_err (userModelToRsp user) ;;
  ten <- deref (IUser.Tenant u) ;;
  tenant <- tenant_or_unknown (getTenant (ITenant.Id ten)) ;;
  roles <- user_roles (User.ID user) ;;
  groups <- user_groups roles tid (User.ID user) ;;
  ret (IUser.set_Groups groups (IUser.set_Roles roles
         (IUser.set_Tenant (Some tenant) rspUser))).

Definition validateUserDelete (tenantID userID : Z) : Act User.t :=
  guard_err (userID =? 0) (RequiredParameter "user_id") ;;
  user <- first_or TUser (user_struct userID tenantID)
            (notFoundUser (VInt userID)) ;;
  userRoles <- or_db (User_Roles (User.ID user)) ;;
  for_each (fun r =>
    guard_err (Role.ID r =? Role.ID admin_role) (undeletableUser userID))
    userRoles ;;
  ret user.

Definition deleteUser (tenantID userID : Z) : Act unit :=
  user <- validateUserDelete tenantID userID ;;
  or_db (updateUserGroupRelations userID []) ;;
  or_db (updateUserRoleRelations userID []) ;;
  or_db (Delete TUser (fun u => by_id (User.ID user) u && by_id userID u)) ;;
  ret tt.

(** ** Lists *)
Definition validateUserListGet (req : GetUsersRequest.t) : Act unit :=
  let role := GetUsersRequest.Role req in
  guard_err (rune_overflow (GetUsersRequest.Solution req) solutionLength)
    (LengthOverflowParameterValue "solution" (GetUsersRequest.Solution req)
       solutionLength) ;;
  guard_err (negb (is_empty role) && negb (enum roleBoundary role))
    (UnavailableParameterValue "role" (VStr role)
       ["manager"; "operator"; "viewer"]) ;;
  guard_err (rune_overflow (GetUsersRequest.Name req) nameLength)
    (LengthOverflowParameterValue "user name" (GetUsersRequest.Name req)
       nameLength) ;;
  guard_err (rune_overflow (GetUsersRequest.Department req) departmentLength)
    (LengthOverflowParameterValue "user department"
       (GetUsersRequest.Department req) departmentLength) ;;
  guard_err (rune_overflow (GetUsersRequest.Position req) positionLength)
    (LengthOverflowParameterValue "user position"
       (GetUsersRequest.Position req) positionLength).

Inductive userFilter :=
| userSolutionFilter (Solution Role : string)
| userExcludeGroupFilter (ExcludeGroupID : Z)
| userGroupFilter (GroupID : Z)
| userNameFilter (Name : string)
| userDepartmentFilter (Department : string)
| userPositionFilter (Position : string)
| paginationFilter (Offset Limit : Z)
| loginFilter.

Definition where_user (p : User.t -> bool) (q : Query TUser) : Query TUser :=
  @Where TUser p q.

Definition userSolutionFilter_Apply (solution role : string)
    (q : Query TUser) : Act (Query TUser) :=
  roles <- Find TRole (fun r =>
    (Role.Solution r =? solution)%string
    && (is_empty role || (Role.Role r =? role)%string)) ;;
  if bool_decide (roles = []) then ret (where_user (fun _ => false) q)
  else
    let rids := map Role.ID roles in
    userRoles <- Find TUserRole (fun ur => zin rids (UserRole.RoleID ur)) ;;
    if bool_decide (userRoles = []) then ret (where_user (fun _ => false) q)
    else
      let uids := map UserRole.UserID userRoles in
      ret (where_user (fun u => zin uids (User.ID u)) q).

Definition userGroupFilter_Apply (groupID : Z) (q : Query TUser)
    : Act (Query TUser) :=
  userGroups <- Find TUserGroup (fun ug => UserGroup.GroupID ug =? groupID) ;;
  if bool_decide (userGroups = []) then ret (where_user (fun _ => false) q)
  else
    let uids := map UserGroup.UserID userGroups in
    ret (where_user (fun u => zin uids (User.ID u)) q).

Definition userExcludeGroupFilter_Apply (groupID : Z) (q : Query TUser)
    : Act (Query TUser) :=
  userGroups <- Find TUserGroup (fun ug => UserGroup.GroupID ug =? groupID) ;;
  if bool_decide (userGroups = []) then ret (where_user (fun _ => true) q)
  else
    let uids := map UserGroup.UserID userGroups in
    ret (where_user (fun u => negb (zin uids (User.ID u))) q).

(** The user of a session key: keys that are no number are skipped. *)
Definition session_user (k : string) : option Z :=
  match Strconv.ParseInt
          (Strings.TrimPrefix k (String.append storeKeyPrefix ".")) with
  | inr id => Some (Int.u64 id)
  | inl _ => None
  end.

Definition loginFilter_Apply (q : Query TUser) : Act (Query TUser) :=
  r <- attempt (List storeKeyPrefix) ;;
  match r with
  | inl e =>
      if is_not_found_key e then ret (where_user (fun _ => false) q)
      else throw (UnusableStore (Some e))
  | inr storeKey =>
      let uids := omap session_user storeKey in
      ret (where_user (fun u => zin uids (User.ID u)) q)
  end.

Definition user_Apply (f : userFilter) (q : Query TUser)
    : Act (Query TUser) :=
  match f with
  | userSolutionFilter s r => userSolutionFilter_Apply s r q
  | userExcludeGroupFilter g => userExcludeGroupFilter_Apply g q
  | userGroupFilter g => userGroupFilter_Apply g q
  | userNameFilter n =>
      ret (where_user (fun u => sql_like (contains_pattern n) (User.Name u)) q)
  | userDepartmentFilter d =>
      ret (where_user (fun u => like_opt (contains_pattern d) (User.Department u)) q)
  | userPositionFilter p =>
      ret (where_user (fun u => like_opt (contains_pattern p) (User.Position u)) q)
  | paginationFilter o l => ret (Paginate o l q)
  | loginFilter => loginFilter_Apply q
  end.

Definition in_tenant (tenantID : Z) (u : User.t) : bool :=
  User.TenantID u =? tenantID.

Definition getUsers (tenantID : Z) (filters : list userFilter)
    : Act (list IUser.t) :=
  tenant <- getTenant tenantID ;;
  conditions <- fold_each (fun q f => or_db (user_Apply f q))
                  (where_user (in_tenant tenantID) Everything) filters ;;
  users <- or_db (Find_page TUser (q_where conditions) (q_page conditions)) ;;
  map_each (fun u =>
    rspUser <- or_unknown_err (userModelToRsp u) ;;
    roles <- user_roles (User.ID u) ;;
    groups <- user_groups roles tenantID (User.ID u) ;;
    session <- getSession (User.ID u) ;;
    ret (IUser.set_Session session (IUser.set_Groups groups
           (IUser.set_Roles roles (IUser.set_Tenant (Some tenant) rspUser)))))
    users.

(** Page numbers in [uint64] arithmetic. *)
Definition pagination (offset limit total : Z) : Pagination.t :=
  if limit =? 0 then Pagination.mk (Some 1) (Some 1) (Some total)
  else
    Pagination.mk (Some (Int.u64 (offset / limit + 1)))
      (Some (Int.u64 (total + limit - 1) / limit)) (Some total).

Definition getUsersPagination (tenantID : Z) (filters : list userFilter)
    : Act Pagination.t :=
  s <- fold_each (fun '(q, offset, limit) f =>
         match f with
         | paginationFilter o l => ret (q, o, l)
         | _ => q <- or_db (user_Apply f q) ;; ret (q, offset, limit)
         end)
         (where_user (in_tenant tenantID) Everything, 0, 0) filters ;;
  let '(conditions, offset, limit) := s in
  total <- or_db (Count TUser (q_where conditions)) ;;
  ret (pagination offset limit total).

(** ** Passwords *)
Definition validateUserPasswordUpdate (reqUser : IUser.t)
    (req : UpdateUserPasswordRequest.t) : Act unit :=
  let userID := UpdateUserPasswordRequest.UserId req in
  let new := UpdateUserPasswordRequest.NewPassword req in
  let current := UpdateUserPasswordRequest.CurrentPassword req in
  guard_err (userID =? 0) (RequiredParameter "user_id") ;;
  guard_err (negb (IUser.Id reqUser =? userID))
    (InvalidParameterValue "user_id" (VInt userID) "invalid user id") ;;
  guard_err (is_empty new) (RequiredParameter "new_password") ;;
  guard_err (is_empty current) (RequiredParameter "current_password") ;;
  guard_err (passwordLength <? len new)
    (LengthOverflowParameterValue "new_password" "******" passwordLength) ;;
  guard_err (passwordLength <? len current)
    (LengthOverflowParameterValue "current_password" "******" passwordLength) ;;
  user <- first_or TUser (by_id userID) (notFoundUser (VInt userID)) ;;
  guard_err (negb (User.Password user =? current)%string)
    currentPasswordMismatch ;;
  t <- deref (IUser.Tenant reqUser) ;;
  cfg <- TenantConfig (ITenant.Id t) UserReuseOldPassword ;;
  reusable <- match cfg with
              | None => ret false
              | Some cfg => or_unknown_err (Value.Bool (cfg_Value cfg))
              end ;;
  guard_err (negb reusable
             && match User.OldPassword user with
                | Some old => (old =? new)%string
                | None => false
                end)
    notReusableOldPassword.

(** What both ways of setting a password do to the row. *)
Definition set_password (flag : bool) (now : Z) (password : string)
    (user : User.t) : User.t :=
  User.set_Password password
    (User.set_PasswordUpdatedAt (Some now)
      (User.set_PasswordUpdateFlag (Some flag)
        (User.set_OldPassword (Some (User.Password user)) user))).

Definition updateUserPassword (userID : Z) (newPassword : string) : Act unit :=
  user <- first_or TUser (by_id userID) (notFoundUser (VInt userID)) ;;
  now <- now_unix ;;
  or_db (Save TUser (set_password false now newPassword user)) ;;
  ret tt.

Definition validateUserPasswordReset (ctx : Ctx) (reqUser : IUser.t)
    (tenantID userID : Z) : Act User.t :=
  guard_err (userID =? 0) (RequiredParameter "user_id") ;;
  user <- first_or TUser (user_struct userID tenantID)
            (notFoundUser (VInt userID)) ;;
  guard_err (isManager (IUser.Roles reqUser)
             && (User.ID user =? User.ID adminUser))
    (UnauthorizedRequest ctx) ;;
  ret user.

Definition resetUserPassword (ctx : Ctx) (reqUser : IUser.t)
    (tenantID userID : Z) : Act string :=
  user <- validateUserPasswordReset ctx reqUser tenantID userID ;;
  password <- generatePassword ;;
  now <- now_unix ;;
  or_db (Save TUser (set_password true now (encodePassword password) user)) ;;
  ret password.
End user.
