(* ===== verification/IdSession.v ===== *)
(** * services/identity/handler: login and sessions (session.go)

    A session key is [base64(payload).base64(signature)]; the key last issued
    to a user is kept in the key-value store under the user's id. *)

From stdpp Require Import base tactics list strings sets.
From Stdlib Require Import ZArith Lia Ascii.
From S2P Require Import Prelude GoStd Json Model Backend Errors Proto Metadata.
From S2P Require Import Gorm Database GormFacts Report Config Store IdBase.
From S2P Require Import IdTenant IdGroup IdUser.
#[local] Open Scope Z_scope.
#[local] Open Scope go_scope.

Record SessionPayload := mkPayload {
  sp_ID : Z;
  sp_CreateDate : Z;
  sp_ExpiryDate : Z;
  sp_MagicNumber : Z;
  sp_ClientIP : string
}.

Definition payload_json (p : SessionPayload) : json :=
  JObj [("id", jint (sp_ID p)); ("create_date", jint (sp_CreateDate p));
        ("expiry_date", jint (sp_ExpiryDate p));
        ("magic_number", jint (sp_MagicNumber p));
        ("client_ip", JStr (sp_ClientIP p))].

Definition payload_zero : SessionPayload := mkPayload 0 0 0 0 "".

Definition payload_dec : Dec.t SessionPayload := fun p j =>
  match j with
  | JObj ms =>
      let '(id, k1) := Dec.field "id" Dec.uint64 (sp_ID p) ms in
      let '(cd, k2) := Dec.field "create_date" Dec.int64 (sp_CreateDate p) ms in
      let '(ed, k3) := Dec.field "expiry_date" Dec.int64 (sp_ExpiryDate p) ms in
      let '(mn, k4) := Dec.field "magic_number" Dec.uint64 (sp_MagicNumber p) ms in
      let '(ip, k5) := Dec.field "client_ip" Dec.string_ (sp_ClientIP p) ms in
      (mkPayload id cd ed mn ip, k1 && k2 && k3 && k4 && k5)
  | JNull => (p, true)
  | _ => (p, false)
  end.

(** [json.Unmarshal(p, &payload)] into a struct, and into a pointer, which
    [null] leaves nil; [None] is the error. *)
Definition payload_parse (p : string) : option SessionPayload :=
  match Json.Parse p with
  | Some j =>
      let '(x, ok) := payload_dec payload_zero j in if ok then Some x else None
  | None => None
  end.
Definition payload_parse_ptr (p : string) : option (option SessionPayload) :=
  match Json.Parse p with
  | Some JNull => Some None
  | Some j =>
      let '(x, ok) := payload_dec payload_zero j in
      if ok then Some (Some x) else None
  | None => None
  end.

Definition defaultUserSessionTimeout : Z := 30.
Definition defaultUserPasswordChangeCycle : Z := 90.

Section session.
Context `{Backend} `{Globals}.

Definition generatePayload (ctx : Ctx) (userID magicNumber timeout : Z)
    : Act SessionPayload :=
  let ip := match GetClientIP ctx with inr ip => ip | inl _ => EmptyString end in
  created <- now_unix ;;
  now <- now_unix ;;
  ret (mkPayload userID created (Int.i64 (now + Int.i64 (timeout * 60)))
         magicNumber ip).

Definition generateSessionKey (payload : SessionPayload) (key : PrivateKey)
    : Act string :=
  let b := Json.Marshal (payload_json payload) in
  let hashed := sha256 b in
  sig <- on_tick (fun n => SignPSS n key hashed) ;;
  match sig with
  | inl e => throw (Unknown (Some (ERemote e)))
  | inr sig =>
      ret (String.append (Base64.EncodeToString b)
             (String.append "." (Base64.EncodeToString sig)))
  end.

(** The session timeout of a tenant, in minutes. *)
Definition session_timeout (tenantID : Z) : Act Z :=
  cfg <- TenantConfig tenantID UserSessionTimeout ;;
  ret (match cfg with
       | Some cfg =>
           match Value.Int64 (cfg_Value cfg) with
           | inr timeout => timeout
           | inl _ => defaultUserSessionTimeout
           end
       | None => defaultUserSessionTimeout
       end).

Definition or_store {A} (c : Act A) : Act A :=
  r <- attempt c ;;
  match r with
  | inr a => ret a
  | inl e => throw (UnusableStore (Some e))
  end.

(** The end of [newSession] and [updateSession]: a fresh key for the user,
    stored with the timeout as its time to live. *)
Definition issue_session (ctx : Ctx) (tenantID userID magicNumber : Z)
    (key : PrivateKey) : Act string :=
  timeout <- session_timeout tenantID ;;
  payload <- generatePayload ctx userID magicNumber timeout ;;
  sessionKey <- generateSessionKey payload key ;;
  or_store (Put (session_key userID) sessionKey
              (Int.duration timeout Int.Minute)) ;;
  ret sessionKey.

Definition newSession (ctx : Ctx) (tenantID userID : Z) (key : PrivateKey)
    (force : bool) : Act string :=
  let storeKey := session_key userID in
  r <- attempt (Get storeKey) ;;
  match r with
  | inr _ =>
      if force then or_store (StoreDelete storeKey false)
      else throw (alreadyLogin userID)
  | inl e =>
      if is_not_found_key e then ret tt
      else throw (UnusableStore (Some e))
  end ;;
  seed <- now_nano ;;
  issue_session ctx tenantID userID (rand_uint64 seed) key.

Definition updateSession (ctx : Ctx) (userID tenantID magicNumber : Z)
    (key : PrivateKey) : Act string :=
  issue_session ctx tenantID userID magicNumber key.

(** [validateSession]: the payload and the signature of a key. *)
Definition validateSession (session : string) : err + (string * string) :=
  match Strings.Split session "."%char with
  | [p; s] =>
      match Base64.DecodeString p, Base64.DecodeString s with
      | Some p, Some s => inr (p, s)
      | _, _ => inl (invalidSession session)
      end
  | _ => inl (invalidSession session)
  end.

(** A payload that is read through a pointer. *)
Definition session_payload (session : string) : Act SessionPayload :=
  ps <- lift (validateSession session) ;;
  match payload_parse_ptr ps.1 with
  | None => throw (Unknown (Some (EPlain "invalid payload")))
  | Some payload => deref payload
  end.

Definition validateDeleteSession (reqUser : IUser.t) (session : string)
    : Act Z :=
  payload <- session_payload session ;;
  guard_err (negb (IUser.Id reqUser =? sp_ID payload))
    (InvalidParameterValue "session" (VStr session) "unknown session") ;;
  ret (sp_ID payload).

Definition validateRevokeSession (reqUser : IUser.t) (tid : Z)
    (session : string) : Act Z :=
  payload <- session_payload session ;;
  guard_err (negb (isAdmin (IUser.Roles reqUser))
             && (User.ID adminUser =? sp_ID payload))
    (InvalidParameterValue "session" (VStr session) "invalid session") ;;
  first_or TUser
    (fun u => (User.ID u =? sp_ID payload) && (User.TenantID u =? tid))
    (InvalidParameterValue "session" (VStr session) "invalid session") ;;
  ret (sp_ID payload).

Definition deleteSession (id : Z) : Act unit :=
  let storeKey := session_key id in
  r <- attempt (Get storeKey) ;;
  match r with
  | inl e =>
      if is_not_found_key e then throw (unknownSession id)
      else throw (UnusableStore (Some e))
  | inr _ => or_store (StoreDelete storeKey false)
  end.

(** A setting the login restriction needs. *)
Definition required_config (tid : Z) (key : string) : Act Config :=
  cfg <- TenantConfig tid key ;;
  match cfg with
  | None => throw (UnusableDatabase None)
  | Some cfg => ret cfg
  end.

Definition checkLoginRestricted (user : User.t) : Act unit :=
  match User.LastLoginFailedCount user with
  | None => ret tt
  | Some count =>
      if count =? 0 then ret tt
      else
        let tid := User.TenantID user in
        cfg <- required_config tid UserLoginRestrictionEnable ;;
        enable <- or_unknown_err (Value.Bool (cfg_Value cfg)) ;;
        if negb enable then ret tt
        else
          cfg <- required_config tid UserLoginRestrictionTryCount ;;
          tryCount <- or_unknown_err (Value.Uint64 (cfg_Value cfg)) ;;
          cfg <- required_config tid UserLoginRestrictionTime ;;
          restrictionTime <- or_unknown_err (Value.Int64 (cfg_Value cfg)) ;;
          if tryCount =? 0 then ret tt
          else if count mod tryCount =? 0 then
            failedAt <- deref (User.LastLoginFailedAt user) ;;
            now <- now_unix ;;
            let until := Int.i64 (failedAt + restrictionTime) in
            guard_err (now <? until)
              (loginRestricted (User.Account user) count failedAt until)
          else ret tt
  end.

Definition by_account (account : string) (u : User.t) : bool :=
  (User.Account u =? account)%string.

(** The row after a failed login. *)
Definition login_failed (now : Z) (u : User.t) : User.t :=
  User.set_LastLoginFailedCount
    (Some (Int.u64 (default 0 (User.LastLoginFailedCount u) + 1)))
    (User.set_LastLoginFailedAt (Some now) u).

Definition updateUserLoginFailedInfo (req : LoginRequest.t) : Act unit :=
  user <- first_or TUser (by_account (LoginRequest.Account req))
            (Unknown (Some ERecordNotFound)) ;;
  now <- now_unix ;;
  or_db (Save TUser (login_failed now user)) ;;
  ret tt.

Definition validateUserLogin (req : LoginRequest.t) : Act User.t :=
  let account := LoginRequest.Account req in
  let password := LoginRequest.Password req in
  guard_err (is_empty account) (RequiredParameter "account") ;;
  guard_err (accountLength <? len account)
    (LengthOverflowParameterValue "account" account accountLength) ;;
  guard_err (is_empty password) (RequiredParameter "password") ;;
  guard_err (passwordLength <? len password)
    (LengthOverflowParameterValue "password" "******" passwordLength) ;;
  user <- first_or TUser (by_account account) (notFoundUser (VStr account)) ;;
  checkLoginRestricted user ;;
  guard_err (negb (User.Password user =? password)%string) incorrectPassword ;;
  ret user.

Definition password_change_cycle (tid : Z) : Act Z :=
  cfg <- TenantConfig tid UserPasswordChangeCycle ;;
  ret (match cfg with
       | Some cfg =>
           match Value.Int64 (cfg_Value cfg) with
           | inr cycle => cycle
           | inl _ => defaultUserPasswordChangeCycle
           end
       | None => defaultUserPasswordChangeCycle
       end).

(** Whether a password is older than the cycle, in days. *)
Definition password_expired (cycle now updatedAt : Z) : bool :=
  negb (cycle =? 0)
  && (Z.quot (Int.i64 (Int.Hour * 24 * cycle)) Int.Second
      <=? Int.i64 (now - updatedAt)).

(** The row after a login. *)
Definition logged_in (now : Z) (ip : string) (u : User.t) : User.t :=
  let u := User.set_LastLoggedInIP (Some ip)
             (User.set_LastLoggedInAt (Some now) u) in
  match User.LastLoginFailedCount u with
  | Some _ => User.set_LastLoginFailedCount (Some 0) u
  | None => u
  end.

Definition with_password_flag (expired : bool) (u : User.t) : User.t :=
  let flag := default false (User.PasswordUpdateFlag u) in
  User.set_PasswordUpdateFlag (Some (expired || flag))
    (User.set_PasswordUpdatedAt (Some (default 0 (User.PasswordUpdatedAt u))) u).

Definition loginUser (ctx : Ctx) (req : LoginRequest.t) : Act IUser.t :=
  user <- validateUserLogin req ;;
  ip <- match GetClientIP ctx with
        | inr ip => ret ip
        | inl _ => throw (InvalidRequest ctx)
        end ;;
  now <- now_unix ;;
  let user := logged_in now ip user in
  cycle <- password_change_cycle (User.TenantID user) ;;
  expired <- (if cycle =? 0 then ret false
              else
                now <- now_unix ;;
                ret (password_expired cycle now
                       (default 0 (User.PasswordUpdatedAt user)))) ;;
  let user := with_password_flag expired user in
  user <- or_db (Save TUser user) ;;
  rspUser <- or_unknown_err (userModelToRsp user) ;;
  tenant <- getTenant (User.TenantID user) ;;
  roles <- user_roles (User.ID user) ;;
  groups <- user_groups roles (User.TenantID user) (User.ID user) ;;
  ret (IUser.set_Groups groups (IUser.set_Roles roles
         (IUser.set_Tenant (Some tenant) rspUser))).

Definition verifySession (ctx : Ctx) (session : string) (key : PrivateKey)
    : Act SessionPayload :=
  match validateSession session with
  | inl _ => throw (UnauthenticatedRequest ctx)
  | inr (p, sig) =>
      guard_err (negb (VerifyPSS key (sha256 p) sig))
        (unverifiedSession session (ERemote "crypto/rsa: verification error")) ;;
      match payload_parse_ptr p with
      | None => throw (Unknown (Some (EPlain "invalid payload")))
      | Some reqPayload =>
          reqPayload <- deref reqPayload ;;
          r <- attempt (Get (session_key (sp_ID reqPayload))) ;;
          value <- match r with
                   | inr v => ret v
                   | inl e =>
                       if is_not_found_key e
                       then throw (UnauthenticatedRequest ctx)
                       else throw (UnusableStore (Some e))
                   end ;;
          ps <- or_unknown_err (validateSession value) ;;
          match payload_parse ps.1 with
          | None => throw (Unknown (Some (EPlain "invalid payload")))
          | Some storedPayload =>
              ip <- match GetClientIP ctx with
                    | inr ip => ret ip
                    | inl _ => throw (InvalidRequest ctx)
                    end ;;
              guard_err (negb (ip =? sp_ClientIP storedPayload)%string
                         || negb (sp_MagicNumber reqPayload
                                  =? sp_MagicNumber storedPayload))
                (UnauthenticatedRequest ctx) ;;
              now_unix ;;
              now <- now_unix ;;
              guard_err (sp_ExpiryDate reqPayload <? now)
                (expiredSession session) ;;
              ret reqPayload
          end
      end
  end.
End session.
