(* ===== verification/IdConfig.v ===== *)
(** * services/identity/handler: the account settings of a tenant (config.go) *)

From stdpp Require Import base tactics list strings sets.
From Stdlib Require Import ZArith Lia.
From S2P Require Import Prelude GoStd Model Backend Errors Proto Gorm Database.
From S2P Require Import GormFacts Config IdBase.
#[local] Open Scope Z_scope.
#[local] Open Scope go_scope.

Section config.
Context `{Backend}.

Definition isNone {A} (o : option A) : bool :=
  match o with None => true | Some _ => false end.

Definition validateConfig (req : option IConfig.t) : Act unit :=
  match req with
  | None => throw (RequiredParameter "identity_config")
  | Some c =>
      let timezone := IConfig.GlobalTimezone c in
      let language := IConfig.GlobalLanguageSet c in
      let enable := IConfig.UserLoginRestrictionEnable c in
      let tryCount := IConfig.UserLoginRestrictionTryCount c in
      let time := IConfig.UserLoginRestrictionTime c in
      let reuse := IConfig.UserReuseOldPassword c in
      let cycle := IConfig.UserPasswordChangeCycle c in
      let timeout := IConfig.UserSessionTimeout c in
      guard_err (isNone timezone) (RequiredParameter "global_timezone") ;;
      guard_err (isNone language) (RequiredParameter "global_language_set") ;;
      guard_err (isNone reuse) (RequiredParameter "user_reuse_old_password") ;;
      guard_err (isNone cycle)
        (RequiredParameter "user_password_change_cycle") ;;
      guard_err (isNone timeout) (RequiredParameter "user_session_timeout") ;;
      guard_err (isNone enable)
        (RequiredParameter "user_login_restriction_enable") ;;
      let timezone := default EmptyString timezone in
      let language := default EmptyString language in
      let cycle := default 0 cycle in
      let timeout := default 0 timeout in
      guard_err (negb (LoadLocation timezone))
        (UnavailableParameterValue "global_timezone" (VStr timezone)
           ["https://en.wikipedia.org/wiki/List_of_tz_database_time_zones"]) ;;
      guard_err (negb (enum languageBoundary language))
        (UnavailableParameterValue "global_language_set" (VStr language)
           ["kor"; "eng"]) ;;
      guard_err (negb (minMax userPasswordChangeCycleBoundary cycle))
        (OutOfRangeParameterValue "user_password_change_cycle" (VInt cycle)
           (VInt 0) (VInt 180)) ;;
      guard_err (negb (minMax userSessionTimeoutBoundary timeout))
        (OutOfRangeParameterValue "user_session_timeout" (VInt timeout)
           (VInt 1) (VInt 1440)) ;;
      if default false enable then
        guard_err (isNone tryCount)
          (RequiredParameter "user_login_restriction_try_count") ;;
        guard_err (isNone time)
          (RequiredParameter "user_login_restriction_time") ;;
        let tryCount := default 0 tryCount in
        let time := default 0 time in
        guard_err (negb (minMax userLoginRestrictionTryCountBoundary tryCount))
          (OutOfRangeParameterValue "user_login_restriction_try_count"
             (VInt tryCount) (VInt 5) (VInt 30)) ;;
        guard_err (negb (minMax userLoginRestrictionTimeBoundary (Int.u64 time)))
          (OutOfRangeParameterValue "user_login_restriction_time" (VInt time)
             (VInt 10) (VInt 7200))
      else ret tt
  end.

(** [config.TenantConfig] with the error of a missing setting. *)
Definition needed (tenantID : Z) (key : string) : Act Value :=
  cfg <- TenantConfig tenantID key ;;
  match cfg with
  | None => throw (notfoundTenantConfig key)
  | Some cfg => ret (cfg_Value cfg)
  end.

(** A needed setting of a type. *)
Definition needed_as {A} (parse : Value -> err + A) (tenantID : Z)
    (key : string) : Act A :=
  v <- needed tenantID key ;;
  match parse v with
  | inl _ => throw (invalidTenantConfig key v)
  | inr a => ret a
  end.

Definition getConfig (tenantID : Z) : Act IConfig.t :=
  language <- needed tenantID GlobalLanguageSet ;;
  timezone <- needed tenantID GlobalTimeZone ;;
  cycle <- needed_as Value.Uint64 tenantID UserPasswordChangeCycle ;;
  reuse <- needed_as Value.Bool tenantID UserReuseOldPassword ;;
  timeout <- needed_as Value.Uint64 tenantID UserSessionTimeout ;;
  enable <- needed_as Value.Bool tenantID UserLoginRestrictionEnable ;;
  if enable then
    tryCount <- needed_as Value.Uint64 tenantID UserLoginRestrictionTryCount ;;
    time <- needed_as Value.Int64 tenantID UserLoginRestrictionTime ;;
    ret (IConfig.mk (Some timezone) (Some language) (Some enable)
           (Some tryCount) (Some time) (Some reuse) (Some cycle) (Some timeout))
  else
    ret (IConfig.mk (Some timezone) (Some language) (Some enable) None None
           (Some reuse) (Some cycle) (Some timeout)).

Definition save_setting (tenantID : Z) (key value : string) : Act unit :=
  or_db (Save TTenantConfig (TenantConfig.mk tenantID key value)) ;; ret tt.

(** [strconv.Itoa(int(v))] *)
Definition itoa_u64 (v : Z) : string := Strconv.FormatInt (Int.i64 v).

Definition setConfig (tenantID : Z) (req : option IConfig.t) : Act unit :=
  validateConfig req ;;
  c <- deref req ;;
  save_setting tenantID GlobalLanguageSet
    (default EmptyString (IConfig.GlobalLanguageSet c)) ;;
  save_setting tenantID GlobalTimeZone
    (default EmptyString (IConfig.GlobalTimezone c)) ;;
  save_setting tenantID UserPasswordChangeCycle
    (itoa_u64 (default 0 (IConfig.UserPasswordChangeCycle c))) ;;
  save_setting tenantID UserReuseOldPassword
    (Strconv.FormatBool (default false (IConfig.UserReuseOldPassword c))) ;;
  save_setting tenantID UserSessionTimeout
    (itoa_u64 (default 0 (IConfig.UserSessionTimeout c))) ;;
  save_setting tenantID UserLoginRestrictionEnable
    (Strconv.FormatBool (default false (IConfig.UserLoginRestrictionEnable c))) ;;
  if default false (IConfig.UserLoginRestrictionEnable c) then
    save_setting tenantID UserLoginRestrictionTryCount
      (itoa_u64 (default 0 (IConfig.UserLoginRestrictionTryCount c))) ;;
    save_setting tenantID UserLoginRestrictionTime
      (itoa_u64 (default 0 (IConfig.UserLoginRestrictionTime c)))
  else ret tt.
End config.
