(* ===== verification/IdHandler.v ===== *)
(** * services/identity/handler: the request handlers (handler.go)

    Every handler runs in one database transaction, answers an error with the
    status [createError] gives it, and reports the outcome as an event. *)

From stdpp Require Import base tactics list strings gmap.
From Stdlib Require Import ZArith Lia.
From S2P Require Import Prelude GoStd Json Model Backend Errors Proto Metadata.
From S2P Require Import Gorm Database GormFacts Report Config Store IdBase.
From S2P Require Import IdTenant IdGroup IdUser IdSession IdConfig.
#[local] Open Scope Z_scope.
#[local] Open Scope go_scope.

Definition Admin : string := "admin".
Definition Manager : string := "manager".
Definition UserRoleName : string := "user".
Definition SolutionName : string := "CDM-Cloud".

Section handler.
Context `{Backend}.

Definition getRequestMetadata (ctx : Ctx) : Act (Z * IUser.t) :=
  match GetTenantID ctx with
  | inl _ => throw (InvalidRequest ctx)
  | inr id =>
      match GetAuthenticatedUser ctx with
      | inl _ => throw (InvalidRequest ctx)
      | inr user => ret (id, user)
      end
  end.

(** [rsp.Message = ...; return errors.StatusOK(ctx, code, nil)] *)
Definition ok {A} (ctx : Ctx) (eventCode : string) (a : A) : Act A :=
  StatusOK ctx eventCode None ;; ret a.

(** An empty list is answered with "no content". *)
Definition no_content {A} (ctx : Ctx) (eventCode : string) (l : list A)
    : Act unit :=
  match l with [] => fail_with ctx eventCode ErrNoContent | _ => ret tt end.
End handler.

Section handlers.
Context `{Backend} `{Globals}.
Variable privateKey : PrivateKey.

Definition GetUser (ctx : Ctx) (userID : Z) : Act IUser.t :=
  Transaction (
    do* (reqTenantID, reqUser) <-
      check ctx "cdm-cloud.identity.get_user.failure-get_request_metadata"
        (getRequestMetadata ctx) ;;
    check ctx "cdm-cloud.identity.get_user.failure-validate"
      (validateUserGet ctx reqUser userID) ;;
    user <- check ctx "cdm-cloud.identity.get_user.failure-get"
              (getUser reqTenantID userID) ;;
    tenant <- deref (IUser.Tenant user) ;;
    (if negb (reqTenantID =? ITenant.Id tenant)
     then fail_with ctx "cdm-cloud.identity.get_user.failure-get"
            (notFoundUser (VInt userID))
     else ret tt) ;;
    ok ctx "cdm-cloud.identity.get_user.success" user).

Definition GetSimpleUser (ctx : Ctx) (userID : Z) : Act ISimpleUser.t :=
  Transaction (
    do* (reqTenantID, _) <-
      check ctx
        "cdm-cloud.identity.get_simple_user.failure-get_request_metadata"
        (getRequestMetadata ctx) ;;
    user <- check ctx "cdm-cloud.identity.get_simple_user.failure-get"
              (getSimpleUser reqTenantID userID) ;;
    ok ctx "cdm-cloud.identity.get_simple_user.success" user).

Definition AddUser (ctx : Ctx) (u : option IUser.t)
    : Act (IUser.t * string) :=
  Transaction (
    do* (tenantID, _) <-
      check ctx "cdm-cloud.identity.add_user.failure-get_request_metadata"
        (getRequestMetadata ctx) ;;
    tenant <- check ctx "cdm-cloud.identity.add_user.failure-validate"
                (validateUserAdd ctx tenantID u) ;;
    password <-
      check ctx "cdm-cloud.identity.add_user.failure-generate_password"
        generatePassword ;;
    u <- deref u ;;
    user <- check ctx "cdm-cloud.identity.add_user.failure-add"
              (addUser u password) ;;
    ok ctx "cdm-cloud.identity.add_user.success"
      (IUser.set_Tenant (Some tenant) user, password)).

Definition UpdateUser (ctx : Ctx) (req : UpdateUserRequest.t)
    : Act IUser.t :=
  Transaction (
    do* (tenantID, reqUser) <-
      check ctx "cdm-cloud.identity.update_user.failure-get_request_metadata"
        (getRequestMetadata ctx) ;;
    check ctx "cdm-cloud.identity.update_user.failure-validate"
      (validateUserUpdate ctx tenantID reqUser req) ;;
    u <- deref (UpdateUserRequest.User req) ;;
    user <- check ctx "cdm-cloud.identity.update_user.failure-update"
              (updateUser tenantID reqUser u) ;;
    ok ctx "cdm-cloud.identity.update_user.success" user).

Definition DeleteUser (ctx : Ctx) (userID : Z) : Act unit :=
  Transaction (
    do* (tenantID, _) <-
      check ctx "cdm-cloud.identity.delete_user.failure-get_request_metadata"
        (getRequestMetadata ctx) ;;
    check ctx "cdm-cloud.identity.delete_user.failure-delete"
      (deleteUser tenantID userID) ;;
    ok ctx "cdm-cloud.identity.delete_user.success" tt).

Definition opt_filter (b : bool) (f : userFilter) : list userFilter :=
  if b then [f] else [].

Definition makeUserFilter (req : GetUsersRequest.t) : list userFilter :=
  let limit := default 0 (GetUsersRequest.Limit req) in
  let offset := default 0 (GetUsersRequest.Offset req) in
  opt_filter (negb (is_empty (GetUsersRequest.Solution req)))
    (userSolutionFilter (GetUsersRequest.Solution req)
       (GetUsersRequest.Role req))
  ++ opt_filter (negb (GetUsersRequest.GroupId req =? 0))
       (userGroupFilter (GetUsersRequest.GroupId req))
  ++ opt_filter (negb (GetUsersRequest.ExcludeGroupId req =? 0))
       (userExcludeGroupFilter (GetUsersRequest.ExcludeGroupId req))
  ++ opt_filter (negb (is_empty (GetUsersRequest.Name req)))
       (userNameFilter (GetUsersRequest.Name req))
  ++ opt_filter (negb (is_empty (GetUsersRequest.Department req)))
       (userDepartmentFilter (GetUsersRequest.Department req))
  ++ opt_filter (negb (is_empty (GetUsersRequest.Position req)))
       (userPositionFilter (GetUsersRequest.Position req))
  ++ opt_filter (negb (isNone (GetUsersRequest.Offset req))
                 && (negb (isNone (GetUsersRequest.Limit req))
                     && negb (limit =? 0)))
       (paginationFilter offset limit)
  ++ opt_filter (GetUsersRequest.LoginOnly req) loginFilter.

Definition GetUsers (ctx : Ctx) (req : GetUsersRequest.t)
    : Act (list IUser.t * Pagination.t) :=
  Transaction (
    do* (tenantID, _) <-
      check ctx "cdm-cloud.identity.get_users.failure-get_request_metadata"
        (getRequestMetadata ctx) ;;
    check ctx "cdm-cloud.identity.get_users.failure-validate"
      (validateUserListGet req) ;;
    let filters := makeUserFilter req in
    users <- check ctx "cdm-cloud.identity.get_users.failure-get"
               (getUsers tenantID filters) ;;
    no_content ctx "cdm-cloud.identity.get_users.success-get" users ;;
    page <- check ctx "cdm-cloud.identity.get_users.failure-get_user_count"
              (getUsersPagination tenantID filters) ;;
    ok ctx "cdm-cloud.identity.get_users.success" (users, page)).

Definition UpdateUserPassword (ctx : Ctx) (req : UpdateUserPasswordRequest.t)
    : Act unit :=
  Transaction (
    do* (_, reqUser) <-
      check ctx
        "cdm-cloud.identity.update_user_password.failure-get_request_metadata"
        (getRequestMetadata ctx) ;;
    check ctx "cdm-cloud.identity.update_user_password.failure-validate"
      (validateUserPasswordUpdate reqUser req) ;;
    check ctx "cdm-cloud.identity.update_user_password.failure-update"
      (updateUserPassword (UpdateUserPasswordRequest.UserId req)
         (UpdateUserPasswordRequest.NewPassword req)) ;;
    ok ctx "cdm-cloud.identity.update_user_password.success" tt).

Definition ResetUserPassword (ctx : Ctx) (userID : Z) : Act string :=
  Transaction (
    do* (tenantID, reqUser) <-
      check ctx
        "cdm-cloud.identity.reset_user_password.failure-get_request_metadata"
        (getRequestMetadata ctx) ;;
    password <-
      check ctx "cdm-cloud.identity.reset_user_password.failure-reset"
        (resetUserPassword ctx reqUser tenantID userID) ;;
    ok ctx "cdm-cloud.identity.reset_user_password.success" password).

Definition GetGroups (ctx : Ctx) (name : string) : Act (list IGroup.t) :=
  Transaction (
    do* (tenantID, _) <-
      check ctx "cdm-cloud.identity.get_groups.failure-get_request_metadata"
        (getRequestMetadata ctx) ;;
    check ctx "cdm-cloud.identity.get_groups.failure-validate"
      (validateGroupListGet name) ;;
    let filters := if is_empty name then [] else [groupNameFilter name] in
    groups <- check ctx "cdm-cloud.identity.get_groups.failure-get"
                (getGroups tenantID filters) ;;
    no_content ctx "cdm-cloud.identity.get_groups.success-get" groups ;;
    ok ctx "cdm-cloud.identity.get_groups.success" groups).

Definition GetGroup (ctx : Ctx) (groupID : Z) : Act IGroup.t :=
  Transaction (
    do* (tenantID, _) <-
      check ctx "cdm-cloud.identity.get_group.failure-get_request_metadata"
        (getRequestMetadata ctx) ;;
    group <- check ctx "cdm-cloud.identity.get_group.failure-get"
               (getGroup tenantID groupID) ;;
    ok ctx "cdm-cloud.identity.get_group.success" group).

Definition AddGroup (ctx : Ctx) (g : option IGroup.t) : Act IGroup.t :=
  Transaction (
    do* (tenantID, _) <-
      check ctx "cdm-cloud.identity.add_group.failure-get_request_metadata"
        (getRequestMetadata ctx) ;;
    group <- check ctx "cdm-cloud.identity.add_group.failure-add"
               (addGroup ctx tenantID g) ;;
    ok ctx "cdm-cloud.identity.add_group.success" group).

Definition UpdateGroup (ctx : Ctx) (req : UpdateGroupRequest.t)
    : Act IGroup.t :=
  Transaction (
    do* (tenantID, _) <-
      check ctx "cdm-cloud.identity.update_group.failure-get_request_metadata"
        (getRequestMetadata ctx) ;;
    check ctx "cdm-cloud.identity.update_group.failure-validate"
      (validateUpdateGroup tenantID req) ;;
    group <- check ctx "cdm-cloud.identity.update_group.failure-update"
               (updateGroup tenantID (UpdateGroupRequest.Group req)) ;;
    ok ctx "cdm-cloud.identity.update_group.success" group).

Definition DeleteGroup (ctx : Ctx) (groupID : Z) : Act unit :=
  Transaction (
    do* (tenantID, _) <-
      check ctx "cdm-cloud.identity.delete_group.failure-get_request_metadata"
        (getRequestMetadata ctx) ;;
    check ctx "cdm-cloud.identity.delete_group.failure-delete"
      (deleteGroup ctx tenantID groupID) ;;
    ok ctx "cdm-cloud.identity.delete_group.success" tt).

Definition SetGroupUsers (ctx : Ctx) (req : SetGroupUsersRequest.t)
    : Act (list IUser.t) :=
  Transaction (
    do* (tenantID, _) <-
      check ctx
        "cdm-cloud.identity.set_group_users.failure-get_request_metadata"
        (getRequestMetadata ctx) ;;
    users <- check ctx "cdm-cloud.identity.set_group_users.failure-set"
               (setGroupUsers ctx tenantID req) ;;
    ok ctx "cdm-cloud.identity.set_group_users.success" users).

Definition GetRoles (ctx : Ctx) (solution role : string)
    : Act (list IRole.t) :=
  Transaction (
    do* (tenantID, _) <-
      check ctx "cdm-cloud.identity.get_roles.failure-get_request_metadata"
        (getRequestMetadata ctx) ;;
    check ctx "cdm-cloud.identity.get_roles.failure-validate"
      (validateRoleList solution role) ;;
    let filters :=
      [tenantSolutionFilter tenantID]
      ++ (if is_empty solution then [] else [solutionNameFilter solution])
      ++ (if is_empty role then [] else [roleNameFilter role]) in
    roles <- check ctx "cdm-cloud.identity.get_roles.failure-get"
               (getRoles filters) ;;
    no_content ctx "cdm-cloud.identity.get_roles.success-get" roles ;;
    ok ctx "cdm-cloud.identity.get_roles.success" roles).

(** ** Sessions *)

(** The assignment to the [err] variable that the deferred functions of
    [Login] read. *)
Definition set_err (e : option err) : Act unit :=
  modify (fun w => mkWorld _ (w_db w) (w_kv w) (w_out w) (w_tick w) e (w_mail w) (w_log w)).

(** [x, err = c; if err != nil { err = adjust(err); return createError(...) }]
    on that variable. *)
Definition check_var {A} (ctx : Ctx) (eventCode : string)
    (adjust : err -> err) (c : Act A) : Act A :=
  r <- attempt c ;;
  match r with
  | inr a => set_err None ;; ret a
  | inl EPanic => throw EPanic
  | inl e => set_err (Some (adjust e)) ;; fail_with ctx eventCode (adjust e)
  end.

Definition hide_missing_user (ctx : Ctx) (e : err) : err :=
  if Equal (Some e) errNotFoundUser then UnauthenticatedRequest ctx else e.

(** The transaction of [Login]. *)
Definition login_transaction (ctx : Ctx) (req : LoginRequest.t)
    : Act IUser.t :=
  user <- check_var ctx "cdm-cloud.identity.login.failure-login"
            (hide_missing_user ctx) (loginUser ctx req) ;;
  tenant <- deref (IUser.Tenant user) ;;
  key <- check_var ctx "cdm-cloud.identity.login.failure-new_session"
           (fun e => e)
           (newSession ctx (ITenant.Id tenant) (IUser.Id user) privateKey
              (LoginRequest.Force req)) ;;
  ok ctx "cdm-cloud.identity.login.success"
    (IUser.set_Session (Some (ISession.mk key)) user).

(** The transaction of its deferred function: the failure is counted; an
    error is only reported. *)
Definition login_failure_transaction (ctx : Ctx) (req : LoginRequest.t)
    : Act unit :=
  let eventCode :=
    "cdm-cloud.identity.login.warning-update_user_login_failed_info"%string in
  r <- attempt (updateUserLoginFailedInfo req) ;;
  match r with
  | inr _ => ret tt
  | inl e =>
      if Equal (Some e) ErrUnusableDatabase
      then reportEvent ctx eventCode "unusable_database" (Some e)
      else if Equal (Some e) ErrUnknown
      then reportEvent ctx eventCode "unknown" (Some e)
      else ret tt
  end.

Definition Login (ctx : Ctx) (req : LoginRequest.t) : Act IUser.t :=
  set_err None ;;
  r <- attempt (Transaction (login_transaction ctx req)) ;;
  w <- get ;;
  (if Equal (w_err w) errIncorrectPassword
   then attempt (Transaction (login_failure_transaction ctx req)) ;; ret tt
   else ret tt) ;;
  lift r.

Definition Logout (ctx : Ctx) : Act unit :=
  Transaction (
    match GetAuthenticatedSession ctx with
    | inl _ =>
        fail_with ctx
          "cdm-cloud.identity.logout.failure-get_authenticated_session"
          (InvalidRequest ctx)
    | inr session =>
        match GetAuthenticatedUser ctx with
        | inl _ =>
            fail_with ctx
              "cdm-cloud.identity.logout.failure-get_authenticated_user"
              (InvalidRequest ctx)
        | inr reqUser =>
            id <- check ctx
                    "cdm-cloud.identity.logout.failure-validate_delete_session"
                    (validateDeleteSession reqUser session) ;;
            check ctx "cdm-cloud.identity.logout.failure-delete_session"
              (deleteSession id) ;;
            ok ctx "cdm-cloud.identity.logout.success" tt
        end
    end).

Definition VerifySession (ctx : Ctx) : Act IUser.t :=
  Transaction (
    match GetAuthenticatedSession ctx with
    | inl _ =>
        fail_with ctx
          "cdm-cloud.identity.verify_session.failure-get_authenticated_session"
          (UnauthenticatedRequest ctx)
    | inr session =>
        tenantID <-
          check ctx "cdm-cloud.identity.verify_session.failure-get_tenant_id"
            (lift (GetTenantID ctx)) ;;
        payload <-
          check ctx "cdm-cloud.identity.verify_session.failure-verify"
            (verifySession ctx session privateKey) ;;
        user <- check ctx "cdm-cloud.identity.verify_session.failure-get_user"
                  (getUser tenantID (sp_ID payload)) ;;
        tenant <- deref (IUser.Tenant user) ;;
        key <-
          check ctx "cdm-cloud.identity.verify_session.failure-update_session"
            (updateSession ctx (IUser.Id user) (ITenant.Id tenant)
               (sp_MagicNumber payload) privateKey) ;;
        ok ctx "cdm-cloud.identity.verify_session.success"
          (IUser.set_Session (Some (ISession.mk key)) user)
    end).

Definition RevokeSession (ctx : Ctx) (sessionKey : string) : Act unit :=
  Transaction (
    do* (tenantID, reqUser) <-
      check ctx
        "cdm-cloud.identity.revoke_session.failure-get_request_metadata"
        (getRequestMetadata ctx) ;;
    id <- check ctx
            "cdm-cloud.identity.logout.failure-validate_revoke_session"
            (validateRevokeSession reqUser tenantID sessionKey) ;;
    check ctx "cdm-cloud.identity.revoke_session.failure-delete_session"
      (deleteSession id) ;;
    ok ctx "cdm-cloud.identity.revoke_session.success" tt).

(** ** Settings *)
Definition GetConfig (ctx : Ctx) : Act IConfig.t :=
  Transaction (
    do* (tenantID, _) <-
      check ctx "cdm-cloud.identity.get_config.failure-get_request_metadata"
        (getRequestMetadata ctx) ;;
    c <- check ctx "cdm-cloud.identity.get_config.failure-get"
           (getConfig tenantID) ;;
    ok ctx "cdm-cloud.identity.get_config.success" c).

Definition SetConfig (ctx : Ctx) (req : option IConfig.t) : Act IConfig.t :=
  Transaction (
    do* (tenantID, _) <-
      check ctx "cdm-cloud.identity.set_config.failure-get_request_metadata"
        (getRequestMetadata ctx) ;;
    check ctx "cdm-cloud.identity.set_config.failure-set"
      (setConfig tenantID req) ;;
    c <- check ctx "cdm-cloud.identity.set_config.failure-get"
           (getConfig tenantID) ;;
    ok ctx "cdm-cloud.identity.set_config.success" c).

(** ** Authorization *)

(** The tenant of the request must exist. *)
Definition tenant_exists (tenantID : Z) : Act unit :=
  first_or TTenant (fun t => Tenant.ID t =? tenantID)
    (notFoundTenant tenantID) ;;
  ret tt.

(** The loop over the roles: the first one the policy allows. *)
Fixpoint enforce_roles (ctx : Ctx) (endpoint : string)
    (roles : list IRole.t) : Act unit :=
  match roles with
  | [] =>
      fail_with ctx "cdm-cloud.identity.check_authorization.failure"
        (UnauthorizedRequest ctx)
  | r :: roles =>
      match Enforce (IRole.Role r) (IRole.Solution r) endpoint with
      | (true, _) =>
          ok ctx "cdm-cloud.identity.check_authorization.success" tt
      | (false, Some e) =>
          fail_with ctx
            "cdm-cloud.identity.check_authorization.failure-enforce"
            (ERemote e)
      | (false, None) => enforce_roles ctx endpoint roles
      end
  end.

Definition CheckAuthorization (ctx : Ctx) (endpoint : string) : Act unit :=
  do* (tenantID, user) <-
    check ctx
      "cdm-cloud.identity.check_authorization.failure-get_request_metadata"
      (getRequestMetadata ctx) ;;
  check ctx "cdm-cloud.identity.check_authorization.failure-transaction"
    (Transaction (tenant_exists tenantID)) ;;
  (if isAdmin (IUser.Roles user) then ret tt
   else
     tenant <- deref (IUser.Tenant user) ;;
     if negb (tenantID =? ITenant.Id tenant)
     then fail_with ctx
            "cdm-cloud.identity.check_authorization.failure-mismatch_user"
            (UnauthorizedRequest ctx)
     else ret tt) ;;
  enforce_roles ctx endpoint
    (IUser.Roles user ++ [IRole.mk 0 SolutionName UserRoleName]).

(** ** Tenants *)
Definition GetTenants (ctx : Ctx) (name : string) : Act (list ITenant.t) :=
  Transaction (
    check ctx "cdm-cloud.identity.get_tenants.failure-validate"
      (validateTenantListGet name) ;;
    let filters := if is_empty name then [] else [tenantNameFilter name] in
    tenants <- check ctx "cdm-cloud.identity.get_tenants.failure-get"
                 (getTenants filters) ;;
    no_content ctx "cdm-cloud.identity.get_tenants.success-get" tenants ;;
    ok ctx "cdm-cloud.identity.get_tenants.success" tenants).

Definition GetTenant (ctx : Ctx) (tenantID : Z) : Act ITenant.t :=
  Transaction (
    tenant <- check ctx "cdm-cloud.identity.get_tenant.failure-get"
                (getTenant tenantID) ;;
    ok ctx "cdm-cloud.identity.get_tenant.success" tenant).

Definition AddTenant (ctx : Ctx) (req : option ITenant.t) : Act ITenant.t :=
  Transaction (
    tenant <- check ctx "cdm-cloud.identity.add_tenant.failure-add"
                (addTenant req) ;;
    ok ctx "cdm-cloud.identity.add_tenant.success" tenant).

Definition UpdateTenant (ctx : Ctx) (req : UpdateTenantRequest.t)
    : Act ITenant.t :=
  Transaction (
    tenant <- check ctx "cdm-cloud.identity.update_tenant.failure-update"
                (updateTenant (UpdateTenantRequest.TenantId req) req) ;;
    ok ctx "cdm-cloud.identity.update_tenant.success" tenant).

Definition ActivateTenant (ctx : Ctx) (tenantID : Z) : Act ITenant.t :=
  Transaction (
    tenant <- check ctx "cdm-cloud.identity.activate_tenant.failure-activate"
                (activateTenant tenantID) ;;
    ok ctx "cdm-cloud.identity.activate_tenant.success" tenant).

Definition DeactivateTenant (ctx : Ctx) (tenantID : Z) : Act ITenant.t :=
  Transaction (
    tenant <-
      check ctx "cdm-cloud.identity.deactivate_tenant.failure-deactivate"
        (deactivateTenant tenantID) ;;
    ok ctx "cdm-cloud.identity.deactivate_tenant.success" tenant).
End handlers.

(** ** The start of the service *)
Section start.
Context `{Backend}.

Definition solution_role (role : string) (r : Role.t) : bool :=
  ((Role.Solution r =? SolutionName) && (Role.Role r =? role))%string.

(** [NewIdentityHandler] up to [i.init()], which reads the private key and
    loads the access policy: the package variables [Role] and [adminUser],
    of which only the id is selected. *)
Definition NewIdentityHandler : Act Globals :=
  r <- attempt (Transaction (
         user <- First TUser (by_account Admin) ;;
         admin <- First TRole (solution_role Admin) ;;
         manager <- First TRole (solution_role Manager) ;;
         ret (Build_Globals admin manager
                (User.set_ID (User.ID user) User_zero)))) ;;
  match r with
  | inr g => ret g
  | inl ERecordNotFound => throw (Unknown (Some ERecordNotFound))
  | inl e => throw (UnusableDatabase (Some e))
  end.
End start.
