(* ===== verification/IdFacts.v ===== *)
(** * Facts about the identity operations that several theorems share: frames,
    and what the wrappers around database calls answer *)

From stdpp Require Import base tactics list strings sets.
From Stdlib Require Import ZArith Lia.
From S2P Require Import Prelude GoStd Json Model Backend Errors Proto Metadata.
From S2P Require Import Gorm Database GormFacts Report Config Store IdBase.
From S2P Require Import IdTenant IdGroup IdUser IdSession IdConfig IdHandler.
#[local] Open Scope Z_scope.
#[local] Open Scope go_scope.

(** [frame op] unfolds an operation and follows it. *)
Ltac frame op := unfold op; keep.

(** Splits a boolean that is true or false into its parts. *)
Ltac bools :=
  repeat match goal with
  | H : _ && _ = true |- _ => apply andb_true_iff in H as [? ?]
  | H : _ || _ = false |- _ => apply orb_false_iff in H as [? ?]
  | H : negb _ = false |- _ => apply negb_false_iff in H
  | H : negb _ = true |- _ => apply negb_true_iff in H
  | H : (_ =? _) = true |- _ => apply Z.eqb_eq in H
  | H : (_ =? _) = false |- _ => apply Z.eqb_neq in H
  | H : (_ <? _) = true |- _ => apply Z.ltb_lt in H
  | H : (_ <? _) = false |- _ => apply Z.ltb_ge in H
  | H : (_ =? _)%string = true |- _ => apply String.eqb_eq in H
  | H : (_ =? _)%string = false |- _ => apply String.eqb_neq in H
  end.

(** ** Frames of the read-only operations *)

(** An order on worlds that queries and clock readings keep. *)
Class Readonly `{Backend} (r : relation World) : Prop := {
  ro_preorder :: PreOrder r;
  ro_Find :: forall t p, Preserves r (Find t p);
  ro_Find_page :: forall t p g, Preserves r (Find_page t p g);
  ro_First :: forall t p, Preserves r (First t p);
  ro_Join :: forall A (q : (forall t, list (row t)) -> list A) le o n,
    Preserves r (Join q le o n);
  ro_JoinCount :: forall A (q : (forall t, list (row t)) -> list A),
    Preserves r (JoinCount q);
  ro_on_tick :: forall A (f : nat -> A), Preserves r (on_tick f)
}.

Section readonly.
Context `{Backend} `{Globals} (r : relation World) `{!Readonly r}.

#[global] Instance ro_or_db {A} (c : Act A) : Preserves r c -> Preserves r (or_db c).
Proof. intros ?. frame @or_db. Qed.
#[global] Instance ro_first_or t p e : Preserves r (first_or t p e).
Proof. frame @first_or. Qed.
#[global] Instance ro_first_absent t p e : Preserves r (first_absent t p e).
Proof. frame @first_absent. Qed.
#[global] Instance ro_or_unknown_err {A} (x : err + A) :
  Preserves r (or_unknown_err x).
Proof. frame @or_unknown_err. Qed.
#[global] Instance ro_deref {A} (x : option A) : Preserves r (deref x).
Proof. frame @deref. Qed.
#[global] Instance ro_lift {A} (x : err + A) : Preserves r (lift x).
Proof. frame @lift. Qed.
#[global] Instance ro_tenant_solutions id : Preserves r (tenant_solutions id).
Proof. frame @tenant_solutions. Qed.
#[global] Instance ro_getTenant id : Preserves r (getTenant id).
Proof. frame @getTenant. Qed.
#[global] Instance ro_group_Apply f q : Preserves r (group_Apply f q).
Proof. frame @group_Apply. Qed.
#[global] Instance ro_getGroups tid fs : Preserves r (getGroups tid fs).
Proof. frame @getGroups. Qed.
#[global] Instance ro_User_Roles id : Preserves r (User_Roles id).
Proof. frame @User_Roles. Qed.
#[global] Instance ro_User_Groups id : Preserves r (User_Groups id).
Proof. frame @User_Groups. Qed.
#[global] Instance ro_user_roles id : Preserves r (user_roles id).
Proof. frame @user_roles. Qed.
#[global] Instance ro_user_groups rs tid id : Preserves r (user_groups rs tid id).
Proof. frame @user_groups. Qed.
#[global] Instance ro_getUser tid id : Preserves r (getUser tid id).
Proof. frame @getUser. Qed.
#[global] Instance ro_lookup t p v k : Preserves r (lookup t p v k).
Proof. frame @lookup. Qed.
#[global] Instance ro_TenantConfig tid k : Preserves r (TenantConfig tid k).
Proof. unfold TenantConfig. apply _. Qed.
#[global] Instance ro_required_config tid k : Preserves r (required_config tid k).
Proof. frame @required_config. Qed.
#[global] Instance ro_checkLoginRestricted u : Preserves r (checkLoginRestricted u).
Proof. unfold checkLoginRestricted, now_unix. keep. Qed.
#[global] Instance ro_validateUserLogin req : Preserves r (validateUserLogin req).
Proof. frame @validateUserLogin. Qed.
#[global] Instance ro_password_change_cycle tid :
  Preserves r (password_change_cycle tid).
Proof. frame @password_change_cycle. Qed.
#[global] Instance ro_session_timeout tid : Preserves r (session_timeout tid).
Proof. frame @session_timeout. Qed.
#[global] Instance ro_generatePayload ctx u m t :
  Preserves r (generatePayload ctx u m t).
Proof. unfold generatePayload, now_unix. keep. Qed.
#[global] Instance ro_generateSessionKey p k :
  Preserves r (generateSessionKey p k).
Proof. frame @generateSessionKey. Qed.
#[global] Instance ro_generate_loop n l p e : Preserves r (generate_loop n l p e).
Proof. revert e. induction n; intros e; cbn; keep. Qed.
#[global] Instance ro_generatePassword : Preserves r generatePassword.
Proof. unfold generatePassword, now_nano. keep. Qed.
#[global] Instance ro_tenant_or_unknown c :
  Preserves r c -> Preserves r (tenant_or_unknown c).
Proof. intros ?. frame @tenant_or_unknown. Qed.
#[global] Instance ro_validate_texts p l u : Preserves r (validate_texts p l u).
Proof. frame @validate_texts. Qed.
#[global] Instance ro_validate_name_email u p :
  Preserves r (validate_name_email u p).
Proof. frame @validate_name_email. Qed.
#[global] Instance ro_validate_groups tid v gs : Preserves r (validate_groups tid v gs).
Proof. frame @validate_groups. Qed.
#[global] Instance ro_validate_roles rs : Preserves r (validate_roles rs).
Proof. frame @validate_roles. Qed.
#[global] Instance ro_validateUserAdd ctx tid u :
  Preserves r (validateUserAdd ctx tid u).
Proof. frame @validateUserAdd. Qed.
#[global] Instance ro_validateUserUpdate ctx tid ru q :
  Preserves r (validateUserUpdate ctx tid ru q).
Proof. frame @validateUserUpdate. Qed.
#[global] Instance ro_validateUserDelete tid id :
  Preserves r (validateUserDelete tid id).
Proof. frame @validateUserDelete. Qed.
#[global] Instance ro_validateUserPasswordUpdate u q :
  Preserves r (validateUserPasswordUpdate u q).
Proof. frame @validateUserPasswordUpdate. Qed.
#[global] Instance ro_validateUserPasswordReset ctx u tid id :
  Preserves r (validateUserPasswordReset ctx u tid id).
Proof. frame @validateUserPasswordReset. Qed.
#[global] Instance ro_validDeleteGroup ctx tid id :
  Preserves r (validDeleteGroup ctx tid id).
Proof. frame @validDeleteGroup. Qed.
#[global] Instance ro_validateGroupAdd ctx tid g :
  Preserves r (validateGroupAdd ctx tid g).
Proof. frame @validateGroupAdd. Qed.
#[global] Instance ro_validateGroupUserSet ctx tid q :
  Preserves r (validateGroupUserSet ctx tid q).
Proof. frame @validateGroupUserSet. Qed.
#[global] Instance ro_userRspToModel u : Preserves r (userRspToModel u).
Proof. frame @userRspToModel. Qed.
#[global] Instance ro_groupRspToModel u : Preserves r (groupRspToModel u).
Proof. frame @groupRspToModel. Qed.
#[global] Instance ro_validateConfig c : Preserves r (validateConfig c).
Proof. frame @validateConfig. Qed.
#[global] Instance ro_validate_solutions l : Preserves r (validate_solutions l).
Proof. frame @validate_solutions. Qed.
#[global] Instance ro_needed tid k : Preserves r (needed tid k).
Proof. frame @needed. Qed.
#[global] Instance ro_needed_as {A} (f : Value -> err + A) tid k :
  Preserves r (needed_as f tid k).
Proof. frame @needed_as. Qed.
#[global] Instance ro_getConfig tid : Preserves r (getConfig tid).
Proof. frame @getConfig. Qed.
#[global] Instance ro_validateTenantAdd t : Preserves r (validateTenantAdd t).
Proof. frame @validateTenantAdd. Qed.
#[global] Instance ro_validateTenantUpdate t : Preserves r (validateTenantUpdate t).
Proof. frame @validateTenantUpdate. Qed.
#[global] Instance ro_validateUpdateGroup tid q :
  Preserves r (validateUpdateGroup tid q).
Proof. frame @validateUpdateGroup. Qed.
#[global] Instance ro_getGroup tid id : Preserves r (getGroup tid id).
Proof. frame @getGroup. Qed.
#[global] Instance ro_getSimpleUser tid id : Preserves r (getSimpleUser tid id).
Proof. frame @getSimpleUser. Qed.
#[global] Instance ro_tenant_Apply f q : Preserves r (tenant_Apply f q).
Proof. frame @tenant_Apply. Qed.
#[global] Instance ro_getTenants fs : Preserves r (getTenants fs).
Proof. frame @getTenants. Qed.
#[global] Instance ro_role_Apply f q : Preserves r (role_Apply f q).
Proof. frame @role_Apply. Qed.
#[global] Instance ro_getRoles fs : Preserves r (getRoles fs).
Proof. frame @getRoles. Qed.
#[global] Instance ro_tenant_exists id : Preserves r (tenant_exists id).
Proof. frame @tenant_exists. Qed.
#[global] Instance ro_validateUserListGet q : Preserves r (validateUserListGet q).
Proof. frame @validateUserListGet. Qed.
#[global] Instance ro_validateUserGet ctx u id : Preserves r (validateUserGet ctx u id).
Proof. frame @validateUserGet. Qed.
#[global] Instance ro_validateRoleList a b : Preserves r (validateRoleList a b).
Proof. frame @validateRoleList. Qed.
End readonly.

Section readonly_instances.
Context `{BackendLaws}.
#[global] Instance readonly_db ts : Readonly (db_frame ts).
Proof. constructor; apply _. Qed.
#[global] Instance readonly_kv : Readonly kv_frame.
Proof. constructor; apply _. Qed.
#[global] Instance readonly_out : Readonly out_frame.
Proof. constructor; apply _. Qed.
End readonly_instances.

(** ** Frames of every operation *)

(** An order that store requests and publications keep as well. *)
Class Services `{Backend} (r : relation World) : Prop := {
  sv_readonly :: Readonly r;
  sv_Count :: forall t p, Preserves r (Count t p);
  sv_on_kv :: forall A (f : KV -> (string + A) * KV), Preserves r (on_kv f);
  sv_Publish :: forall t b, Preserves r (Publish t b);
  sv_set_err :: forall e, Preserves r (set_err e)
}.

(** An order that writes keep, too. *)
Class Effects `{Backend} (r : relation World) : Prop := {
  ef_services :: Services r;
  ef_Save :: forall t x, Preserves r (Save t x);
  ef_Delete :: forall t p, Preserves r (Delete t p)
}.

Section services.
Context `{Backend} `{Globals} (r : relation World) `{!Services r}.
Variable privateKey : PrivateKey.

#[global] Instance ef_or_store {A} (c : Act A) :
  Preserves r c -> Preserves r (or_store c).
Proof. intros ?. frame @or_store. Qed.
#[global] Instance ef_Get k : Preserves r (Get k).
Proof. frame @Get. Qed.
#[global] Instance ef_Put k v t : Preserves r (Put k v t).
Proof. frame @Put. Qed.
#[global] Instance ef_StoreDelete k b : Preserves r (StoreDelete k b).
Proof. frame @StoreDelete. Qed.
#[global] Instance ef_List k : Preserves r (List k).
Proof. frame @List. Qed.
#[global] Instance ef_reportEvent ctx e c m : Preserves r (reportEvent ctx e c m).
Proof. unfold reportEvent, ReportEvent. keep. Qed.
#[global] Instance ef_status n ctx e c m : Preserves r (status n ctx e c m).
Proof. frame @status. Qed.
#[global] Instance ef_CreateError_of ctx ev e : Preserves r (CreateError_of ctx ev e).
Proof.
  unfold CreateError_of. repeat (apply ef_status || destruct (Equal _ _)).
  by destruct (bool_decide _); apply ef_status.
Qed.
#[global] Instance ef_createError_of ctx ev e : Preserves r (createError_of ctx ev e).
Proof.
  unfold createError_of. repeat (apply ef_status || destruct (Equal _ _)).
  apply _.
Qed.
#[global] Instance ef_fail_with {A} ctx ev e : Preserves r (fail_with (A:=A) ctx ev e).
Proof. frame @fail_with. Qed.
#[global] Instance ef_check {A} ctx ev (c : Act A) :
  Preserves r c -> Preserves r (check ctx ev c).
Proof. intros ?. frame @check. Qed.
#[global] Instance ef_ok {A} ctx ev (a : A) : Preserves r (ok ctx ev a).
Proof. unfold ok, StatusOK. keep. Qed.
#[global] Instance ef_no_content {A} ctx ev (l : list A) :
  Preserves r (no_content ctx ev l).
Proof. frame @no_content. Qed.
#[global] Instance ef_getRequestMetadata ctx : Preserves r (getRequestMetadata ctx).
Proof. frame @getRequestMetadata. Qed.
#[global] Instance ef_check_var {A} ctx ev f (c : Act A) :
  Preserves r c -> Preserves r (check_var ctx ev f c).
Proof. intros ?. frame @check_var. Qed.

#[global] Instance ef_getSession id : Preserves r (getSession id).
Proof. frame @getSession. Qed.
#[global] Instance ef_user_Apply f q : Preserves r (user_Apply f q).
Proof.
  unfold user_Apply, userSolutionFilter_Apply, userGroupFilter_Apply,
    userExcludeGroupFilter_Apply, loginFilter_Apply. keep.
Qed.
#[global] Instance ef_getUsers tid fs : Preserves r (getUsers tid fs).
Proof. frame @getUsers. Qed.
#[global] Instance ef_getUsersPagination tid fs :
  Preserves r (getUsersPagination tid fs).
Proof.
  unfold getUsersPagination. apply preserves_bind; [apply _| |keep].
  apply preserves_fold_each; [apply _|]. intros [[q o] l] []; keep.
Qed.
#[global] Instance ef_issue_session ctx t u m k :
  Preserves r (issue_session ctx t u m k).
Proof. frame @issue_session. Qed.
#[global] Instance ef_newSession ctx t u k b : Preserves r (newSession ctx t u k b).
Proof. unfold newSession, now_nano. keep. Qed.
#[global] Instance ef_updateSession ctx u t m k :
  Preserves r (updateSession ctx u t m k).
Proof. unfold updateSession. apply _. Qed.
#[global] Instance ef_session_payload s : Preserves r (session_payload s).
Proof. frame @session_payload. Qed.
#[global] Instance ef_validateDeleteSession u s :
  Preserves r (validateDeleteSession u s).
Proof. frame @validateDeleteSession. Qed.
#[global] Instance ef_validateRevokeSession u t s :
  Preserves r (validateRevokeSession u t s).
Proof. frame @validateRevokeSession. Qed.
#[global] Instance ef_deleteSession id : Preserves r (deleteSession id).
Proof. frame @deleteSession. Qed.
#[global] Instance ef_verifySession ctx s k : Preserves r (verifySession ctx s k).
Proof. unfold verifySession, now_unix. keep. Qed.
End services.

Section effects.
Context `{Backend} `{Globals} (r : relation World) `{!Effects r}.
Variable privateKey : PrivateKey.

#[global] Instance ef_updateUserLoginFailedInfo req :
  Preserves r (updateUserLoginFailedInfo req).
Proof. unfold updateUserLoginFailedInfo, now_unix. keep. Qed.
#[global] Instance ef_loginUser ctx req : Preserves r (loginUser ctx req).
Proof. unfold loginUser, now_unix. keep. Qed.
#[global] Instance ef_group_relations id gs :
  Preserves r (updateUserGroupRelations id gs).
Proof. frame @updateUserGroupRelations. Qed.
#[global] Instance ef_role_relations id rs :
  Preserves r (updateUserRoleRelations id rs).
Proof. frame @updateUserRoleRelations. Qed.
#[global] Instance ef_addUser u p : Preserves r (addUser u p).
Proof. frame @addUser. Qed.
#[global] Instance ef_updateUser tid ru u : Preserves r (updateUser tid ru u).
Proof. frame @updateUser. Qed.
#[global] Instance ef_deleteUser tid id : Preserves r (deleteUser tid id).
Proof. frame @deleteUser. Qed.
#[global] Instance ef_updateUserPassword id p :
  Preserves r (updateUserPassword id p).
Proof. unfold updateUserPassword, now_unix. keep. Qed.
#[global] Instance ef_resetUserPassword ctx u tid id :
  Preserves r (resetUserPassword ctx u tid id).
Proof. unfold resetUserPassword, now_unix. keep. Qed.
#[global] Instance ef_deleteGroup ctx tid id : Preserves r (deleteGroup ctx tid id).
Proof. frame @deleteGroup. Qed.
#[global] Instance ef_setGroupUsers ctx tid q : Preserves r (setGroupUsers ctx tid q).
Proof. frame @setGroupUsers. Qed.
#[global] Instance ef_addGroup ctx tid g : Preserves r (addGroup ctx tid g).
Proof. frame @addGroup. Qed.
#[global] Instance ef_updateGroup tid g : Preserves r (updateGroup tid g).
Proof. frame @updateGroup. Qed.
#[global] Instance ef_save_solutions id l : Preserves r (save_solutions id l).
Proof. frame @save_solutions. Qed.
#[global] Instance ef_addTenant q : Preserves r (addTenant q).
Proof. frame @addTenant. Qed.
#[global] Instance ef_updateTenant id q : Preserves r (updateTenant id q).
Proof. frame @updateTenant. Qed.
#[global] Instance ef_set_use_flag b id : Preserves r (set_use_flag b id).
Proof. frame @set_use_flag. Qed.
#[global] Instance ef_setConfig tid c : Preserves r (setConfig tid c).
Proof. unfold setConfig, save_setting. keep. Qed.
#[global] Instance ef_login_transaction ctx req :
  Preserves r (login_transaction privateKey ctx req).
Proof. frame @login_transaction. Qed.
#[global] Instance ef_login_failure_transaction ctx req :
  Preserves r (login_failure_transaction ctx req).
Proof. frame @login_failure_transaction. Qed.
End effects.

(** The rows a rollback goes back to stay. *)
Definition base_frame `{Backend} (w w' : World) : Prop :=
  same_base (w_db w) (w_db w').

Section effects_instances.
Context `{BackendLaws}.

#[global] Instance base_frame_preorder : PreOrder base_frame.
Proof.
  split; [by intros w t|]. intros w1 w2 w3 H1' H2' t. by rewrite H2', H1'.
Qed.

Lemma base_of_frame {A} ts (c : Act A) :
  Preserves (db_frame ts) c -> Preserves base_frame c.
Proof. apply preserves_mono. by intros w w' [_ Hb]. Qed.

#[global] Instance effects_base : Effects base_frame.
Proof.
  constructor; [constructor|..].
  - constructor; try apply _; intros; apply (base_of_frame []); apply _.
  - intros t p. apply (base_of_frame []), _.
  - intros A f w x w' (y & kv & _ & -> & _)%on_kv_inv. by intros t.
  - intros t b w x w' (Hd & _)%Publish_inv t'. by rewrite Hd.
  - by intros e w x w' [= _ <-].
  - intros t x. apply (base_of_frame [t]), preserves_Save. by left.
  - intros t p. apply (base_of_frame [t]), preserves_Delete. by left.
Qed.

(** Rows change by writes only. *)
#[global] Instance services_db ts : Services (db_frame ts).
Proof.
  constructor; try apply _.
  - intros t b w x w' (Hd & _)%Publish_inv. unfold db_frame, R, same_base.
    by rewrite Hd.
  - by intros e w x w' [= _ <-].
Qed.

Lemma transaction_outcome {A} (fc : Act A) w r w' :
  Preserves base_frame fc -> Transaction fc w = (r, w') -> outcome fc w r w'.
Proof. intros Hb. by apply Transaction_inv. Qed.
End effects_instances.

(** The clock only advances. *)
Definition tick_frame `{Backend} (w w' : World) : Prop :=
  (w_tick w <= w_tick w')%nat.

Section tick_instances.
Context `{Backend}.

#[global] Instance tick_frame_preorder : PreOrder tick_frame.
Proof. unfold tick_frame. split; [intros w; apply le_n|]. intros ???. lia. Qed.

#[local] Instance tick_on_db {A} (f : DB -> (sqlerr + A) * DB) :
  Preserves tick_frame (on_db f).
Proof. intros w x w' (y & db & _ & -> & _)%on_db_inv. apply le_n. Qed.
#[local] Instance tick_on_tick {A} (f : nat -> A) :
  Preserves tick_frame (on_tick f).
Proof. intros w x w' [= _ <-]. unfold tick_frame. cbn. lia. Qed.
#[local] Instance tick_before_create t x : Preserves tick_frame (before_create t x).
Proof. destruct t; cbn; unfold now_unix; keep. Qed.
#[local] Instance tick_before_update t x : Preserves tick_frame (before_update t x).
Proof. destruct t; cbn; unfold now_unix; keep. Qed.
#[local] Instance tick_First t p : Preserves tick_frame (First t p).
Proof. frame @First. Qed.

#[global] Instance effects_tick : Effects tick_frame.
Proof.
  constructor; [constructor|..].
  - constructor; try apply _; intros; unfold Find_page, Join, JoinCount; keep.
  - intros t p. apply tick_on_db.
  - intros A f w x w' (y & kv & _ & -> & _)%on_kv_inv. apply le_n.
  - intros t b w x w'. unfold Publish, tick_frame.
    destruct (broker_accepts _); intros [= _ <-]; cbn; lia.
  - intros e w x w' [= _ <-]. apply le_n.
  - intros t x. unfold Save, Create. keep.
  - intros t p. apply tick_on_db.
Qed.
End tick_instances.

(** Membership in the list of the tables a write touches. *)
Lemma not_in_one {A} (x y : A) : x <> y -> x ∉ [y].
Proof. set_solver. Qed.
Lemma not_in_two {A} (x y z : A) : x <> y -> x <> z -> x ∉ [y; z].
Proof. set_solver. Qed.

(** ** What the wrappers answer *)
Section wrappers.
Context `{BackendLaws}.

Lemma or_db_inr {A} (c : Act A) w a w' :
  or_db c w = (inr a, w') -> c w = (inr a, w').
Proof.
  unfold or_db, bind, attempt, throw, ret.
  destruct (c w) as [[e|x] w1]; intros; by simplify_eq.
Qed.

Lemma or_db_inl {A} (c : Act A) w e w' :
  or_db c w = (inl e, w') ->
  exists e0, c w = (inl e0, w') /\ e = UnusableDatabase (Some e0).
Proof.
  unfold or_db, bind, attempt, throw, ret.
  destruct (c w) as [[e0|x] w1]; intros [= <- <-]; eauto.
Qed.

Lemma or_store_inr {A} (c : Act A) w a w' :
  or_store c w = (inr a, w') -> c w = (inr a, w').
Proof.
  unfold or_store, bind, attempt, throw, ret.
  destruct (c w) as [[e|x] w1]; intros; by simplify_eq.
Qed.

Lemma first_or_inr t p m w x w' :
  first_or t p m w = (inr x, w') -> First t p w = (inr x, w').
Proof.
  unfold first_or, bind, attempt, throw, ret.
  destruct (First t p w) as [[[]|y] w1]; intros; by simplify_eq.
Qed.

(** A failed query either found nothing or met a driver error. *)
Lemma first_or_inl t p m w e w' :
  first_or t p m w = (inl e, w') ->
  (e = m /\ forall x, x ∈ R t w -> p x = false) \/
  exists d, e = UnusableDatabase (Some (EDriver d)).
Proof.
  intros Hf. unfold first_or in Hf.
  apply bind_inl in Hf as [(x & ? & _)%attempt_inv|(x & w1 & Ha & Hf)]; [done|].
  apply attempt_inv in Ha as (y & [= ->] & Hq). destruct y as [e0|y].
  - apply First_err in Hq as [[-> Hq]|[d ->]];
      apply throw_inv in Hf as [[= ->] _]; eauto.
  - by apply ret_inv in Hf as [? _].
Qed.

Lemma first_absent_inr t p m w u w' :
  first_absent t p m w = (inr u, w') -> forall x, x ∈ R t w -> p x = false.
Proof.
  unfold first_absent. intros (x & w1 & Ha & Hf)%bind_inr.
  apply attempt_inv in Ha as (y & [= ->] & Hq). destruct y as [e0|y].
  - apply First_err in Hq as [[-> Hq]|[d ->]]; [done|].
    by apply throw_inv in Hf as [? _].
  - by apply throw_inv in Hf as [? _].
Qed.

Lemma first_absent_inl t p m w e w' :
  first_absent t p m w = (inl e, w') ->
  (e = m /\ exists x, x ∈ R t w /\ p x = true) \/
  exists d, e = UnusableDatabase (Some (EDriver d)).
Proof.
  unfold first_absent.
  intros [(x & ? & _)%attempt_inv|(x & w1 & Ha & Hf)]%bind_inl; [done|].
  apply attempt_inv in Ha as (y & [= ->] & Hq). destruct y as [e0|y].
  - apply First_err in Hq as [[-> Hq]|[d ->]].
    + by apply ret_inv in Hf as [? _].
    + apply throw_inv in Hf as [[= ->] _]; eauto.
  - apply throw_inv in Hf as [[= ->] _]. left. split; [done|].
    apply First_ok in Hq as (? & ? & _). eauto.
Qed.

Lemma or_unknown_err_inr {A} (x : err + A) a (w w' : World) :
  or_unknown_err x w = (inr a, w') <-> x = inr a /\ w' = w.
Proof.
  unfold or_unknown_err, throw, ret.
  destruct x; split; intros; destruct_and?; simplify_eq; done.
Qed.

Lemma lift_inr {A} (x : err + A) a (w w' : World) :
  lift x w = (inr a, w') <-> x = inr a /\ w' = w.
Proof.
  unfold lift, throw, ret.
  destruct x; split; intros; destruct_and?; simplify_eq; done.
Qed.

Lemma deref_inr {A} (x : option A) a (w w' : World) :
  deref x w = (inr a, w') <-> x = Some a /\ w' = w.
Proof.
  unfold deref, throw, ret.
  destruct x; split; intros; destruct_and?; simplify_eq; done.
Qed.

Lemma now_unix_inr a (w w' : World) :
  now_unix w = (inr a, w') ->
  a = clock (w_tick w) / 1000000000 /\
  w' = mkWorld _ (w_db w) (w_kv w) (w_out w) (S (w_tick w)) (w_err w)
         (w_mail w) (w_log w).
Proof. by intros [= <- <-]. Qed.

Lemma reports_createError_of ctx ev e : reports (createError_of ctx ev e).
Proof.
  unfold createError_of.
  repeat apply reports_if;
    try (apply reports_status; apply (bool_decide_unpack _); by vm_compute).
Qed.

Lemma fail_with_inv {A} ctx ev e w (r : err + A) w' :
  fail_with ctx ev e w = (r, w') ->
  exists s, r = inl s /\ is_status s /\ w_db w' = w_db w /\ w_kv w' = w_kv w.
Proof.
  unfold fail_with. intros [(e' & Hc & _)|(a & w1 & Hc & Ht)]%bind_inv;
    apply reports_createError_of in Hc as (s & Hs & ? & ? & ?); [done|].
  injection Hs as ->. apply throw_inv in Ht as [-> ->]. eauto 6.
Qed.

Lemma check_inr {A} ctx ev (c : Act A) w a w' :
  check ctx ev c w = (inr a, w') -> c w = (inr a, w').
Proof.
  unfold check.
  intros (x & w1 & (y & [= ->] & Hc)%attempt_inv & Hr)%bind_inr.
  destruct y as [e|b]; [|by apply ret_inv in Hr as [[= ->] ->]].
  destruct e; try (by apply throw_inv in Hr as [? _]);
    by apply fail_with_inv in Hr as (s & ? & _).
Qed.

(** A handler's error is a status error made of the operation's one. *)
Lemma check_inl {A} ctx ev (c : Act A) w e w' :
  check ctx ev c w = (inl e, w') ->
  exists e0 w1, c w = (inl e0, w1) /\ w_db w' = w_db w1 /\ w_kv w' = w_kv w1 /\
    ((e0 = EPanic /\ e = EPanic) \/
     (is_status e /\ fail_with (A:=A) ctx ev e0 w1 = (inl e, w'))).
Proof.
  unfold check.
  intros [(y & ? & _)%attempt_inv|(x & w1 & (y & [= ->] & Hc)%attempt_inv & Hr)]
    %bind_inl; [done|].
  destruct y as [e0|b]; [|by apply ret_inv in Hr as [? _]].
  exists e0, w1. split; [done|].
  destruct e0;
    try (pose proof Hr as Hr2;
         apply fail_with_inv in Hr as (s & [= ->] & ? & -> & ->);
         split; [done|]; split; [done|]; right; split; [done|exact Hr2]).
  apply throw_inv in Hr as [[= ->] ->]. auto.
Qed.

Lemma ok_inr {A} ctx ev (a b : A) w w' :
  ok ctx ev a w = (inr b, w') -> b = a /\ w_db w' = w_db w /\ w_kv w' = w_kv w.
Proof.
  unfold ok, StatusOK. intros (u & w1 & (_ & ? & ?)%reportEvent_inv & Hr)%bind_inr.
  by apply ret_inv in Hr as [[= ->] ->].
Qed.

Lemma ok_inl {A} ctx ev (a : A) w e w' : ok ctx ev a w <> (inl e, w').
Proof.
  unfold ok, StatusOK. intros [(? & ? & ?)%reportEvent_inv|(u & w1 & _ & Hr)]
    %bind_inl; [done|]. by apply ret_inv in Hr as [? _].
Qed.
End wrappers.

(** [run H] unfolds a run of an identity operation that returned a value. *)
Ltac run_step H :=
  lazymatch type of H with
  | bind _ _ _ = (inr _, _) =>
      let x := fresh "x" in let w := fresh "w" in let H1 := fresh "Hr" in
      apply bind_inr in H; destruct H as (x & w & H1 & H); run H1
  | or_db _ _ = (inr _, _) => apply or_db_inr in H
  | or_store _ _ = (inr _, _) => apply or_store_inr in H
  | check _ _ _ _ = (inr _, _) => apply check_inr in H
  | first_or _ _ _ _ = (inr _, _) => apply first_or_inr in H
  | or_unknown_err _ _ = (inr _, _) =>
      apply (proj1 (or_unknown_err_inr _ _ _ _)) in H;
      let H2 := fresh "Hw" in destruct H as [H H2]; try subst
  | lift _ _ = (inr _, _) =>
      apply (proj1 (lift_inr _ _ _ _)) in H;
      let H2 := fresh "Hw" in destruct H as [H H2]; try subst
  | deref _ _ = (inr _, _) =>
      apply (proj1 (deref_inr _ _ _ _)) in H;
      let H2 := fresh "Hw" in destruct H as [H H2]; try subst
  | now_unix _ = (inr _, _) =>
      apply now_unix_inr in H;
      let H2 := fresh "Hw" in destruct H as [H H2]; try subst
  | match ?x with (_, _) => _ end _ = _ => destruct x
  | attempt _ _ = (_, _) =>
      apply attempt_inv in H;
      let y := fresh "y" in let H1 := fresh "Hy" in
      destruct H as (y & H1 & H); injection H1 as H1; subst
  | _ => go_step H
  end
with run H := repeat (progress (run_step H; cbn beta iota in * |-)).

(** ** Saving the row of an existing user *)
Section save_user.
Context `{BackendLaws}.

Definition replace_user (u : User.t) (l : list User.t) : list User.t :=
  map (fun y => if User.ID y =? User.ID u then update_row TUser u y else y) l.

Lemma Save_user u r w r' w' :
  u ∈ R TUser w -> User.ID r = User.ID u -> User.Account r = User.Account u ->
  Save TUser r w = (inr r', w') ->
  (exists n, r' = User_BeforeUpdate (clock n / 1000000000) r) /\
  R TUser w' ≡ₚ replace_user r' (R TUser w).
Proof.
  intros Hu Hid Hacc Hs.
  destruct (main_key_blank TUser r) eqn:Hb.
  - exfalso. pose proof Hs as Hs2.
    apply (Save_new TUser) in Hs2 as (r1 & w1 & Hc & (id & Hpos & ->) & Hr); [|done].
    cbn in Hc. run Hc. cbn in Hr, Hb. rewrite Hb in Hr.
    assert (User.set_ID id (User_BeforeCreate (clock (w_tick w) / 1000000000)
      (clock (S (w_tick w)) / 1000000000) r) ∈ R TUser w') as H1.
    { rewrite Hr. by left. }
    assert (u ∈ R TUser w') as H2 by (rewrite Hr; by right).
    pose proof (rows_unique TUser _ _ _ H1 H2) as He.
    unfold conflict, same_unique in He. cbn in He.
    rewrite Hacc, String.eqb_refl, orb_true_r in He. specialize (He eq_refl).
    apply Z.eqb_eq in Hb. rewrite Hid in Hb.
    apply (f_equal User.ID) in He. cbn in He. lia.
  - apply (Save_existing TUser r w u) in Hs as [(w1 & Hup) Hr]; try done.
    + cbn in Hup. run Hup. split; [by eexists|]. rewrite Hr.
      unfold replace_user. apply Permutation_refl', List.map_ext. intros y.
      cbn. rewrite (Z.eqb_sym (User.ID y)). done.
    + cbn. rewrite Hid. apply Z.eqb_refl.
Qed.

(** The saved row itself, and the rows of the others. *)
Lemma replace_user_self u r l x :
  u ∈ l -> User.ID r = User.ID u ->
  (forall y, y ∈ l -> User.ID y = User.ID u -> y = u) ->
  x ∈ replace_user r l <->
  x = update_row TUser r u \/ (x ∈ l /\ User.ID x <> User.ID u).
Proof.
  intros Hu Hid Huniq. unfold replace_user.
  rewrite list_elem_of_In, List.in_map_iff. split.
  - intros (y & <- & Hy). rewrite <- list_elem_of_In in Hy.
    destruct (Z.eqb_spec (User.ID y) (User.ID r)).
    + left. f_equal. apply Huniq; [done|congruence].
    + right. split; [done|congruence].
  - intros [->|[Hx Hne]].
    + exists u. rewrite <- Hid, Z.eqb_refl, <- list_elem_of_In. done.
    + exists x. rewrite <- list_elem_of_In, Hid.
      by apply Z.eqb_neq in Hne as ->.
Qed.

Lemma user_id_unique w u y :
  u ∈ R TUser w -> y ∈ R TUser w -> User.ID y = User.ID u -> y = u.
Proof.
  intros Hu Hy He. apply (rows_unique TUser _ _ _ Hy Hu).
  unfold conflict. cbn. by rewrite He, Z.eqb_refl.
Qed.

Lemma user_account_unique w u y :
  u ∈ R TUser w -> y ∈ R TUser w -> User.Account y = User.Account u -> y = u.
Proof.
  intros Hu Hy He. apply (rows_unique TUser _ _ _ Hy Hu).
  unfold conflict. cbn. by rewrite He, String.eqb_refl, orb_true_r.
Qed.

Lemma typed_update_user r y :
  typed TUser (update_row TUser r y) = true -> typed TUser r = true.
Proof.
  cbn. destruct (Z.eqb_spec (User.CreatedAt r) 0) as [E|]; [|done].
  cbn. rewrite E. intros Ht. bools. by rewrite H1, H8, H7, H6, H5, H4, H2.
Qed.

(** What [Save] makes of a user's row is typed, as every stored row. *)
Lemma Save_user_typed (u r' : User.t) (w w' : World) :
  u ∈ R TUser w -> User.ID r' = User.ID u ->
  R TUser w' ≡ₚ replace_user r' (R TUser w) -> typed TUser r' = true.
Proof.
  intros Hu Hid Hr. apply (typed_update_user _ u).
  apply (rows_typed TUser (w_db w')). change (rows TUser (w_db w')) with (R TUser w').
  rewrite Hr. apply (replace_user_self u); [done|done| |by left].
  intros y Hy He. by eapply user_id_unique.
Qed.
End save_user.

(** ** The metadata of a request *)
Section request.
Context `{BackendLaws}.

Lemma getRequestMetadata_inv ctx w m w' :
  getRequestMetadata ctx w = (inr m, w') ->
  GetTenantID ctx = inr m.1 /\ GetAuthenticatedUser ctx = inr m.2 /\ w' = w.
Proof.
  unfold getRequestMetadata. intros Hm.
  destruct (GetTenantID ctx); [by apply throw_inv in Hm as [? _]|].
  destruct (GetAuthenticatedUser ctx); [by apply throw_inv in Hm as [? _]|].
  by apply ret_inv in Hm as [[= ->] ->].
Qed.

Lemma ok_rows {A} ctx ev (a b : A) w w' :
  ok ctx ev a w = (inr b, w') -> rows_eq w w'.
Proof. intros (_ & Hd & _)%ok_inr t. unfold R. by rewrite Hd. Qed.
End request.

(** ** Loops *)
Section loops.
Context `{BackendLaws}.

(** A loop of checks over the rows of [w0]. *)
Lemma for_idx_all {A} (f : nat -> A -> Act unit) (P : A -> Prop) w0 i xs w w' :
  (forall i x w w', rows_eq w0 w -> f i x w = (inr tt, w') ->
     P x /\ rows_eq w0 w') ->
  rows_eq w0 w -> for_idx f i xs w = (inr tt, w') ->
  (forall x, x ∈ xs -> P x) /\ rows_eq w0 w'.
Proof.
  intros Hf. revert i w. induction xs as [|a xs IH]; intros i w Hw Hr.
  - apply ret_inv in Hr as [_ ->]. split; [set_solver|done].
  - cbn in Hr. apply bind_inr in Hr as ([] & w1 & Ha & Hr).
    apply Hf in Ha as [Ha Hw1]; [|done].
    apply IH in Hr as [Hr Hw']; [|done]. split; [|done].
    intros x [->|Hx]%elem_of_cons; auto.
Qed.

Lemma First_rows t p w x w' :
  First t p w = (inr x, w') -> x ∈ R t w /\ p x = true /\ rows_eq w w'.
Proof.
  intros Hf. pose proof (preserves_First _ _ [] _ _ _ Hf) as Hfr.
  apply First_ok in Hf as (? & ? & _). split_and!; [done|done|].
  intros t'. by apply db_frame_rows.
Qed.

(** A loop that adds the row [f a] for every element [a]. *)
Lemma map_each_adds {A B} t (f : A -> row t) (body : A -> Act B) xs w ys w' :
  (forall a w y w', body a w = (inr y, w') ->
     forall x, x ∈ R t w' <-> x = f a \/ x ∈ R t w) ->
  map_each body xs w = (inr ys, w') ->
  forall x, x ∈ R t w' <-> (exists a, a ∈ xs /\ x = f a) \/ x ∈ R t w.
Proof.
  intros Hb. revert w ys. induction xs as [|a xs IH]; intros w ys Hm x.
  - apply ret_inv in Hm as [_ ->]. split; [by right|].
    intros [(a & Ha & _)|?]; [by apply elem_of_nil in Ha|done].
  - cbn in Hm. apply bind_inr in Hm as (y & w1 & Ha & Hm).
    apply bind_inr in Hm as (ys' & w2 & Hm & [_ ->]%ret_inv).
    rewrite (IH _ _ Hm x), (Hb _ _ _ _ Ha x). setoid_rewrite elem_of_cons. split.
    + intros [(b & Hb' & ->)|[->|?]]; eauto.
    + intros [(b & [->|Hb'] & ->)|?]; eauto.
Qed.

Lemma for_each_adds {A} t (f : A -> row t) (body : A -> Act unit) xs w w' :
  (forall a w y w', body a w = (inr y, w') ->
     forall x, x ∈ R t w' <-> x = f a \/ x ∈ R t w) ->
  for_each body xs w = (inr tt, w') ->
  forall x, x ∈ R t w' <-> (exists a, a ∈ xs /\ x = f a) \/ x ∈ R t w.
Proof.
  intros Hb Hf. eapply (map_each_adds t f body xs w (map (fun _ => tt) xs)); [done|].
  clear Hb. revert w Hf. induction xs as [|a xs IH]; intros w Hf.
  - by apply ret_inv in Hf as [_ ->].
  - cbn in Hf |- *. apply bind_inr in Hf as ([] & w1 & Ha & Hf).
    apply bind_inr. exists tt, w1. split; [done|].
    apply bind_inr. exists (map (fun _ => tt) xs), w'. split; [by apply IH|done].
Qed.

(** A loop one part of whose results is a function of its elements. *)
Lemma map_each_part {A B C} (h : B -> C) (f : A -> C) (body : A -> Act B)
    xs w ys w' :
  (forall a w y w', a ∈ xs -> body a w = (inr y, w') -> h y = f a) ->
  map_each body xs w = (inr ys, w') -> map h ys = map f xs.
Proof.
  revert w ys w'. induction xs as [|a xs IH]; intros w ys w' Hb Hm.
  - by apply ret_inv in Hm as [[= ->] _].
  - cbn in Hm. apply bind_inr in Hm as (y & w1 & Ha & Hm).
    apply bind_inr in Hm as (ys' & w2 & Hm & [[= ->] _]%ret_inv).
    cbn. f_equal; [by eapply Hb; [left|]|]. eapply IH; [|exact Hm].
    intros b w3 z w4 Hin. apply Hb. by right.
Qed.

(** A loop whose body is a function of its element. *)
Lemma map_each_fun {A B} (f : A -> B) (body : A -> Act B) xs w ys w' :
  (forall a w y w', a ∈ xs -> body a w = (inr y, w') -> y = f a) ->
  map_each body xs w = (inr ys, w') -> ys = map f xs.
Proof.
  intros Hb Hm. rewrite <- (List.map_id ys). by eapply map_each_part.
Qed.
End loops.
