(* ===== verification/ErrorFacts.v ===== *)
(** * Errors that cross a process boundary: their texts are read back *)

From stdpp Require Import base tactics list strings gmap.
From Stdlib Require Import ZArith Lia Ascii.
From S2P Require Import Prelude GoStd Json Model Backend Errors Proto.
From S2P Require Import Metadata Gorm GormFacts Report IdBase.
#[local] Open Scope Z_scope.
#[local] Open Scope go_scope.

Section error_facts.
Context `{Backend}.

Lemma int32_same k n ms :
  -2147483648 <= n < 2147483648 ->
  Dec.field k Dec.int32 0 (Enc.int k n ++ ms) = Dec.field k Dec.int32 n ms.
Proof.
  intros Hn. unfold Enc.int. destruct (Z.eqb_spec n 0) as [->|]; [done|].
  cbn [app Dec.field]. rewrite String.eqb_refl.
  unfold Dec.int32 at 1, Dec.number, jint, Dec.parse_int32.
  rewrite Enc.int_num by (unfold Int.two63; lia).
  destruct (Z.leb_spec (-2147483648) n), (Z.ltb_spec n 2147483648); try lia.
  cbn. by destruct (Dec.field _ _ _ ms).
Qed.

Lemma StatusText_valid code : Json.ValidString (StatusText code) = true.
Proof. unfold StatusText. repeat (destruct (_ =? _); [reflexivity|]). reflexivity. Qed.

(** A go-micro error is read back from its text. *)
Lemma micro_parse_text id detail code :
  Json.ValidString id = true -> Json.ValidString detail = true ->
  -2147483648 <= code < 2147483648 ->
  micro_parse (error_string (EMicro id detail code))
  = mkMicroError id code detail (StatusText code).
Proof.
  intros Hid Hd Hc. cbn [error_string]. unfold micro_parse, micro_json.
  rewrite Json.Parse_Marshal.
  2:{ apply wf_members. repeat apply Forall_app_2;
        try (apply wf_str; [reflexivity|done || apply StatusText_valid]).
      apply wf_int; [reflexivity|]. unfold Int.two63, Int.two64. lia. }
  rewrite <- (app_nil_r (Enc.str "status" (StatusText code))).
  do 3 (fields; try rewrite int32_same by done). done.
Qed.

Lemma message_parse_text code contents :
  Json.ValidString code = true -> Json.ValidString contents = true ->
  message_parse (Json.Marshal (JObj (Enc.str "code" code ++ Enc.str "contents" contents)))
  = Some (code, contents).
Proof.
  intros Hc Ht. unfold message_parse. rewrite Json.Parse_Marshal.
  2:{ apply wf_members, Forall_app_2; by apply wf_str. }
  rewrite <- (app_nil_r (Enc.str "contents" contents)). fields. done.
Qed.

(** The text of a go-micro error is no sentinel's. *)
Lemma micro_not_sentinel id detail code m :
  match m with String a _ => a <> "{"%char | EmptyString => True end ->
  Equal (Some (EMicro id detail code)) (ENew m) = false.
Proof.
  intros Hm. unfold Equal. apply String.eqb_neq. cbn [error_string]. intros He.
  assert (exists s, Json.Marshal (micro_json id detail code (StatusText code))
    = String "{"%char s) as [s Hs] by (eexists; reflexivity).
  rewrite Hs in He. subst m. by apply Hm.
Qed.

(** The text of the contents of an event. *)
Definition contents_text (contents : option err) : string :=
  match contents with
  | Some c => Json.Marshal (error_json c)
  | None => EmptyString
  end.
End error_facts.
