(* ===== verification/ConfigFacts.v ===== *)
(** * The settings table: what saving a setting changes *)

From stdpp Require Import base tactics list strings sets gmap.
From Stdlib Require Import ZArith Lia.
From S2P Require Import Prelude GoStd Json Model Backend Errors.
From S2P Require Import Gorm Database GormFacts Config IdFacts.
#[local] Open Scope Z_scope.

Section settings.
Context `{BackendLaws}.

Lemma plain_TenantConfig : plain_table TTenantConfig.
Proof. by constructor. Qed.

(** The settings [kvs] of tenant [tid] were written, and no others. *)
Record wrote (tid : Z) (kvs : list (string * string)) (w w' : World) : Prop := {
  wrote_in : forall k v, (k, v) ∈ kvs -> setting w' tid k v;
  wrote_out : forall t k x, t <> tid \/ k ∉ kvs.*1 ->
    setting w' t k x <-> setting w t k x;
  wrote_frame : forall t, t <> TTenantConfig -> R t w' = R t w
}.

Lemma wrote_nil tid w : wrote tid [] w w.
Proof. split; [|done|done]. intros k v Hin. by apply elem_of_nil in Hin. Qed.

(** Saving a setting replaces its value and no other. *)
Lemma Save_setting tid key v w r w' :
  Save TTenantConfig (TenantConfig.mk tid key v) w = (inr r, w') ->
  wrote tid [(key, v)] w w'.
Proof.
  intros Hs. split.
  - intros k x [[= -> ->]|Hin]%elem_of_cons; [|by apply elem_of_nil in Hin].
    apply (Save_plain _ _ _ _ _ _ plain_TenantConfig Hs). by left.
  - intros t k x Hk. unfold setting.
    rewrite (Save_plain _ _ _ _ _ _ plain_TenantConfig Hs). cbn.
    rewrite andb_false_iff, Z.eqb_neq, String.eqb_neq.
    cbn in Hk. rewrite list_elem_of_singleton in Hk. intuition congruence.
  - intros t Ht. pose proof (preserves_Save TTenantConfig _ [TTenantConfig]
      ltac:(by left) _ _ _ Hs) as [Hso _]. by apply Hso, not_in_one.
Qed.

Lemma wrote_one tid kvs key v w w1 w2 :
  wrote tid kvs w w1 -> key ∉ kvs.*1 ->
  wrote tid [(key, v)] w1 w2 -> wrote tid ((key, v) :: kvs) w w2.
Proof.
  intros [I1 O1 F1] Hk [I2 O2 F2]. split.
  - intros k x [[= -> ->]|Hin]%elem_of_cons; [apply I2; by left|].
    apply O2; [|by apply I1]. right. intros ->%list_elem_of_singleton.
    apply Hk, list_elem_of_fmap. by exists (key, x).
  - intros t k x Hn. cbn in Hn. rewrite not_elem_of_cons in Hn.
    rewrite O2, O1; [done|tauto|]. cbn. rewrite list_elem_of_singleton. tauto.
  - intros t Ht. by rewrite F2, F1.
Qed.

(** Settings that are read back as they were printed. *)
Lemma Bool_format b : Value.Bool (Strconv.FormatBool b) = inr b.
Proof. unfold Value.Bool. by rewrite Strconv.FormatBool_ParseBool. Qed.

Lemma Uint64_format n :
  0 <= n < Int.two64 -> Value.Uint64 (Strconv.FormatUint n) = inr n.
Proof. intros Hn. unfold Value.Uint64. by rewrite Strconv.ParseUint_FormatUint. Qed.

(** Settings on the same rows. *)
Lemma setting_rows w w' tid k v :
  rows_eq w w' -> setting w tid k v -> setting w' tid k v.
Proof. unfold setting. by intros ->. Qed.

(** What was written, seen from worlds with the same rows. *)
Lemma wrote_rows tid kvs w w0 w1 w2 :
  rows_eq w w0 -> wrote tid kvs w0 w1 -> rows_eq w1 w2 -> wrote tid kvs w w2.
Proof.
  unfold rows_eq. intros Hw [I O F] Hw2. split.
  - intros k v Hin. by eapply setting_rows, I.
  - intros t k x Hk. unfold setting in *. rewrite Hw2, <- Hw. by apply O.
  - intros t Ht. by rewrite Hw2, F, Hw.
Qed.
End settings.
