(* ===== verification/TransactionFacts.v ===== *)
(** * Transactions: the runs behind every answer, and what they keep *)

From stdpp Require Import base tactics list strings sets.
From Stdlib Require Import ZArith Lia.
From S2P Require Import Prelude GoStd Json Model Backend Errors Gorm Database.
From S2P Require Import GormFacts Report IdFacts.
#[local] Open Scope Z_scope.
#[local] Open Scope go_scope.

Section atomic.
Context `{BackendLaws}.

(** Only the database worked: the rows, the clock and what was published are
    the same. *)
Record settled (w w' : World) : Prop := {
  settled_rows : rows_eq w w';
  settled_tick : w_tick w' = w_tick w;
  settled_out : w_out w' = w_out w
}.

(** Either one successful run of [fc], on the rows before, made the rows
    after, or the rows are those before.  The first comes with the result of
    that run or, when the answer to the commit was lost, with the error that
    says so; the second with an error. *)
Definition all_or_nothing {A} (fc : Act A) (w : World) (r : err + A)
    (w' : World) : Prop :=
  (exists w0 w1 a, rows_eq w w0 /\ fc w0 = (inr a, w1) /\ settled w1 w' /\
     (r = inr a \/
      exists c, r = inl (UnusableDatabase (Some (AmbiguousCommitError c))))) \/
  (exists e, r = inl e /\ rows_eq w w').

Lemma all_or_nothing_from {A} (fc : Act A) w1 w r w' :
  rows_eq w w1 -> all_or_nothing fc w1 r w' -> all_or_nothing fc w r w'.
Proof.
  intros Hw [(w0 & w2 & a & H0' & Ha)|(e & -> & He)].
  - left. exists w0, w2, a. split; [by etrans|done].
  - right. exists e. split; [done|by etrans].
Qed.

Lemma abandoned {A} e (w w1 : World) (r : err + A) w' :
  (forall t, base t (w_db w1) = R t w) -> abandon e w1 = (r, w') ->
  r = inl e /\ rows_eq w w'.
Proof.
  intros Hb (-> & Hr & _)%abandon_inv. split; [done|].
  intros t. by rewrite Hr, Hb.
Qed.

(** The commit was refused for good. *)
Lemma release_refused {A} (fc : Act A) w w1 e a db r w' :
  (forall t, base t (w_db w1) = R t w) -> fc w = (inr a, w1) ->
  tx_release (w_db w1) = (inl e, db) ->
  abandon (UnusableDatabase (Some (AmbiguousCommitError (EDriver e))))
    (set_db db w1) = (r, w') ->
  all_or_nothing fc w r w'.
Proof.
  intros Hb Hf Hrel (-> & Hr & db' & ->)%abandon_inv. cbn in Hr.
  destruct (release_err _ _ _ Hrel) as [Hsame|Hdone].
  - right. eexists. split; [done|]. intros t. by rewrite Hr, Hsame, Hb.
  - left. exists w, w1, a. split; [done|]. split; [done|]. split; [|eauto].
    split; [|done..]. intros t. by rewrite Hr, Hdone.
Qed.

(** Another round, from the rows before. *)
Lemma another_round {A} (fc : Act A) (w w1 w2 : World) :
  (forall t, R t w = base t (w_db w)) ->
  (forall t, base t (w_db w1) = base t (w_db w)) ->
  attempt (on_db tx_rollback_to) w1 = (inr (inr tt), w2) ->
  rows_eq w w2 /\ forall t, R t w2 = base t (w_db w2).
Proof.
  intros Hb Hb1 (x & db & E & -> & Hx)%attempt_on_db_inv.
  destruct x as [|[]]; [done|]. apply rollback_to_ok in E as [E1 E2]. split.
  - intros t. rewrite Hb, <- Hb1. apply E2.
  - intros t. etrans; [apply E2|]. symmetry. apply E1.
Qed.

Lemma execute_loop_atomic {A} fuel (fc : Act A) w r w' :
  Preserves base_frame fc -> (forall t, R t w = base t (w_db w)) ->
  execute_loop fuel fc w = (r, w') -> all_or_nothing fc w r w'.
Proof.
  intros Hfc. revert w. induction fuel as [|fuel IH]; intros w Hb Hl.
  { apply throw_inv in Hl as [-> ->]. right. by eexists. }
  cbn [execute_loop] in Hl.
  apply bind_inv in Hl as [(e & (x & ? & _)%attempt_inv & _)|(y & w1 & Ha & Hl)];
    [done|].
  apply attempt_inv in Ha as (x & [= ->] & Hf).
  assert (forall t, base t (w_db w1) = base t (w_db w)) as Hb1.
  { intros t. by apply (Hfc _ _ _ Hf). }
  assert (forall t, base t (w_db w1) = R t w) as Hb2.
  { intros t. by rewrite Hb1, Hb. }
  destruct x as [e|a].
  - destruct (errIsRetryable _).
    2:{ eapply abandoned in Hl as [-> ?]; [|done]. right. eauto. }
    apply bind_inv in Hl as [(e' & (x & ? & _)%attempt_inv & _)|(y & w2 & Ha & Hl)];
      [done|].
    destruct y as [e'|[]].
    + apply attempt_on_db_inv in Ha as (x & db & E & -> & Hx).
      destruct x; [|done]. apply rollback_to_err in E.
      apply (abandoned _ w) in Hl as [-> ?]; [right; eauto|].
      intros t. rewrite <- Hb2. apply E.
    + destruct (another_round fc _ _ _ Hb Hb1 Ha) as [Hw Hb3].
      eapply all_or_nothing_from; [exact Hw|by apply IH].
  - apply bind_inv in Hl as [(e' & (x & ? & _)%attempt_inv & _)|(y & w2 & Ha & Hl)];
      [done|].
    apply attempt_on_db_inv in Ha as (x & db & E & -> & [= ->]).
    destruct x as [e|u].
    + destruct (errIsRetryable _) eqn:Hre; [|by eapply release_refused].
      pose proof (release_retry _ _ _ E Hre) as Hsame.
      apply bind_inv in Hl as
        [(e' & (x & ? & _)%attempt_inv & _)|(y & w2 & Ha & Hl)]; [done|].
      destruct y as [e'|[]].
      * apply attempt_on_db_inv in Ha as (x & db2 & E2 & -> & Hx).
        destruct x; [|done]. apply rollback_to_err in E2.
        apply (abandoned _ w) in Hl as [-> ?]; [right; eauto|].
        intros t. rewrite <- Hb2. etrans; [apply E2|apply Hsame].
      * destruct (another_round fc w (set_db db w1) w2 Hb) as [Hw Hb3];
          [intros t; rewrite <- Hb1; apply Hsame|exact Ha|].
        eapply all_or_nothing_from; [exact Hw|by apply IH].
    + apply bind_inv in Hl as
        [(e' & (x & ? & _)%attempt_inv & _)|(y & w2 & Ha & Hl)]; [done|].
      apply ret_inv in Hl as [-> ->].
      apply attempt_on_db_inv in Ha as (x & db2 & E2 & -> & _).
      left. exists w, w1, a. split; [done|]. split; [done|]. split; [|by left].
      split; [|done..]. intros t. etrans; [by apply (commit_rows _ _ _ E2)|].
      by apply (release_rows _ _ _ E).
Qed.

Lemma Transaction_all_or_nothing {A} (fc : Act A) w r w' :
  Preserves base_frame fc -> Transaction fc w = (r, w') ->
  all_or_nothing fc w r w'.
Proof.
  intros Hfc Ht. unfold Transaction in Ht.
  apply bind_inv in Ht as [(e & (x & ? & _)%attempt_inv & _)|(y & w1 & Ha & Ht)];
    [done|].
  apply attempt_on_db_inv in Ha as (x & db & E & -> & [= ->]).
  pose proof (begin_rows _ _ _ E) as HR.
  destruct x as [e|[]].
  { apply throw_inv in Ht as [-> ->]. right. by eexists. }
  pose proof (begin_ok _ _ E) as HB.
  apply bind_inv in Ht as [(e & (x & ? & _)%attempt_inv & _)|(y & w1 & Ha & Ht)];
    [done|].
  apply attempt_on_db_inv in Ha as (x & db2 & E2 & -> & [= ->]).
  apply savepoint_rows in E2 as [E2 E2b].
  destruct x as [e|u].
  { apply (abandoned _ w) in Ht as [-> ?]; [right; eauto|].
    intros t. etrans; [apply E2b|]. apply HB. }
  apply execute_loop_atomic in Ht; [|done|].
  - eapply all_or_nothing_from; [|exact Ht].
    intros t. etrans; [apply E2|]. apply HR.
  - intros t. etrans; [apply E2|]. etrans; [apply HR|].
    symmetry. etrans; [apply E2b|]. apply HB.
Qed.

(** Every run of the body of a transaction is on the rows before: what these runs
    do, besides the database, is done by the transaction, and what is returned
    is the answer of the last run. *)
Section runs.
Context {A} (Q : relation World) `{!PreOrder Q} (fc : Act A) (w : World).
Hypothesis Q_db : forall db w0, Q w0 (set_db db w0).
Hypothesis Q_body : forall w0 x w1, rows_eq w w0 -> fc w0 = (x, w1) -> Q w0 w1.
Hypothesis fc_base : Preserves base_frame fc.

Definition traced (w0 : World) (r : err + A) (w' : World) : Prop :=
  Q w0 w' /\ forall a, r = inr a -> exists w1 w2 db,
    rows_eq w w1 /\ Q w0 w1 /\ fc w1 = (inr a, w2) /\ w' = set_db db w2.

Lemma Q_attempt {B} (f : DB -> (sqlerr + B) * DB) w0 r w1 :
  attempt (on_db f) w0 = (r, w1) -> Q w0 w1.
Proof. intros (x & db & _ & -> & _)%attempt_on_db_inv. apply Q_db. Qed.

Lemma traced_abandon w0 w1 e r w' : Q w0 w1 -> abandon e w1 = (r, w') -> traced w0 r w'.
Proof.
  intros Hq (-> & _ & db & ->)%abandon_inv. split; [|done]. etrans; [exact Hq|apply Q_db].
Qed.

Lemma traced_from w0 w1 r w' : Q w0 w1 -> traced w1 r w' -> traced w0 r w'.
Proof.
  intros Hq [Hq' Hr]. split; [by etrans|]. intros a Ha.
  destruct (Hr a Ha) as (w2 & w3 & db & ? & ? & ? & ?). exists w2, w3, db.
  split_and!; try done. by etrans.
Qed.

Lemma execute_loop_traced fuel w0 r w' :
  rows_eq w w0 -> (forall t, R t w0 = base t (w_db w0)) ->
  execute_loop fuel fc w0 = (r, w') -> traced w0 r w'.
Proof.
  revert w0. induction fuel as [|fuel IH]; intros w0 Hw Hb Hl.
  { apply throw_inv in Hl as [-> ->]. by split. }
  cbn [execute_loop] in Hl.
  apply bind_inv in Hl as [(e & (x & ? & _)%attempt_inv & _)|(y & w1 & Ha & Hl)]; [done|].
  apply attempt_inv in Ha as (x & [= ->] & Hf).
  assert (forall t, base t (w_db w1) = base t (w_db w0)) as Hb1.
  { intros t. by apply (fc_base _ _ _ Hf). }
  pose proof (Q_body _ _ _ Hw Hf) as Hq. destruct x as [e|a].
  - destruct (errIsRetryable _); [|by eapply traced_abandon].
    apply bind_inv in Hl as [(e' & (x & ? & _)%attempt_inv & _)|(y & w2 & Ha & Hl)]; [done|].
    pose proof (Q_attempt _ _ _ _ Ha) as Hq2.
    destruct y as [e'|[]].
    { eapply traced_abandon; [etrans; [exact Hq|exact Hq2]|exact Hl]. }
    destruct (another_round fc _ _ _ Hb Hb1 Ha) as [Hw2 Hb3].
    eapply traced_from; [etrans; [exact Hq|exact Hq2]|]. apply IH; [by etrans|done|done].
  - apply bind_inv in Hl as [(e' & (x & ? & _)%attempt_inv & _)|(y & w2 & Ha & Hl)]; [done|].
    apply attempt_on_db_inv in Ha as (x & db & E & -> & [= ->]).
    destruct x as [e|u].
    + destruct (errIsRetryable _) eqn:Hre.
      2:{ eapply traced_abandon; [etrans; [exact Hq|apply (Q_db db)]|exact Hl]. }
      apply bind_inv in Hl as
        [(e' & (x & ? & _)%attempt_inv & _)|(y & w2 & Ha & Hl)]; [done|].
      pose proof (Q_attempt _ _ _ _ Ha) as Hq2.
      assert (Q w0 w2) as Hq3 by (etrans; [exact Hq|]; etrans; [apply Q_db|exact Hq2]).
      destruct y as [e'|[]]; [by eapply traced_abandon|].
      destruct (another_round fc w0 (set_db db w1) w2 Hb) as [Hw2 Hb3];
        [intros t; rewrite <- Hb1; apply (release_retry _ _ _ E Hre)|exact Ha|].
      eapply traced_from; [exact Hq3|]. apply IH; [by etrans|done|done].
    + apply bind_inv in Hl as
        [(e' & (x & ? & _)%attempt_inv & _)|(y & w2 & Ha & Hl)]; [done|].
      apply ret_inv in Hl as [-> ->].
      apply attempt_on_db_inv in Ha as (x & db2 & E2 & -> & _).
      split; [etrans; [exact Hq|exact (Q_db db2 w1)]|]. intros ? [= <-].
      by exists w0, w1, db2.
Qed.

Lemma Transaction_traced r w' : Transaction fc w = (r, w') -> traced w r w'.
Proof.
  intros Ht. unfold Transaction in Ht.
  apply bind_inv in Ht as [(e & (x & ? & _)%attempt_inv & _)|(y & w1 & Ha & Ht)]; [done|].
  apply attempt_on_db_inv in Ha as (x & db & E & -> & [= ->]).
  pose proof (begin_rows _ _ _ E) as HR. destruct x as [e|[]].
  { apply throw_inv in Ht as [-> ->]. split; [apply Q_db|done]. }
  pose proof (begin_ok _ _ E) as HB.
  apply bind_inv in Ht as [(e & (x & ? & _)%attempt_inv & _)|(y & w1 & Ha & Ht)]; [done|].
  apply attempt_on_db_inv in Ha as (x & db2 & E2 & -> & [= ->]).
  apply savepoint_rows in E2 as [E2 E2b].
  destruct x as [e|u]; [eapply traced_abandon; [exact (Q_db db2 w)|exact Ht]|].
  eapply traced_from; [exact (Q_db db2 w)|]. eapply execute_loop_traced; [..|exact Ht].
  - intros t. etrans; [apply E2|]. apply HR.
  - intros t. etrans; [apply E2|]. etrans; [apply HR|].
    symmetry. etrans; [apply E2b|]. apply HB.
Qed.
End runs.

(** What statements keep a transaction keeps as well. *)
Lemma preserves_Transaction {A} (r : relation World) (fc : Act A) :
  PreOrder r -> (forall B (f : DB -> (sqlerr + B) * DB), Preserves r (on_db f)) ->
  Preserves r fc -> Preserves r (Transaction fc).
Proof.
  intros Hr Hdb Hfc. assert (forall B e, Preserves r (abandon (A:=B) e)) as Hab.
  { intros B e. unfold abandon. keep. }
  unfold Transaction. apply preserves_bind; [apply _..|]. intros [e|[]]; [apply _|].
  apply preserves_bind; [apply _..|]. intros [e|[]]; [apply _|].
  induction retry_fuel as [|n IH]; cbn [execute_loop]; [apply _|keep].
Qed.

#[global] Instance tick_Transaction {A} (fc : Act A) :
  Preserves tick_frame fc -> Preserves tick_frame (Transaction fc).
Proof.
  apply preserves_Transaction; [apply _|]. intros B f w x w' Hr.
  apply on_db_inv in Hr as (y & db & _ & -> & _). apply le_n.
Qed.

(** Statements neither publish nor touch the store. *)
#[global] Instance out_Transaction {A} (fc : Act A) :
  Preserves out_frame fc -> Preserves out_frame (Transaction fc).
Proof. apply preserves_Transaction; apply _. Qed.

(** A transaction of queries changes no row, whatever its answer. *)
Lemma query_transaction_rows {A} (fc : Act A) w r w' :
  Preserves (db_frame []) fc -> Transaction fc w = (r, w') -> rows_eq w w'.
Proof.
  intros Hfc Ht. apply Transaction_all_or_nothing in Ht.
  - destruct Ht as [(w0 & w1 & a & Hw0 & Hf & [Hw1 _ _] & _)|(e & _ & Hw)]; [|done].
    etrans; [exact Hw0|]. etrans; [|exact Hw1].
    intros t. by eapply db_frame_rows, Hfc.
  - eapply preserves_mono; [|exact Hfc]. by intros w1 w2 [_ Hb].
Qed.
End atomic.
