(* ===== verification/RefBackend.v ===== *)
(** * A reference backend

    An in-memory database, key-value store and platform that meet every law
    of [Backend]: the laws are consistent, and the examples of the library run
    on them.  The instances are local: a file that runs examples declares
    [mem_backend] and its laws as instances where the examples start.  The last
    part is the data of the examples of the identity service. *)

From stdpp Require Import base tactics list strings sets sorting gmap.
From Stdlib Require Import ZArith Lia Ascii.
From S2P Require Import Prelude GoStd Json Model Backend Proto Errors Metadata Gorm.
From S2P Require Import Report Config Store IdBase IdTenant IdGroup IdUser IdSession IdConfig.
From S2P Require Import IdHandler.
#[local] Open Scope Z_scope.

(** ** Tables *)

(** The rows fit their types and no two are in conflict. *)
Fixpoint rows_ok (t : table) (l : list (row t)) : bool :=
  match l with
  | [] => true
  | x :: l =>
      typed t x && forallb (fun y => negb (conflict t x y)) l && rows_ok t l
  end.

Lemma same_unique_sym t a b : same_unique t a b = same_unique t b a.
Proof.
  destruct t; try done; cbn.
  - f_equal; apply String.eqb_sym.
  - f_equal; [apply String.eqb_sym|].
    destruct (User.Email a), (User.Email b); try done. apply String.eqb_sym.
Qed.

Lemma conflict_sym t a b : conflict t a b = conflict t b a.
Proof. unfold conflict. by rewrite same_key_sym, same_unique_sym. Qed.

Lemma rows_ok_unique t l x y :
  rows_ok t l = true -> x ∈ l -> y ∈ l -> conflict t x y = true -> x = y.
Proof.
  induction l as [|z l IH]; cbn; [set_solver|].
  rewrite !andb_true_iff, List.forallb_forall. intros [[_ Hz] Hl].
  rewrite !elem_of_cons. setoid_rewrite list_elem_of_In in IH.
  rewrite !list_elem_of_In.
  intros [->|Hx] [->|Hy] Hc; [done| | |by apply IH].
  - apply Hz in Hy. by rewrite Hc in Hy.
  - apply Hz in Hx. by rewrite conflict_sym, Hc in Hx.
Qed.

Lemma rows_ok_nodup t l : rows_ok t l = true -> NoDup l.
Proof.
  induction l as [|z l IH]; cbn; [constructor|].
  rewrite !andb_true_iff, List.forallb_forall. intros [[_ Hz] Hl].
  constructor; [|by apply IH]. rewrite list_elem_of_In. intros Hi.
  apply Hz in Hi. unfold conflict in Hi. by rewrite same_key_refl in Hi.
Qed.

Lemma rows_ok_typed t l x : rows_ok t l = true -> x ∈ l -> typed t x = true.
Proof.
  induction l as [|z l IH]; cbn; [set_solver|].
  rewrite !andb_true_iff, elem_of_cons. intros [[Hz _] Hl] [->|]; auto.
Qed.

Definition tables : Type := forall t, list (row t).

Definition put_table (t0 : table) (l : list (row t0)) (f : tables) : tables :=
  fun t => match decide (t0 = t) with
           | left e => eq_rect t0 (fun t => list (row t)) l t e
           | right _ => f t
           end.

Lemma put_table_eq t l f : put_table t l f t = l.
Proof.
  unfold put_table. destruct (decide (t = t)) as [e|]; [|done].
  by rewrite (Eqdep_dec.UIP_dec table_eq_dec e eq_refl).
Qed.

Lemma put_table_ne t0 t l f : t <> t0 -> put_table t0 l f t = f t.
Proof. unfold put_table. intros ?. by destruct (decide (t0 = t)) as [->|]. Qed.

(** The current rows, those of the last [BEGIN], and those of the savepoints, the
    latest first. *)
Record mem_db := MemDB {
  md_cur : tables;
  md_base : tables;
  md_saves : list (string * tables)
}.

Definition sane (t : table) (l : list (row t)) : list (row t) :=
  if rows_ok t l then l else [].

Lemma sane_ok t l : rows_ok t (sane t l) = true.
Proof. unfold sane. by destruct (rows_ok t l) eqn:E. Qed.

Definition mem_rows (t : table) (db : mem_db) := sane t (md_cur db t).
Definition mem_base (t : table) (db : mem_db) := sane t (md_base db t).

Definition violation : sqlerr := SqlErr false "constraint violation".

(** Put new rows into a table unless they violate a constraint. *)
Definition mem_put {A} (t : table) (l : list (row t)) (a : A) (db : mem_db)
    : (sqlerr + A) * mem_db :=
  if rows_ok t l then (inr a, MemDB (put_table t l (md_cur db)) (md_base db) (md_saves db))
  else (inl violation, db).

Lemma mem_put_ok {A} t l (a a' : A) db db' :
  mem_put t l a db = (inr a', db') ->
  a' = a /\ mem_rows t db' = l /\
  forall t', t' <> t -> mem_rows t' db' = mem_rows t' db.
Proof.
  unfold mem_put. destruct (rows_ok t l) eqn:E; intros [= -> <-].
  unfold mem_rows. cbn. split; [done|]. split.
  - rewrite put_table_eq. unfold sane. by rewrite E.
  - intros t' Ht. by rewrite put_table_ne.
Qed.

Lemma mem_put_err {A} t l (a : A) db e db' :
  mem_put t l a db = (inl e, db') -> db' = db.
Proof. unfold mem_put. by destruct (rows_ok t l); intros [= _ <-]. Qed.

Lemma mem_put_base {A} t l (a : A) db x db' :
  mem_put t l a db = (x, db') -> forall t, mem_base t db' = mem_base t db.
Proof. unfold mem_put. by destruct (rows_ok t l); intros [= _ <-]. Qed.

(** The row with the least main key. *)
Fixpoint least (t : table) (l : list (row t)) : option (row t) :=
  match l with
  | [] => None
  | x :: l =>
      match least t l with
      | Some y => Some (if main_key t y <? main_key t x then y else x)
      | None => Some x
      end
  end.

Lemma least_none t l : least t l = None -> l = [].
Proof. destruct l; cbn; [done|]. by destruct (least t l). Qed.

Lemma least_some t l x :
  least t l = Some x ->
  x ∈ l /\ forall y, y ∈ l -> main_key t x <= main_key t y.
Proof.
  revert x. induction l as [|z l IH]; cbn; [done|]. intros x.
  destruct (least t l) as [y|] eqn:E.
  - destruct (IH y eq_refl) as [Hy Hmin].
    destruct (main_key t y <? main_key t z) eqn:Ec; intros [= <-].
    + apply Z.ltb_lt in Ec. split; [by right|].
      intros u [->|Hu]%elem_of_cons; [lia|by apply Hmin].
    + apply Z.ltb_ge in Ec. split; [by left|].
      intros u [->|Hu]%elem_of_cons; [lia|]. specialize (Hmin _ Hu). lia.
  - intros [= <-]. apply least_none in E as ->. split; [by left|].
    intros u [->|Hu]%elem_of_cons; [lia|set_solver].
Qed.

Definition next_id (t : table) (l : list (row t)) : Z :=
  fold_right (fun r n => Z.max n (main_key t r + 1)) 1 l.

Definition mem_insert (t : table) (r : row t) (db : mem_db)
    : (sqlerr + row t) * mem_db :=
  let id := next_id t (mem_rows t db) in
  if (0 <? id) && (id <? Int.two63) then
    let r' := if main_key_blank t r then set_auto t id r else r in
    mem_put t (r' :: mem_rows t db) r' db
  else (inl violation, db).

(** [LIKE] with its two wildcards. *)
Fixpoint like (pattern : string) : string -> bool :=
  match pattern with
  | EmptyString => fun s => is_empty s
  | String c pattern =>
      if Ascii.eqb c "%"%char then
        fix any (s : string) :=
          like pattern s
          || match s with EmptyString => false | String _ s => any s end
      else fun s =>
        match s with
        | EmptyString => false
        | String d s => (Ascii.eqb c "_"%char || Ascii.eqb c d) && like pattern s
        end
  end.

(** [ORDER BY]: insertion into a sorted list. *)
Section sort.
Context {A : Type} (le : A -> A -> bool).

Fixpoint insert_by (x : A) (l : list A) : list A :=
  match l with
  | [] => [x]
  | y :: l' => if le x y then x :: l else y :: insert_by x l'
  end.

Definition sort_by (l : list A) : list A := fold_right insert_by [] l.

Lemma insert_by_perm x l : insert_by x l ≡ₚ x :: l.
Proof.
  induction l as [|y l IH]; cbn; [done|]. destruct (le x y); [done|].
  rewrite IH. constructor.
Qed.

Lemma sort_by_perm l : sort_by l ≡ₚ l.
Proof. induction l as [|x l IH]; cbn; [done|]. by rewrite insert_by_perm, IH. Qed.

Hypothesis total : forall a b, le a b = true \/ le b a = true.

Lemma insert_by_sorted x l :
  Sorted (fun a b => le a b = true) l ->
  Sorted (fun a b => le a b = true) (insert_by x l).
Proof.
  induction l as [|y l IH]; cbn; [by repeat constructor|]. intros Hs.
  destruct (le x y) eqn:E; [by constructor; [|constructor]|].
  apply Sorted_inv in Hs as [Hs Hh]. constructor; [by apply IH|].
  destruct (total x y) as [|Hyx]; [congruence|].
  destruct l as [|z l]; cbn; [by constructor|].
  destruct (le x z); [by constructor|]. constructor. by apply HdRel_inv in Hh.
Qed.

Lemma sort_by_sorted l : Sorted (fun a b => le a b = true) (sort_by l).
Proof. induction l; cbn; [constructor|]. by apply insert_by_sorted. Qed.
End sort.

#[local] Instance mem_database : Database := {
  DB := mem_db;
  rows := mem_rows;
  base := mem_base;
  sql_select t p page db :=
    (inr (page_of page (List.filter p (mem_rows t db))), db);
  sql_first t p db := (inr (least t (List.filter p (mem_rows t db))), db);
  sql_count t p db :=
    (inr (Z.of_nat (List.length (List.filter p (mem_rows t db)))), db);
  sql_insert := mem_insert;
  sql_update t p f db :=
    mem_put t (map (fun r => if p r then f r else r) (mem_rows t db))
      (Z.of_nat (List.length (List.filter p (mem_rows t db)))) db;
  sql_delete t p db :=
    mem_put t (List.filter (fun r => negb (p r)) (mem_rows t db))
      (Z.of_nat (List.length (List.filter p (mem_rows t db)))) db;
  sql_join A q le o n db :=
    (inr (limited o n (sort_by le (q (fun t => mem_rows t db)))), db);
  sql_join_count A q db :=
    (inr (Z.of_nat (List.length (q (fun t => mem_rows t db)))), db);
  tx_begin db := (inr tt, MemDB (md_cur db) (md_cur db) []);
  tx_savepoint db := (inr tt, db);
  tx_release db := (inr tt, db);
  tx_rollback_to db := (inr tt, MemDB (md_base db) (md_base db) []);
  tx_commit db := (inr tt, MemDB (md_cur db) (md_cur db) []);
  tx_rollback db := (inr tt, MemDB (md_base db) (md_base db) []);
  sql_like := like;
  sqlerr_json e := JStr (sql_msg e);
  retry_fuel := 3
}.

#[local] Instance mem_database_laws : DatabaseLaws.
Proof.
  constructor; cbn;
    try (intros; simplify_eq; done);
    try (intros; simplify_eq; by split).
  - intros t db r1 r2. apply rows_ok_unique, sane_ok.
  - intros t db. apply NoDup_ListNoDup, rows_ok_nodup, sane_ok.
  - intros t db r. apply rows_ok_typed, sane_ok.
  - intros t p page db l db' [= <- <-]. eauto.
  - intros t p db db' [= Hl <-]. by apply least_none.
  - intros t p db x db' [= Hl <-]. apply least_some in Hl as [Hx Hmin].
    rewrite list_elem_of_In, List.filter_In, <- list_elem_of_In in Hx.
    destruct Hx as [Hx Hp]. split; [done|]. split; [done|].
    intros y Hy Hpy. apply Hmin.
    rewrite list_elem_of_In, List.filter_In, <- list_elem_of_In. done.
  - intros t r db e db'. unfold mem_insert.
    destruct (_ && _); [|by intros [= _ <-]]. by intros ->%mem_put_err.
  - intros t r db x db'. unfold mem_insert.
    destruct (_ && _); [|by intros [= _ <-]]. intros Hp t'.
    by eapply mem_put_base.
  - intros t r db r' db'. unfold mem_insert.
    destruct (_ && _) eqn:E; [|done]. apply andb_true_iff in E as [E1 E2].
    apply Z.ltb_lt in E1, E2. intros (-> & Hr & Ho)%mem_put_ok.
    split; [by eexists|]. by rewrite Hr.
  - intros t p f db e db' ->%mem_put_err. done.
  - intros t p f db x db' Hp t'. by eapply mem_put_base.
  - intros t p f db n db' (-> & Hr & Ho)%mem_put_ok. by rewrite Hr.
  - intros t p db e db' ->%mem_put_err. done.
  - intros t p db x db' Hp t'. by eapply mem_put_base.
  - intros t p db n db' (-> & Hr & Ho)%mem_put_ok. by rewrite Hr.
  - intros A q le o n db l db' Hle [= <- <-]. eexists. split; [|split; [|done]].
    + apply sort_by_perm.
    + by apply sort_by_sorted.
Qed.

(** ** The key-value store: an association list *)
Definition mem_kv : Type := list (string * string).

Definition mem_lookup (k : string) (kv : mem_kv) : option string :=
  snd <$> List.find (fun e => (e.1 =? k)%string) kv.
Definition mem_remove (p : string -> bool) (kv : mem_kv) : mem_kv :=
  List.filter (fun e => negb (p e.1)) kv.
Definition mem_set (k v : string) (kv : mem_kv) : mem_kv :=
  (k, v) :: mem_remove (String.eqb k) kv.
Definition mem_keys (p : string) (kv : mem_kv) : list string :=
  List.filter (fun k => Strings.HasPrefix k p) (map fst kv).

Lemma mem_lookup_remove p k kv :
  mem_lookup k (mem_remove p kv) = if p k then None else mem_lookup k kv.
Proof.
  unfold mem_lookup, mem_remove. induction kv as [|[k' v] kv IH]; cbn.
  { by destruct (p k). }
  destruct (p k') eqn:Ep; cbn [negb].
  - rewrite IH. destruct (String.eqb_spec k' k) as [->|]; [|done].
    by rewrite Ep.
  - cbn. destruct (String.eqb_spec k' k) as [->|]; [|done]. by rewrite Ep.
Qed.

Lemma mem_lookup_set k v k' kv :
  mem_lookup k' (mem_set k v kv) = if (k =? k')%string then Some v
                                   else mem_lookup k' kv.
Proof.
  unfold mem_set. unfold mem_lookup at 1. cbn.
  destruct (String.eqb_spec k k') as [->|]; [done|].
  fold (mem_lookup k' (mem_remove (String.eqb k) kv)).
  rewrite mem_lookup_remove. by apply String.eqb_neq in n as ->.
Qed.

Lemma mem_keys_ok p kv k :
  k ∈ mem_keys p kv <->
  Strings.HasPrefix k p = true /\ is_Some (mem_lookup k kv).
Proof.
  unfold mem_keys, mem_lookup.
  rewrite list_elem_of_In, List.filter_In, List.in_map_iff.
  rewrite fmap_is_Some. split.
  - intros [([k' v] & Hk & Hi) Hp]. cbn in Hk. subst. split; [done|].
    destruct (List.find _ kv) eqn:E; [by eexists|].
    eapply List.find_none in E; [|exact Hi]. cbn in E.
    by rewrite String.eqb_refl in E.
  - intros [Hp [[k' v] [Hi Hk]%List.find_some]]. cbn in Hk.
    apply String.eqb_eq in Hk as ->. split; [|done]. by exists (k, v).
Qed.

#[local] Arguments mem_lookup : simpl never.
#[local] Arguments mem_set : simpl never.
#[local] Arguments mem_remove : simpl never.

#[local] Instance mem_key_value : KeyValue := {
  KV := mem_kv;
  kv_lookup := mem_lookup;
  kv_get k kv := (inr (mem_lookup k kv), kv);
  kv_list p kv := (inr (mem_keys p kv), kv);
  kv_get_prefix p kv :=
    (inr (List.filter (fun e => Strings.HasPrefix e.1 p) kv), kv);
  kv_grant n kv := (inr n, kv);
  kv_put k v _ kv := (inr tt, mem_set k v kv);
  kv_delete k prefix kv :=
    (inr tt, mem_remove (fun k' => if prefix then Strings.HasPrefix k' k
                                   else (k =? k')%string) kv);
  kv_txn ops kv :=
    (inr tt, fold_left (fun kv '(k, (prefix, v)) =>
       match v with
       | Some v => mem_set k v kv
       | None => mem_remove (fun k' => if (prefix : bool)
                                       then Strings.HasPrefix k' k
                                       else (k =? k')%string) kv
       end) ops kv)
}.

#[local] Instance mem_key_value_laws : KeyValueLaws.
Proof.
  constructor; cbn.
  - intros k kv r kv' [= _ <-] k'. by left.
  - by intros k kv v kv' [= <- <-].
  - intros k kv r kv' [= _ <-] k'. by left.
  - intros p kv l kv' [= <- <-] k. apply mem_keys_ok.
  - intros n kv r kv' [= _ <-] k'. by left.
  - intros k v l kv r kv' [= _ <-] k'. cbn. rewrite mem_lookup_set.
    destruct (String.eqb_spec k k'); auto.
  - intros k v l kv kv' [= <-]. rewrite mem_lookup_set.
    by rewrite String.eqb_refl.
  - intros k kv r kv' [= _ <-] k'. cbn. rewrite mem_lookup_remove.
    destruct (_ =? _)%string; auto.
  - intros k kv kv' [= <-]. rewrite mem_lookup_remove.
    by rewrite String.eqb_refl.
Qed.

(** ** The platform: a clock that advances a millisecond per reading, the
    identity as digest, a signature that names the signed digest *)
#[local] Instance mem_platform : Platform := {
  clock n := 1700000000000000000 + Z.of_nat n mod 1000000000 * 1000000;
  rand_uint64 seed := seed mod Int.two64;
  rand_intn seed n := seed mod n;
  password_generate _ _ _ _ := inr "Passw0rd!"%string;
  sha256 s := s;
  PrivateKey := string;
  SignPSS _ key digest := inr (String.append key digest);
  VerifyPSS key digest sig := (sig =? String.append key digest)%string;
  broker_accepts _ := true;
  Enforce sub _ act :=
    ((sub =? "admin")%string || (act =? "Identity.GetUser")%string, None);
  IsExistingEmail s := negb (is_empty s);
  seoul_unix t := t - 32400;
  LoadLocation s := (s =? "Asia/Seoul")%string || (s =? "UTC")%string;
  stack_text _ := "stack"%string;
  Quote s := s
}.

#[local] Instance mem_platform_laws : PlatformLaws.
Proof.
  constructor; cbn.
  - intros n. pose proof (Z.mod_pos_bound (Z.of_nat n) 1000000000).
    unfold Int.two63. lia.
  - intros seed. apply Z.mod_pos_bound. by vm_compute.
  - intros seed n Hn. by apply Z.mod_pos_bound.
  - intros n key digest sig [= <-]. apply String.eqb_refl.
Qed.

#[local] Instance mem_backend : Backend := {
  backend_db := mem_database;
  backend_kv := mem_key_value;
  backend_platform := mem_platform
}.
#[local] Instance mem_backend_laws : BackendLaws.
Proof. constructor; apply _. Qed.

(** ** Worlds and runs of the examples *)
Definition start (f : tables) (kv : mem_kv) : World :=
  mkWorld _ (MemDB f f []) kv [] 0 None [] (mkLogging 0 None).

Definition is_ok {E A} (r : E + A) : bool :=
  match r with inr _ => true | inl _ => false end.

Lemma ran {W E A} (c : M W E A) w a : fst (c w) = a -> c w = (a, snd (c w)).
Proof. intros <-. by destruct (c w). Qed.

Lemma ran_ok {W E A} (c : M W E A) w :
  is_ok (fst (c w)) = true -> exists a, c w = (inr a, snd (c w)).
Proof. destruct (c w) as [[e|a] w']; [done|eauto]. Qed.

Lemma ran_err {W E A} (c : M W E A) w :
  is_ok (fst (c w)) = false -> exists e, c w = (inl e, snd (c w)).
Proof. destruct (c w) as [[e|a] w']; [eauto|done]. Qed.

(** ** Sample data for the examples of the identity service: one tenant with
    its administrator, a manager, two users, two groups and the account
    settings, on the reference backend *)
Definition s_user (id : Z) (account password : string) (failed : option Z)
    (failedAt : option Z) : User.t :=
  User.mk id 1 account account None None
    (Some (String.append account "@example.com")) None None None password
    None (Some 1699990000) (Some false) None None failed failedAt
    1699000000 1699000000.

Definition s_admin_role : Role.t := Role.mk 1 "CDM-Cloud" "admin".
Definition s_manager_role : Role.t := Role.mk 2 "CDM-Cloud" "manager".
Definition s_viewer_role : Role.t := Role.mk 3 "CDM-Cloud" "viewer".

Definition s_tables : tables := fun t =>
  match t with
  | TTenant => [Tenant.mk 1 "default" None true 1699000000 1699000000]
  | TTenantSolution => [TenantSolution.mk 1 "CDM-Cloud"]
  | TRole => [s_admin_role; s_manager_role; s_viewer_role]
  | TGroup =>
      [Group.mk 1 1 "default" None 1699000000 1699000000 false;
       Group.mk 2 1 "ops" None 1699000000 1699000000 false]
  | TUser =>
      [s_user 1 "admin" "adminpw" None None;
       s_user 2 "manager" "managerpw" None None;
       s_user 3 "alice" "alicepw" (Some 2) (Some 1699999000);
       s_user 4 "bob" "bobpw" (Some 5) (Some 1699999990)]
  | TUserRole => [UserRole.mk 1 1; UserRole.mk 2 2; UserRole.mk 3 3]
  | TUserGroup => [UserGroup.mk 3 1; UserGroup.mk 3 2; UserGroup.mk 4 2]
  | TTenantConfig =>
      [TenantConfig.mk 1 "global_timezone" "UTC";
       TenantConfig.mk 1 "global_language_set" "eng";
       TenantConfig.mk 1 "user_login_restriction_enable" "true";
       TenantConfig.mk 1 "user_login_restriction_try_count" "5";
       TenantConfig.mk 1 "user_login_restriction_time" "600";
       TenantConfig.mk 1 "user_reuse_old_password" "false";
       TenantConfig.mk 1 "user_password_change_cycle" "90";
       TenantConfig.mk 1 "user_session_timeout" "30"]
  | _ => []
  end.

(** The world before any request. *)
Definition s_world : @World mem_backend := start s_tables [].

Definition s_globals : Globals := {|
  admin_role := s_admin_role;
  manager_role := s_manager_role;
  adminUser := User.set_ID 1 User_zero
|}.

Definition s_key : @PrivateKey (@backend_platform mem_backend) := "k"%string.

Definition s_tenant (id : Z) : ITenant.t :=
  ITenant.mk id "default" (Some true) [] "" 0 0.

(** Request users as the gateway puts them into the header. *)
Definition s_req (id : Z) (account : string) (roles : list IRole.t) : IUser.t :=
  IUser.mk id (Some (s_tenant 1)) account roles [] account "" "" "" "" "" ""
    0 0 0 0 false None.
Definition s_req_admin : IUser.t := s_req 1 "admin" [role_rsp s_admin_role].
Definition s_req_manager : IUser.t := s_req 2 "manager" [role_rsp s_manager_role].
Definition s_req_alice : IUser.t := s_req 3 "alice" [role_rsp s_viewer_role].

(** A request of tenant 1 with its headers. *)
Definition s_ctx (u : IUser.t) : Ctx :=
  <[HeaderTenantID := "1"%string]>
    (<[HeaderClientIP := "10.0.0.9"%string]>
      (<[HeaderAuthenticatedUser := Json.Marshal (IUser_enc u)]> ∅)).
Definition s_ctx_with (u : IUser.t) (session : string) : Ctx :=
  <[HeaderAuthenticatedSession := session]> (s_ctx u).

Definition s_login (account password : string) : LoginRequest.t :=
  LoginRequest.mk account password false.

(** The value of a run that succeeds. *)
Definition value_of_run {E A} (d : A) (r : E + A) : A :=
  match r with inr a => a | inl _ => d end.
