(* ===== verification/SessionProps.v ===== *)
(** * Sessions and login: what session.go guarantees *)

From stdpp Require Import base tactics list strings sets gmap.
From Stdlib Require Import ZArith Lia Ascii.
From S2P Require Import Prelude GoStd Json Model Backend Errors Proto Metadata.
From S2P Require Import Gorm Database GormFacts Report Config Store IdBase.
From S2P Require Import IdTenant IdGroup IdUser IdSession IdConfig IdHandler.
From S2P Require Import IdFacts RefBackend.
#[local] Open Scope Z_scope.
#[local] Open Scope go_scope.

(** ** Payloads *)
Definition payload_typed (p : SessionPayload) : Prop :=
  0 <= sp_ID p < Int.two64 /\ - Int.two63 <= sp_CreateDate p < Int.two63 /\
  - Int.two63 <= sp_ExpiryDate p < Int.two63 /\
  0 <= sp_MagicNumber p < Int.two64 /\
  Json.ValidString (sp_ClientIP p) = true.

Lemma payload_json_wf p : payload_typed p -> Json.wf (payload_json p).
Proof.
  intros (H1 & H2 & H3 & H4 & H5). apply Json.wf_obj. unfold payload_json.
  assert (Int.two63 < Int.two64) by reflexivity.
  assert (forall z, 0 <= z < Int.two64 -> Json.wf (jint z)) as Hu.
  { intros z Hz. apply Json.wf_jint. unfold Int.two63. lia. }
  assert (forall z, - Int.two63 <= z < Int.two63 -> Json.wf (jint z)) as Hi.
  { intros z Hz. apply Json.wf_jint. lia. }
  assert (forall k, Json.ValidString k = true -> forall j, Json.wf j ->
    Json.ValidString (k, j).1 = true /\ Json.wf (k, j).2) as Hm by done.
  repeat (apply Forall_cons; split; [apply Hm; [reflexivity|first [by auto|exact H5]]|]).
  by apply Forall_nil.
Qed.

(** A member read by its own field. *)
Lemma field_hit {A} name (d : Dec.t A) a j x ms :
  d a j = (x, true) ->
  Dec.field name d a ((name, j) :: ms) = Dec.field name d x ms.
Proof.
  intros Hd. cbn [Dec.field]. rewrite String.eqb_refl, Hd.
  by destruct (Dec.field name d x ms).
Qed.

Lemma uint64_jint a n : 0 <= n < Int.two64 -> Dec.uint64 a (jint n) = (n, true).
Proof.
  intros Hn. unfold Dec.uint64, Dec.number, jint. by rewrite Enc.uint_num.
Qed.
Lemma int64_jint a n :
  - Int.two63 <= n < Int.two63 -> Dec.int64 a (jint n) = (n, true).
Proof. intros Hn. unfold Dec.int64, Dec.number, jint. by rewrite Enc.int_num. Qed.

Lemma string_json a s : Dec.string_ a (JStr s) = (s, true).
Proof. reflexivity. Qed.

#[local] Ltac skip_member :=
  rewrite Dec.field_skip by (vm_compute; reflexivity).

Lemma payload_dec_json p :
  payload_typed p -> payload_dec payload_zero (payload_json p) = (p, true).
Proof.
  intros (H1 & H2 & H3 & H4 & H5). unfold payload_dec, payload_json.
  rewrite (field_hit "id" _ _ _ _ _ (uint64_jint _ _ H1)). do 5 skip_member.
  rewrite (field_hit "create_date" _ _ _ _ _ (int64_jint _ _ H2)).
  do 5 skip_member.
  rewrite (field_hit "expiry_date" _ _ _ _ _ (int64_jint _ _ H3)).
  do 5 skip_member.
  rewrite (field_hit "magic_number" _ _ _ _ _ (uint64_jint _ _ H4)).
  do 5 skip_member.
  rewrite (field_hit "client_ip" Dec.string_ _ _ _ _ (string_json _ _)).
  destruct p. reflexivity.
Qed.

Lemma payload_parse_Marshal p :
  payload_typed p ->
  payload_parse (Json.Marshal (payload_json p)) = Some p /\
  payload_parse_ptr (Json.Marshal (payload_json p)) = Some (Some p).
Proof.
  intros Hp. unfold payload_parse, payload_parse_ptr.
  rewrite Json.Parse_Marshal by by apply payload_json_wf.
  rewrite payload_dec_json by done. done.
Qed.

(** The two parts of a session key. *)
Definition key_of (body sig : string) : string :=
  String.append (Base64.EncodeToString body)
    (String.append "." (Base64.EncodeToString sig)).

Lemma validateSession_key_of body sig :
  validateSession (key_of body sig) = inr (body, sig).
Proof.
  unfold validateSession, key_of.
  change (String.append "." (Base64.EncodeToString sig))
    with (String "."%char (Base64.EncodeToString sig)).
  rewrite Strings.Split_two by apply Base64.EncodeToString_no_dot.
  by rewrite !Base64.DecodeString_EncodeToString.
Qed.

Section session_facts.
Context `{BackendLaws} `{Globals}.

Lemma clock_seconds n : 0 <= clock n / 1000000000 < Int.two63.
Proof.
  pose proof (clock_range n). unfold Int.two63 in *. split.
  - apply Z.div_pos; lia.
  - apply Z.div_lt_upper_bound; lia.
Qed.

(** The address a payload records: empty when the header is missing. *)
Definition client_ip (ctx : Ctx) : string :=
  match GetClientIP ctx with inr ip => ip | inl _ => EmptyString end.

Lemma generatePayload_inv ctx uid magic timeout w p w' :
  generatePayload ctx uid magic timeout w = (inr p, w') ->
  sp_ID p = uid /\ sp_MagicNumber p = magic /\ sp_ClientIP p = client_ip ctx /\
  0 <= sp_CreateDate p < Int.two63 /\
  (exists n, sp_ExpiryDate p =
     Int.i64 (clock n / 1000000000 + Int.i64 (timeout * 60))) /\
  kv_frame w w'.
Proof.
  intros Hg. pose proof (ro_generatePayload kv_frame _ _ _ _ _ _ _ Hg) as Hk.
  unfold generatePayload in Hg. run Hg. cbn.
  destruct (clock_seconds (w_tick w)). split_and!; eauto.
Qed.

Lemma generateSessionKey_inv p key w k w' :
  generateSessionKey p key w = (inr k, w') ->
  exists sig n, k = key_of (Json.Marshal (payload_json p)) sig /\
    SignPSS n key (sha256 (Json.Marshal (payload_json p))) = inr sig.
Proof.
  unfold generateSessionKey. intros (s & w1 & Ht & Hs)%bind_inr.
  injection Ht as Ht _. destruct s as [e|sig];
    [by apply throw_inv in Hs as [? _]|].
  apply ret_inv in Hs as [[= ->] _]. eexists _, _. split; [done|exact Ht].
Qed.

(** A key that verifies for [uid] with magic number [magic]. *)
Definition good_key (ctx : Ctx) (key : PrivateKey) (uid magic : Z)
    (k : string) (p : SessionPayload) : Prop :=
  exists body sig, k = key_of body sig /\
    VerifyPSS key (sha256 body) sig = true /\
    payload_parse body = Some p /\ payload_parse_ptr body = Some (Some p) /\
    sp_ID p = uid /\ sp_MagicNumber p = magic /\ sp_ClientIP p = client_ip ctx.

Lemma issue_session_inv ctx tid uid magic key w k w' :
  0 <= uid < Int.two64 -> 0 <= magic < Int.two64 ->
  Json.ValidString (client_ip ctx) = true ->
  issue_session ctx tid uid magic key w = (inr k, w') ->
  stored w' (session_key uid) = Some k /\
  exists p timeout n, good_key ctx key uid magic k p /\
    sp_ExpiryDate p =
      Int.i64 (clock n / 1000000000 + Int.i64 (timeout * 60)).
Proof.
  intros Hu Hm Hip Hi. unfold issue_session in Hi. run Hi.
  apply generatePayload_inv in Hr0 as (E1 & E2 & E3 & E4 & [n E5] & _).
  apply generateSessionKey_inv in Hr1 as (sig & n' & -> & Hs).
  destruct x2. apply Put_ok in Hr2. split; [done|].
  exists x0, x, n. split; [|done]. eexists _, sig. split; [done|].
  split; [by eapply VerifyPSS_SignPSS|].
  assert (payload_typed x0) as Ht.
  { unfold payload_typed. rewrite E1, E2, E3, E5.
    split; [done|]. split.
    { clear -E4. unfold Int.two63 in *. lia. }
    split; [apply Int.i64_range|done]. }
  destruct (payload_parse_Marshal _ Ht) as [-> ->]. done.
Qed.

Lemma Get_run k w r w' :
  Get k w = (r, w') -> w_tick w' = w_tick w /\ w_db w' = w_db w.
Proof.
  unfold Get. intros [(e & (x & kv & _ & -> & _)%on_kv_inv & _)|
    (o & w1 & (x & kv & _ & -> & _)%on_kv_inv & Hg)]%bind_inv; [done|].
  destruct o; [apply ret_inv in Hg as [_ ->]|apply throw_inv in Hg as [_ ->]];
    done.
Qed.

(** A good key is verified as long as the store shows it, its user's address
    is the same and its time is not over. *)
Lemma verifySession_good ctx key uid magic k p w :
  good_key ctx key uid magic k p -> is_ok (GetClientIP ctx) = true ->
  (Get (session_key uid) w).1 = inr k ->
  clock (S (w_tick w)) / 1000000000 <= sp_ExpiryDate p ->
  (verifySession ctx k key w).1 = inr p.
Proof.
  intros (body & sig & -> & Hv & Hp & Hpp & <- & Hm & Hip) Hc Hg Ht.
  unfold verifySession. rewrite validateSession_key_of, Hv, Hpp.
  unfold guard_err, deref, bind, attempt, ret. cbn [negb].
  destruct (Get (session_key (sp_ID p)) w) as [g w1] eqn:E.
  apply Get_run in E as [E _]. cbn in Hg. subst g.
  rewrite validateSession_key_of. cbn [or_unknown_err ret fst]. unfold ret.
  rewrite Hp. unfold client_ip in Hip.
  destruct (GetClientIP ctx) as [|ip]; [done|]. rewrite Hip, String.eqb_refl.
  rewrite Z.eqb_refl. cbn. rewrite E. apply Z.ltb_ge in Ht. by rewrite Ht.
Qed.

Lemma newSession_inv ctx tid uid key force w k w' :
  newSession ctx tid uid key force w = (inr k, w') ->
  (exists magic w0, 0 <= magic < Int.two64 /\
     issue_session ctx tid uid magic key w0 = (inr k, w')) /\
  (force = false -> exists w1, Get (session_key uid) w = (inl ErrNotFoundKey, w1)).
Proof.
  unfold newSession. intros Hn. run Hn. split.
  - eexists _, _. split; [|exact Hn]. apply rand_uint64_range.
  - intros ->. destruct y as [e|v]; [|by apply throw_inv in Hr0 as [? _]].
    destruct (is_not_found_key e) eqn:E; [|by apply throw_inv in Hr0 as [? _]].
    exists w0. destruct (Get_inv _ _ _ _ Hr) as [[-> _]|[m ->]]; done.
Qed.

Lemma newSession_stored ctx tid uid key force w k w' :
  newSession ctx tid uid key force w = (inr k, w') ->
  stored w' (session_key uid) = Some k.
Proof.
  intros [(magic & w0 & _ & Hi) _]%newSession_inv. unfold issue_session in Hi.
  apply bind_inr in Hi as (t & w1 & _ & Hi).
  apply bind_inr in Hi as (p & w2 & _ & Hi).
  apply bind_inr in Hi as (k' & w3 & _ & Hi).
  apply bind_inr in Hi as ([] & w4 & Hp%or_store_inr & [[= <-] ->]%ret_inv).
  by apply Put_ok in Hp.
Qed.

(** C10. A session that was just issued verifies: its key is the stored one,
    and [verifySession] returns the user's id for it in any later state in
    which the store still shows that key, the request comes from the same
    address and the session's time is not over. *)
Theorem newSession_verifies ctx tid uid key force w k w' :
  0 <= uid < Int.two64 -> Json.ValidString (client_ip ctx) = true ->
  is_ok (GetClientIP ctx) = true ->
  newSession ctx tid uid key force w = (inr k, w') ->
  stored w' (session_key uid) = Some k /\
  exists body sig p, validateSession k = inr (body, sig) /\
    payload_parse body = Some p /\ sp_ID p = uid /\
    forall w2, (Get (session_key uid) w2).1 = inr k ->
      clock (S (w_tick w2)) / 1000000000 <= sp_ExpiryDate p ->
      (verifySession ctx k key w2).1 = inr p.
Proof.
  intros Hu Hip Hok [(magic & w0 & Hm & Hi) _]%newSession_inv.
  apply issue_session_inv in Hi as (Hs & p & timeout & n & Hgood & _); try done.
  split; [done|]. pose proof Hgood as Hgood2.
  destruct Hgood2 as (body & sig & -> & _ & Hp & _ & Hid & _).
  exists body, sig, p. rewrite validateSession_key_of. split_and!; try done.
  intros w2 Hg Ht. by eapply verifySession_good.
Qed.

(** One session per user: without [force] a new session is issued only
    when the store shows none for the user, and a session it shows is
    refused with "already login" and left as it is. *)
Theorem newSession_exclusive ctx tid uid key w r w' :
  newSession ctx tid uid key false w = (r, w') ->
  (forall k, r = inr k -> exists w1,
     Get (session_key uid) w = (inl ErrNotFoundKey, w1) /\
     stored w1 (session_key uid) = None) /\
  (forall v, (Get (session_key uid) w).1 = inr v ->
     r = inl (alreadyLogin uid) /\ stored w' (session_key uid) = Some v).
Proof.
  intros Hn. split.
  - intros k ->. apply newSession_inv in Hn as [_ Hg].
    destruct (Hg eq_refl) as [w1 Hg1]. exists w1. split; [done|].
    by eapply Get_missing.
  - intros v Hg. destruct (Get (session_key uid) w) as [g w1] eqn:E.
    cbn in Hg. subst g. unfold newSession, bind, attempt in Hn.
    rewrite E in Hn. injection Hn as <- <-. split; [done|].
    by apply Get_ok in E as [? _].
Qed.

(** C1. [verifySession] is sound: a payload is returned only for a key whose
    signature verifies over that payload, while the store holds a session
    for the payload's user with the same magic number, opened from the
    address the request comes from, and the payload's expiry is not before
    the clock. *)
Theorem verifySession_sound ctx session key w p w' :
  verifySession ctx session key w = (inr p, w') ->
  exists body sig, validateSession session = inr (body, sig) /\
    VerifyPSS key (sha256 body) sig = true /\
    payload_parse_ptr body = Some (Some p) /\
    exists value vbody vsig q,
      stored w (session_key (sp_ID p)) = Some value /\
      validateSession value = inr (vbody, vsig) /\
      payload_parse vbody = Some q /\
      GetClientIP ctx = inr (sp_ClientIP q) /\
      sp_MagicNumber p = sp_MagicNumber q /\
      clock (S (w_tick w)) / 1000000000 <= sp_ExpiryDate p.
Proof.
  unfold verifySession. intros Hv.
  destruct (validateSession session) as [e|[body sig]] eqn:Es;
    [by apply throw_inv in Hv as [? _]|].
  exists body, sig. split; [done|].
  apply bind_inr in Hv as (u & w1 & [Hsig ->]%guard_err_inr & Hv).
  apply negb_false_iff in Hsig. split; [done|].
  destruct (payload_parse_ptr body) as [o|]; [|by apply throw_inv in Hv as [? _]].
  run Hv. destruct y as [e|v];
    [destruct (is_not_found_key e); by apply throw_inv in Hr0 as [? _]|].
  apply ret_inv in Hr0 as [[= ->] ->]. destruct x1 as [vbody vsig]. cbn in Hv.
  destruct (payload_parse vbody) as [q|] eqn:Eq;
    [|by apply throw_inv in Hv as [? _]].
  destruct (Get_run _ _ _ _ Hr) as [Htick _]. apply Get_ok in Hr as [_ Hst].
  destruct (GetClientIP ctx) as [|ip] eqn:Eip;
    [by apply bind_inr in Hv as (? & ? & [? _]%throw_inv & _)|].
  run Hv. cbn in *. bools.
  split; [done|]. exists v, vbody, vsig, q.
  split_and!; try done; congruence.
Qed.
End session_facts.

(** ** Examples *)
#[local] Existing Instance mem_backend.
#[local] Existing Instance mem_backend_laws.
#[local] Existing Instance s_globals.

Definition s_new_session : string :=
  value_of_run EmptyString
    (newSession (s_ctx s_req_alice) 1 3 s_key false s_world).1.

Definition s_after_new_session : World :=
  (newSession (s_ctx s_req_alice) 1 3 s_key false s_world).2.
Definition s_payload : SessionPayload :=
  default payload_zero
    (payload_parse (value_of_run (EmptyString, EmptyString)
                      (validateSession s_new_session)).1).

Lemma newSession_verifies_witness :
  sp_ID s_payload = 3 /\
  (verifySession (s_ctx s_req_alice) s_new_session s_key
     s_after_new_session).1 = inr s_payload.
Proof.
  destruct (newSession_verifies (s_ctx s_req_alice) 1 3 s_key false s_world
    s_new_session s_after_new_session)
    as (_ & body & sig & p & Hb & Hp & Hid & Hv).
  - vm_compute. split; [discriminate|reflexivity].
  - vm_compute. reflexivity.
  - vm_compute. reflexivity.
  - apply ran. vm_compute. reflexivity.
  - assert (p = s_payload) as ->.
    { unfold s_payload. rewrite Hb. cbn. by rewrite Hp. }
    split; [exact Hid|]. apply Hv; vm_compute; [reflexivity|discriminate].
Defined.

Lemma newSession_exclusive_witness :
  stored (newSession (s_ctx s_req_alice) 1 3 s_key false s_after_new_session).2
    (session_key 3) = Some s_new_session.
Proof.
  destruct (newSession_exclusive (s_ctx s_req_alice) 1 3 s_key
    s_after_new_session (inl (alreadyLogin 3))
    (newSession (s_ctx s_req_alice) 1 3 s_key false s_after_new_session).2)
    as [_ Hr].
  - apply ran. vm_compute. reflexivity.
  - apply Hr. vm_compute. reflexivity.
Defined.

Lemma verifySession_sound_witness :
  exists body sig, validateSession s_new_session = inr (body, sig) /\
    @VerifyPSS mem_platform s_key (@sha256 mem_platform body) sig = true.
Proof.
  destruct (verifySession_sound (s_ctx s_req_alice) s_new_session s_key
    s_after_new_session s_payload
    (verifySession (s_ctx s_req_alice) s_new_session s_key
       s_after_new_session).2) as (body & sig & Hv & Hs & _).
  - apply ran. vm_compute. reflexivity.
  - exists body, sig. split; [exact Hv|exact Hs].
Defined.
