(* ===== verification/LoginProps.v ===== *)
(** * Login and logout: who gets in, what a failed attempt costs, and what is left
    of a session that was ended *)

From stdpp Require Import base tactics list strings sets gmap.
From Stdlib Require Import ZArith Lia Ascii.
From S2P Require Import Prelude GoStd Json Model Backend Proto Errors Metadata Gorm.
From S2P Require Import Database GormFacts TransactionFacts Report Config Store IdBase IdTenant IdGroup IdUser.
From S2P Require Import IdSession IdConfig IdHandler IdFacts RefBackend SessionProps.
#[local] Open Scope Z_scope.
#[local] Open Scope go_scope.

Section login.
Context `{BackendLaws} `{Globals}.

Lemma setting_frame w w' tid key v :
  db_frame [] w w' -> setting w tid key v -> setting w' tid key v.
Proof. intros Hf. unfold setting. by rewrite (db_frame_rows _ _ _ Hf). Qed.

(** A setting that is in the table is read, or the query failed. *)
Lemma required_config_run tid key v w r w' :
  setting w tid key v -> required_config tid key w = (r, w') ->
  db_frame [] w w' /\
  (r = inl (UnusableDatabase None) \/
   exists c, r = inr c /\ cfg_Value c = v).
Proof.
  intros Hs Hc.
  split; [by apply (ro_required_config (db_frame []) tid key _ _ _ Hc)|].
  unfold required_config in Hc.
  apply bind_inv in Hc as [(e & Ht & ->)|(o & w1 & Ht & Hc)].
  - by apply TenantConfig_run in Ht as (o & ? & _).
  - apply TenantConfig_run in Ht as (o' & [= <-] & Ho). destruct o as [c|].
    + apply ret_inv in Hc as [-> _]. right. exists c. split; [done|].
      destruct Ho as [_ Ho]. by eapply setting_unique.
    + apply throw_inv in Hc as [-> _]. by left.
Qed.

(** Whether a count [c] of failures blocks logins for the restriction time
    under the settings. *)
Definition blocks (enable : bool) (n c : Z) : bool :=
  negb (c =? 0) && enable && negb (n =? 0) && (c mod n =? 0).

Record restriction (w : World) (tid : Z) (enable : bool) (n t : Z) : Prop := {
  rs_enable : exists v, setting w tid UserLoginRestrictionEnable v /\
    Value.Bool v = inr enable;
  rs_count : exists v, setting w tid UserLoginRestrictionTryCount v /\
    Value.Uint64 v = inr n;
  rs_time : exists v, setting w tid UserLoginRestrictionTime v /\
    Value.Int64 v = inr t
}.

Lemma restriction_frame w w' tid e n t :
  db_frame [] w w' -> restriction w tid e n t -> restriction w' tid e n t.
Proof.
  intros Hf [(v1 & ? & ?) (v2 & ? & ?) (v3 & ? & ?)].
  constructor; eexists; split; eauto using setting_frame.
Qed.

Lemma required_value {A} (parse : Value -> err + A) tid key v a w r w' :
  setting w tid key v -> parse v = inr a ->
  (cfg <- required_config tid key ;; or_unknown_err (parse (cfg_Value cfg))) w
    = (r, w') ->
  db_frame [] w w' /\ (r = inl (UnusableDatabase None) \/ r = inr a).
Proof.
  intros Hs Hp [(e & Hc & ->)|(c & w1 & Hc & Hr)]%bind_inv;
    eapply required_config_run in Hc as [Hf Hc]; try exact Hs.
  - destruct Hc as [[= ->]|(c & ? & _)]; [auto|done].
  - destruct Hc as [?|(c' & [= <-] & Hv)]; [done|].
    rewrite Hv, Hp in Hr. apply ret_inv in Hr as [-> ->]. auto.
Qed.

Lemma required_step {A B} (parse : Value -> err + A) tid key v a
    (k : A -> Act B) w r w' :
  setting w tid key v -> parse v = inr a ->
  (cfg <- required_config tid key ;;
   x <- or_unknown_err (parse (cfg_Value cfg)) ;; k x) w = (r, w') ->
  r = inl (UnusableDatabase None) \/
  exists w1, db_frame [] w w1 /\ tick_frame w w1 /\ k a w1 = (r, w').
Proof.
  intros Hs Hp Hr. rewrite <- bind_assoc in Hr.
  assert (Preserves tick_frame (cfg <- required_config tid key ;;
    or_unknown_err (parse (cfg_Value cfg)))) as Htick by keep.
  apply bind_inv in Hr as [(e & Hc & ->)|(x & w1 & Hc & Hr)];
    pose proof (Htick _ _ _ Hc);
    eapply required_value in Hc as [Hf [Hc|Hc]]; try eassumption; try done;
    injection Hc as ->; eauto 6.
Qed.

Lemma checkLoginRestricted_run u c a enable n t w r w' :
  restriction w (User.TenantID u) enable n t ->
  User.LastLoginFailedCount u = Some c ->
  User.LastLoginFailedAt u = Some a ->
  checkLoginRestricted u w = (r, w') ->
  r = inl (UnusableDatabase None) \/
  if blocks enable n c then
    exists k, (w_tick w <= k < w_tick w')%nat /\
      r = if clock k / 1000000000 <? Int.i64 (a + t)
          then inl (loginRestricted (User.Account u) c a (Int.i64 (a + t)))
          else inr tt
  else r = inr tt.
Proof.
  intros Hrs Hc Ha Hl.
  unfold checkLoginRestricted in Hl. rewrite Hc in Hl.
  unfold blocks. destruct (c =? 0) eqn:E0.
  { apply ret_inv in Hl as [-> _]. by right. }
  destruct (rs_enable _ _ _ _ _ Hrs) as (v & Hs & Hp).
  eapply required_step in Hl as [->|(w1 & Hf & Ht & Hl)]; [by left| |done..].
  apply (restriction_frame _ w1) in Hrs; [|done].
  destruct enable; cbn [negb] in Hl;
    [|apply ret_inv in Hl as [-> _]; by right].
  clear v Hs Hp. destruct (rs_count _ _ _ _ _ Hrs) as (v & Hs & Hp).
  eapply required_step in Hl as [->|(w2 & Hf2 & Ht2 & Hl)]; [by left| |done..].
  apply (restriction_frame _ w2) in Hrs; [|done].
  clear v Hs Hp. destruct (rs_time _ _ _ _ _ Hrs) as (v & Hs & Hp).
  eapply required_step in Hl as [->|(w3 & Hf3 & Ht3 & Hl)]; [by left| |done..].
  right. destruct (n =? 0) eqn:En.
  { by apply ret_inv in Hl as [-> _]. }
  destruct (c mod n =? 0) eqn:Em; cbn [negb andb];
    [|by apply ret_inv in Hl as [-> _]].
  rewrite Ha in Hl. exists (w_tick w3).
  unfold deref, now_unix, on_tick, bind, ret, guard_err, throw in Hl.
  unfold tick_frame in *.
  destruct (_ <? _); injection Hl as <- <-; (split; [cbn; lia|done]).
Qed.

(** [checkLoginRestricted] on a user with a failure count: it refuses
    exactly when the restriction is enabled, the count is a positive
    multiple of the permitted tries and, by the clock reading it takes, the
    restriction time after the last failure is not over; unless the settings
    cannot be read. *)
Theorem checkLoginRestricted_spec u c a enable n t w r w' :
  restriction w (User.TenantID u) enable n t ->
  User.LastLoginFailedCount u = Some c ->
  User.LastLoginFailedAt u = Some a ->
  checkLoginRestricted u w = (r, w') ->
  r = inl (UnusableDatabase None) \/
  if blocks enable n c then
    exists k, (w_tick w <= k < w_tick w')%nat /\
      r = if clock k / 1000000000 <? Int.i64 (a + t)
          then inl (loginRestricted (User.Account u) c a (Int.i64 (a + t)))
          else inr tt
  else r = inr tt.
Proof. apply checkLoginRestricted_run. Qed.

Lemma validateUserLogin_inv req w u w' :
  validateUserLogin req w = (inr u, w') ->
  u ∈ R TUser w /\ User.Account u = LoginRequest.Account req /\
  User.Password u = LoginRequest.Password req /\ rows_eq w w' /\
  exists w1 w2, db_frame [] w w1 /\ tick_frame w w1 /\ tick_frame w2 w' /\
    checkLoginRestricted u w1 = (inr tt, w2).
Proof.
  intros Hv. pose proof (ro_validateUserLogin (db_frame []) _ _ _ _ Hv) as Hf.
  unfold validateUserLogin in Hv. run Hv. bools.
  pose proof (preserves_First _ _ [] _ _ _ Hr3) as Hf1.
  pose proof (ro_First (r:=tick_frame) _ _ _ _ _ Hr3) as Ht1.
  apply First_ok in Hr3 as (Hu & Hacc & _). unfold by_account in Hacc. bools.
  destruct x4. split_and!; try done.
  - intros t. by apply db_frame_rows.
  - exists w0, w1. split_and!; done.
Qed.

(** The row a login leaves. *)
Definition login_row (u u' : User.t) : Prop :=
  exists now ip expired n,
    u' = User_BeforeUpdate (clock n / 1000000000)
           (with_password_flag expired (logged_in now ip u)).

Lemma loginUser_run ctx req w rsp w' :
  loginUser ctx req w = (inr rsp, w') ->
  exists u u', u ∈ R TUser w /\
    User.Account u = LoginRequest.Account req /\
    User.Password u = LoginRequest.Password req /\
    (exists w1 w2, db_frame [] w w1 /\
       checkLoginRestricted u w1 = (inr tt, w2)) /\
    IUser.Id rsp = User.ID u /\ IUser.Account rsp = User.Account u /\
    login_row u u' /\
    default 0 (User.LastLoginFailedCount u') = 0 /\
    (exists now, User.LastLoggedInAt u' = Some now) /\
    R TUser w' ≡ₚ replace_user u' (R TUser w) /\
    forall t, t <> TUser -> R t w' = R t w.
Proof.
  unfold loginUser. intros Hl. apply bind_inr in Hl as (u & w1 & Hv & Hl).
  apply validateUserLogin_inv in Hv as (Hu & Hacc & Hpw & Hw1 & Hrestr).
  destruct (GetClientIP ctx) as [|ip];
    [by apply bind_inr in Hl as (? & ? & [? _]%throw_inv & _)|].
  apply bind_inr in Hl as (? & ? & [[= ->] ->]%ret_inv & Hl).
  apply bind_inr in Hl as (now & w2 & Hn & Hl). cbn in Hl.
  apply bind_inr in Hl as (cycle & w3 & Hcy & Hl).
  apply bind_inr in Hl as (expired & w4 & Hex & Hl).
  apply bind_inr in Hl as (u' & w5 & Hs%or_db_inr & Hl).
  apply bind_inr in Hl as (rsp0 & w6 & Hr & Hl).
  apply or_unknown_err_inr in Hr as [Hr ->].
  assert (db_frame [] w1 w4) as Hf14.
  { etrans; [by apply (ro_on_tick (r:=db_frame []) _ _ _ _ _ Hn)|].
    etrans; [by apply (ro_password_change_cycle (db_frame []) _ _ _ _ Hcy)|].
    destruct (cycle =? 0); [by apply ret_inv in Hex as [_ ->]|].
    run Hex. done. }
  assert (forall t, R t w4 = R t w) as Hw4.
  { intros t. rewrite (db_frame_rows _ _ t Hf14). apply Hw1. }
  set (r := with_password_flag expired _) in Hs.
  assert (User.ID r = User.ID u /\ User.Account r = User.Account u) as [Hi Ha].
  { subst r. unfold logged_in. cbn. by destruct (User.LastLoginFailedCount u). }
  pose proof (preserves_Save TUser r [TUser] ltac:(by left) _ _ _ Hs) as [Hot _].
  assert (u ∈ R TUser w4) as Hu4 by by rewrite Hw4.
  destruct (Save_user u r w4 u' w5 Hu4 Hi Ha Hs) as [[n Hn'] Hrows].
  assert (User.ID u' = User.ID u /\ User.Account u' = User.Account u) as [Hi' Ha']
    by by rewrite Hn'.
  pose proof (Save_user_typed u u' _ _ Hu4 Hi' Hrows) as Hty.
  rewrite userModelToRsp_ok in Hr by done. injection Hr as <-.
  apply bind_inr in Hl as (tenant & w6 & Hl1 & Hl).
  apply bind_inr in Hl as (roles & w7 & Hl2 & Hl).
  apply bind_inr in Hl as (groups & w8 & Hl3 & [[= ->] ->]%ret_inv).
  assert (db_frame [] w5 w8) as Hf.
  { etrans; [by apply (ro_getTenant (db_frame []) _ _ _ _ Hl1)|].
    etrans; [by apply (ro_user_roles (db_frame []) _ _ _ _ Hl2)|].
    by apply (ro_user_groups (db_frame []) _ _ _ _ _ _ Hl3). }
  exists u, u'. split_and!; try done.
  - destruct Hrestr as (v1 & v2 & ? & _ & _ & ?). by exists v1, v2.
  - exists now, ip, expired, n. done.
  - subst u' r. unfold logged_in. cbn.
    by destruct (User.LastLoginFailedCount u) eqn:E; cbn; rewrite ?E.
  - subst u' r. unfold logged_in. cbn.
    destruct (User.LastLoginFailedCount u); by eexists.
  - by rewrite (db_frame_rows _ _ _ Hf), Hrows, Hw4.
  - intros t Ht. rewrite (db_frame_rows _ _ _ Hf), <- Hw4. 
    by apply Hot, not_in_one.
Qed.

(** [loginUser] is sound: it returns a user only for an account whose
    stored password is the given one and which [checkLoginRestricted]
    passes; the user returned is that account's, in its tenant.  Only the
    account's row changes: it keeps every column but the login time and
    address, the password flag and time, and the failure count, which is
    zero again. *)
Theorem loginUser_sound ctx req w rsp w' :
  loginUser ctx req w = (inr rsp, w') ->
  exists u u', u ∈ R TUser w /\
    User.Account u = LoginRequest.Account req /\
    User.Password u = LoginRequest.Password req /\
    (exists w1 w2, db_frame [] w w1 /\
       checkLoginRestricted u w1 = (inr tt, w2)) /\
    IUser.Id rsp = User.ID u /\ IUser.Account rsp = User.Account u /\
    login_row u u' /\
    default 0 (User.LastLoginFailedCount u') = 0 /\
    (exists now, User.LastLoggedInAt u' = Some now) /\
    R TUser w' ≡ₚ replace_user u' (R TUser w) /\
    forall t, t <> TUser -> R t w' = R t w.
Proof. apply loginUser_run. Qed.

Lemma updateUserLoginFailedInfo_inv req w w' :
  updateUserLoginFailedInfo req w = (inr tt, w') ->
  exists u n m, u ∈ R TUser w /\ User.Account u = LoginRequest.Account req /\
    R TUser w' ≡ₚ replace_user
      (User_BeforeUpdate (clock m / 1000000000)
         (login_failed (clock n / 1000000000) u)) (R TUser w) /\
    forall t, t <> TUser -> R t w' = R t w.
Proof.
  unfold updateUserLoginFailedInfo. intros Hl.
  apply bind_inr in Hl as (u & w1 & Hu%first_or_inr & Hl).
  pose proof (preserves_First _ _ [] _ _ _ Hu) as Hf.
  apply First_ok in Hu as (Hu & Hacc & _). unfold by_account in Hacc. bools.
  apply bind_inr in Hl as (now & w2 & Hn%now_unix_inr & Hl).
  destruct Hn as [-> Hw2].
  apply bind_inr in Hl as (u' & w3 & Hs%or_db_inr & [_ ->]%ret_inv).
  assert (forall t, R t w2 = R t w) as HR.
  { intros t. rewrite Hw2. apply (db_frame_rows _ _ _ Hf). }
  pose proof (preserves_Save TUser _ [TUser] ltac:(by left) _ _ _ Hs) as [Hot _].
  eapply (Save_user u) in Hs as [[m ->] Hr]; [|by rewrite HR|done|done].
  exists u, (w_tick w1), m. rewrite HR in Hr. split_and!; try done.
  intros t Ht. rewrite <- HR. by apply Hot, not_in_one.
Qed.

(** C9. Failed logins restrict an account: recording a failure adds one to
    the failure count of the account's row (modulo 2^64) and notes the time;
    if the count is then a multiple of the permitted tries of the tenant and
    the restriction is enabled, every login to that account with whatever
    password is refused until the restriction time is over. *)
Theorem failed_logins_restrict req w w1 :
  updateUserLoginFailedInfo req w = (inr tt, w1) ->
  exists u u' c a, u ∈ R TUser w /\
    User.Account u = LoginRequest.Account req /\ u' ∈ R TUser w1 /\
    User.ID u' = User.ID u /\ User.Password u' = User.Password u /\
    c = Int.u64 (default 0 (User.LastLoginFailedCount u) + 1) /\
    User.LastLoginFailedCount u' = Some c /\
    User.LastLoginFailedAt u' = Some a /\
    forall n t w2 req2 r w3,
      restriction w2 (User.TenantID u) true n t -> blocks true n c = true ->
      rows_eq w1 w2 ->
      LoginRequest.Account req2 = LoginRequest.Account req ->
      (forall k, (w_tick w2 <= k < w_tick w3)%nat ->
         clock k / 1000000000 < Int.i64 (a + t)) ->
      validateUserLogin req2 w2 = (r, w3) -> is_ok r = false.
Proof.
  intros (u & n0 & m & Hu & Hacc & Hr & _)%updateUserLoginFailedInfo_inv.
  set (r' := User_BeforeUpdate _ _) in Hr.
  exists u, (update_row TUser r' u),
    (Int.u64 (default 0 (User.LastLoginFailedCount u) + 1)),
    (clock n0 / 1000000000).
  assert (update_row TUser r' u ∈ R TUser w1) as Hu'.
  { rewrite Hr. apply (replace_user_self u); [done|done| |by left].
    intros y Hy He. by eapply user_id_unique. }
  assert (forall {A} (f : User.t -> A),
    (forall z, f (User.set_CreatedAt z r') = f r') ->
    f (update_row TUser r' u) = f r') as Hcase.
  { intros A f Hz. cbn. destruct (_ =? 0); [apply Hz|done]. }
  split_and!; try done; try (by rewrite Hcase).
  intros n t w2 req2 r w3 Hrs Hb Hw2 Hacc2 Hclock Hv.
  destruct r as [e|x]; [done|exfalso].
  apply validateUserLogin_inv in Hv as
    (Hx & Hxa & _ & _ & w4 & w5 & Hf & Ht1 & Ht2 & Hl).
  assert (x = update_row TUser r' u) as ->.
  { eapply user_account_unique; [by rewrite (Hw2 TUser)|exact Hx|].
    by rewrite Hxa, Hacc2, <- Hacc, Hcase. }
  apply (checkLoginRestricted_run _
    (Int.u64 (default 0 (User.LastLoginFailedCount u) + 1))
    (clock n0 / 1000000000) true n t) in Hl.
  - destruct Hl as [?|Hl]; [done|]. rewrite Hb in Hl.
    destruct Hl as (k & Hk & Hl). unfold tick_frame in *.
    specialize (Hclock k ltac:(lia)). apply Z.ltb_lt in Hclock.
    by rewrite Hclock in Hl.
  - rewrite Hcase by done. by eapply restriction_frame.
  - by rewrite Hcase.
  - by rewrite Hcase.
Qed.

Variable privateKey : PrivateKey.

Lemma ok_err {A} ctx ev (a b : A) w w' :
  ok ctx ev a w = (inr b, w') -> w_err w' = w_err w.
Proof.
  unfold ok, StatusOK, reportEvent. intros (u & w1 & Hr & [_ ->]%ret_inv)%bind_inr.
  destruct (GetTenantID ctx); [by apply ret_inv in Hr as [_ ->]|].
  apply bind_inr in Hr as (x & w2 & (y & _ & Hp)%attempt_inv & [_ ->]%ret_inv).
  unfold ReportEvent, Publish in Hp.
  by destruct (broker_accepts _); injection Hp as _ <-.
Qed.

Lemma check_var_inr {A} ctx ev f (c : Act A) w a w' :
  check_var ctx ev f c w = (inr a, w') ->
  exists w1, c w = (inr a, w1) /\ w_db w' = w_db w1 /\ w_kv w' = w_kv w1 /\
    w_err w' = None.
Proof.
  unfold check_var. intros (x & w1 & (y & [= ->] & Hc)%attempt_inv & Hr)%bind_inr.
  destruct y as [e|b].
  - destruct e; try (by apply throw_inv in Hr as [? _]);
      apply bind_inr in Hr as (? & ? & _ & Hr);
      by apply fail_with_inv in Hr as (? & ? & _).
  - apply bind_inr in Hr as (u & w2 & [= _ <-] & [[= ->] ->]%ret_inv).
    by exists w1.
Qed.

(** C2. [Login] authenticates: when it answers with a user, the request gave
    the stored password of the account, the user is that account's and the
    session of the answer is the one stored for it. *)
Theorem Login_authenticates ctx req w rsp w' :
  Login privateKey ctx req w = (inr rsp, w') ->
  exists u k, u ∈ R TUser w /\
    User.Account u = LoginRequest.Account req /\
    User.Password u = LoginRequest.Password req /\
    IUser.Id rsp = User.ID u /\ IUser.Account rsp = User.Account u /\
    IUser.Session rsp = Some (ISession.mk k) /\
    stored w' (session_key (User.ID u)) = Some k.
Proof.
  unfold Login. intros Hl.
  apply bind_inr in Hl as (x & w1 & [= _ <-] & Hl).
  apply bind_inr in Hl as (r & w2 & (y & [= ->] & Ht)%attempt_inv & Hl).
  apply bind_inr in Hl as (w3 & w4 & [= -> ->] & Hl).
  apply bind_inr in Hl as (x' & w5 & Hd & [-> ->]%lift_inr).
  apply transaction_outcome in Ht; [|apply _].
  destruct Ht as (w6 & w7 & db & Hw6 & Hf & _ & Hw4).
  unfold login_transaction in Hf.
  apply bind_inr in Hf as (user & w8 & Hu & Hf).
  apply bind_inr in Hf as (tenant & w9 & [_ ->]%deref_inr & Hf).
  apply bind_inr in Hf as (key & w10 & Hk & Hf).
  apply check_var_inr in Hu as (w11 & Hu & _).
  apply check_var_inr in Hk as (w12 & Hk & _ & Hkv & Herr).
  apply newSession_stored in Hk.
  pose proof (ok_err _ _ _ _ _ _ Hf) as Herr2. rewrite Herr in Herr2.
  apply ok_inr in Hf as (-> & _ & Hkv2).
  assert (w5 = w4) as ->.
  { rewrite Hw4 in Hd. cbn in Hd. rewrite Herr2 in Hd.
    apply ret_inv in Hd as [_ ->]. by rewrite Hw4. }
  apply loginUser_run in Hu as
    (u & u' & Hin & Hacc & Hpw & _ & Hid & Hacc' & _).
  exists u, key. rewrite (Hw6 TUser) in Hin. split_and!; try done.
  unfold stored in *. rewrite Hw4. cbn [set_db w_kv].
  by rewrite Hkv2, Hkv, <- Hid.
Qed.
End login.

(** ** Examples *)
#[local] Existing Instance mem_backend.
#[local] Existing Instance mem_backend_laws.
#[local] Existing Instance s_globals.

Definition s_try (account password : string) :=
  Login s_key (s_ctx s_req_alice) (s_login account password) s_world.

Lemma s_restriction : restriction s_world 1 true 5 600.
Proof.
  constructor;
    [exists "true"%string|exists "5"%string|exists "600"%string];
    (split; [unfold setting|vm_compute; reflexivity]);
    apply (bool_decide_unpack _); vm_compute; reflexivity.
Qed.

Lemma checkLoginRestricted_spec_witness :
  blocks true 5 5 = true /\
  ((checkLoginRestricted (s_user 4 "bob" "bobpw" (Some 5) (Some 1699999990))
     s_world).1 =
   inl (loginRestricted "bob" 5 1699999990 1700000590)).
Proof.
  split; [reflexivity|].
  set (u := s_user 4 "bob" "bobpw" (Some 5) (Some 1699999990)).
  destruct (checkLoginRestricted_spec u 5 1699999990 true 5 600 s_world
    (checkLoginRestricted u s_world).1 (checkLoginRestricted u s_world).2
    s_restriction eq_refl eq_refl (surjective_pairing _)) as [He|He].
  - vm_compute in He. discriminate He.
  - destruct He as (k & Hk & ->).
    assert (k = O) as -> by (vm_compute in Hk; lia).
    vm_compute. reflexivity.
Defined.

Lemma loginUser_sound_witness :
  exists rsp, (loginUser (s_ctx s_req_alice) (s_login "alice" "alicepw") s_world).1
      = inr rsp /\ IUser.Account rsp = "alice"%string.
Proof.
  destruct (ran_ok (loginUser (s_ctx s_req_alice) (s_login "alice" "alicepw"))
    s_world) as [rsp Hr]; [vm_compute; reflexivity|].
  exists rsp. rewrite Hr. split; [reflexivity|].
  destruct (loginUser_sound _ _ _ _ _ Hr) as
    (u & u' & _ & Hacc & _ & _ & _ & Hacc' & _).
  rewrite Hacc'. exact Hacc.
Defined.

Lemma failed_logins_restrict_witness :
  exists u' a, User.LastLoginFailedCount u' = Some 3 /\
    User.LastLoginFailedAt u' = Some a /\
    u' ∈ R TUser (updateUserLoginFailedInfo (s_login "alice" "x") s_world).2.
Proof.
  destruct (failed_logins_restrict (s_login "alice" "x") s_world
    (updateUserLoginFailedInfo (s_login "alice" "x") s_world).2)
    as (u & u' & c & a & Hu & Hacc & Hu' & _ & _ & Hc & Hc' & Ha & _).
  - apply ran. vm_compute. reflexivity.
  - exists u', a. split; [|split; [exact Ha|exact Hu']].
    assert (u = s_user 3 "alice" "alicepw" (Some 2) (Some 1699999000)) as ->.
    { apply (user_account_unique s_world); [|exact Hu|exact Hacc].
      apply (bool_decide_unpack _). vm_compute. reflexivity. }
    rewrite Hc', Hc. reflexivity.
Defined.

Lemma Login_authenticates_witness :
  exists rsp k, (s_try "alice" "alicepw").1 = inr rsp /\
    IUser.Session rsp = Some (ISession.mk k) /\
    (s_try "alice" "wrong").1 <> inr rsp.
Proof.
  destruct (ran_ok (Login s_key (s_ctx s_req_alice) (s_login "alice" "alicepw"))
    s_world) as [rsp Hr]; [vm_compute; reflexivity|].
  unfold s_try. rewrite Hr.
  destruct (Login_authenticates s_key _ _ _ _ _ Hr) as
    (u & k & _ & _ & _ & _ & _ & Hs & _).
  exists rsp, k. split; [reflexivity|]. split; [exact Hs|].
  vm_compute. discriminate.
Defined.

(** ** Ending sessions: [Logout] and [RevokeSession] *)
Section logout.
Context `{BackendLaws} `{Globals}.
Variable privateKey : PrivateKey.

(** The payload a session key carries. *)
Definition session_says (session : string) (p : SessionPayload) : Prop :=
  exists body sig, validateSession session = inr (body, sig) /\
    payload_parse_ptr body = Some (Some p).

Lemma session_payload_inv s w p w' :
  session_payload s w = (inr p, w') -> session_says s p /\ w' = w.
Proof.
  unfold session_payload. intros Hs. run Hs. destruct x as [body sig].
  cbn in Hs. destruct (payload_parse_ptr body) as [o|] eqn:Eo;
    [|by apply throw_inv in Hs as [? _]].
  run Hs. split; [|done]. by exists body, sig.
Qed.

Lemma deleteSession_inv id w w' :
  deleteSession id w = (inr tt, w') ->
  is_Some (stored w (session_key id)) /\ stored w' (session_key id) = None.
Proof.
  unfold deleteSession. intros Hd. run Hd. destruct y as [e|v].
  { destruct (is_not_found_key e); by apply throw_inv in Hd as [? _]. }
  apply or_store_inr in Hd.
  apply Get_ok in Hr as [_ Hs].
  apply StoreDelete_ok in Hd as [Hd _]. split; [by eexists|done].
Qed.

#[local] Instance logout_db_frame id : Preserves (db_frame []) (deleteSession id).
Proof. unfold deleteSession, or_store. keep. Qed.

#[local] Instance session_payload_db s : Preserves (db_frame []) (session_payload s).
Proof. intros w r w'. unfold session_payload. revert w r w'.
  change (Preserves (db_frame []) (session_payload s)). frame @session_payload.
Qed.

Lemma stored_set_db db w k : stored (set_db db w) k = stored w k.
Proof. reflexivity. Qed.

Lemma ok_stored {A} ctx ev (a b : A) w w' k :
  ok ctx ev a w = (inr b, w') -> stored w' k = stored w k.
Proof. intros (_ & _ & Hk)%ok_inr. unfold stored. by rewrite Hk. Qed.

(** The store is only asked for the value of the key [k] and to delete that
    key alone; between the requests leases may run out. *)
Inductive asked_for (k : string) : KV -> KV -> Prop :=
| asked_nothing kv : asked_for k kv kv
| asked_get kv r kv1 kv2 :
    kv_get k kv = (r, kv1) -> asked_for k kv1 kv2 -> asked_for k kv kv2
| asked_delete kv r kv1 kv2 :
    kv_delete k false kv = (r, kv1) -> asked_for k kv1 kv2 -> asked_for k kv kv2.

#[local] Instance asked_for_preorder k : PreOrder (asked_for k).
Proof.
  split; [intros kv; apply asked_nothing|]. intros kv1 kv2 kv3 Ha Hb.
  induction Ha; eauto using asked_for.
Qed.

Definition asks_only (k : string) (w w' : World) : Prop :=
  asked_for k (w_kv w) (w_kv w').

#[local] Instance asks_only_preorder k : PreOrder (asks_only k).
Proof.
  split; [intros w; apply asked_nothing|]. intros w1 w2 w3. unfold asks_only.
  apply transitivity.
Qed.

(** In a store whose leases do not run out meanwhile, every other key keeps
    its value. *)
Definition no_expiry : Prop :=
  (forall k kv r kv' k', kv_get k kv = (r, kv') -> kv_lookup k' kv' = kv_lookup k' kv) /\
  (forall k kv r kv' k', kv_delete k false kv = (r, kv') -> k' <> k ->
     kv_lookup k' kv' = kv_lookup k' kv).

Lemma asked_for_others k kv kv' :
  asked_for k kv kv' ->
  kv_expires kv kv' /\
  (no_expiry -> forall k', k' <> k -> kv_lookup k' kv' = kv_lookup k' kv).
Proof.
  intros Ha. induction Ha as [kv|kv r kv1 kv2 Hg _ [IH1 IH2]|kv r kv1 kv2 Hg _ [IH1 IH2]].
  - split; [by left|done].
  - split.
    + intros k'. destruct (IH1 k') as [-> | ->]; [by eapply get_expires|by right].
    + intros Hn k' Hne. rewrite IH2 by done. by eapply (proj1 Hn).
  - split.
    + intros k'. destruct (IH1 k') as [-> | ->]; [by eapply delete_expires|by right].
    + intros Hn k' Hne. rewrite IH2 by done. by eapply (proj2 Hn).
Qed.

Lemma deleteSession_asks id w r w' :
  deleteSession id w = (r, w') -> asked_for (session_key id) (w_kv w) (w_kv w').
Proof.
  unfold deleteSession. intros [(e & (x & ? & _)%attempt_inv & _)|(y & w1 & Ha & Hd)]
    %bind_inv; [done|].
  apply attempt_inv in Ha as (x & [= ->] & Hg).
  assert (asked_for (session_key id) (w_kv w) (w_kv w1)) as Hw1.
  { unfold Get in Hg. apply bind_inv in Hg as [(e & Hg & _)|(o & w2 & Hg & Hr)];
      apply on_kv_inv in Hg as (z & kv & E & -> & _);
      [|assert (w1 = set_kv kv w) as ->
          by (destruct o; [by apply ret_inv in Hr as [_ ->]|by apply throw_inv in Hr as [_ ->]])];
      (eapply asked_get; [exact E|apply asked_nothing]). }
  destruct x as [e|v].
  - destruct (is_not_found_key e); by apply throw_inv in Hd as [_ ->].
  - etrans; [exact Hw1|]. unfold or_store in Hd.
    apply bind_inv in Hd as [(e & (x & ? & _)%attempt_inv & _)|(y & w2 & Ha & Hd)]; [done|].
    apply attempt_inv in Ha as (x & [= ->] & (z & kv & E & -> & _)%on_kv_inv).
    assert (w' = set_kv kv w1) as ->.
    { destruct x; [by apply throw_inv in Hd as [_ ->]|by apply ret_inv in Hd as [_ ->]]. }
    eapply asked_delete; [exact E|apply asked_nothing].
Qed.

Lemma check_kv {A} ctx ev (c : Act A) w r w' :
  check ctx ev c w = (r, w') -> exists x w1, c w = (x, w1) /\ w_kv w' = w_kv w1.
Proof.
  destruct r as [e|a]; intros Hc.
  - apply check_inl in Hc as (e0 & w1 & Hc & _ & Hk & _). eauto.
  - apply check_inr in Hc. eauto.
Qed.

(** The run of the body of [Logout]. *)
Lemma Logout_body ctx s u w r w' :
  (id <- check ctx
           "cdm-cloud.identity.logout.failure-validate_delete_session"
           (validateDeleteSession u s) ;;
   check ctx "cdm-cloud.identity.logout.failure-delete_session" (deleteSession id) ;;
   ok ctx "cdm-cloud.identity.logout.success" tt) w = (r, w') ->
  asked_for (session_key (IUser.Id u)) (w_kv w) (w_kv w').
Proof.
  intros Hr.
  assert (Preserves kv_frame (validateDeleteSession u s)) as Hv.
  { unfold validateDeleteSession, session_payload. keep. }
  apply bind_inv in Hr as [(e & Hc & ->)|(id & w1 & Hc & Hr)].
  { apply check_kv in Hc as (x & w1 & Hc & ->). by rewrite (Hv _ _ _ Hc). }
  apply check_inr in Hc. pose proof (Hv _ _ _ Hc) as Hk.
  unfold validateDeleteSession in Hc. run Hc. bools. unfold kv_frame in Hk. rewrite <- Hk.
  apply bind_inv in Hr as [(e & Hd & ->)|([] & w2 & Hd & Hr)];
    apply check_kv in Hd as (y & w3 & Hd & Hk2); apply deleteSession_asks in Hd.
  - rewrite Hk2. congruence.
  - destruct r as [e|[]]; [by apply ok_inl in Hr|].
    apply ok_inr in Hr as (_ & _ & Hk3). rewrite Hk3, Hk2. congruence.
Qed.

(** C31. [Logout] ends the session of the caller and nobody else's.  Whatever
    it answers, no row changes, and all it asks the store for is the value of
    the session of the request's user and the deletion of that one key: any
    other session keeps its value or runs out by itself, and keeps it if no
    lease runs out meanwhile.  When it succeeds, the session key of the request
    names the user of the request, and that user has no stored session any
    more. *)
Theorem Logout_spec ctx w r w' :
  Logout ctx w = (r, w') ->
  rows_eq w w' /\
  match GetAuthenticatedUser ctx with
  | inl _ => w_kv w' = w_kv w
  | inr user =>
      asked_for (session_key (IUser.Id user)) (w_kv w) (w_kv w') /\
      (forall k, stored w' k = stored w k \/ stored w' k = None) /\
      (no_expiry ->
       forall k, k <> session_key (IUser.Id user) -> stored w' k = stored w k)
  end /\
  (r = inr tt ->
   exists session user p,
     GetAuthenticatedSession ctx = inr session /\
     GetAuthenticatedUser ctx = inr user /\
     session_says session p /\ sp_ID p = IUser.Id user /\
     stored w' (session_key (IUser.Id user)) = None).
Proof.
  intros Ht. split.
  { eapply query_transaction_rows; [|exact Ht].
    unfold validateDeleteSession. keep. }
  unfold Logout in Ht. split.
  - destruct (GetAuthenticatedUser ctx) as [|u].
    + apply (Transaction_traced kv_frame) in Ht as [Hk _]; [done|done| |keep].
      intros w0 x w1 _ Hb. destruct (GetAuthenticatedSession ctx);
        by apply fail_with_inv in Hb as (? & _ & _ & _ & Hk).
    + apply (Transaction_traced (asks_only (session_key (IUser.Id u))))
        in Ht as [Hk _].
      * split; [exact Hk|]. apply asked_for_others in Hk as [He Hk].
        split; [exact He|exact Hk].
      * intros db w0. apply asked_nothing.
      * intros w0 x w1 _ Hb. destruct (GetAuthenticatedSession ctx).
        { apply fail_with_inv in Hb as (? & _ & _ & _ & Hk).
          unfold asks_only. rewrite Hk. apply asked_nothing. }
        by eapply Logout_body.
      * keep.
  - intros ->. apply transaction_outcome in Ht; [|keep].
    destruct Ht as (w0 & w1 & db & _ & Hf & _ & ->).
    destruct (GetAuthenticatedSession ctx) as [|s];
      [by apply fail_with_inv in Hf as (? & ? & _)|].
    destruct (GetAuthenticatedUser ctx) as [|u];
      [by apply fail_with_inv in Hf as (? & ? & _)|].
    run Hf. unfold validateDeleteSession in Hr. run Hr. bools.
    apply session_payload_inv in Hr1 as [Hs ->].
    destruct x0. apply deleteSession_inv in Hr0 as [_ Hd].
    exists s, u, x1. rewrite stored_set_db, (ok_stored _ _ _ _ _ _ _ Hf), Hr2. done.
Qed.

(** [RevokeSession] ends a session of the caller's tenant only: when it
    succeeds the session named a user of that tenant, not the administrator
    unless the caller is one, and that user has no stored session. *)
Theorem RevokeSession_spec ctx sessionKey w w' :
  RevokeSession ctx sessionKey w = (inr tt, w') ->
  exists tenantID reqUser p u,
    GetTenantID ctx = inr tenantID /\ GetAuthenticatedUser ctx = inr reqUser /\
    session_says sessionKey p /\
    u ∈ R TUser w /\ User.ID u = sp_ID p /\ User.TenantID u = tenantID /\
    (isAdmin (IUser.Roles reqUser) = false -> sp_ID p <> User.ID adminUser) /\
    stored w' (session_key (sp_ID p)) = None /\ rows_eq w w'.
Proof.
  intros Ht. unfold RevokeSession in Ht.
  apply transaction_outcome in Ht; [|keep].
  destruct Ht as (w0 & w1 & db & Hw0 & Hf & Hw1 & ->).
  apply bind_inr in Hf as ([tid reqUser] & w2 & Hm & Hf).
  apply check_inr in Hm. unfold getRequestMetadata in Hm.
  destruct (GetTenantID ctx) as [|tid'] eqn:Et;
    [by apply throw_inv in Hm as [? _]|].
  destruct (GetAuthenticatedUser ctx) as [|ru] eqn:Eu;
    [by apply throw_inv in Hm as [? _]|].
  apply ret_inv in Hm as [[= -> ->] ->].
  run Hf. unfold validateRevokeSession in Hr. run Hr.
  apply session_payload_inv in Hr1 as [Hs ->].
  pose proof (logout_db_frame _ _ _ _ Hr0) as Hfr.
  pose proof (preserves_First _ _ [] _ _ _ Hr3) as Hfr2.
  destruct x0. apply deleteSession_inv in Hr0 as [_ Hd].
  apply First_ok in Hr3 as (Hu & Hp & _). bools.
  rewrite (Hw0 TUser) in Hu.
  exists tid', ru, x1, x3.
  rewrite stored_set_db, (ok_stored _ _ _ _ _ _ _ Hf).
  split_and!; try done.
  - intros Hadm. rewrite Hadm in Hr2. cbn in Hr2. bools. congruence.
  - etrans; [exact Hw0|]. etrans; [|exact Hw1]. etrans; [|by eapply ok_rows].
    intros t. by rewrite (db_frame_rows _ _ t Hfr), (db_frame_rows _ _ t Hfr2).
Qed.
End logout.

(** ** Examples *)
#[local] Existing Instance mem_backend.
#[local] Existing Instance mem_backend_laws.
#[local] Existing Instance s_globals.

Definition s_session : string :=
  value_of_run EmptyString
    (newSession (s_ctx s_req_alice) 1 3 s_key false s_world).1.
Definition s_logged_in : World :=
  (newSession (s_ctx s_req_alice) 1 3 s_key false s_world).2.

Lemma mem_no_expiry : no_expiry.
Proof.
  split.
  - intros k kv r kv' k' Hg. by injection Hg as <- <-.
  - intros k kv r kv' k' Hd Hne. injection Hd as <- <-.
    etrans; [apply mem_lookup_remove|]. by apply not_eq_sym, String.eqb_neq in Hne as ->.
Qed.

Lemma Logout_spec_witness :
  stored s_logged_in (session_key 3) = Some s_session /\
  stored (Logout (s_ctx_with s_req_alice s_session) s_logged_in).2
    (session_key 3) = None /\
  forall k, k <> session_key 3 ->
    stored (Logout (s_ctx_with s_req_alice s_session) s_logged_in).2 k
    = stored s_logged_in k.
Proof.
  split; [vm_compute; reflexivity|].
  destruct (Logout_spec (s_ctx_with s_req_alice s_session) s_logged_in (inr tt)
    (Logout (s_ctx_with s_req_alice s_session) s_logged_in).2) as (_ & Ho & Hgone).
  - apply ran. vm_compute. reflexivity.
  - destruct (Hgone eq_refl) as (session & user & p & _ & Hu & _ & _ & Hn).
    rewrite Hu in Ho. destruct Ho as (_ & _ & Ho).
    assert (IUser.Id user = 3) as Hid.
    { vm_compute in Hu. by injection Hu as <-. }
    rewrite Hid in Hn, Ho. split; [exact Hn|]. apply Ho, mem_no_expiry.
Defined.

Lemma RevokeSession_spec_witness :
  exists p, session_says s_session p /\
    stored (RevokeSession (s_ctx s_req_manager) s_session s_logged_in).2
      (session_key (sp_ID p)) = None.
Proof.
  destruct (RevokeSession_spec (s_ctx s_req_manager) s_session s_logged_in
    (RevokeSession (s_ctx s_req_manager) s_session s_logged_in).2)
    as (tid & ru & p & u & _ & _ & Hp & _ & _ & _ & _ & Hgone & _).
  - apply ran. vm_compute. reflexivity.
  - exists p. split; [exact Hp|exact Hgone].
Defined.
