(* ===== verification/UserProps.v ===== *)
(** * Users: adding, changing and deleting them, their relations to roles and
    groups, and what the checks of requests let through *)

From stdpp Require Import base tactics list strings sets gmap.
From Stdlib Require Import ZArith Lia Ascii.
From S2P Require Import Prelude GoStd Json Model Backend Proto Errors Metadata Gorm.
From S2P Require Import Database GormFacts Report Config Store IdBase IdTenant IdGroup IdUser.
From S2P Require Import IdSession IdConfig IdHandler IdFacts RefBackend.
#[local] Open Scope Z_scope.
#[local] Open Scope go_scope.

Section relations.
Context `{BackendLaws}.

(** The two relation tables of users. *)
Lemma Save_UserRole r w r' w' :
  Save TUserRole r w = (inr r', w') ->
  forall x, x ∈ R TUserRole w' <-> x = r \/ x ∈ R TUserRole w.
Proof.
  intros Hs. apply (Save_relation TUserRole) in Hs as [_ Hs]; try done.
  intros [u1 r1] Hk. cbn in Hk. bools. destruct r. cbn in *. congruence.
Qed.

Lemma Save_UserGroup r w r' w' :
  Save TUserGroup r w = (inr r', w') ->
  forall x, x ∈ R TUserGroup w' <-> x = r \/ x ∈ R TUserGroup w.
Proof.
  intros Hs. apply (Save_relation TUserGroup) in Hs as [_ Hs]; try done.
  intros [u1 r1] Hk. cbn in Hk. bools. destruct r. cbn in *. congruence.
Qed.

Lemma exists_nil {A B} (f : A -> B) x (P : Prop) :
  (exists a, a ∈ [] /\ x = f a) \/ P <-> P.
Proof. split; [|by right]. intros [(a & Ha & _)|?]; [set_solver|done]. Qed.

(** A loop of [Save]s into a relation table adds one row per element. *)
Lemma save_each {A} t (f : A -> row t) xs w w' :
  (forall r w r' w', Save t r w = (inr r', w') ->
     forall x, x ∈ R t w' <-> x = r \/ x ∈ R t w) ->
  for_each (fun a => Save t (f a) ;; ret tt) xs w = (inr tt, w') ->
  forall x, x ∈ R t w' <-> (exists a, a ∈ xs /\ x = f a) \/ x ∈ R t w.
Proof.
  intros Hsave. apply for_each_adds. intros a wa y wb Hb. run Hb.
  exact (Hsave _ _ _ _ Hr).
Qed.

Lemma updateUserRoleRelations_inv uid roles w w' :
  updateUserRoleRelations uid roles w = (inr tt, w') ->
  (forall x, x ∈ R TUserRole w' <->
     (exists r, r ∈ roles /\ x = UserRole.mk uid (IRole.Id r)) \/
     (x ∈ R TUserRole w /\ UserRole.UserID x <> uid)) /\
  forall t, t <> TUserRole -> R t w' = R t w.
Proof.
  intros Hu. assert (Preserves (db_frame [TUserRole])
    (updateUserRoleRelations uid roles)) as Hf.
  { unfold updateUserRoleRelations.
    apply preserves_bind; [apply _|by apply preserves_Delete, list_elem_of_here|].
    intros _. apply preserves_for_each; [apply _|]. intros a.
    apply preserves_bind; [apply _|by apply preserves_Save, list_elem_of_here|].
    intros; apply _. }
  apply Hf in Hu as Hfr. split.
  - intros x. unfold updateUserRoleRelations in Hu.
    apply bind_inr in Hu as (n & w1 & Hd & Hu).
    rewrite (save_each TUserRole (fun r => UserRole.mk uid (IRole.Id r))
      _ _ _ Save_UserRole Hu).
    rewrite (Delete_In TUserRole _ _ _ _ x Hd). by rewrite Z.eqb_neq.
  - intros t Ht. by apply Hfr, not_in_one.
Qed.

Lemma updateUserGroupRelations_inv uid groups w w' :
  updateUserGroupRelations uid groups w = (inr tt, w') ->
  (forall x, x ∈ R TUserGroup w' <->
     (exists g, g ∈ groups /\ x = UserGroup.mk uid (IGroup.Id g)) \/
     (x ∈ R TUserGroup w /\ UserGroup.UserID x <> uid)) /\
  forall t, t <> TUserGroup -> R t w' = R t w.
Proof.
  intros Hu. assert (Preserves (db_frame [TUserGroup])
    (updateUserGroupRelations uid groups)) as Hf.
  { unfold updateUserGroupRelations.
    apply preserves_bind; [apply _|by apply preserves_Delete, list_elem_of_here|].
    intros _. apply preserves_for_each; [apply _|]. intros a.
    apply preserves_bind; [apply _|by apply preserves_Save, list_elem_of_here|].
    intros; apply _. }
  apply Hf in Hu as Hfr. split.
  - intros x. unfold updateUserGroupRelations in Hu.
    apply bind_inr in Hu as (n & w1 & Hd & Hu).
    rewrite (save_each TUserGroup (fun g => UserGroup.mk uid (IGroup.Id g))
      _ _ _ Save_UserGroup Hu).
    rewrite (Delete_In TUserGroup _ _ _ _ x Hd). by rewrite Z.eqb_neq.
  - intros t Ht. by apply Hfr, not_in_one.
Qed.
End relations.

Section users.
Context `{BackendLaws} `{Globals}.

(** The roles a user has in the tables. *)
Definition has_role (w : World) (uid rid : Z) : Prop :=
  UserRole.mk uid rid ∈ R TUserRole w /\
  exists r, r ∈ R TRole w /\ Role.ID r = rid.

Lemma zin_spec ids id : zin ids id = true <-> id ∈ ids.
Proof.
  unfold zin. rewrite existsb_exists. setoid_rewrite Z.eqb_eq.
  rewrite list_elem_of_In. split; [by intros (x & ? & ->)|eauto].
Qed.

Lemma User_Roles_In uid w roles w' r :
  User_Roles uid w = (inr roles, w') ->
  r ∈ roles <-> r ∈ R TRole w /\ UserRole.mk uid (Role.ID r) ∈ R TUserRole w.
Proof.
  unfold User_Roles. intros (rel & w1 & Hr & Hf)%bind_inr.
  pose proof (preserves_Find _ _ [] _ _ _ Hr) as Hfr.
  rewrite (Find_In TRole _ _ _ _ r Hf), (db_frame_rows _ _ _ Hfr), zin_spec.
  rewrite list_elem_of_fmap. setoid_rewrite (Find_In TUserRole _ _ _ _ _ Hr).
  split; (intros [Hin Hx]; split; [done|]).
  - destruct Hx as ([u i] & -> & Hu & Hk). cbn in *. bools. by subst.
  - exists (UserRole.mk uid (Role.ID r)). cbn. by rewrite Z.eqb_refl.
Qed.

Lemma for_each_guard {A} (p : A -> bool) (e : err) xs (w w' : World) u :
  for_each (fun x => guard_err (p x) e) xs w = (inr u, w') ->
  w' = w /\ forall x, x ∈ xs -> p x = false.
Proof.
  revert w. induction xs as [|x xs IH]; intros w Hf.
  - apply ret_inv in Hf as [_ ->]. split; [done|]. set_solver.
  - cbn in Hf. apply bind_inr in Hf as (u' & w1 & [Hp ->]%guard_err_inr & Hf).
    apply IH in Hf as [-> Hf]. split; [done|].
    intros y [->|Hy]%elem_of_cons; auto.
Qed.

Lemma validateUserDelete_inv tid uid w u w' :
  validateUserDelete tid uid w = (inr u, w') ->
  uid <> 0 /\ u ∈ R TUser w /\ User.ID u = uid /\
  (tid = 0 \/ User.TenantID u = tid) /\
  ~ has_role w uid (Role.ID admin_role) /\ db_frame [] w w'.
Proof.
  intros Hv. pose proof (ro_validateUserDelete (db_frame []) _ _ _ _ _ Hv) as Hf.
  unfold validateUserDelete in Hv. run Hv. bools.
  pose proof (preserves_First _ _ [] _ _ _ Hr0) as Hf1.
  apply First_ok in Hr0 as (Hu & Hp & _). unfold user_struct in Hp.
  destruct (Z.eqb_spec uid 0); [done|]. cbn in Hp. bools.
  apply for_each_guard in Hr2 as [-> Hadm].
  split_and!; try done.
  - destruct (Z.eqb_spec tid 0); [by left|right]. cbn in *. by bools.
  - intros [Hur (r & Hrole & Hid)]. specialize (Hadm r).
    rewrite (User_Roles_In _ _ _ _ r Hr1) in Hadm.
    rewrite !(db_frame_rows _ _ _ Hf1) in Hadm.
    assert (UserRole.mk (User.ID x0) (Role.ID r) ∈ R TUserRole w) as Hin
      by congruence.
    specialize (Hadm (conj Hrole Hin)). rewrite Hid in Hadm.
    by rewrite Z.eqb_refl in Hadm.
Qed.

(** [deleteUser] removes exactly one user and the user's relations: the
    deleted user exists in the caller's tenant and does not have the
    administrator role; afterwards no row names the user any more, and every
    other user, relation and table is as before. *)
Theorem deleteUser_spec tid uid w w' :
  deleteUser tid uid w = (inr tt, w') ->
  uid <> 0 /\
  (exists u, u ∈ R TUser w /\ User.ID u = uid /\
     (tid = 0 \/ User.TenantID u = tid)) /\
  ~ has_role w uid (Role.ID admin_role) /\
  (forall x, x ∈ R TUser w' <-> x ∈ R TUser w /\ User.ID x <> uid) /\
  (forall x, x ∈ R TUserGroup w' <->
     x ∈ R TUserGroup w /\ UserGroup.UserID x <> uid) /\
  (forall x, x ∈ R TUserRole w' <->
     x ∈ R TUserRole w /\ UserRole.UserID x <> uid) /\
  forall t, t <> TUser -> t <> TUserGroup -> t <> TUserRole -> R t w' = R t w.
Proof.
  unfold deleteUser. intros (u & w1 & Hv & Hd)%bind_inr.
  apply validateUserDelete_inv in Hv as (Hne & Hu & Hid & Ht & Hadm & Hf).
  apply bind_inr in Hd as ([] & w2 & Hg%or_db_inr & Hd).
  apply bind_inr in Hd as ([] & w3 & Hr%or_db_inr & Hd).
  apply bind_inr in Hd as (n & w4 & Hx%or_db_inr & [_ ->]%ret_inv).
  apply updateUserGroupRelations_inv in Hg as [Hg Hgo].
  apply updateUserRoleRelations_inv in Hr as [Hr Hro].
  pose proof (preserves_Delete TUser _ [TUser] ltac:(by left) _ _ _ Hx) as [Hxo _].
  split_and!; try done; [by exists u|..].
  - intros x. rewrite (Delete_In TUser _ _ _ _ x Hx).
    rewrite Hro, Hgo, (db_frame_rows _ _ _ Hf) by done. unfold by_id.
    rewrite andb_false_iff, !Z.eqb_neq, Hid. tauto.
  - intros x. rewrite (Hxo TUserGroup), Hro, Hg, (db_frame_rows _ _ _ Hf)
      by (done || by apply not_in_one). apply exists_nil.
  - intros x. rewrite (Hxo TUserRole), Hr, Hgo, (db_frame_rows _ _ _ Hf)
      by (done || by apply not_in_one). apply exists_nil.
  - intros t H1' H2' H3'. rewrite (Hxo t), Hro, Hgo by (done || by apply not_in_one).
    by apply db_frame_rows.
Qed.

Lemma perm_head {A} (x : A) l l' : l ≡ₚ x :: l' -> x ∈ l.
Proof. intros ->. by left. Qed.

(** The row [addUser] inserts, with the identifier [id]. *)
Definition added_user (id tid a b : Z) (u : IUser.t) (password : string)
    : User.t :=
  User.set_ID id (User_BeforeCreate a b
    (User.set_PasswordUpdateFlag (Some true)
      (User.set_Password (encodePassword password) (user_row tid u)))).

(** [addUser] inserts one user and its relations: the row has a fresh
    identifier, the requested columns, the digest of the generated password
    and the flag that demands a new password; no other user has its account;
    its roles and groups are exactly the requested ones; everything else is as
    before; and the answer is the new user's. *)
Theorem addUser_spec u t password w rsp w' :
  user_msg_typed u = true -> IUser.Tenant u = Some t -> IUser.Id u = 0 ->
  addUser u password w = (inr rsp, w') ->
  exists id a b,
    let row := added_user id (ITenant.Id t) a b u password in
    0 < id < Int.two63 /\ R TUser w' ≡ₚ row :: R TUser w /\
    (forall x, x ∈ R TUser w ->
       User.ID x <> id /\ User.Account x <> IUser.Account u) /\
    (forall x, x ∈ R TUserRole w' <->
       (exists r, r ∈ IUser.Roles u /\ x = UserRole.mk id (IRole.Id r)) \/
       (x ∈ R TUserRole w /\ UserRole.UserID x <> id)) /\
    (forall x, x ∈ R TUserGroup w' <->
       (exists g, g ∈ IUser.Groups u /\ x = UserGroup.mk id (IGroup.Id g)) \/
       (x ∈ R TUserGroup w /\ UserGroup.UserID x <> id)) /\
    (forall t, t <> TUser -> t <> TUserRole -> t <> TUserGroup ->
       R t w' = R t w) /\
    IUser.Id rsp = id /\ IUser.Account rsp = IUser.Account u.
Proof.
  intros Hty Hten Hzero Ha. unfold addUser in Ha.
  apply bind_inr in Ha as (r0 & w0 & (y & [= ->] & Hm)%attempt_inv & Ha).
  rewrite (userRspToModel_ok u t) in Hm by done. symmetry in Hm.
  injection Hm as -> ->.
  apply bind_inr in Ha as (user & w1 & Hu & Ha).
  apply or_unknown_err_inr in Hu as [[= <-] ->].
  apply bind_inr in Ha as (row & w2 & Hs%or_db_inr & Ha).
  apply bind_inr in Ha as ([] & w3 & Hr%or_db_inr & Ha).
  apply bind_inr in Ha as ([] & w4 & Hg%or_db_inr & Ha).
  apply bind_inr in Ha as (roles & w5 & Hroles%or_db_inr & Ha).
  apply bind_inr in Ha as (groups & w6 & Hgroups%or_db_inr & Ha).
  apply bind_inr in Ha as (rspu & w7 & Hrsp & Ha).
  apply or_unknown_err_inr in Hrsp as [Hrsp ->].
  apply bind_inr in Ha as (rroles & w8 & Hrr & Ha).
  apply bind_inr in Ha as (rgroups & w9 & Hrg & [[= ->] ->]%ret_inv).
  pose proof (preserves_Save TUser _ [TUser] ltac:(by left) _ _ _ Hs) as [Hso _].
  apply (Save_new TUser) in Hs as (r1 & w10 & Hc & (id & Hid & Hrow) & HR);
    [|cbn; by rewrite Hzero].
  apply bind_inr in Hc as (a & w11 & _ & Hc).
  apply bind_inr in Hc as (b & w12 & _ & [[= ->] _]%ret_inv).
  cbn in Hrow. rewrite Hzero in Hrow. cbn in Hrow.
  apply updateUserRoleRelations_inv in Hr as [Hr Hro].
  apply updateUserGroupRelations_inv in Hg as [Hg Hgo].
  assert (db_frame [] w4 w9) as Hf.
  { etrans; [by apply (ro_User_Roles (db_frame []) _ _ _ _ Hroles)|].
    etrans; [by apply (ro_User_Groups (db_frame []) _ _ _ _ Hgroups)|].
    assert (forall A B (f : A -> err + B) l, Preserves (db_frame [])
      (map_each (fun v => or_unknown_err (f v)) l)) as Hmap.
    { intros. apply preserves_map_each; [apply _|]. intros. apply _. }
    etrans; [by apply (Hmap _ _ roleModelToRsp _ _ _ _ Hrr)|].
    by apply (Hmap _ _ groupModelToRsp _ _ _ _ Hrg). }
  exists id, a, b.
  assert (row = added_user id (ITenant.Id t) a b u password) as Hrow2.
  { rewrite Hrow. done. }
  assert (User.ID row = id) as Hidr by by rewrite Hrow2.
  rewrite Hidr in *. cbv zeta. rewrite <- Hrow2.
  split_and!; try apply Hid.
  - rewrite (db_frame_rows _ _ _ Hf), Hgo, Hro by done. done.
  - intros x Hx. pose proof (inserted_fresh TUser _ _ _ _ HR Hx) as Hn.
    unfold conflict in Hn. cbn in Hn. bools. rewrite Hrow2 in *. done.
  - intros x. rewrite (db_frame_rows _ _ _ Hf), Hgo, Hr by done.
    by rewrite (Hso TUserRole) by by apply not_in_one.
  - intros x. rewrite (db_frame_rows _ _ _ Hf), Hg, Hro by done.
    by rewrite (Hso TUserGroup) by by apply not_in_one.
  - intros t' H1' H2' H3'. rewrite (db_frame_rows _ _ _ Hf), Hgo, Hro by done.
    by apply Hso, not_in_one.
  - assert (typed TUser row = true) as Htyp.
    { apply (rows_typed TUser (w_db w2)).
      change (rows TUser (w_db w2)) with (R TUser w2). rewrite HR. by left. }
    rewrite userModelToRsp_ok in Hrsp by done. injection Hrsp as <-. done.
  - assert (typed TUser row = true) as Htyp.
    { apply (rows_typed TUser (w_db w2)).
      change (rows TUser (w_db w2)) with (R TUser w2). rewrite HR. by left. }
    rewrite userModelToRsp_ok in Hrsp by done. injection Hrsp as <-.
    by rewrite Hrow2.
Qed.
End users.

(** ** Examples *)
#[local] Existing Instance mem_backend.
#[local] Existing Instance mem_backend_laws.
#[local] Existing Instance s_globals.

Lemma deleteUser_spec_witness :
  (exists u, u ∈ R TUser s_world /\ User.ID u = 4) /\
  forall x, x ∈ R TUser (deleteUser 1 4 s_world).2 -> User.ID x <> 4.
Proof.
  destruct (deleteUser_spec 1 4 s_world (deleteUser 1 4 s_world).2)
    as (_ & (u & Hu & Hid & _) & _ & Hrows & _).
  - apply ran. vm_compute. reflexivity.
  - split; [by exists u|]. intros x Hx. by apply Hrows in Hx as [_ ?].
Defined.

(** A request for a new user with one role and one group. *)
Definition s_new_user : IUser.t :=
  IUser.set_Groups [IGroup.mk 2 None "" "" 0 0]
    (s_req 0 "carol" [role_rsp s_viewer_role]).

Lemma addUser_spec_witness :
  user_msg_typed s_new_user = true /\
  exists x, x ∈ R TUser (addUser s_new_user "digest" s_world).2 /\
    User.Account x = "carol"%string /\
    User.Password x = encodePassword "digest".
Proof.
  split; [vm_compute; reflexivity|].
  destruct (ran_ok (addUser s_new_user "digest") s_world) as [rsp Hr];
    [vm_compute; reflexivity|].
  destruct (addUser_spec s_new_user (s_tenant 1) "digest" s_world rsp
    (addUser s_new_user "digest" s_world).2) as (id & a & b & Ha);
    [vm_compute; reflexivity|reflexivity|reflexivity|exact Hr|].
  destruct Ha as (_ & Hrows & _).
  eexists. split; [exact (perm_head _ _ _ Hrows)|split; reflexivity].
Defined.

(** ** Users: what the validations of a new and of a changed user demand *)
Section checks.
Context `{BackendLaws} `{Globals}.

Lemma validate_groups_inv tid v gs w w' :
  validate_groups tid v gs w = (inr tt, w') ->
  (forall g, g ∈ gs -> exists x, x ∈ R TGroup w /\
     Group.ID x = IGroup.Id g /\ Group.TenantID x = tid) /\ rows_eq w w'.
Proof.
  intros Hv.
  refine (for_idx_all _ (fun g => exists x, x ∈ R TGroup w /\
     Group.ID x = IGroup.Id g /\ Group.TenantID x = tid) w _ _ w w' _ _ Hv);
    [|done].
  intros i g w1 w2 Hw Hg. run Hg. bools.
  apply First_rows in Hr as (Hin & Hp & Hr). bools.
  rewrite (Hw TGroup) in Hin. split; [by exists x|by etrans].
Qed.

Lemma validate_roles_inv rs w w' :
  validate_roles rs w = (inr tt, w') ->
  (forall r, r ∈ rs -> exists x, x ∈ R TRole w /\ Role.ID x = IRole.Id r) /\
  rows_eq w w'.
Proof.
  intros Hv.
  refine (for_idx_all _ (fun r => exists x, x ∈ R TRole w /\
     Role.ID x = IRole.Id r) w _ _ w w' _ _ Hv); [|done].
  intros i r w1 w2 Hw Hg. apply bind_inr in Hg as (x & w3 & Hr & Hg).
  apply first_or_inr, First_rows in Hr as (Hin & Hp & Hr). bools.
  apply ret_inv in Hg as [_ ->].
  rewrite (Hw TRole) in Hin. split; [by exists x|by etrans].
Qed.

(** The limits of a user's text fields. *)
Definition texts_ok (u : IUser.t) : Prop :=
  Utf8.RuneCountInString (IUser.Department u) <= departmentLength /\
  Utf8.RuneCountInString (IUser.Position u) <= positionLength /\
  Utf8.RuneCountInString (IUser.Contact u) <= contactLength /\
  (IUser.LanguageSet u = EmptyString \/ IUser.LanguageSet u ∈ languageBoundary) /\
  Utf8.RuneCountInString (IUser.Timezone u) <= timezoneLength.

Lemma validate_texts_inv p l u w w' :
  validate_texts p l u w = (inr tt, w') -> texts_ok u /\ w' = w.
Proof.
  unfold validate_texts, rune_overflow. intros Hv. run Hv. bools.
  split; [|done]. split_and!; try done.
  apply andb_false_iff in Hr2 as [E|E]; apply negb_false_iff in E.
  - left. by apply is_empty_true.
  - right. by apply enum_spec.
Qed.

(** Name and e-mail. *)
Definition name_email_ok (u : IUser.t) : Prop :=
  IUser.Name u <> EmptyString /\
  Utf8.RuneCountInString (IUser.Name u) <= nameLength /\
  (IUser.Email u = EmptyString \/
   Utf8.RuneCountInString (IUser.Email u) <= emailLength /\
   IsExistingEmail (IUser.Email u) = true).

Lemma is_empty_false s : is_empty s = false -> s <> EmptyString.
Proof. by destruct s. Qed.

Lemma validate_name_email_inv u taken w w' :
  validate_name_email u taken w = (inr tt, w') ->
  name_email_ok u /\ (forall x, x ∈ R TUser w -> taken x = false) /\
  rows_eq w w'.
Proof.
  intros Hv.
  pose proof (ro_validate_name_email (db_frame []) _ _ _ _ _ Hv) as Hf.
  unfold validate_name_email, rune_overflow in Hv. run Hv.
  pose proof (first_absent_inr _ _ _ _ _ _ Hv) as Hno. split_and!; [|done|].
  - unfold name_email_ok. bools. split_and!; [by apply is_empty_false|done|].
    destruct (is_empty (IUser.Email u)) eqn:E.
    + left. by apply is_empty_true.
    + right. cbn in *. by bools.
  - intros t. by apply db_frame_rows.
Qed.

(** [validateUserAdd] lets a new user pass only if it names the caller's
    tenant, does not claim the administrator role, its account is not empty,
    fits its limit and is nobody else's, its name and e-mail are well formed
    and the e-mail is nobody else's, its groups are groups of the tenant, its
    roles exist and its texts fit their limits; and it writes nothing. *)
Theorem validateUserAdd_sound ctx tid req w tenant w' :
  validateUserAdd ctx tid req w = (inr tenant, w') ->
  exists u t, req = Some u /\ IUser.Tenant u = Some t /\
    IUser.Id u = 0 /\ ITenant.Id t = tid /\ tid <> 0 /\
    isAdmin (IUser.Roles u) = false /\
    IUser.Account u <> EmptyString /\
    Utf8.RuneCountInString (IUser.Account u) <= accountLength /\
    (forall x, x ∈ R TUser w -> User.Account x <> IUser.Account u /\
       has_email (IUser.Email u) x = false) /\
    name_email_ok u /\ texts_ok u /\
    (forall g, g ∈ IUser.Groups u -> exists x, x ∈ R TGroup w /\
       Group.ID x = IGroup.Id g /\ Group.TenantID x = tid) /\
    (forall r, r ∈ IUser.Roles u -> exists x, x ∈ R TRole w /\
       Role.ID x = IRole.Id r) /\
    rows_eq w w'.
Proof.
  intros Hv. pose proof (ro_validateUserAdd (db_frame []) _ _ _ _ _ _ Hv) as Hf.
  unfold validateUserAdd in Hv.
  apply bind_inr in Hv as (u & w1 & [-> ->]%deref_inr & Hv).
  apply bind_inr in Hv as ([] & w2 & [Hid ->]%guard_err_inr & Hv).
  apply bind_inr in Hv as ([] & w3 & [Hnt ->]%guard_err_inr & Hv).
  apply bind_inr in Hv as (t & w4 & [Ht ->]%deref_inr & Hv).
  apply bind_inr in Hv as ([] & w5 & [Htid ->]%guard_err_inr & Hv).
  apply bind_inr in Hv as ([] & w6 & [Hadm ->]%guard_err_inr & Hv).
  apply bind_inr in Hv as (tn & w7 & Htn & Hv).
  assert (rows_eq w w7) as Hw7.
  { intros t'. apply db_frame_rows.
    by refine (ro_tenant_or_unknown (db_frame []) _ _ _ _ _ Htn). }
  apply bind_inr in Hv as ([] & w8 & [Hacc ->]%guard_err_inr & Hv).
  apply bind_inr in Hv as ([] & w9 & [Hlen ->]%guard_err_inr & Hv).
  apply bind_inr in Hv as ([] & w10 & Habs & Hv).
  pose proof (ro_first_absent (db_frame []) _ _ _ _ _ _ Habs) as Hw10.
  pose proof (first_absent_inr _ _ _ _ _ _ Habs) as Hno.
  apply bind_inr in Hv as ([] & w11 & Hne & Hv).
  apply validate_name_email_inv in Hne as (Hne & Hmail & Hw11).
  apply bind_inr in Hv as ([] & w12 & Hg & Hv).
  apply validate_groups_inv in Hg as [Hg Hw12].
  apply bind_inr in Hv as ([] & w13 & Hr & Hv).
  apply validate_roles_inv in Hr as [Hr Hw13].
  apply bind_inr in Hv as ([] & w14 & Htx & [_ ->]%ret_inv).
  apply validate_texts_inv in Htx as [Htx ->].
  unfold no_tenant in Hnt. rewrite Ht in Hnt. unfold rune_overflow in Hlen. bools.
  rewrite <- Htid in *.
  exists u, t. split_and!; try done.
  - by apply is_empty_false.
  - intros x Hx. rewrite <- (Hw7 TUser) in Hx. split.
    + specialize (Hno x Hx). cbn beta in Hno. by bools.
    + apply Hmail. by rewrite (db_frame_rows _ _ TUser Hw10).
  - intros g Hgg. rewrite <- (Hw7 TGroup), <- (db_frame_rows _ _ TGroup Hw10),
      <- (Hw11 TGroup). by apply Hg.
  - intros r Hrr. rewrite <- (Hw7 TRole), <- (db_frame_rows _ _ TRole Hw10),
      <- (Hw11 TRole), <- (Hw12 TRole). by apply Hr.
  - intros t'. by apply db_frame_rows.
Qed.

(** [validateUserUpdate] protects accounts: an update passes only if it is
    the caller's own or the caller is an administrator or manager, only an
    administrator may update the administrator, nobody else may be given the
    administrator role, and neither the account nor the tenant of the stored
    user changes; a stored user is found by its id (a request without an id is
    compared with some user of the tenant).  It writes nothing. *)
Theorem validateUserUpdate_sound ctx tid reqUser req w w' :
  validateUserUpdate ctx tid reqUser req w = (inr tt, w') ->
  exists u t old, UpdateUserRequest.User req = Some u /\
    IUser.Tenant u = Some t /\ UpdateUserRequest.UserId req = IUser.Id u /\
    (isAdmin (IUser.Roles reqUser) = true \/
     IUser.Id u <> User.ID adminUser /\
     (isManager (IUser.Roles reqUser) = true \/
      IUser.Id reqUser = IUser.Id u)) /\
    (isAdmin (IUser.Roles u) = true -> IUser.Id u = User.ID adminUser) /\
    old ∈ R TUser w /\ (IUser.Id u = 0 \/ User.ID old = IUser.Id u) /\
    (tid = 0 \/ User.TenantID old = tid) /\
    User.TenantID old = ITenant.Id t /\ User.Account old = IUser.Account u /\
    name_email_ok u /\ texts_ok u /\
    (forall x, x ∈ R TUser w -> User.ID x <> IUser.Id u ->
       has_email (IUser.Email u) x = false) /\
    rows_eq w w'.
Proof.
  intros Hv.
  pose proof (ro_validateUserUpdate (db_frame []) _ _ _ _ _ _ _ Hv) as Hf.
  unfold validateUserUpdate in Hv.
  destruct (UpdateUserRequest.User req) as [u|]; [|by apply throw_inv in Hv as [? _]].
  apply bind_inr in Hv as ([] & w2 & [Hnt ->]%guard_err_inr & Hv).
  apply bind_inr in Hv as (t & w4 & [Ht ->]%deref_inr & Hv).
  apply bind_inr in Hv as ([] & w3 & [Hid ->]%guard_err_inr & Hv).
  apply bind_inr in Hv as ([] & w5 & [Hg1 ->]%guard_err_inr & Hv).
  apply bind_inr in Hv as ([] & w6 & [Hg2 ->]%guard_err_inr & Hv).
  apply bind_inr in Hv as ([] & w7 & [Hg3 ->]%guard_err_inr & Hv).
  apply bind_inr in Hv as (old & w8 & Hold%first_or_inr & Hv).
  apply First_rows in Hold as (Hin & Hp & Hw8).
  apply bind_inr in Hv as ([] & w9 & [Hten ->]%guard_err_inr & Hv).
  apply bind_inr in Hv as ([] & w10 & [Hacc ->]%guard_err_inr & Hv).
  apply bind_inr in Hv as ([] & w11 & Hne & Hv).
  apply validate_name_email_inv in Hne as (Hne & Hmail & Hw11).
  apply bind_inr in Hv as ([] & w12 & _ & Hv).
  apply validate_texts_inv in Hv as [Htx ->].
  unfold user_struct in Hp. bools.
  exists u, t, old. split_and!; try done.
  - destruct (isAdmin (IUser.Roles reqUser)); [by left|right].
    cbn [negb andb] in *. bools. split; [done|].
    destruct (isManager (IUser.Roles reqUser)); [by left|right].
    cbn [negb andb] in *. by bools.
  - intros Ha. rewrite Ha, andb_true_r in Hg2. by bools.
  - destruct (Z.eqb_spec (IUser.Id u) 0); [by left|right]. cbn in *. by bools.
  - destruct (Z.eqb_spec tid 0); [by left|right]. cbn in *. by bools.
  - intros x Hx Hne2. rewrite <- (Hw8 TUser) in Hx. specialize (Hmail x Hx).
    apply Z.eqb_neq in Hne2. by rewrite Hne2 in Hmail.
  - intros t'. by apply db_frame_rows.
Qed.
End checks.

(** ** Examples *)
#[local] Existing Instance mem_backend.
#[local] Existing Instance mem_backend_laws.
#[local] Existing Instance s_globals.

Lemma validateUserAdd_sound_witness :
  is_ok (validateUserAdd (s_ctx s_req_manager) 1 (Some s_new_user) s_world).1
    = true /\
  name_email_ok s_new_user /\
  forall x, x ∈ R TUser s_world -> User.Account x <> "carol"%string.
Proof.
  split; [vm_compute; reflexivity|].
  destruct (ran_ok (validateUserAdd (s_ctx s_req_manager) 1 (Some s_new_user))
    s_world) as [t Hr]; [vm_compute; reflexivity|].
  destruct (validateUserAdd_sound (s_ctx s_req_manager) 1 (Some s_new_user)
    s_world t _ Hr)
    as (u & _ & [= <-] & _ & _ & _ & _ & _ & _ & _ & Hacc & Hne & _).
  split; [exact Hne|]. intros x Hx. by apply Hacc.
Defined.

Definition s_update : UpdateUserRequest.t :=
  UpdateUserRequest.mk 3 (Some s_req_alice).

Lemma validateUserUpdate_sound_witness :
  exists old, old ∈ R TUser s_world /\ User.ID old = 3 /\
  User.Account old = "alice"%string.
Proof.
  destruct (validateUserUpdate_sound (s_ctx s_req_alice) 1 s_req_alice s_update
    s_world (validateUserUpdate (s_ctx s_req_alice) 1 s_req_alice s_update
      s_world).2)
    as (u & _ & old & [= <-] & _ & _ & _ & _ & Hold & [?|Hid] & _ & _ & Hacc & _).
  - apply ran. vm_compute. reflexivity.
  - done.
  - exists old. split; [exact Hold|]. split; [exact Hid|exact Hacc].
Defined.
