(* ===== verification/UserUpdateProps.v ===== *)
(** * Users: updates, passwords, and what the validations demand *)

From stdpp Require Import base tactics list strings sets gmap.
From Stdlib Require Import ZArith Lia Ascii.
From S2P Require Import Prelude GoStd Json Model Backend Errors Proto Metadata.
From S2P Require Import Gorm Database GormFacts Report Config Store IdBase.
From S2P Require Import IdTenant IdGroup IdUser IdSession IdConfig IdHandler.
From S2P Require Import IdFacts RefBackend UserProps.
#[local] Open Scope Z_scope.
#[local] Open Scope go_scope.

Section update.
Context `{BackendLaws} `{Globals}.

(** Who may change the roles and groups of user [uid]. *)
Definition manages (reqUser : IUser.t) (uid : Z) : bool :=
  (isAdmin (IUser.Roles reqUser) || isManager (IUser.Roles reqUser))
  && negb (uid =? User.ID adminUser).

(** [updateUser] replaces one row and, for a caller that manages the user,
    the user's rows of roles and groups. *)
Lemma updateUser_run tid reqUser u t old w rsp w' :
  user_msg_typed u = true -> IUser.Tenant u = Some t ->
  old ∈ R TUser w -> User.ID old = IUser.Id u ->
  User.Account old = IUser.Account u ->
  updateUser tid reqUser u w = (inr rsp, w') ->
  exists now,
    let row := User_BeforeUpdate now
                 (keep_stored old (user_row (ITenant.Id t) u)) in
    R TUser w' ≡ₚ replace_user row (R TUser w) /\
    User.Password row = User.Password old /\
    User.LastLoginFailedCount row = None /\
    User.LastLoginFailedAt row = None /\
    (forall x, x ∈ R TUserRole w' <->
       if manages reqUser (IUser.Id u) then
         (exists r, r ∈ IUser.Roles u /\
            x = UserRole.mk (IUser.Id u) (IRole.Id r)) \/
         (x ∈ R TUserRole w /\ UserRole.UserID x <> IUser.Id u)
       else x ∈ R TUserRole w) /\
    (forall x, x ∈ R TUserGroup w' <->
       if manages reqUser (IUser.Id u) then
         (exists g, g ∈ IUser.Groups u /\
            x = UserGroup.mk (IUser.Id u) (IGroup.Id g)) \/
         (x ∈ R TUserGroup w /\ UserGroup.UserID x <> IUser.Id u)
       else x ∈ R TUserGroup w) /\
    forall t, t <> TUser -> t <> TUserRole -> t <> TUserGroup ->
      R t w' = R t w.
Proof.
  intros Hty Hten Hold Hid Hacc Hu. unfold updateUser in Hu.
  apply bind_inr in Hu as (r0 & w0 & (y & [= ->] & Hm)%attempt_inv & Hu).
  rewrite (userRspToModel_ok u t) in Hm by done. symmetry in Hm.
  injection Hm as -> ->.
  apply bind_inr in Hu as (user & w1 & Hr & Hu).
  apply or_unknown_err_inr in Hr as [[= <-] ->].
  apply bind_inr in Hu as (old' & w2 & Hf%or_db_inr & Hu).
  pose proof (preserves_First _ _ [] _ _ _ Hf) as Hf2.
  apply First_ok in Hf as (Hin & Hp & _). unfold by_id in Hp. bools.
  assert (old' = old) as ->.
  { eapply user_id_unique; [exact Hold|exact Hin|]. congruence. }
  apply bind_inr in Hu as (row & w3 & Hs%or_db_inr & Hu).
  pose proof (preserves_Save TUser _ [TUser] ltac:(by left) _ _ _ Hs) as [Hso _].
  apply (Save_user old) in Hs as [[n Hrow] Hrows];
    [|by rewrite (db_frame_rows _ _ _ Hf2)|done|done].
  assert (User.ID row = IUser.Id u) as Hrid by by rewrite Hrow.
  apply bind_inr in Hu as ([] & w4 & Hrel & Hu). rewrite Hrid in *.
  fold (manages reqUser (IUser.Id u)) in Hrel.
  apply bind_inr in Hu as (rsp0 & w5 & Hr & Hu).
  apply or_unknown_err_inr in Hr as [_ ->].
  apply bind_inr in Hu as (ten & w6 & [_ ->]%deref_inr & Hu).
  apply bind_inr in Hu as (tenant & w7 & Hr1 & Hu).
  apply bind_inr in Hu as (roles & w8 & Hr2 & Hu).
  apply bind_inr in Hu as (groups & w9 & Hr3 & [_ ->]%ret_inv).
  assert (db_frame [] w4 w9) as Hend.
  { etrans; [by refine (ro_tenant_or_unknown (db_frame []) _ _ _ _ _ Hr1)|].
    etrans; [by apply (ro_user_roles (db_frame []) _ _ _ _ Hr2)|].
    by apply (ro_user_groups (db_frame []) _ _ _ _ _ _ Hr3). }
  exists (clock n / 1000000000). cbv zeta. rewrite <- Hrow.
  assert (forall t, t <> TUser -> R t w3 = R t w) as Hw3.
  { intros t' Ht. rewrite <- (db_frame_rows _ _ t' Hf2). by apply Hso, not_in_one. }
  rewrite (db_frame_rows _ _ _ Hf2) in Hrows.
  destruct (manages reqUser (IUser.Id u)).
  - apply bind_inr in Hrel as ([] & w10 & Hro%or_db_inr & Hgr%or_db_inr).
    apply updateUserRoleRelations_inv in Hro as [Hro Hroo].
    apply updateUserGroupRelations_inv in Hgr as [Hgr Hgro].
    split_and!; try (by rewrite Hrow).
    + rewrite (db_frame_rows _ _ _ Hend), Hgro, Hroo by done. done.
    + intros x. rewrite (db_frame_rows _ _ _ Hend), Hgro, Hro by done.
      by rewrite Hw3.
    + intros x. rewrite (db_frame_rows _ _ _ Hend), Hgr, Hroo by done.
      by rewrite Hw3.
    + intros t' H1' H2' H3'.
      rewrite (db_frame_rows _ _ _ Hend), Hgro, Hroo by done. by apply Hw3.
  - apply ret_inv in Hrel as [_ ->].
    split_and!; try (by rewrite Hrow).
    + by rewrite (db_frame_rows _ _ _ Hend).
    + intros x. by rewrite (db_frame_rows _ _ _ Hend), Hw3.
    + intros x. by rewrite (db_frame_rows _ _ _ Hend), Hw3.
    + intros t' H1' H2' H3'. rewrite (db_frame_rows _ _ _ Hend). by apply Hw3.
Qed.

Lemma opt_of_null s : opt_of s = if String.eqb s "" then None else Some s.
Proof. by destruct s. Qed.

(** The rows of the users but one. *)
Lemma replace_user_split r old w :
  old ∈ R TUser w -> User.ID r = User.ID old ->
  exists others, R TUser w ≡ₚ old :: others /\
    replace_user r (R TUser w) ≡ₚ update_row TUser r old :: others.
Proof.
  intros Hin Hid. destruct (proj1 (elem_of_Permutation _ _) Hin) as [others Hp].
  exists others. split; [done|]. unfold replace_user.
  rewrite (Permutation_map _ Hp). cbn [map]. rewrite Hid, Z.eqb_refl.
  apply Permutation_refl'. f_equal.
  transitivity (map id others); [|apply List.map_id].
  apply List.map_ext_in. intros y Hy%list_elem_of_In.
  destruct (Z.eqb_spec (User.ID y) (User.ID old)) as [He|]; [|done]. exfalso.
  assert (y ∈ R TUser w) as Hyw by (rewrite Hp; by right).
  rewrite (user_id_unique w old y Hin Hyw He) in Hy.
  pose proof (rows_nodup TUser (w_db w)) as Hn. apply NoDup_ListNoDup in Hn.
  change (rows TUser (w_db w)) with (R TUser w) in Hn. rewrite Hp in Hn.
  by apply NoDup_cons in Hn as [? _].
Qed.

(** C6. When the handler [UpdateUser] succeeds, exactly one row of the users
    has been replaced, the row of the user the request names, whose account
    and tenant are the request's.  Of the former row it keeps the password,
    the password before it, the time and the flag of the password and the time
    of the last login, and the creation time unless the request brings one;
    name, department, position, mail, contact, language and time zone are the
    request's (an empty text is NULL), and the address of the last login and
    the count and time of failed logins are NULL, so that an update lifts a
    login restriction.  The roles and groups of the user become the requested
    ones when the caller is an administrator or manager and the user is not
    the administrator, and stay as they are otherwise.  Nothing else is
    written.  (The integers of the request fit their types, as in a message
    that was decoded, and it names a user: number 0 names none.) *)
Theorem UpdateUser_spec ctx req u w rsp w' :
  UpdateUserRequest.User req = Some u -> user_msg_typed u = true ->
  IUser.Id u <> 0 ->
  UpdateUser ctx req w = (inr rsp, w') ->
  exists reqUser old others now,
    let text s := if String.eqb s "" then None else Some s in
    GetAuthenticatedUser ctx = inr reqUser /\
    User.ID old = IUser.Id u /\ User.Account old = IUser.Account u /\
    option_map ITenant.Id (IUser.Tenant u) = Some (User.TenantID old) /\
    R TUser w ≡ₚ old :: others /\
    R TUser w' ≡ₚ
      User.mk (User.ID old) (User.TenantID old) (User.Account old)
        (IUser.Name u) (text (IUser.Department u)) (text (IUser.Position u))
        (text (IUser.Email u)) (text (IUser.Contact u))
        (text (IUser.LanguageSet u)) (text (IUser.Timezone u))
        (User.Password old) (User.OldPassword old)
        (User.PasswordUpdatedAt old) (User.PasswordUpdateFlag old)
        (User.LastLoggedInAt old) None None None
        (if IUser.CreatedAt u =? 0 then User.CreatedAt old
         else IUser.CreatedAt u) now
      :: others /\
    (forall x, x ∈ R TUserRole w' <->
       if manages reqUser (IUser.Id u) then
         (exists r, r ∈ IUser.Roles u /\
            x = UserRole.mk (IUser.Id u) (IRole.Id r)) \/
         (x ∈ R TUserRole w /\ UserRole.UserID x <> IUser.Id u)
       else x ∈ R TUserRole w) /\
    (forall x, x ∈ R TUserGroup w' <->
       if manages reqUser (IUser.Id u) then
         (exists g, g ∈ IUser.Groups u /\
            x = UserGroup.mk (IUser.Id u) (IGroup.Id g)) \/
         (x ∈ R TUserGroup w /\ UserGroup.UserID x <> IUser.Id u)
       else x ∈ R TUserGroup w) /\
    forall t, t <> TUser -> t <> TUserRole -> t <> TUserGroup ->
      R t w' = R t w.
Proof.
  intros Hreq Hty Hne Hu. unfold UpdateUser in Hu. rewrite Hreq in Hu.
  apply transaction_outcome in Hu; [|keep].
  destruct Hu as (w0 & w1 & db & Hw0 & Hf & Hw1 & _).
  apply bind_inr in Hf as ([tid reqUser] & w2 & Hm%check_inr & Hf).
  apply getRequestMetadata_inv in Hm as (_ & Hru & ->).
  apply bind_inr in Hf as ([] & w3 & Hv%check_inr & Hf).
  apply bind_inr in Hf as (u' & w4 & [[= <-] ->]%deref_inr & Hf).
  apply bind_inr in Hf as (x & w5 & Hup%check_inr & Hf).
  pose proof (ok_rows _ _ _ _ _ _ Hf) as Hok.
  apply validateUserUpdate_sound in Hv as (u0 & t & old & Hu0 & Ht & _ & _ & _ &
    Hold & Hid & _ & Hten & Hacc & _ & _ & _ & Hw3).
  rewrite Hreq in Hu0. injection Hu0 as <-. destruct Hid as [?|Hid]; [done|].
  pose proof Hold as Hold3. rewrite <- (Hw3 TUser) in Hold3.
  apply (updateUser_run _ _ _ t old) in Hup as (now & Hrows & _ & _ & _ & Hr & Hg & Ho);
    try done.
  rewrite (Hw3 TUser), (Hw0 TUser) in Hrows. rewrite (Hw0 TUser) in Hold.
  destruct (replace_user_split (User_BeforeUpdate now
      (keep_stored old (user_row (ITenant.Id t) u))) old w Hold)
    as (others & Hp & Hp'); [done|]. rewrite Hp' in Hrows.
  exists reqUser, old, others. eexists. cbv zeta.
  rewrite (Hw1 TUser), (Hw1 TUserRole), (Hw1 TUserGroup).
  rewrite (Hok TUser), (Hok TUserRole), (Hok TUserGroup).
  split_and!; try done.
  - by rewrite Ht, Hten.
  - rewrite Hrows, Hid, Hten, Hacc. cbn. apply Permutation_refl'. f_equal.
    rewrite <- !opt_of_null. by destruct (IUser.CreatedAt u =? 0).
  - intros y. rewrite Hr. by rewrite (Hw3 TUserRole), (Hw0 TUserRole).
  - intros y. rewrite Hg. by rewrite (Hw3 TUserGroup), (Hw0 TUserGroup).
  - intros t' H1' H2' H3'. by rewrite Hw1, Hok, Ho, Hw3, Hw0.
Qed.

(** Saving a new password for the row [u]. *)
Lemma save_password flag n password u w w1 u' w' :
  (forall t, R t w1 = R t w) -> u ∈ R TUser w ->
  Save TUser (set_password flag n password u) w1 = (inr u', w') ->
  exists now, R TUser w' ≡ₚ
    replace_user (User_BeforeUpdate now (set_password flag n password u))
      (R TUser w) /\
    forall t, t <> TUser -> R t w' = R t w.
Proof.
  intros Hw Hu Hs.
  pose proof (preserves_Save TUser _ [TUser] ltac:(by left) _ _ _ Hs) as [Hso _].
  apply (Save_user u) in Hs as [[m ->] Hr]; [|by rewrite Hw|done|done].
  rewrite Hw in Hr. exists (clock m / 1000000000). split; [done|].
  intros t Ht. rewrite <- Hw. by apply Hso, not_in_one.
Qed.

(** The tenant's setting allows the last password but one to come back. *)
Definition reuse_allowed (w : World) (tid : Z) : Prop :=
  exists v, setting w tid UserReuseOldPassword v /\ Value.Bool v = inr true.

Lemma validateUserPasswordUpdate_inv reqUser req w w' :
  validateUserPasswordUpdate reqUser req w = (inr tt, w') ->
  exists u t, u ∈ R TUser w /\ IUser.Tenant reqUser = Some t /\
    User.ID u = UpdateUserPasswordRequest.UserId req /\
    User.ID u = IUser.Id reqUser /\
    User.Password u = UpdateUserPasswordRequest.CurrentPassword req /\
    0 < len (UpdateUserPasswordRequest.NewPassword req) <= passwordLength /\
    (User.OldPassword u = Some (UpdateUserPasswordRequest.NewPassword req) ->
     reuse_allowed w (ITenant.Id t)) /\
    db_frame [] w w'.
Proof.
  intros Hv.
  pose proof (ro_validateUserPasswordUpdate (db_frame []) _ _ _ _ _ Hv) as Hf.
  unfold validateUserPasswordUpdate in Hv. run Hv. bools.
  pose proof (preserves_First _ _ [] _ _ _ Hr5) as Hf1.
  apply First_ok in Hr5 as (Hu & Hp & _). unfold by_id in Hp. bools.
  exists x5, x7. rewrite Hr7. split_and!; try done; try congruence.
  - rewrite is_empty_len in Hr1. bools. unfold len in *. lia.
  - intros Hold. apply TenantConfig_run in Hr8 as (o & [= <-] & Ho).
    rewrite Hold, String.eqb_refl, andb_true_r in Hv. bools. subst x9.
    destruct x8 as [c|]; [|by apply ret_inv in Hr9 as [? _]].
    apply or_unknown_err_inr in Hr9 as [Hb ->].
    exists (cfg_Value c). split; [|done]. destruct Ho as [_ Ho].
    unfold setting in *. by rewrite (db_frame_rows _ _ _ Hf1) in Ho.
Qed.

(** [UpdateUserPassword] changes the caller's own password only: when it
    succeeds the request gave the stored password, the new one is not the one
    before it unless the tenant allows that, and the row of the caller is the
    only thing that changed: it has the new password, remembers the former one
    and no longer demands a change. *)
Theorem UpdateUserPassword_spec ctx req w w' :
  UpdateUserPassword ctx req w = (inr tt, w') ->
  exists reqUser t u n now,
    GetAuthenticatedUser ctx = inr reqUser /\ IUser.Tenant reqUser = Some t /\
    u ∈ R TUser w /\ User.ID u = UpdateUserPasswordRequest.UserId req /\
    User.ID u = IUser.Id reqUser /\
    User.Password u = UpdateUserPasswordRequest.CurrentPassword req /\
    (User.OldPassword u = Some (UpdateUserPasswordRequest.NewPassword req) ->
     reuse_allowed w (ITenant.Id t)) /\
    R TUser w' ≡ₚ replace_user (User_BeforeUpdate now (set_password false n
        (UpdateUserPasswordRequest.NewPassword req) u)) (R TUser w) /\
    forall t, t <> TUser -> R t w' = R t w.
Proof.
  intros Hu. unfold UpdateUserPassword in Hu.
  apply transaction_outcome in Hu; [|keep].
  destruct Hu as (w0 & w1 & db & Hw0 & Hf & Hw1 & _).
  apply bind_inr in Hf as ([tid reqUser] & w2 & Hm%check_inr & Hf).
  apply getRequestMetadata_inv in Hm as (_ & Hru & ->).
  apply bind_inr in Hf as ([] & w3 & Hv%check_inr & Hf).
  apply bind_inr in Hf as ([] & w4 & Hp%check_inr & Hf).
  apply validateUserPasswordUpdate_inv in Hv as
    (u & t & Hin & Ht & Hid & Hid2 & Hcur & _ & Hreuse & Hf3).
  unfold updateUserPassword in Hp.
  apply bind_inr in Hp as (u' & w5 & Hfirst%first_or_inr & Hp).
  pose proof (preserves_First _ _ [] _ _ _ Hfirst) as Hf5.
  apply First_ok in Hfirst as (Hin' & Hp' & _). unfold by_id in Hp'. bools.
  rewrite (db_frame_rows _ _ TUser Hf3) in Hin'.
  assert (u' = u) as ->.
  { eapply user_id_unique; [exact Hin|exact Hin'|congruence]. }
  apply bind_inr in Hp as (n & w6 & Hn%now_unix_inr & Hp).
  destruct Hn as [_ Hw6].
  apply bind_inr in Hp as (u' & w7 & Hs%or_db_inr & [_ ->]%ret_inv).
  apply (save_password _ _ _ _ w0) in Hs as (now & Hr & Ho).
  - exists reqUser, t, u, n, now.
    assert (forall t, R t w' = R t w7) as Hend.
    { intros t'. rewrite Hw1. by apply ok_rows in Hf. }
    rewrite (Hw0 TUser) in Hin, Hr. split_and!; try done.
    + intros Hold. destruct (Hreuse Hold) as (v & Hv & Hb). exists v.
      split; [|done]. unfold setting in *. by rewrite (Hw0 TTenantConfig) in Hv.
    + by rewrite Hend.
    + intros t' Ht'. by rewrite Hend, Ho, Hw0.
  - intros t'. rewrite Hw6. change (R t' w5 = R t' w0).
    by rewrite (db_frame_rows _ _ t' Hf5), (db_frame_rows _ _ t' Hf3).
  - done.
Qed.

(** [ResetUserPassword] gives a user of the caller's tenant a fresh
    password: the row of the user, and nothing else, then holds the digest of
    the password the answer shows and demands that it is changed; a manager
    cannot do this to the administrator. *)
Theorem ResetUserPassword_spec ctx uid w password w' :
  ResetUserPassword ctx uid w = (inr password, w') ->
  exists tid reqUser u n now,
    GetTenantID ctx = inr tid /\ GetAuthenticatedUser ctx = inr reqUser /\
    u ∈ R TUser w /\ User.ID u = uid /\ (tid = 0 \/ User.TenantID u = tid) /\
    (isManager (IUser.Roles reqUser) = true -> uid <> User.ID adminUser) /\
    R TUser w' ≡ₚ replace_user (User_BeforeUpdate now
        (set_password true n (encodePassword password) u)) (R TUser w) /\
    forall t, t <> TUser -> R t w' = R t w.
Proof.
  intros Hu. unfold ResetUserPassword in Hu.
  apply transaction_outcome in Hu; [|keep].
  destruct Hu as (w0 & w1 & db & Hw0 & Hf & Hw1 & _).
  apply bind_inr in Hf as ([tid reqUser] & w2 & Hm%check_inr & Hf).
  apply getRequestMetadata_inv in Hm as (Htid & Hru & ->).
  apply bind_inr in Hf as (p & w3 & Hp%check_inr & Hf).
  pose proof (ok_rows _ _ _ _ _ _ Hf) as Hok.
  apply ok_inr in Hf as (-> & _). unfold resetUserPassword in Hp.
  apply bind_inr in Hp as (u & w4 & Hv & Hp).
  pose proof (ro_validateUserPasswordReset (db_frame []) _ _ _ _ _ _ _ Hv) as Hf4.
  unfold validateUserPasswordReset in Hv. run Hv. bools.
  apply First_ok in Hr0 as (Hin & Hs & _). unfold user_struct in Hs.
  destruct (Z.eqb_spec uid 0) as [|Hne]; [done|]. cbn in Hs. bools.
  apply bind_inr in Hp as (pw & w5 & Hgen & Hp).
  pose proof (ro_generatePassword (db_frame []) _ _ _ Hgen) as Hf5.
  apply bind_inr in Hp as (n & w6 & Hn%now_unix_inr & Hp).
  destruct Hn as [_ Hw6].
  apply bind_inr in Hp as (u' & w7 & Hsave%or_db_inr & [[= ->] ->]%ret_inv).
  apply (save_password _ _ _ _ w0) in Hsave as (now & Hr' & Ho); [| |done].
  - exists tid, reqUser. eexists _, n, now.
    assert (forall t, R t w' = R t w7) as Hend.
    { intros t'. by rewrite Hw1, Hok. }
    rewrite (Hw0 TUser) in Hin, Hr'. split_and!; try done.
    + destruct (Z.eqb_spec tid 0); [by left|right]. cbn in *. by bools.
    + intros Hman Had. rewrite Hman in Hr1. cbn in Hr1. bools. congruence.
    + by rewrite Hend.
    + intros t' Ht'. by rewrite Hend, Ho, Hw0.
  - intros t'. rewrite Hw6.
    etrans; [apply (db_frame_rows _ _ t' Hf5)|apply (db_frame_rows _ _ t' Hf4)].
Qed.
End update.

(** ** Examples *)
#[local] Existing Instance mem_backend.
#[local] Existing Instance mem_backend_laws.
#[local] Existing Instance s_globals.

(** Bob, whose failed logins block him, and an update by the manager. *)
Definition s_bob : User.t := s_user 4 "bob" "bobpw" (Some 5) (Some 1699999990).
Definition s_req_bob : IUser.t := s_req 4 "bob" [role_rsp s_viewer_role].

Definition s_update_bob : UpdateUserRequest.t :=
  UpdateUserRequest.mk 4 (Some s_req_bob).

Lemma UpdateUser_spec_witness :
  User.LastLoginFailedCount s_bob = Some 5 /\
  exists others row,
    R TUser s_world ≡ₚ s_bob :: others /\
    R TUser (UpdateUser (s_ctx s_req_manager) s_update_bob s_world).2
      ≡ₚ row :: others /\
    User.Password row = User.Password s_bob /\
    User.LastLoginFailedCount row = None.
Proof.
  split; [reflexivity|].
  destruct (ran_ok (UpdateUser (s_ctx s_req_manager) s_update_bob) s_world)
    as [rsp Hr]; [vm_compute; reflexivity|].
  destruct (UpdateUser_spec (s_ctx s_req_manager) s_update_bob s_req_bob s_world
    rsp (UpdateUser (s_ctx s_req_manager) s_update_bob s_world).2)
    as (_ & old & others & now & _ & Hid & _ & _ & Hp & Hp' & _);
    [reflexivity|vm_compute; reflexivity|done|exact Hr|].
  assert (old = s_bob) as ->.
  { apply (user_id_unique s_world); [|rewrite Hp; left|exact Hid].
    apply (bool_decide_unpack _). vm_compute. reflexivity. }
  eexists others, _. split; [exact Hp|]. split; [exact Hp'|].
  split; reflexivity.
Defined.

Definition s_change : UpdateUserPasswordRequest.t :=
  UpdateUserPasswordRequest.mk 3 "alicepw" "a new one".

Lemma UpdateUserPassword_spec_witness :
  exists u, u ∈ R TUser s_world /\ User.ID u = 3 /\
  User.Password u = "alicepw"%string /\
  exists x, R TUser (UpdateUserPassword (s_ctx s_req_alice) s_change s_world).2
      ≡ₚ replace_user x (R TUser s_world) /\
  User.Password x = "a new one"%string.
Proof.
  destruct (UpdateUserPassword_spec (s_ctx s_req_alice) s_change s_world
    (UpdateUserPassword (s_ctx s_req_alice) s_change s_world).2)
    as (_ & _ & u & n & now & _ & _ & Hu & Hid & _ & Hp & _ & Hrows & _).
  - apply ran. vm_compute. reflexivity.
  - exists u. split; [exact Hu|]. split; [exact Hid|]. split; [exact Hp|].
    eexists. split; [exact Hrows|reflexivity].
Defined.

Lemma ResetUserPassword_spec_witness :
  exists u, u ∈ R TUser s_world /\ User.ID u = 4.
Proof.
  destruct (ran_ok (ResetUserPassword (s_ctx s_req_manager) 4) s_world) as [p Hr];
    [vm_compute; reflexivity|].
  destruct (ResetUserPassword_spec (s_ctx s_req_manager) 4 s_world p
    (ResetUserPassword (s_ctx s_req_manager) 4 s_world).2 Hr)
    as (_ & _ & u & _ & _ & _ & _ & Hu & Hid & _).
  exists u. split; [exact Hu|exact Hid].
Defined.
