(* ===== verification/TransactionProps.v ===== *)
(** * common/database: transactions are all or nothing, the retry loop ends,
    and what [GormTransaction] does with an error *)

From stdpp Require Import base tactics list strings sets.
From Stdlib Require Import ZArith Lia.
From S2P Require Import Prelude GoStd Json Model Backend Errors Gorm Database.
From S2P Require Import GormFacts TransactionFacts IdFacts RefBackend.
#[local] Open Scope Z_scope.
#[local] Open Scope go_scope.

Section atomic.
Context `{BackendLaws}.

(** C7. [Transaction] is all or nothing: whatever the database answers to its
    statements, to the commit and to the rollbacks, and however often the
    closure is run again, the rows afterwards are either those one successful
    run of the closure made of the rows before, or the rows before themselves;
    a value is only returned in the first case, and an error there only says
    that the answer to the commit was lost. *)
Theorem Transaction_atomic {A} (fc : Act A) w r w' :
  Preserves base_frame fc -> Transaction fc w = (r, w') ->
  all_or_nothing fc w r w'.
Proof. apply Transaction_all_or_nothing. Qed.
End atomic.

Section loop.
Context `{BackendLaws} {A : Type} (fc : Act A).

(** A round that ends in another one: the body or the commit met a retryable
    error, and the savepoint was restored. *)
Inductive retries : World -> World -> Prop :=
| retry_body w e w1 w2 :
    fc w = (inl e, w1) -> errIsRetryable (UnwrapUnusableDatabase e) = true ->
    on_db tx_rollback_to w1 = (inr tt, w2) -> retries w w2
| retry_commit w a w1 e w2 w3 :
    fc w = (inr a, w1) ->
    on_db tx_release w1 = (inl e, w2) ->
    errIsRetryable e = true ->
    on_db tx_rollback_to w2 = (inr tt, w3) -> retries w w3.

Lemma retries_unique w w1 w2 : retries w w1 -> retries w w2 -> w1 = w2.
Proof. intros H1 H2. inversion H1; inversion H2; congruence. Qed.

Lemma abandon_answer {B} e (w : World) :
  e <> ERetrying ->
  exists (r : err + B) w', abandon e w = (r, w') /\ r <> inl ERetrying.
Proof.
  intros He. destruct (abandon (A:=B) e w) as [r w'] eqn:E.
  apply abandon_inv in E as (-> & _). exists (inl e), w'. split; congruence.
Qed.

(** The loop as one equation. *)
Lemma loop_S n w :
  execute_loop (S n) fc w =
  match fc w with
  | (inl e, w1) =>
      if errIsRetryable (UnwrapUnusableDatabase e) then
        match on_db tx_rollback_to w1 with
        | (inl _, w2) => abandon e w2
        | (inr _, w2) => execute_loop n fc w2
        end
      else abandon e w1
  | (inr a, w1) =>
      match on_db tx_release w1 with
      | (inr _, w2) => (inr a, (on_db tx_commit w2).2)
      | (inl e, w2) =>
          if errIsRetryable e then
            match on_db tx_rollback_to w2 with
            | (inl e2, w3) =>
                abandon (UnusableDatabase (Some (TxnRestartError e2 e))) w3
            | (inr _, w3) => execute_loop n fc w3
            end
          else abandon (UnusableDatabase (Some (AmbiguousCommitError e))) w2
      end
  end.
Proof.
  cbn [execute_loop]. unfold bind at 1. unfold attempt at 1.
  destruct (fc w) as [[e|a] w1].
  - destruct (errIsRetryable _); [|done]. unfold bind at 1. unfold attempt at 1.
    by destruct (on_db tx_rollback_to w1) as [[e2|u] w2].
  - unfold bind at 1. unfold attempt at 1.
    destruct (on_db tx_release w1) as [[e2|u] w2].
    + destruct (errIsRetryable _); [|done]. unfold bind at 1. unfold attempt at 1.
      by destruct (on_db tx_rollback_to w2) as [[e3|u] w3].
    + unfold bind, attempt, ret. by destruct (on_db tx_commit w2).
Qed.

#[local] Ltac no_retry :=
  split; [intros ? Hw; inversion Hw; congruence|].

Lemma abandoned_answer e w :
  e <> ERetrying ->
  exists (r : err + A) w', r <> inl ERetrying /\
    forall n : nat, abandon e w = (r, w').
Proof.
  intros He. destruct (abandon_answer (B:=A) e w He) as (r & w' & Ha & Hne).
  by exists r, w'.
Qed.

(** A round either goes on, whatever the fuel left, or answers. *)
Lemma round w :
  (forall e w', fc w = (inl e, w') -> e <> ERetrying) ->
  (exists w2, retries w w2 /\
     forall n, execute_loop (S n) fc w = execute_loop n fc w2) \/
  ((forall w2, ~ retries w w2) /\
   exists r w', r <> inl ERetrying /\
     forall n, execute_loop (S n) fc w = (r, w')).
Proof.
  intros Hfc. setoid_rewrite loop_S. destruct (fc w) as [[e|a] w1] eqn:E.
  - destruct (errIsRetryable (UnwrapUnusableDatabase e)) eqn:Hr.
    + destruct (on_db tx_rollback_to w1) as [[e2|[]] w2] eqn:E2.
      * right. no_retry. apply abandoned_answer. eauto.
      * left. exists w2. split; [by eapply retry_body|done].
    + right. no_retry. apply abandoned_answer. eauto.
  - destruct (on_db tx_release w1) as [[e2|u] w2] eqn:E2.
    + destruct (errIsRetryable e2) eqn:Hr.
      * destruct (on_db tx_rollback_to w2) as [[e3|[]] w3] eqn:E3.
        -- right. no_retry. by apply abandoned_answer.
        -- left. exists w3. split; [by eapply retry_commit|done].
      * right. no_retry. by apply abandoned_answer.
    + right. no_retry. eexists (inr a), _. split; [done|]. intros n. reflexivity.
Qed.

(** The loop has answered [r] after [n] rounds, and more do not matter. *)
Definition answers (w : World) : Prop :=
  exists r w' n, r <> inl ERetrying /\
    forall m, (n <= m)%nat -> execute_loop m fc w = (r, w').

(** C30. The retry loop of a transaction ends exactly when the database does
    not answer retryable errors for ever: it has an answer, the same for every
    sufficient number of rounds, if and only if there is no endless sequence of
    rounds each of which ends in a retry. *)
Theorem execute_loop_terminates w :
  (forall w e w', fc w = (inl e, w') -> e <> ERetrying) ->
  answers w <-> Acc (fun w2 w1 => retries w1 w2) w.
Proof.
  intros Hfc. split.
  - intros (r & w' & n & Hr & Hn). revert w Hn.
    induction n as [|n IH]; intros w Hn.
    + specialize (Hn O (Nat.le_refl _)). cbn in Hn. by injection Hn as <-.
    + constructor. intros w2 Hw.
      destruct (round w) as [(w3 & Hw3 & Hl)|[Hno _]]; [by eauto| |by apply Hno in Hw].
      rewrite (retries_unique w w2 w3 Hw Hw3). apply IH. intros m Hm.
      rewrite <- Hl. apply Hn. lia.
  - induction 1 as [w _ IH].
    destruct (round w) as [(w2 & Hw & Hl)|(_ & r & w' & Hr & Hl)]; [by eauto|..].
    + destruct (IH w2 Hw) as (r & w' & n & Hr & Hn).
      exists r, w', (S n). split; [done|]. intros [|m] Hm; [lia|].
      rewrite Hl. apply Hn. lia.
    + exists r, w', 1%nat. split; [done|]. intros [|m] Hm; [lia|done].
Qed.
End loop.

Section gorm.
Context `{BackendLaws}.

(** [GormTransaction] loses the error of its closure: once the transaction
    is open the answer is no error even if the closure failed, and what the
    closure wrote before it failed stays. *)
Theorem GormTransaction_loses_error (fc : Act unit) w db e w1 :
  tx_begin (w_db w) = (inr tt, db) -> fc (set_db db w) = (inl e, w1) ->
  exists w', GormTransaction fc w = (inr tt, w') /\ rows_eq w1 w'.
Proof.
  intros Hb Hf. unfold GormTransaction, bind, attempt, on_db, ret.
  rewrite Hb, Hf. destruct (tx_commit (w_db w1)) as [x db2] eqn:Hc.
  apply commit_rows in Hc. exists (set_db db2 w1).
  split; [by destruct x|]. intros t. apply Hc.
Qed.
End gorm.

(** ** Examples *)
#[local] Existing Instance mem_backend.
#[local] Existing Instance mem_backend_laws.
#[local] Existing Instance s_globals.

(** Delete a user, then fail or not. *)
Definition s_body (fails : bool) : Act unit :=
  Delete TUser (fun u => User.ID u =? 4) ;;
  guard_err fails (ENew "refused").

Lemma s_body_base fails : Preserves base_frame (s_body fails).
Proof. unfold s_body. keep. Qed.

Lemma Transaction_atomic_witness :
  (Transaction (s_body true) s_world).1 = inl (ENew "refused") /\
  rows_eq s_world (Transaction (s_body true) s_world).2.
Proof.
  split; [vm_compute; reflexivity|].
  destruct (Transaction_atomic (s_body true) s_world (inl (ENew "refused"))
    (Transaction (s_body true) s_world).2 (s_body_base true))
    as [(w0 & w1 & a & _ & _ & _ & [Hx|[c Hx]])|(e & _ & Hr)].
  - apply ran. vm_compute. reflexivity.
  - discriminate Hx.
  - discriminate Hx.
  - exact Hr.
Defined.

Lemma s_body_no_retrying fails w e w' :
  s_body fails w = (inl e, w') -> e <> ERetrying.
Proof.
  intros [Hd|(n & w1 & _ & Hg)]%bind_inl.
  - apply on_db_inv in Hd as (x & db & E & Hw & Hx).
    by destruct x; simplify_eq.
  - apply guard_err_inl in Hg as (_ & -> & _). discriminate.
Qed.

Lemma execute_loop_terminates_witness :
  Acc (fun w2 w1 => retries (s_body false) w1 w2) s_world.
Proof.
  apply (execute_loop_terminates (s_body false) s_world).
  - apply s_body_no_retrying.
  - exists (inr tt), (execute_loop 1 (s_body false) s_world).2, 1%nat.
    split; [discriminate|]. intros [|m] Hm; [inversion Hm|reflexivity].
Defined.

Lemma GormTransaction_loses_error_witness :
  (s_body true s_world).1 = inl (ENew "refused") /\
  exists w', GormTransaction (s_body true) s_world = (inr tt, w').
Proof.
  split; [vm_compute; reflexivity|].
  destruct (GormTransaction_loses_error (s_body true) s_world
    (tx_begin (w_db s_world)).2 (ENew "refused")
    (s_body true (set_db (tx_begin (w_db s_world)).2 s_world)).2)
    as (w' & Hr & _).
  - reflexivity.
  - apply ran. vm_compute. reflexivity.
  - exists w'. exact Hr.
Defined.
