(* ===== verification/GroupProps.v ===== *)
(** * Groups: lists, adding, changing, soft deletion and their users *)

From stdpp Require Import base tactics list strings sets gmap.
From Stdlib Require Import ZArith Lia Ascii.
From S2P Require Import Prelude GoStd Json Model Backend Errors Proto Metadata.
From S2P Require Import Gorm Database GormFacts Report Config Store IdBase.
From S2P Require Import IdTenant IdGroup IdUser IdSession IdConfig IdHandler.
From S2P Require Import IdFacts RefBackend UserProps.
#[local] Open Scope Z_scope.
#[local] Open Scope go_scope.

Section groups.
Context `{BackendLaws} `{Globals}.

Lemma getTenant_id id w t w' : getTenant id w = (inr t, w') -> ITenant.Id t = id.
Proof.
  unfold getTenant. intros Hg. run Hg.
  apply First_ok in Hr as (Hin & Hp & _). bools.
  rewrite tenantModelToRsp_ok; [done|]. by apply (rows_typed TTenant (w_db w)).
Qed.

Lemma group_id_unique w x y :
  x ∈ R TGroup w -> y ∈ R TGroup w -> Group.ID x = Group.ID y -> x = y.
Proof.
  intros Hx Hy He. apply (rows_unique TGroup _ _ _ Hx Hy).
  unfold conflict. cbn. by rewrite He, Z.eqb_refl.
Qed.

(** The table after the row of an existing group was saved. *)
Definition replace_group (g : Group.t) (l : list Group.t) : list Group.t :=
  map (fun y => if Group.ID g =? Group.ID y then update_row TGroup g y else y) l.

Lemma Save_group g r w r' w' :
  g ∈ R TGroup w -> Group.ID r = Group.ID g -> Group.ID g <> 0 ->
  Save TGroup r w = (inr r', w') ->
  (exists n, r' = Group_BeforeUpdate (clock n / 1000000000) r) /\
  R TGroup w' ≡ₚ replace_group r' (R TGroup w).
Proof.
  intros Hg Hid Hne Hs.
  apply (Save_existing TGroup r w g) in Hs as [(w1 & Hup) Hr]; try done.
  - cbn in Hup. run Hup. split; [by eexists|]. rewrite Hr. done.
  - cbn. rewrite Hid. by apply Z.eqb_neq.
  - cbn. rewrite Hid. apply Z.eqb_refl.
Qed.

Lemma validDeleteGroup_inv ctx tid gid w g w' :
  validDeleteGroup ctx tid gid w = (inr g, w') ->
  gid <> 0 /\ g ∈ R TGroup w /\ Group.ID g = gid /\ Group.TenantID g = tid /\
  Group.Name g <> "default"%string /\ Group.DeletedFlag g = false /\
  db_frame [] w w'.
Proof.
  intros Hv. pose proof (ro_validDeleteGroup (db_frame []) _ _ _ _ _ _ Hv) as Hf.
  unfold validDeleteGroup in Hv. run Hv. bools.
  apply First_ok in Hr0 as (Hg & Hp & _). bools. done.
Qed.

(** [deleteGroup] deletes softly: the group is one of the caller's tenant,
    is not the default group and was not deleted; afterwards its row is still
    there with the flag set, no user belongs to it any more, and nothing else
    changed: neither the other groups nor the users' other groups. *)
Theorem deleteGroup_spec ctx tid gid w w' :
  deleteGroup ctx tid gid w = (inr tt, w') ->
  exists g now,
    g ∈ R TGroup w /\ Group.ID g = gid /\ Group.TenantID g = tid /\
    Group.Name g <> "default"%string /\ Group.DeletedFlag g = false /\
    R TGroup w' ≡ₚ replace_group
      (Group_BeforeUpdate now (Group.set_DeletedFlag true g)) (R TGroup w) /\
    (forall x, x ∈ R TUserGroup w' <->
       x ∈ R TUserGroup w /\ UserGroup.GroupID x <> gid) /\
    forall t, t <> TGroup -> t <> TUserGroup -> R t w' = R t w.
Proof.
  unfold deleteGroup. intros (g & w1 & Hv & Hd)%bind_inr.
  apply validDeleteGroup_inv in Hv as (Hne & Hg & Hid & Ht & Hnd & Hlive & Hf).
  apply bind_inr in Hd as (n & w2 & Hdel%or_db_inr & Hd).
  apply bind_inr in Hd as (r & w3 & Hs%or_db_inr & [_ ->]%ret_inv).
  pose proof (preserves_Delete TUserGroup _ [TUserGroup] ltac:(by left)
    _ _ _ Hdel) as [Hdo _].
  pose proof (preserves_Save TGroup _ [TGroup] ltac:(by left) _ _ _ Hs) as [Hso _].
  assert (R TGroup w2 = R TGroup w) as Hg2.
  { rewrite Hdo by (by apply not_in_one). by apply db_frame_rows. }
  apply (Save_group g) in Hs as [[m ->] Hr]; [|by rewrite Hg2|done|congruence].
  rewrite Hg2 in Hr. eexists g, _. split_and!; try done.
  - intros x. rewrite (Hso TUserGroup) by (by apply not_in_one).
    rewrite (Delete_In TUserGroup _ _ _ _ x Hdel), (db_frame_rows _ _ _ Hf).
    by rewrite Z.eqb_neq.
  - intros t H1' H2'. rewrite Hso, Hdo by (by apply not_in_one).
    by apply db_frame_rows.
Qed.

(** The body of the loop of [setGroupUsers]. *)
Lemma set_group_user tn gid u w y w' :
  (or_db (Save TUserGroup (UserGroup.mk (IUser.Id u) gid)) ;;
   user <- or_db (First TUser (fun x => User.ID x =? IUser.Id u)) ;;
   resUser <- or_unknown_err (userModelToRsp user) ;;
   ret (IUser.set_Tenant (Some tn) resUser)) w = (inr y, w') ->
  forall x, x ∈ R TUserGroup w' <->
    x = UserGroup.mk (IUser.Id u) gid \/ x ∈ R TUserGroup w.
Proof.
  intros Hb x. run Hb. apply First_rows in Hr0 as (_ & _ & Hr0).
  rewrite (Hr0 TUserGroup). exact (Save_UserGroup _ _ _ _ Hr x).
Qed.

(** [setGroupUsers] makes the users of a group exactly the requested ones:
    the group is live and of the caller's tenant, every requested user exists in
    that tenant, and afterwards the relations of the group are the requested
    users' while all other relations and tables are as before. *)
Theorem setGroupUsers_spec ctx tid req w users w' :
  setGroupUsers ctx tid req w = (inr users, w') ->
  let gid := SetGroupUsersRequest.GroupId req in
  (exists g, g ∈ R TGroup w /\ Group.ID g = gid /\ Group.TenantID g = tid /\
     Group.DeletedFlag g = false) /\
  (forall u, u ∈ SetGroupUsersRequest.Users req -> IUser.Id u <> 0 /\
     exists x, x ∈ R TUser w /\ User.ID x = IUser.Id u /\
       User.TenantID x = tid) /\
  (forall x, x ∈ R TUserGroup w' <->
     (exists u, u ∈ SetGroupUsersRequest.Users req /\
        x = UserGroup.mk (IUser.Id u) gid) \/
     (x ∈ R TUserGroup w /\ UserGroup.GroupID x <> gid)) /\
  forall t, t <> TUserGroup -> R t w' = R t w.
Proof.
  unfold setGroupUsers. cbv zeta. intros (tn & w1 & Hv & Hs)%bind_inr.
  pose proof (ro_validateGroupUserSet (db_frame []) _ _ _ _ _ _ Hv) as Hf.
  unfold validateGroupUserSet in Hv.
  apply bind_inr in Hv as ([] & w2 & [Hne ->]%guard_err_inr & Hv).
  apply bind_inr in Hv as (g & w3 & Hg%first_or_inr & Hv).
  apply First_rows in Hg as (Hg & Hp & Hw3). bools.
  apply bind_inr in Hv as ([] & w4 & [Ht ->]%guard_err_inr & Hv).
  apply bind_inr in Hv as ([] & w5 & Hloop & _). bools.
  apply (for_idx_all _ (fun u => IUser.Id u <> 0 /\ exists x, x ∈ R TUser w /\
    User.ID x = IUser.Id u /\ User.TenantID x = tid) w) in Hloop as [Hu _];
    [| |done].
  2:{ intros i u wa wb Hwa Hb. run Hb. bools.
      apply First_rows in Hr0 as (Hx & Hp & Hwb). bools.
      split; [split; [done|]|by etrans]. rewrite (Hwa TUser) in Hx.
      exists x0. split; [done|]. split; [done|congruence]. }
  split; [by exists g|]. split; [exact Hu|].
  apply bind_inr in Hs as (n & w6 & Hdel%or_db_inr & Hs).
  pose proof (preserves_Delete TUserGroup _ [TUserGroup] ltac:(by left)
    _ _ _ Hdel) as [Hdo _].
  assert (Preserves (db_frame [TUserGroup]) (map_each (fun u =>
    or_db (Save TUserGroup (UserGroup.mk (IUser.Id u)
      (SetGroupUsersRequest.GroupId req))) ;;
    user <- or_db (First TUser (fun x => User.ID x =? IUser.Id u)) ;;
    resUser <- or_unknown_err (userModelToRsp user) ;;
    ret (IUser.set_Tenant (Some tn) resUser))
    (SetGroupUsersRequest.Users req))) as Hfr.
  { apply preserves_map_each; [apply _|]. intros u.
    apply preserves_bind; [apply _| |intros; keep].
    apply (ro_or_db (db_frame [TUserGroup])), preserves_Save. by left. }
  apply Hfr in Hs as Hso. destruct Hso as [Hso _]. split.
  - intros x. rewrite (map_each_adds TUserGroup
      (fun u => UserGroup.mk (IUser.Id u) (SetGroupUsersRequest.GroupId req))
      _ _ _ _ _ (set_group_user tn _) Hs x).
    rewrite (Delete_In TUserGroup _ _ _ _ x Hdel), (db_frame_rows _ _ _ Hf).
    by rewrite Z.eqb_neq.
  - intros t Hne2. rewrite Hso, Hdo by (by apply not_in_one). by apply db_frame_rows.
Qed.

(** The times of a message fit the column type. *)
Definition group_msg_typed (g : IGroup.t) : Prop :=
  0 <= IGroup.Id g < Int.two64 /\ 0 <= IGroup.CreatedAt g < Int.two63 /\
  0 <= IGroup.UpdatedAt g < Int.two63.

Definition group_texts_ok (g : IGroup.t) : Prop :=
  IGroup.Name g <> EmptyString /\
  Utf8.RuneCountInString (IGroup.Name g) <= nameLength /\
  Utf8.RuneCountInString (IGroup.Remarks g) <= remarksLength.

Lemma groupRspToModel_attempt g t w x w' :
  group_msg_typed g -> IGroup.Tenant g = Some t ->
  attempt (groupRspToModel g) w = (inr x, w') ->
  x = inr (group_row (ITenant.Id t) g) /\ w' = w.
Proof.
  intros (H1' & H2' & H3') Ht (y & [= ->] & Hm)%attempt_inv.
  rewrite (groupRspToModel_ok g t w) in Hm by done. by injection Hm as <- <-.
Qed.

Lemma validateGroupAdd_inv ctx tid g w tn w' :
  validateGroupAdd ctx tid (Some g) w = (inr tn, w') ->
  exists t, IGroup.Tenant g = Some t /\ ITenant.Id t = tid /\ tid <> 0 /\
    IGroup.Id g = 0 /\ group_texts_ok g /\
    (forall x, x ∈ R TGroup w -> live_in tid x = true ->
       Group.Name x <> IGroup.Name g) /\
    db_frame [] w w'.
Proof.
  intros Hv. pose proof (ro_validateGroupAdd (db_frame []) _ _ _ _ _ _ Hv) as Hf.
  unfold validateGroupAdd in Hv. cbn in Hv.
  apply bind_inr in Hv as ([] & w2 & [Hid ->]%guard_err_inr & Hv).
  apply bind_inr in Hv as ([] & w3 & [Hnt ->]%guard_err_inr & Hv).
  apply bind_inr in Hv as (t & w4 & [Ht ->]%deref_inr & Hv).
  apply bind_inr in Hv as ([] & w5 & [Htid ->]%guard_err_inr & Hv).
  apply bind_inr in Hv as ([] & w6 & [Hn ->]%guard_err_inr & Hv).
  apply bind_inr in Hv as ([] & w7 & [Hl ->]%guard_err_inr & Hv).
  apply bind_inr in Hv as ([] & w8 & Habs & Hv).
  pose proof (first_absent_inr _ _ _ _ _ _ Habs) as Hno.
  apply bind_inr in Hv as ([] & w9 & [Hr ->]%guard_err_inr & Hv).
  unfold no_tenant in Hnt. rewrite Ht in Hnt. unfold rune_overflow in *. bools.
  exists t. split_and!; try done; try congruence.
  - split_and!; [by intros E; rewrite E in Hn|done|done].
  - intros x Hx Hlive Hname. specialize (Hno x Hx). cbn beta in Hno.
    rewrite Hname, String.eqb_refl, <- Htid, Hlive in Hno. discriminate.
Qed.

Lemma now_nonneg n : 0 <= clock n / 1000000000.
Proof. apply Z.div_pos; [apply clock_range|done]. Qed.

(** [addGroup] inserts one group: it has a fresh identifier, the caller's
    tenant, the requested name and remarks and is not deleted; no live group of
    the tenant has its name; and nothing else changes. *)
Theorem addGroup_spec ctx tid g w rsp w' :
  group_msg_typed g -> addGroup ctx tid (Some g) w = (inr rsp, w') ->
  group_texts_ok g /\
  exists id a b,
    let row := Group.set_ID id (Group_BeforeCreate a b (group_row tid g)) in
    0 < id < Int.two63 /\ R TGroup w' ≡ₚ row :: R TGroup w /\
    (forall x, x ∈ R TGroup w -> Group.ID x <> id /\
       (live_in tid x = true -> Group.Name x <> IGroup.Name g)) /\
    (forall t, t <> TGroup -> R t w' = R t w) /\
    live_in tid row = true /\
    IGroup.Id rsp = id /\ IGroup.Name rsp = IGroup.Name g.
Proof.
  intros Hty Ha. unfold addGroup in Ha.
  apply bind_inr in Ha as (tn & w1 & Hv & Ha).
  apply validateGroupAdd_inv in Hv as (t & Ht & Htid & _ & Hid & Htx & Hno & Hf).
  apply bind_inr in Ha as (g' & w2 & [[= <-] ->]%deref_inr & Ha).
  apply bind_inr in Ha as (x & w3 & Hm & Ha).
  apply (groupRspToModel_attempt g t) in Hm as [-> ->]; [|done|done].
  apply bind_inr in Ha as (y & w4 & [[= <-] ->]%or_unknown_err_inr & Ha).
  apply bind_inr in Ha as (row & w5 & Hs%or_db_inr & Ha).
  apply bind_inr in Ha as (r & w6 & [Hrsp ->]%or_unknown_err_inr & [[= ->] ->]%ret_inv).
  pose proof (preserves_Save TGroup _ [TGroup] ltac:(by left) _ _ _ Hs) as [Hso _].
  apply (Save_new TGroup) in Hs as (r1 & w10 & Hc & (id & Hidr & Hrow) & HR);
    [|cbn; by rewrite Hid].
  apply bind_inr in Hc as (a & w11 & [Ea _]%now_unix_inr & Hc).
  apply bind_inr in Hc as (b & w12 & [Eb _]%now_unix_inr & [[= ->] _]%ret_inv).
  cbn in Hrow. rewrite Hid in Hrow. cbn in Hrow. rewrite Htid in *.
  assert (typed TGroup row = true) as Htyp.
  { apply (rows_typed TGroup (w_db w5)).
    change (rows TGroup (w_db w5)) with (R TGroup w5). rewrite HR. by left. }
  rewrite (db_frame_rows _ _ _ Hf) in HR.
  split; [done|]. exists id, a, b.
  assert (row = Group.set_ID id (Group_BeforeCreate a b (group_row tid g)))
    as Hrow2 by by rewrite Hrow.
  rewrite groupModelToRsp_ok in Hrsp; [|done|..];
    [|rewrite Hrow2; cbn; rewrite ?Ea, ?Eb; apply now_nonneg..].
  injection Hrsp as <-.
  cbv zeta. rewrite <- Hrow2. split_and!; try done; try apply Hidr.
  - intros x Hx. pose proof (inserted_fresh TGroup _ _ _ _ HR Hx) as Hn.
    unfold conflict in Hn. cbn in Hn. bools. rewrite Hrow2 in *. split; [done|].
    by apply Hno.
  - intros t' Ht'. rewrite Hso by (by apply not_in_one). by apply db_frame_rows.
  - rewrite Hrow2. unfold live_in. cbn. by rewrite Z.eqb_refl.
  - by rewrite Hrow2.
  - by rewrite Hrow2.
Qed.

Lemma validateUpdateGroup_inv tid req w w' :
  validateUpdateGroup tid req w = (inr tt, w') ->
  exists g t old, UpdateGroupRequest.Group req = Some g /\
    IGroup.Tenant g = Some t /\ UpdateGroupRequest.GroupId req = IGroup.Id g /\
    old ∈ R TGroup w /\ Group.ID old = IGroup.Id g /\ live_in tid old = true /\
    ITenant.Id t = tid /\ group_texts_ok g /\
    (forall x, x ∈ R TGroup w -> Group.ID x <> IGroup.Id g ->
       live_in tid x = true -> Group.Name x <> IGroup.Name g) /\
    rows_eq w w'.
Proof.
  unfold validateUpdateGroup. intros Hv.
  destruct (UpdateGroupRequest.Group req) as [g|]; [|by apply throw_inv in Hv as [? _]].
  apply bind_inr in Hv as ([] & w3 & [Hnt ->]%guard_err_inr & Hv).
  apply bind_inr in Hv as (t & w4 & [Ht ->]%deref_inr & Hv).
  apply bind_inr in Hv as ([] & w5 & [Hid ->]%guard_err_inr & Hv).
  apply bind_inr in Hv as (old & w6 & Hold%first_or_inr & Hv).
  apply First_rows in Hold as (Hold & Hp & Hw6).
  apply bind_inr in Hv as ([] & w7 & [Hten ->]%guard_err_inr & Hv).
  apply bind_inr in Hv as ([] & w8 & [Hn ->]%guard_err_inr & Hv).
  apply bind_inr in Hv as ([] & w9 & [Hl ->]%guard_err_inr & Hv).
  apply bind_inr in Hv as ([] & w10 & Habs & [Hr ->]%guard_err_inr).
  pose proof (first_absent_inr _ _ _ _ _ _ Habs) as Hno.
  pose proof (ro_first_absent (db_frame []) _ _ _ _ _ _ Habs) as Hw10.
  unfold rune_overflow in *. apply andb_true_iff in Hp as [Hp Hlive].
  pose proof Hlive as Hl2. unfold live_in in Hl2. bools.
  exists g, t, old. split_and!; try done; try congruence.
  - split_and!; [by intros E; rewrite E in Hn|done|done].
  - intros x Hx Hne Hlx Hname. rewrite <- (Hw6 TGroup) in Hx.
    specialize (Hno x Hx). cbn beta in Hno. apply Z.eqb_neq in Hne.
    rewrite Hne, Hname, String.eqb_refl in Hno. cbn in Hno.
    assert (ITenant.Id t = tid) as Htt by congruence.
    rewrite Htt, Hlx in Hno. discriminate.
  - intros t'. by rewrite (db_frame_rows _ _ t' Hw10).
Qed.

(** [UpdateGroup] changes the row of one live group of the caller's tenant:
    the group keeps its identifier and tenant and is not deleted, takes the
    requested name, which no other live group of the tenant has, and remarks;
    and nothing else changes. *)
Theorem UpdateGroup_spec ctx req w rsp w' :
  (forall g, UpdateGroupRequest.Group req = Some g -> group_msg_typed g) ->
  (forall x, x ∈ R TGroup w -> Group.ID x <> 0) ->
  UpdateGroup ctx req w = (inr rsp, w') ->
  exists tid g old now, GetTenantID ctx = inr tid /\
    UpdateGroupRequest.Group req = Some g /\ group_texts_ok g /\
    old ∈ R TGroup w /\ Group.ID old = UpdateGroupRequest.GroupId req /\
    Group.ID old = IGroup.Id g /\ live_in tid old = true /\
    (forall x, x ∈ R TGroup w -> Group.ID x <> IGroup.Id g ->
       live_in tid x = true -> Group.Name x <> IGroup.Name g) /\
    R TGroup w' ≡ₚ replace_group (Group_BeforeUpdate now (group_row tid g))
      (R TGroup w) /\
    forall t, t <> TGroup -> R t w' = R t w.
Proof.
  intros Hty Hpos Hu. unfold UpdateGroup in Hu.
  apply transaction_outcome in Hu; [|keep].
  destruct Hu as (w0 & w1 & db & Hw0 & Hf & Hw1 & _).
  apply bind_inr in Hf as ([tid reqUser] & w2 & Hm%check_inr & Hf).
  apply getRequestMetadata_inv in Hm as (Htid & _ & ->). cbn in Htid.
  apply bind_inr in Hf as ([] & w3 & Hv%check_inr & Hf).
  apply bind_inr in Hf as (y & w4 & Hg%check_inr & Hok).
  apply ok_rows in Hok.
  apply validateUpdateGroup_inv in Hv as (g & t & old & Hg0 & Ht & Hid & Hold &
    Hido & Hlive & Htt & Htx & Hno & Hw3).
  rewrite (Hw0 TGroup) in Hold, Hno. specialize (Hty g Hg0).
  unfold updateGroup in Hg. rewrite Hg0 in Hg.
  apply bind_inr in Hg as (tn & w5 & Htn & Hg).
  pose proof (ro_getTenant (db_frame []) _ _ _ _ Htn) as Hw5.
  apply bind_inr in Hg as (g' & w6 & [[= <-] ->]%deref_inr & Hg).
  apply bind_inr in Hg as (x & w7 & Hm & Hg).
  apply (groupRspToModel_attempt g t) in Hm as [-> ->]; [|done|done].
  apply bind_inr in Hg as (z & w8 & [[= <-] ->]%or_unknown_err_inr & Hg).
  apply bind_inr in Hg as (row & w9 & Hs%or_db_inr & Hg).
  apply bind_inr in Hg as (r & w10 & [_ ->]%or_unknown_err_inr & [_ ->]%ret_inv).
  assert (rows_eq w w5) as Hw.
  { etrans; [exact Hw0|]. etrans; [exact Hw3|].
    intros t'. by apply db_frame_rows. }
  pose proof (preserves_Save TGroup _ [TGroup] ltac:(by left) _ _ _ Hs) as [Hso _].
  apply (Save_group old) in Hs as [[m ->] HR]; [|by rewrite Hw|done|by apply Hpos].
  rewrite Htt, Hw in HR.
  exists tid, g, old. eexists. split_and!; try done; try congruence.
  - rewrite Hw1, Hok. exact HR.
  - intros t' Ht'. rewrite Hw1, Hok, Hso by (by apply not_in_one). apply Hw.
Qed.

(** What the name filters of a list ask of a group. *)
Definition names_match (fs : list groupFilter) (g : Group.t) : bool :=
  forallb (fun '(groupNameFilter n) =>
    sql_like (contains_pattern n) (Group.Name g)) fs.

Lemma group_conditions fs q w q' w' :
  fold_each (fun q f => or_db (group_Apply f q)) q fs w = (inr q', w') ->
  w' = w /\ q_page q' = q_page q /\
  forall g, q_where q' g = q_where q g && names_match fs g.
Proof.
  revert q w. induction fs as [|[n] fs IH]; intros q w Hf.
  - apply ret_inv in Hf as [[= ->] ->]. split; [done|]. split; [done|].
    intros g. cbn. by rewrite andb_true_r.
  - cbn in Hf. apply IH in Hf as (-> & Hp & Hq). split; [done|]. split; [done|].
    intros g. rewrite Hq. cbn. by rewrite andb_assoc.
Qed.

(** [getGroups] lists exactly the live groups of the tenant whose names
    match every filter, each with the tenant. *)
Theorem getGroups_spec tid fs w groups w' :
  (forall x, x ∈ R TGroup w -> 0 <= Group.CreatedAt x /\ 0 <= Group.UpdatedAt x) ->
  getGroups tid fs w = (inr groups, w') ->
  rows_eq w w' /\
  exists tenant l, ITenant.Id tenant = tid /\
    l ≡ₚ List.filter (fun g => live_in tid g && names_match fs g) (R TGroup w) /\
    groups = map (fun g => IGroup.set_Tenant (Some tenant) (group_rsp g)) l.
Proof.
  intros Htimes Hg.
  pose proof (ro_getGroups (db_frame []) _ _ _ _ _ Hg) as Hfr.
  split; [intros t; by apply db_frame_rows|].
  unfold getGroups in Hg.
  apply bind_inr in Hg as (tenant & w1 & Htn & Hg).
  pose proof (ro_getTenant (db_frame []) _ _ _ _ Htn) as Hw1.
  apply bind_inr in Hg as (q & w2 & Hq & Hg).
  apply group_conditions in Hq as (-> & Hp & Hq).
  apply bind_inr in Hg as (l & w3 & Hl%or_db_inr & Hm).
  rewrite Hp in Hl. apply (Find_ok TGroup) in Hl.
  rewrite (db_frame_rows _ _ _ Hw1) in Hl.
  exists tenant, l. split_and!.
  - by apply getTenant_id in Htn.
  - rewrite Hl. rewrite (List.filter_ext _ _ Hq). done.
  - eapply map_each_fun; [|exact Hm]. intros g wa y wb Hin Hb. run Hb.
    assert (g ∈ R TGroup w) as Hgin.
    { rewrite Hl in Hin. by apply In_filter in Hin as [? _]. }
    destruct (Htimes g Hgin).
    rewrite groupModelToRsp_ok in Hr; [by injection Hr as <-| |done|done].
    by apply (rows_typed TGroup (w_db w)).
Qed.
End groups.

(** ** Examples *)
#[local] Existing Instance mem_backend.
#[local] Existing Instance mem_backend_laws.
#[local] Existing Instance s_globals.

Lemma s_groups_plain x :
  x ∈ R TGroup s_world ->
  Group.ID x <> 0 /\ 0 <= Group.CreatedAt x /\ 0 <= Group.UpdatedAt x.
Proof.
  intros Hx. change (x ∈ s_tables TGroup) in Hx. cbn in Hx.
  apply elem_of_cons in Hx as [->|Hx]; [by vm_compute|].
  apply elem_of_cons in Hx as [->|Hx]; [by vm_compute|].
  by apply elem_of_nil in Hx.
Qed.

Lemma deleteGroup_spec_witness :
  exists g, g ∈ R TGroup s_world /\ Group.ID g = 2 /\
    ~ UserGroup.mk 3 2 ∈ R TUserGroup
        (deleteGroup (s_ctx s_req_manager) 1 2 s_world).2.
Proof.
  destruct (deleteGroup_spec (s_ctx s_req_manager) 1 2 s_world
    (deleteGroup (s_ctx s_req_manager) 1 2 s_world).2)
    as (g & now & Hg & Hid & _ & _ & _ & _ & Hrel & _).
  - apply ran. vm_compute. reflexivity.
  - exists g. split; [exact Hg|]. split; [exact Hid|].
    intros Hin. apply Hrel in Hin as [_ Hne]. by apply Hne.
Defined.

Definition s_members : SetGroupUsersRequest.t :=
  SetGroupUsersRequest.mk 2 [s_req_manager].

Lemma setGroupUsers_spec_witness :
  UserGroup.mk 2 2 ∈ R TUserGroup
    (setGroupUsers (s_ctx s_req_manager) 1 s_members s_world).2.
Proof.
  destruct (ran_ok (setGroupUsers (s_ctx s_req_manager) 1 s_members) s_world)
    as [users Hr]; [vm_compute; reflexivity|].
  destruct (setGroupUsers_spec (s_ctx s_req_manager) 1 s_members s_world users
    (setGroupUsers (s_ctx s_req_manager) 1 s_members s_world).2 Hr)
    as (_ & _ & Hrel & _).
  apply Hrel. left. exists s_req_manager. split; [by left|reflexivity].
Defined.

Definition s_group (id : Z) (name : string) : IGroup.t :=
  IGroup.mk id (Some (s_tenant 1)) name "" 0 0.

Lemma addGroup_spec_witness :
  group_msg_typed (s_group 0 "dev") /\
  exists x, x ∈ R TGroup
      (addGroup (s_ctx s_req_manager) 1 (Some (s_group 0 "dev")) s_world).2 /\
    Group.Name x = "dev"%string.
Proof.
  assert (group_msg_typed (s_group 0 "dev")) as Ht by by vm_compute.
  split; [exact Ht|].
  destruct (ran_ok (addGroup (s_ctx s_req_manager) 1 (Some (s_group 0 "dev")))
    s_world) as [rsp Hr]; [vm_compute; reflexivity|].
  destruct (addGroup_spec (s_ctx s_req_manager) 1 (s_group 0 "dev") s_world rsp
    (addGroup (s_ctx s_req_manager) 1 (Some (s_group 0 "dev")) s_world).2 Ht Hr)
    as (_ & id & a & b & _ & Hrows & _).
  eexists. split; [exact (perm_head _ _ _ Hrows)|reflexivity].
Defined.

Definition s_rename : UpdateGroupRequest.t :=
  UpdateGroupRequest.mk 2 (Some (s_group 2 "operators")).

Lemma UpdateGroup_spec_witness :
  exists x, R TGroup (UpdateGroup (s_ctx s_req_manager) s_rename s_world).2 ≡ₚ
    replace_group x (R TGroup s_world) /\ Group.Name x = "operators"%string.
Proof.
  assert (group_msg_typed (s_group 2 "operators")) as Ht by by vm_compute.
  destruct (ran_ok (UpdateGroup (s_ctx s_req_manager) s_rename) s_world)
    as [rsp Hr]; [vm_compute; reflexivity|].
  destruct (UpdateGroup_spec (s_ctx s_req_manager) s_rename s_world rsp
    (UpdateGroup (s_ctx s_req_manager) s_rename s_world).2)
    as (tid & g & old & now & _ & [= <-] & _ & _ & _ & _ & _ & _ & Hrows & _).
  - intros g [= <-]. exact Ht.
  - intros x Hx. exact (proj1 (s_groups_plain x Hx)).
  - exact Hr.
  - eexists. split; [exact Hrows|reflexivity].
Defined.

Lemma getGroups_spec_witness :
  is_ok (getGroups 1 [groupNameFilter "op"] s_world).1 = true /\
  rows_eq s_world (getGroups 1 [groupNameFilter "op"] s_world).2.
Proof.
  split; [vm_compute; reflexivity|].
  destruct (ran_ok (getGroups 1 [groupNameFilter "op"]) s_world) as [gs Hr];
    [vm_compute; reflexivity|].
  apply (getGroups_spec 1 [groupNameFilter "op"] s_world gs); [|exact Hr].
  intros x Hx. exact (proj2 (s_groups_plain x Hx)).
Defined.
