(* ===== verification/TenantProps.v ===== *)
(** * Tenants: adding, changing, activating and deactivating them *)

From stdpp Require Import base tactics list strings sets gmap.
From Stdlib Require Import ZArith Lia Ascii.
From S2P Require Import Prelude GoStd Json Model Backend Errors Proto Metadata.
From S2P Require Import Gorm Database GormFacts Report Config Store IdBase.
From S2P Require Import IdTenant IdGroup IdUser IdSession IdConfig IdHandler.
From S2P Require Import IdFacts RefBackend UserProps GroupProps.
#[local] Open Scope Z_scope.
#[local] Open Scope go_scope.

Section tenants.
Context `{BackendLaws}.

Lemma Save_TenantSolution r w r' w' :
  Save TTenantSolution r w = (inr r', w') ->
  forall x, x ∈ R TTenantSolution w' <-> x = r \/ x ∈ R TTenantSolution w.
Proof.
  intros Hs. apply (Save_relation TTenantSolution) in Hs as [_ Hs]; try done.
  intros [u1 r1] Hk. cbn in Hk. bools. destruct r. cbn in *. congruence.
Qed.

Lemma save_solutions_inv id ss w w' :
  save_solutions id ss w = (inr tt, w') ->
  (forall x, x ∈ R TTenantSolution w' <->
     (exists s, s ∈ ss /\ x = TenantSolution.mk id (ISolution.Solution s)) \/
     x ∈ R TTenantSolution w) /\
  forall t, t <> TTenantSolution -> R t w' = R t w.
Proof.
  intros Hs. assert (Preserves (db_frame [TTenantSolution])
    (save_solutions id ss)) as Hf.
  { unfold save_solutions. apply preserves_for_each; [apply _|]. intros a.
    apply preserves_bind; [apply _| |intros; apply _].
    apply (ro_or_db (db_frame [TTenantSolution])), preserves_Save. by left. }
  apply Hf in Hs as Hfr. split.
  - eapply (for_each_adds TTenantSolution); [|exact Hs]. intros a wa y wb Hb. run Hb.
    exact (Save_TenantSolution _ _ _ _ Hr).
  - intros t Ht. by apply Hfr, not_in_one.
Qed.

(** The table after the row of an existing tenant was saved. *)
Definition replace_tenant (t : Tenant.t) (l : list Tenant.t) : list Tenant.t :=
  map (fun y => if Tenant.ID t =? Tenant.ID y then update_row TTenant t y else y) l.

Lemma Save_tenant t r w r' w' :
  t ∈ R TTenant w -> Tenant.ID r = Tenant.ID t -> Tenant.ID t <> 0 ->
  Save TTenant r w = (inr r', w') ->
  (exists n, r' = Tenant_BeforeUpdate (clock n / 1000000000) r) /\
  R TTenant w' ≡ₚ replace_tenant r' (R TTenant w).
Proof.
  intros Ht Hid Hne Hs.
  apply (Save_existing TTenant r w t) in Hs as [(w1 & Hup) Hr]; try done.
  - cbn in Hup. run Hup. split; [by eexists|]. by rewrite Hr.
  - cbn. rewrite Hid. by apply Z.eqb_neq.
  - cbn. rewrite Hid. apply Z.eqb_refl.
Qed.

(** The integers of a message fit their types. *)
Definition tenant_msg_typed (t : ITenant.t) : Prop :=
  0 <= ITenant.Id t < Int.two64 /\
  - Int.two63 <= ITenant.CreatedAt t < Int.two63 /\
  - Int.two63 <= ITenant.UpdatedAt t < Int.two63.

Definition solution_ok (s : ISolution.t) : Prop :=
  ISolution.Solution s <> EmptyString /\
  Utf8.RuneCountInString (ISolution.Solution s) <= solutionLength.

Definition tenant_texts_ok (t : ITenant.t) : Prop :=
  ITenant.Name t <> EmptyString /\
  Utf8.RuneCountInString (ITenant.Name t) <= nameLength /\
  Utf8.RuneCountInString (ITenant.Remarks t) <= remarksLength /\
  ITenant.Solutions t <> [] /\ forall s, s ∈ ITenant.Solutions t -> solution_ok s.

Lemma validate_solutions_inv ss w w' :
  validate_solutions ss w = (inr tt, w') ->
  w' = w /\ forall s, s ∈ ss -> solution_ok s.
Proof.
  unfold validate_solutions. generalize 0%nat as i. revert w.
  induction ss as [|s ss IH]; intros w i Hv.
  - apply ret_inv in Hv as [_ ->]. split; [done|].
    intros s Hs. by apply elem_of_nil in Hs.
  - cbn in Hv. apply bind_inr in Hv as ([] & w1 & Hs & Hv).
    apply bind_inr in Hs as ([] & w2 & [He ->]%guard_err_inr & [Hl ->]%guard_err_inr).
    apply IH in Hv as [-> Hv]. split; [done|].
    intros x [->|Hx]%elem_of_cons; [|by apply Hv]. unfold rune_overflow in Hl. bools.
    split; [|done]. intros E. by rewrite E in He.
Qed.

(** The solutions of a tenant as messages. *)
Lemma tenant_solutions_inv id w l w' :
  tenant_solutions id w = (inr l, w') ->
  rows_eq w w' /\ forall s, s ∈ l <->
    TenantSolution.mk id (ISolution.Solution s) ∈ R TTenantSolution w.
Proof.
  intros Hs. pose proof (ro_tenant_solutions (db_frame []) _ _ _ _ Hs) as Hf.
  split; [intros t; by apply db_frame_rows|].
  unfold tenant_solutions in Hs. apply bind_inr in Hs as (l0 & w1 & Hq%or_db_inr & Hm).
  apply (map_each_fun (fun s => ISolution.mk (TenantSolution.Solution s))) in Hm as ->.
  2:{ intros a wa y wb _ Hb. rewrite solutionModelToRsp_ok in Hb.
      by apply or_unknown_err_inr in Hb as [[= ->] _]. }
  intros [s]. rewrite list_elem_of_fmap. setoid_rewrite (Find_In TTenantSolution _ _ _ _ _ Hq).
  split.
  - intros ([i x] & [= ->] & Hin & Hp). cbn in *. bools. by subst.
  - intros Hin. exists (TenantSolution.mk id s). cbn. by rewrite Z.eqb_refl.
Qed.

Lemma validateTenantAdd_inv t w w' :
  validateTenantAdd (Some t) w = (inr tt, w') ->
  w' = w /\ ITenant.Id t = 0 /\ tenant_texts_ok t /\
  exists b, ITenant.UseFlag t = Some b.
Proof.
  unfold validateTenantAdd. intros Hv.
  apply bind_inr in Hv as ([] & w1 & [Hid ->]%guard_err_inr & Hv).
  apply bind_inr in Hv as ([] & w2 & [Hn ->]%guard_err_inr & Hv).
  apply bind_inr in Hv as ([] & w3 & [Hl ->]%guard_err_inr & Hv).
  apply bind_inr in Hv as ([] & w4 & [Huse ->]%guard_err_inr & Hv).
  apply bind_inr in Hv as ([] & w5 & [Hs ->]%guard_err_inr & Hv).
  apply bind_inr in Hv as ([] & w6 & [-> Hss]%validate_solutions_inv & Hv).
  apply guard_err_inr in Hv as [Hr ->]. unfold rune_overflow in *. bools.
  apply bool_decide_eq_false in Huse, Hs. split; [done|]. split; [done|]. split.
  - split_and!; try done. intros E. by rewrite E in Hn.
  - destruct (ITenant.UseFlag t) as [b|]; [by exists b|done].
Qed.

Lemma tenant_fresh id w w' row x :
  R TTenant w' ≡ₚ row :: R TTenant w -> Tenant.ID row = id ->
  x ∈ R TTenant w -> Tenant.ID x <> id.
Proof.
  intros HR Hid Hx He. pose proof (inserted_fresh TTenant _ _ _ _ HR Hx) as Hn.
  unfold conflict in Hn. cbn in Hn. bools. congruence.
Qed.

(** [addTenant] inserts one tenant with a fresh identifier and the
    requested name, remarks and flag, gives it exactly the requested solutions
    besides those rows of its identifier that were there, answers with that
    tenant, and changes nothing else; it refuses requests without name, flag or
    solutions and texts over their limits. *)
Theorem addTenant_spec t w rsp w' :
  tenant_msg_typed t -> addTenant (Some t) w = (inr rsp, w') ->
  tenant_texts_ok t /\
  exists id a b flag,
    let row := Tenant.mk id (ITenant.Name t) (opt_of (ITenant.Remarks t)) flag a b in
    ITenant.UseFlag t = Some flag /\ 0 < id < Int.two63 /\
    R TTenant w' ≡ₚ row :: R TTenant w /\
    (forall x, x ∈ R TTenant w -> Tenant.ID x <> id) /\
    (forall x, x ∈ R TTenantSolution w' <->
       (exists s, s ∈ ITenant.Solutions t /\
          x = TenantSolution.mk id (ISolution.Solution s)) \/
       x ∈ R TTenantSolution w) /\
    (forall u, u <> TTenant -> u <> TTenantSolution -> R u w' = R u w) /\
    ITenant.Id rsp = id /\ ITenant.UseFlag rsp = Some flag /\
    (forall s, s ∈ ITenant.Solutions t -> s ∈ ITenant.Solutions rsp).
Proof.
  intros (Ht1 & Ht2 & Ht3) Ha. unfold addTenant in Ha.
  apply bind_inr in Ha as ([] & w1 & Hv & Ha).
  apply validateTenantAdd_inv in Hv as (-> & Hid & Htx & flag & Huse).
  apply bind_inr in Ha as (t' & w2 & [[= <-] ->]%deref_inr & Ha).
  apply bind_inr in Ha as (row & w3 & Hs%or_db_inr & Ha).
  apply bind_inr in Ha as ([] & w4 & Hsol & Ha).
  apply bind_inr in Ha as (l & w5 & Hl & [[= ->] ->]%ret_inv).
  pose proof (preserves_Save TTenant _ [TTenant] ltac:(by left) _ _ _ Hs) as [Hso _].
  rewrite tenantRspToModel_ok in Hs by done.
  apply (Save_new TTenant) in Hs as (r1 & w10 & Hc & (id & Hidr & Hrow) & HR);
    [|cbn; by rewrite Hid].
  apply bind_inr in Hc as (a & w11 & _ & Hc).
  apply bind_inr in Hc as (b & w12 & _ & [[= ->] _]%ret_inv).
  cbn in Hrow. rewrite Hid, Huse in Hrow. cbn in Hrow.
  apply save_solutions_inv in Hsol as [Hsol Hsolo].
  apply tenant_solutions_inv in Hl as [Hw5 Hl].
  assert (typed TTenant row = true) as Htyp.
  { apply (rows_typed TTenant (w_db w3)).
    change (rows TTenant (w_db w3)) with (R TTenant w3). rewrite HR. by left. }
  rewrite tenantModelToRsp_ok by done.
  split; [done|]. exists id, a, b, flag. cbv zeta.
  change (Tenant.mk id (ITenant.Name t) (opt_of (ITenant.Remarks t)) flag a b)
    with (Tenant.set_ID id (Tenant.set_UpdatedAt b (Tenant.set_CreatedAt a
      (Tenant.mk 0 (ITenant.Name t) (opt_of (ITenant.Remarks t)) flag
        (ITenant.CreatedAt t) (ITenant.UpdatedAt t))))).
  rewrite Hid in *. assert (Tenant.ID row = id) as Hrid by by rewrite Hrow.
  split_and!; try done; try apply Hidr.
  - rewrite Hw5, Hsolo by done. rewrite HR, Hrow. done.
  - intros x Hx. by apply (tenant_fresh id w w3 row).
  - intros x. rewrite Hw5, Hsol, Hrid.
    by rewrite Hso by by apply not_in_one.
  - intros u H1' H2'. rewrite Hw5, Hsolo by done. by apply Hso, not_in_one.
  - by rewrite Hrow.
  - intros s Hs. cbn. apply Hl, Hsol. left. by exists s.
Qed.

Lemma validateTenantUpdate_inv req w w' :
  validateTenantUpdate req w = (inr tt, w') ->
  w' = w /\ exists t, UpdateTenantRequest.Tenant req = Some t /\
    UpdateTenantRequest.TenantId req = ITenant.Id t /\ tenant_texts_ok t.
Proof.
  unfold validateTenantUpdate. intros Hv.
  destruct (UpdateTenantRequest.Tenant req) as [t|];
    [|by apply throw_inv in Hv as [? _]].
  apply bind_inr in Hv as ([] & w1 & [Hid ->]%guard_err_inr & Hv).
  apply bind_inr in Hv as ([] & w2 & [Hn ->]%guard_err_inr & Hv).
  apply bind_inr in Hv as ([] & w3 & [Hl ->]%guard_err_inr & Hv).
  apply bind_inr in Hv as ([] & w5 & [Hs ->]%guard_err_inr & Hv).
  apply bind_inr in Hv as ([] & w6 & [-> Hss]%validate_solutions_inv & Hv).
  apply guard_err_inr in Hv as [Hr ->]. unfold rune_overflow in *. bools.
  apply bool_decide_eq_false in Hs. split; [done|]. exists t.
  split; [done|]. split; [done|]. split_and!; try done.
  intros E. by rewrite E in Hn.
Qed.

(** [updateTenant] changes the name and the remarks of one tenant, whose
    flag, identifier and creation time stay, and makes its solutions exactly the
    requested ones; the other tenants, their solutions and all other tables are
    as before. *)
Theorem updateTenant_spec id req w rsp w' :
  id <> 0 -> updateTenant id req w = (inr rsp, w') ->
  exists t old now,
    UpdateTenantRequest.Tenant req = Some t /\
    UpdateTenantRequest.TenantId req = ITenant.Id t /\ tenant_texts_ok t /\
    old ∈ R TTenant w /\ Tenant.ID old = id /\
    R TTenant w' ≡ₚ replace_tenant
      (Tenant.mk id (ITenant.Name t) (Some (ITenant.Remarks t))
         (Tenant.UseFlag old) (Tenant.CreatedAt old) now) (R TTenant w) /\
    (forall x, x ∈ R TTenantSolution w' <->
       (exists s, s ∈ ITenant.Solutions t /\
          x = TenantSolution.mk id (ISolution.Solution s)) \/
       (x ∈ R TTenantSolution w /\ TenantSolution.TenantID x <> id)) /\
    forall u, u <> TTenant -> u <> TTenantSolution -> R u w' = R u w.
Proof.
  intros Hne Hu. unfold updateTenant in Hu.
  apply bind_inr in Hu as ([] & w1 & Hv & Hu).
  apply validateTenantUpdate_inv in Hv as (-> & t & Ht & Hid & Htx).
  apply bind_inr in Hu as (old & w2 & Hold%first_or_inr & Hu).
  apply First_rows in Hold as (Hold & Hp & Hw2). bools.
  apply bind_inr in Hu as (t' & w3 & [Ht' ->]%deref_inr & Hu).
  rewrite Ht in Ht'. injection Ht' as <-.
  apply bind_inr in Hu as (row & w4 & Hs%or_db_inr & Hu).
  apply bind_inr in Hu as (n & w5 & Hdel%or_db_inr & Hu).
  apply bind_inr in Hu as ([] & w6 & Hsol & Hu).
  apply bind_inr in Hu as (l & w7 & Hl & [_ ->]%ret_inv).
  pose proof (preserves_Save TTenant _ [TTenant] ltac:(by left) _ _ _ Hs) as [Hso _].
  pose proof (preserves_Delete TTenantSolution _ [TTenantSolution] ltac:(by left)
    _ _ _ Hdel) as [Hdo _].
  apply (Save_tenant old) in Hs as [[m ->] HR];
    [|by rewrite Hw2|done|congruence].
  apply save_solutions_inv in Hsol as [Hsol Hsolo].
  apply tenant_solutions_inv in Hl as [Hw7 _].
  cbn in Hsol, Hdel. rewrite (Hw2 TTenant) in HR.
  exists t, old, (clock m / 1000000000). split_and!; try done.
  - rewrite Hw7, Hsolo by done. rewrite Hdo by by apply not_in_one.
    rewrite HR. destruct old as [i nm rm fl ca ua]. cbn in *. by subst.
  - intros x. rewrite Hw7, Hsol, (Delete_In TTenantSolution _ _ _ _ x Hdel).
    rewrite Hso by by apply not_in_one. rewrite Hw2, Z.eqb_neq. by subst id.
  - intros u H1' H2'. rewrite Hw7, Hsolo by done.
    rewrite Hdo, Hso by by apply not_in_one. apply Hw2.
Qed.

(** [ActivateTenant] and [DeactivateTenant] only set the flag of one
    tenant, the one the request names: no other column, tenant or table
    changes, and the answer shows the new flag. *)
Theorem use_flag_spec (flag : bool) ctx id w rsp w' :
  id <> 0 ->
  (if flag then ActivateTenant ctx id else DeactivateTenant ctx id) w
    = (inr rsp, w') ->
  exists old now, old ∈ R TTenant w /\ Tenant.ID old = id /\
    R TTenant w' ≡ₚ replace_tenant
      (Tenant.mk id (Tenant.Name old) (Tenant.Remarks old) flag
         (Tenant.CreatedAt old) now) (R TTenant w) /\
    (forall t, t <> TTenant -> R t w' = R t w) /\
    ITenant.UseFlag rsp = Some flag.
Proof.
  intros Hne Hu.
  assert (exists ev ev', Transaction (
    tenant <- check ctx ev (set_use_flag flag id) ;; ok ctx ev' tenant) w
    = (inr rsp, w')) as (ev & ev' & Ht).
  { destruct flag; eexists _, _; exact Hu. }
  apply transaction_outcome in Ht; [|keep].
  destruct Ht as (w0 & w1 & db & Hw0 & Hf & Hw1 & _).
  apply bind_inr in Hf as (x & w2 & Hs%check_inr & Hok).
  pose proof (ok_rows _ _ _ _ _ _ Hok) as Hokr. apply ok_inr in Hok as (-> & _).
  unfold set_use_flag in Hs.
  apply bind_inr in Hs as (old & w3 & Hold%first_or_inr & Hs).
  apply First_rows in Hold as (Hold & Hp & Hw3). bools.
  apply bind_inr in Hs as (row & w4 & Hs%or_db_inr & [[= ->] ->]%ret_inv).
  pose proof (preserves_Save TTenant _ [TTenant] ltac:(by left) _ _ _ Hs) as [Hso _].
  apply (Save_tenant old) in Hs as [[m ->] HR]; [|by rewrite Hw3|done|congruence].
  rewrite (Hw3 TTenant), (Hw0 TTenant) in HR. rewrite (Hw0 TTenant) in Hold.
  exists old, (clock m / 1000000000). split_and!; try done.
  - rewrite Hw1, Hokr, HR. destruct old as [i nm rm fl ca ua].
    cbn in *. by subst.
  - intros t Ht. rewrite Hw1, Hokr, Hso by by apply not_in_one.
    by rewrite Hw3, Hw0.
Qed.
End tenants.

(** ** Examples *)
#[local] Existing Instance mem_backend.
#[local] Existing Instance mem_backend_laws.
#[local] Existing Instance s_globals.

Definition s_new_tenant (id : Z) (name : string) : ITenant.t :=
  ITenant.mk id name (Some true) [ISolution.mk "CDM-Cloud"; ISolution.mk "CDM-DR"]
    "" 0 0.

Lemma addTenant_spec_witness :
  exists x, x ∈ R TTenant (addTenant (Some (s_new_tenant 0 "acme")) s_world).2 /\
    Tenant.Name x = "acme"%string.
Proof.
  assert (tenant_msg_typed (s_new_tenant 0 "acme")) as Ht by by vm_compute.
  destruct (ran_ok (addTenant (Some (s_new_tenant 0 "acme"))) s_world)
    as [rsp Hr]; [vm_compute; reflexivity|].
  destruct (addTenant_spec (s_new_tenant 0 "acme") s_world rsp
    (addTenant (Some (s_new_tenant 0 "acme")) s_world).2 Ht Hr)
    as (_ & id & a & b & flag & _ & _ & Hrows & _).
  eexists. split; [exact (perm_head _ _ _ Hrows)|reflexivity].
Defined.

Definition s_update_tenant : UpdateTenantRequest.t :=
  UpdateTenantRequest.mk 1 (Some (s_new_tenant 1 "acme")).

Lemma updateTenant_spec_witness :
  TenantSolution.mk 1 "CDM-DR" ∈ R TTenantSolution
    (updateTenant 1 s_update_tenant s_world).2.
Proof.
  destruct (ran_ok (updateTenant 1 s_update_tenant) s_world) as [rsp Hr];
    [vm_compute; reflexivity|].
  destruct (updateTenant_spec 1 s_update_tenant s_world rsp
    (updateTenant 1 s_update_tenant s_world).2 ltac:(discriminate) Hr)
    as (t & old & now & [= <-] & _ & _ & _ & _ & _ & Hsol & _).
  apply Hsol. left. exists (ISolution.mk "CDM-DR").
  split; [right; left|reflexivity].
Defined.

Lemma use_flag_spec_witness :
  exists x, R TTenant (DeactivateTenant (s_ctx s_req_admin) 1 s_world).2 ≡ₚ
    replace_tenant x (R TTenant s_world) /\ Tenant.UseFlag x = false.
Proof.
  destruct (ran_ok (DeactivateTenant (s_ctx s_req_admin) 1) s_world) as [rsp Hr];
    [vm_compute; reflexivity|].
  destruct (use_flag_spec false (s_ctx s_req_admin) 1 s_world rsp
    (DeactivateTenant (s_ctx s_req_admin) 1 s_world).2 ltac:(discriminate) Hr)
    as (old & now & _ & _ & Hrows & _).
  eexists. split; [exact Hrows|reflexivity].
Defined.
