(* ===== verification/AuthProps.v ===== *)
(** * Authorization and the start of the service *)

From stdpp Require Import base tactics list strings sets gmap.
From Stdlib Require Import ZArith Lia Ascii.
From S2P Require Import Prelude GoStd Json Model Backend Errors Proto Metadata.
From S2P Require Import Gorm Database GormFacts Report Config Store IdBase.
From S2P Require Import IdTenant IdGroup IdUser IdSession IdConfig IdHandler.
From S2P Require Import IdFacts RefBackend.
#[local] Open Scope Z_scope.
#[local] Open Scope go_scope.

Section authorization.
Context `{BackendLaws} `{Globals}.

(** The policy's answer for a role and an endpoint. *)
Definition policy (endpoint : string) (r : IRole.t) : bool * option string :=
  Enforce (IRole.Role r) (IRole.Solution r) endpoint.

(** Some role is allowed the endpoint, and no role before it met an error of
    the policy. *)
Definition allowed (endpoint : string) (roles : list IRole.t) : Prop :=
  exists pre r post, roles = pre ++ r :: post /\
    (policy endpoint r).1 = true /\
    forall x, x ∈ pre -> policy endpoint x = (false, None).

Lemma enforce_roles_iff ctx endpoint roles w :
  allowed endpoint roles <->
  exists w', enforce_roles ctx endpoint roles w = (inr tt, w').
Proof.
  induction roles as [|r roles IH]; cbn [enforce_roles].
  - split.
    + intros ([|] & ? & ? & ? & _); discriminate.
    + by intros (w' & (s & ? & _)%fail_with_inv).
  - change (Enforce _ _ _) with (policy endpoint r).
    destruct (policy endpoint r) as [[] o] eqn:E.
    + split; [|intros _; exists [], r, roles; rewrite E; by split_and!;
        [..|intros x Hx; apply elem_of_nil in Hx]].
      intros _. destruct (ok ctx "cdm-cloud.identity.check_authorization.success" tt w)
        as [[e|[]] w'] eqn:Eo; [by apply ok_inl in Eo|by exists w'].
    + destruct o as [e|].
      * split; [|by intros (w' & (s & ? & _)%fail_with_inv)].
        intros (pre & x & post & Heq & Hx & Hpre).
        destruct pre as [|y pre]; cbn in Heq; injection Heq as -> ->.
        -- by rewrite E in Hx.
        -- specialize (Hpre y ltac:(by left)). congruence.
      * rewrite <- IH. split.
        -- intros (pre & x & post & Heq & Hx & Hpre).
           destruct pre as [|y pre]; cbn in Heq; injection Heq as -> ->.
           ++ by rewrite E in Hx.
           ++ exists pre, x, post. split_and!; [done|done|].
              intros z Hz. apply Hpre. by right.
        -- intros (pre & x & post & -> & Hx & Hpre).
           exists (r :: pre), x, post. split_and!; [done|done|].
           intros z [->|Hz]%elem_of_cons; auto.
Qed.

(** Whom a request may act for: administrators for any tenant, others for
    their own. *)
Definition member (tid : Z) (user : IUser.t) : Prop :=
  isAdmin (IUser.Roles user) = true \/
  exists t, IUser.Tenant user = Some t /\ ITenant.Id t = tid.

Definition with_user_role (user : IUser.t) : list IRole.t :=
  IUser.Roles user ++ [IRole.mk 0 SolutionName UserRoleName].

Lemma tenant_exists_inr tid w u w' :
  tenant_exists tid w = (inr u, w') ->
  exists t, t ∈ R TTenant w /\ Tenant.ID t = tid.
Proof.
  unfold tenant_exists. intros (t & w1 & Ht%first_or_inr & _)%bind_inr.
  apply First_ok in Ht as (Ht & Hp & _). exists t. split; [done|]. by apply Z.eqb_eq.
Qed.

(** What a request that passes has. *)
Definition authorized (endpoint : string) (tid : Z) (user : IUser.t)
    (w : World) : Prop :=
  (Transaction (tenant_exists tid) w).1 = inr tt /\ member tid user /\
  allowed endpoint (with_user_role user) /\
  exists t, t ∈ R TTenant w /\ Tenant.ID t = tid.

Lemma CheckAuthorization_passed ctx endpoint w w' :
  CheckAuthorization ctx endpoint w = (inr tt, w') ->
  exists tid user, GetTenantID ctx = inr tid /\
    GetAuthenticatedUser ctx = inr user /\ authorized endpoint tid user w.
Proof.
  unfold CheckAuthorization, getRequestMetadata. intros Hc.
  apply bind_inr in Hc as ([tid user] & w1 & Hm%check_inr & Hc).
  destruct (GetTenantID ctx) as [|tid'] eqn:Et; [by apply throw_inv in Hm as [? _]|].
  destruct (GetAuthenticatedUser ctx) as [|user'] eqn:Eu;
    [by apply throw_inv in Hm as [? _]|].
  apply ret_inv in Hm as [[= -> ->] ->]. exists tid', user'. split_and!; [done..|].
  apply bind_inr in Hc as ([] & w2 & Htx%check_inr & Hc).
  apply bind_inr in Hc as ([] & w3 & Hmem & Hc). split; [by rewrite Htx|].
  split; [|split].
  - unfold member. destruct (isAdmin (IUser.Roles user')); [by left|right].
    apply bind_inr in Hmem as (t & w4 & [Htn ->]%deref_inr & Hmem).
    exists t. split; [done|].
    destruct (Z.eqb_spec tid' (ITenant.Id t)); [done|].
    by apply fail_with_inv in Hmem as (s & ? & _).
  - apply (enforce_roles_iff ctx endpoint _ w3). by exists w'.
  - apply transaction_outcome in Htx; [|apply _].
    destruct Htx as (w0 & w5 & db & Hw0 & Hf & _).
    apply tenant_exists_inr in Hf as (t & Hin & Hid). exists t.
    by rewrite <- (Hw0 TTenant).
Qed.

(** C5. [CheckAuthorization] lets a request pass exactly when its tenant is
    found, its user is a member of that tenant or an administrator, and the
    policy allows the endpoint to one of the user's roles or to the role every
    user has (no role before that one having met an error of the policy); a
    passing request's tenant has a row. *)
Theorem CheckAuthorization_iff ctx endpoint tid user w :
  GetTenantID ctx = inr tid -> GetAuthenticatedUser ctx = inr user ->
  (exists w', CheckAuthorization ctx endpoint w = (inr tt, w')) <->
  (Transaction (tenant_exists tid) w).1 = inr tt /\ member tid user /\
  allowed endpoint (with_user_role user) /\
  exists t, t ∈ R TTenant w /\ Tenant.ID t = tid.
Proof.
  intros Ht Hu. split.
  - intros (w' & (tid' & user' & Ht' & Hu' & Hc)%CheckAuthorization_passed).
    rewrite Ht in Ht'. rewrite Hu in Hu'. injection Ht' as <-. injection Hu' as <-.
    exact Hc.
  - unfold CheckAuthorization, getRequestMetadata. rewrite Ht, Hu.
    intros (Htx & Hmem & Hal & _).
    destruct (Transaction (tenant_exists tid) w) as [r w1] eqn:E. cbn in Htx. subst r.
    assert ((if isAdmin (IUser.Roles user) then ret tt
      else tenant <- deref (IUser.Tenant user) ;;
           if negb (tid =? ITenant.Id tenant)
           then fail_with ctx
             "cdm-cloud.identity.check_authorization.failure-mismatch_user"
             (UnauthorizedRequest ctx)
           else ret tt) w1 = (inr tt, w1)) as Hm.
    { unfold member in Hmem. destruct (isAdmin (IUser.Roles user)); [done|].
      destruct Hmem as [?|(t & -> & <-)]; [done|]. unfold bind. cbn.
      by rewrite Z.eqb_refl. }
    apply (enforce_roles_iff ctx endpoint _ w1) in Hal as (w2 & Hw2).
    exists w2. unfold check at 1. unfold bind at 1 2, attempt at 1, ret at 1 2.
    unfold check, bind at 1 2, attempt at 1. rewrite E. unfold ret at 1.
    unfold bind at 1. rewrite Hm. exact Hw2.
Qed.
End authorization.

Section start.
Context `{BackendLaws}.

(** [NewIdentityHandler] fixes the administrator for the life of the
    service: the id it keeps is that of the user whose account is "admin", and
    the two roles are the rows of the solution "CDM-Cloud" with these names,
    which are the only such rows; without one of these three rows the service
    does not start. *)
Theorem NewIdentityHandler_spec w g w' :
  NewIdentityHandler w = (inr g, w') ->
  rows_eq w w' /\
  (exists u, u ∈ R TUser w /\ User.Account u = "admin"%string /\
     User.ID u = User.ID (@adminUser g) /\
     forall x, x ∈ R TUser w -> User.Account x = "admin"%string -> x = u) /\
  (forall x, x ∈ R TRole w /\ Role.Solution x = "CDM-Cloud"%string /\
     Role.Role x = "admin"%string <-> x = @admin_role g) /\
  (forall x, x ∈ R TRole w /\ Role.Solution x = "CDM-Cloud"%string /\
     Role.Role x = "manager"%string <-> x = @manager_role g).
Proof.
  unfold NewIdentityHandler. intros Hn.
  apply bind_inr in Hn as (x & w1 & (y & [= ->] & Ht)%attempt_inv & Hn).
  destruct y as [e|g']; [by destruct e; apply throw_inv in Hn as [? _]|].
  apply ret_inv in Hn as [[= ->] ->].
  apply transaction_outcome in Ht; [|keep].
  destruct Ht as (w0 & w2 & db & Hw0 & Hf & Hw2 & ->).
  apply bind_inr in Hf as (u & w3 & Hu & Hf).
  apply bind_inr in Hf as (a & w4 & Ha & Hf).
  apply bind_inr in Hf as (m & w5 & Hm & [[= ->] ->]%ret_inv).
  apply First_rows in Hu as (Hu & Hpu & H3).
  apply First_rows in Ha as (Ha & Hpa & H4).
  apply First_rows in Hm as (Hm & Hpm & H5).
  unfold by_account, solution_role, Admin, Manager, SolutionName in *. bools.
  rewrite (H4 TRole), (H3 TRole), (Hw0 TRole) in Hm.
  rewrite (H3 TRole), (Hw0 TRole) in Ha. rewrite (Hw0 TUser) in Hu.
  assert (forall x y, x ∈ R TRole w -> y ∈ R TRole w ->
    Role.Solution x = Role.Solution y -> Role.Role x = Role.Role y -> x = y) as Hrole.
  { intros x y Hx Hy H1' H2'. apply (rows_unique TRole _ _ _ Hx Hy).
    unfold conflict. cbn. by rewrite H1', H2', !String.eqb_refl, orb_true_r. }
  split; [|split; [|split]].
  - etrans; [exact Hw0|]. etrans; [exact H3|]. etrans; [exact H4|].
    etrans; [exact H5|exact Hw2].
  - exists u. split_and!; try done. intros x Hx Hacc.
    apply (user_account_unique w); [done|done|congruence].
  - cbn. intros x. split; [|by intros ->]. intros (Hx & ? & ?).
    apply Hrole; [done|done|congruence..].
  - cbn. intros x. split; [|by intros ->]. intros (Hx & ? & ?).
    apply Hrole; [done|done|congruence..].
Qed.
End start.

(** ** Examples *)
#[local] Existing Instance mem_backend.
#[local] Existing Instance mem_backend_laws.
#[local] Existing Instance s_globals.

Lemma CheckAuthorization_iff_witness :
  GetTenantID (s_ctx s_req_alice) = inr 1 /\
  allowed "Identity.GetUser" (with_user_role s_req_alice).
Proof.
  split; [vm_compute; reflexivity|].
  destruct (ran_ok (CheckAuthorization (s_ctx s_req_alice) "Identity.GetUser")
    s_world) as [[] Hr]; [vm_compute; reflexivity|].
  assert (GetTenantID (s_ctx s_req_alice) = inr 1) as Ht
    by (vm_compute; reflexivity).
  assert (GetAuthenticatedUser (s_ctx s_req_alice) = inr s_req_alice) as Hu
    by (vm_compute; reflexivity).
  apply (proj1 (CheckAuthorization_iff (s_ctx s_req_alice) "Identity.GetUser" 1
    s_req_alice s_world Ht Hu)).
  eexists. exact Hr.
Defined.

Lemma NewIdentityHandler_spec_witness :
  exists g, (NewIdentityHandler s_world).1 = inr g /\
    exists u, u ∈ R TUser s_world /\ User.ID u = User.ID (@adminUser g).
Proof.
  destruct (ran_ok NewIdentityHandler s_world) as [g Hr]; [vm_compute; reflexivity|].
  exists g. split; [by rewrite Hr|].
  destruct (NewIdentityHandler_spec s_world g _ Hr) as (_ & (u & Hu & _ & Hid & _) & _).
  exists u. split; [exact Hu|exact Hid].
Defined.
