(* ===== verification/ServiceProps.v ===== *)
(** * The identity service as a transition system: every request handler is a
    step; failed requests change no rows, and the administrator stays *)

From stdpp Require Import base tactics list relations strings sets gmap.
From Stdlib Require Import ZArith Lia Ascii.
From S2P Require Import Prelude GoStd Json Model Backend Errors Proto Metadata.
From S2P Require Import Gorm Database GormFacts TransactionFacts Report Config Store IdBase.
From S2P Require Import IdTenant IdGroup IdUser IdSession IdConfig IdHandler.
From S2P Require Import IdFacts GormFacts RefBackend UserProps.
#[local] Open Scope Z_scope.
#[local] Open Scope go_scope.

Section service.
Context `{BackendLaws} `{Globals}.
Variable privateKey : PrivateKey.

(** ** The requests *)

(** The handlers whose whole body is one transaction. *)
Inductive transacts : forall {A}, Act A -> Prop :=
| GetUser_t ctx id : transacts (GetUser ctx id)
| GetSimpleUser_t ctx id : transacts (GetSimpleUser ctx id)
| AddUser_t ctx u : (forall x, u = Some x -> user_msg_typed x = true) ->
    transacts (AddUser ctx u)
| UpdateUser_t ctx q :
    (forall x, UpdateUserRequest.User q = Some x -> user_msg_typed x = true) ->
    transacts (UpdateUser ctx q)
| DeleteUser_t ctx id : transacts (DeleteUser ctx id)
| GetUsers_t ctx q : transacts (GetUsers ctx q)
| UpdateUserPassword_t ctx q : transacts (UpdateUserPassword ctx q)
| ResetUserPassword_t ctx id : transacts (ResetUserPassword ctx id)
| GetGroups_t ctx n : transacts (GetGroups ctx n)
| GetGroup_t ctx id : transacts (GetGroup ctx id)
| AddGroup_t ctx g : transacts (AddGroup ctx g)
| UpdateGroup_t ctx q : transacts (UpdateGroup ctx q)
| DeleteGroup_t ctx id : transacts (DeleteGroup ctx id)
| SetGroupUsers_t ctx q : transacts (SetGroupUsers ctx q)
| GetRoles_t ctx s n : transacts (GetRoles ctx s n)
| Logout_t ctx : transacts (Logout ctx)
| VerifySession_t ctx : transacts (VerifySession privateKey ctx)
| RevokeSession_t ctx k : transacts (RevokeSession ctx k)
| GetConfig_t ctx : transacts (GetConfig ctx)
| SetConfig_t ctx c : transacts (SetConfig ctx c)
| GetTenants_t ctx n : transacts (GetTenants ctx n)
| GetTenant_t ctx id : transacts (GetTenant ctx id)
| AddTenant_t ctx t : transacts (AddTenant ctx t)
| UpdateTenant_t ctx q : transacts (UpdateTenant ctx q)
| ActivateTenant_t ctx id : transacts (ActivateTenant ctx id)
| DeactivateTenant_t ctx id : transacts (DeactivateTenant ctx id).

(** A step of the service: a request is served, with whatever answer. *)
Inductive step : World -> World -> Prop :=
| step_transaction {A} (c : Act A) w r w' :
    transacts c -> c w = (r, w') -> step w w'
| step_Login ctx q w r w' : Login privateKey ctx q w = (r, w') -> step w w'
| step_CheckAuthorization ctx e w r w' :
    CheckAuthorization ctx e w = (r, w') -> step w w'.

(** Every handler of the first kind is a transaction around a body that leaves
    the rows a rollback goes back to alone. *)
Lemma transacts_body {A} (c : Act A) :
  transacts c -> exists fc, Preserves base_frame fc /\ c = Transaction fc.
Proof.
  intros Hc. destruct Hc; (eexists; split; [|reflexivity]; keep).
Qed.

(** C8. A request that is refused changes no row: whichever handler answers
    with an error (Login apart, which counts failed logins), every table is as
    before, unless the error says that the answer to the commit was lost. *)
Theorem refused_changes_nothing {A} (c : Act A) w e w' :
  transacts c -> c w = (inl e, w') ->
  rows_eq w w' \/
  exists cause, e = UnusableDatabase (Some (AmbiguousCommitError cause)).
Proof.
  intros Hc Hr. destruct (transacts_body c Hc) as (fc & Hb & ->).
  apply Transaction_all_or_nothing in Hr; [|done].
  destruct Hr as [(w0 & w1 & a & _ & _ & _ & [?|[d ?]])|(e' & _ & ?)];
    [done| |by left]. right. exists d. congruence.
Qed.

(** ** The administrator *)

(** The administrator exists and has the administrator role, which exists,
    and nobody else has it. *)
Record administered (w : World) : Prop := {
  adm_user : exists u, u ∈ R TUser w /\ User.ID u = User.ID adminUser;
  adm_role : exists r, r ∈ R TRole w /\ Role.ID r = Role.ID admin_role;
  adm_has : UserRole.mk (User.ID adminUser) (Role.ID admin_role) ∈ R TUserRole w;
  adm_only : forall x, x ∈ R TUserRole w ->
    UserRole.RoleID x = Role.ID admin_role -> UserRole.UserID x = User.ID adminUser
}.

Definition adm (w w' : World) : Prop := administered w -> administered w'.

#[local] Instance adm_preorder : PreOrder adm.
Proof. unfold adm. split; [by intros w|]. intros w1 w2 w3 H1' H2' Ha. auto. Qed.

(** Whatever keeps users and leaves the roles alone. *)
Lemma adm_kept w w' :
  (forall u, u ∈ R TUser w -> exists u', u' ∈ R TUser w' /\ User.ID u' = User.ID u) ->
  R TRole w' = R TRole w -> R TUserRole w' = R TUserRole w -> adm w w'.
Proof.
  intros Hu Hr Hur [(u & Hin & Hid) Hrole Hhas Honly].
  split; rewrite ?Hr, ?Hur; [|done..].
  destruct (Hu u Hin) as (u' & Hin' & Hid'). exists u'. split; [done|congruence].
Qed.

Lemma adm_frame ts w w' :
  TUser ∉ ts -> TRole ∉ ts -> TUserRole ∉ ts -> db_frame ts w w' -> adm w w'.
Proof.
  intros Hu Hr Hur [Hf _]. apply adm_kept; [|by apply Hf..].
  intros u Hin. exists u. by rewrite Hf.
Qed.

Lemma adm_rows w w' : rows_eq w w' -> adm w w'.
Proof.
  intros Hw. apply adm_kept; [|apply Hw..]. intros u Hin. exists u. by rewrite Hw.
Qed.

#[local] Instance adm_services : Services adm.
Proof.
  assert (forall A (c : Act A), Preserves (db_frame []) c -> Preserves adm c) as Hnil.
  { intros A c. apply preserves_mono. intros w w'.
    apply adm_frame; apply not_elem_of_nil. }
  constructor; [constructor|..]; try apply _; intros; apply Hnil; apply _.
Qed.

(** Tables the administrator does not depend on. *)
Definition unrelated (t : table) : bool :=
  match t with TUser | TRole | TUserRole => false | _ => true end.

Lemma adm_Save t x : unrelated t = true -> Preserves adm (Save t x).
Proof.
  intros Ht w r w' Hs. apply (preserves_Save t x [t] ltac:(by left)) in Hs.
  revert Hs. apply adm_frame; apply not_in_one; by intros <-.
Qed.
Lemma adm_Delete t p : unrelated t = true -> Preserves adm (Delete t p).
Proof.
  intros Ht w r w' Hs. apply (preserves_Delete t p [t] ltac:(by left)) in Hs.
  revert Hs. apply adm_frame; apply not_in_one; by intros <-.
Qed.

(** Saving a user's row keeps every identifier. *)
Definition ids_kept (w w' : World) : Prop :=
  (forall u, u ∈ R TUser w -> exists u', u' ∈ R TUser w' /\ User.ID u' = User.ID u) /\
  forall t, t <> TUser -> R t w' = R t w.

#[local] Instance ids_kept_preorder : PreOrder ids_kept.
Proof.
  split; [by split; [eauto|]|]. intros w1 w2 w3 [U1 F1] [U2 F2]. split.
  - intros u (u' & Hu' & <-)%U1. apply U2 in Hu' as (u2 & ? & ?). eauto.
  - intros t Ht. by rewrite F2, F1.
Qed.

Lemma ids_kept_frame w w' : db_frame [] w w' -> ids_kept w w'.
Proof.
  intros Hf. split; [|intros t _; by apply db_frame_rows].
  intros u Hu. exists u. by rewrite (db_frame_rows _ _ TUser Hf).
Qed.

Lemma ids_kept_insert x : Preserves ids_kept (on_db (sql_insert TUser x)).
Proof.
  intros w r w' (y & db & E & -> & _)%on_db_inv. destruct y as [e|x'].
  - pose proof (insert_err _ _ _ _ _ E) as Hs. split; [|intros t _; apply Hs].
    intros u Hu. exists u. split; [|done]. unfold R. cbn. by rewrite (Hs TUser).
  - apply insert_ok in E as (_ & Hr & Ho). split; [|intros t Ht; by apply Ho].
    intros u Hu. exists u. split; [|done]. unfold R. cbn. rewrite Hr. by right.
Qed.

Lemma ids_kept_update x :
  Preserves ids_kept (on_db (sql_update TUser (same_key TUser x) (update_row TUser x))).
Proof.
  intros w r w' (y & db & E & -> & _)%on_db_inv. destruct y as [e|n].
  - pose proof (update_err _ _ _ _ _ _ E) as Hs. split; [|intros t _; apply Hs].
    intros u Hu. exists u. split; [|done]. unfold R. cbn. by rewrite (Hs TUser).
  - apply update_ok in E as (Hr & _ & Ho). split; [|intros t Ht; by apply Ho].
    intros u Hu. unfold R. cbn. setoid_rewrite Hr.
    exists (if same_key TUser x u then update_row TUser x u else u). split.
    + apply list_elem_of_In, List.in_map_iff. exists u.
      split; [done|by apply list_elem_of_In].
    + cbn. destruct (Z.eqb_spec (User.ID x) (User.ID u)); [|done].
      by destruct (_ =? 0).
Qed.

Lemma ids_kept_Save x : Preserves ids_kept (Save TUser x).
Proof.
  assert (forall A (c : Act A), Preserves (db_frame []) c -> Preserves ids_kept c)
    as Hnil by (intros A c; apply preserves_mono, ids_kept_frame).
  assert (forall y, Preserves ids_kept (Create TUser y)) as Hc.
  { intros y. unfold Create. apply preserves_bind; [apply _|apply Hnil; apply _|].
    intros z. apply ids_kept_insert. }
  unfold Save. destruct (main_key_blank TUser x); [apply Hc|].
  apply preserves_bind; [apply _|apply Hnil; apply _|]. intros y.
  apply preserves_bind; [apply _|apply ids_kept_update|]. intros n.
  destruct (n =? 0); [|apply _].
  apply preserves_bind; [apply _|apply preserves_attempt, Hnil; apply _|].
  intros []; keep.
Qed.

#[local] Instance adm_Save_user x : Preserves adm (Save TUser x).
Proof.
  intros w r w' [Hu Ho]%ids_kept_Save. apply adm_kept; [done|by apply Ho..].
Qed.
#[local] Hint Extern 1 (Preserves adm (Save _ _)) =>
  apply adm_Save; reflexivity : typeclass_instances.
#[local] Hint Extern 1 (Preserves adm (Delete _ _)) =>
  apply adm_Delete; reflexivity : typeclass_instances.

(** The relations of a user who is not the administrator, without the
    administrator role. *)
Lemma adm_relations uid roles w w' :
  updateUserRoleRelations uid roles w = (inr tt, w') ->
  isAdmin roles = false -> uid <> User.ID adminUser -> adm w w'.
Proof.
  intros [Hin Hf]%updateUserRoleRelations_inv Hno Hne [Hu Hr Hhas Honly].
  assert (forall r, r ∈ roles -> IRole.Id r <> Role.ID admin_role) as Hroles.
  { intros r Hin2 He. unfold isAdmin in Hno.
    apply not_true_iff_false in Hno. apply Hno, existsb_exists.
    exists r. split; [by apply list_elem_of_In|by apply Z.eqb_eq]. }
  split.
  - by rewrite Hf.
  - by rewrite Hf.
  - apply Hin. right. split; [done|]. cbn. congruence.
  - intros x [(r & Hin2 & ->)|[Hx _]]%Hin; cbn.
    + intros He. by destruct (Hroles r Hin2).
    + by apply Honly.
Qed.

Lemma adm_group_relations uid groups w w' :
  updateUserGroupRelations uid groups w = (inr tt, w') -> adm w w'.
Proof.
  intros [_ Hf]%updateUserGroupRelations_inv.
  apply adm_kept; [|by apply Hf..]. intros u Hu. exists u. by rewrite Hf.
Qed.

(** The row [Save] returns has the identifier asked for, or a fresh one. *)
Lemma Save_user_id x w r w' :
  Save TUser x w = (inr r, w') ->
  User.ID r = User.ID x /\ User.ID x <> 0 \/
  forall u, u ∈ R TUser w -> User.ID u <> User.ID r.
Proof.
  intros Hs. destruct (main_key_blank TUser x) eqn:Hb.
  - right. apply (Save_new TUser) in Hs as (r1 & w1 & _ & _ & HR); [|done].
    intros u Hu. pose proof (inserted_fresh TUser _ _ _ _ HR Hu) as Hn.
    unfold conflict in Hn. cbn in Hn. bools. done.
  - left. cbn in Hb. bools. split; [|done]. unfold Save in Hs.
    cbn [main_key_blank] in Hs. apply Z.eqb_neq in Hb as Hb2. rewrite Hb2 in Hs.
    apply bind_inr in Hs as (y & w1 & Hup & Hs). cbn in Hup. run Hup.
    apply bind_inr in Hs as (n & w2 & _ & Hs). destruct (n =? 0).
    + apply bind_inr in Hs as (z & w3 & (z' & [= ->] & Hf)%attempt_inv & Hs).
      destruct z' as [e|z'].
      * destruct e; try (by apply throw_inv in Hs as [? _]).
        apply (Create_ok TUser) in Hs as (r1 & w4 & Hc & (id & _ & ->) & _).
        cbn in Hc. run Hc. cbn. by rewrite Hb2.
      * apply ret_inv in Hs as [[= ->] _]. apply First_ok in Hf as (_ & Hk & _).
        cbn in Hk. by bools.
    + by apply ret_inv in Hs as [[= ->] _].
Qed.

Lemma adm_saved_id x w r w' :
  Save TUser x w = (inr r, w') -> administered w ->
  User.ID x <> User.ID adminUser -> User.ID r <> User.ID adminUser.
Proof.
  intros Hs [(u & Hu & Hid) _ _ _] Hne.
  destruct (Save_user_id x w r w' Hs) as [[-> _]|Hfresh]; [done|].
  specialize (Hfresh u Hu). congruence.
Qed.

Lemma adm_readonly {A} (c : Act A) w r w' :
  Preserves (db_frame []) c -> c w = (r, w') -> adm w w'.
Proof. intros Hc Hr. apply (adm_frame []); [apply not_elem_of_nil..|by eapply Hc]. Qed.

Lemma adm_addUser u password t w rsp w' :
  user_msg_typed u = true -> IUser.Tenant u = Some t -> IUser.Id u = 0 ->
  isAdmin (IUser.Roles u) = false -> addUser u password w = (inr rsp, w') -> adm w w'.
Proof.
  intros Hty Hten Hzero Hno Ha Hadm. unfold addUser in Ha.
  apply bind_inr in Ha as (r0 & w0 & (y & [= ->] & Hm)%attempt_inv & Ha).
  rewrite (userRspToModel_ok u t) in Hm by done. symmetry in Hm.
  injection Hm as -> ->.
  apply bind_inr in Ha as (user & w1 & Hu & Ha).
  apply or_unknown_err_inr in Hu as [[= <-] ->].
  apply bind_inr in Ha as (row & w2 & Hs%or_db_inr & Ha).
  assert (User.ID row <> User.ID adminUser) as Hne.
  { destruct (Save_user_id _ _ _ _ Hs) as [[_ Hb]|Hfresh].
    - cbn in Hb. by rewrite Hzero in Hb.
    - destruct Hadm as [(a & Hin & <-) _ _ _]. specialize (Hfresh a Hin). congruence. }
  apply (adm_Save_user _ _ _ _ Hs) in Hadm.
  apply bind_inr in Ha as ([] & w3 & Hr%or_db_inr & Ha).
  apply (adm_relations _ _ _ _ Hr Hno Hne) in Hadm.
  apply bind_inr in Ha as ([] & w4 & Hg%or_db_inr & Ha).
  apply (adm_group_relations _ _ _ _ Hg) in Hadm.
  revert Ha Hadm. apply adm_readonly. keep.
Qed.

Lemma adm_updateUser tid reqUser u t w rsp w' :
  user_msg_typed u = true -> IUser.Tenant u = Some t ->
  (isAdmin (IUser.Roles u) = true -> IUser.Id u = User.ID adminUser) ->
  updateUser tid reqUser u w = (inr rsp, w') -> adm w w'.
Proof.
  intros Hty Hten Hroles Hu Hadm. unfold updateUser in Hu.
  apply bind_inr in Hu as (r0 & w0 & (y & [= ->] & Hm)%attempt_inv & Hu).
  rewrite (userRspToModel_ok u t) in Hm by done. symmetry in Hm.
  injection Hm as -> ->.
  apply bind_inr in Hu as (user & w1 & Hr & Hu).
  apply or_unknown_err_inr in Hr as [[= <-] ->].
  apply bind_inr in Hu as (old & w2 & Hf%or_db_inr & Hu).
  apply (adm_readonly (First TUser _) _ _ _ _ Hf) in Hadm.
  apply bind_inr in Hu as (row & w3 & Hs%or_db_inr & Hu).
  assert (IUser.Id u <> User.ID adminUser -> User.ID row <> User.ID adminUser)
    as Hne by by apply (adm_saved_id _ _ _ _ Hs Hadm).
  apply (adm_Save_user _ _ _ _ Hs) in Hadm.
  apply bind_inr in Hu as ([] & w4 & Hrel & Hu).
  assert (administered w4) as Hadm4.
  { destruct (_ && _) eqn:Hm in Hrel; [|by apply ret_inv in Hrel as [_ ->]].
    bools. specialize (Hne ltac:(done)).
    apply bind_inr in Hrel as ([] & w5 & Hro%or_db_inr & Hgr%or_db_inr).
    apply (adm_group_relations _ _ _ _ Hgr).
    apply (adm_relations _ _ _ _ Hro); [|done|done].
    destruct (isAdmin (IUser.Roles u)); [|done]. by specialize (Hroles eq_refl). }
  revert Hu Hadm4. apply adm_readonly. keep.
Qed.

Lemma adm_deleteUser tid uid w w' :
  deleteUser tid uid w = (inr tt, w') -> adm w w'.
Proof.
  unfold deleteUser. intros (u & w1 & Hv & Hd)%bind_inr Hadm.
  apply validateUserDelete_inv in Hv as (_ & _ & Hid & _ & Hno & Hf).
  assert (uid <> User.ID adminUser) as Hne.
  { intros ->. apply Hno. split; apply Hadm. }
  apply (adm_frame [] w w1) in Hadm; [|apply not_elem_of_nil..|exact Hf].
  apply bind_inr in Hd as ([] & w2 & Hg%or_db_inr & Hd).
  apply (adm_group_relations _ _ _ _ Hg) in Hadm.
  apply bind_inr in Hd as ([] & w3 & Hr%or_db_inr & Hd).
  apply (adm_relations _ _ _ _ Hr eq_refl Hne) in Hadm.
  apply bind_inr in Hd as (n & w4 & Hx%or_db_inr & [_ ->]%ret_inv).
  pose proof (preserves_Delete TUser _ [TUser] ltac:(by left) _ _ _ Hx) as [Hxo _].
  destruct Hadm as [(a & Ha & Haid) Hrole Hhas Honly].
  split; rewrite ?Hxo by (by apply not_in_one); [|done..].
  exists a. split; [|done]. apply (Delete_In TUser _ _ _ _ a Hx).
  split; [done|]. unfold by_id. apply andb_false_iff. right.
  apply Z.eqb_neq. congruence.
Qed.

(** The other writing operations. *)
#[local] Instance adm_updateUserPassword id p :
  Preserves adm (updateUserPassword id p).
Proof. unfold updateUserPassword, now_unix. keep. Qed.
#[local] Instance adm_resetUserPassword ctx u tid id :
  Preserves adm (resetUserPassword ctx u tid id).
Proof. unfold resetUserPassword, now_unix. keep. Qed.
#[local] Instance adm_failed_info q : Preserves adm (updateUserLoginFailedInfo q).
Proof. unfold updateUserLoginFailedInfo, now_unix. keep. Qed.
#[local] Instance adm_loginUser ctx q : Preserves adm (loginUser ctx q).
Proof. unfold loginUser, now_unix. keep. Qed.
#[local] Instance adm_addGroup ctx tid g : Preserves adm (addGroup ctx tid g).
Proof. frame @addGroup. Qed.
#[local] Instance adm_updateGroup tid g : Preserves adm (updateGroup tid g).
Proof. frame @updateGroup. Qed.
#[local] Instance adm_deleteGroup ctx tid id : Preserves adm (deleteGroup ctx tid id).
Proof. frame @deleteGroup. Qed.
#[local] Instance adm_setGroupUsers ctx tid q : Preserves adm (setGroupUsers ctx tid q).
Proof. frame @setGroupUsers. Qed.
#[local] Instance adm_save_solutions id l : Preserves adm (save_solutions id l).
Proof. frame @save_solutions. Qed.
#[local] Instance adm_addTenant q : Preserves adm (addTenant q).
Proof. frame @addTenant. Qed.
#[local] Instance adm_updateTenant id q : Preserves adm (updateTenant id q).
Proof. frame @updateTenant. Qed.
#[local] Instance adm_set_use_flag b id : Preserves adm (set_use_flag b id).
Proof. frame @set_use_flag. Qed.
#[local] Instance adm_setConfig tid c : Preserves adm (setConfig tid c).
Proof. unfold setConfig, save_setting. keep. Qed.

Lemma adm_transaction {A} (fc : Act A) w r w' :
  Preserves base_frame fc ->
  (forall w a w', fc w = (inr a, w') -> adm w w') ->
  Transaction fc w = (r, w') -> adm w w'.
Proof.
  intros Hb Hfc Ht. apply Transaction_all_or_nothing in Ht; [|done].
  destruct Ht as [(w0 & w1 & a & Hw0 & Hf & [Hw1 _ _] & _)|(e & _ & Hw)].
  - etrans; [by apply adm_rows|]. etrans; [by eapply Hfc|]. by apply adm_rows.
  - by apply adm_rows.
Qed.

Lemma adm_transaction_keep {A} (fc : Act A) w r w' :
  Preserves base_frame fc -> Preserves adm fc ->
  Transaction fc w = (r, w') -> adm w w'.
Proof. intros Hb Hfc. apply adm_transaction; [done|]. intros *. apply Hfc. Qed.

Lemma adm_ok {A} ctx ev (a b : A) w w' :
  ok ctx ev a w = (inr b, w') -> adm w w'.
Proof. intros Ho. apply adm_rows. by eapply ok_rows. Qed.

Lemma validateUserAdd_admin ctx tid req w tn w' :
  validateUserAdd ctx tid req w = (inr tn, w') ->
  exists u t, req = Some u /\ IUser.Tenant u = Some t /\ IUser.Id u = 0 /\
    isAdmin (IUser.Roles u) = false.
Proof.
  unfold validateUserAdd. intros (u & w1 & [-> ->]%deref_inr & Hv)%bind_inr.
  apply bind_inr in Hv as ([] & w2 & [Hid ->]%guard_err_inr & Hv).
  apply bind_inr in Hv as ([] & w3 & [_ ->]%guard_err_inr & Hv).
  apply bind_inr in Hv as (t & w4 & [Ht ->]%deref_inr & Hv).
  apply bind_inr in Hv as ([] & w5 & [_ ->]%guard_err_inr & Hv).
  apply bind_inr in Hv as ([] & w6 & [Hadm ->]%guard_err_inr & _).
  bools. by exists u, t.
Qed.

Lemma validateUserUpdate_admin ctx tid reqUser req w w' :
  validateUserUpdate ctx tid reqUser req w = (inr tt, w') ->
  exists u t, UpdateUserRequest.User req = Some u /\ IUser.Tenant u = Some t /\
    (isAdmin (IUser.Roles u) = true -> IUser.Id u = User.ID adminUser).
Proof.
  unfold validateUserUpdate. intros Hv.
  destruct (UpdateUserRequest.User req) as [u|];
    [|by apply throw_inv in Hv as [? _]].
  apply bind_inr in Hv as ([] & w2 & [_ ->]%guard_err_inr & Hv).
  apply bind_inr in Hv as (t & w4 & [Ht ->]%deref_inr & Hv).
  apply bind_inr in Hv as ([] & w3 & [_ ->]%guard_err_inr & Hv).
  apply bind_inr in Hv as ([] & w5 & [_ ->]%guard_err_inr & Hv).
  apply bind_inr in Hv as ([] & w6 & [Hg ->]%guard_err_inr & _).
  exists u, t. split; [done|]. split; [done|]. intros Ha.
  rewrite Ha, andb_true_r in Hg. by bools.
Qed.

Lemma adm_AddUser ctx u w r w' :
  (forall x, u = Some x -> user_msg_typed x = true) ->
  AddUser ctx u w = (r, w') -> adm w w'.
Proof.
  intros Hty. apply adm_transaction; [keep|]. clear w r w'. intros w a w' Hf.
  apply bind_inr in Hf as ([tid ru] & w1 & Hm%check_inr & Hf).
  apply getRequestMetadata_inv in Hm as (_ & _ & ->).
  apply bind_inr in Hf as (tn & w2 & Hv%check_inr & Hf).
  destruct (validateUserAdd_admin _ _ _ _ _ _ Hv) as (x & t & -> & Ht & Hid & Hno).
  apply bind_inr in Hf as (pw & w3 & Hp%check_inr & Hf).
  apply bind_inr in Hf as (y & w4 & [[= <-] ->]%deref_inr & Hf).
  apply bind_inr in Hf as (user & w5 & Ha%check_inr & Hok).
  apply adm_ok in Hok. etrans; [|exact Hok].
  etrans; [eapply adm_readonly, Hv; apply _|].
  etrans; [eapply adm_readonly, Hp; apply _|].
  eapply adm_addUser; [by apply Hty|exact Ht|exact Hid|exact Hno|exact Ha].
Qed.

Lemma adm_UpdateUser ctx q w r w' :
  (forall x, UpdateUserRequest.User q = Some x -> user_msg_typed x = true) ->
  UpdateUser ctx q w = (r, w') -> adm w w'.
Proof.
  intros Hty. apply adm_transaction; [keep|]. clear w r w'. intros w a w' Hf.
  apply bind_inr in Hf as ([tid ru] & w1 & Hm%check_inr & Hf).
  apply getRequestMetadata_inv in Hm as (_ & _ & ->).
  apply bind_inr in Hf as ([] & w2 & Hv%check_inr & Hf).
  destruct (validateUserUpdate_admin _ _ _ _ _ _ Hv) as (x & t & Hx & Ht & Hno).
  apply bind_inr in Hf as (y & w4 & [Hy ->]%deref_inr & Hf).
  rewrite Hx in Hy. injection Hy as <-.
  apply bind_inr in Hf as (user & w5 & Ha%check_inr & Hok).
  apply adm_ok in Hok. etrans; [|exact Hok].
  etrans; [eapply adm_readonly, Hv; apply _|].
  eapply adm_updateUser; [by apply Hty|exact Ht|exact Hno|exact Ha].
Qed.

Lemma adm_DeleteUser ctx id w r w' : DeleteUser ctx id w = (r, w') -> adm w w'.
Proof.
  apply adm_transaction; [keep|]. clear w r w'. intros w a w' Hf.
  apply bind_inr in Hf as ([tid ru] & w1 & Hm%check_inr & Hf).
  apply getRequestMetadata_inv in Hm as (_ & _ & ->).
  apply bind_inr in Hf as ([] & w2 & Hd%check_inr & Hok).
  apply adm_ok in Hok. etrans; [|exact Hok]. by eapply adm_deleteUser.
Qed.

Lemma adm_transacts {A} (c : Act A) w r w' :
  transacts c -> c w = (r, w') -> adm w w'.
Proof.
  intros Hc. destruct Hc;
    lazymatch goal with
    | |- AddUser _ _ _ = _ -> _ => by apply adm_AddUser
    | |- UpdateUser _ _ _ = _ -> _ => by apply adm_UpdateUser
    | |- DeleteUser _ _ _ = _ -> _ => apply adm_DeleteUser
    | _ => apply adm_transaction_keep; keep
    end.
Qed.

#[local] Instance adm_Transaction_login ctx q :
  Preserves adm (Transaction (login_transaction privateKey ctx q)).
Proof.
  intros w r w'. apply adm_transaction_keep; [apply _|].
  unfold login_transaction. keep.
Qed.
#[local] Instance adm_Transaction_failure ctx q :
  Preserves adm (Transaction (login_failure_transaction ctx q)).
Proof.
  intros w r w'. apply adm_transaction_keep; [apply _|].
  unfold login_failure_transaction. keep.
Qed.
#[local] Instance adm_Transaction_tenant id :
  Preserves adm (Transaction (tenant_exists id)).
Proof. intros w r w'. apply adm_transaction_keep; keep. Qed.

#[local] Instance adm_enforce_roles ctx e rs : Preserves adm (enforce_roles ctx e rs).
Proof. induction rs; cbn; keep. Qed.

Lemma adm_step w w' : step w w' -> adm w w'.
Proof.
  intros [A c w1 r w2 Hc Hr|ctx q w1 r w2 Hr|ctx e w1 r w2 Hr].
  - by eapply adm_transacts.
  - assert (Preserves adm (Login privateKey ctx q)) as Hp by (unfold Login; keep).
    by eapply Hp.
  - assert (Preserves adm (CheckAuthorization ctx e)) as Hp
      by (unfold CheckAuthorization; keep).
    by eapply Hp.
Qed.

Lemma adm_steps w w' : rtc step w w' -> administered w -> administered w'.
Proof. induction 1 as [|w1 w2 w3 Hs _ IH]; [done|]. intros Ha. by apply IH, (adm_step w1). Qed.

(** C3. The administrator stays: over any sequence of requests, of whomever
    and whatever their answers, the administrator keeps existing, keeps the
    administrator role, and no other user ever gets that role, if that was so
    at first. *)
Theorem administrator_stays w w' :
  rtc step w w' -> administered w -> administered w'.
Proof. apply adm_steps. Qed.
End service.

(** ** Examples *)
#[local] Existing Instance mem_backend.
#[local] Existing Instance mem_backend_laws.
#[local] Existing Instance s_globals.

Lemma refused_changes_nothing_witness :
  is_ok (DeleteUser (s_ctx s_req_admin) 1 s_world).1 = false /\
  forall t, R t (DeleteUser (s_ctx s_req_admin) 1 s_world).2 = R t s_world.
Proof.
  split; [vm_compute; reflexivity|].
  destruct (ran_err (DeleteUser (s_ctx s_req_admin) 1) s_world) as [e Hr];
    [vm_compute; reflexivity|].
  assert (exists m, e = EMicro "cdm" m 400) as [m Hm].
  { assert ((DeleteUser (s_ctx s_req_admin) 1 s_world).1 = inl e) as He
      by by rewrite Hr.
    vm_compute in He. injection He as <-. eexists. reflexivity. }
  destruct (refused_changes_nothing s_key (DeleteUser (s_ctx s_req_admin) 1)
    s_world e _ (DeleteUser_t s_key (s_ctx s_req_admin) 1) Hr) as [Hw|[c Hc]].
  - exact Hw.
  - rewrite Hm in Hc. discriminate Hc.
Defined.

Lemma s_administered : administered s_world.
Proof.
  split.
  - exists (s_user 1 "admin" "adminpw" None None).
    split; [apply (bool_decide_unpack _); vm_compute; reflexivity|reflexivity].
  - exists s_admin_role.
    split; [apply (bool_decide_unpack _); vm_compute; reflexivity|reflexivity].
  - apply (bool_decide_unpack _). vm_compute. reflexivity.
  - intros x Hx. change (x ∈ s_tables TUserRole) in Hx. cbn in Hx.
    apply elem_of_cons in Hx as [->|Hx]; [done|].
    apply elem_of_cons in Hx as [->|Hx]; [done|].
    apply elem_of_cons in Hx as [->|Hx]; [done|].
    by apply elem_of_nil in Hx.
Qed.

Lemma administrator_stays_witness :
  administered (DeleteUser (s_ctx s_req_admin) 4 s_world).2.
Proof.
  apply (administrator_stays s_key s_world); [|exact s_administered].
  apply rtc_once.
  eapply (step_transaction s_key (DeleteUser (s_ctx s_req_admin) 4));
    [apply DeleteUser_t|].
  apply ran. reflexivity.
Defined.
