(* ===== verification/ConfigProps.v ===== *)
(** * Account settings: what is written is valid and is read back, and they stay
    well typed whatever is requested *)

From stdpp Require Import base tactics list relations strings sets gmap.
From Stdlib Require Import ZArith Lia Ascii.
From S2P Require Import Prelude GoStd Json Model Backend Errors Proto Metadata.
From S2P Require Import Gorm Database GormFacts Report Config Store IdBase.
From S2P Require Import IdTenant IdGroup IdUser IdSession IdConfig IdHandler.
From S2P Require Import IdFacts ConfigFacts TransactionFacts RefBackend ServiceProps.
#[local] Open Scope Z_scope.
#[local] Open Scope go_scope.

Section settings.
Context `{BackendLaws}.

Lemma save_setting_wrote tid key v w w' :
  save_setting tid key v w = (inr tt, w') -> wrote tid [(key, v)] w w'.
Proof.
  unfold save_setting. intros (r & w1 & Hs%or_db_inr & [_ ->]%ret_inv)%bind_inr.
  by eapply Save_setting.
Qed.

(** A query of a setting that the database refused to answer. *)
Definition refused (tid : Z) (key : string) : Prop :=
  exists w d, (First TTenantConfig (tenant_key tid key) w).1 = inl (EDriver d).

Lemma needed_run tid key v w r w' :
  setting w tid key v -> needed tid key w = (r, w') ->
  rows_eq w w' /\
  (r = inr v \/ (r = inl (notfoundTenantConfig key) /\ refused tid key)).
Proof.
  intros Hv Hn. pose proof (ro_needed (db_frame []) _ _ _ _ _ Hn) as Hf.
  split; [intros t; by apply db_frame_rows|].
  unfold needed in Hn. apply bind_inv in Hn as [(e & Hc & ->)|(o & w1 & Hc & Hn)];
    apply TenantConfig_run in Hc as (o' & Ho & Hc); [done|].
  injection Ho as ->. destruct o' as [c|].
  - apply ret_inv in Hn as [-> _]. left. f_equal. destruct Hc as [_ Hc].
    by eapply setting_unique.
  - apply throw_inv in Hn as [-> _]. right. split; [done|].
    destruct Hc as [Hc|[d Hc]]; [by destruct (Hc v)|by exists w, d].
Qed.

Lemma needed_as_run {A} (parse : Value -> err + A) tid key v a w r w' :
  setting w tid key v -> parse v = inr a -> needed_as parse tid key w = (r, w') ->
  rows_eq w w' /\
  (r = inr a \/ (r = inl (notfoundTenantConfig key) /\ refused tid key)).
Proof.
  unfold needed_as.
  intros Hv Hp [(e & Hn & ->)|(x & w1 & Hn & Hr)]%bind_inv;
    apply (needed_run tid key v) in Hn as [Hw [Hn|[Hn Href]]]; try done.
  - split; [done|]. right. by injection Hn as ->.
  - injection Hn as ->. rewrite Hp in Hr. apply ret_inv in Hr as [-> ->]. auto.
Qed.

(** What a request must say, by value. *)
Definition config_valid (c : IConfig.t) : Prop :=
  exists timezone language enable reuse cycle timeout,
    IConfig.GlobalTimezone c = Some timezone /\ LoadLocation timezone = true /\
    IConfig.GlobalLanguageSet c = Some language /\ language ∈ languageBoundary /\
    IConfig.UserLoginRestrictionEnable c = Some enable /\
    IConfig.UserReuseOldPassword c = Some reuse /\
    IConfig.UserPasswordChangeCycle c = Some cycle /\ 0 <= cycle <= 180 /\
    IConfig.UserSessionTimeout c = Some timeout /\ 1 <= timeout <= 1440 /\
    (enable = true -> exists tries time,
       IConfig.UserLoginRestrictionTryCount c = Some tries /\ 5 <= tries <= 30 /\
       IConfig.UserLoginRestrictionTime c = Some time /\
       10 <= Int.u64 time <= 7200).

Lemma isNone_false {A} (o : option A) d :
  isNone o = false -> o = Some (default d o).
Proof. by destruct o. Qed.

Lemma validateConfig_inv c w w' :
  validateConfig (Some c) w = (inr tt, w') -> w' = w /\ config_valid c.
Proof.
  unfold validateConfig. intros Hv.
  apply bind_inr in Hv as ([] & w1 & [H1 ->]%guard_err_inr & Hv).
  apply bind_inr in Hv as ([] & w2 & [H2 ->]%guard_err_inr & Hv).
  apply bind_inr in Hv as ([] & w3 & [H3 ->]%guard_err_inr & Hv).
  apply bind_inr in Hv as ([] & w4 & [H4 ->]%guard_err_inr & Hv).
  apply bind_inr in Hv as ([] & w5 & [H5 ->]%guard_err_inr & Hv).
  apply bind_inr in Hv as ([] & w6 & [H6 ->]%guard_err_inr & Hv). cbv zeta in Hv.
  apply bind_inr in Hv as ([] & w7 & [H7 ->]%guard_err_inr & Hv).
  apply bind_inr in Hv as ([] & w8 & [H8 ->]%guard_err_inr & Hv).
  apply bind_inr in Hv as ([] & w9 & [H9 ->]%guard_err_inr & Hv).
  apply bind_inr in Hv as ([] & w10 & [H10 ->]%guard_err_inr & Hv).
  apply negb_false_iff in H7, H8, H9, H10.
  apply enum_spec in H8. apply minMax_spec in H9, H10.
  apply (isNone_false _ EmptyString) in H1, H2. apply (isNone_false _ false) in H3, H6.
  apply (isNone_false _ 0) in H4, H5.
  assert (w' = w /\ (default false (IConfig.UserLoginRestrictionEnable c) = true ->
    exists tries time, IConfig.UserLoginRestrictionTryCount c = Some tries /\
       5 <= tries <= 30 /\ IConfig.UserLoginRestrictionTime c = Some time /\
       10 <= Int.u64 time <= 7200)) as [-> Hr].
  { destruct (default false (IConfig.UserLoginRestrictionEnable c)).
    - apply bind_inr in Hv as ([] & w11 & [H11 ->]%guard_err_inr & Hv).
      apply bind_inr in Hv as ([] & w12 & [H12 ->]%guard_err_inr & Hv).
      apply bind_inr in Hv as ([] & w13 & [H13 ->]%guard_err_inr & Hv).
      apply guard_err_inr in Hv as [H14 ->].
      apply negb_false_iff, minMax_spec in H13, H14.
      apply (isNone_false _ 0) in H11, H12. split; [done|]. intros _.
      by exists (default 0 (IConfig.UserLoginRestrictionTryCount c)),
        (default 0 (IConfig.UserLoginRestrictionTime c)).
    - by apply ret_inv in Hv as [_ ->]. }
  split; [done|]. eexists _, _, _, _, _, _. split_and!; try done; apply H9 || apply H10.
Qed.

(** The settings as [getConfig] shows them: without the restriction its
    numbers are left out. *)
Definition shown (c : IConfig.t) : IConfig.t :=
  if default false (IConfig.UserLoginRestrictionEnable c) then c
  else IConfig.mk (IConfig.GlobalTimezone c) (IConfig.GlobalLanguageSet c)
         (IConfig.UserLoginRestrictionEnable c) None None
         (IConfig.UserReuseOldPassword c) (IConfig.UserPasswordChangeCycle c)
         (IConfig.UserSessionTimeout c).

Lemma Uint64_itoa n : 0 <= n < Int.two63 -> Value.Uint64 (itoa_u64 n) = inr n.
Proof.
  intros Hn. unfold Value.Uint64, itoa_u64, Strconv.FormatInt.
  rewrite Int.i64_id by (unfold Int.two63 in *; lia).
  destruct (Z.ltb_spec n 0); [lia|].
  rewrite Strconv.ParseUint_FormatUint; [done|]. unfold Int.two63, Int.two64 in *. lia.
Qed.

Lemma Int64_itoa n : 0 <= n < Int.two63 -> Value.Int64 (itoa_u64 n) = inr n.
Proof.
  intros Hn. unfold Value.Int64, itoa_u64, Strconv.FormatInt.
  rewrite Int.i64_id by (unfold Int.two63 in *; lia).
  destruct (Z.ltb_spec n 0); [lia|].
  by rewrite Strconv.ParseInt_FormatUint.
Qed.

(** A small unsigned reading of a signed number is the number. *)
Lemma u64_small z :
  - Int.two63 <= z < Int.two63 -> Int.u64 z <= 7200 -> Int.u64 z = z.
Proof.
  intros Hz Hs. apply Int.u64_id. unfold Int.u64, Int.two63, Int.two64 in *.
  destruct (Z_lt_le_dec z 0); [|lia].
  rewrite <- (Z.mod_add z 1) in Hs by done. rewrite Z.mod_small in Hs; lia.
Qed.

(** The settings [setConfig] writes, last first. *)
Definition config_rows (c : IConfig.t) : list (string * string) :=
  (if default false (IConfig.UserLoginRestrictionEnable c) then
     [(UserLoginRestrictionTime,
       itoa_u64 (default 0 (IConfig.UserLoginRestrictionTime c)));
      (UserLoginRestrictionTryCount,
       itoa_u64 (default 0 (IConfig.UserLoginRestrictionTryCount c)))]
   else []) ++
  [(UserLoginRestrictionEnable,
    Strconv.FormatBool (default false (IConfig.UserLoginRestrictionEnable c)));
   (UserSessionTimeout, itoa_u64 (default 0 (IConfig.UserSessionTimeout c)));
   (UserReuseOldPassword,
    Strconv.FormatBool (default false (IConfig.UserReuseOldPassword c)));
   (UserPasswordChangeCycle,
    itoa_u64 (default 0 (IConfig.UserPasswordChangeCycle c)));
   (GlobalTimeZone, default EmptyString (IConfig.GlobalTimezone c));
   (GlobalLanguageSet, default EmptyString (IConfig.GlobalLanguageSet c))].

(** The next setting [Hs] saves is one more [W] wrote. *)
Ltac saved_one Hs W :=
  let w := fresh "w" in let H := fresh "H" in
  apply bind_inr in Hs as ([] & w & H & Hs);
  apply save_setting_wrote, (wrote_one _ _ _ _ _ _ _ W) in H;
    [|by apply (bool_decide_unpack _); vm_compute];
  clear W; rename H into W.

Lemma setConfig_inv tid c w w' :
  setConfig tid (Some c) w = (inr tt, w') ->
  config_valid c /\ wrote tid (config_rows c) w w'.
Proof.
  unfold setConfig, config_rows.
  intros ([] & w0 & [-> Hv]%validateConfig_inv & Hs)%bind_inr.
  apply bind_inr in Hs as (c' & w1 & [[= <-] ->]%deref_inr & Hs).
  split; [exact Hv|]. pose proof (wrote_nil tid w) as H0'.
  do 6 saved_one Hs H0'.
  destruct (default false (IConfig.UserLoginRestrictionEnable c)).
  - saved_one Hs H0'.
    apply save_setting_wrote, (wrote_one _ _ _ _ _ _ _ H0') in Hs; [done|].
    by apply (bool_decide_unpack _); vm_compute.
  - by apply ret_inv in Hs as [_ ->].
Qed.

(** One setting [getConfig] needs, then the rest. *)
Lemma needed_then {A B} (parse : Value -> err + A) (k : A -> Act B) tid key v a
    w0 w r w' :
  bind (needed_as parse tid key) k w = (r, w') ->
  rows_eq w0 w -> setting w0 tid key v -> parse v = inr a ->
  (exists w1, rows_eq w0 w1 /\ k a w1 = (r, w')) \/
  (r = inl (notfoundTenantConfig key) /\ refused tid key).
Proof.
  intros [(e & Hn & ->)|(x & w1 & Hn & Hk)]%bind_inv Hw Hv Hp;
    apply (setting_rows _ w) in Hv; [|done| |done];
    apply (needed_as_run parse tid key v a) in Hn as [Hw2 [Hr|[Hr Href]]]; try done.
  - right. by injection Hr as ->.
  - injection Hr as ->. left. exists w1. split; [by etrans|done].
Qed.

Lemma needed_then_text {B} (k : Value -> Act B) tid key v w0 w r w' :
  bind (needed tid key) k w = (r, w') ->
  rows_eq w0 w -> setting w0 tid key v ->
  (exists w1, rows_eq w0 w1 /\ k v w1 = (r, w')) \/
  (r = inl (notfoundTenantConfig key) /\ refused tid key).
Proof.
  intros Hk Hw Hv. apply (needed_then inr k tid key v v w0 w r w'); [|done..].
  unfold needed_as, bind in *. by destruct (needed tid key w) as [[e|x] w1].
Qed.

(** [Hg] goes on after the setting the lemma [L] is about. *)
#[local] Tactic Notation "next_setting" hyp(Hg) hyp(Hset) uconstr(L) :=
  apply L in Hg;
  [destruct Hg as [(? & ? & Hg)|[-> ?]];
     [|right; eexists; split; [reflexivity|eassumption]]
  |done
  |apply Hset; rewrite elem_of_app;
     first [ right; repeat first [by left|right]; fail
           | left; repeat first [by left|right]; fail ]
  |try apply Bool_format; try (by apply Uint64_itoa); try (by apply Int64_itoa)..].

(** [getConfig] in a state with all settings. *)
Lemma getConfig_run tid tz lang enable tries time reuse cycle timeout w r w' :
  (forall k v, (k, v) ∈ config_rows (IConfig.mk (Some tz) (Some lang)
     (Some enable) tries time (Some reuse) (Some cycle) (Some timeout)) ->
     setting w tid k v) ->
  0 <= cycle < Int.two63 -> 0 <= timeout < Int.two63 ->
  (enable = true -> exists n t, tries = Some n /\ 0 <= n < Int.two63 /\
     time = Some t /\ 0 <= t < Int.two63) ->
  getConfig tid w = (r, w') ->
  r = inr (shown (IConfig.mk (Some tz) (Some lang) (Some enable) tries time
        (Some reuse) (Some cycle) (Some timeout))) \/
  exists key, r = inl (notfoundTenantConfig key) /\ refused tid key.
Proof.
  intros Hset Hc Ht He Hg. unfold getConfig in Hg. unfold config_rows in Hset.
  cbn [IConfig.UserLoginRestrictionEnable IConfig.UserLoginRestrictionTime
    IConfig.UserLoginRestrictionTryCount IConfig.UserSessionTimeout
    IConfig.UserReuseOldPassword IConfig.UserPasswordChangeCycle
    IConfig.GlobalTimezone IConfig.GlobalLanguageSet default] in Hset.
  unfold id in Hset.
  assert (rows_eq w w) as Hw by done.
  next_setting Hg Hset (needed_then_text _ _ _ lang w).
  next_setting Hg Hset (needed_then_text _ _ _ tz w).
  next_setting Hg Hset (needed_then _ _ _ _ (itoa_u64 cycle) cycle w).
  next_setting Hg Hset (needed_then _ _ _ _ (Strconv.FormatBool reuse) reuse w).
  next_setting Hg Hset (needed_then _ _ _ _ (itoa_u64 timeout) timeout w).
  next_setting Hg Hset (needed_then _ _ _ _ (Strconv.FormatBool enable) enable w).
  destruct enable.
  - destruct (He eq_refl) as (n & z & -> & Hn & -> & Hz).
    next_setting Hg Hset (needed_then _ _ _ _ (itoa_u64 n) n w).
    next_setting Hg Hset (needed_then _ _ _ _ (itoa_u64 z) z w).
    apply ret_inv in Hg as [-> _]. by left.
  - apply ret_inv in Hg as [-> _]. by left.
Qed.

(** C11. Writing the account settings and reading them back is a round trip:
    [setConfig] only accepts settings within their boundaries, it changes no
    other tenant's settings and no other table, and on its rows [getConfig]
    answers with exactly the settings written (without the numbers of the login
    restriction when that is off), unless the database refuses a query. *)
Theorem setConfig_getConfig tid c w w1 w2 r w3 :
  (forall z, IConfig.UserLoginRestrictionTime c = Some z ->
     - Int.two63 <= z < Int.two63) ->
  setConfig tid (Some c) w = (inr tt, w1) -> rows_eq w1 w2 ->
  getConfig tid w2 = (r, w3) ->
  config_valid c /\
  (forall t k v, t <> tid -> setting w1 t k v <-> setting w t k v) /\
  (forall t, t <> TTenantConfig -> R t w1 = R t w) /\
  (r = inr (shown c) \/
   exists key, r = inl (notfoundTenantConfig key) /\ refused tid key).
Proof.
  intros Hty [Hv [Hin Hout Hfr]]%setConfig_inv Hw Hg. split; [exact Hv|].
  split; [intros t k v Ht; apply Hout; by left|]. split; [exact Hfr|].
  destruct c as [tz lang en tries time reuse cycle timeout].
  destruct Hv as (vtz & vlang & ven & vreuse & vcycle & vtimeout & [= ->] & _ &
    [= ->] & _ & [= ->] & [= ->] & [= ->] & Hcycle & [= ->] & Htimeout & Hen).
  cbn in Hen, Hty.
  apply (getConfig_run tid vtz vlang ven tries time vreuse vcycle vtimeout w2 _ w3);
    [|unfold Int.two63; lia..| |exact Hg].
  - intros k v Hk. apply (setting_rows w1); [done|by apply Hin].
  - intros ->. destruct (Hen eq_refl) as (n & z & -> & Hn & -> & Hz).
    exists n, z. specialize (Hty z eq_refl).
    pose proof (u64_small z Hty (proj2 Hz)) as Hu. rewrite Hu in Hz.
    split_and!; try done; unfold Int.two63; lia.
Qed.
End settings.

(** ** The types of the settings *)

(** A time zone, a language, a yes or no, a number without or with a sign. *)
Inductive setting_ty :=
| TyZone
| TyLanguage
| TyBool
| TyUint (b : numericBoundary)
| TyInt (b : numericBoundary).

Definition setting_types : list (string * setting_ty) := [
  (GlobalTimeZone, TyZone);
  (GlobalLanguageSet, TyLanguage);
  (UserPasswordChangeCycle, TyUint userPasswordChangeCycleBoundary);
  (UserReuseOldPassword, TyBool);
  (UserSessionTimeout, TyUint userSessionTimeoutBoundary);
  (UserLoginRestrictionEnable, TyBool);
  (UserLoginRestrictionTryCount, TyUint userLoginRestrictionTryCountBoundary);
  (UserLoginRestrictionTime, TyInt userLoginRestrictionTimeBoundary)].

Definition ty_of (key : string) : option setting_ty :=
  snd <$> List.find (fun x => (x.1 =? key)%string) setting_types.

Section typed.
Context `{BackendLaws} `{Globals}.
Variable privateKey : PrivateKey.

Definition within_boundary (b : numericBoundary) (n : Z) : Prop := nb_min b <= n <= nb_max b.

Definition has_ty (v : Value) (t : setting_ty) : Prop :=
  match t with
  | TyZone => LoadLocation v = true
  | TyLanguage => v ∈ languageBoundary
  | TyBool => exists b, Value.Bool v = inr b
  | TyUint b => exists n, Value.Uint64 v = inr n /\ within_boundary b n
  | TyInt b => exists n, Value.Int64 v = inr n /\ within_boundary b n
  end.

(** Every account setting of every tenant has the type of its key. *)
Definition well_typed (w : World) : Prop :=
  forall tid k v t, setting w tid k v -> ty_of k = Some t -> has_ty v t.

Definition wt (w w' : World) : Prop := well_typed w -> well_typed w'.

#[local] Instance wt_preorder : PreOrder wt.
Proof. unfold wt. split; [by intros w|]. intros w1 w2 w3 H1' H2' Ha. auto. Qed.

Lemma wt_kept w w' : R TTenantConfig w' = R TTenantConfig w -> wt w w'.
Proof. intros Hw Ht tid k v t Hs. apply (Ht tid). unfold setting in *. by rewrite <-Hw. Qed.

Lemma wt_rows w w' : rows_eq w w' -> wt w w'.
Proof. intros Hw. apply wt_kept, Hw. Qed.

Lemma wt_frame ts w w' : TTenantConfig ∉ ts -> db_frame ts w w' -> wt w w'.
Proof. intros Ht [Hf _]. by apply wt_kept, Hf. Qed.

(** Writing settings of their types keeps all well typed. *)
Lemma wrote_typed tid kvs w w' :
  wrote tid kvs w w' ->
  (forall k v t, (k, v) ∈ kvs -> ty_of k = Some t -> has_ty v t) -> wt w w'.
Proof.
  intros [Hin Hout _] Hty Hw t k v ty Hs Hk.
  destruct (decide (t = tid /\ k ∈ kvs.*1)) as [[-> Hkey]|Hno].
  - apply list_elem_of_fmap in Hkey as ([k' v'] & -> & Hkv). cbn in *.
    rewrite (setting_unique _ _ _ _ _ Hs (Hin _ _ Hkv)). by eapply Hty.
  - apply (Hw t k); [|done]. apply Hout; [|done]. destruct (decide (t = tid)); tauto.
Qed.

(** The text of a number is that of its unsigned reading when this is small. *)
Lemma itoa_u64_mod z : itoa_u64 (Int.u64 z) = itoa_u64 z.
Proof.
  unfold itoa_u64, Int.i64, Int.u64. by rewrite Zplus_mod_idemp_l.
Qed.

Lemma config_rows_typed c k v t :
  config_valid c -> (k, v) ∈ config_rows c -> ty_of k = Some t -> has_ty v t.
Proof.
  destruct c as [tz lang en tries time reuse cycle timeout].
  intros (vtz & vlang & ven & vreuse & vcycle & vtimeout & [= ->] & Htz &
    [= ->] & Hlang & [= ->] & [= ->] & [= ->] & Hcycle & [= ->] & Htimeout & Hen).
  cbn in Hen. unfold config_rows.
  cbn [IConfig.UserLoginRestrictionEnable IConfig.UserLoginRestrictionTime
    IConfig.UserLoginRestrictionTryCount IConfig.UserSessionTimeout
    IConfig.UserReuseOldPassword IConfig.UserPasswordChangeCycle
    IConfig.GlobalTimezone IConfig.GlobalLanguageSet default from_option].
  unfold id. intros Hkv Hk.
  assert (forall b n, Value.Uint64 (itoa_u64 n) = inr n -> within_boundary b n ->
    has_ty (itoa_u64 n) (TyUint b)) as Huint by (intros b n ??; by exists n).
  assert (forall b, has_ty (Strconv.FormatBool b) TyBool) as Hbool
    by (intros b; exists b; apply Bool_format).
  apply elem_of_app in Hkv as [Hkv|Hkv].
  - destruct ven; [|by apply elem_of_nil in Hkv].
    destruct (Hen eq_refl) as (n & z & -> & Hn & -> & Hz). cbn in Hkv.
    rewrite <-(itoa_u64_mod z) in Hkv.
    assert (Value.Int64 (itoa_u64 (Int.u64 z)) = inr (Int.u64 z)) as Hi
      by (apply Int64_itoa; unfold Int.two63; lia).
    assert (Value.Uint64 (itoa_u64 n) = inr n) as Hu
      by (apply Uint64_itoa; unfold Int.two63; lia).
    rewrite !elem_of_cons, elem_of_nil in Hkv.
    destruct Hkv as [[= -> ->]|[[= -> ->]|[]]]; injection Hk as <-.
    + by exists (Int.u64 z).
    + by apply Huint.
  - assert (Value.Uint64 (itoa_u64 vcycle) = inr vcycle) as Hc
      by (apply Uint64_itoa; unfold Int.two63; lia).
    assert (Value.Uint64 (itoa_u64 vtimeout) = inr vtimeout) as Ht
      by (apply Uint64_itoa; unfold Int.two63; lia).
    rewrite !elem_of_cons, elem_of_nil in Hkv.
    destruct Hkv as [[= -> ->]|[[= -> ->]|[[= -> ->]|[[= -> ->]|[[= -> ->]|[[= -> ->]|[]]]]]]];
      injection Hk as <-; (done || by apply Huint || apply Hbool).
Qed.

(** ** Every request keeps the settings well typed *)
#[local] Instance wt_services : Services wt.
Proof.
  assert (forall A (c : Act A), Preserves (db_frame []) c -> Preserves wt c) as Hnil.
  { intros A c. apply preserves_mono. intros w w'. apply wt_frame, not_elem_of_nil. }
  constructor; [constructor|..]; try apply _; intros; apply Hnil; apply _.
Qed.

Lemma wt_Save t x : t <> TTenantConfig -> Preserves wt (Save t x).
Proof.
  intros Ht w r w' Hs. apply (preserves_Save t x [t] ltac:(by left)) in Hs.
  revert Hs. by apply wt_frame, not_in_one.
Qed.
Lemma wt_Delete t p : t <> TTenantConfig -> Preserves wt (Delete t p).
Proof.
  intros Ht w r w' Hs. apply (preserves_Delete t p [t] ltac:(by left)) in Hs.
  revert Hs. by apply wt_frame, not_in_one.
Qed.
#[local] Hint Extern 1 (Preserves wt (Save _ _)) =>
  apply wt_Save; discriminate : typeclass_instances.
#[local] Hint Extern 1 (Preserves wt (Delete _ _)) =>
  apply wt_Delete; discriminate : typeclass_instances.

#[local] Instance wt_group_relations id gs : Preserves wt (updateUserGroupRelations id gs).
Proof. frame @updateUserGroupRelations. Qed.
#[local] Instance wt_role_relations id rs : Preserves wt (updateUserRoleRelations id rs).
Proof. frame @updateUserRoleRelations. Qed.
#[local] Instance wt_addUser u p : Preserves wt (addUser u p).
Proof. frame @addUser. Qed.
#[local] Instance wt_updateUser tid ru u : Preserves wt (updateUser tid ru u).
Proof. frame @updateUser. Qed.
#[local] Instance wt_deleteUser tid id : Preserves wt (deleteUser tid id).
Proof. frame @deleteUser. Qed.
#[local] Instance wt_updateUserPassword id p : Preserves wt (updateUserPassword id p).
Proof. unfold updateUserPassword, now_unix. keep. Qed.
#[local] Instance wt_resetUserPassword ctx u tid id :
  Preserves wt (resetUserPassword ctx u tid id).
Proof. unfold resetUserPassword, now_unix. keep. Qed.
#[local] Instance wt_failed_info q : Preserves wt (updateUserLoginFailedInfo q).
Proof. unfold updateUserLoginFailedInfo, now_unix. keep. Qed.
#[local] Instance wt_loginUser ctx q : Preserves wt (loginUser ctx q).
Proof. unfold loginUser, now_unix. keep. Qed.
#[local] Instance wt_addGroup ctx tid g : Preserves wt (addGroup ctx tid g).
Proof. frame @addGroup. Qed.
#[local] Instance wt_updateGroup tid g : Preserves wt (updateGroup tid g).
Proof. frame @updateGroup. Qed.
#[local] Instance wt_deleteGroup ctx tid id : Preserves wt (deleteGroup ctx tid id).
Proof. frame @deleteGroup. Qed.
#[local] Instance wt_setGroupUsers ctx tid q : Preserves wt (setGroupUsers ctx tid q).
Proof. frame @setGroupUsers. Qed.
#[local] Instance wt_save_solutions id l : Preserves wt (save_solutions id l).
Proof. frame @save_solutions. Qed.
#[local] Instance wt_addTenant q : Preserves wt (addTenant q).
Proof. frame @addTenant. Qed.
#[local] Instance wt_updateTenant id q : Preserves wt (updateTenant id q).
Proof. frame @updateTenant. Qed.
#[local] Instance wt_set_use_flag b id : Preserves wt (set_use_flag b id).
Proof. frame @set_use_flag. Qed.

Lemma wt_transaction {A} (fc : Act A) w r w' :
  Preserves base_frame fc -> (forall w a w', fc w = (inr a, w') -> wt w w') ->
  Transaction fc w = (r, w') -> wt w w'.
Proof.
  intros Hb Hfc Ht. apply Transaction_all_or_nothing in Ht; [|done].
  destruct Ht as [(w0 & w1 & a & Hw0 & Hf & [Hw1 _ _] & _)|(e & _ & Hw)].
  - etrans; [by apply wt_rows|]. etrans; [by eapply Hfc|]. by apply wt_rows.
  - by apply wt_rows.
Qed.

Lemma wt_transaction_keep {A} (fc : Act A) w r w' :
  Preserves base_frame fc -> Preserves wt fc -> Transaction fc w = (r, w') -> wt w w'.
Proof. intros Hb Hfc. apply wt_transaction; [done|]. intros *. apply Hfc. Qed.

#[local] Instance wt_Transaction {A} (fc : Act A) :
  Preserves base_frame fc -> Preserves wt fc -> Preserves wt (Transaction fc).
Proof. intros Hb Hfc w r w'. by apply wt_transaction_keep. Qed.

Lemma wt_SetConfig ctx c w r w' : SetConfig ctx c w = (r, w') -> wt w w'.
Proof.
  apply wt_transaction; [keep|]. clear w r w'. intros w a w' Hf.
  apply bind_inr in Hf as ([tid ru] & w1 & Hm%check_inr & Hf).
  apply getRequestMetadata_inv in Hm as (_ & _ & ->).
  apply bind_inr in Hf as ([] & w2 & Hs%check_inr & Hf).
  destruct c as [c|].
  - apply setConfig_inv in Hs as [Hv Hs]. etrans.
    + eapply wrote_typed; [exact Hs|]. intros k v t. by apply config_rows_typed.
    + revert Hf. apply (preserves (R:=wt)).
  - unfold setConfig, validateConfig in Hs.
    by apply bind_inr in Hs as ([] & w3 & [? _]%throw_inv & _).
Qed.

Lemma wt_transacts {A} (c : Act A) w r w' :
  transacts privateKey c -> c w = (r, w') -> wt w w'.
Proof.
  intros Hc. destruct Hc;
    lazymatch goal with
    | |- SetConfig _ _ _ = _ -> _ => apply wt_SetConfig
    | _ => apply wt_transaction_keep; keep
    end.
Qed.

#[local] Instance wt_enforce_roles ctx e rs : Preserves wt (enforce_roles ctx e rs).
Proof. induction rs; cbn; keep. Qed.
#[local] Instance wt_login_transaction ctx q :
  Preserves wt (login_transaction privateKey ctx q).
Proof. frame @login_transaction. Qed.
#[local] Instance wt_login_failure ctx q : Preserves wt (login_failure_transaction ctx q).
Proof. frame @login_failure_transaction. Qed.

Lemma wt_step w w' : step privateKey w w' -> wt w w'.
Proof.
  intros [A c w1 r w2 Hc Hr|ctx q w1 r w2 Hr|ctx e w1 r w2 Hr].
  - by eapply wt_transacts.
  - assert (Preserves wt (Login privateKey ctx q)) as Hp by (unfold Login; keep).
    by eapply Hp.
  - assert (Preserves wt (CheckAuthorization ctx e)) as Hp
      by (unfold CheckAuthorization; keep).
    by eapply Hp.
Qed.

(** ** Reading well-typed settings *)
Lemma needed_typed tid key w r w' :
  well_typed w -> needed tid key w = (r, w') ->
  well_typed w' /\
  match r with
  | inr v => forall t, ty_of key = Some t -> has_ty v t
  | inl e => e = notfoundTenantConfig key
  end.
Proof.
  intros Hw Hn. split; [exact (preserves (R:=wt) _ _ _ Hn Hw)|].
  unfold needed in Hn. apply bind_inv in Hn as [(e & Hc & ->)|(o & w1 & Hc & Hn)];
    apply TenantConfig_run in Hc as (o' & Ho & Hc); [done|].
  injection Ho as ->. destruct o' as [c|].
  - apply ret_inv in Hn as [-> _]. destruct Hc as [_ Hc]. intros t. by apply (Hw tid).
  - by apply throw_inv in Hn as [-> _].
Qed.

Lemma needed_as_typed {A} (parse : Value -> err + A) (P : A -> Prop) tid key w r w' :
  (forall v, (forall t, ty_of key = Some t -> has_ty v t) -> exists a, parse v = inr a /\ P a) ->
  well_typed w -> needed_as parse tid key w = (r, w') ->
  well_typed w' /\
  match r with inr a => P a | inl e => e = notfoundTenantConfig key end.
Proof.
  unfold needed_as. intros Hp Hw [(e & Hn & ->)|(v & w1 & Hn & Hr)]%bind_inv;
    apply needed_typed in Hn as [Hw1 Hv]; try done.
  destruct (Hp v Hv) as (a & Ha & HP). rewrite Ha in Hr.
  by apply ret_inv in Hr as [-> ->].
Qed.

(** One setting is read, and the rest goes on with a value of its type. *)
Lemma needed_as_next {A B} (parse : Value -> err + A) (P : A -> Prop) (k : A -> Act B)
    tid key w r w' :
  (forall v, (forall t, ty_of key = Some t -> has_ty v t) -> exists a, parse v = inr a /\ P a) ->
  bind (needed_as parse tid key) k w = (r, w') -> well_typed w ->
  (exists a w1, well_typed w1 /\ P a /\ k a w1 = (r, w')) \/
  (exists key, r = inl (notfoundTenantConfig key)).
Proof.
  intros Hp [(e & Hn & ->)|(a & w1 & Hn & Hk)]%bind_inv Hw;
    apply (needed_as_typed parse P) in Hn as [Hw1 Hx]; try done.
  - right. exists key. by rewrite Hx.
  - left. by exists a, w1.
Qed.

Lemma needed_next {B} (k : Value -> Act B) tid key t w r w' :
  ty_of key = Some t -> bind (needed tid key) k w = (r, w') -> well_typed w ->
  (exists v w1, well_typed w1 /\ has_ty v t /\ k v w1 = (r, w')) \/
  (exists key, r = inl (notfoundTenantConfig key)).
Proof.
  intros Ht [(e & Hn & ->)|(v & w1 & Hn & Hk)]%bind_inv Hw;
    apply needed_typed in Hn as [Hw1 Hx]; try done.
  - right. exists key. by rewrite Hx.
  - left. exists v, w1. by split; [|split; [apply Hx|]].
Qed.

Lemma needed_bool_next {B} (k : bool -> Act B) tid key w r w' :
  ty_of key = Some TyBool -> bind (needed_as Value.Bool tid key) k w = (r, w') ->
  well_typed w ->
  (exists b w1, well_typed w1 /\ True /\ k b w1 = (r, w')) \/
  (exists key, r = inl (notfoundTenantConfig key)).
Proof.
  intros Ht. apply needed_as_next. intros v Hv. destruct (Hv _ Ht) as [b Hb]. by exists b.
Qed.

#[local] Tactic Notation "read_typed" hyp(Hg) hyp(Hw) uconstr(L) :=
  let a := fresh "a" in let w := fresh "w" in let Ha := fresh "Ha" in
  apply L in Hg;
  [destruct Hg as [(a & w & Hw' & Ha & Hg)|?]; [clear Hw; rename Hw' into Hw|by right]
  |try done; intros v Hv; apply (Hv _ eq_refl)..].

Lemma getConfig_typed tid w r w' :
  well_typed w -> getConfig tid w = (r, w') ->
  (exists c, r = inr c /\ config_valid c) \/
  (exists key, r = inl (notfoundTenantConfig key)).
Proof.
  intros Hw Hg. unfold getConfig in Hg.
  read_typed Hg Hw (needed_next _ _ _ TyLanguage).
  read_typed Hg Hw (needed_next _ _ _ TyZone).
  read_typed Hg Hw (needed_as_next _ (within_boundary userPasswordChangeCycleBoundary)).
  read_typed Hg Hw needed_bool_next.
  read_typed Hg Hw (needed_as_next _ (within_boundary userSessionTimeoutBoundary)).
  read_typed Hg Hw needed_bool_next.
  destruct a4; [|apply ret_inv in Hg as [-> _]; left; eexists; split; [done|];
    eexists _, _, _, _, _, _; split_and!; try done;
    unfold within_boundary in *; cbn in *; lia].
  read_typed Hg Hw (needed_as_next _ (within_boundary userLoginRestrictionTryCountBoundary)).
  read_typed Hg Hw (needed_as_next _ (within_boundary userLoginRestrictionTimeBoundary)).
  apply ret_inv in Hg as [-> _]. left. eexists. split; [done|].
  unfold within_boundary in *. cbn in *.
  eexists _, _, _, _, _, _. split_and!; try done; try lia. intros _. eexists _, _.
  split_and!; try done; try lia; rewrite Int.u64_id by (unfold Int.two64; lia); lia.
Qed.

(** C12. Type soundness of the account settings.  Every setting has the type and the
    boundary of its key (a time zone that can be loaded, a language of the list, a
    boolean, a number in its range) after any sequence of requests, if that was so at
    first; and in such a state reading a tenant's settings answers with settings that
    validation accepts or with a setting that is not there, never with one it cannot
    read. *)
Theorem settings_sound w w' :
  rtc (step privateKey) w w' -> well_typed w ->
  well_typed w' /\
  forall tid r w2, getConfig tid w' = (r, w2) ->
    (exists c, r = inr c /\ config_valid c) \/
    (exists key, r = inl (notfoundTenantConfig key)).
Proof.
  intros Hs Hw. assert (well_typed w') as Hw'.
  { induction Hs as [|w1 w2 w3 Hs _ IH]; [done|]. by apply IH, (wt_step w1). }
  split; [done|]. intros tid r w2. by apply getConfig_typed.
Qed.
End typed.

(** ** Examples *)
#[local] Existing Instance mem_backend.
#[local] Existing Instance mem_backend_laws.
#[local] Existing Instance s_globals.

Definition s_config : IConfig.t :=
  IConfig.mk (Some "Asia/Seoul"%string) (Some "kor"%string) (Some true) (Some 7)
    (Some 60) (Some true) (Some 30) (Some 15).

Lemma setConfig_getConfig_witness :
  (getConfig 1 (setConfig 1 (Some s_config) s_world).2).1 = inr s_config /\
  config_valid s_config.
Proof.
  split; [vm_compute; reflexivity|].
  apply (setConfig_getConfig 1 s_config s_world
    (setConfig 1 (Some s_config) s_world).2
    (setConfig 1 (Some s_config) s_world).2
    (getConfig 1 (setConfig 1 (Some s_config) s_world).2).1
    (getConfig 1 (setConfig 1 (Some s_config) s_world).2).2).
  - intros z [= <-]. unfold Int.two63. lia.
  - apply ran. vm_compute. reflexivity.
  - intros t. reflexivity.
  - apply ran. reflexivity.
Defined.

Lemma s_well_typed : well_typed s_world.
Proof.
  intros tid k v t Hs. unfold setting in Hs.
  change (TenantConfig.mk tid k v ∈ s_tables TTenantConfig) in Hs. cbn in Hs.
  rewrite !elem_of_cons, elem_of_nil in Hs.
  repeat destruct Hs as [[= -> -> ->]|Hs]; try done; intros [= <-].
  - vm_compute; reflexivity.
  - by left.
  - by exists true.
  - exists 5. split; [vm_compute; reflexivity|]. by unfold within_boundary.
  - exists 600. split; [vm_compute; reflexivity|]. by unfold within_boundary.
  - by exists false.
  - exists 90. split; [vm_compute; reflexivity|]. by unfold within_boundary.
  - exists 30. split; [vm_compute; reflexivity|]. by unfold within_boundary.
Qed.

Lemma settings_sound_witness :
  well_typed (SetConfig (s_ctx s_req_admin) (Some s_config) s_world).2 /\
  (SetConfig (s_ctx s_req_admin) (Some s_config) s_world).1 = inr s_config.
Proof.
  split; [|vm_compute; reflexivity].
  apply (settings_sound s_key s_world); [|exact s_well_typed].
  apply rtc_once.
  eapply (step_transaction s_key (SetConfig (s_ctx s_req_admin) (Some s_config)));
    [apply SetConfig_t|].
  apply ran. reflexivity.
Defined.
