(* ===== verification/ErrorProps.v ===== *)
(** * Errors: the status of every error, and errors that cross a process
    boundary *)

From stdpp Require Import base tactics list strings sets gmap.
From Stdlib Require Import ZArith Lia Ascii.
From S2P Require Import Prelude GoStd Json Model Backend Errors Proto Metadata.
From S2P Require Import Gorm Database GormFacts Report Config Store IdBase.
From S2P Require Import IdTenant IdGroup IdUser IdSession IdConfig IdHandler.
From S2P Require Import IdFacts ErrorFacts RefBackend.
#[local] Open Scope Z_scope.
#[local] Open Scope go_scope.

Section statuses.
Context `{BackendLaws}.

(** [createError] answers the error [e] with the status [code]. *)
Definition answered (e : err) (code : Z) : Prop :=
  forall ctx ev w, exists msg w', createError_of ctx ev e w
    = (inr (EMicro "cdm" msg code), w').

Lemma status_answers code ctx ev ec c w :
  exists w', status code ctx ev ec c w
    = (inr (EMicro "cdm" (createEventMessage ev ec c) code), w').
Proof.
  destruct (status code ctx ev ec c w) as [r w'] eqn:E.
  pose proof E as E2. apply status_inv in E2 as (-> & _). by exists w'.
Qed.

(** Every kind of error has its status: a missing thing is 404, a refused
    credential, session or login 401, a denied request 403, a conflict 409, a
    failed precondition 412, any other fault of the request 400 and a fault of
    the service, its database, store or broker, 500; an error of no known kind
    is 500 as well; and the answer is always one of these statuses, with
    neither a row nor a key changed by giving it. *)
Theorem createError_statuses :
  (forall id v key s cause account a b c,
    answered (notFoundUser v) 404 /\ answered (notFoundTenant id) 404 /\
    answered (notFoundGroup id) 404 /\ answered (unknownSession id) 404 /\
    answered (notfoundTenantConfig key) 404 /\
    answered incorrectPassword 401 /\ answered (loginRestricted account a b c) 401 /\
    answered (expiredSession s) 401 /\ answered (unverifiedSession s cause) 401 /\
    answered (alreadyLogin id) 409 /\ answered (alreadyDeletedGroup id) 412 /\
    answered notReusableOldPassword 400 /\ answered currentPasswordMismatch 400 /\
    answered (undeletableUser id) 400 /\ answered (undeletableGroup id) 400 /\
    answered (invalidSession s) 400 /\ answered (unassignableRole s) 400 /\
    answered (invalidTenantConfig key s) 500) /\
  (forall p v v1 v2 s n l cause ctx,
    answered (RequiredParameter p) 400 /\ answered (UnchangeableParameter p) 400 /\
    answered (ConflictParameterValue p v) 409 /\
    answered (InvalidParameterValue p v s) 400 /\
    answered (LengthOverflowParameterValue p s n) 400 /\
    answered (OutOfRangeParameterValue p v v1 v2) 400 /\
    answered (UnavailableParameterValue p v l) 400 /\
    answered (FormatMismatchParameterValue p v s) 400 /\
    answered (UnauthenticatedRequest ctx) 401 /\
    answered (UnauthorizedRequest ctx) 403 /\ answered ErrNoContent 204 /\
    answered (InvalidRequest ctx) 500 /\
    answered (UnusableDatabase cause) 500 /\ answered (UnusableStore cause) 500 /\
    answered (UnusableBroker cause) 500 /\ answered (Unknown cause) 500 /\
    answered ERecordNotFound 500) /\
  forall ctx ev e w r w', createError_of ctx ev e w = (r, w') ->
    exists s, r = inr s /\ is_status s /\ w_db w' = w_db w /\ w_kv w' = w_kv w.
Proof.
  split; [|split].
  - intros. split_and!; intros ctx ev w; eexists; apply status_answers.
  - intros. unfold UnauthorizedRequest. destruct (GetAuthenticatedUser ctx);
      split_and!; intros ctx' ev w; eexists; apply status_answers.
  - intros ctx ev e w r w'. apply reports_createError_of.
Qed.
End statuses.

Section crossing.
Context `{Backend}.

(** A status error survives the way to another service: from the text of
    the go-micro error a client receives, the client reads the very status code
    the handler answered with, and the very event code, error code and contents,
    whether it asks about the error itself or about the error it wrapped it
    into; provided the texts are valid UTF-8. *)
Theorem ipc_roundtrip ev ec contents code :
  200 <= code < 300 \/ 400 <= code < 2147483648 ->
  let text := if is_empty ec then ev else String.append ev (String.append ":" ec) in
  let e := EMicro "cdm" (createEventMessage ev ec contents) code in
  Json.ValidString text = true -> text <> EmptyString ->
  Json.ValidString (contents_text contents) = true ->
  Json.ValidString (createEventMessage ev ec contents) = true ->
  GetIPCStatusCode (Some e) = Some code /\
  (400 <= code ->
   GetIPCStatusCode (Some (IPCFailed e)) = Some code /\
   GetIPCMessage (Some e) = Some (Some (text, contents_text contents)) /\
   GetIPCMessage (Some (IPCFailed e)) = Some (Some (text, contents_text contents))).
Proof.
  intros Hc text e Ht Hne Hct Hd.
  assert (micro_parse (error_string e)
    = mkMicroError "cdm" code (createEventMessage ev ec contents) (StatusText code))
    as Hp by (apply micro_parse_text; [reflexivity|done|lia]).
  assert (ipc_message (createEventMessage ev ec contents)
    = (text, contents_text contents)) as Hm.
  { unfold ipc_message, createEventMessage. fold text.
    change (match contents with Some c => _ | None => _ end)
      with (contents_text contents).
    rewrite message_parse_text by done.
    destruct (is_empty text) eqn:E; [by apply is_empty_true in E|done]. }
  assert (forall s, ipc_wrap s e = Wrap s
    [("code", VInt32 code); ("message", VMsg text (contents_text contents))]) as Hw.
  { intros s. unfold ipc_wrap. rewrite Hp. cbn [me_detail me_code]. by rewrite Hm. }
  assert (Equal (Some e) ErrIPCFailed = false) as Hf by by apply micro_not_sentinel.
  assert (Equal (Some e) ErrIPCSuccess = false) as Hs by by apply micro_not_sentinel.
  assert (IsIPCFailed (Some e) = (400 <=? code)) as Hif.
  { unfold IsIPCFailed. by rewrite Hp. }
  unfold GetIPCStatusCode, GetIPCMessage. rewrite Hf, Hs, Hif. cbn [orb].
  unfold IsIPCSuccess, IPCFailed, IPCSuccess. rewrite Hp. cbn [me_code].
  rewrite !Hw. split.
  - destruct (Z.leb_spec 400 code); [done|].
    destruct Hc as [Hc|Hc]; [|lia].
    destruct (Z.leb_spec 200 code), (Z.ltb_spec code 300); try lia. done.
  - intros H400. destruct (Z.leb_spec 400 code); [|lia]. done.
Qed.
End crossing.

(** ** Examples *)
#[local] Existing Instance mem_backend.
#[local] Existing Instance mem_backend_laws.
#[local] Existing Instance s_globals.

Lemma createError_statuses_witness :
  exists msg w', createError_of (s_ctx s_req_alice) "e" (notFoundUser (VInt 7)) s_world
    = (inr (EMicro "cdm" msg 404), w').
Proof.
  exact (proj1 (proj1 createError_statuses 7 (VInt 7) EmptyString EmptyString
    ErrUnknown EmptyString 0 0 0) (s_ctx s_req_alice) "e"%string s_world).
Defined.

Lemma ipc_roundtrip_witness :
  GetIPCMessage (Some (EMicro "cdm"
    (createEventMessage "cdm-cloud.identity.get_user.failure-get" "not_found_user"
      (Some (notFoundUser (VInt 7)))) 404))
  = Some (Some ("cdm-cloud.identity.get_user.failure-get:not_found_user",
      contents_text (Some (notFoundUser (VInt 7)))))%string.
Proof.
  refine (proj1 (proj2 (proj2 (ipc_roundtrip
    "cdm-cloud.identity.get_user.failure-get" "not_found_user"
    (Some (notFoundUser (VInt 7))) 404 (or_intror _) _ _ _ _) _))).
  - split; [discriminate|reflexivity].
  - vm_compute. reflexivity.
  - discriminate.
  - vm_compute. reflexivity.
  - vm_compute. reflexivity.
  - discriminate.
Defined.
