(* ===== verification/ListProps.v ===== *)
(** * The list of users: filters, pages and their numbers *)

From stdpp Require Import base tactics list strings sets gmap.
From Stdlib Require Import ZArith Lia Ascii.
From S2P Require Import Prelude GoStd Json Model Backend Errors Proto Metadata.
From S2P Require Import Gorm Database GormFacts Report Config Store IdBase.
From S2P Require Import IdTenant IdGroup IdUser IdSession IdConfig IdHandler.
From S2P Require Import IdFacts RefBackend UserProps GroupProps.
#[local] Open Scope Z_scope.
#[local] Open Scope go_scope.

Section lists.
Context `{BackendLaws} `{Globals}.

(** What a filter asks of a user, from the tables.  The filter by login looks
    at the key-value store and is left out. *)
Definition matches (w : World) (f : userFilter) (u : User.t) : Prop :=
  match f with
  | userSolutionFilter s r =>
      exists role, role ∈ R TRole w /\ Role.Solution role = s /\
        (r = EmptyString \/ Role.Role role = r) /\
        UserRole.mk (User.ID u) (Role.ID role) ∈ R TUserRole w
  | userGroupFilter g => UserGroup.mk (User.ID u) g ∈ R TUserGroup w
  | userExcludeGroupFilter g => ~ UserGroup.mk (User.ID u) g ∈ R TUserGroup w
  | userNameFilter n => sql_like (contains_pattern n) (User.Name u) = true
  | userDepartmentFilter d =>
      like_opt (contains_pattern d) (User.Department u) = true
  | userPositionFilter p => like_opt (contains_pattern p) (User.Position u) = true
  | paginationFilter _ _ => True
  | loginFilter => False
  end.

(** Which page the filters ask for: the last one's. *)
Fixpoint page_asked (fs : list userFilter) (page : option (Z * Z))
    : option (Z * Z) :=
  match fs with
  | [] => page
  | paginationFilter o l :: fs => page_asked fs (Some (o, l))
  | _ :: fs => page_asked fs page
  end.

(** [q'] is [q] narrowed to the users of [p]. *)
Definition narrowed (q q' : Query TUser) (p : User.t -> Prop) : Prop :=
  forall u, q_where q' u = true <-> q_where q u = true /\ p u.

Lemma narrowed_where p q (P : User.t -> Prop) :
  (forall u, p u = true <-> P u) -> narrowed q (where_user p q) P.
Proof. intros Hp u. cbn. by rewrite andb_true_iff, Hp. Qed.

Lemma bool_nil {A} `{EqDecision A} (l : list A) :
  bool_decide (l = []) = true -> forall x, x ∈ l -> False.
Proof. intros ->%bool_decide_eq_true x Hx. by apply elem_of_nil in Hx. Qed.

Lemma members_of w w1 gid l uid :
  Find TUserGroup (fun ug => UserGroup.GroupID ug =? gid) w = (inr l, w1) ->
  uid ∈ map UserGroup.UserID l <-> UserGroup.mk uid gid ∈ R TUserGroup w.
Proof.
  intros Hf. rewrite list_elem_of_fmap.
  setoid_rewrite (Find_In TUserGroup _ _ _ _ _ Hf). split.
  - intros ([u g] & -> & Hin & Hg). cbn in *. bools. by subst.
  - intros Hin. exists (UserGroup.mk uid gid). cbn. by rewrite Z.eqb_refl.
Qed.

Lemma userGroupFilter_narrows gid q w q' w' :
  userGroupFilter_Apply gid q w = (inr q', w') ->
  narrowed q q' (fun u => UserGroup.mk (User.ID u) gid ∈ R TUserGroup w) /\
  q_page q' = q_page q.
Proof.
  unfold userGroupFilter_Apply. intros (l & w1 & Hf & Hr)%bind_inr.
  destruct (bool_decide (l = [])) eqn:E; apply ret_inv in Hr as [[= ->] _];
    (split; [apply narrowed_where; intros u|done]);
    rewrite <- (members_of _ _ _ _ _ Hf).
  - apply bool_decide_eq_true in E as ->. split; [done|].
    intros Hx. by apply elem_of_nil in Hx.
  - apply zin_spec.
Qed.

Lemma userExcludeGroupFilter_narrows gid q w q' w' :
  userExcludeGroupFilter_Apply gid q w = (inr q', w') ->
  narrowed q q' (fun u => ~ UserGroup.mk (User.ID u) gid ∈ R TUserGroup w) /\
  q_page q' = q_page q.
Proof.
  unfold userExcludeGroupFilter_Apply. intros (l & w1 & Hf & Hr)%bind_inr.
  destruct (bool_decide (l = [])) eqn:E; apply ret_inv in Hr as [[= ->] _];
    (split; [apply narrowed_where; intros u|done]);
    rewrite <- (members_of _ _ _ _ _ Hf).
  - apply bool_decide_eq_true in E as ->. split; [|done].
    intros _ Hx. by apply elem_of_nil in Hx.
  - by rewrite negb_true_iff, <- not_true_iff_false, zin_spec.
Qed.

Lemma userSolutionFilter_narrows s r q w q' w' :
  userSolutionFilter_Apply s r q w = (inr q', w') ->
  narrowed q q' (matches w (userSolutionFilter s r)) /\ q_page q' = q_page q.
Proof.
  unfold userSolutionFilter_Apply. intros (roles & w1 & Hf & Hr)%bind_inr.
  pose proof (preserves_Find _ _ [] _ _ _ Hf) as Hw1.
  assert (forall role, role ∈ roles <-> role ∈ R TRole w /\ Role.Solution role = s /\
    (r = EmptyString \/ Role.Role role = r)) as Hroles.
  { intros role. rewrite (Find_In TRole _ _ _ _ role Hf).
    rewrite andb_true_iff, orb_true_iff, !String.eqb_eq.
    assert (is_empty r = true <-> r = EmptyString) as -> by (by destruct r). done. }
  destruct (bool_decide (roles = [])) eqn:E.
  { apply ret_inv in Hr as [[= ->] _]. split; [|done].
    apply narrowed_where. intros u. split; [done|].
    intros (role & H1' & H2' & H3' & _). exfalso.
    apply (bool_nil roles E role). by apply Hroles. }
  apply bind_inr in Hr as (urs & w2 & Hf2 & Hr).
  assert (forall u : User.t, User.ID u ∈ map UserRole.UserID urs <->
    matches w (userSolutionFilter s r) u) as Hu.
  { intros u. rewrite list_elem_of_fmap. cbn.
    setoid_rewrite (Find_In TUserRole _ _ _ _ _ Hf2).
    setoid_rewrite (db_frame_rows _ _ TUserRole Hw1). setoid_rewrite zin_spec.
    setoid_rewrite list_elem_of_fmap. split.
    - intros ([uid rid] & Hu & Hin & role & Hr2 & Hrole). cbn in Hu, Hr2. subst.
      apply Hroles in Hrole as (? & ? & ?). by exists role.
    - intros (role & H1' & H2' & H3' & Hin). eexists. split; [|split; [exact Hin|]].
      + done.
      + exists role. split; [done|]. by apply Hroles. }
  destruct (bool_decide (urs = [])) eqn:E2; apply ret_inv in Hr as [[= ->] _];
    (split; [apply narrowed_where; intros u; rewrite <- Hu|done]).
  - apply bool_decide_eq_true in E2 as ->. split; [done|].
    intros Hx. by apply elem_of_nil in Hx.
  - apply zin_spec.
Qed.

(** Every filter but the one by login. *)
Lemma user_Apply_narrows f q w q' w' :
  f <> loginFilter -> user_Apply f q w = (inr q', w') ->
  narrowed q q' (matches w f) /\ rows_eq w w' /\
  q_page q' = page_asked [f] (q_page q).
Proof.
  intros Hne Ha.
  assert (rows_eq w w') as Hw.
  { intros t. apply db_frame_rows. by eapply (ef_user_Apply (db_frame [])). }
  destruct f; cbn in Ha; try done.
  - apply userSolutionFilter_narrows in Ha as [? ?]. done.
  - apply userExcludeGroupFilter_narrows in Ha as [? ?]. done.
  - apply userGroupFilter_narrows in Ha as [? ?]. done.
  - apply ret_inv in Ha as [[= ->] _]. split; [by apply narrowed_where|done].
  - apply ret_inv in Ha as [[= ->] _]. split; [by apply narrowed_where|done].
  - apply ret_inv in Ha as [[= ->] _]. split; [by apply narrowed_where|done].
  - apply ret_inv in Ha as [[= ->] _]. split; [|done].
    intros u. cbn. tauto.
Qed.

Lemma narrowed_trans q q1 q2 P1 P2 :
  narrowed q q1 P1 -> narrowed q1 q2 P2 -> narrowed q q2 (fun u => P1 u /\ P2 u).
Proof. intros H1' H2' u. rewrite (H2' u), (H1' u). tauto. Qed.

Lemma matches_rows w w' f u : rows_eq w w' -> matches w' f u <-> matches w f u.
Proof. intros Hw. destruct f; cbn; by rewrite ?(Hw TRole), ?(Hw TUserRole), ?(Hw TUserGroup). Qed.

Lemma filters_narrow fs q w q' w' :
  ~ loginFilter ∈ fs ->
  fold_each (fun q f => or_db (user_Apply f q)) q fs w = (inr q', w') ->
  narrowed q q' (fun u => forall f, f ∈ fs -> matches w f u) /\ rows_eq w w' /\
  q_page q' = page_asked fs (q_page q).
Proof.
  revert q w. induction fs as [|f fs IH]; intros q w Hno Hf.
  - apply ret_inv in Hf as [[= ->] ->]. split; [|done]. intros u. split; [|by intros []].
    intros Hq. split; [done|]. intros f Hin. by apply elem_of_nil in Hin.
  - cbn in Hf. apply bind_inr in Hf as (q1 & w1 & Ha%or_db_inr & Hf).
    rewrite not_elem_of_cons in Hno. destruct Hno as [Hne Hno].
    apply user_Apply_narrows in Ha as (Hn1 & Hw1 & Hp1); [|by intros ->].
    apply IH in Hf as (Hn2 & Hw2 & Hp2); [|done].
    split; [|split; [by etrans|]].
    + intros u. rewrite (narrowed_trans _ _ _ _ _ Hn1 Hn2 u).
      setoid_rewrite elem_of_cons. setoid_rewrite (matches_rows _ _ _ _ Hw1).
      split.
      * intros (Hq & H1' & H2'). split; [done|]. intros g [->|Hg]; auto.
      * intros (Hq & Hall). split_and!; auto.
    + rewrite Hp2, Hp1. by destruct f.
Qed.

(** The same for the fold that keeps the page numbers apart. *)
Lemma count_filters fs q o l w s w' :
  fold_each (fun '(q, offset, limit) f =>
     match f with
     | paginationFilter o l => ret (q, o, l)
     | _ => q <- or_db (user_Apply f q) ;; ret (q, offset, limit)
     end) (q, o, l) fs w = (inr s, w') ->
  ~ loginFilter ∈ fs ->
  narrowed q s.1.1 (fun u => forall f, f ∈ fs -> matches w f u) /\ rows_eq w w' /\
  Some (s.1.2, s.2) = page_asked fs (Some (o, l)).
Proof.
  revert q o l w. induction fs as [|f fs IH]; intros q o l w Hf Hno.
  - apply ret_inv in Hf as [[= ->] ->]. split; [|done]. intros u. split; [|by intros []].
    intros Hq. split; [done|]. intros f Hin. by apply elem_of_nil in Hin.
  - cbn [fold_each] in Hf. apply bind_inr in Hf as (s1 & w1 & Ha & Hf).
    rewrite not_elem_of_cons in Hno. destruct Hno as [Hne Hno].
    assert (narrowed q s1.1.1 (matches w f) /\ rows_eq w w1 /\
      Some (s1.1.2, s1.2) = page_asked [f] (Some (o, l))) as (Hn1 & Hw1 & Hp1).
    { destruct f; try done;
        try (apply bind_inr in Ha as (q1 & w2 & Ha%or_db_inr & [[= ->] ->]%ret_inv);
          apply user_Apply_narrows in Ha as (? & ? & _); done).
      apply ret_inv in Ha as [[= ->] ->]. split; [|done]. intros u. cbn. tauto. }
    destruct s1 as [[q1 o1] l1]. cbn in *.
    apply IH in Hf as (Hn2 & Hw2 & Hp2); [|done].
    split; [|split; [by etrans|]].
    + intros u. rewrite (narrowed_trans _ _ _ _ _ Hn1 Hn2 u).
      setoid_rewrite elem_of_cons. setoid_rewrite (matches_rows _ _ _ _ Hw1).
      split.
      * intros (Hq & H1' & H2'). split; [done|]. intros g [->|Hg]; auto.
      * intros (Hq & Hall). split_and!; auto.
    + rewrite Hp2. destruct f; cbn in *; by simplify_eq.
Qed.

(** The users a request lists, each once. *)
Definition listed (w : World) (tid : Z) (fs : list userFilter) (u : User.t) : Prop :=
  u ∈ R TUser w /\ User.TenantID u = tid /\ forall f, f ∈ fs -> matches w f u.

Definition all_listed (w : World) (tid : Z) (fs : list userFilter)
    (l : list User.t) : Prop :=
  NoDup l /\ forall u, u ∈ l <-> listed w tid fs u.

Lemma filter_listed w q l0 tid fs :
  narrowed (where_user (in_tenant tid) Everything) q
    (fun u => forall f, f ∈ fs -> matches w f u) ->
  l0 ≡ₚ List.filter (q_where q) (R TUser w) -> all_listed w tid fs l0.
Proof.
  intros Hn Hl. split.
  - rewrite Hl. apply NoDup_ListNoDup, List.NoDup_filter, rows_nodup.
  - intros u. rewrite Hl, In_filter, (Hn u). unfold listed. cbn.
    unfold in_tenant. by rewrite Z.eqb_eq.
Qed.

Lemma getUsers_inv tid fs w users w' :
  ~ loginFilter ∈ fs -> getUsers tid fs w = (inr users, w') ->
  rows_eq w w' /\ exists l, all_listed w tid fs l /\
    map IUser.Id users = map User.ID (page_of (page_asked fs None) l).
Proof.
  intros Hno Hg. split.
  { intros t. apply db_frame_rows. by apply (ef_getUsers (db_frame [])) in Hg. }
  unfold getUsers in Hg.
  apply bind_inr in Hg as (tenant & w1 & Ht & Hg).
  pose proof (ro_getTenant (db_frame []) _ _ _ _ Ht) as Hw1.
  assert (rows_eq w w1) as Hr1 by (intros t; by apply db_frame_rows).
  apply bind_inr in Hg as (q & w2 & Hq & Hg).
  apply filters_narrow in Hq as (Hn & Hw2 & Hp); [|done].
  apply bind_inr in Hg as (rows & w3 & Hf%or_db_inr & Hm).
  unfold Find_page in Hf. rewrite Hp in Hf. cbn [q_page where_user Everything] in Hf.
  destruct (page_ok _); [|by apply throw_inv in Hf as [? _]].
  apply on_db_inv in Hf as (x & db & E & -> & Hx). destruct x as [|x]; [done|].
  injection Hx as ->. apply select_ok in E as (l0 & Hl0 & ->).
  change (rows TUser (w_db w2)) with (R TUser w2) in Hl0.
  rewrite (Hw2 TUser), (Hr1 TUser) in Hl0.
  exists l0. split.
  - apply (filter_listed w q); [|done]. intros u. rewrite (Hn u).
    by setoid_rewrite (matches_rows _ _ _ _ Hr1).
  - eapply map_each_part; [|exact Hm]. intros u wa y wb Hin Hb.
    apply bind_inr in Hb as (r & w4 & [Hr ->]%or_unknown_err_inr & Hb).
    apply bind_inr in Hb as (? & w5 & _ & Hb).
    apply bind_inr in Hb as (? & w6 & _ & Hb).
    apply bind_inr in Hb as (? & w7 & _ & [[= ->] _]%ret_inv).
    rewrite userModelToRsp_ok in Hr; [by injection Hr as <-|].
    apply (rows_typed TUser (w_db w)). change (u ∈ R TUser w).
    assert (u ∈ l0) as Hu.
    { destruct (page_asked fs None) as [[o l]|]; [|done]. cbn in Hin.
      rewrite <- (take_drop (Z.to_nat o) l0), elem_of_app. right.
      rewrite <- (take_drop (Z.to_nat l) (drop (Z.to_nat o) l0)), elem_of_app. by left. }
    rewrite Hl0 in Hu. by apply In_filter in Hu as [? _].
Qed.

Lemma getUsersPagination_inv tid fs w p w' :
  ~ loginFilter ∈ fs -> getUsersPagination tid fs w = (inr p, w') ->
  rows_eq w w' /\ forall l, all_listed w tid fs l ->
    exists o n, Some (o, n) = page_asked fs (Some (0, 0)) /\
      p = pagination o n (Z.of_nat (List.length l)).
Proof.
  intros Hno Hg. split.
  { intros t. apply db_frame_rows. by apply (ef_getUsersPagination (db_frame [])) in Hg. }
  unfold getUsersPagination in Hg. apply bind_inr in Hg as (s & w1 & Hs & Hg).
  apply count_filters in Hs as (Hn & Hw & Hp); [|done].
  destruct s as [[q o] n]. cbn in Hn, Hp.
  apply bind_inr in Hg as (total & w2 & Hc%or_db_inr & [[= ->] _]%ret_inv).
  apply (Count_ok TUser) in Hc as ->. rewrite (Hw TUser).
  intros l [Hnd Hl]. exists o, n. split; [done|].
  destruct (filter_listed w q (List.filter (q_where q) (R TUser w)) tid fs Hn
    (reflexivity _)) as [Hnd2 Hl2].
  assert (l ≡ₚ List.filter (q_where q) (R TUser w)) as Hperm.
  { apply NoDup_Permutation; [done|done|]. intros u. by rewrite Hl, Hl2. }
  by rewrite Hperm.
Qed.

Lemma all_listed_rows w w' tid fs l :
  rows_eq w w' -> all_listed w tid fs l -> all_listed w' tid fs l.
Proof.
  intros Hw [Hnd Hl]. split; [done|]. intros u. rewrite (Hl u). unfold listed.
  rewrite (Hw TUser). by setoid_rewrite (matches_rows _ _ _ _ Hw).
Qed.

(** [GetUsers] lists the users of the caller's tenant that match every
    filter of the request, each once: the answer is the page asked for of some
    order of them (all of them if no page is asked for), is never empty, and
    shows the page numbers that belong to their count; no row changes. *)
Theorem GetUsers_spec ctx req w users page w' :
  GetUsersRequest.LoginOnly req = false ->
  GetUsers ctx req w = (inr (users, page), w') ->
  rows_eq w w' /\ users <> [] /\
  exists tid l o n, GetTenantID ctx = inr tid /\
    all_listed w tid (makeUserFilter req) l /\
    map IUser.Id users
      = map User.ID (page_of (page_asked (makeUserFilter req) None) l) /\
    Some (o, n) = page_asked (makeUserFilter req) (Some (0, 0)) /\
    page = pagination o n (Z.of_nat (List.length l)).
Proof.
  intros Hlogin Hg. unfold GetUsers in Hg.
  assert (~ loginFilter ∈ makeUserFilter req) as Hno.
  { unfold makeUserFilter. rewrite Hlogin. unfold opt_filter.
    rewrite !elem_of_app. intros Hin.
    repeat match type of Hin with _ \/ _ => destruct Hin as [Hin|Hin] end; revert Hin;
      try (case_match; [|by apply not_elem_of_nil]);
      by rewrite ?list_elem_of_singleton, ?elem_of_nil. }
  apply transaction_outcome in Hg; [|keep].
  destruct Hg as (w0 & w1 & db & Hw0 & Hf & Hw1 & _).
  apply bind_inr in Hf as ([tid ru] & w2 & Hm%check_inr & Hf).
  apply getRequestMetadata_inv in Hm as (Htid & _ & ->). cbn in Htid.
  apply bind_inr in Hf as ([] & w3 & Hv%check_inr & Hf).
  pose proof (ro_validateUserListGet (db_frame []) _ _ _ _ Hv) as Hw3.
  cbv zeta in Hf.
  apply bind_inr in Hf as (us & w4 & Hus%check_inr & Hf).
  apply bind_inr in Hf as ([] & w5 & Hnc & Hf).
  apply bind_inr in Hf as (p & w6 & Hp%check_inr & Hok).
  pose proof (ok_rows _ _ _ _ _ _ Hok) as Hokr.
  apply ok_inr in Hok as ([= -> ->] & _).
  apply getUsers_inv in Hus as [Hw4 (l & Hl & Hids)]; [|done].
  assert (us <> [] /\ rows_eq w4 w5) as [Hne Hw5].
  { destruct us; [by apply fail_with_inv in Hnc as (? & ? & _)|].
    by apply ret_inv in Hnc as [_ ->]. }
  apply getUsersPagination_inv in Hp as [Hw6 Hp]; [|done].
  assert (rows_eq w w3) as Hw.
  { etrans; [exact Hw0|]. intros t. by apply db_frame_rows. }
  assert (rows_eq w w5) as Hwa by (etrans; [exact Hw|]; by etrans).
  split; [etrans; [exact Hwa|]; etrans; [exact Hw6|]; by etrans|]. split; [done|].
  destruct (Hp l) as (o & n & Hpage & ->).
  { by apply (all_listed_rows w3); [etrans; [exact Hw4|]|]. }
  exists tid, l, o, n. split_and!; try done.
  apply (all_listed_rows w3); [|done]. intros t. by rewrite Hw.
Qed.
End lists.

(** The page numbers are right as long as the sums fit 64 bits: with a page
    size [limit] the page shown is the one [offset] lies on, the number of pages
    is the least that hold all items, a page that shows an item is among them;
    without a page size there is one page. *)
Theorem pagination_bounds offset limit total :
  0 <= offset < Int.two63 -> 0 <= limit -> 0 <= total ->
  total + limit <= Int.two64 ->
  exists page pages,
    pagination offset limit total = Pagination.mk (Some page) (Some pages) (Some total) /\
    if limit =? 0 then page = 1 /\ pages = 1
    else (page - 1) * limit <= offset < page * limit /\
         (pages - 1) * limit < total <= pages * limit /\
         (offset < total -> 1 <= page <= pages).
Proof.
  intros Ho Hl Ht Hs. unfold pagination.
  destruct (Z.eqb_spec limit 0) as [|Hne]; [by exists 1, 1|].
  assert (0 <= offset / limit <= offset) as Hd.
  { split; [apply Z.div_pos; lia|]. apply Z.div_le_upper_bound; nia. }
  rewrite !Int.u64_id by (unfold Int.two63, Int.two64 in *; lia).
  exists (offset / limit + 1), ((total + limit - 1) / limit). split; [done|].
  pose proof (Z.div_mod offset limit Hne). pose proof (Z.mod_pos_bound offset limit).
  pose proof (Z.div_mod (total + limit - 1) limit Hne).
  pose proof (Z.mod_pos_bound (total + limit - 1) limit).
  split; [nia|]. split; [nia|]. nia.
Qed.

(** ** Examples *)
#[local] Existing Instance mem_backend.
#[local] Existing Instance mem_backend_laws.
#[local] Existing Instance s_globals.

Definition s_list : GetUsersRequest.t :=
  GetUsersRequest.mk (Some 2) (Some 0) "" "" 2 "" "" "" false 0.

Lemma GetUsers_spec_witness :
  exists users page, (GetUsers (s_ctx s_req_manager) s_list s_world).1
    = inr (users, page) /\ users <> [] /\ List.length users = 2%nat.
Proof.
  destruct (ran_ok (GetUsers (s_ctx s_req_manager) s_list) s_world)
    as [[users page] Hr]; [vm_compute; reflexivity|].
  exists users, page. split; [by rewrite Hr|].
  split; [apply (GetUsers_spec (s_ctx s_req_manager) s_list s_world users page _
    eq_refl Hr)|].
  assert ((GetUsers (s_ctx s_req_manager) s_list s_world).1 = inr (users, page))
    as Hu by by rewrite Hr.
  vm_compute in Hu. by injection Hu as <- _.
Defined.

Lemma pagination_bounds_witness :
  pagination 10 5 23 = Pagination.mk (Some 3) (Some 5) (Some 23) /\
  exists page pages,
    pagination 10 5 23 = Pagination.mk (Some page) (Some pages) (Some 23) /\
    (page - 1) * 5 <= 10 < page * 5.
Proof.
  split; [vm_compute; reflexivity|].
  destruct (pagination_bounds 10 5 23) as (page & pages & Hp & Hb & _);
    [split; [lia|reflexivity]|lia|lia|discriminate|].
  exists page, pages. split; [exact Hp|exact Hb].
Defined.
