(* ===== verification/NtProto.v ===== *)
(** * The messages of the notification service (services/notification/proto)
    and the JSON of the rows it publishes

    The records the generated code declares, and [Record] of event.go, with
    the encoders and decoders [encoding/json] derives from the struct tags. *)

From stdpp Require Import base tactics list strings.
From Stdlib Require Import ZArith Lia.
From S2P Require Import Prelude GoStd Json Model Backend Errors Report IdBase.
#[local] Open Scope Z_scope.

Module NTenant.
(** The tenant of an event message. *)
Record t := mk {
  Id : Z;
  Name : string
}.
#[global] Instance eq_dec : EqDecision t.
Proof. solve_decision. Defined.
End NTenant.

Module NEvent.
(** An event as responses carry it. *)
Record t := mk {
  Id : Z;
  Tenant : option NTenant.t;
  Code : string;
  EventError : string;
  Contents : string;
  CreatedAt : Z
}.
#[global] Instance eq_dec : EqDecision t.
Proof. solve_decision. Defined.
End NEvent.

Module GetEventsRequest.
(** The filters and the page of an event list. *)
Record t := mk {
  Limit : Z;
  Offset : Z;
  Solution : string;
  Class_1 : string;
  Class_2 : string;
  Class_3 : string;
  Level : string;
  StartDate : Z;
  EndDate : Z
}.
End GetEventsRequest.

Module NPagination.
(** The page of an event list. *)
Record t := mk {
  Page : Z;
  TotalPage : Z;
  TotalItems : Z
}.
#[global] Instance eq_dec : EqDecision t.
Proof. solve_decision. Defined.
End NPagination.

Module GetEventsStreamRequest.
(** The filters of an event stream. *)
Record t := mk {
  Interval : option Z;
  Solution : string;
  Class_1 : string;
  Class_2 : string;
  Class_3 : string;
  Level : string
}.
End GetEventsStreamRequest.

Module EventClassification.
(** A solution with three classes. *)
Record t := mk {
  Solution : string;
  Class_1 : string;
  Class_2 : string;
  Class_3 : string
}.
#[global] Instance eq_dec : EqDecision t.
Proof. solve_decision. Defined.
End EventClassification.

Module EventReceive.
(** Whether an event is received; without [Enable] the choice is withdrawn. *)
Record t := mk {
  Code : string;
  Enable : option bool
}.
#[global] Instance eq_dec : EqDecision t.
Proof. solve_decision. Defined.
End EventReceive.

Module GetEventReceivesRequest.
(** The filters of a list of receive settings. *)
Record t := mk {
  Solution : string;
  Class_1 : string;
  Class_2 : string;
  Class_3 : string;
  Level : string
}.
End GetEventReceivesRequest.

Module EventSMTPNotifier.
(** The mail server of a tenant. *)
Record t := mk {
  ServerAddress : string;
  ServerPort : Z;
  Encryption : string;
  AuthMechanism : string;
  AuthUsername : string;
  AuthPassword : string;
  Sender : string
}.
#[global] Instance eq_dec : EqDecision t.
Proof. solve_decision. Defined.
End EventSMTPNotifier.

Module EventSMSNotifier.
(** The text message provider of a tenant. *)
Record t := mk {
  Provider : string;
  Version : string
}.
#[global] Instance eq_dec : EqDecision t.
Proof. solve_decision. Defined.
End EventSMSNotifier.

Module NConfig.
(** The notification settings of a tenant, all optional. *)
Record t := mk {
  EventNotificationEnable : option bool;
  EventEmailNotificationEnable : option bool;
  EventDesktopNotificationEnable : option bool;
  EventPopupNotificationEnable : option bool;
  EventSmsNotificationEnable : option bool;
  EventCustomNotificationEnable : option bool;
  EventStorePeriod : option Z;
  EventSmtpNotifier : option EventSMTPNotifier.t;
  EventSmsNotifier : option EventSMSNotifier.t
}.
#[global] Instance eq_dec : EqDecision t.
Proof. solve_decision. Defined.
End NConfig.

Module Record.
(** An event with its code and its tenant (event.go). *)
Record t := mk {
  Event : Event.t;
  EventCode : EventCode.t;
  Tenant : Tenant.t
}.
#[global] Instance eq_dec : EqDecision t.
Proof. solve_decision. Defined.
End Record.

(** ** JSON *)
Definition parse_uint32 (n : string) : Strconv.num_error + Z :=
  match Strconv.ParseUint n with
  | inr z => if z <? 4294967296 then inr z else inl Strconv.ErrRange
  | inl e => inl e
  end.
Definition uint32_dec : Dec.t Z := Dec.number parse_uint32.

(** [json.Unmarshal] of a text into a fresh variable. *)
Definition Unmarshal {A} (zero : A) (d : Dec.t A) (text : string) : err + A :=
  match Json.Parse text with
  | None => inl (EPlain "invalid JSON text")
  | Some j =>
      let '(a, ok) := d zero j in
      if ok then inr a else inl (EPlain "JSON type mismatch")
  end.

Definition Event_zero : Event.t :=
  Event.mk 0 0 "" None "" 0.
Definition Event_dec : Dec.t Event.t := fun r j =>
  match j with
  | JObj ms =>
      let '(v0, k0) := Dec.field "id" Dec.uint64 (Event.ID r) ms in
      let '(v1, k1) := Dec.field "tenant_id" Dec.uint64 (Event.TenantID r) ms in
      let '(v2, k2) := Dec.field "code" Dec.string_ (Event.Code r) ms in
      let '(v3, k3) := Dec.field "error_code" (Dec.ptr EmptyString Dec.string_) (Event.ErrorCode r) ms in
      let '(v4, k4) := Dec.field "contents" Dec.string_ (Event.Contents r) ms in
      let '(v5, k5) := Dec.field "created_at" Dec.int64 (Event.CreatedAt r) ms in
      (Event.mk v0 v1 v2 v3 v4 v5, k0 && k1 && k2 && k3 && k4 && k5)
  | JNull => (r, true)
  | _ => (r, false)
  end.

Definition EventCode_enc (r : EventCode.t) : json :=
  JObj (
    Enc.str "code" (EventCode.Code r)
    ++ Enc.str "solution" (EventCode.Solution r)
    ++ Enc.str "level" (EventCode.Level r)
    ++ Enc.str "class_1" (EventCode.Class1 r)
    ++ Enc.str "class_2" (EventCode.Class2 r)
    ++ Enc.str "class_3" (EventCode.Class3 r)).

Definition EventCode_zero : EventCode.t :=
  EventCode.mk "" "" "" "" "" "".
Definition EventCode_dec : Dec.t EventCode.t := fun r j =>
  match j with
  | JObj ms =>
      let '(v0, k0) := Dec.field "code" Dec.string_ (EventCode.Code r) ms in
      let '(v1, k1) := Dec.field "solution" Dec.string_ (EventCode.Solution r) ms in
      let '(v2, k2) := Dec.field "level" Dec.string_ (EventCode.Level r) ms in
      let '(v3, k3) := Dec.field "class_1" Dec.string_ (EventCode.Class1 r) ms in
      let '(v4, k4) := Dec.field "class_2" Dec.string_ (EventCode.Class2 r) ms in
      let '(v5, k5) := Dec.field "class_3" Dec.string_ (EventCode.Class3 r) ms in
      (EventCode.mk v0 v1 v2 v3 v4 v5, k0 && k1 && k2 && k3 && k4 &&
        k5)
  | JNull => (r, true)
  | _ => (r, false)
  end.

Definition EventSMTPNotifier_enc (r : EventSMTPNotifier.t) : json :=
  JObj (
    Enc.str "server_address" (EventSMTPNotifier.ServerAddress r)
    ++ Enc.int "server_port" (EventSMTPNotifier.ServerPort r)
    ++ Enc.str "encryption" (EventSMTPNotifier.Encryption r)
    ++ Enc.str "auth_mechanism" (EventSMTPNotifier.AuthMechanism r)
    ++ Enc.str "auth_username" (EventSMTPNotifier.AuthUsername r)
    ++ Enc.str "auth_password" (EventSMTPNotifier.AuthPassword r)
    ++ Enc.str "sender" (EventSMTPNotifier.Sender r)).

Definition EventSMTPNotifier_zero : EventSMTPNotifier.t :=
  EventSMTPNotifier.mk "" 0 "" "" "" "" "".
Definition EventSMTPNotifier_dec : Dec.t EventSMTPNotifier.t := fun r j =>
  match j with
  | JObj ms =>
      let '(v0, k0) := Dec.field "server_address" Dec.string_ (EventSMTPNotifier.ServerAddress r) ms in
      let '(v1, k1) := Dec.field "server_port" uint32_dec (EventSMTPNotifier.ServerPort r) ms in
      let '(v2, k2) := Dec.field "encryption" Dec.string_ (EventSMTPNotifier.Encryption r) ms in
      let '(v3, k3) := Dec.field "auth_mechanism" Dec.string_ (EventSMTPNotifier.AuthMechanism r) ms in
      let '(v4, k4) := Dec.field "auth_username" Dec.string_ (EventSMTPNotifier.AuthUsername r) ms in
      let '(v5, k5) := Dec.field "auth_password" Dec.string_ (EventSMTPNotifier.AuthPassword r) ms in
      let '(v6, k6) := Dec.field "sender" Dec.string_ (EventSMTPNotifier.Sender r) ms in
      (EventSMTPNotifier.mk v0 v1 v2 v3 v4 v5 v6, k0 && k1 && k2 && k3
        && k4 && k5 && k6)
  | JNull => (r, true)
  | _ => (r, false)
  end.

Definition EventSMSNotifier_enc (r : EventSMSNotifier.t) : json :=
  JObj (
    Enc.str "provider" (EventSMSNotifier.Provider r)
    ++ Enc.str "version" (EventSMSNotifier.Version r)).

Definition EventSMSNotifier_zero : EventSMSNotifier.t :=
  EventSMSNotifier.mk "" "".
Definition EventSMSNotifier_dec : Dec.t EventSMSNotifier.t := fun r j =>
  match j with
  | JObj ms =>
      let '(v0, k0) := Dec.field "provider" Dec.string_ (EventSMSNotifier.Provider r) ms in
      let '(v1, k1) := Dec.field "version" Dec.string_ (EventSMSNotifier.Version r) ms in
      (EventSMSNotifier.mk v0 v1, k0 && k1)
  | JNull => (r, true)
  | _ => (r, false)
  end.

Definition Record_enc (r : Record.t) : json :=
  JObj [("event", Event_json (Record.Event r));
        ("event_code", EventCode_enc (Record.EventCode r));
        ("tenant", JObj (Tenant_members (Record.Tenant r)))].

Definition Record_zero : Record.t :=
  Record.mk Event_zero EventCode_zero Tenant_zero.
Definition Record_dec : Dec.t Record.t := fun r j =>
  match j with
  | JObj ms =>
      let '(v0, k0) := Dec.field "event" Event_dec (Record.Event r) ms in
      let '(v1, k1) := Dec.field "event_code" EventCode_dec (Record.EventCode r) ms in
      let '(v2, k2) := Dec.field "tenant" Tenant_dec (Record.Tenant r) ms in
      (Record.mk v0 v1 v2, k0 && k1 && k2)
  | JNull => (r, true)
  | _ => (r, false)
  end.

