(* ===== verification/NtConfig.v ===== *)
(** * services/notification/config: the notification settings of a tenant
    (util.go, config.go) and what events its users receive *)

From stdpp Require Import base tactics list strings gmap.
From Stdlib Require Import ZArith Lia.
From S2P Require Import Prelude GoStd Json Model Backend Errors Proto Metadata.
From S2P Require Import Gorm Config IdBase NtProto.
#[local] Open Scope Z_scope.
#[local] Open Scope go_scope.

(** ** errors.go *)
Definition ErrNotFoundUser : err := ENew "not found user".
Definition ErrNotFoundTenant : err := ENew "not found tenant".
Definition NotFoundUser (id : Z) : err := Wrap ErrNotFoundUser [("id", VInt id)].
Definition NotFoundTenant (id : Z) : err :=
  Wrap ErrNotFoundTenant [("id", VInt id)].

(** ** util.go *)
Definition encryptions : list string := ["none"; "ssl/tls"; "starttls"].
Definition authMechanisms : list string := ["PLAIN"; "LOGIN"; "CRAM-MD5"].

Definition defaultConfig : gmap string string :=
  list_to_map
    [(EventNotificationEnable, "false"%string);
     (EventEmailNotificationEnable, "false"%string);
     (EventDesktopNotificationEnable, "false"%string);
     (EventPopupNotificationEnable, "false"%string);
     (EventSmsNotificationEnable, "false"%string);
     (EventCustomNotificationEnable, "false"%string);
     (EventStorePeriod, "12"%string);
     (EventEmailNotifier, "{}"%string);
     (EventSMSNotifier, "{}"%string)].

(** A struct condition leaves the fields with the zero value out. *)
Definition cond_Z (want have : Z) : bool := (want =? 0) || (have =? want).
Definition cond_str (want have : string) : bool :=
  is_empty want || (have =? want)%string.

Section validate.
Context `{Backend}.

Definition validateEventStorePeriod (period : Z) : Act unit :=
  guard_err (120 <? period)
    (OutOfRangeParameterValue "event_store_period" (VInt period) (VInt 0)
       (VInt 120)).

(** [len(s) > 1024]: in bytes. *)
Definition too_long (s : string) : bool := 1024 <? len s.

(** A text that is required and limited. *)
Definition needed_text (missing param value : string) : Act unit :=
  guard_err (is_empty value) (RequiredParameter missing) ;;
  guard_err (too_long value) (LengthOverflowParameterValue param value 1024).

(** A text out of a list. *)
Definition needed_member (param value : string) (values : list string)
    : Act unit :=
  guard_err (is_empty value) (RequiredParameter param) ;;
  guard_err (negb (existsb (fun l => (l =? value)%string) values))
    (UnavailableParameterValue param (VStr value) values).

Definition validateServerAddress (address : string) : Act unit :=
  needed_text "event_smtp_notifier.server_address"
    "event_smtp_notifier.server_address" address.

Definition validateServerPort (port : Z) : Act unit :=
  guard_err ((port =? 0) || (65535 <? port))
    (OutOfRangeParameterValue "event_smtp_notifier.server_port" (VInt port)
       (VInt 1) (VInt 65535)).

Definition validateEncryption (enc : string) : Act unit :=
  needed_member "event_smtp_notifier.encryption" enc encryptions.

Definition validateAuthMechanism (mec : string) : Act unit :=
  needed_member "event_smtp_notifier.auth_mechanism" mec authMechanisms.

Definition validateAuthUsername (name : string) : Act unit :=
  needed_text "event_smtp_notifier.auth_username"
    "event_smtp_notifier.auth_username" name.

(** A missing password is reported as a missing user name. *)
Definition validateAuthPassword (password : string) : Act unit :=
  needed_text "auth_username" "event_smtp_notifier.auth_password" password.

Definition validateSender (sender : string) : Act unit :=
  guard_err (too_long sender)
    (LengthOverflowParameterValue "event_smtp_notifier.sender" sender 1024).

Definition validateProvider (provider : string) : Act unit :=
  needed_text "event_sms_notifier.provider" "event_sms_notifier.provider"
    provider.

Definition validateVersion (version : string) : Act unit :=
  needed_text "event_sms_notifier.version" "event_sms_notifier.version" version.
End validate.

Section config.
Context `{Backend}.

Definition config_struct (tenantID : Z) (key : string) (r : TenantConfig.t)
    : bool :=
  cond_Z tenantID (TenantConfig.TenantID r) && cond_str key (TenantConfig.Key r).

(** A setting that has no row has its default. *)
Definition getConfigOne (tenantID : Z) (key : string) : Act string :=
  r <- attempt (Find_one TTenantConfig (config_struct tenantID key)) ;;
  match r with
  | inr c => ret (TenantConfig.Value c)
  | inl ERecordNotFound => ret (default EmptyString (defaultConfig !! key))
  | inl e => throw (UnusableDatabase (Some e))
  end.

Definition getConfigBool (tenantID : Z) (key : string) : Act bool :=
  s <- getConfigOne tenantID key ;;
  or_unknown_err (Value.Bool s).

(** [uint32(v)] *)
Definition getConfigUint32 (tenantID : Z) (key : string) : Act Z :=
  s <- getConfigOne tenantID key ;;
  v <- or_unknown_err (Value.Uint64 s) ;;
  ret (v mod 4294967296).

Definition getConfigEventSMTPNotifier (tenantID : Z) (key : string)
    : Act EventSMTPNotifier.t :=
  s <- getConfigOne tenantID key ;;
  or_unknown_err (Unmarshal EventSMTPNotifier_zero EventSMTPNotifier_dec s).

Definition getConfigEventSMSNotifier (tenantID : Z) (key : string)
    : Act EventSMSNotifier.t :=
  s <- getConfigOne tenantID key ;;
  or_unknown_err (Unmarshal EventSMSNotifier_zero EventSMSNotifier_dec s).

Definition setConfigOne (tenantID : Z) (key value : string) : Act unit :=
  or_db (Save TTenantConfig (TenantConfig.mk tenantID key value)) ;; ret tt.

(** The four functions that set a setting differ in how they print it. *)
Definition set_needed {A} (print : A -> string) (tenantID : Z) (key : string)
    (value : option A) : Act unit :=
  match value with
  | None => throw (RequiredParameter key)
  | Some v => setConfigOne tenantID key (print v)
  end.

Definition setConfigBool := set_needed Strconv.FormatBool.
Definition setConfigUint32 := set_needed Strconv.FormatUint.
Definition setConfigEventSMTPNotifier :=
  set_needed (fun v => Json.Marshal (EventSMTPNotifier_enc v)).
Definition setConfigEventSMSNotifier :=
  set_needed (fun v => Json.Marshal (EventSMSNotifier_enc v)).

(** ** config.go *)
Definition ValidateUser (userID : Z) : Act unit :=
  r <- attempt (Find_one TUser (fun u => cond_Z userID (User.ID u))) ;;
  match r with
  | inr _ => ret tt
  | inl ERecordNotFound => throw (NotFoundUser userID)
  | inl e => throw (UnusableDatabase (Some e))
  end.

Definition ValidateTenant (tenantID : Z) : Act unit :=
  r <- attempt (Find_one TTenant (fun t => cond_Z tenantID (Tenant.ID t))) ;;
  match r with
  | inr _ => ret tt
  | inl ERecordNotFound => throw (NotFoundTenant tenantID)
  | inl e => throw (UnusableDatabase (Some e))
  end.

Definition GetConfigEmailNotifier (tenantID : Z) : Act EventSMTPNotifier.t :=
  getConfigEventSMTPNotifier tenantID EventEmailNotifier.

Definition GetConfig (tenantID : Z) : Act NConfig.t :=
  enable <- getConfigBool tenantID EventNotificationEnable ;;
  email <- getConfigBool tenantID EventEmailNotificationEnable ;;
  desktop <- getConfigBool tenantID EventDesktopNotificationEnable ;;
  popup <- getConfigBool tenantID EventPopupNotificationEnable ;;
  sms <- getConfigBool tenantID EventSmsNotificationEnable ;;
  custom <- getConfigBool tenantID EventCustomNotificationEnable ;;
  period <- getConfigUint32 tenantID EventStorePeriod ;;
  smtp <- getConfigEventSMTPNotifier tenantID EventEmailNotifier ;;
  smsn <- getConfigEventSMSNotifier tenantID EventSMSNotifier ;;
  ret (NConfig.mk (Some enable) (Some email) (Some desktop) (Some popup)
         (Some sms) (Some custom) (Some period) (Some smtp) (Some smsn)).

(** [req.GetEventConfig().GetX()] of a request, whose settings may be nil. *)
Definition SetConfig (tenantID : Z) (c : option NConfig.t) : Act unit :=
  setConfigBool tenantID EventNotificationEnable
    (c ≫= NConfig.EventNotificationEnable) ;;
  setConfigBool tenantID EventEmailNotificationEnable
    (c ≫= NConfig.EventEmailNotificationEnable) ;;
  setConfigBool tenantID EventDesktopNotificationEnable
    (c ≫= NConfig.EventDesktopNotificationEnable) ;;
  setConfigBool tenantID EventPopupNotificationEnable
    (c ≫= NConfig.EventPopupNotificationEnable) ;;
  setConfigBool tenantID EventSmsNotificationEnable
    (c ≫= NConfig.EventSmsNotificationEnable) ;;
  setConfigBool tenantID EventCustomNotificationEnable
    (c ≫= NConfig.EventCustomNotificationEnable) ;;
  setConfigUint32 tenantID EventStorePeriod (c ≫= NConfig.EventStorePeriod) ;;
  setConfigEventSMTPNotifier tenantID EventEmailNotifier
    (c ≫= NConfig.EventSmtpNotifier) ;;
  setConfigEventSMSNotifier tenantID EventSMSNotifier
    (c ≫= NConfig.EventSmsNotifier).

(** The settings of the mail server, asked for when mails are enabled. *)
Definition validate_smtp (n : EventSMTPNotifier.t) : Act unit :=
  validateServerAddress (EventSMTPNotifier.ServerAddress n) ;;
  validateServerPort (EventSMTPNotifier.ServerPort n) ;;
  validateEncryption (EventSMTPNotifier.Encryption n) ;;
  validateAuthMechanism (EventSMTPNotifier.AuthMechanism n) ;;
  validateAuthUsername (EventSMTPNotifier.AuthUsername n) ;;
  validateAuthPassword (EventSMTPNotifier.AuthPassword n) ;;
  validateSender (EventSMTPNotifier.Sender n).

(** The settings of the provider, asked for when text messages are. *)
Definition validate_sms (n : EventSMSNotifier.t) : Act unit :=
  validateProvider (EventSMSNotifier.Provider n) ;;
  validateVersion (EventSMSNotifier.Version n).

(** A missing setting. *)
Definition present {A} (param : string) (o : option A) : Act unit :=
  match o with None => throw (RequiredParameter param) | Some _ => ret tt end.

(** Missing notifiers are reported under the name of another setting. *)
Definition ValidateConfig (conf : option NConfig.t) : Act unit :=
  present "event_notification_enable"
    (conf ≫= NConfig.EventNotificationEnable) ;;
  present "event_email_notification_enable"
    (conf ≫= NConfig.EventEmailNotificationEnable) ;;
  present "event_desktop_notification_enable"
    (conf ≫= NConfig.EventDesktopNotificationEnable) ;;
  present "event_popup_notification_enable"
    (conf ≫= NConfig.EventPopupNotificationEnable) ;;
  present "event_sms_notification_enable"
    (conf ≫= NConfig.EventSmsNotificationEnable) ;;
  present "event_custom_notification_enable"
    (conf ≫= NConfig.EventCustomNotificationEnable) ;;
  present "event_store_period" (conf ≫= NConfig.EventStorePeriod) ;;
  present "event_notification_enable" (conf ≫= NConfig.EventSmtpNotifier) ;;
  present "event_notification_enable" (conf ≫= NConfig.EventSmsNotifier) ;;
  validateEventStorePeriod (default 0 (conf ≫= NConfig.EventStorePeriod)) ;;
  (if default false (conf ≫= NConfig.EventEmailNotificationEnable) then
     validate_smtp (default EventSMTPNotifier_zero
                      (conf ≫= NConfig.EventSmtpNotifier))
   else ret tt) ;;
  (if default false (conf ≫= NConfig.EventSmsNotificationEnable) then
     validate_sms (default EventSMSNotifier_zero
                     (conf ≫= NConfig.EventSmsNotifier))
   else ret tt).

(** ** Which events are received *)

(** [&model.EventCode{Solution: ..., Class1: ..., ...}] of a request. *)
Definition code_struct (req : GetEventReceivesRequest.t) (c : EventCode.t)
    : bool :=
  cond_str (GetEventReceivesRequest.Solution req) (EventCode.Solution c)
  && cond_str (GetEventReceivesRequest.Class_1 req) (EventCode.Class1 c)
  && cond_str (GetEventReceivesRequest.Class_2 req) (EventCode.Class2 c)
  && cond_str (GetEventReceivesRequest.Class_3 req) (EventCode.Class3 c)
  && cond_str (GetEventReceivesRequest.Level req) (EventCode.Level c).

Definition filtered (req : GetEventReceivesRequest.t) : bool :=
  negb (is_empty (GetEventReceivesRequest.Solution req)
        && is_empty (GetEventReceivesRequest.Class_1 req)
        && is_empty (GetEventReceivesRequest.Class_2 req)
        && is_empty (GetEventReceivesRequest.Class_3 req)
        && is_empty (GetEventReceivesRequest.Level req)).

Definition request_json (req : GetEventReceivesRequest.t) : json :=
  JObj (Enc.str "solution" (GetEventReceivesRequest.Solution req)
        ++ Enc.str "class_1" (GetEventReceivesRequest.Class_1 req)
        ++ Enc.str "class_2" (GetEventReceivesRequest.Class_2 req)
        ++ Enc.str "class_3" (GetEventReceivesRequest.Class_3 req)
        ++ Enc.str "level" (GetEventReceivesRequest.Level req)).

(** If the request asks for a kind of event, there must be such a code. *)
Definition some_code (req : GetEventReceivesRequest.t) : Act unit :=
  if filtered req then
    r <- attempt (Find_one TEventCode (code_struct req)) ;;
    match r with
    | inr _ => ret tt
    | inl ERecordNotFound =>
        throw (InvalidParameterValue "request" (VJson (request_json req))
                 (error_string ERecordNotFound))
    | inl e => throw (UnusableDatabase (Some e))
    end
  else ret tt.

(** [cdm_tenant_receive_event JOIN cdm_event_code] under the conditions. *)
Definition tenant_receives (tenantID : Z) (req : GetEventReceivesRequest.t)
    (T : forall t, list (row t)) : list TenantReceiveEvent.t :=
  flat_map (fun r : TenantReceiveEvent.t =>
    map (fun _ => r)
      (List.filter (fun c : EventCode.t =>
         (EventCode.Code c =? TenantReceiveEvent.Code r)%string
         && cond_Z tenantID (TenantReceiveEvent.TenantID r)
         && code_struct req c) (T TEventCode)))
    (T TTenantReceiveEvent).

Definition GetTenantEventReceives (tenantID : Z)
    (req : GetEventReceivesRequest.t) : Act (list EventReceive.t) :=
  some_code req ;;
  receives <- or_db (Scan (tenant_receives tenantID req)) ;;
  ret (map (fun r => EventReceive.mk (TenantReceiveEvent.Code r)
                       (Some (TenantReceiveEvent.ReceiveFlag r))) receives).

Definition SetTenantEventReceives (tenantID : Z)
    (items : list EventReceive.t) : Act unit :=
  for_each (fun item =>
    or_db (Save TTenantReceiveEvent
      (TenantReceiveEvent.mk (EventReceive.Code item) tenantID
         (default false (EventReceive.Enable item)))) ;;
    ret tt) items.

Definition user_receives (userID : Z) (req : GetEventReceivesRequest.t)
    (T : forall t, list (row t)) : list UserReceiveEvent.t :=
  flat_map (fun r : UserReceiveEvent.t =>
    map (fun _ => r)
      (List.filter (fun c : EventCode.t =>
         (EventCode.Code c =? UserReceiveEvent.Code r)%string
         && cond_Z userID (UserReceiveEvent.UserID r)
         && code_struct req c) (T TEventCode)))
    (T TUserReceiveEvent).

(** A setting without a flag is left out of the answer. *)
Definition GetUserEventReceives (userID : Z)
    (req : GetEventReceivesRequest.t) : Act (list EventReceive.t) :=
  some_code req ;;
  receives <- or_db (Scan (user_receives userID req)) ;;
  ret (flat_map (fun r =>
         match UserReceiveEvent.ReceiveFlag r with
         | None => []
         | Some b => [EventReceive.mk (UserReceiveEvent.Code r) (Some b)]
         end) receives).

(** An item without [Enable] withdraws the choice. *)
Definition set_user_receive (userID : Z) (item : EventReceive.t) : Act unit :=
  match EventReceive.Enable item with
  | None =>
      or_db (Delete_row TUserReceiveEvent
        (UserReceiveEvent.mk (EventReceive.Code item) userID None)) ;;
      ret tt
  | Some b =>
      or_db (Save TUserReceiveEvent
        (UserReceiveEvent.mk (EventReceive.Code item) userID (Some b))) ;;
      ret tt
  end.

Definition SetUserEventReceives (userID : Z) (items : list EventReceive.t)
    : Act unit := for_each (set_user_receive userID) items.

(** The record to delete has no code, which is the main key. *)
Definition ResetUserEventReceives (userID : Z) : Act unit :=
  or_db (Delete_row TUserReceiveEvent (UserReceiveEvent.mk "" userID None)) ;;
  ret tt.
End config.
