(* ===== verification/NtNotifier.v ===== *)
(** * services/notification/notifier: which users are notified of an event
    (notifier.go) *)

From stdpp Require Import base tactics list strings gmap.
From Stdlib Require Import ZArith Lia.
From S2P Require Import Prelude GoStd Json Model Backend Errors Proto Metadata.
From S2P Require Import Gorm Database Report IdBase NtProto NtConfig.
#[local] Open Scope Z_scope.
#[local] Open Scope go_scope.

(** [constant.QueueNotifyEmail] *)
Definition QueueNotifyEmail : string := "cdm.notification.notify.email".

(** ** errors.go *)
Definition ErrNotFoundUser : err := ENew "not found user".
Definition NotFoundUser (id : Z) : err := Wrap ErrNotFoundUser [("id", VInt id)].

Definition delivery_json (ev : Event.t) (u : User.t) : json :=
  JObj [("event", Event_json ev); ("user", JObj (User_members u))].

Section notifier.
Context `{Backend}.

(** The kinds of notification that are switched on and implemented. *)
Definition notify_kinds (conf : NConfig.t) : list string :=
  if default false (NConfig.EventEmailNotificationEnable conf)
  then [QueueNotifyEmail] else [].

(** The rows of [cdm_user] joined with the users' and the tenants' receive
    settings: the users' settings are joined by user only, the tenants' by
    tenant and event code. *)
Definition users_to_notify (ev : Event.t) (T : forall t, list (row t))
    : list User.t :=
  flat_map (fun u : User.t =>
    if cond_Z (Event.TenantID ev) (User.TenantID u) then
      flat_map (fun ur : UserReceiveEvent.t =>
        if UserReceiveEvent.UserID ur =? User.ID u then
          flat_map (fun tr : TenantReceiveEvent.t =>
            if (TenantReceiveEvent.TenantID tr =? User.TenantID u)
               && cond_str (Event.Code ev) (TenantReceiveEvent.Code tr)
               && default (TenantReceiveEvent.ReceiveFlag tr)
                    (UserReceiveEvent.ReceiveFlag ur)
            then [u] else []) (T TTenantReceiveEvent)
        else []) (T TUserReceiveEvent)
    else []) (T TUser).

(** [broker.Publish] with its error wrapped. *)
Definition or_broker {A} (c : Act A) : Act A :=
  r <- attempt c ;;
  match r with
  | inr a => ret a
  | inl e => throw (UnusableBroker (Some e))
  end.

Definition ClassifyEvent (ev : Event.t) : Act unit :=
  Transaction (
    conf <- GetConfig (Event.TenantID ev) ;;
    if negb (default false (NConfig.EventNotificationEnable conf)) then ret tt
    else
      let kinds := notify_kinds conf in
      if bool_decide (kinds = []) then ret tt
      else
        users <- or_db (Scan (users_to_notify ev)) ;;
        for_each (fun user =>
          for_each (fun kind =>
            or_broker (Publish kind (Json.Marshal (delivery_json ev user))))
            kinds) users).
End notifier.
