(* ===== verification/NtEvent.v ===== *)
(** * services/notification/event: recording events (event.go), querying them
    (query.go), deleting the expired ones (cleaner.go) *)

From stdpp Require Import base tactics list strings gmap.
From Stdlib Require Import ZArith Lia.
From S2P Require Import Prelude GoStd Json Model Backend Errors Proto Metadata.
From S2P Require Import Gorm Database Report Config IdBase NtProto NtConfig.
From S2P Require Import NtNotifier.
#[local] Open Scope Z_scope.
#[local] Open Scope go_scope.

(** ** errors.go *)
Definition ErrNotFoundEvent : err := ENew "not found event".
Definition NotFoundEvent (id : Z) : err :=
  Wrap ErrNotFoundEvent [("id", VInt id)].

(** ** Texts that [json.Unmarshal] reads into a [map[string]interface{}] *)

(** Whether a number literal fits a [float64]: it is less than the middle
    between the greatest one and its successor. *)
Definition float_limit : Z := 2 ^ 1024 - 2 ^ 970.

Definition digits_value (ds : list Z) : Z :=
  fold_left (fun n d => 10 * n + (d - 48)) ds 0.

Definition float_fits (lit : string) : bool :=
  let '(_, l) := Json.parse_sign (Bytes.to_bytes lit) in
  let '(int, l) := Json.digits l in
  let '(frac, l) :=
    match Json.parse_frac l with Some (_ :: fs, l) => (fs, l) | _ => ([], l) end in
  let exp :=
    match Json.parse_exp l with
    | Some (_ :: 45 :: xs, _) => - digits_value xs
    | Some (_ :: 43 :: xs, _) => digits_value xs
    | Some (_ :: xs, _) => digits_value xs
    | _ => 0
    end in
  let m := digits_value (int ++ frac) in
  let e := exp - Z.of_nat (List.length frac) in
  if m =? 0 then true
  else if 0 <=? e then m * 10 ^ e <? float_limit
  else m <? float_limit * 10 ^ (- e).

Fixpoint floats_fit (j : json) : bool :=
  match j with
  | JNum lit => float_fits lit
  | JArr l => forallb floats_fit l
  | JObj ms => forallb (fun '(_, j) => floats_fit j) ms
  | _ => true
  end.

Definition is_map (text : string) : bool :=
  match Json.Parse text with
  | Some JNull => true
  | Some (JObj ms) => floats_fit (JObj ms)
  | _ => false
  end.

Section event.
Context `{Backend}.

(** A failure to report is only logged. *)
Definition reportEvent (tid : Z) (eventCode errorCode : string) (e : err)
    : Act unit :=
  attempt (ReportEvent tid eventCode errorCode 0 (Some e)) ;; ret tt.

(** [Event.Tenant], [Event.EventCode], [Event.EventError] of
    model_relations.go *)
Definition Event_Tenant (e : Event.t) : Act Tenant.t :=
  Find_one TTenant (fun t => Tenant.ID t =? Event.TenantID e).
Definition Event_EventCode (e : Event.t) : Act EventCode.t :=
  Find_one TEventCode (fun c => (EventCode.Code c =? Event.Code e)%string).
Definition Event_EventError (code : string) : Act EventError.t :=
  Find_one TEventError (fun c => (EventError.Code c =? code)%string).

Definition validateContents (contents : string) : Act unit :=
  guard_err (negb (is_empty contents) && negb (is_map contents))
    (Unknown (Some (EPlain "not a JSON object"))).

(** A code or an error code that is not known is only logged. *)
Definition known_or_logged {A} (c : Act A) : Act unit :=
  r <- attempt c ;;
  match r with
  | inr _ | inl ERecordNotFound => ret tt
  | inl e => throw (UnusableDatabase (Some e))
  end.

Definition validateEvent (e : Event.t) : Act unit :=
  validateContents (Event.Contents e) ;;
  r <- attempt (Event_Tenant e) ;;
  match r with
  | inr _ => ret tt
  | inl ERecordNotFound =>
      throw (InvalidParameterValue "tenant" (VInt (Event.TenantID e))
               (error_string ERecordNotFound))
  | inl e => throw (UnusableDatabase (Some e))
  end ;;
  known_or_logged (Event_EventCode e) ;;
  match Event.ErrorCode e with
  | None => ret tt
  | Some code =>
      if is_empty code then ret tt else known_or_logged (Event_EventError code)
  end.

Definition createEvent (e : Event.t) : Act Event.t :=
  validateEvent e ;;
  or_db (Create TEvent (Event.set_ID 0 e)).

(** A row of the joined tables; the event code may be missing. *)
Definition joined : Type := Event.t * Tenant.t * option EventCode.t.

(** [cdm_event JOIN cdm_tenant LEFT JOIN cdm_event_code]. *)
Definition join_events (T : forall t, list (row t)) : list joined :=
  flat_map (fun e : Event.t =>
    flat_map (fun t : Tenant.t =>
      if Event.TenantID e =? Tenant.ID t then
        match List.filter (fun c : EventCode.t =>
                (Event.Code e =? EventCode.Code c)%string) (T TEventCode) with
        | [] => [(e, t, None)]
        | cs => map (fun c => (e, t, Some c)) cs
        end
      else []) (T TTenant)) (T TEvent).

(** Reading one row into a [Record]: NULL columns leave a field alone. *)
Definition scan_record (r : Record.t) (x : joined) : Record.t :=
  let '(e, t, c) := x in
  Record.mk e (default (Record.EventCode r) c) t.

(** [&model.Event{ID: ..., TenantID: ...}] *)
Definition event_struct (eventID tenantID : Z) (e : Event.t) : bool :=
  cond_Z eventID (Event.ID e) && cond_Z tenantID (Event.TenantID e).

Definition GetEvent (eventID tenantID : Z) : Act Record.t :=
  rs <- or_db (Scan (fun T =>
          List.filter (fun '(e, _, _) => event_struct eventID tenantID e)
            (join_events T))) ;;
  match rs with
  | [] => throw (NotFoundEvent eventID)
  | _ => ret (fold_left scan_record rs Record_zero)
  end.

(** ** query.go *)
Record EventsQuery := mkQuery {
  q_limit : Z;
  q_offset : Z;
  q_event : Event.t;
  q_eventCode : EventCode.t;
  q_solution : string;
  q_from : Z;
  q_to : Z;
  q_Error : option err
}.

Definition NewEventsQuery (tenantID : Z) : EventsQuery :=
  mkQuery 0 0 (Event.mk 0 tenantID "" None "" 0) EventCode_zero "" 0 0 None.

Definition Limit (limit : Z) (q : EventsQuery) : EventsQuery :=
  mkQuery (if limit <? 10 then 10 else if 100 <? limit then 100 else limit)
    (q_offset q) (q_event q) (q_eventCode q) (q_solution q) (q_from q) (q_to q)
    (q_Error q).
Definition Offset (offset : Z) (q : EventsQuery) : EventsQuery :=
  mkQuery (q_limit q) offset (q_event q) (q_eventCode q) (q_solution q)
    (q_from q) (q_to q) (q_Error q).
Definition From (from : Z) (q : EventsQuery) : EventsQuery :=
  mkQuery (q_limit q) (q_offset q) (q_event q) (q_eventCode q) (q_solution q)
    from (q_to q) (q_Error q).
Definition To (to : Z) (q : EventsQuery) : EventsQuery :=
  mkQuery (q_limit q) (q_offset q) (q_event q) (q_eventCode q) (q_solution q)
    (q_from q) to (q_Error q).
Definition Solutions (solution : string) (q : EventsQuery) : EventsQuery :=
  mkQuery (q_limit q) (q_offset q) (q_event q) (q_eventCode q) solution
    (q_from q) (q_to q) (q_Error q).

(** The four setters of the classification. *)
Definition with_code (f : EventCode.t -> EventCode.t) (q : EventsQuery)
    : EventsQuery :=
  mkQuery (q_limit q) (q_offset q) (q_event q) (f (q_eventCode q))
    (q_solution q) (q_from q) (q_to q) (q_Error q).
Definition Level (level : string) : EventsQuery -> EventsQuery :=
  with_code (fun c => EventCode.mk (EventCode.Code c) (EventCode.Solution c)
    level (EventCode.Class1 c) (EventCode.Class2 c) (EventCode.Class3 c)).
Definition Class1 (class1 : string) : EventsQuery -> EventsQuery :=
  with_code (fun c => EventCode.mk (EventCode.Code c) (EventCode.Solution c)
    (EventCode.Level c) class1 (EventCode.Class2 c) (EventCode.Class3 c)).
Definition Class2 (class2 : string) : EventsQuery -> EventsQuery :=
  with_code (fun c => EventCode.mk (EventCode.Code c) (EventCode.Solution c)
    (EventCode.Level c) (EventCode.Class1 c) class2 (EventCode.Class3 c)).
Definition Class3 (class3 : string) : EventsQuery -> EventsQuery :=
  with_code (fun c => EventCode.mk (EventCode.Code c) (EventCode.Solution c)
    (EventCode.Level c) (EventCode.Class1 c) (EventCode.Class2 c) class3).

(** ** GetEvents *)

(** A struct condition on the event code. *)
Definition code_cond (want c : EventCode.t) : bool :=
  cond_str (EventCode.Code want) (EventCode.Code c)
  && cond_str (EventCode.Solution want) (EventCode.Solution c)
  && cond_str (EventCode.Level want) (EventCode.Level c)
  && cond_str (EventCode.Class1 want) (EventCode.Class1 c)
  && cond_str (EventCode.Class2 want) (EventCode.Class2 c)
  && cond_str (EventCode.Class3 want) (EventCode.Class3 c).

(** The conditions of the query on a joined row; a condition on a missing
    code is not true. *)
Definition query_cond (q : EventsQuery) (x : joined) : bool :=
  let '(e, _, c) := x in
  event_struct (Event.ID (q_event q)) (Event.TenantID (q_event q)) e
  && (is_empty (q_solution q)
      || match c with
         | Some c => (EventCode.Solution c =? q_solution q)%string
         | None => false
         end)
  && (bool_decide (q_eventCode q = EventCode_zero)
      || match c with Some c => code_cond (q_eventCode q) c | None => false end)
  && ((q_from q =? 0) || (q_from q <=? Event.CreatedAt e))
  && ((q_to q =? 0) || (Event.CreatedAt e <=? q_to q)).

Definition query_rows (q : EventsQuery) (T : forall t, list (row t))
    : list joined := List.filter (query_cond q) (join_events T).

(** [Order("created_at desc").Order("id desc")] *)
Definition newest_first (a b : joined) : bool :=
  let ea := a.1.1 in let eb := b.1.1 in
  (Event.CreatedAt eb <? Event.CreatedAt ea)
  || ((Event.CreatedAt eb =? Event.CreatedAt ea)
      && (Event.ID eb <=? Event.ID ea)).

Definition positive (n : Z) : option Z := if 0 <? n then Some n else None.

Definition GetEvents (q : EventsQuery) : Act (list Record.t * Z) :=
  r <- attempt (Transaction (
    count <- or_db (JoinCount (query_rows q)) ;;
    rows <- or_db (Join (query_rows q) newest_first (positive (q_offset q))
              (positive (q_limit q))) ;;
    ret (map (scan_record Record_zero) rows, count))) ;;
  match r with
  | inr x => ret x
  | inl e =>
      if Equal (Some e) ErrUnusableDatabase then throw e
      else throw (Unknown (Some e))
  end.

(** ** GetEventClassifications *)
Definition classification (c : EventCode.t) : EventClassification.t :=
  EventClassification.mk (EventCode.Solution c) (EventCode.Class1 c)
    (EventCode.Class2 c) (EventCode.Class3 c).

(** An item that equals the one before it is left out; before the first one
    there is a blank one. *)
Fixpoint distinct (prev : EventClassification.t)
    (items : list EventClassification.t) : list EventClassification.t :=
  match items with
  | [] => []
  | item :: items =>
      if bool_decide (prev = item) then distinct prev items
      else item :: distinct item items
  end.

Definition GetEventClassifications : Act (list EventClassification.t) :=
  codes <- Transaction (or_db (Find TEventCode (fun _ => true))) ;;
  ret (distinct (EventClassification.mk "" "" "" "")
         (map classification codes)).
End event.

(** ** subscribeEvent *)
Section subscribe.
Context `{Backend}.

(** [fmt.Sprintf(constant.TopicNotificationEventCreated, tenantID)] *)
Definition TopicNotificationEventCreated (tenantID : Z) : string :=
  String.append "cdm.notification.event.created." (Strconv.FormatUint tenantID).

(** The goroutine that announces the event. *)
Definition announce (tenantID : Z) (record : Record.t) : Act unit :=
  attempt (Publish (TopicNotificationEventCreated tenantID)
             (Json.Marshal (Record_enc record))) ;;
  ret tt.

(** The goroutine that hands the event to the notifiers. *)
Definition classify (tenantID : Z) (record : Record.t) : Act unit :=
  let ev := "cdm-cloud.notification.subscribe_event.failure-classify_event"%string in
  r <- attempt (ClassifyEvent (Record.Event record)) ;;
  match r with
  | inr _ => ret tt
  | inl e =>
      if Equal (Some e) ErrUnusableDatabase then
        reportEvent tenantID ev "unusable_database" e
      else if Equal (Some e) ErrUnusableBroker then
        reportEvent tenantID ev "unusable_broker" e
      else if Equal (Some e) ErrUnknown then reportEvent tenantID ev "unknown" e
      else reportEvent tenantID ev "unknown" (Unknown (Some e))
  end.

(** Storing the event and reading it back with its code and its tenant. *)
Definition record_event (event : Event.t) : Act Record.t :=
  Transaction (
    event <- createEvent event ;;
    GetEvent (Event.ID event) (Event.TenantID event)).

(** The body of a message is an event.  The two goroutines share nothing but
    the platform; [first] tells whose effects come first. *)
Definition subscribeEvent (first : bool) (body : string) : Act unit :=
  match Unmarshal Event_zero Event_dec body with
  | inl e => throw e
  | inr event =>
      if (Event.TenantID event =? 0) || is_empty (Event.Code event) then ret tt
      else
        r <- attempt (record_event event) ;;
        match r with
        | inl e =>
            if Equal (Some e) ErrNotFoundEvent
               || Equal (Some e) ErrUnusableDatabase
               || Equal (Some e) ErrUnknown
               || Equal (Some e) ErrInvalidParameterValue
            then throw e else throw (Unknown (Some e))
        | inr record =>
            let tid := Event.TenantID event in
            if first then announce tid record ;; classify tid record
            else classify tid record ;; announce tid record
        end
  end.
End subscribe.

(** ** cleaner.go *)
Section cleaner.
Context `{Backend}.

Definition monthInSeconds : Z := 30 * 24 * 3600.
Definition defaultEventStorePeriod : Z := 12.

(** [time.Date(now.Year(), now.Month(), now.Day(), 0, 0, 0, 0, time.UTC)] of
    [time.Now().UTC()], in Unix time. *)
Definition midnight (now : Z) : Z := now - now mod 86400.

Definition store_period (tenantID : Z) : Act Z :=
  cfg <- TenantConfig tenantID EventStorePeriod ;;
  ret (match cfg with
       | Some cfg =>
           match Value.Int64 (cfg_Value cfg) with
           | inr p => p
           | inl _ => defaultEventStorePeriod
           end
       | None => defaultEventStorePeriod
       end).

(** [midnight.Unix() - period*monthInSeconds] in [int64] arithmetic. *)
Definition expiry (now period : Z) : Z :=
  Int.i64 (midnight now - Int.i64 (period * monthInSeconds)).

Definition cleanExpiredTenantEvent (tenant : Tenant.t) : Act unit :=
  now <- now_unix ;;
  period <- store_period (Tenant.ID tenant) ;;
  if period =? 0 then ret tt
  else
    or_db (Delete TEvent (fun e =>
      (Event.CreatedAt e <? expiry now period)
      && cond_Z (Tenant.ID tenant) (Event.TenantID e))) ;;
    ret tt.

Definition clean_failure : string :=
  "cdm-cloud.notification.main.failure-clean_expired_event".

(** The error of one tenant is reported and the next one tried. *)
Definition clean_tenant (tenant : Tenant.t) : Act unit :=
  r <- attempt (cleanExpiredTenantEvent tenant) ;;
  match r with
  | inr _ => ret tt
  | inl e => reportEvent (Tenant.ID tenant) clean_failure "unusable_database" e
  end.

Definition cleanExpiredEvent (tenantID : Z) : Act unit :=
  r <- attempt (Transaction (
         tenants <- Find TTenant (fun _ => true) ;;
         for_each clean_tenant tenants)) ;;
  match r with
  | inr _ => ret tt
  | inl e =>
      reportEvent tenantID clean_failure "unusable_database"
        (UnusableDatabase (Some e))
  end.

(** What the cleaner waits for: the next midnight, or the end. *)
Inductive signal := Midnight | Done.

(** The loop of the cleaner up to the last signal it was given. *)
Fixpoint cleaner (tenantID : Z) (signals : list signal) : Act unit :=
  cleanExpiredEvent tenantID ;;
  match signals with
  | Midnight :: signals => cleaner tenantID signals
  | _ => ret tt
  end.

(** [nextMidnightTicker]: the time to the next midnight, in nanoseconds. *)
Definition nextMidnightTicker : Act Z :=
  now <- now_nano ;;
  let day := 86400 * Int.Second in
  ret (now - now mod day + day - now).
End cleaner.
