(* ===== verification/NtHandler.v ===== *)
(** * services/notification/handler: the request handlers (handler.go), their
    checks (utils.go) and the event stream (lookup.go) *)

From stdpp Require Import base tactics list strings gmap.
From Stdlib Require Import ZArith Lia.
From S2P Require Import Prelude GoStd Json Model Backend Errors Proto Metadata.
From S2P Require Import Gorm Database Report IdBase NtProto NtConfig NtNotifier.
From S2P Require Import GoLib NtEvent.
#[local] Open Scope Z_scope.
#[local] Open Scope go_scope.

(** ** errors.go and the constants of common/constant *)
Definition ErrNoSolutionRole : err := ENew "no role of solution".
Definition NoSolutionRole (solution : string) (userID : Z) : err :=
  Wrap ErrNoSolutionRole [("solution", VStr solution); ("user_id", VInt userID)].

Definition SolutionName : string := "CDM-Cloud".
Definition Manager : string := "manager".
Definition Admin : string := "admin".

(** ** Dates: [time.ParseInLocation("200601021504", ...)] *)

(** The text is a decimal number, so at most its first byte is no digit and
    the hour, which may have one digit in this layout, has two as digits of
    the minute follow. *)
Definition two_digits (l : list Z) : option (Z * list Z) :=
  match l with
  | a :: b :: l =>
      if (48 <=? a) && (a <=? 57) && (48 <=? b) && (b <=? 57)
      then Some (10 * (a - 48) + (b - 48), l) else None
  | _ => None
  end.

(** A wall clock as the seconds it would have in UTC. *)
Definition parse_stamp (s : string) : option Z :=
  two_digits (Bytes.to_bytes s) ≫= fun '(c, l) =>
  two_digits l ≫= fun '(y, l) =>
  two_digits l ≫= fun '(m, l) =>
  two_digits l ≫= fun '(d, l) =>
  two_digits l ≫= fun '(h, l) =>
  two_digits l ≫= fun '(n, l) =>
  let y := 100 * c + y in
  if bool_decide (l = []) && (1 <=? m) && (m <=? 12) && (h <? 24) && (n <? 60)
     && (1 <=? d) && (d <=? days_in m y)
  then Some (days y m d * 86400 + h * 3600 + n * 60) else None.

Section util.
Context `{Backend}.

(** ** utils.go *)
Definition createError_of (ctx : Ctx) (eventCode : string) (e : err)
    : Act err :=
  let same s := Equal (Some e) s in
  let ise c := StatusInternalServerError ctx eventCode c (Some e) in
  if same ErrNoSolutionRole then
    StatusUnauthorized ctx eventCode "unknown_user" (Some e)
  else if same ErrNotFoundTenant then ise "not_found_tenant"
  else if same NtConfig.ErrNotFoundUser then ise "not_found_user"
  else if same ErrNotFoundEvent then
    StatusNotFound ctx eventCode "not_found_event" (Some e)
  else if same ErrNotFoundUser then ise "not_found_user"
  else CreateError_of ctx eventCode e.

Definition createError (ctx : Ctx) (eventCode : string) (e : option err)
    : Act (option err) :=
  match e with
  | None => ret None
  | Some e => r <- createError_of ctx eventCode e ;; ret (Some r)
  end.

(** [return createError(ctx, eventCode, err)] where [err] is not nil; the
    same after a call that returns an error; a panic unwinds. *)
Definition fail_with {A} (ctx : Ctx) (eventCode : string) (e : err) : Act A :=
  r <- createError_of ctx eventCode e ;; throw r.

Definition check {A} (ctx : Ctx) (eventCode : string) (c : Act A) : Act A :=
  r <- attempt c ;;
  match r with
  | inr a => ret a
  | inl EPanic => throw EPanic
  | inl e => fail_with ctx eventCode e
  end.

Definition ok {A} (ctx : Ctx) (eventCode : string) (a : A) : Act A :=
  StatusOK ctx eventCode None ;; ret a.

Definition eventRecordToResponse (r : Record.t) : NEvent.t :=
  let e := Record.Event r in let t := Record.Tenant r in
  NEvent.mk (Event.ID e) (Some (NTenant.mk (Tenant.ID t) (Tenant.Name t)))
    (Event.Code e) (default EmptyString (Event.ErrorCode e))
    (Event.Contents e) (Event.CreatedAt e).

Definition eventRecordsToResponse (rs : list Record.t) : list NEvent.t :=
  map eventRecordToResponse rs.

Definition authorized (r : IRole.t) : bool :=
  (IRole.Role r =? Manager)%string || (IRole.Role r =? Admin)%string
  || (IRole.Solution r =? SolutionName)%string.

Definition checkAuthorization (user : IUser.t) : Act unit :=
  guard_err (negb (existsb authorized (IUser.Roles user)))
    (NoSolutionRole SolutionName (IUser.Id user)).

(** [time.ParseInLocation] with the location of Seoul; without that location
    the call panics. *)
Definition parse_date (param cause : string) (date : Z) : Act Z :=
  match parse_stamp (Strconv.FormatInt date) with
  | None => throw (InvalidParameterValue param (VInt date) cause)
  | Some wall =>
      if LoadLocation "Asia/Seoul" then ret (seoul_unix wall)
      else throw EPanic
  end.

Definition getValidDate (startDate endDate : Z) : Act (Z * Z) :=
  from <- (if startDate =? 0 then ret 0
           else parse_date "start_date"
                  "Wrong format. must be YYYYMMDDHHmm format" startDate) ;;
  to <- (if endDate =? 0 then ret 0
         else
           to <- parse_date "end_date"
                   "wrong format. must be YYYYMMDDHHmm format" endDate ;;
           guard_err (endDate <? startDate)
             (InvalidParameterValue "start_date" (VInt startDate)
                "Start date is later than end date.") ;;
           ret to) ;;
  ret (from, to).

Definition pagination (itemNum limit offset : Z) : NPagination.t :=
  if limit =? 0 then NPagination.mk 1 1 itemNum
  else NPagination.mk (Int.u64 (offset / limit + 1))
         (Int.u64 (itemNum + limit - 1) / limit) itemNum.

Definition newBool (b : option bool) : option bool := b.

Definition getRequestMetadata (ctx : Ctx) : Act (Z * IUser.t) :=
  match GetTenantID ctx with
  | inl _ => throw (InvalidRequest ctx)
  | inr id =>
      match GetAuthenticatedUser ctx with
      | inl _ => throw (InvalidRequest ctx)
      | inr user => ret (id, user)
      end
  end.

Definition levels : list string := ["trace"; "info"; "warn"; "error"; "fatal"].

Definition validateLevel (level : string) : Act unit :=
  guard_err (negb (existsb (fun l => (l =? level)%string) levels))
    (UnavailableParameterValue "level" (VStr level) levels).

Definition validateInterval (interval : Z) : Act unit :=
  guard_err ((interval <? 2) || (30 <? interval))
    (OutOfRangeParameterValue "interval" (VInt interval) (VInt 2) (VInt 30)).

Definition validateEventCode (code : string) : Act unit :=
  guard_err (is_empty code) (RequiredParameter "code").

(** The checks all three lists of filters share. *)
Definition validate_filters (solution class_1 class_2 class_3 level : string)
    : Act unit :=
  let limited param s :=
    guard_err (negb (is_empty s) && (100 <? len s))
      (LengthOverflowParameterValue param s 100) in
  limited "solution"%string solution ;;
  limited "class_1"%string class_1 ;;
  limited "class_2"%string class_2 ;;
  limited "class_3"%string class_3 ;;
  (if is_empty level then ret tt else validateLevel level).

(** A limit outside 10 to 100 is only logged. *)
Definition validateGetEventsParams (q : GetEventsRequest.t) : Act unit :=
  validate_filters (GetEventsRequest.Solution q) (GetEventsRequest.Class_1 q)
    (GetEventsRequest.Class_2 q) (GetEventsRequest.Class_3 q)
    (GetEventsRequest.Level q).

Definition validateGetEventsStreamParams (q : GetEventsStreamRequest.t)
    : Act unit :=
  validate_filters (GetEventsStreamRequest.Solution q)
    (GetEventsStreamRequest.Class_1 q) (GetEventsStreamRequest.Class_2 q)
    (GetEventsStreamRequest.Class_3 q) (GetEventsStreamRequest.Level q).

Definition validateGetEventReceivesRequest (q : GetEventReceivesRequest.t)
    : Act unit :=
  validate_filters (GetEventReceivesRequest.Solution q)
    (GetEventReceivesRequest.Class_1 q) (GetEventReceivesRequest.Class_2 q)
    (GetEventReceivesRequest.Class_3 q) (GetEventReceivesRequest.Level q).

Definition validateEventReceives (items : option (list EventReceive.t))
    : Act unit :=
  match items with
  | None => throw (RequiredParameter "event_notifications")
  | Some items => for_each (fun r => validateEventCode (EventReceive.Code r)) items
  end.
End util.

(** ** The event stream *)

(** What [out.Send] gives, as [status.FromError] shows it. *)
Inductive sent := Sent | SendUnavailable | SendFailed (e : err).

(** What the loop of [GetEventsStream] receives: an event of the lookup's
    channel, or a tick with the result of the send it may cause. *)
Inductive stream_input := Arrived (r : Record.t) | Ticked (s : sent).

(** How the loop ends: the client is gone, or a send fails. *)
Inductive stream_end := Gone | Broken (e : err).

Definition matched (q : GetEventsStreamRequest.t) (c : EventCode.t) : bool :=
  let same want have := is_empty want || (want =? have)%string in
  same (GetEventsStreamRequest.Solution q) (EventCode.Solution c)
  && same (GetEventsStreamRequest.Class_1 q) (EventCode.Class1 c)
  && same (GetEventsStreamRequest.Class_2 q) (EventCode.Class2 c)
  && same (GetEventsStreamRequest.Class_3 q) (EventCode.Class3 c)
  && same (GetEventsStreamRequest.Level q) (EventCode.Level c).

(** The events waiting, the batches handed to [Send] with what it gave, and
    the end, if the loop has ended. *)
Record stream := mkStream {
  st_events : list Record.t;
  st_sent : list (list NEvent.t * sent);
  st_end : option stream_end
}.

Definition stream_step (q : GetEventsStreamRequest.t) (s : stream)
    (i : stream_input) : stream :=
  match st_end s with
  | Some _ => s
  | None =>
      match i with
      | Arrived r =>
          if matched q (Record.EventCode r)
          then mkStream (st_events s ++ [r]) (st_sent s) None else s
      | Ticked o =>
          match st_events s with
          | [] => s
          | events =>
              mkStream [] (st_sent s ++ [(eventRecordsToResponse events, o)])
                (match o with
                 | Sent => None
                 | SendUnavailable => Some Gone
                 | SendFailed e => Some (Broken e)
                 end)
          end
      end
  end.

Definition stream_run (q : GetEventsStreamRequest.t) (inputs : list stream_input)
    : stream := fold_left (stream_step q) inputs (mkStream [] [] None).

(** lookup.go *)
Record eventLookup := mkLookup { el_ticker : Z; el_tenantID : Z }.

(** [time.Duration(interval) * time.Second] *)
Definition newEventLookup (interval tid : Z) : eventLookup :=
  mkLookup (Int.i64 (interval * Int.Second)) tid.

(** What reaches a lookup from outside: a message of the subscribed topic, or
    its ticker, with the result of the send a tick may cause. *)
Inductive signal := Delivered (body : string) | Tick (s : sent).

(** A message of the tenant's topic becomes an event of the channel. *)
Definition lookup_subscribeEvent (body : string) : err + stream_input :=
  match Unmarshal Record_zero Record_dec body with
  | inl e => inl (Unknown (Some e))
  | inr r => inr (Arrived r)
  end.

(** A message that cannot be read is refused and does not reach the loop. *)
Definition received (x : signal) : option stream_input :=
  match x with
  | Delivered body =>
      match lookup_subscribeEvent body with inr i => Some i | inl _ => None end
  | Tick o => Some (Ticked o)
  end.

(** What a stream does outside: its subscription, its sends and, when it ends,
    the deferred calls. *)
Inductive stream_call :=
| Subscribes (topic : string)
| Sends (events : list NEvent.t) (o : sent)
| Unsubscribes (topic : string)
| Closes (el : eventLookup).

Section handlers.
Context `{Backend}.

(** ** handler.go *)
Definition GetConfig (ctx : Ctx) : Act NConfig.t :=
  do* (headerTenant, _) <-
    check ctx "cdm-cloud.notification.get_config.failure-get_request_metadata"
      (getRequestMetadata ctx) ;;
  c <- check ctx "cdm-cloud.notification.get_config.failure-get"
         (Transaction (NtConfig.GetConfig headerTenant)) ;;
  ok ctx "cdm-cloud.notification.get_config.success" c.

Definition SetConfig (ctx : Ctx) (req : option NConfig.t) : Act NConfig.t :=
  do* (headerTenant, _) <-
    check ctx "cdm-cloud.notification.set_config.failure-get_request_metadata"
      (getRequestMetadata ctx) ;;
  check ctx "cdm-cloud.notification.set_config.failure-validate"
    (ValidateConfig req) ;;
  c <- check ctx "cdm-cloud.notification.set_config.failure-set"
         (Transaction (
            ValidateTenant headerTenant ;;
            NtConfig.SetConfig headerTenant req ;;
            NtConfig.GetConfig headerTenant)) ;;
  ok ctx "cdm-cloud.notification.set_config.success" c.

Definition GetEvent (ctx : Ctx) (eventId : Z) : Act NEvent.t :=
  do* (headerTenant, headerUser) <-
    check ctx "cdm-cloud.notification.get_event.failure-get_request_metadata"
      (getRequestMetadata ctx) ;;
  check ctx "cdm-cloud.notification.get_event.failure-check_authorization"
    (checkAuthorization headerUser) ;;
  r <- check ctx "cdm-cloud.notification.get_event.failure-get"
         (Transaction (NtEvent.GetEvent eventId headerTenant)) ;;
  ok ctx "cdm-cloud.notification.get_event.success" (eventRecordToResponse r).

(** The query the handler builds. *)
Definition events_query (tenantID : Z) (q : GetEventsRequest.t) (from to : Z)
    : EventsQuery :=
  Class3 (GetEventsRequest.Class_3 q) (Class2 (GetEventsRequest.Class_2 q)
    (Class1 (GetEventsRequest.Class_1 q) (Level (GetEventsRequest.Level q)
      (To to (From from (Solutions (GetEventsRequest.Solution q)
        (Offset (GetEventsRequest.Offset q) (Limit (GetEventsRequest.Limit q)
          (NewEventsQuery tenantID))))))))).

(** The check of the authorization is reported with the code of
    [GetEvent]. *)
Definition GetEvents (ctx : Ctx) (q : GetEventsRequest.t)
    : Act (list NEvent.t * NPagination.t) :=
  do* (headerTenant, headerUser) <-
    check ctx "cdm-cloud.notification.get_events.failure-get_request_metadata"
      (getRequestMetadata ctx) ;;
  check ctx "cdm-cloud.notification.get_event.failure-check_authorization"
    (checkAuthorization headerUser) ;;
  check ctx "cdm-cloud.notification.get_events.failure-validate"
    (validateGetEventsParams q) ;;
  do* (from, to) <-
    check ctx "cdm-cloud.notification.get_events.failure-validate"
      (getValidDate (GetEventsRequest.StartDate q) (GetEventsRequest.EndDate q)) ;;
  let query := events_query headerTenant q from to in
  match q_Error query with
  | Some e =>
      fail_with ctx "cdm-cloud.notification.get_events.failure-new_events_query"
        (InvalidParameterValue "events" (VInt 0) (error_string e))
  | None => ret tt
  end ;;
  do* (events, count) <-
    check ctx "cdm-cloud.notification.get_events.failure-get"
      (NtEvent.GetEvents query) ;;
  (if count =? 0 then
     fail_with ctx "cdm-cloud.notification.get_events.success-get" ErrNoContent
   else ret tt) ;;
  ok ctx "cdm-cloud.notification.get_events.success"
    (eventRecordsToResponse events,
     pagination count (GetEventsRequest.Limit q) (GetEventsRequest.Offset q)).

(** [subscribe topic] is the error of [broker.SubscribeTempQueue], [signals
    topic d] what the queue of that topic and a ticker of that period bring.
    The result is what the handler did outside and, once the loop has ended,
    the error it returned. *)
Definition GetEventsStream (ctx : Ctx) (q : GetEventsStreamRequest.t)
    (subscribe : string -> option err) (signals : string -> Z -> list signal)
    : Act (list stream_call * option (option err)) :=
  do* (headerTenant, _) <-
    check ctx
      "cdm-cloud.notification.get_events_stream.failure-get_request_metadata"
      (getRequestMetadata ctx) ;;
  check ctx "cdm-cloud.notification.get_events_stream.failure-validate"
    (validateGetEventsStreamParams q) ;;
  interval <-
    match GetEventsStreamRequest.Interval q with
    | None => ret 5
    | Some interval =>
        check ctx
          "cdm-cloud.notification.get_events_stream.failure-validate_interval"
          (validateInterval interval) ;;
        ret interval
    end ;;
  let lookup := newEventLookup interval headerTenant in
  let topic := TopicNotificationEventCreated headerTenant in
  match subscribe topic with
  | Some e =>
      fail_with ctx
        "cdm-cloud.notification.get_events_stream.failure-subscribe_template_queue"
        (UnusableBroker (Some e))
  | None =>
      let s := stream_run q (omap received (signals topic (el_ticker lookup))) in
      let calls := Subscribes topic
                     :: map (fun '(b, o) => Sends b o) (st_sent s) in
      let ended := (calls ++ [Unsubscribes topic; Closes lookup])%list in
      match st_end s with
      | None => ret (calls, None)
      | Some Gone => ret (ended, Some None)
      | Some (Broken e) =>
          r <- createError_of ctx
                 "cdm-cloud.notification.get_events_stream.failure-send_response"
                 (Unknown (Some e)) ;;
          ret (ended, Some (Some r))
      end
  end.

Definition GetEventClassifications (ctx : Ctx)
    : Act (list EventClassification.t) :=
  l <- check ctx
         "cdm-cloud.notification.get_event_classifications.failure-get"
         NtEvent.GetEventClassifications ;;
  ok ctx "cdm-cloud.notification.get_event_classifications.success" l.

Definition GetTenantEventReceives (ctx : Ctx) (q : GetEventReceivesRequest.t)
    : Act (list EventReceive.t) :=
  check ctx "cdm-cloud.notification.get_tenant_event_receives.failure-validate"
    (validateGetEventReceivesRequest q) ;;
  do* (headerTenant, _) <-
    check ctx
      "cdm-cloud.notification.get_tenant_event_receives.failure-get_request_metadata"
      (getRequestMetadata ctx) ;;
  l <- check ctx "cdm-cloud.notification.get_tenant_event_receives.failure-get"
         (Transaction (NtConfig.GetTenantEventReceives headerTenant q)) ;;
  ok ctx "cdm-cloud.notification.get_tenant_event_receives.success" l.

Definition SetTenantEventReceives (ctx : Ctx)
    (items : option (list EventReceive.t)) : Act unit :=
  do* (headerTenant, _) <-
    check ctx
      "cdm-cloud.notification.set_tenant_event_receives.failure-get_request_metadata"
      (getRequestMetadata ctx) ;;
  check ctx "cdm-cloud.notification.set_tenant_event_receives.failure-validate"
    (validateEventReceives items) ;;
  check ctx "cdm-cloud.notification.set_tenant_event_receives.failure-set"
    (Transaction (
       ValidateTenant headerTenant ;;
       NtConfig.SetTenantEventReceives headerTenant (default [] items))) ;;
  ok ctx "cdm-cloud.notification.set_tenant_event_receives.success" tt.

Definition GetUserEventReceives (ctx : Ctx) (q : GetEventReceivesRequest.t)
    : Act (list EventReceive.t) :=
  check ctx "cdm-cloud.notification.get_user_event_receives.failure-validate"
    (validateGetEventReceivesRequest q) ;;
  do* (_, headerUser) <-
    check ctx
      "cdm-cloud.notification.get_user_event_receives.failure-get_request_metadata"
      (getRequestMetadata ctx) ;;
  l <- check ctx "cdm-cloud.notification.get_user_event_receives.failure-get"
         (Transaction (NtConfig.GetUserEventReceives (IUser.Id headerUser) q)) ;;
  match l with
  | [] =>
      fail_with ctx
        "cdm-cloud.notification.get_user_event_receives.success-get" ErrNoContent
  | _ => ret tt
  end ;;
  ok ctx "cdm-cloud.notification.get_user_event_receives.success" l.

Definition SetUserEventReceives (ctx : Ctx)
    (items : option (list EventReceive.t)) : Act unit :=
  do* (_, headerUser) <-
    check ctx
      "cdm-cloud.notification.set_user_event_receives.failure-get_request_metadata"
      (getRequestMetadata ctx) ;;
  check ctx "cdm-cloud.notification.set_user_event_receives.failure-validate"
    (validateEventReceives items) ;;
  check ctx "cdm-cloud.notification.set_user_event_receives.failure-set"
    (Transaction (
       ValidateUser (IUser.Id headerUser) ;;
       NtConfig.SetUserEventReceives (IUser.Id headerUser) (default [] items))) ;;
  ok ctx "cdm-cloud.notification.set_user_event_receives.success" tt.

Definition ResetUserEventReceives (ctx : Ctx) : Act unit :=
  do* (_, headerUser) <-
    check ctx
      "cdm-cloud.notification.reset_user_event_receives.failure-get_request_metadata"
      (getRequestMetadata ctx) ;;
  check ctx "cdm-cloud.notification.reset_user_event_receives.failure-reset"
    (Transaction (
       ValidateUser (IUser.Id headerUser) ;;
       NtConfig.ResetUserEventReceives (IUser.Id headerUser))) ;;
  ok ctx "cdm-cloud.notification.reset_user_event_receives.success" tt.
End handlers.
