(* ===== verification/NtJsonFacts.v ===== *)
(** * The JSON of the notification messages is read back *)

From stdpp Require Import base tactics list strings.
From Stdlib Require Import ZArith Lia.
From S2P Require Import Prelude GoStd Json Model Backend Errors Proto.
From S2P Require Import Metadata Gorm Report IdBase NtProto.
#[local] Open Scope Z_scope.

Record smtp_sound (n : EventSMTPNotifier.t) : Prop := {
  smtp_port : 0 <= EventSMTPNotifier.ServerPort n < 4294967296;
  smtp_texts : Forall utf8
    [EventSMTPNotifier.ServerAddress n; EventSMTPNotifier.Encryption n;
     EventSMTPNotifier.AuthMechanism n; EventSMTPNotifier.AuthUsername n;
     EventSMTPNotifier.AuthPassword n; EventSMTPNotifier.Sender n]
}.

Record sms_sound (n : EventSMSNotifier.t) : Prop := {
  sms_texts : Forall utf8 [EventSMSNotifier.Provider n; EventSMSNotifier.Version n]
}.

Record event_sound (e : Event.t) : Prop := {
  event_typed : typed TEvent e = true;
  event_texts : Forall utf8 [Event.Code e; Event.Contents e];
  event_error : opt_utf8 (Event.ErrorCode e)
}.

Record code_sound (c : EventCode.t) : Prop := {
  code_texts : Forall utf8
    [EventCode.Code c; EventCode.Solution c; EventCode.Level c;
     EventCode.Class1 c; EventCode.Class2 c; EventCode.Class3 c]
}.

Record tenant_sound (t : Tenant.t) : Prop := {
  tenant_typed : typed TTenant t = true;
  tenant_texts : Forall utf8 [Tenant.Name t];
  tenant_remarks : opt_utf8 (Tenant.Remarks t)
}.

Record record_sound (r : Record.t) : Prop := {
  rs_event : event_sound (Record.Event r);
  rs_code : code_sound (Record.EventCode r);
  rs_tenant : tenant_sound (Record.Tenant r)
}.

Lemma Unmarshal_Marshal {A} (zero : A) (d : Dec.t A) j a :
  Json.wf j -> d zero j = (a, true) -> Unmarshal zero d (Json.Marshal j) = inr a.
Proof. intros Hw Hd. unfold Unmarshal. by rewrite Json.Parse_Marshal, Hd. Qed.

Lemma uint32_same k n ms :
  0 <= n < 4294967296 ->
  Dec.field k uint32_dec 0 (Enc.int k n ++ ms) = Dec.field k uint32_dec n ms.
Proof.
  intros Hn. apply number_same. unfold parse_uint32.
  rewrite Enc.uint_num by (unfold Int.two64; lia).
  by rewrite (proj2 (Z.ltb_lt _ _)) by lia.
Qed.

Lemma smtp_wf n : smtp_sound n -> Json.wf (EventSMTPNotifier_enc n).
Proof.
  intros [Hp Ht]. all_texts. apply wf_members. wf_all.
Qed.

Lemma smtp_dec n :
  smtp_sound n ->
  EventSMTPNotifier_dec EventSMTPNotifier_zero (EventSMTPNotifier_enc n) = (n, true).
Proof.
  intros [Hp _]. unfold EventSMTPNotifier_dec, EventSMTPNotifier_enc.
  rewrite <- (app_nil_r (Enc.str "sender" _)).
  cbn [EventSMTPNotifier.ServerAddress EventSMTPNotifier.ServerPort
    EventSMTPNotifier.Encryption EventSMTPNotifier.AuthMechanism
    EventSMTPNotifier.AuthUsername EventSMTPNotifier.AuthPassword
    EventSMTPNotifier.Sender EventSMTPNotifier_zero].
  do 7 (fields; try rewrite uint32_same by done). by destruct n.
Qed.

Lemma sms_wf n : sms_sound n -> Json.wf (EventSMSNotifier_enc n).
Proof. intros [Ht]. all_texts. apply wf_members. wf_all. Qed.

Lemma sms_dec n :
  EventSMSNotifier_dec EventSMSNotifier_zero (EventSMSNotifier_enc n) = (n, true).
Proof.
  unfold EventSMSNotifier_dec, EventSMSNotifier_enc.
  rewrite <- (app_nil_r (Enc.str "version" _)).
  cbn [EventSMSNotifier.Provider EventSMSNotifier.Version EventSMSNotifier_zero].
  fields. by destruct n.
Qed.

Lemma event_wf e : event_sound e -> Json.wf (Event_json e).
Proof.
  intros [Ht Hs He]. cbn in Ht. typed_hyps. all_texts. apply wf_members. wf_all.
  intros a Ha. cbn. by apply He.
Qed.

Lemma event_dec e :
  typed TEvent e = true -> Event_dec Event_zero (Event_json e) = (e, true).
Proof.
  intros Ht. cbn in Ht. typed_hyps. unfold Event_dec, Event_json.
  rewrite <- (app_nil_r (Enc.int "created_at" _)).
  cbn [Event.ID Event.TenantID Event.Code Event.ErrorCode Event.Contents
    Event.CreatedAt Event_zero].
  fields. rewrite text_ptr_same. fields. by destruct e.
Qed.

Lemma code_wf c : code_sound c -> Json.wf (EventCode_enc c).
Proof. intros [Ht]. all_texts. apply wf_members. wf_all. Qed.

Lemma code_dec c : EventCode_dec EventCode_zero (EventCode_enc c) = (c, true).
Proof.
  unfold EventCode_dec, EventCode_enc. rewrite <- (app_nil_r (Enc.str "class_3" _)).
  cbn [EventCode.Code EventCode.Solution EventCode.Level EventCode.Class1
    EventCode.Class2 EventCode.Class3 EventCode_zero].
  fields. by destruct c.
Qed.

Lemma tenant_wf t : tenant_sound t -> Json.wf (JObj (Tenant_members t)).
Proof.
  intros [Ht Hs Hr]. cbn in Ht. typed_hyps. all_texts. apply wf_members.
  unfold Tenant_members. wf_all. intros a Ha. cbn. by apply Hr.
Qed.

Lemma tenant_dec t :
  typed TTenant t = true ->
  Tenant_dec Tenant_zero (JObj (Tenant_members t)) = (t, true).
Proof.
  intros Ht. cbn in Ht. typed_hyps. unfold Tenant_dec, Tenant_members.
  cbn [Tenant.ID Tenant.Name Tenant.Remarks Tenant.UseFlag Tenant.CreatedAt
    Tenant.UpdatedAt Tenant_zero].
  fields. rewrite ?text_ptr_same. fields. rewrite ?bool_same. fields.
  by destruct t.
Qed.

Lemma record_wf r : record_sound r -> Json.wf (Record_enc r).
Proof.
  intros [He Hc Ht]. apply wf_members. repeat constructor; cbn.
  - by apply event_wf.
  - by apply code_wf.
  - by apply tenant_wf.
Qed.

(** An announced event is read back as it was sent. *)
Lemma record_read_back r :
  record_sound r ->
  Unmarshal Record_zero Record_dec (Json.Marshal (Record_enc r)) = inr r.
Proof.
  intros Hr. apply Unmarshal_Marshal; [by apply record_wf|].
  destruct Hr as [He Hc Ht]. unfold Record_dec, Record_enc.
  rewrite (member_same _ _ _ _ _ _ (event_dec _ (event_typed _ He))).
  rewrite !Dec.field_skip by (vm_compute; reflexivity).
  rewrite (member_same _ _ _ _ _ _ (code_dec _)).
  rewrite !Dec.field_skip by (vm_compute; reflexivity).
  rewrite (member_same _ _ _ _ _ _ (tenant_dec _ (tenant_typed _ Ht))).
  by destruct r.
Qed.
