(* ===== verification/NtFacts.v ===== *)
(** * Facts about the notification operations that several theorems share:
    frames, and what the wrappers of its handlers answer *)

From stdpp Require Import base tactics list strings sets gmap.
From Stdlib Require Import ZArith Lia.
From S2P Require Import Prelude GoStd Json Model Backend Proto Errors Metadata Gorm.
From S2P Require Import Database GormFacts Report Config Store IdBase IdFacts ConfigFacts NtProto.
From S2P Require Import NtConfig NtNotifier NtEvent NtHandler.
#[local] Open Scope Z_scope.
#[local] Open Scope go_scope.

(** A struct condition on a number that is given. *)
Lemma cond_Z_ne a b : a <> 0 -> cond_Z a b = true <-> b = a.
Proof.
  unfold cond_Z. intros Ha%Z.eqb_neq. rewrite Ha. cbn. apply Z.eqb_eq.
Qed.

(** ** Frames of the queries *)
Section readonly.
Context `{Backend} (r : relation World) `{!Readonly r}.

#[global] Instance ro_Find_one t p : Preserves r (Find_one t p).
Proof. frame @Find_one. Qed.
#[global] Instance ro_Scan A (q : (forall t, list (row t)) -> list A) :
  Preserves r (Scan q).
Proof. unfold Scan. apply _. Qed.
#[global] Instance ro_getConfigOne tid k : Preserves r (getConfigOne tid k).
Proof. frame @getConfigOne. Qed.
#[global] Instance ro_nt_GetConfig tid : Preserves r (NtConfig.GetConfig tid).
Proof.
  unfold NtConfig.GetConfig, getConfigBool, getConfigUint32,
    getConfigEventSMTPNotifier, getConfigEventSMSNotifier. keep.
Qed.
#[global] Instance ro_ValidateUser id : Preserves r (ValidateUser id).
Proof. frame @ValidateUser. Qed.
#[global] Instance ro_ValidateTenant id : Preserves r (ValidateTenant id).
Proof. frame @ValidateTenant. Qed.
#[global] Instance ro_needed_text a b c : Preserves r (needed_text a b c).
Proof. frame @needed_text. Qed.
#[global] Instance ro_needed_member a b c : Preserves r (needed_member a b c).
Proof. frame @needed_member. Qed.
#[global] Instance ro_validate_smtp n : Preserves r (validate_smtp n).
Proof.
  unfold validate_smtp, validateServerAddress, validateServerPort,
    validateEncryption, validateAuthMechanism, validateAuthUsername,
    validateAuthPassword, validateSender. keep.
Qed.
#[global] Instance ro_validate_sms n : Preserves r (validate_sms n).
Proof. unfold validate_sms, validateProvider, validateVersion. keep. Qed.
#[global] Instance ro_present A p (o : option A) : Preserves r (present p o).
Proof. frame @present. Qed.
#[global] Instance ro_ValidateConfig c : Preserves r (ValidateConfig c).
Proof. unfold ValidateConfig, validateEventStorePeriod. keep. Qed.
#[global] Instance ro_some_code q : Preserves r (some_code q).
Proof. frame @some_code. Qed.
#[global] Instance ro_GetTenantEventReceives tid q :
  Preserves r (NtConfig.GetTenantEventReceives tid q).
Proof. frame @NtConfig.GetTenantEventReceives. Qed.
#[global] Instance ro_GetUserEventReceives uid q :
  Preserves r (NtConfig.GetUserEventReceives uid q).
Proof. frame @NtConfig.GetUserEventReceives. Qed.
#[global] Instance ro_known_or_logged A (c : Act A) :
  Preserves r c -> Preserves r (known_or_logged c).
Proof. intros ?. frame @known_or_logged. Qed.
#[global] Instance ro_Event_Tenant e : Preserves r (Event_Tenant e).
Proof. apply (ro_Find_one TTenant). Qed.
#[global] Instance ro_Event_EventCode e : Preserves r (Event_EventCode e).
Proof. apply (ro_Find_one TEventCode). Qed.
#[global] Instance ro_Event_EventError c : Preserves r (Event_EventError c).
Proof. apply (ro_Find_one TEventError). Qed.
#[global] Instance ro_validateEvent e : Preserves r (validateEvent e).
Proof. unfold validateEvent, validateContents. keep. Qed.
#[global] Instance ro_nt_GetEvent a b : Preserves r (NtEvent.GetEvent a b).
Proof. frame @NtEvent.GetEvent. Qed.
#[global] Instance ro_store_period tid : Preserves r (store_period tid).
Proof. frame @store_period. Qed.
#[global] Instance ro_checkAuthorization u : Preserves r (checkAuthorization u).
Proof. frame @checkAuthorization. Qed.
End readonly.

(** ** Frames of every operation *)
Section services.
Context `{Backend} (r : relation World) `{!Services r}.

#[global] Instance sv_nt_reportEvent tid ev ec e :
  Preserves r (NtEvent.reportEvent tid ev ec e).
Proof. unfold NtEvent.reportEvent, ReportEvent. keep. Qed.
#[global] Instance sv_or_broker A (c : Act A) :
  Preserves r c -> Preserves r (or_broker c).
Proof. intros ?. frame @or_broker. Qed.
#[global] Instance sv_announce tid x : Preserves r (announce tid x).
Proof. frame @announce. Qed.
End services.

Section effects.
Context `{Backend} (r : relation World) `{!Effects r}.

#[global] Instance ef_set_needed A (f : A -> string) tid k v :
  Preserves r (set_needed f tid k v).
Proof. unfold set_needed, setConfigOne. keep. Qed.
#[global] Instance ef_nt_SetConfig tid c : Preserves r (NtConfig.SetConfig tid c).
Proof.
  unfold NtConfig.SetConfig, setConfigBool, setConfigUint32,
    setConfigEventSMTPNotifier, setConfigEventSMSNotifier. keep.
Qed.
#[global] Instance ef_SetTenantEventReceives tid l :
  Preserves r (NtConfig.SetTenantEventReceives tid l).
Proof. frame @NtConfig.SetTenantEventReceives. Qed.
#[global] Instance ef_Delete_row t x : Preserves r (Delete_row t x).
Proof. unfold Delete_row. apply _. Qed.
#[global] Instance ef_set_user_receive uid x :
  Preserves r (set_user_receive uid x).
Proof. frame @set_user_receive. Qed.
#[global] Instance ef_SetUserEventReceives uid l :
  Preserves r (NtConfig.SetUserEventReceives uid l).
Proof. unfold NtConfig.SetUserEventReceives. apply _. Qed.
#[global] Instance ef_ResetUserEventReceives uid :
  Preserves r (NtConfig.ResetUserEventReceives uid).
Proof. unfold NtConfig.ResetUserEventReceives. keep. Qed.
#[global] Instance ef_cleanExpiredTenantEvent t :
  Preserves r (cleanExpiredTenantEvent t).
Proof. unfold cleanExpiredTenantEvent, now_unix. keep. Qed.
#[global] Instance ef_clean_tenant t : Preserves r (clean_tenant t).
Proof. frame @clean_tenant. Qed.
End effects.

(** ** What the wrappers of the handlers answer *)
Section wrappers.
Context `{BackendLaws}.

Lemma reports_nt_createError_of ctx ev e : reports (NtHandler.createError_of ctx ev e).
Proof.
  unfold NtHandler.createError_of.
  repeat apply reports_if;
    try (apply reports_status; apply (bool_decide_unpack _); by vm_compute).
Qed.

Lemma nt_fail_with_inv {A} ctx ev e w (r : err + A) w' :
  NtHandler.fail_with ctx ev e w = (r, w') ->
  exists s, r = inl s /\ is_status s /\ w_db w' = w_db w /\ w_kv w' = w_kv w.
Proof.
  unfold NtHandler.fail_with. intros [(e' & Hc & _)|(a & w1 & Hc & Ht)]%bind_inv;
    apply reports_nt_createError_of in Hc as (s & Hs & ? & ? & ?); [done|].
  injection Hs as ->. apply throw_inv in Ht as [-> ->]. eauto 6.
Qed.

Lemma nt_check_inr {A} ctx ev (c : Act A) w a w' :
  NtHandler.check ctx ev c w = (inr a, w') -> c w = (inr a, w').
Proof.
  unfold NtHandler.check.
  intros (x & w1 & (y & [= ->] & Hc)%attempt_inv & Hr)%bind_inr.
  destruct y as [e|b]; [|by apply ret_inv in Hr as [[= ->] ->]].
  destruct e; try (by apply throw_inv in Hr as [? _]);
    by apply nt_fail_with_inv in Hr as (s & ? & _).
Qed.

Lemma nt_ok_inr {A} ctx ev (a b : A) w w' :
  NtHandler.ok ctx ev a w = (inr b, w') -> b = a /\ w_db w' = w_db w.
Proof.
  unfold NtHandler.ok, StatusOK.
  intros (u & w1 & (_ & ? & ?)%reportEvent_inv & Hr)%bind_inr.
  by apply ret_inv in Hr as [[= ->] ->].
Qed.

Lemma nt_ok_rows {A} ctx ev (a b : A) w w' :
  NtHandler.ok ctx ev a w = (inr b, w') -> b = a /\ rows_eq w w'.
Proof.
  intros [-> Hd]%nt_ok_inr. split; [done|]. intros t. unfold R. by rewrite Hd.
Qed.

Lemma nt_request_inv ctx w m w' :
  NtHandler.getRequestMetadata ctx w = (inr m, w') ->
  GetTenantID ctx = inr m.1 /\ GetAuthenticatedUser ctx = inr m.2 /\ w' = w.
Proof.
  unfold NtHandler.getRequestMetadata. intros Hm.
  destruct (GetTenantID ctx); [by apply throw_inv in Hm as [? _]|].
  destruct (GetAuthenticatedUser ctx); [by apply throw_inv in Hm as [? _]|].
  by apply ret_inv in Hm as [[= ->] ->].
Qed.

(** A query keeps the rows. *)
Lemma readonly_rows {A} (c : Act A) w r w' :
  Preserves (db_frame []) c -> c w = (r, w') -> rows_eq w w'.
Proof. intros Hc Hr t. apply db_frame_rows. by apply Hc in Hr. Qed.

Lemma nt_reportEvent_run tid ev ec e w r w' :
  NtEvent.reportEvent tid ev ec e w = (r, w') -> r = inr tt.
Proof.
  unfold NtEvent.reportEvent, bind, attempt, ret.
  destruct (ReportEvent _ _ _ _ _ _) as [x w1]. by intros [= <- _].
Qed.

Lemma or_broker_inr {A} (c : Act A) w a w' :
  or_broker c w = (inr a, w') -> c w = (inr a, w').
Proof.
  unfold or_broker, bind, attempt, throw, ret.
  destruct (c w) as [[e|x] w1]; intros; by simplify_eq.
Qed.

Lemma ValidateTenant_inr id w u w' :
  ValidateTenant id w = (inr u, w') ->
  exists t, t ∈ R TTenant w /\ cond_Z id (Tenant.ID t) = true.
Proof.
  unfold ValidateTenant. intros (x & w1 & (y & [= ->] & Hc)%attempt_inv & Hr)%bind_inr.
  destruct y as [e|t]; [by destruct e; apply throw_inv in Hr as [? _]|].
  apply Find_one_ok in Hc as [? ?]. eauto.
Qed.

Lemma ValidateUser_inr id w u w' :
  ValidateUser id w = (inr u, w') ->
  exists x, x ∈ R TUser w /\ cond_Z id (User.ID x) = true.
Proof.
  unfold ValidateUser. intros (x & w1 & (y & [= ->] & Hc)%attempt_inv & Hr)%bind_inr.
  destruct y as [e|t]; [by destruct e; apply throw_inv in Hr as [? _]|].
  apply Find_one_ok in Hc as [? ?]. eauto.
Qed.

Lemma transaction_inr {A} (fc : Act A) w a w' :
  Preserves base_frame fc -> Transaction fc w = (inr a, w') ->
  exists w0 w1, rows_eq w w0 /\ fc w0 = (inr a, w1) /\ rows_eq w1 w' /\
    w_out w' = w_out w1.
Proof.
  intros Hp Ht. apply (transaction_outcome fc _ _ _ Hp) in Ht.
  destruct Ht as (w0 & w1 & db & ? & ? & ? & ->). by exists w0, w1.
Qed.

(** A transaction that checks something and then writes. *)
Lemma transaction_checked {A} (c : Act unit) (k : Act A) w a w' :
  Preserves (db_frame []) c -> Preserves base_frame k ->
  Transaction (c ;; k) w = (inr a, w') ->
  exists w0 w1 w2, rows_eq w w0 /\ c w0 = (inr tt, w1) /\ rows_eq w w1 /\
    k w1 = (inr a, w2) /\ rows_eq w2 w'.
Proof.
  intros Hc Hk Ht. apply transaction_inr in Ht as (w0 & w2 & Hw0 & Hb & Hw2 & _).
  - apply bind_inr in Hb as ([] & w1 & Hr & Hb). exists w0, w1, w2.
    split_and!; try done. etrans; [exact Hw0|]. by eapply readonly_rows.
  - apply preserves_bind; [apply _|by apply (base_of_frame [])|done].
Qed.
End wrappers.

(** ** Queries whose answer the rows determine *)
Section reads.
Context `{BackendLaws}.

(** On the rows of [w0] the query answers [a], unless the driver fails. *)
Definition reads {A} (c : Act A) (w0 : World) (a : A) : Prop :=
  forall w r w', rows_eq w0 w -> c w = (r, w') ->
  rows_eq w0 w' /\
  (r = inr a \/ exists d, r = inl (UnusableDatabase (Some (EDriver d)))).

Lemma reads_ret {A} (a : A) w0 : reads (ret a) w0 a.
Proof. intros w r w' Hw [-> ->]%ret_inv. auto. Qed.

Lemma reads_bind {A B} (c : Act A) (k : A -> Act B) w0 a b :
  reads c w0 a -> reads (k a) w0 b -> reads (bind c k) w0 b.
Proof.
  intros Hc Hk w r w' Hw [(e & Hr & ->)|(x & w1 & Hr & Hr2)]%bind_inv;
    apply Hc in Hr as [Hw1 Hr]; try done.
  - split; [done|]. destruct Hr as [?|[d [= ->]]]; [done|eauto].
  - destruct Hr as [[= ->]|[d ?]]; [by eapply Hk|done].
Qed.

Lemma reads_or_unknown_err {A} (x : err + A) a w0 :
  x = inr a -> reads (or_unknown_err x) w0 a.
Proof. intros -> w r w' Hw [-> ->]%ret_inv. auto. Qed.

Lemma config_struct_spec tid key r :
  tid <> 0 -> key <> EmptyString ->
  config_struct tid key r = true <->
  TenantConfig.TenantID r = tid /\ TenantConfig.Key r = key.
Proof.
  intros Ht Hk. unfold config_struct, cond_Z, cond_str.
  apply Z.eqb_neq in Ht as ->. destruct key; [done|].
  cbn [is_empty orb]. by rewrite andb_true_iff, Z.eqb_eq, String.eqb_eq.
Qed.

Lemma reads_getConfigOne tid key v w0 :
  tid <> 0 -> key <> EmptyString -> setting w0 tid key v ->
  reads (getConfigOne tid key) w0 v.
Proof.
  intros Ht Hk Hv w r w' Hw Hr. split.
  { etrans; [exact Hw|]. eapply readonly_rows; [|exact Hr]. apply _. }
  unfold getConfigOne in Hr. apply (setting_rows _ w) in Hv; [|done].
  apply bind_inv in Hr as [(e & (x & ? & _)%attempt_inv & _)|(x & w1 & Ha & Hr)];
    [done|].
  apply attempt_inv in Ha as (y & [= ->] & Hf). destruct y as [e|c].
  - apply Find_one_err in Hf as [[-> Hno]|[d ->]].
    + specialize (Hno _ Hv). by rewrite (proj2 (config_struct_spec _ _ _ Ht Hk)) in Hno.
    + apply throw_inv in Hr as [-> _]. eauto.
  - apply ret_inv in Hr as [-> _]. left. f_equal.
    apply Find_one_ok in Hf as [Hc Hp]. apply config_struct_spec in Hp as [<- <-]; [|done..].
    eapply setting_unique; [|exact Hv]. unfold setting. by destruct c.
Qed.
End reads.

(** [nt_run H] unfolds a handler's run that returned a value. *)
Ltac nt_step H :=
  lazymatch type of H with
  | bind _ _ _ = (inr _, _) =>
      let x := fresh "x" in let w := fresh "w" in let H1 := fresh "Hr" in
      apply bind_inr in H; destruct H as (x & w & H1 & H); nt_run H1
  | NtHandler.check _ _ _ _ = (inr _, _) => apply nt_check_inr in H
  | or_broker _ _ = (inr _, _) => apply or_broker_inr in H
  | _ => run_step H
  end
with nt_run H := repeat (progress (nt_step H; cbn beta iota in * |-)).

(** ** The join of events with tenants and event codes, as a function of the
    event *)
(** ** Lists of which at most one element counts *)
Lemma flat_map_if {A B} (p : A -> bool) (g : A -> list B) l :
  flat_map (fun x => if p x then g x else []) l = flat_map g (List.filter p l).
Proof. induction l as [|x l IH]; cbn; [done|]. destruct (p x); cbn; by rewrite IH. Qed.

Lemma filter_find {A} (p : A -> bool) l :
  NoDup l -> (forall x y, x ∈ l -> y ∈ l -> p x = true -> p y = true -> x = y) ->
  List.filter p l = match List.find p l with Some x => [x] | None => [] end.
Proof.
  induction 1 as [|x l Hx Hl IH]; intros Hu; cbn; [done|].
  destruct (p x) eqn:E.
  - f_equal. destruct (List.filter p l) as [|y l'] eqn:F; [done|].
    assert (y ∈ List.filter p l) as [Hy Hp]%In_filter by (rewrite F; by left).
    destruct Hx. rewrite (Hu x y); [done|by left|by right|done..].
  - apply IH. intros y z Hy Hz. apply Hu; by right.
Qed.

Lemma filter_the {A} (p : A -> bool) l x :
  NoDup l -> x ∈ l -> p x = true ->
  (forall y, y ∈ l -> p y = true -> y = x) -> List.filter p l = [x].
Proof.
  intros Hn Hx Hp Hu. rewrite filter_find; [|done|].
  - destruct (List.find p l) as [y|] eqn:E.
    + apply List.find_some in E as [Hy Hpy]. f_equal. apply Hu; [|done].
      by apply list_elem_of_In.
    + apply list_elem_of_In in Hx. by rewrite (List.find_none _ _ E x Hx) in Hp.
  - intros y z Hy Hz Py Pz. by rewrite (Hu y Hy Py), (Hu z Hz Pz).
Qed.

(** ** The joined rows *)
Section join.
Variable T : forall t, list (row t).

Definition tenant_of (e : Event.t) : option Tenant.t :=
  List.find (fun t => Event.TenantID e =? Tenant.ID t) (T TTenant).
Definition code_of (e : Event.t) : option EventCode.t :=
  List.find (fun c => (Event.Code e =? EventCode.Code c)%string) (T TEventCode).

(** An event with its tenant and, if it is known, its code. *)
Definition joined_of (e : Event.t) : option joined :=
  t ← tenant_of e; Some (e, t, code_of e).

Lemma join_events_omap :
  NoDup (T TTenant) -> NoDup (T TEventCode) ->
  (forall a b : Tenant.t, a ∈ T TTenant -> b ∈ T TTenant ->
     Tenant.ID a = Tenant.ID b -> a = b) ->
  (forall a b : EventCode.t, a ∈ T TEventCode -> b ∈ T TEventCode ->
     EventCode.Code a = EventCode.Code b -> a = b) ->
  join_events T = omap joined_of (T TEvent).
Proof.
  intros Nt Nc Ut Uc. unfold join_events.
  assert (forall e : Event.t,
    List.filter (fun c : EventCode.t => (Event.Code e =? EventCode.Code c)%string)
      (T TEventCode) = match code_of e with Some c => [c] | None => [] end) as Hc.
  { intros e. apply filter_find; [done|]. intros a b Ha Hb Ea%String.eqb_eq Eb%String.eqb_eq.
    apply Uc; [done|done|congruence]. }
  assert (forall e : Event.t,
    List.filter (fun t : Tenant.t => Event.TenantID e =? Tenant.ID t)
      (T TTenant) = match tenant_of e with Some c => [c] | None => [] end) as Ht.
  { intros e. apply filter_find; [done|]. intros a b Ha Hb Ea%Z.eqb_eq Eb%Z.eqb_eq.
    apply Ut; [done|done|congruence]. }
  induction (T TEvent) as [|e l IH]; [done|]. cbn [flat_map omap list_omap].
  rewrite IH, flat_map_if, Ht. unfold joined_of at 2.
  destruct (tenant_of e) as [t|]; [|done]. cbn. rewrite Hc.
  by destruct (code_of e).
Qed.

(** A condition on the event is one on the events joined. *)
Lemma filter_joined (q : Event.t -> bool) l :
  List.filter (fun '(e, _, _) => q e) (omap joined_of l)
  = omap joined_of (List.filter q l).
Proof.
  induction l as [|e l IH]; [done|]. cbn [omap list_omap List.filter].
  unfold joined_of at 1. destruct (tenant_of e) as [t|] eqn:E; cbn.
  - rewrite IH. destruct (q e); [|done]. cbn. unfold joined_of at 2. by rewrite E.
  - rewrite IH. destruct (q e); [|done]. cbn. unfold joined_of at 2. by rewrite E.
Qed.
End join.

Section rows.
Context `{BackendLaws}.

(** In a database the keys of tenants and codes are unique. *)
Lemma join_events_rows w :
  join_events (fun t => R t w)
  = omap (joined_of (fun t => R t w)) (R TEvent w).
Proof.
  apply join_events_omap.
  - apply NoDup_ListNoDup, (rows_nodup TTenant).
  - apply NoDup_ListNoDup, (rows_nodup TEventCode).
  - intros a b Ha Hb He. apply (rows_unique TTenant _ _ _ Ha Hb).
    unfold conflict. cbn. by rewrite He, Z.eqb_refl.
  - intros a b Ha Hb He. apply (rows_unique TEventCode _ _ _ Ha Hb).
    unfold conflict. cbn. by rewrite He, String.eqb_refl.
Qed.
End rows.
