(* ===== verification/NtConfigProps.v ===== *)
(** * Notification settings: what is written is valid and is read back *)

From stdpp Require Import base tactics list strings sets gmap.
From Stdlib Require Import ZArith Lia Ascii.
From S2P Require Import Prelude GoStd Json Model Backend Errors Proto Metadata.
From S2P Require Import Gorm Database GormFacts Report Config Store IdBase IdTenant.
From S2P Require Import IdFacts ConfigFacts RefBackend NtProto NtConfig.
From S2P Require Import NtNotifier NtEvent NtHandler NtFacts NtJsonFacts.
#[local] Open Scope Z_scope.
#[local] Open Scope go_scope.

Section settings.
Context `{BackendLaws}.

(** ** Valid settings *)
Definition text_ok (s : string) : Prop := s <> EmptyString /\ len s <= 1024.

Record smtp_valid (n : EventSMTPNotifier.t) : Prop := {
  sv_address : text_ok (EventSMTPNotifier.ServerAddress n);
  sv_port : EventSMTPNotifier.ServerPort n <> 0 /\ EventSMTPNotifier.ServerPort n <= 65535;
  sv_encryption : EventSMTPNotifier.Encryption n ∈ encryptions;
  sv_mechanism : EventSMTPNotifier.AuthMechanism n ∈ authMechanisms;
  sv_username : text_ok (EventSMTPNotifier.AuthUsername n);
  sv_password : text_ok (EventSMTPNotifier.AuthPassword n);
  sv_sender : len (EventSMTPNotifier.Sender n) <= 1024
}.

Record sms_valid (n : EventSMSNotifier.t) : Prop := {
  sv_provider : text_ok (EventSMSNotifier.Provider n);
  sv_version : text_ok (EventSMSNotifier.Version n)
}.

(** All settings are given, the store period is at most 120 months, and what
    is switched on is configured. *)
Definition nconfig_valid (c : NConfig.t) : Prop :=
  exists enable email desktop popup sms custom period smtp smsn,
    c = NConfig.mk (Some enable) (Some email) (Some desktop) (Some popup)
          (Some sms) (Some custom) (Some period) (Some smtp) (Some smsn) /\
    period <= 120 /\ (email = true -> smtp_valid smtp) /\
    (sms = true -> sms_valid smsn).

(** The fields fit their types and texts are UTF-8, as protobuf ensures. *)
Record nconfig_typed (c : NConfig.t) : Prop := {
  ct_period : forall n, NConfig.EventStorePeriod c = Some n -> 0 <= n < 4294967296;
  ct_smtp : forall n, NConfig.EventSmtpNotifier c = Some n ->
    Forall utf8
      [EventSMTPNotifier.ServerAddress n; EventSMTPNotifier.Encryption n;
       EventSMTPNotifier.AuthMechanism n; EventSMTPNotifier.AuthUsername n;
       EventSMTPNotifier.AuthPassword n; EventSMTPNotifier.Sender n] /\
    0 <= EventSMTPNotifier.ServerPort n < 4294967296;
  ct_sms : forall n, NConfig.EventSmsNotifier c = Some n ->
    Forall utf8 [EventSMSNotifier.Provider n; EventSMSNotifier.Version n]
}.

(** ** The checks *)
Lemma present_inr {A} p (o : option A) (w w' : World) u :
  present p o w = (inr u, w') -> (exists a, o = Some a) /\ w' = w.
Proof.
  unfold present. destruct o; [|by intros [? _]%throw_inv].
  intros [_ ->]%ret_inv. eauto.
Qed.

Lemma too_long_false s : too_long s = false -> len s <= 1024.
Proof. unfold too_long. by rewrite Z.ltb_ge. Qed.

Lemma needed_text_inr a b s (w w' : World) u :
  needed_text a b s w = (inr u, w') -> text_ok s /\ w' = w.
Proof.
  unfold needed_text. intros ([] & w1 & [H1 ->]%guard_err_inr & Hr)%bind_inr.
  apply guard_err_inr in Hr as [H2 ->]. split; [|done].
  split; [by destruct s|by apply too_long_false].
Qed.

Lemma needed_member_inr p s l (w w' : World) u :
  needed_member p s l w = (inr u, w') -> s ∈ l /\ w' = w.
Proof.
  unfold needed_member. intros ([] & w1 & [_ ->]%guard_err_inr & Hr)%bind_inr.
  apply guard_err_inr in Hr as [Hl ->]. split; [|done].
  apply negb_false_iff, existsb_exists in Hl as (x & Hx & He).
  apply String.eqb_eq in He as ->. by apply list_elem_of_In.
Qed.

Lemma validate_smtp_inr n (w w' : World) u :
  validate_smtp n w = (inr u, w') -> smtp_valid n /\ w' = w.
Proof.
  unfold validate_smtp, validateServerAddress, validateServerPort,
    validateEncryption, validateAuthMechanism, validateAuthUsername,
    validateAuthPassword, validateSender. intros Hv.
  apply bind_inr in Hv as (? & ? & [? ->]%needed_text_inr & Hv).
  apply bind_inr in Hv as ([] & ? & [Hp ->]%guard_err_inr & Hv).
  apply bind_inr in Hv as (? & ? & [? ->]%needed_member_inr & Hv).
  apply bind_inr in Hv as (? & ? & [? ->]%needed_member_inr & Hv).
  apply bind_inr in Hv as (? & ? & [? ->]%needed_text_inr & Hv).
  apply bind_inr in Hv as (? & ? & [? ->]%needed_text_inr & Hv).
  destruct u. apply guard_err_inr in Hv as [Hs%too_long_false ->].
  apply orb_false_iff in Hp as [? ?%Z.ltb_ge]. split; [|done].
  constructor; try done. split; [by apply Z.eqb_neq|done].
Qed.

Lemma validate_sms_inr n (w w' : World) u :
  validate_sms n w = (inr u, w') -> sms_valid n /\ w' = w.
Proof.
  unfold validate_sms, validateProvider, validateVersion.
  intros (? & ? & [? ->]%needed_text_inr & [? ->]%needed_text_inr)%bind_inr.
  split; [by constructor|done].
Qed.

(** A check that is made when something is switched on. *)
Lemma when_inr (b : bool) (c : Act unit) (P : Prop) (w w' : World) :
  (if b then c else ret tt) w = (inr tt, w') ->
  (forall w w' u, c w = (inr u, w') -> P /\ w' = w) ->
  (b = true -> P) /\ w' = w.
Proof.
  intros Hr Hc. destruct b; [apply Hc in Hr as [? ->]; auto|].
  by apply ret_inv in Hr as [_ ->].
Qed.

Lemma ValidateConfig_inr c w w' u :
  ValidateConfig (Some c) w = (inr u, w') -> nconfig_valid c /\ w' = w.
Proof.
  unfold ValidateConfig, validateEventStorePeriod. cbn [mbind option_bind].
  destruct c as [a1 a2 a3 a4 a5 a6 a7 a8 a9]. cbn. intros Hv.
  apply bind_inr in Hv as (? & ? & [[enable ->] ->]%present_inr & Hv).
  apply bind_inr in Hv as (? & ? & [[email ->] ->]%present_inr & Hv).
  apply bind_inr in Hv as (? & ? & [[desktop ->] ->]%present_inr & Hv).
  apply bind_inr in Hv as (? & ? & [[popup ->] ->]%present_inr & Hv).
  apply bind_inr in Hv as (? & ? & [[sms ->] ->]%present_inr & Hv).
  apply bind_inr in Hv as (? & ? & [[custom ->] ->]%present_inr & Hv).
  apply bind_inr in Hv as (? & ? & [[period ->] ->]%present_inr & Hv).
  apply bind_inr in Hv as (? & ? & [[smtp ->] ->]%present_inr & Hv).
  apply bind_inr in Hv as (? & ? & [[smsn ->] ->]%present_inr & Hv).
  apply bind_inr in Hv as ([] & ? & [Hp%Z.ltb_ge ->]%guard_err_inr & Hv).
  apply bind_inr in Hv as ([] & ? & Hm & Hv). destruct u.
  apply (when_inr _ _ (smtp_valid smtp)) in Hm as [Hm ->]; [|apply validate_smtp_inr].
  apply (when_inr _ _ (sms_valid smsn)) in Hv as [Hs ->]; [|apply validate_sms_inr].
  split; [|done]. by exists enable, email, desktop, popup, sms, custom, period, smtp, smsn.
Qed.

(** ** Writing *)

(** The rows of the settings, last written first. *)
Definition nconfig_rows (c : NConfig.t) : list (string * string) :=
  let flag o := Strconv.FormatBool (default false o) in
  [(EventSMSNotifier, Json.Marshal (EventSMSNotifier_enc
      (default EventSMSNotifier_zero (NConfig.EventSmsNotifier c))));
   (EventEmailNotifier, Json.Marshal (EventSMTPNotifier_enc
      (default EventSMTPNotifier_zero (NConfig.EventSmtpNotifier c))));
   (EventStorePeriod,
    Strconv.FormatUint (default 0 (NConfig.EventStorePeriod c)));
   (EventCustomNotificationEnable, flag (NConfig.EventCustomNotificationEnable c));
   (EventSmsNotificationEnable, flag (NConfig.EventSmsNotificationEnable c));
   (EventPopupNotificationEnable, flag (NConfig.EventPopupNotificationEnable c));
   (EventDesktopNotificationEnable,
    flag (NConfig.EventDesktopNotificationEnable c));
   (EventEmailNotificationEnable, flag (NConfig.EventEmailNotificationEnable c));
   (EventNotificationEnable, flag (NConfig.EventNotificationEnable c))].

Lemma set_needed_wrote {A} (print : A -> string) tid key v w w' u :
  set_needed print tid key (Some v) w = (inr u, w') ->
  wrote tid [(key, print v)] w w'.
Proof.
  unfold set_needed, setConfigOne.
  intros (r & w1 & Hs%or_db_inr & [_ ->]%ret_inv)%bind_inr.
  by eapply Save_setting.
Qed.

(** The next setting [Hs] saves is one more [W] wrote. *)
Ltac set_one Hs W :=
  let w := fresh "w" in let H := fresh "H" in
  apply bind_inr in Hs as ([] & w & H & Hs);
  apply set_needed_wrote, (wrote_one _ _ _ _ _ _ _ W) in H;
    [|by apply (bool_decide_unpack _); vm_compute];
  clear W; rename H into W.

Lemma SetConfig_wrote tid c w w' u :
  nconfig_valid c -> NtConfig.SetConfig tid (Some c) w = (inr u, w') ->
  wrote tid (nconfig_rows c) w w'.
Proof.
  intros (enable & email & desktop & popup & sms & custom & period & smtp & smsn &
    -> & _). unfold NtConfig.SetConfig. cbn. intros Hs.
  pose proof (wrote_nil tid w) as W. do 8 set_one Hs W.
  apply set_needed_wrote, (wrote_one _ _ _ _ _ _ _ W) in Hs; [exact Hs|].
  by apply (bool_decide_unpack _); vm_compute.
Qed.

(** ** Reading *)
Lemma reads_Bool tid key b w0 :
  tid <> 0 -> key <> EmptyString ->
  setting w0 tid key (Strconv.FormatBool b) -> reads (getConfigBool tid key) w0 b.
Proof.
  intros. eapply reads_bind; [by apply reads_getConfigOne|].
  apply reads_or_unknown_err, Bool_format.
Qed.

Lemma reads_Uint32 tid key n w0 :
  tid <> 0 -> key <> EmptyString -> 0 <= n < 4294967296 ->
  setting w0 tid key (Strconv.FormatUint n) -> reads (getConfigUint32 tid key) w0 n.
Proof.
  intros. eapply reads_bind; [by apply reads_getConfigOne|].
  eapply reads_bind.
  { apply reads_or_unknown_err, Uint64_format. unfold Int.two64. lia. }
  rewrite Z.mod_small by done. apply reads_ret.
Qed.

Lemma reads_SMTP tid key n w0 :
  tid <> 0 -> key <> EmptyString -> smtp_sound n ->
  setting w0 tid key (Json.Marshal (EventSMTPNotifier_enc n)) ->
  reads (getConfigEventSMTPNotifier tid key) w0 n.
Proof.
  intros. eapply reads_bind; [by apply reads_getConfigOne|].
  apply reads_or_unknown_err, Unmarshal_Marshal; [by apply smtp_wf|by apply smtp_dec].
Qed.

Lemma reads_SMS tid key n w0 :
  tid <> 0 -> key <> EmptyString -> sms_sound n ->
  setting w0 tid key (Json.Marshal (EventSMSNotifier_enc n)) ->
  reads (getConfigEventSMSNotifier tid key) w0 n.
Proof.
  intros. eapply reads_bind; [by apply reads_getConfigOne|].
  apply reads_or_unknown_err, Unmarshal_Marshal; [by apply sms_wf|apply sms_dec].
Qed.

Lemma reads_GetConfig tid c w0 :
  tid <> 0 -> nconfig_valid c -> nconfig_typed c ->
  (forall k v, (k, v) ∈ nconfig_rows c -> setting w0 tid k v) ->
  reads (NtConfig.GetConfig tid) w0 c.
Proof.
  intros Ht (enable & email & desktop & popup & sms & custom & period & smtp & smsn &
    -> & _) [Hp Hsmtp Hsms] Hset.
  unfold NtConfig.GetConfig. unfold nconfig_rows in Hset.
  cbn [NConfig.EventNotificationEnable NConfig.EventEmailNotificationEnable
    NConfig.EventDesktopNotificationEnable NConfig.EventPopupNotificationEnable
    NConfig.EventSmsNotificationEnable NConfig.EventCustomNotificationEnable
    NConfig.EventStorePeriod NConfig.EventSmtpNotifier NConfig.EventSmsNotifier
    default] in Hset, Hp, Hsmtp, Hsms. unfold id in Hset.
  do 6 (eapply reads_bind;
    [apply reads_Bool; [done|done|apply Hset; repeat first [by left|right]]|]).
  eapply reads_bind;
    [apply reads_Uint32; [done|done|by apply Hp|apply Hset; repeat first [by left|right]]|].
  destruct (Hsmtp _ eq_refl).
  eapply reads_bind;
    [apply reads_SMTP; [done|done|by constructor|apply Hset; repeat first [by left|right]]|].
  eapply reads_bind;
    [apply reads_SMS; [done|done|constructor; by apply Hsms|apply Hset; repeat first [by left|right]]|].
  apply reads_ret.
Qed.

(** C24. For a request of a tenant (its number is not 0), writing the
    notification settings and reading them back is a round trip through nine
    rows of text and JSON: the handler [SetConfig] only accepts settings that
    are complete and within their bounds, for a tenant that exists; it answers
    with exactly the settings of the request; no other tenant's setting and no
    other table changes; and on its rows [GetConfig] answers with those
    settings, unless the database driver fails.  (Number 0, that of a request
    without a tenant, is no condition for the database: the existence check
    then passes with any tenant, and a setting is read from any tenant's
    row.) *)
Theorem SetConfig_GetConfig ctx tid c w c' w1 :
  GetTenantID ctx = inr tid -> tid <> 0 -> nconfig_typed c ->
  NtHandler.SetConfig ctx (Some c) w = (inr c', w1) ->
  nconfig_valid c /\ c' = c /\
  (exists t, t ∈ R TTenant w /\ Tenant.ID t = tid) /\
  (forall t k v, t <> tid -> setting w1 t k v <-> setting w t k v) /\
  (forall t, t <> TTenantConfig -> R t w1 = R t w) /\
  reads (NtConfig.GetConfig tid) w1 c.
Proof.
  intros Htid Hne Hty Hs. unfold NtHandler.SetConfig in Hs. nt_run Hs.
  apply nt_request_inv in Hr as (Hid & _ & ->). cbn in Hid.
  rewrite Htid in Hid. injection Hid as <-.
  apply ValidateConfig_inr in Hr0 as [Hv ->].
  apply transaction_inr in Hr1 as (w0 & w2 & Hw0 & Hb & Hw2 & _); [|apply _].
  apply nt_ok_rows in Hs as [-> Hw1]. nt_run Hb.
  assert (rows_eq w w4) as H4.
  { etrans; [exact Hw0|]. eapply readonly_rows; [|exact Hr]. apply _. }
  apply SetConfig_wrote in Hr0 as W; [|done].
  assert (reads (NtConfig.GetConfig tid) w5 c) as Hreads.
  { apply reads_GetConfig; try done. apply W. }
  destruct (Hreads _ _ _ (reflexivity w5) Hb) as [H5 [[= ->]|[d ?]]]; [|done].
  assert (rows_eq w5 w1) as H51.
  { etrans; [exact H5|]. by etrans. }
  apply (wrote_rows _ _ w _ _ w1 H4) in W; [|done]. split; [done|]. split; [done|].
  split.
  { apply ValidateTenant_inr in Hr as (t' & Hin & Hid). exists t'.
    rewrite <- (Hw0 TTenant). split; [done|]. unfold cond_Z in Hid.
    apply Z.eqb_neq in Hne. rewrite Hne in Hid. by apply Z.eqb_eq. }
  split; [intros t' k v Ht'; apply (wrote_out _ _ _ _ W); by left|].
  split; [apply (wrote_frame _ _ _ _ W)|].
  apply reads_GetConfig; try done. apply W.
Qed.
End settings.

(** ** Example *)
#[local] Existing Instance mem_backend.
#[local] Existing Instance mem_backend_laws.

Definition n_smtp : EventSMTPNotifier.t :=
  EventSMTPNotifier.mk "smtp.example.com" 587 "starttls" "PLAIN" "cdm" "secret"
    "cdm@example.com".

Definition n_config : NConfig.t :=
  NConfig.mk (Some true) (Some true) (Some false) (Some false) (Some false)
    (Some false) (Some 6) (Some n_smtp) (Some EventSMSNotifier_zero).

Lemma SetConfig_GetConfig_witness :
  (NtHandler.SetConfig (s_ctx s_req_admin) (Some n_config) s_world).1
  = inr n_config /\ nconfig_valid n_config.
Proof.
  split; [vm_compute; reflexivity|].
  apply (SetConfig_GetConfig (s_ctx s_req_admin) 1 n_config s_world n_config
    (NtHandler.SetConfig (s_ctx s_req_admin) (Some n_config) s_world).2).
  - vm_compute. reflexivity.
  - done.
  - constructor; intros n Hn; injection Hn as <-; cbn; [lia|split; [|lia]|];
      repeat (apply List.Forall_cons; [reflexivity|]); apply List.Forall_nil.
  - apply ran. vm_compute. reflexivity.
Defined.
