(* ===== verification/NtCleanProps.v ===== *)
(** * The cleaner deletes expired events, and nothing else *)

From stdpp Require Import base tactics list strings sets gmap.
From Stdlib Require Import ZArith Lia Ascii.
From S2P Require Import Prelude GoStd Json Model Backend Errors Proto Metadata.
From S2P Require Import Gorm Database GormFacts TransactionFacts Report Config Store IdBase.
From S2P Require Import IdFacts ConfigFacts GormFacts RefBackend.
From S2P Require Import NtProto NtConfig NtNotifier NtEvent NtHandler NtFacts.
#[local] Open Scope Z_scope.
#[local] Open Scope go_scope.

Section cleaner.
Context `{BackendLaws}.

(** The months the events of a tenant are kept for: the setting, or the
    default if there is none, it is no number, or it cannot be read. *)
Inductive kept_for (w : World) (tid p : Z) : Prop :=
| kept_setting v :
    setting w tid EventStorePeriod v -> Value.Int64 v = inr p -> kept_for w tid p
| kept_default :
    p = defaultEventStorePeriod ->
    (forall v q, setting w tid EventStorePeriod v -> Value.Int64 v <> inr q) \/
    (exists w1 d, (First TTenantConfig (tenant_key tid EventStorePeriod) w1).1
                  = inl (EDriver d)) -> kept_for w tid p.

Lemma kept_for_rows w w' tid p :
  R TTenantConfig w' = R TTenantConfig w -> kept_for w tid p -> kept_for w' tid p.
Proof.
  intros Hr [v Hv Hp|Hp Hd].
  - eapply kept_setting; [|exact Hp]. unfold setting. by rewrite Hr.
  - apply kept_default; [done|]. destruct Hd as [Hd|Hd]; [left|by right].
    intros v q. unfold setting. rewrite Hr. apply Hd.
Qed.

Lemma store_period_run tid w r w' :
  store_period tid w = (r, w') -> exists p, r = inr p /\ kept_for w tid p.
Proof.
  unfold store_period. intros [(e & Hc & _)|(o & w1 & Hc & [-> _]%ret_inv)]%bind_inv;
    apply TenantConfig_run in Hc as (o' & Ho & Hc); [done|].
  injection Ho as ->. eexists. split; [done|]. destruct o' as [c|].
  - destruct Hc as [_ Hc]. destruct (Value.Int64 (cfg_Value c)) as [e|p] eqn:E.
    + apply kept_default; [done|]. left. intros v q Hv.
      rewrite (setting_unique _ _ _ _ _ Hv Hc), E. done.
    + by eapply kept_setting.
  - apply kept_default; [done|]. destruct Hc as [Hc|[d Hc]]; [|eauto].
    left. intros v q Hv. by apply Hc in Hv.
Qed.

(** The event was expired when the clock was read for the [n]th time. *)
Definition expired (w : World) (e : Event.t) (n : nat) : Prop :=
  exists p, kept_for w (Event.TenantID e) p /\ p <> 0 /\
    Event.CreatedAt e < expiry (clock n / 1000000000) p.

(** Between two worlds, only expired events were deleted. *)
Record cleaned (w w' : World) : Prop := {
  cleaned_tick : (w_tick w <= w_tick w')%nat;
  cleaned_tables : forall t, t <> TEvent -> R t w' = R t w;
  cleaned_kept : forall e, e ∈ R TEvent w' -> e ∈ R TEvent w;
  cleaned_gone : forall e, e ∈ R TEvent w ->
    e ∈ R TEvent w' \/ exists n, (n < w_tick w')%nat /\ expired w e n
}.

#[local] Instance cleaned_preorder : PreOrder cleaned.
Proof.
  split; [split; auto|].
  intros w1 w2 w3 [N1 T1 K1 G1] [N2 T2 K2 G2]. split; [lia| |auto|].
  - intros t Ht. by rewrite T2, T1.
  - intros e He. destruct (G1 e He) as [He2|(n & Hn & Hx)].
    + destruct (G2 e He2) as [|(n & Hn & p & Hk & Hp)]; [by left|].
      right. exists n. split; [done|]. exists p. split; [|done].
      eapply kept_for_rows; [|exact Hk]. symmetry. by apply T1.
    + right. exists n. split; [lia|done].
Qed.

Lemma cleaned_rows w w0 w1 w' :
  (w_tick w <= w_tick w')%nat -> rows_eq w w0 -> cleaned w0 w1 ->
  settled w1 w' -> cleaned w w'.
Proof.
  unfold rows_eq. intros Hn Hw [N T K G] [Hw' Ht' _]. split; [done|..].
  - intros t Ht. by rewrite Hw', T, Hw.
  - intros e. rewrite Hw', <- Hw. apply K.
  - intros e. rewrite Hw', <- Hw, Ht'. intros He. destruct (G e He) as [|(n & Hlt & p & Hk & Hx)].
    + by left.
    + right. exists n. split; [done|]. exists p. split; [|done].
      eapply kept_for_rows; [|exact Hk]. symmetry. apply Hw.
Qed.

(** Whatever writes nothing. *)
Lemma cleaned_frame {A} (c : Act A) :
  Preserves (db_frame []) c -> Preserves tick_frame c -> Preserves cleaned c.
Proof.
  intros Hd Ht w r w' Hr. assert (rows_eq w w') as Hw by by eapply readonly_rows.
  unfold rows_eq in Hw. apply Ht in Hr. split; [done|..].
  - intros t _. apply Hw.
  - intros e. by rewrite Hw.
  - intros e. rewrite Hw. by left.
Qed.

#[local] Instance cleaned_services : Services cleaned.
Proof.
  constructor; [constructor|..]; intros; try apply _; apply cleaned_frame; apply _.
Qed.

(** ** One tenant *)

(** The rows after the events of a tenant from before [limit] were deleted. *)
Definition deleted_before (tid limit : Z) (w w' : World) : Prop :=
  (forall e, e ∈ R TEvent w' <->
     e ∈ R TEvent w /\ ~ (Event.TenantID e = tid /\ Event.CreatedAt e < limit)) /\
  (forall t, t <> TEvent -> R t w' = R t w).

Lemma delete_before tid limit w r w' :
  tid <> 0 ->
  Delete TEvent (fun e => (Event.CreatedAt e <? limit)
                          && cond_Z tid (Event.TenantID e)) w = (inr r, w') ->
  deleted_before tid limit w w'.
Proof.
  intros Ht Hd. split.
  - intros e. rewrite (Delete_In TEvent _ _ _ _ e Hd), <- not_true_iff_false.
    by rewrite andb_true_iff, Z.ltb_lt, (cond_Z_ne _ _ Ht), (and_comm (_ < _)).
  - intros t Hne. apply (preserves_Delete TEvent _ [TEvent]) in Hd as [Ho _]; [|by left].
    by apply Ho, not_in_one.
Qed.

Lemma cleanExpiredTenantEvent_run t w r w' :
  Tenant.ID t <> 0 -> cleanExpiredTenantEvent t w = (r, w') ->
  (w_tick w < w_tick w')%nat /\
  exists p, kept_for w (Tenant.ID t) p /\
    ((p = 0 /\ r = inr tt /\ rows_eq w w') \/
     (p <> 0 /\ r = inr tt /\
      deleted_before (Tenant.ID t) (expiry (clock (w_tick w) / 1000000000) p) w w') \/
     (p <> 0 /\ rows_eq w w' /\
      exists d, r = inl (UnusableDatabase (Some (EDriver d))))).
Proof.
  intros Ht. unfold cleanExpiredTenantEvent, now_unix.
  intros [(e & Hn & _)|(now & w1 & Hn & Hc)]%bind_inv; [done|].
  injection Hn as <- Hw1. assert (rows_eq w w1) as Hr1 by by subst.
  assert (w_tick w1 = S (w_tick w)) as Htick by by subst. clear Hw1. split.
  { match type of Hc with ?c w1 = _ =>
      assert (Preserves tick_frame c) as Hk by keep end.
    apply Hk in Hc. unfold tick_frame in Hc. lia. }
  apply bind_inv in Hc as [(e & Hp & _)|(p & w2 & Hp & Hc)].
  { by apply store_period_run in Hp as (p & ? & _). }
  assert (rows_eq w w2) as Hr2.
  { etrans; [exact Hr1|]. eapply readonly_rows; [|exact Hp]. apply _. }
  apply store_period_run in Hp as (p' & [= <-] & Hp).
  exists p. split; [eapply kept_for_rows; [|exact Hp]; symmetry; apply Hr1|].
  destruct (Z.eqb_spec p 0); [by apply ret_inv in Hc as [-> ->]; left|right].
  apply bind_inv in Hc as [(e & Hd & ->)|(k & w3 & Hd%or_db_inr & [-> ->]%ret_inv)].
  - right. apply or_db_inl in Hd as (e0 & Hd & ->).
    apply Delete_err in Hd as [Hd [d ->]]. split; [done|]. split; [|eauto].
    etrans; [exact Hr2|exact Hd].
  - left. split; [done|]. split; [done|].
    apply (delete_before _ _ _ _ _ Ht) in Hd as [He Ho]. split.
    + intros e. by rewrite He, <- (Hr2 TEvent).
    + intros t' Hne. by rewrite Ho, Hr2.
Qed.

(** Deleting what is too old for its tenant is cleaning. *)
Lemma cleanExpiredTenantEvent_cleaned t :
  Tenant.ID t <> 0 -> Preserves cleaned (cleanExpiredTenantEvent t).
Proof.
  intros Ht w r w' Hc.
  apply cleanExpiredTenantEvent_run in Hc as (Hn & p & Hp & Hc); [|done].
  assert (rows_eq w w' -> cleaned w w') as Hsame.
  { intros Hw. eapply cleaned_rows; [lia|exact Hw|reflexivity|by split]. }
  destruct Hc as [(_ & _ & Hw)|[(Hne & _ & He & Ho)|(_ & Hw & _)]]; [auto| |auto].
  split; [lia|done|by intros e [??]%He|].
  intros e Hin. destruct (decide (Event.TenantID e = Tenant.ID t /\
    Event.CreatedAt e < expiry (clock (w_tick w) / 1000000000) p)) as [[Hid Hlt]|Hno].
  - right. exists (w_tick w). split; [done|]. exists p. by rewrite Hid.
  - left. by apply He.
Qed.

(** ** Every tenant *)
Lemma preserves_for_each_in {A} (rel : relation World) `{!PreOrder rel}
    (f : A -> Act unit) xs :
  (forall a, a ∈ xs -> Preserves rel (f a)) -> Preserves rel (for_each f xs).
Proof.
  induction xs as [|a xs IH]; intros Hf; cbn; [apply _|].
  apply preserves_bind; [apply _|apply Hf; by left|].
  intros _. apply IH. intros b Hb. apply Hf. by right.
Qed.

(** The tenants' identifiers are no zero value. *)
Definition tenants_ok (w : World) : Prop :=
  forall t, t ∈ R TTenant w -> Tenant.ID t <> 0.

Lemma cleanExpiredEvent_cleaned tid w r w' :
  tenants_ok w -> cleanExpiredEvent tid w = (r, w') -> r = inr tt /\ cleaned w w'.
Proof.
  intros Hok. unfold cleanExpiredEvent.
  intros [(e & (x & ? & _)%attempt_inv & _)|(x & w1 & Ha & Hr)]%bind_inv; [done|].
  apply attempt_inv in Ha as (y & [= ->] & Ht).
  assert (r = inr tt /\ cleaned w1 w') as [-> Hc].
  { destruct y as [e|u]; [|by apply ret_inv in Hr as [-> ->]].
    split; [by eapply nt_reportEvent_run|].
    eapply sv_nt_reportEvent; [apply _|exact Hr]. }
  split; [done|]. etrans; [|exact Hc].
  assert (w_tick w <= w_tick w1)%nat as Hn.
  { eapply tick_Transaction; [|exact Ht]. keep. }
  apply Transaction_all_or_nothing in Ht; [|keep].
  destruct Ht as [(w0 & w2 & a & Hw0 & Hf & Hw2 & _)|(e & _ & Hw)].
  - eapply cleaned_rows; [done|exact Hw0| |exact Hw2].
    apply bind_inr in Hf as (ts & w3 & Hfind & Hf).
    etrans; [by eapply (ro_Find (r := cleaned)), Hfind|].
    eapply preserves_for_each_in; [apply _| |exact Hf].
    intros t Hin. apply (Find_In TTenant _ _ _ _ t Hfind) in Hin as [Hin _].
    rewrite Hw0 in Hin. unfold clean_tenant.
    pose proof (cleanExpiredTenantEvent_cleaned t (Hok t Hin)). keep.
  - eapply cleaned_rows; [done|exact Hw|reflexivity|]. by split.
Qed.

(** C25. The cleaner deletes nothing but expired events: over however many
    midnights, whatever the database and the broker answer, it never stops with
    an error, it leaves every other table alone, it adds no event, and every
    event that is gone was created before the midnight of a day the clock
    showed, less the months its own tenant keeps events for: the tenant's
    setting, zero for ever, or twelve if there is none that can be read. *)
Theorem cleaner_deletes_expired tid signals w r w' :
  tenants_ok w -> cleaner tid signals w = (r, w') -> r = inr tt /\ cleaned w w'.
Proof.
  revert w. induction signals as [|[] signals IH]; intros w Hok Hc; cbn in Hc;
    apply bind_inv in Hc as [(e & He & ->)|([] & w1 & He & Hc)];
    apply cleanExpiredEvent_cleaned in He as [? He]; try done.
  - by apply ret_inv in Hc as [-> ->].
  - apply IH in Hc as [-> Hc]; [split; [done|by etrans]|].
    intros t. rewrite (cleaned_tables _ _ He) by done. apply Hok.
  - by apply ret_inv in Hc as [-> ->].
Qed.

(** The limit of a period a request can set, in seconds without wrap-around. *)
Lemma expiry_exact n p :
  0 <= p <= 120 ->
  let now := clock n / 1000000000 in
  expiry now p = now - now mod 86400 - p * 2592000.
Proof.
  intros Hp now. pose proof (clock_range n) as Hc. unfold Int.two63 in Hc.
  assert (0 <= now < 9223372037) as Hn.
  { split; [apply Z.div_pos; lia|apply Z.div_lt_upper_bound; lia]. }
  assert (0 <= now mod 86400 < 86400) by (apply Z.mod_pos_bound; lia).
  unfold expiry, midnight, monthInSeconds.
  rewrite (Int.i64_id (p * _)) by (unfold Int.two63; lia).
  apply Int.i64_id. unfold Int.two63. lia.
Qed.

(** Cleaning one tenant deletes exactly its expired events: those created
    before the last midnight less the period of the tenant in months of thirty
    days; a period of zero keeps them all, and a failed statement changes
    nothing and is an unusable database. *)
Theorem cleanExpiredTenantEvent_spec t w r w' :
  Tenant.ID t <> 0 -> cleanExpiredTenantEvent t w = (r, w') ->
  let now := clock (w_tick w) / 1000000000 in
  exists p, kept_for w (Tenant.ID t) p /\
    (0 <= p <= 120 -> expiry now p = now - now mod 86400 - p * 2592000) /\
    ((p = 0 /\ r = inr tt /\ rows_eq w w') \/
     (p <> 0 /\ r = inr tt /\
      deleted_before (Tenant.ID t) (expiry now p) w w') \/
     (p <> 0 /\ rows_eq w w' /\
      exists d, r = inl (UnusableDatabase (Some (EDriver d))))).
Proof.
  intros Ht Hc now. apply cleanExpiredTenantEvent_run in Hc as (_ & p & Hp & Hc); [|done].
  exists p. split; [done|]. split; [|done]. apply expiry_exact.
Qed.
End cleaner.

(** ** Examples *)
#[local] Existing Instance mem_backend.
#[local] Existing Instance mem_backend_laws.

Definition n_event (id createdAt : Z) : Event.t :=
  Event.mk id 1 "cdm-cloud.identity.login.success" None "" createdAt.

(** Two events, one of them older than the period of six months. *)
Definition n_tables : tables := fun t =>
  match t with
  | TTenant => [Tenant.mk 1 "default" None true 1699000000 1699000000]
  | TTenantConfig => [TenantConfig.mk 1 "event_store_period" "6"]
  | TEvent => [n_event 1 1600000000; n_event 2 1699990000]
  | _ => []
  end.

Definition n_world : @World mem_backend := start n_tables [].

Lemma cleaner_deletes_expired_witness :
  R TEvent (cleaner 1 [Midnight; Done] n_world).2 = [n_event 2 1699990000] /\
  cleaned n_world (cleaner 1 [Midnight; Done] n_world).2.
Proof.
  split; [vm_compute; reflexivity|].
  apply (cleaner_deletes_expired 1 [Midnight; Done] n_world (inr tt)
    (cleaner 1 [Midnight; Done] n_world).2).
  - intros t Ht. assert (t = Tenant.mk 1 "default" None true 1699000000 1699000000) as ->;
      [|done]. by apply list_elem_of_singleton in Ht.
  - apply ran. vm_compute. reflexivity.
Defined.

Lemma cleanExpiredTenantEvent_spec_witness :
  let t := Tenant.mk 1 "default" None true 1699000000 1699000000 in
  R TEvent (cleanExpiredTenantEvent t n_world).2 = [n_event 2 1699990000] /\
  exists p, kept_for n_world 1 p.
Proof.
  intros t. split; [vm_compute; reflexivity|].
  destruct (cleanExpiredTenantEvent_spec t n_world (inr tt)
    (cleanExpiredTenantEvent t n_world).2) as (p & Hp & _).
  - done.
  - apply ran. vm_compute. reflexivity.
  - by exists p.
Defined.
