(* ===== verification/NtDateProps.v ===== *)
(** * Dates of a query: YYYYMMDDHHmm as a decimal number *)

From stdpp Require Import base tactics list strings.
From Stdlib Require Import ZArith Lia Ascii.
From S2P Require Import Prelude GoStd Json Model Backend Errors Proto Metadata.
From S2P Require Import Gorm Database GormFacts Report Config Store IdBase.
From S2P Require Import IdFacts RefBackend.
From S2P Require Import GoLib NtProto NtConfig NtNotifier NtEvent NtHandler NtFacts.
#[local] Open Scope Z_scope.
#[local] Open Scope go_scope.

(** ** Printed numbers *)
Definition is_digit (c : Z) : Prop := 48 <= c <= 57.

Definition value_from (acc : Z) (l : list Z) : Z :=
  fold_left (fun n d => 10 * n + (d - 48)) l acc.

Lemma value_from_bounds l acc :
  0 <= acc -> Forall is_digit l ->
  acc * 10 ^ Z.of_nat (List.length l) <= value_from acc l
  < (acc + 1) * 10 ^ Z.of_nat (List.length l).
Proof.
  intros Ha Hl. revert acc Ha. induction Hl as [|d l Hd _ IH]; intros acc Ha;
    cbn [value_from fold_left List.length]; [cbn; lia|].
  fold (value_from (10 * acc + (d - 48)) l). unfold is_digit in Hd.
  specialize (IH (10 * acc + (d - 48)) ltac:(lia)).
  rewrite Nat2Z.inj_succ, Z.pow_succ_r by lia. nia.
Qed.

Lemma parse_digits_value l acc n :
  Strconv.parse_digits l acc = inr n -> n = value_from acc l.
Proof.
  revert acc. induction l as [|d l IH]; intros acc; cbn; [by intros [= ->]|].
  unfold Strconv.digit_of. destruct (_ && _); [|done]. destruct (_ <? _); [|done].
  intros Hp%IH. rewrite Hp. unfold value_from. cbn. f_equal. lia.
Qed.

(** The digits of a printed number: its value, and no leading zero. *)
Lemma printed n :
  0 < n < Int.two63 ->
  exists d l, Bytes.to_bytes (Strconv.FormatInt n) = d :: l /\
    Forall is_digit (d :: l) /\ d <> 48 /\ value_from 0 (d :: l) = n.
Proof.
  intros Hn. unfold Strconv.FormatInt. destruct (Z.ltb_spec n 0); [lia|].
  rewrite Strconv.FormatUint_bytes by lia.
  assert (n < 10 ^ Z.of_nat 20) as Hlt.
  { change (10 ^ Z.of_nat 20) with 100000000000000000000. unfold Int.two63 in Hn. lia. }
  destruct (Strconv.format_digits 20 n []) as [|d l] eqn:E.
  { by destruct (Strconv.format_digits_nonnil 19 n). }
  exists d, l. split; [done|].
  pose proof (Json.format_digits_digits 20 n ltac:(lia)) as Hd.
  pose proof (Strconv.parse_format_digits 20 n) as Hp. rewrite E in Hd, Hp.
  split; [exact Hd|]. split.
  - eapply Json.format_digits_no_zero; [| |exact E]; lia.
  - symmetry. apply parse_digits_value, Hp; [|done|lia].
    unfold Int.two63, Int.two64 in *. lia.
Qed.

(** A number of twelve digits is a number of that size. *)
Lemma printed_length n d l :
  Forall is_digit (d :: l) -> d <> 48 -> value_from 0 (d :: l) = n ->
  100000000000 <= n < 1000000000000 <-> List.length l = 11%nat.
Proof.
  intros [Hd Hl]%Forall_cons Hne <-. unfold is_digit in Hd.
  change (value_from 0 (d :: l)) with (value_from (10 * 0 + (d - 48)) l).
  pose proof (value_from_bounds l (10 * 0 + (d - 48)) ltac:(lia) Hl) as Hb.
  split.
  - intros Hn. destruct (Nat.lt_total (List.length l) 11) as [Hlt|[|Hgt]]; [|done|].
    + assert (10 ^ Z.of_nat (List.length l) <= 10 ^ 10)
        as Hk by (apply Z.pow_le_mono_r; lia).
      revert Hb Hk Hn. generalize (10 ^ Z.of_nat (List.length l)). intros k. nia.
    + assert (10 ^ 12 <= 10 ^ Z.of_nat (List.length l))
        as Hk by (apply Z.pow_le_mono_r; lia).
      revert Hb Hk Hn. generalize (10 ^ Z.of_nat (List.length l)). intros k. nia.
  - intros E. rewrite E in Hb. change (10 ^ Z.of_nat 11) with 100000000000 in Hb. lia.
Qed.

(** ** Stamps *)
Lemma two_digits_some l z l' :
  two_digits l = Some (z, l') <->
  exists a b, l = a :: b :: l' /\ is_digit a /\ is_digit b /\
    z = 10 * (a - 48) + (b - 48).
Proof.
  unfold two_digits, is_digit. split.
  - destruct l as [|a [|b l]]; [done..|].
    destruct (_ && _) eqn:E; [|done]. intros [= <- <-].
    rewrite !andb_true_iff, !Z.leb_le in E. exists a, b. repeat split; lia.
  - intros (a & b & -> & Ha & Hb & ->).
    by rewrite !(proj2 (Z.leb_le _ _)) by lia.
Qed.

(** The number [date] shows a wall clock of the calendar. *)
Definition shows (date y m d h n : Z) : Prop :=
  date = y * 100000000 + m * 1000000 + d * 10000 + h * 100 + n /\
  1000 <= y <= 9999 /\ 1 <= m <= 12 /\ 1 <= d <= days_in m y /\
  0 <= h < 24 /\ 0 <= n < 60.

Lemma pair_range a b :
  is_digit a -> is_digit b -> 0 <= 10 * (a - 48) + (b - 48) < 100.
Proof. unfold is_digit. lia. Qed.

(** The digits of a number taken in pairs. *)
Lemma pairs_value a b c d e f g h i j k l :
  value_from 0 [a; b; c; d; e; f; g; h; i; j; k; l]
  = ((((10 * (a - 48) + (b - 48)) * 100 + (10 * (c - 48) + (d - 48))) * 10000
      + (10 * (e - 48) + (f - 48)) * 100 + (10 * (g - 48) + (h - 48))) * 100
     + (10 * (i - 48) + (j - 48))) * 100 + (10 * (k - 48) + (l - 48)).
Proof. unfold value_from. cbn [fold_left]. lia. Qed.

(** The parts of a stamp are determined by its value. *)
Lemma stamp_parts a b m d h n y m' d' h' n' :
  (((a * 100 + b) * 10000 + m * 100 + d) * 100 + h) * 100 + n
  = y * 100000000 + m' * 1000000 + d' * 10000 + h' * 100 + n' ->
  0 <= m < 100 -> 0 <= d < 100 -> 0 <= h < 100 -> 0 <= n < 100 ->
  0 <= m' < 100 -> 0 <= d' < 100 -> 0 <= h' < 100 -> 0 <= n' < 100 ->
  100 * a + b = y /\ m = m' /\ d = d' /\ h = h' /\ n = n'.
Proof.
  intros E Hm Hd Hh Hn Hm' Hd' Hh' Hn'.
  assert (n = n') as -> by lia. assert (h = h') as -> by lia.
  assert (d = d') as -> by lia. assert (m = m') as -> by lia. lia.
Qed.

(** Six pairs of digits are a stamp exactly if they show a wall clock. *)
Lemma parse_stamp_iff date wall :
  0 < date < Int.two63 ->
  parse_stamp (Strconv.FormatInt date) = Some wall <->
  exists y m d h n, shows date y m d h n /\
    wall = days y m d * 86400 + h * 3600 + n * 60.
Proof.
  intros Hdate. destruct (printed date Hdate) as (c & l & E & Hd & Hne & Hv).
  unfold parse_stamp. rewrite E. split.
  - intros Hp.
    repeat (apply bind_Some in Hp as ([? ?] & (? & ? & ? & ? & ? & ?)%two_digits_some & Hp);
      simplify_eq).
    unfold is_digit in *.
    destruct (_ && _) eqn:C in Hp; [|done]. injection Hp as <-.
    rewrite !andb_true_iff, bool_decide_eq_true, !Z.leb_le, !Z.ltb_lt in C.
    destruct C as [[[[[[-> ?] ?] ?] ?] ?] ?].
    eexists _, _, _, _, _. split; [|done]. unfold shows, value_from. cbn [fold_left].
    repeat split; lia.
  - intros (y & m & dd & h & n & (Hs & Hy & Hm & Hdd & Hh & Hn) & ->).
    pose proof (days_in_range m y).
    pose proof (proj1 (printed_length date c l Hd Hne Hv) ltac:(lia)) as Hlen.
    do 11 (destruct l as [|? l]; [done|]). destruct l; [|done]. clear Hlen E.
    assert (forall a b l, is_digit a -> is_digit b ->
      two_digits (a :: b :: l) = Some (10 * (a - 48) + (b - 48), l)) as H2.
    { intros a b l Ha Hb. apply two_digits_some. eauto 10. }
    repeat match goal with
    | F : Forall _ (_ :: _) |- _ => apply Forall_cons in F as [? F] end.
    do 6 (rewrite H2 by done; cbn [mbind option_bind]). clear H2.
    rewrite <- Hv, pairs_value in Hs. clear Hv Hdate Hne.
    repeat match goal with
    | Ha : is_digit ?a, Hb : is_digit ?b |- context [10 * (?a - 48) + (?b - 48)] =>
        pose proof (pair_range a b Ha Hb);
        generalize dependent (10 * (a - 48) + (b - 48)); intros
    end.
    apply stamp_parts in Hs as (<- & <- & <- & <- & <-); [|lia..].
    by rewrite !(proj2 (Z.leb_le _ _)), !(proj2 (Z.ltb_lt _ _)) by lia.
Qed.

Section dates.
Context `{BackendLaws}.

(** What a bound of the request means: none if it is zero, else the Unix time
    of the wall clock in Seoul that the number shows. *)
Definition date_means (date t : Z) : Prop :=
  if date =? 0 then t = 0
  else exists y m d h n, shows date y m d h n /\
         t = seoul_unix (days y m d * 86400 + h * 3600 + n * 60).

Lemma stamp_of_date date wall :
  - Int.two63 <= date < Int.two63 -> date <> 0 ->
  parse_stamp (Strconv.FormatInt date) = Some wall <->
  exists y m d h n, shows date y m d h n /\
    wall = days y m d * 86400 + h * 3600 + n * 60.
Proof.
  intros Hr Hne. destruct (Z.lt_total date 0) as [Hneg|[|]]; [|done|].
  - split.
    + unfold Strconv.FormatInt. rewrite (proj2 (Z.ltb_lt date 0)) by done.
      unfold parse_stamp. intros ([c l] & (a & b & E & Ha & _)%two_digits_some & _)
        %bind_Some. injection E as E _. rewrite <- E in Ha.
      destruct Ha as [Ha _]. vm_compute in Ha. by destruct Ha.
    + intros (y & m & d & h & n & (-> & ?) & _). lia.
  - apply parse_stamp_iff. lia.
Qed.

Lemma parse_date_inr param cause date t w w' :
  - Int.two63 <= date < Int.two63 -> date <> 0 -> LoadLocation "Asia/Seoul" = true ->
  parse_date param cause date w = (inr t, w') <-> date_means date t /\ w' = w.
Proof.
  intros Hr Hne Hl. unfold parse_date, date_means. rewrite Hl.
  apply Z.eqb_neq in Hne as Hn. rewrite Hn.
  pose proof (fun wall => stamp_of_date date wall Hr Hne) as Hs.
  destruct (parse_stamp _) as [wall|] eqn:E; split.
  - intros [[= ->] ->]%ret_inv. split; [|done].
    destruct (proj1 (Hs wall) eq_refl) as (y & m & d & h & n & ? & ->). eauto 10.
  - intros [(y & m & d & h & n & Hsh & ->) ->].
    assert (Some wall = Some (days y m d * 86400 + h * 3600 + n * 60)) as [= ->];
      [apply Hs; eauto 10|done].
  - by intros [? _]%throw_inv.
  - intros [(y & m & d & h & n & Hsh & ->) _].
    assert (None = Some (days y m d * 86400 + h * 3600 + n * 60)); [|done].
    apply Hs. eauto 10.
Qed.

Lemma bound_inr param cause date t w w' :
  - Int.two63 <= date < Int.two63 -> LoadLocation "Asia/Seoul" = true ->
  (if date =? 0 then ret 0 else parse_date param cause date) w = (inr t, w') <->
  date_means date t /\ w' = w.
Proof.
  intros Hr Hl. destruct (Z.eqb_spec date 0) as [->|Hne].
  - unfold date_means. cbn. split; [by intros [[= ->] ->]%ret_inv|by intros [-> ->]].
  - by apply parse_date_inr.
Qed.

Lemma end_inr startDate endDate t w w' :
  - Int.two63 <= endDate < Int.two63 -> LoadLocation "Asia/Seoul" = true ->
  (if endDate =? 0 then ret 0
   else
     to <- parse_date "end_date" "wrong format. must be YYYYMMDDHHmm format"
             endDate ;;
     guard_err (endDate <? startDate)
       (InvalidParameterValue "start_date" (VInt startDate)
          "Start date is later than end date.") ;;
     ret to) w = (inr t, w') <->
  date_means endDate t /\ (endDate <> 0 -> startDate <= endDate) /\ w' = w.
Proof.
  intros Hr Hl. destruct (Z.eqb_spec endDate 0) as [->|Hne].
  - unfold date_means. cbn. split; [by intros [[= ->] ->]%ret_inv|].
    by intros (-> & _ & ->).
  - split.
    + intros (b & w1 & [Hb ->]%parse_date_inr & Hg)%bind_inr; [|done..].
      apply bind_inr in Hg as ([] & w2 & [Hlt%Z.ltb_ge ->]%guard_err_inr & Hg).
      by apply ret_inv in Hg as [[= ->] ->].
    + intros (Hb & Hle & ->). apply bind_inr. exists t, w.
      split; [by apply parse_date_inr|]. apply bind_inr. exists tt, w.
      split; [|done]. apply guard_err_inr. split; [|done].
      apply Z.ltb_ge. by apply Hle.
Qed.

Lemma bound_inl param cause date e w w' :
  LoadLocation "Asia/Seoul" = true ->
  (if date =? 0 then ret 0 else parse_date param cause date) w = (inl e, w') ->
  Equal (Some e) ErrInvalidParameterValue = true /\ w' = w.
Proof.
  intros Hl. destruct (date =? 0); [by intros [? _]%ret_inv|].
  unfold parse_date. rewrite Hl. destruct (parse_stamp _).
  - by intros [? _]%ret_inv.
  - by intros [[= ->] ->]%throw_inv.
Qed.

(** C29. The dates of a query: a bound that is given must be twelve digits
    YYYYMMDDHHmm of a wall clock the Gregorian calendar has, and means the Unix
    time of that clock in Seoul; zero means no bound; the start must not be
    after the end; and whatever does not meet this is refused as an invalid
    parameter.  (Days are counted from 1970-01-01, one by one along the
    calendar.) *)
Theorem getValidDate_spec startDate endDate w :
  - Int.two63 <= startDate < Int.two63 -> - Int.two63 <= endDate < Int.two63 ->
  LoadLocation "Asia/Seoul" = true ->
  (forall from to,
     getValidDate startDate endDate w = (inr (from, to), w) <->
     date_means startDate from /\ date_means endDate to /\
     (endDate <> 0 -> startDate <= endDate)) /\
  (forall e w', getValidDate startDate endDate w = (inl e, w') ->
     Equal (Some e) ErrInvalidParameterValue = true /\ w' = w) /\
  days 1970 1 1 = 0 /\
  (forall y m d, 1 <= m <= 12 -> 1 <= d <= days_in m y ->
     let '(y', m', d') := next_day y m d in days y' m' d' = days y m d + 1).
Proof.
  intros Hs He Hl. split; [|split; [|split; [reflexivity|apply days_next]]].
  - intros from to. unfold getValidDate. rewrite bind_inr.
    setoid_rewrite bind_inr. setoid_rewrite (bound_inr _ _ startDate); [|done..].
    setoid_rewrite (end_inr startDate endDate); [|done..]. split.
    + intros (a & w1 & [Ha ->] & b & w2 & (Hb & Hle & ->) & [[= -> ->] _]%ret_inv).
      done.
    + intros (Ha & Hb & Hle). exists from, w. split; [done|]. by exists to, w.
  - intros e w' Hv. unfold getValidDate in Hv.
    apply bind_inl in Hv as [Hb|(a & w1 & Hb & Hv)].
    { by eapply bound_inl. }
    apply (bound_inr _ _ startDate) in Hb as [_ ->]; [|done..].
    apply bind_inl in Hv as [Hb|(b & w2 & _ & Hv)]; [|by apply ret_inv in Hv as [? _]].
    destruct (Z.eqb_spec endDate 0); [by apply ret_inv in Hb as [? _]|].
    apply bind_inl in Hb as [Hb|(b & w2 & Hb & Hv)].
    { eapply (bound_inl _ _ endDate); [exact Hl|].
      destruct (Z.eqb_spec endDate 0); [done|exact Hb]. }
    apply parse_date_inr in Hb as [_ ->]; [|done..].
    apply bind_inl in Hv as [Hv|(? & ? & _ & Hv)]; [|by apply ret_inv in Hv as [? _]].
    by apply guard_err_inl in Hv as (_ & -> & ->).
Qed.
End dates.

(** ** Example *)
#[local] Existing Instance mem_backend.
#[local] Existing Instance mem_backend_laws.

Lemma getValidDate_spec_witness :
  getValidDate 202402290915 202403010000 s_world
  = (inr (1709165700, 1709218800), s_world) /\
  date_means 202402290915 1709165700.
Proof.
  split; [reflexivity|].
  apply (proj1 (getValidDate_spec 202402290915 202403010000 s_world
    ltac:(unfold Int.two63; lia) ltac:(unfold Int.two63; lia) eq_refl)
    1709165700 1709218800).
  reflexivity.
Defined.
