(* ===== verification/NtRecordProps.v ===== *)
(** * From a reported event to the clients: recording, announcing, streaming *)

From stdpp Require Import base tactics list strings sets gmap.
From Stdlib Require Import ZArith Lia Ascii.
From S2P Require Import Prelude GoStd Json Model Backend Errors Proto Metadata.
From S2P Require Import Gorm Database GormFacts TransactionFacts Report Config Store IdBase.
From S2P Require Import IdFacts GormFacts RefBackend.
From S2P Require Import NtProto NtConfig NtNotifier NtEvent NtHandler NtFacts.
From S2P Require Import NtJsonFacts NtFacts.
#[local] Open Scope Z_scope.
#[local] Open Scope go_scope.

(** ** What is published stays published *)
Section published.
Context `{BackendLaws}.

Definition out_grows (w w' : World) : Prop :=
  exists l, w_out w' = w_out w ++ l.

#[global] Instance out_grows_preorder : PreOrder out_grows.
Proof.
  split; [intros w; exists []; by rewrite app_nil_r|].
  intros w1 w2 w3 [l1 E1] [l2 E2]. exists (l1 ++ l2). by rewrite E2, E1, <- app_assoc.
Qed.

Lemma grows_of_same {A} (c : Act A) : Preserves out_frame c -> Preserves out_grows c.
Proof.
  apply preserves_mono. intros w w' E. exists []. by rewrite app_nil_r.
Qed.

#[global] Instance out_grows_services : Services out_grows.
Proof.
  constructor; [constructor|..]; intros; try apply _;
    try (apply grows_of_same; apply _).
  - intros w r w' (_ & _ & E)%Publish_inv. by eexists.
  - intros w r w' [= _ <-]. exists []. by rewrite app_nil_r.
Qed.

Lemma ClassifyEvent_frames ev w r w' :
  ClassifyEvent ev w = (r, w') -> rows_eq w w' /\ out_grows w w'.
Proof.
  intros Hc. split.
  - eapply query_transaction_rows; [|exact Hc]. keep. cbv zeta. keep.
  - eapply preserves_Transaction; [apply _| | |exact Hc].
    + intros. apply grows_of_same. apply _.
    + keep. cbv zeta. keep.
Qed.
End published.

(** ** Recording *)
Section record.
Context `{BackendLaws}.

(** The stored form of an event: its number is new, its time is the clock's if
    it has none. *)
Record stored_as (e e' : Event.t) : Prop := {
  sa_id : 0 < Event.ID e' < Int.two63;
  sa_same : e' = Event.mk (Event.ID e') (Event.TenantID e) (Event.Code e)
    (Event.ErrorCode e) (Event.Contents e) (Event.CreatedAt e');
  sa_time : Event.CreatedAt e <> 0 -> Event.CreatedAt e' = Event.CreatedAt e
}.

Lemma validateEvent_inr e w u w' :
  validateEvent e w = (inr u, w') ->
  (exists t, t ∈ R TTenant w /\ Tenant.ID t = Event.TenantID e) /\ rows_eq w w'.
Proof.
  intros Hv. split; [|eapply readonly_rows; [|exact Hv]; apply _].
  unfold validateEvent, validateContents in Hv.
  apply bind_inr in Hv as ([] & w1 & [_ ->]%guard_err_inr & Hv).
  apply bind_inr in Hv as (x & w1 & (y & [= ->] & Hf)%attempt_inv & Hv).
  apply bind_inr in Hv as (u1 & w2 & Hu & Hv). destruct y as [e0|t].
  - destruct e0; by apply throw_inv in Hu as [? _].
  - apply (Find_one_ok TTenant) in Hf as [Hin He%Z.eqb_eq]. by exists t.
Qed.

Lemma createEvent_inr e w e' w' :
  createEvent e w = (inr e', w') ->
  (exists t, t ∈ R TTenant w /\ Tenant.ID t = Event.TenantID e) /\
  stored_as e e' /\ R TEvent w' ≡ₚ e' :: R TEvent w /\
  (forall t, t <> TEvent -> R t w' = R t w).
Proof.
  unfold createEvent. intros (u & w1 & [Ht Hw]%validateEvent_inr & Hc%or_db_inr)%bind_inr.
  split; [exact Ht|]. split.
  - clear Ht. apply (Create_ok TEvent) in Hc as (r1 & w2 & Hb & (id & Hid & ->) & _).
    cbn in Hb. assert (r1 = Event.mk 0 (Event.TenantID e) (Event.Code e) (Event.ErrorCode e)
      (Event.Contents e) (Event.CreatedAt r1) /\
      (Event.CreatedAt e <> 0 -> Event.CreatedAt r1 = Event.CreatedAt e)) as [E Hc].
    { destruct (Z.eqb_spec (Event.CreatedAt e) 0) as [Hz|Hz].
      - apply bind_inr in Hb as (n & w3 & _ & [[= ->] _]%ret_inv).
        unfold Event_BeforeCreate. cbn. rewrite Hz. by split.
      - by apply ret_inv in Hb as [[= ->] _]. }
    rewrite E. cbn. split; cbn; [done| |done]. by destruct e.
  - split.
    + apply (Create_ok TEvent) in Hc as (_ & _ & _ & _ & ->). by rewrite Hw.
    + intros t Hne. apply (preserves_Create TEvent _ [TEvent]) in Hc as [Ho _]; [|by left].
      by rewrite Ho, Hw by by apply not_in_one.
Qed.

(** Reading back the event with a number. *)
Lemma GetEvent_inr id tid w r w' e :
  id <> 0 -> tid <> 0 -> e ∈ R TEvent w -> Event.ID e = id -> Event.TenantID e = tid ->
  NtEvent.GetEvent id tid w = (inr r, w') ->
  rows_eq w w' /\ Record.Event r = e /\
  tenant_of (fun t => R t w) e = Some (Record.Tenant r) /\
  Record.EventCode r = default EventCode_zero (code_of (fun t => R t w) e).
Proof.
  intros Hid Ht Hin Eid Et Hg.
  split; [eapply readonly_rows; [|exact Hg]; apply _|].
  unfold NtEvent.GetEvent in Hg. apply bind_inr in Hg as (rs & w1 & Hs%or_db_inr & Hg).
  apply Scan_ok in Hs. rewrite join_events_rows in Hs.
  rewrite (filter_joined _ (event_struct id tid)), (filter_the _ _ e) in Hs;
    [|apply NoDup_ListNoDup, (rows_nodup TEvent)|done| |].
  - cbn [omap list_omap] in Hs. unfold joined_of in Hs.
    destruct (tenant_of (fun t => R t w) e) as [t|]; cbn [mbind option_bind] in Hs.
    + apply Permutation_singleton_r in Hs as ->.
      apply ret_inv in Hg as [[= ->] _]. by destruct (code_of _ e).
    + apply Permutation_nil_r in Hs as ->. by apply throw_inv in Hg as [? _].
  - unfold event_struct. apply andb_true_iff. split; by apply cond_Z_ne.
  - intros y Hy Hp. apply (rows_unique TEvent _ _ _ Hy Hin).
    unfold event_struct in Hp. apply andb_true_iff in Hp as [Hp _].
    apply cond_Z_ne in Hp; [|done]. unfold conflict. cbn.
    by rewrite Hp, Eid, Z.eqb_refl.
Qed.

(** Everything but the events is as before; one event is new. *)
Record recorded (e : Event.t) (r : Record.t) (w w' : World) : Prop := {
  rc_stored : stored_as e (Record.Event r);
  rc_added : R TEvent w' ≡ₚ Record.Event r :: R TEvent w;
  rc_frame : forall t, t <> TEvent -> R t w' = R t w;
  rc_tenant : tenant_of (fun t => R t w) e = Some (Record.Tenant r);
  rc_code : Record.EventCode r = default EventCode_zero (code_of (fun t => R t w) e)
}.

Lemma recorded_rows e r w w0 w1 w2 :
  rows_eq w w0 -> recorded e r w0 w1 -> rows_eq w1 w2 -> recorded e r w w2.
Proof.
  unfold rows_eq. intros Hw [S A F T C] Hw2. split; [done|..].
  - by rewrite Hw2, <- Hw.
  - intros t Ht. by rewrite Hw2, F, Hw.
  - unfold tenant_of in *. by rewrite <- Hw.
  - unfold code_of in *. by rewrite <- Hw.
Qed.

#[local] Instance createEvent_base e : Preserves base_frame (createEvent e).
Proof.
  assert (Preserves base_frame (or_db (Create TEvent (Event.set_ID 0 e)))) as Hc.
  { apply ro_or_db; [apply _|]. apply (base_of_frame [TEvent]), preserves_Create.
    by left. }
  unfold createEvent. apply preserves_bind; [apply _..|]. intros _. exact Hc.
Qed.

Lemma record_event_inr e w r w' :
  Event.TenantID e <> 0 -> record_event e w = (inr r, w') -> recorded e r w w'.
Proof.
  intros Ht Hr. apply transaction_inr in Hr as (w0 & w1 & Hw0 & Hb & Hw1 & _);
    [|keep].
  apply (recorded_rows _ _ _ w0 w1); [done| |done]. clear Hw0 Hw1.
  apply bind_inr in Hb as (e' & w2 & Hc & Hg).
  apply createEvent_inr in Hc as (_ & Hs & Ha & Hf).
  destruct Hs as [Hid Hsame Htime].
  assert (Event.TenantID e' = Event.TenantID e) as Et by by rewrite Hsame.
  assert (Event.Code e' = Event.Code e) as Ec by by rewrite Hsame.
  apply (GetEvent_inr _ _ _ _ _ e') in Hg as (Hw & <- & Hten & Hcode);
    [|lia|congruence|rewrite Ha; by left|done|done].
  unfold tenant_of, code_of in *. rewrite Et in Hten. rewrite Ec in Hcode.
  rewrite Hf in Hten, Hcode by done.
  split; [by split|by rewrite (Hw TEvent)| |done|done].
  intros t Hne. by rewrite Hw, Hf.
Qed.

(** ** Announcing *)
Lemma announce_run tid r w x w' :
  announce tid r w = (x, w') ->
  x = inr tt /\ rows_eq w w' /\ out_grows w w' /\
  (broker_accepts (w_tick w) = false \/
   (TopicNotificationEventCreated tid, Json.Marshal (Record_enc r)) ∈ w_out w').
Proof.
  unfold announce. intros [(e & (y & ? & _)%attempt_inv & _)|(y & w1 & Ha & Hr)]%bind_inv;
    [done|].
  apply ret_inv in Hr as [-> ->]. apply attempt_inv in Ha as (z & _ & Hp).
  split; [done|]. pose proof Hp as (Hd & _ & Ho)%Publish_inv.
  split; [intros t; unfold R; by rewrite Hd|]. split; [by eexists|].
  unfold Publish in Hp. destruct (broker_accepts (w_tick w)); [right|by left].
  injection Hp as <- _. rewrite Ho. apply elem_of_app. right. by left.
Qed.

Lemma classify_run tid r w x w' :
  classify tid r w = (x, w') -> x = inr tt /\ rows_eq w w' /\ out_grows w w'.
Proof.
  unfold classify. intros [(e & (y & ? & _)%attempt_inv & _)|(y & w1 & Ha & Hr)]%bind_inv;
    [done|].
  apply attempt_inv in Ha as (z & [= ->] & [Hw Hg]%ClassifyEvent_frames).
  assert (forall ev ec e, exists w2, NtEvent.reportEvent tid ev ec e w1 = (inr tt, w2) /\
    rows_eq w1 w2 /\ out_grows w1 w2) as Hrep.
  { intros ev ec e. destruct (NtEvent.reportEvent tid ev ec e w1) as [y w2] eqn:E.
    pose proof (nt_reportEvent_run _ _ _ _ _ _ _ E) as ->.
    exists w2. split; [done|]. split.
    - eapply readonly_rows; [|exact E]. apply _.
    - by eapply (sv_nt_reportEvent out_grows), E. }
  assert (forall ev ec e, NtEvent.reportEvent tid ev ec e w1 = (x, w') ->
    x = inr tt /\ rows_eq w w' /\ out_grows w w') as Hall.
  { intros ev ec e He. destruct (Hrep ev ec e) as (w2 & E & Hw2 & Hg2).
    rewrite E in He. injection He as <- <-. split; [done|]. split; by etrans. }
  destruct z as [e|u]; [|by apply ret_inv in Hr as [-> ->]].
  repeat (destruct (Equal _ _); [by eapply Hall|]). by eapply Hall.
Qed.

(** What is in the outbox stays there. *)
Lemma out_grows_in m w w' : out_grows w w' -> m ∈ w_out w -> m ∈ w_out w'.
Proof. intros [l ->] Hm. apply elem_of_app. by left. Qed.

(** The two goroutines in either order. *)
Lemma goroutines_run (first : bool) tid r w x w' :
  (if first then announce tid r ;; classify tid r
   else classify tid r ;; announce tid r) w = (x, w') ->
  x = inr tt /\ rows_eq w w' /\
  ((exists n, broker_accepts n = false) \/
   (TopicNotificationEventCreated tid, Json.Marshal (Record_enc r)) ∈ w_out w').
Proof.
  destruct first; intros [(e & Hr & _)|([] & w1 & Hr & Hr2)]%bind_inv.
  - by apply announce_run in Hr as [? _].
  - apply announce_run in Hr as (_ & Hw & _ & Ho).
    apply classify_run in Hr2 as (-> & Hw2 & Hg).
    split; [done|]. split; [by etrans|]. destruct Ho as [Hn|Ho]; [left; eauto|right].
    by eapply out_grows_in.
  - by apply classify_run in Hr as [? _].
  - apply classify_run in Hr as (_ & Hw & _).
    apply announce_run in Hr2 as (-> & Hw2 & _ & Ho).
    split; [done|]. split; [by etrans|]. destruct Ho as [Hn|Ho]; [left; eauto|by right].
Qed.

(** What is recorded of sound data is sound. *)
Lemma recorded_sound e r w w' :
  event_sound e -> (forall t, t ∈ R TTenant w -> tenant_sound t) ->
  (forall c, c ∈ R TEventCode w -> code_sound c) ->
  recorded e r w w' -> record_sound r.
Proof.
  intros [_ Hs He] Ht Hc [[_ Hsame _] Ha _ Hten Hcode]. split.
  - split.
    + apply (rows_typed TEvent (w_db w')).
      change (rows TEvent (w_db w')) with (R TEvent w'). rewrite Ha. by left.
    + by rewrite Hsame.
    + by rewrite Hsame.
  - rewrite Hcode. destruct (code_of _ e) as [c|] eqn:E.
    + apply List.find_some in E as [E _]. apply Hc. by apply list_elem_of_In.
    + split. repeat (apply List.Forall_cons; [reflexivity|]). apply List.Forall_nil.
  - apply List.find_some in Hten as [E _]. apply Ht. by apply list_elem_of_In.
Qed.

(** C16. A reported event reaches the clients: a message of the queue that says
    an event of a tenant is stored as exactly one new row, with a new number
    and, if it had none, the time of the clock; no other table changes; and,
    unless the broker refuses a message, the event is announced under its
    tenant's topic with its tenant and, if it is known, its code, in a text
    from which a client's stream reads back that very record.  This holds in
    either order of the two goroutines, whatever the notification of users
    does. *)
Theorem subscribeEvent_spec first e w w' :
  event_sound e -> Event.TenantID e <> 0 -> Event.Code e <> EmptyString ->
  (forall t, t ∈ R TTenant w -> tenant_sound t) ->
  (forall c, c ∈ R TEventCode w -> code_sound c) ->
  subscribeEvent first (Json.Marshal (Event_json e)) w = (inr tt, w') ->
  exists r, recorded e r w w' /\
    ((exists n, broker_accepts n = false) \/
     exists m, (TopicNotificationEventCreated (Event.TenantID e), m) ∈ w_out w' /\
       lookup_subscribeEvent m = inr (Arrived r)).
Proof.
  intros He Ht Hc Hts Hcs Hs. unfold subscribeEvent in Hs.
  rewrite (Unmarshal_Marshal _ _ _ e) in Hs;
    [|by apply event_wf|by apply event_dec, event_typed].
  destruct (Z.eqb_spec (Event.TenantID e) 0); [done|].
  assert (is_empty (Event.Code e) = false) as Hne by by destruct (Event.Code e).
  rewrite Hne in Hs. cbn [orb] in Hs.
  apply bind_inr in Hs as (x & w1 & (y & [= ->] & Hr)%attempt_inv & Hs).
  destruct y as [e0|r].
  { destruct (_ || _); by apply throw_inv in Hs as [? _]. }
  apply record_event_inr in Hr; [|done]. cbv zeta in Hs.
  apply goroutines_run in Hs as (_ & Hw & Ho). exists r.
  pose proof (recorded_sound _ _ _ _ He Hts Hcs Hr) as Hsound.
  split; [by apply (recorded_rows _ _ _ w w1)|].
  destruct Ho as [?|Ho]; [by left|right]. eexists. split; [exact Ho|].
  unfold lookup_subscribeEvent. by rewrite record_read_back.
Qed.
End record.

(** ** Example *)
#[local] Existing Instance mem_backend.
#[local] Existing Instance mem_backend_laws.

Definition r_tenant : Tenant.t := Tenant.mk 1 "default" None true 1699000000 1699000000.
Definition r_code : EventCode.t :=
  EventCode.mk "cdm-cloud.identity.login.success" "CDM-Cloud" "info"
    "identity" "login" "success".
Definition r_tables : tables := fun t =>
  match t with
  | TTenant => [r_tenant]
  | TEventCode => [r_code]
  | _ => []
  end.
Definition r_world : @World mem_backend := start r_tables [].

(** What a login reports. *)
Definition r_event : Event.t :=
  Event.mk 0 1 "cdm-cloud.identity.login.success" (Some ""%string) "" 0.
Definition r_run := subscribeEvent true (Json.Marshal (Event_json r_event)) r_world.

Lemma subscribeEvent_spec_witness :
  map Event.ID (R TEvent r_run.2) = [1] /\
  map fst (w_out r_run.2) = ["cdm.notification.event.created.1"%string] /\
  exists r, recorded r_event r r_world r_run.2.
Proof.
  split; [vm_compute; reflexivity|]. split; [vm_compute; reflexivity|].
  destruct (subscribeEvent_spec true r_event r_world r_run.2) as (r & Hr & _).
  - constructor; [reflexivity| |by intros s [= <-]].
    repeat (apply List.Forall_cons; [reflexivity|]). apply List.Forall_nil.
  - done.
  - done.
  - intros t Ht. apply list_elem_of_singleton in Ht as ->.
    constructor; [reflexivity| |done].
    repeat (apply List.Forall_cons; [reflexivity|]). apply List.Forall_nil.
  - intros c Hc. apply list_elem_of_singleton in Hc as ->. constructor.
    repeat (apply List.Forall_cons; [reflexivity|]). apply List.Forall_nil.
  - apply ran. vm_compute. reflexivity.
  - by exists r.
Defined.
