(* ===== verification/NtEventsProps.v ===== *)
(** * Queries of events: what [GetEvents] answers, and what is sent on the stream
    of events *)

From stdpp Require Import base tactics list strings sets gmap sorting.
From Stdlib Require Import ZArith Lia Ascii.
From S2P Require Import Prelude GoStd Json Model Backend Proto Errors Metadata Gorm.
From S2P Require Import Database GormFacts TransactionFacts Report Config Store IdBase IdFacts RefBackend.
From S2P Require Import NtProto NtConfig NtNotifier NtEvent NtHandler NtFacts.
#[local] Open Scope Z_scope.
#[local] Open Scope go_scope.

(** ** What a request asks for *)

(** A filter that is given selects the events with a code that has it. *)
Definition selects (want : string) (field : EventCode.t -> string)
    (c : option EventCode.t) : bool :=
  is_empty want
  || match c with Some c => (field c =? want)%string | None => false end.

Definition wanted (q : GetEventsRequest.t) (from to : Z) (e : Event.t)
    (c : option EventCode.t) : bool :=
  selects (GetEventsRequest.Solution q) EventCode.Solution c
  && selects (GetEventsRequest.Level q) EventCode.Level c
  && selects (GetEventsRequest.Class_1 q) EventCode.Class1 c
  && selects (GetEventsRequest.Class_2 q) EventCode.Class2 c
  && selects (GetEventsRequest.Class_3 q) EventCode.Class3 c
  && ((from =? 0) || (from <=? Event.CreatedAt e))
  && ((to =? 0) || (Event.CreatedAt e <=? to)).

(** The tenant's events the request asks for, each once, in storage order;
    tenant 0 stands for all tenants. *)
Definition listed (T : forall t, list (row t)) (tid : Z) (q : GetEventsRequest.t)
    (from to : Z) : list joined :=
  List.filter (fun '(e, _, c) =>
      ((tid =? 0) || (Event.TenantID e =? tid)) && wanted q from to e c)
    (omap (joined_of T) (T TEvent)).

Definition answer (x : joined) : NEvent.t :=
  let '(e, t, _) := x in
  NEvent.mk (Event.ID e) (Some (NTenant.mk (Tenant.ID t) (Tenant.Name t)))
    (Event.Code e) (default EmptyString (Event.ErrorCode e))
    (Event.Contents e) (Event.CreatedAt e).

Lemma no_code_filter q tid from to :
  bool_decide (q_eventCode (events_query tid q from to) = EventCode_zero)
  = is_empty (GetEventsRequest.Level q) && is_empty (GetEventsRequest.Class_1 q)
    && is_empty (GetEventsRequest.Class_2 q) && is_empty (GetEventsRequest.Class_3 q).
Proof.
  destruct q as [? ? ? c1 c2 c3 l ? ?]. unfold events_query, EventCode_zero. cbn.
  case_bool_decide as Hz; [by injection Hz as -> -> -> ->|].
  by destruct l, c1, c2, c3.
Qed.

Lemma query_cond_wanted tid q from to x :
  query_cond (events_query tid q from to) x
  = let '(e, _, c) := x in
    ((tid =? 0) || (Event.TenantID e =? tid)) && wanted q from to e c.
Proof.
  destruct x as [[e t] c]. unfold query_cond. rewrite no_code_filter.
  unfold wanted, selects, event_struct, cond_Z. cbn.
  rewrite <- !andb_assoc. f_equal.
  unfold code_cond, cond_str. cbn.
  destruct (is_empty (GetEventsRequest.Solution q)), (is_empty (GetEventsRequest.Level q)),
    (is_empty (GetEventsRequest.Class_1 q)), (is_empty (GetEventsRequest.Class_2 q)),
    (is_empty (GetEventsRequest.Class_3 q)), c; cbn;
    by rewrite ?andb_true_r, ?andb_false_r, <- ?andb_assoc.
Qed.

(** [b] is not newer than [a]: it was created earlier, or in the same second
    under a number that is not greater. *)
Definition not_newer (a b : joined) : Prop :=
  let ea := a.1.1 in let eb := b.1.1 in
  Event.CreatedAt eb < Event.CreatedAt ea \/
  (Event.CreatedAt eb = Event.CreatedAt ea /\ Event.ID eb <= Event.ID ea).

Lemma newest_first_not_newer l :
  Sorted (fun a b => newest_first a b = true) l -> StronglySorted not_newer l.
Proof.
  intros Hs. apply Sorted_StronglySorted.
  - intros [[a ?] ?] [[b ?] ?] [[c ?] ?]. unfold not_newer. cbn. lia.
  - induction Hs as [|a l Hs IH Hh]; constructor; [done|].
    destruct Hh as [|b l Hb]; constructor. revert Hb. unfold newest_first, not_newer.
    rewrite orb_true_iff, andb_true_iff, Z.ltb_lt, Z.eqb_eq, Z.leb_le. lia.
Qed.

Lemma newest_first_total a b : newest_first a b = true \/ newest_first b a = true.
Proof.
  unfold newest_first. rewrite !orb_true_iff, !andb_true_iff, !Z.ltb_lt, !Z.eqb_eq,
    !Z.leb_le. lia.
Qed.

Lemma query_rows_ext query (T T' : forall t, list (row t)) :
  (forall t, T' t = T t) -> query_rows query T' = query_rows query T.
Proof.
  intros Ht. unfold query_rows, join_events.
  by rewrite (Ht TEvent), (Ht TTenant), (Ht TEventCode).
Qed.

Section events.
Context `{BackendLaws}.

Lemma query_rows_listed w tid q from to :
  query_rows (events_query tid q from to) (fun t => R t w)
  = listed (fun t => R t w) tid q from to.
Proof.
  unfold query_rows, listed. rewrite join_events_rows.
  apply List.filter_ext. intros x. by apply query_cond_wanted.
Qed.

(** The query's page and count, from one transaction. *)
Lemma GetEvents_run query w rs n w' :
  NtEvent.GetEvents query w = (inr (rs, n), w') ->
  rows_eq w w' /\
  exists l0, l0 ≡ₚ query_rows query (fun t => R t w) /\
    Sorted (fun a b => newest_first a b = true) l0 /\
    n = Z.of_nat (List.length l0) /\
    rs = map (scan_record Record_zero)
           (limited (positive (q_offset query)) (positive (q_limit query)) l0).
Proof.
  unfold NtEvent.GetEvents.
  intros (x & w1 & (y & [= ->] & Ht)%attempt_inv & Hr)%bind_inr.
  destruct y as [e|y].
  { destruct (Equal _ _); by apply throw_inv in Hr as [? _]. }
  apply ret_inv in Hr as [[= <-] ->].
  apply transaction_inr in Ht as (w0 & w2 & Hw0 & Hb & Hw2 & _); [|keep].
  apply bind_inr in Hb as (n' & w3 & Hc%or_db_inr & Hb).
  apply bind_inr in Hb as (l & w4 & Hj%or_db_inr & [[= -> ->] ->]%ret_inv).
  assert (rows_eq w0 w3) as Hw3 by (eapply readonly_rows; [|exact Hc]; apply _).
  assert (rows_eq w3 w4) as Hw4 by (eapply readonly_rows; [|exact Hj]; apply _).
  split; [by rewrite Hw0, Hw3, Hw4|].
  apply JoinCount_ok in Hc. apply Join_ok in Hj as (l0 & Hp & Hs & ->);
    [|apply newest_first_total].
  exists l0. unfold rows_eq in *.
  rewrite (query_rows_ext _ (fun t => R t w)) in Hp by (intros t; by rewrite Hw3, Hw0).
  rewrite (query_rows_ext _ (fun t => R t w)) in Hc by done.
  split_and!; [done|done|by rewrite Hc, Hp|done].
Qed.

(** Checks and conversions of the request do not touch the world. *)
Lemma getValidDate_world a b w r w' : getValidDate a b w = (r, w') -> w' = w.
Proof.
  assert (forall x y z, Preserves eq (parse_date x y z)) as Hp.
  { intros. unfold parse_date. keep. }
  assert (Preserves eq (getValidDate a b)) as Hv by (unfold getValidDate; keep).
  intros Hr. symmetry. by eapply Hv.
Qed.

Lemma validate_filters_world a b c d e w r w' :
  validate_filters a b c d e w = (r, w') -> w = w'.
Proof.
  assert (Preserves eq (validate_filters a b c d e)) as Hv;
    [unfold validate_filters, validateLevel; keep|apply Hv].
Qed.

Lemma page_taken {A} (o n : Z) (l : list A) :
  limited (positive o)
    (positive (if n <? 10 then 10 else if 100 <? n then 100 else n)) l
  = take (Z.to_nat (Z.max 10 (Z.min 100 n))) (drop (Z.to_nat o) l).
Proof.
  assert ((if n <? 10 then 10 else if 100 <? n then 100 else n)
    = Z.max 10 (Z.min 100 n)) as ->.
  { destruct (Z.ltb_spec n 10), (Z.ltb_spec 100 n); lia. }
  unfold limited, positive.
  destruct (Z.ltb_spec 0 (Z.max 10 (Z.min 100 n))); [|lia]. f_equal.
  destruct (Z.ltb_spec 0 o); cbn; unfold id; [done|].
  by rewrite (Z2Nat.nonpos o) by lia.
Qed.

Lemma answers l :
  eventRecordsToResponse (map (scan_record Record_zero) l) = map answer l.
Proof.
  unfold eventRecordsToResponse. rewrite List.map_map. apply List.map_ext.
  by intros [[e t] c].
Qed.

(** C17. A list of events is one page of exactly the caller's tenant's events
    (of all tenants' events for a request without a tenant, which has tenant
    number 0) that meet the filters and dates of the request: each once, those
    created later first and among those of one second those with the greater
    number first.  The page has ten to a hundred events and starts at the
    offset, an event shows its tenant's name, the total of the pagination is
    the number of all events that match, whatever the page, and nothing is
    written.  Only a manager, an administrator or a user with a role of this
    solution gets an answer, and an empty list is none.  (Page number and
    number of pages are computed from the requested limit, not from the one
    the page has, in 64 bits; without a limit it is page 1 of 1.) *)
Theorem GetEvents_spec ctx tid user q w evs page w' :
  GetTenantID ctx = inr tid -> GetAuthenticatedUser ctx = inr user ->
  NtHandler.GetEvents ctx q w = (inr (evs, page), w') ->
  existsb (fun r => (IRole.Role r =? "manager")%string
                    || (IRole.Role r =? "admin")%string
                    || (IRole.Solution r =? "CDM-Cloud")%string)
    (IUser.Roles user) = true /\
  rows_eq w w' /\
  exists from to l0,
    let limit := GetEventsRequest.Limit q in
    let offset := GetEventsRequest.Offset q in
    let total := Z.of_nat (List.length l0) in
    getValidDate (GetEventsRequest.StartDate q) (GetEventsRequest.EndDate q) w
      = (inr (from, to), w) /\
    l0 ≡ₚ listed (fun t => R t w) tid q from to /\
    StronglySorted not_newer l0 /\ l0 <> [] /\
    evs = map answer (take (Z.to_nat (Z.max 10 (Z.min 100 limit)))
                        (drop (Z.to_nat offset) l0)) /\
    NPagination.TotalItems page = total /\
    (limit = 0 -> NPagination.Page page = 1 /\ NPagination.TotalPage page = 1) /\
    (limit <> 0 ->
       NPagination.Page page = (offset / limit + 1) mod 2 ^ 64 /\
       NPagination.TotalPage page = (total + limit - 1) mod 2 ^ 64 / limit).
Proof.
  intros Htid Huser Hg. unfold NtHandler.GetEvents in Hg.
  apply bind_inr in Hg as ([t u] & w1 & Hm%nt_check_inr & Hg).
  apply nt_request_inv in Hm as (Ht & Hu & ->). cbn in Ht, Hu.
  rewrite Htid in Ht. rewrite Huser in Hu. injection Ht as <-. injection Hu as <-.
  apply bind_inr in Hg as ([] & w1 & Ha%nt_check_inr & Hg).
  unfold checkAuthorization in Ha. apply guard_err_inr in Ha as [Ha%negb_false_iff ->].
  apply bind_inr in Hg as ([] & w1 & Hv%nt_check_inr & Hg).
  assert (w1 = w) as ->.
  { symmetry. eapply (validate_filters_world _ _ _ _ _ w), Hv. }
  apply bind_inr in Hg as ([from to] & w1 & Hd%nt_check_inr & Hg).
  pose proof (getValidDate_world _ _ _ _ _ Hd) as ->.
  change (q_Error (events_query tid q from to)) with (@None err) in Hg.
  apply bind_inr in Hg as (? & ? & [_ ->]%ret_inv & Hg).
  apply bind_inr in Hg as ([rs n] & w2 & He%nt_check_inr & Hg).
  apply GetEvents_run in He as (Hw2 & l0 & Hp & Hs & -> & ->).
  apply bind_inr in Hg as (? & w3 & Hn & Hg).
  destruct (Z.eqb_spec (Z.of_nat (List.length l0)) 0) as [|Hne0];
    [by apply nt_fail_with_inv in Hn as (? & ? & _)|].
  apply ret_inv in Hn as [_ ->]. apply nt_ok_rows in Hg as [[= -> ->] Hw3].
  rewrite query_rows_listed in Hp.
  split; [done|]. split; [by etrans|]. exists from, to, l0. cbv zeta.
  apply newest_first_not_newer in Hs.
  split; [done|]. split; [done|]. split; [done|]. split; [by intros ->|].
  split; [by rewrite page_taken, answers|]. unfold pagination.
  destruct (Z.eqb_spec (GetEventsRequest.Limit q) 0); done.
Qed.
End events.

(** ** Example *)
#[local] Existing Instance mem_backend.
#[local] Existing Instance mem_backend_laws.

Definition q_event_row (id : Z) (code : string) (createdAt : Z) : Event.t :=
  Event.mk id 1 code None "" createdAt.

Definition q_tables : tables := fun t =>
  match t with
  | TTenant => [Tenant.mk 1 "default" None true 1699000000 1699000000]
  | TEventCode =>
      [EventCode.mk "cdm-cloud.identity.login.success" "CDM-Cloud" "info"
         "identity" "login" "success"]
  | TEvent =>
      [q_event_row 1 "cdm-cloud.identity.login.success" 1699990000;
       q_event_row 2 "unlisted" 1699990001;
       q_event_row 3 "cdm-cloud.identity.login.success" 1699990002]
  | _ => []
  end.

Definition q_world : @World mem_backend := start q_tables [].

Definition q_request : GetEventsRequest.t :=
  GetEventsRequest.mk 0 0 "" "" "login" "" "info" 202301010000 0.

Definition q_run := NtHandler.GetEvents (s_ctx s_req_manager) q_request q_world.

Definition q_answer : list NEvent.t * NPagination.t :=
  value_of_run ([], NPagination.mk 0 0 0) q_run.1.

Lemma GetEvents_spec_witness :
  map NEvent.Id q_answer.1 = [3; 1] /\ NPagination.TotalItems q_answer.2 = 2 /\
  rows_eq q_world q_run.2.
Proof.
  split; [vm_compute; reflexivity|]. split; [vm_compute; reflexivity|].
  apply (GetEvents_spec (s_ctx s_req_manager) 1 s_req_manager q_request q_world
    q_answer.1 q_answer.2 q_run.2).
  - vm_compute. reflexivity.
  - vm_compute. reflexivity.
  - apply ran. vm_compute. reflexivity.
Defined.

(** ** The event stream: every matching event is sent once, in order *)
(** ** The loop *)

(** An event as a client sees it, and the filters of a stream. *)
Definition shown (r : Record.t) : NEvent.t :=
  let e := Record.Event r in
  NEvent.mk (Event.ID e)
    (Some (NTenant.mk (Tenant.ID (Record.Tenant r)) (Tenant.Name (Record.Tenant r))))
    (Event.Code e) (default EmptyString (Event.ErrorCode e))
    (Event.Contents e) (Event.CreatedAt e).

Definition asks (q : GetEventsStreamRequest.t) (r : Record.t) : bool :=
  let c := Some (Record.EventCode r) in
  selects (GetEventsStreamRequest.Solution q) EventCode.Solution c
  && selects (GetEventsStreamRequest.Class_1 q) EventCode.Class1 c
  && selects (GetEventsStreamRequest.Class_2 q) EventCode.Class2 c
  && selects (GetEventsStreamRequest.Class_3 q) EventCode.Class3 c
  && selects (GetEventsStreamRequest.Level q) EventCode.Level c.

Lemma matched_asks q r : matched q (Record.EventCode r) = asks q r.
Proof.
  unfold matched, asks, selects.
  by rewrite (String.eqb_sym (GetEventsStreamRequest.Solution q)),
    (String.eqb_sym (GetEventsStreamRequest.Class_1 q)),
    (String.eqb_sym (GetEventsStreamRequest.Class_2 q)),
    (String.eqb_sym (GetEventsStreamRequest.Class_3 q)),
    (String.eqb_sym (GetEventsStreamRequest.Level q)).
Qed.

(** The events that messages of the queue bring and the client asks for. *)
Definition event_of (x : signal) : option Record.t :=
  match x with
  | Delivered body =>
      match Unmarshal Record_zero Record_dec body with
      | inr r => Some r
      | inl _ => None
      end
  | Tick _ => None
  end.

Definition asked (q : GetEventsStreamRequest.t) (xs : list signal) : list NEvent.t :=
  map shown (List.filter (asks q) (omap event_of xs)).

Lemma asked_app q xs ys : asked q (xs ++ ys) = asked q xs ++ asked q ys.
Proof. unfold asked. by rewrite omap_app, List.filter_app, List.map_app. Qed.

(** After the signals [pre]: what was handed to [Send] and what waits are what
    was asked for; no batch is empty; all went well before the end, which is
    that the last one did not, and then nothing waits. *)
Record stream_inv (q : GetEventsStreamRequest.t) (pre : list signal)
    (s : stream) : Prop := {
  si_all : concat (map fst (st_sent s)) ++ map shown (st_events s) = asked q pre;
  si_batches : Forall (fun b => b.1 <> []) (st_sent s);
  si_sent : st_end s = None -> Forall (fun b => b.2 = Sent) (st_sent s);
  si_end : forall x, st_end s = Some x -> st_events s = [] /\
    exists good last o pre', st_sent s = good ++ [(last, o)] /\
      Forall (fun b => b.2 = Sent) good /\ pre = pre' ++ [Tick o] /\
      o = match x with Gone => SendUnavailable | Broken e => SendFailed e end;
  si_tick : forall pre' o, pre = pre' ++ [Tick o] -> st_events s = []
}.

(** One signal: a message that cannot be read is not seen. *)
Definition signal_step (q : GetEventsStreamRequest.t) (s : stream) (x : signal)
    : stream :=
  match received x with Some i => stream_step q s i | None => s end.

Lemma stream_run_signals q xs :
  stream_run q (omap received xs) = fold_left (signal_step q) xs (mkStream [] [] None).
Proof.
  unfold stream_run. generalize (mkStream [] [] None) as s.
  induction xs as [|x xs IH]; intros s; [done|]. cbn. unfold signal_step at 2.
  destruct (received x); apply IH.
Qed.

Lemma delivered_inv q pre s body :
  stream_inv q pre s -> st_end s = None ->
  stream_inv q (pre ++ [Delivered body]) (signal_step q s (Delivered body)).
Proof.
  intros [Ha Hb Hs He Ht] Hn. unfold signal_step, received, lookup_subscribeEvent.
  assert (asked q (pre ++ [Delivered body]) = asked q pre ++
    match Unmarshal Record_zero Record_dec body with
    | inr r => if asks q r then [shown r] else []
    | inl _ => []
    end) as E.
  { rewrite asked_app. f_equal. unfold asked. cbn.
    destruct (Unmarshal _ _ body) as [e|r]; [done|]. cbn. by destruct (asks q r). }
  destruct (Unmarshal _ _ body) as [e|r].
  - split; rewrite ?E, ?app_nil_r; try done; [intros x; by rewrite Hn|].
    by intros pre' o [_ ?]%app_inj_tail.
  - unfold stream_step. rewrite Hn, matched_asks.
    destruct (asks q r); split; cbn; rewrite ?E, ?app_nil_r, ?Hn; try done;
      try (by intros pre' o [_ ?]%app_inj_tail); try (by auto).
    by rewrite List.map_app, app_assoc, Ha.
Qed.

Lemma tick_sends q pre s o :
  stream_inv q pre s -> st_end s = None ->
  stream_inv q (pre ++ [Tick o]) (signal_step q s (Tick o)).
Proof.
  intros [Ha Hb Hs He Ht] Hn. unfold signal_step, received, stream_step. rewrite Hn.
  assert (asked q (pre ++ [Tick o]) = asked q pre) as E.
  { rewrite asked_app. apply app_nil_r. }
  destruct (st_events s) as [|x l] eqn:Es.
  - split; rewrite ?E, ?Es; try done. intros x. by rewrite Hn.
  - split; cbn; rewrite ?E.
    + rewrite <- Ha, List.map_app, concat_app. cbn. by rewrite !app_nil_r.
    + apply Forall_app. split; [done|]. by constructor.
    + intros Hnone. apply Forall_app. split; [by apply Hs|]. constructor; [|done].
      by destruct o.
    + intros y Hy. split; [done|]. eexists _, _, o, pre. split; [done|].
      split; [by apply Hs|]. split; [done|].
      destruct o; [done|by injection Hy as <-|by injection Hy as <-].
    + done.
Qed.

(** The loop handles a prefix of its signals, all of them unless it ends. *)
Lemma stream_run_inv q xs :
  let s := stream_run q (omap received xs) in
  exists pre post, xs = pre ++ post /\ (st_end s = None -> post = []) /\
    stream_inv q pre s.
Proof.
  cbv zeta. rewrite stream_run_signals.
  induction xs as [|x xs (pre & post & -> & Hp & Hi)] using rev_ind.
  - exists [], []. split; [done|]. split; [done|].
    split; try done; intros pre' o E; by destruct pre'.
  - rewrite fold_left_app. cbn [fold_left].
    set (s := fold_left _ (pre ++ post) _) in *.
    destruct (st_end s) as [y|] eqn:E.
    + exists pre, (post ++ [x]). rewrite <- app_assoc. split; [done|].
      assert (signal_step q s x = s) as ->; [|by rewrite E].
      unfold signal_step, stream_step. rewrite E. by destruct (received x).
    + rewrite (Hp eq_refl), app_nil_r in *. exists (pre ++ [x]), [].
      rewrite app_nil_r. split; [done|]. split; [done|].
      destruct x; [by apply delivered_inv|by apply tick_sends].
Qed.

Section handler.
Context `{BackendLaws}.

(** C26. A client of the event stream gets every event of its tenant that
    matches its filters exactly once and in the order they arrived.  Once the
    request is accepted the handler subscribes to the topic under which the
    events of the caller's tenant are announced, and ticks come at the interval
    of the request, 2 to 30 seconds, or every 5 seconds.  Whatever messages and
    ticks [signals] arrive for that topic and period, the batches handed to
    [Send] are not empty and, in order, together with the events that still
    wait they are the events of all messages that were read and match; after a
    tick nothing waits.  The loop only ends when [Send] fails: all batches
    before were sent, all signals before were handled, and the handler answers
    without an error if the client was gone and with one otherwise, after it
    has unsubscribed and closed the lookup; as long as no [Send] fails it goes
    on.  No row changes. *)
Theorem GetEventsStream_spec ctx q subscribe signals w calls fin w' :
  GetEventsStream ctx q subscribe signals w = (inr (calls, fin), w') ->
  exists tid,
    let topic := TopicNotificationEventCreated tid in
    let secs := default 5 (GetEventsStreamRequest.Interval q) in
    let period := secs * 1000000000 in
    GetTenantID ctx = inr tid /\ 2 <= secs <= 30 /\ subscribe topic = None /\
    rows_eq w w' /\
    exists pre post batches waiting,
      signals topic period = pre ++ post /\
      calls = Subscribes topic :: map (fun '(b, o) => Sends b o) batches
        ++ match fin with
           | None => []
           | Some _ => [Unsubscribes topic; Closes (mkLookup period tid)]
           end /\
      Forall (fun b => b.1 <> []) batches /\
      concat (map fst batches) ++ map shown waiting = asked q pre /\
      (forall pre' o, pre = pre' ++ [Tick o] -> waiting = []) /\
      match fin with
      | None => post = [] /\ Forall (fun b => b.2 = Sent) batches
      | Some answer =>
          waiting = [] /\ exists good last o pre',
            batches = good ++ [(last, o)] /\ pre = pre' ++ [Tick o] /\
            Forall (fun b => b.2 = Sent) good /\
            match answer with
            | None => o = SendUnavailable
            | Some _ => exists e, o = SendFailed e
            end
      end.
Proof.
  intros Hg. unfold GetEventsStream in Hg.
  apply bind_inr in Hg as ([tid u] & w1 & Hm%nt_check_inr & Hg).
  apply nt_request_inv in Hm as (Htid & _ & ->). cbn in Htid.
  apply bind_inr in Hg as ([] & w1 & Hv%nt_check_inr & Hg).
  assert (w1 = w) as ->.
  { assert (Preserves eq (validateGetEventsStreamParams q)) as Hk.
    { unfold validateGetEventsStreamParams, validate_filters, validateLevel. keep. }
    symmetry. by eapply Hk. }
  apply bind_inr in Hg as (n & w1 & Hi & Hg).
  assert (w1 = w /\ n = default 5 (GetEventsStreamRequest.Interval q) /\ 2 <= n <= 30)
    as (-> & -> & Hn).
  { destruct (GetEventsStreamRequest.Interval q) as [m|].
    - apply bind_inr in Hi as ([] & w2 & Hi%nt_check_inr & [[= ->] ->]%ret_inv).
      apply guard_err_inr in Hi as [[?%Z.ltb_ge ?%Z.ltb_ge]%orb_false_iff ->]. done.
    - by apply ret_inv in Hi as [[= ->] ->]. }
  revert Hn Hg. generalize (default 5 (GetEventsStreamRequest.Interval q)) as secs.
  intros secs Hn Hg. assert (newEventLookup secs tid = mkLookup (secs * 1000000000) tid)
    as El.
  { unfold newEventLookup, Int.Second, Int.i64, Int.two63, Int.two64. f_equal.
    rewrite Z.mod_small by lia. lia. }
  cbv zeta in Hg. rewrite El in Hg. cbn [el_ticker] in Hg. exists tid. cbv zeta.
  destruct (subscribe _); [by apply nt_fail_with_inv in Hg as (? & ? & _)|].
  destruct (stream_run_inv q (signals (TopicNotificationEventCreated tid)
    (secs * 1000000000))) as (pre & post & Hio & Hp & [Ha Hb Hs He Ht]).
  set (s := stream_run _ _) in *.
  split; [done|]. split; [done|]. split; [done|].
  destruct (st_end s) as [x|] eqn:E.
  - destruct (He x eq_refl) as (Hw & good & last & o & pre' & Hl & Hgood & Hpre & Ho).
    assert (exists answer, calls = (Subscribes (TopicNotificationEventCreated tid)
        :: map (fun '(b, o) => Sends b o) (st_sent s)) ++
        [Unsubscribes (TopicNotificationEventCreated tid);
         Closes (mkLookup (secs * 1000000000) tid)] /\
      fin = Some answer /\ rows_eq w w' /\
      match answer with
      | None => o = SendUnavailable
      | Some _ => exists e, o = SendFailed e
      end) as (answer & -> & -> & Hq & Hans).
    { destruct x as [|e].
      - apply ret_inv in Hg as [[= -> ->] ->]. by exists None.
      - apply bind_inr in Hg as (r & w2 & Hr & [[= -> ->] ->]%ret_inv).
        exists (Some r). split; [done|]. split; [done|]. split; [|by exists e].
        apply reports_nt_createError_of in Hr as (? & _ & _ & Hdb & _).
        intros t. unfold rows_eq, R in *. by rewrite Hdb. }
    split; [done|]. exists pre, post, (st_sent s), (st_events s).
    split; [done|]. split; [done|]. split; [done|]. split; [done|]. split; [done|].
    split; [done|]. by exists good, last, o, pre'.
  - apply ret_inv in Hg as [[= -> ->] ->]. split; [done|].
    exists pre, post, (st_sent s), (st_events s). rewrite app_nil_r.
    split_and!; try done; [by apply Hp|by apply Hs].
Qed.
End handler.

(** ** Example *)
#[local] Existing Instance mem_backend.
#[local] Existing Instance mem_backend_laws.

Definition t_record (id : Z) (class_1 : string) : Record.t :=
  Record.mk (Event.mk id 1 "code" None "" 1699990000)
    (EventCode.mk "code" "CDM-Cloud" "info" class_1 "" "")
    (Tenant.mk 1 "default" None true 1699000000 1699000000).

Definition t_request : GetEventsStreamRequest.t :=
  GetEventsStreamRequest.mk (Some 5) "" "identity" "" "" "".

Definition t_message (id : Z) (class_1 : string) : signal :=
  Delivered (Json.Marshal (Record_enc (t_record id class_1))).

(** The topic of tenant 1 and ticks of five seconds; other topics are refused. *)
Definition t_subscribe (topic : string) : option err :=
  if (topic =? "cdm.notification.event.created.1")%string then None
  else Some (ENew "no such topic").

Definition t_signals (topic : string) (period : Z) : list signal :=
  if (topic =? "cdm.notification.event.created.1")%string && (period =? 5000000000)
  then [t_message 1 "identity"; t_message 2 "storage"; Delivered "{";
        t_message 3 "identity"; Tick Sent; Tick Sent; t_message 4 "identity";
        Tick SendUnavailable; t_message 5 "identity"]
  else [].

Definition t_calls : list stream_call :=
  [Subscribes "cdm.notification.event.created.1";
   Sends (map shown [t_record 1 "identity"; t_record 3 "identity"]) Sent;
   Sends (map shown [t_record 4 "identity"]) SendUnavailable;
   Unsubscribes "cdm.notification.event.created.1";
   Closes (mkLookup 5000000000 1)].

Definition t_run :=
  GetEventsStream (s_ctx s_req_manager) t_request t_subscribe t_signals s_world.

Lemma GetEventsStream_spec_witness :
  t_run.1 = inr (t_calls, Some None) /\ rows_eq s_world t_run.2.
Proof.
  split; [vm_compute; reflexivity|].
  destruct (GetEventsStream_spec (s_ctx s_req_manager) t_request t_subscribe
    t_signals s_world t_calls (Some None) t_run.2) as (_ & _ & _ & _ & Hq & _);
    [|exact Hq].
  apply ran. vm_compute. reflexivity.
Defined.
