(* ===== verification/NtReceiveProps.v ===== *)
(** * Which events are received: what the requests store, and who is notified *)

From stdpp Require Import base tactics list strings sets gmap.
From Stdlib Require Import ZArith Lia Ascii.
From S2P Require Import Prelude GoStd Json Model Backend Errors Proto Metadata.
From S2P Require Import Gorm Database GormFacts TransactionFacts Report Config Store IdBase.
From S2P Require Import IdFacts GormFacts RefBackend.
From S2P Require Import NtProto NtConfig NtNotifier NtEvent NtHandler NtFacts.
#[local] Open Scope Z_scope.
#[local] Open Scope go_scope.

Lemma filter_none {A} (l : list A) : List.filter (fun _ => false) l = [].
Proof. by induction l. Qed.

(** ** The choices of a request *)

(** What the last item for a code says, if there is one. *)
Fixpoint choice (items : list EventReceive.t) (code : string)
    : option (option bool) :=
  match items with
  | [] => None
  | i :: items =>
      match choice items code with
      | Some c => Some c
      | None =>
          if (EventReceive.Code i =? code)%string
          then Some (EventReceive.Enable i) else None
      end
  end.

Section receives.
Context `{BackendLaws}.

(** The rows a list of items leaves of the rows [l] of an owner. *)
Definition user_chosen (uid : Z) (items : list EventReceive.t)
    (l : list UserReceiveEvent.t) (x : UserReceiveEvent.t) : Prop :=
  match choice items (UserReceiveEvent.Code x) with
  | Some c =>
      if UserReceiveEvent.UserID x =? uid
      then c <> None /\ UserReceiveEvent.ReceiveFlag x = c else x ∈ l
  | None => x ∈ l
  end.

Definition tenant_chosen (tid : Z) (items : list EventReceive.t)
    (l : list TenantReceiveEvent.t) (x : TenantReceiveEvent.t) : Prop :=
  match choice items (TenantReceiveEvent.Code x) with
  | Some c =>
      if TenantReceiveEvent.TenantID x =? tid
      then TenantReceiveEvent.ReceiveFlag x = default false c else x ∈ l
  | None => x ∈ l
  end.

Lemma plain_UserReceive : plain_table TUserReceiveEvent.
Proof. by constructor. Qed.
Lemma plain_TenantReceive : plain_table TTenantReceiveEvent.
Proof. by constructor. Qed.

(** One item of a user. *)
Lemma set_user_receive_inr uid i w u w' :
  EventReceive.Code i <> EmptyString ->
  set_user_receive uid i w = (inr u, w') ->
  (forall x, x ∈ R TUserReceiveEvent w' <->
     user_chosen uid [i] (R TUserReceiveEvent w) x) /\
  (forall t, t <> TUserReceiveEvent -> R t w' = R t w).
Proof.
  intros Hc Hs. unfold set_user_receive in Hs. split.
  - intros [c o f]. unfold user_chosen. cbn.
    destruct (EventReceive.Enable i) as [b|];
      apply bind_inr in Hs as (n & w1 & Hs%or_db_inr & [_ ->]%ret_inv).
    + rewrite (Save_plain _ _ _ _ _ _ plain_UserReceive Hs). cbn.
      destruct (String.eqb_spec (EventReceive.Code i) c) as [->|Hne]; cbn.
      * rewrite (Z.eqb_sym o). destruct (Z.eqb_spec uid o) as [->|Hne]; cbn.
        -- split; [|by intros [_ ->]; left]. by intros [[= ->]|[_ ?]].
        -- split; [by intros [[= <-]|[? _]]|by right].
      * split; [by intros [[= ->]|[? _]]|by right].
    + unfold Delete_row in Hs.
      assert (main_key_blank TUserReceiveEvent
        (UserReceiveEvent.mk (EventReceive.Code i) uid None) = false) as Hb.
      { cbn. by destruct (EventReceive.Code i). }
      rewrite Hb in Hs. rewrite (Delete_In TUserReceiveEvent _ _ _ _ _ Hs). cbn.
      destruct (String.eqb_spec (EventReceive.Code i) c) as [Ec|Hne]; cbn; [|tauto].
      rewrite (Z.eqb_sym o). destruct (Z.eqb_spec uid o); intuition congruence.
  - intros t Ht. destruct (EventReceive.Enable i) as [b|];
      apply bind_inr in Hs as (n & w1 & Hs%or_db_inr & [_ ->]%ret_inv).
    + apply (preserves_Save _ _ [TUserReceiveEvent]) in Hs as [Ho _]; [|by left].
      by apply Ho, not_in_one.
    + apply (preserves_Delete _ _ [TUserReceiveEvent]) in Hs as [Ho _]; [|by left].
      by apply Ho, not_in_one.
Qed.

(** One item of a tenant. *)
Lemma set_tenant_receive_inr tid i w r w' :
  Save TTenantReceiveEvent (TenantReceiveEvent.mk (EventReceive.Code i) tid
    (default false (EventReceive.Enable i))) w = (inr r, w') ->
  (forall x, x ∈ R TTenantReceiveEvent w' <->
     tenant_chosen tid [i] (R TTenantReceiveEvent w) x) /\
  (forall t, t <> TTenantReceiveEvent -> R t w' = R t w).
Proof.
  intros Hs. split.
  - intros [c o f]. unfold tenant_chosen. cbn.
    rewrite (Save_plain _ _ _ _ _ _ plain_TenantReceive Hs). cbn.
    destruct (String.eqb_spec (EventReceive.Code i) c) as [->|Hne]; cbn.
    + rewrite (Z.eqb_sym o). destruct (Z.eqb_spec tid o) as [->|Hne]; cbn.
      * split; [|by intros ->; left]. by intros [[= ->]|[_ ?]].
      * split; [by intros [[= <-]|[? _]]|by right].
    + split; [by intros [[= ->]|[? _]]|by right].
  - intros t Ht. apply (preserves_Save _ _ [TTenantReceiveEvent]) in Hs as [Ho _];
      [|by left]. by apply Ho, not_in_one.
Qed.

(** A loop of items leaves what the last item of every code says. *)
Lemma user_items_inr uid items w u w' :
  (forall i, i ∈ items -> EventReceive.Code i <> EmptyString) ->
  NtConfig.SetUserEventReceives uid items w = (inr u, w') ->
  (forall x, x ∈ R TUserReceiveEvent w' <->
     user_chosen uid items (R TUserReceiveEvent w) x) /\
  (forall t, t <> TUserReceiveEvent -> R t w' = R t w).
Proof.
  revert w. induction items as [|i items IH]; intros w Hc Hs.
  - by apply ret_inv in Hs as [_ ->].
  - apply bind_inr in Hs as (v & w1 & [H1 F1]%set_user_receive_inr & Hs);
      [|apply Hc; by left].
    apply IH in Hs as [H2 F2]; [|intros j Hj; apply Hc; by right]. split.
    + intros x. rewrite H2. specialize (H1 x). unfold user_chosen in *.
      cbn [choice] in *. destruct (choice items (UserReceiveEvent.Code x)); [|done].
      destruct (_ =? uid) eqn:E; [done|]. by destruct (_ =? _)%string.
    + intros t Ht. by rewrite F2, F1.
Qed.

Lemma tenant_items_inr tid items w u w' :
  NtConfig.SetTenantEventReceives tid items w = (inr u, w') ->
  (forall x, x ∈ R TTenantReceiveEvent w' <->
     tenant_chosen tid items (R TTenantReceiveEvent w) x) /\
  (forall t, t <> TTenantReceiveEvent -> R t w' = R t w).
Proof.
  revert w. induction items as [|i items IH]; intros w Hs.
  - by apply ret_inv in Hs as [_ ->].
  - apply bind_inr in Hs as (v & w1 & H1 & Hs).
    apply bind_inr in H1 as (r & w2 & H1%or_db_inr & [_ ->]%ret_inv).
    apply set_tenant_receive_inr in H1 as [H1 F1].
    apply IH in Hs as [H2 F2]. split.
    + intros x. rewrite H2. specialize (H1 x). unfold tenant_chosen in *.
      cbn [choice] in *. destruct (choice items (TenantReceiveEvent.Code x)); [|done].
      destruct (_ =? tid) eqn:E; [done|]. by destruct (_ =? _)%string.
    + intros t Ht. by rewrite F2, F1.
Qed.

Lemma validateEventReceives_inr items (w w' : World) u :
  validateEventReceives items w = (inr u, w') ->
  (exists l, items = Some l /\ forall i, i ∈ l -> EventReceive.Code i <> EmptyString) /\
  w' = w.
Proof.
  unfold validateEventReceives. destruct items as [l|]; [|by intros [? _]%throw_inv].
  intros Hv. assert ((forall i, i ∈ l -> EventReceive.Code i <> EmptyString) /\ w' = w)
    as [? ->]; [|eauto].
  revert Hv. induction l as [|i l IH]; intros Hv.
  - apply ret_inv in Hv as [_ ->]. split; [|done]. intros i Hi. by apply elem_of_nil in Hi.
  - apply bind_inr in Hv as ([] & w1 & [Hc ->]%guard_err_inr & Hv).
    apply IH in Hv as [Hl ->]. split; [|done].
    intros j [->|Hj]%elem_of_cons; [by destruct (EventReceive.Code i)|by apply Hl].
Qed.

(** Setting which events are received stores exactly the choices of the
    request: for the caller (or the caller's tenant) and every code named, the
    last item for that code decides, an item of a user without a flag deletes
    the choice, and all other rows, of other users and tenants as well, are as
    before; a request with a missing list or a blank code, or from somebody who
    does not exist, is refused. *)
Theorem SetEventReceives_spec ctx tid user items w u w' :
  GetTenantID ctx = inr tid -> GetAuthenticatedUser ctx = inr user ->
  (NtHandler.SetUserEventReceives ctx items w = (inr u, w') ->
   exists l, items = Some l /\
     (forall i, i ∈ l -> EventReceive.Code i <> EmptyString) /\
     (exists x, x ∈ R TUser w /\ cond_Z (IUser.Id user) (User.ID x) = true) /\
     (forall x, x ∈ R TUserReceiveEvent w' <->
        user_chosen (IUser.Id user) l (R TUserReceiveEvent w) x) /\
     (forall t, t <> TUserReceiveEvent -> R t w' = R t w)) /\
  (NtHandler.SetTenantEventReceives ctx items w = (inr u, w') ->
   exists l, items = Some l /\
     (forall i, i ∈ l -> EventReceive.Code i <> EmptyString) /\
     (exists x, x ∈ R TTenant w /\ cond_Z tid (Tenant.ID x) = true) /\
     (forall x, x ∈ R TTenantReceiveEvent w' <->
        tenant_chosen tid l (R TTenantReceiveEvent w) x) /\
     (forall t, t <> TTenantReceiveEvent -> R t w' = R t w)).
Proof.
  intros Htid Huser. split; intros Hs.
  - unfold NtHandler.SetUserEventReceives in Hs.
    apply bind_inr in Hs as ([t x] & w1 & [_ [Hu ->]]%nt_check_inr%nt_request_inv & Hs).
    cbn in Hu. rewrite Huser in Hu. injection Hu as <-.
    apply bind_inr in Hs as ([] & w1 & Hv%nt_check_inr & Hs).
    apply validateEventReceives_inr in Hv as [(l & -> & Hl) ->].
    apply bind_inr in Hs as ([] & w1 & Ht%nt_check_inr & [_ Hw']%nt_ok_rows).
    apply transaction_checked in Ht as (w0 & w2 & w3 & Hw0 & Hx & Hw2 & Hi & Hw3);
      [|apply _..].
    apply user_items_inr in Hi as [Hi Ho]; [|done].
    apply ValidateUser_inr in Hx. rewrite (Hw0 TUser) in Hx.
    exists l. split_and!; [done..| |].
    + intros y. rewrite (Hw' TUserReceiveEvent), (Hw3 TUserReceiveEvent), Hi.
      by rewrite (Hw2 TUserReceiveEvent).
    + intros t' Hne. by rewrite Hw', Hw3, Ho, Hw2.
  - unfold NtHandler.SetTenantEventReceives in Hs.
    apply bind_inr in Hs as ([t x] & w1 & [Hu [_ ->]]%nt_check_inr%nt_request_inv & Hs).
    cbn in Hu. rewrite Htid in Hu. injection Hu as <-.
    apply bind_inr in Hs as ([] & w1 & Hv%nt_check_inr & Hs).
    apply validateEventReceives_inr in Hv as [(l & -> & Hl) ->].
    apply bind_inr in Hs as ([] & w1 & Ht%nt_check_inr & [_ Hw']%nt_ok_rows).
    apply transaction_checked in Ht as (w0 & w2 & w3 & Hw0 & Hx & Hw2 & Hi & Hw3);
      [|apply _..].
    apply tenant_items_inr in Hi as [Hi Ho].
    apply ValidateTenant_inr in Hx. rewrite (Hw0 TTenant) in Hx.
    exists l. split_and!; [done..| |].
    + intros y. rewrite (Hw' TTenantReceiveEvent), (Hw3 TTenantReceiveEvent), Hi.
      by rewrite (Hw2 TTenantReceiveEvent).
    + intros t' Hne. by rewrite Hw', Hw3, Ho, Hw2.
Qed.

(** [ResetUserEventReceives] of one user deletes the choices of all users:
    the record to delete carries no event code, which is the main key of the
    table, so the statement has no condition; no other table changes. *)
Theorem ResetUserEventReceives_all ctx w u w' :
  NtHandler.ResetUserEventReceives ctx w = (inr u, w') ->
  R TUserReceiveEvent w' = [] /\
  (forall t, t <> TUserReceiveEvent -> R t w' = R t w).
Proof.
  intros Hs. unfold NtHandler.ResetUserEventReceives in Hs.
  apply bind_inr in Hs as ([t x] & w1 & [_ [_ ->]]%nt_check_inr%nt_request_inv & Hs).
  apply bind_inr in Hs as ([] & w1 & Ht%nt_check_inr & [_ Hw']%nt_ok_rows).
  apply transaction_checked in Ht as (w0 & w2 & w3 & _ & _ & Hw2 & Hi & Hw3);
    [|apply _..].
  unfold NtConfig.ResetUserEventReceives, Delete_row in Hi. cbn in Hi.
  apply bind_inr in Hi as (n & w4 & Hd%or_db_inr & [_ ->]%ret_inv). split.
  - rewrite (Hw' TUserReceiveEvent), (Hw3 TUserReceiveEvent).
    apply Delete_ok in Hd. apply Permutation_nil_r. rewrite Hd. cbn.
    by rewrite filter_none.
  - intros t' Hne. apply (preserves_Delete _ _ [TUserReceiveEvent]) in Hd as [Ho _];
      [|by left]. rewrite Hw', Hw3, Ho; [done|]. by apply not_in_one.
Qed.

(** ** Who is notified *)

(** A user of the tenant with some row of choices (of whatever code), where
    that row, or the tenant's own for the event's code if it has no flag, says
    yes. *)
Definition notified (ev : Event.t) (w : World) (u : User.t) : Prop :=
  u ∈ R TUser w /\ User.TenantID u = Event.TenantID ev /\
  exists ur tr, ur ∈ R TUserReceiveEvent w /\
    UserReceiveEvent.UserID ur = User.ID u /\
    tr ∈ R TTenantReceiveEvent w /\
    TenantReceiveEvent.TenantID tr = Event.TenantID ev /\
    TenantReceiveEvent.Code tr = Event.Code ev /\
    default (TenantReceiveEvent.ReceiveFlag tr) (UserReceiveEvent.ReceiveFlag ur)
      = true.

Lemma in_flat_if {A B} (p : A -> bool) (g : A -> list B) l y :
  y ∈ flat_map (fun x => if p x then g x else []) l <->
  exists x, x ∈ l /\ p x = true /\ y ∈ g x.
Proof.
  rewrite list_elem_of_In, List.in_flat_map. split.
  - intros (x & Hx & Hy). exists x. rewrite list_elem_of_In.
    destruct (p x); [|done]. by rewrite list_elem_of_In.
  - intros (x & Hx & Hp & Hy). exists x. rewrite <- !list_elem_of_In, Hp. done.
Qed.

Lemma users_to_notify_spec ev w u :
  Event.TenantID ev <> 0 -> Event.Code ev <> EmptyString ->
  u ∈ users_to_notify ev (fun t => R t w) <-> notified ev w u.
Proof.
  intros Ht Hc. unfold users_to_notify, notified. rewrite in_flat_if. split.
  - intros (u0 & Hu & Hten & (ur & Hur & Hid & Hin)%in_flat_if).
    apply in_flat_if in Hin as (tr & Htr & Hp & ->%list_elem_of_singleton).
    apply andb_true_iff in Hp as [[?%Z.eqb_eq Hcode]%andb_true_iff Hflag].
    apply cond_Z_ne in Hten; [|done]. apply Z.eqb_eq in Hid.
    unfold cond_str in Hcode. destruct (Event.Code ev); [done|].
    apply String.eqb_eq in Hcode. split; [done|]. split; [done|].
    exists ur, tr. split_and!; congruence || done.
  - intros (Hu & Hten & ur & tr & Hur & Hid & Htr & Htt & Hcode & Hflag).
    exists u. split; [done|]. split; [by apply cond_Z_ne|].
    apply in_flat_if. exists ur. split; [done|]. split; [by apply Z.eqb_eq|].
    apply in_flat_if. exists tr. split; [done|]. split; [|by left].
    rewrite Htt, Hten, Z.eqb_refl, Hflag, andb_true_r. unfold cond_str.
    rewrite Hcode, String.eqb_refl. by destruct (Event.Code ev).
Qed.

(** A row of choices of the user and the tenant's row for the event that say
    yes: the user's row decides if it has a flag, whatever its code. *)
Definition says_yes (ev : Event.t) (u : User.t) (ur : UserReceiveEvent.t)
    (tr : TenantReceiveEvent.t) : bool :=
  (User.TenantID u =? Event.TenantID ev)
  && (UserReceiveEvent.UserID ur =? User.ID u)
  && (TenantReceiveEvent.TenantID tr =? Event.TenantID ev)
  && (TenantReceiveEvent.Code tr =? Event.Code ev)%string
  && match UserReceiveEvent.ReceiveFlag ur with
     | Some yes => yes
     | None => TenantReceiveEvent.ReceiveFlag tr
     end.

(** The users of the matching rows, one for each pair. *)
Definition matching (ev : Event.t) (us : list User.t)
    (urs : list UserReceiveEvent.t) (trs : list TenantReceiveEvent.t) : list User.t :=
  flat_map (fun u => flat_map (fun ur => flat_map (fun tr =>
    if says_yes ev u ur tr then [u] else []) trs) urs) us.

Lemma flat_map_none {A B} (f : A -> list B) l :
  (forall x, f x = []) -> flat_map f l = [].
Proof. intros Hf. induction l as [|x l IH]; [done|]. cbn. by rewrite Hf. Qed.

Lemma users_to_notify_matching ev (T : forall t, list (row t)) :
  Event.TenantID ev <> 0 -> Event.Code ev <> EmptyString ->
  users_to_notify ev T
  = matching ev (T TUser) (T TUserReceiveEvent) (T TTenantReceiveEvent).
Proof.
  intros Ht Hc. apply List.flat_map_ext. intros u.
  unfold cond_Z. apply Z.eqb_neq in Ht. rewrite Ht. cbn [orb].
  destruct (Z.eqb_spec (User.TenantID u) (Event.TenantID ev)) as [Hu|Hu].
  2:{ symmetry. apply flat_map_none. intros ur. apply flat_map_none. intros tr.
      unfold says_yes. by apply Z.eqb_neq in Hu as ->. }
  apply List.flat_map_ext. intros ur.
  destruct (Z.eqb_spec (UserReceiveEvent.UserID ur) (User.ID u)) as [Hr|Hr].
  2:{ symmetry. apply flat_map_none. intros tr.
      unfold says_yes. apply Z.eqb_neq in Hr as ->. by rewrite andb_false_r. }
  apply List.flat_map_ext. intros tr. unfold says_yes, cond_str.
  rewrite Hr, Hu, !Z.eqb_refl. destruct (Event.Code ev); [done|].
  by destruct (UserReceiveEvent.ReceiveFlag ur).
Qed.

(** The message queued for a user. *)
Definition mail_job (ev : Event.t) (u : User.t) : string * string :=
  ("cdm.notification.notify.email"%string, Json.Marshal (delivery_json ev u)).

Lemma publish_job ev u (w : World) r w' :
  or_broker (Publish QueueNotifyEmail (Json.Marshal (delivery_json ev u))) w = (r, w') ->
  w_db w' = w_db w /\
  w_out w' = w_out w ++ match r with inr _ => [mail_job ev u] | inl _ => [] end.
Proof.
  unfold or_broker, bind, attempt, Publish, throw, ret.
  destruct (broker_accepts _); intros [= <- <-]; cbn; by rewrite ?app_nil_r.
Qed.

(** A loop of publications queues a message for each user up to the first
    that fails. *)
Lemma for_each_published ev l (w : World) r w' :
  for_each (fun u => for_each (fun k =>
      or_broker (Publish k (Json.Marshal (delivery_json ev u)))) [QueueNotifyEmail]) l w
    = (r, w') ->
  exists yes rest, l = yes ++ rest /\ w_db w' = w_db w /\
    w_out w' = w_out w ++ map (mail_job ev) yes /\ (forall u, r = inr u -> rest = []).
Proof.
  revert w. induction l as [|u l IH]; intros w Hf.
  { apply ret_inv in Hf as [-> ->]. exists [], []. cbn. by rewrite app_nil_r. }
  cbn [for_each] in Hf. rewrite bind_assoc in Hf.
  apply bind_inv in Hf as [(e & Hp & ->)|([] & w1 & Hp & Hf)];
    apply publish_job in Hp as [Hdb Ho].
  - exists [], (u :: l). cbn. by rewrite Hdb, Ho.
  - cbn [bind ret for_each] in Hf. apply IH in Hf as (yes & rest & -> & Hd & Hout & Hr).
    exists (u :: yes), rest. rewrite Hd, Hdb, Hout, Ho, <- app_assoc. done.
Qed.

Lemma users_to_notify_ext ev (T T' : forall t, list (row t)) :
  (forall t, T' t = T t) -> users_to_notify ev T' = users_to_notify ev T.
Proof.
  intros Ht. unfold users_to_notify.
  by rewrite (Ht TUser), (Ht TUserReceiveEvent), (Ht TTenantReceiveEvent).
Qed.

(** The settings a run reads have mails switched on. *)
Definition mails_on (conf : NConfig.t) : bool :=
  match NConfig.EventNotificationEnable conf,
        NConfig.EventEmailNotificationEnable conf with
  | Some true, Some true => true
  | _, _ => false
  end.

Definition settings_read (ev : Event.t) (w : World) (conf : NConfig.t) : Prop :=
  exists w1 w2, rows_eq w w1 /\
    NtConfig.GetConfig (Event.TenantID ev) w1 = (inr conf, w2).

(** Messages for users the settings and choices say, as an order on worlds. *)
Definition jobs_only (ev : Event.t) (w w1 w2 : World) : Prop :=
  exists users, w_out w2 = w_out w1 ++ map (mail_job ev) users /\
    forall u, u ∈ users -> notified ev w u /\
      exists conf, settings_read ev w conf /\ mails_on conf = true.

#[local] Instance jobs_only_preorder ev w : PreOrder (jobs_only ev w).
Proof.
  split.
  - intros w1. exists []. rewrite app_nil_r. split; [done|]. by intros u ?%elem_of_nil.
  - intros w1 w2 w3 (l1 & H1 & P1) (l2 & H2 & P2). exists (l1 ++ l2).
    rewrite H2, H1, List.map_app, app_assoc. split; [done|].
    intros u [?|?]%elem_of_app; auto.
Qed.

Lemma out_jobs_only ev w w1 w2 : w_out w2 = w_out w1 -> jobs_only ev w w1 w2.
Proof.
  intros E. exists []. rewrite app_nil_r. split; [done|]. by intros u ?%elem_of_nil.
Qed.

(** One run of the transaction's body on the rows before. *)
Lemma classify_body ev w0 w x w' :
  Event.TenantID ev <> 0 -> Event.Code ev <> EmptyString -> rows_eq w0 w ->
  (conf <- NtConfig.GetConfig (Event.TenantID ev) ;;
   if negb (default false (NConfig.EventNotificationEnable conf)) then ret tt
   else
     let kinds := notify_kinds conf in
     if bool_decide (kinds = []) then ret tt
     else
       users <- or_db (Scan (users_to_notify ev)) ;;
       for_each (fun user =>
         for_each (fun kind =>
           or_broker (Publish kind (Json.Marshal (delivery_json ev user))))
           kinds) users) w = (x, w') ->
  jobs_only ev w0 w w' /\
  forall a, x = inr a -> exists conf users, settings_read ev w0 conf /\
    w_out w' = w_out w ++ map (mail_job ev) users /\
    users ≡ₚ if mails_on conf
             then matching ev (R TUser w0) (R TUserReceiveEvent w0)
                    (R TTenantReceiveEvent w0)
             else [].
Proof.
  intros Ht Hc Hw Hr.
  apply bind_inv in Hr as [(e & Hg & ->)|(conf & w1 & Hg & Hr)];
    pose proof (preserves (R := out_frame) _ _ _ Hg) as Ho1.
  { split; [by apply out_jobs_only|done]. }
  assert (settings_read ev w0 conf) as Hconf by by exists w, w1.
  assert (rows_eq w0 w1) as Hw1.
  { etrans; [exact Hw|]. eapply readonly_rows; [|exact Hg]. apply _. }
  assert ((x, w') = (inr tt, w1) -> mails_on conf = false ->
    jobs_only ev w0 w w' /\ forall a, x = inr a -> exists conf users,
      settings_read ev w0 conf /\ w_out w' = w_out w ++ map (mail_job ev) users /\
      users ≡ₚ if mails_on conf then matching ev (R TUser w0)
        (R TUserReceiveEvent w0) (R TTenantReceiveEvent w0) else []) as Hnone.
  { intros [= -> ->] Hoff. split; [by apply out_jobs_only|]. intros _ _.
    exists conf, []. rewrite app_nil_r, Hoff. done. }
  unfold notify_kinds in Hr. cbv zeta in Hr. unfold mails_on in Hnone.
  destruct (NConfig.EventNotificationEnable conf) as [[]|] eqn:E1; cbn [default negb] in Hr;
    [|by apply ret_inv in Hr as [-> ->]; auto..].
  destruct (NConfig.EventEmailNotificationEnable conf) as [[]|] eqn:E2;
    cbn [default] in Hr; unfold id in Hr;
    [|by apply ret_inv in Hr as [-> ->]; auto..].
  clear Hnone. rewrite bool_decide_false in Hr by done.
  apply bind_inv in Hr as [(e & Hs & ->)|(users & w2 & Hs & Hr)];
    pose proof (preserves (R := out_frame) _ _ _ Hs) as Ho2.
  { split; [|done]. apply out_jobs_only. by etrans. }
  apply or_db_inr, Scan_ok in Hs.
  rewrite (users_to_notify_ext _ (fun t => R t w0)) in Hs by exact Hw1.
  apply for_each_published in Hr as (yes & rest & -> & _ & Hout & Hrest).
  assert (w_out w' = w_out w ++ map (mail_job ev) yes) as Hout'.
  { rewrite Hout. f_equal. by etrans. }
  assert (mails_on conf = true) as Hon by (unfold mails_on; by rewrite E1, E2).
  split.
  - exists yes. split; [done|]. intros u Hu. split; [|by exists conf].
    apply users_to_notify_spec; [done|done|]. rewrite <- Hs. apply elem_of_app. by left.
  - intros a Ha. exists conf, yes. rewrite Hon. split; [done|]. split; [done|].
    rewrite (Hrest a Ha), app_nil_r in Hs. rewrite Hs.
    by rewrite users_to_notify_matching.
Qed.

(** C27. An event of a tenant notifies the users the settings say: when
    [ClassifyEvent] succeeds and the tenant's settings have both notifications
    and mails switched on, one mail job is queued for each pair of a row of
    choices of a user of that tenant, whatever the row's code, and the tenant's
    row for the event's code that says yes, where the user's row decides if it
    has a flag and the tenant's row otherwise; with either switch off no job is
    queued.  So a choice for one code counts for every code, a user with two
    rows is notified twice, and a user without any row never is.  The queue
    may hold more jobs before these, of attempts the database refused and the
    transaction repeated: they too are for such users only, and there are none
    unless such an attempt had read settings with both switches on.  No row
    changes. *)
Theorem ClassifyEvent_spec ev w u w' :
  Event.TenantID ev <> 0 -> Event.Code ev <> EmptyString ->
  ClassifyEvent ev w = (inr u, w') ->
  rows_eq w w' /\
  exists conf earlier users,
    settings_read ev w conf /\
    w_out w' = w_out w ++ map (mail_job ev) (earlier ++ users) /\
    users ≡ₚ (if mails_on conf
              then matching ev (R TUser w) (R TUserReceiveEvent w)
                     (R TTenantReceiveEvent w)
              else []) /\
    (forall u, u ∈ matching ev (R TUser w) (R TUserReceiveEvent w)
                     (R TTenantReceiveEvent w) <-> notified ev w u) /\
    forall u, u ∈ earlier -> notified ev w u /\
      exists conf, settings_read ev w conf /\ mails_on conf = true.
Proof.
  intros Ht Hc Hr. split.
  { eapply query_transaction_rows; [|exact Hr]. keep. cbv zeta. keep. }
  apply (Transaction_traced (jobs_only ev w)) in Hr as [_ Hr].
  - destruct (Hr u eq_refl) as (w1 & w2 & db & Hw & (earlier & Ho & He) & Hb & ->).
    apply (classify_body ev w) in Hb as [_ Hb]; [|done..].
    destruct (Hb u eq_refl) as (conf & users & Hconf & Hout & Hu).
    exists conf, earlier, users. split; [done|].
    split; [by rewrite List.map_app, app_assoc, <- Ho|]. split; [done|].
    split; [|exact He]. intros x. rewrite <- users_to_notify_spec by done.
    by rewrite (users_to_notify_matching ev (fun t => R t w)).
  - intros db w0. by apply out_jobs_only.
  - intros w0 x w1 Hw Hb. by apply (classify_body ev w) in Hb as [Hb _].
  - keep; cbv zeta; keep.
Qed.
End receives.

(** ** Examples *)
#[local] Existing Instance mem_backend.
#[local] Existing Instance mem_backend_laws.

(** User 3 chose event [a], user 4 nothing; mails are on. *)
Definition v_tables : tables := fun t =>
  match t with
  | TTenant => [Tenant.mk 1 "default" None true 1699000000 1699000000]
  | TUser => [s_user 3 "alice" "alicepw" None None; s_user 4 "bob" "bobpw" None None]
  | TUserReceiveEvent => [UserReceiveEvent.mk "a" 3 (Some true);
                          UserReceiveEvent.mk "a" 4 (Some false)]
  | TTenantReceiveEvent => [TenantReceiveEvent.mk "b" 1 false]
  | TTenantConfig => [TenantConfig.mk 1 "event_notification_enable" "true";
                      TenantConfig.mk 1 "event_email_notification_enable" "true"]
  | _ => []
  end.
Definition v_world : @World mem_backend := start v_tables [].

Definition v_event : Event.t := Event.mk 9 1 "b" None "" 1699990000.

(** An event [b], which the tenant does not receive, is mailed to user 3. *)
Lemma ClassifyEvent_spec_witness :
  List.length (w_out (ClassifyEvent v_event v_world).2) = 1%nat /\
  rows_eq v_world (ClassifyEvent v_event v_world).2.
Proof.
  split; [vm_compute; reflexivity|].
  apply (ClassifyEvent_spec v_event v_world tt (ClassifyEvent v_event v_world).2).
  - done.
  - done.
  - apply ran. vm_compute. reflexivity.
Defined.

Definition v_items : list EventReceive.t :=
  [EventReceive.mk "a" (Some false); EventReceive.mk "b" (Some true);
   EventReceive.mk "a" None].

Definition v_set := NtHandler.SetUserEventReceives (s_ctx s_req_alice) (Some v_items) v_world.

Lemma SetEventReceives_spec_witness :
  R TUserReceiveEvent v_set.2
  = [UserReceiveEvent.mk "b" 3 (Some true); UserReceiveEvent.mk "a" 4 (Some false)] /\
  (forall t, t <> TUserReceiveEvent -> R t v_set.2 = R t v_world).
Proof.
  split; [vm_compute; reflexivity|].
  destruct (proj1 (SetEventReceives_spec (s_ctx s_req_alice) 1 s_req_alice (Some v_items)
    v_world tt v_set.2 ltac:(vm_compute; reflexivity) ltac:(vm_compute; reflexivity)))
    as (l & _ & _ & _ & _ & Ho).
  - apply ran. vm_compute. reflexivity.
  - exact Ho.
Defined.

Definition v_reset := NtHandler.ResetUserEventReceives (s_ctx s_req_alice) v_world.

Lemma ResetUserEventReceives_all_witness : R TUserReceiveEvent v_reset.2 = [].
Proof.
  apply (ResetUserEventReceives_all (s_ctx s_req_alice) v_world tt v_reset.2).
  apply ran. vm_compute. reflexivity.
Defined.
