(* ===== verification/GwWrapper.v ===== *)
(** * services/api-gateway: HTTP as the gateway sees it (requests, what a handler
    does to its response writer, and what the server sends: net/http, regexp,
    strings), and the handler and its wrappers (handler/, handler/wrapper/) *)

From stdpp Require Import base tactics list strings gmap.
From Stdlib Require Import ZArith Lia Ascii.
From S2P Require Import Prelude GoStd Json Model Backend Proto Errors Metadata Gorm.
From S2P Require Import Report IdBase.
#[local] Open Scope Z_scope.
#[local] Open Scope go_scope.

(** ** Headers: canonical keys with their values *)
Abbreviation Values := (gmap string (list string)).

(** [h.Get(key)]: the first value. *)
Definition hget (key : string) (h : Values) : string :=
  match h !! key with Some (v :: _) => v | _ => EmptyString end.

(** [h.Set(key, value)] *)
Definition hset (key value : string) (h : Values) : Values :=
  <[key := [value]]> h.

(** A request; [Query] is its parsed query string. *)
Record Request := mkRequest {
  Method : string;
  Path : string;
  RemoteAddr : string;
  Query : Values;
  Header : Values
}.

Definition set_Header (h : Values) (r : Request) : Request :=
  mkRequest (Method r) (Path r) (RemoteAddr r) (Query r) h.
Definition set_Query (q : Values) (r : Request) : Request :=
  mkRequest (Method r) (Path r) (RemoteAddr r) q (Header r).

(** ** What a handler does to its response writer *)
Inductive wcall :=
| WriteHeader (status : Z)
| SetHeader (key value : string)
| Write (body : string)
| Hijack.

(** The answer of the server: its status line with the headers at that time,
    and the body; [rs_taken] when the connection was taken over, [rs_aborted] when
    the handler panicked: the server then closes the connection, and what was not
    sent before is not sent. *)
Record Response := mkResponse {
  rs_status : option Z;
  rs_header : Values;
  rs_sent : Values;
  rs_body : string;
  rs_taken : bool;
  rs_aborted : bool
}.

Definition no_response : Response := mkResponse None ∅ ∅ EmptyString false false.

(** No body is sent with these. *)
Definition bodyAllowed (status : Z) : bool :=
  negb (((100 <=? status) && (status <=? 199)) || (status =? 204)
        || (status =? 304)).

(** [checkWriteHeaderCode]: any other code is a panic. *)
Definition valid_status (status : Z) : bool := (100 <=? status) && (status <=? 999).

(** The first status counts and is checked; headers set after it are not sent; a
    body without a status is sent with 200.  (This is net/http of Go 1.14, which
    the services are built with.) *)
Definition write_status (status : Z) (s : Response) : Response :=
  match rs_status s with
  | Some _ => s
  | None =>
      if valid_status status then
        mkResponse (Some status) (rs_header s) (rs_header s) (rs_body s)
          (rs_taken s) (rs_aborted s)
      else mkResponse None (rs_header s) (rs_sent s) (rs_body s) (rs_taken s) true
  end.

(** Nothing can be written any more. *)
Definition closed (s : Response) : bool := rs_taken s || rs_aborted s.

(** After a panic the calls that follow are not made. *)
Definition emit (s : Response) (c : wcall) : Response :=
  if closed s then s
  else match c with
  | WriteHeader n => write_status n s
  | SetHeader k v =>
      mkResponse (rs_status s) (hset k v (rs_header s)) (rs_sent s) (rs_body s)
        false false
  | Write b =>
      let s := write_status 200 s in
      if bodyAllowed (default 200 (rs_status s)) then
        mkResponse (rs_status s) (rs_header s) (rs_sent s)
          (String.append (rs_body s) b) false false
      else s
  | Hijack =>
      mkResponse (rs_status s) (rs_header s) (rs_sent s) (rs_body s) true false
  end.

(** A handler that returns and wrote nothing is answered with 200. *)
Definition respond (calls : list wcall) : Response :=
  let s := fold_left emit calls no_response in
  if closed s then s else write_status 200 s.

(** ** strings *)

(** [strings.Contains(s, sub)] *)
Fixpoint Contains (s sub : string) : bool :=
  Strings.HasPrefix s sub
  || match s with EmptyString => false | String _ s => Contains s sub end.

(** [strings.Join(vs, sep)] *)
Fixpoint Join_with (sep : string) (vs : list string) : string :=
  match vs with
  | [] => EmptyString
  | [v] => v
  | v :: vs => String.append v (String.append sep (Join_with sep vs))
  end.

(** ** Regular expressions: literals, [.] and [.*] between anchors *)
Inductive item := Lit (c : Z) | Any | Star.

(** The items of an expression without its anchors; a backslash takes the next
    byte as it is. *)
Fixpoint compile (l : list Z) : list item :=
  match l with
  | [] => []
  | 92 :: c :: l => Lit c :: compile l
  | 46 :: 42 :: l => Star :: compile l
  | 46 :: l => Any :: compile l
  | c :: l => Lit c :: compile l
  end.

(** The whole text matches: [.] is a rune that is no newline, [.*] any number
    of them.  [skip] bytes of the rune of a [.] are still to be passed. *)
Fixpoint matches (p : list item) : nat -> list Z -> bool :=
  match p with
  | [] => fun skip l =>
      match l with [] => true | _ => false end
  | Lit c :: p => fun _ l =>
      match l with d :: l => (c =? d) && matches p 0 l | [] => false end
  | Any :: p =>
      fix any (skip : nat) (l : list Z) : bool :=
        match skip, l with
        | S O, _ :: l => matches p 0 l
        | S skip, _ :: l => any skip l
        | O, d :: l' =>
            if d =? 10 then false
            else match Utf8.rune_size l with
                 | S (S n) => any (S n) l'
                 | _ => matches p 0 l'
                 end
        | _, [] => false
        end
  | Star :: p =>
      fix star (skip : nat) (l : list Z) : bool :=
        matches p 0 l
        || match l with
           | d :: l => negb (d =? 10) && star 0%nat l
           | [] => false
           end
  end.

(** [regexp.MustCompile("^" + exp + "$").MatchString(s)] *)
Definition MatchString (exp s : string) : bool :=
  matches (compile (Bytes.to_bytes exp)) 0 (Bytes.to_bytes s).

(** ** services/api-gateway: the wrappers around the gateway's RPC handler
    (handler/wrapper) and their order (handler/apigateway.go, main.go) *)
(** What the router answers of a request it knows no endpoint for:
    [registry.ErrNotFound], or another error. *)
Inductive route_error := RouteNotFound | RouteFailed (text : string).

(** What the wrappers call: the identity service, the router of go-micro (by
    the number of the call), and the generator of request identifiers. *)
Class Upstream `{Backend} := {
  VerifySession : Ctx -> Act (option IUser.t);
  CheckAuthorization : Ctx -> string -> Act unit;
  Route : nat -> Request -> route_error + string;
  new_uuid : nat -> string
}.

(** The endpoints found so far, by method and path. *)
Abbreviation Services := (gmap string string).

(** A handler: with the endpoints found so far and a request, which it may
    change, it makes calls on its response writer. *)
Definition Handler `{Backend} : Type :=
  Services -> Request -> Act (Services * Request * list wcall).

(** ** wrapper.go *)
Definition loginPath : string := "/identity/auth".
Definition sessionCheckPath : string := "/identity/sessions/check".

Definition MethodDelete : string := "DELETE".

(** [registry.ErrNotFound] *)
Definition registry_ErrNotFound : err := EPlain "service not found".

Definition micro_text (e : MicroError) : string :=
  Json.Marshal (micro_json (me_id e) (me_detail e) (me_code e) (me_status e)).

Section wrapper.
Context `{Backend}.

(** The content type, and the trailers of gRPC. *)
Definition error_headers (r : Request) (detail : string) : list wcall :=
  SetHeader "Content-Type" "application/json"
  :: (if Contains (hget "Content-Type" (Header r)) "application/grpc" then
        [SetHeader "Trailer" "grpc-status"; SetHeader "Trailer" "grpc-message";
         SetHeader "grpc-status" "13"; SetHeader "grpc-message" detail]
      else []).

Definition writeError (r : Request) (e : err) : list wcall :=
  let ce := micro_parse (error_string e) in
  let ce :=
    if me_code ce =? 0
    then mkMicroError (me_id ce) 500
           (String.append "error during request: " (me_detail ce))
           (StatusText 500)
    else ce in
  WriteHeader (me_code ce) :: error_headers r (me_detail ce)
  ++ [Write (micro_text ce)].

(** ** wrapper_cors.go *)
Definition cors_calls : list wcall :=
  [SetHeader "Access-Control-Allow-Origin" "*";
   SetHeader "Access-Control-Allow-Methods" "GET,POST,PUT,PATCH,DELETE,OPTIONS";
   SetHeader "Access-Control-Allow-Headers" "*";
   SetHeader "Access-Control-Expose-Headers" HeaderAuthenticatedSession].

Definition corsHandler (next : Handler) : Handler := fun services r =>
  if (Strings.ToUpper (Method r) =? "OPTIONS")%string then ret (services, r, cors_calls)
  else
    do* (services, r, calls) <- next services r ;;
    ret (services, r, cors_calls ++ calls).

(** ** wrapper_websocket.go: the session and the tenant of the query become
    headers. *)
Definition from_query (key : string) (r : Request) : Request :=
  match Query r !! key with
  | Some (v :: _) => set_Header (hset key v (Header r)) r
  | _ => r
  end.

Definition websocket_request (r : Request) : Request :=
  let q := delete HeaderTenantID (delete HeaderAuthenticatedSession (Query r)) in
  set_Query q
    (from_query HeaderTenantID (from_query HeaderAuthenticatedSession r)).

Definition websocketHandler (next : Handler) : Handler := fun services r =>
  next services (websocket_request r).

(** ** wrapper_record.go: the status is kept and not used yet. *)
Definition recordHandler (next : Handler) : Handler := next.

(** ** wrapper_error_conversion.go *)

(** [json.Unmarshal] into an error of go-micro; [None] is its error. *)
Definition micro_unmarshal (s : string) : option MicroError :=
  match Json.Parse s with
  | Some (JObj ms) =>
      let '(id, k1) := Dec.field "id" Dec.string_ EmptyString ms in
      let '(code, k2) := Dec.field "code" Dec.int32 0 ms in
      let '(detail, k3) := Dec.field "detail" Dec.string_ EmptyString ms in
      let '(status, k4) := Dec.field "status" Dec.string_ EmptyString ms in
      if k1 && k2 && k3 && k4 then Some (mkMicroError id code detail status)
      else None
  | Some JNull => Some (mkMicroError "" 0 "" "")
  | _ => None
  end.

Definition parseError (detail : string) : json :=
  let '(code, contents) :=
    match message_parse detail with
    | Some m => m
    | None => (detail, EmptyString)
    end in
  JObj [("message",
         JObj (Enc.str "code" code ++ Enc.str "contents" contents))].

(** [errConversionResponseWriter.Write] *)
Definition convert (buf : string) : string :=
  match micro_unmarshal buf with
  | Some e =>
      if is_empty (me_detail e) then buf
      else Json.Marshal (parseError (me_detail e))
  | None => buf
  end.

Definition convert_call (c : wcall) : wcall :=
  match c with Write buf => Write (convert buf) | c => c end.

Definition errorConversionHandler (next : Handler) : Handler :=
  fun services r =>
    do* (services, r, calls) <- next services r ;;
    ret (services, r, map convert_call calls).

(** ** wrapper_error_filter.go *)
Record errFilter := mkFilter {
  ef_body : string;
  ef_status : Z;
  ef_hijacked : bool
}.

(** Status and body are kept back; the headers pass. *)
Definition filter_call (s : errFilter) (c : wcall) : errFilter :=
  match c with
  | WriteHeader n => mkFilter (ef_body s) n (ef_hijacked s)
  | Write b => mkFilter (String.append (ef_body s) b) (ef_status s) (ef_hijacked s)
  | Hijack => mkFilter (ef_body s) (ef_status s) true
  | SetHeader _ _ => s
  end.

Definition passes (c : wcall) : bool :=
  match c with SetHeader _ _ | Hijack => true | _ => false end.

Definition flush (s : errFilter) : list wcall :=
  if ef_hijacked s then [] else [WriteHeader (ef_status s); Write (ef_body s)].

Definition invalidParameterErrors : list string :=
  ["grpc: failed to unmarshal the received message json: cannot unmarshal .* into Go value of type .*";
   "error during request: invalid character .* after top-level value";
   "error during request: unexpected end of JSON input";
   "error during request: invalid character .* in string escape code";
   "grpc: error while marshaling: json: error calling MarshalJSON for type \*json.RawMessage: invalid character .*";
   "grpc: failed to unmarshal the received message unknown field .*";
   "grpc: failed to unmarshal the received message unexpected end of JSON input";
   "grpc: failed to unmarshal the received message invalid character .*";
   "grpc: error while marshaling: json: error calling MarshalJSON for type \*json.RawMessage: unexpected end of JSON input"]%string.

(** [ctx.FromRequest] *)
Definition FromRequest (r : Request) : Ctx := Join_with "," <$> Header r.

(** The status functions of common/errors with a text as the contents. *)
Definition text_message (eventCode errorCode text : string) : string :=
  Json.Marshal (JObj
    (Enc.str "code" (String.append eventCode (String.append ":" errorCode))
     ++ Enc.str "contents" (Json.Marshal (JStr text)))).

Definition status_text (code : Z) (ctx : Ctx) (eventCode errorCode text : string)
    : Act err :=
  match GetTenantID ctx with
  | inl _ => ret tt
  | inr id =>
      attempt (Publish QueueReportEvent (Json.Marshal (Event_json
        (Event.mk 0 id eventCode (Some errorCode) (Json.Marshal (JStr text)) 0)))) ;;
      ret tt
  end ;;
  ret (EMicro "cdm" (text_message eventCode errorCode text) code).

(** What the filter makes of an answer with status 500. *)
Definition filtered_error (r : Request) (s : errFilter) : Act (list wcall) :=
  let detail := me_detail (micro_parse (ef_body s)) in
  if (detail =? error_string registry_ErrNotFound)%string then
    e <- status_text 404 (FromRequest r)
           "cdm-cloud.api_gateway.error_filter.failure-parse" "not_found_service"
           detail ;;
    ret (writeError r e)
  else if existsb (fun exp => MatchString exp detail) invalidParameterErrors then
    e <- status_text 400 (FromRequest r)
           "cdm-cloud.api_gateway.error_filter.failure-match_string"
           "invalid_parameter" detail ;;
    ret (writeError r e)
  else ret (flush s).

Definition errorFilterHandler (next : Handler) : Handler := fun services r =>
  do* (services, r, calls) <- next services r ;;
  let s := fold_left filter_call calls (mkFilter EmptyString 200 false) in
  let passed := List.filter passes calls in
  if ef_status s =? 500 then
    calls <- filtered_error r s ;;
    ret (services, r, passed ++ calls)
  else ret (services, r, passed ++ flush s).
End wrapper.

(** ** wrapper_auth.go *)
Section auth.
Context `{Upstream}.

(** [strings.Split(r.RemoteAddr, ":")[0]] *)
Definition client_ip (r : Request) : string :=
  match Strings.Split (RemoteAddr r) ":"%char with
  | ip :: _ => ip
  | [] => EmptyString
  end.

(** The login and the check of a session are not authenticated. *)
Definition unauthenticated (r : Request) : bool :=
  ((Path r =? sessionCheckPath)%string && negb (Method r =? MethodDelete)%string)
  || ((Path r =? loginPath)%string && negb (Method r =? MethodDelete)%string).

(** go-micro's [metadata.Set]: an empty value deletes the key. *)
Definition meta_set (key value : string) (ctx : Ctx) : Ctx :=
  if is_empty value then delete key ctx else <[key := value]> ctx.

Definition request_tenant (r : Request) : string :=
  let id := hget HeaderTenantID (Header r) in
  if is_empty id then "0"%string else id.

Definition session_ctx (r : Request) : Ctx :=
  meta_set HeaderTenantID (request_tenant r)
    (meta_set HeaderAuthenticatedSession
       (hget HeaderAuthenticatedSession (Header r))
       (meta_set HeaderClientIP (client_ip r) ∅)).

Definition user_ctx (r : Request) (user : string) : Ctx :=
  meta_set HeaderTenantID (request_tenant r)
    (meta_set HeaderAuthenticatedUser user ∅).

Definition route_key (r : Request) : string :=
  String.append (Method r) (String.append ":" (Path r)).

Definition route_failure : string :=
  "cdm-cloud.api_gateway.route_auth.failure-route".

Definition route (ctx : Ctx) (r : Request) : Act string :=
  x <- on_tick (fun n => Route n r) ;;
  match x with
  | inr endpoint => ret endpoint
  | inl e =>
      e' <- match e with
            | RouteNotFound =>
                status_text 404 ctx route_failure "not_found_service"
                  (error_string registry_ErrNotFound)
            | RouteFailed text => status_text 500 ctx route_failure "unknown" text
            end ;;
      throw e'
  end.

(** [GenRequestID] *)
Definition GenRequestID : Act string :=
  id <- on_tick new_uuid ;;
  ret (String.substring 0 12 (Strings.ReplaceAll id "-" "")).

(** What becomes of a request: it is passed on as changed, or answered. *)
Definition endpoint_of (ctx : Ctx) (services : Services) (r : Request)
    : Act (err + Services * string) :=
  x <- attempt (route ctx r) ;;
  match x with
  | inr endpoint => ret (inr (<[route_key r := endpoint]> services, endpoint))
  | inl e =>
      let cached := default EmptyString (services !! route_key r) in
      if Equal (Some e) registry_ErrNotFound && negb (is_empty cached)
      then ret (inr (services, cached))
      else ret (inl e)
  end.

Definition authHandler (next : Handler) : Handler := fun services r =>
  if unauthenticated r then
    next services (set_Header (hset HeaderClientIP (client_ip r) (Header r)) r)
  else
    x <- attempt (VerifySession (session_ctx r)) ;;
    match x with
    | inl e => ret (services, r, writeError r e)
    | inr rsp =>
        user <- deref rsp ;;
        session <- deref (IUser.Session user) ;;
        let answer := [SetHeader HeaderAuthenticatedSession (ISession.Key session)] in
        let b := Json.Marshal (IUser_enc user) in
        let ctx := user_ctx r b in
        y <- endpoint_of ctx services r ;;
        match y with
        | inl e => ret (services, r, answer ++ writeError r e)
        | inr (services, endpoint) =>
            z <- attempt (CheckAuthorization ctx endpoint) ;;
            match z with
            | inl e => ret (services, r, answer ++ writeError r e)
            | inr _ =>
                let h := hset HeaderAuthenticatedUser b (Header r) in
                reqID <- GenRequestID ;;
                do* (services, r, calls) <-
                  next services (set_Header (hset HeaderRequestID reqID h) r) ;;
                ret (services, r, answer ++ calls)
            end
        end
    end.

(** ** apigateway.go, main.go: each wrapper goes around those before it. *)
Definition NewAPIGatewayHandler (wrappers : list (Handler -> Handler))
    (rpc : Handler) : Handler :=
  fold_left (fun handler wrap => wrap handler) wrappers rpc.

Definition gateway_wrappers : list (Handler -> Handler) :=
  [authHandler; errorFilterHandler; errorConversionHandler; websocketHandler;
   corsHandler].

(** One request served; the server sends what [respond] makes of the calls. *)
Definition gateway (rpc : Handler) (services : Services) (r : Request)
    : Act (Services * Response) :=
  do* (services, _, calls) <-
    NewAPIGatewayHandler gateway_wrappers rpc services r ;;
  ret (services, respond calls).
End auth.
