(* ===== verification/GwFacts.v ===== *)
(** * The gateway: which requests reach the RPC handler, and what becomes of
    an answer on its way out *)

From stdpp Require Import base tactics list strings gmap.
From Stdlib Require Import ZArith Lia Ascii.
From S2P Require Import Prelude GoStd Json Model Backend Proto Errors Metadata UserJson.
From S2P Require Import Gorm GormFacts Report IdBase IdFacts ErrorFacts GwWrapper.
#[local] Open Scope Z_scope.
#[local] Open Scope go_scope.

(** ** How a wrapper uses the handler it goes around *)
Section wrapping.
Context `{Backend}.

(** The wrapper answers without the handler. *)
Definition alone (h : Handler -> Handler) s r w : Prop :=
  forall n1 n2 : Handler, h n1 s r w = h n2 s r w.

(** The wrapper's run depends on the handler by one run of it only. *)
Definition through (h : Handler -> Handler) s r w s' r' w' : Prop :=
  forall n1 n2 : Handler, n1 s' r' w' = n2 s' r' w' -> h n1 s r w = h n2 s r w.

Definition around (h1 h2 : Handler -> Handler) : Handler -> Handler :=
  fun n => h1 (h2 n).

Lemma around_alone h1 h2 s r w s' r' w' :
  through h1 s r w s' r' w' -> alone h2 s' r' w' -> alone (around h1 h2) s r w.
Proof. intros Ht Ha n1 n2. apply Ht, Ha. Qed.

Lemma around_through h1 h2 s r w s' r' w' s2 r2 w2 :
  through h1 s r w s' r' w' -> through h2 s' r' w' s2 r2 w2 ->
  through (around h1 h2) s r w s2 r2 w2.
Proof. intros H1 H2 n1 n2 Hn. by apply H1, H2. Qed.

Lemma through_bind (k : Services * Request * list wcall ->
    Act (Services * Request * list wcall)) s r w :
  through (fun n s r => bind (n s r) k) s r w s r w.
Proof. intros n1 n2 Hn. unfold bind. by rewrite Hn. Qed.

Lemma through_conversion s r w :
  through errorConversionHandler s r w s r w.
Proof. apply through_bind. Qed.

Lemma through_filter s r w : through errorFilterHandler s r w s r w.
Proof. apply through_bind. Qed.

Lemma through_websocket s r w :
  through websocketHandler s r w s (websocket_request r) w.
Proof. by intros n1 n2 Hn. Qed.

Lemma through_cors s r w :
  alone corsHandler s r w \/
  (Strings.ToUpper (Method r) <> "OPTIONS"%string /\ through corsHandler s r w s r w).
Proof.
  destruct (String.eqb_spec (Strings.ToUpper (Method r)) "OPTIONS") as [E|E].
  - left. intros n1 n2. unfold corsHandler. by rewrite E.
  - right. split; [done|]. intros n1 n2 Hn. unfold corsHandler.
    rewrite (proj2 (String.eqb_neq _ _) E). unfold bind. by rewrite Hn.
Qed.

Lemma from_query_same key r :
  Method (from_query key r) = Method r /\ Path (from_query key r) = Path r /\
  RemoteAddr (from_query key r) = RemoteAddr r.
Proof.
  unfold from_query. destruct (Query r !! key) as [[|v l]|]; done.
Qed.
End wrapping.

(** ** Authentication *)
Section auth_facts.
Context `{Upstream}.

(** The text of a go-micro error is an object. *)
Lemma micro_text_brace id detail code m :
  error_string (EMicro id detail code) = m -> exists s, m = String "{" s.
Proof. intros <-. eexists. reflexivity. Qed.

Lemma status_text_micro code ctx ev ec text w r w' :
  status_text code ctx ev ec text w = (r, w') ->
  r = inr (EMicro "cdm" (text_message ev ec text) code).
Proof.
  unfold status_text. intros [(e & Hc & _)|(u & w1 & _ & Hr)]%bind_inv.
  - destruct (GetTenantID ctx); [done|].
    by apply bind_inl in Hc as [(x & ? & _)%attempt_inv|(x & w1 & _ & Hc)].
  - by apply ret_inv in Hr as [-> _].
Qed.

(** An endpoint comes from the router, never from those found before: the
    router's error has been made a status error when it is compared with
    [registry.ErrNotFound]. *)
Lemma endpoint_of_route ctx s r w s' endpoint w' :
  endpoint_of ctx s r w = (inr (inr (s', endpoint)), w') ->
  Route (w_tick w) r = inr endpoint /\ s' = <[route_key r := endpoint]> s.
Proof.
  unfold endpoint_of. intros (x & w1 & (y & [= <-] & Hx)%attempt_inv & Hr)%bind_inr.
  unfold route in Hx. apply bind_inv in Hx as [(e & ? & _)|(z & w2 & Hz & Hx)];
    [done|].
  injection Hz as <- <-.
  destruct (Route _ _) as [e|ep]; [|].
  - apply bind_inv in Hx as [(e' & Hx & ->)|(e' & w3 & Hx & Ht)].
    + destruct e; by apply status_text_micro in Hx.
    + apply throw_inv in Ht as [-> ->].
      assert (exists d c, e' = EMicro "cdm" d c) as (d & c & ->).
      { destruct e; apply status_text_micro in Hx as [= ->]; eauto. }
      destruct (Equal _ _) eqn:Eq; [|by apply ret_inv in Hr as [[=] _]].
      unfold Equal in Eq. apply String.eqb_eq, micro_text_brace in Eq as (? & [=]).
  - apply ret_inv in Hx as [-> ->]. by apply ret_inv in Hr as [[= -> ->] _].
Qed.

(** The request that is passed on for a user. *)
Definition forwarded (r : Request) (user : IUser.t) (reqID : string) : Request :=
  set_Header (hset HeaderRequestID reqID
    (hset HeaderAuthenticatedUser (Json.Marshal (IUser_enc user)) (Header r))) r.

(** What happened before a request was passed on for [user]. *)
Definition admitted (s : Services) (r : Request) (w : World) (s' : Services)
    (user : IUser.t) (endpoint : string) : Prop :=
  exists w1 w2 w3,
    VerifySession (session_ctx r) w = (inr (Some user), w1) /\
    Route (w_tick w1) r = inr endpoint /\
    s' = <[route_key r := endpoint]> s /\
    CheckAuthorization (user_ctx r (Json.Marshal (IUser_enc user))) endpoint w2
      = (inr tt, w3).

Lemma authHandler_cases s r w :
  (unauthenticated r = true /\
   through authHandler s r w s
     (set_Header (hset HeaderClientIP (client_ip r) (Header r)) r) w) \/
  alone authHandler s r w \/
  exists s' user endpoint reqID w', admitted s r w s' user endpoint /\
    through authHandler s r w s' (forwarded r user reqID) w'.
Proof.
  destruct (unauthenticated r) eqn:Eu.
  { left. split; [done|]. intros n1 n2 Hn. unfold authHandler. by rewrite Eu. }
  right. unfold alone, through, admitted, authHandler, bind, attempt, deref, ret.
  rewrite Eu.
  destruct (VerifySession (session_ctx r) w) as [[e|o] w1] eqn:Ev; [by left|].
  destruct o as [user|]; [|by left]. cbv beta iota.
  destruct (IUser.Session user) as [session|]; [|by left]. cbv beta iota.
  destruct (endpoint_of _ s r w1) as [[e|[e|[s' endpoint]]] w2] eqn:Ee;
    [by left..|].
  destruct (CheckAuthorization _ endpoint w2) as [[e|[]] w3] eqn:Ec; [by left|].
  right. apply endpoint_of_route in Ee as [Hroute ->].
  destruct (GenRequestID w3) as [[e|reqID] w4] eqn:Eg; [discriminate Eg|].
  eexists _, user, endpoint, reqID, w4. 
  split; [by exists w1, w2, w3|].
  intros n1 n2 Hn. unfold forwarded in Hn. by rewrite Hn.
Qed.

(** What the handler behind reads as the user of a request passed on. *)
Lemma forwarded_user r user reqID :
  user_msg user ->
  GetAuthenticatedUser (FromRequest (forwarded r user reqID)) = inr user.
Proof.
  intros Hu. apply GetAuthenticatedUser_Marshal; [done|].
  unfold FromRequest, forwarded, set_Header, hset. cbn.
  rewrite lookup_fmap, lookup_insert_ne, lookup_insert_eq by done. done.
Qed.

(** What the identity service is asked with. *)
Lemma user_ctx_user r user :
  user_msg user ->
  GetAuthenticatedUser (user_ctx r (Json.Marshal (IUser_enc user))) = inr user.
Proof.
  intros Hu. apply GetAuthenticatedUser_Marshal; [done|].
  unfold user_ctx, meta_set at 2. change (is_empty _) with false. unfold meta_set.
  destruct (is_empty (request_tenant r)).
  - rewrite lookup_delete_ne by done. apply lookup_insert_eq.
  - rewrite lookup_insert_ne by done. apply lookup_insert_eq.
Qed.

Lemma user_ctx_tenant r b :
  user_ctx r b !! HeaderTenantID = Some (request_tenant r).
Proof.
  unfold user_ctx, meta_set at 1. assert (is_empty (request_tenant r) = false) as ->.
  { unfold request_tenant. by destruct (is_empty (hget _ _)) eqn:E. }
  apply lookup_insert_eq.
Qed.
End auth_facts.

(** ** What the server sends, and what the texts of errors match *)
(** ** The language of an expression *)

(** One rune, or one byte that starts none, before [l]. *)
Definition rune (u l : list Z) : Prop :=
  exists c v, u = c :: v /\ c <> 10 /\
    List.length v = Nat.pred (Utf8.rune_size (u ++ l)).

Inductive lang : list item -> list Z -> Prop :=
| lang_end : lang [] []
| lang_lit c p l : lang p l -> lang (Lit c :: p) (c :: l)
| lang_any u p l : rune u l -> lang p l -> lang (Any :: p) (u ++ l)
| lang_star u p l : Forall (fun c => c <> 10) u -> lang p l ->
    lang (Star :: p) (u ++ l).

Lemma matches_skip p n l :
  matches (Any :: p) (S n) l = true <->
  exists v l', l = v ++ l' /\ List.length v = S n /\ matches p 0 l' = true.
Proof.
  revert l. induction n as [|n IH]; intros l.
  - destruct l as [|c l]; cbn.
    + split; [done|]. by intros ([|? ?] & l' & ? & ? & _).
    + split; [by exists [c], l|].
      intros ([|d [|? ?]] & l' & Hl & Hv & Hm); [done| |done].
      by injection Hl as _ ->.
  - destruct l as [|c l].
    + split; [done|]. by intros ([|? ?] & l' & ? & ? & _).
    + change (matches (Any :: p) (S (S n)) (c :: l))
        with (matches (Any :: p) (S n) l). rewrite IH. split.
      * intros (v & l' & -> & Hv & Hm). exists (c :: v), l'. cbn. by rewrite Hv.
      * intros ([|d v] & l' & Hl & Hv & Hm); [done|].
        injection Hl as -> ->. exists v, l'. cbn in Hv. by injection Hv.
Qed.

Lemma matches_any p l :
  matches (Any :: p) 0 l = true <->
  exists u l', l = u ++ l' /\ rune u l' /\ matches p 0 l' = true.
Proof.
  destruct l as [|c l].
  { split; [done|]. by intros (u & l' & Hl & (d & v & -> & _) & _). }
  change (matches (Any :: p) 0 (c :: l)) with
    (if c =? 10 then false
     else match Utf8.rune_size (c :: l) with
          | S (S n) => matches (Any :: p) (S n) l
          | _ => matches p 0 l
          end).
  destruct (Z.eqb_spec c 10) as [->|Hc].
  { split; [done|]. intros (u & l' & Hl & (d & v & -> & Hd & _) & _).
    by injection Hl as <- _. }
  assert (Utf8.rune_size (c :: l) = 0%nat \/
    Utf8.rune_size (c :: l) = 1%nat ->
    (exists u l', c :: l = u ++ l' /\ rune u l' /\ matches p 0 l' = true) <->
    matches p 0 l = true) as Hone.
  { intros Hs. split.
    - intros (u & l' & Hl & (d & v & -> & _ & Hv) & Hm).
      rewrite <- Hl in Hv. destruct v; [by injection Hl as _ ->|].
      destruct Hs as [Hs|Hs]; by rewrite Hs in Hv.
    - intros Hm. exists [c], l. split; [done|]. split; [|done].
      exists c, []. split_and!; [done..|]. cbn [app].
      by destruct Hs as [Hs|Hs]; rewrite Hs. }
  destruct (Utf8.rune_size (c :: l)) as [|[|n]] eqn:Es;
    [by rewrite Hone; auto..|].
  rewrite matches_skip. split.
  - intros (v & l' & -> & Hv & Hm). exists (c :: v), l'. split; [done|].
    split; [|done]. exists c, v. split_and!; [done..|]. cbn [app]. by rewrite Es.
  - intros (u & l' & Hl & (d & v & -> & _ & Hv) & Hm).
    rewrite <- Hl, Es in Hv. injection Hl as -> ->. by exists v, l'.
Qed.

Lemma matches_star p l :
  matches (Star :: p) 0 l = true <->
  exists u l', l = u ++ l' /\ Forall (fun c => c <> 10) u /\
    matches p 0 l' = true.
Proof.
  induction l as [|c l IH].
  - cbn. rewrite orb_false_r. split; [by exists [], []|].
    intros (u & l' & [-> ->]%eq_sym%app_eq_nil & _ & Hm). done.
  - change (matches (Star :: p) 0 (c :: l)) with
      (matches p 0 (c :: l) || (negb (c =? 10) && matches (Star :: p) 0 l)).
    rewrite orb_true_iff, andb_true_iff, IH. split.
    + intros [Hm|[Hc (u & l' & -> & Hu & Hm)]]; [by exists [], (c :: l)|].
      exists (c :: u), l'. split_and!; [done| |done]. constructor; [|done].
      by destruct (Z.eqb_spec c 10).
    + intros ([|d u] & l' & Hl & Hu & Hm); cbn in Hl; [left; by rewrite Hl|].
      injection Hl as <- ->. apply Forall_cons in Hu as [Hc Hu].
      right. split; [by destruct (Z.eqb_spec c 10)|]. by exists u, l'.
Qed.

(** The matcher decides the language. *)
Lemma matches_lang p l : matches p 0 l = true <-> lang p l.
Proof.
  revert l. induction p as [|[c| |] p IH]; intros l.
  - split; [by destruct l; [constructor|]|]. by inversion 1.
  - split.
    + destruct l as [|d l]; [done|].
      intros [->%Z.eqb_eq Hm]%andb_true_iff. constructor. by apply IH.
    + inversion 1; subst. cbn [matches]. rewrite Z.eqb_refl. by apply IH.
  - rewrite matches_any. split.
    + intros (u & l' & -> & Hu & Hm). constructor; [done|]. by apply IH.
    + inversion 1; subst. eexists _, _. split_and!; [done..|]. by apply IH.
  - rewrite matches_star. split.
    + intros (u & l' & -> & Hu & Hm). constructor; [done|]. by apply IH.
    + inversion 1; subst. eexists _, _. split_and!; [done..|]. by apply IH.
Qed.

(** A text that starts with a brace matches none of the expressions. *)
Lemma brace_not_invalid s :
  existsb (fun exp => MatchString exp (String "{" s)) invalidParameterErrors
  = false.
Proof. reflexivity. Qed.

(** ** An answer on its way out *)
Definition is_header (c : wcall) : Prop :=
  match c with SetHeader _ _ => True | _ => False end.

Lemma emit_headers hs s :
  Forall is_header hs -> rs_taken s = false -> rs_aborted s = false ->
  exists h, fold_left emit hs s
    = mkResponse (rs_status s) h (rs_sent s) (rs_body s) false false.
Proof.
  intros Hh. revert s. induction Hh as [|c hs Hc _ IH]; intros s Hs Ha.
  - exists (rs_header s). destruct s; cbn in *. by subst.
  - destruct c; try done. cbn [fold_left].
    assert (emit s (SetHeader key value) = mkResponse (rs_status s)
      (hset key value (rs_header s)) (rs_sent s) (rs_body s) false false) as E.
    { unfold emit, closed. by rewrite Hs, Ha. }
    rewrite E. destruct (IH (mkResponse (rs_status s) (hset key value (rs_header s))
      (rs_sent s) (rs_body s) false false)) as [h Hf]; [done..|]. by exists h.
Qed.

(** The answer with these headers, this status and this body. *)
Definition answer (hs : list wcall) (code : Z) (hs' : list wcall) (body : string)
    : list wcall :=
  hs ++ WriteHeader code :: hs' ++ [Write body].

(** What the client gets: the status and the body, or nothing at all when the
    status is none of HTTP. *)
Definition sent_to_client (code : Z) (body : string) (resp : Response) : Prop :=
  if valid_status code then
    rs_status resp = Some code /\
    rs_body resp = (if bodyAllowed code then body else EmptyString) /\
    rs_taken resp = false /\ rs_aborted resp = false
  else rs_status resp = None /\ rs_body resp = EmptyString /\ rs_aborted resp = true.

Lemma emit_closed calls s : closed s = true -> fold_left emit calls s = s.
Proof.
  intros Hs. induction calls as [|c calls IH]; [done|]. cbn.
  assert (emit s c = s) as -> by (unfold emit; by rewrite Hs). exact IH.
Qed.

Lemma respond_answer hs code hs' body :
  Forall is_header hs -> Forall is_header hs' ->
  sent_to_client code body (respond (answer hs code hs' body)).
Proof.
  intros Hh Hh'. unfold respond, answer, sent_to_client. rewrite fold_left_app.
  destruct (emit_headers hs no_response Hh eq_refl eq_refl) as [h ->].
  cbn [fold_left rs_status rs_sent rs_body no_response].
  assert (emit (mkResponse None h ∅ EmptyString false false) (WriteHeader code)
    = if valid_status code then mkResponse (Some code) h h EmptyString false false
      else mkResponse None h ∅ EmptyString false true) as -> by reflexivity.
  destruct (valid_status code); [|by rewrite emit_closed].
  rewrite fold_left_app.
  destruct (emit_headers hs' (mkResponse (Some code) h h EmptyString false false) Hh'
    eq_refl eq_refl) as [h' ->].
  cbn. unfold emit, write_status. cbn. by destruct (bodyAllowed code).
Qed.

Lemma filter_headers hs f :
  Forall is_header hs -> fold_left filter_call hs f = f.
Proof. induction 1 as [|c hs Hc _ IH]; [done|]. by destruct c. Qed.

Lemma passes_headers hs : Forall is_header hs -> List.filter passes hs = hs.
Proof.
  induction 1 as [|c hs Hc _ IH]; [done|]. destruct c; try done. cbn. by rewrite IH.
Qed.

Lemma filter_answer hs code hs' body :
  Forall is_header hs -> Forall is_header hs' ->
  fold_left filter_call (answer hs code hs' body) (mkFilter EmptyString 200 false)
    = mkFilter body code false /\
  List.filter passes (answer hs code hs' body) = hs ++ hs'.
Proof.
  intros Hh Hh'. unfold answer. split.
  - rewrite fold_left_app, (filter_headers hs) by done. cbn [fold_left].
    by rewrite fold_left_app, (filter_headers hs') by done.
  - rewrite List.filter_app, (passes_headers hs) by done. cbn.
    by rewrite List.filter_app, (passes_headers hs'), app_nil_r by done.
Qed.

Lemma convert_headers hs : Forall is_header hs -> map convert_call hs = hs.
Proof.
  induction 1 as [|c hs Hc _ IH]; [done|]. destruct c; try done. cbn. by rewrite IH.
Qed.

Section errors.
Context `{Backend}.

(** What a status error has: texts that are UTF-8 and a status. *)
Record micro_sound (id detail : string) (code : Z) : Prop := {
  ms_id : Json.ValidString id = true;
  ms_detail : Json.ValidString detail = true;
  ms_code : 0 < code < 2147483648
}.

Lemma micro_text_same id detail code :
  micro_text (mkMicroError id code detail (StatusText code))
  = error_string (EMicro id detail code).
Proof. done. Qed.

Lemma writeError_micro r id detail code :
  micro_sound id detail code ->
  exists hs, Forall is_header hs /\
    writeError r (EMicro id detail code)
    = answer [] code hs (error_string (EMicro id detail code)).
Proof.
  intros [Hi Hd Hc]. unfold writeError, answer.
  rewrite micro_parse_text by (done || lia). cbn [me_code me_id me_detail].
  destruct (Z.eqb_spec code 0); [lia|]. rewrite micro_text_same.
  exists (error_headers r detail). split; [|done]. unfold error_headers.
  constructor; [done|]. destruct (Contains _ _); by repeat constructor.
Qed.

Lemma micro_unmarshal_text id detail code :
  micro_sound id detail code ->
  micro_unmarshal (error_string (EMicro id detail code))
  = Some (mkMicroError id code detail (StatusText code)).
Proof.
  intros [Hi Hd Hc].
  assert (Json.Parse (error_string (EMicro id detail code))
    = Some (micro_json id detail code (StatusText code))) as Hp.
  { cbn [error_string]. apply Json.Parse_Marshal, wf_members.
    repeat apply Forall_app_2;
      try (apply wf_str; [reflexivity|done || apply StatusText_valid]).
    apply wf_int; [reflexivity|]. unfold Int.two63, Int.two64. lia. }
  unfold micro_unmarshal. rewrite Hp. unfold micro_json.
  rewrite <- (app_nil_r (Enc.str "status" (StatusText code))).
  do 3 (fields; try rewrite int32_same by lia). done.
Qed.

Lemma convert_micro id detail code :
  micro_sound id detail code -> detail <> EmptyString ->
  convert (error_string (EMicro id detail code)) = Json.Marshal (parseError detail).
Proof.
  intros Hm Hd. unfold convert. rewrite micro_unmarshal_text by done.
  cbn [me_detail]. by destruct detail.
Qed.

(** A detail the filter does not look for. *)
Definition unfiltered (detail : string) : Prop :=
  detail <> error_string registry_ErrNotFound /\
  existsb (fun exp => MatchString exp detail) invalidParameterErrors = false.

(** A status error that the filter does not look for leaves it as it came. *)
Lemma filter_error (next : Handler) s r w s' r' w' hs id detail code :
  micro_sound id detail code -> Forall is_header hs ->
  (code <> 500 \/ unfiltered detail) ->
  next s r w = (inr (s', r', hs ++ writeError r' (EMicro id detail code)), w') ->
  exists hs', Forall is_header hs' /\
    errorFilterHandler next s r w
    = (inr (s', r', answer hs' code [] (error_string (EMicro id detail code))), w').
Proof.
  intros Hm Hh Hd Hn. destruct (writeError_micro r' _ _ _ Hm) as (hs2 & Hh2 & Hw).
  assert (hs ++ writeError r' (EMicro id detail code)
    = answer hs code hs2 (error_string (EMicro id detail code))) as Ha
    by (rewrite Hw; done).
  rewrite Ha in Hn. exists (hs ++ hs2). split; [by apply Forall_app_2|].
  destruct (filter_answer hs code hs2 (error_string (EMicro id detail code)) Hh Hh2)
    as [Hf Hp].
  unfold errorFilterHandler, bind. rewrite Hn, Hf, Hp. cbn [ef_status].
  destruct (Z.eqb_spec code 500) as [->|]; [|done].
  destruct Hd as [|[Hd1 Hd2]]; [done|]. unfold filtered_error. cbn [ef_body].
  pose proof Hm as [Hi Hv Hc].
  rewrite micro_parse_text by (done || lia). cbn [me_detail].
  rewrite (proj2 (String.eqb_neq _ _)) by done. by rewrite Hd2.
Qed.

Lemma conversion_error (next : Handler) s r w s' r' w' hs hs' id detail code :
  micro_sound id detail code -> Forall is_header hs -> Forall is_header hs' ->
  detail <> EmptyString ->
  next s r w
    = (inr (s', r', answer hs code hs' (error_string (EMicro id detail code))), w') ->
  errorConversionHandler next s r w
    = (inr (s', r', answer hs code hs' (Json.Marshal (parseError detail))), w').
Proof.
  intros Hm Hh Hh' Hd Hn. unfold errorConversionHandler, bind. rewrite Hn.
  unfold answer. rewrite map_app, (convert_headers hs) by done.
  cbn [map app convert_call]. rewrite map_app, (convert_headers hs') by done.
  cbn [map app convert_call]. by rewrite convert_micro.
Qed.
End errors.
