(* ===== verification/GwProps.v ===== *)
(** * The gateway in front of the identity service: which requests are passed
    on, and what the client is answered when they are refused or fail *)

From stdpp Require Import base tactics list strings gmap.
From Stdlib Require Import ZArith Lia Ascii.
From S2P Require Import Prelude GoStd Json Model Backend Proto Errors Metadata UserJson.
From S2P Require Import Gorm Database GormFacts Report Config Store IdBase IdTenant IdGroup.
From S2P Require Import IdUser IdSession IdConfig IdHandler IdFacts ErrorFacts RefBackend AuthProps GwWrapper.
From S2P Require Import GwWrapper GwFacts.
#[local] Open Scope Z_scope.
#[local] Open Scope go_scope.

(** What the gateway relies on in its client of the identity service: an
    answer is one of the service (which may have been asked more than once),
    and a message that arrived has numbers that fit and texts that are
    UTF-8. *)
Class IdentityClient `{Upstream} `{Globals} (privateKey : PrivateKey) : Prop := {
  VerifySession_answer : forall ctx w o w',
    VerifySession ctx w = (inr o, w') ->
    exists user, o = Some user /\ user_msg user /\
      exists w1 w2, IdHandler.VerifySession privateKey ctx w1 = (inr user, w2);
  CheckAuthorization_answer : forall ctx endpoint w w',
    CheckAuthorization ctx endpoint w = (inr tt, w') ->
    exists w1 w2, IdHandler.CheckAuthorization ctx endpoint w1 = (inr tt, w2)
}.

Section admission.
Context `{IdentityClient} `{!BackendLaws}.

Lemma getUser_id tid id w u w' :
  getUser tid id w = (inr u, w') -> IUser.Id u = id.
Proof.
  unfold getUser. intros (user & w1 & Hu%first_or_inr & Hr)%bind_inr.
  apply First_ok in Hu as (Hin & Hp & _). apply Z.eqb_eq in Hp.
  rewrite userModelToRsp_ok in Hr by (by eapply rows_typed, Hin).
  run Hr. by injection Hr0 as <-.
Qed.

(** A session that the service verifies is one of the user it answers. *)
Lemma VerifySession_user ctx w user w' :
  IdHandler.VerifySession privateKey ctx w = (inr user, w') ->
  exists session payload w1 w2,
    GetAuthenticatedSession ctx = inr session /\
    verifySession ctx session privateKey w1 = (inr payload, w2) /\
    sp_ID payload = IUser.Id user.
Proof.
  unfold IdHandler.VerifySession. intros Ht.
  apply transaction_outcome in Ht; [|keep].
  destruct Ht as (w0 & w5 & db & _ & Hf & _).
  destruct (GetAuthenticatedSession ctx) as [|session] eqn:Es;
    [by apply fail_with_inv in Hf as (s & ? & _)|].
  run Hf. apply ok_inr in Hf as (-> & _).
  exists session, x0, w0, w1. split_and!; [done..|].
  by apply getUser_id in Hr1 as <-.
Qed.

Lemma session_ctx_session r session :
  GetAuthenticatedSession (session_ctx r) = inr session ->
  session = hget HeaderAuthenticatedSession (Header r).
Proof.
  unfold GetAuthenticatedSession, meta_get, session_ctx.
  set (key := hget HeaderAuthenticatedSession (Header r)).
  unfold meta_set at 1. assert (is_empty (request_tenant r) = false) as ->.
  { unfold request_tenant. by destruct (is_empty (hget _ _)) eqn:E. }
  rewrite lookup_insert_ne by done. unfold meta_set at 1. destruct (is_empty key).
  - by rewrite lookup_delete_eq.
  - rewrite lookup_insert_eq. by intros [= ->].
Qed.

Lemma user_ctx_tid r b tid :
  GetTenantID (user_ctx r b) = inr tid ->
  Strconv.ParseUint (request_tenant r) = inr tid.
Proof.
  unfold GetTenantID, meta_get. rewrite user_ctx_tenant.
  destruct (Strconv.ParseUint _); congruence.
Qed.

(** The user a request is passed on for: the session key of the request is
    one of this user's that verifies, the router knows the endpoint, and the
    user is authorized for it and for the tenant of the request. *)
Definition entitled (r : Request) (user : IUser.t) (endpoint : string) : Prop :=
  (exists payload w1 w2,
    verifySession (session_ctx r) (hget HeaderAuthenticatedSession (Header r))
      privateKey w1 = (inr payload, w2) /\ sp_ID payload = IUser.Id user) /\
  (exists n, Route n r = inr endpoint) /\
  exists tid w1, Strconv.ParseUint (request_tenant r) = inr tid /\
    authorized endpoint tid user w1.

Lemma admitted_entitled s r w s' user endpoint :
  admitted s r w s' user endpoint ->
  user_msg user /\ s' = <[route_key r := endpoint]> s /\ entitled r user endpoint.
Proof.
  intros (w1 & w2 & w3 & Hv & Hr & -> & Hc).
  apply VerifySession_answer in Hv as (u & [= <-] & Hm & w4 & w5 & Hv).
  apply VerifySession_user in Hv as (session & p & w6 & w7 & Hs & Hv & Hid).
  apply session_ctx_session in Hs as ->.
  apply CheckAuthorization_answer in Hc as (w8 & w9 & Hc).
  apply CheckAuthorization_passed in Hc as (tid & u & Ht & Hu & Ha).
  rewrite user_ctx_user in Hu by done. injection Hu as <-.
  apply user_ctx_tid in Ht. split; [done|]. split; [done|].
  split_and!; [by exists p, w6, w7|by eexists|by exists tid, w8].
Qed.

(** C4. The RPC handler of the gateway is reached by one request at most, and
    a run of the gateway depends on it in no other way.  This request is the
    login or the check of a session, with the client's address; or a request
    made for a user whom the service behind reads back from its header,
    whatever header the client had sent: the session key the client sent (in
    the header or, for websockets, in the query) verifies for this user, the
    router knows the endpoint, and the policy allows it to the user for the
    tenant of the request.  An endpoint found earlier is never used. *)
Theorem gateway_admits s r w :
  let r1 := websocket_request r in
  (forall rpc1 rpc2 : Handler, gateway rpc1 s r w = gateway rpc2 s r w) \/
  exists s' r' w',
    (forall rpc1 rpc2 : Handler, rpc1 s' r' w' = rpc2 s' r' w' ->
       gateway rpc1 s r w = gateway rpc2 s r w) /\
    Strings.ToUpper (Method r) <> "OPTIONS"%string /\
    ((unauthenticated r1 = true /\ s' = s /\
      r' = set_Header (hset HeaderClientIP (client_ip r1) (Header r1)) r1) \/
     exists user endpoint reqID,
       r' = forwarded r1 user reqID /\
       GetAuthenticatedUser (FromRequest r') = inr user /\
       s' = <[route_key r1 := endpoint]> s /\ entitled r1 user endpoint).
Proof.
  intros r1. set (outer := around corsHandler (around websocketHandler
    (around errorConversionHandler errorFilterHandler))).
  assert (forall n1 n2 : Handler,
    around outer authHandler n1 s r w = around outer authHandler n2 s r w ->
    gateway n1 s r w = gateway n2 s r w) as Hg.
  { intros n1 n2 Hn. unfold gateway, bind. change (NewAPIGatewayHandler _ ?n) with
      (around outer authHandler n). by rewrite Hn. }
  destruct (through_cors s r w) as [Ha|[Ho Hc]].
  { left. intros n1 n2. apply Hg. apply Ha. }
  assert (through outer s r w s r1 w) as Ht.
  { eapply around_through; [exact Hc|].
    eapply around_through; [apply through_websocket|].
    eapply around_through; [apply through_conversion|apply through_filter]. }
  destruct (authHandler_cases s r1 w)
    as [[Hu Ha]|[Ha|(s' & user & endpoint & reqID & w' & Had & Ha)]].
  - right. eexists _, _, _. split; [|split; [done|by left]].
    intros n1 n2 Hn. by apply Hg, Ht, Ha.
  - left. intros n1 n2. apply Hg, Ht, Ha.
  - right. apply admitted_entitled in Had as (Hm & Hs & He).
    eexists s', _, w'. split; [|split; [done|right]].
    + intros n1 n2 Hn. by apply Hg, Ht, Ha.
    + exists user, endpoint, reqID. split; [done|].
      split; [by apply forwarded_user|done].
Qed.
End admission.

(** ** Examples: a client that asks the service at once *)
#[local] Existing Instance mem_backend.
#[local] Existing Instance mem_backend_laws.
#[local] Existing Instance s_globals.

#[local] Instance s_upstream : Upstream := {
  VerifySession ctx :=
    u <- IdHandler.VerifySession s_key ctx ;;
    if user_msgb u then ret (Some u) else throw (ERemote "invalid UTF-8");
  CheckAuthorization ctx endpoint := IdHandler.CheckAuthorization ctx endpoint;
  Route _ r :=
    if (Path r =? "/identity/users/3")%string then inr "Identity.GetUser"%string
    else inl RouteNotFound;
  new_uuid _ := "01234567-89ab-cdef-0123-456789abcdef"%string
}.

#[local] Instance s_client : IdentityClient s_key.
Proof.
  constructor.
  - intros ctx w o w' (u & w1 & Hu & Hr)%bind_inr. exists u.
    destruct (user_msgb u) eqn:E; [|by apply throw_inv in Hr as [? _]].
    apply ret_inv in Hr as [[= ->] _].
    split_and!; [done|by apply user_msgb_sound|by exists w, w1].
  - intros ctx endpoint w w' Hc. by exists w, w'.
Qed.

(** Alice, with her session, asks for her own record. *)
Definition s_alice_session : string :=
  value_of_run EmptyString
    (newSession (s_ctx s_req_alice) 1 3 s_key false s_world).1.
Definition s_gateway_world : World :=
  (newSession (s_ctx s_req_alice) 1 3 s_key false s_world).2.
Definition s_request : Request :=
  mkRequest "GET" "/identity/users/3" "10.0.0.9:40000" ∅
    (<[HeaderAuthenticatedSession := [s_alice_session]]>
       (<[HeaderTenantID := ["1"%string]]> ∅)).
Definition s_rpc (body : string) : Handler := fun s r => ret (s, r, [Write body]).
Definition s_served (body : string) : string :=
  rs_body (value_of_run (∅, no_response)
    (gateway (s_rpc body) ∅ s_request s_gateway_world).1).2.

Lemma gateway_admits_witness :
  exists user endpoint, entitled (privateKey := s_key) s_request user endpoint.
Proof.
  destruct (gateway_admits (privateKey := s_key) ∅ s_request s_gateway_world)
    as [Ha|(s' & r' & w' & Ha & _ & [(Hu & _)|(u & e & q & _ & _ & _ & He)])].
  - exfalso. specialize (Ha (s_rpc "a") (s_rpc "b")).
    assert (s_served "a" = s_served "b") as Hs by (unfold s_served; rewrite Ha; reflexivity).
    vm_compute in Hs. discriminate Hs.
  - vm_compute in Hu. discriminate Hu.
  - exists u, e. exact He.
Defined.

(** ** What the client of the gateway is answered when something fails *)
(** The detail of a status error, and the body the client gets for it. *)
Definition event_text (code contents : string) : string :=
  Json.Marshal (JObj (Enc.str "code" code ++ Enc.str "contents" contents)).
Definition client_body (code contents : string) : string :=
  Json.Marshal (JObj [("message",
    JObj (Enc.str "code" code ++ Enc.str "contents" contents))]).

Section errors.
Context `{Upstream}.

(** What the authentication answers with the error [e]: the session is not
    verified, no endpoint is found, or the user is not authorized. *)
Inductive refuses (s : Services) (r : Request) (w : World) : err -> World -> Prop :=
| refused_session e w' :
    VerifySession (session_ctx r) w = (inl e, w') -> refuses s r w e w'
| refused_route user session w1 e w' :
    VerifySession (session_ctx r) w = (inr (Some user), w1) ->
    IUser.Session user = Some session ->
    endpoint_of (user_ctx r (Json.Marshal (IUser_enc user))) s r w1
      = (inr (inl e), w') ->
    refuses s r w e w'
| refused_endpoint user session w1 s' endpoint w2 e w' :
    VerifySession (session_ctx r) w = (inr (Some user), w1) ->
    IUser.Session user = Some session ->
    endpoint_of (user_ctx r (Json.Marshal (IUser_enc user))) s r w1
      = (inr (inr (s', endpoint)), w2) ->
    CheckAuthorization (user_ctx r (Json.Marshal (IUser_enc user))) endpoint w2
      = (inl e, w') ->
    refuses s r w e w'.

Lemma authHandler_refuses s r w e w' :
  unauthenticated r = false -> refuses s r w e w' ->
  exists s' hs, Forall is_header hs /\
    forall next, authHandler next s r w = (inr (s', r, hs ++ writeError r e), w').
Proof.
  intros Hu Hr.
  destruct Hr as [e w' Hv|user session w1 e w' Hv Hs He
    |user session w1 s' endpoint w2 e w' Hv Hs He Hc].
  - exists s, []. split; [by constructor|]. intros next.
    unfold authHandler, bind, attempt. by rewrite Hu, Hv.
  - exists s, [SetHeader HeaderAuthenticatedSession (ISession.Key session)].
    split; [by repeat constructor|]. intros next.
    unfold authHandler, bind, attempt, deref, ret. by rewrite Hu, Hv, Hs, He.
  - exists s', [SetHeader HeaderAuthenticatedSession (ISession.Key session)].
    split; [by repeat constructor|]. intros next.
    unfold authHandler, bind, attempt, deref, ret. by rewrite Hu, Hv, Hs, He, Hc.
Qed.

Lemma cors_headers : Forall is_header cors_calls.
Proof. by repeat constructor. Qed.

Lemma event_text_unfiltered code contents : unfiltered (event_text code contents).
Proof.
  assert (exists t, event_text code contents = String "{" t) as [t ->]
    by (eexists; reflexivity).
  split; [discriminate|apply brace_not_invalid].
Qed.

(** From the filter to the client. *)
Lemma filtered_to_client rpc s r w s' r' w' hs hs' id detail code :
  Strings.ToUpper (Method r) <> "OPTIONS"%string ->
  micro_sound id detail code -> detail <> EmptyString ->
  Forall is_header hs -> Forall is_header hs' ->
  errorFilterHandler (authHandler rpc) s (websocket_request r) w
    = (inr (s', r', answer hs code hs' (error_string (EMicro id detail code))), w') ->
  exists resp, gateway rpc s r w = (inr (s', resp), w') /\
    sent_to_client code (Json.Marshal (parseError detail)) resp.
Proof.
  intros Ho Hm Hd Hh Hh' He. apply conversion_error in He; [|done..].
  eexists. split.
  - unfold gateway. change (NewAPIGatewayHandler _ rpc) with
      (corsHandler (websocketHandler (errorConversionHandler
        (errorFilterHandler (authHandler rpc))))).
    unfold bind at 1. unfold corsHandler, websocketHandler, bind.
    rewrite (proj2 (String.eqb_neq _ _) Ho), He. reflexivity.
  - change (cors_calls ++ answer hs code hs' ?b)
      with (answer (cors_calls ++ hs) code hs' b).
    apply respond_answer; [by apply Forall_app_2; [apply cors_headers|]|done].
Qed.

(** An error the filter does not look for, all the way to the client. *)
Lemma gateway_error rpc s r w s' r' w' hs id detail code :
  Strings.ToUpper (Method r) <> "OPTIONS"%string ->
  micro_sound id detail code -> detail <> EmptyString ->
  (code <> 500 \/ unfiltered detail) -> Forall is_header hs ->
  authHandler rpc s (websocket_request r) w
    = (inr (s', r', hs ++ writeError r' (EMicro id detail code)), w') ->
  exists resp, gateway rpc s r w = (inr (s', resp), w') /\
    sent_to_client code (Json.Marshal (parseError detail)) resp.
Proof.
  intros Ho Hm Hd Hf Hh Ha.
  destruct (filter_error _ _ _ _ _ _ _ _ _ _ _ Hm Hh Hf Ha) as (hs1 & Hh1 & He).
  by eapply filtered_to_client, He.
Qed.

(** C18. A refused request is answered to the client with the very status, event
    code and contents of the service's error, as the document
    [{"message": {"code", "contents"}}], whether the session, the route or the
    authorization was refused, and whatever the RPC handler would have done; an
    answer whose status allows no body has none.  This is so for every final status
    of HTTP, 200 to 999.  With a code that is no status at all, below 100 or above
    999, net/http panics when the filter hands it on, and the client is answered
    nothing: the connection is closed. *)
Theorem refusal_reaches_client rpc s r w code text contents w' :
  let r1 := websocket_request r in
  let e := EMicro "cdm" (event_text text contents) code in
  Strings.ToUpper (Method r) <> "OPTIONS"%string -> unauthenticated r1 = false ->
  refuses s r1 w e w' -> 0 < code < 2147483648 ->
  Json.ValidString text = true -> Json.ValidString contents = true ->
  Json.ValidString (event_text text contents) = true ->
  exists s' resp, gateway rpc s r w = (inr (s', resp), w') /\
    (200 <= code <= 999 ->
     rs_status resp = Some code /\ rs_aborted resp = false /\
     rs_body resp
       = (if (code =? 204) || (code =? 304) then EmptyString
          else client_body text contents)) /\
    (code < 100 \/ 999 < code ->
     rs_status resp = None /\ rs_body resp = EmptyString /\ rs_aborted resp = true).
Proof.
  intros r1 e Ho Hu Hr Hc Ht Hco Hv.
  apply authHandler_refuses in Hr as (s' & hs & Hh & Ha); [|done].
  destruct (gateway_error rpc s r w s' r1 w' hs "cdm" (event_text text contents) code)
    as (resp & Hg & Hb); [done|by constructor|done| |done|apply Ha|].
  - right. apply event_text_unfiltered.
  - exists s', resp. split; [done|].
    assert (Json.Marshal (parseError (event_text text contents))
      = client_body text contents) as Hp.
    { unfold parseError, event_text. by rewrite message_parse_text by done. }
    rewrite Hp in Hb. unfold sent_to_client, valid_status, bodyAllowed in Hb. split.
    + intros [H1 H2]. assert ((100 <=? code) = true) as E1 by lia.
      assert ((code <=? 999) = true) as E2 by lia.
      assert ((code <=? 199) = false) as E3 by lia.
      rewrite E1, E2, E3 in Hb. cbn in Hb. destruct Hb as (? & -> & _ & ?).
      split; [done|]. split; [done|]. by destruct (code =? 204), (code =? 304).
    + intros Hbad. destruct (Z.leb_spec 100 code), (Z.leb_spec code 999);
        cbn in Hb; done || lia.
Qed.

(** ** What the filter makes of a failed call *)
Definition invalid_parameter (detail : string) : Prop :=
  exists exp, exp ∈ invalidParameterErrors /\
    lang (compile (Bytes.to_bytes exp)) (Bytes.to_bytes detail).

Lemma existsb_invalid detail :
  existsb (fun exp => MatchString exp detail) invalidParameterErrors = true <->
  invalid_parameter detail.
Proof.
  rewrite existsb_exists. unfold invalid_parameter, MatchString.
  setoid_rewrite matches_lang. by setoid_rewrite list_elem_of_In.
Qed.

Lemma status_text_run code ctx ev ec text w :
  exists w', status_text code ctx ev ec text w
    = (inr (EMicro "cdm" (text_message ev ec text) code), w').
Proof.
  destruct (status_text code ctx ev ec text w) as [r w'] eqn:E.
  pose proof E as ->%status_text_micro. by exists w'.
Qed.

(** The filter replaced the answer by the status error of a text. *)
Lemma replaced rpc s r w s' r' w' hs code ev ec text :
  Strings.ToUpper (Method r) <> "OPTIONS"%string -> 0 < code < 2147483648 ->
  Forall is_header hs ->
  let full := String.append ev (String.append ":" ec) in
  let contents := Json.Marshal (JStr text) in
  Json.ValidString full = true -> Json.ValidString contents = true ->
  Json.ValidString (event_text full contents) = true ->
  errorFilterHandler (authHandler rpc) s (websocket_request r) w
    = (inr (s', r', hs ++ writeError r' (EMicro "cdm" (text_message ev ec text) code)),
       w') ->
  exists resp, gateway rpc s r w = (inr (s', resp), w') /\
    sent_to_client code (client_body full contents) resp.
Proof.
  intros Ho Hc Hh full contents Hf Ht Hv He.
  change (text_message ev ec text) with (event_text full contents) in He.
  assert (micro_sound "cdm" (event_text full contents) code) as Hm by by constructor.
  destruct (writeError_micro r' _ _ _ Hm) as (hs' & Hh' & Hw). rewrite Hw in He.
  change (hs ++ answer [] code hs' ?b) with (answer hs code hs' b) in He.
  destruct (filtered_to_client _ _ _ _ _ _ _ _ _ _ _ _ Ho Hm ltac:(discriminate)
    Hh Hh' He) as (resp & Hg & Hb).
  exists resp. split; [done|]. revert Hb.
  unfold parseError, event_text. by rewrite message_parse_text by done.
Qed.

(** A call that failed with 500 is answered by what failed.  The text of
    the registry that there is no such service is a 404; a text of one of the
    nine forms that a request of wrong JSON leads to, whatever stands in it, is
    a 400, and only such a text is; both carry the text in their contents.
    Every other answer with 500 keeps its status and its detail. *)
Theorem failed_call_reaches_client rpc s r w s' r' w' hs hs' id detail :
  Strings.ToUpper (Method r) <> "OPTIONS"%string ->
  micro_sound id detail 500 -> detail <> EmptyString ->
  Forall is_header hs -> Forall is_header hs' ->
  authHandler rpc s (websocket_request r) w
    = (inr (s', r', answer hs 500 hs' (error_string (EMicro id detail 500))), w') ->
  let contents := Json.Marshal (JStr detail) in
  let not_found := "cdm-cloud.api_gateway.error_filter.failure-parse:not_found_service" in
  let invalid :=
    "cdm-cloud.api_gateway.error_filter.failure-match_string:invalid_parameter" in
  Json.ValidString contents = true ->
  Json.ValidString (event_text not_found contents) = true ->
  Json.ValidString (event_text invalid contents) = true ->
  exists resp w2, gateway rpc s r w = (inr (s', resp), w2) /\
    (detail = "service not found"%string ->
     rs_status resp = Some 404 /\ rs_body resp = client_body not_found contents) /\
    (invalid_parameter detail ->
     rs_status resp = Some 400 /\ rs_body resp = client_body invalid contents) /\
    (detail <> "service not found"%string -> ~ invalid_parameter detail ->
     w2 = w' /\ rs_status resp = Some 500 /\
     rs_body resp = Json.Marshal (parseError detail)).
Proof.
  intros Ho Hm Hd Hh Hh' Ha contents not_found invalid Hv Hv1 Hv2.
  assert (Hdet : me_detail (micro_parse (error_string (EMicro id detail 500))) = detail).
  { destruct Hm as [Hi Hde _]. by rewrite micro_parse_text by (done || lia). }
  assert (Hhs : Forall is_header (hs ++ hs')) by by apply Forall_app_2.
  destruct (filter_answer hs 500 hs' (error_string (EMicro id detail 500)) Hh Hh')
    as [Hf Hp].
  assert (He : errorFilterHandler (authHandler rpc) s (websocket_request r) w =
    bind (filtered_error r' (mkFilter (error_string (EMicro id detail 500)) 500 false))
      (fun calls => ret (s', r', (hs ++ hs') ++ calls)) w').
  { unfold errorFilterHandler, bind at 1. rewrite Ha, Hf, Hp. done. }
  unfold filtered_error in He. cbn [ef_body] in He. rewrite Hdet in He.
  change (error_string registry_ErrNotFound) with "service not found"%string in He.
  destruct (String.eqb_spec detail "service not found") as [->|Hn].
  - destruct (status_text_run 404 (FromRequest r')
      "cdm-cloud.api_gateway.error_filter.failure-parse" "not_found_service"
      "service not found" w') as [w2 Hst].
    rewrite bind_assoc, (bind_run _ _ _ _ _ Hst) in He.
    apply replaced in He as (resp & Hg & Hs & Hb & _); [|done..].
    exists resp, w2. split_and!; [done|by intros _| |done].
    intros Hi. apply existsb_invalid in Hi. discriminate Hi.
  - destruct (existsb _ invalidParameterErrors) eqn:Ex.
    + destruct (status_text_run 400 (FromRequest r')
        "cdm-cloud.api_gateway.error_filter.failure-match_string"
        "invalid_parameter" detail w') as [w2 Hst].
      rewrite bind_assoc, (bind_run _ _ _ _ _ Hst) in He.
      apply replaced in He as (resp & Hg & Hs & Hb & _); [|done..].
      exists resp, w2. split_and!; [done..|]. intros _ Hi.
      by apply existsb_invalid in Ex.
    + change (bind _ _ w') with (ret (W:=World) (E:=err)
        (s', r', answer (hs ++ hs') 500 [] (error_string (EMicro id detail 500))) w')
        in He.
      eapply filtered_to_client in He as (resp & Hg & Hs & Hb & _); [|done..].
      exists resp, w'. split_and!; [done..| |done].
      intros Hi%existsb_invalid. congruence.
Qed.
End errors.

(** ** Examples *)
#[local] Existing Instance mem_backend.
#[local] Existing Instance mem_backend_laws.
#[local] Existing Instance s_globals.

#[local] Instance e_upstream : Upstream := {
  VerifySession ctx :=
    u <- IdHandler.VerifySession s_key ctx ;; ret (Some u);
  CheckAuthorization ctx endpoint := IdHandler.CheckAuthorization ctx endpoint;
  Route _ _ := inl RouteNotFound;
  new_uuid _ := "01234567-89ab-cdef-0123-456789abcdef"%string
}.

(** A request without a session. *)
Definition e_request : Request :=
  mkRequest "GET" "/identity/users" "10.0.0.9:40000" ∅ ∅.
Definition e_world : World :=
  (VerifySession (session_ctx (websocket_request e_request)) s_world).2.
Definition e_message : string * string :=
  match (VerifySession (session_ctx (websocket_request e_request)) s_world).1 with
  | inl (EMicro _ detail _) => default ("", "")%string (message_parse detail)
  | _ => ("", "")%string
  end.
Definition e_rpc : Handler := fun s r => ret (s, r, [Write "never written"]).

Lemma refusal_reaches_client_witness :
  exists s' resp, gateway e_rpc ∅ e_request s_world = (inr (s', resp), e_world) /\
    rs_status resp = Some 401.
Proof.
  destruct (refusal_reaches_client e_rpc ∅ e_request s_world 401 e_message.1
    e_message.2 e_world) as (s' & resp & Hg & Hs & _).
  - vm_compute. discriminate.
  - vm_compute. reflexivity.
  - apply refused_session. apply ran. vm_compute. reflexivity.
  - split; reflexivity.
  - vm_compute. reflexivity.
  - vm_compute. reflexivity.
  - vm_compute. reflexivity.
  - exists s', resp. split; [exact Hg|]. destruct Hs as [Hs _]; [|exact Hs].
    split; discriminate.
Defined.

(** A login whose body is cut off. *)
Definition e_login : Request :=
  mkRequest "POST" "/identity/auth" "10.0.0.9:40000" ∅ ∅.
Definition e_detail : string := "error during request: unexpected end of JSON input".
Definition e_failed : Handler := fun s r =>
  ret (s, r, answer [] 500 (error_headers r e_detail)
    (error_string (EMicro "go.micro.rpc" e_detail 500))).

Lemma failed_call_reaches_client_witness :
  exists resp w2, gateway e_failed ∅ e_login s_world = (inr (∅, resp), w2) /\
    rs_status resp = Some 400.
Proof.
  destruct (failed_call_reaches_client e_failed ∅ e_login s_world ∅
    (set_Header (hset HeaderClientIP "10.0.0.9" ∅) (websocket_request e_login)) s_world
    [] (error_headers e_login e_detail) "go.micro.rpc" e_detail)
    as (resp & w2 & Hg & _ & Hi & _).
  - vm_compute. discriminate.
  - constructor; [reflexivity|reflexivity|split; reflexivity].
  - discriminate.
  - constructor.
  - repeat constructor.
  - reflexivity.
  - vm_compute. reflexivity.
  - vm_compute. reflexivity.
  - vm_compute. reflexivity.
  - exists resp, w2. split; [exact Hg|]. apply Hi. apply existsb_invalid.
    vm_compute. reflexivity.
Defined.
