(* ===== verification/DbConnProps.v ===== *)
(** * The connection to the database: it is found, and it is kept *)

From stdpp Require Import base tactics list strings gmap relations.
From Stdlib Require Import ZArith Lia Ascii.
From S2P Require Import Prelude GoStd Json Backend Errors Discovery DbConn.
#[local] Open Scope Z_scope.
#[local] Open Scope go_scope.

Section found.
Context `{Registry} `{Dialer} (opts : DbOptions.t).

(** A node whose data source is understood and that is up. *)
Definition usable (up : string -> string -> bool) (n : Node) : Prop :=
  exists d s, dataSource opts n = inr (d, s) /\ up d s = true.

(** What a try leaves: the same but for the number of calls, or a connection
    in the place of the old one. *)
Definition idle (c c' : Wrapper) : Prop :=
  c_DB c' = c_DB c /\ c_closed c' = c_closed c /\ c_live c' = c_live c /\
  (c_tick c <= c_tick c')%nat.
Definition replaced_by (db : nat) (c c' : Wrapper) : Prop :=
  c_DB c' = Some db /\ c_closed c' = c_closed c /\
  c_live c' = match c_DB c with
              | Some old => without_conn old (db :: c_live c)
              | None => db :: c_live c
              end /\
  (c_tick c <= db < c_tick c')%nat.

#[global] Instance idle_preorder : PreOrder idle.
Proof.
  split; [done|]. intros c c1 c2 (? & ? & ? & ?) (? & ? & ? & ?).
  split_and!; [congruence..|lia].
Qed.

Lemma tick_inv k c c' : tick c = (inr k, c') -> k = c_tick c /\ idle c c'.
Proof. intros [= <- <-]. split; [done|]. split_and!; cbn; [done..|lia]. Qed.

Lemma replaced_idle db c c1 c' : idle c c1 -> replaced_by db c1 c' -> replaced_by db c c'.
Proof.
  intros (E1 & E2 & E3 & E4) (H1 & H2 & H3 & H4). unfold replaced_by.
  rewrite <- E1, <- E2, <- E3. split_and!; [done..|lia|lia].
Qed.

Lemma try_nodes_inv next n i c r c' :
  (forall j, (i <= j < i + n)%nat -> is_Some (next j)) ->
  try_nodes opts next n i c = (r, c') ->
  (r = inr false /\ idle c c') \/ exists db, r = inr true /\ replaced_by db c c'.
Proof.
  revert i c. induction n as [|n IH]; intros i c Hn Ht; cbn in Ht.
  { apply ret_inv in Ht as [-> ->]. by left. }
  destruct (Hn i) as [node E]; [lia|]. rewrite E in Ht.
  assert (forall j, (S i <= j < S i + n)%nat -> is_Some (next j)) as Hn'
    by (intros j Hj; apply Hn; lia).
  destruct (dataSource opts node) as [e|[d s]]; [by eapply IH|].
  apply bind_inv in Ht as [(e & ? & _)|(k & c1 & Hk & Ht)]; [done|].
  pose proof Hk as [-> Hc1]%tick_inv.
  destruct (gorm_open _ d s).
  - injection Hk as <-. injection Ht as <- <-. right. exists (c_tick c).
    split; [done|]. split_and!; cbn; [done..|lia|lia].
  - apply IH in Ht as [[-> Hc]|(db & -> & Hc)]; [| |done].
    + left. split; [done|]. by etrans.
    + right. exists db. split; [done|]. by eapply replaced_idle.
Qed.

(** When the nodes stay up or down. *)
Lemma try_nodes_iff up next n i c :
  (forall k d s, gorm_open k d s = up d s) ->
  (forall j, (i <= j < i + n)%nat -> is_Some (next j)) ->
  (try_nodes opts next n i c).1 = inr true <->
  exists node, node ∈ omap next (seq i n) /\ usable up node.
Proof.
  intros Hup. revert i c. induction n as [|n IH]; intros i c Hn.
  { cbn. split; [done|]. intros (node & Hin & _). by apply elem_of_nil in Hin. }
  destruct (Hn i) as [node E]; [lia|]. cbn. rewrite E.
  assert (forall j, (S i <= j < S i + n)%nat -> is_Some (next j)) as Hn'
    by (intros j Hj; apply Hn; lia).
  specialize (IH (S i)). setoid_rewrite elem_of_cons.
  destruct (dataSource opts node) as [e|[d s]] eqn:Ed.
  - rewrite IH by done. split; [intros (x & Hx & Hu); eauto|].
    intros (x & [->|Hx] & Hu); [|by eauto].
    destruct Hu as (d & s & Hd & _). congruence.
  - unfold bind at 1. cbn. rewrite Hup. destruct (up d s) eqn:Eu; cbn.
    + split; [|done]. intros _. exists node. split; [by left|]. by exists d, s.
    + rewrite IH by done. split; [intros (x & Hx & Hu); eauto|].
      intros (x & [->|Hx] & Hu); [|by eauto].
      destruct Hu as (d' & s' & Hd & Hs). congruence.
Qed.

Lemma next_some services start j :
  (0 < tries services)%nat -> is_Some (RoundRobin services start j).
Proof.
  intros Hn. unfold RoundRobin. apply lookup_lt_is_Some.
  assert (0 < List.length (concat services))%nat as Hl.
  { destruct services as [|s l]; cbn in *; [lia|].
    unfold tries in Hn. cbn in Hn. rewrite length_app. unfold id in Hn. lia. }
  apply Nat.mod_upper_bound. lia.
Qed.

Lemma connect_inv c r c' :
  connect opts c = (r, c') ->
  (exists e, r = inl e /\ e <> EPanic /\ idle c c') \/
  exists db, r = inr tt /\ replaced_by db c c'.
Proof.
  unfold connect. intros [(e & ? & _)|(k & c1 & Hk & Hc)]%bind_inv; [done|].
  apply tick_inv in Hk as [-> Hi1].
  destruct (discovered _ _ _) as [e|services] eqn:Ed.
  { apply throw_inv in Hc as [-> ->]. left. exists e. split; [done|]. split; [|done].
    unfold discovered in Ed. destruct (GetService _ _) as [[|]|[|]]; congruence. }
  apply bind_inv in Hc as [(e & ? & _)|(k & c2 & Hk & Hc)]; [done|].
  apply tick_inv in Hk as [-> Hi2].
  assert (Ht : forall r' c3, try_nodes opts (RoundRobin services (rand_start (c_tick c1)))
    (tries services) 0 c2 = (r', c3) -> (r' = inr false /\ idle c2 c3) \/
    exists db, r' = inr true /\ replaced_by db c2 c3).
  { intros r' c3. apply try_nodes_inv. intros j Hj. apply next_some. lia. }
  apply bind_inv in Hc as [(e & Hn & ->)|(b & c3 & Hn & Hc)];
    apply Ht in Hn as [[Hb Hi3]|(db & Hb & Hr)]; try discriminate Hb;
    injection Hb as ->.
  - apply throw_inv in Hc as [-> ->]. left. eexists. split; [done|]. split; [done|].
    do 2 (etrans; [done|]). done.
  - apply ret_inv in Hc as [-> ->]. right. exists db. split; [done|].
    by do 2 (eapply replaced_idle; [done|]).
Qed.

(** C22. With one version of the service registered and nodes that stay up or
    down meanwhile, [connect] succeeds exactly when some node has a dialect and
    an address the program understands and is up, wherever the rotation starts;
    the new connection then takes the place of the old one, which is closed, and
    no other connection is opened.  A failed [connect] keeps the old one. *)
Theorem connect_spec up nodes c r c' :
  (forall k d s, gorm_open k d s = up d s) ->
  (forall k, GetService k (DbOptions.ServiceName opts) = inr [nodes]) ->
  connect opts c = (r, c') ->
  (r = inr tt <-> exists node, node ∈ nodes /\ usable up node) /\
  (r = inr tt -> exists db, replaced_by db c c') /\
  (r <> inr tt -> r = inl (ENew "could not connect to database") /\ idle c c').
Proof.
  intros Hup Hs Hc.
  pose proof (connect_inv _ _ _ Hc) as Hi.
  set (start := rand_start (S (c_tick c))).
  set (c2 := mkWrapper (c_DB c) (c_closed c) (c_live c) (S (S (c_tick c)))).
  assert (connect opts c
    = (b <- try_nodes opts (RoundRobin [nodes] start) (tries [nodes]) 0 ;;
       if (b : bool) then ret tt
       else throw (ENew "could not connect to database")) c2) as Hc2.
  { unfold connect, bind at 1, tick at 1. rewrite Hs. done. }
  rewrite Hc2 in Hc.
  assert (Hnext : forall j, (0 <= j < 0 + tries [nodes])%nat ->
    is_Some (RoundRobin [nodes] start j)) by (intros j Hj; apply next_some; lia).
  pose proof (try_nodes_iff up _ (tries [nodes]) 0 c2 Hup Hnext) as Hiff.
  setoid_rewrite (RoundRobin_perm nodes start) in Hiff.
  destruct (try_nodes opts (RoundRobin [nodes] start) (tries [nodes]) 0 c2)
    as [[e|b] c3] eqn:Ht.
  { apply try_nodes_inv in Ht as [[? _]|(db & ? & _)]; done. }
  rewrite (bind_run _ _ _ _ _ Ht) in Hc.
  destruct b; (apply ret_inv in Hc as [-> ->] || apply throw_inv in Hc as [-> ->]).
  - destruct Hi as [(e & ? & _)|(db & _ & Hr)]; [done|].
    split; [|split; [by exists db|done]]. split; [intros _|done]. by apply Hiff.
  - destruct Hi as [(e & [= <-] & _ & Hi)|(db & ? & _)]; [|done].
    split; [|done]. split; [done|]. intros Hu. by apply Hiff in Hu.
Qed.

(** ** The goroutine that keeps it *)
Record well_kept (s : Kept) : Prop := {
  kept_conn : exists db, c_DB (k_wrapper s) = Some db /\
    (db < c_tick (k_wrapper s))%nat /\
    (c_live (k_wrapper s) = [db] \/
     c_live (k_wrapper s) = [] /\ c_closed (k_wrapper s) = true);
  kept_check : forall i, k_watcher s = Waiting i -> (i < List.length (k_checks s))%nat;
  kept_stopped : k_watcher s = Stopped -> c_closed (k_wrapper s) = true
}.

Lemma without_self db : without_conn db [db] = [].
Proof. cbn. by rewrite Nat.eqb_refl. Qed.

Lemma without_old old db :
  (old < db)%nat -> without_conn old [db; old] = [db] /\ without_conn old [db] = [db].
Proof.
  intros Hlt. cbn. rewrite Nat.eqb_refl.
  by rewrite (proj2 (Nat.eqb_neq db old)) by lia.
Qed.

Lemma well_kept_started c db checks :
  c_DB c = Some db -> (db < c_tick c)%nat -> c_live c = [db] ->
  well_kept (start_check c checks).
Proof.
  intros Hdb Hlt Hl. split; cbn.
  - exists db. auto.
  - intros i [= <-]. rewrite length_app. cbn. lia.
  - discriminate.
Qed.

Lemma well_kept_step s s' : well_kept s -> kept_step opts s s' -> well_kept s'.
Proof.
  intros [(db & Hdb & Hlt & Hl) Hch Hst] Hs.
  destruct Hs as [c c' e checks Hc He|c c' checks Hc|c w checks i Hi
    |c checks i Hi|c checks i Hcl|c c' w checks Hc]; cbn in *.
  - apply connect_inv in Hc as [(e' & _ & _ & (E1 & E2 & E3 & E4))|(? & ? & _)];
      [|done]. split; cbn; [|done|done].
    exists db. rewrite E1, E2, E3. split_and!; [done|lia|done].
  - apply connect_inv in Hc as [(e & ? & _)|(db' & _ & (E1 & E2 & E3 & E4))]; [done|].
    eapply well_kept_started; [exact E1|lia|]. rewrite E3, Hdb.
    destruct (without_old db db') as [H1 H2]; [lia|].
    by destruct Hl as [->|[-> _]].
  - split; cbn; [by exists db| |done]. intros j Hj. rewrite length_insert. auto.
  - split; cbn; [by exists db|done|done].
  - split; cbn; [by exists db|done|done].
  - unfold Close in Hc. rewrite Hdb in Hc.
    destruct (c_closed c) eqn:Ec; injection Hc as <-; split; cbn; auto.
    + exists db. rewrite Ec. auto.
    + exists db. split; [done|]. split; [done|]. right.
      destruct Hl as [->|[-> _]]; [|done]. by rewrite without_self.
Qed.

(** C23. From the moment [Open] has connected, whatever fails in between and
    however often the server is found again, at most one connection of the
    wrapper is open, and it is the one the program uses; as long as nobody calls
    [Close] it stays in place, the goroutine that watches it does not return,
    and it can always go on: it is trying to connect, or a health check whose
    end it waits for was started. *)
Theorem connection_kept c db s :
  c_DB c = Some db -> (db < c_tick c)%nat -> c_live c = [db] ->
  rtc (kept_step opts) (opened c) s ->
  (exists db', c_DB (k_wrapper s) = Some db' /\
    (c_live (k_wrapper s) = [db'] \/ c_live (k_wrapper s) = [])) /\
  (c_closed (k_wrapper s) = false ->
   k_watcher s <> Stopped /\ c_live (k_wrapper s) <> []) /\
  (forall i, k_watcher s = Waiting i ->
   exists s1, rtc (kept_step opts) s s1 /\ k_watcher s1 = Trying).
Proof.
  intros Hdb Hlt Hl Hr.
  assert (well_kept s) as [(db' & Hdb' & _ & Hl') Hch Hst].
  { eapply rtc_invariant; [|exact well_kept_step|exact Hr].
    by eapply well_kept_started. }
  split; [|split].
  - exists db'. split; [done|]. destruct Hl' as [?|[? _]]; auto.
  - intros Hc. split; [intros Hw; apply Hst in Hw; congruence|].
    destruct Hl' as [->|[_ ?]]; [done|congruence].
  - intros i Hw. destruct s as [w wt checks]. cbn in *. subst wt.
    specialize (Hch i eq_refl). apply lookup_lt_is_Some in Hch as [b Hb].
    destruct b.
    + exists (mkKept w Trying (<[i := false]> checks)). split; [|done].
      eapply rtc_l; [by apply check_fails|]. eapply rtc_once, health_lost.
      by rewrite list_lookup_insert_eq by (by eapply lookup_lt_Some).
    + exists (mkKept w Trying checks). split; [|done].
      by eapply rtc_once, health_lost.
Qed.
End found.

(** ** Examples: two nodes, of which the second is up *)
#[local] Instance d_registry : Registry := {
  GetService _ _ := inr [[mkNode "10.0.0.1:26257" {["dialect" := "postgres"]};
                          mkNode "10.0.0.2:26257" {["dialect" := "postgres"]}]]%string;
  rand_start k := k
}.
#[local] Instance d_dialer : Dialer := {
  gorm_open _ _ s := Strings.HasPrefix s "host=10.0.0.2"
}.
Definition d_opts : DbOptions.t :=
  options_of "cdm-cloud-database" "cdm" "cdm" "password" [].
Definition d_start : Wrapper := mkWrapper None false [] 0.
Definition d_connected : Wrapper := (connect d_opts d_start).2.

Lemma connect_spec_witness :
  exists db, replaced_by db d_start d_connected.
Proof.
  destruct (connect_spec d_opts (fun _ s => Strings.HasPrefix s "host=10.0.0.2")
    [mkNode "10.0.0.1:26257" {["dialect" := "postgres"]};
     mkNode "10.0.0.2:26257" {["dialect" := "postgres"]}]%string
    d_start (inr tt) d_connected) as (_ & Hr & _).
  - reflexivity.
  - reflexivity.
  - vm_compute. reflexivity.
  - apply Hr. reflexivity.
Defined.

Lemma connection_kept_witness :
  exists s1, rtc (kept_step d_opts) (opened d_connected) s1 /\
    k_watcher s1 = Trying.
Proof.
  destruct (connection_kept d_opts d_connected 2 (opened d_connected))
    as (_ & _ & Hg).
  - vm_compute. reflexivity.
  - apply Nat.ltb_lt. vm_compute. reflexivity.
  - vm_compute. reflexivity.
  - apply rtc_refl.
  - apply (Hg 0%nat). reflexivity.
Defined.
