(* ===== verification/Broker.v ===== *)
(** * common/broker: the message broker over an AMQP client
    (rabbitmq.go, rabbitmq_connection.go, rabbitmq_channel.go, the options)

    Connecting, declaring, publishing and handling of messages.  What the
    goroutines do to each other is in [BkMachine]. *)

From stdpp Require Import base tactics list strings gmap.
From Stdlib Require Import ZArith Lia Ascii.
From S2P Require Import Prelude GoStd Json Backend Errors Discovery.
#[local] Open Scope Z_scope.
#[local] Open Scope go_scope.

(** ** Options (broker_options.go, rabbitmq_options.go, rabbitmq_context.go) *)

(** The arguments of a declaration: nil, or a table. *)
Abbreviation Table := (option (list (string * json))).

Module BkOptions.
Record t := mk {
  Secure : bool;
  TLSConfig : bool;
  ServiceName : string;
  PersistentQueues : list string;
  exchangeName : option string;
  durableExchange : option bool
}.
Definition set_Secure (b : bool) (o : t) : t :=
  mk b (TLSConfig o) (ServiceName o) (PersistentQueues o) (exchangeName o)
    (durableExchange o).
Definition add_PersistentQueue (values : list string) (o : t) : t :=
  mk (Secure o) (TLSConfig o) (ServiceName o) (PersistentQueues o ++ values)
    (exchangeName o) (durableExchange o).
Definition set_ExchangeName (e : string) (o : t) : t :=
  mk (Secure o) (TLSConfig o) (ServiceName o) (PersistentQueues o) (Some e)
    (durableExchange o).
Definition set_DurableExchange (o : t) : t :=
  mk (Secure o) (TLSConfig o) (ServiceName o) (PersistentQueues o)
    (exchangeName o) (Some true).
End BkOptions.

(** The options of a subscription; the last five are values of its context. *)
Module SubscribeOptions.
Record t := mk {
  AutoAck : bool;
  Queue : string;
  requeueOnError : option bool;
  durableQueue : option bool;
  queueArguments : Table;
  headers : Table
}.
Definition DisableAutoAck (o : t) : t :=
  mk false (Queue o) (requeueOnError o) (durableQueue o) (queueArguments o) (headers o).
Definition set_Queue (name : string) (o : t) : t :=
  mk (AutoAck o) name (requeueOnError o) (durableQueue o) (queueArguments o) (headers o).
Definition RequeueOnError (o : t) : t :=
  mk (AutoAck o) (Queue o) (Some true) (durableQueue o) (queueArguments o) (headers o).
Definition DurableQueue (o : t) : t :=
  mk (AutoAck o) (Queue o) (requeueOnError o) (Some true) (queueArguments o) (headers o).
Definition QueueArguments (h : Table) (o : t) : t :=
  mk (AutoAck o) (Queue o) (requeueOnError o) (durableQueue o) h (headers o).
Definition Headers (h : Table) (o : t) : t :=
  mk (AutoAck o) (Queue o) (requeueOnError o) (durableQueue o) (queueArguments o) h.
End SubscribeOptions.
Abbreviation SubscribeOption := (SubscribeOptions.t -> SubscribeOptions.t).

Module PublishOptions.
Record t := mk { deliveryMode : option Z; priority : option Z }.
Definition DeliveryMode (v : Z) (o : t) : t := mk (Some v) (priority o).
Definition Priority (v : Z) (o : t) : t := mk (deliveryMode o) (Some v).
End PublishOptions.

(** ** Messages *)
Record Message := mkMessage {
  m_Header : gmap string string;
  m_Body : string;
  m_TimeStamp : Z
}.

Record Publishing := mkPublishing {
  p_Headers : gmap string string;
  p_Body : string;
  p_Timestamp : Z;
  p_DeliveryMode : Z;
  p_Priority : Z
}.

(** A message as it arrives. *)
Record Delivery := mkDelivery {
  d_Headers : gmap string json;
  d_Body : string;
  d_Timestamp : Z;
  d_RoutingKey : string
}.

(** ** The calls on the AMQP client *)
Inductive amqp_call :=
| Dial (url : string)
| OpenChannel
| Qos (count size : Z) (global : bool)
| ExchangeDeclare (name kind : string) (durable autoDelete internal noWait : bool)
| QueueDeclare (name : string) (durable autoDelete exclusive noWait : bool)
    (args : Table)
| QueueBind (name key exchange : string) (noWait : bool) (args : Table)
| ConsumeCall (queue consumer : string) (autoAck exclusive noLocal noWait : bool)
| PublishCall (exchange key : string) (mandatory immediate : bool) (msg : Publishing)
| CloseConnection.

(** The client's answer to a call, by its number: its error.  A dial that fails
    gives a connection all the same when it failed in the handshake.  The
    random source gives a name, or fails with a text. *)
Class Amqp := {
  answer : nat -> amqp_call -> option string;
  half_open : nat -> bool;
  new_consumer : nat -> string + string;
  amqp_now : nat -> Z;
  queue_fuel : nat
}.

(** rabbitMQConn: what its fields hold while one goroutine runs.  A channel is
    the connection it was opened on, with its consumer name. *)
Record Exchange := mkExchange { ex_Name : string; ex_Durable : bool }.

Record rabbitMQChannel := mkChannel { ch_uuid : string; ch_connection : nat }.

Record rabbitMQConn := mkConn {
  Connection : option nat;
  Channel : option rabbitMQChannel;
  ExchangeChannel : option rabbitMQChannel;
  connected : bool;
  closed : bool;
  b_log : list amqp_call;
  b_tick : nat
}.

Definition set_Connection (c : option nat) (r : rabbitMQConn) : rabbitMQConn :=
  mkConn c (Channel r) (ExchangeChannel r) (connected r) (closed r) (b_log r) (b_tick r).
Definition set_Channel (c : option rabbitMQChannel) (r : rabbitMQConn) : rabbitMQConn :=
  mkConn (Connection r) c (ExchangeChannel r) (connected r) (closed r) (b_log r)
    (b_tick r).
Definition set_ExchangeChannel (c : option rabbitMQChannel) (r : rabbitMQConn)
    : rabbitMQConn :=
  mkConn (Connection r) (Channel r) c (connected r) (closed r) (b_log r) (b_tick r).

Abbreviation BkAct := (M rabbitMQConn err).

Section client.
Context `{Registry} `{Amqp}.

Definition b_count : BkAct nat := fun r =>
  (inr (b_tick r),
   mkConn (Connection r) (Channel r) (ExchangeChannel r) (connected r) (closed r)
     (b_log r) (S (b_tick r))).

(** One call: it is made, and answered. *)
Definition call (c : amqp_call) : BkAct unit := fun r =>
  (match answer (b_tick r) c with Some e => inl (ERemote e) | None => inr tt end,
   mkConn (Connection r) (Channel r) (ExchangeChannel r) (connected r) (closed r)
     (b_log r ++ [c]) (S (b_tick r))).

(** ** rabbitmq_channel.go *)
Definition newRabbitChannel (prefetchCount : Z) (prefetchGlobal : bool)
    : BkAct rabbitMQChannel :=
  k <- b_count ;;
  match new_consumer k with
  | inl e => throw (ERemote e)
  | inr uuid =>
      r <- get ;;
      match Connection r with
      | None => throw EPanic
      | Some conn =>
          call OpenChannel ;;
          call (Qos prefetchCount 0 prefetchGlobal) ;;
          ret (mkChannel uuid conn)
      end
  end.

Definition ChannelPublish (ch : option rabbitMQChannel) (exchange key : string)
    (msg : Publishing) : BkAct unit :=
  match ch with
  | None => throw EPanic
  | Some _ => call (PublishCall exchange key false false msg)
  end.

Definition DeclareExchange (exchange : string) : BkAct unit :=
  call (ExchangeDeclare exchange "topic" false false false false).
Definition DeclareDurableExchange (exchange : string) : BkAct unit :=
  call (ExchangeDeclare exchange "topic" true false false false).
Definition DeclareQueue (queue : string) (args : Table) : BkAct unit :=
  call (QueueDeclare queue false true false false args).
Definition DeclareDurableQueue (queue : string) (args : Table) : BkAct unit :=
  call (QueueDeclare queue true false false false args).
Definition ConsumeQueue (ch : rabbitMQChannel) (queue : string) (autoAck : bool)
    : BkAct unit :=
  call (ConsumeCall queue (ch_uuid ch) autoAck false false false).
Definition BindQueue (queue key exchange : string) (args : Table) : BkAct unit :=
  call (QueueBind queue key exchange false args).

(** ** rabbitmq_connection.go *)

(** The settings of a connection. *)
Record conn_settings := mkSettings {
  exchange : Exchange;
  serviceName : string;
  qNames : list string;
  accountInfo : string;
  prefetchCount : Z;
  prefetchGlobal : bool;
  secure : bool
}.

Context (s : conn_settings).

(** [Close] *)
Definition ConnClose : BkAct unit := fun r =>
  if closed r then (inr tt, r)
  else
    let r := mkConn (Connection r) (Channel r) (ExchangeChannel r) false true
               (b_log r) (b_tick r) in
    match Connection r with
    | None => (inl EPanic, r)
    | Some _ => call CloseConnection r
    end.

Definition node_url (n : Node) : string :=
  let scheme := if secure s then "amqps://"%string else "amqp://"%string in
  String.append scheme (String.append (accountInfo s)
    (String.append "@" (String.append (Address n) "/"))).

(** The loop over the nodes: [n] tries are left. *)
Fixpoint dial_nodes (next : nat -> option Node) (n i : nat) : BkAct bool :=
  match n with
  | O => ret false
  | S n =>
      match next i with
      | None => throw EPanic
      | Some node =>
          k <- (r <- get ;; ret (b_tick r)) ;;
          x <- attempt (call (Dial (node_url node))) ;;
          match x with
          | inr _ => modify (set_Connection (Some k)) ;; ret true
          | inl _ =>
              modify (set_Connection (if half_open k then Some k else None)) ;;
              dial_nodes next n (S i)
          end
      end
  end.

Definition doTryConnect : BkAct unit :=
  k <- b_count ;;
  match discovered (EPlain "could not discover broker service")
          (EPlain "not found broker service") (GetService k (serviceName s)) with
  | inl e => throw e
  | inr services =>
      k <- b_count ;;
      found <- dial_nodes (RoundRobin services (rand_start k)) (tries services) 0 ;;
      if (found : bool) then ret tt else throw (EPlain "could not connect to broker")
  end.

Definition declarePersistentQueue (qName key exchange : string) : BkAct unit :=
  newRabbitChannel (prefetchCount s) (prefetchGlobal s) ;;
  DeclareDurableQueue qName None ;;
  BindQueue qName key exchange None.

(** Again and again, a second apart, until it works; a panic ends it. *)
Fixpoint declare_until (fuel : nat) (qName : string) : BkAct unit :=
  match fuel with
  | O => throw ERetrying
  | S fuel =>
      x <- attempt (declarePersistentQueue qName qName (ex_Name (exchange s))) ;;
      match x with
      | inr _ => ret tt
      | inl EPanic => throw EPanic
      | inl _ => declare_until fuel qName
      end
  end.

(** An error after the connection is there closes it. *)
Definition or_close {A} (c : BkAct A) : BkAct A :=
  x <- attempt c ;;
  match x with
  | inr a => ret a
  | inl EPanic => throw EPanic
  | inl e => attempt ConnClose ;; throw e
  end.

(** A channel field takes the new channel, or nil. *)
Definition open_channel (set : option rabbitMQChannel -> rabbitMQConn -> rabbitMQConn)
    : BkAct unit :=
  x <- attempt (newRabbitChannel (prefetchCount s) (prefetchGlobal s)) ;;
  match x with
  | inr ch => modify (set (Some ch))
  | inl e => modify (set None) ;; throw e
  end.

Definition tryConnect : BkAct unit :=
  doTryConnect ;;
  or_close (open_channel set_Channel) ;;
  or_close (if ex_Durable (exchange s) then DeclareDurableExchange (ex_Name (exchange s))
            else DeclareExchange (ex_Name (exchange s))) ;;
  or_close (open_channel set_ExchangeChannel) ;;
  for_each (declare_until queue_fuel) (qNames s).

Definition ConnConsume (queue key : string) (headers qArgs : Table)
    (autoAck durableQueue : bool) : BkAct rabbitMQChannel :=
  ch <- newRabbitChannel (prefetchCount s) (prefetchGlobal s) ;;
  (if durableQueue then DeclareDurableQueue queue qArgs else DeclareQueue queue qArgs) ;;
  ConsumeQueue ch queue autoAck ;;
  BindQueue queue key (ex_Name (exchange s)) headers ;;
  ret ch.

Definition ConnPublish (exchange key : string) (msg : Publishing) : BkAct unit :=
  r <- get ;; ChannelPublish (ExchangeChannel r) exchange key msg.

(** ** rabbitmq.go *)

(** [rbroker.Publish] on a connected broker; [None] is a broker without a
    connection. *)
Definition Publish (conn : bool) (topic : string) (msg : Message)
    (opts : list (PublishOptions.t -> PublishOptions.t)) : BkAct unit :=
  if negb conn then throw (EPlain "not connected broker")
  else
    k <- b_count ;;
    let o := fold_left (fun o f => f o) opts (PublishOptions.mk None None) in
    ConnPublish (ex_Name (exchange s)) topic
      (mkPublishing (m_Header msg) (m_Body msg) (amqp_now k)
         (default 0 (PublishOptions.deliveryMode o))
         (default 0 (PublishOptions.priority o))).
End client.

(** A subscriber as [subscribe] makes it. *)
Record subscription := mkSubscription {
  topic : string;
  s_opts : SubscribeOptions.t;
  s_durable : bool;
  s_requeue : bool
}.

(** [conn]: the broker has a connection. *)
Definition subscribe (conn : bool) (topic : string) (opts : list SubscribeOption)
    : err + subscription :=
  if negb conn then inl (EPlain "not connected broker")
  else
    let o := fold_left (fun o f => f o) opts
               (SubscribeOptions.mk true EmptyString None None None None) in
    inr (mkSubscription topic o
           (default false (SubscribeOptions.durableQueue o))
           (default false (SubscribeOptions.requeueOnError o))).

Definition SubscribePersistentQueue (conn : bool) (topic : string)
    (requeueOnError : bool) (opts : list SubscribeOption) : err + subscription :=
  let opts := opts ++ [SubscribeOptions.set_Queue topic;
                       SubscribeOptions.DurableQueue;
                       SubscribeOptions.DisableAutoAck] in
  let opts := if requeueOnError then opts ++ [SubscribeOptions.RequeueOnError]
              else opts in
  subscribe conn topic opts.

Definition SubscribeTempQueue (conn : bool) (topic : string)
    (opts : list SubscribeOption) : err + subscription :=
  subscribe conn topic opts.

(** What a subscriber consumes. *)
Definition consume_for `{Amqp} (cs : conn_settings) (s : subscription)
    : BkAct rabbitMQChannel :=
  ConnConsume cs (SubscribeOptions.Queue (s_opts s)) (topic s)
    (SubscribeOptions.headers (s_opts s)) (SubscribeOptions.queueArguments (s_opts s))
    (SubscribeOptions.AutoAck (s_opts s)) (s_durable s).

(** What the subscriber tells the server of a delivery. *)
Inductive ack := Ack (multiple : bool) | Nack (multiple requeue : bool).

(** The event the handler gets. *)
Record Publication := mkPublication { pub_message : Message; pub_topic : string }.

Definition publication (msg : Delivery) : Publication :=
  mkPublication
    (mkMessage (fmap (M:=gmap string)
       (fun v => match v with JStr v => v | _ => EmptyString end) (d_Headers msg))
       (d_Body msg) (d_Timestamp msg))
    (d_RoutingKey msg).

(** [fn]: the handler runs, and the delivery is acknowledged by its result. *)
Definition acknowledge (s : subscription) (result : option err) : list ack :=
  if SubscribeOptions.AutoAck (s_opts s) then []
  else match result with
       | None => [Ack false]
       | Some _ => [Nack false (s_requeue s)]
       end.

Definition handle {W} (s : subscription) (handler : Publication -> M W err unit)
    (msg : Delivery) : M W err (list ack) :=
  r <- attempt (handler (publication msg)) ;;
  match r with
  | inr _ => ret (acknowledge s None)
  | inl EPanic => throw EPanic
  | inl e => ret (acknowledge s (Some e))
  end.

(** [NewBroker], [getExchange] *)
Definition NewBroker (name : string) (opts : list (BkOptions.t -> BkOptions.t))
    : BkOptions.t :=
  fold_left (fun o f => f o) opts (BkOptions.mk false false name [] None None).

Definition getExchange (o : BkOptions.t) : Exchange :=
  mkExchange (default "micro"%string (BkOptions.exchangeName o))
    (default false (BkOptions.durableExchange o)).

(** The settings of the connection [Connect] makes. *)
Definition conn_settings_of (o : BkOptions.t) (id passwd : string) : conn_settings :=
  mkSettings (getExchange o) (BkOptions.ServiceName o) (BkOptions.PersistentQueues o)
    (String.append id (String.append ":" passwd)) 0 false
    (BkOptions.Secure o || BkOptions.TLSConfig o).

(** ** The broker as its users have it (rabbitmq.go) *)
Record rbroker := mkBroker {
  rb_opts : BkOptions.t;
  rb_id : string;
  rb_passwd : string;
  rb_conn : option rabbitMQConn
}.

Section users.
Context `{Registry} `{Amqp}.

(** [newRabbitMQConn], at call number [tick]. *)
Definition new_conn (tick : nat) : rabbitMQConn := mkConn None None None false false [] tick.

(** [rabbitMQConn.Connect], [connect]: the goroutine that reconnects is started
    after it ([BkMachine]). *)
Definition ConnConnect (s : conn_settings) : BkAct unit :=
  r <- get ;;
  if connected r then ret tt
  else
    modify (fun r => mkConn (Connection r) (Channel r) (ExchangeChannel r)
      (connected r) false (b_log r) (b_tick r)) ;;
    tryConnect s ;;
    modify (fun r => mkConn (Connection r) (Channel r) (ExchangeChannel r) true
      (closed r) (b_log r) (b_tick r)).

(** [rbroker.Connect], at call number [tick]: a new connection is only kept when
    it was made.  The number of the next call is returned, too. *)
Definition BrokerConnect (b : rbroker) (tick : nat) : (err + unit) * rbroker * nat :=
  let conn := default (new_conn tick) (rb_conn b) in
  let '(r, conn') :=
    ConnConnect (conn_settings_of (rb_opts b) (rb_id b) (rb_passwd b)) conn in
  let kept :=
    match r with
    | inr _ => Some conn'
    | inl _ => match rb_conn b with None => None | Some _ => Some conn' end
    end in
  (r, mkBroker (rb_opts b) (rb_id b) (rb_passwd b) kept, b_tick conn').

(** [rbroker.Disconnect]; the handlers that still run are waited for. *)
Definition BrokerDisconnect (b : rbroker) : (err + unit) * rbroker :=
  match rb_conn b with
  | None => (inl (EPlain "connection is nil"), b)
  | Some conn =>
      let '(r, conn') := ConnClose conn in
      (r, mkBroker (rb_opts b) (rb_id b) (rb_passwd b) (Some conn'))
  end.
End users.
