(* ===== verification/BkProps.v ===== *)
(** * The broker: what a connection declares, and how a subscription treats
    its messages *)

From stdpp Require Import base tactics list strings gmap.
From Stdlib Require Import ZArith Lia Ascii.
From S2P Require Import Prelude GoStd Json Backend Errors Discovery Broker.
#[local] Open Scope Z_scope.
#[local] Open Scope go_scope.

Section connecting.
Context `{Registry} `{Amqp}.

(** The calls made between two states, on the same connection. *)
Record calls_only (r r' : rabbitMQConn) : Prop := {
  co_conn : Connection r' = Connection r;
  co_connected : connected r' = connected r;
  co_closed : closed r' = closed r;
  co_log : b_log r `prefix_of` b_log r'
}.

#[global] Instance calls_only_preorder : PreOrder calls_only.
Proof.
  split; [done|]. intros r1 r2 r3 [] []. split; [congruence..|]. by etrans.
Qed.

#[global] Instance co_count : Preserves calls_only b_count.
Proof. intros r x r' [= _ <-]. done. Qed.

#[global] Instance co_call c : Preserves calls_only (call c).
Proof. intros r x r' [= _ <-]. split; [done..|]. by exists [c]. Qed.

#[global] Instance co_newRabbitChannel n g :
  Preserves calls_only (newRabbitChannel n g).
Proof. unfold newRabbitChannel. keep. Qed.

Lemma call_inr c r u r' : call c r = (inr u, r') -> c ∈ b_log r'.
Proof. intros [= _ <-]. cbn. apply elem_of_app. right. by left. Qed.

Lemma call_no_panic c r r' : call c r <> (inl EPanic, r').
Proof. unfold call. destruct (answer _ _); congruence. Qed.

(** A call that was made stays in the log. *)
Lemma logged c r r' : calls_only r r' -> c ∈ b_log r -> c ∈ b_log r'.
Proof. intros [_ _ _ [l ->]] Hc. apply elem_of_app. by left. Qed.

(** No nil pointer while there is a connection. *)
Lemma newRabbitChannel_no_panic n g r e r' :
  is_Some (Connection r) -> newRabbitChannel n g r = (inl e, r') -> e <> EPanic.
Proof.
  intros [c Hc] [(? & ? & _)|(k & r1 & Hk & Hr)]%bind_inv; [done|].
  injection Hk as <- <-. destruct (new_consumer _) as [t|uuid].
  { by apply throw_inv in Hr as [[= ->] _]. }
  apply bind_inv in Hr as [(? & ? & _)|(r1 & r2 & Hg & Hr)]; [done|].
  injection Hg as <- <-. cbn [Connection] in Hr. rewrite Hc in Hr.
  apply bind_inv in Hr as [(e' & He & [= ->])|(u & r3 & _ & Hr)].
  { intros ->. by apply call_no_panic in He. }
  apply bind_inv in Hr as [(e' & He & [= ->])|(u' & r4 & _ & Hr)]; [|done].
  intros ->. by apply call_no_panic in He.
Qed.

Context (s : conn_settings).

#[global] Instance co_declarePersistentQueue q k x :
  Preserves calls_only (declarePersistentQueue s q k x).
Proof. unfold declarePersistentQueue, DeclareDurableQueue, BindQueue. keep. Qed.

#[global] Instance co_declare_until fuel q : Preserves calls_only (declare_until s fuel q).
Proof. induction fuel as [|n IH]; cbn [declare_until]; keep. Qed.

Lemma declarePersistentQueue_no_panic q k x r e r' :
  is_Some (Connection r) -> declarePersistentQueue s q k x r = (inl e, r') ->
  e <> EPanic.
Proof.
  intros Hc [(e' & He & [= ->])|(ch & r1 & _ & Hr)]%bind_inv.
  { by eapply newRabbitChannel_no_panic. }
  intros ->. apply bind_inv in Hr as [(e' & He & [= <-])|(u & r2 & _ & Hr)];
    by eapply call_no_panic.
Qed.

Lemma declare_until_inv fuel q r x r' :
  is_Some (Connection r) -> declare_until s fuel q r = (x, r') ->
  x = inl ERetrying \/
  x = inr tt /\ QueueDeclare q true false false false None ∈ b_log r' /\
    QueueBind q q (ex_Name (exchange s)) false None ∈ b_log r'.
Proof.
  revert r. induction fuel as [|n IH]; intros r Hc Hr.
  { apply throw_inv in Hr as [-> _]. by left. }
  apply bind_inv in Hr as [(? & (? & ? & _)%attempt_inv & _)|(y & r1 & Ha & Hr)];
    [done|].
  apply attempt_inv in Ha as (z & [= ->] & Hd).
  destruct z as [e|[]].
  - assert (e <> EPanic) as Hne by (by eapply declarePersistentQueue_no_panic).
    destruct e; try done; (eapply IH; [|exact Hr]);
      pose proof (co_declarePersistentQueue _ _ _ _ _ _ Hd) as [-> _ _ _]; done.
  - apply ret_inv in Hr as [-> ->]. right. split; [done|].
    unfold declarePersistentQueue in Hd.
    apply bind_inr in Hd as (ch & r2 & _ & Hd).
    apply bind_inr in Hd as ([] & r3 & Hq & Hb). split; [|by eapply call_inr].
    eapply logged, call_inr, Hq. by eapply co_call.
Qed.

Lemma declare_all_inv qs r x r' :
  is_Some (Connection r) -> for_each (declare_until s queue_fuel) qs r = (x, r') ->
  calls_only r r' /\
  (x = inl ERetrying \/
   x = inr tt /\ forall q, q ∈ qs ->
     QueueDeclare q true false false false None ∈ b_log r' /\
     QueueBind q q (ex_Name (exchange s)) false None ∈ b_log r').
Proof.
  revert r. induction qs as [|q qs IH]; intros r Hc Hr; cbn in Hr.
  { apply ret_inv in Hr as [-> ->]. split; [done|]. right. split; [done|].
    by intros q ?%elem_of_nil. }
  apply bind_inv in Hr as [(e & Hd & ->)|([] & r1 & Hd & Hr)];
    pose proof (co_declare_until _ _ _ _ _ Hd) as Hco.
  - split; [done|]. apply declare_until_inv in Hd as [?|(? & _)]; [by left|done|done].
  - apply declare_until_inv in Hd as [?|(_ & H1 & H2)]; [done| |done].
    apply IH in Hr as [Hco' Hx]; [|by destruct Hco as [-> _ _ _]].
    split; [by etrans|]. destruct Hx as [?|[-> Hx]]; [by left|right].
    split; [done|]. intros q' [->|Hq]%elem_of_cons; [|auto].
    split; by eapply logged.
Qed.

(** Dialling changes the connection, and makes calls. *)
Record dialled (r r' : rabbitMQConn) : Prop := {
  di_connected : connected r' = connected r;
  di_closed : closed r' = closed r;
  di_log : b_log r `prefix_of` b_log r'
}.

#[global] Instance dialled_preorder : PreOrder dialled.
Proof. split; [done|]. intros r1 r2 r3 [] []. split; [congruence..|]. by etrans. Qed.

Lemma dialled_calls r r' : calls_only r r' -> dialled r r'.
Proof. by intros []. Qed.

Lemma dial_nodes_inv next n i r x r' :
  (forall j, (i <= j < i + n)%nat -> is_Some (next j)) ->
  dial_nodes s next n i r = (x, r') ->
  dialled r r' /\ (x = inr false \/ x = inr true /\ is_Some (Connection r')).
Proof.
  revert i r. induction n as [|n IH]; intros i r Hn Hr; cbn [dial_nodes] in Hr.
  { apply ret_inv in Hr as [-> ->]. split; [done|by left]. }
  destruct (Hn i) as [node E]; [lia|]. rewrite E in Hr.
  assert (forall j, (S i <= j < S i + n)%nat -> is_Some (next j)) as Hn'
    by (intros j Hj; apply Hn; lia).
  apply bind_inv in Hr as [(? & ? & _)|(k & r1 & Hk & Hr)]; [done|].
  injection Hk as <- <-.
  apply bind_inv in Hr as [(? & (? & ? & _)%attempt_inv & _)|(y & r2 & Ha & Hr)];
    [done|].
  apply attempt_inv in Ha as (z & [= ->] & Hd).
  apply co_call, dialled_calls in Hd.
  destruct z as [e|u]; apply bind_inv in Hr as [(? & ? & _)|(u' & r3 & Hm & Hr)];
    try done; injection Hm as _ <-.
  - apply IH in Hr as [Hr Hx]; [|done]. split; [|done].
    etrans; [exact Hd|]. etrans; [|exact Hr]. by destruct r2.
  - apply ret_inv in Hr as [-> ->]. split; [|by right].
    etrans; [exact Hd|]. by destruct r2.
Qed.

Lemma next_node services start j :
  (0 < tries services)%nat -> is_Some (RoundRobin services start j).
Proof.
  intros Hn. apply lookup_lt_is_Some, Nat.mod_upper_bound.
  destruct services as [|l services]; cbn in *; [lia|].
  unfold tries in Hn. cbn in Hn. rewrite length_app. unfold id in Hn. lia.
Qed.

Lemma doTryConnect_inv r x r' :
  doTryConnect s r = (x, r') ->
  dialled r r' /\
  ((exists t, x = inl (EPlain t)) \/ x = inr tt /\ is_Some (Connection r')).
Proof.
  unfold doTryConnect. intros [(? & ? & _)|(k & r1 & Hk & Hr)]%bind_inv; [done|].
  apply co_count, dialled_calls in Hk.
  destruct (discovered _ _ _) as [e|services] eqn:Ed.
  { apply throw_inv in Hr as [-> ->]. split; [done|]. left.
    unfold discovered in Ed. destruct (GetService _ _) as [[]|[]]; simplify_eq; eauto. }
  apply bind_inv in Hr as [(? & ? & _)|(k' & r2 & Hk' & Hr)]; [done|].
  apply co_count, dialled_calls in Hk'.
  assert (Hdn : forall y r3, dial_nodes s (RoundRobin services (rand_start k'))
    (tries services) 0 r2 = (y, r3) -> dialled r r3 /\
    (y = inr false \/ y = inr true /\ is_Some (Connection r3))).
  { intros y r3 Hd. apply dial_nodes_inv in Hd as [Hd Hy].
    - split; [|done]. by do 2 (etrans; [done|]).
    - intros j Hj. apply next_node. lia. }
  apply bind_inv in Hr as [(e & Hd & ->)|(b & r3 & Hd & Hr)];
    apply Hdn in Hd as [Hd Hy].
  - by destruct Hy as [?|[? _]].
  - destruct Hy as [[= ->]|[[= ->] Hc]].
    + apply throw_inv in Hr as [-> ->]. split; [done|]. left. eauto.
    + apply ret_inv in Hr as [-> ->]. split; [done|]. by right.
Qed.

(** What is added to the log of the calls. *)
Definition adds (P : amqp_call -> Prop) (r r' : rabbitMQConn) : Prop :=
  exists l, b_log r' = b_log r ++ l /\ Forall P l.
Definition is_dial (c : amqp_call) : Prop := exists url, c = Dial url.
Definition no_close (c : amqp_call) : Prop := c <> CloseConnection.

#[global] Instance adds_preorder P : PreOrder (adds P).
Proof.
  split; [intros r; exists []; by rewrite app_nil_r|].
  intros r1 r2 r3 (l & Hl & Hp) (l' & Hl' & Hp'). exists (l ++ l').
  rewrite Hl', Hl, app_assoc. split; [done|]. by apply Forall_app.
Qed.

Lemma adds_weaken (P Q : amqp_call -> Prop) r r' :
  (forall c, P c -> Q c) -> adds P r r' -> adds Q r r'.
Proof. intros HPQ (l & Hl & Hp). exists l. split; [done|]. by eapply Forall_impl. Qed.

Lemma dial_no_close c : is_dial c -> no_close c.
Proof. by intros [url ->]. Qed.

#[local] Instance adds_count P : Preserves (adds P) b_count.
Proof. intros r x r' [= _ <-]. exists []. by rewrite app_nil_r. Qed.

Lemma adds_call (P : amqp_call -> Prop) c : P c -> Preserves (adds P) (call c).
Proof. intros Hc r x r' [= _ <-]. exists [c]. by split; [|constructor]. Qed.

#[local] Hint Extern 1 (Preserves (adds is_dial) (call _)) =>
  (apply adds_call; by eexists) : typeclass_instances.
#[local] Hint Extern 1 (Preserves (adds no_close) (call _)) =>
  (by apply adds_call) : typeclass_instances.

Lemma adds_set (f : rabbitMQConn -> rabbitMQConn) P :
  (forall r, b_log (f r) = b_log r) -> Preserves (E:=err) (adds P) (modify f).
Proof. intros Hf r x r' [= _ <-]. exists []. by rewrite Hf, app_nil_r. Qed.

#[local] Hint Extern 1 (Preserves (adds _) (modify _)) =>
  (by apply adds_set) : typeclass_instances.

#[local] Instance adds_dial_nodes next n i :
  Preserves (adds is_dial) (dial_nodes s next n i).
Proof. revert i. induction n as [|n IH]; intros i; cbn [dial_nodes]; keep. Qed.

Lemma adds_doTryConnect : Preserves (adds is_dial) (doTryConnect s).
Proof. unfold doTryConnect. keep. Qed.

#[local] Instance adds_newRabbitChannel n g : Preserves (adds no_close) (newRabbitChannel n g).
Proof. unfold newRabbitChannel. keep. Qed.

Lemma adds_open set :
  (forall c r, b_log (set c r) = b_log r) ->
  Preserves (adds no_close) (open_channel s set).
Proof.
  intros Hs. assert (forall c, Preserves (E:=err) (adds no_close) (modify (set c)))
    by (intros c; by apply adds_set).
  unfold open_channel. keep.
Qed.

Lemma adds_exchange :
  Preserves (adds no_close)
    (if ex_Durable (exchange s) then DeclareDurableExchange (ex_Name (exchange s))
     else DeclareExchange (ex_Name (exchange s))).
Proof. unfold DeclareDurableExchange, DeclareExchange. keep. Qed.

#[local] Instance adds_declare_until fuel q :
  Preserves (adds no_close) (declare_until s fuel q).
Proof.
  assert (forall k x, Preserves (adds no_close) (declarePersistentQueue s q k x)).
  { intros k x. unfold declarePersistentQueue, DeclareDurableQueue, BindQueue. keep. }
  induction fuel as [|n IH]; cbn [declare_until]; keep.
Qed.

Lemma adds_declare_all qs :
  Preserves (adds no_close) (for_each (declare_until s queue_fuel) qs).
Proof. apply _. Qed.

(** The stop channel is closed and, unless it was already, the connection too: that
    is the last call made. *)
Definition shut (r r' : rabbitMQConn) : Prop :=
  Connection r' = Connection r /\ closed r' = true /\
  if closed r then connected r' = connected r /\ b_log r' = b_log r
  else connected r' = false /\ b_log r' = b_log r ++ [CloseConnection].

Lemma close_shut r x r' :
  is_Some (Connection r) -> ConnClose r = (x, r') -> shut r r'.
Proof.
  intros [c Hc] Hr. unfold ConnClose, shut in *.
  destruct (closed r) eqn:Ec; [by injection Hr as _ <-|].
  cbn in Hr. rewrite Hc in Hr. injection Hr as _ <-. cbn. by rewrite Hc.
Qed.

(** One step of the set-up: it works, or the connection is closed. *)
Lemma or_close_inv {A} (c : BkAct A) r x r' :
  is_Some (Connection r) ->
  (forall y r1, c r = (y, r1) -> is_Some (Connection r1) /\ y <> inl EPanic) ->
  or_close c r = (x, r') ->
  (exists a, x = inr a /\ c r = (inr a, r')) \/
  exists e r1, x = inl e /\ c r = (inl e, r1) /\ shut r1 r'.
Proof.
  intros Hc Hp Hr. unfold or_close in Hr.
  apply bind_inv in Hr as [(? & (? & ? & _)%attempt_inv & _)|(y & r1 & Ha & Hr)];
    [done|].
  apply attempt_inv in Ha as (z & [= ->] & Hd).
  pose proof (Hp _ _ Hd) as [Hc1 Hz]. destruct z as [e|a].
  - right. assert (Hthrow : (attempt ConnClose ;; throw e) r1 = (x, r')).
    { destruct e; done. }
    clear Hr. apply bind_inv in Hthrow as
      [(? & (? & ? & _)%attempt_inv & _)|(y & r2 & Ha & Ht)]; [done|].
    apply attempt_inv in Ha as (w & [= ->] & Hcl). apply throw_inv in Ht as [-> ->].
    exists e, r1. split_and!; [done..|]. by eapply close_shut.
  - apply ret_inv in Hr as [-> ->]. left. by exists a.
Qed.

#[global] Instance co_set_Channel c : Preserves calls_only (E:=err) (modify (set_Channel c)).
Proof. by intros r x r' [= _ <-]. Qed.
#[global] Instance co_set_ExchangeChannel c :
  Preserves calls_only (E:=err) (modify (set_ExchangeChannel c)).
Proof. by intros r x r' [= _ <-]. Qed.

Lemma open_channel_inv set r x r' :
  (forall c, Preserves calls_only (E:=err) (modify (set c))) ->
  is_Some (Connection r) -> open_channel s set r = (x, r') ->
  calls_only r r' /\ x <> inl EPanic /\
  forall u, x = inr u -> exists c r1, r' = set (Some c) r1.
Proof.
  intros Hset Hc Hr. unfold open_channel in Hr. split.
  { revert Hr. apply (preserves (R:=calls_only) (c:=open_channel s set)
      (Preserves:=ltac:(unfold open_channel; keep))). }
  apply bind_inv in Hr as [(? & (? & ? & _)%attempt_inv & _)|(y & r1 & Ha & Hr)];
    [done|].
  apply attempt_inv in Ha as (z & [= ->] & Hd). destruct z as [e|ch].
  - apply newRabbitChannel_no_panic in Hd; [|done].
    apply bind_inv in Hr as [(? & ? & _)|(u & r2 & _ & Hr)]; [done|].
    apply throw_inv in Hr as [-> _]. split; [congruence|done].
  - injection Hr as <- <-. split; [done|]. eauto.
Qed.

(** A part of the set-up that only makes calls, and does not panic. *)
Definition sound_part {A} (c : BkAct A) : Prop := forall r z r',
  is_Some (Connection r) -> c r = (z, r') -> calls_only r r' /\ z <> inl EPanic.

Lemma sound_call c : sound_part (call c).
Proof.
  intros r z r' _ Hc. split; [by eapply co_call|]. intros ->. by apply call_no_panic in Hc.
Qed.

Lemma sound_open set :
  (forall c, Preserves calls_only (E:=err) (modify (set c))) ->
  sound_part (open_channel s set).
Proof. intros Hset r z r' Hc Ho. by apply open_channel_inv in Ho as (? & ? & _). Qed.

Lemma part_inv {A B} (c : BkAct A) (k : A -> BkAct B) r x r' :
  is_Some (Connection r) -> sound_part c -> bind (or_close c) k r = (x, r') ->
  (exists e r1, x = inl e /\ calls_only r r1 /\ is_Some (Connection r1) /\
     c r = (inl e, r1) /\ shut r1 r') \/
  exists a r1, calls_only r r1 /\ is_Some (Connection r1) /\
    c r = (inr a, r1) /\ k a r1 = (x, r').
Proof.
  intros Hc Hs Hr.
  assert (Hp : forall z r1, c r = (z, r1) ->
    calls_only r r1 /\ is_Some (Connection r1) /\ z <> inl EPanic).
  { intros z r1 Hz. destruct (Hs _ _ _ Hc Hz) as [Hco ?]. split_and!; [done| |done].
    by destruct Hco as [-> _ _ _]. }
  assert (Hp' : forall z r1, c r = (z, r1) -> is_Some (Connection r1) /\ z <> inl EPanic)
    by (intros z r1 Hz; by destruct (Hp _ _ Hz)).
  apply bind_inv in Hr as [(e & Ho & ->)|(a & r1 & Ho & Hr)];
    apply (or_close_inv _ _ _ _ Hc Hp') in Ho
      as [(a' & Hx & Hrun)|(e' & r2 & Hx & Hrun & Hsh)]; simplify_eq;
    destruct (Hp _ _ Hrun) as (? & ? & _); [left; by exists e', r2|right].
  by exists a', r1.
Qed.

(** A call that fails, fails with the answer of the server. *)
Definition remote (e : err) : Prop := exists t, e = ERemote t.

Lemma call_remote c r e r' : call c r = (inl e, r') -> remote e.
Proof. unfold call, remote. destruct (answer _ _); intros [= <- _]; eauto. Qed.

Lemma newRabbitChannel_remote n g r e r' :
  is_Some (Connection r) -> newRabbitChannel n g r = (inl e, r') -> remote e.
Proof.
  intros [c Hc] [(? & ? & _)|(k & r1 & Hk & Hr)]%bind_inv; [done|].
  injection Hk as <- <-. destruct (new_consumer _) as [t|uuid].
  { apply throw_inv in Hr as [[= ->] _]. by eexists. }
  apply bind_inv in Hr as [(? & ? & _)|(r1 & r2 & Hg & Hr)]; [done|].
  injection Hg as <- <-. cbn [Connection] in Hr. rewrite Hc in Hr.
  apply bind_inv in Hr as [(e' & He & [= ->])|(u & r3 & _ & Hr)];
    [by eapply call_remote|].
  apply bind_inv in Hr as [(e' & He & [= ->])|(u' & r4 & _ & Hr)]; [|done].
  by eapply call_remote.
Qed.

Lemma open_channel_remote set r e r' :
  is_Some (Connection r) -> open_channel s set r = (inl e, r') -> remote e.
Proof.
  intros Hc [(? & (? & ? & _)%attempt_inv & _)|(y & r1 & Ha & Hr)]%bind_inv; [done|].
  apply attempt_inv in Ha as (z & [= ->] & Hd). destruct z as [e'|ch]; [|done].
  apply bind_inv in Hr as [(? & ? & _)|(u & r2 & _ & Hr)]; [done|].
  apply throw_inv in Hr as [[= ->] _]. by eapply newRabbitChannel_remote.
Qed.

Lemma exchange_inv r u r' :
  (if ex_Durable (exchange s) then DeclareDurableExchange (ex_Name (exchange s))
   else DeclareExchange (ex_Name (exchange s))) r = (inr u, r') ->
  ExchangeDeclare (ex_Name (exchange s)) "topic" (ex_Durable (exchange s))
    false false false ∈ b_log r'.
Proof. destruct (ex_Durable (exchange s)); apply call_inr. Qed.

(** The channels a connection has are not taken away. *)
Definition chan_same (r r' : rabbitMQConn) : Prop := Channel r' = Channel r.
Definition exch_same (r r' : rabbitMQConn) : Prop :=
  ExchangeChannel r' = ExchangeChannel r.

#[global] Instance chan_same_preorder : PreOrder chan_same.
Proof. split; [done|]. unfold chan_same. congruence. Qed.
#[global] Instance exch_same_preorder : PreOrder exch_same.
Proof. split; [done|]. unfold exch_same. congruence. Qed.

Section kept_channels.
Context (R : relation rabbitMQConn) `{!PreOrder R}
  `{!Preserves R b_count} `{!forall c, Preserves R (call c)}.

#[local] Instance kept_newRabbitChannel n g : Preserves R (newRabbitChannel n g).
Proof. unfold newRabbitChannel. keep. Qed.

#[local] Instance kept_declare_until fuel q : Preserves R (declare_until s fuel q).
Proof.
  assert (forall k x, Preserves R (declarePersistentQueue s q k x)).
  { intros k x. unfold declarePersistentQueue, DeclareDurableQueue, BindQueue. keep. }
  induction fuel as [|n IH]; cbn [declare_until]; keep.
Qed.

Lemma kept_declare_all qs :
  Preserves R (for_each (declare_until s queue_fuel) qs).
Proof. apply _. Qed.

Lemma kept_open set :
  (forall c, Preserves R (E:=err) (modify (set c))) -> Preserves R (open_channel s set).
Proof. intros Hs. unfold open_channel. keep. Qed.
End kept_channels.

#[local] Instance chan_count : Preserves chan_same b_count.
Proof. by intros r x r' [= _ <-]. Qed.
#[local] Instance chan_call c : Preserves chan_same (call c).
Proof. by intros r x r' [= _ <-]. Qed.
#[local] Instance exch_count : Preserves exch_same b_count.
Proof. by intros r x r' [= _ <-]. Qed.
#[local] Instance exch_call c : Preserves exch_same (call c).
Proof. by intros r x r' [= _ <-]. Qed.

Lemma chan_declare_all qs r x r' :
  for_each (declare_until s queue_fuel) qs r = (x, r') -> chan_same r r'.
Proof. apply kept_declare_all; apply _. Qed.
Lemma exch_declare_all qs r x r' :
  for_each (declare_until s queue_fuel) qs r = (x, r') -> exch_same r r'.
Proof. apply kept_declare_all; apply _. Qed.
Lemma chan_open_exchange r x r' :
  open_channel s set_ExchangeChannel r = (x, r') -> chan_same r r'.
Proof. apply kept_open; try apply _. by intros c r1 y r2 [= _ <-]. Qed.
Lemma chan_exchange r x r' :
  (if ex_Durable (exchange s) then DeclareDurableExchange (ex_Name (exchange s))
   else DeclareExchange (ex_Name (exchange s))) r = (x, r') -> chan_same r r'.
Proof. destruct (ex_Durable (exchange s)); apply chan_call. Qed.

(** How a try to connect ends without success.  No node gave a connection: *)
Definition not_connected (r : rabbitMQConn) (e : err) (r' : rabbitMQConn) : Prop :=
  (exists t, e = EPlain t) /\ closed r' = closed r /\ connected r' = connected r /\
  exists l, b_log r' = b_log r ++ l /\ forall c, c ∈ l -> exists url, c = Dial url.

(** The connection was made, and the server refused something of the set-up: *)
Definition set_up_failed (r : rabbitMQConn) (e : err) (r' : rabbitMQConn) : Prop :=
  (exists t, e = ERemote t) /\ is_Some (Connection r') /\ closed r' = true /\
  exists l, (CloseConnection ∉ l) /\
    if closed r then connected r' = connected r /\ b_log r' = b_log r ++ l
    else connected r' = false /\ b_log r' = b_log r ++ l ++ [CloseConnection].

(** The connection is set up, and a queue not declared in all the tries counted: *)
Definition still_declaring (r : rabbitMQConn) (e : err) (r' : rabbitMQConn) : Prop :=
  e = ERetrying /\ is_Some (Connection r') /\ closed r' = closed r /\
  connected r' = connected r /\
  exists l, b_log r' = b_log r ++ l /\ CloseConnection ∉ l.

Lemma set_up_ends r r1 r2 r3 e :
  dialled r r1 -> adds is_dial r r1 -> calls_only r1 r2 -> adds no_close r1 r2 ->
  is_Some (Connection r2) -> remote e -> shut r2 r3 -> set_up_failed r e r3.
Proof.
  intros [Hd1 Hd2 _] Ha1 [_ Hc2 Hc3 _] Ha2 Hcon He (Hsh1 & Hsh2 & Hsh3).
  assert (adds no_close r r2) as (l & Hl & Hno)
    by (etrans; [eapply adds_weaken, Ha1; apply dial_no_close|done]).
  split; [done|]. split; [by rewrite Hsh1|]. split; [done|]. exists l.
  split; [intros Hin; by apply (proj1 (Forall_forall _ _) Hno) in Hin|].
  rewrite Hc3, Hd2 in Hsh3. destruct (closed r); destruct Hsh3 as [-> ->].
  - by rewrite Hc2, Hd1, Hl.
  - by rewrite Hl, <- app_assoc.
Qed.

(** What a try to connect leaves behind. *)
Definition tried (r : rabbitMQConn) (x : err + unit) (r' : rabbitMQConn) : Prop :=
  x <> inl EPanic /\
  match x with
  | inr _ =>
      is_Some (Connection r') /\ is_Some (Channel r') /\
      is_Some (ExchangeChannel r') /\ closed r' = closed r /\
      connected r' = connected r /\ (exists l, b_log r' = b_log r ++ l /\ CloseConnection ∉ l) /\
      ExchangeDeclare (ex_Name (exchange s)) "topic" (ex_Durable (exchange s))
        false false false ∈ b_log r' /\
      forall q, q ∈ qNames s ->
        QueueDeclare q true false false false None ∈ b_log r' /\
        QueueBind q q (ex_Name (exchange s)) false None ∈ b_log r'
  | inl e => not_connected r e r' \/ set_up_failed r e r' \/ still_declaring r e r'
  end.

Lemma set_up_tried r r1 r2 r3 r4 x r' u1 u2 u3 :
  dialled r r1 -> adds no_close r r4 -> calls_only r1 r2 -> calls_only r2 r3 ->
  calls_only r3 r4 -> is_Some (Connection r1) -> is_Some (Connection r2) ->
  is_Some (Connection r3) -> is_Some (Connection r4) ->
  open_channel s set_Channel r1 = (inr u1, r2) ->
  (if ex_Durable (exchange s) then DeclareDurableExchange (ex_Name (exchange s))
   else DeclareExchange (ex_Name (exchange s))) r2 = (inr u2, r3) ->
  open_channel s set_ExchangeChannel r3 = (inr u3, r4) ->
  for_each (declare_until s queue_fuel) (qNames s) r4 = (x, r') -> tried r x r'.
Proof.
  intros [Hd1 Hd2 Hd3] Ha4 Hco1 Hco2 Hco3 Hc1 Hc2 Hc3 Hc4 Hch Hex Hch2 Hr.
  assert (adds no_close r r') as (l & Hl & Hno)
    by (etrans; [done|by eapply adds_declare_all]).
  assert (CloseConnection ∉ l) as Hnot
    by (intros Hin; by apply (proj1 (Forall_forall _ _) Hno) in Hin).
  pose proof Hr as [Hco4 Hx]%declare_all_inv; [|done].
  assert (calls_only r2 r') as Hco by (etrans; [done|]; by etrans).
  assert (calls_only r1 r') as [Hk1 Hk2 Hk3 Hk4] by by etrans.
  destruct Hx as [->|[-> Hq]]; (split; [done|]).
  { do 2 right. split_and!; [done|by rewrite Hk1|congruence..|by exists l]. }
  split_and!; try done; try congruence.
  - apply open_channel_inv in Hch as (_ & _ & Hch); [|apply _|done].
    destruct (Hch u1 eq_refl) as (c & r5 & ->).
    rewrite (chan_declare_all _ _ _ _ Hr), (chan_open_exchange _ _ _ Hch2),
      (chan_exchange _ _ _ Hex). cbn. eauto.
  - apply open_channel_inv in Hch2 as (_ & _ & Hch2); [|apply _|done].
    destruct (Hch2 u3 eq_refl) as (c & r5 & ->).
    rewrite (exch_declare_all _ _ _ _ Hr). cbn. eauto.
  - by exists l.
  - eapply logged, exchange_inv, Hex. by etrans.
Qed.

Lemma tryConnect_run r x r' : tryConnect s r = (x, r') -> tried r x r'.
Proof.
  unfold tryConnect. intros [(e & Hd & ->)|(u & r1 & Hd & Hr)]%bind_inv;
    pose proof (adds_doTryConnect _ _ _ Hd) as Ha1; apply doTryConnect_inv in Hd as [Hdi Hx].
  { destruct Hx as [[t [= ->]]|[? _]]; [|done]. split; [done|]. left.
    destruct Hdi as [? ? _], Ha1 as (l & Hl & Hdl). split; [by eexists|]. split_and!; [done..|].
    exists l. split; [done|]. by apply Forall_forall. }
  destruct Hx as [[t ?]|[_ Hc1]]; [done|].
  assert (Hend : forall e r2 r3, calls_only r1 r2 -> adds no_close r1 r2 ->
    is_Some (Connection r2) -> remote e -> shut r2 r3 ->
    tried r (inl e) r3).
  { intros e r2 r3 Hco Had Hcon Hre Hsh. split; [by destruct Hre as [t ->]|].
    right; left. by eapply set_up_ends. }
  assert (Ho1 := adds_open set_Channel (fun _ _ => eq_refl)).
  assert (Ho3 := adds_open set_ExchangeChannel (fun _ _ => eq_refl)).
  pose proof adds_exchange as Ho2.
  apply part_inv in Hr as [(e & r2 & -> & Hco & Hc2 & He & Hsh)
    |(u1 & r2 & Hco1 & Hc2 & Hch & Hr)]; [| |done|by apply sound_open, _].
  { eapply Hend; [done|by eapply Ho1|done|by eapply open_channel_remote, He|done]. }
  pose proof (Ho1 _ _ _ Hch) as Ha2.
  apply part_inv in Hr as [(e & r3 & -> & Hco & Hc3 & He & Hsh)
    |(u2 & r3 & Hco2 & Hc3 & Hex & Hr)];
    [| |done|destruct (ex_Durable _); apply sound_call].
  { eapply Hend; [by etrans|etrans; [done|by eapply Ho2]|done| |done].
    destruct (ex_Durable _); by eapply call_remote, He. }
  pose proof (Ho2 _ _ _ Hex) as Ha3.
  apply part_inv in Hr as [(e & r4 & -> & Hco & Hc4 & He & Hsh)
    |(u3 & r4 & Hco3 & Hc4 & Hch2 & Hr)]; [| |done|by apply sound_open, _].
  { eapply Hend; [|etrans; [done|]; etrans; [done|by eapply Ho3]|done| |done];
      [by etrans; [|etrans]|by eapply open_channel_remote, He]. }
  assert (adds no_close r r4) as Ha4.
  { etrans; [eapply adds_weaken, Ha1; apply dial_no_close|].
    do 2 (etrans; [done|]). by eapply Ho3. }
  by eapply set_up_tried.
Qed.

(** C21. A try to connect to the broker never follows a nil pointer, whatever the
    registry and the server answer.  When it succeeds there is a connection with
    its two channels, the exchange was declared as a topic exchange with the
    durability asked for, and every persistent queue was declared durable and
    kept without consumers, and bound to the exchange under its own name.  When
    no node gives a connection, nothing was done but dialling and the flags of
    the broker are as before.  When the set-up of a connection fails, the
    channel that stops the goroutines is closed afterwards; if it was open
    before, the connection is closed too, as the last call of the try, and the
    broker is not connected any more; if it was closed before, however, the
    connection just made is never closed.  The connection is not closed in a try
    that succeeds, or that still declares its queues after the tries counted. *)
Theorem tryConnect_spec r x r' :
  tryConnect s r = (x, r') ->
  x <> inl EPanic /\
  match x with
  | inr _ =>
      is_Some (Connection r') /\ is_Some (Channel r') /\
      is_Some (ExchangeChannel r') /\ closed r' = closed r /\
      connected r' = connected r /\ (exists l, b_log r' = b_log r ++ l /\ CloseConnection ∉ l) /\
      ExchangeDeclare (ex_Name (exchange s)) "topic" (ex_Durable (exchange s))
        false false false ∈ b_log r' /\
      forall q, q ∈ qNames s ->
        QueueDeclare q true false false false None ∈ b_log r' /\
        QueueBind q q (ex_Name (exchange s)) false None ∈ b_log r'
  | inl e => not_connected r e r' \/ set_up_failed r e r' \/ still_declaring r e r'
  end.
Proof. apply tryConnect_run. Qed.

(** ** Subscriptions *)
Definition given (opts : list SubscribeOption) : SubscribeOptions.t :=
  fold_left (fun o f => f o) opts
    (SubscribeOptions.mk true EmptyString None None None None).

Lemma persistent_options topic requeue opts sub :
  SubscribePersistentQueue true topic requeue opts = inr sub ->
  Broker.topic sub = topic /\ s_durable sub = true /\
  SubscribeOptions.Queue (s_opts sub) = topic /\
  SubscribeOptions.AutoAck (s_opts sub) = false /\
  SubscribeOptions.queueArguments (s_opts sub)
    = SubscribeOptions.queueArguments (given opts) /\
  SubscribeOptions.headers (s_opts sub) = SubscribeOptions.headers (given opts) /\
  s_requeue sub
    = (requeue || default false (SubscribeOptions.requeueOnError (given opts))).
Proof.
  unfold SubscribePersistentQueue, subscribe. cbn [negb]. intros [= <-].
  destruct requeue; cbn [Broker.topic s_durable s_opts s_requeue];
    rewrite !fold_left_app; done.
Qed.

Lemma call_run c r u r' :
  call c r = (inr u, r') -> b_log r' = b_log r ++ [c].
Proof. by intros [= _ <-]. Qed.

Lemma newRabbitChannel_run n g r ch r' :
  newRabbitChannel n g r = (inr ch, r') -> b_log r' = b_log r ++ [OpenChannel; Qos n 0 g].
Proof.
  unfold newRabbitChannel. intros (k & r1 & Hk & Hr)%bind_inr. injection Hk as <- <-.
  destruct (new_consumer _); [by apply throw_inv in Hr as [? _]|].
  apply bind_inr in Hr as (r1 & r2 & Hg & Hr). injection Hg as <- <-.
  cbn [Connection] in Hr. destruct (Connection r); [|by apply throw_inv in Hr as [? _]].
  go Hr. apply call_run in Hr0. apply call_run in Hr1.
  rewrite Hr1, Hr0, <- app_assoc. done.
Qed.

(** A persistent subscription, whatever options its caller adds: it consumes
    the durable queue of its topic, which outlives it, bound to the exchange
    under the topic, and the server waits for its replies.  Each delivery is
    handled once and replied to exactly once: acknowledged when the handler
    worked, and refused when it failed, to be delivered again exactly when the
    subscriber or its caller asked for that. *)
Theorem persistent_subscription_spec topic requeue opts sub :
  SubscribePersistentQueue true topic requeue opts = inr sub ->
  (forall r ch r', consume_for s sub r = (inr ch, r') ->
     b_log r' = b_log r ++
       [OpenChannel; Qos (prefetchCount s) 0 (prefetchGlobal s);
        QueueDeclare topic true false false false
          (SubscribeOptions.queueArguments (given opts));
        ConsumeCall topic (ch_uuid ch) false false false false;
        QueueBind topic topic (ex_Name (exchange s)) false
          (SubscribeOptions.headers (given opts))]) /\
  (forall W (handler : Publication -> M W err unit) msg w,
     handle sub handler msg w =
       let '(res, w') := handler (publication msg) w in
       (match res with
        | inr _ => inr [Ack false]
        | inl EPanic => inl EPanic
        | inl _ => inr [Nack false
            (requeue || default false (SubscribeOptions.requeueOnError (given opts)))]
        end, w')).
Proof.
  intros (Ht & Hd & Hq & Ha & Hargs & Hh & Hre)%persistent_options. split.
  - intros r ch r'. unfold consume_for, ConnConsume. rewrite Ht, Hd, Hq, Ha, Hargs, Hh.
    intros (ch' & r1 & Hch & Hr)%bind_inr. go Hr.
    apply newRabbitChannel_run in Hch. apply call_run in Hr0. apply call_run in Hr1.
    apply call_run in Hr2. rewrite Hr2, Hr1, Hr0, Hch, <- !app_assoc. done.
  - intros W handler msg w. unfold handle, bind, attempt, ret, acknowledge.
    rewrite Ha, Hre. by destruct (handler (publication msg) w) as [[[]|u] w'].
Qed.
End connecting.

(** ** Examples: a broker with one node, and a persistent queue *)
#[local] Instance b_registry : Registry := {
  GetService _ _ := inr [[mkNode "10.0.0.5:5672" ∅]];
  rand_start _ := 0%nat
}.
#[local] Instance b_amqp : Amqp := {
  answer _ _ := None;
  half_open _ := false;
  new_consumer _ := inr "consumer"%string;
  amqp_now k := Z.of_nat k;
  queue_fuel := 1
}.
Definition b_settings : conn_settings :=
  conn_settings_of (NewBroker "cdm-cloud-rabbitmq"
    [BkOptions.add_PersistentQueue ["report.event"%string]]) "cdm" "secret".
Definition b_new : rabbitMQConn := mkConn None None None false false [] 0.

(** A server that refuses the exchange. *)
Definition b_refusing : Amqp := {|
  answer _ c := match c with
                | ExchangeDeclare _ _ _ _ _ _ => Some "PRECONDITION_FAILED"%string
                | _ => None
                end;
  half_open _ := false;
  new_consumer _ := inr "consumer"%string;
  amqp_now k := Z.of_nat k;
  queue_fuel := 1
|}.
Definition b_closed (b : bool) : rabbitMQConn := mkConn None None None false b [] 0.
Definition b_refused (b : bool) : rabbitMQConn :=
  (@tryConnect b_registry b_refusing b_settings (b_closed b)).2.

Lemma tryConnect_spec_witness :
  QueueDeclare "report.event" true false false false None
    ∈ b_log (tryConnect b_settings b_new).2 /\
  last (b_log (b_refused false)) = Some CloseConnection /\
  CloseConnection ∉ b_log (b_refused true).
Proof.
  destruct (tryConnect_spec b_settings b_new (inr tt) (tryConnect b_settings b_new).2)
    as (_ & _ & _ & _ & _ & _ & _ & _ & Hq); [vm_compute; reflexivity|].
  destruct (@tryConnect_spec b_registry b_refusing b_settings (b_closed false)
    (inl (ERemote "PRECONDITION_FAILED")) (b_refused false)
    ltac:(vm_compute; reflexivity))
    as (_ & [((t & [=]) & _)|[(_ & _ & _ & l & _ & _ & Hl)|([=] & _)]]).
  destruct (@tryConnect_spec b_registry b_refusing b_settings (b_closed true)
    (inl (ERemote "PRECONDITION_FAILED")) (b_refused true)
    ltac:(vm_compute; reflexivity))
    as (_ & [((t & [=]) & _)|[(_ & _ & _ & l' & Hn & _ & Hl')|([=] & _)]]).
  split; [apply (Hq "report.event"%string); left|]. split.
  - rewrite Hl. apply last_snoc.
  - rewrite Hl'. exact Hn.
Defined.

Lemma persistent_subscription_spec_witness :
  exists sub, SubscribePersistentQueue true "report.event" false [] = inr sub /\
    forall msg, handle sub (fun _ => throw (EPlain "no handler")) msg tt = (inr [Nack false false], tt).
Proof.
  eexists. split; [reflexivity|]. intros msg.
  rewrite (proj2 (persistent_subscription_spec b_settings "report.event" false [] _
    ltac:(reflexivity))). reflexivity.
Defined.
