(* ===== verification/BkMachine.v ===== *)
(** * common/broker: the goroutines of a connection
    (rabbitmq_connection.go, rabbitmq.go)

    The step relation of everything that runs on one [rabbitMQConn]: the calls
    of Connect with the reconnect loop each leaves behind, the subscribers, the
    callers of Unsubscribe and Disconnect, and the connections that go down.
    What a region does under its lock is one step; what is read and written
    without a lock is a step of its own. *)

From stdpp Require Import base tactics list gmap relations.
From Stdlib Require Import ZArith Lia.
From S2P Require Import Prelude.
#[local] Open Scope Z_scope.

(** ** The shared state *)

(** What kills the process: a nil connection is used, or a channel is closed
    for the second time. *)
Inductive crash_kind := NilConnection | DoubleClose.

(** Go channels, connections and AMQP channels have numbers.  [closed_chans]
    are the Go channels that were closed; [dead] are the connections that went
    down, were closed, or never came up; [mtx] is the lock of the broker. *)
Record shared := mkShared {
  connected : bool;
  close : nat;
  waitConnection : nat;
  closed_chans : gset nat;
  next_chan : nat;
  Connection : option nat;
  opened : gset nat;
  dead : gset nat;
  r_conn : bool;
  mtx : bool;
  dead_channels : gset nat;
  next_channel : nat;
  crash : option crash_kind
}.

Definition set_connected (b : bool) (s : shared) : shared :=
  mkShared b (close s) (waitConnection s) (closed_chans s) (next_chan s) (Connection s)
    (opened s) (dead s) (r_conn s) (mtx s) (dead_channels s) (next_channel s) (crash s).
Definition set_Connection (c : option nat) (s : shared) : shared :=
  mkShared (connected s) (close s) (waitConnection s) (closed_chans s) (next_chan s) c
    (opened s) (dead s) (r_conn s) (mtx s) (dead_channels s) (next_channel s) (crash s).
Definition add_opened (c : nat) (s : shared) : shared :=
  mkShared (connected s) (close s) (waitConnection s) (closed_chans s) (next_chan s)
    (Connection s) ({[c]} ∪ opened s) (dead s) (r_conn s) (mtx s) (dead_channels s)
    (next_channel s) (crash s).
Definition add_dead (c : nat) (s : shared) : shared :=
  mkShared (connected s) (close s) (waitConnection s) (closed_chans s) (next_chan s)
    (Connection s) (opened s) ({[c]} ∪ dead s) (r_conn s) (mtx s) (dead_channels s)
    (next_channel s) (crash s).
Definition add_closed (k : nat) (s : shared) : shared :=
  mkShared (connected s) (close s) (waitConnection s) ({[k]} ∪ closed_chans s)
    (next_chan s) (Connection s) (opened s) (dead s) (r_conn s) (mtx s)
    (dead_channels s) (next_channel s) (crash s).
Definition new_close (s : shared) : shared :=
  mkShared (connected s) (next_chan s) (waitConnection s) (closed_chans s)
    (S (next_chan s)) (Connection s) (opened s) (dead s) (r_conn s) (mtx s)
    (dead_channels s) (next_channel s) (crash s).
Definition new_wait (s : shared) : shared :=
  mkShared (connected s) (close s) (next_chan s) (closed_chans s) (S (next_chan s))
    (Connection s) (opened s) (dead s) (r_conn s) (mtx s) (dead_channels s)
    (next_channel s) (crash s).
Definition set_r_conn (s : shared) : shared :=
  mkShared (connected s) (close s) (waitConnection s) (closed_chans s) (next_chan s)
    (Connection s) (opened s) (dead s) true (mtx s) (dead_channels s) (next_channel s)
    (crash s).
Definition set_mtx (b : bool) (s : shared) : shared :=
  mkShared (connected s) (close s) (waitConnection s) (closed_chans s) (next_chan s)
    (Connection s) (opened s) (dead s) (r_conn s) b (dead_channels s) (next_channel s)
    (crash s).
Definition add_dead_channel (a : nat) (s : shared) : shared :=
  mkShared (connected s) (close s) (waitConnection s) (closed_chans s) (next_chan s)
    (Connection s) (opened s) (dead s) (r_conn s) (mtx s) ({[a]} ∪ dead_channels s)
    (next_channel s) (crash s).
Definition new_channel (s : shared) : shared :=
  mkShared (connected s) (close s) (waitConnection s) (closed_chans s) (next_chan s)
    (Connection s) (opened s) (dead s) (r_conn s) (mtx s) (dead_channels s)
    (S (next_channel s)) (crash s).
Definition set_crash (k : crash_kind) (s : shared) : shared :=
  mkShared (connected s) (close s) (waitConnection s) (closed_chans s) (next_chan s)
    (Connection s) (opened s) (dead s) (r_conn s) (mtx s) (dead_channels s)
    (next_channel s) (Some k).

(** [newRabbitMQConn]: two channels, the second of them closed at once. *)
Definition newRabbitMQConn : shared :=
  mkShared false 0 1 {[1%nat]} 2 None ∅ ∅ false false ∅ 0 None.

Definition is_closed (k : nat) (s : shared) : bool :=
  bool_decide (k ∈ closed_chans s).

(** close(k) *)
Definition close_chan (k : nat) (s : shared) : shared :=
  if is_closed k s then set_crash DoubleClose s else add_closed k s.

(** [rabbitMQConn.Close], under its lock *)
Definition Close (s : shared) : shared :=
  if is_closed (close s) s then s
  else
    let s := set_connected false (close_chan (close s) s) in
    match Connection s with
    | None => set_crash NilConnection s
    | Some c => add_dead c s
    end.

(** The connection is used: there is one, and it is up. *)
Definition up_conn (s : shared) : bool :=
  match Connection s with
  | None => false
  | Some c => negb (bool_decide (c ∈ dead s))
  end.

(** ** Connect and the reconnect loop *)

(** Who runs [tryConnect]. *)
Inductive owner := Caller | Loop.

(** Where it stands: before the test of Connect; in the loop over the nodes;
    opening the channels and declaring the exchange; closing after an error;
    declaring the persistent queues; before [connected] is set; before the
    waiting subscribers are released; before NotifyClose; before the select is
    entered, and in it; after the connection was lost; asleep; returned. *)
Inductive manager :=
| Enter
| Dial (o : owner)
| SetUp (o : owner)
| TearDown (o : owner)
| Declaring (o : owner)
| Mark (o : owner)
| Signal
| Notify
| Watch (c : nat)
| Select (c k : nat)
| Lost
| Sleep
| End.

#[global] Instance owner_eq_dec : EqDecision owner.
Proof. solve_decision. Defined.
#[global] Instance manager_eq_dec : EqDecision manager.
Proof. solve_decision. Defined.

#[global] Instance tearing_down_dec m : Decision (exists o, m = TearDown o).
Proof. by destruct m; first [left; by eexists | right; intros [? ?]]. Defined.

Definition failed (o : owner) : manager :=
  match o with Caller => End | Loop => Sleep end.

(** What the outside answers: a call works or fails; a node gives a connection,
    or gives one whose handshake failed, or refuses. *)
Inductive reply :=
| Works
| Fails
| Dialed (c : nat)
| HalfOpen (c : nat)
| Refused.

Definition manager_step (a : reply) (m : manager) (s : shared)
    : option (manager * shared) :=
  match m, a with
  | Enter, Works =>
      if connected s then Some (End, s)
      else Some (Dial Caller, if is_closed (close s) s then new_close s else s)
  | Dial o, Dialed c =>
      if bool_decide (c ∈ opened s) then None
      else Some (SetUp o, set_Connection (Some c) (add_opened c s))
  | Dial o, HalfOpen c =>
      if bool_decide (c ∈ opened s) then None
      else Some (Dial o, set_Connection (Some c) (add_dead c (add_opened c s)))
  | Dial o, Refused => Some (Dial o, set_Connection None s)
  | Dial o, Fails => Some (failed o, s)
  | SetUp o, Works =>
      match Connection s with
      | None => Some (m, set_crash NilConnection s)
      | Some _ => if up_conn s then Some (Declaring o, s) else None
      end
  | SetUp o, Fails =>
      match Connection s with
      | None => Some (m, set_crash NilConnection s)
      | Some _ => Some (TearDown o, s)
      end
  | TearDown o, Works => Some (failed o, Close s)
  | Declaring o, Works =>
      match Connection s with
      | None => Some (m, set_crash NilConnection s)
      | Some _ => if up_conn s then Some (Mark o, s) else None
      end
  | Declaring o, Fails =>
      match Connection s with
      | None => Some (m, set_crash NilConnection s)
      | Some _ => Some (Declaring o, s)
      end
  | Mark Caller, Works => Some (Notify, set_r_conn (set_connected true s))
  | Mark Loop, Works => Some (Signal, set_connected true s)
  | Signal, Works => Some (Notify, close_chan (waitConnection s) s)
  | Notify, Works =>
      match Connection s with
      | None => Some (m, set_crash NilConnection s)
      | Some c => Some (Watch c, s)
      end
  | Watch c, Works => Some (Select c (close s), s)
  | Select c k, Works => if bool_decide (c ∈ dead s) then Some (Lost, s) else None
  | Select c k, Fails => if is_closed k s then Some (End, s) else None
  | Lost, Works => Some (Dial Loop, new_wait (set_connected false s))
  | Sleep, Works => Some (Dial Loop, s)
  | _, _ => None
  end.

(** ** Subscribers *)
Definition minResubscribeDelay : Z := 100.
Definition maxResubscribeDelay : Z := 30000.
Definition expFactor : Z := 2.

(** Where [resubscribe] stands: before the test of mayRun; before the select and
    in it; before the lock of the broker; consuming, with the lock; before the
    channel is stored; handling deliveries; asleep for so long; returned. *)
Inductive place :=
| SCheck
| SEnter
| SWait (k w : nat)
| SRecheck
| SConsume
| SAssign (a c : nat)
| SRange (a c : nat)
| SSleep (d : Z)
| SDone.

Record subscriber := mkSubscriber {
  mayRun : bool;
  ch : option nat;
  reSubscribeDelay : Z;
  at_ : place
}.
Definition go_to (p : place) (x : subscriber) : subscriber :=
  mkSubscriber (mayRun x) (ch x) (reSubscribeDelay x) p.

Definition new_subscriber : subscriber :=
  mkSubscriber true None minResubscribeDelay SCheck.

(** A failure: the sleep, and the delay after it. *)
Definition clamp_delay (d : Z) : Z :=
  if maxResubscribeDelay <? d then maxResubscribeDelay else d.
Definition fall_asleep (x : subscriber) : subscriber :=
  let d := clamp_delay (reSubscribeDelay x) in
  mkSubscriber (mayRun x) (ch x) (d * expFactor) (SSleep d).

Definition resubscribe_step (a : reply) (x : subscriber) (s : shared)
    : option (subscriber * shared) :=
  match at_ x, a with
  | SCheck, Works => Some (go_to (if mayRun x then SEnter else SDone) x, s)
  | SEnter, Works => Some (go_to (SWait (close s) (waitConnection s)) x, s)
  | SWait k w, Fails => if is_closed k s then Some (go_to SDone x, s) else None
  | SWait k w, Works => if is_closed w s then Some (go_to SRecheck x, s) else None
  | SRecheck, Works =>
      if mtx s then None
      else if connected s then Some (go_to SConsume x, set_mtx true s)
      else Some (go_to SCheck x, s)
  | SConsume, Works =>
      match Connection s with
      | None => Some (x, set_crash NilConnection s)
      | Some c =>
          if up_conn s
          then Some (go_to (SAssign (next_channel s) c) x, new_channel (set_mtx false s))
          else None
      end
  | SConsume, Fails =>
      match Connection s with
      | None => Some (x, set_crash NilConnection s)
      | Some _ => Some (fall_asleep x, set_mtx false s)
      end
  | SAssign a c, Works =>
      Some (mkSubscriber (mayRun x) (Some a) minResubscribeDelay (SRange a c), s)
  | SRange a c, Works =>
      if bool_decide (c ∈ dead s \/ a ∈ dead_channels s)
      then Some (go_to SCheck x, s) else None
  | SSleep _, Works => Some (go_to SCheck x, s)
  | _, _ => None
  end.

(** [subscriber.Unsubscribe] *)
Definition Unsubscribe (x : subscriber) (s : shared) : subscriber * shared :=
  (mkSubscriber false (ch x) (reSubscribeDelay x) (at_ x),
   match ch x with Some a => add_dead_channel a s | None => s end).

(** ** Everything together *)
Record state := mkState {
  sh : shared;
  managers : list manager;
  subs : list subscriber
}.

(** The first Connect on a new connection. *)
Definition init : state := mkState newRabbitMQConn [Enter] [].

Inductive step : state -> state -> Prop :=
| step_manager i a m m' s s' ms xs :
    crash s = None -> ms !! i = Some m -> manager_step a m s = Some (m', s') ->
    step (mkState s ms xs) (mkState s' (<[i:=m']> ms) xs)
| step_subscriber i a x x' s s' ms xs :
    crash s = None -> xs !! i = Some x -> resubscribe_step a x s = Some (x', s') ->
    step (mkState s ms xs) (mkState s' ms (<[i:=x']> xs))
| step_die c s ms xs :
    crash s = None -> c ∈ opened s ->
    step (mkState s ms xs) (mkState (add_dead c s) ms xs)
| step_cancel a s ms xs :
    crash s = None -> (a < next_channel s)%nat ->
    step (mkState s ms xs) (mkState (add_dead_channel a s) ms xs)
| step_subscribe s ms xs :
    crash s = None -> r_conn s = true ->
    step (mkState s ms xs) (mkState s ms (xs ++ [new_subscriber]))
| step_unsubscribe i x x' s s' ms xs :
    crash s = None -> xs !! i = Some x -> Unsubscribe x s = (x', s') ->
    step (mkState s ms xs) (mkState s' ms (<[i:=x']> xs))
| step_disconnect s ms xs :
    crash s = None -> r_conn s = true -> mtx s = false ->
    step (mkState s ms xs) (mkState (Close s) ms xs).

(** Connect is called again on a broker that has its connection. *)
Inductive step_again : state -> state -> Prop :=
| again_step s s' : step s s' -> step_again s s'
| again_connect s ms xs :
    crash s = None -> r_conn s = true ->
    step_again (mkState s ms xs) (mkState s (ms ++ [Enter]) xs).

Definition reachable (s : state) : Prop := rtc step init s.
