(* ===== verification/BkInv.v ===== *)
(** * The invariant of the broker's goroutines

    What holds of every state that one Connect, and any number of subscribers,
    unsubscriptions, disconnections and outages can lead to. *)

From stdpp Require Import base tactics list gmap relations.
From Stdlib Require Import ZArith Lia.
From S2P Require Import Prelude BkMachine.
#[local] Open Scope Z_scope.

(** ** Where the one manager is *)

(** The first connect is not over. *)
Definition first (m : manager) : bool :=
  match m with
  | Enter | Dial Caller | SetUp Caller | TearDown Caller | Declaring Caller
  | Mark Caller => true
  | _ => false
  end.

(** The loop is on its way to a new connection. *)
Definition reconnecting (m : manager) : bool :=
  match m with
  | Dial Loop | SetUp Loop | TearDown Loop | Declaring Loop | Mark Loop | Signal
  | Sleep => true
  | _ => false
  end.

(** It has set [connected] and not taken it back. *)
Definition marked (m : manager) : bool :=
  match m with
  | Signal | Notify | Watch _ | Select _ _ | Lost | End => true
  | _ => false
  end.

(** It stands on the connection that is in the field. *)
Definition stands_on (m : manager) (c : option nat) : Prop :=
  match m with
  | SetUp _ | TearDown _ | Declaring _ | Mark _ | Signal | Notify | Lost | End =>
      is_Some c
  | Watch c' | Select c' _ => c = Some c'
  | _ => True
  end.

(** ** The parts of the invariant *)
Record wf (s : shared) (m : manager) : Prop := {
  wf_close : (close s < next_chan s)%nat;
  wf_next : (waitConnection s < next_chan s)%nat;
  wf_chans : forall k, k ∈ closed_chans s -> (k < next_chan s)%nat;
  wf_apart : close s <> waitConnection s;
  wf_wait : waitConnection s ∈ closed_chans s <-> reconnecting m = false;
  wf_connected : connected s = true -> marked m = true /\ r_conn s = true;
  wf_marked : marked m = true -> m <> End -> connected s = true \/ close s ∈ closed_chans s;
  wf_first : first m = true -> r_conn s = false /\ (m = Enter -> close s ∉ closed_chans s);
  wf_later : first m = false -> m <> End -> r_conn s = true;
  wf_end : m = End -> r_conn s = true -> close s ∈ closed_chans s;
  wf_select : forall c k, m = Select c k -> k = close s;
  wf_conn : m <> End \/ r_conn s = true -> stands_on m (Connection s);
  wf_opened : forall c, Connection s = Some c -> c ∈ opened s;
  wf_crash : crash s = None \/
    crash s = Some NilConnection /\ Connection s = None /\ (m = Dial Loop \/ m = Sleep)
}.

(** The delay before the [k]th sleep in a row. *)
Definition backoff (k : nat) : Z :=
  Z.min (minResubscribeDelay * expFactor ^ Z.of_nat k) maxResubscribeDelay.

(** The delay a subscriber carries after [k] failures in a row. *)
Definition carried (k : nat) : Z :=
  match k with O => minResubscribeDelay | S k => backoff k * expFactor end.

Record sub_ok (s : shared) (x : subscriber) : Prop := {
  so_wait : forall k w, at_ x = SWait k w ->
    k = close s /\ (w ∈ closed_chans s \/ w = waitConnection s);
  so_done : at_ x = SDone -> mayRun x = false \/ close s ∈ closed_chans s;
  so_delay : exists k, reSubscribeDelay x = carried k;
  so_sleep : forall d, at_ x = SSleep d -> exists k, d = backoff k;
  so_lock : at_ x = SConsume -> mtx s = true
}.

(** The lock of the broker: whoever consumes has it, and has it alone. *)
Record lock_ok (s : shared) (xs : list subscriber) : Prop := {
  lo_held : mtx s = true -> exists i x, xs !! i = Some x /\ at_ x = SConsume;
  lo_one : forall i j x y, xs !! i = Some x -> xs !! j = Some y ->
    at_ x = SConsume -> at_ y = SConsume -> i = j
}.

(** The AMQP channels that are gone were opened. *)
Record channels_ok (s : shared) (xs : list subscriber) : Prop := {
  co_dead : forall a, a ∈ dead_channels s -> (a < next_channel s)%nat;
  co_own : forall i x a, xs !! i = Some x ->
    ch x = Some a \/ (exists c, at_ x = SAssign a c) -> (a < next_channel s)%nat
}.

Record inv (s : state) : Prop := {
  inv_m : exists m, managers s = [m] /\ wf (sh s) m;
  inv_subs : forall i x, subs s !! i = Some x -> sub_ok (sh s) x;
  inv_lock : lock_ok (sh s) (subs s);
  inv_channels : channels_ok (sh s) (subs s);
  inv_none : r_conn (sh s) = false -> subs s = []
}.

(** ** One step of the manager *)
#[local] Ltac unfold_set :=
  unfold Close, close_chan, is_closed, up_conn, set_connected, set_Connection, add_opened,
    add_dead, add_closed, new_close, new_wait, set_r_conn, set_mtx, add_dead_channel,
    new_channel, set_crash in *; cbn in *.

(** A nil connection while the broker has one: a reconnect has failed. *)
Lemma no_connection s m :
  wf s m -> r_conn s = true -> Connection s = None -> m = Dial Loop \/ m = Sleep.
Proof.
  intros [] Hr Hn. rewrite Hn in *.
  pose proof (wf_conn0 (or_intror Hr)) as Hs.
  destruct m as [|[]|[]|[]|[]|[]| | | | | | |]; cbn in *; auto;
    try (by destruct Hs); try done; by destruct wf_first0; congruence.
Qed.

#[local] Ltac in_sets := rewrite ?elem_of_union, ?elem_of_singleton in *.

Lemma Close_wf m s :
  crash s = None -> wf s m -> r_conn s = true \/ (exists o, m = TearDown o) ->
  wf (Close s) m.
Proof.
  intros Hc Hwf Hr.
  assert (m <> Enter) as Hm.
  { intros ->. destruct Hr as [Hr|[o [=]]].
    destruct (wf_first _ _ Hwf) as [? _]; [done|congruence]. }
  assert (Connection s = None -> m = Dial Loop \/ m = Sleep) as Hn.
  { intros Hn. destruct Hr as [Hr|[o ->]]; [by eapply no_connection|].
    destruct (wf_conn _ _ Hwf) as [? ?]; [by left|congruence]. }
  destruct Hwf. unfold_set. case_match eqn:Hcl; [by constructor|].
  rewrite bool_decide_eq_false in Hcl.
  destruct (Connection s) eqn:E; constructor; cbn; in_sets; try done.
  all: try (intros k [->%elem_of_singleton|Hk%wf_chans0]%elem_of_union; done).
  all: try (split; [intros [?|?%wf_wait0]|intros ?%wf_wait0]; by auto).
  all: try (intros Hf; split; [by apply wf_first0|done]).
  all: try (intros _ _; by auto).
  right. split_and!; auto.
Qed.

Lemma stay_closed s k : k ∈ closed_chans s -> k ∈ closed_chans (Close s).
Proof. unfold_set. repeat case_match; cbn; set_solver. Qed.

(** The facts of [wf] about one place, ready to use. *)
#[local] Ltac simpl_wf :=
  cbn in *;
  repeat match goal with
  | H : ?x = ?x -> _ |- _ => specialize (H eq_refl)
  | H : false = true -> _ |- _ => clear H
  | H : true = false -> _ |- _ => clear H
  | H : _ /\ _ |- _ => destruct H
  | H : is_Some _ |- _ => destruct H
  | H : ?m <> End \/ ?r -> _ |- _ =>
      first [specialize (H (or_introl (ltac:(discriminate) : m <> End))) | specialize (fun e : r => H (or_intror e))]
  | H : ?m <> End -> _ |- _ =>
      first [specialize (H (ltac:(discriminate) : m <> End)) | clear H]
  | H : crash _ = None \/ _ |- _ => destruct H as [H|(? & ? & [?|?])]; try discriminate
  | H : forall c k, _ = _ -> _ |- _ => first [specialize (H _ _ eq_refl); subst | clear H]
  end.

Lemma failed_wf s o : wf s (TearDown o) -> wf s (failed o).
Proof. intros []. destruct o; simpl_wf; constructor; cbn; eauto; try done;
  first [congruence | by intros [? _]%wf_connected0]. Qed.

(** The channel the waiting subscribers are at is still open. *)
Lemma signal_once s :
  wf s Signal -> close_chan (waitConnection s) s = add_closed (waitConnection s) s.
Proof.
  intros [_ _ _ _ Hw]. unfold_set. case_bool_decide as Hb; [|done].
  by apply Hw in Hb.
Qed.

Lemma manager_wf a m s m' s' :
  crash s = None -> wf s m -> manager_step a m s = Some (m', s') -> wf s' m'.
Proof.
  intros Hc Hwf E. destruct (decide (exists o, m = TearDown o)) as [[o ->]|Ht].
  - destruct a; try discriminate; injection E as <- <-.
    apply failed_wf, Close_wf; eauto.
  - destruct m as [|[]|[]|o|[]|[]| | |c|c k| | |], a; cbn in E; try discriminate E;
      try (by destruct Ht; eauto).
    all: clear Ht; simplify_eq/=; repeat (case_match; simplify_eq/=);
      rewrite ?signal_once by done.
    all: destruct Hwf; unfold_set; simpl_wf; constructor; cbn; rewrite ?Hc; auto; try done.
    all: try (first [lia | congruence | by intros [? _]%wf_connected0
      | by intros k ?%wf_chans0; lia | by intros [?|?]; congruence
      | by intros ? [= <-]; set_solver ]).
    + intros k [->%elem_of_singleton|Hk%wf_chans0]%elem_of_union; done.
    + set_solver.
    + intros _ _. destruct wf_marked0; [by left|set_solver].
    + intros _ _. by eapply bool_decide_eq_true.
    + split; [intros Hk%wf_chans0; lia|done].
Qed.

(** ** What the others do to the manager *)
Lemma wf_same s s' m :
  wf s m ->
  connected s' = connected s -> close s' = close s ->
  waitConnection s' = waitConnection s -> closed_chans s' = closed_chans s ->
  next_chan s' = next_chan s -> Connection s' = Connection s ->
  opened s' = opened s -> r_conn s' = r_conn s -> crash s' = crash s -> wf s' m.
Proof. destruct s, s'. cbn. by intros [] -> -> -> -> -> -> -> -> ->. Qed.

Lemma wf_nil s m :
  wf s m -> r_conn s = true -> Connection s = None -> wf (set_crash NilConnection s) m.
Proof.
  intros Hwf Hr Hn. pose proof (no_connection _ _ Hwf Hr Hn) as Hm.
  destruct Hwf. constructor; cbn; try done. right. by rewrite Hn.
Qed.

Lemma subscriber_wf a x s x' s' m :
  crash s = None -> r_conn s = true -> wf s m ->
  resubscribe_step a x s = Some (x', s') -> wf s' m.
Proof.
  intros Hc Hr Hwf E. unfold resubscribe_step in E.
  repeat (case_match; simplify_eq/=); try done;
    first [by apply wf_nil | by eapply wf_same].
Qed.

Lemma resubscribe_shared a x s x' s' :
  resubscribe_step a x s = Some (x', s') ->
  close s' = close s /\ waitConnection s' = waitConnection s /\
  closed_chans s' = closed_chans s /\ r_conn s' = r_conn s.
Proof.
  intros E. unfold resubscribe_step in E. by repeat (case_match; simplify_eq/=).
Qed.

(** ** Subscribers *)
Lemma sub_ok_mono s s' x :
  sub_ok s x -> close s' = close s ->
  (at_ x = SConsume -> mtx s = true -> mtx s' = true) ->
  (forall k, k ∈ closed_chans s -> k ∈ closed_chans s') ->
  (waitConnection s' = waitConnection s \/ waitConnection s ∈ closed_chans s') ->
  sub_ok s' x.
Proof.
  intros [] Hc Hm Hk Hw. constructor; rewrite ?Hc; auto.
  - intros k w [-> Hx]%so_wait0. split; [done|]. destruct Hx as [?| ->]; [by left; auto|].
    destruct Hw as [->|?]; auto.
  - intros [?|?]%so_done0; auto.
Qed.

Lemma clamp_carried k : clamp_delay (carried k) = backoff k.
Proof.
  unfold clamp_delay, backoff, maxResubscribeDelay, minResubscribeDelay, expFactor.
  destruct k as [|k]; [done|].
  cbn [carried]. unfold backoff, maxResubscribeDelay, minResubscribeDelay, expFactor.
  rewrite Nat2Z.inj_succ, Z.pow_succ_r by lia.
  case_match eqn:E; [apply Z.ltb_lt in E|apply Z.ltb_ge in E]; lia.
Qed.

Lemma subscriber_ok a x s x' s' :
  sub_ok s x -> resubscribe_step a x s = Some (x', s') -> sub_ok s' x'.
Proof.
  intros Hok E. unfold resubscribe_step in E.
  destruct (at_ x) eqn:Hat, a; cbn in E; try discriminate E; simplify_eq/=;
    repeat (case_match; simplify_eq/=);
    try (destruct Hok; constructor; cbn; rewrite ?Hat in *; try done; by eauto).
  - destruct Hok. constructor; cbn; try done. intros ? ? [= <- <-]. auto.
  - destruct Hok. constructor; cbn; try done. intros _. right.
    destruct (so_wait0 _ _ Hat) as [<- _]. by eapply bool_decide_eq_true.
  - destruct Hok. destruct so_delay0 as [j Hj].
    rewrite ?Hj. constructor; cbn; rewrite ?Hj, ?clamp_carried; try done.
    + by exists (S j).
    + intros ? [= <-]. eauto.
  - destruct Hok. constructor; cbn; try done. by exists O.
Qed.

(** ** The lock *)
Lemma lookup_insert_cases {A} (l : list A) i j (x y : A) :
  <[i:=x]> l !! j = Some y -> (i = j /\ x = y) \/ (i <> j /\ l !! j = Some y).
Proof.
  intros [(-> & -> & _)|(? & ?)]%list_lookup_insert_Some; auto.
Qed.

Lemma lock_same s s' xs i x x' :
  lock_ok s xs -> xs !! i = Some x -> (at_ x = SConsume <-> at_ x' = SConsume) ->
  mtx s' = mtx s -> lock_ok s' (<[i:=x']> xs).
Proof.
  intros [Hh Ho] Hi Hx Hm. split.
  - rewrite Hm. intros (j & y & Hj & Hy)%Hh. destruct (decide (i = j)) as [<-|Hij].
    + exists i, x'. rewrite list_lookup_insert_eq by (by eapply lookup_lt_Some).
      split; [done|]. apply Hx. congruence.
    + exists j, y. by rewrite list_lookup_insert_ne.
  - intros j k y z [[<- <-]|[? Hj]]%lookup_insert_cases
      [[<- <-]|[? Hk]]%lookup_insert_cases Hy Hz; [done|..].
    + apply (Ho i k x z); auto. by apply Hx.
    + apply (Ho j i y x); auto. by apply Hx.
    + by apply (Ho j k y z).
Qed.

Lemma lock_take s s' xs i x x' :
  (forall j y, xs !! j = Some y -> sub_ok s y) -> mtx s = false ->
  xs !! i = Some x -> at_ x' = SConsume -> lock_ok s' (<[i:=x']> xs).
Proof.
  intros Hs Hm Hi Hx.
  assert (forall j y, xs !! j = Some y -> at_ y <> SConsume) as Hn.
  { intros j y Hj Hy. apply Hs in Hj. apply so_lock in Hj; [congruence|done]. }
  split.
  - intros _. exists i, x'. by rewrite list_lookup_insert_eq by (by eapply lookup_lt_Some).
  - intros j k y z [[<- <-]|[? Hj]]%lookup_insert_cases
      [[<- <-]|[? Hk]]%lookup_insert_cases Hy Hz; [done|..]; exfalso; by eapply Hn.
Qed.

Lemma lock_release s s' xs i x x' :
  lock_ok s xs -> xs !! i = Some x -> at_ x = SConsume -> at_ x' <> SConsume ->
  mtx s' = false -> lock_ok s' (<[i:=x']> xs).
Proof.
  intros [_ Ho] Hi Hx Hx' Hm. split; [congruence|].
  intros j k y z [[<- <-]|[? Hj]]%lookup_insert_cases
    [[<- <-]|[? Hk]]%lookup_insert_cases Hy Hz; try done.
  by apply (Ho j k y z).
Qed.

Lemma subscriber_lock a i x s x' s' xs :
  lock_ok s xs -> (forall j y, xs !! j = Some y -> sub_ok s y) -> xs !! i = Some x ->
  resubscribe_step a x s = Some (x', s') -> lock_ok s' (<[i:=x']> xs).
Proof.
  intros Hl Hs Hi E. unfold resubscribe_step in E.
  destruct (at_ x) eqn:Hat, a; cbn in E; try discriminate E; simplify_eq/=;
    repeat (case_match; simplify_eq/=);
    first [by eapply lock_same; rewrite ?Hat | by eapply lock_take
          | by eapply lock_release].
Qed.

Lemma subscriber_others a i x s x' s' xs j y :
  lock_ok s xs -> xs !! i = Some x -> resubscribe_step a x s = Some (x', s') ->
  j <> i -> xs !! j = Some y -> at_ y = SConsume -> mtx s = true -> mtx s' = true.
Proof.
  intros [_ Ho] Hi E Hj Hy Hat Hm. unfold resubscribe_step in E.
  destruct (at_ x) eqn:Hx, a; cbn in E; try discriminate E; simplify_eq/=;
    repeat (case_match; simplify_eq/=); try done; by destruct Hj; eapply Ho.
Qed.

(** ** Everything else only adds to the closed channels *)
Record grows (s s' : shared) : Prop := {
  gr_close : close s' = close s;
  gr_mtx : mtx s' = mtx s;
  gr_conn : r_conn s = true -> r_conn s' = true;
  gr_closed : forall k, k ∈ closed_chans s -> k ∈ closed_chans s';
  gr_wait : waitConnection s' = waitConnection s \/ waitConnection s ∈ closed_chans s';
  gr_channel : next_channel s' = next_channel s;
  gr_gone : forall a, a ∈ dead_channels s' ->
    a ∈ dead_channels s \/ (a < next_channel s)%nat
}.

Lemma Close_grows s : grows s (Close s).
Proof. unfold_set. repeat case_match; constructor; cbn; auto; set_solver. Qed.

Lemma manager_grows a m s m' s' :
  crash s = None -> wf s m -> first m = false -> manager_step a m s = Some (m', s') ->
  grows s s'.
Proof.
  intros Hc Hwf Hf E. destruct m as [|[]|[]|[]|[]|[]| | |c|c k| | |], a; cbn in E;
    try discriminate; simplify_eq/=; repeat (case_match; simplify_eq/=);
    rewrite ?signal_once by done; try apply Close_grows; constructor; cbn; auto.
  - set_solver.
  - right. by apply Hwf.
Qed.

Lemma sub_ok_grows s s' x : grows s s' -> sub_ok s x -> sub_ok s' x.
Proof. intros [] Hok. eapply sub_ok_mono; eauto; congruence. Qed.

Lemma lock_ok_grows s s' xs : grows s s' -> lock_ok s xs -> lock_ok s' xs.
Proof. intros [] []. split; [by rewrite gr_mtx0|done]. Qed.

Lemma channels_ok_grows s s' xs : grows s s' -> channels_ok s xs -> channels_ok s' xs.
Proof.
  intros [] [Hd Ho]. split; rewrite gr_channel0; [|done].
  intros a [?|?]%gr_gone0; auto.
Qed.

Lemma channels_ok_insert s xs i x x' :
  channels_ok s xs -> xs !! i = Some x ->
  (forall a, ch x' = Some a \/ (exists c, at_ x' = SAssign a c) -> (a < next_channel s)%nat) ->
  channels_ok s (<[i:=x']> xs).
Proof.
  intros [Hd Ho] Hi Hx. split; [done|].
  intros j y a [[<- <-]|[? Hj]]%lookup_insert_cases; [by apply Hx|by eapply Ho].
Qed.

Lemma subscriber_channels a i x s x' s' xs :
  channels_ok s xs -> xs !! i = Some x -> resubscribe_step a x s = Some (x', s') ->
  channels_ok s' (<[i:=x']> xs).
Proof.
  intros Hok Hi E.
  assert (forall b, ch x = Some b -> (b < next_channel s)%nat) as Hch
    by (intros b Hb; eapply (co_own _ _ Hok); eauto).
  assert ((next_channel s <= next_channel s')%nat /\ dead_channels s' = dead_channels s /\
    forall b, ch x' = Some b \/ (exists c, at_ x' = SAssign b c) ->
      (b < next_channel s')%nat) as (Hn & Hd & Hx).
  { unfold resubscribe_step in E. destruct (at_ x) eqn:Hat, a; cbn in E; try discriminate E;
      simplify_eq/=; repeat (case_match; simplify_eq/=); (split; [lia|]); (split; [done|]);
      intros b [Hb|[? Hb]]; simplify_eq/=; try (by apply Hch); try (by apply Hch in Hb; lia);
      try lia.
    all: eapply (co_own _ _ Hok _ _ _ Hi); eauto. }
  destruct Hok as [Hd' Ho]. apply (channels_ok_insert s' xs i x); [|done..].
  split; [rewrite Hd; intros b ?%Hd'; lia|]. intros j y b Hj Hb. specialize (Ho j y b Hj Hb). lia.
Qed.

(** ** The invariant *)
Lemma shared_inv s s' m m' xs :
  inv (mkState s [m] xs) -> grows s s' -> wf s' m' -> inv (mkState s' [m'] xs).
Proof.
  intros [_ Hs Hl Hch Hn] Hg Hwf. split; cbn in *.
  - by exists m'.
  - intros i x Hi. eapply sub_ok_grows; eauto.
  - by eapply lock_ok_grows.
  - by eapply channels_ok_grows.
  - intros Hr. apply Hn. destruct Hg. destruct (r_conn s); [|done]. by rewrite gr_conn0 in Hr.
Qed.

Lemma first_inv s s' m m' :
  inv (mkState s [m] []) -> mtx s' = mtx s -> next_channel s' = next_channel s ->
  dead_channels s' = dead_channels s -> wf s' m' -> inv (mkState s' [m'] []).
Proof.
  intros [_ _ [Hh _] [Hd _] _] Hm H1 H2 Hwf. split; cbn in *; try done.
  - by exists m'.
  - split; [|done]. rewrite Hm. intros (? & ? & ? & _)%Hh. done.
  - split; [|done]. by rewrite H1, H2.
Qed.

Lemma manager_mtx a m s m' s' :
  manager_step a m s = Some (m', s') ->
  mtx s' = mtx s /\ next_channel s' = next_channel s /\ dead_channels s' = dead_channels s.
Proof.
  intros E. destruct m as [|[]|[]|[]|[]|[]| | |c|c k| | |], a; cbn in E;
    try discriminate; simplify_eq/=; repeat (case_match; simplify_eq/=); try done;
    unfold_set; by repeat case_match.
Qed.

Lemma new_subscriber_ok s : sub_ok s new_subscriber.
Proof. constructor; try done. by exists O. Qed.

Lemma init_inv : inv init.
Proof.
  split; cbn; try done.
  - exists Enter. split; [done|]. constructor; cbn; try done; try lia; try set_solver.
    all: auto.
Qed.

Lemma step_inv s s' : inv s -> step s s' -> inv s'.
Proof.
  intros Hi Hst. destruct Hst as
    [i a m m' s s' ms xs Hc Hm E|i a x x' s s' ms xs Hc Hx E|c s ms xs Hc Ho
    |a s ms xs Hc Ha|s ms xs Hc Hr|i x x' s s' ms xs Hc Hx E|s ms xs Hc Hr Hm];
    destruct (inv_m _ Hi) as (m0 & Hms & Hwf); cbn in Hms; subst ms; cbn in Hwf.
  - destruct i as [|i]; [|done]. injection Hm as ->. cbn.
    pose proof (manager_wf _ _ _ _ _ Hc Hwf E) as Hwf'.
    destruct (first m) eqn:Hf.
    + destruct (wf_first _ _ Hwf Hf) as [Hr _].
      assert (xs = []) as -> by by apply (inv_none _ Hi).
      eapply first_inv; [done|..|done]; by eapply manager_mtx.
    + eapply shared_inv; [done| |done]. by eapply manager_grows.
  - assert (r_conn s = true) as Hr.
    { destruct (r_conn s) eqn:Hr; [done|]. apply (inv_none _ Hi) in Hr. cbn in Hr.
      by subst xs. }
    destruct (resubscribe_shared _ _ _ _ _ E) as (H1 & H2 & H3 & H4).
    destruct Hi as [_ Hs Hl Hch _]. split; cbn in *.
    + exists m0. split; [done|]. by eapply subscriber_wf.
    + intros j y [[<- <-]|[Hj Hy]]%lookup_insert_cases; [by eapply subscriber_ok; eauto|].
      apply (sub_ok_mono s); [by eauto|done| |by rewrite H3|by left].
      by eapply (subscriber_others a i x); eauto.
    + by eapply subscriber_lock; eauto.
    + by eapply subscriber_channels.
    + congruence.
  - eapply shared_inv; [done|by constructor; auto|]. by eapply wf_same.
  - eapply shared_inv; [done| |by eapply wf_same].
    constructor; cbn; auto. intros b [->%elem_of_singleton|?]%elem_of_union; auto.
  - destruct Hi as [_ Hs [Hh Hl] [Hd Ho'] _].
    split; cbn in *; [by eauto| |split|split; [done|]|congruence].
    + intros i x [[_ Hx]|[_ <-]]%lookup_snoc_Some; [by eauto|apply new_subscriber_ok].
    + intros (j & y & Hj & Hy)%Hh. exists j, y. split; [|done]. by apply lookup_app_l_Some.
    + intros i j x y [[_ Hx]|[_ <-]]%lookup_snoc_Some [[_ Hy]|[_ <-]]%lookup_snoc_Some Hax Hay;
        try done. by apply (Hl i j x y).
    + intros i x b [[_ Hx]|[_ <-]]%lookup_snoc_Some Hb; [by eapply Ho'|].
      by destruct Hb as [?|[? ?]].
  - assert (grows s s') as Hg.
    { injection E as _ <-. destruct (ch x) eqn:Hxc; constructor; cbn; auto.
      intros b [->%elem_of_singleton|?]%elem_of_union; [right|by left].
      by eapply (co_own _ _ (inv_channels _ Hi)); eauto. }
    assert (at_ x' = at_ x /\ sub_ok s' x') as [Ha Hok].
    { assert (sub_ok s' x) as [] by by eapply sub_ok_grows, (inv_subs _ Hi i).
      injection E as <- _. split; [done|]. constructor; auto. }
    destruct Hi as [_ Hs Hl Hch Hn]. split; cbn in *.
    + exists m0. split; [done|]. injection E as _ <-. destruct (ch x); [|done].
      by eapply wf_same.
    + intros j y [[<- <-]|[Hj Hy]]%lookup_insert_cases; [done|]. by eapply sub_ok_grows; eauto.
    + eapply lock_same; [done|done| |by destruct Hg]. by rewrite Ha.
    + eapply channels_ok_insert; [by eapply channels_ok_grows|done|]. destruct Hg.
      rewrite gr_channel0. intros b Hb. eapply (co_own _ _ Hch); [done|].
      rewrite <- Ha. injection E as <- _. done.
    + intros Hr. rewrite Hn in Hx; [done|]. destruct Hg. destruct (r_conn s); [|done].
      by rewrite gr_conn0 in Hr.
  - eapply shared_inv; [done|apply Close_grows|]. apply Close_wf; auto.
Qed.

Lemma reachable_inv s : reachable s -> inv s.
Proof. apply rtc_invariant; [apply init_inv|apply step_inv]. Qed.
