(* ===== verification/BkLive.v ===== *)
(** * What the broker's goroutines guarantee

    The state of a connection in every interleaving, and what can still happen
    in each of them: the reconnect loop comes back, subscribers resume. *)

From stdpp Require Import base tactics list gmap relations fin_sets.
From Stdlib Require Import ZArith Lia.
From S2P Require Import Prelude BkMachine BkInv.
#[local] Open Scope Z_scope.

(** The broker is connected, on a live connection that the loop watches. *)
Definition up (s : state) : Prop :=
  connected (sh s) = true /\ up_conn (sh s) = true /\
  exists c, Connection (sh s) = Some c /\ managers s = [Select c (close (sh s))].

(** The subscriber gets deliveries. *)
Definition consuming (s : state) (i : nat) : Prop :=
  exists x a c, subs s !! i = Some x /\ at_ x = SRange a c /\
    (c ∉ dead (sh s)) /\ (a ∉ dead_channels (sh s)).

(** ** Runs of the manager *)
Section manager_runs.
Context (xs : list subscriber).

Definition comes_up (s : shared) (m : manager) : Prop :=
  exists s', rtc step (mkState s [m] xs) s' /\ up s'.

Lemma comes_up_step a s m s' m' :
  crash s = None -> manager_step a m s = Some (m', s') -> comes_up s' m' -> comes_up s m.
Proof.
  intros Hc E (s'' & Hr & Hup). exists s''. split; [|done].
  eapply rtc_l; [|exact Hr]. by apply (step_manager 0 a m m' s s' [m] xs).
Qed.

(** A state with a connection that is up. *)
Record alive (s : shared) : Prop := {
  al_crash : crash s = None;
  al_up : up_conn s = true;
  al_wait : waitConnection s ∉ closed_chans s
}.

Lemma alive_connection s : up_conn s = true -> exists c, Connection s = Some c.
Proof. unfold up_conn. destruct (Connection s); eauto. done. Qed.

Lemma select_comes_up s c :
  connected s = true -> up_conn s = true -> Connection s = Some c ->
  comes_up s (Select c (close s)).
Proof. intros. eexists. split; [apply rtc_refl|]. split_and!; eauto. Qed.

Lemma notify_comes_up s :
  crash s = None -> connected s = true -> up_conn s = true -> comes_up s Notify.
Proof.
  intros Hc Hcon Hup. destruct (alive_connection _ Hup) as [c E].
  eapply (comes_up_step Works); [done|by cbn; rewrite E|].
  eapply (comes_up_step Works); [done..|]. by apply select_comes_up.
Qed.

Lemma signal_comes_up s :
  alive s -> connected s = true -> comes_up s Signal.
Proof.
  intros [Hc Hup Hw] Hcon. eapply (comes_up_step Works); [done..|].
  unfold close_chan, is_closed. rewrite bool_decide_eq_false_2 by done.
  by apply notify_comes_up.
Qed.

Lemma declare_comes_up s : alive s -> comes_up s (Declaring Loop).
Proof.
  intros [Hc Hup Hw]. destruct (alive_connection _ Hup) as [c E].
  eapply (comes_up_step Works); [done|by cbn; rewrite E, Hup|].
  eapply (comes_up_step Works); [done..|]. by apply signal_comes_up.
Qed.

Lemma setup_comes_up s : alive s -> comes_up s (SetUp Loop).
Proof.
  intros Ha. destruct (alive_connection _ (al_up _ Ha)) as [c E].
  eapply (comes_up_step Works); [apply Ha|by cbn; rewrite E, (al_up _ Ha)|].
  by apply declare_comes_up.
Qed.

Lemma dial_comes_up s :
  crash s = None -> waitConnection s ∉ closed_chans s -> comes_up s (Dial Loop).
Proof.
  intros Hc Hw. pose proof (is_fresh (opened s ∪ dead s)) as Hf.
  set (c := fresh (opened s ∪ dead s)) in *.
  apply not_elem_of_union in Hf as [Hf Hd].
  eapply (comes_up_step (Dialed c)); [done|cbn; by rewrite bool_decide_eq_false_2|].
  apply setup_comes_up. constructor; cbn; try done.
  unfold up_conn. cbn. by rewrite bool_decide_eq_false_2.
Qed.

Lemma sleep_comes_up s :
  crash s = None -> waitConnection s ∉ closed_chans s -> comes_up s Sleep.
Proof.
  intros. eapply (comes_up_step Works); [done..|]. by apply dial_comes_up.
Qed.

Lemma teardown_comes_up s :
  crash s = None -> close s <> waitConnection s -> is_Some (Connection s) ->
  waitConnection s ∉ closed_chans s -> comes_up s (TearDown Loop).
Proof.
  intros Hc Ha [c E] Hw. eapply (comes_up_step Works); [done..|].
  apply sleep_comes_up; unfold Close, close_chan, is_closed, set_connected;
    case_bool_decide; cbn; try done; rewrite E; cbn; try done. set_solver.
Qed.

(** The loop holds a connection that is down. *)
Lemma select_down_comes_up s c k :
  wf s (Select c k) -> crash s = None -> c ∈ dead s -> comes_up s (Select c k).
Proof.
  intros Hwf Hc Hd.
  eapply (comes_up_step Works); [done|cbn; by rewrite bool_decide_eq_true_2|].
  eapply (comes_up_step Works); [done..|]. apply dial_comes_up; [done|]. cbn.
  intros Hn%(wf_chans _ _ Hwf). lia.
Qed.
End manager_runs.

Definition stuck (s : state) : Prop :=
  managers s = [Declaring Loop] /\ up_conn (sh s) = false.

(** ** Every place of the loop *)
Lemma manager_next xs a s m m' s' :
  wf s m -> crash s = None -> manager_step a m s = Some (m', s') ->
  (wf s' m' -> comes_up xs s' m') -> comes_up xs s m.
Proof.
  intros Hwf Hc E Hn. eapply comes_up_step; [done..|]. apply Hn. by eapply manager_wf.
Qed.

Lemma select_runs xs s c k :
  wf s (Select c k) -> crash s = None -> connected s = true -> comes_up xs s (Select c k).
Proof.
  intros Hwf Hc Hcon. destruct (decide (c ∈ dead s)) as [Hd|Hd].
  - by apply select_down_comes_up.
  - rewrite (wf_select _ _ Hwf c k eq_refl).
    assert (Connection s = Some c) as E by (by apply (wf_conn _ _ Hwf); left).
    apply select_comes_up; [done| |done].
    unfold up_conn. by rewrite E, bool_decide_eq_false_2.
Qed.

Lemma notify_runs xs s :
  wf s Notify -> crash s = None -> connected s = true -> comes_up xs s Notify.
Proof.
  intros Hwf Hc Hcon. destruct (wf_conn _ _ Hwf) as [c E]; [by left|].
  eapply (manager_next xs Works); [done..|by cbn; rewrite E|]. intros Hwf'.
  eapply (manager_next xs Works); [done..|]. intros Hwf''. by apply select_runs.
Qed.

Lemma signal_runs xs s :
  wf s Signal -> crash s = None -> connected s = true -> comes_up xs s Signal.
Proof.
  intros Hwf Hc Hcon. eapply (manager_next xs Works); [done..|]. intros Hwf'.
  rewrite signal_once in * by done. by apply notify_runs.
Qed.

Lemma reconnecting_held s m :
  wf s m -> reconnecting m = true -> waitConnection s ∉ closed_chans s.
Proof. intros Hwf Hr Hn%(wf_wait _ _ Hwf). congruence. Qed.

Lemma runs_up xs s m :
  wf s m -> crash s = None -> r_conn s = true -> close s ∉ closed_chans s ->
  ~ (m = Declaring Loop /\ up_conn s = false) -> comes_up xs s m.
Proof.
  intros Hwf Hc Hr Ho Hst.
  assert (first m = false) as Hf.
  { destruct (first m) eqn:Hf; [|done]. apply (wf_first _ _ Hwf) in Hf as [? _]. congruence. }
  assert (marked m = true -> m <> End -> connected s = true) as Hm.
  { intros Hm He. by destruct (wf_marked _ _ Hwf Hm He). }
  pose proof (reconnecting_held s m Hwf) as Hw.
  destruct m as [|[]|[]|[]|[]|[]| | |c|c k| | |]; try discriminate Hf;
    cbn in Hw; try specialize (Hw eq_refl).
  - by apply dial_comes_up.
  - destruct (up_conn s) eqn:Hup; [by apply setup_comes_up|].
    destruct (wf_conn _ _ Hwf) as [c E]; [by left|].
    eapply (comes_up_step xs Fails); [done|by cbn; rewrite E|].
    apply teardown_comes_up; [done|apply Hwf|by eauto|done].
  - apply teardown_comes_up; [done|apply Hwf|apply (wf_conn _ _ Hwf); by left|done].
  - destruct (up_conn s) eqn:Hup; [|by destruct Hst]. by apply declare_comes_up.
  - eapply (manager_next xs Works); [done..|]. intros Hwf'. by apply signal_runs.
  - by apply signal_runs; auto.
  - by apply notify_runs; auto.
  - eapply (manager_next xs Works); [done..|]. intros Hwf'. by apply select_runs; auto.
  - by apply select_runs; auto.
  - eapply (comes_up_step xs Works); [done..|]. apply dial_comes_up; [done|].
    cbn. intros Hn%(wf_chans _ _ Hwf). lia.
  - by apply sleep_comes_up.
  - by apply (wf_end _ _ Hwf) in Hr.
Qed.

(** ** Declaring queues on a connection that is down *)
Lemma add_dead_up c s : up_conn s = false -> up_conn (add_dead c s) = false.
Proof.
  unfold up_conn. cbn. case_match; [|done].
  rewrite !negb_false_iff, !bool_decide_eq_true. set_solver.
Qed.

Lemma Close_up s : up_conn s = false -> up_conn (Close s) = false.
Proof.
  intros Hup. unfold Close. destruct (is_closed (close s) s) eqn:Hcl; [done|].
  unfold close_chan. rewrite Hcl. cbn. destruct (Connection s) eqn:Hc; [|].
  - apply add_dead_up, Hup.
  - unfold up_conn. cbn. by rewrite Hc.
Qed.

Lemma resubscribe_up a x s x' s' :
  resubscribe_step a x s = Some (x', s') -> up_conn s' = up_conn s.
Proof.
  intros E. unfold resubscribe_step in E. by repeat (case_match; simplify_eq/=).
Qed.

Lemma declare_stuck a s m' s' :
  up_conn s = false -> manager_step a (Declaring Loop) s = Some (m', s') ->
  m' = Declaring Loop /\ up_conn s' = false.
Proof.
  intros Hup E. destruct a; try discriminate; cbn in E; rewrite ?Hup in E;
    repeat (case_match; simplify_eq/=); done.
Qed.

Lemma stuck_step s s' : stuck s -> step s s' -> stuck s'.
Proof.
  intros [Hm Hup] Hst. destruct Hst as
    [i a m m' s s' ms xs Hc Hi E|i a x x' s s' ms xs Hc Hx E|c s ms xs Hc Ho
    |a s ms xs Hc Ha|s ms xs Hc Hr|i x x' s s' ms xs Hc Hx E|s ms xs Hc Hr Hmtx];
    cbn in *; subst ms; split; cbn; try done.
  - destruct i; [|done]. injection Hi as <-. cbn.
    by destruct (declare_stuck _ _ _ _ Hup E) as [-> _].
  - destruct i; [|done]. injection Hi as <-.
    by destruct (declare_stuck _ _ _ _ Hup E) as [_ ->].
  - by rewrite (resubscribe_up _ _ _ _ _ E).
  - by apply add_dead_up.
  - injection E as _ <-. by destruct (ch x).
  - by apply Close_up.
Qed.

(** C14. Recovery.  After the first connect, while nobody closed the broker and
    the process lives, whatever connections went down and whatever the
    subscribers do: the broker can come back up (connected, on a live
    connection, watched by its reconnect loop), except in one state, from which
    it never does: the connection went down while the loop declares the
    persistent queues on it. *)
Theorem reconnect_recovers s :
  reachable s -> crash (sh s) = None -> r_conn (sh s) = true ->
  close (sh s) ∉ closed_chans (sh s) ->
  (exists s', rtc step s s' /\ up s') <-> ~ stuck s.
Proof.
  intros Hr Hc Hrc Ho. pose proof (reachable_inv _ Hr) as [(m & Hm & Hwf) _ _ _ _]. split.
  - intros (s' & Hs & _ & _ & c & _ & Hup) Hst.
    assert (stuck s') as [Hst' _] by by eapply (rtc_invariant stuck); eauto using stuck_step.
    congruence.
  - intros Hst. destruct s as [s ms xs]. cbn in *. subst ms.
    apply runs_up; try done. intros [-> Hup]. by apply Hst.
Qed.

(** ** Runs of the subscribers *)
Section subscriber_runs.
Context (ms : list manager) (c : nat).

(** The broker is connected, and stays so while only subscribers move. *)
Record ready (s : shared) (xs : list subscriber) : Prop := {
  rd_crash : crash s = None;
  rd_connected : connected s = true;
  rd_conn : Connection s = Some c;
  rd_alive : c ∉ dead s;
  rd_wait : waitConnection s ∈ closed_chans s;
  rd_subs : forall j y, xs !! j = Some y -> sub_ok s y;
  rd_lock : lock_ok s xs;
  rd_channels : channels_ok s xs
}.

Lemma ready_step a j y y' s s' xs :
  ready s xs -> xs !! j = Some y -> resubscribe_step a y s = Some (y', s') ->
  crash s' = None -> ready s' (<[j:=y']> xs).
Proof.
  intros Hrd Hj E Hc.
  assert (connected s' = connected s /\ Connection s' = Connection s /\ dead s' = dead s)
    as (H1 & H2 & H3)
    by (unfold resubscribe_step in E; by repeat (case_match; simplify_eq/=)).
  destruct (resubscribe_shared _ _ _ _ _ E) as (H4 & H5 & H6 & _).
  destruct Hrd. constructor; rewrite ?H1, ?H2, ?H3, ?H5, ?H6; try done.
  - intros k z [[<- <-]|[Hk Hz]]%lookup_insert_cases; [by eapply subscriber_ok; eauto|].
    apply (sub_ok_mono s); [by eauto|done| |by rewrite H6|by left].
    by eapply (subscriber_others a j y); eauto.
  - by eapply subscriber_lock; eauto.
  - by eapply subscriber_channels.
Qed.

Definition resumes (s : shared) (xs : list subscriber) (i : nat) : Prop :=
  exists s', rtc step (mkState s ms xs) s' /\ consuming s' i.

Lemma resumes_step a j y y' s s' xs i :
  ready s xs -> xs !! j = Some y -> resubscribe_step a y s = Some (y', s') ->
  crash s' = None -> (ready s' (<[j:=y']> xs) -> resumes s' (<[j:=y']> xs) i) ->
  resumes s xs i.
Proof.
  intros Hrd Hj E Hc Hn. destruct Hn as (s'' & Hr & Hcon); [by eapply ready_step|].
  exists s''. split; [|done]. eapply rtc_l; [|exact Hr].
  apply (step_subscriber j a y); [apply Hrd|done..].
Qed.

Lemma ready_up s xs : ready s xs -> up_conn s = true.
Proof. intros []. unfold up_conn. by rewrite rd_conn0, bool_decide_eq_false_2. Qed.

(** The place a subscriber goes to, and what it is then. *)
Lemma insert_self {A} (l : list A) i x y : l !! i = Some x -> <[i:=y]> l !! i = Some y.
Proof. intros Hi. apply list_lookup_insert_eq. by eapply lookup_lt_Some. Qed.

Lemma consume_resumes s xs i x :
  ready s xs -> xs !! i = Some x -> at_ x = SConsume -> resumes s xs i.
Proof.
  intros Hrd Hi Hx. pose proof (ready_up _ _ Hrd) as Hup.
  eapply (resumes_step Works i x); [done..| | |].
  { unfold resubscribe_step. by rewrite Hx, (rd_conn _ _ Hrd), Hup. }
  { apply Hrd. }
  intros Hrd'. eapply (resumes_step Works i); [done|by eapply insert_self|..].
  { by unfold resubscribe_step. }
  { apply Hrd'. }
  intros Hrd''. eexists. split; [apply rtc_refl|].
  exists (mkSubscriber (mayRun x) (Some (next_channel s)) minResubscribeDelay
            (SRange (next_channel s) c)), (next_channel s), c.
  split_and!; try done; cbn.
  - by eapply insert_self, insert_self.
  - apply Hrd.
  - intros Hn%(co_dead _ _ (rd_channels _ _ Hrd)). lia.
Qed.

(** Whoever has the lock of the broker gives it back. *)
Lemma recheck_resumes s xs i x :
  ready s xs -> xs !! i = Some x -> at_ x = SRecheck -> resumes s xs i.
Proof.
  intros Hrd Hi Hx.
  assert (forall s xs, ready s xs -> xs !! i = Some x -> mtx s = false -> resumes s xs i)
    as Hfree.
  { clear s xs Hrd Hi. intros s xs Hrd Hi Hm.
    eapply (resumes_step Works i x); [done..| | |].
    { unfold resubscribe_step. by rewrite Hx, Hm, (rd_connected _ _ Hrd). }
    { apply Hrd. }
    intros Hrd'. eapply consume_resumes; [done|by eapply insert_self|done]. }
  destruct (mtx s) eqn:Hm; [|by apply Hfree].
  destruct (lo_held _ _ (rd_lock _ _ Hrd) Hm) as (j & y & Hj & Hy).
  assert (i <> j) by (intros <-; congruence).
  pose proof (ready_up _ _ Hrd) as Hup.
  eapply (resumes_step Works j y); [done..| | |].
  { unfold resubscribe_step. by rewrite Hy, (rd_conn _ _ Hrd), Hup. }
  { apply Hrd. }
  intros Hrd'. apply Hfree; [done| |done]. by rewrite list_lookup_insert_ne.
Qed.

Lemma wait_resumes s xs i x k w :
  ready s xs -> xs !! i = Some x -> at_ x = SWait k w -> resumes s xs i.
Proof.
  intros Hrd Hi Hx.
  destruct (so_wait _ _ (rd_subs _ _ Hrd _ _ Hi) k w Hx) as [_ Hw].
  assert (w ∈ closed_chans s) as Hcl by (destruct Hw as [?| ->]; [done|apply Hrd]).
  eapply (resumes_step Works i x); [done..| | |].
  { unfold resubscribe_step, is_closed. by rewrite Hx, bool_decide_eq_true_2. }
  { apply Hrd. }
  intros Hrd'. eapply recheck_resumes; [done|by eapply insert_self|done].
Qed.

Lemma check_resumes s xs i x :
  ready s xs -> xs !! i = Some x -> at_ x = SCheck -> mayRun x = true -> resumes s xs i.
Proof.
  intros Hrd Hi Hx Hrun. eapply (resumes_step Works i x); [done..| | |].
  { unfold resubscribe_step. by rewrite Hx, Hrun. }
  { apply Hrd. }
  intros Hrd'. eapply (resumes_step Works i); [done|by eapply insert_self|..].
  { by unfold resubscribe_step. }
  { apply Hrd. }
  intros Hrd''. eapply wait_resumes; [done|by eapply insert_self, insert_self|done].
Qed.

Lemma range_resumes s xs i x a d :
  ready s xs -> xs !! i = Some x -> at_ x = SRange a d -> mayRun x = true ->
  resumes s xs i.
Proof.
  intros Hrd Hi Hx Hrun. destruct (decide (d ∈ dead s \/ a ∈ dead_channels s)) as [Hd|Hd].
  - eapply (resumes_step Works i x); [done..| | |].
    { unfold resubscribe_step. by rewrite Hx, bool_decide_eq_true_2. }
    { apply Hrd. }
    intros Hrd'. by eapply check_resumes; [done|eapply insert_self|..].
  - eexists. split; [apply rtc_refl|]. exists x, a, d. cbn.
    split_and!; auto.
Qed.

Lemma subscriber_resumes s xs i x :
  ready s xs -> xs !! i = Some x -> mayRun x = true -> at_ x <> SDone -> resumes s xs i.
Proof.
  intros Hrd Hi Hrun Hd. destruct (at_ x) as [| |k w| | |a d|a d|t|] eqn:Hx.
  - by eapply check_resumes.
  - eapply (resumes_step Works i x); [done..| | |].
    { unfold resubscribe_step. by rewrite Hx. }
    { apply Hrd. }
    intros Hrd'. by eapply wait_resumes; [done|eapply insert_self|].
  - by eapply wait_resumes.
  - by eapply recheck_resumes.
  - by eapply consume_resumes.
  - eapply (resumes_step Works i x); [done..| | |].
    { unfold resubscribe_step. by rewrite Hx. }
    { apply Hrd. }
    intros Hrd'. by eapply range_resumes; [done|eapply insert_self|..].
  - by eapply range_resumes.
  - eapply (resumes_step Works i x); [done..| | |].
    { unfold resubscribe_step. by rewrite Hx. }
    { apply Hrd. }
    intros Hrd'. by eapply check_resumes; [done|eapply insert_self|..].
  - done.
Qed.
End subscriber_runs.

(** ** The delays *)
Lemma backoff_bounds k : minResubscribeDelay <= backoff k <= maxResubscribeDelay.
Proof.
  unfold backoff, minResubscribeDelay, maxResubscribeDelay, expFactor.
  assert (1 <= 2 ^ Z.of_nat k) by (pose proof (Z.pow_pos_nonneg 2 (Z.of_nat k)); lia).
  lia.
Qed.

Lemma backoff_eq k : Z.min (2 ^ Z.of_nat k * 100) 30000 = backoff k.
Proof.
  unfold backoff, expFactor, minResubscribeDelay, maxResubscribeDelay. f_equal. lia.
Qed.

Definition place_of (s : state) (i : nat) : option place := at_ <$> subs s !! i.

(** Subscriber [i] had failed [k] times in a row to consume, and the broker makes
    a step: a success gives the subscriber a channel and ends the row; to be done
    with Consume without one is a failure. *)
Definition count_failure (i : nat) (s s' : state) (k : nat) : nat :=
  match place_of s i, place_of s' i with
  | Some SConsume, Some (SAssign _ _) => O
  | Some SConsume, Some SConsume => k
  | Some SConsume, _ => S k
  | _, _ => k
  end.

(** The runs of the broker, with that number. *)
Inductive failed_in_a_row (i : nat) : nat -> state -> Prop :=
| row_init : failed_in_a_row i 0 init
| row_step k s s' :
    failed_in_a_row i k s -> step s s' ->
    failed_in_a_row i (count_failure i s s' k) s'.

(** What the delay that a subscriber carries says of its failures. *)
Definition delay_ok (k : nat) (x : subscriber) : Prop :=
  match at_ x with
  | SAssign _ _ => k = O
  | SSleep d => exists j, k = S j /\ d = backoff j /\ reSubscribeDelay x = carried k
  | _ => reSubscribeDelay x = carried k
  end.
Definition row_ok (i k : nat) (s : state) : Prop :=
  match subs s !! i with Some x => delay_ok k x | None => k = O end.

Lemma count_same i s s' k : place_of s i = place_of s' i -> count_failure i s s' k = k.
Proof.
  intros E. unfold count_failure. rewrite E. destruct (place_of s' i) as [[]|]; done.
Qed.

Lemma row_same i s s' k :
  subs s !! i = subs s' !! i -> row_ok i k s -> row_ok i (count_failure i s s' k) s'.
Proof.
  intros E Hk. rewrite count_same by (unfold place_of; by rewrite E).
  unfold row_ok in *. by rewrite <- E.
Qed.

Lemma count_at i s s' k x x' :
  subs s !! i = Some x -> subs s' !! i = Some x' ->
  count_failure i s s' k =
  match at_ x, at_ x' with
  | SConsume, SAssign _ _ => O
  | SConsume, SConsume => k
  | SConsume, _ => S k
  | _, _ => k
  end.
Proof.
  intros E E'. unfold count_failure, place_of. rewrite E, E'. cbn. by destruct (at_ x).
Qed.

Lemma row_own a i s s' k x x' t t' :
  subs s !! i = Some x -> subs s' !! i = Some x' ->
  resubscribe_step a x t = Some (x', t') -> row_ok i k s ->
  row_ok i (count_failure i s s' k) s'.
Proof.
  intros E E' Hst Hk. rewrite (count_at i s s' k x x') by done.
  unfold row_ok in *. rewrite E in Hk. rewrite E'. clear E E'.
  unfold resubscribe_step in Hst. unfold delay_ok in *.
  destruct (at_ x) eqn:Hat, a; cbn in Hst; try discriminate Hst; simplify_eq/=;
    repeat (case_match; simplify_eq/=); rewrite ?Hat; try done.
  - exists k. by rewrite Hk, clamp_carried.
  - by destruct Hk as (j & -> & _ & Hk).
Qed.

Lemma row_step_ok i k s s' :
  row_ok i k s -> step s s' -> row_ok i (count_failure i s s' k) s'.
Proof.
  intros Hk Hst. destruct Hst as
    [j a m m' s s' ms xs Hc Hj E|j a x x' s s' ms xs Hc Hx E|c s ms xs Hc Ho
    |a s ms xs Hc Ha|s ms xs Hc Hr|j x x' s s' ms xs Hc Hx E|s ms xs Hc Hr Hmtx];
    try (by apply row_same).
  - destruct (decide (j = i)) as [->|Hne].
    + eapply row_own; [exact Hx| |exact E|done]. by eapply insert_self.
    + apply row_same; [|done]. cbn. by rewrite list_lookup_insert_ne.
  - destruct (decide (i = length xs)) as [->|Hne].
    + unfold row_ok in *. cbn in *. rewrite lookup_ge_None_2 in Hk by lia. subst k.
      rewrite list_lookup_middle by done. unfold count_failure, place_of. cbn.
      rewrite lookup_ge_None_2 by lia. done.
    + apply row_same; [|done]. cbn. destruct (decide (i < length xs)%nat).
      * by rewrite lookup_app_l.
      * rewrite !lookup_ge_None_2; rewrite ?length_app; cbn; [done|lia..].
  - destruct (decide (j = i)) as [->|Hne].
    + unfold Unsubscribe in E. injection E as <- <-.
      rewrite count_same by (unfold place_of; cbn; rewrite Hx;
        by erewrite insert_self).
      unfold row_ok in *. cbn in *. rewrite Hx in Hk. by erewrite insert_self.
    + apply row_same; [|done]. cbn. by rewrite list_lookup_insert_ne.
Qed.

Lemma failed_row_ok i k s : failed_in_a_row i k s -> row_ok i k s.
Proof.
  induction 1 as [|k s s' _ IH Hst]; [done|]. by apply row_step_ok.
Qed.

Lemma reachable_row i s : reachable s -> exists k, failed_in_a_row i k s.
Proof.
  intros Hr. eapply (rtc_invariant (fun s => exists k, failed_in_a_row i k s));
    [eexists; constructor| |exact Hr].
  intros s1 s2 [k Hk] Hst. eexists. by eapply row_step.
Qed.

(** C19. Resumption.  Wherever a subscriber that nobody unsubscribed stands, and
    whatever the other subscribers do (one of them may hold the broker's lock):
    once the broker is up it can get to its deliveries again, on a live
    connection and a channel nobody closed, by steps of subscribers alone. *)
Theorem subscription_resumes s i x :
  reachable s -> crash (sh s) = None -> close (sh s) ∉ closed_chans (sh s) -> up s ->
  subs s !! i = Some x -> mayRun x = true ->
  exists s', rtc step s s' /\ consuming s' i.
Proof.
  intros Hr Hc Ho (Hcon & Hup & c & Hconn & Hm) Hi Hrun.
  destruct (reachable_inv _ Hr) as [(m & Hms & Hwf) Hs Hl Hch _].
  destruct s as [s ms xs]. cbn in *. rewrite Hm in *. injection Hms as <-.
  apply (subscriber_resumes _ c s xs i x); [|done..|].
  - unfold up_conn in Hup. rewrite Hconn, negb_true_iff, bool_decide_eq_false in Hup.
    constructor; try done. by apply Hwf.
  - intros Hx. by destruct (so_done _ _ (Hs _ _ Hi) Hx); [congruence|].
Qed.

(** C13. The state of a connection.  From one Connect, in every interleaving with
    any number of subscribers, unsubscriptions, disconnections and outages:
    there is one manager; no channel is closed twice, and the process dies only
    while a reconnect has failed; subscribers are held back exactly while the
    loop is on its way to a new connection; and a broker that is connected and
    not closed has its loop at work, which watches the very connection in use
    or is about to, or has just seen it go down. *)
Theorem connection_invariant s :
  reachable s ->
  exists m, managers s = [m] /\
    (crash (sh s) = None \/
     crash (sh s) = Some NilConnection /\ Connection (sh s) = None /\
       (m = Dial Loop \/ m = Sleep)) /\
    (waitConnection (sh s) ∉ closed_chans (sh s) <-> reconnecting m = true) /\
    (connected (sh s) = true -> close (sh s) ∉ closed_chans (sh s) ->
       m = Signal \/ m = Notify \/ m = Lost \/
       exists c, Connection (sh s) = Some c /\
         (m = Watch c \/ m = Select c (close (sh s)))).
Proof.
  intros Hr. destruct (reachable_inv _ Hr) as [(m & Hm & Hwf) _ _ _ _].
  exists m. split; [done|]. split; [apply Hwf|]. split.
  - pose proof (wf_wait _ _ Hwf) as Hw. destruct (reconnecting m); naive_solver.
  - intros Hcon Ho. destruct (wf_connected _ _ Hwf Hcon) as [Hm' Hrc].
    destruct m as [|[]|[]|[]|[]|[]| | |c|c k| | |]; try discriminate Hm'; auto.
    + right; right; right. exists c. split; [|by left]. apply (wf_conn _ _ Hwf). by left.
    + right; right; right. exists c. rewrite (wf_select _ _ Hwf c k eq_refl).
      split; [|by right]. apply (wf_conn _ _ Hwf). by left.
    + by apply (wf_end _ _ Hwf) in Hrc.
Qed.

(** C20. The life of a subscriber.  In every interleaving its routine ends only
    when it was unsubscribed or the broker was closed; whoever consumes holds the
    broker's lock, alone, and when Consume is over gives it back and either has
    its channel or goes to sleep; and whatever happens in between, it sleeps for
    the shorter of 2^j * 100 ms and 30 s exactly when it has failed j + 1 times
    in a row since its last success: the delay is kept from turn to turn of the
    loop and starts again after a success only. *)
Theorem subscriber_invariant s i x :
  reachable s -> subs s !! i = Some x ->
  (at_ x = SDone -> mayRun x = false \/ close (sh s) ∈ closed_chans (sh s)) /\
  (at_ x = SConsume -> mtx (sh s) = true /\
     (forall j y, subs s !! j = Some y -> at_ y = SConsume -> j = i) /\
     forall a x' s', resubscribe_step a x (sh s) = Some (x', s') -> crash s' = None ->
       mtx s' = false /\
       ((exists d, at_ x' = SSleep d) \/ exists b c, at_ x' = SAssign b c)) /\
  (exists k, failed_in_a_row i k s) /\
  (forall d, at_ x = SSleep d -> 100 <= d <= 30000) /\
  forall k d, failed_in_a_row i k s -> at_ x = SSleep d ->
    exists j, k = S j /\ d = Z.min (2 ^ Z.of_nat j * 100) 30000.
Proof.
  intros Hr Hi. destruct (reachable_inv _ Hr) as [_ Hs Hl _ _].
  pose proof (Hs _ _ Hi) as Hok. split; [apply Hok|]. split; [|split; [|split]].
  - intros Hx. split; [by apply (so_lock _ _ Hok)|]. split.
    + intros j y Hj Hy. by apply (lo_one _ _ Hl j i y x).
    + intros a x' s' E Hc. unfold resubscribe_step in E. rewrite Hx in E.
      destruct a; try done; repeat (case_match; simplify_eq/=); eauto.
  - by apply reachable_row.
  - intros d [k ->]%(so_sleep _ _ Hok). apply backoff_bounds.
  - intros k d Hk%failed_row_ok Hx. unfold row_ok, delay_ok in Hk.
    rewrite Hi, Hx in Hk. destruct Hk as (j & -> & -> & _). exists j.
    by rewrite backoff_eq.
Qed.

(** ** Examples: a connect, an outage, a subscriber *)
Fixpoint run_manager (l : list reply) (m : manager) (s : shared)
    : option (manager * shared) :=
  match l with
  | [] => Some (m, s)
  | a :: l =>
      match crash s, manager_step a m s with
      | None, Some (m', s') => run_manager l m' s'
      | _, _ => None
      end
  end.

Lemma run_manager_rtc l m s m' s' xs :
  run_manager l m s = Some (m', s') ->
  rtc step (mkState s [m] xs) (mkState s' [m'] xs).
Proof.
  revert m s. induction l as [|a l IH]; cbn; intros m s E; [by injection E as -> ->|].
  destruct (crash s) eqn:Hc; [done|].
  destruct (manager_step a m s) as [[m1 s1]|] eqn:Hst; [|done].
  eapply rtc_l; [|by apply IH]. by apply (step_manager 0 a m m1 s s1 [m] xs).
Qed.

Lemma reachable_rtc s s' : reachable s -> rtc step s s' -> reachable s'.
Proof. unfold reachable. intros H1 H2. by etrans. Qed.

(** The first connect, with connection 0. *)
Definition e_connect : list reply :=
  [Works; Dialed 0; Works; Works; Works; Works; Works].
Definition e_connected : shared :=
  match run_manager e_connect Enter newRabbitMQConn with
  | Some (_, s) => s
  | None => newRabbitMQConn
  end.
(** The outage, and the reconnect up to the queues. *)
Definition e_outage : shared := add_dead 0 e_connected.
Definition e_redial : list reply := [Works; Works; Dialed 1; Works].
Definition e_declaring : shared :=
  match run_manager e_redial (Select 0 0) e_outage with
  | Some (_, s) => s
  | None => newRabbitMQConn
  end.

Lemma e_connected_reachable : reachable (mkState e_connected [Select 0 0] []).
Proof. by apply (run_manager_rtc e_connect). Qed.

Lemma e_outage_reachable xs :
  reachable (mkState e_connected [Select 0 0] xs) ->
  reachable (mkState e_outage [Select 0 0] xs).
Proof. intros Hr. eapply rtc_r; [done|]. by apply step_die; vm_compute. Qed.

Example e_stuck : exists s, reachable s /\ stuck s.
Proof.
  exists (mkState (add_dead 1 e_declaring) [Declaring Loop] []). split.
  - eapply rtc_r; [|by apply step_die; vm_compute].
    eapply reachable_rtc; [apply e_outage_reachable, e_connected_reachable|].
    by apply (run_manager_rtc e_redial).
  - by split.
Qed.

Lemma reconnect_recovers_witness :
  exists s', rtc step (mkState e_outage [Select 0 0] []) s' /\ up s'.
Proof.
  apply (reconnect_recovers (mkState e_outage [Select 0 0] [])).
  - apply e_outage_reachable, e_connected_reachable.
  - reflexivity.
  - reflexivity.
  - apply (bool_decide_unpack _). vm_compute. exact I.
  - intros [Hm _]. discriminate Hm.
Defined.

Lemma e_subscribed : reachable (mkState e_connected [Select 0 0] [new_subscriber]).
Proof.
  eapply rtc_r; [apply e_connected_reachable|]. by apply (step_subscribe e_connected _ []).
Qed.

Lemma subscription_resumes_witness :
  exists s', rtc step (mkState e_connected [Select 0 0] [new_subscriber]) s' /\
    consuming s' 0.
Proof.
  apply (subscription_resumes (mkState e_connected [Select 0 0] [new_subscriber]) 0
    new_subscriber).
  - apply e_subscribed.
  - reflexivity.
  - apply (bool_decide_unpack _). vm_compute. exact I.
  - split; [reflexivity|]. split; [reflexivity|]. exists 0%nat. split; reflexivity.
  - reflexivity.
  - reflexivity.
Defined.

Lemma connection_invariant_witness :
  waitConnection e_declaring ∉ closed_chans e_declaring.
Proof.
  destruct (connection_invariant (mkState e_declaring [Declaring Loop] []))
    as (m & Hm & _ & Hw & _).
  - eapply reachable_rtc; [apply e_outage_reachable, e_connected_reachable|].
    apply (run_manager_rtc e_redial). reflexivity.
  - apply Hw. injection Hm as <-. reflexivity.
Defined.

(** One subscriber moves, and its failures are counted. *)
Fixpoint run_subscriber (l : list reply) (x : subscriber) (s : shared) (k : nat)
    : option (subscriber * shared * nat) :=
  match l with
  | [] => Some (x, s, k)
  | a :: l =>
      match crash s, resubscribe_step a x s with
      | None, Some (x', s') =>
          run_subscriber l x' s'
            (count_failure 0 (mkState s [] [x]) (mkState s' [] [x']) k)
      | _, _ => None
      end
  end.

Lemma run_subscriber_row l ms x s k x' s' k' :
  failed_in_a_row 0 k (mkState s ms [x]) ->
  run_subscriber l x s k = Some (x', s', k') ->
  failed_in_a_row 0 k' (mkState s' ms [x']).
Proof.
  revert x s k. induction l as [|a l IH]; cbn; intros x s k Hk E;
    [by injection E as -> -> ->|].
  destruct (crash s) eqn:Hc; [done|].
  destruct (resubscribe_step a x s) as [[x1 s1]|] eqn:Hst; [|done].
  eapply IH; [|exact E].
  apply (row_step 0 k (mkState s ms [x]) (mkState s1 ms [x1])); [done|].
  by apply (step_subscriber 0 a x x1 s s1 ms [x]).
Qed.

Lemma row_reachable i k s : failed_in_a_row i k s -> reachable s.
Proof.
  induction 1 as [|k s s' _ IH Hst]; [apply rtc_refl|]. by eapply rtc_r.
Qed.

(** Two tries that fail. *)
Definition e_try (a : reply) : list reply := [Works; Works; Works; Works; a].
Definition e_fails_twice : list reply := e_try Fails ++ [Works] ++ e_try Fails.

Lemma subscriber_invariant_witness :
  exists s x d, failed_in_a_row 0 2 s /\ subs s !! 0%nat = Some x /\
    at_ x = SSleep d /\ d = 200.
Proof.
  destruct (reachable_row 0 _ e_subscribed) as [k Hk].
  pose proof (failed_row_ok _ _ _ Hk) as Hk0. unfold row_ok, delay_ok in Hk0.
  cbn in Hk0. assert (k = O) as -> by (destruct k; [done|];
    exfalso; pose proof (backoff_bounds k); unfold carried, expFactor,
    minResubscribeDelay in *; lia).
  destruct (run_subscriber e_fails_twice new_subscriber e_connected 0)
    as [[[x s] k]|] eqn:E; vm_compute in E; [|discriminate E].
  pose proof (run_subscriber_row e_fails_twice [Select 0 0] _ _ _ _ _ _ Hk E) as Hrow.
  injection E as <- <- <-. eexists _, _, _. split; [exact Hrow|].
  split; [reflexivity|]. split; [reflexivity|].
  destruct (proj2 (proj2 (proj2 (proj2 (subscriber_invariant _ 0 _
    (row_reachable _ _ _ Hrow) eq_refl)))) 2%nat _ Hrow eq_refl) as (j & [= <-] & Hd).
  exact Hd.
Defined.
