(* ===== verification/BkSim.v ===== *)
(** * The goroutines' steps and the calls behind them

    [tryConnect], as it runs call by call against the registry and the server
    ([Broker]), is a run of the manager of [BkMachine]. *)

From stdpp Require Import base tactics list strings gmap relations.
From Stdlib Require Import ZArith Lia.
From S2P Require Import Prelude GoStd Json Backend Errors Discovery Broker BkProps.
From S2P Require BkMachine.
#[local] Open Scope Z_scope.
#[local] Open Scope go_scope.

(** A connection and a state of the machine that say the same. *)
Record corr (r : rabbitMQConn) (s : BkMachine.shared) : Prop := {
  cr_conn : BkMachine.Connection s = Connection r;
  cr_connected : BkMachine.connected s = connected r;
  cr_closed : BkMachine.is_closed (BkMachine.close s) s = closed r;
  cr_opened : forall c, c ∈ BkMachine.opened s -> (c < b_tick r)%nat;
  cr_dead : forall c, c ∈ BkMachine.dead s -> (c < b_tick r)%nat;
  cr_current : forall c, Connection r = Some c -> (c < b_tick r)%nat;
  cr_crash : BkMachine.crash s = None
}.

(** Calls that leave the connection alone. *)
Record quiet (r r' : rabbitMQConn) : Prop := {
  qu_conn : Connection r' = Connection r;
  qu_connected : connected r' = connected r;
  qu_closed : closed r' = closed r;
  qu_tick : (b_tick r <= b_tick r')%nat
}.

#[global] Instance quiet_preorder : PreOrder quiet.
Proof.
  split; [by constructor|]. intros r1 r2 r3 [] []. split; [congruence..|lia].
Qed.

Lemma corr_quiet r r' s : quiet r r' -> corr r s -> corr r' s.
Proof.
  intros [Hq Hb Hd Ht] []. split; try congruence; intros c Hc;
    [apply cr_opened0 in Hc|apply cr_dead0 in Hc|rewrite Hq in Hc; apply cr_current0 in Hc];
    lia.
Qed.

Section simulation.
Context `{Registry} `{Amqp} (st : conn_settings).

#[local] Instance qu_count : Preserves quiet b_count.
Proof. intros r x r' [= _ <-]. split; cbn; try done. lia. Qed.
#[local] Instance qu_call c : Preserves quiet (call c).
Proof. intros r x r' [= _ <-]. split; cbn; try done. lia. Qed.
#[local] Instance qu_newRabbitChannel n g : Preserves quiet (newRabbitChannel n g).
Proof. unfold newRabbitChannel. keep. Qed.

Lemma quiet_open (set : option rabbitMQChannel -> rabbitMQConn -> rabbitMQConn) :
  (forall c r, quiet r (set c r)) -> Preserves quiet (open_channel st set).
Proof.
  intros Hset. assert (forall c, Preserves (E:=err) quiet (modify (set c)))
    by (intros c r x r' [= _ <-]; apply Hset).
  unfold open_channel. keep.
Qed.

Lemma quiet_declare_all qs :
  Preserves quiet (for_each (declare_until st queue_fuel) qs).
Proof. apply kept_declare_all; apply _. Qed.

(** ** Closing *)
Lemma corr_close r s x r' :
  is_Some (Connection r) -> corr r s -> ConnClose r = (x, r') ->
  corr r' (BkMachine.Close s) /\ x <> inl EPanic.
Proof.
  intros [c Hc] [] Hr. unfold ConnClose, BkMachine.Close in *. rewrite cr_closed0.
  destruct (closed r) eqn:Ecl; [injection Hr as <- <-; split; [by split; try congruence|done]|].
  unfold BkMachine.close_chan. rewrite cr_closed0. cbn in *. rewrite Hc in *.
  rewrite cr_conn0. split; [|by intros ->; apply call_no_panic in Hr].
  injection Hr as _ <-. split; cbn; try done.
  - unfold BkMachine.is_closed. cbn. apply bool_decide_eq_true. set_solver.
  - intros d Hd%cr_opened0. lia.
  - intros d [->%elem_of_singleton|Hd%cr_dead0]%elem_of_union; [|lia].
    specialize (cr_current0 _ eq_refl). lia.
  - intros d Hd%cr_current0. lia.
Qed.

Lemma closing_sim {A} r s (e : err) (y : err + A) r' :
  is_Some (Connection r) -> corr r s -> (attempt ConnClose ;; throw e) r = (y, r') ->
  y = inl e /\ corr r' (BkMachine.Close s).
Proof.
  intros Hc Hco [(? & (? & ? & _)%attempt_inv & _)|(z & r1 & Ha & Ht)]%bind_inv; [done|].
  apply attempt_inv in Ha as (w & [= ->] & Hcl). apply throw_inv in Ht as [-> ->].
  split; [done|]. by eapply corr_close.
Qed.

(** ** One part of the set-up *)
Record quiet_part {A} (c : BkAct A) : Prop := {
  qp_sound : sound_part c;
  qp_quiet : Preserves quiet c;
  qp_error : forall r e r', c r = (inl e, r') -> e <> ERetrying
}.

Lemma quiet_part_call c : quiet_part (call c).
Proof.
  split; [apply sound_call|apply _|]. intros r e r'. unfold call.
  destruct (answer _ _); congruence.
Qed.

Lemma quiet_part_open set :
  (forall c, Preserves calls_only (E:=err) (modify (set c))) ->
  (forall c r, quiet r (set c r)) -> quiet_part (open_channel st set).
Proof.
  intros H1 H2. split; [by apply sound_open|by apply quiet_open|].
  intros r e r' [(? & (? & ? & _)%attempt_inv & _)|(y & r1 & Ha & Hr)]%bind_inv; [done|].
  apply attempt_inv in Ha as (z & [= ->] & Hd).
  destruct z as [e'|ch]; [|done].
  apply bind_inv in Hr as [(? & ? & _)|(u & r2 & _ & Hr)]; [done|].
  apply throw_inv in Hr as [[= ->] _]. clear -Hd. unfold newRabbitChannel in Hd.
  apply bind_inv in Hd as [(? & ? & _)|(k & r3 & _ & Hd)]; [done|].
  destruct (new_consumer k); [by apply throw_inv in Hd as [[= ->] _]|].
  apply bind_inv in Hd as [(? & ? & _)|(r4 & r5 & _ & Hd)]; [done|].
  destruct (Connection r4); [|by apply throw_inv in Hd as [[= ->] _]].
  apply bind_inv in Hd as [(e1 & Hd & [= ->])|(u2 & r6 & _ & Hd)].
  { by eapply (qp_error _ (quiet_part_call _)). }
  apply bind_inv in Hd as [(e1 & Hd & [= ->])|(u3 & r7 & _ & Hd)]; [|done].
  by eapply (qp_error _ (quiet_part_call _)).
Qed.

Lemma or_close_sim {A B} (c : BkAct A) (k : A -> BkAct B) r s x r' :
  is_Some (Connection r) -> quiet_part c -> corr r s ->
  bind (or_close c) k r = (x, r') ->
  (exists e, x = inl e /\ e <> ERetrying /\ corr r' (BkMachine.Close s)) \/
  exists a r1, is_Some (Connection r1) /\ corr r1 s /\ k a r1 = (x, r').
Proof.
  intros Hc [Hs Hq He] Hco Hr. unfold or_close in Hr.
  apply bind_inv in Hr as [(e & Ho & ->)|(a & r1 & Ho & Hr)];
    (apply bind_inv in Ho as [(? & (? & ? & _)%attempt_inv & _)|(y & r2 & Ha & Ho)];
      [done|]); apply attempt_inv in Ha as (z & [= ->] & Hd);
    destruct (Hs _ _ _ Hc Hd) as [[Hc2 _ _ _] Hne];
    assert (corr r2 s) as Hco2 by (by eapply corr_quiet; [eapply Hq|]);
    rewrite <- Hc2 in Hc.
  - destruct z as [e'|a]; [|apply ret_inv in Ho as [? _]; done]. left. exists e'.
    assert ((attempt ConnClose ;; throw (A:=A) e') r2 = (inl e, r')) as Hcl
      by (destruct e'; done).
    destruct (closing_sim _ _ _ _ _ Hc Hco2 Hcl) as [[= ->] ?].
    split_and!; [done| |done]. by eapply He.
  - right. destruct z as [e|a'].
    + assert ((attempt ConnClose ;; throw (A:=A) e) r2 = (inr a, r1)) as Hcl
        by (destruct e; done).
      by destruct (closing_sim _ _ _ _ _ Hc Hco2 Hcl).
    + apply ret_inv in Ho as [[= ->] ->]. eauto.
Qed.

(** ** Runs of the machine *)
Context (o : BkMachine.owner) (xs : list BkMachine.subscriber).
Abbreviation at_place s m := (BkMachine.mkState s [m] xs).

Lemma machine_step a s m s' m' :
  BkMachine.crash s = None -> BkMachine.manager_step a m s = Some (m', s') ->
  rtc BkMachine.step (at_place s m) (at_place s' m').
Proof.
  intros Hc E. apply rtc_once. by apply (BkMachine.step_manager 0 a m m' s s' [m] xs).
Qed.

Lemma corr_up r s : corr r s -> is_Some (Connection r) ->
  BkMachine.up_conn s = true ->
  rtc BkMachine.step (at_place s (BkMachine.SetUp o)) (at_place s (BkMachine.Declaring o)) /\
  rtc BkMachine.step (at_place s (BkMachine.Declaring o)) (at_place s (BkMachine.Mark o)).
Proof.
  intros [] [c Hc] Hup.
  split; apply (machine_step BkMachine.Works); try done; cbn; by rewrite cr_conn0, Hc, Hup.
Qed.

Lemma set_up_fails r s :
  corr r s -> is_Some (Connection r) ->
  rtc BkMachine.step (at_place s (BkMachine.SetUp o))
    (at_place (BkMachine.Close s) (BkMachine.failed o)).
Proof.
  intros [] [c Hc]. etrans.
  - apply (machine_step BkMachine.Fails); [done|]. cbn. by rewrite cr_conn0, Hc.
  - by apply (machine_step BkMachine.Works).
Qed.

Lemma dial_sim next n i r s x r' :
  (forall j, (i <= j < i + n)%nat -> is_Some (next j)) ->
  corr r s -> dial_nodes st next n i r = (x, r') ->
  exists s' b, x = inr b /\ corr r' s' /\
    rtc BkMachine.step (at_place s (BkMachine.Dial o))
      (at_place s' (if (b : bool) then BkMachine.SetUp o else BkMachine.Dial o)) /\
    (b = true -> is_Some (Connection r') /\ BkMachine.up_conn s' = true).
Proof.
  revert i r s. induction n as [|n IH]; intros i r s Hn Hco Hr; cbn [dial_nodes] in Hr.
  { apply ret_inv in Hr as [-> ->]. exists s, false. by split_and!. }
  destruct (Hn i) as [node E]; [lia|]. rewrite E in Hr.
  apply bind_inv in Hr as [(? & ? & _)|(k & r1 & Hk & Hr)]; [done|].
  injection Hk as <- <-.
  apply bind_inv in Hr as [(? & (? & ? & _)%attempt_inv & _)|(y & r2 & Ha & Hr)];
    [done|].
  apply attempt_inv in Ha as (z & [= ->] & Hd).
  assert (b_tick r2 = S (b_tick r) /\ connected r2 = connected r /\ closed r2 = closed r)
    as (Ht & Hcd & Hcl) by (by injection Hd as _ <-).
  assert (forall c, c ∈ BkMachine.opened s \/ c ∈ BkMachine.dead s \/ c = b_tick r ->
    (c < S (b_tick r))%nat) as Hlt.
  { destruct Hco. intros c [Hc%cr_opened0|[Hc%cr_dead0| ->]]; lia. }
  assert (b_tick r ∉ BkMachine.opened s) as Hno
    by (intros Hc%(cr_opened _ _ Hco); lia).
  assert (b_tick r ∉ BkMachine.dead s) as Hnd by (intros Hc%(cr_dead _ _ Hco); lia).
  pose proof (cr_crash _ _ Hco) as Hcr. destruct z as [e|u].
  - apply bind_inv in Hr as [(? & ? & _)|(u & r3 & Hm & Hr)]; [done|].
    injection Hm as _ <-.
    set (k := b_tick r) in *. set (c := if half_open k then Some k else None) in *.
    set (s1 := if half_open k
               then BkMachine.set_Connection (Some k)
                      (BkMachine.add_dead k (BkMachine.add_opened k s))
               else BkMachine.set_Connection None s).
    assert (corr (set_Connection c r2) s1) as Hco1.
    { destruct Hco. unfold s1, c. destruct (half_open k); split; cbn;
        rewrite ?Ht, ?Hcd, ?Hcl; try done; intros d Hd'; set_solver by auto. }
    apply (IH _ _ s1) in Hr as (s' & b & Hx & Hco' & Hrun & Hb); [| |done].
    2: { intros j Hj. apply Hn. lia. }
    exists s', b. split_and!; try done. etrans; [|exact Hrun]. unfold s1.
    destruct (half_open k).
    + apply (machine_step (BkMachine.HalfOpen k)); [done|]. cbn.
      by rewrite bool_decide_eq_false_2.
    + by apply (machine_step BkMachine.Refused).
  - apply bind_inv in Hr as [(? & ? & _)|(u' & r3 & Hm & Hr)]; [done|].
    injection Hm as _ <-. apply ret_inv in Hr as [-> ->].
    set (k := b_tick r) in *.
    exists (BkMachine.set_Connection (Some k) (BkMachine.add_opened k s)), true.
    split; [done|]. split_and!.
    + destruct Hco. split; cbn; rewrite ?Ht, ?Hcd, ?Hcl; try done; intros d Hd'.
      * apply Hlt. set_solver.
      * apply Hlt. auto.
      * injection Hd' as <-. lia.
    + apply (machine_step (BkMachine.Dialed k)); [done|]. cbn.
      by rewrite bool_decide_eq_false_2.
    + intros _. split; [by eexists|]. unfold BkMachine.up_conn. cbn.
      by rewrite bool_decide_eq_false_2.
Qed.

Lemma doTryConnect_sim r s x r' :
  corr r s -> doTryConnect st r = (x, r') ->
  exists s', corr r' s' /\
    ((exists t, x = inl (EPlain t)) /\
       rtc BkMachine.step (at_place s (BkMachine.Dial o)) (at_place s' (BkMachine.failed o)) \/
     x = inr tt /\ is_Some (Connection r') /\ BkMachine.up_conn s' = true /\
       rtc BkMachine.step (at_place s (BkMachine.Dial o)) (at_place s' (BkMachine.SetUp o))).
Proof.
  intros Hco Hr. unfold doTryConnect in Hr.
  assert (forall r s, corr r s -> rtc BkMachine.step (at_place s (BkMachine.Dial o))
    (at_place s (BkMachine.failed o))) as Hfail.
  { intros r1 s1 []. by apply (machine_step BkMachine.Fails). }
  apply bind_inv in Hr as [(? & ? & _)|(k & r1 & Hk & Hr)]; [done|].
  assert (corr r1 s) as Hco1 by (by eapply corr_quiet; [eapply qu_count|]).
  destruct (discovered _ _ _) as [e|services] eqn:Ed.
  { apply throw_inv in Hr as [-> ->]. exists s. split; [done|]. left. split; [|by eapply Hfail].
    unfold discovered in Ed. destruct (GetService _ _) as [[]|[]]; simplify_eq; eauto. }
  apply bind_inv in Hr as [(? & ? & _)|(k' & r2 & Hk' & Hr)]; [done|].
  assert (corr r2 s) as Hco2 by (by eapply corr_quiet; [eapply qu_count|]).
  assert (forall j, (0 <= j < 0 + tries services)%nat ->
    is_Some (RoundRobin services (rand_start k') j)) as Hnext
    by (intros j Hj; apply next_node; lia).
  apply bind_inv in Hr as [(e & Hd & ->)|(b & r3 & Hd & Hr)];
    destruct (dial_sim _ _ _ _ _ _ _ Hnext Hco2 Hd) as (s' & b' & Hx & Hco' & Hrun & Hb);
    [done|].
  injection Hx as ->. exists s'. destruct b'.
  - apply ret_inv in Hr as [-> ->]. split; [done|]. right.
    destruct (Hb eq_refl). done.
  - apply throw_inv in Hr as [-> ->]. split; [done|]. left. split; [eauto|].
    etrans; [exact Hrun|]. by eapply Hfail.
Qed.

(** C15. Every run of tryConnect against the registry and the server (the loop
    over the nodes, the two channels, the exchange, the persistent queues, and
    the closing after a failure) is a run of the manager between the same
    states of the connection: to the place before [connected] is set when it
    succeeds, to the end of the try when it fails, and to the declaration of
    the queues when it is still at that. *)
Theorem tryConnect_simulates r s x r' :
  corr r s -> tryConnect st r = (x, r') ->
  exists s', corr r' s' /\
    rtc BkMachine.step (at_place s (BkMachine.Dial o))
      (at_place s' match x with
                   | inr _ => BkMachine.Mark o
                   | inl ERetrying => BkMachine.Declaring o
                   | inl _ => BkMachine.failed o
                   end).
Proof.
  unfold tryConnect. intros Hco [(e & Hd & ->)|(u & r1 & Hd & Hr)]%bind_inv;
    apply (doTryConnect_sim _ s) in Hd as
      (s1 & Hco1 & [[[t Ht] Hrun]|(Hx & Hc1 & Hup & Hrun)]); try done.
  { exists s1. split; [done|]. by injection Ht as ->. }
  assert (forall e r2, e <> ERetrying -> corr r2 (BkMachine.Close s1) -> exists s',
    corr r2 s' /\ rtc BkMachine.step (at_place s (BkMachine.Dial o))
      (at_place s' match inl (B:=unit) e with
                   | inr _ => BkMachine.Mark o
                   | inl ERetrying => BkMachine.Declaring o
                   | inl _ => BkMachine.failed o
                   end)) as Hfail.
  { intros e r2 He Hco2. exists (BkMachine.Close s1). split; [done|].
    etrans; [exact Hrun|]. destruct e; try done; by eapply set_up_fails. }
  assert (quiet_part (open_channel st set_Channel)) as Hp1
    by (apply quiet_part_open; [apply _|by split]).
  assert (quiet_part (open_channel st set_ExchangeChannel)) as Hp3
    by (apply quiet_part_open; [apply _|by split]).
  apply or_close_sim with (s := s1) in Hr as
    [(e & -> & He & Hco2)|(u1 & r2 & Hc2 & Hco2 & Hr)]; [by apply Hfail| |done..].
  apply or_close_sim with (s := s1) in Hr as
    [(e & -> & He & Hco3)|(u2 & r3 & Hc3 & Hco3 & Hr)];
    [by apply Hfail| |done|destruct (ex_Durable _); apply quiet_part_call|done].
  apply or_close_sim with (s := s1) in Hr as
    [(e & -> & He & Hco4)|(u3 & r4 & Hc4 & Hco4 & Hr)]; [by apply Hfail| |done..].
  destruct (corr_up _ _ Hco4 Hc4 Hup) as [Hdecl Hmark].
  exists s1. split; [by eapply corr_quiet; [eapply quiet_declare_all|]|].
  etrans; [exact Hrun|]. etrans; [exact Hdecl|].
  apply declare_all_inv in Hr as [_ [->|[-> _]]]; done.
Qed.
End simulation.

(** ** Example: the first connect to a broker with one node *)
Lemma b_new_corr : corr b_new BkMachine.newRabbitMQConn.
Proof. split; try done; cbn; set_solver. Qed.

Lemma tryConnect_simulates_witness :
  exists s', rtc BkMachine.step
    (BkMachine.mkState BkMachine.newRabbitMQConn [BkMachine.Dial BkMachine.Caller] [])
    (BkMachine.mkState s' [BkMachine.Mark BkMachine.Caller] []).
Proof.
  destruct (@tryConnect_simulates b_registry b_amqp b_settings BkMachine.Caller [] b_new
    BkMachine.newRabbitMQConn (inr tt) (@tryConnect b_registry b_amqp b_settings b_new).2
    b_new_corr) as (s' & _ & Hrun).
  - vm_compute. reflexivity.
  - exists s'. exact Hrun.
Defined.
