(* ===== verification/NtMail.v ===== *)
(** * services/notification/notifier: sending the mails
    (notifier.go, email_notifier.go, email/)

    The other half of [NtNotifier]: what ClassifyEvent queued is read back and
    mailed.  The mail server and the text of a moment are parameters. *)

From stdpp Require Import base tactics list strings gmap.
From Stdlib Require Import ZArith Lia Ascii.
From S2P Require Import Prelude GoStd Json Model Backend Errors Proto Metadata.
From S2P Require Import Gorm Database Report Config IdBase NtProto NtConfig NtNotifier.
From S2P Require Import NtEvent Discovery Broker.
#[local] Open Scope Z_scope.
#[local] Open Scope go_scope.

(** The server's answer to a call, by its number: its error.  [format_time]: how
    a moment is written in a time zone. *)
Class Mailer := {
  mail_answer : nat -> smtp_call -> option string;
  format_time : string -> Z -> string
}.

Section mail.
Context `{Backend} `{Mailer}.

(** One call on the server: it is made, and answered. *)
Definition smtp (c : smtp_call) : Act unit := fun w =>
  (match mail_answer (w_tick w) c with Some e => inl (ERemote e) | None => inr tt end,
   mkWorld _ (w_db w) (w_kv w) (w_out w) (S (w_tick w)) (w_err w) (w_mail w ++ [c]) (w_log w)).

(** ** email/errors.go *)
Definition ErrUnsupportedEncryption : err := ENew "unsupported encryption".
Definition ErrUnsupportedAuth : err := ENew "unsupported auth".
Definition UnsupportedEncryption (enc : string) : err :=
  Wrap ErrUnsupportedEncryption [("enc", VStr enc)].
Definition UnsupportedAuth (auth : string) : err :=
  Wrap ErrUnsupportedAuth [("auth", VStr auth)].

(** ** email/email.go, email/auth_*.go, email/encryption_*.go *)
Inductive AuthDAO := PlainAuth | LoginAuth | CramMD5Auth.
Inductive EncryptionDAO := SSLTLSEncryption | StartTLSEncryption.

(** [strings.ToLower], as far as it can give one of the names below: ASCII, and
    the two other letters whose lower case is ASCII (the Kelvin sign and the
    dotted capital I). *)
Fixpoint ToLower (s : string) : string :=
  match s with
  | String "226" (String "132" (String "170" s)) => String "k" (ToLower s)
  | String "196" (String "176" s) => String "i" (ToLower s)
  | String a s => String (Dec.lower a) (ToLower s)
  | EmptyString => EmptyString
  end.

Record Email := mkEmail {
  auth : AuthDAO;
  encryption : EncryptionDAO;
  username : string;
  password : string;
  host : string
}.

Definition encryption_of (s : string) : option EncryptionDAO :=
  let s := ToLower s in
  if (s =? "ssl/tls")%string then Some SSLTLSEncryption
  else if (s =? "starttls")%string then Some StartTLSEncryption
  else None.

Definition auth_of (s : string) : option AuthDAO :=
  let s := ToLower s in
  if (s =? "plain")%string then Some PlainAuth
  else if (s =? "login")%string then Some LoginAuth
  else if (s =? "cram-md5")%string then Some CramMD5Auth
  else None.

Definition NewEmail (encryption auth : string) : err + Email :=
  match encryption_of encryption with
  | None => inl (UnsupportedEncryption encryption)
  | Some enc =>
      match auth_of auth with
      | None => inl (UnsupportedAuth auth)
      | Some a => inr (mkEmail a enc "" "" "")
      end
  end.

(** [net.SplitHostPort], whose error is a text. *)
Definition split_host (address : string) : Act string :=
  match Net.SplitHostPort address with
  | Some (host, _) => ret host
  | None => throw (EPlain "bad address")
  end.

(** The [Connect] of the two encryptions. *)
Definition SSLTLSConnect (smtpAddress : string) : Act unit :=
  host <- split_host smtpAddress ;;
  smtp (TlsDial smtpAddress host) ;;
  smtp (NewClient host).

Definition StartTLSConnect (smtpAddress : string) : Act unit :=
  host <- split_host smtpAddress ;;
  smtp (SmtpDial smtpAddress) ;;
  smtp (StartTLS host).

Definition EncryptionConnect (enc : EncryptionDAO) (smtpAddress : string) : Act unit :=
  match enc with
  | SSLTLSEncryption => SSLTLSConnect smtpAddress
  | StartTLSEncryption => StartTLSConnect smtpAddress
  end.

Definition EmailConnect (e : Email) (smtpAddress username password : string)
    : Act Email :=
  host <- split_host smtpAddress ;;
  EncryptionConnect (encryption e) smtpAddress ;;
  ret (mkEmail (auth e) (encryption e) username password host).

Definition auth_value (a : AuthDAO) (username password host : string) : smtp_auth :=
  match a with
  | PlainAuth => PLAIN username password host
  | LoginAuth => LOGIN username password
  | CramMD5Auth => CRAMMD5 username password
  end.

(** The two sides of LOGIN: [Start], and [Next] on a challenge. *)
Definition LoginStart (username : string) : string * string := ("LOGIN"%string, username).
Definition LoginNext (username password fromServer : string) (more : bool)
    : err + option string :=
  if more then
    if (fromServer =? "Username:")%string then inr (Some username)
    else if (fromServer =? "Password:")%string then inr (Some password)
    else inl (EPlain "unknown from server")
  else inr None.

Definition EmailAuth (e : Email) : Act unit :=
  smtp (ClientAuth (auth_value (auth e) (username e) (password e) (host e))) ;;
  smtp (ClientMail (username e)).

Definition crlf : string := String "013" (String "010" EmptyString).

Definition message (from to subject body : string) : string :=
  String.concat "" ["From: "; from; crlf; "To: "; to; crlf; "Subject: "; subject;
                    crlf; crlf; body; crlf]%string.

Definition EmailSend (e : Email) (to subject body : string) : Act unit :=
  smtp (ClientRcpt to) ;;
  smtp ClientData ;;
  smtp (WriteData (message (username e) to subject body)) ;;
  smtp CloseData.

Definition EmailClose : Act unit := smtp ClientQuit.

(** ** email_notifier.go *)
Definition defaultTimeZone : string := "UTC".
Definition defaultLanguageSet : string := "eng".

Definition generateSubject (ev : Event.t) (timeZone : string) : string :=
  String.concat "" ["raise event "; Event.Code ev; " at ";
                    format_time timeZone (Event.CreatedAt ev); "."]%string.
Definition generateBody (ev : Event.t) (timeZone : string) : string :=
  String.concat "" ["raise event "; Event.Code ev; " at ";
                    format_time timeZone (Event.CreatedAt ev); "."]%string.

Definition getOrDefaultTimeZone (key : string) (value : option string) : Act string :=
  match value with
  | Some v => ret v
  | None =>
      c <- GlobalConfig key ;;
      ret match c with None => defaultTimeZone | Some c => cfg_Value c end
  end.
Definition getOrDefaultLanguageSet (key : string) (value : option string) : Act string :=
  match value with
  | Some v => ret v
  | None =>
      c <- GlobalConfig key ;;
      ret match c with None => defaultLanguageSet | Some c => cfg_Value c end
  end.

(** ** notifier.go *)
Record delivery := mkDlv { dlv_Event : option Event.t; dlv_User : option User.t }.

Definition delivery_zero : delivery := mkDlv None None.
Definition delivery_dec : Dec.t delivery := fun r j =>
  match j with
  | JObj ms =>
      let '(e, k1) := Dec.field "event" (Dec.ptr Event_zero Event_dec) (dlv_Event r) ms in
      let '(u, k2) := Dec.field "user" (Dec.ptr User_zero User_dec) (dlv_User r) ms in
      (mkDlv e u, k1 && k2)
  | JNull => (r, true)
  | _ => (r, false)
  end.

(** [errors.Unknown] around the error of a call. *)
Definition or_unknown {A} (c : Act A) : Act A :=
  r <- attempt c ;;
  match r with
  | inr a => ret a
  | inl EPanic => throw EPanic
  | inl e => throw (Unknown (Some e))
  end.

(** The part of [notify] that talks to the mail server. *)
Definition send_mail (conf : EventSMTPNotifier.t) (to : string) (ev : Event.t)
    (loc : string) : Act unit :=
  mail <- lift (NewEmail (EventSMTPNotifier.Encryption conf)
                  (EventSMTPNotifier.AuthMechanism conf)) ;;
  mail <- or_unknown (EmailConnect mail
            (String.append (EventSMTPNotifier.ServerAddress conf)
               (String ":" (Strconv.FormatUint (EventSMTPNotifier.ServerPort conf))))
            (EventSMTPNotifier.Sender conf) (EventSMTPNotifier.AuthPassword conf)) ;;
  or_unknown (EmailAuth mail) ;;
  or_unknown (EmailSend mail to (generateSubject ev loc) (generateBody ev loc)) ;;
  or_unknown EmailClose.

(** The closure of [emailNotifier.notify]. *)
Definition notify_body (dlv : delivery) : Act unit :=
  u <- deref (dlv_User dlv) ;;
  r <- attempt (Find_one TUser (fun x => cond_Z (User.ID u) (User.ID x))) ;;
  match r with
  | inl ERecordNotFound => throw (NotFoundUser (User.ID u))
  | inl e => throw (UnusableDatabase (Some e))
  | inr user =>
      match User.Email user with
      | None => ret tt
      | Some to =>
          lang <- getOrDefaultLanguageSet GlobalLanguageSet (User.LanguageSet user) ;;
          tz <- getOrDefaultTimeZone GlobalTimeZone (User.Timezone user) ;;
          guard_err (negb (LoadLocation tz)) (Unknown (Some (EPlain "unknown time zone"))) ;;
          ev <- deref (dlv_Event dlv) ;;
          conf <- GetConfigEmailNotifier (Event.TenantID ev) ;;
          send_mail conf to ev tz
      end
  end.

Definition notify (dlv : delivery) : Act unit := Transaction (notify_body dlv).

(** [notifyEvent] on the topic and the body of a message; [defaultTenantID] is
    what [Subscribe] was given. *)
Definition notifyEvent (defaultTenantID : Z) (topic body : string) : Act unit :=
  match Unmarshal delivery_zero delivery_dec body with
  | inl e =>
      let e := Unknown (Some e) in
      reportEvent defaultTenantID
        "cdm-cloud.notification.notify_event.failure-unmarshal" "unknown" e ;;
      throw e
  | inr dlv =>
      if (topic =? QueueNotifyEmail)%string then
        r <- attempt (notify dlv) ;;
        match r with
        | inr _ => ret tt
        | inl EPanic => throw EPanic
        | inl e =>
            let failed code e :=
              ev <- deref (dlv_Event dlv) ;;
              reportEvent (Event.TenantID ev)
                "cdm-cloud.notification.notify_event.failure-notify" code e ;;
              throw e in
            if Equal (Some e) ErrUnusableDatabase then failed "unusable_database" e
            else if Equal (Some e) ErrUnsupportedEncryption then
              failed "unsupported_encryption" e
            else if Equal (Some e) ErrUnsupportedAuth then failed "unsupported_auth" e
            else if Equal (Some e) ErrNotFoundUser then failed "not_found_user" e
            else if Equal (Some e) ErrUnknown then failed "unknown" e
            else failed "unknown" (Unknown (Some e))
        end%string
      else ret tt
  end.

(** [Subscribe]: the subscription, and its handler. *)
Definition notifier_subscription (conn : bool) : err + subscription :=
  SubscribePersistentQueue conn QueueNotifyEmail true [].
Definition notifier_handler (defaultTenantID : Z) (p : Publication) : Act unit :=
  notifyEvent defaultTenantID (pub_topic p) (m_Body (pub_message p)).
End mail.
