(* ===== verification/NtMailProps.v ===== *)
(** * Mails: the queued delivery is read back, what an operation says to the mail
    server, the runs of a transaction that talks, and what a delivery leads to *)

From stdpp Require Import base tactics list strings gmap.
From Stdlib Require Import ZArith Lia Ascii.
From S2P Require Import Prelude GoStd Json Model Backend Proto Errors Metadata Discovery.
From S2P Require Import Gorm Database GormFacts Report Config IdBase IdFacts TransactionFacts RefBackend.
From S2P Require Import NtProto NtConfig NtNotifier NtEvent NtJsonFacts NtFacts Broker NtMail.
#[local] Open Scope Z_scope.
#[local] Open Scope go_scope.

(** ** The delivery *)
Record user_sound (u : User.t) : Prop := {
  us_typed : typed TUser u = true;
  us_texts : Forall utf8 [User.Account u; User.Name u; User.Password u];
  us_opts : Forall opt_utf8
    [User.Department u; User.Position u; User.Email u; User.Contact u;
     User.LanguageSet u; User.Timezone u; User.OldPassword u; User.LastLoggedInIP u]
}.

Lemma opt_u64_range o n : opt_u64 o = true -> o = Some n -> 0 <= n < Int.two64.
Proof. intros Ho ->. by apply Int.is_u64_spec. Qed.

Lemma opt_i64_some o n :
  opt_i64 o = true -> o = Some n -> - Int.two63 <= n < Int.two63.
Proof. intros Ho ->. by apply Int.is_i64_spec. Qed.

Lemma user_row_wf u : user_sound u -> Json.wf (JObj (User_members u)).
Proof.
  intros [Ht Hs Ho]. cbn in Ht. typed_hyps. all_texts. apply wf_members.
  unfold User_members. wf_all; intros a Ha; cbn;
    first [ by match goal with X : opt_utf8 _ |- _ => apply X in Ha end
          | apply Json.wf_jint; eapply opt_i64_some in Ha; [|eassumption];
            unfold Int.two63, Int.two64 in *; lia
          | apply Json.wf_jint; eapply opt_u64_range in Ha; [|eassumption];
            unfold Int.two63, Int.two64 in *; lia
          | done ].
Qed.

Lemma int64_ptr_same k o ms :
  opt_i64 o = true ->
  Dec.field k (Dec.ptr 0 Dec.int64) None (Enc.opt jint k o ++ ms)
  = Dec.field k (Dec.ptr 0 Dec.int64) o ms.
Proof.
  intros Ho. apply ptr_same. intros a Ha. split; [|done].
  unfold Dec.int64, Dec.number, jint. rewrite Enc.int_num; [done|].
  by eapply opt_i64_some.
Qed.

Lemma uint64_ptr_same k o ms :
  opt_u64 o = true ->
  Dec.field k (Dec.ptr 0 Dec.uint64) None (Enc.opt jint k o ++ ms)
  = Dec.field k (Dec.ptr 0 Dec.uint64) o ms.
Proof.
  intros Ho. apply ptr_same. intros a Ha. split; [|done].
  unfold Dec.uint64, Dec.number, jint. rewrite Enc.uint_num; [done|].
  by eapply opt_u64_range.
Qed.

Lemma bool_ptr_same k o ms :
  Dec.field k (Dec.ptr false Dec.bool_) None (Enc.opt JBool k o ++ ms)
  = Dec.field k (Dec.ptr false Dec.bool_) o ms.
Proof. by apply ptr_same. Qed.

(** Each column is read from its own member. *)
Lemma user_columns u :
  typed TUser u = true ->
  Dec.field "id" Dec.uint64 0 (User_members u) = (User.ID u, true) /\
  Dec.field "tenant_id" Dec.uint64 0 (User_members u) = (User.TenantID u, true) /\
  Dec.field "account" Dec.string_ EmptyString (User_members u) = (User.Account u, true) /\
  Dec.field "name" Dec.string_ EmptyString (User_members u) = (User.Name u, true) /\
  Dec.field "department" (Dec.ptr EmptyString Dec.string_) None (User_members u) = (User.Department u, true) /\
  Dec.field "position" (Dec.ptr EmptyString Dec.string_) None (User_members u) = (User.Position u, true) /\
  Dec.field "email" (Dec.ptr EmptyString Dec.string_) None (User_members u) = (User.Email u, true) /\
  Dec.field "contact" (Dec.ptr EmptyString Dec.string_) None (User_members u) = (User.Contact u, true) /\
  Dec.field "language_set" (Dec.ptr EmptyString Dec.string_) None (User_members u) = (User.LanguageSet u, true) /\
  Dec.field "timezone" (Dec.ptr EmptyString Dec.string_) None (User_members u) = (User.Timezone u, true) /\
  Dec.field "password" Dec.string_ EmptyString (User_members u) = (User.Password u, true) /\
  Dec.field "old_password" (Dec.ptr EmptyString Dec.string_) None (User_members u) = (User.OldPassword u, true) /\
  Dec.field "password_updated_at" (Dec.ptr 0 Dec.int64) None (User_members u) = (User.PasswordUpdatedAt u, true) /\
  Dec.field "password_update_flag" (Dec.ptr false Dec.bool_) None (User_members u) = (User.PasswordUpdateFlag u, true) /\
  Dec.field "last_logged_in_at" (Dec.ptr 0 Dec.int64) None (User_members u) = (User.LastLoggedInAt u, true) /\
  Dec.field "last_logged_in_ip" (Dec.ptr EmptyString Dec.string_) None (User_members u) = (User.LastLoggedInIP u, true) /\
  Dec.field "last_login_failed_count" (Dec.ptr 0 Dec.uint64) None (User_members u) = (User.LastLoginFailedCount u, true) /\
  Dec.field "last_login_failed_at" (Dec.ptr 0 Dec.int64) None (User_members u) = (User.LastLoginFailedAt u, true) /\
  Dec.field "created_at" Dec.int64 0 (User_members u) = (User.CreatedAt u, true) /\
  Dec.field "updated_at" Dec.int64 0 (User_members u) = (User.UpdatedAt u, true).
Proof.
  intros Ht. cbn in Ht. typed_hyps. unfold User_members.
  split_and!; fields;
    rewrite ?text_ptr_same, ?bool_ptr_same, ?int64_ptr_same, ?uint64_ptr_same by done;
    fields; done.
Qed.

Lemma user_row_dec u :
  typed TUser u = true -> User_dec User_zero (JObj (User_members u)) = (u, true).
Proof.
  intros Ht%user_columns. unfold User_dec.
  cbn [User.ID User.TenantID User.Account User.Name User.Department
    User.Position User.Email User.Contact User.LanguageSet User.Timezone
    User.Password User.OldPassword User.PasswordUpdatedAt
    User.PasswordUpdateFlag User.LastLoggedInAt User.LastLoggedInIP
    User.LastLoginFailedCount User.LastLoginFailedAt User.CreatedAt
    User.UpdatedAt User_zero].
  destruct_and! Ht.
  repeat match goal with
  | H : Dec.field _ _ _ _ = _ |- _ => rewrite H; clear H; cbv beta iota
  end.
  by destruct u.
Qed.

Lemma delivery_wf ev u :
  event_sound ev -> user_sound u -> Json.wf (delivery_json ev u).
Proof.
  intros He Hu. apply wf_members. repeat constructor; cbn; [by apply event_wf|].
  by apply user_row_wf.
Qed.

(** What ClassifyEvent queues is what notifyEvent reads. *)
Lemma delivery_read_back ev u :
  event_sound ev -> user_sound u ->
  Unmarshal delivery_zero delivery_dec (Json.Marshal (delivery_json ev u))
  = inr (mkDlv (Some ev) (Some u)).
Proof.
  intros He Hu. apply Unmarshal_Marshal; [by apply delivery_wf|].
  unfold delivery_dec, delivery_json.
  rewrite (member_same "event" _ _ _ (Some ev)).
  2:{ unfold Dec.ptr. cbn [dlv_Event delivery_zero default]. unfold id.
      rewrite (event_dec ev (event_typed _ He)). by unfold Event_json. }
  rewrite !Dec.field_skip by (vm_compute; reflexivity).
  rewrite (member_same "user" _ _ _ (Some u)); [done|].
  unfold Dec.ptr. cbn [dlv_User delivery_zero default]. unfold id.
  by rewrite (user_row_dec u (us_typed _ Hu)).
Qed.

(** ** What is said to the mail server *)
Section talking.
Context `{Backend}.

Definition mail_frame (w w' : World) : Prop := w_mail w' = w_mail w.
#[global] Instance mail_frame_preorder : PreOrder mail_frame.
Proof. split; [done|]. unfold mail_frame. intros ???; congruence. Qed.

#[global] Instance mail_on_db {A} (f : DB -> (sqlerr + A) * DB) :
  Preserves mail_frame (on_db f).
Proof. intros w r w' (x & db & _ & -> & _)%on_db_inv. done. Qed.

#[global] Instance mail_readonly : Readonly mail_frame.
Proof.
  split; [apply _|..].
  - intros t p. unfold Find. apply _.
  - intros t p g. unfold Find_page. keep.
  - intros t p. unfold First. keep.
  - intros A q le o n. unfold Join. keep.
  - intros A q. unfold JoinCount. apply _.
  - intros A f w r w' [= _ <-]. done.
Qed.
End talking.

Section talks.
Context `{BackendLaws} `{Mailer}.

(** Whatever happens, the calls made are the first ones of [L], in order; when a
    value is returned they were all made, and the value is as [Q] says.
    Nothing is stored or published. *)
Definition talks {A} (L : list smtp_call) (Q : A -> Prop) (c : Act A) : Prop :=
  forall w r w', c w = (r, w') ->
  db_frame [] w w' /\ out_frame w w' /\
  exists l, w_mail w' = w_mail w ++ l /\ l `prefix_of` L /\
    forall a, r = inr a -> l = L /\ Q a.

Lemma talks_quiet {A} (c : Act A) :
  Preserves (db_frame []) c -> Preserves out_frame c -> Preserves mail_frame c ->
  talks [] (fun _ => True) c.
Proof.
  intros Hd Ho Hm w r w' Hr. split; [by eapply Hd|]. split; [by eapply Ho|].
  exists []. rewrite (Hm _ _ _ Hr), app_nil_r. by split_and!.
Qed.

Lemma talks_smtp c : talks [c] (fun _ => True) (smtp c).
Proof.
  intros w r w' [= <- <-]. split; [by split|]. split; [done|].
  exists [c]. by split_and!.
Qed.

Lemma talks_ret {A} (Q : A -> Prop) a : Q a -> talks [] Q (ret a).
Proof.
  intros Hq w r w' [-> ->]%ret_inv. split; [done|]. split; [done|].
  exists []. rewrite app_nil_r. split_and!; try done. by intros ? [= <-].
Qed.

Lemma talks_throw {A} L (Q : A -> Prop) e : talks L Q (throw e).
Proof.
  intros w r w' [-> ->]%throw_inv. split; [done|]. split; [done|].
  exists []. rewrite app_nil_r. split_and!; try done. by exists L.
Qed.

Lemma talks_bind {A B} L1 L2 (Q1 : A -> Prop) (Q2 : B -> Prop) (c : Act A)
    (k : A -> Act B) :
  talks L1 Q1 c -> (forall a, Q1 a -> talks L2 Q2 (k a)) ->
  talks (L1 ++ L2) Q2 (bind c k).
Proof.
  intros Hc Hk w r w' [(e & Hr & ->)|(a & w1 & Hr & Hr2)]%bind_inv;
    apply Hc in Hr as (Hd & Ho & l & Hl & Hp & Hq).
  - split; [done|]. split; [done|]. exists l. split; [done|]. split; [|done].
    by apply prefix_app_r.
  - destruct (Hq a eq_refl) as [-> Ha].
    apply (Hk a Ha) in Hr2 as (Hd2 & Ho2 & l2 & Hl2 & Hp2 & Hq2).
    split; [by etrans|]. split; [by etrans|]. exists (L1 ++ l2).
    split; [by rewrite Hl2, Hl, app_assoc|]. split; [by apply prefix_app|].
    intros b Hb. by destruct (Hq2 b Hb) as [-> ?].
Qed.

Lemma talks_weaken {A} L (Q1 Q2 : A -> Prop) (c : Act A) :
  (forall a, Q1 a -> Q2 a) -> talks L Q1 c -> talks L Q2 c.
Proof.
  intros Hq Hc w r w' (Hd & Ho & l & Hl & Hp & Ha)%Hc. split; [done|]. split; [done|].
  exists l. split; [done|]. split; [done|]. intros a Hr. destruct (Ha a Hr). auto.
Qed.

Lemma talks_or_unknown {A} L (Q : A -> Prop) (c : Act A) :
  talks L Q c -> talks L Q (or_unknown c).
Proof.
  intros Hc w r w' Hr. unfold or_unknown in Hr.
  apply bind_inv in Hr as [(? & (? & ? & _)%attempt_inv & _)|(y & w1 & Ha & Hr)]; [done|].
  apply attempt_inv in Ha as (x & [= ->] & Hx).
  apply Hc in Hx as (Hd & Ho & l & Hl & Hp & Hq). destruct x as [e|a].
  - assert (w1 = w' /\ exists e', r = inl e') as [-> [e' ->]].
    { destruct e; apply throw_inv in Hr as [-> ->]; eauto. }
    split; [done|]. split; [done|]. exists l. by split_and!.
  - apply ret_inv in Hr as [-> ->]. split; [done|]. split; [done|]. exists l.
    split; [done|]. split; [done|]. intros ? [= <-]. by apply Hq.
Qed.

(** ** The dialog of one mail *)
Definition connect_calls (enc : EncryptionDAO) (address host : string)
    : list smtp_call :=
  match enc with
  | SSLTLSEncryption => [TlsDial address host; NewClient host]
  | StartTLSEncryption => [SmtpDial address; StartTLS host]
  end.

Definition server_of (conf : EventSMTPNotifier.t) : string :=
  String.append (EventSMTPNotifier.ServerAddress conf)
    (String ":"%char (Strconv.FormatUint (EventSMTPNotifier.ServerPort conf))).

(** The calls that send one mail with these settings; none when the settings
    name no known encryption, authentication or server. *)
Definition dialog (conf : EventSMTPNotifier.t) (to : string) (ev : Event.t)
    (tz : string) : list smtp_call :=
  match encryption_of (EventSMTPNotifier.Encryption conf),
        auth_of (EventSMTPNotifier.AuthMechanism conf),
        Net.SplitHostPort (server_of conf) with
  | Some enc, Some a, Some (host, _) =>
      let from := EventSMTPNotifier.Sender conf in
      connect_calls enc (server_of conf) host ++
      [ClientAuth (auth_value a from (EventSMTPNotifier.AuthPassword conf) host);
       ClientMail from; ClientRcpt to; ClientData;
       WriteData (message from to (generateSubject ev tz) (generateBody ev tz));
       CloseData; ClientQuit]
  | _, _, _ => []
  end.

Lemma talks_EncryptionConnect enc address host port :
  Net.SplitHostPort address = Some (host, port) ->
  talks (connect_calls enc address host) (fun _ => True) (EncryptionConnect enc address).
Proof.
  intros Hs. destruct enc; unfold EncryptionConnect, SSLTLSConnect, StartTLSConnect, split_host;
    rewrite Hs; (apply (talks_bind [] [_; _] (fun h => h = host)); [by apply talks_ret|]);
    intros ? ->; apply (talks_bind [_] [_] (fun _ => True)); intros; apply talks_smtp.
Qed.

Lemma talks_EmailConnect m address from pw host port :
  Net.SplitHostPort address = Some (host, port) ->
  talks (connect_calls (encryption m) address host)
    (fun m' => m' = mkEmail (auth m) (encryption m) from pw host)
    (EmailConnect m address from pw).
Proof.
  intros Hs. unfold EmailConnect, split_host. rewrite Hs.
  apply (talks_bind [] (connect_calls (encryption m) address host) (fun h => h = host));
    [by apply talks_ret|]. intros ? ->.
  rewrite <- (app_nil_r (connect_calls _ _ _)).
  eapply talks_bind; [by eapply talks_EncryptionConnect|]. intros. by apply talks_ret.
Qed.

Lemma talks_EmailAuth m :
  talks [ClientAuth (auth_value (auth m) (username m) (password m) (host m));
         ClientMail (username m)] (fun _ => True) (EmailAuth m).
Proof. apply (talks_bind [_] [_] (fun _ => True)); intros; apply talks_smtp. Qed.

Lemma talks_EmailSend m to subject body :
  talks [ClientRcpt to; ClientData; WriteData (message (username m) to subject body);
         CloseData] (fun _ => True) (EmailSend m to subject body).
Proof.
  apply (talks_bind [_] [_; _; _] (fun _ => True)); [apply talks_smtp|]. intros _ _.
  apply (talks_bind [_] [_; _] (fun _ => True)); [apply talks_smtp|]. intros _ _.
  apply (talks_bind [_] [_] (fun _ => True)); intros; apply talks_smtp.
Qed.

Lemma talks_send_mail conf to ev tz :
  talks (dialog conf to ev tz) (fun _ => dialog conf to ev tz <> [])
    (send_mail conf to ev tz).
Proof.
  unfold send_mail, dialog, NewEmail. fold (server_of conf).
  destruct (encryption_of _) as [enc|]; [|apply (talks_bind [] [] (fun _ => False));
    [apply talks_throw|done]].
  destruct (auth_of _) as [a|]; [|apply (talks_bind [] [] (fun _ => False));
    [apply talks_throw|done]].
  apply (talks_bind [] _ (fun m => m = mkEmail a enc "" "" "")); [by apply talks_ret|].
  intros m ->. destruct (Net.SplitHostPort (server_of conf)) as [[host port]|] eqn:Hs.
  2:{ apply (talks_bind [] [] (fun _ => False)); [|done]. apply talks_or_unknown.
      unfold EmailConnect, split_host. rewrite Hs. apply (talks_bind [] [] (fun _ => False));
        [apply talks_throw|done]. }
  eapply talks_bind; [by eapply talks_or_unknown, talks_EmailConnect|]. intros m ->.
  apply (talks_bind [_; _] [_; _; _; _; _] (fun _ => True));
    [apply talks_or_unknown, talks_EmailAuth|]. intros _ _.
  apply (talks_bind [_; _; _; _] [_] (fun _ => True));
    [apply talks_or_unknown, talks_EmailSend|]. intros _ _.
  eapply talks_weaken; [|apply talks_or_unknown, talks_smtp].
  intros _ _. by destruct enc.
Qed.

(** ** No nil pointer *)
Definition calm {A} (c : Act A) : Prop := forall w w', c w <> (inl EPanic, w').

Lemma calm_ret {A} (a : A) : calm (ret a).
Proof. by intros w w' [? _]%ret_inv. Qed.
Lemma calm_throw {A} e : e <> EPanic -> calm (A:=A) (throw e).
Proof. intros He w w' [[= <-] _]%throw_inv. done. Qed.
Lemma calm_bind {A B} (c : Act A) (k : A -> Act B) :
  calm c -> (forall a, calm (k a)) -> calm (bind c k).
Proof.
  intros Hc Hk w w' [(e & Hr & [= <-])|(a & w1 & _ & Hr)]%bind_inv.
  - by apply Hc in Hr.
  - by apply Hk in Hr.
Qed.
Lemma calm_attempt {A} (c : Act A) : calm (attempt c).
Proof. by intros w w' (x & ? & _)%attempt_inv. Qed.
Lemma calm_smtp c : calm (smtp c).
Proof. intros w w'. unfold smtp. destruct (mail_answer _ _); congruence. Qed.
Lemma calm_or_unknown {A} (c : Act A) : calm c -> calm (or_unknown c).
Proof.
  intros Hc w w' Hr. unfold or_unknown in Hr.
  apply bind_inv in Hr as [(? & (? & ? & _)%attempt_inv & _)|(y & w1 & Ha & Hr)]; [done|].
  apply attempt_inv in Ha as (x & [= ->] & Hx). destruct x as [e|a].
  - assert (e <> EPanic) by (intros ->; by apply Hc in Hx).
    destruct e; by apply throw_inv in Hr as [? _].
  - by apply ret_inv in Hr as [? _].
Qed.
Lemma calm_on_db {A} (f : DB -> (sqlerr + A) * DB) : calm (on_db f).
Proof. intros w w' (x & db & _ & _ & Hr)%on_db_inv. by destruct x. Qed.
Lemma calm_guard b e : e <> EPanic -> calm (guard_err b e).
Proof. intros He. unfold guard_err. destruct b; [by apply calm_throw|apply calm_ret]. Qed.

Lemma calm_Find_one t p : calm (Find_one t p).
Proof.
  apply calm_bind; [apply calm_on_db|]. intros rs.
  destruct (last rs); [apply calm_ret|by apply calm_throw].
Qed.

Lemma calm_split_host a : calm (split_host a).
Proof.
  unfold split_host. destruct (Net.SplitHostPort a) as [[h p]|];
    [apply calm_ret|by apply calm_throw].
Qed.

Lemma calm_send_mail conf to ev tz : calm (send_mail conf to ev tz).
Proof.
  unfold send_mail. apply calm_bind.
  { unfold NewEmail. destruct (encryption_of _); [|by apply calm_throw].
    destruct (auth_of _); [apply calm_ret|by apply calm_throw]. }
  intros m. apply calm_bind.
  { apply calm_or_unknown, calm_bind; [apply calm_split_host|]. intros h.
    apply calm_bind; [|intros _; apply calm_ret].
    destruct (encryption m); (apply calm_bind; [apply calm_split_host|]; intros h';
      apply calm_bind; intros; apply calm_smtp). }
  intros m'. apply calm_bind.
  { apply calm_or_unknown, calm_bind; intros; apply calm_smtp. }
  intros _. apply calm_bind; [|intros _; apply calm_or_unknown, calm_smtp].
  apply calm_or_unknown. do 3 (apply calm_bind; [apply calm_smtp|intros _]).
  apply calm_smtp.
Qed.

Lemma calm_Transaction {A} (fc : Act A) :
  Preserves (fun w w' => same_base (w_db w) (w_db w')) fc -> calm fc ->
  calm (Transaction fc).
Proof.
  intros Hb Hc w w' [?|[[c ?]|(_ & w0 & w1 & db & _ & Hr & _)]]%Transaction_inv;
    [done..| |done]. by apply Hc in Hr.
Qed.
End talks.

(** ** From the queue to the mail server

    What happens to a delivery that ClassifyEvent queued: the broker's handler,
    the notifier and the mail server together. *)
Section mails.
Context `{BackendLaws} `{Mailer}.

(** The stored user a delivery names. *)
Definition named (u : User.t) (w : World) (y : User.t) : Prop :=
  y ∈ R TUser w /\ cond_Z (User.ID u) (User.ID y) = true.

(** The mail settings of a tenant, as they are stored or by default. *)
Definition mail_settings (w : World) (tid : Z) (conf : EventSMTPNotifier.t) : Prop :=
  exists w1 w2, rows_eq w w1 /\ GetConfigEmailNotifier tid w1 = (inr conf, w2).

(** [L] are the calls of one mail about [ev] to the user [u] names. *)
Inductive mail_of (u : User.t) (ev : Event.t) (w : World) : list smtp_call -> Prop :=
| Mail_of y to conf tz :
    named u w y -> User.Email y = Some to -> LoadLocation tz = true ->
    mail_settings w (Event.TenantID ev) conf ->
    mail_of u ev w (dialog conf to ev tz).

Lemma mail_of_rows u ev w w1 L : rows_eq w w1 -> mail_of u ev w1 L -> mail_of u ev w L.
Proof.
  intros Hw [y to conf tz [Hy Hc] He Hz (w2 & w3 & Hw2 & Hs)].
  apply (Mail_of u ev w y); try done.
  - split; [|done]. by rewrite <- Hw.
  - exists w2, w3. split; [by etrans|done].
Qed.

Lemma named_rows u w w1 y : rows_eq w w1 -> named u w1 y -> named u w y.
Proof. intros Hw [Hy Hc]. split; [by rewrite <- Hw|done]. Qed.

#[local] Instance kept_default {r : relation World} `{!Readonly r} k v :
  Preserves r (getOrDefaultTimeZone k v).
Proof. unfold getOrDefaultTimeZone, GlobalConfig. keep. Qed.
#[local] Instance kept_language {r : relation World} `{!Readonly r} k v :
  Preserves r (getOrDefaultLanguageSet k v).
Proof. unfold getOrDefaultLanguageSet, GlobalConfig. keep. Qed.
#[local] Instance kept_settings {r : relation World} `{!Readonly r} tid :
  Preserves r (GetConfigEmailNotifier tid).
Proof. unfold GetConfigEmailNotifier, getConfigEventSMTPNotifier. keep. Qed.

(** One run of the body: the calls are the first ones of some mail, and all of
    them when it succeeds; or there are none. *)
Definition mailed (u : User.t) (ev : Event.t) (w w' : World) (r : err + unit) : Prop :=
  exists l, w_mail w' = w_mail w ++ l /\
    ((l = [] /\ (r = inr tt -> exists y, named u w y /\ User.Email y = None)) \/
     exists L, mail_of u ev w L /\ l `prefix_of` L /\ (r = inr tt -> l = L /\ L <> [])).

(** Nothing is stored, published or said to the mail server. *)
Definition still (w w' : World) : Prop :=
  db_frame [] w w' /\ out_frame w w' /\ mail_frame w w'.

#[local] Instance still_preorder : PreOrder still.
Proof.
  split; [done|]. intros w1 w2 w3 (? & ? & ?) (? & ? & ?). split_and!; by etrans.
Qed.

Lemma still_all {A} (c : Act A) :
  Preserves (db_frame []) c -> Preserves out_frame c -> Preserves mail_frame c ->
  Preserves still c.
Proof.
  intros Hd Ho Hm w r w' Hr. split_and!; [by eapply Hd|by eapply Ho|by eapply Hm].
Qed.

#[local] Instance still_readonly : Readonly still.
Proof. split; [apply _|..]; intros; apply still_all; apply _. Qed.

Lemma still_rows w w' : still w w' -> rows_eq w w'.
Proof. intros (Hd & _ & _) t. by apply db_frame_rows. Qed.

Lemma still_mailed u ev w w1 w2 r :
  still w w1 -> mailed u ev w1 w2 r -> mailed u ev w w2 r.
Proof.
  intros Hs (l & Hl & Hc). pose proof (still_rows _ _ Hs) as Hw.
  destruct Hs as (_ & _ & Hm). exists l. split; [by rewrite Hl, Hm|].
  destruct Hc as [[-> Hn]|(L & HL & Hp & Hr)].
  - left. split; [done|]. intros Hr. destruct (Hn Hr) as (y & Hy & He).
    exists y. split; [by eapply named_rows|done].
  - right. exists L. split; [by eapply mail_of_rows|done].
Qed.

Lemma silent u ev w w' e : still w w' -> mailed u ev w w' (inl e).
Proof.
  intros (_ & _ & Hm). exists []. rewrite app_nil_r. split; [exact Hm|]. by left.
Qed.

Lemma notify_body_run ev u w r w' :
  notify_body (mkDlv (Some ev) (Some u)) w = (r, w') ->
  db_frame [] w w' /\ out_frame w w' /\ mailed u ev w w' r.
Proof.
  assert (forall w1 e, still w w1 ->
    db_frame [] w w1 /\ out_frame w w1 /\ mailed u ev w w1 (inl e)) as Hfail.
  { intros w1 e Hs. split; [apply Hs|]. split; [apply Hs|]. by apply silent. }
  unfold notify_body. intros [(? & ? & _)|(u' & w0 & Hu & Hr)]%bind_inv; [done|].
  apply ret_inv in Hu as [[= ->] ->]. cbn [dlv_User] in *.
  apply bind_inv in Hr as [(? & (? & ? & _)%attempt_inv & _)|(y & w1 & Ha & Hr)]; [done|].
  apply attempt_inv in Ha as (x & [= ->] & Hx).
  pose proof (preserves (R := still) _ _ _ Hx) as Hs1. destruct x as [e|user].
  { destruct e; apply throw_inv in Hr as [-> ->]; by apply Hfail. }
  assert (named u w user) as Hnamed by (by apply Find_one_ok in Hx as [? ?]).
  destruct (User.Email user) as [to|] eqn:Hemail.
  2:{ apply ret_inv in Hr as [-> ->]. split; [apply Hs1|]. split; [apply Hs1|].
      destruct Hs1 as (_ & _ & Hm). exists []. rewrite app_nil_r. split; [done|]. left. eauto. }
  apply bind_inv in Hr as [(e & Hl & ->)|(lang & w2 & Hl & Hr)];
    pose proof (preserves (R := still) _ _ _ Hl) as Hs2.
  { apply Hfail. by etrans. }
  apply bind_inv in Hr as [(e & Ht & ->)|(tz & w3 & Ht & Hr)];
    pose proof (preserves (R := still) _ _ _ Ht) as Hs3;
    pose proof (transitivity Hs1 (transitivity Hs2 Hs3)) as Hs.
  { by apply Hfail. }
  unfold guard_err in Hr. destruct (LoadLocation tz) eqn:Hz; cbn [negb] in Hr.
  2:{ apply bind_inv in Hr as [(e & He & ->)|(? & ? & He & _)];
        apply throw_inv in He as [? ->]; [by apply Hfail|done]. }
  apply bind_inv in Hr as [(? & ? & _)|([] & w4 & Hg & Hr)]; [done|].
  apply ret_inv in Hg as [_ ->].
  apply bind_inv in Hr as [(? & ? & _)|(ev' & w4 & Hd & Hr)]; [done|].
  apply ret_inv in Hd as [[= ->] ->]. cbn [dlv_Event] in *.
  apply bind_inv in Hr as [(e & Hc & ->)|(conf & w4 & Hc & Hr)];
    pose proof (preserves (R := still) _ _ _ Hc) as Hs4;
    pose proof (transitivity Hs Hs4) as Hs'; [by apply Hfail|].
  apply talks_send_mail in Hr as (Hdb & Hout & l & Hml & Hp & Hdone).
  split; [etrans; [apply Hs'|exact Hdb]|]. split; [etrans; [apply Hs'|exact Hout]|].
  exists l. split; [by rewrite Hml, (proj2 (proj2 Hs'))|]. right.
  exists (dialog conf to ev tz). split.
  - apply (Mail_of u ev w user); try done. exists w3, w4. split; [by apply still_rows|done].
  - split; [done|]. intros ->. by apply (Hdone tt).
Qed.

(** ** The transaction *)

(** A list of calls that are calls of mails about [ev] to the user [u] names. *)
Definition all_mails (u : User.t) (ev : Event.t) (w : World) (l : list smtp_call) : Prop :=
  forall c, c ∈ l -> exists L, mail_of u ev w L /\ c ∈ L.

(** What the body does, as an order on worlds: mails, and nothing published. *)
Definition mails_only (u : User.t) (ev : Event.t) (w : World) (w1 w2 : World) : Prop :=
  out_frame w1 w2 /\ exists l, w_mail w2 = w_mail w1 ++ l /\ all_mails u ev w l.

#[local] Instance mails_only_preorder u ev w : PreOrder (mails_only u ev w).
Proof.
  split.
  - intros w1. split; [done|]. exists []. rewrite app_nil_r. split; [done|].
    by intros c ?%elem_of_nil.
  - intros w1 w2 w3 [Ho1 (l1 & Hl1 & Ha1)] [Ho2 (l2 & Hl2 & Ha2)].
    split; [by etrans|]. exists (l1 ++ l2). split; [by rewrite Hl2, Hl1, app_assoc|].
    intros c [?|?]%elem_of_app; auto.
Qed.

Lemma mailed_all u ev w w0 w1 x :
  rows_eq w w0 -> mailed u ev w0 w1 x ->
  exists l, w_mail w1 = w_mail w0 ++ l /\ all_mails u ev w l.
Proof.
  intros Hw (l & Hl & Hc). exists l. split; [done|]. intros c Hin.
  destruct Hc as [[-> _]|(L & HL & [k ->] & _)]; [by apply elem_of_nil in Hin|].
  exists (l ++ k). split; [by eapply mail_of_rows|]. apply elem_of_app. by left.
Qed.

Lemma notify_body_base ev u :
  Preserves base_frame (notify_body (mkDlv (Some ev) (Some u))).
Proof. intros w r w' ([_ Hb] & _)%notify_body_run. exact Hb. Qed.

Lemma notify_rows ev u w r w' :
  notify (mkDlv (Some ev) (Some u)) w = (r, w') -> rows_eq w w'.
Proof.
  apply query_transaction_rows. intros w1 x w2 (Hd & _)%notify_body_run. exact Hd.
Qed.

(** [notify]: nothing is stored or published; what is said to the mail server
    belongs to mails about the event to the user; when it succeeds the last
    thing said was one whole such mail, unless the user has no address. *)
Lemma notify_run ev u w r w' :
  notify (mkDlv (Some ev) (Some u)) w = (r, w') ->
  rows_eq w w' /\ mails_only u ev w w w' /\
  (r = inr tt ->
   (exists y, named u w y /\ User.Email y = None) \/
   exists l0 L, mail_of u ev w L /\ L <> [] /\ w_mail w' = w_mail w ++ l0 ++ L).
Proof.
  intros Hr. split; [by eapply notify_rows|].
  apply (Transaction_traced (mails_only u ev w)) in Hr.
  - destruct Hr as [Hq Hr]. split; [done|]. intros Ha.
    destruct (Hr tt Ha) as (w1 & w2 & db & Hw & [_ (l0 & Hl0 & _)] & Hrun & ->).
    apply notify_body_run in Hrun as (_ & _ & l & Hl & Hc).
    destruct Hc as [[_ Hn]|(L & HL & _ & Hd)].
    + left. destruct (Hn eq_refl) as (y & Hy & He). exists y. split; [|done].
      by eapply named_rows.
    + right. destruct (Hd eq_refl) as [-> Hne]. exists l0, L.
      split; [by eapply mail_of_rows|]. split; [done|].
      change (w_mail (set_db db w2)) with (w_mail w2).
      by rewrite Hl, Hl0, <- app_assoc.
  - intros db w0. split; [done|]. exists []. rewrite app_nil_r. split; [done|].
    by intros c ?%elem_of_nil.
  - intros w0 x w1 Hw (_ & Ho & Hm)%notify_body_run. split; [done|].
    by eapply mailed_all.
  - apply notify_body_base.
Qed.

Lemma calm_notify ev u : calm (notify (mkDlv (Some ev) (Some u))).
Proof.
  apply calm_Transaction; [apply notify_body_base|].
  unfold notify_body. apply calm_bind; [apply calm_ret|]. intros u'.
  apply calm_bind; [apply calm_attempt|]. intros [e|user].
  { destruct e; by apply calm_throw. }
  destruct (User.Email user); [|apply calm_ret].
  apply calm_bind.
  { unfold getOrDefaultLanguageSet. destruct (User.LanguageSet user); [apply calm_ret|].
    apply calm_bind; [|intros; apply calm_ret].
    apply calm_bind; [apply calm_attempt|]. intros; apply calm_ret. }
  intros lang. apply calm_bind.
  { unfold getOrDefaultTimeZone. destruct (User.Timezone user); [apply calm_ret|].
    apply calm_bind; [|intros; apply calm_ret].
    apply calm_bind; [apply calm_attempt|]. intros; apply calm_ret. }
  intros tz. apply calm_bind; [by apply calm_guard|]. intros _.
  apply calm_bind; [apply calm_ret|]. intros ev'. apply calm_bind.
  { apply calm_bind.
    - apply calm_bind; [apply calm_attempt|].
      intros [e|c]; [destruct e; try apply calm_ret; by apply calm_throw|apply calm_ret].
    - intros txt. unfold or_unknown_err. destruct (Unmarshal _ _ _); [by apply calm_throw|].
      apply calm_ret. }
  intros conf. apply calm_send_mail.
Qed.

(** ** The handler *)
Lemma reported tid code ec e w r w' :
  NtEvent.reportEvent tid code ec e w = (r, w') ->
  r = inr tt /\ rows_eq w w' /\ mail_frame w w' /\
  exists rep, w_out w' = w_out w ++ rep /\ (List.length rep <= 1)%nat /\
    Forall (fun m => m.1 = QueueReportEvent) rep.
Proof.
  unfold NtEvent.reportEvent, ReportEvent. intros Hr.
  apply bind_inv in Hr as [(? & (? & ? & _)%attempt_inv & _)|(x & w1 & Ha & Hr)]; [done|].
  apply ret_inv in Hr as [-> ->]. apply attempt_inv in Ha as (y & _ & Hp).
  assert (mail_frame w w1) as Hm.
  { revert Hp. unfold Report.Publish. by destruct (broker_accepts (w_tick w)); intros [= _ <-]. }
  apply Publish_inv in Hp as (Hd & _ & Ho). split; [done|]. split.
  { intros t. unfold R. by rewrite Hd. }
  split; [done|]. eexists. split; [exact Ho|].
  destruct y; split; cbn; try lia; repeat constructor.
Qed.

(** What [notifyEvent] does with a delivery that can be read. *)
Definition notified (u : User.t) (ev : Event.t) (w w' : World) (r : err + unit) : Prop :=
  rows_eq w w' /\
  exists l rep, w_mail w' = w_mail w ++ l /\ all_mails u ev w l /\
    w_out w' = w_out w ++ rep /\
    match r with
    | inr _ => rep = [] /\
        ((exists y, named u w y /\ User.Email y = None) \/
         exists l0 L, mail_of u ev w L /\ L <> [] /\ l = l0 ++ L)
    | inl e => e <> EPanic /\ (List.length rep <= 1)%nat /\
        Forall (fun m => m.1 = QueueReportEvent) rep
    end.

Lemma notifyEvent_failed ev u w w1 code e r w' :
  rows_eq w w1 -> mails_only u ev w w w1 -> e <> EPanic ->
  (ev' <- deref (Some ev) ;;
   NtEvent.reportEvent (Event.TenantID ev')
     "cdm-cloud.notification.notify_event.failure-notify" code e ;;
   throw e) w1 = (r, w') ->
  notified u ev w w' r.
Proof.
  intros Hq [Ho (l & Hl & Ha)] He Hr.
  apply bind_inv in Hr as [(? & [? _]%ret_inv & _)|(a & w2 & [_ ->]%ret_inv & Hr)]; [done|].
  apply bind_inv in Hr as [(? & (? & _)%reported & _)|([] & w3 & Hrep & Hr)]; [done|].
  apply throw_inv in Hr as [-> ->].
  apply reported in Hrep as (_ & Hq2 & Hm & rep & Hout & Hlen & Hall).
  split; [by etrans|]. exists l, rep. rewrite Hm. split; [done|]. split; [done|].
  split; [by rewrite Hout, Ho|]. done.
Qed.

Lemma notifyEvent_run tid ev u body w r w' :
  event_sound ev -> user_sound u -> body = Json.Marshal (delivery_json ev u) ->
  notifyEvent tid QueueNotifyEmail body w = (r, w') ->
  notified u ev w w' r.
Proof.
  intros He Hu -> Hr. unfold notifyEvent in Hr.
  rewrite (delivery_read_back ev u He Hu) in Hr. rewrite String.eqb_refl in Hr.
  apply bind_inv in Hr as [(? & (? & ? & _)%attempt_inv & _)|(y & w1 & Ha & Hr)]; [done|].
  apply attempt_inv in Ha as (x & [= ->] & Hx).
  assert (x <> inl EPanic) as Hcalm by (intros ->; by apply calm_notify in Hx).
  apply notify_run in Hx as (Hq & Hm & Hdone). destruct x as [e|[]].
  - assert (e <> EPanic) as Hne by congruence. clear Hcalm Hdone.
    assert (forall code e', e' <> EPanic ->
      (ev' <- deref (Some ev) ;;
       NtEvent.reportEvent (Event.TenantID ev')
         "cdm-cloud.notification.notify_event.failure-notify" code e' ;;
       throw e') w1 = (r, w') -> notified u ev w w' r) as Hfail.
    { intros code e'. by apply notifyEvent_failed. }
    destruct e; try (by destruct Hne); cbv zeta in Hr; cbn [dlv_Event] in Hr;
      repeat match type of Hr with
      | (if ?b then _ else _) _ = _ => destruct b
      end; by eapply Hfail in Hr.
  - apply ret_inv in Hr as [-> ->]. destruct Hm as [Ho (l & Hl & Ha)].
    split; [done|]. exists l, []. rewrite app_nil_r. split; [done|]. split; [done|].
    split; [done|]. split; [done|]. destruct (Hdone eq_refl) as [?|(l0 & L & HL & Hne & Hw)];
      [by left|]. right. exists l0, L. split; [done|]. split; [done|].
    rewrite Hl in Hw. by apply app_inv_head in Hw.
Qed.

(** C28. A queued notification is mailed to the user it names, or it is put back.
    For a delivery that ClassifyEvent queued for a user about an event, the
    notifier's handler under the subscription that [Subscribe] makes never
    panics, stores nothing, and whatever it says to the mail server belongs to
    mails about that event to the address stored for that user (or, when the
    identifier is zero, for some stored user), under the tenant's mail settings.
    It acknowledges the delivery only when the user has no address or the last
    thing said was one whole mail, from the connection to QUIT, and then
    publishes nothing; otherwise it rejects the delivery so that the broker
    queues it again, and publishes at most one event, on the report queue. *)
Theorem mail_delivered tid sub msg ev u w x w' :
  notifier_subscription true = inr sub ->
  event_sound ev -> user_sound u ->
  d_RoutingKey msg = QueueNotifyEmail ->
  d_Body msg = Json.Marshal (delivery_json ev u) ->
  handle sub (notifier_handler tid) msg w = (x, w') ->
  rows_eq w w' /\
  exists l rep, w_mail w' = w_mail w ++ l /\ all_mails u ev w l /\
    w_out w' = w_out w ++ rep /\
    ((x = inr [Ack false] /\ rep = [] /\
      ((exists y, named u w y /\ User.Email y = None) \/
       exists l0 L, mail_of u ev w L /\ L <> [] /\ l = l0 ++ L)) \/
     (x = inr [Nack false true] /\ (List.length rep <= 1)%nat /\
      Forall (fun m => m.1 = QueueReportEvent) rep)).
Proof.
  intros [= <-] He Hu Hk Hb Hr. unfold handle, notifier_handler, publication in Hr.
  cbn [pub_topic pub_message m_Body] in Hr. rewrite Hk in Hr.
  apply bind_inv in Hr as [(? & (? & ? & _)%attempt_inv & _)|(y & w1 & Ha & Hr)]; [done|].
  apply attempt_inv in Ha as (z & [= ->] & Hz).
  apply (notifyEvent_run _ _ _ _ _ _ _ He Hu Hb) in Hz as (Hq & l & rep & Hl & Ha & Ho & Hc).
  destruct z as [e|[]].
  - destruct Hc as (Hne & Hlen & Hall).
    assert (x = inr [Nack false true] /\ w' = w1) as [-> ->]
      by (destruct e; try done; by apply ret_inv in Hr as [-> ->]).
    split; [done|]. exists l, rep. split; [done|]. split; [done|]. split; [done|].
    by right.
  - apply ret_inv in Hr as [-> ->]. split; [done|]. exists l, rep.
    split; [done|]. split; [done|]. split; [done|]. left. by split.
Qed.
End mails.

(** ** Examples *)
#[local] Existing Instance mem_backend.
#[local] Existing Instance mem_backend_laws.

(** A server that takes everything, in a time zone that is not shown. *)
#[local] Instance obliging : Mailer := {
  mail_answer _ _ := None;
  format_time _ n := Strconv.FormatInt n
}.

Definition m_settings : EventSMTPNotifier.t :=
  EventSMTPNotifier.mk "mail.example.com" 587 "StartTLS" "CRAM-MD5" "" "pw"
    "cdm@example.com".
Definition m_tables : tables := fun t =>
  match t with
  | TTenantConfig =>
      [TenantConfig.mk 1 EventEmailNotifier
         (Json.Marshal (EventSMTPNotifier_enc m_settings))]
  | TUser => [s_user 3 "alice" "alicepw" None None; s_user 4 "bob" "bobpw" None None]
  | _ => []
  end.
Definition m_world : @World mem_backend := start m_tables [].
Definition m_event : Event.t := Event.mk 9 1 "b" None "" 1699990000.
Definition m_user : User.t := s_user 4 "bob" "oldpw" None None.
Definition m_subscription : subscription :=
  value_of_run (mkSubscription "" (SubscribeOptions.mk true "" None None None None)
                  false false) (notifier_subscription true).
Definition m_delivery : Delivery :=
  mkDelivery ∅ (Json.Marshal (delivery_json m_event m_user)) 0 QueueNotifyEmail.
Definition m_run := handle m_subscription (notifier_handler 1) m_delivery m_world.

Lemma mail_delivered_witness :
  m_run.1 = inr [Ack false] /\ rows_eq m_world m_run.2 /\
  w_mail m_run.2 = dialog m_settings "bob@example.com" m_event "UTC" /\
  List.length (w_mail m_run.2) = 9%nat.
Proof.
  split; [vm_compute; reflexivity|]. split.
  - apply (mail_delivered 1 m_subscription m_delivery m_event m_user m_world
      m_run.1 m_run.2).
    + reflexivity.
    + split; [done|repeat (apply Forall_cons; split); done|done].
    + split; [done|repeat (apply Forall_cons; split); done|].
      repeat (apply Forall_cons; split); try done; by intros ? [= <-].
    + reflexivity.
    + reflexivity.
    + unfold m_run. apply surjective_pairing.
  - split; vm_compute; reflexivity.
Defined.
