(* ===== verification/LogFiles.v ===== *)
(** * common/logger (default.go, logger.go, options.go): writing log lines; and
    common/config/util.go: deleting the log files whose time is over

    Of a logger the lines it wrote are kept; the text of the time and the caller
    [runtime.Caller] finds are parameters.  The directory /var/log is a parameter;
    what is kept of an attempt to remove a file is its path. *)

From stdpp Require Import base tactics list strings gmap.
From Stdlib Require Import ZArith Lia Ascii.
From S2P Require Import Prelude GoStd GoLib Model Backend Errors.
From S2P Require Import Gorm Database Config.
#[local] Open Scope Z_scope.
#[local] Open Scope go_scope.

(** ** common/constant/service.go and the names of common/config/config.go *)
Definition ServiceLicense : string := "cdm-cloud-license".
Definition ServiceIdentity : string := "cdm-cloud-identity".
Definition ServiceScheduler : string := "cdm-cloud-scheduler".
Definition ServiceNotification : string := "cdm-cloud-notification".
Definition ServiceAPIGateway : string := "cdm-cloud-api-gateway".
Definition ServiceClusterManager : string := "cdm-cluster-manager".
Definition ServiceDRManager : string := "cdm-dr-manager".
Definition ServiceMigrator : string := "cdm-dr-migratord".
Definition ServiceMirror : string := "cdm-dr-mirrord".
Definition ServiceSnapshot : string := "cdm-target-snapshot".
Definition ServiceOpenStack : string := "cdm-openstack-request".
Definition ServiceLogStorePeriod : string := "service_log_store_period".

(** The directory, as [ioutil.ReadDir] lists it. *)
Class LogDir := { ReadDir : string + list string }.

(** [v, _ := strconv.Atoi(s)] *)
Definition Atoi (s : string) : Z :=
  match Strconv.ParseInt s with
  | inr n => n
  | inl Strconv.ErrSyntax => 0
  | inl Strconv.ErrRange =>
      if Strings.HasPrefix s "-" then - Int.two63 else Int.two63 - 1
  end.

Definition serviceNameList : list string :=
  [ServiceAPIGateway; ServiceIdentity; ServiceLicense; ServiceNotification;
   ServiceScheduler; ServiceClusterManager; ServiceDRManager; ServiceMigrator;
   ServiceMirror; ServiceSnapshot; ServiceOpenStack].

(** The name a service has in the names of its log files. *)
Definition log_prefix (s : string) : string :=
  if (s =? ServiceAPIGateway)%string then "cdm-cloud-api" else s.

(** ** Dates and durations of package time *)

(** [time.Parse("2006-01-02", s)] as days from 1970-01-01. *)
Definition digit (b : Z) : bool := (48 <=? b) && (b <=? 57).
Definition parse_date (s : string) : option Z :=
  match Bytes.to_bytes s with
  | [a; b; c; d; s1; e; f; s2; g; h] =>
      let y := 1000 * (a - 48) + 100 * (b - 48) + 10 * (c - 48) + (d - 48) in
      let m := 10 * (e - 48) + (f - 48) in
      let n := 10 * (g - 48) + (h - 48) in
      if forallb digit [a; b; c; d; e; f; g; h] && (s1 =? 45) && (s2 =? 45)
         && (1 <=? m) && (m <=? 12) && (1 <=? n) && (n <=? days_in m y)
      then Some (days y m n) else None
  | _ => None
  end.

(** Nanoseconds from 1970-01-01; a text that is no date is the zero time. *)
Definition day : Z := 86400 * Int.Second.
Definition date_nanos (s : string) : Z :=
  match parse_date s with Some n => n * day | None => days 1 1 1 * day end.

(** [t.Sub(u)]: a Duration that does not overflow. *)
Definition Sub (t u : Z) : Z :=
  Z.max (- Int.two63) (Z.min (Int.two63 - 1) (t - u)).

(** [int(d.Hours() / 24)] *)
Definition hour : Z := 3600 * Int.Second.
Definition whole_days (d : Z) : Z :=
  Float.trunc (Float.div
    (Float.add (Float.of_int (d / hour)) (Float.div (Float.of_int (d mod hour))
                                             (Float.of_int hour)))
    (Float.of_int 24)).
Definition age_days (d : Z) : Z := if d <? 0 then - whole_days (- d) else whole_days d.

(** ** The two expressions *)
Definition is_num : ascii -> bool := Regexp.between "0" "9".
Definition is_lower : ascii -> bool := Regexp.between "a" "z".
Definition cDate : list Regexp.item :=
  [Regexp.One (Regexp.char "2"); Regexp.Many (Regexp.char "0"); Regexp.Many is_num;
   Regexp.Many (Regexp.char "-"); Regexp.Many is_num; Regexp.Many (Regexp.char "-");
   Regexp.Many is_num].
Definition cService : list Regexp.item :=
  [Regexp.One (Regexp.char "c"); Regexp.One (Regexp.char "d"); Regexp.One (Regexp.char "m");
   Regexp.Many (Regexp.char "-"); Regexp.Many is_lower; Regexp.Many (Regexp.char "-");
   Regexp.Many is_lower].

(** The body of the loop over the files: whether the file is to be removed. *)
Definition expired (serviceMap : gmap string Z) (now : Z) (name : string) : bool :=
  match Regexp.FindString cService name with
  | None => false
  | Some serviceName =>
      match serviceMap !! serviceName with
      | None => false
      | Some period =>
          match Regexp.FindString cDate name with
          | None => false
          | Some fileDate => period <? age_days (Sub now (date_nanos fileDate))
          end
      end
  end.

Section log_files.
Context `{Backend} `{LogDir}.

(** The period of one service. *)
Definition log_period (s : string) : Act Z :=
  cfg <- ServiceConfig s ServiceLogStorePeriod ;;
  ret match cfg with
      | Some c => if is_empty (cfg_Value c) then 30 else Atoi (cfg_Value c)
      | None => 30
      end.

Fixpoint log_periods (l : list string) (serviceMap : gmap string Z)
    : Act (gmap string Z) :=
  match l with
  | [] => ret serviceMap
  | s :: l =>
      period <- log_period s ;;
      log_periods l (<[log_prefix s := period]> serviceMap)
  end.

Definition getServiceLogPeriodMap : Act (gmap string Z) :=
  Execute (log_periods serviceNameList ∅).

(** The paths that [os.Remove] is called on, in order. *)
Definition DeleteExpiredServiceLogFiles : Act (list string) :=
  match ReadDir with
  | inl e => throw (EPlain e)
  | inr files =>
      serviceMap <- getServiceLogPeriodMap ;;
      now <- now_nano ;;
      ret (map (String.append "/var/log/") (List.filter (expired serviceMap now) files))
  end.
End log_files.

(** ** common/logger: the writer of log lines *)
Module LogWriter.

(** Levels of go-micro: an [int8]. *)
Definition TraceLevel : Z := -2.
Definition DebugLevel : Z := -1.
Definition InfoLevel : Z := 0.
Definition WarnLevel : Z := 1.
Definition ErrorLevel : Z := 2.
Definition FatalLevel : Z := 3.
Definition level_string (l : Z) : string :=
  match l with
  | -2 => "trace"
  | -1 => "debug"
  | 0 => "info"
  | 1 => "warn"
  | 2 => "error"
  | 3 => "fatal"
  | _ => ""
  end.
Definition Enabled (l level : Z) : bool := l <=? level.

(** [logger.Options]; the context as the service name it holds. *)
Record Options := mkOptions {
  Level : Z;
  CallerSkipCount : Z;
  ServiceName : option string
}.
Definition WithServiceName (name : string) (o : Options) : Options :=
  mkOptions (Level o) (CallerSkipCount o) (Some name).
(** [logger.Level(level)] is a conversion to [int8]. *)
Definition WithLevel (level : Z) (o : Options) : Options :=
  mkOptions ((level + 128) mod 256 - 128) (CallerSkipCount o) (ServiceName o).

(** The options and the lines written. *)
Record defaultLogger := mkLogger { opts : Options; out : list string }.

(** [NewLogger] *)
Definition NewLogger (os : list (Options -> Options)) : defaultLogger :=
  mkLogger (fold_left (fun o f => f o) os (mkOptions InfoLevel 2 None)) [].

(** [fmt.Sprintf("%-ns", s)] *)
Definition pad (n : nat) (s : string) : string :=
  String.append s (String.string_of_list_ascii
    (repeat " "%char (n - Z.to_nat (Utf8.RuneCountInString s)))).

(** [path.Base] *)
Definition drop_slashes (s : list ascii) : list ascii :=
  (fix go s := match s with "/"%char :: s => go s | _ => s end) s.
Definition Base (path : string) : string :=
  if is_empty path then "."
  else
    let back := drop_slashes (rev (String.list_ascii_of_string path)) in
    let name := rev ((fix go s := match s with
                                  | [] => []
                                  | a :: s => if Ascii.eqb a "/" then [] else a :: go s
                                  end) back) in
    match name with
    | [] => "/"
    | _ => String.string_of_list_ascii name
    end.

Section writer.
(** The time as text, and where the frame that many calls up is. *)
Variable Now : string.
Variable Caller : Z -> option (string * string * Z).

(** Runs end with the text of a panic. *)
Abbreviation LgAct := (M defaultLogger string).

(** [Init] *)
Definition Init (os : list (Options -> Options)) : LgAct unit := modify (fun l =>
  mkLogger (fold_left (fun o f => f o) os (opts l)) (out l)).

Definition caller_text (skip : Z) : list string :=
  match Caller skip with
  | Some (f, file, line) =>
      [String.append "(" (String.append (Base f) (String.append " "
         (String.append (Base file) (String.append ":"
           (String.append (Strconv.FormatInt line) ")")))))]
  | None => []
  end%string.

(** [Log] of the text that [fmt.Sprint] makes, [Logf] of that of [fmt.Sprintf]. *)
Definition Log (level : Z) (text : string) : LgAct unit :=
  l <- get ;;
  if negb (Enabled (Level (opts l)) level) then ret tt
  else modify (fun l => mkLogger (opts l) (out l ++
    [String.concat " "
      ([Now;
        String.append "[" (String.append (pad 5 (Strings.ToUpper (level_string level))) "]");
        pad 40 text] ++ caller_text (CallerSkipCount (opts l)))])).

(** The functions of the package, on the default logger. *)
Definition Trace (text : string) : LgAct unit := Log TraceLevel text.
Definition Debug (text : string) : LgAct unit := Log DebugLevel text.
Definition Info (text : string) : LgAct unit := Log InfoLevel text.
Definition Warn (text : string) : LgAct unit := Log WarnLevel text.
Definition Error (text : string) : LgAct unit := Log ErrorLevel text.
Definition Fatal (text : string) : LgAct unit := Log FatalLevel text ;; throw text.
End writer.
End LogWriter.
