(* ===== verification/LogFileProps.v ===== *)
(** * Log lines, and which log files are deleted *)

From stdpp Require Import base tactics list strings gmap.
From Stdlib Require Import ZArith Lia Ascii.
From S2P Require Import Prelude GoStd GoLib Model Backend Errors.
From S2P Require Import Gorm Database GormFacts Config LogFiles RefBackend.
#[local] Open Scope Z_scope.
#[local] Open Scope go_scope.

(** ** Days of a duration *)
Lemma day_hours d : 0 <= d -> 24 * (d / day) <= d / hour.
Proof.
  intros Hd. apply Z.div_le_lower_bound; [done|].
  pose proof (Z.mul_div_le d day ltac:(done)). unfold day, hour, Int.Second in *. lia.
Qed.

(** The three roundings together err by less than four microseconds. *)
Lemma whole_days_bounds d :
  0 <= d <= Int.two63 ->
  d / day <= whole_days d /\ whole_days d * day <= d + 4000.
Proof.
  intros Hd. unfold whole_days, Float.trunc, Float.add, Float.div, Float.of_int.
  cbn [fst snd]. pose proof (day_hours d ltac:(lia)) as Hlow.
  pose proof (Z.div_mod d hour ltac:(done)) as Ed.
  pose proof (Z.mod_pos_bound d hour ltac:(done)) as Hns.
  assert (0 <= d / hour <= 2562048) as Hh.
  { split; [apply Z.div_pos; [lia|done]|]. apply Z.lt_succ_r, Z.div_lt_upper_bound; [done|].
    unfold hour, Int.Second, Int.two63 in *. lia. }
  revert Hlow Ed Hns Hh. generalize (d / day) as m, (d / hour) as h, (d mod hour) as ns.
  intros m h ns Hlow Ed Hns Hh.
  rewrite !Z.mul_1_l, !Z.mul_1_r.
  destruct (Float.round_spec ns hour) as (Hp1 & Hq1 & _ & Hu1).
  { split; [done|]. unfold hour, Int.Second in *. lia. }
  destruct (Float.round ns hour) as [q1 p1]. cbn [fst snd] in *.
  assert (q1 <= 2 * p1) as Hq1'.
  { unfold hour, Int.Second in *. nia. }
  destruct (Float.round_spec (h * p1 + q1) p1) as (Hp2 & Hq2 & Hl2 & Hu2).
  { split; [done|]. nia. }
  destruct (Float.round (h * p1 + q1) p1) as [q2 p2]. cbn [fst snd] in *.
  specialize (Hl2 (24 * m) ltac:(nia)).
  assert (q2 <= 4000000 * p2) as Hq2'.
  { assert (q2 * p1 * 2 ^ 53 <= 2562050 * p1 * p2 * (2 ^ 53 + 1)) as Hx by nia.
    assert (p1 * (q2 * 2 ^ 53) <= p1 * (2562050 * p2 * (2 ^ 53 + 1))) as Hy by lia.
    apply Z.mul_le_mono_pos_l in Hy; lia. }
  destruct (Float.round_spec q2 (p2 * 24)) as (Hp3 & Hq3 & Hl3 & Hu3).
  { split; lia. }
  destruct (Float.round q2 (p2 * 24)) as [q3 p3]. cbn [fst snd] in *.
  specialize (Hl3 m ltac:(lia)).
  split; [by apply Z.div_le_lower_bound; lia|].
  pose proof (Z.mul_div_le q3 p3 Hp3) as Hw. revert Hw.
  generalize (q3 / p3) as w. intros w Hw.
  (* one factor after the other is cancelled *)
  assert (w * (p2 * 24) * 2 ^ 53 <= q2 * (2 ^ 53 + 1)) as H3.
  { apply (Z.mul_le_mono_pos_l _ _ p3 Hp3). nia. }
  assert (w * 24 * p1 * 2 ^ 106 <= (h * p1 + q1) * (2 ^ 53 + 1) ^ 2) as H2.
  { apply (Z.mul_le_mono_pos_l _ _ p2 Hp2).
    assert (w * (p2 * 24) * 2 ^ 53 * (p1 * 2 ^ 53) <= q2 * (2 ^ 53 + 1) * (p1 * 2 ^ 53))
      by (apply Z.mul_le_mono_nonneg_r; lia).
    assert (q2 * p1 * 2 ^ 53 * (2 ^ 53 + 1) <= (h * p1 + q1) * p2 * (2 ^ 53 + 1) * (2 ^ 53 + 1))
      by (apply Z.mul_le_mono_nonneg_r; lia).
    lia. }
  assert (w * day * 2 ^ 159 <= d * (2 ^ 53 + 1) ^ 3) as H1.
  { apply (Z.mul_le_mono_pos_l _ _ p1 Hp1).
    assert (w * 24 * p1 * 2 ^ 106 * (hour * 2 ^ 53)
            <= (h * p1 + q1) * (2 ^ 53 + 1) ^ 2 * (hour * 2 ^ 53))
      by (apply Z.mul_le_mono_nonneg_r; done || lia).
    assert (q1 * hour * 2 ^ 53 * (2 ^ 53 + 1) ^ 2 <= ns * p1 * (2 ^ 53 + 1) * (2 ^ 53 + 1) ^ 2)
      by (apply Z.mul_le_mono_nonneg_r; lia).
    assert (0 <= h * p1) by nia. rewrite Ed. unfold day, hour, Int.Second in *. lia. }
  unfold day, Int.Second, Int.two63 in *. lia.
Qed.

(** ** The names of the log files *)
Definition num (n : Z) : ascii := Bytes.of_byte (48 + n mod 10).

(** A date as the name of a file shows it. *)
Definition log_date (y m d : Z) : string :=
  String (num (y / 1000)) (String (num (y / 100)) (String (num (y / 10)) (String (num y)
    (String "-" (String (num (m / 10)) (String (num m)
      (String "-" (String (num (d / 10)) (String (num d) EmptyString))))))))).

(** The log file of that day on a host: [-%Y-%m-%d.log] after its name. *)
Definition log_name (host : string) (y m d : Z) : string :=
  String.append host (String "-" (String.append (log_date y m d) ".log")).

Lemma num_byte n : Bytes.byte_of (num n) = 48 + n mod 10.
Proof.
  apply Bytes.byte_of_of. unfold Bytes.is_byte.
  pose proof (Z.mod_pos_bound n 10). lia.
Qed.

Lemma is_num_num n : is_num (num n) = true.
Proof.
  unfold num. pose proof (Z.mod_pos_bound n 10 ltac:(lia)) as Hn. revert Hn.
  generalize (n mod 10). intros k Hk.
  assert (k = 0 \/ k = 1 \/ k = 2 \/ k = 3 \/ k = 4 \/ k = 5 \/ k = 6 \/ k = 7 \/ k = 8
          \/ k = 9) as Hc by lia.
  by repeat destruct Hc as [-> | Hc]; [vm_compute..|subst; vm_compute].
Qed.

Lemma parse_log_date y m d :
  0 <= y <= 9999 -> 1 <= m <= 12 -> 1 <= d <= days_in m y ->
  parse_date (log_date y m d) = Some (days y m d).
Proof.
  intros Hy Hm Hd. pose proof (days_in_range m y) as Hr.
  unfold parse_date, log_date. cbn [Bytes.to_bytes]. rewrite !num_byte.
  change (Bytes.byte_of "-") with 45.
  assert (forall n, digit (48 + n mod 10) = true) as Hdig.
  { intros n. unfold digit. pose proof (Z.mod_pos_bound n 10).
    by rewrite !(proj2 (Z.leb_le _ _)) by lia. }
  cbn [forallb]. rewrite !Hdig. cbn [andb].
  assert (1000 * (48 + (y / 1000) mod 10 - 48) + 100 * (48 + (y / 100) mod 10 - 48)
          + 10 * (48 + (y / 10) mod 10 - 48) + (48 + y mod 10 - 48) = y) as ->
    by (Z.to_euclidean_division_equations; lia).
  assert (10 * (48 + (m / 10) mod 10 - 48) + (48 + m mod 10 - 48) = m) as ->
    by (Z.to_euclidean_division_equations; lia).
  assert (10 * (48 + (d / 10) mod 10 - 48) + (48 + d mod 10 - 48) = d) as ->
    by (Z.to_euclidean_division_equations; lia).
  by rewrite !(proj2 (Z.leb_le _ _)), !Z.eqb_refl by lia.
Qed.

(** ** The date in a name *)
Lemma num_no_dash c : is_num c = true -> Regexp.char "-" c = false.
Proof.
  destruct c as [[] [] [] [] [] [] [] []]; vm_compute; done.
Qed.

Lemma at_start_date c d e f g h r :
  is_num c = true -> is_num d = true -> is_num e = true -> is_num f = true ->
  is_num g = true -> is_num h = true ->
  let t r := String "2" (String "0" (String c (String d (String "-"
    (String e (String f (String "-" (String g (String h r))))))))) in
  Regexp.at_start cDate (t (String "." r)) = Some (t EmptyString).
Proof.
  intros Hc Hd He Hf Hg Hh. unfold cDate.
  assert (Regexp.at_start [Regexp.Many is_num] (String g (String h (String "." r)))
          = Some (String g (String h EmptyString))) as H3.
  { cbn [Regexp.at_start]. rewrite Hg, Hh. reflexivity. }
  assert (Regexp.at_start [Regexp.Many (Regexp.char "-"); Regexp.Many is_num]
            (String "-" (String g (String h (String "." r))))
          = Some (String "-" (String g (String h EmptyString)))) as H2.
  { cbn [Regexp.at_start] in H3 |- *. rewrite (num_no_dash g Hg), H3. reflexivity. }
  assert (forall l t m c, is_num c = true ->
    Regexp.at_start l (String "-" t) = Some m ->
    Regexp.at_start (Regexp.Many is_num :: l) (String c (String "-" t))
    = Some (String c m)) as H1.
  { intros l t m x Hx Hl. cbn [Regexp.at_start]. rewrite Hx.
    change (is_num "-") with false. cbv iota. by rewrite Hl. }
  assert (forall l t m c d, is_num c = true -> is_num d = true ->
    Regexp.at_start l (String "-" t) = Some m ->
    Regexp.at_start (Regexp.Many is_num :: l) (String c (String d (String "-" t)))
    = Some (String c (String d m))) as H1'.
  { intros l t m x x' Hx Hx' Hl. pose proof (H1 l t m x' Hx' Hl) as Hm.
    cbn [Regexp.at_start] in Hm |- *. rewrite Hx. by rewrite Hm. }
  assert (forall l t m c, is_num c = true ->
    Regexp.at_start l (String c t) = Some m ->
    Regexp.at_start (Regexp.Many (Regexp.char "-") :: l) (String "-" (String c t))
    = Some (String "-" m)) as Hdash.
  { intros l t m x Hx Hl. cbn [Regexp.at_start]. rewrite (num_no_dash x Hx).
    change (Regexp.char "-" "-") with true. cbv iota. by rewrite Hl. }
  pose proof (Hdash _ _ _ e He (H1' _ _ _ e f He Hf H2)) as Hr. clear H2 H3 Hdash.
  pose proof (H1' _ _ _ c d Hc Hd Hr) as Hcd. pose proof (H1 _ _ _ d Hd Hr) as Hd1.
  set (l := Regexp.Many is_num :: _) in *. clearbody l.
  change (let t r := _ in _) with
    (String "2" <$> Regexp.at_start (Regexp.Many (Regexp.char "0") :: Regexp.Many is_num
        :: Regexp.Many (Regexp.char "-") :: l)
       (String "0" (String c (String d (String "-" (String e (String f (String "-"
          (String g (String h (String "." r))))))))))
     = Some (String "2" (String "0" (String c (String d (String "-" (String e (String f
          (String "-" (String g (String h EmptyString))))))))))).
  revert Hcd Hd1. set (k := Regexp.Many is_num :: _). intros Hcd Hd1.
  assert (forall t, Regexp.at_start k (String "-" t) = None) as Hk by done.
  clearbody k. cbn [Regexp.at_start].
  change (Regexp.char "0" "0") with true. change (Regexp.char "0" "-") with false.
  cbv iota. destruct (Regexp.char "0" c); [|by rewrite Hcd].
  destruct (Regexp.char "0" d); rewrite ?Hk; cbn [fmap option_fmap option_map];
    by rewrite Hd1.
Qed.

(** No part of the text could be the start of a date. *)
Fixpoint no_century (s : string) : bool :=
  match s with
  | String "2" (String "0" _) => false
  | String _ s => no_century s
  | EmptyString => true
  end.

Lemma no_century_cons a s :
  no_century (String a s) = true ->
  no_century s = true /\ (a = "2"%char -> Strings.HasPrefix s "0" = false).
Proof.
  destruct (ascii_dec a "2") as [->|Ha].
  - destruct s as [|b s]; [done|]. destruct (ascii_dec b "0") as [->|Hb]; [done|].
    intros Hn. split.
    + by destruct b as [[] [] [] [] [] [] [] []].
    + intros _. cbn. by apply Ascii.eqb_neq in Hb as ->.
  - intros Hn. split; [|done]. by destruct a as [[] [] [] [] [] [] [] []].
Qed.

Lemma no_century_app s t :
  no_century s = true -> no_century t = true ->
  no_century (String.append s (String "-" t)) = true.
Proof.
  intros Hs Ht. induction s as [|a s IH]; [done|].
  apply no_century_cons in Hs as [Hs Ha]. specialize (IH Hs).
  rewrite Regexp.append_cons. destruct (ascii_dec a "2") as [->|Hne].
  - specialize (Ha eq_refl). destruct s as [|b s]; [done|].
    rewrite Regexp.append_cons in IH |- *. destruct (ascii_dec b "0") as [->|Hb]; [by destruct s|].
    by destruct b as [[] [] [] [] [] [] [] []].
  - by destruct a as [[] [] [] [] [] [] [] []].
Qed.

Lemma date_skips x s :
  no_century x = true ->
  Regexp.FindString cDate (String.append x (String "-" s)) = Regexp.FindString cDate s.
Proof.
  induction x as [|a x IH]; intros Hx; [done|].
  rewrite Regexp.append_cons. apply no_century_cons in Hx as [Hx Ha].
  cbn [Regexp.FindString].
  destruct (Regexp.at_start cDate (String a _)) as [m|] eqn:E; [exfalso|by apply IH].
  unfold cDate in E. cbn [Regexp.at_start] in E.
  destruct (Regexp.char "2" a) eqn:H2; [|done]. apply Ascii.eqb_eq in H2 as <-.
  specialize (Ha eq_refl). destruct x as [|b x]; [done|].
  rewrite Regexp.append_cons in E.
  assert (Regexp.char "0" b = false) as Hb.
  { unfold Regexp.char. apply Ascii.eqb_neq. intros <-. by destruct x. }
  by rewrite Hb in E.
Qed.

Lemma date_found host y m d :
  no_century host = true -> 2000 <= y <= 2099 ->
  Regexp.FindString cDate (log_name host y m d) = Some (log_date y m d).
Proof.
  intros Hh Hy. unfold log_name. rewrite date_skips by done.
  assert (num (y / 1000) = "2"%char) as E1.
  { replace (y / 1000) with 2 by (Z.to_euclidean_division_equations; lia). done. }
  assert (num (y / 100) = "0"%char) as E2.
  { replace (y / 100) with 20 by (Z.to_euclidean_division_equations; lia). done. }
  unfold log_date. rewrite E1, E2.
  pose proof (at_start_date (num (y / 10)) (num y) (num (m / 10)) (num m) (num (d / 10))
    (num d) "log" (is_num_num _) (is_num_num _) (is_num_num _) (is_num_num _)
    (is_num_num _) (is_num_num _)) as Hs.
  cbv zeta in Hs. rewrite !Regexp.append_cons.
  change (String.append EmptyString ".log") with (String "." "log").
  cbn [Regexp.FindString]. by rewrite Hs.
Qed.

Lemma service_found s rest :
  s ∈ serviceNameList ->
  Regexp.FindString cService (String.append (log_prefix s) (String "-" rest))
  = Some (log_prefix s).
Proof.
  intros Hs. unfold serviceNameList in Hs.
  repeat (apply elem_of_cons in Hs as [-> |Hs]; [reflexivity|]).
  by apply elem_of_nil in Hs.
Qed.

Lemma service_no_century s : s ∈ serviceNameList -> no_century (log_prefix s) = true.
Proof.
  intros Hs. unfold serviceNameList in Hs.
  repeat (apply elem_of_cons in Hs as [-> |Hs]; [reflexivity|]).
  by apply elem_of_nil in Hs.
Qed.

(** ** The periods *)
Section log_files.
Context `{BackendLaws} `{LogDir}.

Definition of_service (s : string) (r : ServiceConfig.t) : bool :=
  (ServiceConfig.Name r =? s)%string && (ServiceConfig.Key r =? ServiceLogStorePeriod)%string.

(** How many days the files of a service are kept: what the setting says; 30
    when there is none, it is empty or cannot be read. *)
Definition period_for (w : World) (s : string) (p : Z) : Prop :=
  (exists v, ServiceConfig.mk s ServiceLogStorePeriod v ∈ R TServiceConfig w /\
     p = if is_empty v then 30 else Atoi v) \/
  (p = 30 /\ ((forall r, r ∈ R TServiceConfig w -> of_service s r = false) \/
              exists w1 d, rows_eq w w1 /\
                (First TServiceConfig (of_service s) w1).1 = inl (EDriver d))).

Lemma log_period_run s w r w' :
  log_period s w = (r, w') ->
  rows_eq w w' /\ out_frame w w' /\ exists p, r = inr p /\ period_for w s p.
Proof.
  intros Hr.
  assert (rows_eq w w' /\ out_frame w w') as [Hq Ho].
  { assert (Preserves (db_frame []) (log_period s)) as Hd.
    { unfold log_period, ServiceConfig, lookup. keep. }
    assert (Preserves out_frame (log_period s)) as Hf.
    { unfold log_period, ServiceConfig, lookup. keep. }
    split; [|by eapply Hf]. apply Hd in Hr. intros t. by apply db_frame_rows. }
  split; [done|]. split; [done|]. revert Hr. unfold log_period, ServiceConfig, lookup.
  intros [(e & He & _)|(c & w1 & Hc & [-> ->]%ret_inv)]%bind_inv.
  { apply bind_inv in He as [(? & (? & ? & _)%attempt_inv & _)|(? & ? & _ & [? _]%ret_inv)];
      done. }
  eexists. split; [done|].
  apply bind_inv in Hc as [(? & (? & ? & _)%attempt_inv & _)|(x & w2 & Ha & Hc)]; [done|].
  apply attempt_inv in Ha as (y & [= ->] & Hf). apply ret_inv in Hc as [[= ->] ->].
  destruct y as [e|row].
  - right. split; [done|]. pose proof Hf as Hf2.
    apply First_err in Hf as [[-> Hn]|[d ->]]; [by left|]. right. exists w, d.
    split; [done|]. exact (f_equal fst Hf2).
  - left. apply First_ok in Hf as (Hin & Hk & _).
    apply andb_true_iff in Hk as [Hn%String.eqb_eq Hk%String.eqb_eq].
    destruct row as [n k v]. cbn in *. subst. by exists v.
Qed.

Lemma period_for_rows w w1 s p : rows_eq w w1 -> period_for w1 s p -> period_for w s p.
Proof.
  intros Hw [(v & Hv & ->)|[-> Hc]].
  - left. exists v. by rewrite <- Hw.
  - right. split; [done|]. destruct Hc as [Hn|(w2 & d & Hw2 & Hd)].
    + left. intros r. rewrite <- Hw. apply Hn.
    + right. exists w2, d. split; [by etrans|done].
Qed.

Lemma log_periods_run l m0 w r w' :
  NoDup (map log_prefix l) ->
  log_periods l m0 w = (r, w') ->
  rows_eq w w' /\ out_frame w w' /\ exists m, r = inr m /\
    (forall s, s ∈ l -> exists p, m !! log_prefix s = Some p /\ period_for w s p) /\
    (forall k, k ∉ map log_prefix l -> m !! k = m0 !! k).
Proof.
  revert m0 w. induction l as [|s l IH]; intros m0 w Hnd.
  - intros [-> ->]%ret_inv. split; [done|]. split; [done|]. exists m0.
    split; [done|]. split; [by intros s ?%elem_of_nil|done].
  - cbn [map] in Hnd. apply NoDup_cons in Hnd as [Hs Hnd].
    intros [(e & Hp & _)|(p & w1 & Hp & Hr)]%bind_inv.
    { apply log_period_run in Hp as (_ & _ & p & ? & _). done. }
    apply log_period_run in Hp as (Hq1 & Ho1 & p' & [= <-] & Hp).
    apply IH in Hr as (Hq2 & Ho2 & m & -> & Hm & Hout); [|done].
    split; [by etrans|]. split; [by etrans|]. exists m. split; [done|]. split.
    + intros s' [->|Hin]%elem_of_cons.
      * exists p. split; [|done]. rewrite Hout by done. by rewrite lookup_insert_eq.
      * destruct (Hm s' Hin) as (p' & Hl & Hf). exists p'. split; [done|].
        by eapply period_for_rows.
    + intros k Hk. cbn [map] in Hk. rewrite not_elem_of_cons in Hk. destruct Hk as [Hne Hk].
      rewrite Hout by done. by rewrite lookup_insert_ne.
Qed.

Lemma prefixes_distinct : NoDup (map log_prefix serviceNameList).
Proof. apply (bool_decide_unpack _). vm_compute. exact I. Qed.

(** ** The files *)

Lemma days_range y m d :
  2000 <= y <= 2099 -> 1 <= m <= 12 -> 1 <= d <= days_in m y ->
  0 <= days y m d <= 48000.
Proof.
  intros Hy Hm Hd. unfold days.
  assert (forall k, 0 <= days_before_month k y <= 31 * Z.of_nat k) as Hk.
  { induction k as [|k IH]; cbn [days_before_month]; [lia|].
    pose proof (days_in_range (Z.of_nat (S k)) y). lia. }
  specialize (Hk (Z.to_nat (m - 1))). rewrite Z2Nat.id in Hk by lia.
  pose proof (days_in_range m y).
  unfold days_before_year. Z.to_euclidean_division_equations; lia.
Qed.

(** Whether the file of that day is removed is a matter of its age alone: it is
    once it is older than the period by a full day, up to four microseconds. *)
Lemma expired_named m now s pod y mo d p :
  s ∈ serviceNameList -> no_century pod = true ->
  2000 <= y <= 2099 -> 1 <= mo <= 12 -> 1 <= d <= days_in mo y ->
  m !! log_prefix s = Some p -> 0 <= p -> 0 <= now < Int.two63 ->
  let name := log_name (String.append (log_prefix s) (String "-" pod)) y mo d in
  let age := now - days y mo d * day in
  ((p + 1) * day <= age -> expired m now name = true) /\
  (expired m now name = true -> (p + 1) * day <= age + 4000).
Proof.
  intros Hs Hpod Hy Hm Hd Hp Hp0 Hnow name age.
  assert (expired m now name = (p <? age_days (Sub now (days y mo d * day)))) as ->.
  { unfold expired, name.
    assert (log_name (String.append (log_prefix s) (String "-" pod)) y mo d
      = String.append (log_prefix s) (String "-" (String.append pod
          (String "-" (String.append (log_date y mo d) ".log"))))) as E.
    { unfold log_name. generalize (log_prefix s). intros x.
      induction x as [|a x IH]; [done|]. by rewrite !Regexp.append_cons, IH. }
    rewrite E, service_found, Hp by done. rewrite <- E, date_found; [|by apply
      no_century_app; [apply service_no_century|]|done].
    unfold date_nanos. by rewrite parse_log_date by lia. }
  pose proof (days_range y mo d Hy Hm Hd) as Hdays.
  assert (Sub now (days y mo d * day) = age) as ->.
  { unfold Sub, age, day, Int.Second, Int.two63 in *. lia. }
  assert (- Int.two63 <= age < Int.two63) as Hage
    by (unfold age, day, Int.Second, Int.two63 in *; lia).
  unfold age_days. rewrite Z.ltb_lt. destruct (Z.ltb_spec age 0) as [Hneg|Hpos].
  - destruct (whole_days_bounds (- age)) as [Hl _]; [lia|].
    pose proof (Z.div_pos (- age) day ltac:(lia) ltac:(done)).
    unfold day, Int.Second in *. split; intros; lia.
  - destruct (whole_days_bounds age) as [Hl Hu]; [lia|]. split.
    + intros Ha. apply Z.lt_le_trans with (age / day); [|done].
      apply Z.lt_le_trans with (p + 1); [lia|]. by apply Z.div_le_lower_bound; [|lia].
    + intros Ha. unfold day, Int.Second in *. lia.
Qed.

(** C36. Only log files are deleted, and not before their time.  Whenever the
    directory can be read the clean-up succeeds, changes no table and publishes
    nothing; what it removes are files of /var/log; a file whose name has no part
    of the form cdm-letters-letters, or none of the form of a date, stays.  For
    each of the eleven services there is one period, the one that is configured,
    or 30 days when there is none; and a file that the log rotation made on a host
    of the service for a day of 2000 to 2099 is removed once its midnight lies a
    full day more than that period back, and never earlier than four microseconds
    before (the days are counted in float64). *)
Theorem expired_logs_deleted files w r w' :
  ReadDir = inr files ->
  DeleteExpiredServiceLogFiles w = (r, w') ->
  exists removed, r = inr removed /\ rows_eq w w' /\ out_frame w w' /\
  (forall path, path ∈ removed ->
     exists name s date, name ∈ files /\ path = String.append "/var/log/" name /\
       Regexp.denotes cService s /\ Regexp.denotes cDate date /\
       (exists x z, name = String.append x (String.append s z)) /\
       (exists x z, name = String.append x (String.append date z))) /\
  exists n, forall s, s ∈ serviceNameList ->
  exists p, period_for w s p /\
  forall pod y m d,
    no_century pod = true -> 0 <= p ->
    2000 <= y <= 2099 -> 1 <= m <= 12 -> 1 <= d <= days_in m y ->
    let name := log_name (String.append (log_prefix s) (String "-" pod)) y m d in
    let age := clock n - days y m d * day in
    name ∈ files ->
    ((p + 1) * day <= age -> String.append "/var/log/" name ∈ removed) /\
    (String.append "/var/log/" name ∈ removed -> (p + 1) * day <= age + 4000).
Proof.
  intros Hd Hr. unfold DeleteExpiredServiceLogFiles in Hr. rewrite Hd in Hr.
  assert (exists m w1, rows_eq w w1 /\ out_frame w w1 /\
    getServiceLogPeriodMap w = (inr m, w1) /\
    forall s, s ∈ serviceNameList -> exists p, m !! log_prefix s = Some p /\ period_for w s p)
    as (m & w1 & Hq1 & Ho1 & Hm & Hper).
  { destruct (log_periods serviceNameList ∅ w) as [x w1] eqn:E.
    pose proof (log_periods_run _ _ _ _ _ prefixes_distinct E) as (Hq & Ho & m & -> & Hp & _).
    exists m, w1. split; [done|]. split; [done|]. split; [|done].
    unfold getServiceLogPeriodMap, Execute, bind, attempt. by rewrite E. }
  rewrite (bind_run _ _ _ _ _ Hm) in Hr. unfold now_nano in Hr.
  apply bind_inv in Hr as [(e & He & _)|(now & w2 & Hn & Hr)]; [done|].
  injection Hn as <- <-. apply ret_inv in Hr as [-> ->].
  eexists. split; [done|]. split; [exact Hq1|]. split; [exact Ho1|]. split.
  - intros path (name & -> & Hin)%list_elem_of_fmap.
    apply list_elem_of_In, List.filter_In in Hin as [Hin He].
    unfold expired in He. destruct (Regexp.FindString cService name) as [s|] eqn:Es; [|done].
    destruct (m !! s); [|done].
    destruct (Regexp.FindString cDate name) as [date|] eqn:Ed; [|done].
    apply Regexp.FindString_sound in Es as [??], Ed as [??].
    exists name, s, date. by rewrite list_elem_of_In.
  - exists (w_tick w1). intros s Hs. destruct (Hper s Hs) as (p & Hp & Hf).
    exists p. split; [done|]. intros pod y mo d Hpod Hp0 Hy Hmo Hdd name age Hin.
    destruct (expired_named m (clock (w_tick w1)) s pod y mo d p) as [Hyes Hno]; try done.
    { apply clock_range. }
    fold name age in Hyes, Hno. split.
    + intros Ha. apply list_elem_of_fmap. exists name. split; [done|].
      apply list_elem_of_In, List.filter_In. rewrite <- list_elem_of_In. auto.
    + intros (name' & E & Hin')%list_elem_of_fmap.
      assert (name' = name) as -> by (by injection E).
      apply list_elem_of_In, List.filter_In in Hin' as [_ He]. auto.
Qed.
End log_files.

(** ** Examples *)
#[local] Existing Instance mem_backend.
#[local] Existing Instance mem_backend_laws.

(** The clock of the reference backend starts on 2023-11-14. *)
Definition l_files : list string :=
                 ["cdm-cloud-api-6d9f-x2x4-2023-10-14.log";
                  "cdm-cloud-api-6d9f-x2x4-2023-10-16.log";
                  "cdm-cloud-identity-7bk-2023-11-03.log";
                  "cdm-cloud-identity-7bk-2023-11-05.log";
                  "cdm-cloud-identity-7bk.log"; "syslog"]%string.
#[local] Instance l_dir : LogDir := { ReadDir := inr l_files }.
Definition l_tables : tables := fun t =>
  match t with
  | TServiceConfig => [ServiceConfig.mk ServiceIdentity ServiceLogStorePeriod "10"]
  | _ => []
  end.
Definition l_world : @World mem_backend := start l_tables [].
Definition l_run := DeleteExpiredServiceLogFiles l_world.

Lemma expired_logs_deleted_witness :
  l_run.1 = inr ["/var/log/cdm-cloud-api-6d9f-x2x4-2023-10-14.log";
                 "/var/log/cdm-cloud-identity-7bk-2023-11-03.log"]%string /\
  rows_eq l_world l_run.2.
Proof.
  split; [vm_compute; reflexivity|].
  destruct (expired_logs_deleted l_files l_world l_run.1 l_run.2) as (? & _ & Hq & _).
  - reflexivity.
  - unfold l_run. apply surjective_pairing.
  - exact Hq.
Defined.

(** ** Log lines *)
Module LogLines.
Import LogWriter.
Section lines.
Variable Now : string.
Variable Caller : Z -> option (string * string * Z).

(** The messages of a program, each with its level. *)
Definition log_all (msgs : list (Z * string)) : M defaultLogger string unit :=
  for_each (fun m => Log Now Caller m.1 m.2) msgs.

(** What a logger at a level writes of a message. *)
Definition line_of (o : Options) (m : Z * string) : list string :=
  if Enabled (Level o) m.1 then
    [String.concat " "
      ([Now;
        String.append "[" (String.append (pad 5 (Strings.ToUpper (level_string m.1))) "]");
        pad 40 m.2] ++ caller_text Caller (CallerSkipCount o))]
  else [].

Lemma log_all_run msgs l :
  log_all msgs l = (inr tt, mkLogger (opts l) (out l ++ concat (map (line_of (opts l)) msgs))).
Proof.
  revert l. induction msgs as [|m msgs IH]; intros l; cbn [log_all for_each map concat].
  - destruct l. by rewrite app_nil_r.
  - unfold bind. fold (log_all msgs).
    assert (Log Now Caller m.1 m.2 l = (inr tt, mkLogger (opts l) (out l ++ line_of (opts l) m)))
      as ->.
    { unfold Log, line_of, bind, get, modify. destruct (Enabled _ _); cbn; [done|].
      rewrite app_nil_r. by destruct l. }
    change (for_each _ msgs ?s) with (log_all msgs s). rewrite IH. cbn. by rewrite app_assoc.
Qed.

(** A logger at a higher level writes the same lines but for those left out, in the
    same order; and the service name is in none of them. *)
Theorem higher_level_writes_less msgs o o' :
  Level o <= Level o' -> CallerSkipCount o' = CallerSkipCount o ->
  out (log_all msgs (mkLogger o' [])).2 `sublist_of` out (log_all msgs (mkLogger o [])).2.
Proof.
  intros Hl Hs. rewrite !log_all_run. cbn.
  induction msgs as [|m msgs IH]; cbn; [done|]. apply sublist_app; [|exact IH].
  unfold line_of, Enabled. rewrite Hs.
  destruct (Z.leb_spec (Level o') m.1), (Z.leb_spec (Level o) m.1); try lia;
    [done|apply sublist_nil_l|done].
Qed.

Theorem service_name_not_written msgs o name :
  out (log_all msgs (mkLogger (WithServiceName name o) [])).2 = out (log_all msgs (mkLogger o [])).2.
Proof. by rewrite !log_all_run. Qed.
End lines.

Example line_ex :
  out (Log "2024-01-02 03:04:05" (fun _ => Some ("github.com/a/b.main", "/src/main.go", 7)) 1
         "Could not report event" (NewLogger [])).2 =
  ["2024-01-02 03:04:05 [WARN ] Could not report event                   (b.main main.go:7)"]%string.
Proof. vm_compute. reflexivity. Qed.
End LogLines.
