(* ===== verification/EtcdClient.v ===== *)
(** * The etcd clients of the key-value store (common/store: etcd_store.go,
    options.go, etcd_store_options.go) and of the synchronisation
    (common/sync/internal/etcd: client.go, client_options.go)

    Both packages have the same options and keep their endpoints in the same way;
    they differ in the options they start from.  The client itself is a
    parameter. *)

From stdpp Require Import base tactics list strings gmap sorting.
From Stdlib Require Import ZArith Lia Ascii.
From S2P Require Import Prelude GoStd Json Backend Errors Discovery.
#[local] Open Scope Z_scope.
#[local] Open Scope go_scope.

(** ** The context of the options *)
Inductive ctx_key :=
| autoSyncInterval | dialTimeout | dialKeepAliveTime | dialKeepAliveTimeout
| maxCallSendMsgSize | maxCallRecvMsgSize | tls | rejectOldCluster | dialOptions
| clientContext | permitWithoutStream | username | password.

#[export] Instance ctx_key_dec : EqDecision ctx_key.
Proof. solve_decision. Defined.

(** TLS settings, the options of grpc and a parent context are only handed on:
    they are numbers here. *)
Definition ctx_type (k : ctx_key) : Type :=
  match k with
  | autoSyncInterval | dialTimeout | dialKeepAliveTime | dialKeepAliveTimeout => Z
  | maxCallSendMsgSize | maxCallRecvMsgSize => Z
  | tls | clientContext => nat
  | dialOptions => list nat
  | rejectOldCluster | permitWithoutStream => bool
  | username | password => string
  end.

(** [context.WithValue] and [Value]: the value given last is the one found. *)
Definition context : Type := list {k : ctx_key & ctx_type k}.
Definition WithValue (k : ctx_key) (v : ctx_type k) (ctx : context) : context :=
  existT k v :: ctx.
Fixpoint Value (ctx : context) (k : ctx_key) : option (ctx_type k) :=
  match ctx with
  | [] => None
  | existT k' v :: ctx =>
      match decide (k' = k) with
      | left e => Some (eq_rect k' ctx_type v k e)
      | right _ => Value ctx k
      end
  end.

Lemma Value_WithValue k v ctx k' :
  Value (WithValue k v ctx) k' =
  match decide (k = k') with
  | left e => Some (eq_rect k ctx_type v k' e)
  | right _ => Value ctx k'
  end.
Proof. reflexivity. Qed.

(** ** Options *)
Record Options := mkOptions {
  ServiceName : string;
  Context : context;
  HeartBeatInterval : Z
}.
Abbreviation Option := (Options -> Options).

Definition with_value (k : ctx_key) (v : ctx_type k) : Option := fun o =>
  mkOptions (ServiceName o) (WithValue k v (Context o)) (HeartBeatInterval o).
Definition HeartbeatInterval (interval : Z) : Option := fun o =>
  mkOptions (ServiceName o) (Context o) interval.
Definition AutoSyncInterval (d : Z) : Option := with_value autoSyncInterval d.
Definition DialTimeout (d : Z) : Option := with_value dialTimeout d.
Definition DialKeepAliveTime (d : Z) : Option := with_value dialKeepAliveTime d.
Definition DialKeepAliveTimeout (d : Z) : Option := with_value dialKeepAliveTimeout d.
Definition MaxCallSendMsgSize (size : Z) : Option := with_value maxCallSendMsgSize size.
Definition MaxCallRecvMsgSize (size : Z) : Option := with_value maxCallRecvMsgSize size.
Definition TLS (conf : nat) : Option := with_value tls conf.
Definition RejectOldCluster (b : bool) : Option := with_value rejectOldCluster b.
Definition DialOptions (opts : list nat) : Option :=
  if bool_decide (opts = []) then fun o => o else with_value dialOptions opts.
Definition ClientContext (ctx : nat) : Option := with_value clientContext ctx.
Definition PermitWithoutStream (b : bool) : Option := with_value permitWithoutStream b.
Definition Auth (u p : string) : Option := fun o =>
  with_value password p (with_value username u o).

(** ** clientv3.Config *)
Record Config := mkConfig {
  c_Endpoints : list string;
  c_AutoSyncInterval : Z;
  c_DialTimeout : Z;
  c_DialKeepAliveTime : Z;
  c_DialKeepAliveTimeout : Z;
  c_MaxCallSendMsgSize : Z;
  c_MaxCallRecvMsgSize : Z;
  c_TLS : option nat;
  c_Username : string;
  c_Password : string;
  c_RejectOldCluster : bool;
  c_DialOptions : list nat;
  c_Context : option nat;
  c_PermitWithoutStream : bool
}.

Definition defaultTimeout : Z := 10 * Int.Second.

(** [&clientv3.Config{DialTimeout: defaultTimeout}] *)
Definition Config_new : Config :=
  mkConfig [] 0 defaultTimeout 0 0 0 0 None EmptyString EmptyString false [] None false.

(** [applyConfig]: every value of the context takes the place of the field. *)
Definition applyConfig (o : Options) (c : Config) : Config :=
  let v k := Value (Context o) k in
  mkConfig (c_Endpoints c)
    (default (c_AutoSyncInterval c) (v autoSyncInterval))
    (default (c_DialTimeout c) (v dialTimeout))
    (default (c_DialKeepAliveTime c) (v dialKeepAliveTime))
    (default (c_DialKeepAliveTimeout c) (v dialKeepAliveTimeout))
    (default (c_MaxCallSendMsgSize c) (v maxCallSendMsgSize))
    (default (c_MaxCallRecvMsgSize c) (v maxCallRecvMsgSize))
    (match v tls with Some t => Some t | None => c_TLS c end)
    (default (c_Username c) (v username))
    (default (c_Password c) (v password))
    (default (c_RejectOldCluster c) (v rejectOldCluster))
    (default (c_DialOptions c) (v dialOptions))
    (match v clientContext with Some x => Some x | None => c_Context c end)
    (default (c_PermitWithoutStream c) (v permitWithoutStream)).

Definition set_Endpoints (e : list string) (c : Config) : Config :=
  mkConfig e (c_AutoSyncInterval c) (c_DialTimeout c) (c_DialKeepAliveTime c)
    (c_DialKeepAliveTimeout c) (c_MaxCallSendMsgSize c) (c_MaxCallRecvMsgSize c)
    (c_TLS c) (c_Username c) (c_Password c) (c_RejectOldCluster c) (c_DialOptions c)
    (c_Context c) (c_PermitWithoutStream c).

(** ** The client *)

(** [clientv3.New] with a configuration, or [Close], fails, by the number of the
    call. *)
Class Etcd := {
  client_refused : nat -> Config -> option string;
  client_close_fails : nat -> option string
}.

(** etcdStore: its options, its configuration and the endpoints of its client. *)
Record etcdStore := mkStore {
  options : Options;
  config : Config;
  client : option (list string);
  e_tick : nat
}.
Abbreviation EtAct := (M etcdStore err).

(** [NewStore] *)
Definition NewStore (name : string) (opts : list Option) (tick : nat) : etcdStore :=
  let option := fold_left (fun o f => f o) opts (mkOptions name [] defaultTimeout) in
  mkStore option (applyConfig option Config_new) None tick.

Section client.
Context `{Registry} `{Etcd}.

Definition e_count : EtAct nat := fun e =>
  (inr (e_tick e), mkStore (options e) (config e) (client e) (S (e_tick e))).
Definition set_config (c : Config) : EtAct unit :=
  modify (fun e => mkStore (options e) c (client e) (e_tick e)).
Definition set_client (c : option (list string)) : EtAct unit :=
  modify (fun e => mkStore (options e) (config e) c (e_tick e)).

(** [getServiceEndpoints]: the addresses of the first version of the service;
    the two texts are those of the package. *)
Definition endpoints_of (failed missing : string) : EtAct (list string) :=
  e <- get ;;
  k <- e_count ;;
  match discovered (EPlain failed) (EPlain missing)
          (GetService k (ServiceName (options e))) with
  | inl e => throw e
  | inr services => ret (map Address (default [] (head services)))
  end.
Definition getServiceEndpoints : EtAct (list string) :=
  endpoints_of "could not discover store service" "not found store service".

(** [Connect]: the fields are written whatever the result. *)
Definition Connect : EtAct unit :=
  x <- attempt getServiceEndpoints ;;
  e <- get ;;
  match x with
  | inl err => set_config (set_Endpoints [] (config e)) ;; throw err
  | inr eps =>
      let c := set_Endpoints eps (config e) in
      set_config c ;;
      k <- e_count ;;
      match client_refused k c with
      | Some text => set_client None ;; throw (ERemote text)
      | None => set_client (Some eps)
      end
  end.

(** One round of the goroutine [resetEndpoints], after its sleep. *)
Definition reset_round (get_endpoints : EtAct (list string)) : EtAct unit :=
  x <- attempt get_endpoints ;;
  let ep1 := match x with inr l => l | inl _ => [] end in
  e <- get ;;
  match client e with
  | None => throw EPanic
  | Some ep2 =>
      if bool_decide (merge_sort String.le ep1 = merge_sort String.le ep2) then ret tt
      else if bool_decide (ep1 = []) then ret tt
      else set_client (Some (merge_sort String.le ep1))
  end.
Definition resetEndpoints : EtAct unit := reset_round getServiceEndpoints.

(** [Close] *)
Definition Close : EtAct unit :=
  e <- get ;;
  match client e with
  | None => throw EPanic
  | Some _ =>
      k <- e_count ;;
      match client_close_fails k with Some text => throw (ERemote text) | None => ret tt end
  end.
End client.
