(* ===== verification/Sync.v ===== *)
(** * common/sync: leader election and locks over etcd (sync.go, etcd_sync.go,
    options.go, internal/etcd/client.go)

    Sessions, elections and mutexes of the etcd client are parameters; a session
    is the number of the call that opened it. *)

From stdpp Require Import base tactics list strings gmap.
From Stdlib Require Import ZArith Lia Ascii.
From S2P Require Import Prelude GoStd Json Backend Errors Discovery EtcdClient.
#[local] Open Scope Z_scope.
#[local] Open Scope go_scope.

(** ** internal/etcd/client_options.go: a copy of the options of the store *)
Module Client.
Definition options := EtcdClient.Options.
Definition Option := EtcdClient.Option.
Definition AutoSyncInterval := EtcdClient.AutoSyncInterval.
Definition DialTimeout := EtcdClient.DialTimeout.
Definition DialKeepAliveTime := EtcdClient.DialKeepAliveTime.
Definition DialKeepAliveTimeout := EtcdClient.DialKeepAliveTimeout.
Definition MaxCallSendMsgSize := EtcdClient.MaxCallSendMsgSize.
Definition MaxCallRecvMsgSize := EtcdClient.MaxCallRecvMsgSize.
Definition TLS := EtcdClient.TLS.
Definition RejectOldCluster := EtcdClient.RejectOldCluster.
Definition DialOptions := EtcdClient.DialOptions.
Definition ClientContext := EtcdClient.ClientContext.
Definition PermitWithoutStream := EtcdClient.PermitWithoutStream.
Definition Auth := EtcdClient.Auth.
Definition HeartbeatInterval := EtcdClient.HeartbeatInterval.
Definition applyConfig (o : options) (c : Config) : Config := EtcdClient.applyConfig o c.
End Client.

(** ** internal/etcd/client.go *)
Section etcd.
Context `{Registry} `{Etcd}.

Definition SyncEndpoints : EtAct (list string) :=
  endpoints_of "could not discover service" "not found service".

(** [init]: the endpoints, then the client; the fields are written whatever the
    result. *)
Definition SyncInit : EtAct unit :=
  e <- get ;;
  set_config (Client.applyConfig (options e) (config e)) ;;
  x <- attempt SyncEndpoints ;;
  e <- get ;;
  match x with
  | inl err => set_config (set_Endpoints [] (config e)) ;; throw err
  | inr eps =>
      let c := set_Endpoints eps (config e) in
      set_config c ;;
      k <- e_count ;;
      match client_refused k c with
      | Some text => set_client None ;; throw (ERemote text)
      | None => set_client (Some eps)
      end
  end.

(** [NewClient]: without the option there is no heartbeat interval. *)
Definition NewClient (name : string) (opts : list Client.Option) (tick : nat)
    : (err + unit) * etcdStore :=
  let option := fold_left (fun o f => f o) opts (mkOptions name [] 0) in
  SyncInit (mkStore option Config_new None tick).

Definition SyncResetEndpoints : EtAct unit := reset_round SyncEndpoints.
End etcd.

(** ** options.go *)
Module SyncOptions.
Record t := mk { ttl : Z; user : string; password : string; heartbeatInterval : Z }.
Definition TTL (n : Z) (o : t) : t := mk n (user o) (password o) (heartbeatInterval o).
Definition Auth (u p : string) (o : t) : t := mk (ttl o) u p (heartbeatInterval o).
Definition HeartbeatInterval (interval : Z) (o : t) : t :=
  mk (ttl o) (user o) (password o) interval.
End SyncOptions.

(** ** etcd_sync.go *)
Definition defaultHeartbeatTimeout : Z := 10 * Int.Second.
Definition defaultTTL : Z := 60.

(** What the concurrency package of etcd answers to a call, by its number. *)
Class Concurrency := {
  session_refused : nat -> Z -> option string;
  campaign_lost : nat -> nat -> string -> string -> option string;
  lock_lost : nat -> nat -> string -> option string;
  resign_fails : nat -> string -> option string;
  unlock_fails : nat -> string -> option string;
  close_fails : nat -> nat -> option string;
  new_uuid : nat -> string
}.

(** The client, the time to live, and the sessions that are open. *)
Record etcdSync := mkSync {
  sy_client : etcdStore;
  sy_ttl : Z;
  sy_sessions : list nat;
  sy_tick : nat
}.
Abbreviation SyAct := (M etcdSync err).

Record etcdLeader := mkLeader { l_e : option string; l_s : nat; l_uuid : string }.
Record etcdLocker := mkLocker { k_s : nat; k_m : option string }.

Definition sync_options (opts : list (SyncOptions.t -> SyncOptions.t)) : SyncOptions.t :=
  fold_left (fun o f => f o) opts
    (SyncOptions.mk defaultTTL EmptyString EmptyString defaultHeartbeatTimeout).

Section sync.
Context `{Registry} `{Etcd} `{Concurrency}.

(** The number of the next call is returned, too. *)
Definition NewEtcdSync (serviceName : string)
    (opts : list (SyncOptions.t -> SyncOptions.t)) (tick : nat)
    : (err + etcdSync) * nat :=
  let o := sync_options opts in
  match NewClient serviceName
          [Client.Auth (SyncOptions.user o) (SyncOptions.password o);
           Client.HeartbeatInterval (SyncOptions.heartbeatInterval o)] tick with
  | (inl e, c) => (inl e, e_tick c)
  | (inr _, c) => (inr (mkSync c (SyncOptions.ttl o) [] (e_tick c)), e_tick c)
  end.

Definition sy_count : SyAct nat := fun s =>
  (inr (sy_tick s), mkSync (sy_client s) (sy_ttl s) (sy_sessions s) (S (sy_tick s))).
Definition set_sessions (f : list nat -> list nat) : SyAct unit :=
  modify (fun s => mkSync (sy_client s) (sy_ttl s) (f (sy_sessions s)) (sy_tick s)).

(** [cc.NewSession(e.client, cc.WithTTL(e.ttl))] *)
Definition NewSession : SyAct nat :=
  s <- get ;;
  k <- sy_count ;;
  match session_refused k (sy_ttl s) with
  | Some text => throw (ERemote text)
  | None => set_sessions (cons k) ;; ret k
  end.

Definition answered (a : option string) : SyAct unit :=
  match a with Some text => throw (ERemote text) | None => ret tt end.

(** The handle and the error are both returned. *)
Definition CampaignLeader (path : string) : SyAct (option etcdLeader * option err) :=
  x <- attempt NewSession ;;
  match x with
  | inl e => ret (None, Some e)
  | inr s =>
      n <- sy_count ;;
      let uid := new_uuid n in
      k <- sy_count ;;
      match campaign_lost k s path uid with
      | Some text => ret (Some (mkLeader None s EmptyString), Some (ERemote text))
      | None => ret (Some (mkLeader (Some path) s uid), None)
      end
  end.

Definition Lock (path : string) : SyAct (option etcdLocker * option err) :=
  x <- attempt NewSession ;;
  match x with
  | inl e => ret (None, Some e)
  | inr s =>
      k <- sy_count ;;
      match lock_lost k s path with
      | Some text => ret (Some (mkLocker s None), Some (ERemote text))
      | None => ret (Some (mkLocker s (Some path)), None)
      end
  end.

(** [Status] on the leaders that are observed: what the channel gets. *)
Fixpoint observe (uuid : string) (observed : list string) : option bool :=
  match observed with
  | [] => None
  | v :: observed => if (v =? uuid)%string then observe uuid observed else Some true
  end.
Definition Status (l : etcdLeader) (observed : list string) : SyAct (option bool) :=
  match l_e l with
  | None => throw EPanic
  | Some _ => ret (observe (l_uuid l) observed)
  end.

Definition Resign (l : etcdLeader) : SyAct unit :=
  match l_e l with
  | None => throw EPanic
  | Some path => k <- sy_count ;; answered (resign_fails k path)
  end.

Definition Unlock (l : etcdLocker) : SyAct unit :=
  match k_m l with
  | None => throw EPanic
  | Some path => k <- sy_count ;; answered (unlock_fails k path)
  end.

(** Closing a session: it is over whatever etcd answers. *)
Definition CloseSession (s : nat) : SyAct unit :=
  k <- sy_count ;;
  set_sessions (List.filter (fun x => negb (x =? s)%nat)) ;;
  answered (close_fails k s).
Definition LeaderClose (l : etcdLeader) : SyAct unit := CloseSession (l_s l).
Definition LockerClose (l : etcdLocker) : SyAct unit := CloseSession (k_s l).
End sync.
