(* ===== verification/Watcher.v ===== *)
(** * common/logger/watcher: the logging level follows the settings *)

From stdpp Require Import base tactics list strings gmap.
From Stdlib Require Import ZArith Lia Ascii.
From S2P Require Import Prelude GoStd Json Model Backend Errors Gorm Database Config.
From S2P Require Import Discovery Broker.
#[local] Open Scope Z_scope.
#[local] Open Scope go_scope.

Definition GlobalLogLevel : string := "global_log_level".
Definition ServiceLogLevel : string := "service_log_level".
Definition TopicNoticeGlobalLoggingLevelUpdated : string :=
  "cdm.cloud.notice.global.logging.level.updated".
Definition TopicNoticeServiceLoggingLevelUpdated : string :=
  "cdm.cloud.notice.service.logging.level.updated".

(** [logger.GetLevel] of go-micro: the level it returns beside its error, and
    whether there is none; and whether an [Unsubscribe] fails, by its number. *)
Class Levels := {
  GetLevel : string -> Z;
  known_level : string -> bool;
  unsubscribe_fails : nat -> option string
}.

Section level.
Context `{Backend} `{Levels}.

(** [logger.Init(WithLevel(l))] on the default logger. *)
Definition set_level (l : Z) : Act unit := modify (fun w =>
  mkWorld _ (w_db w) (w_kv w) (w_out w) (w_tick w) (w_err w) (w_mail w)
    (mkLogging l (lg_found (w_log w)))).

(** The variable [lv]. *)
Definition get_found : Act (option Z) := fun w => (inr (lg_found (w_log w)), w).
Definition set_found (o : option Z) : Act unit := modify (fun w =>
  mkWorld _ (w_db w) (w_kv w) (w_out w) (w_tick w) (w_err w) (w_mail w)
    (mkLogging (lg_level (w_log w)) o)).

Definition level_of (cfg : option Config) : option Z :=
  (fun c => GetLevel (cfg_Value c)) <$> cfg.

Definition findServiceLoggingLevel (s : string) : Act (option Z) :=
  cfg <- ServiceConfig s ServiceLogLevel ;; ret (level_of cfg).
Definition findGlobalLoggingLevel : Act (option Z) :=
  cfg <- GlobalConfig GlobalLogLevel ;; ret (level_of cfg).

(** The closure of [updateLoggingLevel]. *)
Definition level_body (serviceName : string) : Act unit :=
  (if negb (is_empty serviceName)
   then lv <- findServiceLoggingLevel serviceName ;; set_found lv
   else ret tt) ;;
  lv <- get_found ;;
  match lv with
  | Some _ => ret tt
  | None => lv <- findGlobalLoggingLevel ;; set_found lv
  end.

(** The error of the transaction is only logged. *)
Definition updateLoggingLevel (serviceName : string) : Act unit :=
  set_found None ;;
  attempt (Transaction (level_body serviceName)) ;;
  lv <- get_found ;;
  match lv with
  | Some l => set_level l
  | None => ret tt
  end.

(** The handlers of the two subscriptions. *)
Definition onGlobalLevelUpdated (serviceName : string) (p : Publication) : Act unit :=
  updateLoggingLevel serviceName.
Definition onServiceLevelUpdated (serviceName : string) (p : Publication) : Act unit :=
  if is_empty serviceName then ret tt
  else if (serviceName =? m_Body (pub_message p))%string
  then updateLoggingLevel serviceName else ret tt.
End level.

(** ** The watcher *)

(** A subscription that was made: its number, and its topic. *)
Record Handle := mkHandle { hd_id : nat; hd_subscription : subscription }.

Record watcher := mkWatcher {
  serviceName : string;
  gSub : option Handle;
  sSub : option Handle
}.

(** The process as the watcher sees it: the world of the database, the default
    broker (nil, or with or without a connection), the subscriptions that are
    served, and the default watcher. *)
Record WatchState `{Backend} := mkWatch {
  wt_world : World;
  wt_broker : option bool;
  wt_served : list Handle;
  wt_tick : nat;
  defaultWatcher : option watcher
}.

Section watch.
Context `{Backend} `{Levels}.
Abbreviation WtAct := (M WatchState err).

Definition on_world {A} (c : Act A) : WtAct A := fun s =>
  let '(r, w) := c (wt_world s) in
  (r, mkWatch _ w (wt_broker s) (wt_served s) (wt_tick s) (defaultWatcher s)).
Definition set_served (f : list Handle -> list Handle) : WtAct unit := modify (fun s =>
  mkWatch _ (wt_world s) (wt_broker s) (f (wt_served s)) (wt_tick s) (defaultWatcher s)).
Definition set_default (w : option watcher) : WtAct unit := modify (fun s =>
  mkWatch _ (wt_world s) (wt_broker s) (wt_served s) (wt_tick s) w).
Definition wt_count : WtAct nat := fun s =>
  (inr (wt_tick s),
   mkWatch _ (wt_world s) (wt_broker s) (wt_served s) (S (wt_tick s)) (defaultWatcher s)).

(** [broker.SubscribeTempQueue]: the subscription is served from now on. *)
Definition subscribe_temp (topic : string) : WtAct Handle :=
  s <- get ;;
  match wt_broker s with
  | None => throw EPanic
  | Some conn =>
      match SubscribeTempQueue conn topic [] with
      | inl e => throw e
      | inr sub =>
          k <- wt_count ;;
          set_served (cons (mkHandle k sub)) ;;
          ret (mkHandle k sub)
      end
  end.

(** [Unsubscribe]: it is not served any more whatever the channel answers. *)
Definition unsubscribe (h : Handle) : WtAct unit :=
  k <- wt_count ;;
  set_served (List.filter (fun x => negb (hd_id x =? hd_id h)%nat)) ;;
  match unsubscribe_fails k with Some t => throw (ERemote t) | None => ret tt end.

(** An error is only logged; a panic is not caught. *)
Definition logged {A} (c : WtAct A) : WtAct (option A) :=
  x <- attempt c ;;
  match x with
  | inr a => ret (Some a)
  | inl EPanic => throw EPanic
  | inl _ => ret None
  end.

(** [watch]: a subscription that fails leaves its field nil. *)
Definition watch (s : string) : WtAct watcher :=
  on_world (updateLoggingLevel s) ;;
  g <- logged (subscribe_temp TopicNoticeGlobalLoggingLevelUpdated) ;;
  h <- logged (subscribe_temp TopicNoticeServiceLoggingLevelUpdated) ;;
  ret (mkWatcher s g h).

Definition stop_one (h : option Handle) : WtAct unit :=
  match h with Some h => logged (unsubscribe h) ;; ret tt | None => ret tt end.
Definition stop (w : watcher) : WtAct unit := stop_one (gSub w) ;; stop_one (sSub w).

Definition Watch (s : string) : WtAct unit :=
  st <- get ;;
  (match defaultWatcher st with Some w => stop w | None => ret tt end) ;;
  w <- watch s ;;
  set_default (Some w).

Definition Stop : WtAct unit :=
  st <- get ;;
  match defaultWatcher st with
  | None => ret tt
  | Some w => stop w ;; set_default None
  end.
End watch.
