(* ===== verification/WatcherProps.v ===== *)
(** * The logging level and its watcher *)

From stdpp Require Import base tactics list strings gmap.
From Stdlib Require Import ZArith Lia Ascii.
From S2P Require Import Prelude GoStd Json Model Backend Errors Gorm Database.
From S2P Require Import GormFacts TransactionFacts Config Discovery Broker Watcher.
From S2P Require Import RefBackend.
#[local] Open Scope Z_scope.
#[local] Open Scope go_scope.

Section level.
Context `{BackendLaws} `{Levels}.

Definition log_frame (w w' : World) : Prop := w_log w' = w_log w.
#[local] Instance log_frame_preorder : PreOrder log_frame.
Proof. split; [done|]. unfold log_frame. intros ???; congruence. Qed.
#[local] Instance log_on_db {A} (f : DB -> (sqlerr + A) * DB) : Preserves log_frame (on_db f).
Proof. intros w r w' (x & db & _ & -> & _)%on_db_inv. done. Qed.

#[local] Instance log_First t p : Preserves log_frame (First t p).
Proof. unfold First. keep. Qed.

Definition of_level (s : string) (r : ServiceConfig.t) : bool :=
  (ServiceConfig.Name r =? s)%string && (ServiceConfig.Key r =? ServiceLogLevel)%string.
Definition is_level (r : GlobalConfig.t) : bool :=
  (GlobalConfig.Key r =? GlobalLogLevel)%string.

(** There is no row of the kind, or it cannot be read. *)
Definition unread {t} (w : World) (p : row t -> bool) : Prop :=
  (forall r, r ∈ R t w -> p r = false) \/
  exists w1 d, rows_eq w w1 /\ (First t p w1).1 = inl (EDriver d).

Lemma unread_rows {t} w w1 (p : row t -> bool) : rows_eq w w1 -> unread w1 p -> unread w p.
Proof.
  intros Hw [Hn|(w2 & d & Hw2 & Hd)].
  - left. intros r. rewrite <- Hw. apply Hn.
  - right. exists w2, d. split; [by etrans|done].
Qed.

(** What a service may find: its own setting; or the global one when it has no
    name or its own cannot be read; or none when neither can. *)
Inductive finds (w : World) (s : string) : option Z -> Prop :=
| Finds_service v :
    s <> EmptyString -> ServiceConfig.mk s ServiceLogLevel v ∈ R TServiceConfig w ->
    finds w s (Some (GetLevel v))
| Finds_global v :
    (s <> EmptyString -> unread (t:=TServiceConfig) w (of_level s)) ->
    GlobalConfig.mk GlobalLogLevel v ∈ R TGlobalConfig w ->
    finds w s (Some (GetLevel v))
| Finds_none :
    (s <> EmptyString -> unread (t:=TServiceConfig) w (of_level s)) ->
    unread (t:=TGlobalConfig) w is_level ->
    finds w s None.

Lemma finds_rows w w1 s o : rows_eq w w1 -> finds w1 s o -> finds w s o.
Proof.
  intros Hw [v Hs Hv|v Hs Hv|Hs Hv].
  - apply Finds_service; [done|by rewrite <- Hw].
  - apply Finds_global; [|by rewrite <- Hw]. intros Hne. by eapply unread_rows, Hs.
  - apply Finds_none; [|by eapply unread_rows]. intros Hne. by eapply unread_rows, Hs.
Qed.

(** Reading a setting: the row, or [unread]. *)
Lemma lookup_run t (p : row t -> bool) value key w r w' :
  lookup t p value key w = (r, w') ->
  rows_eq w w' /\ out_frame w w' /\ w_log w' = w_log w /\
  exists o, r = inr o /\
    match o with
    | Some c => exists x, x ∈ R t w /\ p x = true /\ cfg_Value c = value x
    | None => unread w p
    end.
Proof.
  intros Hr.
  assert (Preserves (db_frame []) (lookup t p value key)) as Hd by (unfold lookup; keep).
  assert (Preserves out_frame (lookup t p value key)) as Ho by (unfold lookup; keep).
  split; [intros t'; apply Hd in Hr; by apply db_frame_rows|].
  split; [by apply Ho in Hr|].
  assert (Preserves log_frame (lookup t p value key)) as Hl by (unfold lookup; keep).
  split; [by apply Hl in Hr|].
  unfold lookup in Hr.
  apply bind_inv in Hr as [(? & (? & ? & _)%attempt_inv & _)|(x & w1 & Ha & Hr)]; [done|].
  apply ret_inv in Hr as [-> ->]. apply attempt_inv in Ha as (y & [= ->] & Hf).
  eexists. split; [done|]. destruct y as [e|row].
  - pose proof (f_equal fst Hf) as Hf2. apply First_err in Hf as [[-> Hn]|[d ->]];
      [by left|]. right. by exists w, d.
  - apply First_ok in Hf as (Hin & Hk & _). by exists row.
Qed.

Lemma service_level_run s w r w' :
  findServiceLoggingLevel s w = (r, w') ->
  rows_eq w w' /\ out_frame w w' /\ w_log w' = w_log w /\
  exists o, r = inr o /\
    match o with
    | Some l => exists v, ServiceConfig.mk s ServiceLogLevel v ∈ R TServiceConfig w /\ l = GetLevel v
    | None => unread (t:=TServiceConfig) w (of_level s)
    end.
Proof.
  unfold findServiceLoggingLevel, ServiceConfig.
  intros [(e & (_ & _ & _ & o & ? & _)%lookup_run & _)|(c & w1 & Hc & [-> ->]%ret_inv)]%bind_inv;
    [done|].
  apply lookup_run in Hc as (Hq & Ho & Hl & o & [= ->] & Hc).
  split; [done|]. split; [done|]. split; [done|]. eexists. split; [done|].
  destruct o as [c|]; [|exact Hc]. cbn. destruct Hc as ([n k v] & Hin & Hk & ->).
  apply andb_true_iff in Hk as [Hn%String.eqb_eq Hk%String.eqb_eq]. cbn in *. subst.
  by exists v.
Qed.

Lemma global_level_run w r w' :
  findGlobalLoggingLevel w = (r, w') ->
  rows_eq w w' /\ out_frame w w' /\ w_log w' = w_log w /\
  exists o, r = inr o /\
    match o with
    | Some l => exists v, GlobalConfig.mk GlobalLogLevel v ∈ R TGlobalConfig w /\ l = GetLevel v
    | None => unread (t:=TGlobalConfig) w is_level
    end.
Proof.
  unfold findGlobalLoggingLevel, GlobalConfig.
  intros [(e & (_ & _ & _ & o & ? & _)%lookup_run & _)|(c & w1 & Hc & [-> ->]%ret_inv)]%bind_inv;
    [done|].
  apply lookup_run in Hc as (Hq & Ho & Hl & o & [= ->] & Hc).
  split; [done|]. split; [done|]. split; [done|]. eexists. split; [done|].
  destruct o as [c|]; [|exact Hc]. cbn. destruct Hc as ([k v] & Hin & Hk & ->).
  apply String.eqb_eq in Hk. cbn in *. subst. by exists v.
Qed.

(** One run of the closure: what it leaves in the variable, if the variable held
    nothing or what the closure found before. *)
Lemma level_body_run s w r w' :
  level_body s w = (r, w') ->
  r = inr tt /\ rows_eq w w' /\ out_frame w w' /\
  lg_level (w_log w') = lg_level (w_log w) /\
  (lg_found (w_log w) = None \/ finds w s (lg_found (w_log w)) ->
   finds w s (lg_found (w_log w'))).
Proof.
  unfold level_body. intros Hr.
  assert (exists w1, rows_eq w w1 /\ out_frame w w1 /\
    lg_level (w_log w1) = lg_level (w_log w) /\
    (lg_found (w_log w) = None \/ finds w s (lg_found (w_log w)) ->
     match lg_found (w_log w1) with
     | None => s <> EmptyString -> unread (t:=TServiceConfig) w (of_level s)
     | Some l => finds w s (Some l)
     end) /\
    (lv <- get_found ;;
     match lv with
     | Some _ => ret tt
     | None => lv <- findGlobalLoggingLevel ;; set_found lv
     end) w1 = (r, w')) as (w1 & Hq & Ho & Hlev & Hfound & Hr').
  { destruct s as [|a s]; cbn [negb is_empty] in Hr.
    - apply bind_inv in Hr as [(? & [? _]%ret_inv & _)|(? & w1 & [_ ->]%ret_inv & Hr)]; [done|].
      exists w. split; [done|]. split; [done|]. split; [done|]. split; [|done].
      intros Hf. destruct (lg_found (w_log w)); [|done]. by destruct Hf.
    - apply bind_inv in Hr as [(e & Hc & _)|([] & w1 & Hc & Hr)].
      { apply bind_inv in Hc as [(? & (_ & _ & _ & ? & ? & _)%service_level_run & _)|
          (? & ? & _ & Hs)]; [done|]. by injection Hs. }
      apply bind_inv in Hc as [(? & ? & ?)|(o & w2 & Hc & Hs)]; [done|].
      apply service_level_run in Hc as (Hq & Ho & Hl & o' & [= <-] & Hc).
      injection Hs as <-. match type of Hr with _ ?w1 = _ => exists w1 end.
      split; [exact Hq|]. split; [exact Ho|].
      split; [cbn; by rewrite Hl|]. split; [|exact Hr]. intros _. cbn.
      destruct o as [l|]; [|done]. destruct Hc as (v & Hv & ->). by apply Finds_service. }
  clear Hr. apply bind_inv in Hr' as [(? & ? & _)|(lv & w2 & [= <- <-] & Hr)]; [done|].
  destruct (lg_found (w_log w1)) as [l|] eqn:El.
  - apply ret_inv in Hr as [-> ->]. by rewrite El.
  - apply bind_inv in Hr as [(? & (_ & _ & _ & ? & ? & _)%global_level_run & _)|(o & w2 & Hc & Hs)];
      [done|].
    apply global_level_run in Hc as (Hq2 & Ho2 & Hl2 & o' & [= <-] & Hc).
    injection Hs as <- <-. split; [done|]. split; [by etrans|]. split; [by etrans|].
    cbn. split; [by rewrite Hl2|]. intros Hf. specialize (Hfound Hf).
    destruct o as [l|].
    + destruct Hc as (v & Hv & ->). apply Finds_global; [done|]. by rewrite <- Hq.
    + apply Finds_none; [done|]. by eapply unread_rows.
Qed.

#[local] Instance kept_get_found ts : Preserves (db_frame ts) get_found.
Proof. intros w r w' [= _ <-]. done. Qed.
#[local] Instance kept_set_found ts o : Preserves (db_frame ts) (set_found o).
Proof. intros w r w' [= _ <-]. by split. Qed.
#[local] Instance kept_level_body s : Preserves (db_frame []) (level_body s).
Proof.
  unfold level_body, findServiceLoggingLevel, findGlobalLoggingLevel, ServiceConfig,
    GlobalConfig. keep.
Qed.

(** What a run of the closure does for the variable and the world. *)
Definition seeks (s : string) (w w1 w2 : World) : Prop :=
  out_frame w1 w2 /\ lg_level (w_log w2) = lg_level (w_log w1) /\
  (lg_found (w_log w1) = None \/ finds w s (lg_found (w_log w1)) ->
   lg_found (w_log w2) = None \/ finds w s (lg_found (w_log w2))).

#[local] Instance seeks_preorder s w : PreOrder (seeks s w).
Proof.
  split; [by intros w1|]. intros w1 w2 w3 (? & ? & ?) (? & ? & ?).
  split; [by etrans|]. split; [congruence|]. auto.
Qed.

Lemma finds_from s w w1 o : rows_eq w w1 -> finds w s o -> finds w1 s o.
Proof. intros Hw. apply finds_rows. intros t. by rewrite (Hw t). Qed.

Lemma level_run s w r w' :
  updateLoggingLevel s w = (r, w') ->
  r = inr tt /\ rows_eq w w' /\ out_frame w w' /\
  ((exists o, finds w s o /\
      lg_level (w_log w') = default (lg_level (w_log w)) o) \/
   (lg_level (w_log w') = lg_level (w_log w) /\
    exists w1 e w2, rows_eq w w1 /\ Transaction (level_body s) w1 = (inl e, w2))).
Proof.
  unfold updateLoggingLevel. intros Hr.
  apply bind_inv in Hr as [(? & ? & _)|([] & w0 & Hs & Hr)]; [done|].
  assert (rows_eq w w0 /\ out_frame w w0 /\ lg_found (w_log w0) = None /\
    lg_level (w_log w0) = lg_level (w_log w)) as (Hq0 & Ho0 & Hn0 & Hl0)
    by (injection Hs as <-; done). clear Hs.
  apply bind_inv in Hr as [(? & (? & ? & _)%attempt_inv & _)|(y & w1 & Ha & Hr)]; [done|].
  apply attempt_inv in Ha as (x & [= ->] & Ht).
  assert (rows_eq w0 w1) as Hq1.
  { eapply query_transaction_rows; [|exact Ht]. intros w2 z w3 Hb. by eapply preserves. }
  pose proof Ht as Ht2. apply (Transaction_traced (seeks s w)) in Ht2 as [(Ho1 & Hl1 & Hf) Hdone].
  2:{ intros db w2. by split. }
  2:{ intros w2 z w3 Hw2 (_ & _ & Ho & Hl & Hf)%level_body_run. split; [done|].
      split; [done|]. intros Hi. right. eapply finds_rows; [by etrans|]. apply Hf.
      destruct Hi as [|Hi]; [by left|right]. eapply finds_from; [|exact Hi]. by etrans. }
  2:{ intros w2 z w3 Hb. by apply kept_level_body in Hb as [_ ?]. }
  apply bind_inv in Hr as [(? & ? & _)|(lv & w2 & [= <- <-] & Hr)]; [done|].
  specialize (Hf (or_introl Hn0)).
  assert (lg_level (w_log w1) = lg_level (w_log w)) as Hl by congruence.
  assert (r = inr tt /\ rows_eq w1 w' /\ out_frame w1 w' /\
    lg_level (w_log w') = default (lg_level (w_log w1)) (lg_found (w_log w1)))
    as (-> & Hq2 & Ho2 & Hl2).
  { destruct (lg_found (w_log w1)); injection Hr as <- <-; done. }
  split; [done|]. split; [by do 2 (etrans; [eassumption|])|].
  split; [by do 2 (etrans; [eassumption|])|]. rewrite Hl2, Hl.
  destruct (lg_found (w_log w1)) as [l|] eqn:El.
  - left. exists (Some l). destruct Hf; [done|]. done.
  - destruct x as [e|[]].
    + right. split; [done|]. by exists w0, e, w1.
    + left. destruct (Hdone tt eq_refl) as (w2 & w3 & db & Hw2 & (_ & _ & Hf2) & Hb & ->).
      apply level_body_run in Hb as (_ & _ & _ & _ & Hf3).
      exists None. split; [|done]. cbn in El. rewrite El in Hf3.
      eapply finds_rows; [by etrans|]. apply Hf3.
      destruct (Hf2 (or_introl Hn0)) as [|Hi]; [by left|right].
      eapply finds_from; [|exact Hi]. by etrans.
Qed.

(** C38. The logging level follows the settings.  [updateLoggingLevel] never fails,
    changes no table and publishes nothing.  Afterwards the level is the one of the
    service's own setting if it has a name and the setting can be read, else the one
    of the global setting, and if neither can be read it is what it was; it is what
    it was, too, when the transaction fails before anything was found.  (The
    variable the closure writes keeps what a run found although the transaction is
    run again or fails.) *)
Theorem level_follows_settings s w r w' :
  updateLoggingLevel s w = (r, w') ->
  r = inr tt /\ rows_eq w w' /\ out_frame w w' /\
  ((exists o, finds w s o /\
      lg_level (w_log w') = default (lg_level (w_log w)) o) \/
   (lg_level (w_log w') = lg_level (w_log w) /\
    exists w1 e w2, rows_eq w w1 /\ Transaction (level_body s) w1 = (inl e, w2))).
Proof. apply level_run. Qed.
End level.

(** ** The watcher *)
Section watch.
Context `{BackendLaws} `{Levels}.

(** What the default watcher holds. *)
Definition holds (st : WatchState) (h : Handle) : Prop :=
  exists w, defaultWatcher st = Some w /\ (gSub w = Some h \/ sSub w = Some h).

(** The subscriptions that are served are those of the default watcher. *)
Record watched (st : WatchState) : Prop := {
  wd_holds : forall h, h ∈ wt_served st <-> holds st h;
  wd_old : forall h, h ∈ wt_served st -> (hd_id h < wt_tick st)%nat
}.

Definition on_topic (t : string) (o : option Handle) : Prop :=
  exists h, o = Some h /\ topic (hd_subscription h) = t.

Lemma update_returns s w : exists w', updateLoggingLevel s w = (inr tt, w').
Proof.
  unfold updateLoggingLevel, bind, set_found, modify, attempt, get_found.
  destruct (Transaction _ _) as [x w1]. destruct (lg_found (w_log w1)); by eexists.
Qed.

(** Subscribing with its error logged. *)
Lemma logged_subscribe t (st : WatchState) r st' :
  logged (subscribe_temp t) st = (r, st') ->
  wt_broker st' = wt_broker st /\ defaultWatcher st' = defaultWatcher st /\
  match wt_broker st with
  | None => r = inl EPanic
  | Some true => exists h, r = inr (Some h) /\ topic (hd_subscription h) = t /\
      hd_id h = wt_tick st /\ wt_served st' = h :: wt_served st /\
      wt_tick st' = S (wt_tick st)
  | Some false => r = inr None /\ wt_served st' = wt_served st /\ wt_tick st' = wt_tick st
  end.
Proof.
  unfold logged, subscribe_temp, bind, attempt, get.
  destruct (wt_broker st) as [[]|] eqn:E; cbn; intros [= <- <-]; cbn; split_and!; try done.
  eexists. by split_and!.
Qed.

(** Unsubscribing with its error logged. *)
Lemma stop_one_run o (st : WatchState) r st' :
  stop_one o st = (r, st') ->
  r = inr tt /\ wt_broker st' = wt_broker st /\ defaultWatcher st' = defaultWatcher st /\
  (wt_tick st <= wt_tick st')%nat /\
  forall h, h ∈ wt_served st' <->
    h ∈ wt_served st /\ (forall h', o = Some h' -> hd_id h <> hd_id h').
Proof.
  unfold stop_one, logged, unsubscribe, bind, attempt, wt_count, set_served, modify.
  destruct o as [h'|].
  - cbn. destruct (unsubscribe_fails (wt_tick st)); cbn; intros [= <- <-]; cbn;
      (split; [done|]; split; [done|]; split; [done|]; split; [lia|]);
      intros h; rewrite list_elem_of_In, List.filter_In, <- list_elem_of_In,
        negb_true_iff, Nat.eqb_neq; split; intros [Hh Hne]; (split; [done|]);
      [by intros ? [= <-]|by apply Hne|by intros ? [= <-]|by apply Hne].
  - intros [= <- <-]. split_and!; try done. intros h. split; [by split|by intros [? _]].
Qed.

Lemma stop_run w (st : WatchState) r st' :
  stop w st = (r, st') ->
  r = inr tt /\ wt_broker st' = wt_broker st /\ defaultWatcher st' = defaultWatcher st /\
  (wt_tick st <= wt_tick st')%nat /\
  forall h, h ∈ wt_served st' <-> h ∈ wt_served st /\
    (forall h', gSub w = Some h' \/ sSub w = Some h' -> hd_id h <> hd_id h').
Proof.
  unfold stop. intros [(e & (? & _)%stop_one_run & _)|([] & st1 & Hg & Hs)]%bind_inv; [done|].
  apply stop_one_run in Hg as (_ & Hb1 & Hd1 & Ht1 & Hg).
  apply stop_one_run in Hs as (-> & Hb2 & Hd2 & Ht2 & Hs).
  split; [done|]. split; [congruence|]. split; [congruence|]. split; [lia|].
  intros h. rewrite Hs, Hg. split.
  - intros [[Hh Hn1] Hn2]. split; [done|]. intros h' [?|?]; auto.
  - intros [Hh Hne]. split_and!; auto.
Qed.

(** Stopping the default watcher leaves nothing served. *)
Lemma stop_default w (st : WatchState) r st' :
  watched st -> defaultWatcher st = Some w -> stop w st = (r, st') ->
  r = inr tt /\ wt_broker st' = wt_broker st /\ wt_served st' = [].
Proof.
  intros Hw Hd (-> & Hb & _ & _ & Hs)%stop_run. split; [done|]. split; [done|].
  destruct (wt_served st') as [|h l]; [done|exfalso].
  assert (h ∈ h :: l) as [Hin Hne]%Hs by left.
  apply (wd_holds _ Hw) in Hin as (w' & Hd' & Hh).
  assert (w' = w) as -> by congruence. by apply (Hne h Hh).
Qed.

(** [watch] from a state in which nothing is served. *)
Lemma watch_run s (st : WatchState) r st' :
  wt_served st = [] -> watch s st = (r, st') ->
  match r with
  | inl e => e = EPanic /\ wt_broker st = None
  | inr w =>
      serviceName w = s /\
      (forall h, h ∈ wt_served st' <-> gSub w = Some h \/ sSub w = Some h) /\
      (forall h, h ∈ wt_served st' -> (hd_id h < wt_tick st')%nat) /\
      (wt_broker st = Some true ->
       on_topic TopicNoticeGlobalLoggingLevelUpdated (gSub w) /\
       on_topic TopicNoticeServiceLoggingLevelUpdated (sSub w))
  end.
Proof.
  intros Hs Hr. unfold watch in Hr.
  destruct (update_returns s (wt_world st)) as [w1 Hu].
  apply bind_inv in Hr as [(e & Ho & ->)|(x & st1 & Ho & Hr)];
    unfold on_world in Ho; rewrite Hu in Ho; [done|]. injection Ho as _ <-.
  apply bind_inv in Hr as [(e & Hg & ->)|(g & st2 & Hg & Hr)];
    apply logged_subscribe in Hg as (Hb & _ & Hg); cbn in Hb, Hg.
  { destruct (wt_broker st) as [[]|]; [by destruct Hg as (? & ? & _)|by destruct Hg|].
    by injection Hg as ->. }
  apply bind_inv in Hr as [(e & Hh & ->)|(h & st3 & Hh & [-> ->]%ret_inv)];
    apply logged_subscribe in Hh as (Hb2 & _ & Hh); rewrite Hb in Hh.
  { destruct (wt_broker st) as [[]|]; [by destruct Hh as (? & ? & _)|by destruct Hh|done]. }
  destruct (wt_broker st) as [[]|]; cbn.
  - destruct Hg as (g' & [= ->] & Htg & Hig & Hsg & Hkg).
    destruct Hh as (h' & [= ->] & Hth & Hih & Hsh & Hkh).
    rewrite Hsg, Hs in Hsh. rewrite Hsh, Hkh, Hkg. split; [done|]. split; [|split].
    + intros z. rewrite !elem_of_cons, elem_of_nil. naive_solver.
    + intros z. rewrite !elem_of_cons, elem_of_nil. intros [->|[->|[]]]; lia.
    + intros _. split; by eexists.
  - destruct Hg as ([= ->] & Hsg & _), Hh as ([= ->] & Hsh & _).
    rewrite Hsg, Hs in Hsh. rewrite Hsh. split; [done|]. split; [|split]; [|by intros ? ?%elem_of_nil|done].
    intros z. rewrite elem_of_nil. naive_solver.
  - done.
Qed.

Lemma Watch_run s (st : WatchState) r st' :
  watched st -> Watch s st = (r, st') ->
  match r with
  | inl e => e = EPanic /\ wt_broker st = None
  | inr _ => watched st' /\
      exists w, defaultWatcher st' = Some w /\ serviceName w = s /\
        (wt_broker st = Some true ->
         on_topic TopicNoticeGlobalLoggingLevelUpdated (gSub w) /\
         on_topic TopicNoticeServiceLoggingLevelUpdated (sSub w))
  end.
Proof.
  intros Hw. unfold Watch. intros Hr.
  apply bind_inv in Hr as [(? & ? & _)|(x & st0 & Hg & Hr)]; [done|].
  injection Hg as <- <-.
  assert (exists st1, wt_broker st1 = wt_broker st /\ wt_served st1 = [] /\
    (w <- watch s ;; set_default (Some w)) st1 = (r, st')) as (st1 & Hb1 & Hs1 & Hr1).
  { apply bind_inv in Hr as [(e & Hst & ->)|([] & st1 & Hst & Hr)].
    - destruct (defaultWatcher st) as [w|] eqn:Hd; [|by apply ret_inv in Hst as [? _]].
      by apply (stop_default w) in Hst as (? & _).
    - exists st1. destruct (defaultWatcher st) as [w|] eqn:Hd.
      + by apply (stop_default w) in Hst as (_ & ? & ?).
      + apply ret_inv in Hst as [_ ->]. split; [done|]. split; [|done].
        destruct (wt_served st) as [|h l] eqn:El; [done|exfalso].
        assert (h ∈ wt_served st) as (w & Hd' & _)%(wd_holds _ Hw)
          by (rewrite El; by left). congruence. }
  clear Hr Hw. apply bind_inv in Hr1 as [(e & Hwt & ->)|(w & st2 & Hwt & Hd)];
    apply (watch_run s st1) in Hwt; try done; rewrite Hb1 in Hwt; [exact Hwt|].
  destruct Hwt as (Hn & Hh & Hold & Ht). injection Hd as <- <-. cbn. split.
  + split; cbn; [|exact Hold]. intros h. rewrite Hh. unfold holds. cbn.
    split; [by eexists|]. intros (w' & [= <-] & ?). done.
  + by exists w.
Qed.

Lemma Stop_run (st : WatchState) r st' :
  watched st -> Stop st = (r, st') ->
  r = inr tt /\ watched st' /\ wt_served st' = [] /\ defaultWatcher st' = None.
Proof.
  intros Hw. unfold Stop. intros Hr.
  apply bind_inv in Hr as [(? & ? & _)|(x & st0 & Hg & Hr)]; [done|].
  injection Hg as <- <-. destruct (defaultWatcher st) as [w|] eqn:Hd.
  + apply bind_inv in Hr as [(e & Hst & ->)|([] & st1 & Hst & Hr)];
      apply (stop_default w) in Hst as (? & _ & Hs); try done.
    injection Hr as <- <-. cbn. split; [done|]. split; [|done].
    split; cbn; rewrite Hs; intros h; [|by intros ?%elem_of_nil].
    split; [by intros ?%elem_of_nil|]. by intros (? & ? & _).
  + apply ret_inv in Hr as [-> ->]. split; [done|]. split; [done|]. split; [|done].
    destruct (wt_served st) as [|h l] eqn:El; [done|exfalso].
    assert (h ∈ wt_served st) as (w & Hd' & _)%(wd_holds _ Hw)
      by (rewrite El; by left). congruence.
Qed.

(** The subscriptions of the watcher that are served are at any time those the
    default watcher holds, whatever [Watch] and [Stop] are called and whatever
    the broker answers: [Watch] lets go of the former ones and, with a connected
    broker, serves the two topics again for the new name; [Stop] leaves none.
    [Watch] only fails where it panics, without a default broker. *)
Theorem watcher_subscriptions s (st : WatchState) r st' :
  watched st ->
  (Watch s st = (r, st') ->
   match r with
   | inl e => e = EPanic /\ wt_broker st = None
   | inr _ => watched st' /\
       exists w, defaultWatcher st' = Some w /\ serviceName w = s /\
         (wt_broker st = Some true ->
          on_topic TopicNoticeGlobalLoggingLevelUpdated (gSub w) /\
          on_topic TopicNoticeServiceLoggingLevelUpdated (sSub w))
   end) /\
  (Stop st = (r, st') ->
   r = inr tt /\ watched st' /\ wt_served st' = [] /\ defaultWatcher st' = None).
Proof. intros Hw. split; [by apply Watch_run|by apply Stop_run]. Qed.
End watch.

(** ** Examples *)
#[local] Existing Instance mem_backend.
#[local] Existing Instance mem_backend_laws.
#[local] Instance g_levels : Levels := {
  GetLevel s := if (s =? "debug")%string then -1 else 0;
  known_level s := true;
  unsubscribe_fails _ := None
}.
Definition g_tables : tables := fun t =>
  match t with
  | TServiceConfig => [ServiceConfig.mk "cdm-cloud-identity" ServiceLogLevel "debug"]
  | TGlobalConfig => [GlobalConfig.mk GlobalLogLevel "info"]
  | _ => []
  end.
Definition g_world : @World mem_backend := start g_tables [].
Definition g_run := updateLoggingLevel "cdm-cloud-identity" g_world.

Lemma level_follows_settings_witness :
  lg_level (w_log g_run.2) = -1 /\ rows_eq g_world g_run.2.
Proof.
  split; [vm_compute; reflexivity|].
  apply (level_follows_settings "cdm-cloud-identity" g_world g_run.1 g_run.2).
  unfold g_run. apply surjective_pairing.
Defined.

Definition g_state : @WatchState mem_backend := mkWatch _ g_world (Some true) [] 0 None.
Definition g_watch := Watch "cdm-cloud-identity" g_state.

Lemma watcher_subscriptions_witness :
  List.length (wt_served g_watch.2) = 2%nat /\ watched g_watch.2.
Proof.
  split; [vm_compute; reflexivity|].
  assert (watched g_state) as Hw.
  { split; intros h; cbn; rewrite elem_of_nil; [|done]. split; [done|].
    by intros (? & ? & _). }
  pose proof (proj1 (watcher_subscriptions "cdm-cloud-identity" g_state g_watch.1
    g_watch.2 Hw) (surjective_pairing _)) as H.
  assert (g_watch.1 = inr tt) as E by (vm_compute; reflexivity).
  rewrite E in H. apply H.
Defined.
