(* ===== verification/EtcdProps.v ===== *)
(** * The endpoints of the etcd clients, and the sessions of the synchronisation *)

From stdpp Require Import base tactics list strings gmap sorting relations.
From Stdlib Require Import ZArith Lia Ascii.
From S2P Require Import Prelude GoStd Json Backend Errors Discovery EtcdClient Sync.
#[local] Open Scope Z_scope.
#[local] Open Scope go_scope.

Section endpoints.
Context `{Registry} `{Etcd}.

(** The addresses the registry names in its [k]-th answer: none when it fails or
    knows no such service. *)
Definition named_at (name : string) (k : nat) : list string :=
  match GetService k name with
  | inr (nodes :: _) => map Address nodes
  | _ => []
  end.

Lemma endpoints_of_run f m (e : etcdStore) :
  exists r, endpoints_of f m e =
    (r, mkStore (options e) (config e) (client e) (S (e_tick e))) /\
    match r with
    | inr l => l = named_at (ServiceName (options e)) (e_tick e)
    | inl _ => named_at (ServiceName (options e)) (e_tick e) = []
    end.
Proof.
  unfold endpoints_of, bind, get, e_count, discovered, named_at. cbn.
  destruct (GetService _ _) as [[]|[|nodes services]]; by eexists.
Qed.

(** One round of [resetEndpoints]. *)
Lemma reset_round_run f m (e : etcdStore) eps r e' :
  client e = Some eps -> reset_round (endpoints_of f m) e = (r, e') ->
  r = inr tt /\ options e' = options e /\ config e' = config e /\
  e_tick e' = S (e_tick e) /\
  exists eps', client e' = Some eps' /\
    (named_at (ServiceName (options e)) (e_tick e) = [] -> eps' = eps) /\
    (named_at (ServiceName (options e)) (e_tick e) <> [] ->
     eps' ≡ₚ named_at (ServiceName (options e)) (e_tick e)).
Proof.
  intros Hc. destruct (endpoints_of_run f m e) as (x & Hx & Hn).
  unfold reset_round, bind, attempt, get. rewrite Hx. cbn. rewrite Hc.
  set (l := match x with inr l => l | inl _ => [] end).
  assert (l = named_at (ServiceName (options e)) (e_tick e)) as <-
    by (unfold l; by destruct x).
  case_bool_decide as Hs; [|case_bool_decide as Hl]; intros [= <- <-]; cbn;
    (do 4 (split; [done|])).
  - exists eps. split; [done|]. split; [done|]. intros _.
    rewrite <- (merge_sort_Permutation String.le l), Hs. by rewrite merge_sort_Permutation.
  - exists eps. done.
  - eexists. split; [done|]. split; [done|]. intros _. by rewrite merge_sort_Permutation.
Qed.

(** Rounds, one after the other. *)
Definition round_of (f m : string) (e e' : etcdStore) : Prop :=
  reset_round (endpoints_of f m) e = (inr tt, e').

(** The client talks to servers that one answer of the registry named. *)
Definition follows (e : etcdStore) : Prop :=
  exists eps k, client e = Some eps /\ (k < e_tick e)%nat /\
    eps ≡ₚ named_at (ServiceName (options e)) k.

Lemma follows_round f m e e' : follows e -> round_of f m e e' -> follows e'.
Proof.
  intros (eps & k & Hc & Hk & Hp) (_ & Ho & _ & Ht & eps' & Hc' & Hnone & Hsome)
    %(reset_round_run _ _ _ _ _ _ Hc).
  destruct (decide (named_at (ServiceName (options e)) (e_tick e) = [])) as [Hn|Hn].
  - exists eps', k. rewrite Ho, Ht. split; [done|]. split; [lia|]. by rewrite (Hnone Hn).
  - exists eps', (e_tick e). rewrite Ho, Ht. split; [done|]. split; [lia|]. by apply Hsome.
Qed.

Lemma follows_rounds f m e e' : follows e -> rtc (round_of f m) e e' -> follows e'.
Proof. intros Hf Hr. induction Hr; [done|]. eauto using follows_round. Qed.

(** What a connected client goes through. *)
Definition kept_up (f m : string) (e : etcdStore) : Prop :=
  forall e2, rtc (round_of f m) e e2 ->
  follows e2 /\
  forall eps r e3, client e2 = Some eps -> reset_round (endpoints_of f m) e2 = (r, e3) ->
    r = inr tt /\ exists eps', client e3 = Some eps' /\
      let l := named_at (ServiceName (options e2)) (e_tick e2) in
      (l = [] -> eps' = eps) /\ (l <> [] -> eps' ≡ₚ l).

Lemma follows_kept_up f m e : follows e -> kept_up f m e.
Proof.
  intros Hf e2 Hr. split; [by eapply follows_rounds|]. intros eps r e3 Hc Hs.
  apply (reset_round_run _ _ _ _ _ _ Hc) in Hs as (-> & _ & _ & _ & eps' & Hc' & Hn & Hp).
  split; [done|]. by exists eps'.
Qed.

(** Connecting: the client has the endpoints, or the error is one of three. *)
Lemma connected_follows f m (e : etcdStore) r e' :
  (x <- attempt (endpoints_of f m) ;;
   e <- get ;;
   match x with
   | inl err => set_config (set_Endpoints [] (config e)) ;; throw err
   | inr eps =>
       let c := set_Endpoints eps (config e) in
       set_config c ;;
       k <- e_count ;;
       match client_refused k c with
       | Some text => set_client None ;; throw (ERemote text)
       | None => set_client (Some eps)
       end
   end) e = (r, e') ->
  match r with
  | inr _ => follows e' /\ options e' = options e
  | inl err => err = EPlain f \/ err = EPlain m \/ exists text, err = ERemote text
  end.
Proof.
  destruct (endpoints_of_run f m e) as (x & Hx & Hn).
  unfold bind, attempt, get. rewrite Hx. cbn.
  destruct x as [err|l].
  - intros [= <- <-]. revert Hx. unfold endpoints_of, bind, get, e_count, discovered. cbn.
    destruct (GetService _ _) as [[]|[|nodes services]]; intros [= <-]; auto.
  - destruct (client_refused _ _); intros [= <- <-]; [by right; right; eexists|].
    split; [|done]. exists l, (e_tick e). cbn. split; [done|]. split; [lia|]. by subst.
Qed.

Lemma NewClient_run name opts tick r e :
  NewClient name opts tick = (r, e) ->
  match r with
  | inr _ => follows e /\
      options e = fold_left (fun o f => f o) opts (mkOptions name [] 0)
  | inl err => err = EPlain "could not discover service" \/
      err = EPlain "not found service" \/ exists text, err = ERemote text
  end.
Proof.
  unfold NewClient, SyncInit, SyncEndpoints.
  intros [(? & ? & _)|(s & s1 & Hg & Hr)]%bind_inv; [done|].
  injection Hg as <- <-.
  apply bind_inv in Hr as [(? & ? & _)|([] & s1 & Hs & Hr)]; [done|].
  injection Hs as <-. by apply connected_follows in Hr.
Qed.

(** C37. The etcd clients follow the registry.  Once [Connect] of the store, or
    [NewClient] of the synchronisation, succeeds, the client has the addresses of
    the first version of the service that some answer of the registry named, and
    so it is after any number of rounds of the goroutine that watches the
    registry: a round never ends it; when the registry names addresses the client
    has exactly these afterwards (in some order), and when it fails or names none
    the client keeps those it had.  A failure to connect is one of the two errors
    about the service or the error of the client. *)
Theorem endpoints_follow name opts opts' tick r e r' e' :
  Connect (NewStore name opts tick) = (r, e) ->
  NewClient name opts' tick = (r', e') ->
  match r with
  | inr _ => kept_up "could not discover store service" "not found store service" e
  | inl err => err = EPlain "could not discover store service" \/
      err = EPlain "not found store service" \/ exists text, err = ERemote text
  end /\
  match r' with
  | inr _ => kept_up "could not discover service" "not found service" e'
  | inl err => err = EPlain "could not discover service" \/
      err = EPlain "not found service" \/ exists text, err = ERemote text
  end.
Proof.
  intros Hr Hr'. split.
  - apply connected_follows in Hr. destruct r; [done|]. apply follows_kept_up, Hr.
  - apply NewClient_run in Hr'. destruct r'; [done|]. apply follows_kept_up, Hr'.
Qed.
End endpoints.

(** ** Sessions *)
Section sessions.
Context `{Registry} `{Etcd} `{Concurrency}.

(** Every open session was opened before. *)
Definition old (s : etcdSync) : Prop :=
  forall x, x ∈ sy_sessions s -> (x < sy_tick s)%nat.

(** Opening a session and answering with its handle: either no session is open
    that was not, and there is no handle; or one is, and the handle has it. *)
Definition handed (s s' : etcdSync) (handle : option nat) : Prop :=
  match handle with
  | None => sy_sessions s' = sy_sessions s
  | Some x => sy_sessions s' = x :: sy_sessions s /\ x ∉ sy_sessions s
  end.

Lemma NewSession_run s r s' :
  NewSession s = (r, s') ->
  sy_tick s' = S (sy_tick s) /\
  match r with
  | inl e => sy_sessions s' = sy_sessions s /\ exists text, e = ERemote text
  | inr x => x = sy_tick s /\ sy_sessions s' = x :: sy_sessions s
  end.
Proof.
  unfold NewSession, bind, get, sy_count. cbn. destruct (session_refused _ _).
  - intros [= <- <-]. split; [done|]. split; [done|]. by eexists.
  - by intros [= <- <-].
Qed.

(** No session is lost.  [CampaignLeader] and [Lock] never panic; they open at
    most one session, and whenever they opened one they return the handle that
    closes it, with an error or without; without an error the handle can be used,
    and only then.  Closing a handle ends its session and no other, whatever etcd
    answers. *)
Theorem sessions_accounted path s :
  old s ->
  (exists l e s', CampaignLeader path s = (inr (l, e), s') /\ old s' /\
     handed s s' (l_s <$> l) /\
     match e with
     | None => exists x uuid, l = Some (mkLeader (Some path) x uuid)
     | Some _ => match l with Some h => l_e h = None | None => True end
     end) /\
  (exists k e s', Lock path s = (inr (k, e), s') /\ old s' /\
     handed s s' (k_s <$> k) /\
     match e with
     | None => exists x, k = Some (mkLocker x (Some path))
     | Some _ => match k with Some h => k_m h = None | None => True end
     end) /\
  (forall x, exists r s', CloseSession x s = (r, s') /\ r <> inl EPanic /\ old s' /\
     forall y, y ∈ sy_sessions s' <-> y ∈ sy_sessions s /\ y <> x).
Proof.
  intros Hold. destruct (NewSession s) as [x s1] eqn:Hx.
  pose proof (NewSession_run _ _ _ Hx) as [Ht Hs].
  assert (forall s2, sy_sessions s2 = sy_tick s :: sy_sessions s ->
    (sy_tick s < sy_tick s2)%nat -> old s2) as Hnew.
  { intros s2 Hs2 Ht2 y. rewrite Hs2. intros [->|Hy]%elem_of_cons; [done|].
    apply Hold in Hy. lia. }
  assert (sy_tick s ∉ sy_sessions s) as Hfresh by (intros ?%Hold; lia).
  split; [|split].
  - unfold CampaignLeader, bind, attempt. rewrite Hx. destruct x as [e|x].
    + destruct Hs as [Hs (text & ->)]. do 3 eexists. split; [done|].
      split; [|by split]. intros y. rewrite Hs, Ht. intros ?%Hold. lia.
    + destruct Hs as [-> Hs]. cbn. destruct (campaign_lost _ _ _ _); do 3 eexists;
        (split; [done|]); (split; [apply Hnew; cbn; [done|lia]|]); cbn;
        (split; [done|]); [done|by do 2 eexists].
  - unfold Lock, bind, attempt. rewrite Hx. destruct x as [e|x].
    + destruct Hs as [Hs (text & ->)]. do 3 eexists. split; [done|].
      split; [|by split]. intros y. rewrite Hs, Ht. intros ?%Hold. lia.
    + destruct Hs as [-> Hs]. cbn. destruct (lock_lost _ _ _); do 3 eexists;
        (split; [done|]); (split; [apply Hnew; cbn; [done|lia]|]); cbn;
        (split; [done|]); [done|by eexists].
  - intros y.
    assert (forall z, z ∈ List.filter (fun z => negb (z =? y)%nat) (sy_sessions s) <->
      z ∈ sy_sessions s /\ z <> y) as Hf.
    { intros z. rewrite !list_elem_of_In, List.filter_In, negb_true_iff, Nat.eqb_neq. done. }
    unfold CloseSession, bind, sy_count, set_sessions, modify, answered. cbn.
    destruct (close_fails _ _); do 2 eexists; (split; [done|]); (split; [done|]);
      (split; [|exact Hf]); intros z; cbn; rewrite Hf; intros [?%Hold _]; lia.
Qed.
End sessions.

(** ** Examples *)
(** A registry whose etcd service moves to another node, fails, and comes back. *)
#[local] Instance moving : Registry := {
  GetService k name :=
    match k with
    | 0%nat => inr [[mkNode "10.0.0.2:2379" ∅; mkNode "10.0.0.1:2379" ∅]]
    | 2%nat => inl (RegistryFailed "timeout")
    | _ => inr [[mkNode "10.0.0.3:2379" ∅]]
    end;
  rand_start _ := 0%nat
}.
#[local] Instance willing : Etcd := {
  client_refused _ _ := None;
  client_close_fails _ := None
}.

Definition n_run := Connect (NewStore "cdm-cloud-etcd" [Auth "root" "pw"] 0).
Definition n_sync := NewClient "cdm-cloud-etcd" [Auth "root" "pw"] 0.

Lemma endpoints_follow_witness :
  client n_run.2 = Some ["10.0.0.2:2379"; "10.0.0.1:2379"]%string /\
  c_Username (config n_run.2) = "root"%string /\
  client (resetEndpoints n_run.2).2 = Some ["10.0.0.2:2379"; "10.0.0.1:2379"]%string /\
  kept_up "could not discover store service" "not found store service" n_run.2.
Proof.
  split; [vm_compute; reflexivity|]. split; [vm_compute; reflexivity|].
  split; [vm_compute; reflexivity|].
  exact (proj1 (endpoints_follow "cdm-cloud-etcd" [Auth "root" "pw"] [Auth "root" "pw"] 0
    n_run.1 n_run.2 n_sync.1 n_sync.2 (surjective_pairing _) (surjective_pairing _))).
Defined.

#[local] Instance quiet : Concurrency := {
  session_refused _ _ := None;
  campaign_lost n _ _ _ := if (n =? 3)%nat then Some "lost"%string else None;
  lock_lost _ _ _ := None;
  resign_fails _ _ := None;
  unlock_fails _ _ := None;
  close_fails _ _ := None;
  new_uuid _ := "uuid"%string
}.
Definition n_state : etcdSync := mkSync n_sync.2 60 [] 1.

Lemma sessions_accounted_witness :
  (CampaignLeader "/leader" n_state).1
  = inr (Some (mkLeader None 1 EmptyString), Some (ERemote "lost")) /\
  exists r s', CloseSession 1 (CampaignLeader "/leader" n_state).2 = (r, s') /\
    sy_sessions s' = [].
Proof.
  assert (old n_state) as Ho by (intros x ?%elem_of_nil; done).
  destruct (sessions_accounted "/leader" n_state Ho) as [(l & e & s' & Hr & _) _].
  rewrite Hr. revert Hr. vm_compute. intros [= <- <- <-]. split; [done|].
  do 2 eexists. by split.
Defined.
