(* ===== verification/Command.v ===== *)
(** * common/command.go, common.go: starting and stopping the framework

    The command of every service connects the broker, the store, the
    synchronisation and the database by its flags, and starts the watcher; its
    Destroy lets go of them.  The components are those of [Broker],
    [EtcdClient], [Sync], [DbConn] and [Watcher]; the parsed command line, and
    the registry that a name stands for, are parameters. *)

From stdpp Require Import base tactics list strings gmap.
From Stdlib Require Import ZArith Lia Ascii.
From S2P Require Import Prelude GoStd Json Model Backend Errors Gorm Database Config.
From S2P Require Import Report Discovery DbConn Broker EtcdClient Sync Watcher.
#[local] Open Scope Z_scope.
#[local] Open Scope go_scope.

(** ** Flags and options *)
Inductive flag_value := StringFlag (v : string) | IntFlag (v : Z) | BoolFlag.
Record flag := mkFlag {
  fl_Name : string;
  fl_Value : flag_value;
  fl_Usage : string;
  fl_Required : bool
}.

Definition defaultFlags : list flag := [
  mkFlag "micro_registry" (StringFlag "") "Name of micro registry" false;
  mkFlag "cdm_broker_service_name" (StringFlag "") "Name of cdm message broker service" true;
  mkFlag "cdm_broker_username" (StringFlag "")
    "Username for authentication message broker" true;
  mkFlag "cdm_broker_password" (StringFlag "")
    "Password for authentication message broker" true;
  mkFlag "cdm_store_service_name" (StringFlag "") "Name of cdm key-value store service" true;
  mkFlag "cdm_store_username" (StringFlag "")
    "Username for authentication key-value store" false;
  mkFlag "cdm_store_password" (StringFlag "")
    "Password for authentication key-value store" false;
  mkFlag "cdm_store_heartbeat_interval" (IntFlag 0)
    "Interval of store connection check" false;
  mkFlag "cdm_sync_backend_service_name" (StringFlag "")
    "Name of cdm sync backend service" true;
  mkFlag "cdm_sync_backend_username" (StringFlag "")
    "Username for authentication sync backend" false;
  mkFlag "cdm_sync_backend_password" (StringFlag "")
    "Password for authentication sync backend" false;
  mkFlag "cdm_sync_backend_heartbeat_interval" (IntFlag 0)
    "Interval of sync backend connection check" false;
  mkFlag "cdm_sync_ttl" (IntFlag 0) "sync backend expired time" false;
  mkFlag "cdm_database_service_name" (StringFlag "") "Name of cdm database service" true;
  mkFlag "cdm_database_name" (StringFlag "") "Name of cdm database instance" true;
  mkFlag "cdm_database_username" (StringFlag "") "Username for authentication database" true;
  mkFlag "cdm_database_password" (StringFlag "") "Password for authentication database" true;
  mkFlag "cdm_database_ssl_enable" BoolFlag "Enable SSL for database connection" false;
  mkFlag "cdm_database_ssl_ca" (StringFlag "")
    "Certification file for database SSL connection" false;
  mkFlag "cdm_database_heartbeat_interval" (IntFlag 0)
    "Interval of database connection check" false;
  mkFlag "cdm_database_reconnect_interval" (IntFlag 0)
    "Interval of database re-connection" false;
  mkFlag "micro_logger_level" (StringFlag "warn")
    "Default level for the micro framework logger" false;
  mkFlag "micro_client_request_timeout" (IntFlag 30)
    "Default request timeout for micro client" false
]%string.

Definition defaultPersistentQueues : list string := [QueueReportEvent].

(** common.Options, and the options of [Init]. *)
Record CmdOptions := mkCmd { Flags : list flag; PersistentQueues : list string }.
Definition WithFlags (flags : list flag) (o : CmdOptions) : CmdOptions :=
  mkCmd (Flags o ++ flags) (PersistentQueues o).
Definition WithPersistentQueue (name : list string) (o : CmdOptions) : CmdOptions :=
  mkCmd (Flags o) (PersistentQueues o ++ name).
Definition newCommand (opts : list (CmdOptions -> CmdOptions)) : CmdOptions :=
  fold_left (fun o f => f o) opts (mkCmd defaultFlags defaultPersistentQueues).

(** The command line as the framework parsed it. *)
Record cli := mkCli {
  cli_String : string -> string;
  cli_Int : string -> Z;
  cli_Bool : string -> bool;
  cli_IsSet : string -> bool;
  cli_AppName : string
}.

(** ** The process *)
Record Process `{Backend} := mkProcess {
  pr_world : World;
  pr_registry : Registry;
  pr_timeout : Z;
  pr_broker : option rbroker;
  pr_store : option etcdStore;
  pr_sync : option etcdSync;
  pr_db : option (DbOptions.t * Wrapper);
  pr_served : list Handle;
  pr_watcher : option watcher;
  pr_mlevel : Z;
  pr_tick : nat
}.

Section command.
Context `{Backend} `{Levels} `{Etcd} `{Dialer} `{Amqp}.

(** [cmd.DefaultRegistries] *)
Variable DefaultRegistries : string -> option Registry.
(** The command and its command line. *)
Variable opts : CmdOptions.
Variable ctx : cli.

Abbreviation PrAct := (M Process err).

Definition set_registry (reg : Registry) : PrAct unit := modify (fun p =>
  mkProcess _ (pr_world p) reg (pr_timeout p) (pr_broker p) (pr_store p) (pr_sync p)
    (pr_db p) (pr_served p) (pr_watcher p) (pr_mlevel p) (pr_tick p)).
Definition set_timeout (t : Z) : PrAct unit := modify (fun p =>
  mkProcess _ (pr_world p) (pr_registry p) t (pr_broker p) (pr_store p) (pr_sync p)
    (pr_db p) (pr_served p) (pr_watcher p) (pr_mlevel p) (pr_tick p)).
Definition set_broker (b : option rbroker) (tick : nat) : PrAct unit := modify (fun p =>
  mkProcess _ (pr_world p) (pr_registry p) (pr_timeout p) b (pr_store p) (pr_sync p)
    (pr_db p) (pr_served p) (pr_watcher p) (pr_mlevel p) tick).
Definition set_store (s : option etcdStore) (tick : nat) : PrAct unit := modify (fun p =>
  mkProcess _ (pr_world p) (pr_registry p) (pr_timeout p) (pr_broker p) s (pr_sync p)
    (pr_db p) (pr_served p) (pr_watcher p) (pr_mlevel p) tick).
Definition set_sync (s : option etcdSync) (tick : nat) : PrAct unit := modify (fun p =>
  mkProcess _ (pr_world p) (pr_registry p) (pr_timeout p) (pr_broker p) (pr_store p) s
    (pr_db p) (pr_served p) (pr_watcher p) (pr_mlevel p) tick).
Definition set_db_conn (d : option (DbOptions.t * Wrapper)) (tick : nat) : PrAct unit :=
  modify (fun p =>
    mkProcess _ (pr_world p) (pr_registry p) (pr_timeout p) (pr_broker p) (pr_store p)
      (pr_sync p) d (pr_served p) (pr_watcher p) (pr_mlevel p) tick).
Definition set_mlevel (l : Z) : PrAct unit := modify (fun p =>
  mkProcess _ (pr_world p) (pr_registry p) (pr_timeout p) (pr_broker p) (pr_store p)
    (pr_sync p) (pr_db p) (pr_served p) (pr_watcher p) l (pr_tick p)).

(** What the watcher does, on its part of the process. *)
Definition watch_state (p : Process) : WatchState :=
  mkWatch _ (pr_world p)
    ((fun b => match rb_conn b with Some _ => true | None => false end) <$> pr_broker p)
    (pr_served p) (pr_tick p) (pr_watcher p).
Definition on_watch {A} (c : M WatchState err A) : PrAct A := fun p =>
  let '(r, s) := c (watch_state p) in
  (r, mkProcess _ (wt_world s) (pr_registry p) (pr_timeout p) (pr_broker p) (pr_store p)
        (pr_sync p) (pr_db p) (wt_served s) (defaultWatcher s) (pr_mlevel p) (wt_tick s)).

(** The error of a call on a component. *)
Definition result (r : err + unit) : PrAct unit :=
  match r with inl e => throw e | inr _ => ret tt end.

(** [time.Duration(ctx.Int(name)) * time.Second] *)
Definition seconds (name : string) : Z := Int.duration (cli_Int ctx name) Int.Second.

(** An option that is given when the condition holds. *)
Definition opt_if {A} (b : bool) (o : A) : list A := if b then [o] else [].

Definition initDefaults : PrAct unit :=
  let timeout := cli_Int ctx "micro_client_request_timeout" in
  (if 0 <? timeout then set_timeout (Int.duration timeout Int.Second) else ret tt) ;;
  let registryName := cli_String ctx "micro_registry" in
  if is_empty registryName then ret tt
  else match DefaultRegistries registryName with
       | None => throw (ENew "invalid registry name")
       | Some reg => set_registry reg
       end.

(** [broker.Init], [broker.Connect] *)
Definition initBroker : PrAct unit :=
  let o := NewBroker (cli_String ctx "cdm_broker_service_name")
             (opt_if (negb (bool_decide (PersistentQueues opts = [])))
                (BkOptions.add_PersistentQueue (PersistentQueues opts))) in
  p <- get ;;
  let b := mkBroker o (cli_String ctx "cdm_broker_username")
             (cli_String ctx "cdm_broker_password") None in
  let '(r, b', tick) := @BrokerConnect (pr_registry p) _ b (pr_tick p) in
  set_broker (Some b') tick ;;
  result r.

Definition destroyBroker : PrAct unit :=
  p <- get ;;
  match pr_broker p with
  | None => ret tt
  | Some b =>
      let '(r, _) := BrokerDisconnect b in
      match r with
      | inl EPanic => throw EPanic
      | _ => set_broker None (pr_tick p) ;; result r
      end
  end.

(** [store.Init], [store.Connect] *)
Definition store_options : list Option :=
  opt_if (cli_IsSet ctx "cdm_store_username" && cli_IsSet ctx "cdm_store_password")
    (EtcdClient.Auth (cli_String ctx "cdm_store_username")
       (cli_String ctx "cdm_store_password"))
  ++ opt_if (cli_IsSet ctx "cdm_store_heartbeat_interval")
       (EtcdClient.HeartbeatInterval (seconds "cdm_store_heartbeat_interval")).

Definition initStore : PrAct unit :=
  p <- get ;;
  let '(r, s) := @EtcdClient.Connect (pr_registry p) _
    (NewStore (cli_String ctx "cdm_store_service_name") store_options (pr_tick p)) in
  set_store (Some s) (e_tick s) ;;
  result r.

Definition destroyStore : PrAct unit :=
  p <- get ;;
  match pr_store p with
  | None => ret tt
  | Some s =>
      let '(r, s') := EtcdClient.Close s in
      set_store None (e_tick s') ;; result r
  end.

(** [sync.Init]: the account is read from the flags of the store. *)
Definition sync_flags : list (SyncOptions.t -> SyncOptions.t) :=
  opt_if (cli_IsSet ctx "cdm_sync_backend_username"
          && cli_IsSet ctx "cdm_sync_backend_password")
    (SyncOptions.Auth (cli_String ctx "cdm_store_username")
       (cli_String ctx "cdm_store_password"))
  ++ opt_if (cli_IsSet ctx "cdm_sync_backend_heartbeat_interval")
       (SyncOptions.HeartbeatInterval (seconds "cdm_store_heartbeat_interval"))
  ++ opt_if (cli_IsSet ctx "cdm_sync_ttl") (SyncOptions.TTL (cli_Int ctx "cdm_sync_ttl")).

Definition initSync : PrAct unit :=
  p <- get ;;
  let '(r, tick) := @NewEtcdSync (pr_registry p) _
    (cli_String ctx "cdm_sync_backend_service_name") sync_flags (pr_tick p) in
  match r with
  | inl e => set_sync None tick ;; throw e
  | inr s => set_sync (Some s) tick
  end.

Definition destroySync : PrAct unit :=
  p <- get ;;
  match pr_sync p with
  | None => ret tt
  | Some s =>
      let '(r, s') := EtcdClient.Close (sy_client s) in
      set_sync None (e_tick s') ;; result r
  end.

(** [database.Init], [database.Connect] *)
Definition database_options : DbOptions.t :=
  options_of (cli_String ctx "cdm_database_service_name")
    (cli_String ctx "cdm_database_name") (cli_String ctx "cdm_database_username")
    (cli_String ctx "cdm_database_password")
    ([DbOptions.set_SSLEnable (cli_Bool ctx "cdm_database_ssl_enable")]
     ++ opt_if (cli_IsSet ctx "cdm_database_ssl_ca")
          (DbOptions.set_SSLCACert (cli_String ctx "cdm_database_ssl_ca"))
     ++ opt_if (cli_IsSet ctx "cdm_database_heartbeat_interval")
          (DbOptions.set_HeartbeatInterval (seconds "cdm_database_heartbeat_interval"))
     ++ opt_if (cli_IsSet ctx "cdm_database_reconnect_interval")
          (DbOptions.set_ReconnectInterval (seconds "cdm_database_reconnect_interval"))).

Definition initDatabase : PrAct unit :=
  p <- get ;;
  let '(r, c) := @DbConn.connect (pr_registry p) _ database_options
                   (mkWrapper None false [] (pr_tick p)) in
  set_db_conn (Some (database_options, c)) (c_tick c) ;;
  result r.

(** [database.Close]: a default database that was never made is a nil pointer. *)
Definition destroyDatabase : PrAct unit :=
  p <- get ;;
  match pr_db p with
  | None => throw EPanic
  | Some (o, c) =>
      let '(r, c') := DbConn.Close c in
      set_db_conn (Some (o, c')) (pr_tick p) ;; result r
  end.

(** The default logger at the level INFO, the watcher, and the logger of the
    framework. *)
Definition InfoLevel : Z := 0.
Definition initLogger : PrAct unit :=
  on_watch (on_world (set_level InfoLevel)) ;;
  on_watch (Watch (cli_AppName ctx)) ;;
  let text := cli_String ctx "micro_logger_level" in
  if known_level text then set_mlevel (GetLevel text) else ret tt.

Definition destroyLogger : PrAct unit := on_watch Stop.

Definition Before : PrAct unit :=
  initDefaults ;; initBroker ;; initStore ;; initSync ;; initDatabase ;; initLogger.

(** An error is only logged. *)
Definition warned (c : PrAct unit) : PrAct unit :=
  x <- attempt c ;;
  match x with
  | inl EPanic => throw EPanic
  | _ => ret tt
  end.

Definition Destroy : PrAct unit :=
  warned destroyLogger ;; warned destroyDatabase ;; warned destroyStore ;;
  warned destroySync ;; warned destroyBroker.
End command.
