(* ===== verification/CommandProps.v ===== *)
(** * Starting and stopping the framework *)

From stdpp Require Import base tactics list strings gmap.
From Stdlib Require Import ZArith Lia Ascii.
From S2P Require Import Prelude GoStd Json Model Backend Errors Gorm Database Config.
From S2P Require Import Report Discovery DbConn DbConnProps Broker BkProps EtcdClient.
From S2P Require Import Sync EtcdProps Watcher WatcherProps Command RefBackend.
#[local] Open Scope Z_scope.
#[local] Open Scope go_scope.

#[local] Arguments ConnConnect : simpl never.
#[local] Arguments EtcdClient.Connect : simpl never.
#[local] Arguments DbConn.connect : simpl never.

Section command.
Context `{BackendLaws} `{Levels} `{Etcd} `{Dialer} `{Amqp}.
Variable DefaultRegistries : string -> option Registry.
Variable opts : CmdOptions.
Variable ctx : cli.

(** ** What it is for a component to be up *)
Definition broker_up (p : Process) : Prop :=
  exists b conn, pr_broker p = Some b /\ rb_conn b = Some conn /\
    BkOptions.ServiceName (rb_opts b) = cli_String ctx "cdm_broker_service_name" /\
    connected conn = true /\ closed conn = false /\
    is_Some (Connection conn) /\ is_Some (Channel conn) /\ is_Some (ExchangeChannel conn) /\
    forall q, q ∈ PersistentQueues opts ->
      QueueDeclare q true false false false None ∈ b_log conn /\
      QueueBind q q "micro" false None ∈ b_log conn.

Definition store_up (p : Process) : Prop :=
  exists s, pr_store p = Some s /\ @follows (pr_registry p) s /\
    ServiceName (options s) = cli_String ctx "cdm_store_service_name" /\
    (cli_IsSet ctx "cdm_store_username" && cli_IsSet ctx "cdm_store_password" = true ->
     c_Username (config s) = cli_String ctx "cdm_store_username" /\
     c_Password (config s) = cli_String ctx "cdm_store_password").

Definition sync_up (p : Process) : Prop :=
  exists s, pr_sync p = Some s /\ @follows (pr_registry p) (sy_client s) /\
    ServiceName (options (sy_client s)) = cli_String ctx "cdm_sync_backend_service_name" /\
    sy_sessions s = [] /\
    sy_ttl s = if cli_IsSet ctx "cdm_sync_ttl" then cli_Int ctx "cdm_sync_ttl" else 60.

Definition database_up (p : Process) : Prop :=
  exists c db, pr_db p = Some (database_options ctx, c) /\
    c_DB c = Some db /\ c_live c = [db] /\ c_closed c = false.

Definition watching (p : Process) : Prop :=
  watched (watch_state p) /\
  exists w, pr_watcher p = Some w /\ serviceName w = cli_AppName ctx /\
    on_topic TopicNoticeGlobalLoggingLevelUpdated (gSub w) /\
    on_topic TopicNoticeServiceLoggingLevelUpdated (sSub w).

(** A process in which nothing was started. *)
Definition idle_process (p : Process) : Prop :=
  pr_broker p = None /\ pr_store p = None /\ pr_sync p = None /\ pr_db p = None /\
  pr_served p = [] /\ pr_watcher p = None.

(** ** The stages *)
Lemma initDefaults_run p r p' :
  initDefaults DefaultRegistries ctx p = (r, p') ->
  r <> inl EPanic /\
  p' = mkProcess _ (pr_world p) (pr_registry p') (pr_timeout p') (pr_broker p)
    (pr_store p) (pr_sync p) (pr_db p) (pr_served p) (pr_watcher p) (pr_mlevel p)
    (pr_tick p).
Proof.
  destruct p. unfold initDefaults, bind, set_timeout, set_registry, modify, ret, throw.
  destruct (0 <? _); destruct (is_empty _);
    try destruct (DefaultRegistries (cli_String ctx "micro_registry"));
    intros [= <- <-]; (split; [by intros [=]|reflexivity]).
Qed.

Lemma ConnConnect_run `{Registry} s c r c' :
  connected c = false -> ConnConnect s c = (r, c') ->
  r <> inl EPanic /\
  (r = inr tt ->
     connected c' = true /\ closed c' = false /\
     is_Some (Connection c') /\ is_Some (Channel c') /\ is_Some (ExchangeChannel c') /\
     forall q, q ∈ qNames s ->
       QueueDeclare q true false false false None ∈ b_log c' /\
       QueueBind q q (ex_Name (exchange s)) false None ∈ b_log c').
Proof.
  intros Hc. unfold ConnConnect. intros Hr.
  apply bind_inv in Hr as [(? & ? & _)|(x & c1 & Hg & Hr)]; [done|]. injection Hg as <- <-.
  rewrite Hc in Hr. apply bind_inv in Hr as [(? & ? & _)|([] & c1 & Hm & Hr)]; [done|].
  injection Hm as <-.
  apply bind_inv in Hr as [(e & Ht & ->)|([] & c2 & Ht & Hr)];
    apply tryConnect_run in Ht as [Hne Ht]; [split; congruence|].
  injection Hr as <- <-. split; [done|]. intros _. cbn.
  destruct Ht as (? & ? & ? & Hcl & _ & _ & _ & Hq). by rewrite Hcl.
Qed.

Lemma broker_options_queues :
  BkOptions.PersistentQueues (NewBroker (cli_String ctx "cdm_broker_service_name")
    (opt_if (negb (bool_decide (PersistentQueues opts = [])))
       (BkOptions.add_PersistentQueue (PersistentQueues opts)))) = PersistentQueues opts.
Proof. unfold opt_if. by case_bool_decide as E; cbn; [rewrite E|]. Qed.

Lemma initBroker_run p r p' :
  initBroker opts ctx p = (r, p') ->
  exists b tick, p' = mkProcess _ (pr_world p) (pr_registry p) (pr_timeout p) (Some b)
    (pr_store p) (pr_sync p) (pr_db p) (pr_served p) (pr_watcher p) (pr_mlevel p) tick /\
  r <> inl EPanic /\ (r = inr tt -> broker_up p').
Proof.
  unfold initBroker, bind, get, set_broker, modify, result, throw, ret, BrokerConnect. cbn.
  set (o := NewBroker _ _). set (s := conn_settings_of _ _ _).
  destruct (@ConnConnect (pr_registry p) _ s (new_conn (pr_tick p))) as [x conn] eqn:E.
  apply ConnConnect_run in E as [Hne Hup]; [|done].
  destruct x as [e|[]]; cbn; intros [= <- <-].
  - do 2 eexists. split; [done|]. split; [congruence|done].
  - do 2 eexists. split; [done|]. split; [done|]. intros _.
    destruct (Hup eq_refl) as (Hc & Hcl & ? & ? & ? & Hq).
    do 2 eexists. split; [done|]. split; [done|]. split.
    { cbn. unfold o, NewBroker, opt_if. by destruct (negb _). }
    do 5 (split; [done|]). intros q Hin.
    assert (ex_Name (exchange s) = "micro"%string) as Hex.
    { cbn. unfold o, NewBroker, opt_if. by destruct (negb _). }
    rewrite <- Hex. apply Hq. cbn. unfold o. by rewrite broker_options_queues.
Qed.

Lemma store_config tick :
  cli_IsSet ctx "cdm_store_username" && cli_IsSet ctx "cdm_store_password" = true ->
  let c := config (NewStore (cli_String ctx "cdm_store_service_name")
                     (store_options ctx) tick) in
  c_Username c = cli_String ctx "cdm_store_username" /\
  c_Password c = cli_String ctx "cdm_store_password".
Proof.
  intros Hs. unfold NewStore, store_options, opt_if. rewrite Hs.
  by destruct (cli_IsSet ctx "cdm_store_heartbeat_interval").
Qed.

Lemma Connect_config `{Registry} s r s' :
  EtcdClient.Connect s = (r, s') ->
  options s' = options s /\ c_Username (config s') = c_Username (config s) /\
  c_Password (config s') = c_Password (config s).
Proof.
  destruct (endpoints_of_run "could not discover store service" "not found store service" s)
    as (x & Hx & _).
  unfold EtcdClient.Connect, getServiceEndpoints, bind, attempt, get. rewrite Hx. cbn.
  destruct x; [by intros [= _ <-]|]. by destruct (client_refused _ _); intros [= _ <-].
Qed.

Lemma initStore_run p r p' :
  initStore ctx p = (r, p') ->
  exists s tick, p' = mkProcess _ (pr_world p) (pr_registry p) (pr_timeout p) (pr_broker p)
    (Some s) (pr_sync p) (pr_db p) (pr_served p) (pr_watcher p) (pr_mlevel p) tick /\
  r <> inl EPanic /\ (r = inr tt -> store_up p').
Proof.
  unfold initStore, bind, get, set_store, modify, result, throw, ret.
  destruct (@EtcdClient.Connect (pr_registry p) _ _) as [x s] eqn:E.
  pose proof (Connect_config _ _ _ E) as (Ho & Hu & Hp). apply connected_follows in E.
  destruct x as [e|[]]; cbn; intros [= <- <-].
  - do 2 eexists. split; [done|]. split; [|done].
    by destruct E as [->|[->|[? ->]]].
  - do 2 eexists. split; [done|]. split; [done|]. intros _. destruct E as [Hf _].
    eexists. split; [done|]. split; [exact Hf|]. split.
    + rewrite Ho. unfold NewStore, store_options, opt_if. cbn.
      by destruct (_ && _), (cli_IsSet ctx "cdm_store_heartbeat_interval").
    + intros Hs. rewrite Hu, Hp. by apply store_config.
Qed.

Lemma initSync_run p r p' :
  initSync ctx p = (r, p') ->
  exists s tick, p' = mkProcess _ (pr_world p) (pr_registry p) (pr_timeout p) (pr_broker p)
    (pr_store p) s (pr_db p) (pr_served p) (pr_watcher p) (pr_mlevel p) tick /\
  r <> inl EPanic /\ (r = inr tt -> sync_up p') /\ (r <> inr tt -> s = None).
Proof.
  unfold initSync, bind, get, set_sync, modify, throw, NewEtcdSync.
  destruct (@NewClient (pr_registry p) _ _ _ _) as [x c] eqn:E.
  apply NewClient_run in E.
  destruct x as [e|[]]; cbn; intros [= <- <-]; do 2 eexists; (split; [done|]).
  - split; [by destruct E as [->|[->|[? ->]]]|done].
  - split; [done|]. split; [|done]. intros _. destruct E as [Hf Ho].
    eexists. split; [done|]. cbn. split; [exact Hf|]. rewrite Ho. split; [done|].
    split; [done|]. unfold sync_options, sync_flags, opt_if.
    by destruct (_ && _), (cli_IsSet ctx "cdm_sync_backend_heartbeat_interval"),
      (cli_IsSet ctx "cdm_sync_ttl").
Qed.

Lemma initDatabase_run p r p' :
  initDatabase ctx p = (r, p') ->
  exists d tick, p' = mkProcess _ (pr_world p) (pr_registry p) (pr_timeout p) (pr_broker p)
    (pr_store p) (pr_sync p) d (pr_served p) (pr_watcher p) (pr_mlevel p) tick /\
  r <> inl EPanic /\ (r = inr tt -> database_up p').
Proof.
  unfold initDatabase, bind, get, set_db_conn, modify, result, throw, ret.
  destruct (@DbConn.connect (pr_registry p) _ _ _) as [x c] eqn:E.
  apply connect_inv in E.
  destruct x as [e|[]]; intros [= <- <-]; do 2 eexists; (split; [done|]); split; try done.
  - destruct E as [(e' & [= <-] & Hne & _)|(? & ? & _)]; [|done]. congruence.
  - intros _. destruct E as [(e' & ? & _)|(db & _ & Hdb & Hcl & Hl & _)]; [done|].
    by exists c, db.
Qed.

(** The watcher acts on its part of the process. *)
Lemma on_watch_run {A} (c : M WatchState err A) p r p' :
  on_watch c p = (r, p') ->
  exists st, c (watch_state p) = (r, st) /\
    p' = mkProcess _ (wt_world st) (pr_registry p) (pr_timeout p) (pr_broker p)
           (pr_store p) (pr_sync p) (pr_db p) (wt_served st) (defaultWatcher st)
           (pr_mlevel p) (wt_tick st) /\
    (watched st -> watched (watch_state p')).
Proof.
  unfold on_watch. destruct (c (watch_state p)) as [x st]. intros [= <- <-].
  exists st. split; [done|]. split; [done|]. intros [Hh Ho]. split; [|exact Ho].
  intros h. exact (Hh h).
Qed.

Lemma initLogger_run p r p' :
  watched (watch_state p) -> broker_up p ->
  initLogger ctx p = (r, p') ->
  r = inr tt /\ watching p' /\
  exists w l s k o, p' = mkProcess _ w (pr_registry p) (pr_timeout p) (pr_broker p)
    (pr_store p) (pr_sync p) (pr_db p) s o l k.
Proof.
  intros Hw (b & conn & Hb & Hconn & _) Hr. unfold initLogger in Hr.
  apply bind_inv in Hr as [(e & Ho & _)|([] & p1 & Ho & Hr)].
  { apply on_watch_run in Ho as (st & Ho & _). by injection Ho. }
  apply on_watch_run in Ho as (st & Ho & -> & Hw1). injection Ho as <-.
  apply bind_inv in Hr as [(e & Ho & ->)|([] & p2 & Ho & Hr)];
    apply on_watch_run in Ho as (st & Ho & Hp2 & Hw2);
    apply Watch_run in Ho; try (by apply Hw1; destruct Hw; split).
  { destruct Ho as [_ Hn]. cbn in Hn. by rewrite Hb in Hn. }
  destruct Ho as (Hst & w & Hdw & Hs & Ht). specialize (Hw2 Hst).
  cbn in Ht. rewrite Hb in Ht. cbn in Ht. rewrite Hconn in Ht. specialize (Ht eq_refl).
  subst p2. destruct (known_level _); injection Hr as <- <-; (split; [done|]); split;
    try (split; [exact Hw2|by exists w]); by do 5 eexists.
Qed.

Lemma Before_run p r p' :
  idle_process p -> Before DefaultRegistries opts ctx p = (r, p') ->
  match r with
  | inr _ => broker_up p' /\ store_up p' /\ sync_up p' /\ database_up p' /\ watching p'
  | inl e => e <> EPanic /\ pr_served p' = [] /\ pr_watcher p' = None /\
      (pr_db p' <> None -> broker_up p' /\ store_up p' /\ sync_up p') /\
      (pr_sync p' <> None -> broker_up p' /\ store_up p') /\
      (pr_store p' <> None -> broker_up p')
  end.
Proof.
  intros (Hb & Hs & Hy & Hd & Hse & Hwa) Hr. unfold Before in Hr.
  apply bind_inv in Hr as [(e & Hi & ->)|([] & p1 & Hi & Hr)];
    apply initDefaults_run in Hi as [Hne Hp1].
  { rewrite Hp1. cbn. split; [congruence|]. by split_and!. }
  assert (watched (watch_state p1)) as Hwd.
  { rewrite Hp1. split; cbn; rewrite Hse; [|by intros h ?%elem_of_nil].
    intros h. rewrite elem_of_nil. split; [done|]. intros (w & Hw & _). cbn in Hw. congruence. }
  assert (pr_broker p1 = None /\ pr_store p1 = None /\ pr_sync p1 = None /\ pr_db p1 = None /\
    pr_served p1 = [] /\ pr_watcher p1 = None) as (Hb1 & Hs1 & Hy1 & Hd1 & Hse1 & Hwa1)
    by (rewrite Hp1; by split_and!).
  clear Hp1 Hne Hb Hs Hy Hd Hse Hwa.
  apply bind_inv in Hr as [(e & Hi & ->)|([] & p2 & Hi & Hr)];
    apply initBroker_run in Hi as (b & k2 & -> & Hne & Hup).
  { cbn. split; [congruence|]. by split_and!. }
  specialize (Hup eq_refl).
  apply bind_inv in Hr as [(e & Hi & ->)|([] & p3 & Hi & Hr)];
    apply initStore_run in Hi as (s & k3 & -> & Hne3 & Hups).
  { cbn. split; [congruence|]. split_and!; done. }
  specialize (Hups eq_refl).
  apply bind_inv in Hr as [(e & Hi & ->)|([] & p4 & Hi & Hr)];
    apply initSync_run in Hi as (y & k4 & -> & Hne4 & Hupy & Hno).
  { cbn. split; [congruence|]. split_and!; done. }
  specialize (Hupy eq_refl).
  apply bind_inv in Hr as [(e & Hi & ->)|([] & p5 & Hi & Hr)];
    apply initDatabase_run in Hi as (d & k5 & -> & Hne5 & Hupd).
  { cbn. split; [congruence|]. split_and!; done. }
  specialize (Hupd eq_refl).
  apply initLogger_run in Hr as (-> & Hwt & w & l & sv & k & o & ->); [done| |done].
  destruct Hwd as [Hh Ho]. split; cbn in *; rewrite Hse1 in *; [|by intros h ?%elem_of_nil].
  intros h. rewrite elem_of_nil. split; [done|]. intros (w & Hw & _). cbn in Hw. congruence.
Qed.

(** C35. Starting a service.  From a process in which nothing was started, the
    command's Before never panics.  When it succeeds, everything is up: the
    default broker is connected to the service the flag names, with its three
    handles and every persistent queue declared and bound; the store and the
    synchronisation have a client that follows the registry, the store with the
    account of its flags; the default database has one open connection under the
    options of the flags; and the watcher of the application serves its two
    topics.  When it fails, what comes after the failing component was not
    touched, and a later component is only there when all the former are up
    (which are left as they are). *)
Theorem Before_spec p r p' :
  idle_process p -> Before DefaultRegistries opts ctx p = (r, p') ->
  match r with
  | inr _ => broker_up p' /\ store_up p' /\ sync_up p' /\ database_up p' /\ watching p'
  | inl e => e <> EPanic /\ pr_served p' = [] /\ pr_watcher p' = None /\
      (pr_db p' <> None -> broker_up p' /\ store_up p' /\ sync_up p') /\
      (pr_sync p' <> None -> broker_up p' /\ store_up p') /\
      (pr_store p' <> None -> broker_up p')
  end.
Proof. apply Before_run. Qed.

(** ** Stopping *)
Lemma warned_run (c : M Process err unit) p x p1 :
  c p = (x, p1) -> x <> inl EPanic -> warned c p = (inr tt, p1).
Proof.
  intros Hc Hx. unfold warned, bind, attempt. rewrite Hc.
  destruct x as [[]|]; done.
Qed.

Lemma destroyStore_run p : store_up p ->
  exists x p', destroyStore p = (x, p') /\ x <> inl EPanic /\
  exists k, p' = mkProcess _ (pr_world p) (pr_registry p) (pr_timeout p) (pr_broker p)
    None (pr_sync p) (pr_db p) (pr_served p) (pr_watcher p) (pr_mlevel p) k.
Proof.
  intros (s & Hs & (eps & k & Hc & _) & _).
  unfold destroyStore, bind, get, EtcdClient.Close, set_store, modify, result, throw, ret.
  rewrite Hs. cbn. rewrite Hc. unfold bind, e_count. cbn.
  destruct (client_close_fails (e_tick s)); do 2 eexists; (split; [done|]);
    (split; [done|]); by eexists.
Qed.

Lemma destroySync_run p : sync_up p ->
  exists x p', destroySync p = (x, p') /\ x <> inl EPanic /\
  exists k, p' = mkProcess _ (pr_world p) (pr_registry p) (pr_timeout p) (pr_broker p)
    (pr_store p) None (pr_db p) (pr_served p) (pr_watcher p) (pr_mlevel p) k.
Proof.
  intros (s & Hs & (eps & k & Hc & _) & _).
  unfold destroySync, bind, get, EtcdClient.Close, set_sync, modify, result, throw, ret.
  rewrite Hs. cbn. rewrite Hc. unfold bind, e_count. cbn.
  destruct (client_close_fails (e_tick (sy_client s))); do 2 eexists; (split; [done|]);
    (split; [done|]); by eexists.
Qed.

Lemma destroyDatabase_run p o c db :
  pr_db p = Some (o, c) -> c_DB c = Some db -> c_live c = [db] -> c_closed c = false ->
  destroyDatabase p = (inr tt, mkProcess _ (pr_world p) (pr_registry p) (pr_timeout p)
    (pr_broker p) (pr_store p) (pr_sync p)
    (Some (o, mkWrapper (Some db) true [] (c_tick c))) (pr_served p) (pr_watcher p)
    (pr_mlevel p) (pr_tick p)).
Proof.
  intros Hp Hdb Hl Hc.
  unfold destroyDatabase, bind, get, DbConn.Close, set_db_conn, modify, result, ret.
  by rewrite Hp, Hc, Hdb, Hl, without_self.
Qed.

Lemma destroyLogger_run p :
  watched (watch_state p) ->
  exists w k, destroyLogger p = (inr tt, mkProcess _ w (pr_registry p) (pr_timeout p)
    (pr_broker p) (pr_store p) (pr_sync p) (pr_db p) [] None (pr_mlevel p) k).
Proof.
  intros Hw. unfold destroyLogger. destruct (on_watch Stop p) as [r p'] eqn:E.
  apply on_watch_run in E as (st & Hs & -> & _).
  apply Stop_run in Hs as (-> & _ & -> & ->); [|done]. by do 2 eexists.
Qed.

(** The connection that was up is closed, and a request to close it was sent. *)
Lemma BrokerDisconnect_run b conn :
  rb_conn b = Some conn -> closed conn = false -> is_Some (Connection conn) ->
  exists x conn', BrokerDisconnect b =
    (x, mkBroker (rb_opts b) (rb_id b) (rb_passwd b) (Some conn')) /\
  x <> inl EPanic /\ closed conn' = true /\ connected conn' = false /\
  b_log conn' = b_log conn ++ [CloseConnection].
Proof.
  intros Hb Hc [k Hk]. unfold BrokerDisconnect, ConnClose. rewrite Hb, Hc. cbn. rewrite Hk.
  unfold call. cbn. destruct (answer _ _); do 2 eexists; by split_and!.
Qed.

Lemma destroyBroker_run p : broker_up p ->
  exists x b conn', destroyBroker p = (x, mkProcess _ (pr_world p) (pr_registry p)
    (pr_timeout p) None (pr_store p) (pr_sync p) (pr_db p) (pr_served p) (pr_watcher p)
    (pr_mlevel p) (pr_tick p)) /\ x <> inl EPanic /\
  pr_broker p = Some b /\ rb_conn (BrokerDisconnect b).2 = Some conn' /\
  closed conn' = true /\ CloseConnection ∈ b_log conn'.
Proof.
  intros (b & conn & Hp & Hb & _ & _ & Hc & Hk & _).
  destruct (BrokerDisconnect_run b conn Hb Hc Hk) as (x & conn' & Hd & Hne & Hc' & _ & Hl).
  unfold destroyBroker, bind, get. rewrite Hp. cbn. rewrite Hd.
  assert (CloseConnection ∈ b_log conn') as Hin by (rewrite Hl; set_solver).
  exists x, b, conn'. rewrite Hd. split; [|by split_and!].
  destruct x as [[]|[]]; done.
Qed.

Lemma Destroy_run p r p' :
  broker_up p -> store_up p -> sync_up p -> database_up p -> watching p ->
  Destroy p = (r, p') ->
  r = inr tt /\ pr_served p' = [] /\ pr_watcher p' = None /\
  pr_store p' = None /\ pr_sync p' = None /\ pr_broker p' = None /\
  (exists o c, pr_db p' = Some (o, c) /\ c_closed c = true /\ c_live c = []) /\
  (exists b conn', pr_broker p = Some b /\ rb_conn (BrokerDisconnect b).2 = Some conn' /\
     closed conn' = true /\ CloseConnection ∈ b_log conn').
Proof.
  intros Hb Hs Hy (c & db & Hdb & Hc & Hl & Hcl) [Hw _].
  assert (exists b, pr_broker p = Some b) as [b0 Hb0] by (destruct Hb as (b0 & ? & ? & _); eauto).
  unfold Destroy.
  destruct (destroyLogger_run p Hw) as (w & k & Hd1).
  erewrite bind_run by (eapply warned_run; [exact Hd1|done]). clear Hd1.
  match goal with |- context[bind _ _ ?q] => set (p1 := q) end.
  erewrite bind_run by (eapply warned_run; [by eapply (destroyDatabase_run p1)|done]).
  match goal with |- context[bind _ _ ?q] => set (p2 := q) end.
  destruct (destroyStore_run p2) as (x & p3 & Hd3 & Hx & k3 & ->); [exact Hs|].
  erewrite bind_run by (by eapply warned_run). clear Hd3 Hx x.
  match goal with |- context[bind _ _ ?q] => set (p3 := q) end.
  destruct (destroySync_run p3) as (x & p4 & Hd4 & Hx & k4 & ->); [exact Hy|].
  erewrite bind_run by (by eapply warned_run). clear Hd4 Hx x.
  match goal with |- context[warned _ ?q] => set (p4 := q) end.
  destruct (destroyBroker_run p4) as (x & b & conn' & Hd5 & Hx & Hb4 & Hd); [exact Hb|].
  erewrite warned_run by eauto.
  intros [= <- <-]. cbn. do 6 (split; [done|]). split; [by do 2 eexists|].
  exists b, conn'. by split.
Qed.

(** Stopping a service.  From a process in which everything is up, the
    command's Destroy returns, whatever the closing of each component answers:
    nothing is subscribed any more and no watcher is left; the default database
    is closed and has no open connection; the defaults of the store, the
    synchronisation and the broker are gone, and the broker's connection was
    closed and asked to close. *)
Theorem Destroy_spec p r p' :
  broker_up p -> store_up p -> sync_up p -> database_up p -> watching p ->
  Destroy p = (r, p') ->
  r = inr tt /\ pr_served p' = [] /\ pr_watcher p' = None /\
  pr_store p' = None /\ pr_sync p' = None /\ pr_broker p' = None /\
  (exists o c, pr_db p' = Some (o, c) /\ c_closed c = true /\ c_live c = []) /\
  (exists b conn', pr_broker p = Some b /\ rb_conn (BrokerDisconnect b).2 = Some conn' /\
     closed conn' = true /\ CloseConnection ∈ b_log conn').
Proof. apply Destroy_run. Qed.
End command.

(** ** Examples: a service whose components are all on one node *)
#[local] Existing Instance mem_backend.
#[local] Existing Instance mem_backend_laws.
#[local] Instance k_registry : Registry := {
  GetService _ _ := inr [[mkNode "10.0.0.5:9000" {["dialect" := "postgres"]}]]%string;
  rand_start _ := 0%nat
}.
#[local] Instance k_amqp : Amqp := {
  answer _ _ := None;
  half_open _ := false;
  new_consumer _ := inr "consumer"%string;
  amqp_now k := Z.of_nat k;
  queue_fuel := 1
}.
#[local] Instance k_dialer : Dialer := { gorm_open _ _ _ := true }.
#[local] Instance k_etcd : Etcd := {
  client_refused _ _ := None;
  client_close_fails _ := Some "closing"%string
}.
#[local] Instance k_levels : Levels := {
  GetLevel s := if (s =? "debug")%string then -1 else 0;
  known_level s := true;
  unsubscribe_fails _ := Some "gone"%string
}.
Definition k_cli : cli := {|
  cli_String name := if (name =? "cdm_broker_service_name")%string
                     then "cdm-cloud-rabbitmq"%string else ""%string;
  cli_Int _ := 5;
  cli_Bool _ := false;
  cli_IsSet _ := false;
  cli_AppName := "cdm-cloud-identity"
|}.
Definition k_process : @Process mem_backend :=
  mkProcess _ (start (fun _ => []) []) k_registry 0 None None None None [] None 0 0.
Definition k_started := Before (fun _ => None) (newCommand []) k_cli k_process.

Lemma Before_spec_witness :
  idle_process k_process /\ k_started.1 = inr tt /\ broker_up (newCommand []) k_cli k_started.2.
Proof.
  assert (k_started.1 = inr tt) as E by (vm_compute; reflexivity).
  assert (idle_process k_process) as Hi by (by split_and!).
  split; [exact Hi|]. split; [exact E|].
  pose proof (Before_spec (fun _ => None) (newCommand []) k_cli k_process k_started.1 k_started.2
    Hi (surjective_pairing _)) as Hs.
  rewrite E in Hs. apply Hs.
Defined.

Lemma Destroy_spec_witness :
  pr_broker k_started.2 <> None /\ pr_store k_started.2 <> None /\
  (Destroy k_started.2).1 = inr tt /\ pr_broker (Destroy k_started.2).2 = None.
Proof.
  assert (k_started.1 = inr tt) as E by (vm_compute; reflexivity).
  split; [vm_compute; discriminate|]. split; [vm_compute; discriminate|].
  pose proof (Before_run (fun _ => None) (newCommand []) k_cli k_process k_started.1 k_started.2
    ltac:(by split_and!) (surjective_pairing _)) as Hs.
  rewrite E in Hs. destruct Hs as (H1 & H2 & H3 & H4 & H5).
  destruct (Destroy_spec (newCommand []) k_cli k_started.2 _ _ H1 H2 H3 H4 H5
    (surjective_pairing _)) as (Hr & _ & _ & _ & _ & Hb & _).
  by split.
Defined.
