(* ===== verification/Services.v ===== *)
(** * The main functions of the three services (services/*/main.go, and the start
    and end of the identity handler: handler.go, util.go)

    What go-micro does between them is the class [Micro]: whether its server,
    client and selector take the registry, whether a handler can be registered,
    and what becomes of the world while the service runs.  [logger.Fatalf] of
    common/logger is a panic and runs the deferred calls; that of go-micro, behind
    [s.Init()], ends the process at once. *)

From stdpp Require Import base tactics list strings gmap.
From Stdlib Require Import ZArith Lia Ascii.
From S2P Require Import Prelude GoStd Json Model Backend Errors Gorm Database Config.
From S2P Require Import Report Discovery DbConn Broker EtcdClient Sync Watcher Command.
From S2P Require Import IdBase IdHandler NtNotifier NtMail.
#[local] Open Scope Z_scope.
#[local] Open Scope go_scope.

(** ** What is not part of the program *)

(** The file system and the decoding of a key: [ioutil.ReadFile], the bytes of the
    first block [pem.Decode] finds, [x509.ParsePKCS1PrivateKey]. *)
Class KeyFiles `{Backend} := {
  ReadFile : string -> string + string;
  pem_Decode : string -> option string;
  ParsePKCS1PrivateKey : string -> string + PrivateKey
}.

(** The steps that make the casbin enforcer, and what they answer. *)
Class Casbin := {
  NewAdapter : option string;
  NewModelFromString : option string;
  NewEnforcer : option string;
  LoadPolicy : option string
}.

(** ** The process of a service *)

(** How a run ends early: the process exited, [logger.Fatalf] panicked, or a nil
    pointer did. *)
Inductive ending := Exited | Fatal | Panicked.

(** The handler of the identity service: its key, which may be nil, and its own
    connection. *)
Record IdentityHandler `{Backend} := mkIdentity {
  privateKey : option PrivateKey;
  id_db : option (DbOptions.t * Wrapper);
  id_globals : Globals
}.

(** go-micro: the error of a step; while the service runs its handlers (those of the
    identity service are given) and the goroutines of the process act on the world. *)
Class Micro `{Backend} := {
  server_init : option string;
  client_init : option string;
  selector_init : option string;
  web_init : option string;
  register_handler : option string;
  service_run : option IdentityHandler -> World -> option string * World
}.

(** The framework, the handler of the identity service, the default tenant of the
    notification service and whether its cleaner runs. *)
Record ServiceState `{Backend} := mkService {
  sv_process : Process;
  sv_identity : option IdentityHandler;
  sv_tenant : Z;
  sv_cleaner : bool
}.

Section services.
Context `{Backend} `{Levels} `{Etcd} `{Dialer} `{Amqp} `{!KeyFiles} `{Casbin} `{!Micro}.
Variable DefaultRegistries : string -> option Registry.
Variable ctx : cli.

Abbreviation SvAct := (M ServiceState ending).

Definition set_process (p : Process) (s : ServiceState) : ServiceState :=
  mkService _ p (sv_identity s) (sv_tenant s) (sv_cleaner s).
Definition set_identity (h : option IdentityHandler) : SvAct unit := modify (fun s =>
  mkService _ (sv_process s) h (sv_tenant s) (sv_cleaner s)).
Definition set_tenant (t : Z) : SvAct unit := modify (fun s =>
  mkService _ (sv_process s) (sv_identity s) t (sv_cleaner s)).
Definition set_cleaner (b : bool) : SvAct unit := modify (fun s =>
  mkService _ (sv_process s) (sv_identity s) (sv_tenant s) b).

(** A call on the framework: its error is a value, its panic is one of the
    service. *)
Definition on_process {A} (c : M Process err A) : SvAct (err + A) := fun s =>
  match c (sv_process s) with
  | (inl EPanic, p) => (inl Panicked, set_process p s)
  | (x, p) => (inr x, set_process p s)
  end.

(** [logger.Fatalf], and the one of go-micro. *)
Definition fatal {A} : SvAct A := throw Fatal.
Definition micro_fatal {A} : SvAct A := throw Exited.

(** [defer d()]: it runs when the rest of the function returned or panicked. *)
Definition defer {A} (d : SvAct unit) (c : SvAct A) : SvAct A := fun s =>
  match c s with
  | (inl Exited, s) => (inl Exited, s)
  | (x, s) => match d s with
              | (inl e, s) => (inl e, s)
              | (inr _, s) => (x, s)
              end
  end.

(** A step of go-micro whose error is fatal. *)
Definition or_fatal (answer : option string) : SvAct unit :=
  match answer with Some _ => fatal | None => ret tt end.

(** A call on the default database; nil without a connection. *)
Definition with_database {A} (c : Act A) : M Process err A := fun p =>
  match pr_db p with
  | Some (_, w) =>
      match c_DB w with
      | Some _ => on_watch (on_world c) p
      | None => (inl EPanic, p)
      end
  | None => (inl EPanic, p)
  end.

(** [event.ReportEvent] over the default broker, its error only logged. *)
Definition report (tenantID : Z) (eventCode errorCode : string) (e : err)
    : M Process err unit := fun p =>
  match pr_broker p with
  | None => (inl EPanic, p)
  | Some b =>
      match rb_conn b with
      | None => (inr tt, p)
      | Some _ =>
          on_watch (on_world
            (attempt (ReportEvent tenantID eventCode errorCode 0 (Some e)) ;; ret tt)) p
      end
  end.

(** [s.Init()], [cmd.DefaultCmd.Init()]: the command line is read and [Before] runs;
    go-micro exits when it fails, the gateway sees the error. *)
Definition Init (failed : SvAct unit) (opts : CmdOptions) : SvAct unit :=
  x <- on_process (Before DefaultRegistries opts ctx) ;;
  match x with inl _ => failed | inr _ => ret tt end.

(** [common.Destroy] *)
Definition destroy : SvAct unit := on_process Destroy ;; ret tt.

Definition inits : SvAct unit :=
  or_fatal server_init ;; or_fatal client_init ;; or_fatal selector_init.

(** [s.Run()] *)
Definition Run : SvAct (option string) := fun s =>
  let p := sv_process s in
  let '(answer, w) := service_run (sv_identity s) (pr_world p) in
  (inr answer,
   set_process (mkProcess _ w (pr_registry p) (pr_timeout p) (pr_broker p) (pr_store p)
     (pr_sync p) (pr_db p) (pr_served p) (pr_watcher p) (pr_mlevel p) (pr_tick p)) s).

(** Registering the handler and running the service, with what is done about a
    failure of either. *)
Definition register_and_run (failed : string -> string -> SvAct unit)
    (registerCode runCode : string) : SvAct unit :=
  match register_handler with
  | Some t => failed registerCode t
  | None =>
      answer <- Run ;;
      match answer with
      | Some t => failed runCode t
      | None => ret tt
      end
  end.

(** ** The default tenant *)
Definition default_tenant : Act Tenant.t :=
  Transaction (Find_one TTenant (fun t => (Tenant.Name t =? "default")%string)).

(** ** The identity service *)

(** [getPrivateKeyFromFile]: a file without a block is no key and no error. *)
Definition getPrivateKeyFromFile (path : string) : string + option PrivateKey :=
  match ReadFile path with
  | inl e => inl e
  | inr pemString =>
      match pem_Decode pemString with
      | None => inr None
      | Some bytes =>
          match ParsePKCS1PrivateKey bytes with
          | inl e => inl e
          | inr key => inr (Some key)
          end
      end
  end.

Definition defaultPrivateKeyPath : string := "/etc/ssl/cdm-cloud/".

(** [database.OpenDefault]: a connection of its own with the options of the
    default one and those given. *)
Definition OpenDefault (opts : list (DbOptions.t -> DbOptions.t))
    : M Process err (DbOptions.t * Wrapper) := fun p =>
  match pr_db p with
  | None => (inl EPanic, p)
  | Some (o, c) =>
      let o' := fold_left (fun o f => f o) opts o in
      let '(r, db) := @DbConn.connect (pr_registry p) _ o' (mkWrapper None false [] (pr_tick p)) in
      let '(_, p) := set_db_conn (pr_db p) (c_tick db) p in
      (match r with inl e => inl e | inr _ => inr (o', db) end, p)
  end.

(** A step that may fail with an error of another package. *)
Definition or_error (wrap : option err -> err) (answer : option string)
    : M Process err unit :=
  match answer with Some t => throw (wrap (Some (EPlain t))) | None => ret tt end.

(** [init], after the variables [Role] and [adminUser] are set. *)
Definition init_handler (g : Globals) : M Process err IdentityHandler :=
  match getPrivateKeyFromFile (String.append defaultPrivateKeyPath "identity.pem") with
  | inl e => throw (Unknown (Some (EPlain e)))
  | inr key =>
      x <- attempt (OpenDefault []) ;;
      match x with
      | inl EPanic => throw EPanic
      | inl e => throw (UnusableDatabase (Some e))
      | inr db =>
          or_error UnusableDatabase NewAdapter ;;
          or_error Unknown NewModelFromString ;;
          or_error Unknown NewEnforcer ;;
          or_error Unknown LoadPolicy ;;
          ret (mkIdentity _ key (Some db) g)
      end
  end.

Definition NewHandler : M Process err IdentityHandler :=
  g <- with_database NewIdentityHandler ;;
  init_handler g.

(** [reportEventWithDefaultTenant] *)
Definition reportEventWithDefaultTenant (eventCode errorCode : string) (e : err)
    : SvAct unit :=
  x <- on_process (with_database default_tenant) ;;
  match x with
  | inl _ => ret tt
  | inr t => on_process (report (Tenant.ID t) eventCode errorCode e) ;; ret tt
  end.

(** [h.Close], its error reported. *)
Definition close_handler : SvAct unit :=
  s <- get ;;
  match sv_identity s with
  | None => throw Panicked
  | Some h =>
      match id_db h with
      | None => throw Panicked
      | Some (o, c) =>
          let '(r, c') := DbConn.Close c in
          match r with
          | inl EPanic => throw Panicked
          | inl e =>
              set_identity (Some (mkIdentity _ (privateKey h) (Some (o, c')) (id_globals h))) ;;
              reportEventWithDefaultTenant "cdm-cloud.identity.main.failure-close_handler"
                "unusable_database" (UnusableDatabase (Some e))
          | inr _ =>
              set_identity (Some (mkIdentity _ (privateKey h) (Some (o, c')) (id_globals h)))
          end
      end
  end.

(** [main] after the framework is up. *)
Definition identity_body : SvAct unit :=
  x <- on_process NewHandler ;;
  (match x with
   | inl e =>
       if Equal (Some e) ErrUnusableDatabase then
         reportEventWithDefaultTenant "cdm-cloud.identity.main.failure-create_handler"
           "unusable_database" e ;; fatal
       else if Equal (Some e) ErrUnknown then
         reportEventWithDefaultTenant "cdm-cloud.identity.main.failure-create_handler"
           "unknown" e ;; fatal
       else set_identity None
   | inr h => set_identity (Some h)
   end) ;;
  defer close_handler (
    register_and_run
      (fun code t =>
         reportEventWithDefaultTenant code "unknown" (Unknown (Some (EPlain t))) ;; fatal)
      "cdm-cloud.identity.main.failure-register_handler"
      "cdm-cloud.identity.main.failure-run_service").

Definition identity_main : SvAct unit :=
  Init micro_fatal (newCommand []) ;; inits ;; defer destroy identity_body.

(** ** The notification service *)

(** [broker.SubscribePersistentQueue] *)
Definition subscribe_persistent (topic : string) (requeueOnError : bool)
    : M WatchState err Handle :=
  s <- get ;;
  match wt_broker s with
  | None => throw EPanic
  | Some conn =>
      match SubscribePersistentQueue conn topic requeueOnError [] with
      | inl e => throw e
      | inr sub =>
          k <- wt_count ;;
          set_served (cons (mkHandle k sub)) ;;
          ret (mkHandle k sub)
      end
  end.

(** A failure to subscribe is reported and fatal. *)
Definition subscribe_or_fatal (topic : string) (requeueOnError : bool) (eventCode : string)
    : SvAct Handle :=
  x <- on_process (on_watch (subscribe_persistent topic requeueOnError)) ;;
  match x with
  | inr h => ret h
  | inl e =>
      s <- get ;;
      on_process (report (sv_tenant s) eventCode "unusable_broker"
        (UnusableBroker (Some e))) ;; fatal
  end.

(** The deferred release of a subscription: its error is reported. *)
Definition release (h : Handle) (eventCode : string) : SvAct unit :=
  x <- on_process (on_watch (unsubscribe h)) ;;
  match x with
  | inr _ => ret tt
  | inl e =>
      s <- get ;;
      on_process (report (sv_tenant s) eventCode "unusable_broker"
        (UnusableBroker (Some e))) ;; ret tt
  end.

Definition loadDefaultTenantID : M Process err Tenant.t :=
  x <- attempt (with_database default_tenant) ;;
  match x with
  | inr t => ret t
  | inl EPanic => throw EPanic
  | inl ERecordNotFound => throw (Unknown (Some ERecordNotFound))
  | inl e => throw (UnusableDatabase (Some e))
  end.

Definition fail_unknown (eventCode text : string) : SvAct unit :=
  s <- get ;;
  on_process (report (sv_tenant s) eventCode "unknown" (Unknown (Some (EPlain text)))) ;;
  fatal.

(** The cleaner is a goroutine from [Start] to [Stop]; what it does to the world
    is [NtEvent.cleaner], and is part of [service_run]. *)
Definition notification_run : SvAct unit :=
  set_cleaner true ;;
  defer (set_cleaner false) (
    register_and_run fail_unknown
      "cdm-cloud.notification.main.failure-register_handler"
      "cdm-cloud.notification.main.failure-run_service").

Definition notification_body : SvAct unit :=
  x <- on_process loadDefaultTenantID ;;
  match x with
  | inl _ => fatal
  | inr t =>
      set_tenant (Tenant.ID t) ;;
      sub <- subscribe_or_fatal QueueReportEvent false
        "cdm-cloud.notification.main.failure-notification_event_subscribe" ;;
      defer (release sub "cdm-cloud.notification.main.failure-notification_event_unsubscribe") (
        n <- subscribe_or_fatal QueueNotifyEmail true
          "cdm-cloud.notification.main.failure-notifier_subscribe" ;;
        defer (release n "cdm-cloud.notification.main.failure-notifier_unsubscribe")
          notification_run)
  end.

Definition notification_main : SvAct unit :=
  Init micro_fatal (newCommand []) ;; inits ;; defer destroy notification_body.

(** ** The API gateway *)
Definition gateway_flags : list flag := [
  mkFlag "cdm_cloud_api_gateway_port" (IntFlag 0) "Port to used by api-gateway" true;
  mkFlag "cdm_cloud_api_gateway_ttl" (IntFlag 30) "TTL to used by api-gateway" false
]%string.

Definition gateway_body : SvAct unit :=
  or_fatal web_init ;; or_fatal client_init ;; or_fatal server_init ;;
  or_fatal selector_init ;;
  answer <- Run ;;
  or_fatal answer.

Definition gateway_main : SvAct unit :=
  Init fatal (newCommand [WithFlags gateway_flags]) ;; defer destroy gateway_body.
End services.
