(* ===== verification/ServicesProps.v ===== *)
(** * The services from their start to their end *)

From stdpp Require Import base tactics list strings gmap relations.
From Stdlib Require Import ZArith Lia Ascii.
From S2P Require Import Prelude GoStd Json Model Backend Errors Gorm Database GormFacts.
From S2P Require Import Config Report Discovery DbConn Broker EtcdClient Sync Watcher.
From S2P Require Import Command Services IdBase IdUser IdHandler NtNotifier IdFacts.
From S2P Require Import TransactionFacts DbConnProps BkProps EtcdProps WatcherProps.
From S2P Require Import CommandProps RefBackend AuthProps ServiceProps.
#[local] Open Scope Z_scope.
#[local] Open Scope go_scope.

#[local] Arguments DbConn.connect : simpl never.
#[local] Arguments Transaction : simpl never.
#[local] Arguments NewIdentityHandler : simpl never.

Section frames.
Context `{BackendLaws} `{Levels} `{Etcd} `{Dialer} `{Amqp}.

(** ** What only works with the world: no component is touched, and no row *)
Definition tends (p p' : Process) : Prop :=
  exists w k, p' = mkProcess _ w (pr_registry p) (pr_timeout p) (pr_broker p) (pr_store p)
    (pr_sync p) (pr_db p) (pr_served p) (pr_watcher p) (pr_mlevel p) k /\
  rows_eq (pr_world p) w /\ (pr_tick p <= k)%nat.

#[global] Instance tends_preorder : PreOrder tends.
Proof.
  split.
  - intros []. by do 2 eexists.
  - intros p ? ? (w & k & -> & Hw & Hk) (w' & k' & -> & Hw' & Hk'). cbn in *.
    exists w', k'. split; [done|]. split; [by etrans|lia].
Qed.

#[global] Instance tends_world {A} (c : Act A) :
  Preserves rows_eq c -> Preserves tends (on_watch (on_world c)).
Proof.
  intros Hc p r p'. unfold on_watch, on_world. cbn.
  destruct (c (pr_world p)) as [x w] eqn:E. apply Hc in E.
  intros [= <- <-]. cbn. by exists w, (pr_tick p).
Qed.

#[global] Instance tends_with_database {A} (c : Act A) :
  Preserves rows_eq c -> Preserves tends (with_database c).
Proof.
  intros Hc p r p'. unfold with_database.
  destruct (pr_db p) as [[o w]|]; [|by intros [= <- <-]].
  destruct (c_DB w); [by apply tends_world|by intros [= <- <-]].
Qed.

#[global] Instance rows_ReportEvent t ec e c : Preserves rows_eq (ReportEvent t ec e 0 c).
Proof.
  intros w r w'. unfold ReportEvent, Report.Publish. destruct (broker_accepts (w_tick w)); by intros [= <- <-].
Qed.

#[global] Instance tends_report t ec e x : Preserves tends (report t ec e x).
Proof.
  intros p r p'. unfold report.
  destruct (pr_broker p) as [b|]; [|by intros [= <- <-]].
  destruct (rb_conn b); [|by intros [= <- <-]].
  apply tends_world. apply preserves_bind; [apply _..|]. intros ?. apply _.
Qed.

#[global] Instance tends_OpenDefault os : Preserves tends (OpenDefault os).
Proof.
  intros p r p'. unfold OpenDefault.
  destruct (pr_db p) as [[o c]|] eqn:Ed; [|by intros [= <- <-]].
  destruct (@DbConn.connect (pr_registry p) _ _ _) as [x db] eqn:E.
  assert (pr_tick p <= c_tick db)%nat as Hk.
  { apply connect_inv in E as [(e & _ & _ & Hi)|(n & _ & Hr)];
      [apply Hi|destruct Hr as (_ & _ & _ & ?); cbn in *; lia]. }
  cbn. destruct x; intros [= <- <-]; exists (pr_world p), (c_tick db); by rewrite Ed.
Qed.

Lemma rows_default_tenant : Preserves rows_eq default_tenant.
Proof.
  intros w r w' Ht. eapply query_transaction_rows; [|exact Ht]. unfold Find_one. keep.
Qed.
#[global] Existing Instance rows_default_tenant.

#[global] Instance rows_NewIdentityHandler : Preserves rows_eq NewIdentityHandler.
Proof.
  intros w r w'. unfold NewIdentityHandler.
  intros [(? & (? & ? & _)%attempt_inv & _)|(x & w1 & (y & [= ->] & Ht)%attempt_inv & Hn)]%bind_inv;
    [done|].
  apply query_transaction_rows in Ht; [|keep].
  destruct y as [[]|]; apply throw_inv in Hn as [_ ->] || apply ret_inv in Hn as [_ ->]; exact Ht.
Qed.

(** ** The framework changes no row *)
Definition wt_rows (s s' : WatchState) : Prop := rows_eq (wt_world s) (wt_world s').
Definition proc_rows (p p' : Process) : Prop := rows_eq (pr_world p) (pr_world p').

#[global] Instance wt_rows_preorder : PreOrder wt_rows.
Proof. split; [by intros s|]. intros s1 s2 s3. unfold wt_rows. apply rows_eq_preorder. Qed.
#[global] Instance proc_rows_preorder : PreOrder proc_rows.
Proof. split; [by intros s|]. intros s1 s2 s3. unfold proc_rows. apply rows_eq_preorder. Qed.

Lemma tends_rows p p' : tends p p' -> proc_rows p p'.
Proof. by intros (w & k & -> & ? & _). Qed.

#[local] Instance wt_level s : Preserves wt_rows (on_world (updateLoggingLevel s)).
Proof.
  intros st r st'. unfold on_world. destruct (updateLoggingLevel s _) as [x w] eqn:E.
  apply level_run in E as (_ & Hw & _). by intros [= <- <-].
Qed.
#[local] Instance wt_count_rows : Preserves wt_rows wt_count.
Proof. by intros st r st' [= <- <-]. Qed.
#[local] Instance wt_served_rows f : Preserves wt_rows (set_served f).
Proof. by intros st r st' [= <- <-]. Qed.
#[local] Instance wt_default_rows w : Preserves wt_rows (set_default w).
Proof. by intros st r st' [= <- <-]. Qed.
#[global] Instance wt_subscribe_temp t : Preserves wt_rows (subscribe_temp t).
Proof. unfold subscribe_temp. keep. Qed.
#[global] Instance wt_subscribe_persistent t b : Preserves wt_rows (subscribe_persistent t b).
Proof. unfold subscribe_persistent. keep. Qed.
#[global] Instance wt_unsubscribe h : Preserves wt_rows (unsubscribe h).
Proof. unfold unsubscribe. keep. Qed.
#[local] Instance wt_logged {A} (c : M WatchState err A) :
  Preserves wt_rows c -> Preserves wt_rows (Watcher.logged c).
Proof. unfold Watcher.logged. keep. Qed.
#[local] Instance wt_stop w : Preserves wt_rows (stop w).
Proof. unfold stop, stop_one. keep. Qed.
#[local] Instance wt_Watch s : Preserves wt_rows (Watch s).
Proof. unfold Watch, watch. keep. Qed.
#[local] Instance wt_Stop : Preserves wt_rows Stop.
Proof. unfold Stop. keep. Qed.

#[global] Instance proc_on_watch {A} (c : M WatchState err A) :
  Preserves wt_rows c -> Preserves proc_rows (on_watch c).
Proof.
  intros Hc p r p'. unfold on_watch. destruct (c _) as [x s] eqn:E. apply Hc in E.
  by intros [= <- <-].
Qed.
#[local] Instance proc_set_level l : Preserves proc_rows (on_watch (on_world (set_level l))).
Proof. by intros p r p' [= <- <-]. Qed.
#[local] Instance proc_set_mlevel l : Preserves proc_rows (set_mlevel l).
Proof. by intros p r p' [= <- <-]. Qed.
#[local] Instance proc_set_broker b k : Preserves proc_rows (set_broker b k).
Proof. by intros p r p' [= <- <-]. Qed.
#[local] Instance proc_set_store b k : Preserves proc_rows (set_store b k).
Proof. by intros p r p' [= <- <-]. Qed.
#[local] Instance proc_set_sync b k : Preserves proc_rows (set_sync b k).
Proof. by intros p r p' [= <- <-]. Qed.
#[local] Instance proc_set_db b k : Preserves proc_rows (set_db_conn b k).
Proof. by intros p r p' [= <- <-]. Qed.
#[local] Instance proc_set_registry b : Preserves proc_rows (set_registry b).
Proof. by intros p r p' [= <- <-]. Qed.
#[local] Instance proc_set_timeout b : Preserves proc_rows (set_timeout b).
Proof. by intros p r p' [= <- <-]. Qed.
#[local] Instance proc_result x : Preserves proc_rows (result x).
Proof. unfold result. keep. Qed.
#[local] Instance proc_warned (c : M Process err unit) :
  Preserves proc_rows c -> Preserves proc_rows (warned c).
Proof. unfold warned. keep. Qed.

#[global] Instance rows_Before regs opts ctx : Preserves proc_rows (Before regs opts ctx).
Proof.
  unfold Before, initDefaults, initBroker, initStore, initSync, initDatabase, initLogger.
  keep.
Qed.
#[global] Instance rows_Destroy : Preserves proc_rows Destroy.
Proof.
  unfold Destroy, destroyLogger, destroyDatabase, destroyStore, destroySync, destroyBroker.
  keep; apply proc_warned; keep.
Qed.
End frames.

(** ** A service whose framework is up *)
Section life.
Context `{BackendLaws} `{Levels} `{Etcd} `{Dialer} `{Amqp} `{!KeyFiles} `{Casbin} `{!Micro}.
Variable DefaultRegistries : string -> option Registry.
Variable ctx : cli.

(** The framework is up, and besides the watcher's subscriptions those of [l] are
    served, each made after those behind it. *)
Fixpoint apart (l : list Handle) (p : Process) : Prop :=
  match l with
  | [] => True
  | h :: l =>
      (forall h', h' ∈ l \/ holds (watch_state p) h' -> (hd_id h' < hd_id h)%nat) /\ apart l p
  end.

Record running (opts : CmdOptions) (l : list Handle) (p : Process) : Prop := {
  rn_broker : broker_up opts ctx p;
  rn_store : store_up ctx p;
  rn_sync : sync_up ctx p;
  rn_database : database_up ctx p;
  rn_watcher : exists w, pr_watcher p = Some w /\ serviceName w = cli_AppName ctx /\
    on_topic TopicNoticeGlobalLoggingLevelUpdated (gSub w) /\
    on_topic TopicNoticeServiceLoggingLevelUpdated (sSub w);
  rn_served : forall h, h ∈ pr_served p <-> h ∈ l \/ holds (watch_state p) h;
  rn_old : forall h, h ∈ pr_served p -> (hd_id h < pr_tick p)%nat;
  rn_apart : apart l p
}.

Lemma running_watching opts p : running opts [] p <->
  broker_up opts ctx p /\ store_up ctx p /\ sync_up ctx p /\ database_up ctx p /\ watching ctx p.
Proof.
  split.
  - intros [Hb Hs Hy Hd (w & Hw) Hserved Hold _]. split_and!; try done. split; [|by exists w].
    split; [|exact Hold]. intros h. rewrite (Hserved h), elem_of_nil. naive_solver.
  - intros (Hb & Hs & Hy & Hd & [Hserved Hold] & Hw). split; try done.
    intros h. rewrite (Hserved h), elem_of_nil. naive_solver.
Qed.

Lemma apart_tends l p p' : pr_watcher p' = pr_watcher p -> apart l p -> apart l p'.
Proof.
  intros Hw. induction l as [|h l IH]; [done|]. cbn. unfold holds. cbn. rewrite Hw.
  intros [??]. auto.
Qed.

Lemma running_tends opts l p p' : tends p p' -> running opts l p -> running opts l p'.
Proof.
  intros (w & k & -> & _ & Hk) [Hb Hs Hy Hd Hw Hserved Hold Ha]. split; try done.
  - intros h Hin. cbn. apply Hold in Hin. lia.
  - by eapply apart_tends; [|exact Ha].
Qed.

(** Calls on the framework *)
Lemma on_process_run {A} (c : M Process err A) s r s' :
  on_process c s = (r, s') ->
  exists x p, c (sv_process s) = (x, p) /\ s' = set_process p s /\
    ((x = inl EPanic /\ r = inl Panicked) \/ (x <> inl EPanic /\ r = inr x)).
Proof.
  unfold on_process. destruct (c (sv_process s)) as [x p]. intros Hr. exists x, p.
  split; [done|]. destruct x as [[]|]; injection Hr as <- <-; (split; [done|]); (by right) || by left.
Qed.

Lemma with_database_run {A} (c : Act A) p r p' :
  database_up ctx p -> with_database c p = (r, p') -> exists w', c (pr_world p) = (r, w').
Proof.
  intros (cw & db & Hd & Hc & _). unfold with_database, on_watch, on_world. cbn. rewrite Hd, Hc.
  destruct (c (pr_world p)) as [x w]. intros [= <- <-]. by exists w.
Qed.

Lemma report_run opts t ec e x p r p' :
  broker_up opts ctx p -> report t ec e x p = (r, p') -> r = inr tt.
Proof.
  intros (b & conn & Hb & Hconn & _). unfold report, on_watch, on_world, bind, attempt, ret.
  rewrite Hb, Hconn. cbn. destruct (ReportEvent _ _ _ _ _ _). by intros [= <- <-].
Qed.

Lemma default_tenant_no_panic w r w' : default_tenant w = (r, w') -> r <> inl EPanic.
Proof.
  intros Ht ->. apply Transaction_inv in Ht; [|unfold Find_one; keep].
  destruct Ht as [?|[[? ?]|(_ & w0 & w1 & db & _ & Hf & _)]]; [done..|].
  apply (Find_one_err TTenant) in Hf as [[? _]|[? ?]]; done.
Qed.

Lemma NewIdentityHandler_errors w e w' :
  NewIdentityHandler w = (inl e, w') ->
  exists c, e = Unknown c \/ e = UnusableDatabase c.
Proof.
  unfold NewIdentityHandler.
  intros [(? & (? & ? & _)%attempt_inv & _)|(x & w1 & _ & Hn)]%bind_inv; [done|].
  destruct x as [[]|]; try (apply throw_inv in Hn as [[= ->] _]; eexists; eauto).
  by apply ret_inv in Hn as [? _].
Qed.

(** ** The identity service *)
Definition key_path : string := "/etc/ssl/cdm-cloud/identity.pem".

(** The handler of a start in the world [w]. *)
Definition handler_of (w : World) (h : IdentityHandler) : Prop :=
  getPrivateKeyFromFile key_path = inr (privateKey h) /\
  exists w', NewIdentityHandler w = (inr (id_globals h), w').

Definition open_handler (h : IdentityHandler) : Prop :=
  exists o c db, id_db h = Some (o, c) /\ c_DB c = Some db /\ c_live c = [db] /\
    c_closed c = false.
Definition closed_handler (h : IdentityHandler) : Prop :=
  exists o c, id_db h = Some (o, c) /\ c_live c = [] /\ c_closed c = true.

Lemma OpenDefault_run os p r p' :
  database_up ctx p -> OpenDefault os p = (r, p') ->
  r <> inl EPanic /\
  forall d, r = inr d -> exists db, c_DB d.2 = Some db /\ c_live d.2 = [db] /\ c_closed d.2 = false.
Proof.
  intros (c & db & Hp & _). unfold OpenDefault. rewrite Hp. cbn.
  destruct (@DbConn.connect (pr_registry p) _ _ _) as [x w] eqn:E. apply connect_inv in E.
  destruct x as [e|u]; intros [= <- <-].
  - destruct E as [(? & [= <-] & Hne & _)|(? & ? & _)]; [|done]. split; [congruence|done].
  - destruct E as [(? & ? & _)|(n & _ & Hdb & Hcl & Hl & _)]; [done|].
    split; [done|]. intros d [= <-]. by exists n.
Qed.

Lemma or_error_run wrap answer p r p' :
  or_error wrap answer p = (r, p') ->
  p' = p /\ (r = inr tt \/ exists c, r = inl (wrap c)).
Proof.
  unfold or_error. destruct answer; [intros [-> ->]%throw_inv|intros [-> ->]%ret_inv]; eauto.
Qed.

#[local] Instance tends_or_error wrap answer : Preserves tends (or_error wrap answer).
Proof. intros p r p' Hr. by apply or_error_run in Hr as [-> _]. Qed.
#[local] Instance tends_init_handler g : Preserves tends (init_handler g).
Proof. unfold init_handler. keep. Qed.
#[local] Instance tends_NewHandler : Preserves tends NewHandler.
Proof. unfold NewHandler. keep. Qed.

Lemma init_handler_run g p r p' :
  database_up ctx p -> init_handler g p = (r, p') ->
  match r with
  | inl e => exists c, e = Unknown c \/ e = UnusableDatabase c
  | inr h => id_globals h = g /\ getPrivateKeyFromFile key_path = inr (privateKey h) /\
      open_handler h
  end.
Proof.
  intros Hd. unfold init_handler, key_path. cbn [String.append defaultPrivateKeyPath].
  destruct (getPrivateKeyFromFile _) as [e|key]; [intros [-> ->]%throw_inv; eauto|].
  intros [(? & (? & ? & _)%attempt_inv & _)|(x & p1 & Ha & Hr)]%bind_inv; [done|].
  apply attempt_inv in Ha as (y & [= ->] & Ho). apply OpenDefault_run in Ho as [Hne Hop]; [|done].
  destruct y as [e|d].
  { assert (r = inl (UnusableDatabase (Some e))) as ->; [|eauto].
    destruct e; by apply throw_inv in Hr as [-> _]. }
  destruct (Hop d eq_refl) as (db & Hdb & Hl & Hc). clear Hop Hne.
  repeat match goal with
  | H : (_ <- or_error _ _ ;; _) _ = _ |- _ =>
      apply bind_inv in H as [(? & [_ [?|[c [= ->]]]]%or_error_run & ->)|(? & ? & _ & H)];
      [done|by eauto|]
  end.
  apply ret_inv in Hr as [-> _]. destruct d as [o c]. cbn in *.
  split; [done|]. split; [done|]. by exists o, c, db.
Qed.

Lemma NewHandler_run p r p' :
  database_up ctx p -> NewHandler p = (r, p') ->
  match r with
  | inl e => exists c, e = Unknown c \/ e = UnusableDatabase c
  | inr h => handler_of (pr_world p) h /\ open_handler h
  end.
Proof.
  intros Hd Hr. unfold NewHandler in Hr.
  apply bind_inv in Hr as [(e & Hn & ->)|(g & p1 & Hn & Hr)];
    pose proof Hn as Hn2; apply with_database_run in Hn2 as [w' Hn2]; try done.
  { by eapply NewIdentityHandler_errors. }
  apply (preserves (R:=tends)) in Hn as (w & k & -> & _).
  apply init_handler_run in Hr; [|done]. destruct r; [exact Hr|].
  destruct Hr as (<- & Hk & Ho). split; [|exact Ho]. split; [exact Hk|by exists w'].
Qed.

(** A call that only tends, in a service. *)
Definition tended (s s' : ServiceState) : Prop :=
  exists p, s' = set_process p s /\ tends (sv_process s) p.

Lemma tended_self s : tended s s.
Proof. destruct s. eexists. by split. Qed.
Lemma tended_trans s s1 s2 : tended s s1 -> tended s1 s2 -> tended s s2.
Proof.
  intros (p & -> & Hp) (q & -> & Hq). exists q. split; [done|]. cbn in Hq. by etrans.
Qed.
Lemma tended_running opts l s s' :
  tended s s' -> running opts l (sv_process s) -> running opts l (sv_process s').
Proof. intros (p & -> & Hp). by apply running_tends. Qed.

Lemma on_report_run opts l t ec e x s r s' :
  running opts l (sv_process s) -> on_process (report t ec e x) s = (r, s') ->
  r = inr (inr tt) /\ tended s s'.
Proof.
  intros Hn (y & p & Hr & -> & Hy)%on_process_run.
  pose proof Hr as Hr2. eapply report_run in Hr2; [|apply Hn]. subst y.
  destruct Hy as [[? _]|[_ ->]]; [done|]. split; [done|].
  exists p. split; [done|]. by apply (preserves (R:=tends)) in Hr.
Qed.

Lemma report_default_run opts l ec e x s r s' :
  running opts l (sv_process s) -> reportEventWithDefaultTenant ec e x s = (r, s') ->
  r = inr tt /\ tended s s'.
Proof.
  intros Hn. unfold reportEventWithDefaultTenant.
  intros [(y & Ho & ->)|(y & s1 & Ho & Hr)]%bind_inv;
    apply on_process_run in Ho as (z & p & Hc & -> & Hz);
    pose proof Hc as Hc2; apply with_database_run in Hc2 as [w Hc2]; try apply Hn;
    apply default_tenant_no_panic in Hc2;
    (destruct Hz as [[? ?]|[_ Hy]]; [congruence|]); [done|].
  assert (tended s (set_process p s)) as Ht.
  { exists p. split; [done|]. by apply (preserves (R:=tends)) in Hc. }
  injection Hy as ->. destruct z as [e0|t].
  - apply ret_inv in Hr as [-> ->]. by split.
  - apply bind_inv in Hr as [(y & Ho & ->)|(y & s2 & Ho & [-> ->]%ret_inv)];
      apply (on_report_run opts l) in Ho as [Hy Ht2];
      try (by eapply tended_running); [done|].
    split; [done|]. by eapply tended_trans.
Qed.

(** A failure is reported, and fatal. *)
Lemma report_fatal_run (c : M ServiceState ending unit) s (r : ending + unit) s' :
  (forall r s', c s = (r, s') -> r = inr tt /\ tended s s') ->
  (c ;; fatal) s = (r, s') -> r = inl Fatal /\ tended s s'.
Proof.
  intros Hc [(e & Hr & ->)|([] & s1 & Hr & [-> ->]%throw_inv)]%bind_inv;
    apply Hc in Hr as [? ?]; [done|]. by split.
Qed.

Lemma running_world opts l p w :
  running opts l p ->
  running opts l (mkProcess _ w (pr_registry p) (pr_timeout p) (pr_broker p) (pr_store p)
    (pr_sync p) (pr_db p) (pr_served p) (pr_watcher p) (pr_mlevel p) (pr_tick p)).
Proof.
  intros [Hb Hs Hy Hd Hw Hserved Hold Ha]. split; try done. by eapply apart_tends; [|exact Ha].
Qed.

(** What becomes of a service whose parts are all released when it ends. *)
Lemma defer_run {A} (d : M ServiceState ending unit) (c : M ServiceState ending A) s r s' :
  defer d c s = (r, s') ->
  (c s = (inl Exited, s') /\ r = inl Exited) \/
  exists x s1 y, c s = (x, s1) /\ x <> inl Exited /\ d s1 = (y, s') /\
    r = match y with inl e => inl e | inr _ => x end.
Proof.
  unfold defer. destruct (c s) as [[[]|a] s1].
  - intros [= <- <-]. by left.
  - destruct (d s1) as [[e|[]] s2] eqn:E; intros [= <- <-]; right; by do 3 eexists.
  - destruct (d s1) as [[e|[]] s2] eqn:E; intros [= <- <-]; right; by do 3 eexists.
  - destruct (d s1) as [[e|[]] s2] eqn:E; intros [= <- <-]; right; by do 3 eexists.
Qed.

Lemma close_handler_run h s :
  sv_identity s = Some h -> open_handler h ->
  exists h', close_handler s
    = (inr tt, mkService _ (sv_process s) (Some h') (sv_tenant s) (sv_cleaner s)) /\
  closed_handler h' /\ privateKey h' = privateKey h /\ id_globals h' = id_globals h.
Proof.
  intros Hs (o & c & db & Hd & Hdb & Hl & Hc).
  unfold close_handler, bind, get, DbConn.Close, set_identity, modify. rewrite Hs. cbn.
  rewrite Hd, Hc, Hdb, Hl, without_self. cbn. eexists. split; [done|].
  split; [|done]. by do 2 eexists.
Qed.

(** The world after the run of a service: it is that of the start, or what the run
    made of it, but for reports and readings. *)
Definition world_after (w : World) (started : IdentityHandler -> Prop) (w' : World) : Prop :=
  rows_eq w w' \/
  exists h w1, started h /\ rows_eq w w1 /\ rows_eq (service_run (Some h) w1).2 w'.

Lemma world_after_eq w started w1 w2 :
  world_after w started w1 -> rows_eq w1 w2 -> world_after w started w2.
Proof.
  intros [Hw|(h & w0 & Hh & H0' & H1')] H2'; [left; by etrans|].
  right. exists h, w0. split; [done|]. split; [done|]. by etrans.
Qed.

(** A part that returns, or whose failure is fatal. *)
Definition ended (r : ending + unit) : Prop := r = inl Fatal \/ r = inr tt.

Lemma register_and_run_run opts l failed a b s r s' :
  (forall code t s r s', running opts l (sv_process s) -> failed code t s = (r, s') ->
     r = inl Fatal /\ tended s s') ->
  running opts l (sv_process s) -> register_and_run failed a b s = (r, s') ->
  ended r /\ running opts l (sv_process s') /\
  sv_identity s' = sv_identity s /\ sv_tenant s' = sv_tenant s /\
  sv_cleaner s' = sv_cleaner s /\
  (rows_eq (pr_world (sv_process s)) (pr_world (sv_process s')) \/
   rows_eq (service_run (sv_identity s) (pr_world (sv_process s))).2 (pr_world (sv_process s'))) /\
  (r = inr tt -> service_run (sv_identity s) (pr_world (sv_process s))
     = (None, pr_world (sv_process s'))).
Proof.
  intros Hf Hn Hr. unfold register_and_run in Hr. destruct register_handler as [t|].
  - apply Hf in Hr as [-> (p & -> & Hp)]; [|done]. split; [by left|].
    split; [by eapply running_tends|]. do 3 (split; [done|]). split; [|done].
    left. by apply tends_rows in Hp.
  - apply bind_inv in Hr as [(e & Ho & _)|(answer & s1 & Ho & Hr)];
      unfold Run in Ho; destruct (service_run _ _) as [x w] eqn:Ew; [done|].
    injection Ho as <- <-. set (s1 := set_process _ s) in Hr.
    assert (running opts l (sv_process s1)) as Hn1 by by apply running_world.
    destruct x as [t|].
    + apply Hf in Hr as [-> (p & -> & Hp)]; [|done]. split; [by left|].
      split; [by eapply running_tends|]. do 3 (split; [done|]). split; [|done].
      right. by apply tends_rows in Hp.
    + apply ret_inv in Hr as [-> ->]. split; [by right|]. split; [done|].
      do 3 (split; [done|]). split; [by right|done].
Qed.

Lemma identity_body_run opts s r s' :
  running opts [] (sv_process s) -> identity_body s = (r, s') ->
  ended r /\ running opts [] (sv_process s') /\
  world_after (pr_world (sv_process s)) (handler_of (pr_world (sv_process s)))
    (pr_world (sv_process s')) /\
  ((r = inl Fatal /\ sv_identity s' = sv_identity s) \/
   exists h, sv_identity s' = Some h /\ closed_handler h /\
     handler_of (pr_world (sv_process s)) h).
Proof.
  intros Hn Hr. unfold identity_body in Hr.
  apply bind_inv in Hr as [(e & Ho & ->)|(x & s1 & Ho & Hr)];
    apply on_process_run in Ho as (y & p & Hc & -> & Hy);
    pose proof Hc as Hc2; apply NewHandler_run in Hc2; try apply Hn;
    (destruct Hy as [[-> ?]|[_ Hy]]; [by destruct Hc2 as [? [?|?]]|]); [done|].
  injection Hy as ->. apply (preserves (R:=tends)) in Hc.
  pose proof (running_tends _ _ _ _ Hc Hn) as Hn1. destruct y as [e|h].
  - assert (r = inl Fatal /\ tended (set_process p s) s') as [-> Ht].
    { destruct Hc2 as (c & [-> | ->]); cbn in Hr;
        (apply bind_inv in Hr as [(e & Hf & ->)|([] & s2 & Hf & _)];
         apply report_fatal_run in Hf as [? ?];
         [by simplify_eq|intros ? ? Hd; by apply (report_default_run opts []) in Hd
         |done|intros ? ? Hd; by apply (report_default_run opts []) in Hd]). }
    split; [by left|]. split; [by eapply tended_running|].
    destruct Ht as (q & -> & Hq). split; [left; by apply tends_rows; etrans|by left].
  - destruct Hc2 as [Hh Hop].
    apply bind_inv in Hr as [(e & Hf & _)|([] & s2 & Hf & Hr)]; [done|]. injection Hf as <-.
    apply tends_rows in Hc.
    apply defer_run in Hr as [[Hb ->]|(x & s3 & y & Hb & Hx & Hd & ->)];
      apply (register_and_run_run opts []) in Hb as (Hx2 & Hn3 & Hid & _ & _ & Hw3 & _);
      try (intros ?????? Hf; apply report_fatal_run in Hf; [done|];
           intros ?? Hd2; by eapply report_default_run in Hd2); try exact Hn1;
      [by destruct Hx2|].
    destruct (close_handler_run h s3 Hid Hop) as (h' & Hcl & Hch & Hk & Hg).
    rewrite Hcl in Hd. injection Hd as <- <-. split; [exact Hx2|]. split; [done|]. split.
    + destruct Hw3 as [Hw|Hw]; [left; by etrans|right; by exists h, (pr_world p)].
    + right. exists h'. split; [done|]. split; [done|]. unfold handler_of. by rewrite Hk, Hg.
Qed.

(** ** A main function *)

(** Nothing of the framework is left. *)
Definition stopped (p : Process) : Prop :=
  pr_served p = [] /\ pr_watcher p = None /\ pr_store p = None /\ pr_sync p = None /\
  pr_broker p = None /\ exists o c, pr_db p = Some (o, c) /\ c_closed c = true /\ c_live c = [].

Lemma destroy_run opts s r s' :
  running opts [] (sv_process s) -> destroy s = (r, s') ->
  r = inr tt /\ exists p, s' = set_process p s /\ stopped p /\ proc_rows (sv_process s) p.
Proof.
  intros Hn Hr. apply running_watching in Hn as (Hb & Hs & Hy & Hd & Hw). unfold destroy in Hr.
  apply bind_inv in Hr as [(e & Ho & ->)|(x & s1 & Ho & [-> ->]%ret_inv)];
    apply on_process_run in Ho as (y & p & Hc & -> & Hx);
    pose proof (Destroy_run _ _ _ _ _ Hb Hs Hy Hd Hw Hc)
      as (-> & H1' & H2' & H3' & H4' & H5' & H6' & _).
  - by destruct Hx as [[? _]|[_ ?]].
  - split; [done|]. exists p. split; [done|]. split; [by split_and!|].
    by apply (preserves (R:=proc_rows)) in Hc.
Qed.

(** What a step of go-micro, or several, may do: nothing, or fail. *)
Definition may_fail (c : M ServiceState ending unit) : Prop :=
  forall s r s', c s = (r, s') -> s' = s /\ ended r.

Lemma may_fail_or_fatal answer : may_fail (or_fatal answer).
Proof. intros s r s'. unfold ended. destruct answer; intros [= <- <-]; eauto. Qed.
Lemma may_fail_bind c d : may_fail c -> may_fail d -> may_fail (c ;; d).
Proof.
  intros Hc Hd s r s' [(e & Hr & ->)|([] & s1 & Hr & Hr2)]%bind_inv;
    apply Hc in Hr as [-> Hx].
  - split; [done|]. left. by destruct Hx as [[= ->]|?].
  - by apply Hd.
Qed.
Lemma may_fail_inits : may_fail inits.
Proof. by repeat apply may_fail_bind; apply may_fail_or_fatal. Qed.

(** The parts of a run: the framework did not come up; go-micro failed before the
    release of the framework was deferred; or the body ended and all was released. *)
Inductive main_ran (opts : CmdOptions) (refused : ending)
    (steps body : M ServiceState ending unit) (s : ServiceState) : ending + unit -> ServiceState -> Prop :=
| Ran_not e p :
    Before DefaultRegistries opts ctx (sv_process s) = (inl e, p) ->
    proc_rows (sv_process s) p ->
    main_ran opts refused steps body s (inl refused) (set_process p s)
| Ran_none u p :
    Before DefaultRegistries opts ctx (sv_process s) = (inr u, p) ->
    running opts [] p -> proc_rows (sv_process s) p ->
    steps (set_process p s) = (inl Fatal, set_process p s) ->
    main_ran opts refused steps body s (inl Fatal) (set_process p s)
| Ran_all u p r s1 p' :
    Before DefaultRegistries opts ctx (sv_process s) = (inr u, p) ->
    running opts [] p -> proc_rows (sv_process s) p ->
    steps (set_process p s) = (inr tt, set_process p s) ->
    body (set_process p s) = (r, s1) -> ended r ->
    stopped p' -> proc_rows (sv_process s1) p' ->
    main_ran opts refused steps body s r (set_process p' s1).

Lemma main_run opts refused steps body s r s' :
  idle_process (sv_process s) -> may_fail steps ->
  (forall s r s', running opts [] (sv_process s) -> body s = (r, s') ->
     ended r /\ running opts [] (sv_process s')) ->
  (Init DefaultRegistries ctx (throw refused) opts ;; steps ;; defer destroy body) s = (r, s') ->
  main_ran opts refused steps body s r s'.
Proof.
  intros Hi Hst Hbody Hr.
  assert (main_ran opts refused steps body s r s' \/
    exists u p, Before DefaultRegistries opts ctx (sv_process s) = (inr u, p) /\
      running opts [] p /\ proc_rows (sv_process s) p /\
      (steps ;; defer destroy body) (set_process p s) = (r, s')) as
    [?|(u & p & Hbef & Hn & Hp & Hr2)]; [|done|].
  { apply bind_inv in Hr as [(e & Hin & ->)|([] & s1 & Hin & Hr)];
      unfold Init in Hin;
      apply bind_inv in Hin as [(e' & Ho & He)|(x & s2 & Ho & Hx)];
      apply on_process_run in Ho as (y & p & Hc & -> & Hy);
      pose proof (Before_run _ _ _ _ _ _ Hi Hc) as Hb;
      apply (preserves (R:=proc_rows)) in Hc as Hrows.
    - destruct Hy as [[-> _]|[_ ?]]; [by destruct Hb|done].
    - destruct Hy as [[_ ?]|[_ [= ->]]]; [done|]. left.
      destruct y as [e2|]; [|by apply ret_inv in Hx as [? _]].
      apply throw_inv in Hx as [[= ->] ->]. by eapply Ran_not.
    - done.
    - destruct Hy as [[_ ?]|[_ [= ->]]]; [done|]. right.
      destruct y as [e2|]; [by apply throw_inv in Hx as [? _]|].
      apply ret_inv in Hx as [_ ->]. eexists _, p. split; [exact Hc|].
      split; [by apply running_watching|]. by split. }
  clear Hr. apply bind_inv in Hr2 as [(e & Hs & ->)|([] & s1 & Hs & Hr)];
    pose proof (Hst _ _ _ Hs) as [-> Hx].
  { destruct Hx as [[= ->]|?]; [|done]. by eapply Ran_none. }
  apply defer_run in Hr as [[Hb ->]|(x & s2 & y & Hb & Hne & Hd & ->)];
    pose proof (Hbody (set_process p s) _ _ Hn Hb) as [Hx2 Hn2]; [by destruct Hx2|].
  eapply destroy_run in Hd as (-> & q & -> & Hq & Hrows); [|exact Hn2].
  by eapply Ran_all.
Qed.

Lemma identity_main_ran s r s' :
  idle_process (sv_process s) -> identity_main DefaultRegistries ctx s = (r, s') ->
  main_ran (newCommand []) Exited inits identity_body s r s'.
Proof.
  intros Hi. apply main_run; [done|apply may_fail_inits|].
  intros s1 r1 s2 Hn Hb. by apply (identity_body_run (newCommand [])) in Hb as (? & ? & _).
Qed.

(** What the world of the identity service becomes, however it ends. *)
Lemma identity_world s r s' :
  idle_process (sv_process s) -> identity_main DefaultRegistries ctx s = (r, s') ->
  exists w0, rows_eq (pr_world (sv_process s)) w0 /\
    world_after w0 (handler_of w0) (pr_world (sv_process s')).
Proof.
  intros Hi Hr. apply identity_main_ran in Hr as
    [e p _ Hp|u p _ _ Hp _|u p x s1 p' _ Hn Hp _ Hb _ _ Hq];
    [| | |done].
  - exists (pr_world (sv_process s)). split; [done|]. by left.
  - exists (pr_world (sv_process s)). split; [done|]. by left.
  - exists (pr_world p). split; [exact Hp|].
    apply (identity_body_run (newCommand [])) in Hb as (_ & _ & Hw & _); [|exact Hn].
    by eapply world_after_eq.
Qed.

(** go-micro takes the registry: its server, its client and its selector. *)
Definition micro_up : Prop :=
  server_init = None /\ client_init = None /\ selector_init = None.

Lemma inits_run s r s' :
  inits s = (r, s') -> (r = inr tt -> micro_up) /\ (r = inl Fatal -> ~ micro_up).
Proof.
  unfold inits, bind, or_fatal, micro_up, fatal, throw, ret.
  destruct server_init, client_init, selector_init; intros [= <- <-];
    (split; [done|]) || (split; [|done]); naive_solver.
Qed.


(** Those ids are the administrator's and its role's. *)
Definition administrator (uid rid : Z) (w : World) : Prop :=
  (exists u, u ∈ R TUser w /\ User.ID u = uid) /\
  (exists a, a ∈ R TRole w /\ Role.ID a = rid) /\
  UserRole.mk uid rid ∈ R TUserRole w /\
  forall x, x ∈ R TUserRole w -> UserRole.RoleID x = rid -> UserRole.UserID x = uid.

Lemma administrator_administered `{Globals} w :
  administrator (User.ID adminUser) (Role.ID admin_role) w <-> administered w.
Proof. split; [intros (?&?&?&?)|intros []]; by split_and? || split. Qed.

Lemma administrator_rows uid rid w w' :
  rows_eq w w' -> administrator uid rid w -> administrator uid rid w'.
Proof. intros Hw. unfold administrator. by rewrite !Hw. Qed.

(** C32. The administrator stays for the life of the identity service.  Before the
    service starts let a user whose account is "admin" have the role "admin" of
    CDM-Cloud, and nobody else; let the key file hold a key, and let the service
    only serve requests, any number of them, of whomever, with the variables its
    start set.  Then when its main has ended, however, that user and that role
    still exist, the user still has the role, and nobody else. *)
Theorem administrator_for_life key u a s r s' :
  idle_process (sv_process s) ->
  getPrivateKeyFromFile key_path = inr (Some key) ->
  (forall h w, privateKey h = Some key ->
     rtc (@step _ (id_globals h) key) w (service_run (Some h) w).2) ->
  u ∈ R TUser (pr_world (sv_process s)) -> User.Account u = "admin"%string ->
  a ∈ R TRole (pr_world (sv_process s)) -> Role.Solution a = "CDM-Cloud"%string ->
  Role.Role a = "admin"%string ->
  administrator (User.ID u) (Role.ID a) (pr_world (sv_process s)) ->
  identity_main DefaultRegistries ctx s = (r, s') ->
  administrator (User.ID u) (Role.ID a) (pr_world (sv_process s')).
Proof.
  intros Hi Hkey Hrun Hu Hacc Ha Hsol Hrole Hadm Hr.
  apply identity_world in Hr as (w0 & Hw0 & Hw); [|exact Hi].
  apply (administrator_rows _ _ _ _ Hw0) in Hadm.
  rewrite <- (Hw0 TUser) in Hu. rewrite <- (Hw0 TRole) in Ha.
  destruct Hw as [Hw|(h & w1 & [Hk [w2 Hh]] & Hw1 & Hw)]; [by eapply administrator_rows|].
  apply NewIdentityHandler_spec in Hh as (_ & (u' & Hu' & _ & Hid & Honly) & Hadmin & _).
  assert (u = u') as -> by by apply Honly.
  assert (a = @admin_role (id_globals h)) as -> by by apply Hadmin.
  rewrite Hid in *. eapply administrator_rows; [exact Hw|].
  apply administrator_administered.
  eapply (adm_steps key); [apply Hrun; congruence|].
  apply administrator_administered. by eapply administrator_rows.
Qed.

(** ** The notification service *)

(** A subscription of a persistent queue: its queue is the topic, it is durable,
    deliveries are acknowledged by the handler, and what it refuses is put back if
    so chosen. *)
Definition persistent (t : string) (requeue : bool) (h : Handle) : Prop :=
  let sub := hd_subscription h in
  topic sub = t /\ SubscribeOptions.Queue (s_opts sub) = t /\ s_durable sub = true /\
  SubscribeOptions.AutoAck (s_opts sub) = false /\ s_requeue sub = requeue.

Lemma subscribe_run opts l t rq s r s' ec :
  running opts l (sv_process s) -> subscribe_or_fatal t rq ec s = (r, s') ->
  exists h p, r = inr h /\ persistent t rq h /\ s' = set_process p s /\
    running opts (h :: l) p /\ pr_world p = pr_world (sv_process s).
Proof.
  intros Hn. pose proof Hn as [(b & conn & Hb & Hconn & Hbr) Hs Hy Hd Hw Hserved Hold Ha].
  unfold subscribe_or_fatal, on_process, on_watch, subscribe_persistent, bind, get.
  cbn. rewrite Hb. cbn. rewrite Hconn. cbn.
  set (h := mkHandle _ _). intros [= <- <-]. exists h. eexists. split; [done|].
  split; [by destruct rq; split_and!|]. split; [done|]. split; [|done].
  split; try done; cbn.
  - by exists b, conn.
  - intros h'. rewrite !elem_of_cons, (Hserved h'). unfold holds. cbn. naive_solver.
  - intros h'. rewrite elem_of_cons. intros [->|Hin]; [cbn; lia|]. apply Hold in Hin. lia.
  - split; [|by eapply apart_tends; [|exact Ha]]. intros h' Hh'. cbn.
    apply Hold, Hserved. exact Hh'.
Qed.

Lemma release_run opts h l ec s r s' :
  running opts (h :: l) (sv_process s) -> release h ec s = (r, s') ->
  r = inr tt /\ exists p, s' = set_process p s /\ running opts l p /\
    proc_rows (sv_process s) p.
Proof.
  intros [Hb Hs Hy Hd Hw Hserved Hold [Hap Ha]] Hr. unfold release in Hr.
  assert (exists x p, on_watch (unsubscribe h) (sv_process s) = (x, p) /\ x <> inl EPanic /\
    running opts l p /\ proc_rows (sv_process s) p) as (x & p & Hu & Hx & Hn & Hrows).
  { unfold on_watch, unsubscribe, bind, wt_count, set_served, modify. cbn.
    assert (forall k, running opts l (mkProcess _ (pr_world (sv_process s))
      (pr_registry (sv_process s)) (pr_timeout (sv_process s)) (pr_broker (sv_process s))
      (pr_store (sv_process s)) (pr_sync (sv_process s)) (pr_db (sv_process s))
      (List.filter (fun x => negb (hd_id x =? hd_id h)%nat) (pr_served (sv_process s)))
      (pr_watcher (sv_process s)) (pr_mlevel (sv_process s))
      (S (pr_tick (sv_process s)) + k))) as Hk.
    { intros k. split; try done; cbn.
      - intros h'. rewrite list_elem_of_In, List.filter_In, <- list_elem_of_In, (Hserved h').
        rewrite negb_true_iff, Nat.eqb_neq, elem_of_cons. unfold holds in *. cbn in *.
        split; [intros [[[->|?]|?] Hne]; [done|by left|by right]|].
        intros Hh'. split; [naive_solver|]. apply Hap in Hh'. lia.
      - intros h'. rewrite list_elem_of_In, List.filter_In, <- list_elem_of_In.
        intros [Hin _]. apply Hold in Hin. lia.
      - by eapply apart_tends; [|exact Ha]. }
    specialize (Hk 0%nat). rewrite Nat.add_0_r in Hk.
    destruct (unsubscribe_fails _); do 2 eexists; (split; [done|]); by split. }
  assert (on_process (on_watch (unsubscribe h)) s = (inr x, set_process p s)) as Ho.
  { unfold on_process. rewrite Hu. by destruct x as [[]|]. }
  rewrite (bind_run _ _ _ _ _ Ho) in Hr. destruct x as [e|u].
  - apply bind_inv in Hr as [(? & ? & _)|(s0 & s1 & [= <- <-] & Hr)]; [done|].
    apply bind_inv in Hr as [(y & Hrep & ->)|(y & s2 & Hrep & [-> ->]%ret_inv)];
      apply (on_report_run opts l) in Hrep as [? (q & -> & Hq)]; try done.
    split; [done|]. exists q. split; [done|]. split; [by eapply running_tends|].
    etrans; [exact Hrows|]. by apply tends_rows in Hq.
  - apply ret_inv in Hr as [-> ->]. split; [done|]. by exists p.
Qed.

Lemma fail_unknown_run opts l ec t s r s' :
  running opts l (sv_process s) -> fail_unknown ec t s = (r, s') ->
  r = inl Fatal /\ tended s s'.
Proof.
  intros Hn. unfold fail_unknown.
  intros [(? & ? & _)|(s0 & s1 & [= <- <-] & Hr)]%bind_inv; [done|].
  apply bind_inv in Hr as [(e & Ho & ->)|(y & s2 & Ho & [-> ->]%throw_inv)];
    apply (on_report_run opts l) in Ho as [? ?]; done.
Qed.

Lemma loadDefaultTenantID_run p r p' :
  database_up ctx p -> loadDefaultTenantID p = (r, p') ->
  tends p p' /\ r <> inl EPanic /\
  forall t, r = inr t -> t ∈ R TTenant (pr_world p) /\ Tenant.Name t = "default"%string.
Proof.
  intros Hd. unfold loadDefaultTenantID.
  intros [(? & (? & ? & _)%attempt_inv & _)|(x & p1 & Ha & Hr)]%bind_inv; [done|].
  apply attempt_inv in Ha as (y & [= ->] & Hc). pose proof Hc as Hc2.
  apply with_database_run in Hc2 as [w Hc2]; [|exact Hd].
  apply (preserves (R:=tends)) in Hc. pose proof (default_tenant_no_panic _ _ _ Hc2) as Hne.
  assert (p' = p1 /\ r <> inl EPanic /\ forall t, r = inr t -> y = inr t) as (-> & Hr1 & Hr2).
  { destruct y as [e|t]; [|apply ret_inv in Hr as [-> ->]; split; [done|split; [done|by intros ? [= ->]]]].
    destruct e; try done; apply throw_inv in Hr as [-> ->]; by split_and!. }
  split; [exact Hc|]. split; [exact Hr1|]. intros t Ht. apply Hr2 in Ht as ->.
  apply transaction_outcome in Hc2; [|unfold Find_one; keep].
  destruct Hc2 as (w0 & w2 & db & Hw0 & Hf & _).
  apply (Find_one_ok TTenant) in Hf as [Hin Hp]. apply String.eqb_eq in Hp.
  split; [|exact Hp]. by rewrite <- (Hw0 TTenant).
Qed.

(** What is served while the notification service runs. *)
Definition notifying (p : Process) : Prop :=
  exists n sub, running (newCommand []) [n; sub] p /\
    persistent QueueReportEvent false sub /\ persistent QueueNotifyEmail true n.

Lemma notification_run_run opts l s r s' :
  running opts l (sv_process s) -> notification_run s = (r, s') ->
  ended r /\ running opts l (sv_process s') /\ sv_tenant s' = sv_tenant s /\
  sv_cleaner s' = false /\
  (r = inr tt ->
   service_run (sv_identity s) (pr_world (sv_process s)) = (None, pr_world (sv_process s'))).
Proof.
  intros Hn Hr. unfold notification_run in Hr.
  apply bind_inv in Hr as [(e & Hs & _)|([] & s1 & Hs & Hr)]; [done|]. injection Hs as <-.
  apply defer_run in Hr as [[Hb ->]|(x & s2 & y & Hb & Hne & Hd & ->)];
    apply (register_and_run_run opts l) in Hb as (Hx & Hn2 & _ & Ht & _ & _ & Hran);
    try (intros ?????? Hf; by eapply fail_unknown_run in Hf); try exact Hn;
    [by destruct Hx|].
  injection Hd as <- <-. split; [exact Hx|]. split; [exact Hn2|]. split; [exact Ht|].
  split; [done|]. exact Hran.
Qed.

(** From the second subscription to its release. *)
Definition notifier_part : M ServiceState ending unit :=
  n <- subscribe_or_fatal QueueNotifyEmail true
    "cdm-cloud.notification.main.failure-notifier_subscribe" ;;
  defer (release n "cdm-cloud.notification.main.failure-notifier_unsubscribe")
    notification_run.

Lemma notifier_part_run opts l s r s' :
  running opts l (sv_process s) -> notifier_part s = (r, s') ->
  ended r /\ running opts l (sv_process s') /\ sv_cleaner s' = false /\
  sv_tenant s' = sv_tenant s /\
  (r = inr tt -> exists p w n, running opts (n :: l) p /\ persistent QueueNotifyEmail true n /\
     pr_world p = pr_world (sv_process s) /\
     service_run (sv_identity s) (pr_world p) = (None, w) /\
     rows_eq w (pr_world (sv_process s'))).
Proof.
  intros Hn Hr. unfold notifier_part in Hr.
  apply bind_inv in Hr as [(e & Hs & _)|(n & s1 & Hs & Hr)];
    apply (subscribe_run opts l) in Hs as (h & p & [= <-] & Hh & -> & Hn1 & Hw1); try exact Hn.
  apply defer_run in Hr as [[Hb ->]|(x & s2 & y & Hb & Hne & Hd & ->)];
    apply (notification_run_run opts (n :: l)) in Hb as (Hx & Hn2 & Ht & Hcl & Hran);
    try exact Hn1; [by destruct Hx|].
  eapply release_run in Hd as (-> & q & -> & Hq & Hrows); [|exact Hn2].
  split; [exact Hx|]. split; [exact Hq|]. split; [exact Hcl|]. split; [exact Ht|].
  intros Hx2. specialize (Hran Hx2). by exists p, (pr_world (sv_process s2)), n.
Qed.

Lemma notification_body_run s r s' :
  running (newCommand []) [] (sv_process s) -> notification_body s = (r, s') ->
  ended r /\ running (newCommand []) [] (sv_process s') /\
  (sv_cleaner s = false -> sv_cleaner s' = false) /\
  (r = inr tt ->
   (exists t, t ∈ R TTenant (pr_world (sv_process s)) /\
      Tenant.Name t = "default"%string /\ sv_tenant s' = Tenant.ID t) /\
   exists p w, notifying p /\ rows_eq (pr_world (sv_process s)) (pr_world p) /\
     service_run (sv_identity s) (pr_world p) = (None, w) /\
     rows_eq w (pr_world (sv_process s'))).
Proof.
  intros Hn Hr. unfold notification_body in Hr.
  apply bind_inv in Hr as [(e & Ho & ->)|(x & s1 & Ho & Hr)];
    apply on_process_run in Ho as (y & p & Hc & -> & Hy);
    apply loadDefaultTenantID_run in Hc as (Ht & Hne & Hty); try apply Hn;
    (destruct Hy as [[-> ?]|[_ Hy]]; [done|]); [done|].
  injection Hy as ->. pose proof (running_tends _ _ _ _ Ht Hn) as Hn1.
  apply tends_rows in Ht. destruct y as [e|t].
  { apply throw_inv in Hr as [-> ->]. split; [by left|]. by split. }
  apply bind_inv in Hr as [(e & Hs & _)|([] & s2 & Hs & Hr)]; [done|]. injection Hs as <-.
  apply bind_inv in Hr as [(e & Hs & _)|(sub & s3 & Hs & Hr)];
    apply (subscribe_run (newCommand []) []) in Hs as (h & p3 & [= <-] & Hsub & -> & Hn3 & Hw3);
    try exact Hn1.
  apply defer_run in Hr as [[Hb ->]|(x & s4 & y & Hb & Hx & Hd & ->)];
    apply (notifier_part_run (newCommand []) [sub]) in Hb as (Hx2 & Hn4 & Hcl & Htn & Hran);
    try exact Hn3; [by destruct Hx2|].
  eapply release_run in Hd as (-> & p5 & -> & Hn5 & Hrows5); [|exact Hn4].
  split; [exact Hx2|]. split; [exact Hn5|]. split; [done|]. intros Hok.
  destruct (Hran Hok) as (q & w & n & Hq & Hqn & Hqw & Hran2 & Hrows).
  split; [exists t; by destruct (Hty t eq_refl)|].
  exists q, w. split; [by exists n, sub|].
  cbn in Hqw, Hw3. split; [rewrite Hqw, Hw3; exact Ht|]. split; [exact Hran2|].
  by etrans.
Qed.

(** C34. The life of the notification service.  Started where nothing was, its main
    never runs into a nil pointer.  It exits exactly when [Before], which brings up
    the framework, fails.  When the framework is up and go-micro's server, client or
    selector does not take the registry, the failure is fatal and all that came up is
    still up.  When they do, however the main then ends, returning or by any later
    fatal failure, the cleaner was stopped, and both subscriptions and the framework
    with all its parts were released.  When it returns, the service ran for the
    default tenant with both queues served beside the two topics of the logging
    level - reported events, which are dropped when they are refused, and mails to
    deliver, which are put back - in a world with the rows of the start, and
    afterwards the rows are those the run left. *)
Theorem notification_main_spec s r s' :
  idle_process (sv_process s) -> sv_cleaner s = false ->
  notification_main DefaultRegistries ctx s = (r, s') ->
  let before := (Before DefaultRegistries (newCommand []) ctx (sv_process s)).1 in
  sv_cleaner s' = false /\ r <> inl Panicked /\
  (r = inl Exited <-> exists e, before = inl e) /\
  ((exists u, before = inr u) -> ~ micro_up ->
     r = inl Fatal /\ running (newCommand []) [] (sv_process s')) /\
  ((exists u, before = inr u) -> micro_up ->
     (r = inl Fatal \/ r = inr tt) /\ stopped (sv_process s')) /\
  (r = inr tt ->
     (exists t, t ∈ R TTenant (pr_world (sv_process s)) /\
        Tenant.Name t = "default"%string /\ sv_tenant s' = Tenant.ID t) /\
     exists p w, notifying p /\ rows_eq (pr_world (sv_process s)) (pr_world p) /\
       service_run (sv_identity s) (pr_world p) = (None, w) /\
       rows_eq w (pr_world (sv_process s'))).
Proof.
  intros Hi Hcl0 Hr before. subst before. eapply (main_run (newCommand []) Exited) in Hr;
    [|exact Hi|apply may_fail_inits|].
  - destruct Hr as [e p Hb _|u p Hb Hn _ Hs|u p x s1 p' Hb Hn Hp Hs Hbody Hx Hst Hrows];
      rewrite Hb; cbn.
    + split; [done|]. split; [done|]. split; [by split; [exists e|]|].
      split; [by intros [? ?]|]. by split; [intros [? ?]|].
    + split; [done|]. split; [done|]. split; [split; [done|by intros [? ?]]|].
      apply inits_run in Hs as [_ Hs]. split; [done|].
      split; [intros _ Hup; by apply Hs in Hup|done].
    + assert (x <> inl Panicked /\ x <> inl Exited) as [Hnp Hne] by (by destruct Hx as [-> | ->]).
      apply notification_body_run in Hbody as (_ & _ & Hcl & Hok); [|exact Hn].
      split; [by apply Hcl|]. split; [done|]. split; [split; [done|by intros [? ?]]|].
      apply inits_run in Hs as [Hs _]. split; [by intros _ []; apply Hs|]. split; [done|].
      intros Ho. destruct (Hok Ho) as ((t & Hin & Hnm & Ht) & q & w & Hq & Hqw & Hran & Hw).
      split; [exists t; split; [by rewrite <- (Hp TTenant)|done]|].
      exists q, w. split; [exact Hq|]. split; [by etrans|]. split; [exact Hran|]. by etrans.
  - intros s1 r1 s2 Hn Hb. by apply notification_body_run in Hb as (? & ? & _).
Qed.

(** The API gateway: the same, with the flags of its own; go-micro is set up after
    the framework's release is deferred, so that every failure releases it. *)
Theorem gateway_main_spec s r s' :
  idle_process (sv_process s) -> gateway_main DefaultRegistries ctx s = (r, s') ->
  ended r /\
  (stopped (sv_process s') \/
   exists e, r = inl Fatal /\
     (Before DefaultRegistries (newCommand [WithFlags gateway_flags]) ctx
        (sv_process s)).1 = inl e).
Proof.
  set (opts := newCommand [WithFlags gateway_flags]).
  assert (forall s r s', running opts [] (sv_process s) -> gateway_body s = (r, s') ->
    ended r /\ running opts [] (sv_process s')) as Hbody.
  { intros s1 r1 s2 Hn Hb. unfold gateway_body in Hb.
    do 4 (apply bind_inv in Hb as [(? & Hb & ->)|(? & ? & Hf & Hb)];
      [apply may_fail_or_fatal in Hb as [-> [[= ->]|?]]; [by split; [left|]|done]|];
      apply may_fail_or_fatal in Hf as [-> _]).
    apply bind_inv in Hb as [(? & Hb & _)|(? & ? & Hf & Hb)]; [by unfold Run in Hb; destruct (service_run _ _)|].
    apply may_fail_or_fatal in Hb as [-> Hx]. split; [done|].
    unfold Run in Hf. destruct (service_run _ _). injection Hf as <- <-. by apply running_world. }
  intros Hi Hr. change (gateway_main DefaultRegistries ctx) with
    (Init DefaultRegistries ctx (throw Fatal) opts ;; ret tt ;; defer destroy gateway_body) in Hr.
  apply main_run in Hr as [e p Hb _|u p _ _ _ Hs|u p x s1 p' _ _ _ _ _ Hx Hst _];
    [..|done| |exact Hbody].
  - split; [by left|]. right. exists e. by rewrite Hb.
  - done.
  - split; [exact Hx|by left].
  - intros s1 r1 s2 [= <- <-]. by split; [|right].
Qed.
End life.

(** ** Examples: the sample world, and a run that deletes a user *)
#[local] Existing Instances mem_backend mem_backend_laws.
#[local] Existing Instances k_registry k_amqp k_dialer k_etcd k_levels.
#[local] Instance v_keys : KeyFiles := {
  ReadFile path := if (path =? key_path)%string then inr "pem"%string else inl "no file"%string;
  pem_Decode s := Some s;
  ParsePKCS1PrivateKey _ := inr s_key
}.
#[local] Instance v_casbin : Casbin := {
  NewAdapter := None; NewModelFromString := None; NewEnforcer := None; LoadPolicy := None
}.
#[local] Instance v_micro : Micro := {
  server_init := None; client_init := None; selector_init := None; web_init := None;
  register_handler := None;
  service_run h w :=
    match h with
    | Some h => (None, (@DeleteUser _ (id_globals h) (s_ctx s_req_admin) 4 w).2)
    | None => (None, w)
    end
}.
Definition v_start : @ServiceState mem_backend :=
  mkService _ (mkProcess _ s_world k_registry 0 None None None None [] None 0 0) None 0 false.
Definition v_identity := identity_main (fun _ => None) k_cli v_start.
Definition v_notification := notification_main (fun _ => None) k_cli v_start.

Lemma v_idle : idle_process (sv_process v_start).
Proof. by split_and!. Qed.

(** The framework comes up. *)
Lemma v_before : exists u,
  (Before (fun _ => None) (newCommand []) k_cli (sv_process v_start)).1 = inr u.
Proof. eexists. vm_compute. reflexivity. Qed.

Lemma v_micro_up : micro_up.
Proof. by split_and!. Qed.


Lemma notification_main_spec_witness :
  v_notification.1 = inr tt /\ stopped (sv_process v_notification.2) /\
  sv_tenant v_notification.2 = 1.
Proof.
  split; [vm_compute; reflexivity|]. split; [|vm_compute; reflexivity].
  destruct (notification_main_spec (fun _ => None) k_cli v_start v_notification.1
    v_notification.2 v_idle eq_refl (surjective_pairing _)) as (_ & _ & _ & _ & Hs & _).
  destruct (Hs v_before v_micro_up) as (_ & Hst). exact Hst.
Defined.

Lemma v_requests h w :
  privateKey h = Some s_key -> rtc (@step _ (id_globals h) s_key) w (service_run (Some h) w).2.
Proof.
  intros _. apply rtc_once.
  set (c := @DeleteUser _ (id_globals h) (s_ctx s_req_admin) 4).
  change (service_run (Some h) w).2 with (c w).2.
  apply (@step_transaction _ (id_globals h) s_key _ c w (c w).1);
    [apply DeleteUser_t|apply surjective_pairing].
Qed.

Lemma administrator_for_life_witness :
  v_identity.1 = inr tt /\
  List.length (R TUser (pr_world (sv_process v_identity.2))) = 3%nat /\
  administrator 1 1 (pr_world (sv_process v_identity.2)).
Proof.
  split; [vm_compute; reflexivity|]. split; [vm_compute; reflexivity|].
  apply (administrator_for_life (fun _ => None) k_cli s_key
    (s_user 1 "admin" "adminpw" None None) s_admin_role v_start v_identity.1).
  - exact v_idle.
  - reflexivity.
  - exact v_requests.
  - apply (bool_decide_unpack _). vm_compute. reflexivity.
  - reflexivity.
  - apply (bool_decide_unpack _). vm_compute. reflexivity.
  - reflexivity.
  - reflexivity.
  - destruct s_administered as [Hu Hr Hh Ho]. exact (conj Hu (conj Hr (conj Hh Ho))).
  - unfold v_identity. apply surjective_pairing.
Defined.
