(* ===== verification/TestMode.v ===== *)
(** * common/database: the test mode of a connection (connection.go: Test,
    nestedTransaction, and the three kinds of transaction in that mode)

    A test runs in one transaction that is rolled back; every transaction of the
    program is then a block between a savepoint and its release.  The savepoints
    with names are SQL's, and a parameter. *)

From stdpp Require Import base tactics list strings gmap.
From Stdlib Require Import ZArith Lia Ascii.
From S2P Require Import Prelude GoStd Json Model Backend Errors Gorm Database GormFacts.
From S2P Require Import RefBackend.
#[local] Open Scope Z_scope.
#[local] Open Scope go_scope.

(** ** Savepoints *)

(** [SAVEPOINT name], [ROLLBACK TO name], [RELEASE SAVEPOINT name]; the savepoints
    of a connection, the latest first, with the rows they go back to. *)
Class Savepoints `{Database} := {
  saves : DB -> list (string * (forall t, list (row t)));
  sp_save : string -> DB -> (sqlerr + unit) * DB;
  sp_rollback : string -> DB -> (sqlerr + unit) * DB;
  sp_release : string -> DB -> (sqlerr + unit) * DB
}.

(** The laws of the latest savepoint; a statement that fails changes nothing. *)
Class SavepointLaws `{Savepoints} : Prop := {
  save_ok : forall n db db', sp_save n db = (inr tt, db') ->
    same_rows db db' /\ same_base db db' /\
    exists snap, saves db' = (n, snap) :: saves db /\ forall t, snap t = rows t db;
  save_err : forall n db e db', sp_save n db = (inl e, db') ->
    same_rows db db' /\ same_base db db' /\ saves db' = saves db;
  sp_rollback_ok : forall n db db', sp_rollback n db = (inr tt, db') ->
    same_base db db' /\
    forall snap l, saves db = (n, snap) :: l ->
      saves db' = saves db /\ forall t, rows t db' = snap t;
  sp_rollback_err : forall n db e db', sp_rollback n db = (inl e, db') ->
    same_rows db db' /\ same_base db db' /\ saves db' = saves db;
  sp_release_ok : forall n db db', sp_release n db = (inr tt, db') ->
    same_rows db db' /\ same_base db db' /\
    forall snap l, saves db = (n, snap) :: l -> saves db' = l;
  sp_release_err : forall n db e db', sp_release n db = (inl e, db') ->
    same_rows db db' /\ same_base db db' /\ saves db' = saves db
}.

(** ** The wrapper in test mode *)

(** A run ends with an error, or it waits for a lock that is never released. *)
Inductive test_end := Failed (e : err) | Blocked.

(** What the transaction [c.tx] is: one, or what a failed [Begin] left, which keeps
    the error. *)
Inductive test_tx := Begun | Broken (e : err).

Record TestState `{Backend} := mkTest {
  ts_world : World;
  ts_tx : option test_tx;
  ts_locked : bool
}.

Section test_mode.
Context `{Backend} `{!Savepoints}.
Abbreviation TsAct := (M TestState test_end).

Definition set_tx (tx : option test_tx) : TsAct unit := modify (fun s =>
  mkTest _ (ts_world s) tx (ts_locked s)).
Definition set_locked (b : bool) : TsAct unit := modify (fun s =>
  mkTest _ (ts_world s) (ts_tx s) b).

(** [c.txLock]: not reentrant. *)
Definition Lock : TsAct unit :=
  s <- get ;;
  if ts_locked s then throw Blocked else set_locked true.
Definition Unlock : TsAct unit := set_locked false.

(** The world alone. *)
Definition in_world {A} (c : Act A) : TsAct A := fun s =>
  let '(r, w) := c (ts_world s) in
  (match r with inl e => inl (Failed e) | inr a => inr a end,
   mkTest _ w (ts_tx s) (ts_locked s)).

(** Statements over [c.tx].  The ORM sends none when there is an error already: it
    is the result.  (A count does not look and is a nil pointer there; the programs
    of the tests below are taken not to count then.) *)
Definition on_tx {A} (c : Act A) : TsAct A :=
  s <- get ;;
  match ts_tx s with
  | Some Begun => in_world c
  | Some (Broken e) => throw (Failed e)
  | None => throw (Failed EPanic)
  end.

(** [Test] *)
Definition Test (fc : TsAct unit) : TsAct unit :=
  Lock ;;
  b <- in_world (attempt (on_db tx_begin)) ;;
  set_tx (Some match b with inr _ => Begun | inl e => Broken e end) ;;
  Unlock ;;
  fc ;;
  Lock ;;
  s <- get ;;
  (match ts_tx s with
   | Some Begun => attempt (in_world (on_db tx_rollback)) ;; ret tt
   | Some (Broken _) => ret tt
   | None => throw (Failed EPanic)
   end) ;;
  set_tx None ;;
  Unlock.

(** A name of 32 letters. *)
Definition letters : string := "abcdefghijklmnopqrstuvwxyz".
Definition letter : Act ascii := on_tick (fun n =>
  default "a"%char (String.get (Z.to_nat (rand_intn (Z.of_nat n) 26)) letters)).
Definition name_of (b : list nat) : Act string :=
  b <- map_each (fun _ => letter) b ;;
  ret (String.string_of_list_ascii b).
Definition savepoint_name : Act string := name_of (seq 0 32).

(** [nestedTransaction]: the deferred rollback also runs when [fc] panics; it does
    not run when [fc] never returns. *)
Definition nestedTransaction {A} (fc : TsAct A) : TsAct A :=
  savepoint <- in_world savepoint_name ;;
  on_tx (on_db (sp_save savepoint)) ;;
  x <- attempt fc ;;
  match x with
  | inl Blocked => throw Blocked
  | inl e => attempt (on_tx (on_db (sp_rollback savepoint))) ;; throw e
  | inr a => attempt (on_tx (on_db (sp_release savepoint))) ;; ret a
  end.

(** [Transaction], [Execute] and [GormTransaction] in test mode. *)
Definition TestTransaction {A} (fc : TsAct A) : TsAct A :=
  Lock ;;
  x <- attempt (s <- get ;;
                match ts_tx s with
                | None => throw (Failed (ENew "test transaction is not started"))
                | Some _ => nestedTransaction fc
                end) ;;
  match x with
  | inl Blocked => throw Blocked
  | inl e => Unlock ;; throw e
  | inr a => Unlock ;; ret a
  end.

(** [err := c()]: a panic and a wait without end go on. *)
Definition go_call {A} (c : TsAct A) : TsAct (err + A) :=
  x <- attempt c ;;
  match x with
  | inl Blocked => throw Blocked
  | inl (Failed EPanic) => throw (Failed EPanic)
  | inl (Failed e) => ret (inl e)
  | inr a => ret (inr a)
  end.
End test_mode.

(** ** What a test does to the database *)
Section facts.
Context `{BackendLaws} `{!Savepoints} `{!SavepointLaws}.

(** Within a transaction that goes on: where a rollback goes, the transaction and
    the lock are as before. *)
Definition within (s s' : TestState) : Prop :=
  same_base (w_db (ts_world s)) (w_db (ts_world s')) /\
  ts_tx s' = ts_tx s /\ ts_locked s' = ts_locked s.

#[global] Instance within_preorder : PreOrder within.
Proof.
  split; [by intros s|]. intros s1 s2 s3 (B1 & T1 & L1) (B2 & T2 & L2).
  split; [intros t; by rewrite B2, B1|]. split; congruence.
Qed.

(** What statements keep: where a rollback goes, and the savepoints. *)
Definition statement_frame (w w' : World) : Prop :=
  same_base (w_db w) (w_db w') /\ saves (w_db w') = saves (w_db w).

#[global] Instance statement_frame_preorder : PreOrder statement_frame.
Proof.
  split; [by intros s|]. intros s1 s2 s3 (B1 & S1) (B2 & S2).
  split; [intros t; by rewrite B2, B1|congruence].
Qed.

Lemma in_world_inv {A} (c : Act A) s r s' :
  in_world c s = (r, s') ->
  exists x w, c (ts_world s) = (x, w) /\ s' = mkTest _ w (ts_tx s) (ts_locked s) /\
    r = match x with inl e => inl (Failed e) | inr a => inr a end.
Proof.
  unfold in_world. destruct (c (ts_world s)) as [x w]. intros [= <- <-]. by exists x, w.
Qed.

#[global] Instance within_in_world {A} (c : Act A) :
  Preserves statement_frame c -> Preserves within (in_world c).
Proof.
  intros Hc s r s' (x & w & Hr & -> & _)%in_world_inv. apply Hc in Hr as [? ?]. by split_and!.
Qed.

#[global] Instance within_on_tx {A} (c : Act A) :
  Preserves statement_frame c -> Preserves within (on_tx c).
Proof. intros Hc. unfold on_tx. keep. Qed.

#[local] Instance statement_tick {A} (f : nat -> A) : Preserves statement_frame (on_tick f).
Proof. by intros w r w' [= <- <-]. Qed.
Lemma on_tx_inv {A} (c : Act A) s r s' :
  on_tx c s = (r, s') ->
  (ts_tx s = Some Begun /\ in_world c s = (r, s')) \/
  (ts_tx s <> Some Begun /\ s' = s /\
   r = inl (Failed match ts_tx s with Some (Broken e) => e | _ => EPanic end)).
Proof.
  unfold on_tx, bind, get. destruct (ts_tx s) as [[]|]; [by left|..];
    intros [-> ->]%throw_inv; by right.
Qed.

Definition ts_rows (s s' : TestState) : Prop := rows_eq (ts_world s) (ts_world s').

#[global] Instance ts_rows_preorder : PreOrder ts_rows.
Proof. split; [by intros s|]. intros s1 s2 s3. unfold ts_rows. by etrans. Qed.

(** A name only takes readings. *)
Lemma letters_run l w : exists b w1,
  map_each (fun _ : nat => letter) l w = (inr b, w1) /\ w_db w1 = w_db w.
Proof.
  revert w. induction l as [|k l IH]; intros w; cbn [map_each]; [by do 2 eexists|].
  unfold bind. unfold letter at 1, on_tick.
  match goal with |- context[map_each _ l ?w] => destruct (IH w) as (b & w2 & -> & Hw2) end.
  do 2 eexists. split; [done|]. exact Hw2.
Qed.

Lemma name_of_run l w r w' :
  name_of l w = (r, w') -> (exists n, r = inr n) /\ w_db w' = w_db w.
Proof.
  unfold name_of. destruct (letters_run l w) as (b & w1 & Hb & Hw1).
  rewrite (bind_run _ _ _ _ _ Hb). intros [= <- <-]. split; [by eexists|exact Hw1].
Qed.

Lemma savepoint_name_eq : savepoint_name = name_of (seq 0 32).
Proof. reflexivity. Qed.

#[local] Opaque savepoint_name.

Lemma name_run s r s' :
  in_world savepoint_name s = (r, s') ->
  (exists n, r = inr n) /\ within s s' /\ ts_rows s s' /\
  saves (w_db (ts_world s')) = saves (w_db (ts_world s)).
Proof.
  rewrite savepoint_name_eq. generalize (seq 0 32). intros l.
  intros (x & w & Hn & -> & ->)%in_world_inv.
  destruct (name_of_run _ _ _ _ Hn) as [[n ->] Hw].
  split; [by exists n|]. unfold within, ts_rows, rows_eq, R, same_base. cbn. rewrite Hw.
  by split_and!.
Qed.

Lemma on_tx_begun {A} (f : DB -> (sqlerr + A) * DB) s r s' :
  ts_tx s = Some Begun -> on_tx (on_db f) s = (r, s') ->
  exists x db, f (w_db (ts_world s)) = (x, db) /\
    s' = mkTest _ (set_db db (ts_world s)) (ts_tx s) (ts_locked s) /\
    r = match x with inl e => inl (Failed (EDriver e)) | inr a => inr a end.
Proof.
  intros Ht [[_ Hr]|[? _]]%on_tx_inv; [|done].
  apply in_world_inv in Hr as (x & w & (y & db & Hf & -> & ->)%on_db_inv & -> & ->).
  exists y, db. split; [done|]. split; [done|]. by destruct y.
Qed.

(** A block is done, with the rows its body made, or it failed and the rows are
    those before. *)
Definition all_or_nothing {A} (c : Act A) (s : TestState) (r : test_end + A)
    (s' : TestState) : Prop :=
  (exists a w0 w1, r = inr a /\ rows_eq (ts_world s) w0 /\ c w0 = (inr a, w1) /\
     rows_eq w1 (ts_world s')) \/
  (exists e, r = inl (Failed e) /\ ts_rows s s').

(** The rollback of this run failed: under some name the block set its savepoint,
    on the rows before; its body then failed, and going back to that very savepoint,
    which is still the latest, is refused. *)
Definition rollback_failed {A} (c : Act A) (s : TestState) (r : test_end + A)
    (s' : TestState) : Prop :=
  exists n db w0 e w1 snap l d,
    sp_save n db = (inr tt, w_db w0) /\ rows_eq (ts_world s) w0 /\
    c w0 = (inl e, w1) /\ r = inl (Failed e) /\
    saves (w_db w1) = (n, snap) :: l /\
    sp_rollback n (w_db w1) = (inl d, w_db (ts_world s')).

Definition block_of {A} (c : Act A) (s : TestState) (r : test_end + A) (s' : TestState) : Prop :=
  all_or_nothing c s r s' \/ rollback_failed c s r s'.

(** The latest savepoint can always be gone back to. *)
Definition goes_back : Prop := forall n snap l db,
  saves db = (n, snap) :: l -> exists db', sp_rollback n db = (inr tt, db').

(** A block ends. *)
Lemma block_ends {A} (c : Act A) s r s' : block_of c s r s' -> r <> inl Blocked.
Proof.
  intros [[(? & ? & ? & -> & _)|(? & -> & _)]
         |(? & ? & ? & ? & ? & ? & ? & ? & _ & _ & _ & -> & _)]; done.
Qed.

Lemma rollback_block n snap l s x s' :
  ts_tx s = Some Begun -> saves (w_db (ts_world s)) = (n, snap) :: l ->
  attempt (on_tx (on_db (sp_rollback n))) s = (x, s') ->
  within s s' /\
  ((forall t, rows t (w_db (ts_world s')) = snap t) \/
   exists d, sp_rollback n (w_db (ts_world s)) = (inl d, w_db (ts_world s'))).
Proof.
  intros Ht Hs (y & _ & Hrb)%attempt_inv.
  apply on_tx_begun in Hrb as ([d|[]] & db & Hrb & -> & _); [| |exact Ht].
  - pose proof (sp_rollback_err _ _ _ _ Hrb) as (_ & Hb & _).
    split; [by split_and!|]. right. by exists d.
  - pose proof (sp_rollback_ok _ _ _ Hrb) as [Hb Hback].
    split; [by split_and!|]. left. apply (Hback _ _ Hs).
Qed.

Lemma release_block n s x s' :
  ts_tx s = Some Begun -> attempt (on_tx (on_db (sp_release n))) s = (x, s') ->
  within s s' /\ ts_rows s s'.
Proof.
  intros Ht (y & _ & Hrl)%attempt_inv.
  apply on_tx_begun in Hrl as (q & db & Hrl & -> & _); [|exact Ht].
  assert (same_rows (w_db (ts_world s)) db /\ same_base (w_db (ts_world s)) db) as [Hr Hb].
  { destruct q as [d|[]]; [apply sp_release_err in Hrl|apply sp_release_ok in Hrl];
      by destruct Hrl as (? & ? & _). }
  split; [by split_and!|]. exact Hr.
Qed.

Lemma nested_run {A} (c : Act A) s r s' :
  Preserves statement_frame c -> ts_tx s = Some Begun ->
  nestedTransaction (on_tx c) s = (r, s') ->
  within s s' /\ block_of c s r s'.
Proof.
  intros Hc Ht Hr. unfold nestedTransaction in Hr.
  apply bind_inv in Hr as [(e & Hn & _)|(n & s1 & Hn & Hr)];
    apply name_run in Hn as ([m Hm] & Hw1 & Hr1 & Hs1); [done|].
  assert (ts_tx s1 = Some Begun) as Ht1 by (destruct Hw1 as (_ & -> & _); exact Ht).
  apply bind_inv in Hr as [(e & Hsv & ->)|([] & s2 & Hsv & Hr)];
    apply on_tx_begun in Hsv as (x & db & Hsv & -> & Hx); try exact Ht1; destruct x as [d|u];
    try discriminate Hx.
  - injection Hx as ->. apply save_err in Hsv as (Hrows & Hb & _).
    split; [etrans; [exact Hw1|]; by split_and!|]. left. right. eexists. split; [done|].
    etrans; [exact Hr1|]. exact Hrows.
  - clear Hx. destruct u. pose proof Hsv as Hset. apply save_ok in Hsv as (Hrows & Hb & snap & Hsnap & Heq).
    assert (within s (mkTest _ (set_db db (ts_world s1)) (ts_tx s1) (ts_locked s1))) as Hw2
      by (etrans; [exact Hw1|]; by split_and!).
    assert (ts_rows s (mkTest _ (set_db db (ts_world s1)) (ts_tx s1) (ts_locked s1))) as Hr2
      by (etrans; [exact Hr1|]; exact Hrows).
    set (s2 := mkTest _ (set_db db (ts_world s1)) _ _) in *.
    apply bind_inv in Hr as [(? & (? & ? & _)%attempt_inv & _)|(x & s3 & Ha & Hr)]; [done|].
    apply attempt_inv in Ha as (y & [= ->] & Hf).
    pose proof Hf as Hf2. apply (preserves (R:=within)) in Hf2.
    apply on_tx_inv in Hf as [[_ Hf]|[? _]]; [|by cbn in *].
    apply in_world_inv in Hf as (z & w & Hcw & -> & ->).
    pose proof (preserves (R:=statement_frame) _ _ _ Hcw) as [_ Hsv3].
    set (s3 := mkTest _ w (ts_tx s2) (ts_locked s2)) in *.
    destruct z as [e|a].
    + apply bind_inv in Hr as [(? & (? & ? & _)%attempt_inv & _)|(y & s4 & Ha & [-> ->]%throw_inv)];
        [done|].
      eapply rollback_block in Ha as [Hw4 Hback];
        [|exact Ht1|etrans; [exact Hsv3|exact Hsnap]].
      split; [etrans; [exact Hw2|]; by etrans|]. destruct Hback as [Hback|[d Hback]].
      * left. right. eexists. split; [done|].
        etrans; [exact Hr1|]. intros t. unfold R. by rewrite Hback, Heq.
      * right. exists n, (w_db (ts_world s1)), (ts_world s2), e, w, snap.
        eexists _, d. split; [exact Hset|]. split; [exact Hr2|]. split; [exact Hcw|].
        split; [done|]. split; [etrans; [exact Hsv3|exact Hsnap]|exact Hback].
    + apply bind_inv in Hr as [(? & (? & ? & _)%attempt_inv & _)|(y & s4 & Ha & [-> ->]%ret_inv)];
        [done|].
      apply release_block in Ha as [Hw4 Hr4]; [|exact Ht1].
      split; [etrans; [exact Hw2|]; by etrans|].
      left. left. by exists a, (ts_world s2), w.
Qed.

(** Without a transaction that was begun, a block fails before it begins. *)
Lemma nested_broken {A} (fc : M TestState test_end A) s r s' :
  forall e, ts_tx s = Some (Broken e) -> nestedTransaction fc s = (r, s') ->
  r = inl (Failed e) /\ within s s' /\ ts_rows s s'.
Proof.
  intros d Ht Hr. unfold nestedTransaction in Hr.
  apply bind_inv in Hr as [(e & Hn & _)|(n & s1 & Hn & Hr)];
    apply name_run in Hn as ([m Hm] & Hw1 & Hr1 & _); [done|].
  assert (ts_tx s1 = Some (Broken d)) as Ht1 by (destruct Hw1 as (_ & -> & _); exact Ht).
  apply bind_inv in Hr as [(e & Hs & ->)|(u & s2 & Hs & _)];
    apply on_tx_inv in Hs as [[? _]|(_ & -> & Hx)]; try congruence.
  rewrite Ht1 in Hx. by injection Hx as ->.
Qed.

Lemma block_run {A} (c : Act A) s r s' :
  Preserves statement_frame c -> ts_locked s = false ->
  TestTransaction (on_tx c) s = (r, s') ->
  within s s' /\
  match ts_tx s with
  | Some Begun => block_of c s r s'
  | Some (Broken e) => r = inl (Failed e) /\ ts_rows s s'
  | None => r = inl (Failed (ENew "test transaction is not started")) /\ ts_rows s s'
  end.
Proof.
  intros Hc Hl Hr. unfold TestTransaction in Hr.
  apply bind_inv in Hr as [(e & Hk & _)|([] & s1 & Hk & Hr)];
    unfold Lock, bind, get in Hk; rewrite Hl in Hk; [done|].
  injection Hk as <-. set (s1 := mkTest _ _ _ true) in Hr.
  apply bind_inv in Hr as [(? & (? & ? & _)%attempt_inv & _)|(x & s2 & Ha & Hr)]; [done|].
  apply attempt_inv in Ha as (y & [= ->] & Hb).
  assert (within s1 s2 /\
    match ts_tx s with
    | Some Begun => block_of c s1 y s2
    | Some (Broken e) => y = inl (Failed e) /\ ts_rows s1 s2
    | None => y = inl (Failed (ENew "test transaction is not started")) /\ ts_rows s1 s2
    end) as [Hw Hy].
  { unfold bind, get in Hb. cbn in Hb. destruct (ts_tx s) as [[]|] eqn:Ht.
    - by apply nested_run in Hb.
    - by apply (nested_broken _ _ _ _ e) in Hb as (-> & ? & ?).
    - apply throw_inv in Hb as [-> ->]. by split. }
  assert (y <> inl Blocked /\ s' = mkTest _ (ts_world s2) (ts_tx s2) false /\ r = y)
    as (_ & -> & ->).
  { assert (y <> inl Blocked) as Hne.
    { intros ->. destruct (ts_tx s) as [[]|]; [|by destruct Hy..].
      exact (block_ends _ _ _ _ Hy eq_refl). }
    split; [exact Hne|]. destruct y as [[e|]|a]; [|done|].
    - apply bind_inv in Hr as [(? & ? & _)|([] & s3 & [= <-] & [-> ->]%throw_inv)]; done.
    - apply bind_inv in Hr as [(? & ? & _)|([] & s3 & [= <-] & [-> ->]%ret_inv)]; done. }
  split; [|exact Hy]. destruct Hw as (Hb1 & Ht1 & _). by split_and!.
Qed.

(** ** Tests *)

(** A test runs statements and transactions, any number of them in any order, and
    looks at their answers. *)
Inductive test_program : M TestState test_end unit -> Prop :=
| Program_done : test_program (ret tt)
| Program_statements {A} (c : Act A) k :
    Preserves statement_frame c -> (forall x, test_program (k x)) ->
    test_program (x <- go_call (on_tx c) ;; k x)
| Program_transaction {A} (c : Act A) k :
    Preserves statement_frame c -> (forall x, test_program (k x)) ->
    test_program (x <- go_call (TestTransaction (on_tx c)) ;; k x).

Lemma go_call_inv {A} (c : M TestState test_end A) s r s' :
  go_call c s = (r, s') ->
  exists x, c s = (x, s') /\
    ((x = inl Blocked /\ r = inl Blocked) \/ (x = inl (Failed EPanic) /\ r = inl (Failed EPanic)) \/
     (x <> inl Blocked /\ x <> inl (Failed EPanic) /\ exists y, r = inr y)).
Proof.
  unfold go_call. intros [(? & (? & ? & _)%attempt_inv & _)|(x & s1 & Ha & Hr)]%bind_inv; [done|].
  apply attempt_inv in Ha as (y & [= ->] & Hc).
  destruct y as [[e|]|a]; [|apply throw_inv in Hr as [-> ->]; eauto|].
  - destruct e; (apply throw_inv in Hr as [-> ->] || apply ret_inv in Hr as [-> ->]);
      (eexists; split; [exact Hc|]); (by right; left) || (right; right; split_and!; eauto).
  - apply ret_inv in Hr as [-> ->]. eexists. split; [exact Hc|]. right; right. split_and!; eauto.
Qed.

(** What every answer of one call of a test is. *)
Definition one_call (s : TestState) {A} (y : test_end + A) (s1 : TestState) : Prop :=
  within s s1 /\ y <> inl Blocked /\
  (forall e, ts_tx s = Some (Broken e) -> ts_rows s s1).

Lemma statements_call {A} (c : Act A) s y s1 :
  Preserves statement_frame c -> on_tx c s = (y, s1) -> one_call s y s1.
Proof.
  intros Hc Ho. split; [by apply (preserves (R:=within)) in Ho|].
  apply on_tx_inv in Ho as [[Ht Ho]|(_ & -> & ->)]; [|done].
  apply in_world_inv in Ho as (z & w & _ & _ & ->). split; [by destruct z|by rewrite Ht].
Qed.

Lemma transaction_call {A} (c : Act A) s y s1 :
  Preserves statement_frame c -> ts_locked s = false ->
  TestTransaction (on_tx c) s = (y, s1) -> one_call s y s1.
Proof.
  intros Hc Hl Ho. apply block_run in Ho as [Hw Hb]; [|done..]. split; [exact Hw|].
  destruct (ts_tx s) as [[|e]|]; [|destruct Hb as [-> ?]..].
  - split; [exact (block_ends _ _ _ _ Hb)|done].
  - by split; [|intros ? _].
  - done.
Qed.

Lemma program_run fc s r s' :
  test_program fc -> ts_locked s = false -> fc s = (r, s') ->
  within s s' /\ r <> inl Blocked /\
  (forall e, ts_tx s = Some (Broken e) -> ts_rows s s').
Proof.
  intros Hp. revert s r s'.
  assert (forall A (c : M TestState test_end A) k,
    (forall s y s1, ts_locked s = false -> c s = (y, s1) -> one_call s y s1) ->
    (forall (x : err + A) s r s', ts_locked s = false -> k x s = (r, s') -> one_call s r s') ->
    forall s (r : test_end + unit) s', ts_locked s = false ->
      (x <- go_call c ;; k x) s = (r, s') -> one_call s r s') as Hstep.
  { intros A c k Hc IH s r s' Hl [(e & Hg & ->)|(x & s1 & Hg & Hr)]%bind_inv;
      apply go_call_inv in Hg as (y & Hy & Hcase); apply Hc in Hy as (Hw & Hnb & Hbr);
      try exact Hl.
    - split; [exact Hw|]. split; [|exact Hbr].
      destruct Hcase as [[? _]|[[_ [= ->]]|(_ & _ & ? & ?)]]; done.
    - apply IH in Hr as (Hw2 & Hr2 & Hrest); [|by destruct Hw as (_ & _ & ->)].
      split; [by etrans|]. split; [exact Hr2|]. intros e He. etrans; [by eapply Hbr|].
      apply (Hrest e). destruct Hw as (_ & -> & _). exact He. }
  induction Hp as [|A c k Hc _ IH|A c k Hc _ IH]; intros s r s' Hl Hr.
  - by apply ret_inv in Hr as [-> ->].
  - apply Hstep in Hr; try done. intros ? ? ? _. by apply statements_call.
  - apply Hstep in Hr; try done. intros ? ? ?. by apply transaction_call.
Qed.

(** The test begins: the lock is free, and the transaction is there or broken. *)
Lemma test_begins fc s r s' :
  ts_locked s = false -> Test fc s = (r, s') ->
  exists z db s4, tx_begin (w_db (ts_world s)) = (z, db) /\
    s4 = mkTest _ (set_db db (ts_world s))
      (Some match z with inr _ => Begun | inl d => Broken (EDriver d) end) false /\
    (fc ;; Lock ;; s <- get ;;
     (match ts_tx s with
      | Some Begun => attempt (in_world (on_db tx_rollback)) ;; ret tt
      | Some (Broken _) => ret tt
      | None => throw (Failed EPanic)
      end) ;; set_tx None ;; Unlock) s4 = (r, s').
Proof.
  intros Hl Hr. unfold Test in Hr.
  apply bind_inv in Hr as [(e & Hk & _)|([] & s1 & Hk & Hr)];
    unfold Lock at 1, bind, get in Hk; rewrite Hl in Hk; [done|]. injection Hk as <-.
  apply bind_inv in Hr as [(e & (x & w & (? & ? & _)%attempt_inv & _ & ?)%in_world_inv & _)
                          |(b & s2 & Hb & Hr)]; [by subst|].
  apply in_world_inv in Hb as (x & w & (y & -> & Hbeg)%attempt_inv & -> & [= ->]).
  apply on_db_inv in Hbeg as (z & db & Hbeg & -> & ->).
  apply bind_inv in Hr as [(? & ? & _)|([] & s3 & [= <-] & Hr)]; [done|].
  apply bind_inv in Hr as [(? & ? & _)|([] & s4 & [= <-] & Hr)]; [done|]. cbn in Hr.
  do 3 eexists. split; [exact Hbeg|]. split; [reflexivity|]. destruct z; exact Hr.
Qed.

(** A test takes back everything it did. *)
Lemma test_restores fc s r s' :
  test_program fc -> ts_locked s = false -> Test fc s = (r, s') ->
  r <> inl Blocked /\
  (r = inr tt -> ts_rows s s' /\ ts_tx s' = None /\ ts_locked s' = false).
Proof.
  intros Hp Hl (z & db & s4 & Hbeg & Es4 & Hr)%test_begins; [|exact Hl].
  assert (ts_rows s s4) as Hr4 by (rewrite Es4; exact (begin_rows _ _ _ Hbeg)).
  apply bind_inv in Hr as [(e & Hf & ->)|([] & s5 & Hf & Hr)];
    apply program_run in Hf as ((Hb5 & Ht5 & Hl5) & Hx & Hbr); try (by rewrite ?Es4).
  rewrite Es4 in Ht5, Hl5. cbn in Ht5, Hl5.
  apply bind_inv in Hr as [(e & Hk & _)|([] & s6 & Hk & Hr)];
    unfold Lock, bind, get in Hk; rewrite Hl5 in Hk; [done|]. injection Hk as <-.
  unfold bind, get in Hr. cbn in Hr. rewrite Ht5 in Hr. destruct z as [e|[]].
  - injection Hr as <- <-. split; [done|]. intros _. split; [|done].
    etrans; [exact Hr4|]. apply (Hbr (EDriver e)). by rewrite Es4.
  - unfold attempt, in_world, on_db in Hr. cbn in Hr.
    destruct (tx_rollback _) as [q db6] eqn:Erb.
    pose proof (rollback_rows _ _ _ Erb) as Hback.
    assert (r = inr tt /\ s' = mkTest _ (set_db db6 (ts_world s5)) None false) as [-> ->]
      by (destruct q; cbn in Hr; by injection Hr as <- <-).
    split; [done|]. intros _. split; [|done]. intros t. unfold R. cbn.
    rewrite Hback, Hb5, Es4. cbn. apply (begin_ok _ _ Hbeg).
Qed.

(** C39. The test mode.  A test of statements and transactions never waits for ever,
    and when it returns every row is as before it, the transaction is gone and the
    lock is free, whatever the test did.  A transaction in a test is all or nothing:
    its rows are those its body made, or it failed and they are those before, unless
    the body failed and the database refused to go back to the savepoint this very
    transaction had set; in a database that can go back to its latest savepoint
    there is no such exception.  Either way the test goes on.  Before a test is
    started a transaction is an error.  A transaction inside a transaction waits
    for ever. *)
Theorem test_mode_spec {A} (c : Act A) (s : TestState) :
  Preserves statement_frame c ->
  (forall fc r s', test_program fc -> ts_locked s = false -> Test fc s = (r, s') ->
     r <> inl Blocked /\
     (r = inr tt -> ts_rows s s' /\ ts_tx s' = None /\ ts_locked s' = false)) /\
  (forall r s', ts_tx s = Some Begun -> ts_locked s = false ->
     TestTransaction (on_tx c) s = (r, s') ->
     within s s' /\ block_of c s r s' /\ (goes_back -> all_or_nothing c s r s')) /\
  (ts_tx s = None -> ts_locked s = false ->
     (TestTransaction (on_tx c) s).1 = inl (Failed (ENew "test transaction is not started"))) /\
  (forall B (fc : M TestState test_end B), ts_locked s = true ->
     TestTransaction fc s = (inl Blocked, s)).
Proof.
  intros Hc. split; [|split; [|split]].
  - intros fc r s'. apply test_restores.
  - intros r s' Ht Hl Hr. apply block_run in Hr as [? Hb]; [|done..]. rewrite Ht in Hb.
    split; [done|]. split; [exact Hb|]. intros Hgo.
    destruct Hb as [Hb|(n & db & w0 & e & w1 & snap & l & d & _ & _ & _ & _ & Hs & Hd)];
      [exact Hb|].
    destruct (Hgo _ _ _ _ Hs) as [db' Hdb']. congruence.
  - intros Ht Hl. destruct (TestTransaction (on_tx c) s) as [r s'] eqn:E.
    apply block_run in E as [_ Hb]; [|done..]. rewrite Ht in Hb. by destruct Hb as [-> _].
  - intros B fc Hl. unfold TestTransaction, Lock, bind, get. by rewrite Hl.
Qed.
End facts.

(** ** Savepoints of the reference backend, and a test that empties a table *)
#[local] Existing Instances mem_backend mem_backend_laws.

Definition sane_save (x : string * tables) : string * tables :=
  (x.1, fun t => sane t (x.2 t)).

(** From the savepoint with the name on. *)
Fixpoint from_save (n : string) (l : list (string * tables)) : list (string * tables) :=
  match l with
  | [] => []
  | x :: l' => if (x.1 =? n)%string then l else from_save n l'
  end.

#[local] Instance mem_savepoints : Savepoints := {
  saves db := map sane_save (md_saves db);
  sp_save n db := (inr tt, MemDB (md_cur db) (md_base db) ((n, md_cur db) :: md_saves db));
  sp_rollback n db :=
    match from_save n (md_saves db) with
    | [] => (inl violation, db)
    | x :: l => (inr tt, MemDB x.2 (md_base db) (x :: l))
    end;
  sp_release n db :=
    match from_save n (md_saves db) with
    | [] => (inl violation, db)
    | _ :: l => (inr tt, MemDB (md_cur db) (md_base db) l)
    end
}.

Lemma from_save_head n f l (db : mem_db) :
  map sane_save (md_saves db) = (n, f) :: l ->
  exists x l', from_save n (md_saves db) = x :: l' /\ md_saves db = x :: l' /\
    sane_save x = (n, f) /\ map sane_save l' = l.
Proof.
  destruct (md_saves db) as [|x l'] eqn:E; [done|]. intros [= Hn Hf Hl].
  exists x, l'. cbn. rewrite Hn, String.eqb_refl. split_and!; try done.
  unfold sane_save. by rewrite Hn, Hf.
Qed.

#[local] Instance mem_savepoint_laws : SavepointLaws.
Proof.
  constructor; cbn.
  - intros n db db' [= <-]. split; [done|]. split; [done|]. by eexists.
  - done.
  - intros n db db' Hr. split.
    + destruct (from_save n (md_saves db)); [done|by injection Hr as <-].
    + intros f l (x & l' & Hx & Hs & Hsn & _)%from_save_head. rewrite Hx in Hr.
      injection Hr as <-. cbn. rewrite Hs. split; [done|]. intros t.
      by injection Hsn as _ <-.
  - intros n db e db'. destruct (from_save n (md_saves db)); [|done]. by intros [= _ <-].
  - intros n db db' Hr. destruct (from_save n (md_saves db)) as [|x l0] eqn:E; [done|].
    injection Hr as <-. split; [done|]. split; [done|].
    intros f l (x' & l' & Hx & _ & _ & <-)%from_save_head. cbn. congruence.
  - intros n db e db'. destruct (from_save n (md_saves db)); [|done]. by intros [= _ <-].
Qed.

Lemma mem_goes_back : goes_back.
Proof.
  intros n f l db (x & l' & Hx & _ & _ & _)%from_save_head. cbn. rewrite Hx. by eexists.
Qed.

Definition t_clear : Act Z := on_db (sql_delete TUserGroup (fun _ => true)).

#[local] Instance t_clear_frame : Preserves statement_frame t_clear.
Proof.
  intros w r w' (x & db & Hx & -> & _)%on_db_inv. cbn in Hx. split.
  - intros t. by eapply mem_put_base.
  - unfold mem_put in Hx. by destruct (rows_ok _ _); injection Hx as _ <-.
Qed.

Definition t_test : M TestState test_end unit :=
  x <- go_call (TestTransaction (on_tx t_clear)) ;; ret tt.
Definition t_idle : TestState := mkTest _ s_world None false.
Definition t_begun : TestState := mkTest _ s_world (Some Begun) false.

Lemma t_test_program : test_program t_test.
Proof.
  unfold t_test.
  refine (Program_transaction t_clear (fun _ => ret tt) t_clear_frame _).
  intros _. apply Program_done.
Qed.

(** The runs the example looks at. *)
Lemma t_runs :
  (Test t_test t_idle).1 = inr tt /\
  (TestTransaction (on_tx t_clear) t_begun).1 = inr 3 /\
  (TestTransaction (TestTransaction (on_tx t_clear)) t_begun).1 = inl Blocked.
Proof. split_and!; vm_compute; reflexivity. Qed.

Lemma run_pair {S E A} (c : M S E A) s : exists r s', c s = (r, s') /\ (fst (c s) = r).
Proof. destruct (c s) as [r s']. by exists r, s'. Qed.

Lemma test_mode_spec_witness :
  (exists s, Test t_test t_idle = (inr tt, s) /\ ts_rows t_idle s) /\
  (exists s, TestTransaction (on_tx t_clear) t_begun = (inr 3, s) /\ within t_begun s /\
     all_or_nothing t_clear t_begun (inr 3) s) /\
  (TestTransaction (on_tx t_clear) t_idle).1 =
    inl (Failed (ENew "test transaction is not started")) /\
  (TestTransaction (TestTransaction (on_tx t_clear)) t_begun).1 = inl Blocked.
Proof.
  destruct t_runs as (H1 & H2 & H3).
  destruct (test_mode_spec t_clear t_idle t_clear_frame) as (Htest & _ & Hidle & _).
  destruct (test_mode_spec t_clear t_begun t_clear_frame) as (_ & Hblock & _ & _).
  split; [|split; [|split]].
  - destruct (run_pair (Test t_test) t_idle) as (r & s' & Hr & Er).
    rewrite H1 in Er. subst r. exists s'. split; [exact Hr|].
    destruct (Htest t_test (inr tt) s' t_test_program eq_refl Hr) as [_ Hok].
    destruct (Hok eq_refl) as [Hrows _]. exact Hrows.
  - destruct (run_pair (TestTransaction (on_tx t_clear)) t_begun) as (r & s' & Hr & Er).
    rewrite H2 in Er. subst r. exists s'. split; [exact Hr|].
    destruct (Hblock (inr 3) s' eq_refl eq_refl Hr) as (Hw & _ & Hall).
    split; [exact Hw|]. exact (Hall mem_goes_back).
  - exact (Hidle eq_refl eq_refl).
  - exact H3.
Defined.
