(* ===== verification/Registerd.v ===== *)
(** * The registration daemon (common/cmd/registerd/registerd.go)

    A process that registers a foreign service under the name, version, port and
    metadata of its environment.  go-micro's server and registries are parameters,
    and so is the number of a server; [OsExiter] is [os.Exit]. *)

From stdpp Require Import base tactics list strings gmap.
From Stdlib Require Import ZArith Lia Ascii.
From S2P Require Import Prelude GoStd Errors.
#[local] Open Scope Z_scope.
#[local] Open Scope go_scope.

(** What is registered. *)
Record RegService := mkRegService {
  Name : string;
  Version : string;
  AdvertisePort : string;
  Metadata : gmap string string
}.

(** A server as go-micro runs it: its number, the address it tells, its service. *)
Record Served (Reg : Type) := mkServed {
  sd_id : string;
  sd_advertise : string;
  sd_metadata : gmap string string;
  sd_name : string;
  sd_version : string;
  sd_registry : Reg
}.
Arguments mkServed {Reg}.
Arguments sd_id {Reg}.
Arguments sd_advertise {Reg}.
Arguments sd_metadata {Reg}.
Arguments sd_name {Reg}.
Arguments sd_version {Reg}.
Arguments sd_registry {Reg}.

(** The default registry of the process, and the servers that ran. *)
Record RegState (Reg : Type) := mkRegState {
  rg_default : Reg;
  rg_served : list (Served Reg)
}.
Arguments mkRegState {Reg}.
Arguments rg_default {Reg}.
Arguments rg_served {Reg}.

(** [parseMetadata] *)
Definition parse_item (md : gmap string string) (item : string) : gmap string string :=
  match Strings.Split item "="%char with
  | [k; v] => <[k := v]> md
  | _ => md
  end.
Definition parseMetadata (s : string) : gmap string string :=
  if (s =? "")%string then ∅
  else foldl parse_item ∅ (Strings.Split s ","%char).

Section registerd.
Context {Reg : Type}.
Variable DefaultRegistries : string -> option Reg.
Variable new_uuid : string.
(** [micro.NewService(...).Run()]: it returns when the process is stopped. *)
Variable run : Served Reg -> option err.
(** [os.LookupEnv] *)
Variable env : string -> option string.

(** A run ends early with the exit code. *)
Abbreviation RegAct := (M (RegState Reg) Z).

Definition OsExiter {A} (code : Z) : RegAct A := throw code.

(** [getEnv]; [logger.Errorf] only writes. *)
Definition getEnv (key : string) (required : bool) : RegAct string :=
  match env key with
  | Some v => ret v
  | None => if required then OsExiter 1 else ret ""%string
  end.

(** [Register] *)
Definition set_default (r : Reg) : RegAct unit := modify (fun s =>
  mkRegState r (rg_served s)).
Definition run_server (s : RegService) : RegAct (option err) :=
  st <- get ;;
  let srv := mkServed new_uuid (String.append ":" (AdvertisePort s)) (Metadata s)
               (Name s) (Version s) (rg_default st) in
  modify (fun st => mkRegState (rg_default st) (rg_served st ++ [srv])) ;;
  ret (run srv).
Definition Register (s : RegService) : RegAct (option err) :=
  let registryName := default ""%string (Metadata s !! "MICRO_REGISTRY"%string) in
  if (registryName =? "")%string then run_server s
  else match DefaultRegistries registryName with
       | None => ret (Some (ENew "invalid registry name"))
       | Some r => set_default r ;; run_server s
       end.

Definition registerd_main : RegAct unit :=
  text <- getEnv "CDM_SERVICE_METADATA" false ;;
  let md := parseMetadata text in
  solution <- getEnv "CDM_SOLUTION_NAME" true ;;
  let md := <["CDM_SOLUTION_NAME"%string := solution]> md in
  description <- getEnv "CDM_SERVICE_DESCRIPTION" true ;;
  let md := <["CDM_SERVICE_DESCRIPTION"%string := description]> md in
  registry <- getEnv "MICRO_REGISTRY" false ;;
  let md := <["MICRO_REGISTRY"%string := registry]> md in
  name <- getEnv "CDM_SERVICE_NAME" true ;;
  version <- getEnv "CDM_SERVICE_VERSION" true ;;
  port <- getEnv "CDM_SERVICE_ADVERTISE_PORT" true ;;
  failed <- Register (mkRegService name version port md) ;;
  match failed with Some _ => OsExiter 1 | None => ret tt end.
End registerd.

(** ** The text of metadata *)

(** The item sets the key to the value: it is [k=v] with one equals sign. *)
Definition sets (item k v : string) : Prop :=
  item = String.append k (String "="%char v) /\
  Strings.contains "="%char k = false /\ Strings.contains "="%char v = false.

(** The last item that sets the key sets it to the value. *)
Definition last_sets (items : list string) (k v : string) : Prop :=
  exists before item after, items = before ++ item :: after /\ sets item k v /\
    forall i v', i ∈ after -> ~ sets i k v'.

(** Splitting a text gives the parts it is joined of. *)
Lemma Split_parts sep s :
  String.concat (String sep EmptyString) (Strings.Split s sep) = s /\
  Forall (fun i => Strings.contains sep i = false) (Strings.Split s sep).
Proof.
  induction s as [|a s [IH1 IH2]]; [by repeat constructor|]. cbn [Strings.Split].
  destruct (Ascii.eqb_spec a sep) as [->|Hne].
  - split; [|by constructor].
    destruct (Strings.Split s sep) as [|f fs] eqn:E; [by subst s|].
    change (String sep (String.concat (String sep EmptyString) (f :: fs)) = String sep s).
    by rewrite IH1.
  - destruct (Strings.Split s sep) as [|f fs].
    + rewrite <- IH1. split; [done|]. constructor; [|done]. cbn.
      by apply Ascii.eqb_neq in Hne as ->.
    + inversion_clear IH2 as [|? ? Hf Hfs]. split.
      * rewrite <- IH1. by destruct fs.
      * constructor; [|done]. cbn. apply Ascii.eqb_neq in Hne as ->. exact Hf.
Qed.

Lemma sets_Split item k v : sets item k v <-> Strings.Split item "="%char = [k; v].
Proof.
  split; [intros (-> & Hk & Hv); by apply Strings.Split_two|].
  intros E. destruct (Split_parts "="%char item) as [Hc Hf]. rewrite E in Hc, Hf.
  inversion_clear Hf as [|? ? Hk Hv]. inversion_clear Hv as [|? ? Hv' _].
  by split; [rewrite <- Hc|].
Qed.

Lemma parse_item_lookup md item k v :
  parse_item md item !! k = Some v <->
  sets item k v \/ ((forall v', ~ sets item k v') /\ md !! k = Some v).
Proof.
  setoid_rewrite sets_Split. unfold parse_item.
  destruct (Strings.Split item "="%char) as [|k1 [|v1 [|]]]; try naive_solver.
  rewrite lookup_insert_Some. naive_solver.
Qed.

Lemma parse_items_lookup items md k v :
  foldl parse_item md items !! k = Some v <->
  last_sets items k v \/ ((forall i v', i ∈ items -> ~ sets i k v') /\ md !! k = Some v).
Proof.
  revert md. induction items as [|i items IH]; intros md; cbn [foldl].
  - split; [right; split; [by intros ? ? ?%elem_of_nil|done]|].
    by intros [(l & ? & ? & E & _)|[_ ?]]; [destruct l|].
  - rewrite IH, parse_item_lookup. split.
    + intros [(l & x & l' & -> & Hx & Hl)|[Hno [Hi|[Hi Hmd]]]].
      * left. by exists (i :: l), x, l'.
      * left. by exists [], i, items.
      * right. split; [|done]. intros j v' [->|Hj]%elem_of_cons; auto.
    + intros [(l & x & l' & E & Hx & Hl)|[Hno Hmd]].
      * destruct l as [|y l]; injection E as -> ->; [right; auto|left].
        by exists l, x, l'.
      * right. split; [intros j v' Hj; apply Hno; by right|]. right.
        split; [intros v'; apply Hno; by left|done].
Qed.

(** What a text of metadata says: the last item that sets a key counts, and
    what is no [k=v] is not looked at. *)
Lemma parseMetadata_lookup text k v :
  parseMetadata text !! k = Some v <-> last_sets (Strings.Split text ","%char) k v.
Proof.
  unfold parseMetadata. destruct (String.eqb_spec text "") as [->|_].
  - rewrite lookup_empty. split; [done|]. intros (l & x & l' & E & (-> & _) & _).
    destruct l as [|? [|]]; [|done..]. injection E as E _. by destruct k.
  - rewrite parse_items_lookup, lookup_empty. naive_solver.
Qed.

(** ** What the daemon registers *)
Section main.
Context {Reg : Type}.
Variable DefaultRegistries : string -> option Reg.
Variable new_uuid : string.
Variable run : Served Reg -> option err.

Definition required : list string :=
  ["CDM_SOLUTION_NAME"; "CDM_SERVICE_DESCRIPTION"; "CDM_SERVICE_NAME";
   "CDM_SERVICE_VERSION"; "CDM_SERVICE_ADVERTISE_PORT"]%string.

(** The registry the variable names; without it the default one. *)
Definition registry_named (name : string) (st : RegState Reg) : option Reg :=
  if (name =? "")%string then Some (rg_default st) else DefaultRegistries name.

(** The metadata of the service: what has a variable of its own, then the text. *)
Definition registered (md : gmap string string) (items : list string)
    (solution description registry : string) : Prop :=
  md !! "MICRO_REGISTRY"%string = Some registry /\
  md !! "CDM_SERVICE_DESCRIPTION"%string = Some description /\
  md !! "CDM_SOLUTION_NAME"%string = Some solution /\
  forall k v, k <> "MICRO_REGISTRY"%string -> k <> "CDM_SERVICE_DESCRIPTION"%string ->
    k <> "CDM_SOLUTION_NAME"%string -> md !! k = Some v <-> last_sets items k v.

Lemma missing_exits env st key :
  key ∈ required -> env key = None ->
  registerd_main DefaultRegistries new_uuid run env st = (inl 1, st).
Proof.
  intros Hk Hn. unfold registerd_main, getEnv, bind, ret, OsExiter, throw.
  destruct (env "CDM_SERVICE_METADATA"%string); cbn [fst snd];
    destruct (env "CDM_SOLUTION_NAME"%string) eqn:E1; try reflexivity;
    destruct (env "CDM_SERVICE_DESCRIPTION"%string) eqn:E2; try reflexivity;
    destruct (env "MICRO_REGISTRY"%string);
    destruct (env "CDM_SERVICE_NAME"%string) eqn:E3; try reflexivity;
    destruct (env "CDM_SERVICE_VERSION"%string) eqn:E4; try reflexivity;
    destruct (env "CDM_SERVICE_ADVERTISE_PORT"%string) eqn:E5; try reflexivity;
    unfold required in Hk; repeat (apply elem_of_cons in Hk as [->|Hk]; [congruence|]);
    by apply elem_of_nil in Hk.
Qed.

Lemma getEnv_run env key needed (st : RegState Reg) :
  (needed = true -> env key <> None) ->
  getEnv env key needed st = (inr (default ""%string (env key)), st).
Proof.
  intros Hn. unfold getEnv. destruct (env key); [done|].
  destruct needed; [by destruct Hn|done].
Qed.

Lemma Register_run name version port md st :
  Register DefaultRegistries new_uuid run (mkRegService name version port md) st =
  match registry_named (default ""%string (md !! "MICRO_REGISTRY"%string)) st with
  | None => (inr (Some (ENew "invalid registry name")), st)
  | Some r =>
      let srv := mkServed new_uuid (String.append ":" port) md name version r in
      (inr (run srv), mkRegState r (rg_served st ++ [srv]))
  end.
Proof.
  unfold Register, registry_named. cbn [Metadata].
  destruct (_ =? "")%string; [by destruct st|]. by destruct (DefaultRegistries _).
Qed.

(** C40. The registration daemon.  When a required variable is missing the process
    exits with 1 and nothing is registered.  Otherwise exactly one server runs: at
    the named registry, or at the default one when none is named, with the name,
    version and port of the environment.  Its metadata are the solution, the
    description and the registry of the environment, and for any other key what
    the last item of the form key=value (with one equals sign) among the items of
    the metadata text, which commas separate, says; other items, whatever they
    are, are ignored.  An unknown registry, or a server that fails, is an exit
    with 1. *)
Theorem registerd_main_spec env st :
  (forall key, key ∈ required -> env key = None ->
     registerd_main DefaultRegistries new_uuid run env st = (inl 1, st)) /\
  (forall solution description name version port,
     map env required = map Some [solution; description; name; version; port] ->
     let text := default ""%string (env "CDM_SERVICE_METADATA"%string) in
     let registry := default ""%string (env "MICRO_REGISTRY"%string) in
     exists items md,
       text = String.concat "," items /\
       Forall (fun i => Strings.contains ","%char i = false) items /\
       registered md items solution description registry /\
       registerd_main DefaultRegistries new_uuid run env st =
       match registry_named registry st with
       | None => (inl 1, st)
       | Some r =>
           let srv := mkServed new_uuid (String.append ":" port) md name version r in
           (match run srv with Some _ => inl 1 | None => inr tt end,
            mkRegState r (rg_served st ++ [srv]))
       end).
Proof.
  split; [intros key; apply missing_exits|].
  intros solution description name version port [= H1 H2 H3 H4 H5] text registry.
  destruct (Split_parts ","%char text) as [Htext Hitems].
  exists (Strings.Split text ","%char),
    (<["MICRO_REGISTRY"%string := registry]>
      (<["CDM_SERVICE_DESCRIPTION"%string := description]>
        (<["CDM_SOLUTION_NAME"%string := solution]> (parseMetadata text)))).
  split; [done|]. split; [done|]. split.
  { split_and!; [by simplify_map_eq..|]. intros k v Hk1 Hk2 Hk3.
    rewrite !lookup_insert_ne by congruence. apply parseMetadata_lookup. }
  unfold registerd_main.
  erewrite bind_run by (by apply getEnv_run). fold text.
  do 2 erewrite bind_run by (by apply getEnv_run; rewrite ?H1, ?H2).
  erewrite bind_run by (by apply getEnv_run).
  do 3 erewrite bind_run by (by apply getEnv_run; rewrite ?H3, ?H4, ?H5).
  rewrite H1, H2, H3, H4, H5. unfold bind. rewrite Register_run.
  rewrite lookup_insert_eq. fold registry.
  change (default ""%string (Some registry)) with registry.
  destruct (registry_named registry st) as [r|]; [|done].
  cbn [from_option]. unfold id. cbn zeta. by destruct (run _).
Qed.
End main.

(** ** An example *)
Definition r_env (key : string) : option string :=
  list_to_map (M := gmap string string)
    [("CDM_SERVICE_METADATA", "zone=a,rack=7,c"); ("CDM_SOLUTION_NAME", "CDM-Cloud");
     ("CDM_SERVICE_DESCRIPTION", "a store"); ("CDM_SERVICE_NAME", "etcd");
     ("CDM_SERVICE_VERSION", "1.0"); ("CDM_SERVICE_ADVERTISE_PORT", "2379");
     ("MICRO_REGISTRY", "kubernetes")]%string !! key.

Definition r_registries (name : string) : option nat :=
  if (name =? "kubernetes")%string then Some 1%nat else None.

Lemma registerd_main_spec_witness :
  exists items srv,
    registerd_main r_registries "u-1" (fun _ => None) r_env (mkRegState 0%nat []) =
    (inr tt, mkRegState 1%nat [srv]) /\
  registered (sd_metadata srv) items "CDM-Cloud" "a store" "kubernetes" /\
  "zone=a,rack=7,c"%string = String.concat "," items.
Proof.
  destruct (registerd_main_spec r_registries "u-1" (fun _ => None) r_env
    (mkRegState 0%nat [])) as [_ H].
  destruct (H "CDM-Cloud"%string "a store"%string "etcd"%string "1.0"%string
    "2379"%string) as (items & md & Htext & _ & Hmd & Hrun);
    [vm_compute; reflexivity|].
  exists items. eexists. split; [etrans; [exact Hrun|]; reflexivity|].
  split; [exact Hmd|]. exact Htext.
Defined.
